(* ===== verification/_CoqProject ===== *)
-Q . S2P
Prelude.v
Utils.v
ListHead.v
SkBuff.v
Timer.v
CoreProps.v
TcpTypes.v
TcpBase.v
TcpOutput.v
TcpSender.v
TcpData.v
TcpInput.v
TcpAck.v
TcpReasm.v
TcpApi.v
TcpWire.v
TcpState.v
Ipv6.v
Net.v
Neigh.v
IpOut.v
Frame.v
TcpFrame.v
TcpResend.v
TcpOwner.v
World.v
TcpWidth.v
Udp.v
SocketApi.v
Addrconf.v
IpIn.v
Stack.v
Ipc.v
Client.v
Preload.v
IpcWire.v
WorldFacts.v
WorldCalls.v
UdpWire.v
TcpDeliver.v
Passive.v
TcpControl.v
Handshake.v
TcpOpen.v
IpcFacts.v
Sha256.v
CurlVerify.v
Host.v
Apps.v
Fixture.v
Scenario.v
TcpProps.v
NetProps.v
WorldProps.v
EndProps.v
IpcProps.v
AppProps.v
