(* ===== verification/Prelude.v ===== *)
(** * A verification development for level-ip

    level-ip is a TCP/IP stack in user space.  One process owns a TAP device; a
    receiving thread reads Ethernet frames from it, a timer thread runs callbacks,
    and user processes reach the stack through a UNIX socket (a preloaded library on
    their side, [src/src/ipc.c] on the stack's side).

    ** The program's parts and the files that model them

    Building blocks.
    - [Prelude]: C integers as [Z] with their wrap-around written out ([u8] .. [u64],
      [s32]), byte memory as lists with loads and stores, tactics, hints.
    - [Utils]: [src/src/utils.c], the Internet checksum and the hexadecimal dump.
    - [ListHead]: [src/include/list.h] over a heap of nodes with two pointers each.
    - [SkBuff]: [src/src/skbuff.c].  A buffer is its bytes and the offsets of its
      pointers; a queue is the list of its buffers and the counter the code keeps.
    - [Timer]: [src/src/timer.c].  The armed timers in insertion order and the clock.

    One TCP connection.
    - [TcpTypes]: the records [sock], [tcp_sock], [tcb], the states, the header.
      [st] is one connection with its socket and what all connections share ([env]:
      timers, clock, allocation).  The IP layer below is the class [IpLayer] with its
      laws [IpLayerLaws]; [IpOut] is the instance.
    - [TcpBase], [TcpOutput], [TcpData], [TcpInput], [TcpApi]: [src/src/tcp.c],
      [tcp_output.c], [tcp_data.c], [tcp_input.c].  A function of the code that may
      sleep returns a [res], in which what is left to do when the thread wakes is
      data ([after]), so that other steps can run in between.
    - [TcpSender], [TcpAck], [TcpReasm], [TcpWire], [TcpState], [TcpOwner]: the
      invariants and lemmas about them.

    Below TCP.
    - [Ipv6]: addresses, their text, extension headers.  [Net]: devices and routes.
      [Neigh]: ARP, the neighbour cache, next-hop output.  [IpOut]: IP output.
      [Frame]: a segment from [tcp_transmit_skb] to the frame on the wire.
    - [TcpFrame]: the frames [tcp_send] puts on the wire.  [TcpResend]: a connection
      whose peer is silent, timeout by timeout.

    The whole stack.
    - [World]: the socket table of [src/src/socket.c], delivery of segments, the fork
      of a child socket by a listener.  [Udp]: [src/src/udp*.c].  [SocketApi]:
      [src/src/inet.c], [inet6.c] and the [_call] functions of [socket.c], with the
      threads that sleep in them as records of the state.  [Addrconf]:
      [src/src/ipv6_addrconf.c].  [IpIn]: [ip_input.c], [ipv6_input.c], [icmpv4.c],
      [icmpv6.c], NDP input, the receive path of [netdev.c].
    - [Stack]: the threads of [src/src/main.c] as steps of one state: a frame, a tick,
      a call, a wake-up, in any order ([wstep]).
    - [TcpWidth]: a check of the model itself: its arithmetic keeps the numbers of a
      connection within the C types of their fields, as C does by its types.
    - [WorldFacts], [WorldCalls], [UdpWire], [TcpDeliver], [Passive]: the lemmas about
      them.
    - [TcpControl], [Handshake], [TcpOpen]: the opening of a connection.  A segment
      without data from the block that sends it to the header the other stack reads; the
      step of each end for each of the three segments; the calls and frames of both
      stacks around them.

    Processes.
    - [Ipc]: [src/src/ipc.c] and [src/include/ipc.h], the server: the list of
      connections, the decoding of a request, the call it makes, the response, and the
      steps of the whole process with its connections ([ipc_step]).  A handler is its
      call and a continuation, because calls sleep.
    - [Client]: [src/tools/liblevelip.c], the preloaded library: the request of each
      function and what it makes of the response; [fcall] is the family of its functions
      that take a descriptor.  [Preload]: the same library as the process sees it: the
      list of its sockets, the connection to the stack that each socket opens,
      [__libc_start_main], and the system calls of every function, as steps of a process
      ([pstep]).
    - [IpcWire], [IpcFacts]: the lemmas about them.
    - [Sha256], [CurlVerify]: [src/apps/curl-verify], the client the repository tests
      its transfers with; [Sha256] also has the digest as FIPS 180-4 defines it.
      [Apps]: the other programs under [src/apps].  The results of their system calls
      are arguments.
    - [Host]: the process of the stack itself, [src/src/main.c], [cli.c],
      [tuntap_if.c], and other helpers of [utils.c], as a log of what it asks of the
      operating system.

    Concrete runs: [Fixture] (a booted stack with an open connection) and [Scenario]
    (a server, a client, UDP, duplicate address detection).

    ** What the theorems show

    - [EndProps]: a [connect] on one stack and a listener on another become the two ends
      of one connection after three frames, [connect] and [accept] return, and the ends
      meet the premises under which what one process writes is what a process on the
      other stack reads, over a network that loses, repeats and reorders frames; with a
      silent peer every timeout sends the oldest segment again, later each time, and
      the connection is given up at last and torn down.
    - [CoreProps]: the pointer lists refine lists; the history of a timer (at most one dispatch or release).
    - [TcpProps]: what is sent is the user's bytes, cut at the segment size, in order,
      within the windows, also when the sender slept in between; the sender's
      invariant survives every arriving segment; acknowledgements remove exactly what
      they cover; reassembly is independent of order, repetition and loss; reads
      return the stream; the state after each segment is that of a table, which is RFC
      793's but for resets, which lead to TIME-WAIT, and the end of LAST-ACK, which is
      left in TCP_CLOSING; stale retransmission timeouts do nothing; the RTT estimator, slow start,
      congestion avoidance and fast recovery; headers and options are read back as
      they were written; the option parser ends and stays in bounds.
    - [NetProps]: a segment's frame on the wire, longest-prefix match, ARP as a map,
      queued packets leave in order, textual addresses, extension headers in bounds.
    - [WorldProps]: the invariant of the socket table over all steps, isolation of
      processes, locks released, delivery of segments, the passive open, a UDP datagram
      from one stack to another and the length above which it overruns a stack, [poll]
      returns, error results, duplicate address detection, the option loops of NDP.
    - [IpcProps]: every function of the library but [getsockopt], which overruns its
      stack, sends one message that the server decodes to the call it stands for, and
      returns what the call returned; what becomes of a [write] that needs a second
      [read] of the server, for whatever that [read] returns; a call through the library
      has the effect of the call of the stack; the server's connections and
      sleeping threads stay in step and every late result goes to the connection that
      asked; whatever a process sends, a response matches its request; no two sockets of
      a process share a connection to the stack, and each function uses the connection of
      its socket only.
    - [AppProps]: the client's digest is SHA-256 however the data is cut; what a download
      stores and when it is accepted, however the response is cut into reads; when an
      upload counts as confirmed; the echo servers send back what they receive and close
      what they open; the stack starts in one order, with its capabilities dropped before
      its threads run.

    ** Fuel and bounds

    Loops that are not structural carry fuel at least as large as a measure of their
    input: the length of a queue for loops that remove an element each time, the
    number of option bytes for parsers, the number of bytes to send for [tcp_send].
    Termination theorems state that this fuel is enough; [tcp_send] with a segment
    size of zero is shown to exhaust every fuel, as the code does.

    ** Concurrency

    The code's threads hold a socket's lock from the start of a call or a segment to
    its end or its sleep; a step of the model is such a region.  The timer thread
    starts one thread per expired timer, which is a step of its own.

    ** Not modelled

    Debug output (but for the buffer [print_buffer_hexdump] writes to) and the texts the
    programs print about themselves, allocation failure, reading the time of day, and the
    operating system: what its calls return is an argument of [Host], [CurlVerify],
    [Apps] and [Preload].  The frames of a device are those handed to [write], whatever
    it returns.

    Behaviour that C leaves undefined (a null pointer, a buffer exceeded at either end,
    freed memory) is recorded as a fault ([FaultNull], [FaultBounds], [BufBounds],
    [StackBounds] and the like; [Crash] and [Overrun] in the library) where the code
    commits it.  The model goes on where the code has well-defined work left, but nothing
    is claimed of a real run after its first fault.  An array of variable length that is
    larger than the default stack of a thread is a fault.

    Of the server, creating and accepting on the UNIX socket is not modelled.  A request
    is what one [read] of the server returns, a response what one [read] of the library
    returns: the theorems that compose both sides are about messages that arrive in one
    piece. *)
From stdpp Require Export base numbers list gmap.

#[global] Open Scope Z_scope.

(** ** Machine integers

    Values of C integer types are kept in [Z]; every place where C wraps is
    written out with one of these functions. *)

Definition u8 (x : Z) : Z := x mod 256.
Definition u16 (x : Z) : Z := x mod 65536.
Definition u32 (x : Z) : Z := x mod 4294967296.
Definition u64 (x : Z) : Z := x mod 18446744073709551616.

(** Conversion to [int32_t] (two's complement). *)
Definition s32 (x : Z) : Z := (x + 2147483648) mod 4294967296 - 2147483648.

Definition is_u8 (x : Z) : Prop := 0 <= x < 256.
Definition is_u16 (x : Z) : Prop := 0 <= x < 65536.
Definition is_u32 (x : Z) : Prop := 0 <= x < 4294967296.

(** C truth values and the 0/1 integers used as flags. *)
Definition b2z (b : bool) : Z := if b then 1 else 0.

Ltac unfold_u := unfold u8, u16, u32, u64, s32, is_u8, is_u16, is_u32 in *.

(** [ulia]: linear arithmetic through the wrap-around functions. *)
Ltac ulia := unfold_u; Z.div_mod_to_equations; lia.

Lemma u8_range x : is_u8 (u8 x). Proof. unfold is_u8, u8. apply Z.mod_pos_bound. lia. Qed.
Lemma u16_range x : is_u16 (u16 x). Proof. unfold is_u16, u16. apply Z.mod_pos_bound. lia. Qed.
Lemma u32_range x : is_u32 (u32 x). Proof. unfold is_u32, u32. apply Z.mod_pos_bound. lia. Qed.

Lemma u8_id x : is_u8 x -> u8 x = x. Proof. apply Z.mod_small. Qed.
Lemma u16_id x : is_u16 x -> u16 x = x. Proof. apply Z.mod_small. Qed.
Lemma u32_id x : is_u32 x -> u32 x = x. Proof. apply Z.mod_small. Qed.

Lemma u32_idemp x : u32 (u32 x) = u32 x. Proof. apply u32_id, u32_range. Qed.
Lemma u16_idemp x : u16 (u16 x) = u16 x. Proof. apply u16_id, u16_range. Qed.

Lemma u32_add_l x y : u32 (u32 x + y) = u32 (x + y).
Proof. unfold u32. by rewrite Zplus_mod_idemp_l. Qed.
Lemma u32_add_r x y : u32 (x + u32 y) = u32 (x + y).
Proof. unfold u32. by rewrite Zplus_mod_idemp_r. Qed.

Create HintDb cint.
Create Rewrite HintDb cint.
#[export] Hint Resolve u8_range u16_range u32_range : cint.
#[export] Hint Rewrite u32_idemp u16_idemp u32_add_l u32_add_r : cint.

(** ** Byte memory

    A buffer is a list of bytes; a [uint16_t] or [uint32_t] field is loaded and
    stored little-endian, as on the x86 hosts the bit-field layouts of the
    headers assume.  A load outside the buffer yields 0 and a store outside it
    is dropped; the places where the code could do so are stated as theorems. *)

Definition ld8 (b : list Z) (o : nat) : Z := default 0 (b !! o).
Definition ld16 (b : list Z) (o : nat) : Z := ld8 b o + 256 * ld8 b (o + 1).
Definition ld32 (b : list Z) (o : nat) : Z := ld16 b o + 65536 * ld16 b (o + 2).

Definition st8 (b : list Z) (o : nat) (v : Z) : list Z := <[o := u8 v]> b.
Definition st16 (b : list Z) (o : nat) (v : Z) : list Z :=
  st8 (st8 b o v) (o + 1) (v / 256).
Definition st32 (b : list Z) (o : nat) (v : Z) : list Z :=
  st16 (st16 b o v) (o + 2) (v / 65536).

(** [memcpy] out of and into a buffer. *)
Definition ld_bytes (b : list Z) (o n : nat) : list Z := (fun i => ld8 b (o + i)) <$> seq 0 n.
Definition st_bytes (b : list Z) (o : nat) (bs : list Z) : list Z := list_inserts o bs b.

(** [htons]/[ntohs] and [htonl]/[ntohl] on a little-endian host. *)
Definition bswap16 (v : Z) : Z := 256 * (v mod 256) + (v / 256) mod 256.
Definition bswap32 (v : Z) : Z := 65536 * bswap16 (v mod 65536) + bswap16 (v / 65536).

Definition bytes_ok (b : list Z) : Prop := Forall is_u8 b.

Lemma ld8_lookup b o v : b !! o = Some v -> ld8 b o = v.
Proof. unfold ld8. by intros ->. Qed.

Lemma ld8_range b o : bytes_ok b -> is_u8 (ld8 b o).
Proof.
  intros Hb. unfold ld8. destruct (b !! o) eqn:E; simpl; [|ulia].
  eapply Forall_lookup_1 in Hb; eauto.
Qed.

Lemma ld16_range b o : bytes_ok b -> is_u16 (ld16 b o).
Proof.
  intros Hb. unfold ld16. pose proof (ld8_range b o Hb).
  pose proof (ld8_range b (o + 1) Hb). ulia.
Qed.

Lemma ld32_range b o : bytes_ok b -> is_u32 (ld32 b o).
Proof.
  intros Hb. unfold ld32. pose proof (ld16_range b o Hb).
  pose proof (ld16_range b (o + 2) Hb). ulia.
Qed.

Lemma length_st8 b o v : length (st8 b o v) = length b.
Proof. apply length_insert. Qed.
Lemma length_st16 b o v : length (st16 b o v) = length b.
Proof. unfold st16. by rewrite !length_st8. Qed.
Lemma length_st32 b o v : length (st32 b o v) = length b.
Proof. unfold st32. by rewrite !length_st16. Qed.
Lemma length_st_bytes b o bs : length (st_bytes b o bs) = length b.
Proof. apply length_inserts. Qed.
Lemma length_ld_bytes b o n : length (ld_bytes b o n) = n.
Proof. unfold ld_bytes. by rewrite length_fmap, length_seq. Qed.

Lemma st8_ok b o v : bytes_ok b -> bytes_ok (st8 b o v).
Proof. intros Hb. apply Forall_insert; [done|]. apply u8_range. Qed.
Lemma st16_ok b o v : bytes_ok b -> bytes_ok (st16 b o v).
Proof. intros. by apply st8_ok, st8_ok. Qed.
Lemma st32_ok b o v : bytes_ok b -> bytes_ok (st32 b o v).
Proof. intros. by apply st16_ok, st16_ok. Qed.
Lemma st_bytes_ok b o bs : bytes_ok b -> bytes_ok bs -> bytes_ok (st_bytes b o bs).
Proof.
  unfold st_bytes, bytes_ok. revert o. induction bs as [|x bs IH]; intros o Hb Hbs; simpl; [done|].
  apply Forall_cons in Hbs as [Hx Hbs]. apply Forall_insert; [by apply IH|done].
Qed.

Lemma ld8_st8_eq b o v : (o < length b)%nat -> ld8 (st8 b o v) o = u8 v.
Proof. intros. unfold ld8, st8. by rewrite list_lookup_insert_eq. Qed.
Lemma ld8_st8_ne b o o' v : o <> o' -> ld8 (st8 b o v) o' = ld8 b o'.
Proof. intros. unfold ld8, st8. by rewrite list_lookup_insert_ne. Qed.

Lemma ld8_st16_ne b o o' v : o' <> o -> o' <> (o + 1)%nat -> ld8 (st16 b o v) o' = ld8 b o'.
Proof. intros. unfold st16. by rewrite !ld8_st8_ne by congruence. Qed.
Lemma ld8_st32_ne b o o' v : (o' < o \/ o + 4 <= o')%nat -> ld8 (st32 b o v) o' = ld8 b o'.
Proof. intros. unfold st32. by rewrite !ld8_st16_ne by lia. Qed.

Lemma ld16_st16_eq b o v : (o + 1 < length b)%nat -> ld16 (st16 b o v) o = u16 v.
Proof.
  intros. unfold ld16, st16.
  rewrite (ld8_st8_ne _ (o + 1) o), (ld8_st8_eq _ (o + 1)), ld8_st8_eq
    by (rewrite ?length_st8; lia). ulia.
Qed.
Lemma ld16_st16_ne b o o' v : (o + 2 <= o' \/ o' + 2 <= o)%nat -> ld16 (st16 b o v) o' = ld16 b o'.
Proof. intros. unfold ld16. by rewrite !ld8_st16_ne by lia. Qed.
Lemma ld16_st32_ne b o o' v : (o + 4 <= o' \/ o' + 2 <= o)%nat -> ld16 (st32 b o v) o' = ld16 b o'.
Proof. intros. unfold ld16. by rewrite !ld8_st32_ne by lia. Qed.
Lemma ld16_st8_ne b o o' v : (o < o' \/ o' + 2 <= o)%nat -> ld16 (st8 b o v) o' = ld16 b o'.
Proof. intros. unfold ld16. by rewrite !ld8_st8_ne by lia. Qed.

Lemma ld32_st32_eq b o v : (o + 3 < length b)%nat -> ld32 (st32 b o v) o = u32 v.
Proof.
  intros. unfold ld32, st32.
  rewrite (ld16_st16_ne _ (o + 2) o), (ld16_st16_eq _ (o + 2)), ld16_st16_eq
    by (rewrite ?length_st16; lia). ulia.
Qed.
Lemma ld32_st32_ne b o o' v : (o + 4 <= o' \/ o' + 4 <= o)%nat -> ld32 (st32 b o v) o' = ld32 b o'.
Proof. intros. unfold ld32. by rewrite !ld16_st32_ne by lia. Qed.
Lemma ld32_st16_ne b o o' v : (o + 2 <= o' \/ o' + 4 <= o)%nat -> ld32 (st16 b o v) o' = ld32 b o'.
Proof. intros. unfold ld32. by rewrite !ld16_st16_ne by lia. Qed.
Lemma ld32_st8_ne b o o' v : (o < o' \/ o' + 4 <= o)%nat -> ld32 (st8 b o v) o' = ld32 b o'.
Proof. intros. unfold ld32. by rewrite !ld16_st8_ne by lia. Qed.

Lemma ld8_st_bytes_ne b o o' bs :
  (o' < o \/ o + length bs <= o')%nat -> ld8 (st_bytes b o bs) o' = ld8 b o'.
Proof.
  intros [H|H]; unfold ld8, st_bytes.
  - by rewrite list_lookup_inserts_lt.
  - by rewrite list_lookup_inserts_ge.
Qed.
Lemma ld8_st_bytes_eq b o i bs :
  (i < length bs)%nat -> (o + length bs <= length b)%nat ->
  ld8 (st_bytes b o bs) (o + i) = ld8 bs i.
Proof.
  intros. unfold ld8, st_bytes. rewrite list_lookup_inserts by lia.
  by replace (o + i - o)%nat with i by lia.
Qed.

Lemma ld_bytes_st_bytes b o bs :
  (o + length bs <= length b)%nat -> ld_bytes (st_bytes b o bs) o (length bs) = bs.
Proof.
  intros H. apply list_eq. intros i. unfold ld_bytes. rewrite list_lookup_fmap.
  destruct (decide (i < length bs)%nat) as [Hi|Hi].
  - rewrite lookup_seq_lt by done. simpl. rewrite ld8_st_bytes_eq by lia.
    destruct (lookup_lt_is_Some_2 bs i Hi) as [x Hx]. unfold ld8. by rewrite Hx.
  - rewrite lookup_seq_ge by lia. simpl. symmetry. apply lookup_ge_None. lia.
Qed.

Lemma ld_bytes_take b o n m : (n <= m)%nat -> take n (ld_bytes b o m) = ld_bytes b o n.
Proof.
  intros H. unfold ld_bytes. rewrite <- fmap_take. f_equal. rewrite take_seq. f_equal. lia.
Qed.

Lemma ld_bytes_drop b o n m : drop n (ld_bytes b o m) = ld_bytes b (o + n) (m - n).
Proof.
  unfold ld_bytes. rewrite <- fmap_drop, drop_seq.
  apply list_eq. intros i. rewrite !list_lookup_fmap. destruct (decide (i < m - n)%nat).
  - rewrite !lookup_seq_lt by lia. simpl. do 2 f_equal. lia.
  - by rewrite !lookup_seq_ge by lia.
Qed.

Lemma ld_bytes_app b o n m : ld_bytes b o (n + m) = ld_bytes b o n ++ ld_bytes b (o + n) m.
Proof.
  rewrite <- (take_drop n (ld_bytes b o (n + m))), ld_bytes_take, ld_bytes_drop by lia.
  by replace (n + m - n)%nat with m by lia.
Qed.

Lemma ld_bytes_ext a b o n : (forall i, (o <= i < o + n)%nat -> ld8 a i = ld8 b i) -> ld_bytes a o n = ld_bytes b o n.
Proof. intros E. unfold ld_bytes. apply list_fmap_ext. intros j i Hj. apply lookup_seq in Hj. apply E. lia. Qed.

Lemma ld_bytes_ok b o n : bytes_ok b -> bytes_ok (ld_bytes b o n).
Proof. intros Hb. apply Forall_fmap, Forall_forall. intros i _. by apply ld8_range. Qed.

Lemma ld_bytes_all b n : length b = n -> ld_bytes b 0 n = b.
Proof.
  intros <-. apply list_eq. intros i. unfold ld_bytes. rewrite list_lookup_fmap.
  destruct (decide (i < length b)%nat) as [Hi|Hi].
  - rewrite lookup_seq_lt by done. simpl. destruct (lookup_lt_is_Some_2 b i Hi) as [x Hx]. unfold ld8. by rewrite Hx.
  - rewrite lookup_seq_ge by lia. simpl. symmetry. apply lookup_ge_None. lia.
Qed.

Lemma lor_shift a n b : 0 <= n -> 0 <= b < 2 ^ n -> Z.lor (Z.shiftl a n) b = a * 2 ^ n + b.
Proof.
  intros Hn Hb. rewrite <- Z.add_nocarry_lor; [by rewrite Z.shiftl_mul_pow2|]. apply Z.bits_inj'. intros i Hi.
  rewrite Z.land_spec, Z.bits_0, Z.shiftl_spec by done. destruct (Z.lt_ge_cases i n); [by rewrite Z.testbit_neg_r by lia|].
  rewrite <- (Z.mod_small b (2 ^ n)) by done. by rewrite Z.mod_pow2_bits_high, andb_false_r by lia.
Qed.
Lemma bswap16_range v : is_u16 (bswap16 v).
Proof. unfold bswap16. ulia. Qed.
Lemma bswap16_invol v : is_u16 v -> bswap16 (bswap16 v) = v.
Proof. unfold bswap16. ulia. Qed.
Lemma bswap32_range v : is_u32 (bswap32 v).
Proof.
  unfold bswap32. pose proof (bswap16_range (v mod 65536)).
  pose proof (bswap16_range (v / 65536)). ulia.
Qed.
Lemma bswap32_invol v : is_u32 v -> bswap32 (bswap32 v) = v.
Proof.
  intros Hv. unfold bswap32.
  pose proof (bswap16_range (v mod 65536)) as Ha.
  pose proof (bswap16_range (v / 65536)) as Hb.
  assert (Hlo : (65536 * bswap16 (v mod 65536) + bswap16 (v / 65536)) mod 65536
                = bswap16 (v / 65536)) by ulia.
  assert (Hhi : (65536 * bswap16 (v mod 65536) + bswap16 (v / 65536)) / 65536
                = bswap16 (v mod 65536)) by ulia.
  rewrite Hlo, Hhi, !bswap16_invol by ulia. ulia.
Qed.

#[export] Hint Resolve st8_ok st16_ok st32_ok st_bytes_ok ld8_range ld16_range ld32_range
  bswap16_range bswap32_range : cint.
Create Rewrite HintDb mem.
#[export] Hint Rewrite length_st8 length_st16 length_st32 length_st_bytes length_ld_bytes : mem.

Lemma ld8_drop b o i : ld8 (drop o b) i = ld8 b (o + i).
Proof. unfold ld8. by rewrite lookup_drop. Qed.
Lemma ld16_drop b o i : ld16 (drop o b) i = ld16 b (o + i).
Proof. unfold ld16. rewrite !ld8_drop. do 2 f_equal. f_equal. lia. Qed.
Lemma ld32_drop b o i : ld32 (drop o b) i = ld32 b (o + i).
Proof. unfold ld32. rewrite !ld16_drop. do 2 f_equal. f_equal. lia. Qed.

(** Loads through stores to other, or the same, places. *)
Ltac mem_simpl :=
  repeat first
    [ rewrite ld16_st16_eq by (autorewrite with mem; lia) | rewrite ld32_st32_eq by (autorewrite with mem; lia)
    | rewrite ld8_st8_eq by (autorewrite with mem; lia)
    | rewrite ld16_st16_ne by lia | rewrite ld16_st32_ne by lia | rewrite ld16_st8_ne by lia
    | rewrite ld32_st32_ne by lia | rewrite ld32_st16_ne by lia | rewrite ld32_st8_ne by lia
    | rewrite ld8_st16_ne by lia | rewrite ld8_st32_ne by lia | rewrite ld8_st8_ne by lia ].

(** ** Lists *)

Lemma filter_all {A} (P : A -> Prop) `{forall x, Decision (P x)} (l : list A) :
  Forall P l -> filter P l = l.
Proof. induction 1; [done|]. rewrite filter_cons, decide_True by done. by f_equal. Qed.

Lemma filter_none {A} (P : A -> Prop) `{forall x, Decision (P x)} (l : list A) :
  Forall (fun x => ~ P x) l -> filter P l = [].
Proof. induction 1; [done|]. by rewrite filter_cons, decide_False by done. Qed.
