(* ===== verification/Utils.v ===== *)
(** Internet checksum and the small helpers of [src/src/utils.c].

    [sum_every_16bits] and [checksum] work on the bytes they are given; the
    reference definition is [word_sum], the unbounded sum of the little-endian
    16-bit words.  The theorems relate the two, show that the carry-folding loop
    ends, that a stored checksum verifies, and that a checksum computed in parts
    (as the TCP output path does) equals the checksum of the whole. *)
From S2P Require Import Prelude.

Module Utils.

(** [while (count > 1) { sum += *ptr++; count -= 2; }] and the left-over byte. *)
Fixpoint sum_loop (sum : Z) (l : list Z) : Z :=
  match l with
  | x :: y :: r => sum_loop (u32 (sum + (x + 256 * y))) r
  | [x] => u32 (sum + x)
  | [] => sum
  end.

Definition sum_every_16bits (l : list Z) : Z := sum_loop 0 l.

(** [while (sum>>16) sum = (sum & 0xffff) + (sum >> 16);] *)
Fixpoint csum_fold (fuel : nat) (sum : Z) : Z :=
  match fuel with
  | O => sum
  | S fuel =>
      if Z.shiftr sum 16 =? 0 then sum
      else csum_fold fuel (u32 (Z.land sum 65535 + Z.shiftr sum 16))
  end.

(** Three iterations always suffice for a 32-bit sum ([csum_fold_done]). *)
Definition fold_fuel : nat := 3.

Definition checksum (l : list Z) (start_sum : Z) : Z :=
  u16 (Z.lnot (csum_fold fold_fuel (u32 (u32 start_sum + sum_every_16bits l)))).

Definition min (x y : Z) : Z := if x >? y then y else x.
Definition max (x y : Z) : Z := if x >? y then x else y.

(** [struct sockaddr_in] as filled by [build_sockaddr_from_host_order]: family,
    port and address in network order, zero padding; 16 bytes. *)
Definition AF_INET : Z := 2.
Definition build_sockaddr_from_host_order (srcport srcaddr : Z) : list Z * Z :=
  (st32 (st16 (st16 (replicate 16 0) 0 AF_INET) 2 (bswap16 srcport)) 4 (bswap32 srcaddr), 16).

(** ** The reference sum *)

Fixpoint word_sum (l : list Z) : Z :=
  match l with
  | x :: y :: r => (x + 256 * y) + word_sum r
  | [x] => x
  | [] => 0
  end.

Lemma min_spec x y : min x y = Z.min x y.
Proof. unfold min. destruct (Z.gtb_spec x y); lia. Qed.
Lemma max_spec x y : max x y = Z.max x y.
Proof. unfold max. destruct (Z.gtb_spec x y); lia. Qed.

(** Induction two bytes at a time, as the summing loop consumes them. *)
Lemma list_pair_ind {A} (P : list A -> Prop) :
  P [] -> (forall x, P [x]) -> (forall x y l, P l -> P (x :: y :: l)) -> forall l, P l.
Proof.
  intros H0 H1 H2 l.
  cut (P l /\ forall x, P (x :: l)); [tauto|].
  induction l as [|a l [IH1 IH2]]; split; intros; auto.
Qed.

Lemma sum_loop_spec l : forall s, is_u32 s -> sum_loop s l = u32 (s + word_sum l).
Proof.
  induction l as [| x | x y l IH] using list_pair_ind; intros s Hs; simpl.
  - rewrite Z.add_0_r. by rewrite u32_id.
  - done.
  - rewrite IH by apply u32_range. autorewrite with cint. f_equal. lia.
Qed.

Lemma sum_every_16bits_spec l : sum_every_16bits l = u32 (word_sum l).
Proof. unfold sum_every_16bits. rewrite sum_loop_spec by ulia. done. Qed.

Lemma word_sum_app l1 l2 :
  Nat.even (length l1) = true -> word_sum (l1 ++ l2) = word_sum l1 + word_sum l2.
Proof.
  induction l1 as [| x | x y l IH] using list_pair_ind; simpl; intros H; try done.
  rewrite IH by done. lia.
Qed.

Lemma word_sum_bounds l :
  bytes_ok l -> 0 <= word_sum l <= 65535 * ((Z.of_nat (length l) + 1) / 2).
Proof.
  unfold bytes_ok.
  induction l as [| x | x y l IH] using list_pair_ind; intros Hb.
  - done.
  - apply Forall_cons in Hb as [Hx _]. cbn [word_sum length].
    change ((Z.of_nat 1 + 1) / 2) with 1. unfold is_u8 in *. lia.
  - apply Forall_cons in Hb as [Hx [Hy Hb]%Forall_cons]. specialize (IH Hb).
    cbn [word_sum length].
    replace (Z.of_nat (S (S (length l))) + 1) with ((Z.of_nat (length l) + 1) + 1 * 2) by lia.
    rewrite Z.div_add by lia. unfold is_u8 in *. lia.
Qed.

(** A buffer no longer than an IP datagram sums without 32-bit overflow. *)
Lemma word_sum_u32 l : bytes_ok l -> Z.of_nat (length l) <= 131070 -> 0 <= word_sum l <= 4294836225.
Proof.
  intros Hb Hl. pose proof (word_sum_bounds l Hb) as H.
  assert ((Z.of_nat (length l) + 1) / 2 <= 65535) by ulia. lia.
Qed.

(** ** The folding loop *)

Lemma shiftr16 s : Z.shiftr s 16 = s / 65536.
Proof. by rewrite Z.shiftr_div_pow2. Qed.
Lemma land16 s : Z.land s 65535 = s mod 65536.
Proof. change 65535 with (Z.ones 16). by rewrite Z.land_ones. Qed.

Lemma csum_step_mod s : 0 <= s -> (s mod 65536 + s / 65536) mod 65535 = s mod 65535.
Proof.
  intros. rewrite (Z.div_mod s 65536) at 3 by lia.
  replace (65536 * (s / 65536) + s mod 65536)
    with (s mod 65536 + s / 65536 + (s / 65536) * 65535) by lia.
  by rewrite Z.mod_add.
Qed.

(** The value the loop ends with: the residue mod 65535, with 65535 (not 0) for
    a non-zero multiple. *)
Definition fold_value (s : Z) : Z :=
  if s =? 0 then 0 else if s mod 65535 =? 0 then 65535 else s mod 65535.

Lemma csum_fold_small s : 0 <= s < 65536 -> fold_value s = s.
Proof.
  intros. unfold fold_value. destruct (Z.eqb_spec s 0); [lia|].
  destruct (Z.eqb_spec (s mod 65535) 0) as [E|E]; [|ulia].
  apply Z.mod_divide in E as [k Hk]; lia.
Qed.

Lemma fold_value_step s : 65536 <= s -> fold_value (s mod 65536 + s / 65536) = fold_value s.
Proof.
  intros. unfold fold_value. rewrite csum_step_mod by lia.
  destruct (Z.eqb_spec (s mod 65536 + s / 65536) 0); [ulia|].
  destruct (Z.eqb_spec s 0); [lia|done].
Qed.

Lemma csum_fold_spec s : is_u32 s -> csum_fold fold_fuel s = fold_value s.
Proof.
  intros Hs. unfold fold_fuel. cbn [csum_fold]. rewrite !shiftr16, !land16.
  assert (Hstep : forall t, is_u32 t -> u32 (t mod 65536 + t / 65536) = t mod 65536 + t / 65536)
    by (intros; ulia).
  destruct (Z.eqb_spec (s / 65536) 0); [symmetry; apply csum_fold_small; ulia|].
  rewrite !Hstep, ?shiftr16, ?land16 by ulia. set (s1 := s mod 65536 + s / 65536).
  rewrite <- (fold_value_step s) by ulia. fold s1.
  assert (0 <= s1 <= 131070) by (unfold s1; ulia).
  destruct (Z.eqb_spec (s1 / 65536) 0); [symmetry; apply csum_fold_small; ulia|].
  rewrite <- (fold_value_step s1) by ulia.
  assert (0 <= s1 mod 65536 + s1 / 65536 < 65536) by ulia.
  rewrite Z.div_small by lia. rewrite Z.eqb_refl. symmetry. by apply csum_fold_small.
Qed.

Lemma fold_value_range s : 0 <= s -> 0 <= fold_value s <= 65535.
Proof.
  intros. unfold fold_value. destruct (s =? 0); [lia|].
  destruct (s mod 65535 =? 0); ulia.
Qed.

Lemma lnot16 v : 0 <= v <= 65535 -> u16 (Z.lnot v) = 65535 - v.
Proof. intros. unfold Z.lnot. ulia. Qed.

Lemma checksum_value l start :
  checksum l start = 65535 - fold_value (u32 (start + word_sum l)).
Proof.
  unfold checksum. rewrite sum_every_16bits_spec. autorewrite with cint.
  rewrite csum_fold_spec by apply u32_range.
  apply lnot16, fold_value_range, u32_range.
Qed.

Lemma checksum_range l start : is_u16 (checksum l start).
Proof.
  rewrite checksum_value. pose proof (fold_value_range (u32 (start + word_sum l))
    (proj1 (u32_range _))). ulia.
Qed.

Lemma checksum_zero_iff l start :
  0 <= start + word_sum l < 4294967296 ->
  checksum l start = 0 <-> start + word_sum l <> 0 /\ (start + word_sum l) mod 65535 = 0.
Proof.
  intros H. rewrite checksum_value, u32_id by done. unfold fold_value.
  destruct (Z.eqb_spec (start + word_sum l) 0); [lia|].
  destruct (Z.eqb_spec ((start + word_sum l) mod 65535) 0); [lia|].
  split; [|tauto]. ulia.
Qed.

(** Summing in parts: the sum of one part is the start value for the next. *)
Lemma checksum_parts a b start :
  Nat.even (length a) = true ->
  checksum (a ++ b) start = checksum b (u32 (start + sum_every_16bits a)).
Proof.
  intros Ha. rewrite !checksum_value, sum_every_16bits_spec, word_sum_app by done.
  autorewrite with cint. by rewrite Z.add_assoc.
Qed.

(** Adding its complement to a sum makes it verify. *)
Lemma complement_verifies t cs :
  0 <= t -> cs = 65535 - fold_value t -> t + cs <> 0 /\ (t + cs) mod 65535 = 0.
Proof.
  intros Ht. unfold fold_value. destruct (Z.eqb_spec t 0); [intros ->; subst; done|].
  destruct (Z.eqb_spec (t mod 65535) 0); intros ->; split; ulia.
Qed.

(** Storing the checksum of a buffer into its (even-aligned, zeroed) checksum
    field makes the whole buffer verify. *)
Lemma checksum_verifies a c start :
  bytes_ok a -> bytes_ok c -> Nat.even (length a) = true -> 0 <= start ->
  start + word_sum a + word_sum c + 65535 < 4294967296 ->
  let cs := checksum (a ++ [0; 0] ++ c) start in
  checksum (a ++ [cs mod 256; cs / 256] ++ c) start = 0.
Proof.
  intros Ha Hc Hev Hst Hlen cs.
  pose proof (word_sum_bounds a Ha). pose proof (word_sum_bounds c Hc).
  assert (Hcs : cs = 65535 - fold_value (start + word_sum a + word_sum c)).
  { unfold cs. rewrite checksum_value, word_sum_app by done. cbn [app word_sum].
    rewrite u32_id by ulia. do 2 f_equal. lia. }
  pose proof (fold_value_range (start + word_sum a + word_sum c)) as Hf.
  assert (Hws : start + word_sum (a ++ [cs mod 256; cs / 256] ++ c)
                = start + word_sum a + word_sum c + cs).
  { rewrite word_sum_app by done. cbn [app word_sum]. ulia. }
  specialize (Hf ltac:(lia)).
  apply checksum_zero_iff; rewrite Hws; [lia|]. apply complement_verifies; [lia|done].
Qed.

(** The same, in place: bytes [o .. o + n) of a buffer with the checksum field at
    [o + k]. *)
Lemma word_sum_stored b o n k v :
  Nat.even k = true -> (k + 2 <= n)%nat -> (o + n <= length b)%nat ->
  ld8 b (o + k) = 0 -> ld8 b (o + k + 1) = 0 -> is_u16 v ->
  word_sum (ld_bytes (st16 b (o + k) v) o n) = word_sum (ld_bytes b o n) + v.
Proof.
  intros Hev Hk Hn Z0 Z1 Hv. replace n with (k + (2 + (n - k - 2)))%nat by lia.
  rewrite !ld_bytes_app. rewrite !word_sum_app by (autorewrite with mem; done).
  rewrite (ld_bytes_ext (st16 b (o + k) v) b o k) by (intros; apply ld8_st16_ne; lia).
  rewrite (ld_bytes_ext (st16 b (o + k) v) b (o + k + 2)) by (intros; apply ld8_st16_ne; lia).
  assert (E1 : word_sum (ld_bytes (st16 b (o + k) v) (o + k) 2) = ld16 (st16 b (o + k) v) (o + k)).
  { unfold ld_bytes, ld16. simpl. rewrite Nat.add_0_r. lia. }
  assert (E2 : word_sum (ld_bytes b (o + k) 2) = 0).
  { unfold ld_bytes. simpl. rewrite Nat.add_0_r, Z0, Z1. done. }
  rewrite E1, E2, ld16_st16_eq, u16_id by (done || lia). lia.
Qed.

Lemma checksum_stored b o n k start :
  bytes_ok b -> Nat.even k = true -> (k + 2 <= n)%nat -> (o + n <= length b)%nat ->
  ld8 b (o + k) = 0 -> ld8 b (o + k + 1) = 0 -> 0 <= start ->
  start + word_sum (ld_bytes b o n) + 65535 < 4294967296 ->
  checksum (ld_bytes (st16 b (o + k) (checksum (ld_bytes b o n) start)) o n) start = 0.
Proof.
  intros Hb Hev Hk Hn Z0 Z1 Hs Hl. pose proof (word_sum_bounds _ (ld_bytes_ok b o n Hb)) as W.
  pose proof (checksum_range (ld_bytes b o n) start) as R. set (cs := checksum _ start) in *.
  assert (Hcs : cs = 65535 - fold_value (start + word_sum (ld_bytes b o n)))
    by (unfold cs; rewrite checksum_value, u32_id; [done|red; lia]). clearbody cs. red in R.
  apply checksum_zero_iff; rewrite word_sum_stored by done; rewrite Z.add_assoc; [lia|].
  apply complement_verifies; [lia|done].
Qed.

(** The same with the sum taken in three parts, as the transport layers do: one
    part starts the checksum, another is pseudo-header, the last is the segment. *)
Lemma checksum_stored_parts b o n k addrs pseudo :
  bytes_ok b -> bytes_ok addrs -> bytes_ok pseudo ->
  Nat.even (length addrs) = true -> Nat.even (length pseudo) = true ->
  Nat.even k = true -> (k + 2 <= n)%nat -> (o + n <= length b)%nat ->
  ld8 b (o + k) = 0 -> ld8 b (o + k + 1) = 0 ->
  word_sum addrs + word_sum pseudo + word_sum (ld_bytes b o n) + 65535 < 4294967296 ->
  let cs := checksum addrs (u32 (sum_every_16bits pseudo + sum_every_16bits (ld_bytes b o n))) in
  checksum (addrs ++ pseudo ++ ld_bytes (st16 b (o + k) cs) o n) 0 = 0.
Proof.
  intros Hb Ha Hp Ea Ep Hev Hk Hn Z0 Z1 Hl cs. pose proof (word_sum_bounds _ (ld_bytes_ok b o n Hb)) as W.
  pose proof (word_sum_bounds _ Ha) as Wa. pose proof (word_sum_bounds _ Hp) as Wp.
  pose proof (checksum_range addrs (u32 (sum_every_16bits pseudo + sum_every_16bits (ld_bytes b o n)))) as R. fold cs in R.
  set (T := word_sum addrs + word_sum pseudo + word_sum (ld_bytes b o n)) in *.
  assert (Hcs : cs = 65535 - fold_value T).
  { unfold cs, T in *. rewrite checksum_value, !sum_every_16bits_spec, !(u32_id (word_sum _)) by (red; lia).
    rewrite u32_add_l, u32_id; [do 2 f_equal; lia|red; lia]. }
  clearbody cs. red in R.
  assert (E : 0 + word_sum (addrs ++ pseudo ++ ld_bytes (st16 b (o + k) cs) o n) = T + cs).
  { rewrite !word_sum_app, word_sum_stored by done. unfold T. lia. }
  apply checksum_zero_iff; rewrite E; [unfold T in *; lia|]. apply complement_verifies; [unfold T; lia|done].
Qed.

(** ** [print_buffer_hexdump] *)

Definition hexdump_digit (n : Z) : Z := if n <? 10 then 48 + n else 87 + n.
(** [snprintf] of "%02x " at [3 * i]; [None]: a write behind the 2048 bytes. *)
Fixpoint hexdump_loop (i : nat) (data buf : list Z) : option (list Z) :=
  match data with
  | [] => Some buf
  | x :: data =>
      if (length buf <? 3 * i + 4)%nat then None
      else hexdump_loop (S i) data (st_bytes buf (3 * i) [hexdump_digit (x / 16); hexdump_digit (x mod 16); 32; 0])
  end.
Definition print_buffer_hexdump (data : list Z) : option (list Z) := hexdump_loop 0 data (replicate (Z.to_nat 2048) 0).

Lemma hexdump_bounds data : forall i buf, is_Some (hexdump_loop i data buf) <-> (data = [] \/ 3 * (i + length data) + 1 <= length buf)%nat.
Proof.
  induction data as [|x data IH]; intros i buf; cbn [hexdump_loop length]; [split; [by left|by eexists]|].
  destruct (Nat.ltb_spec (length buf) (3 * i + 4)) as [Hl|Hl].
  - split; [by intros [? ?]|intros [?|?]; [done|lia]].
  - rewrite IH, length_st_bytes. split; [intros [->|?]; right; simpl; lia|]. intros [?|?]; [done|]. right. lia.
Qed.
(** It stays inside its buffer for at most 682 bytes. *)
Lemma hexdump_682 data : is_Some (print_buffer_hexdump data) <-> (length data <= 682)%nat.
Proof.
  unfold print_buffer_hexdump. rewrite hexdump_bounds, length_replicate. destruct data; simpl length; [split; [lia|by left]|]. split; [intros [?|?]; [done|lia]|]. intros. right. lia.
Qed.

End Utils.
