(* ===== verification/ListHead.v ===== *)
(** The intrusive doubly linked lists of [src/include/list.h], at pointer level.

    Every queue and table of the stack is one of these lists.  Here a node is a
    pair of pointers in a heap, and each macro or inline function is the sequence
    of loads and stores it performs ([None] is a dereference of a pointer that
    holds no node).  The predicate [dll] says which abstract list a head node
    represents; the theorems show that the pointer operations implement the list
    operations the other components are modelled with. *)
From S2P Require Import Prelude.

Module ListHead.

Abbreviation ptr := positive.

(** [struct list_head { next; prev }] *)
Record list_head := mk_node { next : ptr; prev : ptr }.

Abbreviation heap := (gmap ptr list_head).

Definition ld_next (h : heap) (p : ptr) : option ptr := next <$> h !! p.
Definition ld_prev (h : heap) (p : ptr) : option ptr := prev <$> h !! p.
Definition st_next (p v : ptr) (h : heap) : option heap :=
  (fun n => <[p := mk_node v (prev n)]> h) <$> h !! p.
Definition st_prev (p v : ptr) (h : heap) : option heap :=
  (fun n => <[p := mk_node (next n) v]> h) <$> h !! p.

(** [head->prev = head->next = head] on a node of the program. *)
Definition list_init (head : ptr) (h : heap) : option heap :=
  h ← st_next head head h; st_prev head head h.

Definition list_add (new head : ptr) (h : heap) : option heap :=
  n ← ld_next h head;
  h ← st_prev n new h;
  n ← ld_next h head;
  h ← st_next new n h;
  h ← st_prev new head h;
  st_next head new h.

Definition list_add_tail (new head : ptr) (h : heap) : option heap :=
  p ← ld_prev h head;
  h ← st_next p new h;
  p ← ld_prev h head;
  h ← st_prev new p h;
  h ← st_next new head h;
  st_prev head new h.

Definition list_del (elem : ptr) (h : heap) : option heap :=
  p ← ld_prev h elem;
  n ← ld_next h elem;
  h ← st_next p n h;
  st_prev n p h.

Definition list_empty (h : heap) (head : ptr) : option bool :=
  (fun n => bool_decide (n = head)) <$> ld_next h head.

Definition list_first (h : heap) (head : ptr) : option ptr := ld_next h head.

(** [list_for_each]: the nodes visited, in order.  The fuel bounds the number of
    steps; [for_each_enumerates] shows the list's length is enough. *)
Fixpoint for_each_from (fuel : nat) (h : heap) (head pos : ptr) : option (list ptr) :=
  if decide (pos = head) then Some []
  else match fuel with
       | O => None
       | S fuel => n ← ld_next h pos; (fun l => pos :: l) <$> for_each_from fuel h head n
       end.

Definition list_for_each (fuel : nat) (h : heap) (head : ptr) : option (list ptr) :=
  first ← ld_next h head; for_each_from fuel h head first.

(** ** Abstraction *)

Definition linked (h : heap) (a b : ptr) : Prop :=
  ld_next h a = Some b /\ ld_prev h b = Some a.

(** [chain h a l b]: from [a] through the nodes [l] to [b], both ways. *)
Fixpoint chain (h : heap) (a : ptr) (l : list ptr) (b : ptr) : Prop :=
  match l with
  | [] => linked h a b
  | x :: l => linked h a x /\ chain h x l b
  end.

(** The circular list with head node [head] holds [l]. *)
Definition dll (h : heap) (head : ptr) (l : list ptr) : Prop :=
  NoDup (head :: l) /\ chain h head l head.

Lemma ld_next_st_next p v h h' q :
  st_next p v h = Some h' -> ld_next h' q = if decide (q = p) then Some v else ld_next h q.
Proof.
  unfold st_next, ld_next. destruct (h !! p) eqn:E; simpl; intros [= <-].
  case_decide; subst; by simplify_map_eq.
Qed.
Lemma ld_prev_st_next p v h h' q : st_next p v h = Some h' -> ld_prev h' q = ld_prev h q.
Proof.
  unfold st_next, ld_prev. destruct (h !! p) eqn:E; simpl; intros [= <-].
  destruct (decide (q = p)); subst; by simplify_map_eq.
Qed.
Lemma ld_prev_st_prev p v h h' q :
  st_prev p v h = Some h' -> ld_prev h' q = if decide (q = p) then Some v else ld_prev h q.
Proof.
  unfold st_prev, ld_prev. destruct (h !! p) eqn:E; simpl; intros [= <-].
  case_decide; subst; by simplify_map_eq.
Qed.
Lemma ld_next_st_prev p v h h' q : st_prev p v h = Some h' -> ld_next h' q = ld_next h q.
Proof.
  unfold st_prev, ld_next. destruct (h !! p) eqn:E; simpl; intros [= <-].
  destruct (decide (q = p)); subst; by simplify_map_eq.
Qed.

(** A store succeeds exactly on the nodes a load does. *)
Definition valid (h : heap) (p : ptr) : Prop := is_Some (h !! p).

Lemma valid_ld_next h p x : ld_next h p = Some x -> valid h p.
Proof. unfold ld_next, valid. destruct (h !! p); naive_solver. Qed.
Lemma valid_ld_prev h p x : ld_prev h p = Some x -> valid h p.
Proof. unfold ld_prev, valid. destruct (h !! p); naive_solver. Qed.
Lemma st_next_valid h p v : valid h p -> exists h', st_next p v h = Some h'.
Proof. intros [n Hn]. unfold st_next. rewrite Hn. eauto. Qed.
Lemma st_prev_valid h p v : valid h p -> exists h', st_prev p v h = Some h'.
Proof. intros [n Hn]. unfold st_prev. rewrite Hn. eauto. Qed.
Lemma valid_st_next h h' p v q : st_next p v h = Some h' -> valid h q -> valid h' q.
Proof.
  unfold st_next, valid. destruct (h !! p); simpl; intros [= <-] ?.
  destruct (decide (p = q)); subst; simplify_map_eq; eauto.
Qed.
Lemma valid_st_prev h h' p v q : st_prev p v h = Some h' -> valid h q -> valid h' q.
Proof.
  unfold st_prev, valid. destruct (h !! p); simpl; intros [= <-] ?.
  destruct (decide (p = q)); subst; simplify_map_eq; eauto.
Qed.

Create HintDb dll.
#[export] Hint Resolve valid_ld_next valid_ld_prev valid_st_next valid_st_prev : dll.

(** Rewrite the loads of the newest heap into loads of the oldest. *)
Ltac dll_loads :=
  repeat match goal with
  | H : st_next _ _ _ = Some ?h' |- context [ld_next ?h' _] => rewrite (ld_next_st_next _ _ _ _ _ H)
  | H : st_prev _ _ _ = Some ?h' |- context [ld_next ?h' _] => rewrite (ld_next_st_prev _ _ _ _ _ H)
  | H : st_next _ _ _ = Some ?h' |- context [ld_prev ?h' _] => rewrite (ld_prev_st_next _ _ _ _ _ H)
  | H : st_prev _ _ _ = Some ?h' |- context [ld_prev ?h' _] => rewrite (ld_prev_st_prev _ _ _ _ _ H)
  end.

Lemma chain_app h a l1 x l2 b :
  chain h a (l1 ++ x :: l2) b <-> chain h a l1 x /\ chain h x l2 b.
Proof. revert a. induction l1 as [|y l1 IH]; intros a; simpl; [tauto|]. rewrite IH. tauto. Qed.

Lemma chain_head_next h a l b : chain h a l b -> exists n, ld_next h a = Some n.
Proof. destruct l; simpl; unfold linked; naive_solver. Qed.
Lemma chain_tail_prev h a l b : chain h a l b -> ld_prev h b = Some (default a (last l)).
Proof.
  revert a. induction l as [|x l IH]; intros a; simpl chain.
  - unfold linked; tauto.
  - intros [_ H]. rewrite (IH _ H), last_cons. by destruct (last l).
Qed.

(** A chain only reads the forward links of its first nodes and the backward
    links of its last ones. *)
Lemma chain_frame h h' a l b :
  (forall p, p = a \/ p ∈ l -> ld_next h' p = ld_next h p) ->
  (forall p, p ∈ l \/ p = b -> ld_prev h' p = ld_prev h p) ->
  chain h a l b -> chain h' a l b.
Proof.
  revert a. induction l as [|x l IH]; intros a Hn Hp; simpl; unfold linked.
  - rewrite Hn, Hp by auto. done.
  - rewrite Hn by auto. rewrite Hp by (left; left). intros [? ?]. split; [done|].
    apply IH; [| |done]; intros p Hin.
    + apply Hn. right. destruct Hin as [->|Hin]; [left|by right].
    + apply Hp. destruct Hin as [Hin| ->]; [left; by right|by right].
Qed.

(** ** The operations implement the list operations *)

Lemma dll_NoDup h head l : dll h head l -> NoDup (head :: l).
Proof. by intros [? _]. Qed.

Lemma dll_prev h head l : dll h head l -> ld_prev h head = Some (default head (last l)).
Proof. intros [_ H]. by eapply chain_tail_prev. Qed.

Lemma dll_last_in (head : ptr) (l : list ptr) : default head (last l) ∈ head :: l.
Proof.
  destruct (last l) eqn:E; simpl; [|left]. right. by apply last_Some_elem_of.
Qed.

(** Redirecting the last link of a chain. *)
Lemma chain_relink h h' a l b c :
  NoDup (a :: l) -> chain h a l b ->
  (forall q, q ∈ a :: l -> q <> default a (last l) -> ld_next h' q = ld_next h q) ->
  (forall q, q ∈ l -> ld_prev h' q = ld_prev h q) ->
  linked h' (default a (last l)) c -> chain h' a l c.
Proof.
  revert a. induction l as [|x l IH]; intros a Hnd Hc Hn Hp Hl; [done|].
  destruct Hc as [[Hax Hxa] Hc]. apply NoDup_cons in Hnd as [Hna Hnd].
  rewrite last_cons in *.
  assert (Hlast : default a (match last l with Some y => Some y | None => Some x end)
                  = default x (last l)) by by destruct (last l).
  rewrite Hlast in *. pose proof (dll_last_in x l) as Hin. split.
  - split; [rewrite Hn|rewrite Hp]; try done; [left| |left].
    intros ->. by apply Hna.
  - apply IH; try done.
    + intros q Hq. apply Hn. by right.
    + intros q Hq. apply Hp. by right.
Qed.

Lemma add_tail_refines h head l new :
  dll h head l -> new ∉ head :: l -> valid h new ->
  exists h', list_add_tail new head h = Some h' /\ dll h' head (l ++ [new]) /\
             (forall q, q ∉ head :: l ++ [new] -> h' !! q = h !! q).
Proof.
  intros Hd Hnew Hv. pose proof (dll_prev _ _ _ Hd) as Hp. destruct Hd as [Hnd Hc].
  set (p := default head (last l)) in *.
  pose proof (dll_last_in head l) as Hpin. fold p in Hpin.
  assert (Hpn : p <> new) by (intros ->; done).
  assert (Hhn : head <> new) by (intros ->; apply Hnew; left).
  assert (Hvp : valid h p).
  { destruct (last l) as [y|] eqn:E; subst p; simpl in *; [|eauto with dll].
    apply last_Some in E as [l' ->]. apply chain_app in Hc as [_ [Hy _]]. eauto with dll. }
  unfold list_add_tail. rewrite Hp. simpl.
  destruct (st_next_valid h p new Hvp) as [h1 H1]. rewrite H1. simpl.
  rewrite (ld_prev_st_next _ _ _ _ _ H1), Hp. simpl.
  destruct (st_prev_valid h1 new p) as [h2 H2]; [eauto with dll|]. rewrite H2. simpl.
  destruct (st_next_valid h2 new head) as [h3 H3]; [eauto with dll|]. rewrite H3. simpl.
  destruct (st_prev_valid h3 head new) as [h4 H4]; [eauto 6 with dll|]. rewrite H4.
  exists h4. split; [done|]. split; [split|].
  - rewrite app_comm_cons. apply NoDup_app. split; [done|]. split; [set_solver|apply NoDup_singleton].
  - apply chain_app. split.
    + eapply chain_relink; [done|exact Hc| | |]; fold p.
      * intros q Hq Hqp. dll_loads. rewrite !decide_False by set_solver. done.
      * intros q Hq. dll_loads. rewrite !decide_False; [done|set_solver|].
        apply NoDup_cons in Hnd as [Hh _]. set_solver.
      * split; dll_loads; rewrite ?(decide_True (P:=p = p)), ?decide_False by congruence; try done.
        by rewrite decide_True.
    + split; dll_loads; by rewrite decide_True.
  - intros q Hq. unfold st_next, st_prev in *.
    repeat match goal with
    | H : _ <$> ?o = Some _ |- _ => destruct o; simplify_eq/=
    end.
    rewrite !lookup_insert_ne; [done|..]; set_solver.
Qed.

Lemma chain_next_hd h a l b : chain h a l b -> ld_next h a = Some (default b (hd_error l)).
Proof. destruct l; simpl; unfold linked; naive_solver. Qed.

Lemma chain_valid h a l b : chain h a l b -> valid h (default a (last l)).
Proof.
  revert a. induction l as [|x l IH]; intros a; simpl chain.
  - intros [H _]. simpl. eauto with dll.
  - intros [_ H]. rewrite last_cons. apply IH in H. by destruct (last l).
Qed.

Lemma chain_join h a l1 l2 b :
  chain h a l1 (default b (hd_error l2)) ->
  (forall y l2', l2 = y :: l2' -> chain h y l2' b) -> chain h a (l1 ++ l2) b.
Proof.
  destruct l2 as [|y l2]; simpl; intros H1 H2; [by rewrite app_nil_r|].
  apply chain_app. eauto.
Qed.

Lemma dll_disjoint (head : ptr) l1 l2 :
  NoDup (head :: l1 ++ l2) ->
  (forall q, q ∈ l1 -> q ∉ head :: l2) /\ (forall q, q ∈ head :: l1 -> q ∉ l2).
Proof. rewrite NoDup_cons, NoDup_app. set_solver. Qed.

Lemma del_refines h head l1 x l2 :
  dll h head (l1 ++ x :: l2) ->
  exists h', list_del x h = Some h' /\ dll h' head (l1 ++ l2) /\
             (forall q, q ∉ head :: l1 ++ l2 -> h' !! q = h !! q).
Proof.
  intros [Hnd Hc]. apply chain_app in Hc as [Hc1 Hc2].
  assert (Hnd' : NoDup (head :: l1 ++ l2)).
  { revert Hnd. rewrite !NoDup_cons, !NoDup_app, NoDup_cons. set_solver. }
  destruct (dll_disjoint _ _ _ Hnd') as [Hd1 Hd2].
  pose proof (chain_tail_prev _ _ _ _ Hc1) as Hp. pose proof (chain_next_hd _ _ _ _ Hc2) as Hn.
  set (p := default head (last l1)) in *. set (n := default head (hd_error l2)) in *.
  assert (Hpin : p ∈ head :: l1) by apply dll_last_in.
  assert (Hnin : n ∈ head :: l2) by (destruct l2; set_solver).
  assert (Hvn : valid h n).
  { destruct l2 as [|y l2]; simpl in *; destruct_and?; unfold linked in *; naive_solver eauto with dll. }
  unfold list_del. rewrite Hp. simpl. rewrite Hn. simpl. fold n.
  destruct (st_next_valid h p n (chain_valid _ _ _ _ Hc1)) as [h1 H1]. rewrite H1. simpl.
  destruct (st_prev_valid h1 n p) as [h2 H2]; [eauto with dll|]. rewrite H2.
  exists h2. split; [done|]. split; [split; [done|]|].
  - apply chain_join.
    + eapply chain_relink; [|exact Hc1| | |]; fold p; fold n.
      * rewrite app_comm_cons in Hnd'. by apply NoDup_app in Hnd' as [? _].
      * intros q Hq Hqp. dll_loads. by rewrite decide_False.
      * intros q Hq. dll_loads. rewrite decide_False; [done|].
        intros ->. by eapply Hd1.
      * split; dll_loads; by rewrite decide_True.
    + intros y l2' ->. simpl in Hc2. destruct Hc2 as [_ Hc2].
      assert (Hy : y ∉ l2' /\ y <> head).
      { rewrite NoDup_cons, NoDup_app, NoDup_cons in Hnd'. set_solver. }
      eapply chain_frame; [| |exact Hc2]; intros q Hq; dll_loads; (rewrite decide_False; [done|]);
        intros ->.
      * eapply Hd2; [done|]. destruct Hq as [->|?]; [left|by right].
      * subst n. simpl in Hq. destruct Hy, Hq; congruence.
  - intros q Hq. assert (q <> p /\ q <> n) as [? ?].
    { clear -Hq Hpin Hnin. clearbody p n. set_solver. }
    unfold st_next, st_prev in *.
    repeat match goal with
    | H : _ <$> ?o = Some _ |- _ => destruct o; simplify_eq/=
    end.
    by rewrite !lookup_insert_ne.
Qed.

Lemma for_each_from_chain h a l b fuel :
  b ∉ l -> (length l <= fuel)%nat -> chain h a l b ->
  for_each_from fuel h b (default b (hd_error l)) = Some l.
Proof.
  revert a fuel. induction l as [|x l IH]; intros a fuel Hb Hf Hc; simpl.
  - destruct fuel; simpl; by rewrite decide_True.
  - destruct fuel as [|fuel]; simpl in *; [lia|]. destruct Hc as [_ Hc].
    rewrite decide_False by set_solver.
    rewrite (chain_next_hd _ _ _ _ Hc). simpl.
    rewrite (IH x fuel); [done|set_solver|lia|done].
Qed.

Lemma for_each_enumerates h head l fuel :
  dll h head l -> (length l <= fuel)%nat -> list_for_each fuel h head = Some l.
Proof.
  intros [Hnd Hc] Hf. unfold list_for_each. rewrite (chain_next_hd _ _ _ _ Hc). simpl.
  apply NoDup_cons in Hnd as [? _]. by eapply for_each_from_chain.
Qed.

Lemma list_empty_spec h head l : dll h head l -> list_empty h head = Some (bool_decide (l = [])).
Proof.
  intros [Hnd Hc]. unfold list_empty. rewrite (chain_next_hd _ _ _ _ Hc). simpl. f_equal.
  apply bool_decide_ext. destruct l as [|x l]; simpl; [done|].
  split; [intros ->|done]. apply NoDup_cons in Hnd as [Hx _]. set_solver.
Qed.

End ListHead.
