(* ===== verification/SkBuff.v ===== *)
(** Packet buffers and their queues: [src/src/skbuff.c], [src/include/skbuff.h].

    A buffer is its bytes plus the [data] and [payload] pointers as offsets from
    [head] (a [data] below [head] is a negative offset).  A queue is the list of
    its buffers, front first, with the separate [qlen] counter the code keeps;
    the links themselves are the subject of ListHead. *)
From S2P Require Import Prelude.

Module SkBuff.

Record sk_buff := mk_skb {
  skb_id : Z;  (** identity of the allocation *)
  skb_refcnt : Z;
  skb_protocol : Z;
  skb_len : Z;
  skb_dlen : Z;
  skb_seq : Z;
  skb_end_seq : Z;
  skb_sacked : Z;
  skb_tcpcsum : Z;
  skb_buf : list Z;  (** the bytes from [head] to [end] *)
  skb_data : Z;  (** [data - head] *)
  skb_payload : Z;  (** [payload - head] *)
  skb_dev : Z;  (** the device, by number; 0 is [NULL] *)
  skb_rt : option nat  (** the route, by position in the table *)
}.

Definition set_skb_id (v : Z) (r : sk_buff) : sk_buff :=
    mk_skb v (skb_refcnt r) (skb_protocol r) (skb_len r) (skb_dlen r) (skb_seq r) (skb_end_seq
    r) (skb_sacked r) (skb_tcpcsum r) (skb_buf r) (skb_data r) (skb_payload r) (skb_dev r)
    (skb_rt r).
Definition set_skb_refcnt (v : Z) (r : sk_buff) : sk_buff :=
    mk_skb (skb_id r) v (skb_protocol r) (skb_len r) (skb_dlen r) (skb_seq r) (skb_end_seq r)
    (skb_sacked r) (skb_tcpcsum r) (skb_buf r) (skb_data r) (skb_payload r) (skb_dev r) (skb_rt
    r).
Definition set_skb_protocol (v : Z) (r : sk_buff) : sk_buff :=
    mk_skb (skb_id r) (skb_refcnt r) v (skb_len r) (skb_dlen r) (skb_seq r) (skb_end_seq r)
    (skb_sacked r) (skb_tcpcsum r) (skb_buf r) (skb_data r) (skb_payload r) (skb_dev r) (skb_rt
    r).
Definition set_skb_len (v : Z) (r : sk_buff) : sk_buff :=
    mk_skb (skb_id r) (skb_refcnt r) (skb_protocol r) v (skb_dlen r) (skb_seq r) (skb_end_seq
    r) (skb_sacked r) (skb_tcpcsum r) (skb_buf r) (skb_data r) (skb_payload r) (skb_dev r)
    (skb_rt r).
Definition set_skb_dlen (v : Z) (r : sk_buff) : sk_buff :=
    mk_skb (skb_id r) (skb_refcnt r) (skb_protocol r) (skb_len r) v (skb_seq r) (skb_end_seq r)
    (skb_sacked r) (skb_tcpcsum r) (skb_buf r) (skb_data r) (skb_payload r) (skb_dev r) (skb_rt
    r).
Definition set_skb_seq (v : Z) (r : sk_buff) : sk_buff :=
    mk_skb (skb_id r) (skb_refcnt r) (skb_protocol r) (skb_len r) (skb_dlen r) v (skb_end_seq
    r) (skb_sacked r) (skb_tcpcsum r) (skb_buf r) (skb_data r) (skb_payload r) (skb_dev r)
    (skb_rt r).
Definition set_skb_end_seq (v : Z) (r : sk_buff) : sk_buff :=
    mk_skb (skb_id r) (skb_refcnt r) (skb_protocol r) (skb_len r) (skb_dlen r) (skb_seq r) v
    (skb_sacked r) (skb_tcpcsum r) (skb_buf r) (skb_data r) (skb_payload r) (skb_dev r) (skb_rt
    r).
Definition set_skb_sacked (v : Z) (r : sk_buff) : sk_buff :=
    mk_skb (skb_id r) (skb_refcnt r) (skb_protocol r) (skb_len r) (skb_dlen r) (skb_seq r)
    (skb_end_seq r) v (skb_tcpcsum r) (skb_buf r) (skb_data r) (skb_payload r) (skb_dev r)
    (skb_rt r).
Definition set_skb_tcpcsum (v : Z) (r : sk_buff) : sk_buff :=
    mk_skb (skb_id r) (skb_refcnt r) (skb_protocol r) (skb_len r) (skb_dlen r) (skb_seq r)
    (skb_end_seq r) (skb_sacked r) v (skb_buf r) (skb_data r) (skb_payload r) (skb_dev r)
    (skb_rt r).
Definition set_skb_buf (v : list Z) (r : sk_buff) : sk_buff :=
    mk_skb (skb_id r) (skb_refcnt r) (skb_protocol r) (skb_len r) (skb_dlen r) (skb_seq r)
    (skb_end_seq r) (skb_sacked r) (skb_tcpcsum r) v (skb_data r) (skb_payload r) (skb_dev r)
    (skb_rt r).
Definition set_skb_data (v : Z) (r : sk_buff) : sk_buff :=
    mk_skb (skb_id r) (skb_refcnt r) (skb_protocol r) (skb_len r) (skb_dlen r) (skb_seq r)
    (skb_end_seq r) (skb_sacked r) (skb_tcpcsum r) (skb_buf r) v (skb_payload r) (skb_dev r)
    (skb_rt r).
Definition set_skb_payload (v : Z) (r : sk_buff) : sk_buff :=
    mk_skb (skb_id r) (skb_refcnt r) (skb_protocol r) (skb_len r) (skb_dlen r) (skb_seq r)
    (skb_end_seq r) (skb_sacked r) (skb_tcpcsum r) (skb_buf r) (skb_data r) v (skb_dev r)
    (skb_rt r).
Definition set_skb_dev (v : Z) (r : sk_buff) : sk_buff :=
    mk_skb (skb_id r) (skb_refcnt r) (skb_protocol r) (skb_len r) (skb_dlen r) (skb_seq r)
    (skb_end_seq r) (skb_sacked r) (skb_tcpcsum r) (skb_buf r) (skb_data r) (skb_payload r) v
    (skb_rt r).
Definition set_skb_rt (v : option nat) (r : sk_buff) : sk_buff :=
    mk_skb (skb_id r) (skb_refcnt r) (skb_protocol r) (skb_len r) (skb_dlen r) (skb_seq r)
    (skb_end_seq r) (skb_sacked r) (skb_tcpcsum r) (skb_buf r) (skb_data r) (skb_payload r)
    (skb_dev r) v.

(** [skb->end - skb->head] *)
Definition skb_end (s : sk_buff) : Z := Z.of_nat (length (skb_buf s)).

Definition alloc_skb (id : Z) (size : Z) : sk_buff :=
  mk_skb id 0 0 0 0 0 0 0 0 (replicate (Z.to_nat size) 0) 0 0 0 None.

(** [free_skb] frees only a buffer nobody else holds. *)
Definition free_skb (s : sk_buff) : bool := skb_refcnt s <? 1.

(** [skb_copy] copies bytes, offsets and metadata into a fresh allocation with a
    reference count of its own. *)
Definition skb_copy (id : Z) (s : sk_buff) : sk_buff :=
  let n := alloc_skb id (skb_end s) in
  mk_skb id (skb_refcnt n) (skb_protocol s) (skb_len s) (skb_dlen s) (skb_seq s) (skb_end_seq s)
    (skb_sacked s) (skb_tcpcsum s) (skb_buf s) (skb_data s) (skb_payload s) (skb_dev s) (skb_rt s).

Definition skb_reserve (n : Z) (s : sk_buff) : sk_buff := set_skb_data (skb_data s + n) s.

Definition skb_push (n : Z) (s : sk_buff) : sk_buff :=
  set_skb_len (u32 (skb_len s + n)) (set_skb_data (skb_data s - n) s).

Definition skb_reset_header (s : sk_buff) : sk_buff :=
  set_skb_len (skb_dlen s) (set_skb_data (skb_end s - skb_dlen s) s).

(** The [len] bytes from [data] on, as handed to the device or the checksum. *)
Definition skb_bytes (s : sk_buff) : list Z :=
  ld_bytes (skb_buf s) (Z.to_nat (skb_data s)) (Z.to_nat (skb_len s)).

(** ** Queues *)

Definition MAX_QUEUE : Z := 100.

Record sk_buff_head := mk_skq {
  skq : list sk_buff;  (** the linked buffers, front first *)
  max_q : Z;
  qlen : Z
}.

Definition set_skq (v : list sk_buff) (r : sk_buff_head) : sk_buff_head :=
    mk_skq v (max_q r) (qlen r).
Definition set_max_q (v : Z) (r : sk_buff_head) : sk_buff_head :=
    mk_skq (skq r) v (qlen r).
Definition set_qlen (v : Z) (r : sk_buff_head) : sk_buff_head :=
    mk_skq (skq r) (max_q r) v.

Definition skb_queue_len (l : sk_buff_head) : Z := qlen l.
Definition skb_queue_init : sk_buff_head := mk_skq [] MAX_QUEUE 0.

(** [skb_queue_add list new next]: [new] is linked in front of [next], which is
    the buffer at position [i]. *)
Definition skb_queue_add (l : sk_buff_head) (new : sk_buff) (i : nat) : sk_buff_head :=
  set_qlen (u32 (qlen l + 1)) (set_skq (take i (skq l) ++ new :: drop i (skq l)) l).

Definition skb_queue_tail (l : sk_buff_head) (new : sk_buff) : sk_buff_head :=
  set_qlen (u32 (qlen l + 1)) (set_skq (skq l ++ [new]) l).

(** Dequeuing from an empty list would unlink the head node itself; [None]. *)
Definition skb_dequeue (l : sk_buff_head) : option (sk_buff * sk_buff_head) :=
  match skq l with
  | [] => None
  | s :: r => Some (s, set_qlen (u32 (qlen l - 1)) (set_skq r l))
  end.

Definition skb_queue_empty (l : sk_buff_head) : bool := skb_queue_len l <? 1.

Definition skb_peek (l : sk_buff_head) : option sk_buff :=
  if skb_queue_empty l then None else hd_error (skq l).

(** [while ((skb = skb_peek(list)) != NULL) { skb_dequeue; skb->refcnt--; free_skb }]:
    the remaining queue and the identities freed, in order. *)
Fixpoint skb_queue_free_loop (fuel : nat) (l : sk_buff_head) : sk_buff_head * list Z :=
  match fuel with
  | O => (l, [])
  | S fuel =>
      match skb_peek l, skb_dequeue l with
      | Some _, Some (s, l) =>
          let s := set_skb_refcnt (skb_refcnt s - 1) s in
          let '(l, f) := skb_queue_free_loop fuel l in
          (l, if free_skb s then skb_id s :: f else f)
      | _, _ => (l, [])
      end
  end.

Definition skb_queue_free (l : sk_buff_head) : sk_buff_head * list Z :=
  skb_queue_free_loop (length (skq l)) l.

(** ** Queue invariant: the counter is the length *)

Definition queue_ok (l : sk_buff_head) : Prop :=
  qlen l = Z.of_nat (length (skq l)) /\ Z.of_nat (length (skq l)) < 4294967296.

Lemma queue_ok_init : queue_ok skb_queue_init.
Proof. done. Qed.

Lemma queue_ok_empty l : queue_ok l -> skb_queue_empty l = bool_decide (skq l = []).
Proof.
  intros [H _]. unfold skb_queue_empty, skb_queue_len. rewrite H.
  destruct (skq l) eqn:E; [done|]. apply Z.ltb_ge. simpl. lia.
Qed.

Lemma queue_ok_peek l : queue_ok l -> skb_peek l = hd_error (skq l).
Proof.
  intros H. unfold skb_peek. rewrite queue_ok_empty by done.
  by destruct (skq l).
Qed.

Lemma queue_ok_tail l s :
  queue_ok l -> Z.of_nat (length (skq l)) + 1 < 4294967296 -> queue_ok (skb_queue_tail l s).
Proof.
  intros [H1 H2] H3. split; simpl; rewrite length_app; simpl; [rewrite H1|]; ulia.
Qed.

Lemma queue_ok_dequeue l s r :
  queue_ok l -> skq l = s :: r ->
  exists l', skb_dequeue l = Some (s, l') /\ skq l' = r /\ max_q l' = max_q l /\ queue_ok l'.
Proof.
  intros [H1 H2] E. unfold skb_dequeue. rewrite E in *. eexists. split; [done|].
  split; [done|]. split; [done|]. split; simpl; simpl in H1, H2; [rewrite H1|]; ulia.
Qed.

Lemma queue_free_loop_spec fuel l :
  queue_ok l -> (length (skq l) <= fuel)%nat ->
  skq (skb_queue_free_loop fuel l).1 = [] /\
  (skb_queue_free_loop fuel l).2 = skb_id <$> filter (fun s => skb_refcnt s - 1 < 1) (skq l).
Proof.
  revert l. induction fuel as [|fuel IH]; intros l Hok Hf; simpl.
  - destruct (skq l); simpl in *; [done|lia].
  - rewrite queue_ok_peek by done. destruct (skq l) as [|s r] eqn:E; simpl.
    + unfold skb_dequeue. by rewrite E.
    + destruct (queue_ok_dequeue l s r Hok E) as (l' & -> & Hr & _ & Hok').
      specialize (IH l' Hok'). rewrite Hr in IH. simpl in Hf.
      destruct (skb_queue_free_loop fuel l') as [l2 f] eqn:El. simpl in *.
      destruct IH as [IH1 IH2]; [lia|]. split; [done|].
      unfold free_skb. simpl. rewrite filter_cons, IH2.
      destruct (Z.ltb_spec (skb_refcnt s - 1) 1); case_decide; try lia; done.
Qed.

(** Header pushes are undone by [skb_reset_header]: a buffer whose data pointer
    was at its payload is back there, whatever was pushed in between. *)
Lemma reset_push n s :
  skb_data s = skb_end s - skb_dlen s -> skb_len s = skb_dlen s ->
  skb_reset_header (skb_push n s) = s.
Proof.
  destruct s. unfold skb_reset_header, skb_push, skb_end, set_skb_len, set_skb_data. simpl.
  by intros -> ->.
Qed.

End SkBuff.
