(* ===== verification/Timer.v ===== *)
(** The timer wheel of [src/src/timer.c].

    The table is the list of armed timers in insertion order, with the global
    [tick].  The section variables are the handler and argument types; the TCP and
    IPv6 components instantiate them with their callbacks.  [timers_tick] takes
    two oracles: which timer mutexes another thread holds ([pthread_mutex_trylock]
    returns EBUSY) and for which timers [pthread_create] succeeds; it returns the
    callbacks it spawned and the arguments it released. *)
From S2P Require Import Prelude.

Module Timer.
Section Timer.
Context {H A : Type}.

Record timer := mk_timer {
  tm_id : Z;  (** identity of the allocation *)
  tm_refcnt : Z;
  expires : Z;  (** [uint32_t] milliseconds *)
  cancelled : bool;
  handler : H;
  arg : option A;  (** [None] is [NULL] *)
  arg_free : bool;  (** a release callback was given *)
  tm_locked : bool  (** the mutex was left locked by [timers_tick] *)
}.

Definition set_tm_id (v : Z) (r : timer) : timer :=
    mk_timer v (tm_refcnt r) (expires r) (cancelled r) (handler r) (arg r) (arg_free r)
    (tm_locked r).
Definition set_tm_refcnt (v : Z) (r : timer) : timer :=
    mk_timer (tm_id r) v (expires r) (cancelled r) (handler r) (arg r) (arg_free r) (tm_locked
    r).
Definition set_expires (v : Z) (r : timer) : timer :=
    mk_timer (tm_id r) (tm_refcnt r) v (cancelled r) (handler r) (arg r) (arg_free r)
    (tm_locked r).
Definition set_cancelled (v : bool) (r : timer) : timer :=
    mk_timer (tm_id r) (tm_refcnt r) (expires r) v (handler r) (arg r) (arg_free r) (tm_locked
    r).
Definition set_handler (v : H) (r : timer) : timer :=
    mk_timer (tm_id r) (tm_refcnt r) (expires r) (cancelled r) v (arg r) (arg_free r)
    (tm_locked r).
Definition set_arg (v : option A) (r : timer) : timer :=
    mk_timer (tm_id r) (tm_refcnt r) (expires r) (cancelled r) (handler r) v (arg_free r)
    (tm_locked r).
Definition set_arg_free (v : bool) (r : timer) : timer :=
    mk_timer (tm_id r) (tm_refcnt r) (expires r) (cancelled r) (handler r) (arg r) v (tm_locked
    r).
Definition set_tm_locked (v : bool) (r : timer) : timer :=
    mk_timer (tm_id r) (tm_refcnt r) (expires r) (cancelled r) (handler r) (arg r) (arg_free r)
    v.

Record timer_state := mk_ts {
  tick : Z;  (** [static int tick] *)
  timers : list timer;
  next_tm : Z  (** next allocation *)
}.

Definition set_tick (v : Z) (r : timer_state) : timer_state :=
    mk_ts v (timers r) (next_tm r).
Definition set_timers (v : list timer) (r : timer_state) : timer_state :=
    mk_ts (tick r) v (next_tm r).
Definition set_next_tm (v : Z) (r : timer_state) : timer_state :=
    mk_ts (tick r) (timers r) v.

(** What goes wrong when a timer pointer is used after the timer was freed, or
    when its mutex is never unlocked. *)
Inductive timer_fault := TimerUseAfterFree | TimerDeadlock.

Definition timer_get_tick (s : timer_state) : Z := tick s.

Definition timer_add_with_release (expire : Z) (h : H) (a : option A) (release : bool)
    (s : timer_state) : Z * timer_state :=
  let t := mk_timer (next_tm s) 1 (u32 (timer_get_tick s + expire)) false h a release false in
  (next_tm s, mk_ts (tick s) (timers s ++ [t]) (next_tm s + 1)).

Definition timer_add (expire : Z) (h : H) (a : option A) (s : timer_state) : Z * timer_state :=
  timer_add_with_release expire h a false s.

Definition timer_oneshot (expire : Z) (h : H) (a : option A) (s : timer_state) : timer_state :=
  let t := mk_timer (next_tm s) 0 (u32 (timer_get_tick s + expire)) false h a false false in
  mk_ts (tick s) (timers s ++ [t]) (next_tm s + 1).

Fixpoint find_in (id : Z) (l : list timer) : option timer :=
  match l with
  | [] => None
  | t :: l => if tm_id t =? id then Some t else find_in id l
  end.

Definition find_timer (id : Z) (s : timer_state) : option timer := find_in id (timers s).

Definition map_timer (f : timer -> timer) (id : Z) (s : timer_state) : timer_state :=
  set_timers ((fun t => if tm_id t =? id then f t else t) <$> timers s) s.

(** [if (!t) return; pthread_mutex_lock(&t->lock); f; pthread_mutex_unlock] *)
Definition with_timer (f : timer -> timer) (t : option Z) (s : timer_state) : timer_state + timer_fault :=
  match t with
  | None => inl s
  | Some id =>
      match find_timer id s with
      | None => inr TimerUseAfterFree
      | Some tm => if tm_locked tm then inr TimerDeadlock else inl (map_timer f id s)
      end
  end.

Definition timer_release : option Z -> timer_state -> timer_state + timer_fault :=
  with_timer (fun t => set_tm_refcnt (tm_refcnt t - 1) t).

Definition timer_cancel : option Z -> timer_state -> timer_state + timer_fault :=
  with_timer (fun t => set_cancelled true (set_tm_refcnt (tm_refcnt t - 1) t)).

(** What one tick makes visible outside the table. *)
Inductive timer_event :=
  | Dispatched (id : Z) (h : H) (a : option A)   (* handler thread spawned *)
  | Released (id : Z) (a : A).                   (* [arg_free(arg)] called *)

(** [timer_free]: release an argument that was never handed to the handler. *)
Definition timer_free (t : timer) : list timer_event :=
  match arg t with
  | Some a => if arg_free t then [Released (tm_id t) a] else []
  | None => []
  end.

(** The body of the loop for one timer: what is left of it, and the events. *)
Definition tick_one (busy spawn_ok : Z -> bool) (now : Z) (t : timer) : option timer * list timer_event :=
  if tm_locked t || busy (tm_id t) then (Some t, [])
  else
    let due := negb (cancelled t) && (expires t <? u32 now) in
    if due && negb (spawn_ok (tm_id t)) then (Some (set_tm_locked true t), [])
    else
      let ev := if due then [Dispatched (tm_id t) (handler t) (arg t)] else [] in
      let t := if due then set_cancelled true (set_arg None t) else t in
      if cancelled t && (tm_refcnt t =? 0) then (None, ev ++ timer_free t) else (Some t, ev).

Fixpoint tick_list (busy spawn_ok : Z -> bool) (now : Z) (l : list timer) : list timer * list timer_event :=
  match l with
  | [] => ([], [])
  | t :: l =>
      let '(ot, ev) := tick_one busy spawn_ok now t in
      let '(l, ev') := tick_list busy spawn_ok now l in
      (match ot with Some t => t :: l | None => l end, ev ++ ev')
  end.

Definition timers_tick (busy spawn_ok : Z -> bool) (s : timer_state) : timer_state * list timer_event :=
  let '(l, ev) := tick_list busy spawn_ok (tick s) (timers s) in (set_timers l s, ev).

(** One iteration of [timers_start]: advance the clock by 10 ms and tick. *)
Definition timers_start_iter (busy spawn_ok : Z -> bool) (s : timer_state) : timer_state * list timer_event :=
  timers_tick busy spawn_ok (set_tick (s32 (tick s + 10)) s).

(** ** Lookups through the operations *)

Lemma find_in_id id l t : find_in id l = Some t -> tm_id t = id.
Proof.
  induction l as [|x l IH]; simpl; [done|].
  destruct (Z.eqb_spec (tm_id x) id); [by intros [= <-]|done].
Qed.

Lemma find_in_app id l l' :
  find_in id (l ++ l') = match find_in id l with Some t => Some t | None => find_in id l' end.
Proof. induction l as [|x l IH]; simpl; [done|]. by destruct (tm_id x =? id). Qed.

Lemma find_in_map f id i l :
  (forall t, tm_id (f t) = tm_id t) ->
  find_in i ((fun t => if tm_id t =? id then f t else t) <$> l)
  = if i =? id then f <$> find_in i l else find_in i l.
Proof.
  intros Hf. induction l as [|x l IH]; simpl; [by destruct (i =? id)|].
  destruct (Z.eqb_spec (tm_id x) id) as [Hx|Hx].
  - rewrite Hf. destruct (Z.eqb_spec (tm_id x) i), (Z.eqb_spec i id); subst; try done; congruence.
  - destruct (Z.eqb_spec (tm_id x) i); [|done]. destruct (Z.eqb_spec i id); [congruence|done].
Qed.

Lemma find_in_None id l : id ∉ tm_id <$> l -> find_in id l = None.
Proof.
  induction l as [|x l IH]; simpl; [done|]. rewrite not_elem_of_cons. intros [? ?].
  destruct (Z.eqb_spec (tm_id x) id); [congruence|auto].
Qed.

Lemma tick_one_id busy ok now t t' ev : tick_one busy ok now t = (Some t', ev) -> tm_id t' = tm_id t.
Proof. unfold tick_one. intros. repeat case_match; by simplify_eq/=. Qed.

(** The histories of the table: what happened to one timer, in order. *)
Inductive hist := HDispatched | HReleased | HCancelled.

Abbreviation log := (list (Z * hist)).

Definition event_log (e : timer_event) : Z * hist :=
  match e with Dispatched id _ _ => (id, HDispatched) | Released id _ => (id, HReleased) end.

Definition proj (id : Z) (l : log) : list hist := snd <$> filter (fun e => e.1 = id) l.

Lemma proj_app id l l' : proj id (l ++ l') = proj id l ++ proj id l'.
Proof. unfold proj. by rewrite filter_app, fmap_app. Qed.

Lemma tick_one_proj busy ok now t id :
  proj id (event_log <$> (tick_one busy ok now t).2)
  = if tm_id t =? id then snd <$> (event_log <$> (tick_one busy ok now t).2) else [].
Proof.
  assert (Hev : forall e, e ∈ (tick_one busy ok now t).2 -> (event_log e).1 = tm_id t).
  { unfold tick_one, timer_free. intros e He. repeat case_match; simpl in *; set_solver. }
  unfold proj. revert Hev. generalize ((tick_one busy ok now t).2). intros l Hev.
  induction l as [|e l IH]; simpl; [by destruct (tm_id t =? id)|].
  assert (He : (event_log e).1 = tm_id t) by (apply Hev; left).
  specialize (IH ltac:(intros; apply Hev; by right)).
  rewrite filter_cons. destruct (Z.eqb_spec (tm_id t) id); case_decide; try congruence.
  - simpl. by f_equal.
  - exact IH.
Qed.

(** One tick, seen from one timer identity. *)
Lemma tick_list_spec busy ok now l id :
  NoDup (tm_id <$> l) ->
  NoDup (tm_id <$> (tick_list busy ok now l).1) /\
  (forall i, i ∈ tm_id <$> (tick_list busy ok now l).1 -> i ∈ tm_id <$> l) /\
  find_in id (tick_list busy ok now l).1
    = (t ← find_in id l; (tick_one busy ok now t).1) /\
  proj id (event_log <$> (tick_list busy ok now l).2)
    = match find_in id l with
      | Some t => snd <$> (event_log <$> (tick_one busy ok now t).2)
      | None => []
      end.
Proof.
  induction l as [|t l IH]; simpl; [done|]. rewrite NoDup_cons. intros [Hni Hnd].
  specialize (IH Hnd) as (IH1 & IH2 & IH3 & IH4).
  destruct (tick_one busy ok now t) as [ot ev] eqn:E1.
  destruct (tick_list busy ok now l) as [l' ev'] eqn:E2. simpl in *.
  pose proof (tick_one_proj busy ok now t id) as Hp. rewrite E1 in Hp. simpl in Hp.
  rewrite fmap_app, proj_app, Hp, IH4.
  assert (Hnone : tm_id t = id -> find_in id l = None).
  { intros <-. by apply find_in_None. }
  assert (Hnone' : tm_id t = id -> find_in id l' = None).
  { intros <-. apply find_in_None. set_solver. }
  split; [|split; [|split]].
  - destruct ot as [t'|]; simpl; [|done]. rewrite NoDup_cons.
    rewrite (tick_one_id _ _ _ _ _ _ E1). set_solver.
  - destruct ot as [t'|]; simpl; [|set_solver].
    rewrite (tick_one_id _ _ _ _ _ _ E1). set_solver.
  - destruct (Z.eqb_spec (tm_id t) id) as [Hid|Hid]; simpl.
    + rewrite E1. destruct ot as [t'|]; simpl; [|auto].
      rewrite (tick_one_id _ _ _ _ _ _ E1). by rewrite (proj2 (Z.eqb_eq _ _) Hid).
    + rewrite <- IH3. destruct ot as [t'|]; simpl; [|done].
      rewrite (tick_one_id _ _ _ _ _ _ E1). by rewrite (proj2 (Z.eqb_neq _ _) Hid).
  - destruct (Z.eqb_spec (tm_id t) id) as [Hid|Hid]; [|done].
    rewrite Hnone by done. rewrite E1. simpl. by rewrite app_nil_r.
Qed.

(** ** Executions of the timer table *)

Inductive timer_op :=
  | OpAdd (expire : Z) (h : H) (a : option A) (release : bool)
  | OpOneshot (expire : Z) (h : H) (a : option A)
  | OpRelease (t : option Z)
  | OpCancel (t : option Z)
  | OpTick (busy spawn_ok : Z -> bool).

(** [None] when the operation uses a freed timer or blocks for ever. *)
Definition run_op (o : timer_op) (s : timer_state) : option (timer_state * log) :=
  match o with
  | OpAdd e h a r => Some ((timer_add_with_release e h a r s).2, [])
  | OpOneshot e h a => Some (timer_oneshot e h a s, [])
  | OpRelease t => match timer_release t s with inl s => Some (s, []) | inr _ => None end
  | OpCancel t =>
      match timer_cancel t s with
      | inl s => Some (s, match t with Some id => [(id, HCancelled)] | None => [] end)
      | inr _ => None
      end
  | OpTick busy ok =>
      let '(s, ev) := timers_start_iter busy ok s in Some (s, event_log <$> ev)
  end.

Definition timer_init : timer_state := mk_ts 0 [] 0.

Inductive trace : timer_state -> log -> Prop :=
  | trace_init : trace timer_init []
  | trace_step o s l s' l' : trace s l -> run_op o s = Some (s', l') -> trace s' (l ++ l').

Fixpoint run_ops (os : list timer_op) (s : timer_state) (l : log) : option (timer_state * log) :=
  match os with
  | [] => Some (s, l)
  | o :: os => match run_op o s with Some (s, l') => run_ops os s (l ++ l') | None => None end
  end.

Lemma run_ops_trace os s l s' l' : trace s l -> run_ops os s l = Some (s', l') -> trace s' l'.
Proof.
  revert s l. induction os as [|o os IH]; simpl; intros s l Ht; [by intros [= <- <-]|].
  destruct (run_op o s) as [[s1 l1]|] eqn:E; [|done]. intros. eapply IH; [|done].
  by eapply trace_step.
Qed.

(** The complete histories of one timer: cancelled any number of times, after
    which its argument may be released; or dispatched once, and from then on
    never dispatched again and its argument never released. *)
Definition history_ok (l : list hist) : Prop :=
  exists n, l = replicate n HCancelled \/ l = replicate n HCancelled ++ [HReleased]
            \/ l = HDispatched :: replicate n HCancelled.

Definition slot_ok (id next : Z) (t : option timer) (l : list hist) : Prop :=
  match t with
  | Some t =>
      id < next /\
      if cancelled t
      then (exists n, l = replicate n HCancelled) \/
           (arg t = None /\ exists n, l = HDispatched :: replicate n HCancelled)
      else l = []
  | None => if id <? next then history_ok l else l = []
  end.

Definition table_ok (s : timer_state) (l : log) : Prop :=
  NoDup (tm_id <$> timers s) /\
  forall id, slot_ok id (next_tm s) (find_timer id s) (proj id l).

Lemma slot_ok_history id next t l : slot_ok id next t l -> history_ok l.
Proof.
  destruct t as [t|]; simpl.
  - intros [_ Ht]. destruct (cancelled t).
    + unfold history_ok. naive_solver.
    + exists 0%nat. auto.
  - destruct (id <? next); [done|]. intros ->. exists 0%nat. auto.
Qed.

Lemma slot_ok_tick busy ok now id next t l :
  slot_ok id next (Some t) l ->
  slot_ok id next (tick_one busy ok now t).1
    (l ++ (snd <$> (event_log <$> (tick_one busy ok now t).2))).
Proof.
  intros [Hid Ht]. unfold tick_one, timer_free.
  destruct (tm_locked t || busy (tm_id t)); simpl; [by rewrite app_nil_r|].
  destruct (cancelled t) eqn:Ec; simpl.
  - rewrite Ec. simpl. destruct (tm_refcnt t =? 0); simpl; [|rewrite Ec, app_nil_r; done].
    rewrite (proj2 (Z.ltb_lt _ _) Hid). destruct Ht as [[n ->]|[Ha [n ->]]].
    + destruct (arg t), (arg_free t); simpl; rewrite ?app_nil_r; exists n; auto.
    + rewrite Ha. simpl. rewrite app_nil_r. exists n; auto.
  - subst l. destruct (expires t <? u32 now); simpl; [|rewrite Ec; simpl; by rewrite Ec].
    destruct (ok (tm_id t)); simpl; [|by rewrite Ec].
    destruct (tm_refcnt t =? 0); simpl.
    + rewrite (proj2 (Z.ltb_lt _ _) Hid). exists 0%nat; auto.
    + split; [done|]. right. split; [done|]. by exists 0%nat.
Qed.

Lemma find_timer_lt s l id t : table_ok s l -> find_timer id s = Some t -> id < next_tm s.
Proof. intros [_ Hs] Hf. specialize (Hs id). rewrite Hf in Hs. apply Hs. Qed.

Lemma table_ok_new s l t tick' :
  table_ok s l -> tm_id t = next_tm s -> cancelled t = false ->
  table_ok (mk_ts tick' (timers s ++ [t]) (next_tm s + 1)) l.
Proof.
  intros [Hnd Hs] Hid Hc.
  assert (Hni : next_tm s ∉ tm_id <$> timers s).
  { intros (x & Hx & Hin)%list_elem_of_fmap. specialize (Hs (next_tm s)).
    destruct (find_timer (next_tm s) s) eqn:E; [simpl in Hs; lia|].
    clear -Hx Hin E. unfold find_timer in E. induction (timers s) as [|y l IH]; [set_solver|].
    simpl in E. destruct (Z.eqb_spec (tm_id y) (next_tm s)); [done|].
    apply elem_of_cons in Hin as [->|?]; auto. }
  split; simpl.
  - rewrite fmap_app. apply NoDup_app. split; [done|]. simpl. rewrite Hid.
    split; [|apply NoDup_singleton]. intros x Hx ->%list_elem_of_singleton. done.
  - intros id. specialize (Hs id). unfold find_timer in *. simpl. rewrite find_in_app. simpl.
    destruct (find_in id (timers s)) as [x|] eqn:E; unfold slot_ok in *; [split; [lia|apply Hs]|].
    rewrite Hid. destruct (Z.eqb_spec (next_tm s) id) as [Heq|Hne]; simpl.
    + rewrite Hc. subst id. rewrite Z.ltb_irrefl in Hs. split; [lia|done].
    + destruct (Z.ltb_spec id (next_tm s)), (Z.ltb_spec id (next_tm s + 1)); try lia; done.
Qed.

Lemma table_ok_with f h t s s' l :
  table_ok s l -> (forall x, tm_id (f x) = tm_id x) ->
  (forall x, find_timer (tm_id x) s = Some x -> slot_ok (tm_id x) (next_tm s) (Some x) (proj (tm_id x) l) ->
     slot_ok (tm_id x) (next_tm s) (Some (f x)) (proj (tm_id x) l ++ h)) ->
  with_timer f t s = inl s' ->
  table_ok s' (l ++ match t with Some id => (fun k => (id, k)) <$> h | None => [] end).
Proof.
  intros [Hnd Hs] Hf Hstep. unfold with_timer. destruct t as [id|]; [|intros [= <-]; by rewrite app_nil_r].
  destruct (find_timer id s) as [x|] eqn:E; [|done]. destruct (tm_locked x); [done|].
  intros [= <-]. split; simpl.
  - replace (tm_id <$> ((fun t => if tm_id t =? id then f t else t) <$> timers s))
      with (tm_id <$> timers s); [done|].
    rewrite <- list_fmap_compose. apply list_fmap_ext. intros i y _. simpl.
    by destruct (tm_id y =? id).
  - intros i. unfold find_timer in *. simpl. rewrite find_in_map by done. rewrite proj_app.
    specialize (Hs i). destruct (Z.eqb_spec i id) as [->|Hne].
    + rewrite E in *. simpl. pose proof (find_in_id _ _ _ E) as <-.
      replace (proj (tm_id x) ((fun k => (tm_id x, k)) <$> h)) with h; [by apply Hstep|].
      clear. unfold proj. induction h as [|k h IH]; [done|]. simpl.
      rewrite filter_cons_True by done. simpl. by f_equal.
    + replace (proj i ((fun k => (id, k)) <$> h)) with (@nil hist); [by rewrite app_nil_r|].
      clear -Hne. unfold proj. induction h as [|k h IH]; [done|]. simpl.
      by rewrite filter_cons_False.
Qed.

Lemma slot_ok_cancel id next x l (y : timer) :
  slot_ok id next (Some x) l -> arg y = arg x -> cancelled y = true ->
  slot_ok id next (Some y) (l ++ [HCancelled]).
Proof.
  intros [Hid Hx] Ha Hc. split; [done|]. rewrite Hc, Ha.
  assert (Hsn : forall n, replicate n HCancelled ++ [HCancelled] = replicate (S n) HCancelled).
  { intros n. by rewrite <- replicate_cons_app. }
  destruct (cancelled x).
  - destruct Hx as [[n ->]|[Hn [n ->]]].
    + left. exists (S n). apply Hsn.
    + right. split; [done|]. exists (S n). simpl. f_equal. apply Hsn.
  - left. subst l. by exists 1%nat.
Qed.

Lemma table_ok_step o s l s' l' : table_ok s l -> run_op o s = Some (s', l') -> table_ok s' (l ++ l').
Proof.
  intros Hok. destruct o as [e h a r|e h a|t|t|busy ok]; simpl.
  - intros [= <- <-]. rewrite app_nil_r. by apply table_ok_new.
  - intros [= <- <-]. rewrite app_nil_r. by apply table_ok_new.
  - destruct (timer_release t s) eqn:E; [|done]. intros [= <- <-].
    replace [] with (match t with Some id => (fun k : hist => (id, k)) <$> [] | None => [] end)
      by by destruct t.
    eapply table_ok_with; [done| |  |exact E]; [done|]. intros x _. by rewrite app_nil_r.
  - destruct (timer_cancel t s) eqn:E; [|done]. intros [= <- <-].
    replace (match t with Some id => [(id, HCancelled)] | None => [] end)
      with (match t with Some id => (fun k : hist => (id, k)) <$> [HCancelled] | None => [] end)
      by by destruct t.
    eapply table_ok_with; [done| |  |exact E]; [done|]. intros x _ Hx.
    by eapply slot_ok_cancel.
  - destruct (timers_start_iter busy ok s) as [s1 ev] eqn:E. intros [= <- <-].
    unfold timers_start_iter, timers_tick in E. destruct Hok as [Hnd Hs]. simpl in E.
    pose proof (fun id => tick_list_spec busy ok (s32 (tick s + 10)) (timers s) id Hnd) as Hsp.
    destruct (tick_list busy ok (s32 (tick s + 10)) (timers s)) as [l2 ev2] eqn:E2.
    simplify_eq/=. split; [apply (Hsp 0)|]. intros id. specialize (Hs id).
    destruct (Hsp id) as (_ & _ & H3 & H4). unfold find_timer in *. simpl in *.
    rewrite proj_app, H4, H3. destruct (find_in id (timers s)) as [t|]; simpl.
    + by apply slot_ok_tick.
    + by rewrite app_nil_r.
Qed.

Lemma trace_table_ok s l : trace s l -> table_ok s l.
Proof.
  induction 1 as [|o s l s' l' _ IH Hr]; [|by eapply table_ok_step].
  split; simpl; [constructor|]. intros id. unfold proj. simpl.
  destruct (id <? 0); [by exists 0%nat; left|done].
Qed.

End Timer.
Arguments timer : clear implicits.
Arguments timer_state : clear implicits.
Arguments timer_event : clear implicits.
End Timer.
