(* ===== verification/CoreProps.v ===== *)
(** The properties of the shared building blocks: checksum, linked lists, packet
    queues and timers. *)
From S2P Require Import Prelude Utils ListHead SkBuff Timer.
Import Utils.

Module CoreProps.

(** ** Checksum *)

(** A packet whose checksum field was zero when [checksum] was computed over
    it, and which then got the result stored there (at any even offset), has a
    checksum of zero, which is what the receiver tests. *)
Lemma stored_checksum_verifies a c start :
  bytes_ok a -> bytes_ok c -> Nat.even (length a) = true -> 0 <= start ->
  start + word_sum a + word_sum c + 65535 < 4294967296 ->
  let cs := checksum (a ++ [0; 0] ++ c) start in
  checksum (a ++ [cs mod 256; cs / 256] ++ c) start = 0.
Proof. apply checksum_verifies. Qed.

Definition ip_front : list Z := [69; 0; 0; 40; 0; 1; 64; 0; 64; 6].
Definition ip_back : list Z := [10; 0; 0; 4; 10; 0; 0; 5].

Lemma stored_checksum_witness :
  let cs := checksum (ip_front ++ [0; 0] ++ ip_back) 0 in
  checksum (ip_front ++ [cs mod 256; cs / 256] ++ ip_back) 0 = 0.
Proof.
  refine (stored_checksum_verifies ip_front ip_back 0 _ _ _ _ _).
  1, 2: repeat (constructor; [unfold is_u8; lia|]); constructor.
  1, 3: reflexivity.
  lia.
Defined.

(** The checksum computed in two parts, the first summed with
    [sum_every_16bits] and passed on as the start value, is the checksum of the
    whole, as the TCP and ICMPv6 pseudo-headers need. *)
Lemma checksum_in_parts a b start :
  Nat.even (length a) = true ->
  checksum (a ++ b) start = checksum b (u32 (start + sum_every_16bits a)).
Proof. apply checksum_parts. Qed.

Lemma checksum_in_parts_witness :
  checksum (ip_front ++ ip_back) 7 = checksum ip_back (u32 (7 + sum_every_16bits ip_front)).
Proof. exact (checksum_in_parts ip_front ip_back 7 eq_refl). Defined.

(** ** Linked lists *)

Import ListHead.

(** What users do to a list whose head is [head]; the nodes come from outside. *)
Inductive list_op := AddTail (new : positive) | Del (x : positive).

Definition run_list_op (head : positive) (o : list_op) (h : gmap positive list_head) : option (gmap positive list_head) :=
  match o with AddTail new => list_add_tail new head h | Del x => list_del x h end.

(** The abstract effect, and when the operation is legal. *)
Definition spec_list_op (o : list_op) (l : list positive) : list positive :=
  match o with AddTail new => l ++ [new] | Del x => filter (fun y => y <> x) l end.
Definition legal (h : gmap positive list_head) (head : positive) (l : list positive) (o : list_op) : Prop :=
  match o with AddTail new => (new ∉ head :: l) /\ valid h new | Del x => x ∈ l end.

(** C27: [list_add_tail] and [list_del] refine appending to and removing from a
    list: on a well-formed circular list a legal operation succeeds (no pointer
    that holds no node is followed), the links again form a well-formed list of
    exactly the expected nodes, nodes elsewhere are untouched, and walking it
    yields them in order. *)
Theorem list_ops_refine h head l o fuel :
  dll h head l -> legal h head l o -> (length (spec_list_op o l) <= fuel)%nat ->
  exists h', run_list_op head o h = Some h' /\ dll h' head (spec_list_op o l) /\
    list_for_each fuel h' head = Some (spec_list_op o l) /\
    forall q, q ∉ head :: l -> q ∉ spec_list_op o l -> h' !! q = h !! q.
Proof.
  intros D Lg Hf. destruct o as [new|x]; simpl in *.
  - destruct Lg as [Hn Hv]. destruct (add_tail_refines h head l new D Hn Hv) as (h' & E & D' & F).
    exists h'. split; [done|]. split; [done|]. split; [by apply for_each_enumerates|].
    intros q Hq Hq'. apply F. set_solver.
  - apply list_elem_of_split in Lg as (l1 & l2 & ->).
    destruct (del_refines h head l1 x l2 D) as (h' & E & D' & F).
    assert (Ef : filter (fun y => y <> x) (l1 ++ x :: l2) = l1 ++ l2).
    { pose proof (dll_NoDup _ _ _ D) as N. apply NoDup_cons in N as [_ N]. apply NoDup_app in N as (_ & N1 & N2).
      apply NoDup_cons in N2 as [N2 _]. rewrite filter_app, filter_cons_False by tauto.
      rewrite !filter_all; [done|..]; apply Forall_forall; intros y Hy E'; subst y; set_solver. }
    rewrite Ef in *. exists h'. split; [done|]. split; [done|]. split; [by apply for_each_enumerates|].
    intros q Hq Hq'. apply F. set_solver.
Qed.

(** One node, 2, on the list headed by 1; node 3 is free. *)
Definition heap1 : gmap positive list_head :=
  <[1%positive := mk_node 2 2]> (<[2%positive := mk_node 1 1]> (<[3%positive := mk_node 3 3]> ∅)).

Lemma list_ops_refine_witness :
  exists h', run_list_op 1 (AddTail 3) heap1 = Some h' /\ dll h' 1 [2; 3]%positive /\
    list_for_each 2 h' 1 = Some [2; 3]%positive /\
    forall q, q ∉ [1; 2]%positive -> q ∉ [2; 3]%positive -> h' !! q = heap1 !! q.
Proof.
  refine (list_ops_refine heap1 1 [2%positive] (AddTail 3) 2 _ _ _).
  - split; [repeat constructor; set_solver|]. repeat split; vm_compute; reflexivity.
  - split; [set_solver|]. eexists. vm_compute. reflexivity.
  - simpl. lia.
Defined.

(** ** Packet queues *)

Import SkBuff.

(** Freeing a queue empties it and frees, once each and in order, exactly
    the buffers that nobody else holds. *)
Lemma queue_free_all l :
  queue_ok l ->
  skq (skb_queue_free l).1 = [] /\ skb_peek (skb_queue_free l).1 = None /\
  (skb_queue_free l).2 = skb_id <$> filter (fun s => skb_refcnt s - 1 < 1) (skq l).
Proof.
  intros Hok. unfold skb_queue_free. destruct (queue_free_loop_spec (length (skq l)) l Hok (le_n _)) as [E1 E2].
  split; [done|]. split; [|done]. unfold skb_peek. rewrite E1. by destruct (skb_queue_empty _).
Qed.

(** ** Timers *)

Import Timer.

(** C24: over any sequence of calls and ticks that uses no freed timer, the
    history of each timer is: cancellations and at most one release of its
    argument, or one dispatch of its handler followed by cancellations.  No handler
    runs twice, none runs after its timer was cancelled, and no argument is both
    handed to a handler and released. *)
Theorem timer_history {H A : Type} (os : list (@timer_op H A)) s l id :
  run_ops os timer_init [] = Some (s, l) -> history_ok (proj id l).
Proof.
  intros R. pose proof (run_ops_trace os _ _ _ _ trace_init R) as T.
  destruct (trace_table_ok s l T) as [_ Hs]. by apply (slot_ok_history id (next_tm s) (find_timer id s)).
Qed.

Definition idle_all : Z -> bool := fun _ => false.
Definition spawn_all : Z -> bool := fun _ => true.
Definition timer_ops : list (@timer_op unit unit) :=
  [OpAdd 5 tt (Some tt) true; OpAdd 50 tt (Some tt) true; OpTick idle_all spawn_all;
   OpCancel (Some 1); OpTick idle_all spawn_all].

Lemma timer_history_witness :
  match run_ops timer_ops timer_init [] with
  | Some (_, l) => proj 0 l = [HDispatched] /\ history_ok (proj 1 l)
  | None => False
  end.
Proof.
  destruct (run_ops timer_ops timer_init []) as [[s l]|] eqn:E; [|vm_compute in E; discriminate E].
  split; [vm_compute in E; injection E as <- <-; reflexivity|]. exact (timer_history timer_ops s l 1 E).
Defined.

End CoreProps.
