(* ===== verification/TcpTypes.v ===== *)
(** The data of a TCP connection: [src/include/tcp.h], [src/include/sock.h],
    [src/include/socket.h], [src/include/tcp_passive_conn.h].

    [struct tcp_sock] is split into records by concern ([sock], [tcb], timers and
    retransmission, congestion control, SACK and window scale); with the socket it
    belongs to and the shared environment it forms the state [st] the TCP
    functions transform.  The environment holds what all connections share: the
    timer table, the layers below, the accept queues of listening sockets, and
    three logs: wake-ups sent, buffers freed, and faults.  A fault is what C leaves
    undefined (a freed timer used, a [NULL] dereferenced, a lock taken twice). *)
From S2P Require Import Prelude SkBuff Timer.
Import SkBuff Timer.

Module TcpTypes.

Definition AF_INET : Z := 2.
Definition AF_INET6 : Z := 10.
Definition IPPROTO_TCP : Z := 6.
Definition IPPROTO_UDP : Z := 17.
Definition SOCK_STREAM : Z := 1.
Definition O_RDWR : Z := 2.
Definition O_NONBLOCK : Z := 2048.

Definition ETH_HDR_LEN : Z := 14.
Definition IP_HDR_LEN : Z := 20.
Definition IPV6_HDR_LEN : Z := 40.
Definition TCP_HDR_LEN : Z := 20.
Definition TCP_DOFFSET : Z := 5.
Definition IP_TCP : Z := 6.

Definition TCP_FIN : Z := 1.
Definition TCP_PSH : Z := 8.

Definition TCP_SYN_BACKOFF : Z := 500.
Definition TCP_CONN_RETRIES : Z := 3.
Definition TCP_OPT_NOOP : Z := 1.
Definition TCP_OPTLEN_MSS : Z := 4.
Definition TCP_OPT_MSS : Z := 2.
Definition TCP_OPT_SACK_OK : Z := 4.
Definition TCP_OPT_SACK : Z := 5.
Definition TCP_OPTLEN_SACK : Z := 2.
Definition TCP_OPT_TS : Z := 8.
Definition TCP_OPTLEN_TS : Z := 10.
Definition TCP_OPTLEN_WSO : Z := 3.
Definition TCP_OPT_WSO : Z := 3.
Definition TCP_2MSL : Z := 60000.
Definition TCP_USER_TIMEOUT : Z := 180000.

Definition ETIMEDOUT : Z := 110.
Definition ECONNREFUSED : Z := 111.
Definition ECONNRESET : Z := 104.
Definition EPIPE : Z := 32.
Definition EBADF : Z := 9.
Definition EAGAIN : Z := 11.
Definition EINVAL : Z := 22.
Definition EOPNOTSUPP : Z := 95.

Definition POLLIN : Z := 1.
Definition POLLPRI : Z := 2.
Definition POLLOUT : Z := 4.
Definition POLLERR : Z := 8.
Definition POLLHUP : Z := 16.
Definition POLLRDNORM : Z := 64.
Definition POLLRDBAND : Z := 128.
Definition POLLWRNORM : Z := 256.
Definition POLLWRBAND : Z := 512.

Definition poll_or (l : list Z) : Z := foldr Z.lor 0 l.
Definition POLL_READABLE : Z := poll_or [POLLIN; POLLPRI; POLLRDNORM; POLLRDBAND].

Inductive tcp_states :=
  | TCP_LISTEN | TCP_SYN_SENT | TCP_SYN_RECEIVED | TCP_ESTABLISHED | TCP_FIN_WAIT_1
  | TCP_FIN_WAIT_2 | TCP_CLOSE | TCP_CLOSE_WAIT | TCP_CLOSING | TCP_LAST_ACK | TCP_TIME_WAIT.

#[global] Instance tcp_states_eq_dec : EqDecision tcp_states.
Proof. solve_decision. Defined.

Definition state_is (a b : tcp_states) : bool := bool_decide (a = b).

Inductive socket_state :=
  | SS_FREE | SS_UNCONNECTED | SS_CONNECTING | SS_CONNECTED | SS_DISCONNECTING.

#[global] Instance socket_state_eq_dec : EqDecision socket_state.
Proof. solve_decision. Defined.

(** The callbacks handed to the timer table and their [void *] arguments; a sock
    or socket pointer is the identity of its socket. *)
Inductive handler :=
  | H_tcp_connect_rto | H_tcp_retransmission_timeout | H_tcp_send_delack | H_tcp_linger
  | H_tcp_user_timeout | H_socket_garbage_collect
  | H_dad_timeout | H_addr6_preferred_expired | H_addr6_valid_expired.

Inductive harg :=
  | ArgRto (sock : Z) (epoch : Z)      (* struct rto_timer_arg *)
  | ArgSock (sock : Z)
  | ArgDev (copy : nat).                 (* a heap copy of a netdev, see Addrconf *)

(** The condition variables a [struct wait_lock] stands for. *)
Inductive wait_queue :=
  | RecvWait (sock : Z) | WriteWait (sock : Z) | SleepWait (sock : Z) | AcceptWait (sock : Z).

Inductive fault :=
  | FaultTimer (f : timer_fault) | FaultNull | FaultDeadlock | FaultUnlock | FaultDequeueEmpty
  | FaultBounds          (* a write or read outside a buffer *)
  | FaultFreed (id : Z). (* a sock used after it was freed *)

Record tcphdr := mk_th {
  th_sport : Z;
  th_dport : Z;
  th_seq : Z;
  th_ack_seq : Z;
  th_rsvd : Z;
  th_hl : Z;
  th_fin : bool;
  th_syn : bool;
  th_rst : bool;
  th_psh : bool;
  th_ack : bool;
  th_urg : bool;
  th_ece : bool;
  th_cwr : bool;
  th_win : Z;
  th_csum : Z;
  th_urp : Z;
  th_data : list Z  (** the bytes after the fixed header *)
}.

Definition set_th_sport (v : Z) (r : tcphdr) : tcphdr :=
    mk_th v (th_dport r) (th_seq r) (th_ack_seq r) (th_rsvd r) (th_hl r) (th_fin r) (th_syn r)
    (th_rst r) (th_psh r) (th_ack r) (th_urg r) (th_ece r) (th_cwr r) (th_win r) (th_csum r)
    (th_urp r) (th_data r).
Definition set_th_dport (v : Z) (r : tcphdr) : tcphdr :=
    mk_th (th_sport r) v (th_seq r) (th_ack_seq r) (th_rsvd r) (th_hl r) (th_fin r) (th_syn r)
    (th_rst r) (th_psh r) (th_ack r) (th_urg r) (th_ece r) (th_cwr r) (th_win r) (th_csum r)
    (th_urp r) (th_data r).
Definition set_th_seq (v : Z) (r : tcphdr) : tcphdr :=
    mk_th (th_sport r) (th_dport r) v (th_ack_seq r) (th_rsvd r) (th_hl r) (th_fin r) (th_syn
    r) (th_rst r) (th_psh r) (th_ack r) (th_urg r) (th_ece r) (th_cwr r) (th_win r) (th_csum r)
    (th_urp r) (th_data r).
Definition set_th_ack_seq (v : Z) (r : tcphdr) : tcphdr :=
    mk_th (th_sport r) (th_dport r) (th_seq r) v (th_rsvd r) (th_hl r) (th_fin r) (th_syn r)
    (th_rst r) (th_psh r) (th_ack r) (th_urg r) (th_ece r) (th_cwr r) (th_win r) (th_csum r)
    (th_urp r) (th_data r).
Definition set_th_rsvd (v : Z) (r : tcphdr) : tcphdr :=
    mk_th (th_sport r) (th_dport r) (th_seq r) (th_ack_seq r) v (th_hl r) (th_fin r) (th_syn r)
    (th_rst r) (th_psh r) (th_ack r) (th_urg r) (th_ece r) (th_cwr r) (th_win r) (th_csum r)
    (th_urp r) (th_data r).
Definition set_th_hl (v : Z) (r : tcphdr) : tcphdr :=
    mk_th (th_sport r) (th_dport r) (th_seq r) (th_ack_seq r) (th_rsvd r) v (th_fin r) (th_syn
    r) (th_rst r) (th_psh r) (th_ack r) (th_urg r) (th_ece r) (th_cwr r) (th_win r) (th_csum r)
    (th_urp r) (th_data r).
Definition set_th_fin (v : bool) (r : tcphdr) : tcphdr :=
    mk_th (th_sport r) (th_dport r) (th_seq r) (th_ack_seq r) (th_rsvd r) (th_hl r) v (th_syn
    r) (th_rst r) (th_psh r) (th_ack r) (th_urg r) (th_ece r) (th_cwr r) (th_win r) (th_csum r)
    (th_urp r) (th_data r).
Definition set_th_syn (v : bool) (r : tcphdr) : tcphdr :=
    mk_th (th_sport r) (th_dport r) (th_seq r) (th_ack_seq r) (th_rsvd r) (th_hl r) (th_fin r)
    v (th_rst r) (th_psh r) (th_ack r) (th_urg r) (th_ece r) (th_cwr r) (th_win r) (th_csum r)
    (th_urp r) (th_data r).
Definition set_th_rst (v : bool) (r : tcphdr) : tcphdr :=
    mk_th (th_sport r) (th_dport r) (th_seq r) (th_ack_seq r) (th_rsvd r) (th_hl r) (th_fin r)
    (th_syn r) v (th_psh r) (th_ack r) (th_urg r) (th_ece r) (th_cwr r) (th_win r) (th_csum r)
    (th_urp r) (th_data r).
Definition set_th_psh (v : bool) (r : tcphdr) : tcphdr :=
    mk_th (th_sport r) (th_dport r) (th_seq r) (th_ack_seq r) (th_rsvd r) (th_hl r) (th_fin r)
    (th_syn r) (th_rst r) v (th_ack r) (th_urg r) (th_ece r) (th_cwr r) (th_win r) (th_csum r)
    (th_urp r) (th_data r).
Definition set_th_ack (v : bool) (r : tcphdr) : tcphdr :=
    mk_th (th_sport r) (th_dport r) (th_seq r) (th_ack_seq r) (th_rsvd r) (th_hl r) (th_fin r)
    (th_syn r) (th_rst r) (th_psh r) v (th_urg r) (th_ece r) (th_cwr r) (th_win r) (th_csum r)
    (th_urp r) (th_data r).
Definition set_th_urg (v : bool) (r : tcphdr) : tcphdr :=
    mk_th (th_sport r) (th_dport r) (th_seq r) (th_ack_seq r) (th_rsvd r) (th_hl r) (th_fin r)
    (th_syn r) (th_rst r) (th_psh r) (th_ack r) v (th_ece r) (th_cwr r) (th_win r) (th_csum r)
    (th_urp r) (th_data r).
Definition set_th_ece (v : bool) (r : tcphdr) : tcphdr :=
    mk_th (th_sport r) (th_dport r) (th_seq r) (th_ack_seq r) (th_rsvd r) (th_hl r) (th_fin r)
    (th_syn r) (th_rst r) (th_psh r) (th_ack r) (th_urg r) v (th_cwr r) (th_win r) (th_csum r)
    (th_urp r) (th_data r).
Definition set_th_cwr (v : bool) (r : tcphdr) : tcphdr :=
    mk_th (th_sport r) (th_dport r) (th_seq r) (th_ack_seq r) (th_rsvd r) (th_hl r) (th_fin r)
    (th_syn r) (th_rst r) (th_psh r) (th_ack r) (th_urg r) (th_ece r) v (th_win r) (th_csum r)
    (th_urp r) (th_data r).
Definition set_th_win (v : Z) (r : tcphdr) : tcphdr :=
    mk_th (th_sport r) (th_dport r) (th_seq r) (th_ack_seq r) (th_rsvd r) (th_hl r) (th_fin r)
    (th_syn r) (th_rst r) (th_psh r) (th_ack r) (th_urg r) (th_ece r) (th_cwr r) v (th_csum r)
    (th_urp r) (th_data r).
Definition set_th_csum (v : Z) (r : tcphdr) : tcphdr :=
    mk_th (th_sport r) (th_dport r) (th_seq r) (th_ack_seq r) (th_rsvd r) (th_hl r) (th_fin r)
    (th_syn r) (th_rst r) (th_psh r) (th_ack r) (th_urg r) (th_ece r) (th_cwr r) (th_win r) v
    (th_urp r) (th_data r).
Definition set_th_urp (v : Z) (r : tcphdr) : tcphdr :=
    mk_th (th_sport r) (th_dport r) (th_seq r) (th_ack_seq r) (th_rsvd r) (th_hl r) (th_fin r)
    (th_syn r) (th_rst r) (th_psh r) (th_ack r) (th_urg r) (th_ece r) (th_cwr r) (th_win r)
    (th_csum r) v (th_data r).
Definition set_th_data (v : list Z) (r : tcphdr) : tcphdr :=
    mk_th (th_sport r) (th_dport r) (th_seq r) (th_ack_seq r) (th_rsvd r) (th_hl r) (th_fin r)
    (th_syn r) (th_rst r) (th_psh r) (th_ack r) (th_urg r) (th_ece r) (th_cwr r) (th_win r)
    (th_csum r) (th_urp r) v.

Record conn_head := mk_ch {
  ch_list : list Z;  (** sockets, by identity *)
  ch_qlen : Z;
  ch_max_conn : Z
}.

Definition set_ch_list (v : list Z) (r : conn_head) : conn_head :=
    mk_ch v (ch_qlen r) (ch_max_conn r).
Definition set_ch_qlen (v : Z) (r : conn_head) : conn_head :=
    mk_ch (ch_list r) v (ch_max_conn r).
Definition set_ch_max_conn (v : Z) (r : conn_head) : conn_head :=
    mk_ch (ch_list r) (ch_qlen r) v.

Record sock := mk_sock {
  sk_protocol : Z;
  sk_state : tcp_states;
  sk_err : Z;
  sk_poll_events : Z;
  sk_sport : Z;
  sk_dport : Z;
  sk_addr_family : Z;
  sk_saddr : list Z;  (** the 16-byte union *)
  sk_daddr : list Z;  (** the 16-byte union *)
  sk_receive_queue : sk_buff_head;
  sk_write_queue : sk_buff_head
}.

Definition set_sk_protocol (v : Z) (r : sock) : sock :=
    mk_sock v (sk_state r) (sk_err r) (sk_poll_events r) (sk_sport r) (sk_dport r)
    (sk_addr_family r) (sk_saddr r) (sk_daddr r) (sk_receive_queue r) (sk_write_queue r).
Definition set_sk_state (v : tcp_states) (r : sock) : sock :=
    mk_sock (sk_protocol r) v (sk_err r) (sk_poll_events r) (sk_sport r) (sk_dport r)
    (sk_addr_family r) (sk_saddr r) (sk_daddr r) (sk_receive_queue r) (sk_write_queue r).
Definition set_sk_err (v : Z) (r : sock) : sock :=
    mk_sock (sk_protocol r) (sk_state r) v (sk_poll_events r) (sk_sport r) (sk_dport r)
    (sk_addr_family r) (sk_saddr r) (sk_daddr r) (sk_receive_queue r) (sk_write_queue r).
Definition set_sk_poll_events (v : Z) (r : sock) : sock :=
    mk_sock (sk_protocol r) (sk_state r) (sk_err r) v (sk_sport r) (sk_dport r) (sk_addr_family
    r) (sk_saddr r) (sk_daddr r) (sk_receive_queue r) (sk_write_queue r).
Definition set_sk_sport (v : Z) (r : sock) : sock :=
    mk_sock (sk_protocol r) (sk_state r) (sk_err r) (sk_poll_events r) v (sk_dport r)
    (sk_addr_family r) (sk_saddr r) (sk_daddr r) (sk_receive_queue r) (sk_write_queue r).
Definition set_sk_dport (v : Z) (r : sock) : sock :=
    mk_sock (sk_protocol r) (sk_state r) (sk_err r) (sk_poll_events r) (sk_sport r) v
    (sk_addr_family r) (sk_saddr r) (sk_daddr r) (sk_receive_queue r) (sk_write_queue r).
Definition set_sk_addr_family (v : Z) (r : sock) : sock :=
    mk_sock (sk_protocol r) (sk_state r) (sk_err r) (sk_poll_events r) (sk_sport r) (sk_dport
    r) v (sk_saddr r) (sk_daddr r) (sk_receive_queue r) (sk_write_queue r).
Definition set_sk_saddr (v : list Z) (r : sock) : sock :=
    mk_sock (sk_protocol r) (sk_state r) (sk_err r) (sk_poll_events r) (sk_sport r) (sk_dport
    r) (sk_addr_family r) v (sk_daddr r) (sk_receive_queue r) (sk_write_queue r).
Definition set_sk_daddr (v : list Z) (r : sock) : sock :=
    mk_sock (sk_protocol r) (sk_state r) (sk_err r) (sk_poll_events r) (sk_sport r) (sk_dport
    r) (sk_addr_family r) (sk_saddr r) v (sk_receive_queue r) (sk_write_queue r).
Definition set_sk_receive_queue (v : sk_buff_head) (r : sock) : sock :=
    mk_sock (sk_protocol r) (sk_state r) (sk_err r) (sk_poll_events r) (sk_sport r) (sk_dport
    r) (sk_addr_family r) (sk_saddr r) (sk_daddr r) v (sk_write_queue r).
Definition set_sk_write_queue (v : sk_buff_head) (r : sock) : sock :=
    mk_sock (sk_protocol r) (sk_state r) (sk_err r) (sk_poll_events r) (sk_sport r) (sk_dport
    r) (sk_addr_family r) (sk_saddr r) (sk_daddr r) (sk_receive_queue r) v.

Record tcb := mk_tcb {
  snd_una : Z;
  snd_nxt : Z;
  snd_wnd : Z;
  snd_up : Z;
  snd_wl1 : Z;
  snd_wl2 : Z;
  iss : Z;
  rcv_nxt : Z;
  rcv_wnd : Z;
  real_rcv_wnd : Z;
  rcv_up : Z;
  irs : Z
}.

Definition set_snd_una (v : Z) (r : tcb) : tcb :=
    mk_tcb v (snd_nxt r) (snd_wnd r) (snd_up r) (snd_wl1 r) (snd_wl2 r) (iss r) (rcv_nxt r)
    (rcv_wnd r) (real_rcv_wnd r) (rcv_up r) (irs r).
Definition set_snd_nxt (v : Z) (r : tcb) : tcb :=
    mk_tcb (snd_una r) v (snd_wnd r) (snd_up r) (snd_wl1 r) (snd_wl2 r) (iss r) (rcv_nxt r)
    (rcv_wnd r) (real_rcv_wnd r) (rcv_up r) (irs r).
Definition set_snd_wnd (v : Z) (r : tcb) : tcb :=
    mk_tcb (snd_una r) (snd_nxt r) v (snd_up r) (snd_wl1 r) (snd_wl2 r) (iss r) (rcv_nxt r)
    (rcv_wnd r) (real_rcv_wnd r) (rcv_up r) (irs r).
Definition set_snd_up (v : Z) (r : tcb) : tcb :=
    mk_tcb (snd_una r) (snd_nxt r) (snd_wnd r) v (snd_wl1 r) (snd_wl2 r) (iss r) (rcv_nxt r)
    (rcv_wnd r) (real_rcv_wnd r) (rcv_up r) (irs r).
Definition set_snd_wl1 (v : Z) (r : tcb) : tcb :=
    mk_tcb (snd_una r) (snd_nxt r) (snd_wnd r) (snd_up r) v (snd_wl2 r) (iss r) (rcv_nxt r)
    (rcv_wnd r) (real_rcv_wnd r) (rcv_up r) (irs r).
Definition set_snd_wl2 (v : Z) (r : tcb) : tcb :=
    mk_tcb (snd_una r) (snd_nxt r) (snd_wnd r) (snd_up r) (snd_wl1 r) v (iss r) (rcv_nxt r)
    (rcv_wnd r) (real_rcv_wnd r) (rcv_up r) (irs r).
Definition set_iss (v : Z) (r : tcb) : tcb :=
    mk_tcb (snd_una r) (snd_nxt r) (snd_wnd r) (snd_up r) (snd_wl1 r) (snd_wl2 r) v (rcv_nxt r)
    (rcv_wnd r) (real_rcv_wnd r) (rcv_up r) (irs r).
Definition set_rcv_nxt (v : Z) (r : tcb) : tcb :=
    mk_tcb (snd_una r) (snd_nxt r) (snd_wnd r) (snd_up r) (snd_wl1 r) (snd_wl2 r) (iss r) v
    (rcv_wnd r) (real_rcv_wnd r) (rcv_up r) (irs r).
Definition set_rcv_wnd (v : Z) (r : tcb) : tcb :=
    mk_tcb (snd_una r) (snd_nxt r) (snd_wnd r) (snd_up r) (snd_wl1 r) (snd_wl2 r) (iss r)
    (rcv_nxt r) v (real_rcv_wnd r) (rcv_up r) (irs r).
Definition set_real_rcv_wnd (v : Z) (r : tcb) : tcb :=
    mk_tcb (snd_una r) (snd_nxt r) (snd_wnd r) (snd_up r) (snd_wl1 r) (snd_wl2 r) (iss r)
    (rcv_nxt r) (rcv_wnd r) v (rcv_up r) (irs r).
Definition set_rcv_up (v : Z) (r : tcb) : tcb :=
    mk_tcb (snd_una r) (snd_nxt r) (snd_wnd r) (snd_up r) (snd_wl1 r) (snd_wl2 r) (iss r)
    (rcv_nxt r) (rcv_wnd r) (real_rcv_wnd r) v (irs r).
Definition set_irs (v : Z) (r : tcb) : tcb :=
    mk_tcb (snd_una r) (snd_nxt r) (snd_wnd r) (snd_up r) (snd_wl1 r) (snd_wl2 r) (iss r)
    (rcv_nxt r) (rcv_wnd r) (real_rcv_wnd r) (rcv_up r) v.

Record tcp_timing := mk_tm {
  tcp_header_len : Z;
  tsk_flags : Z;
  backoff : Z;
  srtt : Z;
  rttvar : Z;
  rto : Z;
  rto_epoch : Z;
  retransmit : option Z;
  delack : option Z;
  keepalive : option Z;
  linger : option Z;
  delacks : Z
}.

Definition set_tcp_header_len (v : Z) (r : tcp_timing) : tcp_timing :=
    mk_tm v (tsk_flags r) (backoff r) (srtt r) (rttvar r) (rto r) (rto_epoch r) (retransmit r)
    (delack r) (keepalive r) (linger r) (delacks r).
Definition set_tsk_flags (v : Z) (r : tcp_timing) : tcp_timing :=
    mk_tm (tcp_header_len r) v (backoff r) (srtt r) (rttvar r) (rto r) (rto_epoch r)
    (retransmit r) (delack r) (keepalive r) (linger r) (delacks r).
Definition set_backoff (v : Z) (r : tcp_timing) : tcp_timing :=
    mk_tm (tcp_header_len r) (tsk_flags r) v (srtt r) (rttvar r) (rto r) (rto_epoch r)
    (retransmit r) (delack r) (keepalive r) (linger r) (delacks r).
Definition set_srtt (v : Z) (r : tcp_timing) : tcp_timing :=
    mk_tm (tcp_header_len r) (tsk_flags r) (backoff r) v (rttvar r) (rto r) (rto_epoch r)
    (retransmit r) (delack r) (keepalive r) (linger r) (delacks r).
Definition set_rttvar (v : Z) (r : tcp_timing) : tcp_timing :=
    mk_tm (tcp_header_len r) (tsk_flags r) (backoff r) (srtt r) v (rto r) (rto_epoch r)
    (retransmit r) (delack r) (keepalive r) (linger r) (delacks r).
Definition set_rto (v : Z) (r : tcp_timing) : tcp_timing :=
    mk_tm (tcp_header_len r) (tsk_flags r) (backoff r) (srtt r) (rttvar r) v (rto_epoch r)
    (retransmit r) (delack r) (keepalive r) (linger r) (delacks r).
Definition set_rto_epoch (v : Z) (r : tcp_timing) : tcp_timing :=
    mk_tm (tcp_header_len r) (tsk_flags r) (backoff r) (srtt r) (rttvar r) (rto r) v
    (retransmit r) (delack r) (keepalive r) (linger r) (delacks r).
Definition set_retransmit (v : option Z) (r : tcp_timing) : tcp_timing :=
    mk_tm (tcp_header_len r) (tsk_flags r) (backoff r) (srtt r) (rttvar r) (rto r) (rto_epoch
    r) v (delack r) (keepalive r) (linger r) (delacks r).
Definition set_delack (v : option Z) (r : tcp_timing) : tcp_timing :=
    mk_tm (tcp_header_len r) (tsk_flags r) (backoff r) (srtt r) (rttvar r) (rto r) (rto_epoch
    r) (retransmit r) v (keepalive r) (linger r) (delacks r).
Definition set_keepalive (v : option Z) (r : tcp_timing) : tcp_timing :=
    mk_tm (tcp_header_len r) (tsk_flags r) (backoff r) (srtt r) (rttvar r) (rto r) (rto_epoch
    r) (retransmit r) (delack r) v (linger r) (delacks r).
Definition set_linger (v : option Z) (r : tcp_timing) : tcp_timing :=
    mk_tm (tcp_header_len r) (tsk_flags r) (backoff r) (srtt r) (rttvar r) (rto r) (rto_epoch
    r) (retransmit r) (delack r) (keepalive r) v (delacks r).
Definition set_delacks (v : Z) (r : tcp_timing) : tcp_timing :=
    mk_tm (tcp_header_len r) (tsk_flags r) (backoff r) (srtt r) (rttvar r) (rto r) (rto_epoch
    r) (retransmit r) (delack r) (keepalive r) (linger r) v.

Record tcp_cong := mk_cc {
  rmss : Z;
  smss : Z;
  cwnd : Z;
  ssthresh : Z;
  inflight : Z;
  bytes_acked : Z;
  dupacks : Z;
  in_recovery : Z;
  last_ack_win : Z
}.

Definition set_rmss (v : Z) (r : tcp_cong) : tcp_cong :=
    mk_cc v (smss r) (cwnd r) (ssthresh r) (inflight r) (bytes_acked r) (dupacks r)
    (in_recovery r) (last_ack_win r).
Definition set_smss (v : Z) (r : tcp_cong) : tcp_cong :=
    mk_cc (rmss r) v (cwnd r) (ssthresh r) (inflight r) (bytes_acked r) (dupacks r)
    (in_recovery r) (last_ack_win r).
Definition set_cwnd (v : Z) (r : tcp_cong) : tcp_cong :=
    mk_cc (rmss r) (smss r) v (ssthresh r) (inflight r) (bytes_acked r) (dupacks r)
    (in_recovery r) (last_ack_win r).
Definition set_ssthresh (v : Z) (r : tcp_cong) : tcp_cong :=
    mk_cc (rmss r) (smss r) (cwnd r) v (inflight r) (bytes_acked r) (dupacks r) (in_recovery r)
    (last_ack_win r).
Definition set_inflight (v : Z) (r : tcp_cong) : tcp_cong :=
    mk_cc (rmss r) (smss r) (cwnd r) (ssthresh r) v (bytes_acked r) (dupacks r) (in_recovery r)
    (last_ack_win r).
Definition set_bytes_acked (v : Z) (r : tcp_cong) : tcp_cong :=
    mk_cc (rmss r) (smss r) (cwnd r) (ssthresh r) (inflight r) v (dupacks r) (in_recovery r)
    (last_ack_win r).
Definition set_dupacks (v : Z) (r : tcp_cong) : tcp_cong :=
    mk_cc (rmss r) (smss r) (cwnd r) (ssthresh r) (inflight r) (bytes_acked r) v (in_recovery
    r) (last_ack_win r).
Definition set_in_recovery (v : Z) (r : tcp_cong) : tcp_cong :=
    mk_cc (rmss r) (smss r) (cwnd r) (ssthresh r) (inflight r) (bytes_acked r) (dupacks r) v
    (last_ack_win r).
Definition set_last_ack_win (v : Z) (r : tcp_cong) : tcp_cong :=
    mk_cc (rmss r) (smss r) (cwnd r) (ssthresh r) (inflight r) (bytes_acked r) (dupacks r)
    (in_recovery r) v.

Record tcp_sackst := mk_sa {
  sackok : Z;
  sacks_allowed : Z;
  sacklen : Z;
  sacks : list (Z * Z);  (** 4 blocks *)
  sack_max_right : Z;
  snd_scale : Z;
  wso_allowed : Z;
  rcv_scale : Z;
  tsopt : Z
}.

Definition set_sackok (v : Z) (r : tcp_sackst) : tcp_sackst :=
    mk_sa v (sacks_allowed r) (sacklen r) (sacks r) (sack_max_right r) (snd_scale r)
    (wso_allowed r) (rcv_scale r) (tsopt r).
Definition set_sacks_allowed (v : Z) (r : tcp_sackst) : tcp_sackst :=
    mk_sa (sackok r) v (sacklen r) (sacks r) (sack_max_right r) (snd_scale r) (wso_allowed r)
    (rcv_scale r) (tsopt r).
Definition set_sacklen (v : Z) (r : tcp_sackst) : tcp_sackst :=
    mk_sa (sackok r) (sacks_allowed r) v (sacks r) (sack_max_right r) (snd_scale r)
    (wso_allowed r) (rcv_scale r) (tsopt r).
Definition set_sacks (v : list (Z * Z)) (r : tcp_sackst) : tcp_sackst :=
    mk_sa (sackok r) (sacks_allowed r) (sacklen r) v (sack_max_right r) (snd_scale r)
    (wso_allowed r) (rcv_scale r) (tsopt r).
Definition set_sack_max_right (v : Z) (r : tcp_sackst) : tcp_sackst :=
    mk_sa (sackok r) (sacks_allowed r) (sacklen r) (sacks r) v (snd_scale r) (wso_allowed r)
    (rcv_scale r) (tsopt r).
Definition set_snd_scale (v : Z) (r : tcp_sackst) : tcp_sackst :=
    mk_sa (sackok r) (sacks_allowed r) (sacklen r) (sacks r) (sack_max_right r) v (wso_allowed
    r) (rcv_scale r) (tsopt r).
Definition set_wso_allowed (v : Z) (r : tcp_sackst) : tcp_sackst :=
    mk_sa (sackok r) (sacks_allowed r) (sacklen r) (sacks r) (sack_max_right r) (snd_scale r) v
    (rcv_scale r) (tsopt r).
Definition set_rcv_scale (v : Z) (r : tcp_sackst) : tcp_sackst :=
    mk_sa (sackok r) (sacks_allowed r) (sacklen r) (sacks r) (sack_max_right r) (snd_scale r)
    (wso_allowed r) v (tsopt r).
Definition set_tsopt (v : Z) (r : tcp_sackst) : tcp_sackst :=
    mk_sa (sackok r) (sacks_allowed r) (sacklen r) (sacks r) (sack_max_right r) (snd_scale r)
    (wso_allowed r) (rcv_scale r) v.

Record socket := mk_socket {
  so_id : Z;  (** identity of the allocation *)
  so_fd : Z;
  so_pid : Z;
  so_refcnt : Z;
  so_state : socket_state;
  so_type : Z;
  so_flags : Z;
  so_locked : bool;  (** the write lock is held *)
  so_freed : bool  (** [free] was called on it *)
}.

Definition set_so_id (v : Z) (r : socket) : socket :=
    mk_socket v (so_fd r) (so_pid r) (so_refcnt r) (so_state r) (so_type r) (so_flags r)
    (so_locked r) (so_freed r).
Definition set_so_fd (v : Z) (r : socket) : socket :=
    mk_socket (so_id r) v (so_pid r) (so_refcnt r) (so_state r) (so_type r) (so_flags r)
    (so_locked r) (so_freed r).
Definition set_so_pid (v : Z) (r : socket) : socket :=
    mk_socket (so_id r) (so_fd r) v (so_refcnt r) (so_state r) (so_type r) (so_flags r)
    (so_locked r) (so_freed r).
Definition set_so_refcnt (v : Z) (r : socket) : socket :=
    mk_socket (so_id r) (so_fd r) (so_pid r) v (so_state r) (so_type r) (so_flags r) (so_locked
    r) (so_freed r).
Definition set_so_state (v : socket_state) (r : socket) : socket :=
    mk_socket (so_id r) (so_fd r) (so_pid r) (so_refcnt r) v (so_type r) (so_flags r)
    (so_locked r) (so_freed r).
Definition set_so_type (v : Z) (r : socket) : socket :=
    mk_socket (so_id r) (so_fd r) (so_pid r) (so_refcnt r) (so_state r) v (so_flags r)
    (so_locked r) (so_freed r).
Definition set_so_flags (v : Z) (r : socket) : socket :=
    mk_socket (so_id r) (so_fd r) (so_pid r) (so_refcnt r) (so_state r) (so_type r) v
    (so_locked r) (so_freed r).
Definition set_so_locked (v : bool) (r : socket) : socket :=
    mk_socket (so_id r) (so_fd r) (so_pid r) (so_refcnt r) (so_state r) (so_type r) (so_flags
    r) v (so_freed r).
Definition set_so_freed (v : bool) (r : socket) : socket :=
    mk_socket (so_id r) (so_fd r) (so_pid r) (so_refcnt r) (so_state r) (so_type r) (so_flags
    r) (so_locked r) v.

Section State.
Context {L : Type}.

Record env := mk_env {
  e_timers : timer_state handler harg;
  e_lower : L;  (** routes, neighbours, device *)
  e_passive : gmap Z conn_head;  (** accept queues of the listening sockets *)
  e_wakes : list wait_queue;  (** condition variables signalled *)
  e_freed : list Z;  (** buffers freed, by identity *)
  e_next_skb : Z;
  e_faults : list fault;
  e_clock : Z;  (** [time(NULL)] *)
  e_rand : list Z;  (** results of [rand()] *)
  e_port : Z  (** the static counter of [generate_port] *)
}.

Definition set_e_timers (v : timer_state handler harg) (r : env) : env :=
    mk_env v (e_lower r) (e_passive r) (e_wakes r) (e_freed r) (e_next_skb r) (e_faults r)
    (e_clock r) (e_rand r) (e_port r).
Definition set_e_lower (v : L) (r : env) : env :=
    mk_env (e_timers r) v (e_passive r) (e_wakes r) (e_freed r) (e_next_skb r) (e_faults r)
    (e_clock r) (e_rand r) (e_port r).
Definition set_e_passive (v : gmap Z conn_head) (r : env) : env :=
    mk_env (e_timers r) (e_lower r) v (e_wakes r) (e_freed r) (e_next_skb r) (e_faults r)
    (e_clock r) (e_rand r) (e_port r).
Definition set_e_wakes (v : list wait_queue) (r : env) : env :=
    mk_env (e_timers r) (e_lower r) (e_passive r) v (e_freed r) (e_next_skb r) (e_faults r)
    (e_clock r) (e_rand r) (e_port r).
Definition set_e_freed (v : list Z) (r : env) : env :=
    mk_env (e_timers r) (e_lower r) (e_passive r) (e_wakes r) v (e_next_skb r) (e_faults r)
    (e_clock r) (e_rand r) (e_port r).
Definition set_e_next_skb (v : Z) (r : env) : env :=
    mk_env (e_timers r) (e_lower r) (e_passive r) (e_wakes r) (e_freed r) v (e_faults r)
    (e_clock r) (e_rand r) (e_port r).
Definition set_e_faults (v : list fault) (r : env) : env :=
    mk_env (e_timers r) (e_lower r) (e_passive r) (e_wakes r) (e_freed r) (e_next_skb r) v
    (e_clock r) (e_rand r) (e_port r).
Definition set_e_clock (v : Z) (r : env) : env :=
    mk_env (e_timers r) (e_lower r) (e_passive r) (e_wakes r) (e_freed r) (e_next_skb r)
    (e_faults r) v (e_rand r) (e_port r).
Definition set_e_rand (v : list Z) (r : env) : env :=
    mk_env (e_timers r) (e_lower r) (e_passive r) (e_wakes r) (e_freed r) (e_next_skb r)
    (e_faults r) (e_clock r) v (e_port r).
Definition set_e_port (v : Z) (r : env) : env :=
    mk_env (e_timers r) (e_lower r) (e_passive r) (e_wakes r) (e_freed r) (e_next_skb r)
    (e_faults r) (e_clock r) (e_rand r) v.

Record st := mk_st {
  sk : sock;
  tb : tcb;
  tm : tcp_timing;
  cc : tcp_cong;
  sa : tcp_sackst;
  ofo : sk_buff_head;
  ptsk : option Z;
  so : socket;
  en : env
}.

Definition set_sk (v : sock) (r : st) : st :=
    mk_st v (tb r) (tm r) (cc r) (sa r) (ofo r) (ptsk r) (so r) (en r).
Definition set_tb (v : tcb) (r : st) : st :=
    mk_st (sk r) v (tm r) (cc r) (sa r) (ofo r) (ptsk r) (so r) (en r).
Definition set_tm (v : tcp_timing) (r : st) : st :=
    mk_st (sk r) (tb r) v (cc r) (sa r) (ofo r) (ptsk r) (so r) (en r).
Definition set_cc (v : tcp_cong) (r : st) : st :=
    mk_st (sk r) (tb r) (tm r) v (sa r) (ofo r) (ptsk r) (so r) (en r).
Definition set_sa (v : tcp_sackst) (r : st) : st :=
    mk_st (sk r) (tb r) (tm r) (cc r) v (ofo r) (ptsk r) (so r) (en r).
Definition set_ofo (v : sk_buff_head) (r : st) : st :=
    mk_st (sk r) (tb r) (tm r) (cc r) (sa r) v (ptsk r) (so r) (en r).
Definition set_ptsk (v : option Z) (r : st) : st :=
    mk_st (sk r) (tb r) (tm r) (cc r) (sa r) (ofo r) v (so r) (en r).
Definition set_so (v : socket) (r : st) : st :=
    mk_st (sk r) (tb r) (tm r) (cc r) (sa r) (ofo r) (ptsk r) v (en r).
Definition set_en (v : env) (r : st) : st :=
    mk_st (sk r) (tb r) (tm r) (cc r) (sa r) (ofo r) (ptsk r) (so r) v.

(** Updates of one part. *)
Definition upd_sk (f : sock -> sock) (s : st) : st := set_sk (f (sk s)) s.
Definition upd_tb (f : tcb -> tcb) (s : st) : st := set_tb (f (tb s)) s.
Definition upd_tm (f : tcp_timing -> tcp_timing) (s : st) : st := set_tm (f (tm s)) s.
Definition upd_cc (f : tcp_cong -> tcp_cong) (s : st) : st := set_cc (f (cc s)) s.
Definition upd_sa (f : tcp_sackst -> tcp_sackst) (s : st) : st := set_sa (f (sa s)) s.
Definition upd_so (f : socket -> socket) (s : st) : st := set_so (f (so s)) s.
Definition upd_en (f : env -> env) (s : st) : st := set_en (f (en s)) s.

Definition state (s : st) : tcp_states := sk_state (sk s).
Definition self (s : st) : Z := so_id (so s).

Definition wake (w : wait_queue) (s : st) : st := upd_en (fun e => set_e_wakes (e_wakes e ++ [w]) e) s.
Definition add_fault (f : fault) (s : st) : st := upd_en (fun e => set_e_faults (e_faults e ++ [f]) e) s.

(** [free_skb]: logged when it really frees. *)
Definition do_free_skb (b : sk_buff) (s : st) : st :=
  if free_skb b then upd_en (fun e => set_e_freed (e_freed e ++ [skb_id b]) e) s else s.

Definition lift_timer (r : timer_state handler harg + timer_fault) (s : st) : st :=
  match r with
  | inl t => upd_en (set_e_timers t) s
  | inr f => add_fault (FaultTimer f) s
  end.

Definition do_timer_cancel (t : option Z) (s : st) : st := lift_timer (timer_cancel t (e_timers (en s))) s.
Definition do_timer_release (t : option Z) (s : st) : st := lift_timer (timer_release t (e_timers (en s))) s.
Definition do_timer_add (expire : Z) (h : handler) (a : harg) (release : bool) (s : st) : Z * st :=
  let '(id, t) := timer_add_with_release expire h (Some a) release (e_timers (en s)) in
  (id, upd_en (set_e_timers t) s).

(** [alloc_skb] in the environment: a fresh identity. *)
Definition do_alloc_skb (size : Z) (s : st) : sk_buff * st :=
  (alloc_skb (e_next_skb (en s)) size, upd_en (fun e => set_e_next_skb (e_next_skb e + 1) e) s).

(** [wait_wakeup] on the sock's and the socket's wait locks. *)
Definition recv_notify (s : st) : st := wake (RecvWait (self s)) s.

(** [socket_wr_acquire] / [socket_release]: the lock and the reference count.
    Taking the lock a second time is undefined in POSIX; glibc returns [EDEADLK],
    which the code ignores, and the reference is counted all the same. *)
Definition socket_wr_acquire (s : st) : st :=
  let s1 := upd_so (fun o => set_so_locked true (set_so_refcnt (so_refcnt o + 1) o)) s in
  if so_locked (so s) then add_fault FaultDeadlock s1 else s1.
Definition socket_release (s : st) : st :=
  if so_locked (so s) then
    let n := so_refcnt (so s) - 1 in
    upd_so (fun o => set_so_freed (so_freed o || (n =? 0)) (set_so_locked false (set_so_refcnt n o))) s
  else add_fault FaultUnlock s.

Definition set_state (v : tcp_states) (s : st) : st := upd_sk (set_sk_state v) s.
Definition set_err (v : Z) (s : st) : st := upd_sk (set_sk_err v) s.
Definition or_poll (v : Z) (s : st) : st := upd_sk (fun k => set_sk_poll_events (Z.lor (sk_poll_events k) v) k) s.

End State.
Arguments env : clear implicits.
Arguments st : clear implicits.

(** ** The TCP header in a buffer *)

Definition ip_hlen (family : Z) : Z := if family =? AF_INET6 then IPV6_HDR_LEN else IP_HDR_LEN.

(** [tcp_hdr_for_sk]: offset of the TCP header from [skb->head]. *)
Definition tcp_hdr_for_sk (family : Z) : nat := Z.to_nat (ETH_HDR_LEN + ip_hlen family).

(** Bit numbers within the flags byte (offset 13). *)
Definition F_FIN : Z := 0.
Definition F_SYN : Z := 1.
Definition F_RST : Z := 2.
Definition F_PSH : Z := 3.
Definition F_ACK : Z := 4.
Definition F_URG : Z := 5.
Definition F_ECE : Z := 6.
Definition F_CWR : Z := 7.

Definition th_flag (o : nat) (bit : Z) (b : list Z) : bool := Z.testbit (ld8 b (o + 13)) bit.
Definition th_set_flag (o : nat) (bit : Z) (b : list Z) : list Z :=
  st8 b (o + 13) (Z.lor (ld8 b (o + 13)) (Z.shiftl 1 bit)).
(** [rsvd : 4, hl : 4] at offset 12, low nibble first. *)
Definition th_get_hl (o : nat) (b : list Z) : Z := Z.shiftr (ld8 b (o + 12)) 4.
Definition th_set_hl (o : nat) (v : Z) (b : list Z) : list Z :=
  st8 b (o + 12) (Z.lor (Z.land (ld8 b (o + 12)) 15) (Z.shiftl v 4)).
Definition th_set_rsvd (o : nat) (v : Z) (b : list Z) : list Z :=
  st8 b (o + 12) (Z.lor (Z.land (ld8 b (o + 12)) 240) (Z.land v 15)).

(** The header read in place, fields in host order after [tcp_init_segment]. *)
Definition read_tcphdr (o : nat) (b : list Z) : tcphdr :=
  mk_th (ld16 b o) (ld16 b (o + 2)) (ld32 b (o + 4)) (ld32 b (o + 8))
    (Z.land (ld8 b (o + 12)) 15) (th_get_hl o b)
    (th_flag o F_FIN b) (th_flag o F_SYN b) (th_flag o F_RST b) (th_flag o F_PSH b)
    (th_flag o F_ACK b) (th_flag o F_URG b) (th_flag o F_ECE b) (th_flag o F_CWR b)
    (ld16 b (o + 14)) (ld16 b (o + 16)) (ld16 b (o + 18)) (drop (o + 20) b).

Lemma th_get_set_hl o v b :
  (o + 12 < length b)%nat -> 0 <= v < 16 -> th_get_hl o (th_set_hl o v b) = v.
Proof.
  intros Ho Hv. unfold th_get_hl, th_set_hl. rewrite ld8_st8_eq by lia. unfold u8.
  change 256 with (2 ^ 8). apply Z.bits_inj'. intros n Hn. rewrite Z.shiftr_spec by lia.
  destruct (Z_lt_le_dec n 4).
  - rewrite Z.mod_pow2_bits_low, Z.lor_spec, Z.land_spec, Z.shiftl_spec by lia.
    change 15 with (Z.ones 4). rewrite Z.ones_spec_high by lia.
    rewrite andb_false_r. simpl. f_equal. lia.
  - rewrite Z.mod_pow2_bits_high by lia. symmetry. apply Z.bits_above_log2; [lia|].
    destruct (Z.eq_dec v 0) as [->|]; [simpl; lia|]. apply Z.log2_lt_pow2; [lia|].
    assert (2 ^ 4 <= 2 ^ n) by (apply Z.pow_le_mono_r; lia). lia.
Qed.

Lemma th_flag_set o bit bit' b :
  (o + 13 < length b)%nat -> 0 <= bit < 8 -> 0 <= bit' < 8 ->
  th_flag o bit (th_set_flag o bit' b) = (bit =? bit') || th_flag o bit b.
Proof.
  intros Ho Hb Hb'. unfold th_flag, th_set_flag. rewrite ld8_st8_eq by lia. unfold u8.
  change 256 with (2 ^ 8). rewrite Z.mod_pow2_bits_low, Z.lor_spec, orb_comm by lia. f_equal.
  rewrite Z.shiftl_1_l, Z.pow2_bits_eqb by lia. by rewrite Z.eqb_sym.
Qed.

(** [tcp_hlen(th)] *)
Definition tcp_hlen (th : tcphdr) : Z := Z.shiftl (th_hl th) 2.

(** ** What TCP needs from the layers below *)

Record out6 (L : Type) := mk_out6 {
  o6_lower : L;
  o6_skb : sk_buff;
  o6_freed : bool;       (** the buffer was passed to [free_skb] *)
  o6_saddr : list Z;     (** the source address, written back when auto-selected *)
  o6_rc : Z
}.
Arguments mk_out6 {L}.
Arguments o6_lower {L}.
Arguments o6_skb {L}.
Arguments o6_freed {L}.
Arguments o6_saddr {L}.
Arguments o6_rc {L}.

(** What TCP reads of the route [route6_lookup] returns. *)
Record route6_view := mk_rt6v {
  rtv_pmtu : Z;
  rtv_dev : option (Z * Z)  (** [dev->mtu6], [dev->mtu] *)
}.

(** [ip_output(sk, skb)] (of [sk] only [daddr.v4] is used) and
    [ipv6_output(skb, nexthdr, saddr, daddr)]. *)
Class IpLayer (L : Type) := {
  route6_view_of : L -> list Z -> option route6_view;
  ip_output : L -> Z -> sk_buff -> L * sk_buff * Z;
  ipv6_output : L -> sk_buff -> Z -> list Z -> list Z -> out6 L
}.

(** What a transmission must leave alone in a buffer that stays queued. *)
Record same_meta (a b : sk_buff) : Prop := {
  sm_id : skb_id b = skb_id a;
  sm_refcnt : skb_refcnt b = skb_refcnt a;
  sm_protocol : skb_protocol b = skb_protocol a;
  sm_dlen : skb_dlen b = skb_dlen a;
  sm_seq : skb_seq b = skb_seq a;
  sm_end_seq : skb_end_seq b = skb_end_seq a;
  sm_sacked : skb_sacked b = skb_sacked a;
  sm_buf : length (skb_buf b) = length (skb_buf a)
}.

(** The bytes a layer below may change in a TCP segment whose header is at [o]:
    what is in front of it, and the checksum. *)
Definition same_segment (o : nat) (a b : list Z) : Prop :=
  forall i, (o <= i)%nat -> i <> (o + 16)%nat -> i <> (o + 17)%nat -> ld8 b i = ld8 a i.

Class IpLayerLaws (L : Type) `{IpLayer L} := {
  ip_output_meta l d b : same_meta b (ip_output l d b).1.2;
  ipv6_output_meta l b n sa da : same_meta b (o6_skb (ipv6_output l b n sa da));
  ip_output_segment l d b : skb_protocol b = IP_TCP -> skb_data b = Z.of_nat (tcp_hdr_for_sk AF_INET) ->
    same_segment (tcp_hdr_for_sk AF_INET) (skb_buf b) (skb_buf (ip_output l d b).1.2);
  ipv6_output_segment l b sa da : skb_data b = Z.of_nat (tcp_hdr_for_sk AF_INET6) ->
    same_segment (tcp_hdr_for_sk AF_INET6) (skb_buf b) (skb_buf (o6_skb (ipv6_output l b IP_TCP sa da)))
}.

#[export] Instance same_meta_preorder : PreOrder same_meta.
Proof.
  split; [by constructor|]. intros a b c [] []. constructor; congruence.
Qed.

End TcpTypes.
