(* ===== verification/TcpBase.v ===== *)
(** The parts of [src/src/tcp.c] every other TCP file calls: timers, teardown,
    the RTT estimator, SACK generation and the partial checksums. *)
From S2P Require Import Prelude Utils SkBuff Timer TcpTypes.
Import Utils SkBuff Timer TcpTypes.

Module TcpBase.

(** TCP's share of the pseudo-header checksum: zero, protocol, length, segment. *)
Definition tcp_v4_tcp_partion_checksum (b : sk_buff) : Z :=
  let len := skb_len b in
  let pseudo := [0; IP_TCP; u8 (Z.shiftr len 8); u8 (Z.land len 255)] in
  u32 (sum_every_16bits pseudo + sum_every_16bits (skb_bytes b)).

Definition tcp_v6_tcp_partion_checksum (b : sk_buff) : Z :=
  let len := skb_len b in
  let pseudo := [u8 (Z.shiftr len 24); u8 (Z.shiftr len 16); u8 (Z.shiftr len 8);
                 u8 (Z.land len 255); 0; 0; 0; IP_TCP] in
  u32 (sum_every_16bits pseudo + sum_every_16bits (skb_bytes b)).

Section Base.
Context {L : Type}.
Implicit Type s : st L.

(** [(int)time(NULL) * rand()] *)
Definition generate_iss s : Z * st L :=
  let r := match e_rand (en s) with x :: _ => x | [] => 0 end in
  (s32 (s32 (e_clock (en s)) * r), upd_en (fun e => set_e_rand (tail (e_rand e)) e) s).

(** ** Timers of a connection *)

Definition tcp_stop_rto_timer s : st L :=
  let s := do_timer_cancel (retransmit (tm s)) s in
  upd_tm (fun t => set_rto_epoch (u64 (rto_epoch t + 1)) (set_backoff 0 (set_retransmit None t))) s.

Definition tcp_release_rto_timer s : st L :=
  upd_tm (set_retransmit None) (do_timer_release (retransmit (tm s)) s).

Definition tcp_stop_delack_timer s : st L :=
  upd_tm (set_delack None) (do_timer_cancel (delack (tm s)) s).

Definition tcp_release_delack_timer s : st L :=
  upd_tm (set_delack None) (do_timer_release (delack (tm s)) s).

Definition tcp_clear_timers s : st L :=
  let s := tcp_stop_rto_timer s in
  let s := tcp_stop_delack_timer s in
  let s := upd_tm (set_keepalive None) (do_timer_cancel (keepalive (tm s)) s) in
  upd_tm (set_linger None) (do_timer_cancel (linger (tm s)) s).

(** ** Teardown *)

Definition tcp_clear_queues s : st L :=
  let '(q, freed) := skb_queue_free (ofo s) in
  upd_en (fun e => set_e_freed (e_freed e ++ freed) e) (set_ofo q s).

Definition tcp_free s : st L :=
  wake (SleepWait (self s)) (tcp_clear_queues (tcp_clear_timers s)).

(** [socket_delete]: schedule the garbage collection once. *)
Definition socket_delete s : st L :=
  match so_state (so s) with
  | SS_DISCONNECTING => s
  | _ =>
      let s := upd_so (set_so_state SS_DISCONNECTING) s in
      upd_en (fun e => set_e_timers
        (timer_oneshot 10000 H_socket_garbage_collect (Some (ArgSock (self s))) (e_timers e)) e) s
  end.

Definition tcp_done s : st L := socket_delete (tcp_free (set_state TCP_CLOSING s)).

Definition tcp_handle_fin_state s : st L :=
  match state s with
  | TCP_CLOSE_WAIT => set_state TCP_LAST_ACK s
  | TCP_ESTABLISHED => set_state TCP_FIN_WAIT_1 s
  | _ => s
  end.

Definition tcp_enter_time_wait s : st L :=
  let s := tcp_clear_timers (set_state TCP_TIME_WAIT s) in
  let '(id, s) := do_timer_add TCP_2MSL H_tcp_linger (ArgSock (self s)) false s in
  upd_tm (set_linger (Some id)) s.

Definition tcp_rearm_user_timeout s : st L :=
  if state_is (state s) TCP_TIME_WAIT then s
  else
    let s := do_timer_cancel (linger (tm s)) s in
    let '(id, s) := do_timer_add TCP_USER_TIMEOUT H_tcp_user_timeout (ArgSock (self s)) false s in
    upd_tm (set_linger (Some id)) s.

(** ** Round-trip time (RFC 6298)

    The [double] arithmetic of the code is exact on these ranges:
    [0.75 * rttvar + 0.25 * d] truncated is [(3 * rttvar + d) / 4]. *)
Definition rtt_update (r : Z) (t : tcp_timing) : tcp_timing :=
  let t :=
    if srtt t =? 0 then set_rttvar (r / 2) (set_srtt r t)
    else
      let t := set_rttvar (Z.quot (3 * rttvar t + Z.abs (srtt t - r)) 4) t in
      set_srtt (Z.quot (7 * srtt t + r) 8) t in
  let k := s32 (4 * rttvar t) in
  let k := if k <? 200 then 200 else k in
  set_rto (u32 (srtt t + k)) t.

Definition tcp_rtt s : st L :=
  if (0 <? backoff (tm s)) then s
  else
    match retransmit (tm s) with
    | None => s
    | Some id =>
        match find_timer id (e_timers (en s)) with
        | None => add_fault (FaultTimer TimerUseAfterFree) s
        | Some t =>
            let r := s32 (tick (e_timers (en s)) - (expires t - rto (tm s))) in
            if r <? 0 then s else upd_tm (rtt_update r) s
        end
    end.

(** ** SACK blocks for the next acknowledgement *)

Definition sack_left (i : nat) (a : tcp_sackst) : Z := (default (0, 0) (sacks a !! i)).1.
Definition sack_right (i : nat) (a : tcp_sackst) : Z := (default (0, 0) (sacks a !! i)).2.
Definition set_sack (i : nat) (l r : Z) (a : tcp_sackst) : tcp_sackst := set_sacks (<[i := (l, r)]> (sacks a)) a.
Definition incr_sacklen (a : tcp_sackst) : tcp_sackst := set_sacklen (u8 (sacklen a + 1)) a.

Fixpoint sacks_loop (tseq tend : Z) (q : list sk_buff) (sb : nat) (a : tcp_sackst) : tcp_sackst :=
  match q with
  | [] => a
  | next :: q =>
      if (tseq <=? skb_seq next) && (skb_end_seq next <=? tend) then sacks_loop tseq tend q sb a
      else if sacks_allowed a <=? sacklen a then a
      else if sack_left sb a =? 0 then
        sacks_loop tseq tend q sb (incr_sacklen (set_sack sb (skb_seq next) (skb_end_seq next) a))
      else if sack_right sb a =? skb_seq next then
        sacks_loop tseq tend q sb (set_sack sb (sack_left sb a) (skb_end_seq next) a)
      else if sacks_allowed a <=? sacklen a then a
      else
        let sb := Z.to_nat (sacklen a) in
        sacks_loop tseq tend q sb (incr_sacklen (set_sack sb (skb_seq next) (skb_end_seq next) a))
  end.

Definition tcp_calculate_sacks (tseq tend : Z) s : st L :=
  let a := set_sacklen 0 (set_sacks (replicate 4 (0, 0)) (sa s)) in
  let a := set_sacklen 1 (set_sack 0 tseq tend a) in
  set_sa (sacks_loop tseq tend (skq (ofo s)) 1 a) s.

End Base.
End TcpBase.
