(* ===== verification/TcpOutput.v ===== *)
(** Segment construction and transmission: [src/src/tcp_output.c].

    A function of the code that may sleep (all of them through
    [tcp_wait_snd_wnd]) returns [Asleep s b k]: the socket lock is released in
    [s], [b] is the buffer waiting for the window and [k] the stack of what the
    thread does after sending it, see [resume].  *)
From S2P Require Import Prelude Utils SkBuff Timer TcpTypes TcpBase.
Import Utils SkBuff Timer TcpTypes TcpBase.

Module TcpOutput.

Definition NEXTHDR_TCP : Z := 6.

(** ** Building a segment *)

Definition tcp_alloc_skb {L} (family optlen size : Z) (s : st L) : sk_buff * st L :=
  let reserved := ETH_HDR_LEN + ip_hlen family + TCP_HDR_LEN + optlen + size in
  let '(b, s) := do_alloc_skb reserved s in
  (set_skb_seq 0 (set_skb_dlen size (set_skb_protocol IP_TCP (skb_reserve reserved b))), s).

(** A write to the header of [b], found by [tcp_hdr_for_sk]. *)
Definition with_th (family : Z) (f : nat -> list Z -> list Z) (b : sk_buff) : sk_buff :=
  set_skb_buf (f (tcp_hdr_for_sk family) (skb_buf b)) b.

Record tcp_options := mk_opts { opt_mss : Z; opt_sack : bool }.

Definition tcp_syn_options {L} (s : st L) : tcp_options * Z :=
  if sackok (sa s) =? 0 then (mk_opts (rmss (cc s)) false, TCP_OPTLEN_MSS)
  else (mk_opts (rmss (cc s)) true, TCP_OPTLEN_MSS + TCP_OPT_NOOP * 2 + TCP_OPTLEN_SACK).

(** [o] is the offset of the header, its options start at [o + 20]. *)
Definition tcp_write_syn_options (opts : tcp_options) (optlen : Z) (o : nat) (b : list Z) : list Z :=
  let b := st8 b (o + 20) TCP_OPT_MSS in
  let b := st8 b (o + 21) TCP_OPTLEN_MSS in
  let b := st16 b (o + 22) (bswap16 (opt_mss opts)) in
  let b :=
    if opt_sack opts then
      st8 (st8 (st8 (st8 b (o + 24) TCP_OPT_NOOP) (o + 25) TCP_OPT_NOOP) (o + 26) TCP_OPT_SACK_OK)
        (o + 27) TCP_OPTLEN_SACK
    else b in
  th_set_hl o (TCP_DOFFSET + optlen / 4) b.

Definition has_sacks (a : tcp_sackst) : bool :=
  negb (sackok a =? 0) && (0 <? sacklen a) && negb (sack_left 0 a =? 0).

Fixpoint write_sack_blocks (o : nat) (l : list (Z * Z)) (b : list Z) : list Z :=
  match l with
  | [] => b
  | (lft, rgt) :: l =>
      write_sack_blocks (o + 8) l (st32 (st32 b o (bswap32 lft)) (o + 4) (bswap32 rgt))
  end.

(** The options written at [o], the SACK state after them, and how many bytes
    were written. *)
Definition tcp_write_options (a : tcp_sackst) (o : nat) (b : list Z) : tcp_sackst * list Z * nat :=
  let '(p, b) :=
    if wso_allowed a =? 0 then (o, b)
    else ((o + 4)%nat,
          st8 (st8 (st8 (st8 b o TCP_OPT_NOOP) (o + 1) TCP_OPT_WSO) (o + 2) TCP_OPTLEN_WSO)
            (o + 3) (rcv_scale a)) in
  if has_sacks a then
    let b := st8 (st8 (st8 (st8 b p TCP_OPT_NOOP) (p + 1) TCP_OPT_NOOP) (p + 2) TCP_OPT_SACK)
               (p + 3) (2 + sacklen a * 8) in
    let n := Z.to_nat (sacklen a) in
    (set_sacklen 0 (set_sacks (replicate 4 (0, 0)) a),
     write_sack_blocks (p + 4) (take n (sacks a)) b, (p + 4 + 8 * n - o)%nat)
  else (a, b, (p - o)%nat).

(** [while (optlen % 4 > 0) optlen++] on a [uint8_t] *)
Definition tcp_options_len {L} (s : st L) : Z :=
  let a := sa s in
  let n := if wso_allowed a =? 0 then 0 else 1 + TCP_OPTLEN_WSO in
  let n := if has_sacks a then u8 (n + 2 + 2 + sacklen a * 8) else n in
  u8 (4 * ((n + 3) / 4)).

Section Output.
Context {L : Type} `{IpLayer L}.
Implicit Type s : st L.
Implicit Type b : sk_buff.

(** The header as [tcp_transmit_skb] leaves it, before the checksum. *)
Definition fill_header (seq : Z) s (o : nat) (buf : list Z) : list Z :=
  let win := u16 (real_rcv_wnd (tb s)) in
  let win := if th_flag o F_SYN buf then win else Z.shiftr win (rcv_scale (sa s)) in
  let buf := st16 buf o (bswap16 (sk_sport (sk s))) in
  let buf := st16 buf (o + 2) (bswap16 (sk_dport (sk s))) in
  let buf := st32 buf (o + 4) (bswap32 seq) in
  let buf := st32 buf (o + 8) (bswap32 (rcv_nxt (tb s))) in
  let buf := th_set_rsvd o 0 buf in
  let buf := st16 buf (o + 14) (bswap16 win) in
  let buf := st16 buf (o + 16) 0 in
  st16 buf (o + 18) 0.

(** The segment handed to IP: header filled, options written, checksum started. *)
Definition build_segment b (seq : Z) s : sk_buff * st L :=
  let family := sk_addr_family (sk s) in
  let o := tcp_hdr_for_sk family in
  let b := if th_get_hl o (skb_buf b) =? 0 then with_th family (fun o => th_set_hl o TCP_DOFFSET) b else b in
  let hl := th_get_hl o (skb_buf b) in
  let b := skb_push (hl * 4) b in
  let b := with_th family (fill_header seq s) b in
  if 5 <? hl then
    let '(a, buf, n) := tcp_write_options (sa s) (o + 20) (skb_buf b) in
    let s := if (length (skb_buf b) <? o + 20 + n)%nat then add_fault FaultBounds s else s in
    (set_skb_buf buf b, set_sa a s)
  else (b, s).

Definition tcp_transmit_skb b (seq : Z) s : sk_buff * st L * Z :=
  let '(b, s) := build_segment b seq s in
  let lower := e_lower (en s) in
  if sk_addr_family (sk s) =? AF_INET6 then
    let b := set_skb_tcpcsum (tcp_v6_tcp_partion_checksum b) b in
    let r := ipv6_output lower b NEXTHDR_TCP (sk_saddr (sk s)) (sk_daddr (sk s)) in
    let s := upd_sk (set_sk_saddr (o6_saddr r)) (upd_en (set_e_lower (o6_lower r)) s) in
    let s := if o6_freed r then do_free_skb (o6_skb r) s else s in
    (o6_skb r, s, o6_rc r)
  else
    let b := set_skb_tcpcsum (tcp_v4_tcp_partion_checksum b) b in
    let '(l, b, rc) := ip_output lower (ld32 (sk_daddr (sk s)) 0) b in
    (b, upd_en (set_e_lower l) s, rc).

(** Replace the buffer at position [i] of the write queue by its new contents. *)
Definition wq_set (i : nat) b s : st L :=
  upd_sk (fun k => set_sk_write_queue (set_skq (<[i := b]> (skq (sk_write_queue k))) (sk_write_queue k)) k) s.

Definition write_queue_head s : option sk_buff := skb_peek (sk_write_queue (sk s)).

(** Transmit the buffer at position [i] of the write queue, in place. *)
Definition transmit_queued (i : nat) b (seq : Z) s : st L * Z :=
  let '(b, s, rc) := tcp_transmit_skb b seq s in
  (wq_set i b s, rc).

(** ** The retransmission timer *)

Definition tcp_rearm_rto_timer s : st L :=
  let s := tcp_release_rto_timer s in
  let s := upd_tm (fun t => set_rto_epoch (u64 (rto_epoch t + 1)) t) s in
  let arg := ArgRto (self s) (rto_epoch (tm s)) in
  let '(id, s) :=
    if state_is (state s) TCP_SYN_SENT
    then do_timer_add (u32 (Z.shiftl TCP_SYN_BACKOFF (backoff (tm s)))) H_tcp_connect_rto arg true s
    else do_timer_add (rto (tm s)) H_tcp_retransmission_timeout arg true s in
  upd_tm (set_retransmit (Some id)) s.

(** ** Flow control and the write queue *)

(** The condition [tcp_wait_snd_wnd] waits for. *)
Definition snd_wnd_open (bytes : Z) s : bool :=
  negb (min (cwnd (cc s)) (snd_wnd (tb s)) <? u32 (inflight (cc s) + bytes)).

(** What the callers of [tcp_queue_transmit_skb] do after it, innermost first. *)
Inductive after :=
  | AfterSend (rest : list Z) (mss len : Z)   (* the rest of tcp_send *)
  | AfterIncr                                 (* tcb->snd_nxt++ *)
  | AfterState (v : tcp_states)               (* tcp_set_state *)
  | AfterReturn (rc : Z)                      (* return rc *)
  | AfterDrop (b : sk_buff)                   (* free_skb(skb); return 0 *)
  | AfterRelease.                             (* socket_release *)

Inductive res :=
  | Done (s : st L) (rc : Z)
  | Asleep (s : st L) (b : sk_buff) (k : list after)
  | Diverges.

(** [tcp_queue_transmit_skb] once the window is open. *)
Definition queue_transmit_now b s : st L * Z :=
  let q := sk_write_queue (sk s) in
  let was_empty := skb_queue_empty q in
  let fin := th_flag (tcp_hdr_for_sk (sk_addr_family (sk s))) F_FIN (skb_buf b) in
  let b := set_skb_seq (snd_nxt (tb s)) b in
  let s := upd_tb (set_snd_nxt (u32 (snd_nxt (tb s) + skb_dlen b))) s in
  let b := set_skb_end_seq (snd_nxt (tb s)) b in
  let s := if fin then upd_tb (set_snd_nxt (u32 (snd_nxt (tb s) + 1))) s else s in
  let s := upd_cc (set_inflight (u32 (inflight (cc s) + skb_dlen b))) s in
  let s := upd_sk (set_sk_write_queue (skb_queue_tail q b)) s in
  let s := if was_empty then tcp_rearm_rto_timer s else s in
  transmit_queued (length (skq q)) b (skb_seq b) s.

(** The loop of [tcp_wait_snd_wnd]: each time round, the lock is dropped. *)
Definition tcp_queue_transmit_skb b s : res :=
  if snd_wnd_open (skb_dlen b) s then let '(s, rc) := queue_transmit_now b s in Done s rc
  else Asleep (socket_release s) b [].

(** One data segment of [tcp_send]; [last] when nothing is left after it. *)
Definition send_segment (chunk : list Z) (last : bool) s : sk_buff * st L :=
  let family := sk_addr_family (sk s) in
  let dlen := Z.of_nat (length chunk) in
  let '(b, s) := tcp_alloc_skb family 0 dlen s in
  let b := skb_push dlen b in
  let b := set_skb_buf (st_bytes (skb_buf b) (Z.to_nat (skb_data b)) chunk) b in
  let b := with_th family (fun o => th_set_flag o F_ACK) b in
  ((if last then with_th family (fun o => th_set_flag o F_PSH) b else b), s).

(** The loop of [tcp_send]: every turn takes at least one byte when [mss > 0],
    so [length rest] turns are enough. *)
Fixpoint tcp_send_loop (fuel : nat) (rest : list Z) (mss len : Z) s : res :=
  match rest with
  | [] => Done (tcp_rearm_user_timeout s) len
  | _ =>
      match fuel with
      | O => Diverges
      | S fuel =>
          let dlen := if mss <? Z.of_nat (length rest) then mss else Z.of_nat (length rest) in
          let chunk := take (Z.to_nat dlen) rest in
          let rest := drop (Z.to_nat dlen) rest in
          let '(b, s) := send_segment chunk (bool_decide (rest = [])) s in
          match tcp_queue_transmit_skb b s with
          | Done s _ => tcp_send_loop fuel rest mss len s
          | Asleep s b k => Asleep s b (k ++ [AfterSend rest mss len])
          | Diverges => Diverges
          end
      end
  end.

Definition incr_snd_nxt s : st L := upd_tb (set_snd_nxt (u32 (snd_nxt (tb s) + 1))) s.

Definition run_after (k : after) s (rc : Z) : res :=
  match k with
  | AfterSend rest mss len => tcp_send_loop (length rest) rest mss len s
  | AfterIncr => Done (incr_snd_nxt s) rc
  | AfterState v => Done (set_state v s) rc
  | AfterReturn rc => Done s rc
  | AfterDrop b => Done (do_free_skb b s) 0
  | AfterRelease => Done (socket_release s) rc
  end.

(** [r ;; k]: what follows waits for a sleeping thread. *)
Definition and_then (r : res) (k : after) : res :=
  match r with
  | Done s rc => run_after k s rc
  | Asleep s b ks => Asleep s b (ks ++ [k])
  | Diverges => Diverges
  end.

(** A woken thread takes the lock, tests the window again and carries on. *)
Definition resume b (k : list after) s : res :=
  foldl and_then (tcp_queue_transmit_skb b (socket_wr_acquire s)) k.

Definition tcp_send_synack s : res :=
  if state_is (state s) TCP_SYN_SENT || state_is (state s) TCP_SYN_RECEIVED then
    let family := sk_addr_family (sk s) in
    let '(b, s) := tcp_alloc_skb family 4 0 s in
    let b := with_th family (fun o buf => th_set_hl o 6 (th_set_flag o F_ACK (th_set_flag o F_SYN buf))) b in
    and_then (tcp_queue_transmit_skb b s) AfterIncr
  else Done s 1.

Definition tcp_send_ack s : st L * Z :=
  if state_is (state s) TCP_CLOSE then (s, 0)
  else
    let family := sk_addr_family (sk s) in
    let optlen := tcp_options_len s in
    let '(b, s) := tcp_alloc_skb family optlen 0 s in
    let b := with_th family (fun o buf => th_set_hl o (TCP_DOFFSET + optlen / 4) (th_set_flag o F_ACK buf)) b in
    let '(b, s, rc) := tcp_transmit_skb b (snd_nxt (tb s)) s in
    (do_free_skb b s, rc).

(** Timer callback *)
Definition tcp_send_delack s : st L :=
  let s := socket_wr_acquire s in
  let s := upd_tm (set_delacks 0) s in
  let s := tcp_release_delack_timer s in
  let '(s, _) := tcp_send_ack s in
  socket_release s.

Definition tcp_send_syn s : res :=
  if state_is (state s) TCP_SYN_SENT || state_is (state s) TCP_CLOSE || state_is (state s) TCP_LISTEN then
    let family := sk_addr_family (sk s) in
    let '(opts, optlen) := tcp_syn_options s in
    let '(b, s) := tcp_alloc_skb family optlen 0 s in
    let b := with_th family (tcp_write_syn_options opts optlen) b in
    let s := set_state TCP_SYN_SENT s in
    let b := with_th family (fun o => th_set_flag o F_SYN) b in
    tcp_queue_transmit_skb b s
  else Done s 1.

(** [tcp_queue_fin], and [tcp_send_fin] past its state check. *)
Definition tcp_queue_fin s : res :=
  let family := sk_addr_family (sk s) in
  let '(b, s) := tcp_alloc_skb family 0 0 s in
  let b := with_th family (fun o buf => th_set_flag o F_ACK (th_set_flag o F_FIN buf)) b in
  tcp_queue_transmit_skb b s.

Definition tcp_send_fin s : res :=
  if state_is (state s) TCP_CLOSE then Done s 0 else tcp_queue_fin s.

Definition tcp_select_initial_window : Z := 44477.

Definition tcp_connect s : res :=
  let s := upd_tm (set_tcp_header_len TCP_HDR_LEN) s in
  let '(i, s) := generate_iss s in
  let i := u32 i in
  let s := upd_tb (fun t =>
    set_real_rcv_wnd tcp_select_initial_window (set_rcv_wnd tcp_select_initial_window
      (set_rcv_nxt 0 (set_snd_nxt i (set_snd_up i (set_snd_una i
        (set_snd_wl1 0 (set_snd_wnd 0 (set_iss i t))))))))) s in
  and_then (tcp_send_syn s) AfterIncr.

Definition tcp_send (buf : list Z) s : res :=
  tcp_send_loop (length buf) buf (smss (cc s)) (Z.of_nat (length buf)) s.

Definition tcp_send_reset s : st L * Z :=
  let family := sk_addr_family (sk s) in
  let '(b, s) := tcp_alloc_skb family 0 0 s in
  let b := with_th family (fun o => th_set_flag o F_RST) b in
  let s := upd_tb (fun t => set_snd_una (snd_nxt t) t) s in
  let '(b, s, rc) := tcp_transmit_skb b (snd_nxt (tb s)) s in
  (do_free_skb b s, rc).

Definition tcp_send_challenge_ack s : st L * Z := (s, 0).

(** [tcp_send_next]: the walk over the write queue, [i] the position reached,
    [count] the buffers seen, both bounded by the queue's length. *)
Fixpoint send_next_loop (fuel : nat) (i : nat) (amount wnd : Z) s : st L :=
  match fuel, skq (sk_write_queue (sk s)) !! i with
  | S fuel, Some next =>
      if amount <? Z.of_nat (i + 1) then s
      else if negb (skb_seq next =? 0) then send_next_loop fuel (i + 1) amount wnd s
      else if wnd <? u32 (inflight (cc s) + skb_dlen next) then s
      else
        let '(next, s, _) := tcp_transmit_skb (skb_reset_header next) (snd_nxt (tb s)) s in
        let next := set_skb_seq (snd_nxt (tb s)) next in
        let s := upd_tb (set_snd_nxt (u32 (snd_nxt (tb s) + skb_dlen next))) s in
        let next := set_skb_end_seq (snd_nxt (tb s)) next in
        let s := upd_cc (set_inflight (u32 (inflight (cc s) + skb_dlen next))) s in
        let s :=
          if th_flag (tcp_hdr_for_sk (sk_addr_family (sk s))) F_FIN (skb_buf next)
          then incr_snd_nxt s else s in
        send_next_loop fuel (i + 1) amount wnd (wq_set i next s)
  | _, _ => s
  end.

Definition tcp_send_next (amount extra : Z) s : st L :=
  send_next_loop (length (skq (sk_write_queue (sk s)))) 0 amount
    (min (u32 (cwnd (cc s) + extra)) (snd_wnd (tb s))) s.

(** ** Retransmission *)

Definition tcp_notify_user s : st L :=
  if state_is (state s) TCP_CLOSE_WAIT then wake (SleepWait (self s)) s else s.

Definition timed_out_events : Z := poll_or [POLLOUT; POLLERR; POLLHUP].

(** Timer callback; [epoch] is [targ->epoch]. *)
Definition tcp_connect_rto (epoch : Z) s : st L :=
  let s := socket_wr_acquire s in
  if negb (epoch =? rto_epoch (tm s)) then socket_release s
  else
    let s := tcp_release_rto_timer s in
    let s :=
      if state_is (state s) TCP_SYN_SENT then
        if TCP_CONN_RETRIES <? backoff (tm s) then
          tcp_done (or_poll timed_out_events (set_err (- ETIMEDOUT) s))
        else
          match write_queue_head s with
          | Some b =>
              let '(s, _) := transmit_queued 0 (skb_reset_header b) (snd_una (tb s)) s in
              tcp_rearm_rto_timer (upd_tm (fun t => set_backoff (u8 (backoff t + 1)) t) s)
          | None => s
          end
      else s in
    socket_release s.

Definition tcp_sack_clear s : st L :=
  let s := upd_sk (fun k => set_sk_write_queue
    (set_skq (set_skb_sacked 0 <$> skq (sk_write_queue k)) (sk_write_queue k)) k) s in
  upd_sa (set_sack_max_right 0) s.

(** Timer callback; [epoch] is [targ->epoch]. *)
Definition tcp_retransmission_timeout (epoch : Z) s : st L :=
  let s := socket_wr_acquire s in
  if negb (epoch =? rto_epoch (tm s)) then socket_release s
  else
    let s := tcp_release_rto_timer s in
    match write_queue_head s with
    | None => socket_release (tcp_notify_user (upd_tm (set_backoff 0) s))
    | Some _ =>
        let s := upd_cc (fun c =>
          set_bytes_acked 0 (set_cwnd (smss c)
            (set_ssthresh (max (inflight c / 2) (u32 (2 * smss c))) c))) s in
        let s := tcp_sack_clear s in
        match write_queue_head s with
        | None => socket_release s
        | Some b =>
            let '(b, s, _) := tcp_transmit_skb (skb_reset_header b) (snd_una (tb s)) s in
            let s := wq_set 0 b s in
            let fin := th_flag (tcp_hdr_for_sk (sk_addr_family (sk s))) F_FIN (skb_buf b) in
            if 60000 <? rto (tm s) then
              socket_release (or_poll timed_out_events (set_err (- ETIMEDOUT) (tcp_done s)))
            else
              let s := upd_tm (fun t => set_backoff (u8 (backoff t + 1)) (set_rto (u32 (rto t * 2)) t)) s in
              let s := tcp_rearm_rto_timer s in
              socket_release (if fin then tcp_handle_fin_state s else s)
        end
    end.

(** The first segment below [sack_max_right] that is not sacked, else the head. *)
Fixpoint first_hole (i : nat) (right : Z) (q : list sk_buff) : option (nat * sk_buff) :=
  match q with
  | [] => None
  | b :: q =>
      if (skb_sacked b =? 0) && (skb_end_seq b <=? right) then Some (i, b) else first_hole (S i) right q
  end.

Definition tcp_retransmit_candidate s : option (nat * sk_buff) :=
  let head := match write_queue_head s with Some b => Some (0%nat, b) | None => None end in
  if 0 <? sack_max_right (sa s) then
    match first_hole 0 (sack_max_right (sa s)) (skq (sk_write_queue (sk s))) with
    | Some c => Some c
    | None => head
    end
  else head.

Definition tcp_fast_retransmit s : st L * Z :=
  match tcp_retransmit_candidate s with
  | None => (s, 0)
  | Some (i, b) => transmit_queued i (skb_reset_header b) (skb_seq b) s
  end.

End Output.
Arguments res : clear implicits.

(** ** What a transmission leaves alone *)

Section Frame.
Context {L : Type} `{IpLayerLaws L}.
Implicit Type s : st L.

Definition same_sack_setup (a b : tcp_sackst) : Prop :=
  sackok b = sackok a /\ sacks_allowed b = sacks_allowed a /\ sack_max_right b = sack_max_right a /\
  snd_scale b = snd_scale a /\ wso_allowed b = wso_allowed a /\ rcv_scale b = rcv_scale a.

(** Sending changes the layers below, the IPv6 source address, pending SACK
    blocks, and the logs of freed buffers and faults. *)
Record tx_frame (s s' : st L) : Prop := {
  tx_tb : tb s' = tb s;
  tx_tm : tm s' = tm s;
  tx_cc : cc s' = cc s;
  tx_so : so s' = so s;
  tx_ofo : ofo s' = ofo s;
  tx_ptsk : ptsk s' = ptsk s;
  tx_sk : sk s' = set_sk_saddr (sk_saddr (sk s')) (sk s);
  tx_sa : same_sack_setup (sa s) (sa s');
  tx_timers : e_timers (en s') = e_timers (en s);
  tx_passive : e_passive (en s') = e_passive (en s);
  tx_wakes : e_wakes (en s') = e_wakes (en s);
  tx_next : e_next_skb (en s) <= e_next_skb (en s');
  tx_faults : exists l, e_faults (en s') = e_faults (en s) ++ l /\ Forall (eq FaultBounds) l
}.

#[export] Instance tx_frame_refl : Reflexive tx_frame.
Proof.
  intros s. constructor; try done.
  - by destruct (sk s).
  - exists []. by rewrite app_nil_r.
Qed.

#[export] Instance tx_frame_trans : Transitive tx_frame.
Proof.
  intros a b c Hab Hbc. destruct Hab, Hbc. constructor; try congruence; try lia.
  - rewrite tx_sk1, tx_sk0. by destruct (sk a), (sk b), (sk c).
  - destruct tx_sa0 as (?&?&?&?&?&?), tx_sa1 as (?&?&?&?&?&?). repeat split; congruence.
  - destruct tx_faults0 as (l & E & Hl), tx_faults1 as (l' & E' & Hl').
    exists (l ++ l'). rewrite E', E, app_assoc. split; [done|]. by apply Forall_app.
Qed.

Lemma tx_state s s' : tx_frame s s' -> state s' = state s.
Proof. intros F. unfold state. rewrite (tx_sk _ _ F). done. Qed.
Lemma tx_family s s' : tx_frame s s' -> sk_addr_family (sk s') = sk_addr_family (sk s).
Proof. intros F. rewrite (tx_sk _ _ F). done. Qed.
Lemma tx_wq s s' : tx_frame s s' -> sk_write_queue (sk s') = sk_write_queue (sk s).
Proof. intros F. rewrite (tx_sk _ _ F). done. Qed.
Lemma tx_rq s s' : tx_frame s s' -> sk_receive_queue (sk s') = sk_receive_queue (sk s).
Proof. intros F. rewrite (tx_sk _ _ F). done. Qed.
Lemma tx_self s s' : tx_frame s s' -> self s' = self s.
Proof. intros F. unfold self. by rewrite (tx_so _ _ F). Qed.

Lemma length_fill_header seq s o buf : length (fill_header seq s o buf) = length buf.
Proof. unfold fill_header, th_set_rsvd. by autorewrite with mem. Qed.

Lemma length_write_sack_blocks l : forall o b, length (write_sack_blocks o l b) = length b.
Proof. induction l as [|[x y] l IH]; intros o b; simpl; [done|]. rewrite IH. by autorewrite with mem. Qed.

Lemma write_options_frame a o buf :
  same_sack_setup a (tcp_write_options a o buf).1.1 /\
  length (tcp_write_options a o buf).1.2 = length buf.
Proof.
  unfold tcp_write_options, same_sack_setup.
  destruct (wso_allowed a =? 0), (has_sacks a); simpl;
    rewrite ?length_write_sack_blocks; autorewrite with mem; done.
Qed.

Lemma with_th_meta family f b :
  (forall o buf, length (f o buf) = length buf) -> same_meta b (with_th family f b).
Proof. intros Hl. constructor; simpl; auto. Qed.

Lemma push_meta n b : same_meta b (skb_push n b).
Proof. by constructor. Qed.

Lemma set_hl_meta family v b : same_meta b (with_th family (fun o => th_set_hl o v) b).
Proof. apply with_th_meta. intros. unfold th_set_hl. by autorewrite with mem. Qed.

Lemma build_segment_frame b seq s :
  same_meta b (build_segment b seq s).1 /\ tx_frame s (build_segment b seq s).2.
Proof.
  unfold build_segment.
  set (b1 := if _ : bool then with_th _ _ b else b).
  assert (M1 : same_meta b b1) by (unfold b1; destruct (_ =? 0); [apply set_hl_meta|done]).
  clearbody b1. set (b2 := with_th _ (fill_header _ _) _).
  assert (M2 : same_meta b b2).
  { etrans; [exact M1|]. etrans; [apply (push_meta (th_get_hl (tcp_hdr_for_sk (sk_addr_family (sk s))) (skb_buf b1) * 4))|].
    apply with_th_meta. intros. apply length_fill_header. }
  clearbody b2. destruct (5 <? _); [|simpl; by split].
  pose proof (write_options_frame (sa s) (tcp_hdr_for_sk (sk_addr_family (sk s)) + 20) (skb_buf b2)) as [Ha Hl].
  destruct (tcp_write_options _ _ _) as [[a buf] n]. simpl in *. split.
  - etrans; [exact M2|]. by constructor.
  - destruct (_ <? _)%nat; constructor; simpl; try done; try (by destruct (sk s)).
    + exists [FaultBounds]. split; [done|]. by repeat constructor.
    + exists []. by rewrite app_nil_r.
Qed.

Lemma transmit_frame b seq s :
  same_meta b (tcp_transmit_skb b seq s).1.1 /\ tx_frame s (tcp_transmit_skb b seq s).1.2.
Proof.
  unfold tcp_transmit_skb. pose proof (build_segment_frame b seq s) as [M F].
  destruct (build_segment b seq s) as [b1 s1]. simpl in M, F.
  destruct (_ =? AF_INET6).
  - set (b2 := set_skb_tcpcsum _ b1). assert (M2 : same_meta b b2) by (destruct M; by constructor).
    clearbody b2.
    pose proof (ipv6_output_meta (e_lower (en s1)) b2 NEXTHDR_TCP (sk_saddr (sk s1)) (sk_daddr (sk s1))) as M3.
    destruct (ipv6_output _ _ _ _ _) as [l b3 fr sa' rc]. simpl in *. split; [by etrans|].
    etrans; [exact F|]. unfold do_free_skb.
    destruct fr; [destruct (free_skb b3)|]; constructor; simpl; try done; exists []; by rewrite app_nil_r.
  - set (b2 := set_skb_tcpcsum _ b1). assert (M2 : same_meta b b2) by (destruct M; by constructor).
    clearbody b2.
    pose proof (ip_output_meta (e_lower (en s1)) (ld32 (sk_daddr (sk s1)) 0) b2) as M3.
    destruct (ip_output _ _ _) as [[l b3] rc]. simpl in *. split; [by etrans|].
    etrans; [exact F|]. constructor; simpl; try done; [by destruct (sk s1)|exists []; by rewrite app_nil_r].
Qed.

Lemma alloc_frame family optlen size s : tx_frame s (tcp_alloc_skb family optlen size s).2.
Proof.
  constructor; simpl; try done; [by destruct (sk s)|lia|exists []; by rewrite app_nil_r].
Qed.

Lemma do_free_frame b s : tx_frame s (do_free_skb b s).
Proof. unfold do_free_skb. destruct (free_skb b); [|done]. constructor; simpl; try done; [by destruct (sk s)|exists []; by rewrite app_nil_r]. Qed.

Lemma send_ack_frame s : tx_frame s (tcp_send_ack s).1.
Proof.
  unfold tcp_send_ack. destruct (state_is _ _); [done|].
  destruct (tcp_alloc_skb _ _ _ s) as [b s1] eqn:E.
  assert (F1 : tx_frame s s1) by (change s1 with (b, s1).2; rewrite <- E; apply alloc_frame).
  set (b1 := with_th _ _ b). pose proof (transmit_frame b1 (snd_nxt (tb s1)) s1) as [_ F2].
  destruct (tcp_transmit_skb b1 _ s1) as [[b2 s2] rc]. simpl in *.
  etrans; [exact F1|]. etrans; [exact F2|]. apply do_free_frame.
Qed.

(** Over IPv4 not even the local address changes. *)
Lemma transmit_v4 b seq s : sk_addr_family (sk s) <> AF_INET6 -> sk (tcp_transmit_skb b seq s).1.2 = sk s.
Proof.
  intros Hf. unfold tcp_transmit_skb. assert (E : sk (build_segment b seq s).2 = sk s).
  { unfold build_segment. destruct (5 <? _); [|done]. destruct (tcp_write_options _ _ _) as [[a buf] n]. by destruct (_ <? _)%nat. }
  destruct (build_segment b seq s) as [b1 s1]. cbn [snd] in E. rewrite E. destruct (Z.eqb_spec (sk_addr_family (sk s)) AF_INET6); [done|].
  cbv zeta. by destruct (ip_output _ _ _) as [[l b3] rc].
Qed.
Lemma send_ack_v4 s : sk_addr_family (sk s) <> AF_INET6 -> sk (tcp_send_ack s).1 = sk s.
Proof.
  intros Hf. unfold tcp_send_ack. destruct (state_is _ _); [done|].
  set (optlen := tcp_options_len s). assert (E1 : sk (tcp_alloc_skb (sk_addr_family (sk s)) optlen 0 s).2 = sk s) by done.
  destruct (tcp_alloc_skb _ optlen 0 s) as [b s1]. cbn [snd] in E1. set (b1 := with_th _ _ b).
  pose proof (transmit_v4 b1 (snd_nxt (tb s1)) s1 ltac:(by rewrite E1)) as E.
  destruct (tcp_transmit_skb b1 (snd_nxt (tb s1)) s1) as [[b2 s2] rc]. cbn [fst snd] in *. unfold do_free_skb.
  destruct (free_skb b2); cbn [fst]; by rewrite <- E1, <- E.
Qed.

Lemma lift_timer_frame r s :
  sk (lift_timer r s) = sk s /\ tb (lift_timer r s) = tb s /\ tm (lift_timer r s) = tm s /\
  cc (lift_timer r s) = cc s /\ sa (lift_timer r s) = sa s /\ ofo (lift_timer r s) = ofo s /\
  ptsk (lift_timer r s) = ptsk s /\ so (lift_timer r s) = so s.
Proof. by destruct r. Qed.

(** Re-arming touches the timer table and the timer fields only. *)
Lemma rearm_rto_frame s :
  let s' := tcp_rearm_rto_timer s in
  sk s' = sk s /\ tb s' = tb s /\ cc s' = cc s /\ sa s' = sa s /\ ofo s' = ofo s /\
  ptsk s' = ptsk s /\ so s' = so s /\
  tm s' = set_retransmit (retransmit (tm s')) (set_rto_epoch (u64 (rto_epoch (tm s) + 1)) (tm s)).
Proof.
  unfold tcp_rearm_rto_timer, tcp_release_rto_timer, do_timer_release.
  pose proof (lift_timer_frame (timer_release (retransmit (tm s)) (e_timers (en s))) s) as F.
  set (s1 := lift_timer _ s) in *. clearbody s1.
  destruct F as (F1&F2&F3&F4&F5&F6&F7&F8). simpl.
  destruct (state_is _ _); simpl; rewrite ?F1, ?F2, ?F3, ?F4, ?F5, ?F6, ?F7, ?F8; repeat split.
Qed.

End Frame.
End TcpOutput.
