(* ===== verification/TcpSender.v ===== *)
(** The sending side of a connection: what [tcp_send], the write queue and the
    send window guarantee. *)
From S2P Require Import Prelude Utils SkBuff Timer TcpTypes TcpBase TcpOutput.
Import Utils SkBuff Timer TcpTypes TcpBase TcpOutput.

Module TcpSender.

(** The user data of a queued segment: its last [dlen] bytes. *)
Definition seg_bytes (b : sk_buff) : list Z :=
  ld_bytes (skb_buf b) (length (skb_buf b) - Z.to_nat (skb_dlen b)) (Z.to_nat (skb_dlen b)).

Definition stream (q : list sk_buff) : list Z := concat (seg_bytes <$> q).

Definition sum_dlen (q : list sk_buff) : Z := foldr (fun b n => skb_dlen b + n) 0 q.

(** Segments in sequence order between [lo] and [hi], without gaps that a
    segment's own length does not explain. *)
Fixpoint chain (lo : Z) (q : list sk_buff) (hi : Z) : Prop :=
  match q with
  | [] => lo <= hi
  | b :: q => lo <= skb_seq b /\ 0 <= skb_dlen b /\ skb_end_seq b = skb_seq b + skb_dlen b /\
              chain (skb_end_seq b) q hi
  end.

Lemma sum_dlen_app q1 q2 : sum_dlen (q1 ++ q2) = sum_dlen q1 + sum_dlen q2.
Proof. induction q1; simpl; lia. Qed.

Lemma stream_app q1 q2 : stream (q1 ++ q2) = stream q1 ++ stream q2.
Proof. unfold stream. by rewrite fmap_app, concat_app. Qed.

Lemma chain_hi lo q hi hi' : chain lo q hi -> hi <= hi' -> chain lo q hi'.
Proof. revert lo. induction q as [|b q IH]; intros lo; simpl; [lia|].
  intros (?&?&?&?) ?. eauto.
Qed.

Lemma chain_le lo q hi : chain lo q hi -> lo <= hi.
Proof. revert lo. induction q as [|b q IH]; intros lo; simpl; [done|]. intros (?&?&?&?%IH). lia. Qed.

Lemma chain_snoc lo q hi b :
  chain lo q hi -> skb_seq b = hi -> 0 <= skb_dlen b -> skb_end_seq b = skb_seq b + skb_dlen b ->
  chain lo (q ++ [b]) (skb_end_seq b).
Proof.
  revert lo. induction q as [|c q IH]; intros lo; simpl; [intuition lia|].
  intros (?&?&?&?) ???. repeat split; try done. by apply IH.
Qed.

Lemma chain_sum lo q hi : chain lo q hi -> 0 <= sum_dlen q <= hi - lo.
Proof.
  revert lo. induction q as [|b q IH]; intros lo; simpl; [lia|].
  intros (?&?&?&?%IH). lia.
Qed.

Section Sender.
Context {L : Type} `{IpLayerLaws L}.
Implicit Type s : st L.

Definition wq s : list sk_buff := skq (sk_write_queue (sk s)).

(** The invariant of the sending side, as long as sequence numbers do not wrap:
    the write queue is ordered and ends at [snd_nxt], and [inflight] is exactly
    what it holds. *)
Record snd_inv s : Prop := {
  si_queue : queue_ok (sk_write_queue (sk s));
  si_una : 0 < snd_una (tb s) <= snd_nxt (tb s);
  si_nxt : snd_nxt (tb s) < 4294967296;
  si_chain : chain 1 (wq s) (snd_nxt (tb s));
  si_inflight : inflight (cc s) = sum_dlen (wq s);
  si_wnd : 0 <= snd_wnd (tb s) < 4294967296;
  si_cwnd : 0 <= cwnd (cc s) < 4294967296;
  si_ssthresh : 0 <= ssthresh (cc s) < 4294967296
}.

Lemma snd_inv_inflight s : snd_inv s -> 0 <= inflight (cc s) < snd_nxt (tb s).
Proof. intros I. destruct I. rewrite si_inflight0. pose proof (chain_sum _ _ _ si_chain0). lia. Qed.

(** *** Data bytes survive transmission *)

Definition plain (family : Z) (b : sk_buff) : Prop :=
  skb_protocol b = IP_TCP /\
  (th_get_hl (tcp_hdr_for_sk family) (skb_buf b) = 0 \/ th_get_hl (tcp_hdr_for_sk family) (skb_buf b) = 5) /\
  (tcp_hdr_for_sk family + 20 + Z.to_nat (skb_dlen b) <= length (skb_buf b))%nat /\
  skb_data b = Z.of_nat (tcp_hdr_for_sk family + 20).

Definition same_data (o : nat) (a b : list Z) : Prop :=
  length b = length a /\ forall i, (o + 20 <= i)%nat -> ld8 b i = ld8 a i.

Lemma same_data_seg_bytes family b b' :
  plain family b -> skb_dlen b' = skb_dlen b ->
  same_data (tcp_hdr_for_sk family) (skb_buf b) (skb_buf b') -> seg_bytes b' = seg_bytes b.
Proof.
  intros (_&_&Hl&_) Hd [Hlen Hb]. unfold seg_bytes, ld_bytes. rewrite Hd, Hlen.
  apply list_fmap_ext. intros j i Hj. apply Hb. apply lookup_seq in Hj. lia.
Qed.

Lemma same_data_trans o a b c : same_data o a b -> same_data o b c -> same_data o a c.
Proof. intros [H1 H2] [H3 H4]. split; [congruence|]. intros i Hi. rewrite H4, H2; auto. Qed.

Lemma fill_header_data seq s o buf : same_data o buf (fill_header seq s o buf).
Proof.
  split; [apply length_fill_header|]. intros i Hi. unfold fill_header, th_set_rsvd.
  rewrite !ld8_st16_ne by lia. rewrite ld8_st8_ne by lia. rewrite !ld8_st32_ne by lia.
  by rewrite !ld8_st16_ne by lia.
Qed.

Lemma set_hl_data o v buf : same_data o buf (th_set_hl o v buf).
Proof.
  split; [unfold th_set_hl; by autorewrite with mem|]. intros i Hi. unfold th_set_hl.
  by rewrite ld8_st8_ne by lia.
Qed.

Lemma same_segment_data o a b : length b = length a -> same_segment o a b -> same_data o a b.
Proof. intros Hl Hs. split; [done|]. intros i Hi. apply Hs; lia. Qed.

(** A segment without options: what [build_segment] does to its buffer. *)
Lemma build_segment_data b seq s :
  plain (sk_addr_family (sk s)) b ->
  same_data (tcp_hdr_for_sk (sk_addr_family (sk s))) (skb_buf b) (skb_buf (build_segment b seq s).1) /\
  skb_protocol (build_segment b seq s).1 = IP_TCP /\
  skb_data (build_segment b seq s).1 = Z.of_nat (tcp_hdr_for_sk (sk_addr_family (sk s))).
Proof.
  intros (Hp & Hh & Hl & Hda). unfold build_segment. set (fam := sk_addr_family (sk s)) in *.
  set (o := tcp_hdr_for_sk fam) in *.
  set (b1 := if _ : bool then _ else b).
  assert (same_data o (skb_buf b) (skb_buf b1) /\ th_get_hl o (skb_buf b1) = 5 /\ skb_protocol b1 = IP_TCP /\
    skb_data b1 = Z.of_nat (o + 20)) as (D1 & H1 & P1 & A1).
  { unfold b1. destruct (Z.eqb_spec (th_get_hl o (skb_buf b)) 0) as [E|E].
    - split; [apply set_hl_data|]. split; [|done]. apply th_get_set_hl; [|done].
      fold o. lia.
    - split; [done|]. split; [lia|done]. }
  clearbody b1. rewrite H1. simpl. split; [|split; [done|lia]].
  eapply same_data_trans; [exact D1|]. apply fill_header_data.
Qed.

Lemma transmit_data b seq s :
  sk_addr_family (sk s) = AF_INET \/ sk_addr_family (sk s) = AF_INET6 ->
  plain (sk_addr_family (sk s)) b ->
  seg_bytes (tcp_transmit_skb b seq s).1.1 = seg_bytes b.
Proof.
  intros Hf Hpl. apply (same_data_seg_bytes _ _ _ Hpl).
  { apply (sm_dlen _ _ (proj1 (transmit_frame b seq s))). }
  pose proof (build_segment_data b seq s Hpl) as (D & P & A).
  pose proof (build_segment_frame b seq s) as [_ F]. unfold tcp_transmit_skb.
  destruct (build_segment b seq s) as [b1 s1]. simpl in D, P, A, F. rewrite (tx_family _ _ F).
  destruct (Z.eqb_spec (sk_addr_family (sk s)) AF_INET6) as [E|E].
  - set (b2 := set_skb_tcpcsum _ b1). eapply same_data_trans; [exact D|]. rewrite E.
    change (skb_buf b1) with (skb_buf b2). simpl. apply same_segment_data.
    + apply (sm_buf _ _ (ipv6_output_meta (e_lower (en s1)) b2 NEXTHDR_TCP (sk_saddr (sk s1)) (sk_daddr (sk s1)))).
    + apply (ipv6_output_segment (e_lower (en s1)) b2). by rewrite <- E.
  - destruct Hf as [Hf|]; [|done]. set (b2 := set_skb_tcpcsum _ b1).
    eapply same_data_trans; [exact D|]. rewrite Hf. change (skb_buf b1) with (skb_buf b2).
    pose proof (ip_output_meta (e_lower (en s1)) (ld32 (sk_daddr (sk s1)) 0) b2) as M.
    pose proof (ip_output_segment (e_lower (en s1)) (ld32 (sk_daddr (sk s1)) 0) b2 P ltac:(by rewrite <- Hf)) as S.
    destruct (ip_output _ _ _) as [[l b3] rc]. simpl in *. apply same_segment_data; [apply (sm_buf _ _ M)|done].
Qed.

(** *** Queueing one segment *)

Definition fin_of s (b : sk_buff) : bool := th_flag (tcp_hdr_for_sk (sk_addr_family (sk s))) F_FIN (skb_buf b).

Definition family_ok s : Prop := sk_addr_family (sk s) = AF_INET \/ sk_addr_family (sk s) = AF_INET6.

(** The state just before the transmission of [queue_transmit_now], and the
    buffer transmitted. *)
Definition queued_buf b s : sk_buff :=
  set_skb_end_seq (u32 (snd_nxt (tb s) + skb_dlen b)) (set_skb_seq (snd_nxt (tb s)) b).

Definition queued_state b s : st L :=
  let s' := upd_sk (set_sk_write_queue (skb_queue_tail (sk_write_queue (sk s)) (queued_buf b s)))
    (upd_cc (set_inflight (u32 (inflight (cc s) + skb_dlen b)))
      (upd_tb (set_snd_nxt (u32 (u32 (snd_nxt (tb s) + skb_dlen b) + b2z (fin_of s b)))) s)) in
  if skb_queue_empty (sk_write_queue (sk s)) then tcp_rearm_rto_timer s' else s'.

Lemma queue_transmit_unfold b s :
  queue_transmit_now b s =
  transmit_queued (length (wq s)) (queued_buf b s) (snd_nxt (tb s)) (queued_state b s).
Proof.
  unfold queue_transmit_now, queued_state, queued_buf. fold (fin_of s b).
  destruct (fin_of s b); [done|]. simpl. rewrite Z.add_0_r, u32_idemp. done.
Qed.

Lemma queued_state_frame b s :
  let s' := queued_state b s in
  sk s' = set_sk_write_queue (skb_queue_tail (sk_write_queue (sk s)) (queued_buf b s)) (sk s) /\
  tb s' = set_snd_nxt (u32 (u32 (snd_nxt (tb s) + skb_dlen b) + b2z (fin_of s b))) (tb s) /\
  cc s' = set_inflight (u32 (inflight (cc s) + skb_dlen b)) (cc s) /\
  sa s' = sa s /\ ofo s' = ofo s /\ ptsk s' = ptsk s /\ so s' = so s.
Proof.
  unfold queued_state. destruct (skb_queue_empty _); [|done].
  match goal with |- context [tcp_rearm_rto_timer ?t] => pose proof (rearm_rto_frame t) as F end.
  simpl in F. destruct F as (F1&F2&F3&F4&F5&F6&F7&_). simpl.
  by rewrite F1, F2, F3, F4, F5, F6, F7.
Qed.

(** What queueing and sending a segment does to the connection. *)
Record queued (s : st L) (b : sk_buff) (s' : st L) (b' : sk_buff) : Prop := {
  qd_wq : wq s' = wq s ++ [b'];
  qd_meta : same_meta (queued_buf b s) b';
  qd_bytes : family_ok s -> plain (sk_addr_family (sk s)) b -> seg_bytes b' = seg_bytes b;
  qd_qlen : qlen (sk_write_queue (sk s')) = u32 (qlen (sk_write_queue (sk s)) + 1);
  qd_rq : sk_receive_queue (sk s') = sk_receive_queue (sk s);
  qd_tb : tb s' = set_snd_nxt (u32 (u32 (snd_nxt (tb s) + skb_dlen b) + b2z (fin_of s b))) (tb s);
  qd_cc : cc s' = set_inflight (u32 (inflight (cc s) + skb_dlen b)) (cc s);
  qd_so : so s' = so s;
  qd_ofo : ofo s' = ofo s;
  qd_family : sk_addr_family (sk s') = sk_addr_family (sk s);
  qd_state : state s' = state s
}.

Lemma queue_transmit_queued b s :
  exists b', queued s b (queue_transmit_now b s).1 b'.
Proof.
  rewrite queue_transmit_unfold. unfold transmit_queued.
  pose proof (queued_state_frame b s) as (F1&F2&F3&F4&F5&F6&F7).
  set (s1 := queued_state b s) in *. clearbody s1.
  pose proof (transmit_frame (queued_buf b s) (snd_nxt (tb s)) s1) as [M F].
  assert (Hfam : sk_addr_family (sk s1) = sk_addr_family (sk s)) by by rewrite F1.
  pose proof (transmit_data (queued_buf b s) (snd_nxt (tb s)) s1) as D. rewrite Hfam in D.
  destruct (tcp_transmit_skb _ _ s1) as [[b2 s2] rc]. simpl in *. exists b2.
  destruct F. constructor; simpl; try congruence.
  - unfold wq. simpl. rewrite tx_sk0, F1. simpl.
    rewrite insert_app_r_alt by (unfold wq; lia). unfold wq. by rewrite Nat.sub_diag.
  - intros Hf Hp. rewrite D by done. done.
  - rewrite tx_sk0, F1. done.
  - rewrite tx_sk0, F1. done.
  - rewrite tx_sk0. done.
  - unfold state. simpl. rewrite tx_sk0, F1. done.
Qed.

Lemma queued_inv s b s' b' :
  snd_inv s -> queued s b s' b' -> 0 <= skb_dlen b ->
  snd_nxt (tb s) + skb_dlen b + 1 < 4294967296 -> Z.of_nat (length (wq s)) + 1 < 4294967296 ->
  snd_inv s' /\ snd_nxt (tb s') = snd_nxt (tb s) + skb_dlen b + b2z (fin_of s b) /\
  inflight (cc s') = inflight (cc s) + skb_dlen b.
Proof.
  intros I Q Hd Hn Hl. pose proof (snd_inv_inflight _ I) as Hi.
  destruct I as [[I1 I1'] I2 I3 I4 I5 I6 I7 I8]. destruct Q.
  rewrite qd_tb0, qd_cc0. simpl. unfold queued_buf in qd_meta0.
  assert (En : u32 (snd_nxt (tb s) + skb_dlen b) = snd_nxt (tb s) + skb_dlen b) by (apply u32_id; red; lia).
  assert (Ef : 0 <= b2z (fin_of s b) <= 1) by (destruct (fin_of s b); simpl; lia).
  rewrite En, (u32_id (_ + b2z _)) by (red; lia).
  rewrite (u32_id (inflight _ + _)) by (red; lia). rewrite En in qd_meta0. split; [|done].
  destruct qd_meta0 as [_ _ _ Md Ms Me _ _]. simpl in Md, Ms, Me.
  constructor; rewrite ?qd_tb0, ?qd_cc0; simpl; rewrite ?qd_wq0.
  - unfold queue_ok. fold (wq s'). rewrite qd_wq0, length_app, qd_qlen0, I1. simpl.
    fold (wq s). rewrite u32_id by (red; fold (wq s); lia). lia.
  - rewrite En, u32_id by (red; lia). lia.
  - rewrite En, u32_id by (red; lia). lia.
  - apply chain_hi with (skb_end_seq b'); [|rewrite En, u32_id by (red; lia); lia].
    apply chain_snoc with (snd_nxt (tb s)); [done|lia..].
  - rewrite u32_id by (red; lia). rewrite sum_dlen_app. simpl. lia.
  - done.
  - done.
  - done.
Qed.

(** *** One data segment of [tcp_send] *)

Lemma hdr_bound fam : (tcp_hdr_for_sk fam + 20 = Z.to_nat (ETH_HDR_LEN + ip_hlen fam + TCP_HDR_LEN))%nat.
Proof. unfold tcp_hdr_for_sk, ip_hlen. by destruct (fam =? AF_INET6). Qed.

(** The buffer of a data segment: zeroed header, flags, then the data. *)
Definition data_base (o : nat) (chunk : list Z) : list Z :=
  st_bytes (replicate (o + 20 + length chunk) 0) (o + 20) chunk.
Definition data_buf (o : nat) (last : bool) (chunk : list Z) : list Z :=
  let buf := th_set_flag o F_ACK (data_base o chunk) in
  if last then th_set_flag o F_PSH buf else buf.

Lemma length_data_base o chunk : length (data_base o chunk) = (o + 20 + length chunk)%nat.
Proof. unfold data_base. by rewrite length_st_bytes, length_replicate. Qed.

Lemma length_data_buf o last chunk : length (data_buf o last chunk) = (o + 20 + length chunk)%nat.
Proof. unfold data_buf, th_set_flag. destruct last; autorewrite with mem; apply length_data_base. Qed.

Lemma data_base_header o chunk i : (i < o + 20)%nat -> ld8 (data_base o chunk) i = 0.
Proof.
  intros Hi. unfold data_base. rewrite ld8_st_bytes_ne by lia. unfold ld8.
  destruct (_ !! i) eqn:E; [|done]. apply lookup_replicate in E. by destruct E as [-> _].
Qed.

Lemma data_buf_ld8 o last chunk i : i <> (o + 13)%nat -> ld8 (data_buf o last chunk) i = ld8 (data_base o chunk) i.
Proof. intros Hi. unfold data_buf, th_set_flag. destruct last; by rewrite !ld8_st8_ne by lia. Qed.

Lemma data_buf_flag o last chunk bit :
  0 <= bit < 8 -> th_flag o bit (data_buf o last chunk) = (last && (bit =? F_PSH)) || (bit =? F_ACK).
Proof.
  intros Hb. pose proof (length_data_base o chunk).
  assert (Hz : th_flag o bit (data_base o chunk) = false)
    by (unfold th_flag; rewrite data_base_header by lia; apply Z.bits_0).
  unfold data_buf. destruct last; rewrite !th_flag_set, Hz, orb_false_r; try done;
    unfold F_ACK, F_PSH; try lia; unfold th_set_flag; rewrite ?length_st8; lia.
Qed.

Lemma send_segment_buf chunk last s :
  let b := (send_segment chunk last s).1 in
  skb_buf b = data_buf (tcp_hdr_for_sk (sk_addr_family (sk s))) last chunk /\
  skb_dlen b = Z.of_nat (length chunk) /\ skb_protocol b = IP_TCP /\
  skb_data b = Z.of_nat (tcp_hdr_for_sk (sk_addr_family (sk s)) + 20).
Proof.
  unfold send_segment, tcp_alloc_skb, with_th. set (fam := sk_addr_family (sk s)).
  pose proof (hdr_bound fam) as Ho.
  assert (Hhl : 0 <= ETH_HDR_LEN + ip_hlen fam + TCP_HDR_LEN)
    by (unfold ip_hlen; destruct (fam =? AF_INET6); vm_compute; congruence).
  set (R := ETH_HDR_LEN + ip_hlen fam + TCP_HDR_LEN) in *. clearbody R.
  set (o := tcp_hdr_for_sk fam) in *. clearbody o. unfold data_buf, data_base. simpl.
  replace (Z.to_nat (0 + (R + 0 + Z.of_nat (length chunk)) - Z.of_nat (length chunk))) with (o + 20)%nat by lia.
  replace (Z.to_nat (R + 0 + Z.of_nat (length chunk))) with (o + 20 + length chunk)%nat by lia.
  assert (A : 0 + (R + 0 + Z.of_nat (length chunk)) - Z.of_nat (length chunk) = Z.of_nat (o + 20)) by lia.
  by destruct last.
Qed.

Lemma send_segment_spec chunk last s :
  let b := (send_segment chunk last s).1 in
  plain (sk_addr_family (sk s)) b /\ seg_bytes b = chunk /\
  fin_of s b = false /\ th_flag (tcp_hdr_for_sk (sk_addr_family (sk s))) F_PSH (skb_buf b) = last.
Proof.
  cbv zeta. destruct (send_segment_buf chunk last s) as (Hb & Hd & Hp & Ha).
  unfold plain, seg_bytes, fin_of. rewrite Hb, Hd, Hp, Ha, length_data_buf, Nat2Z.id.
  set (o := tcp_hdr_for_sk _).
  split; [|split; [|split]].
  - split; [done|]. split; [left|split; [lia|done]]. unfold th_get_hl.
    by rewrite data_buf_ld8, data_base_header by lia.
  - replace (o + 20 + length chunk - length chunk)%nat with (o + 20)%nat by lia.
    transitivity (ld_bytes (data_base o chunk) (o + 20) (length chunk)).
    + unfold ld_bytes. apply list_fmap_ext. intros j i Hj. apply data_buf_ld8. lia.
    + unfold data_base. apply ld_bytes_st_bytes. rewrite length_replicate. lia.
  - rewrite data_buf_flag by done. by destruct last.
  - rewrite data_buf_flag by done. by destruct last.
Qed.

Lemma send_segment_frame chunk last s : tx_frame s (send_segment chunk last s).2.
Proof. apply (alloc_frame (sk_addr_family (sk s)) 0 (Z.of_nat (length chunk))). Qed.

(** *** [tcp_send] *)

(** [segs] were appended to the write queue and carry exactly [data]. *)
Record sent (mss : Z) s s' (segs : list sk_buff) (data : list Z) : Prop := {
  st_wq : wq s' = wq s ++ segs;
  st_data : stream segs = data;
  st_size : Forall (fun b => 0 < skb_dlen b <= mss) segs;
  st_inv : snd_inv s';
  st_nxt : snd_nxt (tb s') = snd_nxt (tb s) + Z.of_nat (length data);
  st_una : snd_una (tb s') = snd_una (tb s);
  st_inflight : inflight (cc s') = inflight (cc s) + Z.of_nat (length data);
  st_wnd : snd_wnd (tb s') = snd_wnd (tb s);
  st_cwnd : cwnd (cc s') = cwnd (cc s);
  st_state : state s' = state s;
  st_family : sk_addr_family (sk s') = sk_addr_family (sk s);
  st_count : (length segs <= length data)%nat
}.

Lemma sent_nil mss s : snd_inv s -> sent mss s s [] [].
Proof. intros I. constructor; simpl; try done; rewrite ?app_nil_r; try done; lia. Qed.

Lemma sent_trans mss s1 s2 s3 q1 q2 d1 d2 :
  sent mss s1 s2 q1 d1 -> sent mss s2 s3 q2 d2 -> sent mss s1 s3 (q1 ++ q2) (d1 ++ d2).
Proof.
  intros [] []. constructor; rewrite ?length_app; try congruence; try lia.
  - rewrite st_wq1, st_wq0. by rewrite app_assoc.
  - rewrite stream_app. congruence.
  - by apply Forall_app.
Qed.

(** States that differ in nothing the sending side looks at. *)
Definition snd_same s s' : Prop :=
  sk_write_queue (sk s') = sk_write_queue (sk s) /\ tb s' = tb s /\ cc s' = cc s /\
  state s' = state s /\ sk_addr_family (sk s') = sk_addr_family (sk s).

Lemma snd_same_inv s s' : snd_same s s' -> snd_inv s -> snd_inv s'.
Proof.
  intros (E1&E2&E3&_) []. unfold wq in *.
  constructor; unfold wq; by rewrite ?E1, ?E2, ?E3.
Qed.

Lemma tx_snd_same s s' : tx_frame s s' -> snd_same s s'.
Proof.
  intros F. split; [by apply tx_wq|]. split; [apply F|]. split; [apply F|].
  split; [by apply tx_state|by apply tx_family].
Qed.

Lemma snd_same_sent_l mss s0 s s' q d : snd_same s0 s -> sent mss s s' q d -> sent mss s0 s' q d.
Proof.
  intros (E1&E2&E3&E4&E5) []. unfold wq in *. rewrite E1, E2, E3, E4, E5 in *. by constructor.
Qed.

Lemma snd_same_sent_r mss s s' s1 q d : sent mss s s' q d -> snd_same s' s1 -> sent mss s s1 q d.
Proof.
  intros [] E. pose proof (snd_same_inv _ _ E st_inv0) as I. destruct E as (E1&E2&E3&E4&E5).
  unfold wq in *. constructor; unfold wq; rewrite ?E1, ?E2, ?E3, ?E4, ?E5; done.
Qed.

Lemma socket_release_same s : snd_same s (socket_release s).
Proof. unfold socket_release, snd_same. by destruct (so_locked (so s)). Qed.
Lemma socket_acquire_same s : snd_same s (socket_wr_acquire s).
Proof. unfold socket_wr_acquire, snd_same. by destruct (so_locked (so s)). Qed.

Lemma user_timeout_same s : snd_same s (tcp_rearm_user_timeout s).
Proof.
  unfold tcp_rearm_user_timeout, do_timer_cancel, snd_same. destruct (state_is _ _); [done|].
  pose proof (lift_timer_frame (timer_cancel (linger (tm s)) (e_timers (en s))) s) as F.
  set (s1 := lift_timer _ s) in *. clearbody s1. destruct F as (F1&F2&F3&F4&F5&F6&F7&F8).
  simpl. unfold state. simpl. by rewrite F1, F2, F4.
Qed.

Lemma queued_sent mss s b s' b' :
  snd_inv s -> family_ok s -> plain (sk_addr_family (sk s)) b -> fin_of s b = false ->
  0 < skb_dlen b <= mss -> snd_nxt (tb s) + skb_dlen b + 1 < 4294967296 ->
  Z.of_nat (length (wq s)) + 1 < 4294967296 ->
  queued s b s' b' -> sent mss s s' [b'] (seg_bytes b).
Proof.
  intros I Hf Hp Hfin Hd Hn Hq Q.
  destruct (queued_inv _ _ _ _ I Q) as (I' & En & Ei); [lia..|]. rewrite Hfin in En. simpl in En.
  assert (Hlen : Z.of_nat (length (seg_bytes b)) = skb_dlen b)
    by (unfold seg_bytes; rewrite length_ld_bytes; lia).
  destruct Q. constructor; rewrite ?qd_tb0, ?qd_cc0; simpl; try done; try lia.
  - unfold stream. simpl. rewrite app_nil_r. auto.
  - repeat constructor; rewrite (sm_dlen _ _ qd_meta0); simpl; lia.
  - rewrite Hlen. rewrite qd_tb0 in En. simpl in En. lia.
  - rewrite Hlen. rewrite qd_cc0 in Ei. simpl in Ei. lia.
Qed.


(** A buffer [tcp_send] can wait with: a plain data segment. *)
Definition data_seg (mss : Z) s (b : sk_buff) : Prop :=
  plain (sk_addr_family (sk s)) b /\ fin_of s b = false /\ 0 < skb_dlen b <= mss.

(** What holds when the thread that has [data] left to send returns, or sleeps:
    no byte is lost, repeated or reordered, and the window is respected. *)
Definition send_post (mss len : Z) s (data : list Z) (r : res L) : Prop :=
  match r with
  | Done s' rc =>
      exists segs, sent mss s s' segs data /\ rc = len /\
        (data <> [] -> inflight (cc s') <= Z.min (cwnd (cc s')) (snd_wnd (tb s')))
  | Asleep s' b k =>
      exists segs gone rest, sent mss s s' segs gone /\ data_seg mss s' b /\
        k = [AfterSend rest mss len] /\ data = gone ++ seg_bytes b ++ rest /\
        Z.min (cwnd (cc s')) (snd_wnd (tb s')) < inflight (cc s') + skb_dlen b
  | Diverges => False
  end.

(** Room for the data in sequence space and in the queue counter. *)
Definition room s (n : Z) : Prop :=
  snd_nxt (tb s) + n + 1 < 4294967296 /\ Z.of_nat (length (wq s)) + n + 1 < 4294967296.

Lemma wnd_open_spec s n :
  snd_inv s -> 0 <= n -> room s n ->
  snd_wnd_open n s = true <-> inflight (cc s) + n <= Z.min (cwnd (cc s)) (snd_wnd (tb s)).
Proof.
  intros I Hn [Hr _]. pose proof (snd_inv_inflight _ I). unfold snd_wnd_open.
  rewrite min_spec, u32_id by (red; lia). rewrite negb_true_iff, Z.ltb_ge. done.
Qed.

Lemma send_post_sent mss len s s1 q d data r :
  sent mss s s1 q d -> send_post mss len s1 data r ->
  (data = [] -> inflight (cc s1) <= Z.min (cwnd (cc s1)) (snd_wnd (tb s1))) ->
  send_post mss len s (d ++ data) r.
Proof.
  intros S P Hw. destruct r as [s' rc|s' b k|]; simpl in *; [| |done].
  - destruct P as (segs & S' & -> & Hin). exists (q ++ segs).
    split; [by eapply sent_trans|]. split; [done|]. intros _.
    destruct data; [|by apply Hin]. destruct S'. simpl in *. rewrite st_inflight0, st_cwnd0, st_wnd0.
    specialize (Hw eq_refl). lia.
  - destruct P as (segs & gone & rest & S' & Hd & -> & -> & Hc). exists (q ++ segs), (d ++ gone), rest.
    split; [by eapply sent_trans|]. rewrite <- app_assoc. done.
Qed.

Lemma send_post_same mss len s s1 data r :
  snd_same s s1 -> send_post mss len s1 data r -> send_post mss len s data r.
Proof.
  intros E. destruct r as [s' rc|s' b k|]; simpl; [| |done].
  - intros (segs & S & P). exists segs. split; [by eapply snd_same_sent_l|done].
  - intros (segs & gone & rest & S & P). exists segs, gone, rest. split; [by eapply snd_same_sent_l|done].
Qed.

(** Queue [b], then go on with [rest]. *)
Lemma send_from mss len s b rest (loop : st L -> res L) :
  snd_inv s -> family_ok s -> data_seg mss s b ->
  room s (skb_dlen b + Z.of_nat (length rest)) ->
  (forall s', snd_inv s' -> family_ok s' -> room s' (Z.of_nat (length rest)) ->
     send_post mss len s' rest (loop s')) ->
  send_post mss len s (seg_bytes b ++ rest)
    match tcp_queue_transmit_skb b s with
    | Done s' _ => loop s'
    | Asleep s' b' k => Asleep s' b' (k ++ [AfterSend rest mss len])
    | Diverges => Diverges
    end.
Proof.
  intros I Hf (Hp & Hfin & Hd) [Hr1 Hr2] Hloop. unfold tcp_queue_transmit_skb.
  pose proof (wnd_open_spec s (skb_dlen b) I ltac:(lia) ltac:(split; lia)) as Hw.
  destruct (snd_wnd_open (skb_dlen b) s).
  - destruct (queue_transmit_queued b s) as [b' Q].
    destruct (queue_transmit_now b s) as [s' rc]. simpl in Q.
    assert (S : sent mss s s' [b'] (seg_bytes b)) by (apply queued_sent; auto; lia).
    pose proof (proj1 Hw eq_refl) as Hle. destruct S as [] eqn:ES. clear ES.
    assert (Hlen : Z.of_nat (length (seg_bytes b)) = skb_dlen b)
      by (unfold seg_bytes; rewrite length_ld_bytes; lia).
    apply send_post_sent with s' [b'].
    + by constructor.
    + apply Hloop; [done|unfold family_ok in *; congruence|].
      split; [|rewrite st_wq0, length_app; simpl]; lia.
    + intros _. rewrite st_inflight0, st_cwnd0, st_wnd0. lia.
  - simpl. exists [], [], rest. pose proof (socket_release_same s) as Sr.
    split; [eapply snd_same_sent_r; [by apply sent_nil|done]|].
    destruct Sr as (E1&E2&E3&E4&E5). unfold data_seg, fin_of. rewrite E2, E3, E5.
    split; [done|]. split; [done|]. split; [done|].
    destruct (Z.le_gt_cases (inflight (cc s) + skb_dlen b) (Z.min (cwnd (cc s)) (snd_wnd (tb s)))); [|lia].
    by apply Hw in H1.
Qed.

Lemma chunk_size mss (rest : list Z) :
  0 < mss -> rest <> [] ->
  let n := Z.to_nat (if mss <? Z.of_nat (length rest) then mss else Z.of_nat (length rest)) in
  (0 < length (take n rest))%nat /\ Z.of_nat (length (take n rest)) <= mss /\
  (length (take n rest) + length (drop n rest) = length rest)%nat.
Proof.
  intros Hm Hr. destruct rest as [|x r]; [done|]. cbv zeta. rewrite length_take, length_drop.
  destruct (Z.ltb_spec mss (Z.of_nat (length (x :: r)))); simpl length in *; lia.
Qed.

Lemma send_loop_step fuel rest mss len s :
  rest <> [] ->
  tcp_send_loop (S fuel) rest mss len s =
  let n := Z.to_nat (if mss <? Z.of_nat (length rest) then mss else Z.of_nat (length rest)) in
  let '(b, s1) := send_segment (take n rest) (bool_decide (drop n rest = [])) s in
  match tcp_queue_transmit_skb b s1 with
  | Done s' _ => tcp_send_loop fuel (drop n rest) mss len s'
  | Asleep s' b' k => Asleep s' b' (k ++ [AfterSend (drop n rest) mss len])
  | Diverges => Diverges
  end.
Proof. by destruct rest. Qed.

Lemma send_loop_post mss len : forall fuel rest s,
  snd_inv s -> family_ok s -> 0 < mss -> (length rest <= fuel)%nat -> room s (Z.of_nat (length rest)) ->
  send_post mss len s rest (tcp_send_loop fuel rest mss len s).
Proof.
  induction fuel as [|fuel IH]; intros rest s I Hf Hm Hfu Hroom.
  { destruct rest; [|simpl in Hfu; lia]. exists []. split; [|done].
    eapply snd_same_sent_r; [by apply sent_nil|apply user_timeout_same]. }
  destruct rest as [|x r] eqn:Er.
  { exists []. split; [|done]. eapply snd_same_sent_r; [by apply sent_nil|apply user_timeout_same]. }
  rewrite <- Er in *. assert (Hne : rest <> []) by (by rewrite Er).
  destruct (chunk_size mss rest Hm Hne) as (Hc1 & Hc2 & Hc3). rewrite send_loop_step by done. cbv zeta.
  set (n := Z.to_nat _) in *. clearbody n.
  pose proof (send_segment_frame (take n rest) (bool_decide (drop n rest = [])) s) as F.
  destruct (send_segment_spec (take n rest) (bool_decide (drop n rest = [])) s) as (Hp & Hb & Hfin & _).
  destruct (send_segment_buf (take n rest) (bool_decide (drop n rest = [])) s) as (_ & Hd & _).
  destruct (send_segment _ _ s) as [b s1]. simpl in F, Hp, Hb, Hd, Hfin.
  pose proof (tx_snd_same _ _ F) as Hsame. pose proof Hsame as (E1&E2&E3&E4&E5).
  assert (Ed : seg_bytes b ++ drop n rest = rest) by (rewrite Hb; apply take_drop).
  assert (P : send_post mss len s1 (seg_bytes b ++ drop n rest)
    match tcp_queue_transmit_skb b s1 with
    | Done s' _ => tcp_send_loop fuel (drop n rest) mss len s'
    | Asleep s' b' k => Asleep s' b' (k ++ [AfterSend (drop n rest) mss len])
    | Diverges => Diverges
    end).
  { destruct Hroom as [R1 R2].
    apply send_from; [by eapply snd_same_inv|unfold family_ok in *; congruence| | |].
    - unfold data_seg, fin_of in *. rewrite E5. split; [done|]. split; [done|]. lia.
    - unfold room, wq in *. rewrite E1, E2. split; lia.
    - intros s' I' Hf' R'. apply IH; try done. lia. }
  rewrite Ed in P. by eapply send_post_same.
Qed.

Theorem tcp_send_correct buf s :
  snd_inv s -> family_ok s -> 0 < smss (cc s) -> room s (Z.of_nat (length buf)) ->
  send_post (smss (cc s)) (Z.of_nat (length buf)) s buf (tcp_send buf s).
Proof. intros. by apply send_loop_post. Qed.

Theorem resume_send_correct b rest mss len s :
  snd_inv s -> family_ok s -> 0 < mss -> data_seg mss s b ->
  room s (skb_dlen b + Z.of_nat (length rest)) ->
  send_post mss len s (seg_bytes b ++ rest) (resume b [AfterSend rest mss len] s).
Proof.
  intros I Hf Hm D R. unfold resume. pose proof (socket_acquire_same s) as Sa.
  pose proof Sa as (E1&E2&E3&E4&E5). set (s1 := socket_wr_acquire s) in *. clearbody s1.
  apply send_post_same with s1; [done|].
  assert (P := send_from mss len s1 b rest (fun s' => tcp_send_loop (length rest) rest mss len s')).
  simpl. destruct (tcp_queue_transmit_skb b s1) as [s' rc|s' b' k|]; apply P; clear P;
    try (by eapply snd_same_inv); try (unfold family_ok, data_seg, fin_of, room, wq in *; by rewrite ?E1, ?E2, ?E5);
    intros; by apply send_loop_post.
Qed.

(** With a zero segment size no byte is ever taken: the loop of [tcp_send] does
    not end, however many empty segments it queues. *)
Theorem tcp_send_zero_mss fuel rest len s :
  rest <> [] -> snd_wnd_open 0 s = true -> tcp_send_loop fuel rest 0 len s = Diverges.
Proof.
  intros Hr. revert s. induction fuel as [|fuel IH]; intros s Hw; [by destruct rest|].
  rewrite send_loop_step by done. replace (0 <? Z.of_nat (length rest)) with true
    by (symmetry; apply Z.ltb_lt; destruct rest; [done|simpl; lia]).
  change (Z.to_nat 0) with 0%nat. cbv zeta. rewrite take_0, drop_0.
  pose proof (send_segment_frame [] (bool_decide (rest = [])) s) as F.
  destruct (send_segment_buf [] (bool_decide (rest = [])) s) as (_ & Hd & _).
  destruct (send_segment _ _ s) as [b s1]. simpl in F, Hd.
  change (Z.of_nat 0) with 0 in Hd. unfold tcp_queue_transmit_skb.
  assert (Hw1 : snd_wnd_open 0 s1 = true) by (unfold snd_wnd_open in *; by rewrite (tx_cc _ _ F), (tx_tb _ _ F)).
  rewrite Hd, Hw1. destruct (queue_transmit_queued b s1) as [b' Q].
  destruct (queue_transmit_now b s1) as [s2 rc]. simpl in Q. apply IH.
  unfold snd_wnd_open in *. rewrite (qd_cc _ _ _ _ Q), (qd_tb _ _ _ _ Q). simpl.
  rewrite Hd, !Z.add_0_r in *. by autorewrite with cint.
Qed.

End Sender.
End TcpSender.
