(* ===== verification/TcpData.v ===== *)
(** In-order delivery and reassembly: [src/src/tcp_data.c], and [tcp_receive] of
    [src/src/tcp_input.c]. *)
From S2P Require Import Prelude Utils SkBuff Timer TcpTypes TcpBase TcpOutput.
Import Utils SkBuff Timer TcpTypes TcpBase TcpOutput.

Module TcpData.

(** Where [tcp_data_insert_ordered] puts a segment: in front of position [i], at
    the tail, or nowhere because its sequence number is queued already.  A later
    segment it overlaps is passed over ("Could not join skbs"). *)
Inductive place := Before (i : nat) | AtTail | Duplicate.

Fixpoint find_place (b : sk_buff) (i : nat) (q : list sk_buff) : place :=
  match q with
  | [] => AtTail
  | next :: q =>
      if skb_seq b <? skb_seq next then
        if skb_seq next <? skb_end_seq b then find_place b (S i) q else Before i
      else if skb_seq b =? skb_seq next then Duplicate
      else find_place b (S i) q
  end.

Definition hold (b : sk_buff) : sk_buff := set_skb_refcnt (skb_refcnt b + 1) b.

(** The queue and the buffer, whose reference count goes up when it is queued. *)
Definition tcp_data_insert_ordered (queue : sk_buff_head) (b : sk_buff) : sk_buff_head * sk_buff :=
  match find_place b 0 (skq queue) with
  | Before i => (skb_queue_add queue (hold b) i, hold b)
  | AtTail => (skb_queue_tail queue (hold b), hold b)
  | Duplicate => (queue, b)
  end.

Section Data.
Context {L : Type} `{IpLayer L}.
Implicit Type s : st L.

Definition receive_queue s : sk_buff_head := sk_receive_queue (sk s).
Definition set_receive_queue (q : sk_buff_head) s : st L := upd_sk (set_sk_receive_queue q) s.

(** The loop of [tcp_consume_ofo_queue]; every turn dequeues, so the length of
    the queue is enough fuel. *)
Fixpoint consume_loop (fuel : nat) s : st L :=
  match fuel, skb_peek (ofo s), skb_dequeue (ofo s) with
  | S fuel, Some b, Some (_, q) =>
      if rcv_nxt (tb s) =? skb_seq b then
        let s := upd_tb (set_rcv_nxt (u32 (rcv_nxt (tb s) + skb_dlen b))) s in
        let s := set_ofo q s in
        consume_loop fuel (set_receive_queue (skb_queue_tail (receive_queue s) b) s)
      else s
  | _, _, _ => s
  end.

Definition tcp_consume_ofo_queue s : st L := consume_loop (length (skq (ofo s))) s.

Definition increase_recv_win (dlen : Z) s : st L :=
  upd_tb (fun t => set_real_rcv_wnd (u32 (real_rcv_wnd t + dlen)) t) s.
Definition decrease_recv_win (dlen : Z) s : st L :=
  upd_tb (fun t => set_real_rcv_wnd (u32 (real_rcv_wnd t - dlen)) t) s.

(** Eat up to [userlen - rlen] bytes of the first buffer: the bytes, and whether
    the buffer is used up. *)
Definition dequeue_step (b : sk_buff) (rlen userlen : Z) s : list Z * st L :=
  let dlen := if u32 userlen <? u32 (rlen + skb_dlen b) then userlen - rlen else skb_dlen b in
  let out := ld_bytes (skb_buf b) (Z.to_nat (skb_payload b)) (Z.to_nat dlen) in
  let s := if skb_end b <? skb_payload b + dlen then add_fault FaultBounds s else s in
  let b := set_skb_payload (skb_payload b + dlen) (set_skb_dlen (u32 (skb_dlen b - dlen)) b) in
  let s := increase_recv_win dlen s in
  let q := receive_queue s in
  let s := set_receive_queue (set_skq (b :: tail (skq q)) q) s in
  if skb_dlen b =? 0 then
    let psh := th_flag (tcp_hdr_for_sk (sk_addr_family (sk s))) F_PSH (skb_buf b) in
    let s := if psh then upd_tm (fun t => set_tsk_flags (Z.lor (tsk_flags t) TCP_PSH) t) s else s in
    match skb_dequeue (receive_queue s) with
    | Some (b, q) =>
        (out, do_free_skb (set_skb_refcnt (skb_refcnt b - 1) b) (set_receive_queue q s))
    | None => (out, add_fault FaultDequeueEmpty s)
    end
  else (out, s).

(** Every turn uses up the first buffer or fills the user's, so the length of the
    queue is enough fuel. *)
Fixpoint dequeue_loop (fuel : nat) (acc : list Z) (userlen : Z) s : list Z * st L :=
  match fuel with
  | O => (acc, s)
  | S fuel =>
      if negb (skb_queue_empty (receive_queue s)) && (Z.of_nat (length acc) <? userlen) then
        match skb_peek (receive_queue s) with
        | None => (acc, s)
        | Some b =>
            let '(out, s) := dequeue_step b (Z.of_nat (length acc)) userlen s in
            dequeue_loop fuel (acc ++ out) userlen s
        end
      else (acc, s)
  end.

Definition tcp_data_dequeue (userlen : Z) s : list Z * st L :=
  let '(out, s) := dequeue_loop (length (skq (receive_queue s))) [] userlen s in
  if skb_queue_empty (receive_queue s) && (Z.land (tsk_flags (tm s)) TCP_FIN =? 0)
  then (out, upd_sk (fun k => set_sk_poll_events (Z.land (sk_poll_events k) (Z.lnot POLLIN)) k) s)
  else (out, s).

(** The buffer is returned with the reference the queues took. *)
Definition tcp_data_queue (b : sk_buff) s : sk_buff * st L * Z :=
  if rcv_wnd (tb s) =? 0 then (b, s, -1)
  else if skb_seq b =? rcv_nxt (tb s) then
    let s := decrease_recv_win (skb_dlen b) s in
    let s := upd_tb (set_rcv_nxt (u32 (rcv_nxt (tb s) + skb_dlen b))) s in
    let b := hold b in
    let s := set_receive_queue (skb_queue_tail (receive_queue s) b) s in
    let s := tcp_consume_ofo_queue s in
    (b, recv_notify (or_poll POLL_READABLE s), 0)
  else
    let '(q, b) := tcp_data_insert_ordered (ofo s) b in
    let s := set_ofo q s in
    let s := if sackok (sa s) =? 0 then s else tcp_calculate_sacks (skb_seq b) (skb_end_seq b) s in
    let '(s, _) := tcp_send_ack s in
    (b, s, 0).

(** ** [tcp_receive]

    Each turn of its loop ends the call or puts the thread to sleep on
    [recv_wait] with the lock released. *)
Inductive recv_res :=
  | Received (s : st L) (bytes : list Z) (rc : Z)
  | RecvAsleep (s : st L) (acc : list Z) (len : Z).

Definition receive_out (bytes : list Z) s : recv_res :=
  Received (tcp_rearm_user_timeout s) bytes (Z.of_nat (length bytes)).

Definition receive_turn (acc : list Z) (len : Z) s : recv_res :=
  if Z.of_nat (length acc) <? len then
    let '(out, s) := tcp_data_dequeue (len - Z.of_nat (length acc)) s in
    let acc := acc ++ out in
    let flags := tsk_flags (tm s) in
    if negb (Z.land flags TCP_PSH =? 0) then
      receive_out acc (upd_tm (set_tsk_flags (u8 (Z.land flags (Z.lnot TCP_PSH)))) s)
    else if negb (Z.land flags TCP_FIN =? 0) || (Z.of_nat (length acc) =? len) then receive_out acc s
    else if negb (Z.land (so_flags (so s)) O_NONBLOCK =? 0) then
      if Z.of_nat (length acc) =? 0 then Received s [] (- EAGAIN) else receive_out acc s
    else RecvAsleep (socket_release s) acc len
  else receive_out acc s.

Definition tcp_receive (len : Z) s : recv_res := receive_turn [] len s.
Definition tcp_receive_resume (acc : list Z) (len : Z) s : recv_res :=
  receive_turn acc len (socket_wr_acquire s).

End Data.
Arguments recv_res : clear implicits.
End TcpData.
