(* ===== verification/TcpInput.v ===== *)
(** Segment arrival: [src/src/tcp_input.c].

    [tcp_input_conn] is [tcp_input_state] for a socket that is not listening; the
    LISTEN case creates a socket and lives with the socket table, in World. The
    body is cut at the numbered steps of RFC 793 that the code's comments name;
    a step either goes on ([Next]) or returns ([Return]). *)
From S2P Require Import Prelude Utils SkBuff Timer TcpTypes TcpBase TcpOutput TcpData.
Import Utils SkBuff Timer TcpTypes TcpBase TcpOutput TcpData.

Module TcpInput.

(** ** Options *)

Definition mark_block (blocks : list (Z * Z)) (b : sk_buff) : sk_buff :=
  if existsb (fun '(l, r) => (l <=? skb_seq b) && (skb_end_seq b <=? r)) blocks
  then set_skb_sacked 1 b else b.

Definition max_right (blocks : list (Z * Z)) : Z :=
  foldl (fun m '(_, r) => if m <? r then r else m) 0 blocks.

(** The locals of [tcp_parse_opts]. *)
Record optst := mk_optst {
  po_ptr : nat;
  po_optlen : Z;
  po_blocks : list (Z * Z);
  po_nblocks : Z;
  po_sack_seen : bool;
  po_scale : Z;
  po_read : nat   (** one past the furthest byte read, for bounds *)
}.

(** Blocks [i .. i + n) read from [ptr]. *)
Fixpoint read_blocks (data : list Z) (ptr i n : nat) (bl : list (Z * Z)) : list (Z * Z) :=
  match n with
  | O => bl
  | S n =>
      read_blocks data (ptr + 8) (S i) n
        (<[i := (bswap32 (ld32 data ptr), bswap32 (ld32 data (ptr + 4)))]> bl)
  end.

Definition skip_opt (n : Z) (p : optst) : optst :=
  mk_optst (po_ptr p + Z.to_nat n) (u8 (po_optlen p - n)) (po_blocks p) (po_nblocks p)
    (po_sack_seen p) (po_scale p) (Nat.max (po_read p) (po_ptr p + 1)).

Definition parse_sack (data : list Z) (p : optst) : optst :=
  let datalen := ld8 data (po_ptr p + 1) in
  let n := Z.quot (datalen - 2) 8 in
  let n := if 4 <? n then 4 else n in
  let ptr := (po_ptr p + 2)%nat in
  let k := Z.to_nat n in
  mk_optst (ptr + 8 * k) (u8 (po_optlen p - 2 - 8 * Z.of_nat k)) (read_blocks data ptr 0 k (po_blocks p)) n
    true (po_scale p) (Nat.max (po_read p) (ptr + 8 * k)).

Definition parse_wso (data : list Z) (p : optst) : optst :=
  let wso := ld8 data (po_ptr p + 2) in
  mk_optst (po_ptr p + 3) (u8 (po_optlen p - TCP_OPTLEN_WSO)) (po_blocks p) (po_nblocks p)
    (po_sack_seen p) (if wso <=? 14 then wso else 14) (Nat.max (po_read p) (po_ptr p + 3)).

(** An unknown kind shortens [optlen] without advancing [ptr]. *)
Definition skip_unknown (p : optst) : optst :=
  mk_optst (po_ptr p) (u8 (po_optlen p - 1)) (po_blocks p) (po_nblocks p)
    (po_sack_seen p) (po_scale p) (Nat.max (po_read p) (po_ptr p + 1)).

Definition parse_one (data : list Z) (p : optst) : optst :=
  let kind := ld8 data (po_ptr p) in
  if kind =? TCP_OPT_MSS then skip_opt 4 p
  else if kind =? TCP_OPT_NOOP then skip_opt 1 p
  else if kind =? TCP_OPT_SACK_OK then skip_opt TCP_OPTLEN_SACK p
  else if kind =? TCP_OPT_SACK then parse_sack data p
  else if kind =? TCP_OPT_TS then skip_opt TCP_OPTLEN_TS p
  else if kind =? TCP_OPT_WSO then parse_wso data p
  else skip_unknown p.

Definition parse_more (p : optst) : bool := (0 <? po_optlen p) && (po_optlen p <? 40).

Fixpoint parse_loop (fuel : nat) (data : list Z) (p : optst) : optst :=
  match fuel with
  | O => p
  | S fuel => if parse_more p then parse_loop fuel data (parse_one data p) else p
  end.

(** Every turn with [0 < optlen < 40] lowers [optlen] or wraps it above 40. *)
Definition parse_fuel : nat := 40.

Definition opt_start (optlen scale : Z) : optst :=
  mk_optst 0 optlen (replicate 4 (0, 0)) 0 false scale 0.

Section Input.
Context {L : Type} `{IpLayer L}.
Implicit Type s : st L.

Definition update_snd_win (win : Z) s : st L :=
  upd_tb (set_snd_wnd (u32 (Z.shiftl win (snd_scale (sa s))))) s.

Definition write_queue s : sk_buff_head := sk_write_queue (sk s).
Definition set_write_queue (q : sk_buff_head) s : st L := upd_sk (set_sk_write_queue q) s.

Definition tcp_sack_mark_write_queue (blocks : list (Z * Z)) s : st L :=
  let q := write_queue s in
  let s := set_write_queue (set_skq (mark_block blocks <$> skq q) q) s in
  let m := max_right blocks in
  if sack_max_right (sa s) <? m then upd_sa (set_sack_max_right m) s else s.

Definition tcp_parse_opts (th : tcphdr) s : st L :=
  let p := parse_loop parse_fuel (th_data th) (opt_start (u8 (tcp_hlen th - 20)) (snd_scale (sa s))) in
  let s := if (length (th_data th) <? po_read p)%nat then add_fault FaultBounds s else s in
  let s := upd_sa (fun a => set_tsopt 0 (set_snd_scale (po_scale p) a)) s in
  if po_sack_seen p && negb (sackok (sa s) =? 0)
  then tcp_sack_mark_write_queue (take (Z.to_nat (po_nblocks p)) (po_blocks p)) s
  else s.

(** ** Congestion control (RFC 5681) *)

Definition tcp_cong_avoid (acked : Z) (c : tcp_cong) : tcp_cong :=
  if acked =? 0 then c
  else if negb (in_recovery c =? 0) then c
  else if cwnd c <? ssthresh c then set_cwnd (u32 (cwnd c + min acked (smss c))) c
  else
    let c := set_bytes_acked (u32 (bytes_acked c + acked)) c in
    if cwnd c <=? bytes_acked c
    then let c := set_bytes_acked (bytes_acked c - cwnd c) c in set_cwnd (u32 (cwnd c + smss c)) c
    else c.

Definition ack_inflight (acked : Z) (c : tcp_cong) : tcp_cong :=
  set_inflight (if acked <=? inflight c then inflight c - acked else 0) c.

(** The loop of [tcp_clean_rto_queue]: the state, and whether it ended because
    the queue was empty. Every turn dequeues. *)
Fixpoint clean_loop (fuel : nat) (una : Z) s : st L * bool :=
  match fuel with
  | O => (s, skb_queue_empty (write_queue s))
  | S fuel =>
      match skb_peek (write_queue s) with
      | None => (s, true)
      | Some b =>
          if (0 <? skb_seq b) && (skb_end_seq b <=? una) then
            match skb_dequeue (write_queue s) with
            | None => (add_fault FaultDequeueEmpty s, true)
            | Some (_, q) =>
                let acked := skb_dlen b in
                let s := wake (WriteWait (self s)) (set_write_queue q s) in
                let s := do_free_skb (set_skb_refcnt (skb_refcnt b - 1) b) s in
                let s := upd_cc (fun c => tcp_cong_avoid acked (ack_inflight acked c)) s in
                clean_loop fuel una s
            end
          else (s, false)
      end
  end.

Definition tcp_clean_rto_queue (una : Z) s : st L :=
  let '(s, empty) := clean_loop (length (skq (write_queue s))) una s in
  if empty || (inflight (cc s) =? 0) then tcp_stop_rto_timer s else s.

Definition tcp_is_dupack (th : tcphdr) (b : sk_buff) s : bool :=
  (th_ack_seq th =? snd_una (tb s)) && (skb_dlen b =? 0) && negb (th_syn th || th_fin th)
  && (th_win th =? last_ack_win (cc s)) && negb (inflight (cc s) =? 0).

Definition tcp_enter_fast_recovery s : st L :=
  let s := upd_cc (fun c => set_ssthresh (max (inflight c / 2) (u32 (2 * smss c))) c) s in
  let '(s, _) := tcp_fast_retransmit s in
  let s := upd_cc (fun c =>
    set_in_recovery 1 (set_bytes_acked 0 (set_cwnd (u32 (ssthresh c + 3 * smss c)) c))) s in
  tcp_rearm_rto_timer s.

Definition tcp_exit_fast_recovery (c : tcp_cong) : tcp_cong :=
  set_bytes_acked 0 (set_dupacks 0 (set_in_recovery 0 (set_cwnd (ssthresh c) c))).

Definition tcp_handle_dupack s : st L :=
  let s := upd_cc (fun c => set_dupacks (u8 (dupacks c + 1)) c) s in
  let '(extra, s) :=
    if dupacks (cc s) <? 3 then (u32 (dupacks (cc s) * smss (cc s)), s)
    else if dupacks (cc s) =? 3 then (0, tcp_enter_fast_recovery s)
    else (0, upd_cc (fun c => set_cwnd (u32 (cwnd c + smss c)) c) s) in
  let pending := s32 (skb_queue_len (write_queue s)) in
  if 0 <? pending then tcp_send_next pending extra s else s.

(** ** Checks *)

Definition tcp_verify_segment (th : tcphdr) (b : sk_buff) s : bool :=
  if (0 <? skb_dlen b) && (rcv_wnd (tb s) =? 0) then false
  else negb ((th_seq th <? rcv_nxt (tb s)) || (u32 (rcv_nxt (tb s) + rcv_wnd (tb s)) <? th_seq th)).

Definition reset_events : Z := poll_or [POLLOUT; POLLWRNORM; POLLERR; POLLHUP].

Definition tcp_reset s : st L :=
  let s := upd_sk (set_sk_poll_events reset_events) s in
  match state s with
  | TCP_SYN_SENT => tcp_done (set_err (- ECONNREFUSED) s)
  | TCP_CLOSE_WAIT => tcp_done (set_err (- EPIPE) s)
  | TCP_CLOSE => s
  | _ => tcp_done (set_err (- ECONNRESET) s)
  end.

(** [__tcp_drop], [tcp_discard] *)
Definition tcp_drop (b : sk_buff) s : st L := do_free_skb b s.

(** ** CLOSED and SYN-SENT *)

Definition tcp_closed (th : tcphdr) (b : sk_buff) s : res L :=
  if th_rst th then Done (tcp_drop b s) 0
  else let '(s, rc) := tcp_send_reset s in Done (do_free_skb b s) rc.

Definition connected_events : Z := poll_or [POLLOUT; POLLWRNORM; POLLWRBAND].

Definition sock_connected s : st L :=
  let s := upd_so (set_so_state SS_CONNECTED) s in
  let s := upd_sk (fun k => set_sk_poll_events connected_events (set_sk_err 0 k)) s in
  wake (SleepWait (self s)) s.

Definition synsent_ack_bad (th : tcphdr) (t : tcb) : bool :=
  th_ack th &&
  ((th_ack_seq th <=? iss t) || (snd_nxt t <? th_ack_seq th)
   || (th_ack_seq th <? snd_una t) || (snd_nxt t <? th_ack_seq th)).

Definition tcp_synsent (th : tcphdr) (b : sk_buff) s : res L :=
  if synsent_ack_bad th (tb s) then Done (tcp_drop b s) 0
  else if th_rst th then Done (tcp_drop b (tcp_reset s)) 0
  else if negb (th_syn th) then Done (tcp_drop b s) 0
  else
    let s := upd_tb (fun t => set_irs (th_seq th) (set_rcv_nxt (u32 (th_seq th + 1)) t)) s in
    let s := if th_ack th
             then tcp_clean_rto_queue (th_ack_seq th) (upd_tb (set_snd_una (th_ack_seq th)) s)
             else s in
    if iss (tb s) <? snd_una (tb s) then
      let s := set_state TCP_ESTABLISHED s in
      let s := upd_tb (fun t => set_snd_wl2 (th_ack_seq th) (set_snd_wl1 (th_seq th)
                 (set_snd_wnd (th_win th) (set_snd_una (snd_nxt t) t)))) s in
      let s := upd_tm (fun t => set_rto 1000 (set_backoff 0 t)) s in
      let '(s, _) := tcp_send_ack s in
      let s := tcp_rearm_user_timeout s in
      let s := tcp_parse_opts th s in
      let s := update_snd_win (th_win th) s in
      Done (tcp_drop b (sock_connected s)) 0
    else
      let s := set_state TCP_SYN_RECEIVED s in
      let s := upd_tb (fun t => set_snd_una (iss t) t) s in
      and_then (tcp_send_synack s) (AfterDrop b).

(** ** The accept queue of the parent *)

Definition conn_queue_tail (c : conn_head) (id : Z) : conn_head :=
  set_ch_qlen (u32 (ch_qlen c + 1)) (set_ch_list (ch_list c ++ [id]) c).

Definition add_tsk_to_parent_establied_conn_list s : st L :=
  match ptsk s with
  | None => add_fault FaultNull s
  | Some p =>
      match e_passive (en s) !! p with
      | None => add_fault FaultNull s
      | Some c =>
          wake (AcceptWait p)
            (upd_en (fun e => set_e_passive (<[p := conn_queue_tail c (self s)]> (e_passive e)) e) s)
      end
  end.

(** ** The steps of "Otherwise" *)

Inductive step :=
  | Next (b : sk_buff) (s : st L)
  | Return (s : st L) (rc : Z).

Definition step_bind (r : step) (f : sk_buff -> st L -> step) : step :=
  match r with Next b s => f b s | Return s rc => Return s rc end.

(** First, second, fourth and fifth: sequence number, RST, SYN, ACK bit. *)
Definition check_segment (th : tcphdr) (b : sk_buff) s : step :=
  if negb (tcp_verify_segment th b s) then
    let s := if th_rst th then s else (tcp_send_ack s).1 in
    Return (tcp_drop b s) 0
  else if th_rst th then
    Return (recv_notify (tcp_enter_time_wait (do_free_skb b s))) 0
  else if th_syn th then
    Return (tcp_drop b (tcp_send_challenge_ack s).1) 0
  else if negb (th_ack th) then Return (tcp_drop b s) 0
  else Next b s.

Definition ack_advances (th : tcphdr) s : bool :=
  (snd_una (tb s) <? th_ack_seq th) && (th_ack_seq th <=? snd_nxt (tb s)).

(** The cases ESTABLISHED .. LAST_ACK of the ACK switch. *)
Definition process_ack (th : tcphdr) (b : sk_buff) s : step :=
  if tcp_is_dupack th b s then
    let s := tcp_handle_dupack s in
    Return (do_free_skb b (upd_cc (set_last_ack_win (th_win th)) s)) 0
  else
    let s :=
      if ack_advances th s then
        let s := upd_tb (set_snd_una (th_ack_seq th)) s in
        let s := tcp_clean_rto_queue (snd_una (tb s)) (tcp_rtt s) in
        if in_recovery (cc s) =? 0 then s else upd_cc tcp_exit_fast_recovery s
      else s in
    if th_ack_seq th <? snd_una (tb s) then Return (tcp_drop b s) 0
    else if snd_nxt (tb s) <? th_ack_seq th then Return (tcp_drop b s) 0
    else
      let s := if ack_advances th s then update_snd_win (th_win th) s else s in
      Next b (upd_cc (set_last_ack_win (th_win th)) s).

Definition ack_switch (th : tcphdr) (b : sk_buff) s : step :=
  match state s with
  | TCP_SYN_RECEIVED =>
      if ack_advances th s
      then process_ack th b (add_tsk_to_parent_establied_conn_list (set_state TCP_ESTABLISHED s))
      else Return (tcp_drop b s) 0
  | TCP_ESTABLISHED | TCP_FIN_WAIT_1 | TCP_FIN_WAIT_2 | TCP_CLOSE_WAIT | TCP_CLOSING | TCP_LAST_ACK =>
      process_ack th b s
  | _ => Next b s
  end.

Definition or_flags (v : Z) s : st L := upd_tm (fun t => set_tsk_flags (Z.lor (tsk_flags t) v) t) s.

(** "If the write queue is empty, it means our FIN was acked" *)
Definition fin_acked (th : tcphdr) (b : sk_buff) s : step :=
  if skb_queue_empty (write_queue s) then
    match state s with
    | TCP_FIN_WAIT_1 => Next b (set_state TCP_FIN_WAIT_2 s)
    | TCP_CLOSING => Next b (set_state TCP_TIME_WAIT s)
    | TCP_LAST_ACK => Return (tcp_done (do_free_skb b s)) 0
    | TCP_TIME_WAIT =>
        if rcv_nxt (tb s) =? th_seq th
        then Next b (tcp_send_ack (or_flags TCP_FIN s)).1
        else Next b s
    | _ => Next b s
    end
  else Next b s.

(** Seventh: the segment text. *)
Definition segment_text (th : tcphdr) (b : sk_buff) s : step :=
  match state s with
  | TCP_ESTABLISHED | TCP_FIN_WAIT_1 | TCP_FIN_WAIT_2 =>
      if th_psh th || (0 <? skb_dlen b)
      then let '(b, s, _) := tcp_data_queue b s in Next b s
      else Next b s
  | _ => Next b s
  end.

(** Eighth: the FIN bit. *)
Definition fin_bit (th : tcphdr) (expected : bool) (b : sk_buff) s : step :=
  if th_fin th && expected then
    match state s with
    | TCP_CLOSE | TCP_LISTEN | TCP_SYN_SENT => Return (tcp_drop b s) 0
    | _ =>
        let s := upd_tb (fun t => set_rcv_nxt (u32 (rcv_nxt t + 1)) t) s in
        let s := or_poll POLL_READABLE (or_flags TCP_FIN s) in
        let s := recv_notify (tcp_send_ack s).1 in
        Next b
          match state s with
          | TCP_SYN_RECEIVED | TCP_ESTABLISHED => set_state TCP_CLOSE_WAIT s
          | TCP_FIN_WAIT_1 =>
              if skb_queue_empty (write_queue s) then tcp_enter_time_wait s else set_state TCP_CLOSING s
          | TCP_FIN_WAIT_2 => tcp_enter_time_wait s
          | _ => s
          end
    end
  else Next b s.

(** Congestion control and delayed acknowledgements. *)
Definition delay_ack (th : tcphdr) (b : sk_buff) s : st L :=
  let add_delack s :=
    if 0 <? skb_dlen b then
      let '(id, s) := do_timer_add 200 H_tcp_send_delack (ArgSock (self s)) false s in
      upd_tm (set_delack (Some id)) s
    else s in
  let ack_now s := (tcp_send_ack (upd_tm (set_delacks 0) s)).1 in
  if th_psh th then ack_now s
  else if 1000 <? skb_dlen b then
    let s := upd_tm (fun t => set_delacks (u8 (delacks t + 1)) t) s in
    if 1 <? delacks (tm s) then ack_now s else add_delack s
  else add_delack s.

Definition send_or_delay (th : tcphdr) (expected : bool) (b : sk_buff) s : step :=
  match state s with
  | TCP_ESTABLISHED | TCP_FIN_WAIT_1 | TCP_FIN_WAIT_2 =>
      if expected then
        let s := tcp_stop_delack_timer s in
        let pending := s32 (skb_queue_len (write_queue s)) in
        if 0 <? pending then Next b (tcp_rearm_rto_timer (tcp_send_next pending 0 s))
        else Next b (delay_ack th b s)
      else Next b s
  | _ => Next b s
  end.

Definition tcp_otherwise (th : tcphdr) (b : sk_buff) s : st L * Z :=
  let r :=
    step_bind (check_segment th b s) (fun b s =>
    step_bind (ack_switch th b s) (fun b s =>
    step_bind (fin_acked th b s) (fun b s =>
    let expected := skb_seq b =? rcv_nxt (tb s) in
    step_bind (segment_text th b s) (fun b s =>
    step_bind (fin_bit th expected b s) (fun b s =>
    send_or_delay th expected b s))))) in
  match r with
  | Next b s => (do_free_skb b s, 0)
  | Return s rc => (s, rc)
  end.

Definition tcp_input_conn (th : tcphdr) (b : sk_buff) s : res L :=
  match state s with
  | TCP_CLOSE => tcp_closed th b s
  | TCP_SYN_SENT => tcp_synsent th b s
  | _ => let '(s, rc) := tcp_otherwise th b s in Done s rc
  end.

End Input.
Arguments step : clear implicits.
End TcpInput.
