(* ===== verification/TcpAck.v ===== *)
(** Acknowledgements: what an ACK removes from the write queue, how the
    congestion window reacts, and that the sending invariant survives every
    segment that arrives. *)
From S2P Require Import Prelude Utils SkBuff Timer TcpTypes TcpBase TcpOutput TcpSender TcpData TcpInput.
Import Utils SkBuff Timer TcpTypes TcpBase TcpOutput TcpSender TcpData TcpInput.

Module TcpAck.

(** The segments [tcp_clean_rto_queue] removes, and those it keeps. *)
Fixpoint acked_prefix (una : Z) (q : list sk_buff) : list sk_buff :=
  match q with
  | [] => []
  | b :: q => if (0 <? skb_seq b) && (skb_end_seq b <=? una) then b :: acked_prefix una q else []
  end.

Definition unacked (una : Z) (q : list sk_buff) : list sk_buff := drop (length (acked_prefix una q)) q.

Lemma acked_unacked una q : acked_prefix una q ++ unacked una q = q.
Proof.
  unfold unacked. induction q as [|b q IH]; simpl; [done|].
  destruct (_ && _); simpl; [by rewrite IH|done].
Qed.

(** On an ordered queue the prefix is exactly what lies below [una]. *)
Lemma chain_end lo q hi b : chain lo q hi -> b ∈ q -> lo <= skb_end_seq b.
Proof.
  revert lo. induction q as [|c q IH]; intros lo; simpl; [by rewrite elem_of_nil|].
  intros (?&?&?&Hc). rewrite elem_of_cons. intros [->|Hin]; [lia|]. specialize (IH _ Hc Hin). lia.
Qed.

Lemma unacked_filter una lo q hi :
  1 <= lo -> chain lo q hi -> unacked una q = filter (fun b => una < skb_end_seq b) q.
Proof.
  intros Hlo. revert lo Hlo. unfold unacked. induction q as [|b q IH]; intros lo Hlo; simpl; [done|].
  intros (H1&H2&H3&Hc). rewrite filter_cons.
  destruct (Z.ltb_spec 0 (skb_seq b)); [|lia]. destruct (Z.leb_spec (skb_end_seq b) una); simpl.
  - rewrite decide_False by lia. apply IH with (skb_end_seq b); [lia|done].
  - rewrite decide_True by lia. f_equal. symmetry. apply filter_all, Forall_forall. intros x Hx.
    pose proof (chain_end _ _ _ _ Hc Hx). lia.
Qed.

Lemma acked_filter una lo q hi :
  1 <= lo -> chain lo q hi -> acked_prefix una q = filter (fun b => skb_end_seq b <= una) q.
Proof.
  revert lo. induction q as [|b q IH]; intros lo Hlo; simpl; [done|].
  intros (H1&H2&H3&Hc). rewrite filter_cons. destruct (Z.ltb_spec 0 (skb_seq b)); [|lia].
  destruct (Z.leb_spec (skb_end_seq b) una); simpl.
  - rewrite decide_True by lia. f_equal. by apply (IH (skb_end_seq b)); [lia|].
  - rewrite decide_False by lia. symmetry. apply filter_none, Forall_forall. intros x Hx.
    pose proof (chain_end _ _ _ _ Hc Hx). lia.
Qed.

Lemma chain_unacked una lo q hi : chain lo q hi -> chain lo (unacked una q) hi.
Proof.
  unfold unacked. revert lo. induction q as [|b q IH]; intros lo; simpl; [done|].
  intros (H1&H2&H3&Hc). destruct (_ && _); simpl.
  - apply IH in Hc. revert Hc. generalize (drop (length (acked_prefix una q)) q). intros l Hl.
    destruct l; simpl in *; intuition lia.
  - done.
Qed.

(** The congestion state after acknowledging these segments one by one. *)
Definition ack_all (q : list sk_buff) (c : tcp_cong) : tcp_cong :=
  foldl (fun c b => tcp_cong_avoid (skb_dlen b) (ack_inflight (skb_dlen b) c)) c q.

Create HintDb sndeq.

(** ** Congestion control *)

Lemma cong_avoid_keeps a c :
  let c' := tcp_cong_avoid a c in
  inflight c' = inflight c /\ smss c' = smss c /\ ssthresh c' = ssthresh c /\ in_recovery c' = in_recovery c /\
  dupacks c' = dupacks c /\ rmss c' = rmss c /\ last_ack_win c' = last_ack_win c.
Proof.
  unfold tcp_cong_avoid. destruct (_ =? 0); [done|]. destruct (negb _); [done|].
  destruct (_ <? _); [done|]. simpl. by destruct (_ <=? _).
Qed.

Lemma cong_avoid_range a c : 0 <= cwnd c < 4294967296 -> 0 <= cwnd (tcp_cong_avoid a c) < 4294967296.
Proof.
  intros Hc. unfold tcp_cong_avoid. destruct (_ =? 0); [done|]. destruct (negb _); [done|].
  destruct (_ <? _); [apply u32_range|]. simpl. destruct (_ <=? _); [apply u32_range|done].
Qed.

Lemma ack_all_inflight q : forall c,
  Forall (fun b => 0 <= skb_dlen b) q -> sum_dlen q <= inflight c ->
  inflight (ack_all q c) = inflight c - sum_dlen q.
Proof.
  induction q as [|b q IH]; intros c Hq Hs; simpl; [lia|]. simpl in Hs.
  apply Forall_cons in Hq as [Hb Hq].
  assert (0 <= sum_dlen q) by (clear -Hq; induction Hq; simpl; lia).
  assert (E : inflight (tcp_cong_avoid (skb_dlen b) (ack_inflight (skb_dlen b) c)) = inflight c - skb_dlen b).
  { destruct (cong_avoid_keeps (skb_dlen b) (ack_inflight (skb_dlen b) c)) as [-> _].
    unfold ack_inflight. simpl. destruct (Z.leb_spec (skb_dlen b) (inflight c)); lia. }
  unfold ack_all in *. rewrite IH; rewrite ?E; [lia|done|lia].
Qed.

Lemma ack_all_range q : forall c, 0 <= cwnd c < 4294967296 -> 0 <= cwnd (ack_all q c) < 4294967296.
Proof. induction q as [|b q IH]; intros c Hc; simpl; [done|]. apply IH, cong_avoid_range. done. Qed.

Lemma ack_all_ssthresh q : forall c, ssthresh (ack_all q c) = ssthresh c.
Proof.
  induction q as [|b q IH]; intros c; simpl; [done|]. rewrite IH.
  by destruct (cong_avoid_keeps (skb_dlen b) (ack_inflight (skb_dlen b) c)) as (_&_&->&_).
Qed.

(** A run of acknowledgements. *)
Definition cong_acks (acks : list Z) (c : tcp_cong) : tcp_cong := foldl (fun c a => tcp_cong_avoid a c) c acks.

(** Slow start: every acknowledged byte opens the window by one, so a window's
    worth of acknowledgements doubles it. *)
Theorem slow_start_growth acks : forall c,
  in_recovery c = 0 -> 0 <= cwnd c -> Forall (fun a => 0 < a <= smss c) acks ->
  cwnd c + foldr Z.add 0 acks <= ssthresh c -> ssthresh c < 4294967296 ->
  cwnd (cong_acks acks c) = cwnd c + foldr Z.add 0 acks /\ bytes_acked (cong_acks acks c) = bytes_acked c.
Proof.
  induction acks as [|a acks IH]; intros c Hr Hc Ha Hs Ht; simpl in *; [lia|].
  apply Forall_cons in Ha as [Ha Has].
  assert (0 <= foldr Z.add 0 acks) by (clear -Has; induction Has; simpl; lia).
  assert (E : tcp_cong_avoid a c = set_cwnd (cwnd c + a) c).
  { unfold tcp_cong_avoid. destruct (Z.eqb_spec a 0); [lia|]. rewrite Hr. simpl.
    destruct (Z.ltb_spec (cwnd c) (ssthresh c)); [|lia]. rewrite min_spec, Z.min_l by lia.
    by rewrite u32_id by (red; lia). }
  rewrite E. destruct (IH (set_cwnd (cwnd c + a) c)) as [I1 I2]; simpl; try done; try lia.
  simpl in I1. split; [lia|done].
Qed.

Lemma cong_avoid_small a c :
  in_recovery c = 0 -> ssthresh c <= cwnd c -> 0 < a -> 0 <= bytes_acked c -> bytes_acked c + a < cwnd c ->
  cwnd c < 4294967296 -> tcp_cong_avoid a c = set_bytes_acked (bytes_acked c + a) c.
Proof.
  intros Hr Hs Ha Hb Hc Hm. unfold tcp_cong_avoid. destruct (Z.eqb_spec a 0); [lia|]. rewrite Hr. simpl.
  destruct (Z.ltb_spec (cwnd c) (ssthresh c)); [lia|]. rewrite u32_id by (red; lia).
  destruct (Z.leb_spec (cwnd c) (bytes_acked c + a)); [lia|done].
Qed.

(** Congestion avoidance: acknowledging exactly one window opens it by one
    segment, and the byte count starts again at zero. *)
Theorem congestion_avoidance_growth acks : forall c,
  in_recovery c = 0 -> ssthresh c <= cwnd c -> 0 < cwnd c -> cwnd c + smss c < 4294967296 -> 0 <= smss c ->
  0 <= bytes_acked c -> Forall (fun a => 0 < a) acks -> bytes_acked c + foldr Z.add 0 acks = cwnd c -> acks <> [] ->
  cwnd (cong_acks acks c) = cwnd c + smss c /\ bytes_acked (cong_acks acks c) = 0.
Proof.
  induction acks as [|a acks IH]; intros c Hr Hs Hc Hm H0 Hb Ha He Hn; [done|].
  apply Forall_cons in Ha as [Ha Has]. simpl in He |- *.
  destruct acks as [|a' acks].
  - simpl in *. unfold tcp_cong_avoid. destruct (Z.eqb_spec a 0); [lia|]. rewrite Hr. simpl.
    destruct (Z.ltb_spec (cwnd c) (ssthresh c)); [lia|]. rewrite (u32_id (bytes_acked c + a)) by (red; lia).
    destruct (Z.leb_spec (cwnd c) (bytes_acked c + a)); [|lia]. simpl. rewrite u32_id by (red; lia). lia.
  - assert (0 < foldr Z.add 0 (a' :: acks)).
    { apply Forall_cons in Has as [? Has']. simpl. assert (0 <= foldr Z.add 0 acks)
        by (clear -Has'; induction Has'; simpl; lia). lia. }
    assert (E : tcp_cong_avoid a c = set_bytes_acked (bytes_acked c + a) c) by (apply cong_avoid_small; lia).
    change (cong_acks (a :: a' :: acks) c) with (cong_acks (a' :: acks) (tcp_cong_avoid a c)). rewrite E.
    apply (IH (set_bytes_acked (bytes_acked c + a) c)); simpl in *; try done; lia.
Qed.

Section Ack.
Context {L : Type} `{IpLayerLaws L}.
Implicit Type s : st L.

Record cleaned (q : list sk_buff) s s' : Prop := {
  cl_tb : tb s' = tb s;
  cl_tm : tm s' = tm s;
  cl_sa : sa s' = sa s;
  cl_ofo : ofo s' = ofo s;
  cl_so : so s' = so s;
  cl_ptsk : ptsk s' = ptsk s;
  cl_cc : cc s' = ack_all q (cc s);
  cl_sk : sk s' = set_sk_write_queue (sk_write_queue (sk s')) (sk s);
  cl_wq : wq s = q ++ wq s';
  cl_ok : queue_ok (sk_write_queue (sk s'));
  cl_timers : e_timers (en s') = e_timers (en s);
  cl_wakes : e_wakes (en s') = e_wakes (en s) ++ replicate (length q) (WriteWait (self s));
  cl_freed : e_freed (en s') =
    e_freed (en s) ++ (skb_id <$> filter (fun b => skb_refcnt b - 1 < 1) q);
  cl_faults : e_faults (en s') = e_faults (en s)
}.

Lemma clean_step s b r q :
  wq s = b :: r -> skb_dequeue (sk_write_queue (sk s)) = Some (b, q) -> queue_ok q -> skq q = r ->
  cleaned [b] s
    (upd_cc (fun c => tcp_cong_avoid (skb_dlen b) (ack_inflight (skb_dlen b) c))
      (do_free_skb (set_skb_refcnt (skb_refcnt b - 1) b)
        (wake (WriteWait (self s)) (set_write_queue q s)))).
Proof.
  intros Hw Hq Hok Hr. unfold do_free_skb, free_skb. simpl.
  assert (Hf : filter (fun b => skb_refcnt b - 1 < 1) [b] = if skb_refcnt b - 1 <? 1 then [b] else []).
  { rewrite filter_cons, filter_nil. destruct (Z.ltb_spec (skb_refcnt b - 1) 1); by case_decide; try lia. }
  destruct (skb_refcnt b - 1 <? 1); constructor; simpl; rewrite ?Hf; simpl; try done;
    unfold wq in *; simpl; rewrite ?Hw, ?Hr, ?app_nil_r; done.
Qed.

Lemma cleaned_nil s : queue_ok (sk_write_queue (sk s)) -> cleaned [] s s.
Proof.
  intros Hok. constructor; simpl; try done; rewrite ?app_nil_r; try done. by destruct (sk s).
Qed.

Lemma cleaned_trans q1 q2 s1 s2 s3 : cleaned q1 s1 s2 -> cleaned q2 s2 s3 -> cleaned (q1 ++ q2) s1 s3.
Proof.
  intros [] []. constructor; try congruence.
  - unfold ack_all in *. rewrite foldl_app. congruence.
  - rewrite cl_sk1, cl_sk0. by destruct (sk s1).
  - rewrite cl_wq0, cl_wq1. by rewrite app_assoc.
  - rewrite cl_wakes1, cl_wakes0, length_app, replicate_add, app_assoc. unfold self. by rewrite cl_so0.
  - rewrite cl_freed1, cl_freed0, filter_app, fmap_app, app_assoc. done.
Qed.

Lemma clean_loop_spec una : forall fuel s,
  queue_ok (sk_write_queue (sk s)) -> (length (wq s) <= fuel)%nat ->
  cleaned (acked_prefix una (wq s)) s (clean_loop fuel una s).1 /\
  (clean_loop fuel una s).2 = bool_decide (wq (clean_loop fuel una s).1 = []).
Proof.
  induction fuel as [|fuel IH]; intros s Hok Hf.
  { simpl. assert (E : wq s = []) by (destruct (wq s); [done|simpl in Hf; lia]). rewrite E.
    split; [by apply cleaned_nil|]. unfold write_queue. rewrite queue_ok_empty by done.
    unfold wq in E. by rewrite E. }
  simpl. unfold write_queue. rewrite queue_ok_peek by done. fold (wq s).
  destruct (wq s) as [|b r] eqn:E; simpl.
  { split; [by apply cleaned_nil|by rewrite E]. }
  destruct (_ && _) eqn:Ec; [|simpl; split; [by apply cleaned_nil|by rewrite E]].
  destruct (queue_ok_dequeue _ _ _ Hok E) as (q & Hq & Hr & _ & Hqok). rewrite Hq.
  pose proof (clean_step s b r q E Hq Hqok Hr) as C.
  set (s1 := upd_cc _ _) in *. clearbody s1.
  assert (E1 : wq s1 = r) by (pose proof (cl_wq _ _ _ C) as W; rewrite E in W; by injection W).
  specialize (IH s1 (cl_ok _ _ _ C)). rewrite E1 in IH. destruct IH as [IH1 IH2]; [simpl in Hf; lia|].
  split; [|done]. apply (cleaned_trans [b] _ _ _ _ C IH1).
Qed.

Lemma chain_dlens lo q hi : chain lo q hi -> Forall (fun b => 0 <= skb_dlen b) q.
Proof. revert lo. induction q as [|b q IH]; intros lo; simpl; [constructor|]. intros (?&?&?&?). constructor; eauto. Qed.

Lemma stop_rto_frame s :
  let s' := tcp_stop_rto_timer s in
  sk s' = sk s /\ tb s' = tb s /\ cc s' = cc s /\ sa s' = sa s /\ ofo s' = ofo s /\ so s' = so s /\
  tm s' = set_rto_epoch (u64 (rto_epoch (tm s) + 1)) (set_backoff 0 (set_retransmit None (tm s))) /\
  e_freed (en s') = e_freed (en s) /\ e_wakes (en s') = e_wakes (en s).
Proof.
  unfold tcp_stop_rto_timer, do_timer_cancel.
  by destruct (timer_cancel (retransmit (tm s)) (e_timers (en s))).
Qed.

Lemma stop_rto_same s : snd_same s (tcp_stop_rto_timer s).
Proof.
  destruct (stop_rto_frame s) as (F1&F2&F3&_). unfold snd_same, state. by rewrite F1, F2, F3.
Qed.

(** Removing an acknowledged prefix keeps the invariant. *)
Lemma cleaned_inv q s s' : snd_inv s -> cleaned q s s' -> snd_inv s'.
Proof.
  intros [I1 I2 I3 I4 I5 I6 I7 I8] C. pose proof (cl_wq _ _ _ C) as W. rewrite W in I4, I5.
  assert (K : chain 1 (wq s') (snd_nxt (tb s)) /\ Forall (fun b => 0 <= skb_dlen b) q).
  { split; [|apply chain_dlens in I4; apply Forall_app in I4; apply I4].
    clear -I4. revert I4. generalize 1. induction q as [|b q IH]; intros lo; simpl; [done|].
    intros (?&?&?&K%IH). destruct (wq s'); simpl in *; intuition lia. }
  destruct K as [K1 K2]. pose proof (chain_sum _ _ _ K1). rewrite sum_dlen_app in I5.
  constructor; rewrite ?(cl_tb _ _ _ C), ?(cl_cc _ _ _ C); try done.
  - apply C.
  - rewrite ack_all_inflight; [lia|done|lia].
  - by apply ack_all_range.
  - by rewrite ack_all_ssthresh.
Qed.

(** An acknowledgement of everything below [una]. *)
Theorem clean_rto_queue_correct una s :
  snd_inv s ->
  let s' := tcp_clean_rto_queue una s in
  let gone := filter (fun b => skb_end_seq b <= una) (wq s) in
  wq s' = filter (fun b => una < skb_end_seq b) (wq s) /\
  cc s' = ack_all gone (cc s) /\ inflight (cc s') = sum_dlen (wq s') /\ tb s' = tb s /\ snd_inv s' /\
  e_freed (en s') = e_freed (en s) ++ (skb_id <$> filter (fun b => skb_refcnt b - 1 < 1) gone) /\
  e_wakes (en s') = e_wakes (en s) ++ replicate (length gone) (WriteWait (self s)) /\
  (inflight (cc s') = 0 -> retransmit (tm s') = None /\ backoff (tm s') = 0).
Proof.
  intros I. pose proof (si_chain _ I) as I4. cbv zeta.
  rewrite <- (acked_filter una 1 _ _ (Z.le_refl 1) I4), <- (unacked_filter una 1 _ _ (Z.le_refl 1) I4).
  unfold tcp_clean_rto_queue, write_queue. fold (wq s).
  destruct (clean_loop_spec una (length (wq s)) s (si_queue _ I) (Nat.le_refl _)) as [C _].
  destruct (clean_loop _ una s) as [s1 e]. simpl in C.
  assert (Hw : wq s1 = unacked una (wq s)).
  { apply (app_inv_head (acked_prefix una (wq s))). by rewrite acked_unacked, <- (cl_wq _ _ _ C). }
  pose proof (cleaned_inv _ _ _ I C) as J. rewrite <- Hw.
  destruct (e || (inflight (cc s1) =? 0)) eqn:Ez.
  - destruct (stop_rto_frame s1) as (F1&F2&F3&F4&F5&F6&F7&F8&F9).
    pose proof (snd_same_inv _ _ (stop_rto_same s1) J) as J'.
    assert (Hq : wq (tcp_stop_rto_timer s1) = wq s1) by (unfold wq; by rewrite F1). rewrite Hq, F2, F3, F7, F8, F9. repeat (split; [first [apply C|apply J|done]|]). done.
  - repeat (split; [first [apply C|apply J|done]|]). intros Hz. rewrite Hz, orb_true_r in Ez. done.
Qed.

(** ** Steps that leave the sending side alone *)

(** Same sequence variables, windows and queue, up to the contents of the
    queued buffers. *)
Record snd_eq s s' : Prop := {
  se_wq : Forall2 same_meta (wq s) (wq s');
  se_qlen : qlen (sk_write_queue (sk s')) = qlen (sk_write_queue (sk s));
  se_una : snd_una (tb s') = snd_una (tb s);
  se_nxt : snd_nxt (tb s') = snd_nxt (tb s);
  se_wnd : snd_wnd (tb s') = snd_wnd (tb s);
  se_inflight : inflight (cc s') = inflight (cc s);
  se_cwnd : cwnd (cc s') = cwnd (cc s);
  se_ssthresh : ssthresh (cc s') = ssthresh (cc s)
}.

#[export] Instance snd_eq_preorder : PreOrder snd_eq.
Proof.
  split.
  - intros s. by constructor.
  - intros a b c [] []. constructor; try congruence. by etrans.
Qed.

Lemma snd_same_eq s s' : snd_same s s' -> snd_eq s s'.
Proof. intros (E1&E2&E3&_). unfold wq. constructor; unfold wq; rewrite ?E1, ?E2, ?E3; done. Qed.

Lemma chain_meta lo q q' hi : Forall2 same_meta q q' -> chain lo q hi -> chain lo q' hi.
Proof.
  intros F. revert lo. induction F as [|b b' q q' M F IH]; intros lo; simpl; [done|]. destruct M.
  intros (?&?&?&?). repeat split; try congruence. rewrite sm_end_seq0. auto.
Qed.

Lemma sum_meta q q' : Forall2 same_meta q q' -> sum_dlen q' = sum_dlen q.
Proof. induction 1 as [|b b' q q' M F IH]; simpl; [done|]. rewrite (sm_dlen _ _ M). lia. Qed.

Lemma snd_eq_inv s s' : snd_eq s s' -> snd_inv s -> snd_inv s'.
Proof.
  intros [] [I1 I2 I3 I4 I5 I6 I7 I8]. constructor; try congruence.
  - unfold queue_ok in *. fold (wq s) in I1. fold (wq s').
    by rewrite se_qlen0, <- (Forall2_length _ _ _ se_wq0).
  - rewrite se_nxt0. by eapply chain_meta.
  - rewrite se_inflight0, I5. symmetry. by apply sum_meta.
Qed.

(** Any change outside the write queue, the sequence variables and the
    congestion window. *)
Lemma snd_eq_intro s s' :
  sk_write_queue (sk s') = sk_write_queue (sk s) -> snd_una (tb s') = snd_una (tb s) ->
  snd_nxt (tb s') = snd_nxt (tb s) -> snd_wnd (tb s') = snd_wnd (tb s) ->
  inflight (cc s') = inflight (cc s) -> cwnd (cc s') = cwnd (cc s) ->
  ssthresh (cc s') = ssthresh (cc s) -> snd_eq s s'.
Proof. intros E **. constructor; unfold wq; rewrite ?E; done. Qed.

Lemma tx_eq s s' : tx_frame s s' -> snd_eq s s'.
Proof. intros F. by apply snd_same_eq, tx_snd_same. Qed.

Lemma lift_timer_eq r s : snd_eq s (lift_timer r s).
Proof. destruct (lift_timer_frame r s) as (F1&F2&F3&F4&_). apply snd_eq_intro; by rewrite ?F1, ?F2, ?F4. Qed.

Lemma free_eq b s : snd_eq s (do_free_skb b s).
Proof. apply tx_eq, do_free_frame. Qed.
Lemma send_ack_eq s : snd_eq s (tcp_send_ack s).1.
Proof. apply tx_eq, send_ack_frame. Qed.
Lemma rearm_eq s : snd_eq s (tcp_rearm_rto_timer s).
Proof. destruct (rearm_rto_frame s) as (F1&F2&F3&_). apply snd_eq_intro; by rewrite ?F1, ?F2, ?F3. Qed.
Lemma stop_rto_eq s : snd_eq s (tcp_stop_rto_timer s).
Proof. apply snd_same_eq, stop_rto_same. Qed.
Lemma upd_tm_eq f s : snd_eq s (upd_tm f s).
Proof. by apply snd_eq_intro. Qed.
Lemma upd_so_eq f s : snd_eq s (upd_so f s).
Proof. by apply snd_eq_intro. Qed.
Lemma upd_en_eq f s : snd_eq s (upd_en f s).
Proof. by apply snd_eq_intro. Qed.
Lemma set_ofo_eq q s : snd_eq s (set_ofo q s).
Proof. by apply snd_eq_intro. Qed.
Lemma set_state_eq v s : snd_eq s (set_state v s).
Proof. by apply snd_eq_intro. Qed.
Lemma set_rq_eq q s : snd_eq s (set_receive_queue q s).
Proof. by apply snd_eq_intro. Qed.
Lemma or_poll_eq v s : snd_eq s (or_poll v s).
Proof. by apply snd_eq_intro. Qed.
Lemma wake_eq w s : snd_eq s (wake w s).
Proof. apply upd_en_eq. Qed.
Lemma add_fault_eq f s : snd_eq s (add_fault f s).
Proof. apply upd_en_eq. Qed.
Lemma rcv_nxt_eq v s : snd_eq s (upd_tb (set_rcv_nxt v) s).
Proof. by apply snd_eq_intro. Qed.
Lemma timer_cancel_eq t s : snd_eq s (do_timer_cancel t s).
Proof. apply lift_timer_eq. Qed.
Lemma timer_add_eq ms h a r s : snd_eq s (do_timer_add ms h a r s).2.
Proof. apply upd_en_eq. Qed.
Lemma snd_eq_then s1 s2 s3 : snd_eq s2 s3 -> snd_eq s1 s2 -> snd_eq s1 s3.
Proof. intros A B. by etrans. Qed.

Lemma stop_delack_eq s : snd_eq s (tcp_stop_delack_timer s).
Proof. etrans; [apply timer_cancel_eq|apply upd_tm_eq]. Qed.

Lemma clear_timers_eq s : snd_eq s (tcp_clear_timers s).
Proof.
  unfold tcp_clear_timers.
  etrans; [apply stop_rto_eq|]. etrans; [apply stop_delack_eq|]. etrans; [apply timer_cancel_eq|].
  etrans; [apply upd_tm_eq|]. etrans; [apply timer_cancel_eq|apply upd_tm_eq].
Qed.

Lemma enter_time_wait_eq s : snd_eq s (tcp_enter_time_wait s).
Proof.
  unfold tcp_enter_time_wait. etrans; [apply (set_state_eq TCP_TIME_WAIT)|]. etrans; [apply clear_timers_eq|].
  set (s1 := tcp_clear_timers _). clearbody s1.
  pose proof (timer_add_eq TCP_2MSL H_tcp_linger (ArgSock (self s1)) false s1) as A.
  destruct (do_timer_add _ _ _ _ s1) as [id s2]. etrans; [exact A|apply upd_tm_eq].
Qed.

Lemma clear_queues_eq s : snd_eq s (tcp_clear_queues s).
Proof. unfold tcp_clear_queues. destruct (skb_queue_free _) as [q f]. etrans; [apply set_ofo_eq|apply upd_en_eq]. Qed.

Lemma tcp_free_eq s : snd_eq s (tcp_free s).
Proof. etrans; [apply clear_timers_eq|]. etrans; [apply clear_queues_eq|apply wake_eq]. Qed.

Lemma socket_delete_eq s : snd_eq s (socket_delete s).
Proof.
  unfold socket_delete.
  destruct (so_state (so s)); try done; (etrans; [apply upd_so_eq|apply upd_en_eq]).
Qed.

Lemma tcp_done_eq s : snd_eq s (tcp_done s).
Proof. etrans; [apply set_state_eq|]. etrans; [apply tcp_free_eq|apply socket_delete_eq]. Qed.

Lemma consume_eq fuel : forall s, snd_eq s (consume_loop fuel s).
Proof.
  induction fuel as [|fuel IH]; intros s; simpl; [done|].
  destruct (skb_peek (ofo s)) as [b|]; [|done]. destruct (skb_dequeue (ofo s)) as [[b' q]|]; [|done].
  destruct (_ =? _); [|done]. etrans; [|apply IH]. by apply snd_eq_intro.
Qed.

Lemma data_queue_eq b s : snd_eq s (tcp_data_queue b s).1.2.
Proof.
  unfold tcp_data_queue. destruct (_ =? 0); [done|]. destruct (_ =? _).
  - unfold recv_notify, tcp_consume_ofo_queue. cbv zeta. cbn [fst snd].
    apply (snd_eq_then _ _ _ (wake_eq _ _)), (snd_eq_then _ _ _ (or_poll_eq _ _)), (snd_eq_then _ _ _ (consume_eq _ _)).
    by apply snd_eq_intro.
  - destruct (tcp_data_insert_ordered (ofo s) b) as [q b'].
    set (s1 := if sackok _ =? 0 then _ else _).
    assert (E : snd_eq s s1) by (unfold s1; destruct (sackok _ =? 0); by apply snd_eq_intro).
    pose proof (send_ack_eq s1) as A. destruct (tcp_send_ack s1) as [s2 rc]. by etrans.
Qed.

(** ** Retransmission and duplicate acknowledgements *)

Lemma Forall2_meta_insert q i b b' : q !! i = Some b -> same_meta b b' -> Forall2 same_meta q (<[i := b']> q).
Proof.
  intros Hi M. rewrite <- (list_insert_id q i b Hi) at 1. apply Forall2_insert; [|done].
  reflexivity.
Qed.

(** Re-sending a queued segment changes its buffer only. *)
Lemma transmit_queued_eq i b seq s :
  wq s !! i = Some b ->
  snd_eq s (transmit_queued i (skb_reset_header b) seq s).1 /\
  cc (transmit_queued i (skb_reset_header b) seq s).1 = cc s /\
  tb (transmit_queued i (skb_reset_header b) seq s).1 = tb s.
Proof.
  intros Hi. unfold transmit_queued. destruct (transmit_frame (skb_reset_header b) seq s) as [M F].
  destruct (tcp_transmit_skb _ seq s) as [[b' s'] rc]. simpl in *.
  assert (M' : same_meta b b') by (etrans; [|exact M]; by constructor).
  split; [|split; [apply F|apply F]].
  constructor; simpl; rewrite ?(tx_tb _ _ F), ?(tx_cc _ _ F); try done.
  - unfold wq. simpl. rewrite (tx_wq _ _ F). by eapply Forall2_meta_insert.
  - by rewrite (tx_wq _ _ F).
Qed.

Lemma first_hole_lookup right : forall q n i b,
  first_hole n right q = Some (i, b) -> (n <= i)%nat /\ q !! (i - n)%nat = Some b.
Proof.
  induction q as [|c q IH]; intros n i b; simpl; [done|]. destruct (_ && _).
  - intros [= <- <-]. split; [lia|]. by rewrite Nat.sub_diag.
  - intros Hh. apply IH in Hh as [? Hl]. split; [lia|].
    by replace (i - n)%nat with (S (i - S n))%nat by lia.
Qed.

Lemma candidate_lookup s i b : tcp_retransmit_candidate s = Some (i, b) -> wq s !! i = Some b.
Proof.
  assert (Hh : forall i b, (match write_queue_head s with Some b => Some (0%nat, b) | None => None end) = Some (i, b) ->
             wq s !! i = Some b).
  { unfold write_queue_head, skb_peek, wq. intros j c. destruct (skb_queue_empty _); [done|].
    destruct (skq _); simpl; [done|]. by intros [= <- <-]. }
  unfold tcp_retransmit_candidate. destruct (0 <? _); [|apply Hh].
  destruct (first_hole 0 _ _) as [[j c]|] eqn:E; [|apply Hh].
  apply first_hole_lookup in E as [_ E]. rewrite Nat.sub_0_r in E. by intros [= <- <-].
Qed.

Lemma fast_retransmit_eq s :
  snd_eq s (tcp_fast_retransmit s).1 /\ cc (tcp_fast_retransmit s).1 = cc s /\ tb (tcp_fast_retransmit s).1 = tb s.
Proof.
  unfold tcp_fast_retransmit. destruct (tcp_retransmit_candidate s) as [[i b]|] eqn:E; [|done].
  apply transmit_queued_eq, candidate_lookup, E.
Qed.

(** A segment with a sequence number was already sent: nothing is left for
    [tcp_send_next] to do. *)
Lemma send_next_id amount extra s :
  Forall (fun b => skb_seq b <> 0) (wq s) -> tcp_send_next amount extra s = s.
Proof.
  intros Hs. unfold tcp_send_next. generalize (min (u32 (cwnd (cc s) + extra)) (snd_wnd (tb s))) as wnd.
  intros wnd. generalize (length (skq (sk_write_queue (sk s)))) as fuel. intros fuel.
  generalize 0%nat. induction fuel as [|fuel IH]; intros i; simpl; [done|]. fold (wq s).
  destruct (wq s !! i) as [b|] eqn:E; [|done]. destruct (amount <? _); [done|].
  rewrite Forall_lookup in Hs. specialize (Hs _ _ E).
  destruct (Z.eqb_spec (skb_seq b) 0); [done|]. apply IH.
Qed.

Lemma chain_seqs lo q hi : 1 <= lo -> chain lo q hi -> Forall (fun b => skb_seq b <> 0) q.
Proof.
  revert lo. induction q as [|b q IH]; intros lo Hlo; simpl; [constructor|]. intros (?&?&?&Hc).
  constructor; [lia|]. apply (IH (skb_end_seq b)); [lia|done].
Qed.

Lemma snd_inv_seqs s : snd_inv s -> Forall (fun b => skb_seq b <> 0) (wq s).
Proof. intros I. by apply (chain_seqs 1 _ (snd_nxt (tb s)) (Z.le_refl 1)), si_chain. Qed.

(** [ssthresh] after a loss. *)
Definition loss_thresh (c : tcp_cong) : Z := Z.max (inflight c / 2) (u32 (2 * smss c)).

Definition recovery_cong (c : tcp_cong) : tcp_cong :=
  set_in_recovery 1 (set_bytes_acked 0
    (set_cwnd (u32 (loss_thresh c + 3 * smss c)) (set_ssthresh (loss_thresh c) c))).

Lemma cwnd_change_inv f s :
  snd_inv s -> inflight (f (cc s)) = inflight (cc s) -> 0 <= cwnd (f (cc s)) < 4294967296 ->
  0 <= ssthresh (f (cc s)) < 4294967296 -> snd_inv (upd_cc f s).
Proof. intros [] Hi Hc Hs. constructor; simpl; try done. by rewrite Hi. Qed.

Lemma loss_thresh_range s : snd_inv s -> 0 <= loss_thresh (cc s) < 4294967296.
Proof.
  intros I. pose proof (snd_inv_inflight _ I). pose proof (si_nxt _ I).
  unfold loss_thresh. pose proof (u32_range (2 * smss (cc s))) as U. red in U.
  assert (0 <= inflight (cc s) / 2 <= inflight (cc s)) by (Z.div_mod_to_equations; lia). lia.
Qed.

Lemma enter_recovery_spec s :
  snd_inv s ->
  snd_inv (tcp_enter_fast_recovery s) /\ cc (tcp_enter_fast_recovery s) = recovery_cong (cc s) /\
  tb (tcp_enter_fast_recovery s) = tb s.
Proof.
  intros I. unfold tcp_enter_fast_recovery.
  set (s1 := upd_cc (fun c => set_ssthresh _ c) s).
  assert (C1 : cc s1 = set_ssthresh (loss_thresh (cc s)) (cc s)) by (unfold loss_thresh; by rewrite <- max_spec).
  assert (I1 : snd_inv s1).
  { apply cwnd_change_inv; [done..|apply I|]. rewrite max_spec. apply (loss_thresh_range s I). }
  assert (T1 : tb s1 = tb s) by done. clearbody s1.
  destruct (fast_retransmit_eq s1) as (E2 & C2 & T2). destruct (tcp_fast_retransmit s1) as [s2 rc]. simpl in *.
  pose proof (snd_eq_inv _ _ E2 I1) as I2. set (s3 := upd_cc _ s2).
  assert (I3 : snd_inv s3) by (apply cwnd_change_inv; [done..|apply u32_range|apply I2]).
  assert (C3 : cc s3 = recovery_cong (cc s)) by (unfold s3; simpl; by rewrite C2, C1).
  assert (T3 : tb s3 = tb s) by (unfold s3; simpl; by rewrite T2, T1). clearbody s3.
  destruct (rearm_rto_frame s3) as (F1&F2&F3&_). rewrite F2, F3.
  split; [|done]. by apply (snd_eq_inv s3); [apply rearm_eq|].
Qed.

Definition dupack_cong (c : tcp_cong) : tcp_cong :=
  let c := set_dupacks (u8 (dupacks c + 1)) c in
  if dupacks c <? 3 then c
  else if dupacks c =? 3 then recovery_cong c
  else set_cwnd (u32 (cwnd c + smss c)) c.

Lemma handle_dupack_spec s :
  snd_inv s ->
  snd_inv (tcp_handle_dupack s) /\ cc (tcp_handle_dupack s) = dupack_cong (cc s) /\ tb (tcp_handle_dupack s) = tb s.
Proof.
  intros I. unfold tcp_handle_dupack, dupack_cong. set (s1 := upd_cc (fun c => set_dupacks _ c) s).
  assert (I1 : snd_inv s1) by (apply cwnd_change_inv; [done..|apply I|apply I]).
  change (set_dupacks (u8 (dupacks (cc s) + 1)) (cc s)) with (cc s1). change (tb s) with (tb s1). clearbody s1.
  assert (N : forall s2 e, snd_inv s2 -> (if 0 <? s32 (skb_queue_len (write_queue s2))
    then tcp_send_next (s32 (skb_queue_len (write_queue s2))) e s2 else s2) = s2).
  { intros s2 e I2. destruct (0 <? _); [|done]. by apply send_next_id, snd_inv_seqs. }
  destruct (dupacks (cc s1) <? 3); [by rewrite N|].
  destruct (dupacks (cc s1) =? 3).
  - destruct (enter_recovery_spec s1 I1) as (I2 & C2 & T2). by rewrite N.
  - assert (I2 : snd_inv (upd_cc (fun c => set_cwnd (u32 (cwnd c + smss c)) c) s1))
      by (apply cwnd_change_inv; [done..|apply u32_range|apply I1]).
    by rewrite N.
Qed.

(** Three duplicates enter fast recovery; every further one opens the window by
    a segment, until the next new acknowledgement deflates it. *)
Lemma dupack_run c k :
  dupacks c = 0 -> 0 <= smss c < 65536 -> 0 <= inflight c < 4294967296 -> (3 <= k <= 255)%nat ->
  let T := loss_thresh c in
  T + 255 * smss c < 4294967296 ->
  let c' := Nat.iter k dupack_cong c in
  cwnd c' = T + Z.of_nat k * smss c /\ ssthresh c' = T /\ in_recovery c' = 1 /\
  dupacks c' = Z.of_nat k /\ smss c' = smss c.
Proof.
  intros Hd Hs Hi Hk T HT. unfold T in *. clear T.
  assert (HT0 : 0 <= loss_thresh c) by (unfold loss_thresh; pose proof (u32_range (2 * smss c)) as U; red in U; lia).
  assert (E2 : Nat.iter 2 dupack_cong c = set_dupacks 2 c).
  { simpl. unfold dupack_cong. rewrite Hd. destruct c. simpl in *. by rewrite Hd. }
  assert (B : let c' := Nat.iter 3 dupack_cong c in cwnd c' = loss_thresh c + 3 * smss c /\
    ssthresh c' = loss_thresh c /\ in_recovery c' = 1 /\ dupacks c' = 3 /\ smss c' = smss c).
  { change (Nat.iter 3 dupack_cong c) with (dupack_cong (Nat.iter 2 dupack_cong c)). rewrite E2.
    unfold dupack_cong, recovery_cong, loss_thresh. simpl. fold (loss_thresh c).
    rewrite u32_id by (red; lia). done. }
  induction k as [|k IH]; [lia|]. destruct (decide (k = 2)%nat) as [->|Hne]; [exact B|].
  destruct IH as (I1 & I2 & I3 & I4 & I5); [lia|].
  change (Nat.iter (S k) dupack_cong c) with (dupack_cong (Nat.iter k dupack_cong c)).
  set (c1 := Nat.iter k dupack_cong c) in *. clearbody c1. unfold dupack_cong. simpl. rewrite I4.
  replace (u8 (Z.of_nat k + 1)) with (Z.of_nat k + 1) by (symmetry; apply u8_id; red; lia).
  destruct (Z.ltb_spec (Z.of_nat k + 1) 3); [lia|]. destruct (Z.eqb_spec (Z.of_nat k + 1) 3); [lia|].
  simpl. rewrite I1, I5, u32_id by (red; nia). repeat split; try done; lia.
Qed.

Theorem fast_recovery_window s k :
  snd_inv s -> dupacks (cc s) = 0 -> 0 <= smss (cc s) < 65536 -> (3 <= k <= 255)%nat ->
  let T := loss_thresh (cc s) in
  T + 255 * smss (cc s) < 4294967296 ->
  let s' := Nat.iter k tcp_handle_dupack s in
  snd_inv s' /\ tb s' = tb s /\ cwnd (cc s') = T + Z.of_nat k * smss (cc s) /\
  ssthresh (cc s') = T /\ in_recovery (cc s') = 1 /\
  cwnd (tcp_exit_fast_recovery (cc s')) = T /\ dupacks (tcp_exit_fast_recovery (cc s')) = 0.
Proof.
  intros I Hd Hs Hk T HT s'.
  assert (P : snd_inv s' /\ tb s' = tb s /\ cc s' = Nat.iter k dupack_cong (cc s)).
  { unfold s'. clear -I H0. induction k as [|k IH]; simpl; [done|]. destruct IH as (IH1 & IH2 & IH3).
    destruct (handle_dupack_spec _ IH1) as (P1 & P2 & P3). rewrite P2, P3, IH2, IH3. done. }
  destruct P as (P1 & P2 & P3). clearbody s'.
  pose proof (snd_inv_inflight _ I) as Hi. pose proof (si_nxt _ I).
  destruct (dupack_run (cc s) k Hd Hs ltac:(lia) Hk HT) as (Q1 & Q2 & Q3 & Q4 & Q5).
  rewrite P3. split; [done|]. simpl. by rewrite Q1, Q2, Q3.
Qed.

(** ** A whole segment *)

(** The sending side after a segment: invariant kept, [snd_una] never goes back,
    [snd_nxt] does not move. *)
Definition advances s s' : Prop :=
  snd_inv s' /\ snd_una (tb s) <= snd_una (tb s') /\ snd_nxt (tb s') = snd_nxt (tb s).

Definition step_adv s (r : step L) : Prop :=
  match r with Next _ s' => advances s s' | Return s' _ => advances s s' end.

Lemma adv_refl s : snd_inv s -> advances s s.
Proof. intros. split; [done|]. lia. Qed.

Lemma adv_eq s s' : snd_inv s -> snd_eq s s' -> advances s s'.
Proof. intros I E. split; [by eapply snd_eq_inv|]. destruct E. lia. Qed.

Lemma adv_trans s1 s2 s3 : advances s1 s2 -> advances s2 s3 -> advances s1 s3.
Proof. intros (?&?&?) (?&?&?). split; [done|]. lia. Qed.

Lemma adv_snd_eq s1 s2 s3 : advances s1 s2 -> snd_eq s2 s3 -> advances s1 s3.
Proof. intros A E. eapply adv_trans; [exact A|]. apply adv_eq; [apply A|done]. Qed.

Lemma step_adv_bind s r f :
  step_adv s r -> (forall b s', advances s s' -> step_adv s' (f b s')) -> step_adv s (step_bind r f).
Proof.
  intros Hr Hf. destruct r as [b s'|s' rc]; [|done]. simpl in *. specialize (Hf b s' Hr).
  destruct (f b s'); simpl in *; by eapply adv_trans.
Qed.

Lemma last_win_eq w s : snd_eq s (upd_cc (set_last_ack_win w) s).
Proof. by apply snd_eq_intro. Qed.

Lemma rtt_eq s : snd_eq s (tcp_rtt s).
Proof.
  unfold tcp_rtt. destruct (0 <? _); [done|]. destruct (retransmit (tm s)); [|done].
  destruct (find_timer _ _); [|apply add_fault_eq]. destruct (_ <? 0); [done|apply upd_tm_eq].
Qed.

Lemma parent_eq s : snd_eq s (add_tsk_to_parent_establied_conn_list s).
Proof.
  unfold add_tsk_to_parent_establied_conn_list. destruct (ptsk s) as [p|]; [|apply add_fault_eq].
  destruct (e_passive (en s) !! p); [|apply add_fault_eq]. etrans; [apply upd_en_eq|apply wake_eq].
Qed.

Lemma new_ack_adv th s :
  snd_inv s -> ack_advances th s = true ->
  let s1 := upd_tb (set_snd_una (th_ack_seq th)) s in
  let s2 := tcp_clean_rto_queue (snd_una (tb s1)) (tcp_rtt s1) in
  let s3 := if in_recovery (cc s2) =? 0 then s2 else upd_cc tcp_exit_fast_recovery s2 in
  advances s s3 /\ snd_una (tb s3) = th_ack_seq th.
Proof.
  intros I Ha s1 s2 s3. unfold ack_advances in Ha. apply andb_true_iff in Ha as [H1 H2].
  apply Z.ltb_lt in H1. apply Z.leb_le in H2.
  assert (I1 : snd_inv s1) by (destruct I; constructor; simpl; try done; lia).
  pose proof (snd_eq_inv _ _ (rtt_eq s1) I1) as I1'.
  destruct (clean_rto_queue_correct (snd_una (tb s1)) (tcp_rtt s1) I1') as (_&_&_&T2&I2&_).
  fold s2 in T2, I2.
  assert (T : snd_una (tb s2) = th_ack_seq th /\ snd_nxt (tb s2) = snd_nxt (tb s)).
  { rewrite T2. destruct (rtt_eq s1). rewrite se_una0, se_nxt0. done. }
  clearbody s2. unfold s3. destruct (in_recovery (cc s2) =? 0).
  - split; [|apply T]. split; [done|]. destruct T. lia.
  - split; [|apply T]. split; [apply cwnd_change_inv; try done; apply I2|]. simpl. destruct T. lia.
Qed.

Lemma check_segment_adv th b s : snd_inv s -> step_adv s (check_segment th b s).
Proof.
  intros I. unfold check_segment, tcp_drop, tcp_send_challenge_ack, recv_notify.
  destruct (negb (tcp_verify_segment th b s)).
  - destruct (th_rst th); apply adv_eq; try done; [apply free_eq|]. etrans; [apply send_ack_eq|apply free_eq].
  - destruct (th_rst th); [|destruct (th_syn th); [|destruct (negb (th_ack th))]]; apply adv_eq; try done;
      try apply free_eq.
    etrans; [apply free_eq|]. etrans; [apply enter_time_wait_eq|apply wake_eq].
Qed.

Lemma update_win_inv w s : snd_inv s -> snd_inv (update_snd_win w s).
Proof. intros []. constructor; simpl; try done. apply u32_range. Qed.

Lemma process_ack_adv th b s : snd_inv s -> step_adv s (process_ack th b s).
Proof.
  intros I. unfold process_ack. destruct (tcp_is_dupack th b s).
  { destruct (handle_dupack_spec s I) as (I1 & C1 & T1). simpl.
    apply (adv_snd_eq _ (tcp_handle_dupack s)); [split; [done|rewrite T1; lia]|].
    etrans; [apply last_win_eq|apply free_eq]. }
  set (s1 := if ack_advances th s then _ else s).
  assert (A1 : advances s s1).
  { unfold s1. destruct (ack_advances th s) eqn:E; [|by apply adv_refl]. by apply new_ack_adv. }
  clearbody s1. unfold tcp_drop.
  destruct (th_ack_seq th <? _); [eapply adv_snd_eq; [exact A1|apply free_eq]|].
  destruct (_ <? th_ack_seq th); [eapply adv_snd_eq; [exact A1|apply free_eq]|].
  destruct (ack_advances th s1); simpl; (eapply adv_snd_eq; [|apply last_win_eq]); [|done].
  split; [apply update_win_inv, A1|]. destruct A1 as (_&?&?). simpl. lia.
Qed.

Lemma ack_switch_adv th b s : snd_inv s -> step_adv s (ack_switch th b s).
Proof.
  intros I. unfold ack_switch, tcp_drop.
  destruct (state s); try (by apply process_ack_adv); try (by apply adv_refl).
  destruct (ack_advances th s); [|apply adv_eq; [done|apply free_eq]].
  set (s1 := add_tsk_to_parent_establied_conn_list _).
  assert (E : snd_eq s s1) by (etrans; [apply (set_state_eq TCP_ESTABLISHED)|apply parent_eq]). clearbody s1.
  pose proof (process_ack_adv th b s1 (snd_eq_inv _ _ E I)) as P.
  destruct (process_ack th b s1); simpl in *; (eapply adv_trans; [by apply adv_eq|done]).
Qed.

Lemma fin_acked_adv th b s : snd_inv s -> step_adv s (fin_acked th b s).
Proof.
  intros I. unfold fin_acked, or_flags. destruct (skb_queue_empty _); [|by apply adv_refl].
  destruct (state s); try (by apply adv_refl); try (apply adv_eq; [done|apply set_state_eq]).
  - apply adv_eq; [done|]. etrans; [apply free_eq|apply tcp_done_eq].
  - destruct (_ =? _); [|by apply adv_refl]. apply adv_eq; [done|]. etrans; [apply upd_tm_eq|apply send_ack_eq].
Qed.

Lemma segment_text_adv th b s : snd_inv s -> step_adv s (segment_text th b s).
Proof.
  intros I. unfold segment_text. destruct (state s); try (by apply adv_refl);
    (destruct (_ || _); [|by apply adv_refl]); pose proof (data_queue_eq b s) as E;
    destruct (tcp_data_queue b s) as [[b' s'] rc]; by apply adv_eq.
Qed.

Lemma fin_bit_adv th e b s : snd_inv s -> step_adv s (fin_bit th e b s).
Proof.
  intros I. unfold fin_bit, tcp_drop, or_flags, recv_notify. destruct (_ && e); [|by apply adv_refl].
  set (s1 := wake _ _).
  assert (E : snd_eq s s1).
  { etrans; [|apply wake_eq]. etrans; [|apply send_ack_eq]. etrans; [|apply or_poll_eq].
    etrans; [|apply upd_tm_eq]. by apply snd_eq_intro. }
  clearbody s1.
  assert (F : step_adv s (Next b match state s1 with
    | TCP_SYN_RECEIVED | TCP_ESTABLISHED => set_state TCP_CLOSE_WAIT s1
    | TCP_FIN_WAIT_1 =>
        if skb_queue_empty (write_queue s1) then tcp_enter_time_wait s1 else set_state TCP_CLOSING s1
    | TCP_FIN_WAIT_2 => tcp_enter_time_wait s1
    | _ => s1
    end)).
  { apply adv_eq; [done|]. etrans; [exact E|].
    destruct (state s1); try done; try apply set_state_eq; try apply enter_time_wait_eq.
    destruct (skb_queue_empty _); [apply enter_time_wait_eq|apply set_state_eq]. }
  destruct (state s); try exact F; apply adv_eq; [done|apply free_eq|done|apply free_eq|done|apply free_eq].
Qed.

Lemma delay_ack_eq th b s : snd_eq s (delay_ack th b s).
Proof.
  assert (A : forall s, snd_eq s (tcp_send_ack (upd_tm (set_delacks 0) s)).1)
    by (intros; etrans; [apply upd_tm_eq|apply send_ack_eq]).
  assert (D : forall s, snd_eq s (if 0 <? skb_dlen b then
      let '(id, s) := do_timer_add 200 H_tcp_send_delack (ArgSock (self s)) false s in
      upd_tm (set_delack (Some id)) s else s)).
  { intros t. destruct (0 <? _); [|done].
    pose proof (timer_add_eq 200 H_tcp_send_delack (ArgSock (self t)) false t) as T.
    destruct (do_timer_add _ _ _ _ t) as [id t']. etrans; [exact T|apply upd_tm_eq]. }
  unfold delay_ack. destruct (th_psh th); [apply A|]. destruct (1000 <? _); [|apply D].
  cbv zeta. set (s1 := upd_tm _ s). assert (E : snd_eq s s1) by apply upd_tm_eq. clearbody s1.
  destruct (1 <? _); (etrans; [exact E|]); [apply A|apply D].
Qed.

Lemma send_or_delay_adv th e b s : snd_inv s -> step_adv s (send_or_delay th e b s).
Proof.
  intros I. unfold send_or_delay. pose proof (stop_delack_eq s) as E.
  set (s1 := tcp_stop_delack_timer s) in *. clearbody s1.
  assert (F : step_adv s (if 0 <? s32 (skb_queue_len (write_queue s1))
      then Next b (tcp_rearm_rto_timer (tcp_send_next (s32 (skb_queue_len (write_queue s1))) 0 s1))
      else Next b (delay_ack th b s1))).
  { destruct (0 <? _); apply adv_eq; try done; (etrans; [exact E|]); [|apply delay_ack_eq].
    rewrite send_next_id by (apply snd_inv_seqs; by eapply snd_eq_inv). apply rearm_eq. }
  destruct (state s); try (by apply adv_refl); (destruct e; [exact F|by apply adv_refl]).
Qed.

(** Every segment that arrives outside CLOSED, LISTEN and SYN-SENT. *)
Theorem otherwise_advances th b s : snd_inv s -> advances s (tcp_otherwise th b s).1.
Proof.
  intros I. unfold tcp_otherwise.
  set (r := step_bind _ _). assert (A : step_adv s r).
  { unfold r. apply step_adv_bind; [by apply check_segment_adv|]. intros b1 s1 [I1 _].
    apply step_adv_bind; [by apply ack_switch_adv|]. intros b2 s2 [I2 _].
    apply step_adv_bind; [by apply fin_acked_adv|]. intros b3 s3 [I3 _]. cbv zeta.
    apply step_adv_bind; [by apply segment_text_adv|]. intros b4 s4 [I4 _].
    apply step_adv_bind; [by apply fin_bit_adv|]. intros b5 s5 [I5 _]. by apply send_or_delay_adv. }
  clearbody r. destruct r as [b' s'|s' rc]; simpl in *; [|done]. eapply adv_snd_eq; [exact A|apply free_eq].
Qed.

End Ack.
#[export] Hint Resolve free_eq send_ack_eq rearm_eq stop_rto_eq stop_delack_eq enter_time_wait_eq
  tcp_done_eq data_queue_eq : sndeq.
End TcpAck.
