(* ===== verification/TcpReasm.v ===== *)
(** Reassembly: whatever the order in which the segments of a byte stream
    arrive, the receive queue holds the stream up to the first segment that is
    missing, and the out-of-order queue holds the rest in order. *)
From stdpp Require Import sorting.
From S2P Require Import Prelude Utils SkBuff Timer TcpTypes TcpBase TcpOutput TcpSender TcpData TcpInput TcpAck.
Import Utils SkBuff Timer TcpTypes TcpBase TcpOutput TcpSender TcpData TcpInput TcpAck.

Module TcpReasm.

(** The bytes a received segment carries. *)
Definition payload (b : sk_buff) : list Z :=
  ld_bytes (skb_buf b) (Z.to_nat (skb_payload b)) (Z.to_nat (skb_dlen b)).

(** A received segment whose payload lies inside its buffer. *)
Definition readable (b : sk_buff) : Prop :=
  0 <= skb_dlen b /\ 0 <= skb_payload b /\ skb_payload b + skb_dlen b <= skb_end b < 2147483648.

Section Stream.
(** A stream cut into segments [cs], its first byte numbered [s0]. *)
Context (cs : list (list Z)) (s0 : Z).

Definition start (i : nat) : Z := s0 + Z.of_nat (length (concat (take i cs))).

Record stream_ok : Prop := {
  so_nonempty : Forall (fun c => c <> []) cs;
  so_start : 0 < s0;
  so_end : start (length cs) < 4294967296
}.

(** [b] carries segment [i]. *)
Definition carries (i : nat) (b : sk_buff) : Prop :=
  exists c, cs !! i = Some c /\ payload b = c /\ skb_dlen b = Z.of_nat (length c) /\
            skb_seq b = start i /\ skb_end_seq b = start i + skb_dlen b.

Lemma start_S i c : cs !! i = Some c -> start (S i) = start i + Z.of_nat (length c).
Proof.
  intros Hi. unfold start. rewrite (take_S_r _ _ _ Hi), concat_app, length_app. simpl.
  rewrite app_nil_r. lia.
Qed.

Lemma start_le i j : (i <= j)%nat -> start i <= start j.
Proof.
  intros Hij. unfold start. rewrite <- (take_drop i (take j cs)), take_take, Nat.min_l by lia.
  rewrite concat_app, length_app. lia.
Qed.

Lemma start_lt i j : stream_ok -> (i < j)%nat -> (i < length cs)%nat -> start i < start j.
Proof.
  intros [Hn _ _] Hij Hi. destruct (lookup_lt_is_Some_2 cs i Hi) as [c Hc].
  pose proof (start_S _ _ Hc). pose proof (start_le (S i) j ltac:(lia)).
  rewrite Forall_lookup in Hn. specialize (Hn _ _ Hc). destruct c; [done|]. simpl in *. lia.
Qed.

Lemma carries_lt i b : carries i b -> (i < length cs)%nat.
Proof. intros (c & Hc & _). by eapply lookup_lt_Some. Qed.

Lemma carries_end i b : carries i b -> skb_end_seq b = start (S i).
Proof. intros (c & Hc & _ & Hd & _ & ->). rewrite (start_S _ _ Hc). lia. Qed.

Lemma carries_next i b : stream_ok -> carries i b -> u32 (start i + skb_dlen b) = start (S i).
Proof.
  intros Hs Hb. pose proof (carries_lt _ _ Hb). destruct Hb as (c & Hc & _ & -> & _).
  rewrite <- (start_S _ _ Hc). apply u32_id. destruct Hs. split.
  - unfold start. lia.
  - pose proof (start_le (S i) (length cs) ltac:(lia)). lia.
Qed.

Lemma start_inj i j :
  stream_ok -> (i < length cs)%nat -> (j < length cs)%nat -> start i = start j -> i = j.
Proof.
  intros Hs Hi Hj E. destruct (Nat.lt_trichotomy i j) as [Hlt|[->|Hlt]]; [|done|].
  - pose proof (start_lt i j Hs Hlt Hi). lia.
  - pose proof (start_lt j i Hs Hlt Hj). lia.
Qed.

Lemma carries_hold i b : carries i b -> carries i (hold b).
Proof. done. Qed.

(** The bytes of segments carried in order are the bytes of the stream. *)
Lemma carries_payloads k q :
  Forall2 carries (seq 0 k) q -> (k <= length cs)%nat -> concat (payload <$> q) = concat (take k cs).
Proof.
  intros F Hk. f_equal. apply list_eq. intros i. rewrite list_lookup_fmap.
  destruct (decide (i < k)%nat) as [Hi|Hi].
  - assert (Hs : seq 0 k !! i = Some i) by (by apply lookup_seq_lt).
    destruct (Forall2_lookup_l _ _ _ _ _ F Hs) as (b & -> & c & Hc & Hp & _). simpl.
    rewrite lookup_take_lt by done. by rewrite Hp.
  - rewrite lookup_take_ge by lia. apply Forall2_length in F. rewrite length_seq in F.
    by rewrite lookup_ge_None_2 by lia.
Qed.

(** ** Ordered insertion *)

Lemma find_place_spec (Hs : stream_ok) i b : carries i b -> forall idxs q n,
  Forall2 carries idxs q -> StronglySorted lt idxs ->
  match find_place b n q with
  | Before j => exists l r q1 q2, idxs = l ++ r /\ q = q1 ++ q2 /\ length q1 = (j - n)%nat /\ (n <= j)%nat /\
      Forall2 carries l q1 /\ Forall2 carries r q2 /\ Forall (fun x => (x < i)%nat) l /\ Forall (fun x => (i < x)%nat) r
  | AtTail => Forall (fun x => (x < i)%nat) idxs
  | Duplicate => i ∈ idxs
  end.
Proof.
  intros Hb. pose proof Hb as (c & Hc & _ & Hd & Hq & He). pose proof (carries_lt _ _ Hb) as Hi.
  induction idxs as [|x idxs IH]; intros q n F S; inversion F as [|? y ? q' Hy F']; subst; simpl; [constructor|].
  inversion S as [|? ? S' Hall]; subst. pose proof (carries_lt _ _ Hy) as Hx.
  pose proof Hy as (cy & _ & _ & _ & Hqy & _). rewrite Hq, Hqy, (carries_end _ _ Hb).
  destruct (Nat.lt_trichotomy i x) as [Hlt|[->|Hlt]].
  - pose proof (start_lt i x Hs Hlt Hi). destruct (Z.ltb_spec (start i) (start x)); [|lia].
    pose proof (start_le (Datatypes.S i) x ltac:(lia)).
    destruct (Z.ltb_spec (start x) (start (Datatypes.S i))); [lia|].
    exists [], (x :: idxs), [], (y :: q'). simpl. repeat (split; [first [done|lia|by constructor]|]).
    constructor; [done|]. eapply Forall_impl; [exact Hall|]. simpl. lia.
  - destruct (Z.ltb_spec (start x) (start x)); [lia|]. rewrite Z.eqb_refl. left.
  - pose proof (start_lt x i Hs Hlt Hx). destruct (Z.ltb_spec (start i) (start x)); [lia|].
    destruct (Z.eqb_spec (start i) (start x)); [lia|]. specialize (IH q' (Datatypes.S n) F' S').
    destruct (find_place b (Datatypes.S n) q') as [j| |].
    + destruct IH as (l & r & q1 & q2 & -> & -> & Hl & Hn & F1 & F2 & A1 & A2).
      exists (x :: l), r, (y :: q1), q2. repeat split; simpl; try done; try lia; try (by constructor).
    + by constructor.
    + by right.
Qed.

Lemma sorted_insert i (l r : list nat) :
  StronglySorted lt (l ++ r) -> Forall (fun x => (x < i)%nat) l -> Forall (fun x => (i < x)%nat) r ->
  StronglySorted lt (l ++ i :: r).
Proof.
  induction l as [|x l IH]; simpl; intros Hs Hl Hr; [by constructor|].
  inversion Hs as [|? ? Hs' Hall]; subst. apply Forall_cons in Hl as [Hx Hl].
  constructor; [by apply IH|]. apply Forall_app in Hall as [H1 H2].
  apply Forall_app. split; [done|]. by constructor.
Qed.

(** A queue of segments in stream order. *)
Definition ordered (idxs : list nat) (q : sk_buff_head) : Prop :=
  queue_ok q /\ Forall2 carries idxs (skq q) /\ StronglySorted lt idxs.

Lemma insert_ordered_spec i b idxs q :
  stream_ok -> carries i b -> ordered idxs q -> Z.of_nat (length idxs) + 1 < 4294967296 ->
  exists idxs', ordered idxs' (tcp_data_insert_ordered q b).1 /\ forall j, j ∈ idxs' <-> j = i \/ j ∈ idxs.
Proof.
  intros Hs Hb (Hok & F & So) Hl. unfold tcp_data_insert_ordered.
  pose proof (find_place_spec Hs i b Hb idxs (skq q) 0 F So) as P.
  destruct Hok as [Hq1 Hq2]. pose proof (Forall2_length _ _ _ F) as Hlen.
  destruct (find_place b 0 (skq q)) as [p| |].
  - destruct P as (l & r & q1 & q2 & -> & Eq & Hp & _ & F1 & F2 & A1 & A2). rewrite Nat.sub_0_r in Hp.
    exists (l ++ i :: r). split; [|intros j; rewrite !elem_of_app, elem_of_cons; tauto].
    unfold ordered, queue_ok. simpl. rewrite Eq, take_app_length', drop_app_length' by done.
    rewrite Hq1, Eq. rewrite !length_app in *. simpl. split; [|split].
    + rewrite Eq, length_app in Hlen. rewrite u32_id by (red; lia). lia.
    + apply Forall2_app; [done|]. constructor; [by apply carries_hold|done].
    + by apply sorted_insert.
  - exists (idxs ++ [i]). split; [|intros j; rewrite elem_of_app, list_elem_of_singleton; tauto].
    split; [|split].
    + apply queue_ok_tail; [done|]. lia.
    + apply Forall2_app; [done|]. constructor; [by apply carries_hold|done].
    + apply sorted_insert; [by rewrite app_nil_r|done|done].
  - exists idxs. split; [done|]. intros j. split; [tauto|]. by intros [->|].
Qed.

Section Receive.
Context {L : Type} `{IpLayerLaws L}.
Implicit Type s : st L.

(** ** Consuming the out-of-order queue *)

Definition rq s : list sk_buff := skq (receive_queue s).

Lemma consume_spec : stream_ok -> forall fuel idxs k s,
  rcv_nxt (tb s) = start k -> ordered idxs (ofo s) -> Forall (fun x => (k <= x)%nat) idxs ->
  queue_ok (receive_queue s) -> (length idxs <= fuel)%nat ->
  Z.of_nat (length (rq s)) + Z.of_nat (length idxs) < 4294967296 ->
  let s' := consume_loop fuel s in
  exists m idxs' moved, idxs = seq k m ++ idxs' /\ rcv_nxt (tb s') = start (k + m) /\
    ordered idxs' (ofo s') /\ Forall (fun x => (k + m < x)%nat) idxs' /\
    rq s' = rq s ++ moved /\ Forall2 carries (seq k m) moved /\ queue_ok (receive_queue s') /\
    rcv_wnd (tb s') = rcv_wnd (tb s) /\ state s' = state s.
Proof.
  intros Hs. induction fuel as [|fuel IH]; intros idxs k s Hn Ho Hge Hrq Hf Hlen; cbv zeta.
  { destruct idxs; [|simpl in Hf; lia]. exists 0%nat, [], []. simpl. rewrite Nat.add_0_r, app_nil_r. done. }
  destruct Ho as (Hok & F & So). simpl. rewrite queue_ok_peek by done.
  destruct idxs as [|x idxs].
  { assert (E : skq (ofo s) = []) by (by inversion F). rewrite E. simpl. exists 0%nat, [], []. simpl.
    rewrite Nat.add_0_r, app_nil_r. done. }
  apply Forall2_cons_inv_l in F as (b & r & Hb & F' & E2). rewrite E2. simpl.
  destruct (queue_ok_dequeue _ _ _ Hok E2) as (q & -> & Hr & _ & Hqok).
  apply StronglySorted_cons in So as [Hall So']. apply Forall_cons in Hge as [Hkx Hge].
  pose proof Hb as (c & _ & _ & _ & Hseq & _). rewrite Hn, Hseq.
  destruct (Z.eqb_spec (start k) (start x)) as [E|E].
  - assert (k = x) as <-.
    { pose proof (carries_lt _ _ Hb). apply start_inj; try done. lia. }
    set (s1 := set_receive_queue _ _).
    assert (Hn1 : rcv_nxt (tb s1) = start (S k)) by (simpl; by apply carries_next).
    assert (Ho1 : ordered idxs (ofo s1)) by (split; [done|]; simpl; by rewrite Hr).
    assert (Hr1 : rq s1 = rq s ++ [b]) by done.
    assert (Hrq1 : queue_ok (receive_queue s1)).
    { change (queue_ok (skb_queue_tail (receive_queue s) b)). apply queue_ok_tail; [done|].
      fold (rq s). simpl in Hlen. lia. }
    assert (Hw1 : rcv_wnd (tb s1) = rcv_wnd (tb s) /\ state s1 = state s) by done.
    clearbody s1. destruct (IH idxs (S k) s1) as (m & idxs' & moved & E' & P1 & P2 & P3 & P4 & P5 & P6 & P7 & P8);
      try done.
    + simpl in Hf. lia.
    + rewrite Hr1, length_app. simpl in *. lia.
    + exists (S m), idxs', (b :: moved). rewrite E', P1, P4, Hr1, <- app_assoc, P7, P8.
      destruct Hw1 as [-> ->]. replace (k + S m)%nat with (S k + m)%nat by lia.
      repeat (split; [first [done|by constructor]|]). done.
  - exists 0%nat, (x :: idxs), []. simpl. rewrite Nat.add_0_r, app_nil_r.
    assert (k < x)%nat by (assert (k <> x) by congruence; lia).
    split; [done|]. split; [done|].
    split; [split; [done|]; rewrite E2; split; [by constructor|by apply StronglySorted_cons]|]. split; [|done].
    constructor; [done|]. eapply Forall_impl; [exact Hall|]. simpl. lia.
Qed.

(** ** The receiver's invariant *)

(** [got]: the segments that arrived; [k]: the first one missing. *)
Record rcv_inv (rq0 : list sk_buff) (W : Z) (got : gset nat) (k : nat) s : Prop := {
  ri_nxt : rcv_nxt (tb s) = start k;
  ri_rq : exists ds, rq s = rq0 ++ ds /\ Forall2 carries (seq 0 k) ds;
  ri_rq_ok : queue_ok (receive_queue s);
  ri_ofo : exists idxs, ordered idxs (ofo s) /\ forall j, j ∈ idxs <-> j ∈ got /\ (k < j)%nat;
  ri_below : forall j, (j < k)%nat -> j ∈ got;
  ri_first : k ∉ got;
  ri_got : forall j, j ∈ got -> (j < length cs)%nat;
  ri_wnd : rcv_wnd (tb s) = W;
  ri_state : state s = TCP_ESTABLISHED
}.

Lemma inv_k rq0 W got k s : rcv_inv rq0 W got k s -> (k <= length cs)%nat.
Proof.
  intros I. destruct k; [lia|]. pose proof (ri_below _ _ _ _ _ I k ltac:(lia)) as Hk.
  apply (ri_got _ _ _ _ _ I) in Hk. lia.
Qed.

Lemma sorted_length idxs n : StronglySorted lt idxs -> (forall j, j ∈ idxs -> (j < n)%nat) -> (length idxs <= n)%nat.
Proof.
  intros So Hn. rewrite <- (length_seq n 0). apply submseteq_length, NoDup_submseteq.
  - induction So as [|x l So IH Hall]; [constructor|]. constructor; [|apply IH; intros; apply Hn; by right].
    intros Hx. rewrite Forall_forall in Hall. specialize (Hall x Hx). lia.
  - intros x Hx. apply elem_of_seq. specialize (Hn x Hx). lia.
Qed.

(** After segment [k] and the run of [m] segments behind it. *)
Lemma first_missing (got : gset nat) (k m : nat) (idxs idxs' : list nat) :
  (forall j, j ∈ idxs <-> j ∈ got /\ (k < j)%nat) -> idxs = seq (S k) m ++ idxs' ->
  Forall (fun x => (S k + m < x)%nat) idxs' -> (forall j, (j < k)%nat -> j ∈ got) ->
  (forall j, j ∈ idxs' <-> j ∈ ({[k]} ∪ got : gset nat) /\ (S k + m < j)%nat) /\
  (forall j, (j < S k + m)%nat -> j ∈ ({[k]} ∪ got : gset nat)) /\ (S k + m)%nat ∉ ({[k]} ∪ got : gset nat).
Proof.
  intros Hi E Hall Hb. rewrite Forall_forall in Hall.
  assert (Hin : forall j, j ∈ idxs <-> (S k <= j < S k + m)%nat \/ j ∈ idxs')
    by (intros j; by rewrite E, elem_of_app, elem_of_seq).
  split; [|split].
  - intros j. rewrite elem_of_union, elem_of_singleton. split.
    + intros Hj. specialize (Hall j Hj). destruct (proj1 (Hi j)) as [Hg _]; [apply Hin; by right|]. split; [by right|lia].
    + intros [[->|Hg] Hj]; [lia|]. destruct (proj1 (Hin j)) as [?|?]; [apply Hi; split; [done|lia]|lia|done].
  - intros j Hj. rewrite elem_of_union, elem_of_singleton.
    destruct (Nat.lt_trichotomy j k) as [Hlt|[->|Hlt]]; [right; auto|by left|].
    right. apply Hi, Hin. lia.
  - rewrite elem_of_union, elem_of_singleton. intros [Hx|Hx]; [lia|].
    destruct (proj1 (Hin (S k + m)%nat)) as [?|Hj]; [apply Hi; split; [done|lia]|lia|].
    specialize (Hall _ Hj). lia.
Qed.

(** The next expected segment. *)
Lemma expected_step rq0 W got k b s :
  stream_ok -> rcv_inv rq0 W got k s -> carries k b -> W <> 0 ->
  Z.of_nat (length rq0) + 2 * Z.of_nat (length cs) + 1 < 4294967296 ->
  exists k', rcv_inv rq0 W ({[k]} ∪ got) k' (tcp_data_queue b s).1.2.
Proof.
  intros Hs I Hb HW Hlen. destruct I as [I1 (ds & I2 & I2') I3 (idxs & I4 & I5) I6 I7 I8 I9 I10].
  unfold tcp_data_queue. rewrite I9. destruct (Z.eqb_spec W 0); [done|].
  pose proof Hb as (c & _ & _ & _ & Hseq & _). rewrite Hseq, I1, Z.eqb_refl. cbn [fst snd].
  match goal with |- context [tcp_consume_ofo_queue ?t] => set (s1 := t) end.
  pose proof (carries_lt _ _ Hb) as Hk.
  assert (Lq : (length ds <= length cs)%nat) by (apply Forall2_length in I2'; rewrite length_seq in I2'; lia).
  assert (Li : (length idxs <= length cs)%nat).
  { apply sorted_length; [apply I4|]. intros j Hj. apply I8. by apply I5. }
  destruct (consume_spec Hs (length (skq (ofo s1))) idxs (S k) s1)
    as (m & idxs' & moved & E & P1 & P2 & P3 & P4 & P5 & P6 & P7 & P8).
  - simpl. rewrite I1. by apply carries_next.
  - done.
  - apply Forall_forall. intros x Hx. apply I5 in Hx. lia.
  - change (queue_ok (skb_queue_tail (receive_queue s) (hold b))). apply queue_ok_tail; [done|].
    fold (rq s). rewrite I2, length_app. lia.
  - destruct I4 as (_ & F & _). apply Forall2_length in F. simpl. lia.
  - change (rq s1) with (rq s ++ [hold b]). rewrite I2, !length_app. simpl. lia.
  - change (rq s1) with (rq s ++ [hold b]) in P4. rewrite I2 in P4.
    unfold tcp_consume_ofo_queue. fold s1. set (s2 := consume_loop _ s1) in *. clearbody s2.
    destruct (first_missing got k m idxs idxs' I5 E P3 I6) as (G1 & G2 & G3).
    exists (S k + m)%nat. constructor; try done.
    + exists (ds ++ hold b :: moved). unfold rq, receive_queue, recv_notify, wake, or_poll in *.
      change (sk_receive_queue (sk (upd_en _ (upd_sk _ s2)))) with (sk_receive_queue (sk s2)).
      rewrite P4, <- !app_assoc. split; [done|]. replace (S k + m)%nat with (k + S m)%nat by lia.
      rewrite seq_app. apply Forall2_app; [done|]. simpl. constructor; [by apply carries_hold|done].
    + exists idxs'. split; [done|]. intros j. rewrite G1. done.
    + intros j. rewrite elem_of_union, elem_of_singleton. intros [->|Hj]; auto.
    + change (rcv_wnd (tb s2) = W). rewrite P7. done.
    + change (state s2 = TCP_ESTABLISHED). rewrite P8. done.
Qed.

(** A segment beyond the first missing one. *)
Lemma later_step rq0 W got k i b s :
  stream_ok -> rcv_inv rq0 W got k s -> carries i b -> (k < i)%nat -> W <> 0 ->
  Z.of_nat (length cs) + 1 < 4294967296 ->
  rcv_inv rq0 W ({[i]} ∪ got) k (tcp_data_queue b s).1.2.
Proof.
  intros Hs I Hb Hk HW Hlen. destruct I as [I1 I2 I3 (idxs & I4 & I5) I6 I7 I8 I9 I10].
  pose proof (carries_lt _ _ Hb) as Hi.
  unfold tcp_data_queue. rewrite I9. destruct (Z.eqb_spec W 0); [done|].
  pose proof Hb as (c & _ & _ & _ & Hseq & _). rewrite Hseq, I1.
  pose proof (start_lt k i Hs Hk ltac:(lia)). destruct (Z.eqb_spec (start i) (start k)); [lia|].
  destruct (insert_ordered_spec i b idxs (ofo s) Hs Hb I4) as (idxs' & Ho & Hin).
  { assert ((length idxs <= length cs)%nat); [|lia].
    apply sorted_length; [apply I4|]. intros j Hj. apply I8. by apply I5. }
  destruct (tcp_data_insert_ordered (ofo s) b) as [q b']. cbn [fst snd] in Ho.
  set (s1 := if sackok _ =? 0 then _ else _).
  assert (J : rcv_inv rq0 W ({[i]} ∪ got) k s1).
  { assert (F : sk s1 = sk s /\ tb s1 = tb s /\ ofo s1 = q) by (unfold s1; by destruct (sackok _ =? 0)).
    destruct F as (F1 & F2 & F3). unfold rq, receive_queue in *.
    constructor; unfold rq, receive_queue, state in *; rewrite ?F1, ?F2, ?F3; try done.
    - exists idxs'. split; [done|]. intros j. rewrite Hin, I5, elem_of_union, elem_of_singleton.
      split; [intros [->|[? ?]]; [split; [by left|done]|split; [by right|done]]|].
      intros [[->|?] ?]; [by left|right; done].
    - intros j Hj. apply elem_of_union_r. auto.
    - rewrite elem_of_union, elem_of_singleton. intros [?|?]; [lia|done].
    - intros j. rewrite elem_of_union, elem_of_singleton. intros [->|?]; auto. }
  clearbody s1. pose proof (send_ack_frame s1) as F. destruct (tcp_send_ack s1) as [s2 rc]. cbn [fst snd] in *.
  destruct J. constructor; unfold rq, receive_queue in *; rewrite ?(tx_rq _ _ F), ?(tx_tb _ _ F), ?(tx_ofo _ _ F); try done.
  by rewrite (tx_state _ _ F).
Qed.

(** ** Segments through [tcp_otherwise] *)

(** What identifies the connection, and a field kept at its width.  Output over IPv6
    may set the local address. *)
Definition conn_key (k : sock) : Z * Z * Z * Z * list Z * list Z :=
  (sk_protocol k, sk_addr_family k, sk_sport k, sk_dport k, sk_saddr k, sk_daddr k).

Record conn_kept s s' : Prop := {
  ck_so : so s' = so s;
  ck_family : sk_addr_family (sk s') = sk_addr_family (sk s);
  ck_key : sk_addr_family (sk s) <> AF_INET6 -> conn_key (sk s') = conn_key (sk s);
  ck_real : is_u32 (real_rcv_wnd (tb s)) -> is_u32 (real_rcv_wnd (tb s'))
}.

#[local] Instance conn_kept_preorder : PreOrder conn_kept.
Proof.
  split; [intros s; by constructor|]. intros a b c [A1 A2 A3 A4] [B1 B2 B3 B4].
  constructor; [congruence|congruence| |auto]. intros Hf. rewrite B3, A3; [done..|congruence].
Qed.

Lemma kept_same s s' :
  so s' = so s -> conn_key (sk s') = conn_key (sk s) -> real_rcv_wnd (tb s') = real_rcv_wnd (tb s) -> conn_kept s s'.
Proof. intros E1 E2 E3. constructor; [done|by injection E2|done|by rewrite E3]. Qed.

Lemma send_ack_kept s : conn_kept s (tcp_send_ack s).1.
Proof.
  pose proof (send_ack_frame s) as F. constructor; [apply F|by apply tx_family| |by rewrite (tx_tb _ _ F)].
  intros Hf. by rewrite send_ack_v4.
Qed.

(** Steps that leave the receiving side alone. *)
Record rcv_eq s s' : Prop := {
  re_rq : receive_queue s' = receive_queue s;
  re_ofo : ofo s' = ofo s;
  re_nxt : rcv_nxt (tb s') = rcv_nxt (tb s);
  re_wnd : rcv_wnd (tb s') = rcv_wnd (tb s);
  re_una : snd_una (tb s') = snd_una (tb s);
  re_state : state s' = state s;
  re_conn : conn_kept s s'
}.

#[local] Instance rcv_eq_preorder : PreOrder rcv_eq.
Proof.
  split; [intros s; by constructor|]. intros a b c [] []. constructor; try congruence. by etrans.
Qed.

Lemma rcv_eq_inv rq0 W got k s s' : rcv_eq s s' -> rcv_inv rq0 W got k s -> rcv_inv rq0 W got k s'.
Proof. intros [] []. unfold rq in *. constructor; unfold rq; try congruence; by rewrite ?re_rq0, ?re_ofo0. Qed.

Lemma tx_rcv_eq s s' : tx_frame s s' -> conn_kept s s' -> rcv_eq s s'.
Proof.
  intros F K. constructor; rewrite ?(tx_tb _ _ F); try done; [by apply tx_rq|apply F|by apply tx_state].
Qed.

Lemma upd_tm_rcv f s : rcv_eq s (upd_tm f s).
Proof. by constructor. Qed.
Lemma upd_cc_rcv f s : rcv_eq s (upd_cc f s).
Proof. by constructor. Qed.
Lemma free_rcv b s : rcv_eq s (do_free_skb b s).
Proof. apply tx_rcv_eq; [apply do_free_frame|]. unfold do_free_skb. by destruct (free_skb b). Qed.
Lemma send_ack_rcv s : rcv_eq s (tcp_send_ack s).1.
Proof. apply tx_rcv_eq; [apply send_ack_frame|apply send_ack_kept]. Qed.
Lemma lift_timer_rcv r s : rcv_eq s (lift_timer r s).
Proof. by destruct r; constructor. Qed.
Lemma stop_delack_rcv s : rcv_eq s (tcp_stop_delack_timer s).
Proof. etrans; [apply lift_timer_rcv|apply upd_tm_rcv]. Qed.
Lemma rearm_rcv s : rcv_eq s (tcp_rearm_rto_timer s).
Proof.
  destruct (rearm_rto_frame s) as (F1&F2&F3&F4&F5&F6&F7&_).
  constructor; unfold receive_queue, state; try (by rewrite ?F1, ?F2, ?F5). by apply kept_same; rewrite ?F1, ?F2, ?F7.
Qed.

Lemma delay_ack_rcv th b s : rcv_eq s (delay_ack th b s).
Proof.
  assert (A : forall s, rcv_eq s (tcp_send_ack (upd_tm (set_delacks 0) s)).1)
    by (intros; etrans; [apply upd_tm_rcv|apply send_ack_rcv]).
  assert (D : forall s, rcv_eq s (if 0 <? skb_dlen b then
      let '(id, s) := do_timer_add 200 H_tcp_send_delack (ArgSock (self s)) false s in
      upd_tm (set_delack (Some id)) s else s)) by (intros t; destruct (0 <? _); by constructor).
  unfold delay_ack. destruct (th_psh th); [apply A|]. destruct (1000 <? _); [|apply D].
  cbv zeta. set (s1 := upd_tm _ s). assert (E : rcv_eq s s1) by apply upd_tm_rcv. clearbody s1.
  destruct (1 <? _); (etrans; [exact E|]); [apply A|apply D].
Qed.

Lemma send_or_delay_rcv th e b s :
  snd_inv s -> exists b' s', send_or_delay th e b s = Next b' s' /\ rcv_eq s s'.
Proof.
  intros I. unfold send_or_delay.
  assert (F : exists b' s', (let s := tcp_stop_delack_timer s in
      if 0 <? s32 (skb_queue_len (write_queue s))
      then Next b (tcp_rearm_rto_timer (tcp_send_next (s32 (skb_queue_len (write_queue s))) 0 s))
      else Next b (delay_ack th b s)) = Next b' s' /\ rcv_eq s s').
  { pose proof (stop_delack_eq s) as E. pose proof (stop_delack_rcv s) as R.
    set (s1 := tcp_stop_delack_timer s) in *. clearbody s1. cbv zeta. destruct (0 <? _); eexists _, _; (split; [done|]);
      (etrans; [exact R|]); [|apply delay_ack_rcv].
    rewrite send_next_id by (apply snd_inv_seqs; by eapply snd_eq_inv). apply rearm_rcv. }
  destruct (state s); try (by eexists _, _); (destruct e; [exact F|by eexists _, _]).
Qed.

Lemma consume_state fuel : forall s, state (consume_loop fuel s) = state s.
Proof.
  induction fuel as [|fuel IH]; intros s; simpl; [done|].
  destruct (skb_peek (ofo s)) as [b|]; [|done]. destruct (skb_dequeue (ofo s)) as [[b' q]|]; [|done].
  destruct (_ =? _); [|done]. by rewrite IH.
Qed.

Lemma data_queue_state b s : state (tcp_data_queue b s).1.2 = state s.
Proof.
  unfold tcp_data_queue. destruct (_ =? 0); [done|]. destruct (_ =? _).
  - cbn [fst snd]. match goal with |- state (recv_notify (or_poll _ ?t)) = _ => transitivity (state t); [done|] end.
    unfold tcp_consume_ofo_queue. by rewrite consume_state.
  - destruct (tcp_data_insert_ordered (ofo s) b) as [q b']. set (s1 := if sackok _ =? 0 then _ else _).
    assert (E : state s1 = state s) by (unfold s1; by destruct (sackok _ =? 0)). clearbody s1.
    pose proof (send_ack_frame s1) as F. destruct (tcp_send_ack s1) as [s2 rc]. cbn [fst snd] in *.
    by rewrite (tx_state _ _ F).
Qed.

(** A data segment that acknowledges nothing new. *)
Record data_segment (una : Z) (th : tcphdr) (b : sk_buff) : Prop := {
  dg_seq : th_seq th = skb_seq b;
  dg_rst : th_rst th = false;
  dg_syn : th_syn th = false;
  dg_ack : th_ack th = true;
  dg_fin : th_fin th = false;
  dg_ack_seq : th_ack_seq th = una;
  dg_dlen : 0 < skb_dlen b
}.

Lemma otherwise_data th b s :
  snd_inv s -> state s = TCP_ESTABLISHED -> data_segment (snd_una (tb s)) th b ->
  let s' := (tcp_otherwise th b s).1 in
  if tcp_verify_segment th b s
  then exists s1, rcv_eq s s1 /\ rcv_eq (tcp_data_queue b s1).1.2 s'
  else rcv_eq s s'.
Proof.
  intros I Hst [D1 D2 D3 D4 D5 D6 D7]. cbv zeta. unfold tcp_otherwise, check_segment.
  destruct (tcp_verify_segment th b s); simpl negb; cbv iota.
  2: { rewrite D2. simpl. etrans; [apply send_ack_rcv|apply free_rcv]. }
  rewrite D2, D3, D4. simpl negb. cbv iota. cbn [step_bind]. unfold ack_switch. rewrite Hst.
  assert (P : process_ack th b s = Next b (upd_cc (set_last_ack_win (th_win th)) s)).
  { unfold process_ack, tcp_is_dupack, ack_advances. rewrite D6.
    destruct (Z.eqb_spec (skb_dlen b) 0); [lia|]. rewrite andb_false_r. simpl. rewrite Z.ltb_irrefl. simpl.
    rewrite Z.ltb_irrefl. destruct (Z.ltb_spec (snd_nxt (tb s)) (snd_una (tb s))); [|done].
    pose proof (si_una _ I). lia. }
  rewrite P. cbn [step_bind]. set (s1 := upd_cc _ s).
  assert (R1 : rcv_eq s s1) by apply upd_cc_rcv.
  assert (S1 : state s1 = TCP_ESTABLISHED) by done.
  assert (I1 : snd_inv s1) by (apply (snd_eq_inv s); [apply last_win_eq|done]). clearbody s1.
  unfold fin_acked. rewrite S1.
  replace (if skb_queue_empty (write_queue s1) then Next b s1 else Next b s1) with (Next b s1)
    by (by destruct (skb_queue_empty _)).
  cbn [step_bind]. unfold segment_text. rewrite S1.
  destruct (Z.ltb_spec 0 (skb_dlen b)); [|lia]. rewrite orb_true_r.
  exists s1. split; [done|]. pose proof (data_queue_eq b s1) as E. pose proof (data_queue_state b s1) as S2.
  destruct (tcp_data_queue b s1) as [[b2 s2] rc]. cbn [fst snd] in E, S2 |- *. cbn [step_bind].
  unfold fin_bit. rewrite D5. simpl andb. cbv iota. cbn [step_bind].
  destruct (send_or_delay_rcv th (skb_seq b =? rcv_nxt (tb s1)) b2 s2) as (b3 & s3 & -> & R3).
  { by eapply snd_eq_inv. }
  etrans; [exact R3|apply free_rcv].
Qed.

Definition arrive s (x : tcphdr * sk_buff) : st L := (tcp_otherwise x.1 x.2 s).1.

(** ** The connection and its buffers *)

Definition bufs_ok s : Prop := Forall readable (rq s) /\ Forall readable (skq (ofo s)).

Lemma consume_kept fuel : forall s, conn_kept s (consume_loop fuel s) /\ (bufs_ok s -> bufs_ok (consume_loop fuel s)).
Proof.
  induction fuel as [|fuel IH]; intros s; simpl; [done|].
  destruct (skb_peek (ofo s)) as [b|] eqn:Ep; [|done]. destruct (skb_dequeue (ofo s)) as [[b' q]|] eqn:Ed; [|done].
  destruct (_ =? _); [|done]. set (s1 := set_receive_queue _ _). destruct (IH s1) as [K B]. split; [etrans; [|exact K]; by constructor|].
  intros [B1 B2]. apply B. unfold skb_peek, skb_dequeue in Ep, Ed. destruct (skb_queue_empty _) eqn:Em; [done|].
  destruct (skq (ofo s)) as [|x l]; [done|]. injection Ed as -> <-. simpl in Ep. injection Ep as ->. apply Forall_cons in B2 as [Hb B2].
  split; [|exact B2]. apply Forall_app. split; [exact B1|]. by constructor.
Qed.

Lemma insert_ordered_bufs q b : readable b -> Forall readable (skq q) -> Forall readable (skq (tcp_data_insert_ordered q b).1).
Proof.
  intros Hb Hq. unfold tcp_data_insert_ordered. destruct (find_place b 0 (skq q)) as [n| |]; [| |done]; simpl.
  - apply Forall_app. split; [by apply Forall_take|]. constructor; [done|by apply Forall_drop].
  - apply Forall_app. split; [done|]. by constructor.
Qed.

Lemma data_queue_kept b s :
  conn_kept s (tcp_data_queue b s).1.2 /\ (readable b -> bufs_ok s -> bufs_ok (tcp_data_queue b s).1.2).
Proof.
  unfold tcp_data_queue. destruct (_ =? 0); [done|]. destruct (_ =? _).
  - cbn [fst snd]. unfold tcp_consume_ofo_queue. match goal with |- context [consume_loop _ ?t] => set (s1 := t) end.
    destruct (consume_kept (length (skq (ofo s1))) s1) as [K B]. set (s2 := consume_loop _ s1) in *. clearbody s2. split.
    + transitivity s1; [constructor; try done; intros _; apply u32_range|]. transitivity s2; [exact K|by constructor].
    + intros Hb [B1 B2]. destruct B as [C1 C2]; [|by split]. split; [|exact B2]. apply Forall_app. split; [exact B1|]. by constructor.
  - pose proof (insert_ordered_bufs (ofo s) b) as P. destruct (tcp_data_insert_ordered (ofo s) b) as [q b'].
    set (s1 := if sackok _ =? 0 then _ else _).
    assert (F : conn_kept s s1 /\ rq s1 = rq s /\ ofo s1 = q) by (unfold s1; by destruct (sackok _ =? 0)). destruct F as (F1 & F2 & F3). clearbody s1.
    pose proof (send_ack_frame s1) as F. pose proof (send_ack_kept s1) as K. destruct (tcp_send_ack s1) as [s2 rc]. cbn [fst snd] in *.
    split; [by transitivity s1|]. intros Hb [B1 B2]. unfold bufs_ok, rq, receive_queue in *. rewrite (tx_rq _ _ F), (tx_ofo _ _ F), F2, F3. auto.
Qed.

Lemma arrive_kept th b s :
  snd_inv s -> state s = TCP_ESTABLISHED -> data_segment (snd_una (tb s)) th b ->
  conn_kept s (arrive s (th, b)) /\ (readable b -> bufs_ok s -> bufs_ok (arrive s (th, b))).
Proof.
  intros I Hst D. pose proof (otherwise_data th b s I Hst D) as P. cbv zeta in P. fold (arrive s (th, b)) in P.
  change (tcp_otherwise th b s).1 with (arrive s (th, b)) in P. unfold bufs_ok, rq in *.
  destruct (tcp_verify_segment th b s); [destruct P as (s1 & R1 & R2)|].
  - destruct (data_queue_kept b s1) as [K B]. split; [etrans; [apply R1|]; etrans; [exact K|apply R2]|].
    rewrite (re_rq _ _ R2), (re_ofo _ _ R2), <- (re_rq _ _ R1), <- (re_ofo _ _ R1). exact B.
  - split; [apply P|]. by rewrite (re_rq _ _ P), (re_ofo _ _ P).
Qed.

Lemma arrive_step rq0 W got k i th b s :
  stream_ok -> rcv_inv rq0 W got k s -> snd_inv s -> carries i b -> data_segment (snd_una (tb s)) th b ->
  start (length cs) <= s0 + W -> start (length cs) + W < 4294967296 ->
  Z.of_nat (length rq0) + 2 * Z.of_nat (length cs) + 1 < 4294967296 ->
  (exists k', rcv_inv rq0 W ({[i]} ∪ got) k' (arrive s (th, b))) /\ snd_inv (arrive s (th, b)) /\
  snd_una (tb (arrive s (th, b))) = snd_una (tb s).
Proof.
  intros Hs I S Hb D HW1 HW2 Hl. pose proof (otherwise_data th b s S (ri_state _ _ _ _ _ I) D) as P.
  pose proof (carries_lt _ _ Hb) as Hi. pose proof (inv_k _ _ _ _ _ I) as Hk.
  pose proof (dg_dlen _ _ _ D) as Hd.
  assert (Hpos : s0 <= start k) by (unfold start; lia).
  pose proof (start_le k (length cs) Hk). pose proof (start_le i (length cs) ltac:(lia)).
  assert (HW0 : W <> 0).
  { pose proof (start_lt i (length cs) Hs Hi Hi). assert (s0 <= start i) by (unfold start; lia). lia. }
  split; [|split; [by apply otherwise_advances|]].
  - assert (V : tcp_verify_segment th b s = bool_decide (k <= i)%nat).
    { unfold tcp_verify_segment. rewrite (dg_seq _ _ _ D), (ri_wnd _ _ _ _ _ I), (ri_nxt _ _ _ _ _ I).
      destruct (Z.eqb_spec W 0); [done|]. rewrite andb_false_r.
      pose proof Hb as (c & _ & _ & _ & -> & _). destruct Hs. rewrite u32_id by (red; lia).
      destruct (Z.ltb_spec (start k + W) (start i)); [lia|]. rewrite orb_false_r.
      case_bool_decide; destruct (Z.ltb_spec (start i) (start k)); try done.
      - pose proof (start_le k i ltac:(lia)). lia.
      - assert (i < k)%nat by lia. pose proof (start_lt i k ltac:(done) ltac:(lia) Hi). lia. }
    rewrite V in P. case_bool_decide as Hki; cbv iota in P.
    + destruct P as (s1 & R1 & R2). pose proof (rcv_eq_inv _ _ _ _ _ _ R1 I) as I1.
      destruct (decide (i = k)) as [->|Hne].
      * destruct (expected_step rq0 W got k b s1) as (k' & J); try done. exists k'. by eapply rcv_eq_inv.
      * exists k. eapply rcv_eq_inv; [exact R2|]. apply later_step; try done; lia.
    + exists k. replace ({[i]} ∪ got) with got; [by eapply rcv_eq_inv|].
      assert (i ∈ got) by (apply (ri_below _ _ _ _ _ I); lia). set_solver.
  - unfold arrive. cbn [fst snd].
    destruct (tcp_verify_segment th b s); [destruct P as (s1 & R1 & R2)|by destruct P].
    rewrite (re_una _ _ R2), (se_una _ _ (data_queue_eq b s1)). apply R1.
Qed.

(** Segments arriving one after the other: [arr] says which segment of the
    stream each one is. *)
Lemma arrive_all rq0 W una : stream_ok ->
  start (length cs) <= s0 + W -> start (length cs) + W < 4294967296 ->
  Z.of_nat (length rq0) + 2 * Z.of_nat (length cs) + 1 < 4294967296 ->
  forall arr segs got k s, Forall2 (fun i x => carries i x.2 /\ data_segment una x.1 x.2) arr segs ->
  rcv_inv rq0 W got k s -> snd_inv s -> snd_una (tb s) = una ->
  exists k', rcv_inv rq0 W (list_to_set arr ∪ got) k' (foldl arrive s segs).
Proof.
  intros Hs HW1 HW2 Hl arr segs. revert arr. induction segs as [|[th b] segs IH]; intros arr got k s F I S Hu.
  - inversion F; subst. exists k. simpl. by replace (∅ ∪ got) with got by set_solver.
  - apply Forall2_cons_inv_r in F as (i & arr' & [Hb D] & F & ->). simpl in Hb, D. rewrite <- Hu in D.
    destruct (arrive_step rq0 W got k i th b s Hs I S Hb D HW1 HW2 Hl) as ([k' J] & S' & Hu').
    simpl. destruct (IH arr' ({[i]} ∪ got) k' _ F J S' ltac:(congruence)) as [k2 J2]. exists k2.
    replace ({[i]} ∪ list_to_set arr' ∪ got) with (list_to_set arr' ∪ ({[i]} ∪ got) : gset nat) by set_solver.
    done.
Qed.

End Receive.
End Stream.
(** ** Reading *)

Section Read.
Context {L : Type} `{IpLayerLaws L}.
Implicit Type s : st L.

(** The bytes waiting in the receive queue. *)
Definition waiting s : list Z := concat (payload <$> rq s).

Definition rq_ok s : Prop := queue_ok (receive_queue s) /\ Forall readable (rq s).

Lemma length_payload b : length (payload b) = Z.to_nat (skb_dlen b).
Proof. apply length_ld_bytes. Qed.

(** [n] bytes eaten from a buffer. *)
Definition eat (n : Z) (b : sk_buff) : sk_buff :=
  set_skb_payload (skb_payload b + n) (set_skb_dlen (u32 (skb_dlen b - n)) b).

Lemma eat_payload n b :
  readable b -> 0 <= n <= skb_dlen b -> readable (eat n b) /\ payload (eat n b) = drop (Z.to_nat n) (payload b).
Proof.
  intros (R1 & R2 & R3) Hn.
  assert (E : u32 (skb_dlen b - n) = skb_dlen b - n) by (apply u32_id; red; lia).
  unfold readable, payload, eat, skb_end in *. simpl. rewrite E. split; [lia|].
  rewrite ld_bytes_drop. f_equal; lia.
Qed.

Record reads (n : nat) s s' : Prop := {
  rd_waiting : waiting s' = drop n (waiting s);
  rd_ok : rq_ok s';
  rd_wnd : real_rcv_wnd (tb s') = u32 (real_rcv_wnd (tb s) + Z.of_nat n);
  rd_faults : e_faults (en s') = e_faults (en s);
  rd_nxt : rcv_nxt (tb s') = rcv_nxt (tb s);
  rd_family : sk_addr_family (sk s') = sk_addr_family (sk s)
}.

Lemma dequeue_step_spec b r rlen userlen s :
  rq s = b :: r -> rq_ok s -> 0 <= rlen < userlen -> userlen < 2147483648 ->
  let n := Z.min (userlen - rlen) (skb_dlen b) in
  (dequeue_step b rlen userlen s).1 = take (Z.to_nat n) (payload b) /\
  reads (Z.to_nat n) s (dequeue_step b rlen userlen s).2 /\
  rq (dequeue_step b rlen userlen s).2 = (if skb_dlen b - n =? 0 then r else eat n b :: r).
Proof.
  intros Hq [Hok Hr] Hrl Hu n. rewrite Hq in Hr. apply Forall_cons in Hr as [Hb Hr].
  assert (Hn : 0 <= n <= skb_dlen b) by (destruct Hb; unfold n; lia).
  destruct (eat_payload n b Hb Hn) as [Re Pe]. pose proof Hb as (R1 & R2 & R3).
  unfold dequeue_step.
  assert (E : (if u32 userlen <? u32 (rlen + skb_dlen b) then userlen - rlen else skb_dlen b) = n).
  { rewrite !u32_id by (red; lia). unfold n. destruct (Z.ltb_spec userlen (rlen + skb_dlen b)); lia. }
  rewrite E. clear E. destruct (Z.ltb_spec (skb_end b) (skb_payload b + n)); [lia|].
  fold (eat n b). cbv zeta. set (s1 := set_receive_queue _ _).
  assert (Q1 : skb_dequeue (receive_queue s1) = Some (eat n b, set_qlen (u32 (qlen (receive_queue s) - 1)) (set_skq r (receive_queue s)))).
  { unfold skb_dequeue, s1, set_skq, set_qlen, receive_queue. simpl. unfold rq, receive_queue in Hq. rewrite Hq. done. }
  assert (Q2 : rq s1 = eat n b :: r) by (unfold s1, rq, receive_queue in *; simpl; by rewrite Hq).
  assert (Hw : concat (payload <$> (eat n b :: r)) = drop (Z.to_nat n) (waiting s)).
  { unfold waiting. rewrite Hq. simpl. rewrite Pe, drop_app_le by (rewrite length_payload; lia). done. }
  assert (Ed : skb_dlen (eat n b) = skb_dlen b - n) by (simpl; apply u32_id; red; lia).
  assert (Ho : take (Z.to_nat n) (payload b) = ld_bytes (skb_buf b) (Z.to_nat (skb_payload b)) (Z.to_nat n))
    by (apply ld_bytes_take; lia).
  assert (F1 : real_rcv_wnd (tb s1) = u32 (real_rcv_wnd (tb s) + Z.of_nat (Z.to_nat n)) /\
    e_faults (en s1) = e_faults (en s) /\ rcv_nxt (tb s1) = rcv_nxt (tb s) /\
    sk_addr_family (sk s1) = sk_addr_family (sk s) /\ qlen (receive_queue s1) = qlen (receive_queue s)).
  { simpl. rewrite Z2Nat.id by lia. done. }
  destruct F1 as (F1 & F2 & F3 & F4 & F5). rewrite Ed, Ho. clearbody s1.
  destruct Hok as [K1 K2]. fold (rq s) in K1, K2. rewrite Hq in K1, K2. simpl in K1, K2.
  destruct (Z.eqb_spec (skb_dlen b - n) 0) as [Ez|Ez].
  - set (s2 := if th_flag _ _ _ then _ else s1).
    assert (G : receive_queue s2 = receive_queue s1 /\ tb s2 = tb s1 /\ en s2 = en s1 /\ sk s2 = sk s1)
      by (unfold s2; by destruct (th_flag _ _ _)).
    destruct G as (G1 & G2 & G3 & G4). rewrite G1, Q1. clearbody s2. split; [done|].
    set (q := set_qlen _ _). split; [|unfold do_free_skb; by destruct (free_skb _)].
    assert (Hqok : queue_ok q) by (unfold queue_ok, q; simpl; rewrite K1, u32_id by (red; lia); lia).
    assert (Hw' : concat (payload <$> r) = drop (Z.to_nat n) (waiting s)).
    { rewrite <- Hw. simpl. replace (payload (eat n b)) with ([] : list Z); [done|].
      symmetry. apply nil_length_inv. rewrite length_payload, Ed. lia. }
    unfold do_free_skb. destruct (free_skb _); constructor; simpl; rewrite ?G2, ?G3, ?G4; done.
  - cbn [fst snd]. split; [done|]. split; [|done]. constructor; try done.
    + unfold waiting. by rewrite Q2.
    + split; [|rewrite Q2; by constructor]. unfold queue_ok. fold (rq s1). rewrite Q2, F5. done.
Qed.

Lemma reads_trans n m s1 s2 s3 :
  0 <= real_rcv_wnd (tb s1) -> reads n s1 s2 -> reads m s2 s3 -> reads (n + m) s1 s3.
Proof.
  intros Hp [] []. constructor; try congruence; try done.
  - rewrite rd_waiting1, rd_waiting0, drop_drop. done.
  - rewrite rd_wnd1, rd_wnd0, u32_add_l. f_equal. lia.
Qed.

Lemma reads_none s : rq_ok s -> is_u32 (real_rcv_wnd (tb s)) -> reads 0 s s.
Proof. intros Hok Hw. constructor; try done. simpl. by rewrite Z.add_0_r, u32_id. Qed.

Lemma dequeue_full fuel acc userlen s :
  userlen <= Z.of_nat (length acc) -> dequeue_loop fuel acc userlen s = (acc, s).
Proof.
  intros Hf. destruct fuel; simpl; [done|].
  destruct (Z.ltb_spec (Z.of_nat (length acc)) userlen); [lia|]. by rewrite andb_false_r.
Qed.

Lemma dequeue_loop_spec userlen : 0 <= userlen < 2147483648 -> forall fuel acc s,
  rq_ok s -> (length (rq s) <= fuel)%nat -> Z.of_nat (length acc) <= userlen -> is_u32 (real_rcv_wnd (tb s)) ->
  let n := Nat.min (Z.to_nat userlen - length acc) (length (waiting s)) in
  (dequeue_loop fuel acc userlen s).1 = acc ++ take n (waiting s) /\
  reads n s (dequeue_loop fuel acc userlen s).2.
Proof.
  intros Hu. induction fuel as [|fuel IH]; intros acc s Hok Hf Ha Hw; cbv zeta.
  { assert (E : rq s = []) by (destruct (rq s); [done|simpl in Hf; lia]). simpl. unfold waiting. rewrite E. simpl.
    rewrite Nat.min_0_r, app_nil_r. split; [done|by apply reads_none]. }
  pose proof (reads_none s Hok Hw) as Z0.
  destruct Hok as [Hqok Hr] eqn:Eok. clear Eok. simpl. rewrite queue_ok_empty, queue_ok_peek by done. fold (rq s).
  destruct (rq s) as [|b r] eqn:Eq.
  { simpl. unfold waiting. rewrite Eq. simpl. by rewrite Nat.min_0_r, app_nil_r. }
  simpl. destruct (Z.ltb_spec (Z.of_nat (length acc)) userlen) as [Hlt|Hge].
  2: { replace (Z.to_nat userlen - length acc)%nat with 0%nat by lia. simpl. by rewrite take_0, app_nil_r. }
  destruct (dequeue_step_spec b r (Z.of_nat (length acc)) userlen s) as (O & R & Q); try done; try lia.
  apply Forall_cons in Hr as [(B1 & B2 & B3) Hr].
  destruct (dequeue_step b _ userlen s) as [out s1]. cbn [fst snd] in O, R, Q.
  set (n := Z.min (userlen - Z.of_nat (length acc)) (skb_dlen b)) in *.
  assert (Hout : length out = Z.to_nat n) by (rewrite O, length_take, length_payload; lia).
  assert (Hws : waiting s = payload b ++ concat (payload <$> r)) by (unfold waiting; by rewrite Eq).
  assert (Hl1 : length (waiting s1) = (length (waiting s) - Z.to_nat n)%nat) by (rewrite (rd_waiting _ _ _ R); apply length_drop).
  assert (Hn : (Z.to_nat n <= length (waiting s))%nat) by (rewrite Hws, length_app, length_payload; lia).
  assert (Htk : take (Z.to_nat n) (waiting s) = out).
  { rewrite Hws, take_app_le by (rewrite length_payload; lia). by rewrite O. }
  assert (U1 : is_u32 (real_rcv_wnd (tb s1))) by (rewrite (rd_wnd _ _ _ R); apply u32_range).
  set (m := Nat.min (Z.to_nat userlen - length (acc ++ out)) (length (waiting s1))).
  assert (P : (dequeue_loop fuel (acc ++ out) userlen s1).1 = (acc ++ out) ++ take m (waiting s1) /\
              reads m s1 (dequeue_loop fuel (acc ++ out) userlen s1).2).
  { destruct (Z.eqb_spec (skb_dlen b - n) 0) as [Ez|Ez].
    - apply IH; [apply R|rewrite Q; simpl in Hf; lia|rewrite length_app; lia|done].
    - rewrite dequeue_full by (rewrite length_app; lia). unfold m.
      replace (Z.to_nat userlen - length (acc ++ out))%nat with 0%nat by (rewrite length_app; lia). simpl.
      rewrite take_0, app_nil_r. split; [done|]. apply reads_none; [apply R|done]. }
  destruct P as [P1 P2]. rewrite P1.
  assert (Em : Nat.min (Z.to_nat userlen - length acc) (length (waiting s)) = (Z.to_nat n + m)%nat)
    by (unfold m; rewrite length_app, Hl1; lia).
  rewrite Em, <- take_take_drop, Htk, <- (rd_waiting _ _ _ R), app_assoc.
  split; [done|]. eapply reads_trans; [|done|done]. red in Hw. lia.
Qed.

End Read.
End TcpReasm.
