(* ===== verification/TcpApi.v ===== *)
(** The calls a user or a timer makes into TCP, and the parsing of an arriving
    segment: the rest of [src/src/tcp.c], with [sock_free] of [src/src/sock.c]. *)
From S2P Require Import Prelude Utils SkBuff Timer TcpTypes TcpBase TcpOutput TcpData TcpInput.
Import Utils SkBuff Timer TcpTypes TcpBase TcpOutput TcpData TcpInput.

Module TcpApi.

(** ** Arrival *)

(** [tcp_init_segment] on the header at [o]: byte order, then the buffer's
    sequence numbers and payload. *)
Definition tcp_init_segment (o : nat) (tcp_dlen : Z) (b : sk_buff) : tcphdr * sk_buff :=
  let m := skb_buf b in
  let m := st16 m o (bswap16 (ld16 m o)) in
  let m := st16 m (o + 2) (bswap16 (ld16 m (o + 2))) in
  let m := st32 m (o + 4) (bswap32 (ld32 m (o + 4))) in
  let m := st32 m (o + 8) (bswap32 (ld32 m (o + 8))) in
  let m := st16 m (o + 14) (bswap16 (ld16 m (o + 14))) in
  let m := st16 m (o + 16) (bswap16 (ld16 m (o + 16))) in
  let m := st16 m (o + 18) (bswap16 (ld16 m (o + 18))) in
  let th := read_tcphdr o m in
  let dlen := u32 tcp_dlen in
  let b := set_skb_dlen dlen (set_skb_seq (th_seq th) (set_skb_buf m b)) in
  let b := set_skb_len (u32 (dlen + b2z (th_syn th) + b2z (th_fin th))) b in
  let b := set_skb_end_seq (u32 (skb_seq b + dlen)) b in
  (th, set_skb_payload (Z.of_nat (o + 20)) b).

(** ** Creation *)

(** A zeroed [struct sock]; [sock_init_data] sets up the queues. *)
Definition sock_init_data (protocol family : Z) (v : tcp_states) : sock :=
  mk_sock protocol v 0 0 0 0 family (replicate 16 0) (replicate 16 0) skb_queue_init skb_queue_init.

Definition tcp_alloc_cong : tcp_cong := mk_cc 1460 536 (4 * 536) 4294967295 0 0 0 0 0.
Definition tcp_alloc_sack : tcp_sackst := mk_sa 1 0 0 (replicate 4 (0, 0)) 0 0 0 0 0.
Definition tcp_alloc_tcb : tcb := mk_tcb 0 0 0 0 0 0 0 0 0 0 0 0.
Definition tcp_alloc_timing : tcp_timing := mk_tm 0 0 0 0 0 0 0 None None None None 0.

(** [tcp_alloc_sock] followed by the family's [create] and [sock_init_data]. *)
Definition tcp_alloc_sock {L} (protocol family : Z) (o : socket) (e : env L) : st L :=
  mk_st (sock_init_data protocol family TCP_CLOSE) tcp_alloc_tcb tcp_alloc_timing tcp_alloc_cong
    tcp_alloc_sack skb_queue_init None o e.

(** ** Addresses: [struct sockaddr_in], [struct sockaddr_in6] as bytes *)

Definition sa_family (addr : list Z) : Z := ld16 addr 0.
Definition sin_port (addr : list Z) : Z := ld16 addr 2.
Definition s_addr (addr : list Z) : Z := ld32 addr 4.
Definition sin6_addr (addr : list Z) : list Z := ld_bytes addr 8 16.
Definition SOCKADDR_IN6_LEN : Z := 28.

(** [parse_ipv4_string("10.0.0.4")] *)
Definition lvl_ip_addr : Z := 167772164.

Definition v4_of (a : list Z) : Z := ld32 a 0.
Definition set_v4 (v : Z) (a : list Z) : list Z := st32 a 0 v.

Section Api.
Context {L : Type} `{IpLayer L}.
Implicit Type s : st L.

Definition generate_port s : Z * st L :=
  let port := s32 (e_port (en s) + 1) in
  (u16 (port + tick (e_timers (en s)) mod 10000), upd_en (set_e_port port) s).

Definition tcp_v4_connect (addr : list Z) s : res L :=
  let s := upd_sk (set_sk_dport (bswap16 (sin_port addr))) s in
  let '(port, s) := generate_port s in
  let s := upd_sk (fun k => set_sk_sport port k) s in
  let s := upd_sk (fun k => set_sk_daddr (set_v4 (bswap32 (s_addr addr)) (sk_daddr k)) k) s in
  let s := upd_sk (fun k => set_sk_saddr (set_v4 lvl_ip_addr (sk_saddr k)) k) s in
  tcp_connect s.

Definition tcp_v6_connect (addr : list Z) (addrlen : Z) s : res L :=
  if (addrlen <? SOCKADDR_IN6_LEN) || negb (sa_family addr =? AF_INET6) then Done s (- EINVAL)
  else
    let s := upd_sk (set_sk_dport (bswap16 (sin_port addr))) s in
    let '(port, s) := generate_port s in
    let s := upd_sk (fun k => set_sk_sport port k) s in
    let s := upd_sk (fun k => set_sk_saddr (replicate 16 0) (set_sk_daddr (sin6_addr addr) k)) s in
    let pmtu :=
      match route6_view_of (e_lower (en s)) (sk_daddr (sk s)) with
      | Some rt =>
          if 0 <? rtv_pmtu rt then u16 (rtv_pmtu rt)
          else match rtv_dev rt with
               | Some (mtu6, mtu) => u16 (if 0 <? mtu6 then mtu6 else mtu)
               | None => 1500
               end
      | None => 1500
      end in
    tcp_connect (upd_cc (fun c => set_rmss (u16 (pmtu - 60)) (set_smss (u16 (pmtu - 60)) c)) s).

Definition tcp_v4_bind (addr : list Z) s : st L * Z :=
  (upd_sk (fun k => set_sk_saddr (set_v4 (bswap32 (s_addr addr)) (sk_saddr k))
                      (set_sk_sport (bswap16 (sin_port addr)) k)) s, 0).

Definition tcp_v6_bind (addr : list Z) (addr_len : Z) s : st L * Z :=
  if (addr_len <? SOCKADDR_IN6_LEN) || negb (sa_family addr =? AF_INET6) then (s, - EINVAL)
  else (upd_sk (fun k => set_sk_saddr (sin6_addr addr) (set_sk_sport (bswap16 (sin_port addr)) k)) s, 0).

Definition tcp_disconnect s : st L * Z := (s, 0).

Definition tcp_v4_listen (n : Z) s : st L * Z :=
  match state s with
  | TCP_CLOSE =>
      let s := set_state TCP_LISTEN s in
      (upd_en (fun e => set_e_passive (<[self s := mk_ch [] 0 n]> (e_passive e)) e) s, 0)
  | _ => (s, EOPNOTSUPP)
  end.

(** [get_established_conn_fd]: the socket dequeued, or [-EAGAIN], or asleep with
    the lock released. *)
Inductive accept_res :=
  | Accepted (s : st L) (id : Z)
  | AcceptAgain (s : st L)
  | AcceptAsleep (s : st L).

Definition get_established_conn s : accept_res :=
  match e_passive (en s) !! self s with
  | None => AcceptAgain (add_fault FaultNull s)
  | Some c =>
      if 0 <? ch_qlen c then
        match ch_list c with
        | id :: r =>
            let c := set_ch_qlen (u32 (ch_qlen c - 1)) (set_ch_list r c) in
            Accepted (upd_en (fun e => set_e_passive (<[self s := c]> (e_passive e)) e) s) id
        | [] => AcceptAgain (add_fault FaultDequeueEmpty s)
        end
      else if negb (Z.land (so_flags (so s)) O_NONBLOCK =? 0) then AcceptAgain s
      else AcceptAsleep (socket_release s)
  end.

Definition tcp_write (buf : list Z) s : res L :=
  if negb (sk_err (sk s) =? 0) then Done s (sk_err (sk s))
  else match state s with
       | TCP_ESTABLISHED | TCP_CLOSE_WAIT => tcp_send buf s
       | _ => Done s (- EBADF)
       end.

Definition tcp_read (len : Z) s : recv_res L :=
  match state s with
  | TCP_CLOSE => Received s [] (- EBADF)
  | TCP_CLOSE_WAIT =>
      if negb (skb_queue_empty (receive_queue s)) then tcp_receive len s
      else if negb (Z.land (tsk_flags (tm s)) TCP_FIN =? 0)
      then Received (upd_tm (fun t => set_tsk_flags (u8 (Z.land (tsk_flags t) (Z.lnot TCP_FIN))) t) s) [] 0
      else tcp_receive len s
  | TCP_CLOSING | TCP_LAST_ACK | TCP_TIME_WAIT => Received s [] (sk_err (sk s))
  | _ => tcp_receive len s
  end.

Definition tcp_recv_notify s : st L := recv_notify s.

Definition tcp_close s : res L :=
  match state s with
  | TCP_CLOSE | TCP_CLOSING | TCP_LAST_ACK | TCP_TIME_WAIT | TCP_FIN_WAIT_1 | TCP_FIN_WAIT_2 =>
      Done (set_err (- EBADF) s) (-1)
  | TCP_LISTEN | TCP_SYN_SENT | TCP_SYN_RECEIVED => Done (tcp_done s) 0
  | TCP_ESTABLISHED =>
      and_then (tcp_queue_fin (set_state TCP_FIN_WAIT_1 s)) (AfterReturn 0)
  | TCP_CLOSE_WAIT =>
      and_then (and_then (tcp_queue_fin s) (AfterState TCP_LAST_ACK)) (AfterReturn 0)
  end.

Definition tcp_abort s : st L := tcp_done (tcp_send_reset s).1.

(** Timer callbacks *)
Definition tcp_linger s : st L :=
  let s := socket_wr_acquire s in
  let s := upd_tm (set_linger None) (do_timer_cancel (linger (tm s)) s) in
  socket_release (tcp_done s).

Definition tcp_user_timeout s : st L :=
  let s := socket_wr_acquire s in
  let s := upd_tm (set_linger None) (do_timer_cancel (linger (tm s)) s) in
  socket_release (tcp_abort s).

(** [sock_free]: both queues. *)
Definition sock_free s : st L :=
  let '(rq, f1) := skb_queue_free (receive_queue s) in
  let '(wq, f2) := skb_queue_free (write_queue s) in
  upd_en (fun e => set_e_freed (e_freed e ++ f1 ++ f2) e)
    (set_write_queue wq (set_receive_queue rq s)).

(** What the timer thread runs for a callback of this connection. *)
Definition run_handler (h : handler) (a : harg) s : st L :=
  match h, a with
  | H_tcp_connect_rto, ArgRto _ epoch => tcp_connect_rto epoch s
  | H_tcp_retransmission_timeout, ArgRto _ epoch => tcp_retransmission_timeout epoch s
  | H_tcp_send_delack, _ => tcp_send_delack s
  | H_tcp_linger, _ => tcp_linger s
  | H_tcp_user_timeout, _ => tcp_user_timeout s
  | _, _ => s
  end.

End Api.
Arguments accept_res : clear implicits.
End TcpApi.
