(* ===== verification/TcpWire.v ===== *)
(** The wire format: what [tcp_transmit_skb] writes is what [tcp_init_segment]
    and [tcp_parse_opts] read back. *)
From S2P Require Import Prelude Utils SkBuff Timer TcpTypes TcpBase TcpOutput TcpSender TcpData TcpInput TcpApi.
Import Utils SkBuff Timer TcpTypes TcpBase TcpOutput TcpSender TcpData TcpInput TcpApi.

Module TcpWire.

(** ** The fixed header *)

Lemma get_hl_rsvd o buf : (o + 12 < length buf)%nat -> 0 <= th_get_hl o buf < 16 ->
  th_get_hl o (th_set_rsvd o 0 buf) = th_get_hl o buf.
Proof.
  intros Ho Hh. unfold th_get_hl, th_set_rsvd in *. rewrite ld8_st8_eq by done.
  rewrite Z.land_0_l, Z.lor_0_r. set (x := ld8 buf (o + 12)) in *.
  assert (E : u8 (Z.land x 240) = Z.land x 240).
  { unfold u8. change 256 with (2 ^ 8). rewrite <- Z.land_ones by lia. rewrite <- Z.land_assoc. done. }
  rewrite E, Z.shiftr_land. change (Z.shiftr 240 4) with (Z.ones 4). rewrite Z.land_ones by lia.
  by apply Z.mod_small.
Qed.

Section Wire.
Context {L : Type} `{IpLayerLaws L}.
Implicit Type s : st L.

Definition adv_window s (syn : bool) : Z :=
  if syn then u16 (real_rcv_wnd (tb s)) else Z.shiftr (u16 (real_rcv_wnd (tb s))) (rcv_scale (sa s)).

Lemma adv_window_range s syn : 0 <= rcv_scale (sa s) -> is_u16 (adv_window s syn).
Proof.
  intros Hs. unfold adv_window. pose proof (u16_range (real_rcv_wnd (tb s))) as U. red in U |- *.
  destruct syn; [done|]. rewrite Z.shiftr_div_pow2 by done.
  assert (0 < 2 ^ rcv_scale (sa s)) by (apply Z.pow_pos_nonneg; lia).
  split; [apply Z.div_pos; lia|]. apply Z.div_lt_upper_bound; [done|]. nia.
Qed.

(** The header fields in memory after [fill_header]. *)
Lemma fill_header_fields seq s o buf :
  (o + 20 <= length buf)%nat -> 0 <= th_get_hl o buf < 16 ->
  let m := fill_header seq s o buf in
  ld16 m o = bswap16 (sk_sport (sk s)) /\ ld16 m (o + 2) = bswap16 (sk_dport (sk s)) /\
  ld32 m (o + 4) = bswap32 seq /\ ld32 m (o + 8) = bswap32 (rcv_nxt (tb s)) /\
  th_get_hl o m = th_get_hl o buf /\ ld8 m (o + 13) = ld8 buf (o + 13) /\
  ld16 m (o + 14) = bswap16 (adv_window s (th_flag o F_SYN buf)) /\
  ld16 m (o + 16) = 0 /\ ld16 m (o + 18) = 0.
Proof.
  intros Hl Hh. unfold fill_header. cbv zeta.
  repeat split; try (unfold th_set_rsvd; mem_simpl; rewrite ?u16_id, ?u32_id; auto using bswap16_range, bswap32_range; done).
  - unfold th_get_hl. mem_simpl.
    match goal with |- Z.shiftr (ld8 (th_set_rsvd o 0 ?m) _) 4 = _ =>
      change (th_get_hl o (th_set_rsvd o 0 m) = th_get_hl o buf);
      assert (E : th_get_hl o m = th_get_hl o buf) by (unfold th_get_hl; by mem_simpl);
      rewrite get_hl_rsvd; [done|autorewrite with mem; lia|by rewrite E] end.
  - unfold th_set_rsvd. mem_simpl. rewrite u16_id by apply bswap16_range. unfold adv_window.
    by destruct (th_flag o F_SYN buf).
Qed.

(** What [tcp_init_segment] makes of a header in network byte order. *)
Lemma init_segment_fields o dlen b :
  (o + 20 <= length (skb_buf b))%nat ->
  let m := skb_buf b in let th := (tcp_init_segment o dlen b).1 in
  th_sport th = u16 (bswap16 (ld16 m o)) /\ th_dport th = u16 (bswap16 (ld16 m (o + 2))) /\
  th_seq th = u32 (bswap32 (ld32 m (o + 4))) /\ th_ack_seq th = u32 (bswap32 (ld32 m (o + 8))) /\
  th_hl th = th_get_hl o m /\ th_win th = u16 (bswap16 (ld16 m (o + 14))) /\
  (forall bit, 0 <= bit -> th_flag o bit (skb_buf (tcp_init_segment o dlen b).2) = th_flag o bit m) /\
  th_syn th = th_flag o F_SYN m /\ th_ack th = th_flag o F_ACK m /\ th_fin th = th_flag o F_FIN m /\
  th_rst th = th_flag o F_RST m /\ th_psh th = th_flag o F_PSH m.
Proof.
  intros Hl. unfold tcp_init_segment, read_tcphdr, th_flag, th_get_hl. cbn [fst snd].
  cbn [th_sport th_dport th_seq th_ack_seq th_hl th_win th_syn th_ack th_fin th_rst th_psh].
  cbn [skb_buf set_skb_payload set_skb_end_seq set_skb_len set_skb_dlen set_skb_seq set_skb_buf].
  repeat split; intros; by mem_simpl.
Qed.

(** ... and of the buffer around it. *)
Lemma init_segment_buf o dlen b :
  let th := (tcp_init_segment o dlen b).1 in let b' := (tcp_init_segment o dlen b).2 in
  skb_seq b' = th_seq th /\ skb_dlen b' = u32 dlen /\ skb_end_seq b' = u32 (th_seq th + u32 dlen) /\
  skb_payload b' = Z.of_nat (o + 20) /\ length (skb_buf b') = length (skb_buf b) /\
  forall k, (k < o \/ o + 20 <= k)%nat -> ld8 (skb_buf b') k = ld8 (skb_buf b) k.
Proof.
  unfold tcp_init_segment. cbn [fst snd].
  cbn [skb_buf skb_seq skb_dlen skb_end_seq skb_payload set_skb_payload set_skb_end_seq set_skb_len set_skb_dlen set_skb_seq set_skb_buf].
  do 4 (split; [done|]). split; [by autorewrite with mem|]. intros k Hk.
  repeat first [rewrite ld8_st32_ne by lia|rewrite ld8_st16_ne by lia]. done.
Qed.

End Wire.

(** ** Options *)

Lemma sack_blocks_before l : forall o b i, (i < o)%nat -> ld8 (write_sack_blocks o l b) i = ld8 b i.
Proof.
  induction l as [|[x y] l IH]; intros o b i Hi; simpl; [done|]. rewrite IH by lia. by mem_simpl.
Qed.

Lemma sack_blocks_ld32_before l o b i : (i + 4 <= o)%nat -> ld32 (write_sack_blocks o l b) i = ld32 b i.
Proof. intros Hi. unfold ld32, ld16. by rewrite !sack_blocks_before by lia. Qed.

Lemma sack_blocks_spec l : forall o b j x y,
  (o + 8 * length l <= length b)%nat -> l !! j = Some (x, y) ->
  ld32 (write_sack_blocks o l b) (o + 8 * j) = bswap32 x /\
  ld32 (write_sack_blocks o l b) (o + 8 * j + 4) = bswap32 y.
Proof.
  induction l as [|[x' y'] l IH]; intros o b j x y Hl Hj; [done|]. cbn [length write_sack_blocks] in Hl |- *.
  destruct j as [|j]; simpl in Hj.
  - injection Hj as -> ->. rewrite !sack_blocks_ld32_before by lia.
    rewrite Nat.mul_0_r, Nat.add_0_r. mem_simpl. rewrite !u32_id by apply bswap32_range. done.
  - replace (o + 8 * S j)%nat with (o + 8 + 8 * j)%nat by lia. apply IH; [autorewrite with mem; lia|done].
Qed.

Lemma read_blocks_spec data n : forall ptr i bl,
  length (read_blocks data ptr i n bl) = length bl /\
  (forall j, (j < i \/ i + n <= j)%nat -> read_blocks data ptr i n bl !! j = bl !! j) /\
  (forall j, (j < n)%nat -> (i + n <= length bl)%nat ->
     read_blocks data ptr i n bl !! (i + j)%nat =
       Some (bswap32 (ld32 data (ptr + 8 * j)), bswap32 (ld32 data (ptr + 8 * j + 4)))).
Proof.
  induction n as [|n IH]; intros ptr i bl; cbn [read_blocks]; [split; [done|]; split; intros; [done|lia]|].
  destruct (IH (ptr + 8)%nat (S i) (<[i:=(bswap32 (ld32 data ptr), bswap32 (ld32 data (ptr + 4)))]> bl)) as (I1 & I2 & I3).
  rewrite I1, length_insert in *. split; [done|]. split.
  - intros j Hj. rewrite I2 by lia. by rewrite list_lookup_insert_ne by lia.
  - intros j Hj Hl. destruct j as [|j].
    + rewrite Nat.add_0_r, Nat.mul_0_r, Nat.add_0_r, I2 by lia. by rewrite list_lookup_insert_eq by lia.
    + replace (i + S j)%nat with (S i + j)%nat by lia. rewrite I3 by lia.
      replace (ptr + 8 + 8 * j)%nat with (ptr + 8 * S j)%nat by lia. done.
Qed.

Lemma read_blocks_drop m o n : forall x i l, read_blocks (drop o m) x i n l = read_blocks m (o + x) i n l.
Proof.
  induction n as [|n IH]; intros x i l; [done|]. cbn [read_blocks]. rewrite IH, !ld32_drop.
  by rewrite !Nat.add_assoc.
Qed.

(** Blocks written by the sender are the blocks the receiver reads. *)
Lemma sack_roundtrip l o b :
  (length l <= 4)%nat -> (o + 8 * length l <= length b)%nat -> Forall (fun '(x, y) => is_u32 x /\ is_u32 y) l ->
  take (length l) (read_blocks (write_sack_blocks o l b) o 0 (length l) (replicate 4 (0, 0))) = l.
Proof.
  intros H4 Hl Hu. apply list_eq. intros j.
  destruct (read_blocks_spec (write_sack_blocks o l b) (length l) o 0 (replicate 4 (0, 0))) as (_ & _ & R).
  destruct (decide (j < length l)%nat) as [Hj|Hj].
  - pose proof (R j Hj ltac:(rewrite length_replicate; lia)) as Rj. rewrite Nat.add_0_l in Rj.
    rewrite lookup_take_lt by done. rewrite Rj. clear Rj.
    destruct (lookup_lt_is_Some_2 l j Hj) as [[x y] Hx]. rewrite Hx.
    destruct (sack_blocks_spec l o b j x y Hl Hx) as [-> ->].
    rewrite Forall_lookup in Hu. destruct (Hu _ _ Hx). by rewrite !bswap32_invol.
  - rewrite lookup_take_ge by lia. by rewrite lookup_ge_None_2 by lia.
Qed.

(** *** Termination and reach of the parser *)

(** The number of blocks a SACK option can announce. *)
Lemma sack_count d : 0 <= d < 256 ->
  let n := Z.quot (d - 2) 8 in 0 <= (if 4 <? n then 4 else n) <= 4.
Proof.
  intros Hd. cbv zeta. destruct (Z.ltb_spec 4 (Z.quot (d - 2) 8)); [lia|]. split; [|done].
  destruct (Z_lt_le_dec d 2); [|apply Z.quot_pos; lia].
  assert (d = 0 \/ d = 1) as [-> | ->] by lia; done.
Qed.

(** One option: how far [ptr] moves and what [optlen] becomes. *)
Lemma parse_one_shape data p :
  bytes_ok data ->
  exists n m, 1 <= n <= 34 /\ (m <= Z.to_nat n)%nat /\ po_optlen (parse_one data p) = u8 (po_optlen p - n) /\
    po_ptr (parse_one data p) = (po_ptr p + m)%nat /\
    (po_read (parse_one data p) <= Nat.max (po_read p) (po_ptr p + 34))%nat /\
    (po_scale (parse_one data p) = po_scale p \/ 0 <= po_scale (parse_one data p) <= 14).
Proof.
  intros Hd. unfold parse_one. set (kind := ld8 data (po_ptr p)). clearbody kind.
  assert (S : forall k, 1 <= k <= 10 -> exists n m, 1 <= n <= 34 /\ (m <= Z.to_nat n)%nat /\
    po_optlen (skip_opt k p) = u8 (po_optlen p - n) /\ po_ptr (skip_opt k p) = (po_ptr p + m)%nat /\
    (po_read (skip_opt k p) <= Nat.max (po_read p) (po_ptr p + 34))%nat /\
    (po_scale (skip_opt k p) = po_scale p \/ 0 <= po_scale (skip_opt k p) <= 14)).
  { intros k Hk. exists k, (Z.to_nat k). simpl. repeat split; try done; lia. }
  destruct (_ =? _); [by apply S|]. destruct (_ =? _); [by apply S|]. destruct (_ =? _); [by apply S|].
  destruct (_ =? _).
  { pose proof (sack_count _ (ld8_range data (po_ptr p + 1) Hd)) as Hn. unfold parse_sack. cbv zeta in Hn |- *.
    set (n := if _ <? _ then _ else _) in *. clearbody n.
    cbn [po_optlen po_ptr po_read po_scale].
    exists (2 + 8 * n), (2 + 8 * Z.to_nat n)%nat. rewrite Z2Nat.id by lia.
    split; [lia|]. split; [lia|]. split; [f_equal; lia|]. split; [lia|]. split; [lia|]. by left. }
  destruct (_ =? _); [by apply S|]. destruct (_ =? _).
  { unfold parse_wso. exists 3, 3%nat. simpl. repeat split; try done; try lia. right.
    pose proof (ld8_range data (po_ptr p + 2) Hd) as U. red in U. destruct (Z.leb_spec (ld8 data (po_ptr p + 2)) 14); lia. }
  exists 1, 0%nat. simpl. repeat split; try done; lia.
Qed.

(** Every option shortens [optlen], or wraps it out of the loop's range. *)
Lemma parse_one_less data p : bytes_ok data -> parse_more p = true ->
  parse_more (parse_one data p) = false \/
  (po_optlen (parse_one data p) < po_optlen p /\ 0 <= po_optlen (parse_one data p) /\
   (Z.of_nat (po_ptr (parse_one data p)) + po_optlen (parse_one data p) <= Z.of_nat (po_ptr p) + po_optlen p)).
Proof.
  intros Hd Hm. unfold parse_more in Hm. apply andb_true_iff in Hm as [H1 H2].
  apply Z.ltb_lt in H1. apply Z.ltb_lt in H2.
  destruct (parse_one_shape data p Hd) as (n & m & Hn & Hm & E & Ep & _). unfold parse_more. rewrite E, Ep.
  destruct (Z_lt_le_dec (po_optlen p) n).
  - left. assert (u8 (po_optlen p - n) = po_optlen p - n + 256) as -> by (unfold u8; Z.div_mod_to_equations; lia).
    destruct (Z.ltb_spec (po_optlen p - n + 256) 40); [lia|]. apply andb_false_r.
  - right. rewrite u8_id by (red; lia). lia.
Qed.

(** [parse_fuel] turns are enough: the loop of the code ends. *)
Lemma parse_loop_ends data : bytes_ok data -> forall fuel p,
  0 <= po_optlen p < 256 -> (po_optlen p <= Z.of_nat fuel \/ 40 <= po_optlen p) ->
  parse_more (parse_loop fuel data p) = false.
Proof.
  intros Hd. induction fuel as [|fuel IH]; intros p Hp Hf; simpl.
  - unfold parse_more. destruct (Z.ltb_spec 0 (po_optlen p)), (Z.ltb_spec (po_optlen p) 40); try done; lia.
  - destruct (parse_more p) eqn:E; [|done]. destruct (parse_one_less data p Hd E) as [Hx|(H1 & H2 & _)].
    + assert (X : forall f, parse_loop f data (parse_one data p) = parse_one data p)
        by (intros [|f]; simpl; [done|by rewrite Hx]). by rewrite X.
    + unfold parse_more in E. apply andb_true_iff in E as [E1 E2].
      apply Z.ltb_lt in E1. apply Z.ltb_lt in E2. apply IH; lia.
Qed.

(** The parser never reads more than 33 bytes past the options, and leaves a
    window scale no larger than 14. *)
Lemma parse_loop_reach data T : bytes_ok data -> forall fuel p,
  Z.of_nat (po_ptr p) + po_optlen p <= T -> Z.of_nat (po_read p) <= T + 33 -> 0 <= po_scale p <= 14 ->
  Z.of_nat (po_read (parse_loop fuel data p)) <= T + 33 /\ 0 <= po_scale (parse_loop fuel data p) <= 14.
Proof.
  intros Hd. induction fuel as [|fuel IH]; intros p HT Hr Hs; simpl; [done|].
  destruct (parse_more p) eqn:E; [|done].
  assert (0 < po_optlen p) by (unfold parse_more in E; apply andb_true_iff in E as [E1 _]; by apply Z.ltb_lt).
  destruct (parse_one_shape data p Hd) as (n & m & Hn & Hm & Eo & Ep & Hr' & Hs').
  assert (Hr2 : Z.of_nat (po_read (parse_one data p)) <= T + 33) by lia.
  assert (Hs2 : 0 <= po_scale (parse_one data p) <= 14) by (destruct Hs' as [->|?]; lia).
  destruct (parse_one_less data p Hd E) as [Hx|(_ & _ & Hle)].
  - assert (X : forall f, parse_loop f data (parse_one data p) = parse_one data p)
      by (intros [|f]; simpl; [done|by rewrite Hx]). by rewrite X.
  - apply IH; [lia|done|done].
Qed.

(** *** Options written are options read *)

Lemma parse_step f data p : parse_more p = true -> parse_loop (S f) data p = parse_loop f data (parse_one data p).
Proof. intros E. simpl. by rewrite E. Qed.

Lemma parse_noop data p : ld8 data (po_ptr p) = TCP_OPT_NOOP -> parse_one data p = skip_opt 1 p.
Proof. intros E. unfold parse_one. by rewrite E. Qed.

Lemma more_true p : 0 < po_optlen p < 40 -> parse_more p = true.
Proof. intros Hp. unfold parse_more. apply andb_true_iff. split; apply Z.ltb_lt; lia. Qed.

(** NOP, window scale. *)
Lemma parse_wso_opt f data p scale :
  4 <= po_optlen p < 40 -> ld8 data (po_ptr p) = TCP_OPT_NOOP -> ld8 data (po_ptr p + 1) = TCP_OPT_WSO ->
  ld8 data (po_ptr p + 3) = scale -> 0 <= scale <= 14 ->
  exists rd, parse_loop (S (S f)) data p =
    parse_loop f data (mk_optst (po_ptr p + 4) (po_optlen p - 4) (po_blocks p) (po_nblocks p) (po_sack_seen p) scale rd).
Proof.
  intros Ho H0 H1 H3 Hs. rewrite parse_step by (apply more_true; lia). rewrite parse_noop by done.
  assert (E1 : u8 (po_optlen p - 1) = po_optlen p - 1) by (apply u8_id; red; lia).
  rewrite parse_step by (apply more_true; simpl; rewrite E1; lia).
  unfold parse_one at 1. cbn [skip_opt po_ptr]. change (Z.to_nat 1) with 1%nat. rewrite H1.
  unfold parse_wso. cbn [skip_opt po_ptr po_optlen po_blocks po_nblocks po_sack_seen]. change (Z.to_nat 1) with 1%nat.
  replace (po_ptr p + 1 + 2)%nat with (po_ptr p + 3)%nat by lia. rewrite H3.
  replace (po_ptr p + 1 + 3)%nat with (po_ptr p + 4)%nat by lia.
  rewrite E1. replace (u8 (po_optlen p - 1 - TCP_OPTLEN_WSO)) with (po_optlen p - 4)
    by (symmetry; unfold TCP_OPTLEN_WSO; rewrite u8_id by (red; lia); lia).
  destruct (Z.leb_spec scale 14); [|lia]. by eexists.
Qed.

(** NOP, NOP, SACK with [k] blocks at the end of the options. *)
Lemma parse_sack_opt f data p k :
  (1 <= k <= 4)%nat -> po_optlen p = 4 + 8 * Z.of_nat k -> po_optlen p < 40 ->
  ld8 data (po_ptr p) = TCP_OPT_NOOP -> ld8 data (po_ptr p + 1) = TCP_OPT_NOOP ->
  ld8 data (po_ptr p + 2) = TCP_OPT_SACK -> ld8 data (po_ptr p + 3) = 2 + Z.of_nat k * 8 ->
  let p' := parse_loop (S (S (S f))) data p in
  po_sack_seen p' = true /\ po_nblocks p' = Z.of_nat k /\ po_scale p' = po_scale p /\
  po_blocks p' = read_blocks data (po_ptr p + 4) 0 k (po_blocks p).
Proof.
  intros Hk Ho Hlt H0 H1 H2 H3. cbv zeta.
  rewrite parse_step by (apply more_true; lia). rewrite parse_noop by done.
  assert (E1 : u8 (po_optlen p - 1) = po_optlen p - 1) by (apply u8_id; red; lia).
  assert (E2 : u8 (po_optlen p - 1 - 1) = po_optlen p - 2) by (rewrite u8_id by (red; lia); lia).
  rewrite parse_step by (apply more_true; simpl; rewrite E1; lia).
  rewrite parse_noop by (simpl; done).
  rewrite parse_step by (apply more_true; simpl; rewrite E1, E2; lia).
  unfold parse_one. cbn [skip_opt po_ptr]. change (Z.to_nat 1) with 1%nat.
  replace (po_ptr p + 1 + 1)%nat with (po_ptr p + 2)%nat by lia. rewrite H2. simpl (TCP_OPT_SACK =? _).
  unfold parse_sack. cbn [skip_opt po_ptr po_optlen po_blocks po_nblocks po_sack_seen po_scale po_read].
  change (Z.to_nat 1) with 1%nat. replace (po_ptr p + 1 + 1)%nat with (po_ptr p + 2)%nat by lia.
  replace (po_ptr p + 2 + 1)%nat with (po_ptr p + 3)%nat by lia. rewrite H3.
  replace (Z.quot (2 + Z.of_nat k * 8 - 2) 8) with (Z.of_nat k)
    by (replace (2 + Z.of_nat k * 8 - 2) with (Z.of_nat k * 8) by lia; by rewrite Z.quot_mul).
  destruct (Z.ltb_spec 4 (Z.of_nat k)); [lia|]. rewrite Nat2Z.id, E1, E2.
  replace (po_ptr p + 2 + 2)%nat with (po_ptr p + 4)%nat by lia.
  replace (u8 (po_optlen p - 2 - 2 - 8 * Z.of_nat k)) with 0 by (rewrite Ho; symmetry; rewrite u8_id by (red; lia); lia).
  destruct f; done.
Qed.

Definition opt_state_ok (a : tcp_sackst) : Prop :=
  0 <= sacklen a <= 4 /\ length (sacks a) = 4%nat /\ Forall (fun '(x, y) => is_u32 x /\ is_u32 y) (sacks a) /\
  0 <= rcv_scale a <= 14.

(** The SACK part, written at [p]. *)
Definition sack_part (a : tcp_sackst) (p : nat) (b : list Z) : list Z :=
  write_sack_blocks (p + 4) (take (Z.to_nat (sacklen a)) (sacks a))
    (st8 (st8 (st8 (st8 b p TCP_OPT_NOOP) (p + 1) TCP_OPT_NOOP) (p + 2) TCP_OPT_SACK) (p + 3) (2 + sacklen a * 8)).

Lemma sack_part_parse a o p b f q :
  opt_state_ok a -> has_sacks a = true -> (o <= p)%nat ->
  (p + 4 + 8 * Z.to_nat (sacklen a) <= length b)%nat ->
  po_ptr q = (p - o)%nat -> po_optlen q = 4 + 8 * sacklen a -> po_optlen q < 40 -> po_blocks q = replicate 4 (0, 0) ->
  let p' := parse_loop (S (S (S f))) (drop o (sack_part a p b)) q in
  po_sack_seen p' = true /\ po_scale p' = po_scale q /\
  take (Z.to_nat (po_nblocks p')) (po_blocks p') = take (Z.to_nat (sacklen a)) (sacks a).
Proof.
  intros (O1 & O2 & O3 & O4) Hs Hop Hl Hq Ho Hlt Hb. set (k := Z.to_nat (sacklen a)) in *.
  assert (Hk : (1 <= k <= 4)%nat).
  { unfold has_sacks in Hs. apply andb_true_iff in Hs as [Hs _]. apply andb_true_iff in Hs as [_ Hs].
    apply Z.ltb_lt in Hs. lia. }
  assert (Hlk : length (take k (sacks a)) = k) by (rewrite length_take; lia).
  unfold sack_part. fold k. set (b1 := st8 _ (p + 3) _).
  assert (Hb1 : length b1 = length b) by (unfold b1; by autorewrite with mem).
  assert (V : forall i v, (i < 4)%nat -> ld8 b1 (p + i) = v ->
    ld8 (drop o (write_sack_blocks (p + 4) (take k (sacks a)) b1)) (p - o + i) = v).
  { intros i v Hi Hv. rewrite ld8_drop, sack_blocks_before by lia. rewrite <- Hv. f_equal. lia. }
  destruct (parse_sack_opt f (drop o (write_sack_blocks (p + 4) (take k (sacks a)) b1)) q k) as (R1 & R2 & R3 & R4);
    rewrite ?Hq; try (by rewrite ?Ho; lia).
  - rewrite <- (Nat.add_0_r (p - o)). apply V; [lia|]. rewrite Nat.add_0_r. unfold b1. by mem_simpl.
  - apply V; [lia|]. unfold b1. by mem_simpl.
  - apply V; [lia|]. unfold b1. by mem_simpl.
  - apply V; [lia|]. unfold b1. mem_simpl. rewrite u8_id by (red; lia). lia.
  - cbv zeta. split; [done|]. split; [done|]. rewrite R2, R4, Hb, Hq, Nat2Z.id.
    rewrite read_blocks_drop. replace (o + (p - o + 4))%nat with (p + 4)%nat by lia.
    pose proof (sack_roundtrip (take k (sacks a)) (p + 4) b1) as X. rewrite Hlk in X.
    apply X; [lia|lia|]. by apply Forall_take.
Qed.

Lemma options_roundtrip a o b sc :
  opt_state_ok a -> let '(a', b', n) := tcp_write_options a o b in
  (o + n <= length b)%nat -> (0 < n < 40)%nat ->
  let p := parse_loop parse_fuel (drop o b') (opt_start (Z.of_nat n) sc) in
  po_scale p = (if wso_allowed a =? 0 then sc else rcv_scale a) /\ po_sack_seen p = has_sacks a /\
  (has_sacks a = true -> take (Z.to_nat (po_nblocks p)) (po_blocks p) = take (Z.to_nat (sacklen a)) (sacks a)).
Proof.
  intros Hok. pose proof Hok as (O1 & O2 & O3 & O4). unfold tcp_write_options.
  destruct (wso_allowed a =? 0).
  - destruct (has_sacks a) eqn:Hs; [|lia]. intros Hl Hn.
    destruct (sack_part_parse a o o b 37 (opt_start (Z.of_nat (o + 4 + 8 * Z.to_nat (sacklen a) - o)) sc))
      as (R1 & R2 & R3); try done; simpl; lia.
  - set (b1 := st8 _ (o + 3) _). assert (Hb1 : length b1 = length b) by (unfold b1; by autorewrite with mem).
    assert (V : forall m, (forall i, (i < 4)%nat -> ld8 m (o + i) = ld8 b1 (o + i)) -> (o + 4 <= length b)%nat ->
      ld8 (drop o m) 0 = TCP_OPT_NOOP /\ ld8 (drop o m) (0 + 1) = TCP_OPT_WSO /\ ld8 (drop o m) (0 + 3) = rcv_scale a).
    { intros m Hm Hl. rewrite !ld8_drop, !Hm by lia. rewrite Nat.add_0_r. unfold b1. simpl Nat.add. mem_simpl.
      rewrite (u8_id (rcv_scale a)) by (red; lia). done. }
    destruct (has_sacks a) eqn:Hs; intros Hl Hn.
    + set (n := (o + 4 + 4 + 8 * Z.to_nat (sacklen a) - o)%nat) in *.
      change parse_fuel with (S (S 38)). fold (sack_part a (o + 4) b1).
      destruct (V (sack_part a (o + 4) b1)) as (V0 & V1 & V3); [|lia|].
      { intros i Hi. unfold sack_part. rewrite sack_blocks_before by lia. by mem_simpl. }
      destruct (parse_wso_opt 38 (drop o (sack_part a (o + 4) b1)) (opt_start (Z.of_nat n) sc) (rcv_scale a))
        as [rd ->]; try done; [simpl; lia|]. simpl po_ptr. simpl po_optlen. simpl po_blocks. simpl po_nblocks. simpl po_sack_seen.
      destruct (sack_part_parse a o (o + 4) b1 35 (mk_optst 4 (Z.of_nat n - 4) (replicate 4 (0, 0)) 0 false (rcv_scale a) rd))
        as (R1 & R2 & R3); try done; simpl; lia.
    + change parse_fuel with (S (S 38)). replace (o + 4 - o)%nat with 4%nat in * by lia.
      destruct (V b1) as (V0 & V1 & V3); [done|lia|].
      destruct (parse_wso_opt 38 (drop o b1) (opt_start (Z.of_nat 4) sc) (rcv_scale a)) as [rd ->]; done.
Qed.

Section Segments.
Context {L : Type} `{IpLayerLaws L}.
Implicit Type s : st L.

Lemma round4 m : 0 <= m <= 10 -> u8 (4 * ((4 * m + 3) / 4)) = 4 * m.
Proof. intros Hm. replace ((4 * m + 3) / 4) with m by (Z.div_mod_to_equations; lia). apply u8_id. red. lia. Qed.

Lemma options_len_value s :
  0 <= sacklen (sa s) <= 4 ->
  tcp_options_len s = 4 * ((if wso_allowed (sa s) =? 0 then 0 else 1) + (if has_sacks (sa s) then 1 + 2 * sacklen (sa s) else 0)).
Proof.
  intros Hs. unfold tcp_options_len. cbv zeta.
  rewrite <- (round4 (_ + _)) by (destruct (_ =? 0), (has_sacks _); lia).
  destruct (wso_allowed (sa s) =? 0), (has_sacks (sa s)); rewrite ?(u8_id (_ + sacklen (sa s) * 8)); try done;
    try (red; unfold TCP_OPTLEN_WSO; lia); unfold TCP_OPTLEN_WSO; do 4 f_equal; lia.
Qed.

(** [tcp_options_len] is exactly what [tcp_write_options] writes. *)
Lemma options_len_written s o b :
  0 <= sacklen (sa s) <= 4 -> Z.of_nat (tcp_write_options (sa s) o b).2 = tcp_options_len s.
Proof.
  intros Hs. rewrite options_len_value by done. unfold tcp_write_options.
  destruct (wso_allowed (sa s) =? 0), (has_sacks (sa s)); cbn [snd]; lia.
Qed.

Lemma options_len_range s : 0 <= sacklen (sa s) <= 4 -> 0 <= tcp_options_len s <= 40 /\ tcp_options_len s mod 4 = 0.
Proof.
  intros Hs. rewrite options_len_value by done. rewrite Z.mul_comm, Z.mod_mul by done.
  destruct (wso_allowed (sa s) =? 0), (has_sacks (sa s)); lia.
Qed.

Lemma transmit_faults b seq s :
  e_faults (en (tcp_transmit_skb b seq s).1.2) = e_faults (en (build_segment b seq s).2).
Proof.
  unfold tcp_transmit_skb. destruct (build_segment b seq s) as [b1 s1]. cbn [snd]. destruct (_ =? AF_INET6).
  - cbn [fst snd]. unfold do_free_skb. destruct (o6_freed _); [destruct (free_skb _)|]; done.
  - by destruct (ip_output _ _ _) as [[l b2] rc].
Qed.

(** No option of an acknowledgement is written outside its buffer. *)
Lemma send_ack_in_bounds s :
  0 <= sacklen (sa s) <= 4 -> e_faults (en (tcp_send_ack s).1) = e_faults (en s).
Proof.
  intros Hs. unfold tcp_send_ack. destruct (state_is _ _); [done|]. destruct (options_len_range s Hs) as [Hr H4].
  pose proof (options_len_written s) as Hw. set (n := tcp_options_len s) in *. clearbody n. cbv zeta.
  unfold tcp_alloc_skb. destruct (do_alloc_skb _ s) as [b0 s0] eqn:E0.
  assert (F0 : sa s0 = sa s /\ e_faults (en s0) = e_faults (en s) /\ sk s0 = sk s) by (by injection E0 as <- <-).
  destruct F0 as (F1 & F2 & F3).
  set (o := tcp_hdr_for_sk (sk_addr_family (sk s))).
  assert (Hb0 : length (skb_buf b0) = (o + 20 + Z.to_nat n)%nat).
  { injection E0 as <- _. simpl. rewrite length_replicate. unfold o. rewrite hdr_bound. unfold ip_hlen.
    destruct (_ =? AF_INET6); unfold ETH_HDR_LEN, IPV6_HDR_LEN, IP_HDR_LEN, TCP_HDR_LEN; lia. }
  set (b1 := with_th _ _ _).
  assert (Hb1 : length (skb_buf b1) = (o + 20 + Z.to_nat n)%nat /\ th_get_hl o (skb_buf b1) = TCP_DOFFSET + n / 4).
  { unfold b1. simpl. fold o. unfold th_set_hl, th_set_flag. autorewrite with mem. split; [done|].
    apply (th_get_set_hl o (TCP_DOFFSET + n / 4)); [autorewrite with mem; lia|]. unfold TCP_DOFFSET.
    Z.div_mod_to_equations. lia. }
  destruct Hb1 as [Hl1 Hh1]. clearbody b1.
  assert (B : e_faults (en (build_segment b1 (snd_nxt (tb s0)) s0).2) = e_faults (en s0)).
  { unfold build_segment. rewrite F3. fold o. rewrite Hh1.
    destruct (Z.eqb_spec (TCP_DOFFSET + n / 4) 0); [unfold TCP_DOFFSET in *; Z.div_mod_to_equations; lia|]. rewrite Hh1.
    destruct (5 <? TCP_DOFFSET + n / 4); [|done].
    set (b2 := with_th _ _ _). specialize (Hw (o + 20)%nat (skb_buf b2) Hs). rewrite <- F1 in Hw.
    assert (Hl2 : length (skb_buf b2) = length (skb_buf b1)) by (unfold b2; simpl; apply length_fill_header).
    destruct (tcp_write_options _ _ _) as [[a' buf] k]. cbn [snd] in Hw.
    destruct (Nat.ltb_spec (length (skb_buf b2)) (o + 20 + k)); [lia|]. done. }
  rewrite <- F2, <- B, <- transmit_faults.
  destruct (tcp_transmit_skb b1 _ s0) as [[b2 s2] rc]. cbn [fst snd]. unfold do_free_skb. by destruct (free_skb b2).
Qed.

(** Transmission keeps the segment that was built, but for its checksum. *)
Lemma transmit_segment b seq s :
  family_ok s -> plain (sk_addr_family (sk s)) b ->
  same_segment (tcp_hdr_for_sk (sk_addr_family (sk s)))
    (skb_buf (build_segment b seq s).1) (skb_buf (tcp_transmit_skb b seq s).1.1) /\
  length (skb_buf (tcp_transmit_skb b seq s).1.1) = length (skb_buf b).
Proof.
  intros Hf Hpl. split; [|apply (sm_buf _ _ (proj1 (transmit_frame b seq s)))].
  destruct (build_segment_data b seq s Hpl) as (_ & Hp1 & Ha).
  destruct (build_segment_frame b seq s) as [M F]. unfold tcp_transmit_skb.
  destruct (build_segment b seq s) as [b1 s1]. cbn [fst snd] in M, F, Hp1, Ha |- *. rewrite (tx_family _ _ F).
  destruct (Z.eqb_spec (sk_addr_family (sk s)) AF_INET6) as [E|E].
  - rewrite E. set (b2 := set_skb_tcpcsum _ b1). apply (ipv6_output_segment (e_lower (en s1)) b2). by rewrite <- E.
  - destruct Hf as [Hf|]; [|done]. rewrite Hf. set (b2 := set_skb_tcpcsum _ b1).
    pose proof (ip_output_segment (e_lower (en s1)) (ld32 (sk_daddr (sk s1)) 0) b2 Hp1 ltac:(by rewrite <- Hf)) as S.
    by destruct (ip_output _ _ _) as [[l b3] rc].
Qed.

Lemma same_segment_ld16 o a b i : same_segment o a b -> (o <= i)%nat -> (i + 2 <= o + 16 \/ o + 18 <= i)%nat -> ld16 b i = ld16 a i.
Proof. intros S H1 H2. unfold ld16. rewrite !S by lia. done. Qed.
Lemma same_segment_ld32 o a b i : same_segment o a b -> (o <= i)%nat -> (i + 4 <= o + 16)%nat -> ld32 b i = ld32 a i.
Proof. intros S H1 H2. unfold ld32. by rewrite !(same_segment_ld16 o a b) by (done || lia). Qed.

Lemma plain_built b seq s :
  plain (sk_addr_family (sk s)) b ->
  exists buf, (tcp_hdr_for_sk (sk_addr_family (sk s)) + 20 <= length buf)%nat /\
    th_get_hl (tcp_hdr_for_sk (sk_addr_family (sk s))) buf = 5 /\
    (forall bit, th_flag (tcp_hdr_for_sk (sk_addr_family (sk s))) bit buf =
                 th_flag (tcp_hdr_for_sk (sk_addr_family (sk s))) bit (skb_buf b)) /\
    skb_buf (build_segment b seq s).1 = fill_header seq s (tcp_hdr_for_sk (sk_addr_family (sk s))) buf.
Proof.
  intros (Hp & Hh & Hl & _). unfold build_segment. set (o := tcp_hdr_for_sk _) in *.
  set (b1 := if _ : bool then _ else b).
  assert (P : th_get_hl o (skb_buf b1) = 5 /\ length (skb_buf b1) = length (skb_buf b) /\
    forall bit, th_flag o bit (skb_buf b1) = th_flag o bit (skb_buf b)).
  { unfold b1. destruct (Z.eqb_spec (th_get_hl o (skb_buf b)) 0) as [E|E].
    - simpl. fold o. split; [apply th_get_set_hl; [lia|done]|]. unfold th_set_hl, th_flag. autorewrite with mem.
      split; [done|]. intros bit. by mem_simpl.
    - split; [lia|done]. }
  destruct P as (P1 & P2 & P3). clearbody b1. rewrite P1. exists (skb_buf b1). rewrite P2.
  split; [lia|]. done.
Qed.

(** The header the receiver sees is the header the sender meant. *)
Lemma wire_roundtrip b seq dlen s :
  family_ok s -> plain (sk_addr_family (sk s)) b ->
  is_u16 (sk_sport (sk s)) -> is_u16 (sk_dport (sk s)) -> is_u32 seq -> is_u32 (rcv_nxt (tb s)) ->
  0 <= rcv_scale (sa s) ->
  let o := tcp_hdr_for_sk (sk_addr_family (sk s)) in
  let th := (tcp_init_segment o dlen (tcp_transmit_skb b seq s).1.1).1 in
  th_sport th = sk_sport (sk s) /\ th_dport th = sk_dport (sk s) /\ th_seq th = seq /\
  th_ack_seq th = rcv_nxt (tb s) /\ th_hl th = 5 /\
  th_win th = adv_window s (th_flag o F_SYN (skb_buf b)) /\
  th_syn th = th_flag o F_SYN (skb_buf b) /\ th_ack th = th_flag o F_ACK (skb_buf b) /\
  th_fin th = th_flag o F_FIN (skb_buf b) /\ th_rst th = th_flag o F_RST (skb_buf b) /\
  th_psh th = th_flag o F_PSH (skb_buf b).
Proof.
  intros Hf Hp H1 H2 H3 H4 Hs. cbv zeta. set (o := tcp_hdr_for_sk (sk_addr_family (sk s))).
  destruct (transmit_segment b seq s Hf Hp) as [S Hl]. fold o in S.
  destruct (plain_built b seq s Hp) as (buf & B1 & B2 & B3 & B4). fold o in B1, B2, B3, B4. rewrite B4 in S.
  destruct (fill_header_fields seq s o buf B1 ltac:(lia)) as (G1&G2&G3&G4&G5&G6&G7&_&_).
  destruct Hp as (_ & _ & Hpl & _). fold o in Hpl.
  set (b' := (tcp_transmit_skb b seq s).1.1) in *. clearbody b'.
  destruct (init_segment_fields o dlen b' ltac:(lia)) as (I1&I2&I3&I4&I5&I6&_&I7&I8&I9&I10&I11).
  assert (F13 : forall bit, th_flag o bit (skb_buf b') = th_flag o bit (skb_buf b)).
  { intros bit. unfold th_flag. rewrite S by lia. rewrite G6. apply B3. }
  assert (F12 : th_get_hl o (skb_buf b') = 5) by (unfold th_get_hl in *; rewrite S by lia; by rewrite G5).
  rewrite I1, I2, I3, I4, I5, I6, I7, I8, I9, I10, I11, !F13, F12.
  rewrite !(same_segment_ld16 o _ _ _ S) by lia. rewrite !(same_segment_ld32 o _ _ _ S) by lia.
  rewrite G1, G2, G3, G4, G7, B3, !bswap16_invol, !bswap32_invol by (done || by apply adv_window_range).
  rewrite !u16_id, !u32_id by (done || by apply adv_window_range). done.
Qed.

End Segments.
End TcpWire.
