(* ===== verification/TcpState.v ===== *)
(** The connection state machine, the retransmission timer's epochs and the RTT
    estimator. *)
From S2P Require Import Prelude Utils SkBuff Timer TcpTypes TcpBase TcpOutput TcpSender TcpData TcpInput TcpAck TcpReasm TcpApi.
Import Utils SkBuff Timer TcpTypes TcpBase TcpOutput TcpSender TcpData TcpInput TcpAck TcpReasm TcpApi.

Module TcpState.

(** ** The state machine *)

(** The peer's FIN, arriving in order; [empty]: nothing waits for an acknowledgement. *)
Definition fin_next (fin empty : bool) (x : tcp_states) : tcp_states :=
  if fin then
    match x with
    | TCP_SYN_RECEIVED | TCP_ESTABLISHED => TCP_CLOSE_WAIT
    | TCP_FIN_WAIT_1 => if empty then TCP_TIME_WAIT else TCP_CLOSING
    | TCP_FIN_WAIT_2 => TCP_TIME_WAIT
    | x => x
    end
  else x.

(** An acceptable acknowledgement, and then the FIN. *)
Definition acked_next (fin empty : bool) (x : tcp_states) : tcp_states :=
  match x with
  | TCP_SYN_RECEIVED | TCP_ESTABLISHED => if fin then TCP_CLOSE_WAIT else x
  | TCP_FIN_WAIT_1 =>
      match empty, fin with
      | true, true => TCP_TIME_WAIT
      | true, false => TCP_FIN_WAIT_2
      | false, true => TCP_CLOSING
      | false, false => TCP_FIN_WAIT_1
      end
  | TCP_FIN_WAIT_2 => if fin then TCP_TIME_WAIT else x
  | TCP_CLOSING => if empty then TCP_TIME_WAIT else x
  | TCP_LAST_ACK => if empty then TCP_CLOSING else x      (* the state [tcp_done] sets *)
  | _ => x
  end.

Section State.
Context {L : Type} `{IpLayerLaws L}.
Implicit Type s : st L.

(** ** Steps that keep the state *)

Lemma free_state b s : state (do_free_skb b s) = state s.
Proof. apply tx_state, do_free_frame. Qed.
Lemma send_ack_state s : state (tcp_send_ack s).1 = state s.
Proof. apply tx_state, send_ack_frame. Qed.
Lemma rearm_state s : state (tcp_rearm_rto_timer s) = state s.
Proof. apply (re_state _ _ (rearm_rcv s)). Qed.
Lemma lift_timer_state r s : state (lift_timer r s) = state s.
Proof. apply (re_state _ _ (lift_timer_rcv r s)). Qed.
Lemma stop_rto_state s : state (tcp_stop_rto_timer s) = state s.
Proof. destruct (stop_rto_frame s) as (F & _). unfold state. by rewrite F. Qed.
Lemma stop_delack_state s : state (tcp_stop_delack_timer s) = state s.
Proof. apply (re_state _ _ (stop_delack_rcv s)). Qed.
Lemma upd_tm_state f s : state (upd_tm f s) = state s.
Proof. done. Qed.
Lemma cancel_state t s : state (do_timer_cancel t s) = state s.
Proof. apply lift_timer_state. Qed.
Lemma clear_timers_state s : state (tcp_clear_timers s) = state s.
Proof.
  unfold tcp_clear_timers.
  by rewrite upd_tm_state, cancel_state, upd_tm_state, cancel_state, stop_delack_state, stop_rto_state.
Qed.
Lemma timer_add_state x h a r s : state (do_timer_add x h a r s).2 = state s.
Proof. done. Qed.
Lemma wake_state w s : state (wake w s) = state s.
Proof. done. Qed.
Lemma enter_time_wait_state s : state (tcp_enter_time_wait s) = TCP_TIME_WAIT.
Proof.
  unfold tcp_enter_time_wait. set (s1 := tcp_clear_timers _).
  assert (E : state s1 = TCP_TIME_WAIT) by (unfold s1; by rewrite clear_timers_state). clearbody s1.
  rewrite (surjective_pairing (do_timer_add _ _ _ _ _)). by rewrite upd_tm_state, timer_add_state.
Qed.
Lemma clear_queues_state s : state (tcp_clear_queues s) = state s.
Proof. unfold tcp_clear_queues. by destruct (skb_queue_free _). Qed.
Lemma socket_delete_state s : state (socket_delete s) = state s.
Proof. unfold socket_delete. by destruct (so_state (so s)). Qed.
Lemma tcp_free_state s : state (tcp_free s) = state s.
Proof. unfold tcp_free. by rewrite wake_state, clear_queues_state, clear_timers_state. Qed.
Lemma tcp_done_state s : state (tcp_done s) = TCP_CLOSING.
Proof. unfold tcp_done. by rewrite socket_delete_state, tcp_free_state. Qed.

Lemma transmit_queued_state i b seq s : state (transmit_queued i b seq s).1 = state s.
Proof.
  unfold transmit_queued. destruct (transmit_frame b seq s) as [_ F].
  destruct (tcp_transmit_skb b seq s) as [[b' s'] rc]. cbn [fst snd] in *. by rewrite <- (tx_state _ _ F).
Qed.
Lemma fast_retransmit_state s : state (tcp_fast_retransmit s).1 = state s.
Proof. unfold tcp_fast_retransmit. destruct (tcp_retransmit_candidate s) as [[i b]|]; [apply transmit_queued_state|done]. Qed.

Lemma send_next_state amount extra s : state (tcp_send_next amount extra s) = state s.
Proof.
  unfold tcp_send_next. generalize (min (u32 (cwnd (cc s) + extra)) (snd_wnd (tb s))) as w. intros w.
  generalize (length (skq (sk_write_queue (sk s)))), 0%nat. intros fuel. revert s.
  induction fuel as [|fuel IH]; intros s i; simpl; [done|].
  destruct (skq (sk_write_queue (sk s)) !! i) as [b|]; [|done]. destruct (_ <? _); [done|].
  destruct (negb _); [apply IH|]. destruct (_ <? _); [done|].
  destruct (transmit_frame (skb_reset_header b) (snd_nxt (tb s)) s) as [_ F].
  destruct (tcp_transmit_skb _ _ s) as [[b' s'] rc]. cbn [fst snd] in F. rewrite IH, <- (tx_state _ _ F).
  by match goal with |- context [if ?c then _ else _] => destruct c end.
Qed.

Lemma handle_dupack_state s : state (tcp_handle_dupack s) = state s.
Proof.
  unfold tcp_handle_dupack. cbv zeta. set (s1 := upd_cc _ s). change (state s) with (state s1). clearbody s1.
  set (r := if dupacks (cc s1) <? 3 then _ else _).
  assert (E : state r.2 = state s1).
  { unfold r. destruct (dupacks (cc s1) <? 3); [done|]. destruct (_ =? 3); [|done]. simpl.
    unfold tcp_enter_fast_recovery. set (s2 := upd_cc _ s1). change (state s1) with (state s2). clearbody s2.
    pose proof (fast_retransmit_state s2) as E2. destruct (tcp_fast_retransmit s2) as [s3 rc]. by rewrite rearm_state. }
  clearbody r. destruct r as [e s2]. cbn [snd] in E. destruct (0 <? _); [|done]. by rewrite send_next_state.
Qed.

Lemma clean_loop_state una fuel : forall s, state (clean_loop fuel una s).1 = state s.
Proof.
  induction fuel as [|fuel IH]; intros s; simpl; [done|]. destruct (skb_peek _); [|done]. destruct (_ && _); [|done].
  destruct (skb_dequeue _) as [[b q]|]; [|done]. rewrite IH. etrans; [|apply (free_state (set_skb_refcnt (skb_refcnt s0 - 1) s0) (wake (WriteWait (self s)) (set_write_queue q s)))].
  done.
Qed.

Lemma clean_rto_state una s : state (tcp_clean_rto_queue una s) = state s.
Proof.
  unfold tcp_clean_rto_queue. pose proof (clean_loop_state una (length (skq (write_queue s))) s) as E.
  destruct (clean_loop _ una s) as [s1 e]. cbn [fst] in E. destruct (_ || _); [|done]. by rewrite stop_rto_state.
Qed.

Lemma rtt_state s : state (tcp_rtt s) = state s.
Proof.
  unfold tcp_rtt. destruct (0 <? _); [done|]. destruct (retransmit (tm s)); [|done].
  destruct (find_timer _ _); [|done]. by destruct (_ <? 0).
Qed.

Lemma parent_state s : state (add_tsk_to_parent_establied_conn_list s) = state s.
Proof.
  unfold add_tsk_to_parent_establied_conn_list. destruct (ptsk s) as [p|]; [|done].
  by destruct (e_passive (en s) !! p).
Qed.

Definition step_state (r : step L) : tcp_states := match r with Next _ s => state s | Return s _ => state s end.

Lemma process_ack_state th b s : step_state (process_ack th b s) = state s.
Proof.
  unfold process_ack, tcp_drop. destruct (tcp_is_dupack th b s).
  { simpl. rewrite free_state. apply handle_dupack_state. }
  set (s1 := if ack_advances th s then _ else s).
  assert (E : state s1 = state s).
  { unfold s1. destruct (ack_advances th s); [|done]. set (s2 := tcp_clean_rto_queue _ _).
    assert (E2 : state s2 = state s) by (unfold s2; by rewrite clean_rto_state, rtt_state). clearbody s2.
    by destruct (in_recovery (cc s2) =? 0). }
  clearbody s1. destruct (th_ack_seq th <? _); [simpl; by rewrite free_state|].
  destruct (_ <? th_ack_seq th); [simpl; by rewrite free_state|]. by destruct (ack_advances th s1).
Qed.

Lemma delay_ack_state th b s : state (delay_ack th b s) = state s.
Proof.
  unfold delay_ack. cbv zeta.
  assert (D : forall s, state (if 0 <? skb_dlen b then
      let '(id, s) := do_timer_add 200 H_tcp_send_delack (ArgSock (self s)) false s in
      upd_tm (set_delack (Some id)) s else s) = state s) by (intros s1; by destruct (0 <? skb_dlen b)).
  assert (A : forall s, state (tcp_send_ack (upd_tm (set_delacks 0) s)).1 = state s) by (intros s1; by rewrite send_ack_state).
  destruct (th_psh th); [apply A|]. destruct (1000 <? _); [|apply D]. destruct (1 <? _); [by rewrite A|by rewrite D].
Qed.

Lemma delay_state th e b s : exists s', send_or_delay th e b s = Next b s' /\ state s' = state s.
Proof.
  unfold send_or_delay. destruct (state s) eqn:E; try (by eexists); (destruct e; [|by eexists]); cbv zeta;
    (destruct (0 <? _); (eexists; split; [done|])); rewrite <- E, ?rearm_state, ?send_next_state, ?delay_ack_state;
    apply stop_delack_state.
Qed.

(** ** The next state *)

(** An acknowledgement that ends the processing of its segment: a duplicate one, one
    for older data, one for data not sent yet. *)
Definition ack_refused (th : tcphdr) (b : sk_buff) s : bool :=
  tcp_is_dupack th b s || (th_ack_seq th <? snd_una (tb s)) || (snd_nxt (tb s) <? th_ack_seq th).
(** Nothing is left in the write queue once the acknowledgement was processed. *)
Definition all_acked (th : tcphdr) s : bool :=
  if ack_advances th s then forallb (fun b => skb_end_seq b <=? th_ack_seq th) (wq s) else bool_decide (wq s = []).

(** The state after a segment with header [th] in buffer [b]. *)
Definition next_state (th : tcphdr) (b : sk_buff) s : tcp_states :=
  let fin := th_fin th && (skb_seq b =? rcv_nxt (tb s)) in
  if negb (tcp_verify_segment th b s) then state s
  else if th_rst th then TCP_TIME_WAIT
  else if th_syn th || negb (th_ack th) then state s
  else
    match state s with
    | TCP_SYN_RECEIVED => if ack_advances th s then acked_next fin (all_acked th s) TCP_ESTABLISHED else TCP_SYN_RECEIVED
    | TCP_ESTABLISHED | TCP_FIN_WAIT_1 | TCP_FIN_WAIT_2 | TCP_CLOSE_WAIT | TCP_CLOSING | TCP_LAST_ACK =>
        if ack_refused th b s then state s else acked_next fin (all_acked th s) (state s)
    | x => x
    end.

Lemma rtt_fields s : sk (tcp_rtt s) = sk s /\ tb (tcp_rtt s) = tb s.
Proof.
  unfold tcp_rtt. destruct (0 <? _); [done|]. destruct (retransmit (tm s)); [|done]. destruct (find_timer _ _); [|done]. by destruct (_ <? 0).
Qed.
Lemma filter_forallb una (q : list sk_buff) :
  bool_decide (filter (fun b => una < skb_end_seq b) q = []) = forallb (fun b => skb_end_seq b <=? una) q.
Proof.
  induction q as [|b q IH]; [done|]. rewrite filter_cons. cbn [forallb]. destruct (Z.leb_spec (skb_end_seq b) una).
  - rewrite decide_False by lia. exact IH.
  - rewrite decide_True by lia. done.
Qed.

(** The part of [process_ack] that takes a new acknowledgement. *)
Lemma new_ack_fields th s : snd_inv s -> ack_advances th s = true ->
  let s1 := upd_tb (set_snd_una (th_ack_seq th)) s in
  let s2 := tcp_clean_rto_queue (snd_una (tb s1)) (tcp_rtt s1) in
  let s3 := if in_recovery (cc s2) =? 0 then s2 else upd_cc tcp_exit_fast_recovery s2 in
  snd_una (tb s3) = th_ack_seq th /\ snd_nxt (tb s3) = snd_nxt (tb s) /\ rcv_nxt (tb s3) = rcv_nxt (tb s) /\
  skb_queue_empty (write_queue s3) = forallb (fun b => skb_end_seq b <=? th_ack_seq th) (wq s).
Proof.
  intros I Ha s1 s2 s3. pose proof Ha as Hb. unfold ack_advances in Hb. apply andb_true_iff in Hb as [H1%Z.ltb_lt H2%Z.leb_le].
  assert (I1 : snd_inv s1) by (destruct I; constructor; simpl; try done; lia).
  pose proof (snd_eq_inv _ _ (rtt_eq s1) I1) as I1'. destruct (rtt_fields s1) as [K1 K2].
  destruct (clean_rto_queue_correct (snd_una (tb s1)) (tcp_rtt s1) I1') as (Q&_&_&T2&I2&_). cbv zeta in *. fold s2 in Q, T2, I2.
  assert (Ew : wq (tcp_rtt s1) = wq s) by (unfold wq; by rewrite K1). rewrite Ew in Q. rewrite K2 in T2. change (snd_una (tb s1)) with (th_ack_seq th) in Q.
  assert (E : tb s3 = tb s2 /\ write_queue s3 = write_queue s2) by (unfold s3; by destruct (in_recovery (cc s2) =? 0)).
  destruct E as [E1 E2]. rewrite E1, E2, T2. do 3 (split; [done|]). unfold write_queue. rewrite queue_ok_empty by apply I2.
  fold (wq s2). rewrite Q. apply filter_forallb.
Qed.

Lemma process_ack_next th b s : snd_inv s ->
  if ack_refused th b s then exists s' rc, process_ack th b s = Return s' rc /\ state s' = state s
  else exists s', process_ack th b s = Next b s' /\ state s' = state s /\ rcv_nxt (tb s') = rcv_nxt (tb s) /\
    skb_queue_empty (write_queue s') = all_acked th s.
Proof.
  intros I. pose proof (process_ack_state th b s) as E. unfold ack_refused, all_acked, process_ack, tcp_drop in *.
  destruct (tcp_is_dupack th b s); cbn [orb]; [by do 2 eexists|]. destruct (ack_advances th s) eqn:Ha.
  - destruct (new_ack_fields th s I Ha) as (U & N & R & Q). cbv zeta in U, N, R, Q.
    unfold ack_advances in Ha. apply andb_true_iff in Ha as [H1%Z.ltb_lt H2%Z.leb_le].
    set (s3 := if in_recovery _ =? 0 then _ else _) in *. clearbody s3.
    assert (A1 : (th_ack_seq th <? snd_una (tb s)) = false) by (apply Z.ltb_ge; lia). assert (A2 : (snd_nxt (tb s) <? th_ack_seq th) = false) by (apply Z.ltb_ge; lia).
    rewrite U, N, Z.ltb_irrefl, A2 in E. rewrite A1, A2. cbn [orb]. rewrite U, N, Z.ltb_irrefl, A2. eexists. split; [done|].
    split; [exact E|]. by destruct (ack_advances th s3).
  - destruct (th_ack_seq th <? snd_una (tb s)); cbn [orb]; [by do 2 eexists|].
    destruct (snd_nxt (tb s) <? th_ack_seq th); cbn [orb]; [by do 2 eexists|]. rewrite Ha in *. eexists. split; [done|]. split; [exact E|]. split; [done|].
    unfold write_queue. cbn. rewrite queue_ok_empty by apply I. done.
Qed.

Lemma empty_kept s s' : snd_eq s s' -> skb_queue_empty (write_queue s') = skb_queue_empty (write_queue s).
Proof. intros E. unfold skb_queue_empty, skb_queue_len, write_queue. by rewrite (se_qlen _ _ E). Qed.
Lemma segment_text_next th b s :
  exists b' s', segment_text th b s = Next b' s' /\ state s' = state s /\ skb_queue_empty (write_queue s') = skb_queue_empty (write_queue s).
Proof.
  assert (D : exists b' s', (let '(b, s, _) := tcp_data_queue b s in Next b s) = Next b' s' /\ state s' = state s /\
    skb_queue_empty (write_queue s') = skb_queue_empty (write_queue s)).
  { pose proof (data_queue_state b s) as E. pose proof (empty_kept _ _ (data_queue_eq b s)) as Q.
    destruct (tcp_data_queue b s) as [[b' s'] rc]. by eexists _, _. }
  assert (N : exists b' s', Next b s = Next b' s' /\ state s' = state s /\ skb_queue_empty (write_queue s') = skb_queue_empty (write_queue s)) by (by eexists _, _).
  unfold segment_text. destruct (state s) eqn:E; try exact N;
    (destruct (th_psh th || (0 <? skb_dlen b)); [exact D|exact N]).
Qed.
Lemma fin_bit_next th e b s :
  step_state (fin_bit th e b s) = fin_next (th_fin th && e) (skb_queue_empty (write_queue s)) (state s) /\
  match fin_bit th e b s with Next b' _ => b' = b | Return _ _ => True end.
Proof.
  unfold fin_bit, tcp_drop. destruct (th_fin th && e); [|done]. cbn [fin_next].
  set (s0 := or_poll POLL_READABLE (or_flags TCP_FIN (upd_tb (fun t => set_rcv_nxt (u32 (rcv_nxt t + 1)) t) s))).
  assert (E0 : state s0 = state s /\ write_queue s0 = write_queue s) by done. clearbody s0. destruct E0 as [E0 Q0].
  set (s1 := recv_notify (tcp_send_ack s0).1). assert (E1 : state s1 = state s) by (rewrite <- E0; apply (send_ack_state s0)).
  assert (Q1 : skb_queue_empty (write_queue s1) = skb_queue_empty (write_queue s)).
  { rewrite <- Q0. apply (empty_kept s0). etrans; [apply send_ack_eq|apply wake_eq]. }
  clearbody s1. destruct (state s) eqn:E; cbn [step_state]; rewrite ?free_state; try done; rewrite E1; cbn [step_state]; try done.
  - split; [|done]. rewrite Q1. destruct (skb_queue_empty (write_queue s)); [apply enter_time_wait_state|done].
  - split; [|done]. apply enter_time_wait_state.
Qed.
Lemma tail_next th e b s :
  step_state (step_bind (segment_text th b s) (fun b s => step_bind (fin_bit th e b s) (fun b s => send_or_delay th e b s))) =
  fin_next (th_fin th && e) (skb_queue_empty (write_queue s)) (state s).
Proof.
  destruct (segment_text_next th b s) as (b1 & s1 & -> & E1 & Q1). cbn [step_bind]. rewrite <- E1, <- Q1.
  destruct (fin_bit_next th e b1 s1) as [F _]. rewrite <- F. destruct (fin_bit th e b1 s1) as [b2 s2|s2 rc]; cbn [step_bind]; [|done].
  destruct (delay_state th e b2 s2) as (s3 & -> & E3). exact E3.
Qed.
Lemma acked_tail th b s :
  let e s := skb_seq b =? rcv_nxt (tb s) in
  step_state (step_bind (fin_acked th b s) (fun b s => let expected := skb_seq b =? rcv_nxt (tb s) in
    step_bind (segment_text th b s) (fun b s => step_bind (fin_bit th expected b s) (fun b s => send_or_delay th expected b s)))) =
  acked_next (th_fin th && (skb_seq b =? rcv_nxt (tb s))) (skb_queue_empty (write_queue s)) (state s).
Proof.
  cbv zeta. pose proof (fun e s' => tail_next th e b s') as T. unfold fin_acked. destruct (skb_queue_empty (write_queue s)) eqn:Q.
  2: { cbn [step_bind]. rewrite T, Q. unfold fin_next. by destruct (state s), (th_fin th && _). }
  destruct (state s) eqn:E; cbn [step_bind]; try (rewrite T, Q, ?E; unfold fin_next; by destruct (th_fin th && _)).
  - rewrite T. change (state (set_state TCP_FIN_WAIT_2 s)) with TCP_FIN_WAIT_2. unfold fin_next. cbn. by destruct (th_fin th && _).
  - rewrite T. change (state (set_state TCP_TIME_WAIT s)) with TCP_TIME_WAIT. unfold fin_next. by destruct (th_fin th && _).
  - cbn [step_state]. apply tcp_done_state.
  - destruct (rcv_nxt (tb s) =? th_seq th); cbn [step_bind]; rewrite T, ?send_ack_state; change (state (or_flags TCP_FIN s)) with (state s);
      rewrite E; unfold fin_next; by destruct (th_fin th && _).
Qed.

Lemma otherwise_next th b s : snd_inv s -> state (tcp_otherwise th b s).1 = next_state th b s.
Proof.
  intros I. assert (F : forall r : step L, state (match r with Next b s => (do_free_skb b s, 0) | Return s rc => (s, rc) end).1 = step_state r).
  { intros [b' s'|s' rc]; [apply free_state|done]. }
  unfold tcp_otherwise, next_state. rewrite F. clear F. unfold check_segment at 1, tcp_drop.
  destruct (negb (tcp_verify_segment th b s)). { cbn [step_bind step_state]. rewrite free_state. destruct (th_rst th); [done|]. apply send_ack_state. }
  destruct (th_rst th). { cbn [step_bind step_state]. unfold recv_notify. by rewrite wake_state, enter_time_wait_state. }
  destruct (th_syn th). { cbn [step_bind step_state]. by rewrite free_state. }
  destruct (th_ack th); cbn [negb orb step_bind]. 2: { cbn [step_state]. by rewrite free_state. }
  pose proof (process_ack_next th b s I) as P. pose proof (fun s' => acked_tail th b s') as T. cbv zeta in T.
  unfold ack_switch, tcp_drop. destruct (state s) eqn:E; try (cbn [step_bind]; rewrite T, E; done);
    try (destruct (ack_refused th b s); [destruct P as (s' & rc & -> & E'); cbn [step_bind step_state]; congruence|];
         destruct P as (s' & -> & E1 & E2 & E3); cbn [step_bind]; by rewrite T, E1, E2, E3).
  destruct (ack_advances th s) eqn:Ha. 2: { cbn [step_bind step_state]. by rewrite free_state. }
  set (s1 := add_tsk_to_parent_establied_conn_list _).
  assert (K : snd_eq s s1) by (etrans; [apply (set_state_eq TCP_ESTABLISHED)|apply parent_eq]).
  assert (E1 : state s1 = TCP_ESTABLISHED) by (unfold s1; by rewrite parent_state).
  assert (E2 : tb s1 = tb s /\ wq s1 = wq s).
  { unfold s1, add_tsk_to_parent_establied_conn_list. destruct (ptsk _) as [p|]; [|done]. by destruct (_ !! p). }
  clearbody s1. destruct E2 as [E2 E3]. pose proof (process_ack_next th b s1 (snd_eq_inv _ _ K I)) as P1.
  assert (N : ack_refused th b s1 = false /\ all_acked th s1 = all_acked th s).
  { unfold ack_refused, all_acked, tcp_is_dupack, ack_advances in *. rewrite E2, E3. split; [|done]. apply andb_true_iff in Ha as [H1%Z.ltb_lt H2%Z.leb_le].
    rewrite (proj2 (Z.eqb_neq _ _)), !(proj2 (Z.ltb_ge _ _)) by lia. done. }
  destruct N as [N1 N2]. rewrite N1, N2 in P1. destruct P1 as (s' & -> & E4 & E5 & E6). cbn [step_bind]. by rewrite T, E4, E5, E6, E1, E2.
Qed.

(** ** Epochs of the retransmission timer

    Every stop or rearm advances [rto_epoch]; a callback whose epoch is not the
    current one leaves the connection as it found it. *)

Definition is_u64 (x : Z) : Prop := 0 <= x < 18446744073709551616.

Inductive rto_op := RtoStop | RtoRearm.
Definition run_rto_op s (o : rto_op) : st L :=
  match o with RtoStop => tcp_stop_rto_timer s | RtoRearm => tcp_rearm_rto_timer s end.

Lemma stop_rto_epoch s : rto_epoch (tm (tcp_stop_rto_timer s)) = u64 (rto_epoch (tm s) + 1).
Proof.
  unfold tcp_stop_rto_timer, do_timer_cancel. destruct (lift_timer_frame (timer_cancel (retransmit (tm s)) (e_timers (en s))) s) as (_ & _ & E & _).
  cbv zeta. revert E. generalize (lift_timer (timer_cancel (retransmit (tm s)) (e_timers (en s))) s) as s1. intros s1 E.
  change (u64 (rto_epoch (tm s1) + 1) = u64 (rto_epoch (tm s) + 1)). by rewrite E.
Qed.

Lemma rearm_epoch s : rto_epoch (tm (tcp_rearm_rto_timer s)) = u64 (rto_epoch (tm s) + 1).
Proof. destruct (rearm_rto_frame s) as (_ & _ & _ & _ & _ & _ & _ & ->). done. Qed.

Lemma rto_ops_epoch os : forall s,
  is_u64 (rto_epoch (tm s)) ->
  rto_epoch (tm (foldl run_rto_op s os)) = u64 (rto_epoch (tm s) + Z.of_nat (length os)).
Proof.
  induction os as [|o os IH]; intros s I; simpl foldl.
  - simpl. rewrite Z.add_0_r. unfold is_u64, u64 in *. by rewrite Z.mod_small.
  - assert (E : rto_epoch (tm (run_rto_op s o)) = u64 (rto_epoch (tm s) + 1)).
    { destruct o; [apply stop_rto_epoch|apply rearm_epoch]. }
    rewrite IH, E by (rewrite E; unfold is_u64, u64; apply Z.mod_pos_bound; lia).
    unfold u64. rewrite Zplus_mod_idemp_l. f_equal. simpl length. lia.
Qed.

Lemma acquire_release s :
  so_locked (so s) = false -> 0 < so_refcnt (so s) -> socket_release (socket_wr_acquire s) = s.
Proof.
  destruct s as [? ? ? ? ? ? ? o ?]. destruct o as [i ? ? n ? ?]. unfold socket_wr_acquire, socket_release. simpl. intros -> Hn.
  cbn. unfold upd_so. cbn. rewrite Z.add_simpl_r. replace (n =? 0) with false by lia. by rewrite orb_false_r.
Qed.

Lemma acquire_epoch s : rto_epoch (tm (socket_wr_acquire s)) = rto_epoch (tm s).
Proof. unfold socket_wr_acquire. by destruct (so_locked _). Qed.

Lemma stale_noop e s :
  so_locked (so s) = false -> 0 < so_refcnt (so s) -> e <> rto_epoch (tm s) ->
  tcp_retransmission_timeout e s = s /\ tcp_connect_rto e s = s.
Proof.
  intros U R N. unfold tcp_retransmission_timeout, tcp_connect_rto. cbv zeta. rewrite acquire_epoch.
  replace (e =? rto_epoch (tm s)) with false by (symmetry; by apply Z.eqb_neq). simpl negb. cbv iota.
  by rewrite acquire_release.
Qed.

Lemma stale_after os s :
  is_u64 (rto_epoch (tm s)) -> (0 < length os)%nat -> Z.of_nat (length os) < 18446744073709551616 ->
  rto_epoch (tm s) <> rto_epoch (tm (foldl run_rto_op s os)).
Proof.
  intros I P B. rewrite rto_ops_epoch by done. unfold is_u64, u64 in *.
  set (n := Z.of_nat (length os)) in *. assert (0 < n) by lia. clearbody n. set (x := rto_epoch (tm s)) in *. clearbody x.
  destruct (Z_lt_ge_dec (x + n) (18446744073709551616)) as [D|D]; [rewrite Z.mod_small; lia|].
  replace (x + n) with ((x + n - 18446744073709551616) + 1 * 18446744073709551616) by lia. rewrite Z_mod_plus_full, Z.mod_small; lia.
Qed.

(** ** The round-trip estimator *)

Definition rtt_range (t : tcp_timing) : Prop := 0 <= srtt t <= 2 ^ 28 /\ 0 <= rttvar t <= 2 ^ 28.

Lemma rtt_update_spec r t :
  rtt_range t -> 0 <= r <= 2 ^ 28 ->
  let t' := rtt_update r t in
  rtt_range t' /\
  (srtt t = 0 -> srtt t' = r /\ rttvar t' = r / 2) /\
  (srtt t <> 0 -> srtt t' = (7 * srtt t + r) / 8 /\ rttvar t' = (3 * rttvar t + Z.abs (srtt t - r)) / 4 /\
                  Z.min (srtt t) r <= srtt t' <= Z.max (srtt t) r) /\
  rto t' = srtt t' + Z.max 200 (4 * rttvar t').
Proof.
  intros [S V] R. unfold rtt_update. destruct (srtt t =? 0) eqn:E; cbn zeta;
    [apply Z.eqb_eq in E|apply Z.eqb_neq in E]; unfold rtt_range; simpl; unfold u32, s32.
  - assert (H1 : 0 <= r / 2 <= 2 ^ 27) by (split; [apply Z.div_pos; lia|apply Z.div_le_upper_bound; lia]).
    revert H1. generalize (r / 2) as y. intros y B. rewrite (Z.mod_small (4 * y + 2147483648)) by lia.
    destruct (_ <? 200) eqn:K; rewrite ?Z.mod_small by lia; repeat split; lia.
  - rewrite !Z.quot_div_nonneg by lia.
    assert (A : Z.min (srtt t) r <= (7 * srtt t + r) / 8 <= Z.max (srtt t) r).
    { split; [apply Z.div_le_lower_bound; lia|apply Z.div_le_upper_bound; lia]. }
    assert (B : 0 <= (3 * rttvar t + Z.abs (srtt t - r)) / 4 <= 2 ^ 28).
    { split; [apply Z.div_pos; lia|apply Z.div_le_upper_bound; lia]. }
    revert A B. generalize ((7 * srtt t + r) / 8) as x, ((3 * rttvar t + Z.abs (srtt t - r)) / 4) as y. intros x y A B.
    rewrite (Z.mod_small (4 * y + 2147483648)) by lia.
    destruct (_ <? 200) eqn:K; rewrite ?Z.mod_small by lia; repeat split; lia.
Qed.

End State.
End TcpState.
