(* ===== verification/Ipv6.v ===== *)
(** IPv6 headers and addresses: [src/include/ipv6.h], [src/src/ipv6.c] and the
    extension-header walk of [src/src/ipv6_exthdr.c].

    An address is its 16 bytes.  A C string is the list of its characters without
    the terminating zero; reading at its end yields 0. *)
From S2P Require Import Prelude Utils.
Import Utils.

Module Ipv6.

Definition IPV6_VERSION : Z := 6.
Definition IPV6_ADDR_STRLEN : Z := 40.
Definition IPV6_DEFAULT_HOPLIMIT : Z := 64.
Definition NEXTHDR_HOP : Z := 0.
Definition NEXTHDR_TCP : Z := 6.
Definition NEXTHDR_UDP : Z := 17.
Definition NEXTHDR_ROUTING : Z := 43.
Definition NEXTHDR_FRAGMENT : Z := 44.
Definition NEXTHDR_ICMPV6 : Z := 58.
Definition NEXTHDR_NONE : Z := 59.
Definition NEXTHDR_DEST : Z := 60.
Definition IPV6_FRAG_OFFSET_MASK : Z := 65528.

(** ** The fixed header at offset [o]

    [vtc_flow] 0, [payload_len] 4, [nexthdr] 6, [hop_limit] 7, [saddr] 8, [daddr] 24. *)

Definition ipv6_hdr_version (o : nat) (b : list Z) : Z := u8 (Z.shiftr (bswap32 (ld32 b o)) 28).
Definition ipv6_hdr_tclass (o : nat) (b : list Z) : Z := u8 (Z.land (Z.shiftr (bswap32 (ld32 b o)) 20) 255).
Definition ipv6_hdr_flowlabel (o : nat) (b : list Z) : Z := Z.land (bswap32 (ld32 b o)) 1048575.

Definition ipv6_hdr_set_vtc_flow (o : nat) (version tclass flow_label : Z) (b : list Z) : list Z :=
  let v := Z.lor (Z.lor (u32 (Z.shiftl version 28)) (u32 (Z.shiftl tclass 20))) (Z.land flow_label 1048575) in
  st32 b o (bswap32 v).

Definition ip6_payload_len (o : nat) (b : list Z) : Z := bswap16 (ld16 b (o + 4)).
Definition ip6_nexthdr (o : nat) (b : list Z) : Z := ld8 b (o + 6).
Definition ip6_hop_limit (o : nat) (b : list Z) : Z := ld8 b (o + 7).
Definition ip6_saddr (o : nat) (b : list Z) : list Z := ld_bytes b (o + 8) 16.
Definition ip6_daddr (o : nat) (b : list Z) : list Z := ld_bytes b (o + 24) 16.

(** ** Addresses *)

Definition unspecified : list Z := replicate 16 0.

(** [memcmp(a, b, 16) == 0] *)
Definition ipv6_addr_equal (a b : list Z) : bool := bool_decide (ld_bytes a 0 16 = ld_bytes b 0 16).
Definition ipv6_addr_is_unspecified (a : list Z) : bool := ipv6_addr_equal a unspecified.
Definition ipv6_addr_is_multicast (a : list Z) : bool := ld8 a 0 =? 255.
Definition ipv6_addr_is_linklocal (a : list Z) : bool :=
  (ld8 a 0 =? 254) && (Z.land (ld8 a 1) 192 =? 128).

(** *** Text to address *)

Definition COLON : Z := 58.

(** The value of a hexadecimal digit, by the three ranges the code tests. *)
Definition hex_digit (c : Z) : option Z :=
  if (48 <=? c) && (c <=? 57) then Some (c - 48)
  else if (97 <=? c) && (c <=? 102) then Some (c - 87)
  else if (65 <=? c) && (c <=? 70) then Some (c - 55)
  else None.

(** [sscanf("%x")] on one to four hexadecimal digits is their value. *)
Definition parse_hex_group (s : list Z) : option Z :=
  if (Z.of_nat (length s) <=? 0) || (4 <? Z.of_nat (length s)) then None
  else foldl (fun acc c => v ← acc; d ← hex_digit c; Some (u16 (16 * v + d))) (Some 0) s.

(** Position of the first ["::"], as [strstr] finds it. *)
Fixpoint find_dcolon (s : list Z) (i : nat) : option nat :=
  match s with
  | a :: ((b :: _) as r) => if (a =? COLON) && (b =? COLON) then Some i else find_dcolon r (S i)
  | _ => None
  end.

(** The outcome of a group loop: an error return, the groups read with the text
    after the last separator, or a store to [groups[8]] (one past the array). *)
Inductive groups_res :=
  | GroupsErr
  | GroupsOverflow
  | Groups (gs : list Z) (cur : list Z).

(** The loops [while ( *p != 0)]: [gs] the groups so far, [cur] the characters from
    [start] to [p]; [stop] characters are left before the ["::"] the left loop
    breaks at. *)
Fixpoint parse_groups (s : list Z) (stop : option nat) (gs cur : list Z) : groups_res :=
  match s, stop with
  | _, Some O => Groups gs cur
  | [], _ => Groups gs cur
  | c :: s, _ =>
      if c =? COLON then
        match parse_hex_group cur with
        | None => GroupsErr
        | Some g =>
            if (8 <=? length gs)%nat then GroupsOverflow
            else parse_groups s (pred <$> stop) (gs ++ [g]) []
        end
      else parse_groups s (pred <$> stop) gs (cur ++ [c])
  end.

(** The group after the last separator, stored when there is text for it. *)
Definition last_group (gs cur : list Z) : groups_res :=
  match cur with
  | [] => Groups gs []
  | _ =>
      match parse_hex_group cur with
      | None => GroupsErr
      | Some g => if (8 <=? length gs)%nat then GroupsOverflow else Groups (gs ++ [g]) []
      end
  end.

Definition groups_bytes (gs : list Z) : list Z :=
  concat ((fun g => [u8 (Z.shiftr g 8); u8 (Z.land g 255)]) <$> gs).

Inductive parse_res :=
  | ParseErr          (* -1 *)
  | ParseOverflow     (* a store past [groups] *)
  | ParseOk (addr : list Z).

Definition ipv6_parse_addr (str : list Z) : parse_res :=
  let dcolon := find_dcolon str 0 in
  match parse_groups str dcolon [] [] with
  | GroupsErr => ParseErr
  | GroupsOverflow => ParseOverflow
  | Groups gs cur =>
      match dcolon with
      | None =>
          match last_group gs cur with
          | GroupsErr => ParseErr
          | GroupsOverflow => ParseOverflow
          | Groups gs _ => if (length gs =? 8)%nat then ParseOk (groups_bytes gs) else ParseErr
          end
      | Some d =>
          match parse_groups (drop (d + 2) str) None [] [] with
          | GroupsErr => ParseErr
          | GroupsOverflow => ParseOverflow
          | Groups rs cur =>
              match last_group rs cur with
              | GroupsErr => ParseErr
              | GroupsOverflow => ParseOverflow
              | Groups rs _ =>
                  if (8 <? length gs + length rs)%nat then ParseErr
                  else ParseOk (groups_bytes (gs ++ replicate (8 - length gs - length rs) 0 ++ rs))
              end
          end
      end
  end.

(** *** Address to text *)

Definition hex_char (d : Z) : Z := if d <? 10 then 48 + d else 87 + d.
Definition hex_byte (x : Z) : list Z := [hex_char (x / 16); hex_char (x mod 16)].

Fixpoint addr_text (l : list Z) : list Z :=
  match l with
  | [a; b] => hex_byte a ++ hex_byte b
  | a :: b :: r => hex_byte a ++ hex_byte b ++ COLON :: addr_text r
  | _ => []
  end.

(** [None] is the [NULL] return; the text [snprintf] writes has 39 characters. *)
Definition ipv6_addr_to_str (addr : list Z) (buflen : Z) : option (list Z) :=
  if buflen <? IPV6_ADDR_STRLEN then None
  else
    let t := addr_text (ld_bytes addr 0 16) in
    if buflen <=? Z.of_nat (length t) then None else Some t.

(** ** Extension headers *)

Record ipv6_exthdr_result := mk_ext {
  ex_final_nexthdr : Z;
  ex_has_frag : bool;
  ex_frag_off : Z;
  ex_frag_id : Z;
  ex_consumed : Z
}.

(** The loop over the chain, [iter] iterations left of the eight; [ptr] is
    [ptr - start], which the code keeps beside the 16-bit [consumed]. *)
Fixpoint exthdr_loop (iter : nat) (start : list Z) (plen nexthdr : Z) (ptr : nat) (consumed : Z)
    (r : ipv6_exthdr_result) : option ipv6_exthdr_result :=
  match iter with
  | O => None
  | S iter =>
      if (nexthdr =? NEXTHDR_TCP) || (nexthdr =? NEXTHDR_UDP) || (nexthdr =? NEXTHDR_ICMPV6)
         || (nexthdr =? NEXTHDR_NONE) then
        Some (mk_ext nexthdr (ex_has_frag r) (ex_frag_off r) (ex_frag_id r) consumed)
      else if (nexthdr =? NEXTHDR_HOP) || (nexthdr =? NEXTHDR_ROUTING) || (nexthdr =? NEXTHDR_DEST) then
        if plen <? consumed + 2 then None
        else
          let optlen := u16 (u16 (ld8 start (ptr + 1) + 1) * 8) in
          if plen <? consumed + optlen then None
          else exthdr_loop iter start plen (ld8 start ptr) (ptr + Z.to_nat optlen) (u16 (consumed + optlen)) r
      else if nexthdr =? NEXTHDR_FRAGMENT then
        if plen <? consumed + 8 then None
        else
          let off := Z.shiftr (Z.land (bswap16 (ld16 start (ptr + 2))) IPV6_FRAG_OFFSET_MASK) 3 in
          let id := bswap32 (ld32 start (ptr + 4)) in
          exthdr_loop iter start plen (ld8 start ptr) (ptr + 8) (u16 (consumed + 8))
            (mk_ext (ex_final_nexthdr r) true off id (ex_consumed r))
      else None
  end.

Definition ipv6_parse_exthdrs (nexthdr : Z) (start : list Z) (plen : Z) : option ipv6_exthdr_result :=
  exthdr_loop 8 start plen nexthdr 0 0 (mk_ext 0 false 0 0 0).

(** ** The chain walk stays inside the payload *)

Lemma ld8_take n b i : (i < n)%nat -> ld8 (take n b) i = ld8 b i.
Proof. intros Hi. unfold ld8. by rewrite lookup_take_lt. Qed.

Lemma optlen_value x : is_u8 x -> u16 (u16 (x + 1) * 8) = 8 * (x + 1).
Proof. intros Hx. red in Hx. unfold u16. rewrite (Z.mod_small (x + 1)) by lia. rewrite Z.mod_small by lia. lia. Qed.

Definition upper_layer (nexthdr : Z) : Prop :=
  nexthdr = NEXTHDR_TCP \/ nexthdr = NEXTHDR_UDP \/ nexthdr = NEXTHDR_ICMPV6 \/ nexthdr = NEXTHDR_NONE.

Lemma exthdr_loop_spec start plen : bytes_ok start -> 0 <= plen < 65536 ->
  forall iter nexthdr ptr r, Z.of_nat ptr <= plen ->
  exthdr_loop iter (take (Z.to_nat plen) start) plen nexthdr ptr (Z.of_nat ptr) r =
    exthdr_loop iter start plen nexthdr ptr (Z.of_nat ptr) r /\
  forall res, exthdr_loop iter start plen nexthdr ptr (Z.of_nat ptr) r = Some res ->
    Z.of_nat ptr <= ex_consumed res <= plen /\ upper_layer (ex_final_nexthdr res) /\
    (ex_consumed res - Z.of_nat ptr) mod 8 = 0.
Proof.
  intros Hs Hp. induction iter as [|iter IH]; intros nexthdr ptr r Hptr; [done|]. cbn [exthdr_loop].
  set (up := (nexthdr =? NEXTHDR_TCP) || _ || _ || _). set (opt := (nexthdr =? NEXTHDR_HOP) || _ || _). destruct up eqn:E1.
  { split; [done|]. intros res [= <-]. simpl. split; [lia|]. split; [|by rewrite Z.sub_diag].
    unfold up in E1. rewrite !orb_true_iff, !Z.eqb_eq in E1. unfold upper_layer. tauto. }
  clearbody up opt. destruct opt.
  - destruct (Z.ltb_spec plen (Z.of_nat ptr + 2)); [done|].
    rewrite !ld8_take by lia. rewrite optlen_value by (by apply ld8_range).
    pose proof (ld8_range start (ptr + 1) Hs) as Hx. red in Hx. set (x := ld8 start (ptr + 1)) in *. clearbody x.
    destruct (Z.ltb_spec plen (Z.of_nat ptr + 8 * (x + 1))); [done|].
    replace (u16 (Z.of_nat ptr + 8 * (x + 1))) with (Z.of_nat (ptr + Z.to_nat (8 * (x + 1))))
      by (unfold u16; rewrite Z.mod_small by lia; lia).
    destruct (IH (ld8 start ptr) (ptr + Z.to_nat (8 * (x + 1)))%nat r ltac:(lia)) as [IH1 IH2].
    split; [done|]. intros res Hr. destruct (IH2 res Hr) as (B & U & M). split; [lia|]. split; [done|].
    replace (ex_consumed res - Z.of_nat ptr) with (ex_consumed res - Z.of_nat (ptr + Z.to_nat (8 * (x + 1))) + (x + 1) * 8) by lia.
    by rewrite Z_mod_plus_full.
  - destruct (nexthdr =? NEXTHDR_FRAGMENT); [|done].
    destruct (Z.ltb_spec plen (Z.of_nat ptr + 8)); [done|]. unfold ld32, ld16. rewrite !ld8_take by lia.
    replace (u16 (Z.of_nat ptr + 8)) with (Z.of_nat (ptr + 8)) by (unfold u16; rewrite Z.mod_small by lia; lia).
    match goal with |- context [exthdr_loop iter start plen _ _ _ ?q] => 
      destruct (IH (ld8 start ptr) (ptr + 8)%nat q ltac:(lia)) as [IH1 IH2] end.
    split; [done|]. intros res Hr. destruct (IH2 res Hr) as (B & U & M). split; [lia|]. split; [done|].
    replace (ex_consumed res - Z.of_nat ptr) with (ex_consumed res - Z.of_nat (ptr + 8) + 1 * 8) by lia.
    by rewrite Z_mod_plus_full.
Qed.

(** ** Printed addresses parse *)

Lemma hex_char_digit d : 0 <= d < 16 -> hex_digit (hex_char d) = Some d /\ hex_char d <> COLON.
Proof.
  intros Hd. unfold hex_digit, hex_char, COLON. destruct (Z.ltb_spec d 10).
  - split; [|lia]. destruct (Z.leb_spec 48 (48 + d)); [|lia]. destruct (Z.leb_spec (48 + d) 57); [|lia]. simpl. f_equal. lia.
  - split; [|lia]. destruct (Z.leb_spec (87 + d) 57); [lia|]. rewrite andb_false_r.
    destruct (Z.leb_spec 97 (87 + d)); [|lia]. destruct (Z.leb_spec (87 + d) 102); [|lia]. simpl. f_equal. lia.
Qed.

Lemma nibbles x : is_u8 x -> 0 <= x / 16 < 16 /\ 0 <= x mod 16 < 16 /\ 16 * (x / 16) + x mod 16 = x.
Proof. intros Hx. red in Hx. pose proof (Z.div_mod x 16). pose proof (Z.mod_pos_bound x 16). lia. Qed.

(** The four characters of a group. *)
Definition group_text (a b : Z) : list Z := hex_byte a ++ hex_byte b.

Lemma parse_group_text a b : is_u8 a -> is_u8 b -> parse_hex_group (group_text a b) = Some (256 * a + b).
Proof.
  intros Ha Hb. destruct (nibbles a Ha) as (A1 & A2 & A3), (nibbles b Hb) as (B1 & B2 & B3).
  unfold parse_hex_group, group_text, hex_byte. simpl.
  rewrite (proj1 (hex_char_digit _ A1)). simpl. rewrite (proj1 (hex_char_digit _ A2)). simpl.
  rewrite (proj1 (hex_char_digit _ B1)). simpl. rewrite (proj1 (hex_char_digit _ B2)). simpl.
  f_equal. transitivity (256 * (16 * (a / 16) + a mod 16) + (16 * (b / 16) + b mod 16)); [|lia]. revert A1 A2 B1 B2.
  generalize (a / 16) (a mod 16) (b / 16) (b mod 16). intros p q r s Hp Hq Hr Hs.
  clear -Hp Hq Hr Hs. ulia.
Qed.

Lemma group_text_chars a b : is_u8 a -> is_u8 b -> Forall (fun c => c <> COLON) (group_text a b).
Proof.
  intros Ha Hb. destruct (nibbles a Ha) as (A1 & A2 & _), (nibbles b Hb) as (B1 & B2 & _).
  repeat (constructor; [by apply hex_char_digit|]). constructor.
Qed.

Lemma parse_groups_text gs cs : Forall (fun c => c <> COLON) cs -> forall cur s,
  parse_groups (cs ++ s) None gs cur = parse_groups s None gs (cur ++ cs).
Proof.
  induction 1 as [|c cs Hc _ IH]; intros cur s; [by rewrite app_nil_r|].
  simpl. rewrite (proj2 (Z.eqb_neq _ _) Hc). simpl. rewrite IH. by rewrite <- app_assoc.
Qed.

Lemma parse_groups_group a b s gs :
  is_u8 a -> is_u8 b -> (length gs < 8)%nat ->
  parse_groups (group_text a b ++ COLON :: s) None gs [] = parse_groups s None (gs ++ [256 * a + b]) [].
Proof.
  intros Ha Hb Hg. rewrite parse_groups_text by (by apply group_text_chars).
  rewrite app_nil_l. cbn [parse_groups]. change (COLON =? COLON) with true. cbv iota.
  rewrite parse_group_text by done. by rewrite (proj2 (Nat.leb_gt 8 (length gs)) Hg).
Qed.

Lemma find_dcolon_text cs : Forall (fun c => c <> COLON) cs -> forall s i,
  find_dcolon s (i + length cs) = None -> find_dcolon (cs ++ s) i = None.
Proof.
  induction 1 as [|c cs Hc _ IH]; intros s i Hs; simpl in *; [by rewrite Nat.add_0_r in Hs|].
  assert (R : find_dcolon (cs ++ s) (S i) = None) by (apply IH; by replace (S i + length cs)%nat with (i + S (length cs))%nat by lia).
  destruct (cs ++ s); [done|]. by rewrite (proj2 (Z.eqb_neq _ _) Hc).
Qed.

Lemma find_dcolon_sep c s i : c <> COLON -> find_dcolon (c :: s) (S i) = None -> find_dcolon (COLON :: c :: s) i = None.
Proof.
  intros Hc Hs.
  change (find_dcolon (COLON :: c :: s) i) with
    (if (COLON =? COLON) && (c =? COLON) then Some i else find_dcolon (c :: s) (S i)).
  by rewrite (proj2 (Z.eqb_neq _ _) Hc), andb_false_r.
Qed.

(** The text of a list of byte pairs. *)
Fixpoint pairs_text (l : list (Z * Z)) : list Z :=
  match l with
  | [] => []
  | [(a, b)] => group_text a b
  | (a, b) :: l => group_text a b ++ COLON :: pairs_text l
  end.

Abbreviation pairs_ok := (Forall (fun p : Z * Z => is_u8 p.1 /\ is_u8 p.2)).

Lemma find_dcolon_pairs l : pairs_ok l -> forall i, find_dcolon (pairs_text l) i = None.
Proof.
  induction 1 as [|[a b] l [Ha Hb] Hl IH]; intros i; [done|]. simpl in Ha, Hb.
  destruct l as [|[a' b'] l].
  - cbn [pairs_text]. rewrite <- (app_nil_r (group_text a b)). by apply find_dcolon_text; [apply group_text_chars|].
  - change (pairs_text ((a, b) :: (a', b') :: l)) with (group_text a b ++ COLON :: pairs_text ((a', b') :: l)).
    apply find_dcolon_text; [by apply group_text_chars|]. specialize (IH (S (i + length (group_text a b)))).
    apply Forall_cons in Hl as [[Ha' _] _]. simpl in Ha'. destruct (nibbles a' Ha') as (N & _).
    assert (X : exists s, pairs_text ((a', b') :: l) = hex_char (a' / 16) :: s) by (destruct l as [|[? ?] ?]; by eexists).
    destruct X as [s X]. rewrite X in IH |- *. apply find_dcolon_sep; [by apply hex_char_digit|done].
Qed.

Lemma parse_pairs l : forall gs, pairs_ok l -> l <> [] -> (length gs + length l <= 8)%nat ->
  match parse_groups (pairs_text l) None gs [] with
  | Groups gs' cur => last_group gs' cur = Groups (gs ++ ((fun p => 256 * p.1 + p.2) <$> l)) []
  | _ => False
  end.
Proof.
  induction l as [|[a b] l IH]; intros gs Hok Hne Hlen; [done|].
  apply Forall_cons in Hok as [[Ha Hb] Hok]. simpl in Ha, Hb. destruct l as [|p l].
  - cbn [pairs_text]. rewrite <- (app_nil_r (group_text a b)), parse_groups_text by (by apply group_text_chars).
    rewrite app_nil_l. cbn [parse_groups]. change (group_text a b) with (hex_char (a / 16) :: hex_char (a mod 16) :: hex_byte b) at 1.
    unfold last_group. change (hex_char (a / 16) :: hex_char (a mod 16) :: hex_byte b) with (group_text a b).
    rewrite parse_group_text by done. simpl length in Hlen. by rewrite (proj2 (Nat.leb_gt 8 (length gs)) ltac:(lia)).
  - change (pairs_text ((a, b) :: p :: l)) with (group_text a b ++ COLON :: pairs_text (p :: l)).
    simpl in Hlen. rewrite parse_groups_group by (done || lia).
    specialize (IH (gs ++ [256 * a + b]) Hok ltac:(done)). rewrite length_app in IH. simpl length in IH.
    specialize (IH ltac:(lia)). destruct (parse_groups _ None _ []); try done. rewrite IH.
    by rewrite <- app_assoc.
Qed.

Lemma pairs_bytes l : pairs_ok l ->
  groups_bytes ((fun p => 256 * p.1 + p.2) <$> l) = concat ((fun p : Z * Z => [p.1; p.2]) <$> l).
Proof.
  induction 1 as [|[a b] l [Ha Hb] _ IH]; [done|]. cbn [fst snd] in Ha, Hb.
  transitivity ([u8 (Z.shiftr (256 * a + b) 8); u8 (Z.land (256 * a + b) 255)]
    ++ groups_bytes ((fun p => 256 * p.1 + p.2) <$> l)); [done|].
  rewrite IH. red in Ha, Hb. rewrite Z.shiftr_div_pow2 by lia. change 255 with (Z.ones 8). rewrite Z.land_ones by lia.
  unfold u8. change (2 ^ 8) with 256.
  replace ((256 * a + b) / 256) with a by (apply Z.div_unique with b; lia).
  replace ((256 * a + b) mod 256) with b by (apply Z.mod_unique with a; lia). by rewrite !Z.mod_small.
Qed.

Lemma addr_text_parses a :
  bytes_ok a -> length a = 16%nat -> ipv6_parse_addr (addr_text a) = ParseOk a.
Proof.
  unfold bytes_ok. intros Hb Hl. do 16 (destruct a as [|? a]; [simpl in Hl; lia|]). destruct a; [|simpl in Hl; lia].
  repeat match goal with H : Forall is_u8 (_ :: _) |- _ => apply Forall_cons in H as [? H] end.
  set (l := [(z, z0); (z1, z2); (z3, z4); (z5, z6); (z7, z8); (z9, z10); (z11, z12); (z13, z14)]).
  change (addr_text _) with (pairs_text l).
  change [z; z0; z1; z2; z3; z4; z5; z6; z7; z8; z9; z10; z11; z12; z13; z14] with (concat ((fun p : Z * Z => [p.1; p.2]) <$> l)).
  assert (Hok : pairs_ok l) by (repeat (constructor; [done|]); constructor).
  unfold ipv6_parse_addr. rewrite find_dcolon_pairs by done. cbv zeta.
  pose proof (parse_pairs l [] Hok ltac:(done) ltac:(simpl; lia)) as P.
  destruct (parse_groups (pairs_text l) None [] []) as [| |gs cur]; try done. rewrite P, app_nil_l.
  rewrite length_fmap. change (length l =? 8)%nat with true. cbv iota. by rewrite pairs_bytes.
Qed.

End Ipv6.
