(* ===== verification/Net.v ===== *)
(** The state below the transport layer: devices, routes, neighbour caches and
    what was written to the tap device ([src/include/netdev.h],
    [src/include/route.h], [src/include/arp.h], [src/include/ndp.h]), with the route
    table ([src/src/route.c]) and frame transmission ([src/src/netdev.c]).

    A device pointer is its number ([DEV_LOOP], [DEV_TAP], 0 for [NULL]); a route
    pointer is the position in the table, to which entries are only appended.
    Buffers these layers allocate are numbered downwards from -1, so that their
    identities never meet those of the transport layer. *)
From S2P Require Import Prelude Utils SkBuff TcpTypes.
Import Utils SkBuff TcpTypes.

Module Net.

Definition ETH_P_IP : Z := 2048.
Definition ETH_P_ARP : Z := 2054.
Definition ETH_P_IPV6 : Z := 34525.
Definition RT_LOOPBACK : Z := 1.
Definition RT_GATEWAY : Z := 2.
Definition RT_HOST : Z := 4.
(** [dev->addr_len]: set by [netdev_alloc], by nothing else. *)
Definition addr_len : Z := 6.
Definition DEV_LOOP : Z := 1.
Definition DEV_TAP : Z := 2.

Record netdev := mk_netdev {
  nd_addr : Z;
  nd_addr6_ll : list Z;
  nd_addr6_global : list Z;
  nd_prefix_len : Z;
  nd_global_valid : bool;
  nd_ll_state : Z;
  nd_global_state : Z;
  nd_valid_lifetime : Z;
  nd_preferred_lifetime : Z;
  nd_pref_timer : option Z;
  nd_valid_timer : option Z;
  nd_hwaddr : list Z;
  nd_mtu : Z;
  nd_mtu6 : Z
}.

Definition set_nd_addr (v : Z) (r : netdev) : netdev :=
    mk_netdev v (nd_addr6_ll r) (nd_addr6_global r) (nd_prefix_len r) (nd_global_valid r)
    (nd_ll_state r) (nd_global_state r) (nd_valid_lifetime r) (nd_preferred_lifetime r)
    (nd_pref_timer r) (nd_valid_timer r) (nd_hwaddr r) (nd_mtu r) (nd_mtu6 r).
Definition set_nd_addr6_ll (v : list Z) (r : netdev) : netdev :=
    mk_netdev (nd_addr r) v (nd_addr6_global r) (nd_prefix_len r) (nd_global_valid r)
    (nd_ll_state r) (nd_global_state r) (nd_valid_lifetime r) (nd_preferred_lifetime r)
    (nd_pref_timer r) (nd_valid_timer r) (nd_hwaddr r) (nd_mtu r) (nd_mtu6 r).
Definition set_nd_addr6_global (v : list Z) (r : netdev) : netdev :=
    mk_netdev (nd_addr r) (nd_addr6_ll r) v (nd_prefix_len r) (nd_global_valid r) (nd_ll_state
    r) (nd_global_state r) (nd_valid_lifetime r) (nd_preferred_lifetime r) (nd_pref_timer r)
    (nd_valid_timer r) (nd_hwaddr r) (nd_mtu r) (nd_mtu6 r).
Definition set_nd_prefix_len (v : Z) (r : netdev) : netdev :=
    mk_netdev (nd_addr r) (nd_addr6_ll r) (nd_addr6_global r) v (nd_global_valid r)
    (nd_ll_state r) (nd_global_state r) (nd_valid_lifetime r) (nd_preferred_lifetime r)
    (nd_pref_timer r) (nd_valid_timer r) (nd_hwaddr r) (nd_mtu r) (nd_mtu6 r).
Definition set_nd_global_valid (v : bool) (r : netdev) : netdev :=
    mk_netdev (nd_addr r) (nd_addr6_ll r) (nd_addr6_global r) (nd_prefix_len r) v (nd_ll_state
    r) (nd_global_state r) (nd_valid_lifetime r) (nd_preferred_lifetime r) (nd_pref_timer r)
    (nd_valid_timer r) (nd_hwaddr r) (nd_mtu r) (nd_mtu6 r).
Definition set_nd_ll_state (v : Z) (r : netdev) : netdev :=
    mk_netdev (nd_addr r) (nd_addr6_ll r) (nd_addr6_global r) (nd_prefix_len r)
    (nd_global_valid r) v (nd_global_state r) (nd_valid_lifetime r) (nd_preferred_lifetime r)
    (nd_pref_timer r) (nd_valid_timer r) (nd_hwaddr r) (nd_mtu r) (nd_mtu6 r).
Definition set_nd_global_state (v : Z) (r : netdev) : netdev :=
    mk_netdev (nd_addr r) (nd_addr6_ll r) (nd_addr6_global r) (nd_prefix_len r)
    (nd_global_valid r) (nd_ll_state r) v (nd_valid_lifetime r) (nd_preferred_lifetime r)
    (nd_pref_timer r) (nd_valid_timer r) (nd_hwaddr r) (nd_mtu r) (nd_mtu6 r).
Definition set_nd_valid_lifetime (v : Z) (r : netdev) : netdev :=
    mk_netdev (nd_addr r) (nd_addr6_ll r) (nd_addr6_global r) (nd_prefix_len r)
    (nd_global_valid r) (nd_ll_state r) (nd_global_state r) v (nd_preferred_lifetime r)
    (nd_pref_timer r) (nd_valid_timer r) (nd_hwaddr r) (nd_mtu r) (nd_mtu6 r).
Definition set_nd_preferred_lifetime (v : Z) (r : netdev) : netdev :=
    mk_netdev (nd_addr r) (nd_addr6_ll r) (nd_addr6_global r) (nd_prefix_len r)
    (nd_global_valid r) (nd_ll_state r) (nd_global_state r) (nd_valid_lifetime r) v
    (nd_pref_timer r) (nd_valid_timer r) (nd_hwaddr r) (nd_mtu r) (nd_mtu6 r).
Definition set_nd_pref_timer (v : option Z) (r : netdev) : netdev :=
    mk_netdev (nd_addr r) (nd_addr6_ll r) (nd_addr6_global r) (nd_prefix_len r)
    (nd_global_valid r) (nd_ll_state r) (nd_global_state r) (nd_valid_lifetime r)
    (nd_preferred_lifetime r) v (nd_valid_timer r) (nd_hwaddr r) (nd_mtu r) (nd_mtu6 r).
Definition set_nd_valid_timer (v : option Z) (r : netdev) : netdev :=
    mk_netdev (nd_addr r) (nd_addr6_ll r) (nd_addr6_global r) (nd_prefix_len r)
    (nd_global_valid r) (nd_ll_state r) (nd_global_state r) (nd_valid_lifetime r)
    (nd_preferred_lifetime r) (nd_pref_timer r) v (nd_hwaddr r) (nd_mtu r) (nd_mtu6 r).
Definition set_nd_hwaddr (v : list Z) (r : netdev) : netdev :=
    mk_netdev (nd_addr r) (nd_addr6_ll r) (nd_addr6_global r) (nd_prefix_len r)
    (nd_global_valid r) (nd_ll_state r) (nd_global_state r) (nd_valid_lifetime r)
    (nd_preferred_lifetime r) (nd_pref_timer r) (nd_valid_timer r) v (nd_mtu r) (nd_mtu6 r).
Definition set_nd_mtu (v : Z) (r : netdev) : netdev :=
    mk_netdev (nd_addr r) (nd_addr6_ll r) (nd_addr6_global r) (nd_prefix_len r)
    (nd_global_valid r) (nd_ll_state r) (nd_global_state r) (nd_valid_lifetime r)
    (nd_preferred_lifetime r) (nd_pref_timer r) (nd_valid_timer r) (nd_hwaddr r) v (nd_mtu6 r).
Definition set_nd_mtu6 (v : Z) (r : netdev) : netdev :=
    mk_netdev (nd_addr r) (nd_addr6_ll r) (nd_addr6_global r) (nd_prefix_len r)
    (nd_global_valid r) (nd_ll_state r) (nd_global_state r) (nd_valid_lifetime r)
    (nd_preferred_lifetime r) (nd_pref_timer r) (nd_valid_timer r) (nd_hwaddr r) (nd_mtu r) v.

(** [dst] and [gateway] are unions: 16 bytes, whose first four are the IPv4 view. *)
Record rtentry := mk_rt {
  rt_family : Z;
  rt_dst : list Z;
  rt_gateway : list Z;
  rt_netmask : Z;
  rt_prefix_len : Z;
  rt_flags : Z;
  rt_metric : Z;
  rt_pmtu : Z;
  rt_dev : Z
}.

Definition set_rt_family (v : Z) (r : rtentry) : rtentry :=
    mk_rt v (rt_dst r) (rt_gateway r) (rt_netmask r) (rt_prefix_len r) (rt_flags r) (rt_metric
    r) (rt_pmtu r) (rt_dev r).
Definition set_rt_dst (v : list Z) (r : rtentry) : rtentry :=
    mk_rt (rt_family r) v (rt_gateway r) (rt_netmask r) (rt_prefix_len r) (rt_flags r)
    (rt_metric r) (rt_pmtu r) (rt_dev r).
Definition set_rt_gateway (v : list Z) (r : rtentry) : rtentry :=
    mk_rt (rt_family r) (rt_dst r) v (rt_netmask r) (rt_prefix_len r) (rt_flags r) (rt_metric
    r) (rt_pmtu r) (rt_dev r).
Definition set_rt_netmask (v : Z) (r : rtentry) : rtentry :=
    mk_rt (rt_family r) (rt_dst r) (rt_gateway r) v (rt_prefix_len r) (rt_flags r) (rt_metric
    r) (rt_pmtu r) (rt_dev r).
Definition set_rt_prefix_len (v : Z) (r : rtentry) : rtentry :=
    mk_rt (rt_family r) (rt_dst r) (rt_gateway r) (rt_netmask r) v (rt_flags r) (rt_metric r)
    (rt_pmtu r) (rt_dev r).
Definition set_rt_flags (v : Z) (r : rtentry) : rtentry :=
    mk_rt (rt_family r) (rt_dst r) (rt_gateway r) (rt_netmask r) (rt_prefix_len r) v (rt_metric
    r) (rt_pmtu r) (rt_dev r).
Definition set_rt_metric (v : Z) (r : rtentry) : rtentry :=
    mk_rt (rt_family r) (rt_dst r) (rt_gateway r) (rt_netmask r) (rt_prefix_len r) (rt_flags r)
    v (rt_pmtu r) (rt_dev r).
Definition set_rt_pmtu (v : Z) (r : rtentry) : rtentry :=
    mk_rt (rt_family r) (rt_dst r) (rt_gateway r) (rt_netmask r) (rt_prefix_len r) (rt_flags r)
    (rt_metric r) v (rt_dev r).
Definition set_rt_dev (v : Z) (r : rtentry) : rtentry :=
    mk_rt (rt_family r) (rt_dst r) (rt_gateway r) (rt_netmask r) (rt_prefix_len r) (rt_flags r)
    (rt_metric r) (rt_pmtu r) v.

Record arp_cache_entry := mk_arp {
  ac_hwtype : Z;
  ac_sip : Z;
  ac_smac : list Z;
  ac_state : Z
}.

Definition set_ac_hwtype (v : Z) (r : arp_cache_entry) : arp_cache_entry :=
    mk_arp v (ac_sip r) (ac_smac r) (ac_state r).
Definition set_ac_sip (v : Z) (r : arp_cache_entry) : arp_cache_entry :=
    mk_arp (ac_hwtype r) v (ac_smac r) (ac_state r).
Definition set_ac_smac (v : list Z) (r : arp_cache_entry) : arp_cache_entry :=
    mk_arp (ac_hwtype r) (ac_sip r) v (ac_state r).
Definition set_ac_state (v : Z) (r : arp_cache_entry) : arp_cache_entry :=
    mk_arp (ac_hwtype r) (ac_sip r) (ac_smac r) v.

Record ndp_entry := mk_ndp {
  ne_ip6 : list Z;
  ne_hwaddr : list Z;
  ne_state : Z;
  ne_timestamp : Z;
  ne_solicit : Z;
  ne_queue : sk_buff_head
}.

Definition set_ne_ip6 (v : list Z) (r : ndp_entry) : ndp_entry :=
    mk_ndp v (ne_hwaddr r) (ne_state r) (ne_timestamp r) (ne_solicit r) (ne_queue r).
Definition set_ne_hwaddr (v : list Z) (r : ndp_entry) : ndp_entry :=
    mk_ndp (ne_ip6 r) v (ne_state r) (ne_timestamp r) (ne_solicit r) (ne_queue r).
Definition set_ne_state (v : Z) (r : ndp_entry) : ndp_entry :=
    mk_ndp (ne_ip6 r) (ne_hwaddr r) v (ne_timestamp r) (ne_solicit r) (ne_queue r).
Definition set_ne_timestamp (v : Z) (r : ndp_entry) : ndp_entry :=
    mk_ndp (ne_ip6 r) (ne_hwaddr r) (ne_state r) v (ne_solicit r) (ne_queue r).
Definition set_ne_solicit (v : Z) (r : ndp_entry) : ndp_entry :=
    mk_ndp (ne_ip6 r) (ne_hwaddr r) (ne_state r) (ne_timestamp r) v (ne_queue r).
Definition set_ne_queue (v : sk_buff_head) (r : ndp_entry) : ndp_entry :=
    mk_ndp (ne_ip6 r) (ne_hwaddr r) (ne_state r) (ne_timestamp r) (ne_solicit r) v.

(** What these layers can do outside the bounds C gives them. *)
Inductive net_fault :=
  | BufBounds     (* a header or a frame outside its buffer *)
  | StackBounds   (* a local array overrun *)
  | NullDev.      (* a [NULL] device dereferenced *)

Record net := mk_net {
  n_loop : netdev;
  n_dev : netdev;
  n_routes : list rtentry;
  n_arp : list arp_cache_entry;
  n_ndp : list ndp_entry;
  n_ndp_count : Z;
  n_tick : Z;  (** what [timer_get_tick] reads *)
  n_next_skb : Z;
  n_io : list Z;  (** results of the coming [write]s; a full write when exhausted *)
  n_wire : list (list Z);  (** frames handed to [write], oldest first *)
  n_freed : list Z;
  n_faults : list net_fault
}.

Definition set_n_loop (v : netdev) (r : net) : net :=
    mk_net v (n_dev r) (n_routes r) (n_arp r) (n_ndp r) (n_ndp_count r) (n_tick r) (n_next_skb
    r) (n_io r) (n_wire r) (n_freed r) (n_faults r).
Definition set_n_dev (v : netdev) (r : net) : net :=
    mk_net (n_loop r) v (n_routes r) (n_arp r) (n_ndp r) (n_ndp_count r) (n_tick r) (n_next_skb
    r) (n_io r) (n_wire r) (n_freed r) (n_faults r).
Definition set_n_routes (v : list rtentry) (r : net) : net :=
    mk_net (n_loop r) (n_dev r) v (n_arp r) (n_ndp r) (n_ndp_count r) (n_tick r) (n_next_skb r)
    (n_io r) (n_wire r) (n_freed r) (n_faults r).
Definition set_n_arp (v : list arp_cache_entry) (r : net) : net :=
    mk_net (n_loop r) (n_dev r) (n_routes r) v (n_ndp r) (n_ndp_count r) (n_tick r) (n_next_skb
    r) (n_io r) (n_wire r) (n_freed r) (n_faults r).
Definition set_n_ndp (v : list ndp_entry) (r : net) : net :=
    mk_net (n_loop r) (n_dev r) (n_routes r) (n_arp r) v (n_ndp_count r) (n_tick r) (n_next_skb
    r) (n_io r) (n_wire r) (n_freed r) (n_faults r).
Definition set_n_ndp_count (v : Z) (r : net) : net :=
    mk_net (n_loop r) (n_dev r) (n_routes r) (n_arp r) (n_ndp r) v (n_tick r) (n_next_skb r)
    (n_io r) (n_wire r) (n_freed r) (n_faults r).
Definition set_n_tick (v : Z) (r : net) : net :=
    mk_net (n_loop r) (n_dev r) (n_routes r) (n_arp r) (n_ndp r) (n_ndp_count r) v (n_next_skb
    r) (n_io r) (n_wire r) (n_freed r) (n_faults r).
Definition set_n_next_skb (v : Z) (r : net) : net :=
    mk_net (n_loop r) (n_dev r) (n_routes r) (n_arp r) (n_ndp r) (n_ndp_count r) (n_tick r) v
    (n_io r) (n_wire r) (n_freed r) (n_faults r).
Definition set_n_io (v : list Z) (r : net) : net :=
    mk_net (n_loop r) (n_dev r) (n_routes r) (n_arp r) (n_ndp r) (n_ndp_count r) (n_tick r)
    (n_next_skb r) v (n_wire r) (n_freed r) (n_faults r).
Definition set_n_wire (v : list (list Z)) (r : net) : net :=
    mk_net (n_loop r) (n_dev r) (n_routes r) (n_arp r) (n_ndp r) (n_ndp_count r) (n_tick r)
    (n_next_skb r) (n_io r) v (n_freed r) (n_faults r).
Definition set_n_freed (v : list Z) (r : net) : net :=
    mk_net (n_loop r) (n_dev r) (n_routes r) (n_arp r) (n_ndp r) (n_ndp_count r) (n_tick r)
    (n_next_skb r) (n_io r) (n_wire r) v (n_faults r).
Definition set_n_faults (v : list net_fault) (r : net) : net :=
    mk_net (n_loop r) (n_dev r) (n_routes r) (n_arp r) (n_ndp r) (n_ndp_count r) (n_tick r)
    (n_next_skb r) (n_io r) (n_wire r) (n_freed r) v.

Definition dev_of (d : Z) (n : net) : netdev := if d =? DEV_LOOP then n_loop n else n_dev n.

Definition net_fault_add (f : net_fault) (n : net) : net := set_n_faults (n_faults n ++ [f]) n.

Definition net_alloc_skb (size : Z) (n : net) : sk_buff * net :=
  (alloc_skb (n_next_skb n) size, set_n_next_skb (n_next_skb n - 1) n).

Definition net_free_skb (b : sk_buff) (n : net) : net :=
  if free_skb b then set_n_freed (n_freed n ++ [skb_id b]) n else n.

(** ** [route.c] *)

Definition route_alloc (dst gateway netmask flags metric dev : Z) : rtentry :=
  mk_rt AF_INET (st32 (replicate 16 0) 0 dst) (st32 (replicate 16 0) 0 gateway)
    netmask 0 flags metric 0 dev.

Definition route_add (dst gateway netmask flags metric dev : Z) (n : net) : net :=
  set_n_routes (n_routes n ++ [route_alloc dst gateway netmask flags metric dev]) n.

(** A [NULL] address is [None]. *)
Definition route6_alloc (dst gateway : option (list Z)) (prefix_len flags metric dev : Z) : rtentry :=
  mk_rt AF_INET6 (default (replicate 16 0) dst) (default (replicate 16 0) gateway)
    0 prefix_len flags metric 0 dev.

Definition route6_add (dst gateway : option (list Z)) (prefix_len flags metric dev : Z) (n : net) : net :=
  set_n_routes (n_routes n ++ [route6_alloc dst gateway prefix_len flags metric dev]) n.

Definition route6_add_default (gateway : list Z) (flags metric dev : Z) (n : net) : net :=
  route6_add (Some (replicate 16 0)) (Some gateway) 0 flags metric dev n.

(** [tap] is [ip_parse(tapaddr)]. *)
Definition route_init (tap : Z) (n : net) : net :=
  let n := route_add (nd_addr (n_loop n)) 0 4278190080 RT_LOOPBACK 0 DEV_LOOP n in
  let n := route_add (nd_addr (n_dev n)) 0 4294967040 RT_HOST 0 DEV_TAP n in
  route_add 0 tap 0 RT_GATEWAY 0 DEV_TAP n.

(** The walk of [route_lookup]: [cur] is [rt], the entry visited last. *)
Fixpoint route_walk (daddr : Z) (l : list rtentry) (i : nat) (cur : option nat) : option nat :=
  match l with
  | [] => cur
  | rt :: l =>
      if negb (rt_family rt =? AF_INET) then route_walk daddr l (S i) (Some i)
      else if Z.land daddr (rt_netmask rt) =? Z.land (ld32 (rt_dst rt) 0) (rt_netmask rt) then Some i
      else route_walk daddr l (S i) (Some i)
  end.

Definition route_lookup (daddr : Z) (n : net) : option nat := route_walk daddr (n_routes n) 0 None.

(** The byte loop [for (i = 0; i < bytes; i++)], then the remaining bits. *)
Definition route6_match (daddr : list Z) (rt : rtentry) : bool :=
  let bytes := rt_prefix_len rt / 8 in
  let bits := rt_prefix_len rt mod 8 in
  let m := forallb (fun i => ld8 daddr i =? ld8 (rt_dst rt) i) (seq 0 (Z.to_nat bytes)) in
  if m && (0 <? bits) && (bytes <? 16) then
    let mask := u8 (Z.shiftl 255 (8 - bits)) in
    Z.land (ld8 daddr (Z.to_nat bytes)) mask =? Z.land (ld8 (rt_dst rt) (Z.to_nat bytes)) mask
  else m.

Fixpoint route6_walk (daddr : list Z) (l : list rtentry) (i : nat) (best : option (nat * Z)) : option (nat * Z) :=
  match l with
  | [] => best
  | rt :: l =>
      let best :=
        if (rt_family rt =? AF_INET6) && route6_match daddr rt then
          match best with
          | Some (_, blen) => if blen <? rt_prefix_len rt then Some (i, rt_prefix_len rt) else best
          | None => Some (i, rt_prefix_len rt)
          end
        else best in
      route6_walk daddr l (S i) best
  end.

Definition route6_lookup (daddr : list Z) (n : net) : option nat :=
  fst <$> route6_walk daddr (n_routes n) 0 None.

Definition route6_update_pmtu (daddr : list Z) (mtu : Z) (n : net) : net * Z :=
  let mtu := if mtu <? 1280 then 1280 else mtu in
  match route6_lookup daddr n with
  | None => (n, -1)
  | Some i => (set_n_routes (alter (set_rt_pmtu mtu) i (n_routes n)) n, 0)
  end.

Definition free_routes (n : net) : net := set_n_routes [] n.

(** ** [netdev.c] *)

Definition netdev_alloc (addr : Z) (hwaddr : list Z) (mtu : Z) : netdev :=
  mk_netdev addr (replicate 16 0) (replicate 16 0) 0 false 0 0 0 0 None None hwaddr mtu mtu.

(** The strings of [netdev_init], parsed. *)
Definition netdev_init (n : net) : net :=
  set_n_dev (netdev_alloc 167772164 [0; 12; 41; 109; 80; 37] 1500)
    (set_n_loop (netdev_alloc 2130706433 (replicate 6 0) 1500) n).

(** The [len] bytes from [data], when they lie in the buffer. *)
Definition in_buffer (b : sk_buff) : bool :=
  (0 <=? skb_data b) && (skb_data b + skb_len b <=? skb_end b).

(** The frame is recorded when it is handed to [write], also if that fails. *)
Definition tun_write (b : sk_buff) (n : net) : net * Z :=
  let n := if in_buffer b then n else net_fault_add BufBounds n in
  let rc := match n_io n with x :: _ => x | [] => skb_len b end in
  (set_n_wire (n_wire n ++ [skb_bytes b]) (set_n_io (tail (n_io n)) n), rc).

Definition netdev_transmit (b : sk_buff) (dst_hw : list Z) (ethertype : Z) (n : net) : sk_buff * net * Z :=
  let n := if skb_dev b =? 0 then net_fault_add NullDev n else n in
  let dev := dev_of (skb_dev b) n in
  let b := skb_push ETH_HDR_LEN b in
  let k := Z.to_nat addr_len in
  let o := Z.to_nat (skb_data b) in
  let buf := st_bytes (skb_buf b) o (take k dst_hw) in
  let buf := st_bytes buf (o + 6) (take k (nd_hwaddr dev)) in
  let buf := st16 buf (o + 12) (bswap16 ethertype) in
  let b := set_skb_buf buf b in
  let '(n, rc) := tun_write b n in
  (b, n, rc).

Definition netdev_get (sip : Z) (n : net) : option Z :=
  if nd_addr (n_dev n) =? sip then Some DEV_TAP else None.

(** ** IPv4 routes: the first match, else the last entry *)

Definition match4 (daddr : Z) (rt : rtentry) : bool :=
  (rt_family rt =? AF_INET) && (Z.land daddr (rt_netmask rt) =? Z.land (ld32 (rt_dst rt) 0) (rt_netmask rt)).

Lemma route_walk_spec d l : forall i cur,
  route_walk d l i cur =
  match list_find (fun rt => match4 d rt = true) l with
  | Some (j, _) => Some (i + j)%nat
  | None => match l with [] => cur | _ => Some (i + (length l - 1))%nat end
  end.
Proof.
  induction l as [|rt l IH]; intros i cur; [done|].
  assert (E : route_walk d (rt :: l) i cur = if match4 d rt then Some i else route_walk d l (S i) (Some i)).
  { simpl. unfold match4. by destruct (rt_family rt =? AF_INET). }
  rewrite E, IH. simpl. destruct (match4 d rt); rewrite ?decide_True, ?decide_False by done; [f_equal; lia|].
  destruct (list_find _ l) as [[j x]|]; simpl; [f_equal; lia|]. destruct l; simpl; f_equal; lia.
Qed.

Lemma route_lookup_spec d n :
  match route_lookup d n with
  | None => n_routes n = []
  | Some i => exists rt, n_routes n !! i = Some rt /\
      (match4 d rt = true /\ (forall j x, n_routes n !! j = Some x -> (j < i)%nat -> match4 d x = false) \/
       i = (length (n_routes n) - 1)%nat /\ forall j x, n_routes n !! j = Some x -> match4 d x = false)
  end.
Proof.
  unfold route_lookup. rewrite route_walk_spec. destruct (list_find _ (n_routes n)) as [[j x]|] eqn:E; simpl.
  - apply list_find_Some in E as (E1 & E2 & E3). exists x. split; [done|]. left. split; [done|].
    intros k y Hk Hlt. apply not_true_is_false. by eapply E3.
  - destruct (n_routes n) as [|r l] eqn:Er; [done|]. rewrite <- Er in *.
    assert (Hl : (length (n_routes n) - 1 < length (n_routes n))%nat) by (rewrite Er; simpl; lia).
    destruct (lookup_lt_is_Some_2 _ _ Hl) as [y Hy]. exists y. split; [done|]. right. split; [done|].
    intros k z Hz. apply list_find_None in E. rewrite Forall_lookup in E. apply not_true_is_false, (E k z Hz).
Qed.

(** ** IPv6 routes: the longest matching prefix *)

Definition match6 (daddr : list Z) (rt : rtentry) : bool := (rt_family rt =? AF_INET6) && route6_match daddr rt.

(** [b] is the best of the first [i] entries of [l]. *)
Definition best_of (daddr : list Z) (l : list rtentry) (b : option (nat * Z)) : Prop :=
  match b with
  | None => forall j rt, l !! j = Some rt -> match6 daddr rt = false
  | Some (i, len) =>
      exists rt, l !! i = Some rt /\ match6 daddr rt = true /\ len = rt_prefix_len rt /\
        forall j x, l !! j = Some x -> match6 daddr x = true ->
          rt_prefix_len x < len \/ rt_prefix_len x = len /\ (i <= j)%nat
  end.

Lemma best_of_snoc d l rt b :
  best_of d l b ->
  best_of d (l ++ [rt])
    (if match6 d rt then
       match b with
       | Some (_, blen) => if blen <? rt_prefix_len rt then Some (length l, rt_prefix_len rt) else b
       | None => Some (length l, rt_prefix_len rt)
       end
     else b).
Proof.
  assert (Snoc : forall j x, (l ++ [rt]) !! j = Some x -> l !! j = Some x \/ j = length l /\ x = rt).
  { intros j x Hj. apply lookup_app_Some in Hj as [?|[Hj Hx]]; [by left|]. right.
    apply list_lookup_singleton_Some in Hx as [Hx ->]. split; [lia|done]. }
  assert (New : (l ++ [rt]) !! length l = Some rt) by (by rewrite lookup_app_r, Nat.sub_diag by lia).
  destruct b as [[i len]|]; simpl.
  - intros (x & Hx & Hm & Hl & Hb). assert (Hi : (i < length l)%nat) by (by eapply lookup_lt_Some).
    destruct (match6 d rt) eqn:E; [destruct (Z.ltb_spec len (rt_prefix_len rt)) as [Hlt|Hge]|].
    + exists rt. split; [done|]. split; [done|]. split; [done|]. intros j y Hj Hy.
      apply Snoc in Hj as [Hj|[-> ->]]; [|right; lia]. specialize (Hb j y Hj Hy). lia.
    + exists x. split; [by rewrite lookup_app_l|]. split; [done|]. split; [done|]. intros j y Hj Hy.
      apply Snoc in Hj as [Hj|[-> ->]]; [by apply Hb|]. destruct (Z.eq_dec (rt_prefix_len rt) len); [right; lia|lia].
    + exists x. split; [by rewrite lookup_app_l|]. split; [done|]. split; [done|]. intros j y Hj Hy.
      apply Snoc in Hj as [Hj|[-> ->]]; [by apply Hb|congruence].
  - intros Hn. destruct (match6 d rt) eqn:E.
    + exists rt. split; [done|]. split; [done|]. split; [done|]. intros j y Hj Hy.
      apply Snoc in Hj as [Hj|[-> ->]]; [|right; lia]. by rewrite (Hn j y Hj) in Hy.
    + intros j y Hj. apply Snoc in Hj as [Hj|[-> ->]]; [by eapply Hn|done].
Qed.

Lemma route6_walk_spec d l : forall seen b,
  best_of d seen b -> best_of d (seen ++ l) (route6_walk d l (length seen) b).
Proof.
  induction l as [|rt l IH]; intros seen b Hb; simpl; [by rewrite app_nil_r|].
  replace (seen ++ rt :: l) with ((seen ++ [rt]) ++ l) by (by rewrite <- app_assoc).
  replace (S (length seen)) with (length (seen ++ [rt])) by (rewrite length_app; simpl; lia).
  apply IH. exact (best_of_snoc d seen rt b Hb).
Qed.

Lemma route6_best d n : best_of d (n_routes n) (route6_walk d (n_routes n) 0 None).
Proof. apply (route6_walk_spec d (n_routes n) [] None). done. Qed.

(** Bit [k] of an address, the most significant first. *)
Definition addr_bit (a : list Z) (k : nat) : bool := Z.testbit (ld8 a (k / 8)) (7 - Z.of_nat (k mod 8)).

Lemma mask_bit bits j :
  0 < bits < 8 -> 0 <= j < 8 -> Z.testbit (u8 (Z.shiftl 255 (8 - bits))) j = (8 - bits <=? j).
Proof.
  intros Hb Hj. unfold u8. change 256 with (2 ^ 8). rewrite Z.mod_pow2_bits_low, Z.shiftl_spec by lia.
  change 255 with (Z.ones 8). destruct (Z.leb_spec (8 - bits) j).
  - apply Z.ones_spec_low. lia.
  - apply Z.testbit_neg_r. lia.
Qed.

Lemma u8_bits_eq x y : is_u8 x -> is_u8 y -> (forall j, 0 <= j < 8 -> Z.testbit x j = Z.testbit y j) -> x = y.
Proof.
  intros Hx Hy Hj. apply Z.bits_inj'. intros j Hj0. destruct (Z_lt_le_dec j 8); [by apply Hj|].
  assert (A : forall z, is_u8 z -> Z.testbit z j = false).
  { intros z Hz. rewrite <- (u8_id z Hz). unfold u8. change 256 with (2 ^ 8). apply Z.mod_pow2_bits_high. lia. }
  by rewrite !A.
Qed.

Lemma land_u8 x m : is_u8 x -> is_u8 (Z.land x m).
Proof.
  intros Hx. red in Hx |- *. split; [apply Z.land_nonneg; lia|]. rewrite <- (u8_id x Hx). unfold u8.
  change 256 with (2 ^ 8). rewrite <- Z.land_ones, <- Z.land_assoc, (Z.land_comm _ m), Z.land_assoc, Z.land_ones by lia.
  apply Z.mod_pos_bound. lia.
Qed.

Lemma land_mask_eq x y bits :
  is_u8 x -> is_u8 y -> 0 < bits < 8 ->
  Z.land x (u8 (Z.shiftl 255 (8 - bits))) = Z.land y (u8 (Z.shiftl 255 (8 - bits))) <->
  forall j, 8 - bits <= j < 8 -> Z.testbit x j = Z.testbit y j.
Proof.
  intros Hx Hy Hb. split.
  - intros E j Hj. apply (f_equal (fun z => Z.testbit z j)) in E. rewrite !Z.land_spec, mask_bit in E by lia.
    destruct (Z.leb_spec (8 - bits) j); [|lia]. by rewrite !andb_true_r in E.
  - intros E. apply u8_bits_eq; [by apply land_u8..|]. intros j Hj. rewrite !Z.land_spec, mask_bit by lia.
    destruct (Z.leb_spec (8 - bits) j); [|by rewrite !andb_false_r]. rewrite !andb_true_r. apply E. lia.
Qed.

Lemma byte_bits a b i :
  bytes_ok a -> bytes_ok b ->
  ld8 a i = ld8 b i <-> forall k, (8 * i <= k < 8 * i + 8)%nat -> addr_bit a k = addr_bit b k.
Proof.
  intros Ha Hb. unfold addr_bit. split.
  - intros E k Hk. replace (k / 8)%nat with i; [by rewrite E|]. apply Nat.div_unique with (k - 8 * i)%nat; lia.
  - intros E. apply u8_bits_eq; [by apply ld8_range..|]. intros j Hj.
    specialize (E (8 * i + Z.to_nat (7 - j))%nat ltac:(lia)).
    replace ((8 * i + Z.to_nat (7 - j)) / 8)%nat with i in E
      by (apply Nat.div_unique with (Z.to_nat (7 - j)); lia).
    replace ((8 * i + Z.to_nat (7 - j)) mod 8)%nat with (Z.to_nat (7 - j)) in E
      by (apply Nat.mod_unique with i; lia).
    by replace (7 - Z.of_nat (Z.to_nat (7 - j))) with j in E by lia.
Qed.

Lemma partial_byte_bits a b i bits :
  bytes_ok a -> bytes_ok b -> 0 < bits < 8 ->
  Z.land (ld8 a i) (u8 (Z.shiftl 255 (8 - bits))) = Z.land (ld8 b i) (u8 (Z.shiftl 255 (8 - bits))) <->
  forall k, (8 * i <= k < 8 * i + Z.to_nat bits)%nat -> addr_bit a k = addr_bit b k.
Proof.
  intros Ha Hb Hbits. rewrite land_mask_eq by (try apply ld8_range; done). unfold addr_bit. split.
  - intros E k Hk. replace (k / 8)%nat with i by (apply Nat.div_unique with (k - 8 * i)%nat; lia).
    replace (k mod 8)%nat with (k - 8 * i)%nat by (apply Nat.mod_unique with i; lia). apply E. lia.
  - intros E j Hj. specialize (E (8 * i + Z.to_nat (7 - j))%nat ltac:(lia)).
    replace ((8 * i + Z.to_nat (7 - j)) / 8)%nat with i in E
      by (apply Nat.div_unique with (Z.to_nat (7 - j)); lia).
    replace ((8 * i + Z.to_nat (7 - j)) mod 8)%nat with (Z.to_nat (7 - j)) in E
      by (apply Nat.mod_unique with i; lia).
    by replace (7 - Z.of_nat (Z.to_nat (7 - j))) with j in E by lia.
Qed.

Lemma forallb_bits a b n :
  bytes_ok a -> bytes_ok b ->
  forallb (fun i => ld8 a i =? ld8 b i) (seq 0 n) = true <->
  forall k, (k < 8 * n)%nat -> addr_bit a k = addr_bit b k.
Proof.
  intros Ha Hb. rewrite forallb_forall. split.
  - intros E k Hk. assert (Hi : (k / 8 < n)%nat) by (apply Nat.Div0.div_lt_upper_bound; lia).
    pose proof (E (k / 8)%nat ltac:(apply in_seq; lia)) as Ek. apply Z.eqb_eq in Ek.
    apply (proj1 (byte_bits a b _ Ha Hb) Ek). pose proof (Nat.div_mod_eq k 8). pose proof (Nat.mod_upper_bound k 8). lia.
  - intros E i Hi. apply in_seq in Hi. apply Z.eqb_eq, (byte_bits a b i Ha Hb). intros k Hk. apply E. lia.
Qed.

(** An entry matches when the addresses agree on the bits of its prefix. *)
Lemma route6_match_bits a rt :
  bytes_ok a -> bytes_ok (rt_dst rt) -> 0 <= rt_prefix_len rt <= 128 ->
  route6_match a rt = true <->
  forall k, (k < Z.to_nat (rt_prefix_len rt))%nat -> addr_bit a k = addr_bit (rt_dst rt) k.
Proof.
  intros Ha Hb Hp. unfold route6_match. cbv zeta.
  set (n := rt_prefix_len rt / 8). set (r := rt_prefix_len rt mod 8).
  assert (D : rt_prefix_len rt = 8 * n + r) by (apply Z.div_mod; lia).
  assert (R : 0 <= r < 8) by (apply Z.mod_pos_bound; lia). clearbody n r.
  assert (N : 0 <= n) by lia.
  pose proof (forallb_bits a (rt_dst rt) (Z.to_nat n) Ha Hb) as F.
  destruct (forallb _ _); simpl andb.
  - destruct (Z.ltb_spec 0 r) as [Hr|Hr]; simpl andb.
    + destruct (Z.ltb_spec n 16); [|lia]. rewrite Z.eqb_eq, partial_byte_bits by (done || lia). split.
      * intros E k Hk. destruct (decide (k < 8 * Z.to_nat n)%nat); [by apply F|]. apply E. lia.
      * intros E k Hk. apply E. lia.
    + split; [|done]. intros _ k Hk. apply F; [done|lia].
  - split; [done|]. intros E. apply F. intros k Hk. apply E. lia.
Qed.
(** A path MTU is not looked at by the lookups. *)
Lemma route6_walk_pmtu d m l : forall k j best,
  route6_walk d (alter (set_rt_pmtu m) k l) j best = route6_walk d l j best.
Proof.
  induction l as [|rt l IH]; intros k j best; [done|]. destruct k as [|k]; cbn [alter list_alter route6_walk]; [done|]. apply IH.
Qed.

Lemma pmtu_spec d e mtu n :
  let n' := (route6_update_pmtu d mtu n).1 in
  route6_lookup e n' = route6_lookup e n /\
  match route6_lookup d n with
  | None => n' = n
  | Some i => rt_pmtu <$> n_routes n' !! i = Some (Z.max 1280 mtu)
  end.
Proof.
  unfold route6_update_pmtu. set (m := if mtu <? 1280 then 1280 else mtu).
  assert (Hm : m = Z.max 1280 mtu) by (unfold m; destruct (Z.ltb_spec mtu 1280); lia). clearbody m. cbv zeta.
  destruct (route6_lookup d n) as [i|] eqn:E; cbn [fst]; [|done]. split.
  - unfold route6_lookup. simpl n_routes. by rewrite route6_walk_pmtu.
  - simpl n_routes. rewrite list_lookup_alter. unfold route6_lookup in E. pose proof (route6_best d n) as B.
    unfold best_of in B. destruct (route6_walk d (n_routes n) 0 None) as [[k len]|]; simpl in E; [|done].
    injection E as ->. destruct B as (rt & -> & _). rewrite decide_True by done. simpl. by rewrite Hm.
Qed.

End Net.
