(* ===== verification/Neigh.v ===== *)
(** Neighbour resolution: [src/src/arp.c], the cache and the senders of
    [src/src/ndp.c], and [src/src/dst.c].

    A pointer to a cache entry is the position in its list; entries are only
    appended.  All byte-order conversions the code does in place in a packet are
    done in place here, on the buffer of the packet. *)
From S2P Require Import Prelude Utils SkBuff TcpTypes Ipv6 Net.
Import Utils SkBuff TcpTypes Ipv6 Net.

Module Neigh.

(** ** ARP *)

Definition ARP_HDR_LEN : Z := 8.
Definition ARP_DATA_LEN : Z := 20.
Definition ARP_ETHERNET : Z := 1.
Definition ARP_IPV4 : Z := 2048.
Definition ARP_REQUEST : Z := 1.
Definition ARP_REPLY : Z := 2.
Definition ARP_RESOLVED : Z := 2.
Definition broadcast_hw : list Z := replicate 6 255.

(** The header is at [head + 14]: [hwtype] 0, [protype] 2, [hwsize] 4, [prosize] 5,
    [opcode] 6, then [smac] 8, [sip] 14, [dmac] 18, [dip] 24. *)
Definition A : nat := 14.

Definition arp_entry_alloc (b : list Z) : arp_cache_entry :=
  mk_arp (ld16 b A) (ld32 b (A + 14)) (ld_bytes b (A + 8) 6) ARP_RESOLVED.

Definition insert_arp_translation_table (b : list Z) (n : net) : net * Z :=
  (set_n_arp (n_arp n ++ [arp_entry_alloc b]) n, 0).

Fixpoint update_arp (hwtype sip : Z) (smac : list Z) (l : list arp_cache_entry) : list arp_cache_entry * bool :=
  match l with
  | [] => ([], false)
  | e :: l =>
      if (ac_hwtype e =? hwtype) && (ac_sip e =? sip) then (set_ac_smac smac e :: l, true)
      else let '(l, r) := update_arp hwtype sip smac l in (e :: l, r)
  end.

Definition update_arp_translation_table (b : list Z) (n : net) : net * bool :=
  let '(l, r) := update_arp (ld16 b A) (ld32 b (A + 14)) (ld_bytes b (A + 8) 6) (n_arp n) in
  (set_n_arp l n, r).

Definition arp_get_hwaddr (sip : Z) (n : net) : option (list Z) :=
  ac_smac <$> find (fun e => (ac_state e =? ARP_RESOLVED) && (ac_sip e =? sip)) (n_arp n).

Definition arp_alloc_skb (n : net) : sk_buff * net :=
  let '(b, n) := net_alloc_skb (ETH_HDR_LEN + ARP_HDR_LEN + ARP_DATA_LEN) n in
  (set_skb_protocol (bswap16 ETH_P_ARP) (skb_reserve (ETH_HDR_LEN + ARP_HDR_LEN + ARP_DATA_LEN) b), n).

Definition arp_request (sip dip dev : Z) (n : net) : net * Z :=
  let '(b, n) := arp_alloc_skb n in
  let b := set_skb_dev dev b in
  let d := dev_of dev n in
  let k := Z.to_nat addr_len in
  let b := skb_push ARP_DATA_LEN b in
  let o := Z.to_nat (skb_data b) in
  let buf := st_bytes (skb_buf b) o (take k (nd_hwaddr d)) in
  let buf := st32 buf (o + 6) sip in
  let buf := st_bytes buf (o + 10) (take k broadcast_hw) in
  let buf := st32 buf (o + 16) dip in
  let b := skb_push ARP_HDR_LEN b in
  let h := Z.to_nat (skb_data b) in
  let buf := st16 buf (h + 6) (bswap16 ARP_REQUEST) in
  let buf := st16 buf h (bswap16 ARP_ETHERNET) in
  let buf := st16 buf (h + 2) (bswap16 ETH_P_IP) in
  let buf := st8 buf (h + 4) addr_len in
  let buf := st8 buf (h + 5) 4 in
  let buf := st32 buf (o + 6) (bswap32 (ld32 buf (o + 6))) in
  let buf := st32 buf (o + 16) (bswap32 (ld32 buf (o + 16))) in
  let '(b, n, rc) := netdev_transmit (set_skb_buf buf b) broadcast_hw ETH_P_ARP n in
  (net_free_skb b n, rc).

Definition arp_reply (b : sk_buff) (dev : Z) (n : net) : net :=
  let d := dev_of dev n in
  let b := skb_reserve (ETH_HDR_LEN + ARP_HDR_LEN + ARP_DATA_LEN) b in
  let b := skb_push (ARP_HDR_LEN + ARP_DATA_LEN) b in
  let buf := skb_buf b in
  let buf := st_bytes buf (A + 18) (ld_bytes buf (A + 8) 6) in
  let buf := st32 buf (A + 24) (ld32 buf (A + 14)) in
  let buf := st_bytes buf (A + 8) (take 6 (nd_hwaddr d)) in
  let buf := st32 buf (A + 14) (nd_addr d) in
  let buf := st16 buf (A + 6) ARP_REPLY in
  let buf := st16 buf (A + 6) (bswap16 (ld16 buf (A + 6))) in
  let buf := st16 buf A (bswap16 (ld16 buf A)) in
  let buf := st16 buf (A + 2) (bswap16 (ld16 buf (A + 2))) in
  let buf := st32 buf (A + 14) (bswap32 (ld32 buf (A + 14))) in
  let buf := st32 buf (A + 24) (bswap32 (ld32 buf (A + 24))) in
  let b := set_skb_dev dev (set_skb_buf buf b) in
  let '(b, n, _) := netdev_transmit b (ld_bytes buf (A + 18) 6) ETH_P_ARP n in
  net_free_skb b n.

Definition arp_rcv (b : sk_buff) (n : net) : net :=
  let buf := skb_buf b in
  let buf := st16 buf A (bswap16 (ld16 buf A)) in
  let buf := st16 buf (A + 2) (bswap16 (ld16 buf (A + 2))) in
  let buf := st16 buf (A + 6) (bswap16 (ld16 buf (A + 6))) in
  if negb (ld16 buf A =? ARP_ETHERNET) then net_free_skb (set_skb_buf buf b) n
  else if negb (ld16 buf (A + 2) =? ARP_IPV4) then net_free_skb (set_skb_buf buf b) n
  else
    let buf := st32 buf (A + 14) (bswap32 (ld32 buf (A + 14))) in
    let buf := st32 buf (A + 24) (bswap32 (ld32 buf (A + 24))) in
    let b := set_skb_buf buf b in
    let '(n, merge) := update_arp_translation_table buf n in
    match netdev_get (ld32 buf (A + 24)) n with
    | None => net_free_skb b n
    | Some dev =>
        let '(n, rc) := if merge then (n, 0) else insert_arp_translation_table buf n in
        if negb (rc =? 0) then net_free_skb b n
        else if ld16 buf (A + 6) =? ARP_REQUEST then arp_reply b dev n
        else net_free_skb b n
    end.

Definition free_arp (n : net) : net := set_n_arp [] n.

(** ** The NDP neighbour cache *)

Definition NDP_INCOMPLETE : Z := 0.
Definition NDP_REACHABLE : Z := 1.
Definition NDP_STALE : Z := 2.
Definition NDP_MAX_NEIGHBORS : Z := 64.
Definition ICMPV6_ROUTER_SOLICIT : Z := 133.
Definition ICMPV6_ROUTER_ADVERT : Z := 134.
Definition ICMPV6_NEIGHBOR_SOLICIT : Z := 135.
Definition ICMPV6_NEIGHBOR_ADVERT : Z := 136.
Definition ICMPV6_REDIRECT : Z := 137.
Definition NDP_OPT_SLLA : Z := 1.
Definition NDP_OPT_TLLA : Z := 2.
Definition NDP_OPT_PREFIX : Z := 3.

Definition ndp_init (n : net) : net := set_n_ndp_count 0 (set_n_ndp [] n).

(** The position of the new entry, [None] when the cache is full. *)
Definition ndp_entry_alloc (ip6 : list Z) (n : net) : option nat * net :=
  if NDP_MAX_NEIGHBORS <=? n_ndp_count n then (None, n)
  else
    let e := mk_ndp ip6 (replicate 6 0) NDP_INCOMPLETE (n_tick n) 0 skb_queue_init in
    (Some (length (n_ndp n)), set_n_ndp_count (n_ndp_count n + 1) (set_n_ndp (n_ndp n ++ [e]) n)).

Fixpoint ndp_find (f : ndp_entry -> bool) (l : list ndp_entry) (i : nat) : option nat :=
  match l with
  | [] => None
  | e :: l => if f e then Some i else ndp_find f l (S i)
  end.

Definition ndp_lookup (ip6 : list Z) (n : net) : option nat :=
  ndp_find (fun e => ipv6_addr_equal (ne_ip6 e) ip6) (n_ndp n) 0.

(** The loop over [entry->queue]; [queue] is what is left of it. *)
Fixpoint flush_loop (fuel : nat) (dmac : list Z) (queue : sk_buff_head) (n : net) : sk_buff_head * net :=
  match fuel with
  | O => (queue, n)
  | S fuel =>
      if skb_queue_empty queue then (queue, n)
      else
        match skb_dequeue queue with
        | None => (queue, n)
        | Some (b, queue) =>
            let '(b, n, _) := netdev_transmit b dmac ETH_P_IPV6 n in
            flush_loop fuel dmac queue (net_free_skb b n)
        end
  end.

Definition ndp_flush_queue (i : nat) (n : net) : net :=
  match n_ndp n !! i with
  | None => n
  | Some e =>
      let '(q, n) := flush_loop (length (skq (ne_queue e))) (ne_hwaddr e) (ne_queue e) n in
      set_n_ndp (<[i := set_ne_queue q e]> (n_ndp n)) n
  end.

Definition ndp_queue_skb (ip6 : list Z) (b : sk_buff) (n : net) : net * Z :=
  match i ← ndp_lookup ip6 n; e ← n_ndp n !! i; Some (i, e) with
  | None => (n, -1)
  | Some (i, e) =>
      if max_q (ne_queue e) <=? skb_queue_len (ne_queue e) then (n, -1)
      else
        let c := skb_copy (n_next_skb n) b in
        let n := set_n_next_skb (n_next_skb n - 1) n in
        (set_n_ndp (<[i := set_ne_queue (skb_queue_tail (ne_queue e) c) e]> (n_ndp n)) n, 0)
  end.

Definition ndp_get_hwaddr (ip6 : list Z) (n : net) : option (list Z) :=
  i ← ndp_find (fun e => ipv6_addr_equal (ne_ip6 e) ip6 && (ne_state e =? NDP_REACHABLE)) (n_ndp n) 0;
  e ← n_ndp n !! i;
  Some (ne_hwaddr e).

(** ** Solicitations *)

Definition ipv6_solnode_addr (target : list Z) : list Z :=
  [255; 2; 0; 0; 0; 0; 0; 0; 0; 0; 0; 1; 255; ld8 target 13; ld8 target 14; ld8 target 15].

Definition ipv6_multicast_mac (mc6 : list Z) : list Z :=
  [51; 51; ld8 mc6 12; ld8 mc6 13; ld8 mc6 14; ld8 mc6 15].

(** [icmpv6_checksum] of [src/src/icmpv6.c]. *)
Definition icmpv6_checksum (saddr daddr data : list Z) : Z :=
  let len := Z.of_nat (length data) in
  let pseudo := saddr ++ daddr ++
    [u8 (Z.shiftr len 24); u8 (Z.shiftr len 16); u8 (Z.shiftr len 8); u8 (Z.land len 255)] ++
    [0; 0; 0; NEXTHDR_ICMPV6] in
  checksum data (sum_every_16bits pseudo).

(** The IPv6 header the NDP senders write at [o], hop limit 255. *)
Definition ndp_ip6_header (o : nat) (pktlen : Z) (src dst : list Z) (buf : list Z) : list Z :=
  let buf := ipv6_hdr_set_vtc_flow o IPV6_VERSION 0 0 buf in
  let buf := st16 buf (o + 4) (bswap16 (u16 pktlen)) in
  let buf := st8 buf (o + 6) NEXTHDR_ICMPV6 in
  let buf := st8 buf (o + 7) 255 in
  st_bytes (st_bytes buf (o + 8) src) (o + 24) dst.

Definition ndp_send_ns (target src : list Z) (dev : Z) (n : net) : net * Z :=
  let pktlen := 24 + 8 in
  let total := ETH_HDR_LEN + IPV6_HDR_LEN + pktlen in
  let '(b, n) := net_alloc_skb total n in
  let b := set_skb_dev dev (skb_reserve total b) in
  let b := skb_push pktlen b in
  let ns := Z.to_nat (skb_data b) in
  let buf := st8 (skb_buf b) ns ICMPV6_NEIGHBOR_SOLICIT in
  let buf := st8 buf (ns + 1) 0 in
  let buf := st32 (st16 buf (ns + 2) 0) (ns + 4) 0 in
  let buf := st_bytes buf (ns + 8) target in
  let buf := st8 (st8 buf (ns + 24) NDP_OPT_SLLA) (ns + 25) 1 in
  let buf := st_bytes buf (ns + 26) (take 6 (nd_hwaddr (dev_of dev n))) in
  let dst_mc := ipv6_solnode_addr target in
  let b := skb_push IPV6_HDR_LEN b in
  let buf := ndp_ip6_header (Z.to_nat (skb_data b)) pktlen src dst_mc buf in
  let buf := st16 buf (ns + 2) (icmpv6_checksum src dst_mc (ld_bytes buf ns (Z.to_nat pktlen))) in
  let '(b, n, _) := netdev_transmit (set_skb_buf buf b) (ipv6_multicast_mac dst_mc) ETH_P_IPV6 n in
  (net_free_skb b n, 0).

Definition all_routers : list Z := 255 :: 2 :: replicate 13 0 ++ [2].

Definition ndp_send_rs (src : list Z) (dev : Z) (n : net) : net * Z :=
  let pktlen := 8 + 8 in
  let total := ETH_HDR_LEN + IPV6_HDR_LEN + pktlen in
  let '(b, n) := net_alloc_skb total n in
  let b := set_skb_dev dev (skb_reserve total b) in
  let b := skb_push pktlen b in
  let rs := Z.to_nat (skb_data b) in
  let buf := st8 (skb_buf b) rs ICMPV6_ROUTER_SOLICIT in
  let buf := st8 buf (rs + 1) 0 in
  let buf := st32 (st16 buf (rs + 2) 0) (rs + 4) 0 in
  let buf := st8 (st8 buf (rs + 8) NDP_OPT_SLLA) (rs + 9) 1 in
  let buf := st_bytes buf (rs + 10) (take 6 (nd_hwaddr (dev_of dev n))) in
  let b := skb_push IPV6_HDR_LEN b in
  let buf := ndp_ip6_header (Z.to_nat (skb_data b)) pktlen src all_routers buf in
  let buf := st16 buf (rs + 2) (icmpv6_checksum src all_routers (ld_bytes buf rs (Z.to_nat pktlen))) in
  let '(b, n, _) := netdev_transmit (set_skb_buf buf b) (ipv6_multicast_mac all_routers) ETH_P_IPV6 n in
  (net_free_skb b n, 0).

(** ** [dst.c]: hand a packet to the next hop, [rt] being [skb->rt] *)

Definition has_gateway (rt : rtentry) : bool := negb (Z.land (rt_flags rt) RT_GATEWAY =? 0).

Definition dst_neigh_output (b : sk_buff) (rt : rtentry) (n : net) : sk_buff * net * Z :=
  let daddr := bswap32 (ld32 (skb_buf b) 30) in
  let saddr := bswap32 (ld32 (skb_buf b) 26) in
  let daddr := if has_gateway rt then ld32 (rt_gateway rt) 0 else daddr in
  match arp_get_hwaddr daddr n with
  | Some dmac => netdev_transmit b dmac ETH_P_IP n
  | None => (b, (arp_request saddr daddr (skb_dev b) n).1, -1)
  end.

Definition dst6_neigh_output (b : sk_buff) (rt : rtentry) (n : net) : sk_buff * net * Z :=
  let o := Z.to_nat (skb_data b) in
  let src_addr := ip6_saddr o (skb_buf b) in
  let next_hop := if has_gateway rt then rt_gateway rt else ip6_daddr o (skb_buf b) in
  match ndp_get_hwaddr next_hop n with
  | Some dmac => netdev_transmit b dmac ETH_P_IPV6 n
  | None =>
      let '(n, _) := ndp_send_ns next_hop src_addr (skb_dev b) n in
      let '(entry, n) :=
        match ndp_lookup next_hop n with
        | None => ndp_entry_alloc next_hop n
        | Some i => (Some i, n)
        end in
      let n := match entry with None => n | Some _ => (ndp_queue_skb next_hop b n).1 end in
      (b, n, -1)
  end.

(** ** The ARP cache as a map

    Every entry the code creates is resolved and of type Ethernet. *)

Definition arp_entry_ok (e : arp_cache_entry) : Prop := ac_hwtype e = ARP_ETHERNET /\ ac_state e = ARP_RESOLVED.
Definition arp_ok (n : net) : Prop := Forall arp_entry_ok (n_arp n).

Definition arp_find (ip : Z) (l : list arp_cache_entry) : option (list Z) :=
  ac_smac <$> find (fun e => (ac_state e =? ARP_RESOLVED) && (ac_sip e =? ip)) l.

Lemma update_arp_ok ip mac l : Forall arp_entry_ok l -> Forall arp_entry_ok (update_arp ARP_ETHERNET ip mac l).1.
Proof.
  induction 1 as [|e l He Hl IH]; simpl; [done|].
  destruct (_ && _); cbn [fst]; [constructor; [exact He|done]|].
  destruct (update_arp _ ip mac l) as [l' r]. constructor; [exact He|exact IH].
Qed.

Lemma update_arp_find ip mac l : Forall arp_entry_ok l ->
  (update_arp ARP_ETHERNET ip mac l).2 = bool_decide (is_Some (arp_find ip l)) /\
  forall a, arp_find a (update_arp ARP_ETHERNET ip mac l).1 =
    if (a =? ip) && bool_decide (is_Some (arp_find ip l)) then Some mac else arp_find a l.
Proof.
  induction 1 as [|e l [H1 H2] Hl IH]; [split; [done|]; intros a; simpl; by rewrite andb_comm|].
  unfold arp_find. cbn [update_arp find]. rewrite H1, H2, !Z.eqb_refl. cbn [andb].
  destruct (Z.eqb_spec (ac_sip e) ip) as [E|E]; cbn [fst snd].
  - split; [by rewrite bool_decide_eq_true_2|]. intros a. rewrite (bool_decide_eq_true_2 (is_Some _)) by done.
    rewrite andb_true_r. cbn [find]. simpl ac_state. simpl ac_sip. rewrite H2, Z.eqb_refl, E, (Z.eqb_sym ip a). cbn [andb].
    by destruct (Z.eqb_spec a ip).
  - destruct IH as [IH1 IH2]. destruct (update_arp ARP_ETHERNET ip mac l) as [l' r]. cbn [fst snd] in *.
    split; [exact IH1|]. intros a. cbn [find]. rewrite H2, Z.eqb_refl. cbn [andb].
    destruct (Z.eqb_spec (ac_sip e) a) as [<-|Ea]; [|exact (IH2 a)].
    destruct (Z.eqb_spec (ac_sip e) ip); [done|]. done.
Qed.

Lemma insert_arp_find ip mac l a :
  arp_find ip l = None ->
  arp_find a (l ++ [mk_arp ARP_ETHERNET ip mac ARP_RESOLVED]) = if a =? ip then Some mac else arp_find a l.
Proof.
  intros Hn. unfold arp_find in *. destruct (Z.eqb_spec a ip) as [->|Hne].
  - induction l as [|e l IH]; cbn [app find] in *; [simpl; by rewrite Z.eqb_refl|].
    destruct (_ && _); [done|]. by apply IH.
  - induction l as [|e l IH]; cbn [app find] in *; [simpl; by rewrite (proj2 (Z.eqb_neq ip a)) by congruence|].
    destruct ((ac_state e =? _) && (ac_sip e =? a)); [done|]. apply IH. by destruct (_ && (ac_sip e =? ip)).
Qed.

Lemma free_arp_cache b n : n_arp (net_free_skb b n) = n_arp n.
Proof. unfold net_free_skb. by destruct (free_skb b). Qed.

Lemma transmit_caches b dst et n :
  n_arp (netdev_transmit b dst et n).1.2 = n_arp n /\ n_ndp (netdev_transmit b dst et n).1.2 = n_ndp n /\
  n_ndp_count (netdev_transmit b dst et n).1.2 = n_ndp_count n /\
  n_dev (netdev_transmit b dst et n).1.2 = n_dev n /\ n_loop (netdev_transmit b dst et n).1.2 = n_loop n.
Proof. unfold netdev_transmit, tun_write. cbv zeta. cbn [fst snd]. by destruct (in_buffer _), (skb_dev b =? 0). Qed.

Lemma arp_reply_cache b dev n : n_arp (arp_reply b dev n) = n_arp n.
Proof.
  unfold arp_reply. cbv zeta. match goal with |- context [netdev_transmit ?x ?y ?z n] => set (b1 := x); set (m := y) end.
  clearbody b1 m. destruct (transmit_caches b1 m ETH_P_ARP n) as (E & _).
  destruct (netdev_transmit b1 m ETH_P_ARP n) as [[b2 n2] rc]. by rewrite free_arp_cache.
Qed.

(** The fields of an ARP packet in network order. *)
Definition arp_hwtype (b : list Z) : Z := bswap16 (ld16 b A).
Definition arp_protype (b : list Z) : Z := bswap16 (ld16 b (A + 2)).
Definition arp_sip (b : list Z) : Z := bswap32 (ld32 b (A + 14)).
Definition arp_dip (b : list Z) : Z := bswap32 (ld32 b (A + 24)).
Definition arp_smac (b : list Z) : list Z := ld_bytes b (A + 8) 6.

(** The conversions [arp_rcv] does in place. *)
Definition arp_swap_header (buf : list Z) : list Z :=
  let buf := st16 buf A (bswap16 (ld16 buf A)) in
  let buf := st16 buf (A + 2) (bswap16 (ld16 buf (A + 2))) in
  st16 buf (A + 6) (bswap16 (ld16 buf (A + 6))).
Definition arp_swap_addrs (buf : list Z) : list Z :=
  let buf := st32 buf (A + 14) (bswap32 (ld32 buf (A + 14))) in
  st32 buf (A + 24) (bswap32 (ld32 buf (A + 24))).

Lemma arp_swapped b : (42 <= length b)%nat ->
  ld16 (arp_swap_header b) A = arp_hwtype b /\ ld16 (arp_swap_header b) (A + 2) = arp_protype b /\
  ld16 (arp_swap_addrs (arp_swap_header b)) A = arp_hwtype b /\
  ld32 (arp_swap_addrs (arp_swap_header b)) (A + 14) = arp_sip b /\
  ld32 (arp_swap_addrs (arp_swap_header b)) (A + 24) = arp_dip b /\
  ld_bytes (arp_swap_addrs (arp_swap_header b)) (A + 8) 6 = arp_smac b.
Proof.
  intros Hl. unfold arp_swap_addrs, arp_swap_header, arp_hwtype, arp_protype, arp_sip, arp_dip, arp_smac, A. cbv zeta.
  simpl Nat.add. repeat split.
  - mem_simpl. apply u16_id, bswap16_range.
  - mem_simpl. apply u16_id, bswap16_range.
  - mem_simpl. apply u16_id, bswap16_range.
  - mem_simpl. apply u32_id, bswap32_range.
  - mem_simpl. apply u32_id, bswap32_range.
  - apply ld_bytes_ext. intros. by rewrite !ld8_st32_ne, !ld8_st16_ne by lia.
Qed.

(** Is the packet one that [arp_rcv] learns from: known sender, or for us. *)
Definition arp_accepts (b : list Z) (n : net) : bool :=
  (arp_hwtype b =? ARP_ETHERNET) && (arp_protype b =? ARP_IPV4) &&
  (bool_decide (is_Some (arp_get_hwaddr (arp_sip b) n)) || (nd_addr (n_dev n) =? arp_dip b)).

Lemma arp_rcv_learns b n : (42 <= length (skb_buf b))%nat -> arp_ok n ->
  arp_ok (arp_rcv b n) /\
  forall a, arp_get_hwaddr a (arp_rcv b n) =
    if (a =? arp_sip (skb_buf b)) && arp_accepts (skb_buf b) n then Some (arp_smac (skb_buf b)) else arp_get_hwaddr a n.
Proof.
  intros Hl Hok. destruct (arp_swapped _ Hl) as (E1 & E2 & E3 & E4 & E5 & E6).
  unfold arp_accepts, arp_rcv. cbv zeta. fold (arp_swap_header (skb_buf b)).
  set (h := arp_swap_header (skb_buf b)) in *. rewrite E1, E2.
  destruct (Z.eqb_spec (arp_hwtype (skb_buf b)) ARP_ETHERNET) as [Hh|Hh]; cbn [negb];
    [|unfold arp_ok, arp_get_hwaddr; rewrite free_arp_cache; split; [done|]; intros; by rewrite andb_false_r].
  destruct (Z.eqb_spec (arp_protype (skb_buf b)) ARP_IPV4) as [Hp|Hp]; cbn [negb];
    [|unfold arp_ok, arp_get_hwaddr; rewrite free_arp_cache; split; [done|]; intros; by rewrite andb_false_r].
  fold (arp_swap_addrs h). set (buf := arp_swap_addrs h) in *. clearbody h buf.
  unfold update_arp_translation_table. rewrite E3, E4, E6, E5, Hh. set (ip := arp_sip _) in *. set (mac := arp_smac _) in *.
  unfold arp_ok, arp_get_hwaddr, netdev_get in *. fold (arp_find ip (n_arp n)).
  pose proof (update_arp_ok ip mac _ Hok) as U1. destruct (update_arp_find ip mac _ Hok) as [U2 U3].
  destruct (update_arp ARP_ETHERNET ip mac (n_arp n)) as [l r]. cbn [fst snd] in *. subst r.
  change (nd_addr (n_dev (set_n_arp l n))) with (nd_addr (n_dev n)).
  destruct (Z.eqb_spec (nd_addr (n_dev n)) (arp_dip (skb_buf b))) as [Hd|Hd].
  2:{ rewrite free_arp_cache. cbn [andb]. rewrite orb_false_r. split; [exact U1|exact U3]. }
  rewrite orb_true_r, !andb_true_r. cbn [andb].
  assert (R : forall n1, (if ld16 buf (A + 6) =? ARP_REQUEST then arp_reply (set_skb_buf buf b) DEV_TAP n1
    else net_free_skb (set_skb_buf buf b) n1).(n_arp) = n_arp n1).
  { intros. destruct (_ =? ARP_REQUEST); [apply arp_reply_cache|apply free_arp_cache]. }
  destruct (bool_decide_reflect (is_Some (arp_find ip (n_arp n)))) as [Hs|Hs]; change (negb (0 =? 0)) with false; cbv match.
  - rewrite R. split; [exact U1|]. intros a. exact (U3 a).
  - unfold insert_arp_translation_table. change (negb (0 =? 0)) with false. cbv match. rewrite R. simpl n_arp.
    assert (Hn : arp_find ip l = None).
    { rewrite U3, andb_false_r. by apply eq_None_not_Some. }
    unfold arp_entry_alloc. rewrite E3, E4, E6, Hh. split.
    + apply Forall_app. split; [exact U1|]. by constructor.
    + intros a. fold ip mac. fold (arp_find a (l ++ [mk_arp ARP_ETHERNET ip mac ARP_RESOLVED])).
      rewrite insert_arp_find by done. rewrite U3, andb_false_r. by rewrite andb_true_r.
Qed.

(** ** Flushing the packets that waited for a neighbour *)

(** The frame that leaves for a queued packet. *)
Definition ndp_frame (mac : list Z) (n : net) (b : sk_buff) : list Z :=
  skb_bytes (netdev_transmit b mac ETH_P_IPV6 n).1.1.

Lemma transmit_frame_devs b mac et n n' :
  n_dev n' = n_dev n -> n_loop n' = n_loop n -> (netdev_transmit b mac et n').1.1 = (netdev_transmit b mac et n).1.1.
Proof.
  intros H1 H2. unfold netdev_transmit, tun_write. cbv zeta. cbn [fst snd]. unfold dev_of.
  destruct (skb_dev b =? 0); simpl n_loop; simpl n_dev; by rewrite H1, H2.
Qed.

Lemma net_free_frame b n :
  n_wire (net_free_skb b n) = n_wire n /\ n_arp (net_free_skb b n) = n_arp n /\ n_ndp (net_free_skb b n) = n_ndp n /\
  n_ndp_count (net_free_skb b n) = n_ndp_count n /\ n_dev (net_free_skb b n) = n_dev n /\
  n_loop (net_free_skb b n) = n_loop n.
Proof. unfold net_free_skb. by destruct (free_skb b). Qed.

Lemma transmit_wire_eq b dst et n :
  n_wire (netdev_transmit b dst et n).1.2 = n_wire n ++ [skb_bytes (netdev_transmit b dst et n).1.1].
Proof. unfold netdev_transmit, tun_write. cbv zeta. cbn [fst snd]. by destruct (in_buffer _), (skb_dev b =? 0). Qed.

Lemma flush_loop_spec mac fuel : forall q n,
  queue_ok q -> (length (skq q) <= fuel)%nat ->
  let r := flush_loop fuel mac q n in
  skq r.1 = [] /\ queue_ok r.1 /\ max_q r.1 = max_q q /\ n_wire r.2 = n_wire n ++ (ndp_frame mac n <$> skq q) /\
  n_ndp r.2 = n_ndp n /\ n_ndp_count r.2 = n_ndp_count n /\ n_dev r.2 = n_dev n /\ n_loop r.2 = n_loop n.
Proof.
  induction fuel as [|fuel IH]; intros q n Hq Hf; cbn [flush_loop]; cbv zeta.
  - cbn [fst snd]. destruct (skq q) eqn:E; [|simpl in Hf; lia]. cbn [fmap list_fmap]. by rewrite app_nil_r.
  - rewrite queue_ok_empty by done. destruct (skq q) as [|b r] eqn:E.
    + rewrite bool_decide_eq_true_2 by done. cbn [fst snd]. rewrite E. cbn [fmap list_fmap]. by rewrite app_nil_r.
    + rewrite bool_decide_eq_false_2 by done.
      destruct (queue_ok_dequeue q b r Hq E) as (q' & -> & Hr & Hm & Hq').
      destruct (transmit_caches b mac ETH_P_IPV6 n) as (_ & T1 & T2 & T3 & T4).
      pose proof (transmit_wire_eq b mac ETH_P_IPV6 n) as W.
      destruct (netdev_transmit b mac ETH_P_IPV6 n) as [[b2 n2] rc] eqn:ET. cbn [fst snd] in *.
      destruct (net_free_frame b2 n2) as (F1 & _ & F2 & F3 & F4 & F5). set (n3 := net_free_skb b2 n2) in *. clearbody n3.
      destruct (IH q' n3 Hq') as (I1 & I2 & I3 & I4 & I5 & I6 & I7 & I8); [rewrite Hr; simpl in Hf; lia|].
      split; [exact I1|]. split; [exact I2|]. split; [by rewrite I3|]. split; [|by rewrite I5, I6, I7, I8, F2, F3, F4, F5, T1, T2, T3, T4].
      rewrite I4, F1, W, Hr, <- app_assoc. cbn [fmap list_fmap app]. f_equal. f_equal.
      * unfold ndp_frame. by rewrite ET.
      * apply list_fmap_ext. intros _ x _. unfold ndp_frame. f_equal. apply transmit_frame_devs; congruence.
Qed.

Lemma ndp_flush_spec i n e :
  n_ndp n !! i = Some e -> queue_ok (ne_queue e) ->
  let n' := ndp_flush_queue i n in
  n_wire n' = n_wire n ++ (ndp_frame (ne_hwaddr e) n <$> skq (ne_queue e)) /\
  exists q, n_ndp n' = <[i := set_ne_queue q e]> (n_ndp n) /\ skq q = [] /\ queue_ok q /\ max_q q = max_q (ne_queue e).
Proof.
  intros Hi Hq. unfold ndp_flush_queue. rewrite Hi.
  destruct (flush_loop_spec (ne_hwaddr e) (length (skq (ne_queue e))) (ne_queue e) n Hq (le_n _))
    as (I1 & I2 & I3 & I4 & I5 & _).
  destruct (flush_loop _ _ _ n) as [q n2]. cbn [fst snd] in *. cbv zeta. split; [exact I4|].
  exists q. simpl n_ndp. by rewrite I5.
Qed.

End Neigh.
