(* ===== verification/IpOut.v ===== *)
(** IP output: [src/src/ip_output.c], [src/src/ipv6_output.c], and the UDP checksum
    of [src/src/udp.c] that [ip_output] fills in.

    [net] with these two functions is the [IpLayer] TCP is built on; the instance
    of [IpLayerLaws] at the end shows that they keep what TCP relies on. *)
From S2P Require Import Prelude Utils SkBuff TcpTypes TcpBase Ipv6 Net Neigh.
Import Utils SkBuff TcpTypes TcpBase Ipv6 Net Neigh.

Module IpOut.

Definition IPV4 : Z := 4.
Definition IP_UDP : Z := 17.

(** The IPv4 header is at [head + 14]: [ihl]/[version] 0 (low nibble first), [tos] 1,
    [len] 2, [id] 4, [frag_offset] 6, [ttl] 8, [proto] 9, [csum] 10, [saddr] 12,
    [daddr] 16. *)
Definition IPH : nat := 14.

Definition ip_ihl (b : list Z) : Z := Z.land (ld8 b IPH) 15.
Definition ip_version (b : list Z) : Z := Z.shiftr (ld8 b IPH) 4.

Definition ip_send_check (b : list Z) : list Z :=
  st16 b (IPH + 10) (checksum (ld_bytes b IPH (Z.to_nat (ip_ihl b * 4))) 0).

Definition le32 (v : Z) : list Z := [v mod 256; (v / 256) mod 256; (v / 65536) mod 256; (v / 16777216) mod 256].

(** [saddr] and [daddr] as stored, in network order. *)
Definition tcp_v4_ip_partion_checksum (saddr daddr csum : Z) : Z := checksum (le32 saddr ++ le32 daddr) csum.

Definition UDP_HDR_LEN : Z := 8.
Definition UDPH : nat := 34.  (** [udp_hdr]: [sport] 0, [dport] 2, [length] 4, [csum] 6 *)
Definition UDP_PSEUDO_LEN : Z := 12.
Definition MAX_UDP_BUF : Z := UDP_PSEUDO_LEN + 1500.

(** [uhdr] is at offset [o] of [b]; 0 when the datagram exceeds the buffer.  Second:
    whether [print_buffer_hexdump] stays inside its own buffer. *)
Definition calcuate_udp_checksum (saddr daddr : Z) (o : nat) (b : list Z) : Z * bool :=
  let length := ld16 b (o + 4) in
  let pseudo := le32 saddr ++ le32 daddr ++ [0; IP_UDP] ++ [length mod 256; length / 256] in
  if MAX_UDP_BUF <? UDP_PSEUDO_LEN + bswap16 length then (0, true)
  else
    let buf := st16 (pseudo ++ ld_bytes b o (Z.to_nat (bswap16 length))) 18 0 in
    (checksum buf 0, bool_decide (is_Some (print_buffer_hexdump buf))).

(** The IPv4 header fields, in network order; [len] is [skb->len]. *)
Definition ip_fill (len proto saddr daddr : Z) (b : list Z) : list Z :=
  let b := st8 b IPH (IPV4 * 16 + 5) in
  let b := st8 b (IPH + 1) 0 in
  let b := st16 b (IPH + 2) (bswap16 (u16 len)) in
  let b := st16 b (IPH + 4) (bswap16 (ld16 b (IPH + 4))) in
  let b := st16 b (IPH + 6) (bswap16 16384) in
  let b := st8 b (IPH + 8) 64 in
  let b := st8 b (IPH + 9) proto in
  let b := st16 b (IPH + 10) 0 in
  let b := st32 b (IPH + 12) (bswap32 saddr) in
  st32 b (IPH + 16) (bswap32 daddr).

(** The transport checksum: UDP's at [udp_hdr(skb)], TCP's at [skb->data + 20]. *)
Definition ip_transport_check (b : sk_buff) (buf : list Z) : list Z :=
  let saddr := ld32 buf (IPH + 12) in
  let daddr := ld32 buf (IPH + 16) in
  if ld8 buf (IPH + 9) =? IP_UDP then
    st16 buf (UDPH + 6) (calcuate_udp_checksum saddr daddr UDPH buf).1
  else if ld8 buf (IPH + 9) =? IP_TCP then
    st16 buf (Z.to_nat (skb_data b) + 20 + 16) (tcp_v4_ip_partion_checksum saddr daddr (skb_tcpcsum b))
  else buf.

(** What computing it does outside of the packet. *)
Definition ip_dump_ok (buf : list Z) : bool :=
  if ld8 buf (IPH + 9) =? IP_UDP then (calcuate_udp_checksum (ld32 buf (IPH + 12)) (ld32 buf (IPH + 16)) UDPH buf).2 else true.

Definition ip_output_net (n : net) (daddr : Z) (b : sk_buff) : net * sk_buff * Z :=
  match route_lookup daddr n with
  | None => (n, b, -1)
  | Some i =>
      match n_routes n !! i with
      | None => (n, b, -1)
      | Some rt =>
          let b := set_skb_rt (Some i) (set_skb_dev (rt_dev rt) b) in
          let b := skb_push IP_HDR_LEN b in
          let buf := ip_fill (skb_len b) (skb_protocol b) (nd_addr (dev_of (rt_dev rt) n)) daddr (skb_buf b) in
          let n := if ip_dump_ok buf then n else net_fault_add StackBounds n in
          let buf := ip_send_check (ip_transport_check b buf) in
          let '(b, n, rc) := dst_neigh_output (set_skb_buf buf b) rt n in
          (n, b, rc)
      end
  end.

(** ** IPv6 *)

Definition tcp_v6_ip_partion_checksum (saddr daddr : list Z) (csum : Z) : Z := checksum (saddr ++ daddr) csum.

(** The fixed header, at [skb->data]. *)
Definition ipv6_fill (o : nat) (len nexthdr : Z) (saddr daddr : list Z) (b : list Z) : list Z :=
  let b := ipv6_hdr_set_vtc_flow o IPV6_VERSION 0 0 b in
  let b := st16 b (o + 4) (bswap16 (u16 (len - IPV6_HDR_LEN))) in
  let b := st8 b (o + 6) nexthdr in
  let b := st8 b (o + 7) IPV6_DEFAULT_HOPLIMIT in
  st_bytes (st_bytes b (o + 8) (ld_bytes saddr 0 16)) (o + 24) (ld_bytes daddr 0 16).

(** The header would be written in front of the buffer. *)
Definition in_front (b : sk_buff) : bool := skb_data b <? 0.

(** Always [headroom_reserved == 0].  The source address written to the packet
    is written back to the caller's [saddr]. *)
Definition ipv6_output_net (n : net) (b : sk_buff) (nexthdr : Z) (saddr daddr : list Z) : out6 net :=
  match i ← route6_lookup daddr n; rt ← n_routes n !! i; Some (i, rt) with
  | None => mk_out6 n b true saddr (-1)
  | Some (i, rt) =>
      let b := set_skb_rt (Some i) (set_skb_dev (rt_dev rt) b) in
      let dev := dev_of (rt_dev rt) n in
      let b := skb_push IPV6_HDR_LEN b in
      let n := if in_front b then net_fault_add BufBounds n else n in
      let src :=
        if negb (ipv6_addr_is_unspecified saddr) then saddr
        else if nd_global_valid dev then nd_addr6_global dev
        else nd_addr6_ll dev in
      let buf := ipv6_fill (Z.to_nat (skb_data b)) (skb_len b) nexthdr src daddr (skb_buf b) in
      let buf :=
        if u8 nexthdr =? NEXTHDR_TCP then
          st16 buf (14 + 40 + 16) (tcp_v6_ip_partion_checksum (ld_bytes src 0 16) (ld_bytes daddr 0 16) (skb_tcpcsum b))
        else buf in
      let '(b, n, rc) := dst6_neigh_output (set_skb_buf buf b) rt n in
      mk_out6 n b false src rc
  end.

#[export] Instance net_ip_layer : IpLayer net := {
  route6_view_of n daddr :=
    i ← route6_lookup daddr n; rt ← n_routes n !! i;
    Some (mk_rt6v (rt_pmtu rt)
      (if rt_dev rt =? 0 then None else Some (nd_mtu6 (dev_of (rt_dev rt) n), nd_mtu (dev_of (rt_dev rt) n))));
  ip_output := ip_output_net;
  ipv6_output := ipv6_output_net
}.

(** ** What TCP relies on *)

Lemma netdev_transmit_meta b dst et n : same_meta b (netdev_transmit b dst et n).1.1.
Proof. constructor; simpl; autorewrite with mem; done. Qed.

Lemma dst_meta b rt n : same_meta b (dst_neigh_output b rt n).1.1.
Proof. unfold dst_neigh_output. destruct (arp_get_hwaddr _ n); [apply netdev_transmit_meta|done]. Qed.

Lemma dst6_meta b rt n : same_meta b (dst6_neigh_output b rt n).1.1.
Proof.
  unfold dst6_neigh_output. destruct (ndp_get_hwaddr _ n); [apply netdev_transmit_meta|].
  destruct (ndp_send_ns _ _ _ n) as [n1 rc]. by destruct (match ndp_lookup _ n1 with Some _ => _ | None => _ end).
Qed.

Lemma length_ip_fill l p sa da b : length (ip_fill l p sa da b) = length b.
Proof. unfold ip_fill. by autorewrite with mem. Qed.
Lemma length_transport_check b buf : length (ip_transport_check b buf) = length buf.
Proof. unfold ip_transport_check. destruct (_ =? IP_UDP); [|destruct (_ =? IP_TCP)]; by autorewrite with mem. Qed.
Lemma length_ipv6_fill o l nh sa da b : length (ipv6_fill o l nh sa da b) = length b.
Proof. unfold ipv6_fill, ipv6_hdr_set_vtc_flow. by autorewrite with mem. Qed.

Lemma same_meta_headed k i d buf b :
  length buf = length (skb_buf b) ->
  same_meta b (set_skb_buf buf (skb_push k (set_skb_rt i (set_skb_dev d b)))).
Proof. by constructor. Qed.

Lemma length_ip_send_check b : length (ip_send_check b) = length b.
Proof. apply length_st16. Qed.

Lemma ip_output_net_meta n d b : same_meta b (ip_output_net n d b).1.2.
Proof.
  unfold ip_output_net. destruct (route_lookup d n) as [i|]; [|done]. destruct (n_routes n !! i) as [rt|]; [|done].
  cbv zeta. set (b1 := set_skb_buf _ _). assert (M1 : same_meta b b1).
  { apply same_meta_headed. by rewrite length_ip_send_check, length_transport_check, length_ip_fill. }
  clearbody b1. set (n1 := if ip_dump_ok _ then n else _). pose proof (dst_meta b1 rt n1) as M.
  destruct (dst_neigh_output b1 rt n1) as [[b2 n2] rc]. cbn [fst snd] in *. by transitivity b1.
Qed.

Lemma ipv6_output_net_meta n b nh sa da : same_meta b (o6_skb (ipv6_output_net n b nh sa da)).
Proof.
  unfold ipv6_output_net. destruct (_ ≫= _) as [[i rt]|]; [|done]. cbv zeta. set (b1 := set_skb_buf _ _).
  assert (M1 : same_meta b b1).
  { apply same_meta_headed. destruct (_ =? NEXTHDR_TCP); rewrite ?length_st16; by rewrite length_ipv6_fill. }
  clearbody b1. set (n1 := if in_front _ then _ else n). pose proof (dst6_meta b1 rt n1) as M. destruct (dst6_neigh_output b1 rt n1) as [[b2 n2] rc].
  cbn [fst snd o6_skb] in *. by transitivity b1.
Qed.

(** Bytes from [o] on but for the checksum: what the two outputs write lies
    elsewhere, when [skb->data] is at the TCP header. *)

Lemma netdev_transmit_front b dst et n i :
  14 <= skb_data b -> (Z.to_nat (skb_data b) <= i)%nat ->
  ld8 (skb_buf (netdev_transmit b dst et n).1.1) i = ld8 (skb_buf b) i.
Proof.
  intros H1 H2. simpl skb_buf. unfold ETH_HDR_LEN.
  set (o := Z.to_nat (skb_data b - 14)). assert ((o + 14 <= i)%nat) by lia. clearbody o.
  rewrite ld8_st16_ne by lia.
  rewrite !ld8_st_bytes_ne by (rewrite length_take; unfold addr_len; lia). done.
Qed.

Lemma dst_front b rt n i :
  14 <= skb_data b -> (Z.to_nat (skb_data b) <= i)%nat ->
  ld8 (skb_buf (dst_neigh_output b rt n).1.1) i = ld8 (skb_buf b) i.
Proof. intros. unfold dst_neigh_output. destruct (arp_get_hwaddr _ n); [by apply netdev_transmit_front|done]. Qed.

Lemma dst6_front b rt n i :
  14 <= skb_data b -> (Z.to_nat (skb_data b) <= i)%nat ->
  ld8 (skb_buf (dst6_neigh_output b rt n).1.1) i = ld8 (skb_buf b) i.
Proof.
  intros. unfold dst6_neigh_output. destruct (ndp_get_hwaddr _ n); [by apply netdev_transmit_front|].
  destruct (ndp_send_ns _ _ _ n) as [n1 rc]. by destruct (match ndp_lookup _ n1 with Some _ => _ | None => _ end).
Qed.

Lemma ip_fill_front l p sa da b i : (34 <= i)%nat -> ld8 (ip_fill l p sa da b) i = ld8 b i.
Proof.
  intros. unfold ip_fill, IPH. cbv zeta.
  repeat first [rewrite ld8_st32_ne by lia|rewrite ld8_st16_ne by lia|rewrite ld8_st8_ne by lia]. done.
Qed.

Lemma ip_fill_proto l p sa da b :
  ld8 (ip_fill l p sa da b) (IPH + 9) = u8 p \/ ld8 (ip_fill l p sa da b) (IPH + 9) = 0.
Proof.
  destruct (decide (IPH + 9 < length b)%nat) as [D|D].
  - left. unfold ip_fill, IPH in *. cbv zeta. rewrite !ld8_st32_ne by lia. rewrite ld8_st16_ne by lia.
    apply ld8_st8_eq. autorewrite with mem. lia.
  - right. unfold ld8. rewrite lookup_ge_None_2; [done|]. rewrite length_ip_fill. lia.
Qed.

Lemma ip_send_check_front b i : (34 <= i)%nat -> ld8 (ip_send_check b) i = ld8 b i.
Proof. intros. unfold ip_send_check, IPH. by rewrite ld8_st16_ne by lia. Qed.

Lemma ip_output_net_segment n d b :
  skb_protocol b = IP_TCP -> skb_data b = Z.of_nat (tcp_hdr_for_sk AF_INET) ->
  same_segment (tcp_hdr_for_sk AF_INET) (skb_buf b) (skb_buf (ip_output_net n d b).1.2).
Proof.
  change (tcp_hdr_for_sk AF_INET) with 34%nat. intros Hp Hd i Hi N1 N2.
  unfold ip_output_net. destruct (route_lookup d n) as [r|]; [|done]. destruct (n_routes n !! r) as [rt|]; [|done].
  cbv zeta. set (b1 := skb_push _ _). set (buf := ip_fill _ _ _ _ _).
  assert (D1 : skb_data b1 = 14) by (unfold b1; simpl; rewrite Hd; done).
  assert (B1 : ld8 buf i = ld8 (skb_buf b) i) by (apply ip_fill_front; done).
  assert (P1 : ld8 buf (IPH + 9) <> IP_UDP).
  { pose proof (ip_fill_proto (skb_len b1) (skb_protocol b1) (nd_addr (dev_of (rt_dev rt) n)) d (skb_buf b1)) as [E|E];
      fold buf in E; rewrite E; [|done]. change (skb_protocol b1) with (skb_protocol b). by rewrite Hp. }
  assert (C1 : ld8 (ip_send_check (ip_transport_check b1 buf)) i = ld8 (skb_buf b) i).
  { rewrite ip_send_check_front by lia. unfold ip_transport_check. cbv zeta.
    apply Z.eqb_neq in P1. rewrite P1. destruct (_ =? IP_TCP); [|done]. rewrite D1. by rewrite ld8_st16_ne by lia. }
  set (b2 := set_skb_buf _ b1). set (n1 := if ip_dump_ok _ then n else _). pose proof (dst_front b2 rt n1 i ltac:(change (14 <= skb_data b1); lia) ltac:(change (Z.to_nat (skb_data b1) <= i)%nat; lia)) as F.
  destruct (dst_neigh_output b2 rt n1) as [[b3 n3] rc]. cbn [fst snd] in *. rewrite F. exact C1.
Qed.

Lemma ipv6_fill_front o l nh sa da b i : (o + 40 <= i)%nat -> ld8 (ipv6_fill o l nh sa da b) i = ld8 b i.
Proof.
  intros. unfold ipv6_fill, ipv6_hdr_set_vtc_flow. cbv zeta.
  rewrite !ld8_st_bytes_ne by (autorewrite with mem; lia).
  repeat first [rewrite ld8_st32_ne by lia|rewrite ld8_st16_ne by lia|rewrite ld8_st8_ne by lia]. done.
Qed.

Lemma ipv6_output_net_segment n b sa da :
  skb_data b = Z.of_nat (tcp_hdr_for_sk AF_INET6) ->
  same_segment (tcp_hdr_for_sk AF_INET6) (skb_buf b) (skb_buf (o6_skb (ipv6_output_net n b IP_TCP sa da))).
Proof.
  change (tcp_hdr_for_sk AF_INET6) with 54%nat. intros Hd i Hi N1 N2.
  unfold ipv6_output_net. destruct (_ ≫= _) as [[r rt]|]; [|done]. cbv zeta. set (b1 := skb_push _ _).
  assert (D1 : skb_data b1 = 14) by (unfold b1; simpl; rewrite Hd; done).
  match goal with |- context [set_skb_buf ?x b1] => set (buf := x) end.
  assert (C1 : ld8 buf i = ld8 (skb_buf b) i).
  { unfold buf. destruct (_ =? NEXTHDR_TCP); rewrite ?ld8_st16_ne by lia; rewrite D1, ipv6_fill_front by lia; done. }
  clearbody buf. set (b2 := set_skb_buf buf b1). set (n1 := if in_front _ then _ else n).
  pose proof (dst6_front b2 rt n1 i ltac:(change (14 <= skb_data b1); lia) ltac:(change (Z.to_nat (skb_data b1) <= i)%nat; lia)) as F.
  destruct (dst6_neigh_output b2 rt n1) as [[b3 n3] rc]. cbn [fst snd o6_skb] in *. by rewrite F.
Qed.

#[export] Instance net_ip_laws : IpLayerLaws net.
Proof.
  constructor.
  - apply ip_output_net_meta.
  - apply ipv6_output_net_meta.
  - apply ip_output_net_segment.
  - apply ipv6_output_net_segment.
Qed.

(** ** Checksums on the wire *)

Lemma ip_fill_ok l p sa da b : bytes_ok b -> bytes_ok (ip_fill l p sa da b).
Proof. intros Hb. unfold ip_fill. auto 20 with cint. Qed.

Ltac past_stores := repeat first [rewrite ld8_st32_ne by lia|rewrite ld8_st16_ne by lia|rewrite ld8_st8_ne by lia].

Lemma ip_fill_ihl l p sa da b : (34 <= length b)%nat -> ip_ihl (ip_fill l p sa da b) = 5.
Proof.
  intros Hl. unfold ip_ihl, ip_fill, IPH. cbv zeta. past_stores. rewrite ld8_st8_eq by lia. done.
Qed.

Lemma ip_fill_csum l p sa da b : (34 <= length b)%nat ->
  ld8 (ip_fill l p sa da b) 24 = 0 /\ ld8 (ip_fill l p sa da b) 25 = 0.
Proof.
  intros Hl. unfold ip_fill, IPH. cbv zeta. change (14 + 10)%nat with 24%nat.
  set (c := st8 _ (14 + 9) _).
  assert (Hc : (34 <= length c)%nat) by (unfold c; autorewrite with mem; lia). clearbody c.
  split; rewrite !ld8_st32_ne by lia; unfold st16.
  - rewrite ld8_st8_ne by lia. rewrite ld8_st8_eq by lia. done.
  - rewrite (ld8_st8_eq _ 25); [done|]. autorewrite with mem. lia.
Qed.

(** The transport checksum leaves the IPv4 header alone. *)
Lemma transport_check_header b buf i :
  14 <= skb_data b -> (i < 34)%nat -> ld8 (ip_transport_check b buf) i = ld8 buf i.
Proof.
  intros Hd Hi. unfold ip_transport_check, UDPH. cbv zeta.
  destruct (_ =? IP_UDP); [by rewrite ld8_st16_ne by lia|].
  destruct (_ =? IP_TCP); [by rewrite ld8_st16_ne by lia|done].
Qed.

Lemma transport_check_ok b buf : bytes_ok buf -> bytes_ok (ip_transport_check b buf).
Proof.
  intros Hb. unfold ip_transport_check. destruct (_ =? IP_UDP); [auto with cint|]. destruct (_ =? IP_TCP); auto with cint.
Qed.

(** A 20-byte header sums without overflow. *)
Lemma header_sum_small b : bytes_ok b -> 0 + word_sum (ld_bytes b 14 20) + 65535 < 4294967296.
Proof.
  intros Hb. pose proof (word_sum_bounds _ (ld_bytes_ok b 14 20 Hb)) as [_ W]. rewrite length_ld_bytes in W.
  change ((Z.of_nat 20 + 1) / 2) with 10 in W. lia.
Qed.

(** What [ip_output] puts on the buffer behind the Ethernet header, when there
    is a route. *)
Definition ip_packet (rt : rtentry) (i : nat) (d : Z) (n : net) (b : sk_buff) : list Z :=
  let b := skb_push IP_HDR_LEN (set_skb_rt (Some i) (set_skb_dev (rt_dev rt) b)) in
  ip_send_check (ip_transport_check b
    (ip_fill (skb_len b) (skb_protocol b) (nd_addr (dev_of (rt_dev rt) n)) d (skb_buf b))).

Lemma ip_output_packet n d b i rt k :
  route_lookup d n = Some i -> n_routes n !! i = Some rt -> skb_data b = 34 -> (14 <= k)%nat ->
  ld8 (skb_buf (ip_output_net n d b).1.2) k = ld8 (ip_packet rt i d n b) k.
Proof.
  intros Hi Hr Hd Hk. unfold ip_output_net. rewrite Hi, Hr. cbv zeta.
  set (b1 := skb_push _ _). assert (D1 : skb_data b1 = 14) by (unfold b1; simpl; by rewrite Hd).
  set (b2 := set_skb_buf _ b1). set (n1 := if ip_dump_ok _ then n else _).
  pose proof (dst_front b2 rt n1 k ltac:(change (14 <= skb_data b1); lia) ltac:(change (Z.to_nat (skb_data b1) <= k)%nat; lia)) as F.
  destruct (dst_neigh_output b2 rt n1) as [[b3 n3] rc]. cbn [fst snd] in *. rewrite F. done.
Qed.

Lemma ip_packet_header rt i d n b :
  bytes_ok (skb_buf b) -> (34 <= length (skb_buf b))%nat -> skb_data b = 34 ->
  checksum (ld_bytes (ip_packet rt i d n b) 14 20) 0 = 0.
Proof.
  intros Hb Hl Hd. unfold ip_packet. cbv zeta. set (b1 := skb_push _ _).
  assert (D1 : skb_data b1 = 14) by (unfold b1; simpl; by rewrite Hd). change (skb_buf b) with (skb_buf b1) in *.
  set (buf := ip_fill _ _ _ _ _).
  assert (B1 : bytes_ok (ip_transport_check b1 buf)) by (by apply transport_check_ok, ip_fill_ok).
  assert (Hd8 : forall k, (k < 34)%nat -> ld8 (ip_transport_check b1 buf) k = ld8 buf k)
    by (intros; apply transport_check_header; lia).
  assert (L1 : length (ip_transport_check b1 buf) = length (skb_buf b1))
    by (unfold buf; by rewrite length_transport_check, length_ip_fill).
  assert (I1 : ip_ihl (ip_transport_check b1 buf) = 5).
  { unfold ip_ihl, IPH. rewrite Hd8 by lia. apply ip_fill_ihl. lia. }
  destruct (ip_fill_csum (skb_len b1) (skb_protocol b1) (nd_addr (dev_of (rt_dev rt) n)) d (skb_buf b1) Hl) as [C1 C2].
  fold buf in C1, C2. clearbody buf.
  unfold ip_send_check. rewrite I1. apply (checksum_stored _ 14 20 10 0); try done; try lia.
  - rewrite Hd8 by lia. done.
  - rewrite Hd8 by lia. done.
  - by apply header_sum_small.
Qed.

Lemma le32_ld32 b o : bytes_ok b -> le32 (ld32 b o) = ld_bytes b o 4.
Proof.
  intros Hb. unfold le32, ld32, ld16, ld_bytes. simpl.
  pose proof (ld8_range b o Hb). pose proof (ld8_range b (o + 1) Hb).
  pose proof (ld8_range b (o + 2) Hb). pose proof (ld8_range b (o + 3) Hb).
  rewrite Nat.add_0_r. replace (o + 2 + 1)%nat with (o + 3)%nat by lia.
  set (x := ld8 b o) in *. set (y := ld8 b (o + 1)) in *. set (z := ld8 b (o + 2)) in *. set (w := ld8 b (o + 3)) in *.
  clearbody x y z w. unfold is_u8 in *. f_equal; [|f_equal; [|f_equal; [|f_equal]]]; Z.div_mod_to_equations; lia.
Qed.

Lemma ip_fill_addrs l p sa da b : bytes_ok b -> (34 <= length b)%nat ->
  let buf := ip_fill l p sa da b in
  le32 (ld32 buf (IPH + 12)) ++ le32 (ld32 buf (IPH + 16)) = ld_bytes buf 26 8.
Proof. intros Hb Hl buf. rewrite !le32_ld32 by (by apply ip_fill_ok). symmetry. apply (ld_bytes_app buf 26 4 4). Qed.

(** The TCP checksum as it leaves verifies over pseudo-header and segment. *)
Lemma ip_packet_tcp_checksum rt i d n b :
  bytes_ok (skb_buf b) -> skb_protocol b = IP_TCP -> skb_data b = 34 ->
  20 <= skb_len b < 65536 -> (34 + Z.to_nat (skb_len b) <= length (skb_buf b))%nat ->
  ld8 (skb_buf b) 50 = 0 -> ld8 (skb_buf b) 51 = 0 -> skb_tcpcsum b = tcp_v4_tcp_partion_checksum b ->
  let buf := ip_packet rt i d n b in
  checksum (ld_bytes buf 26 8 ++ [0; IP_TCP; u8 (Z.shiftr (skb_len b) 8); u8 (Z.land (skb_len b) 255)] ++
            ld_bytes buf 34 (Z.to_nat (skb_len b))) 0 = 0.
Proof.
  intros Hb Hp Hd Hr Hl Z0 Z1 Hcs. cbv zeta. unfold ip_packet. cbv zeta. set (b1 := skb_push _ _).
  assert (D1 : skb_data b1 = 14) by (unfold b1; simpl; by rewrite Hd).
  change (skb_buf b) with (skb_buf b1) in *. change (skb_protocol b) with (skb_protocol b1) in *.
  change (skb_tcpcsum b) with (skb_tcpcsum b1) in Hcs.
  set (buf := ip_fill _ _ _ _ _).
  assert (Hlen : length buf = length (skb_buf b1)) by apply length_ip_fill.
  assert (Hbuf : bytes_ok buf) by (by apply ip_fill_ok).
  assert (Hfront : forall k, (34 <= k)%nat -> ld8 buf k = ld8 (skb_buf b1) k) by (intros; by apply ip_fill_front).
  assert (Haddr := ip_fill_addrs (skb_len b1) (skb_protocol b1) (nd_addr (dev_of (rt_dev rt) n)) d (skb_buf b1) Hb ltac:(lia)).
  cbv zeta in Haddr. fold buf in Haddr.
  assert (Hproto : ld8 buf (IPH + 9) = IP_TCP).
  { unfold buf, ip_fill, IPH. cbv zeta. past_stores. rewrite ld8_st8_eq by (autorewrite with mem; lia). by rewrite Hp. }
  assert (Hseg : skb_bytes b = ld_bytes buf 34 (Z.to_nat (skb_len b))).
  { unfold skb_bytes. rewrite Hd. apply ld_bytes_ext. intros. rewrite Hfront by lia. done. }
  clearbody buf. unfold ip_transport_check. cbv zeta. rewrite Hproto, Hcs. change (IP_TCP =? IP_UDP) with false.
  change (IP_TCP =? IP_TCP) with true. cbv match. rewrite D1. change (Z.to_nat 14 + 20 + 16)%nat with (34 + 16)%nat.
  unfold tcp_v4_ip_partion_checksum. rewrite Haddr. unfold tcp_v4_tcp_partion_checksum. cbv zeta. rewrite Hseg.
  unfold ip_send_check, IPH.
  set (cs := checksum (ld_bytes buf 26 8) _). set (buf2 := st16 buf (34 + 16) cs).
  rewrite (ld_bytes_ext _ buf 26 8) by (intros; unfold buf2; rewrite !ld8_st16_ne by lia; done).
  rewrite (ld_bytes_ext _ buf2 34) by (intros; apply ld8_st16_ne; lia).
  apply checksum_stored_parts; try done; try lia.
  - by apply ld_bytes_ok.
  - repeat (apply Forall_cons_2; [first [apply u8_range|unfold is_u8, IP_TCP; lia]|]). by apply Forall_nil_2.
  - rewrite Hfront by lia. done.
  - rewrite Hfront by lia. done.
  - pose proof (word_sum_bounds _ (ld_bytes_ok buf 26 8 Hbuf)) as [_ W1]. rewrite length_ld_bytes in W1.
    pose proof (word_sum_bounds _ (ld_bytes_ok buf 34 (Z.to_nat (skb_len b)) Hbuf)) as [_ W2]. rewrite length_ld_bytes in W2.
    pose proof (u8_range (Z.shiftr (skb_len b) 8)). pose proof (u8_range (Z.land (skb_len b) 255)).
    cbn [word_sum]. change (Z.of_nat 8) with 8 in W1. unfold IP_TCP. ulia.
Qed.

End IpOut.
