(* ===== verification/Frame.v ===== *)
(** An IPv4 TCP segment from [tcp_transmit_skb] down to the frame [tun_write]
    hands to the TAP device: the composition of [src/src/tcp_output.c],
    [src/src/ip_output.c], [src/src/dst.c] and [src/src/netdev.c]. *)
From S2P Require Import Prelude Utils SkBuff TcpTypes TcpBase TcpOutput TcpSender TcpWire Ipv6 Net Neigh IpOut.
Import Utils SkBuff TcpTypes TcpBase TcpOutput TcpSender TcpWire Ipv6 Net Neigh IpOut.

Module Frame.

Section Build.
Context {L : Type} `{IpLayerLaws L}.
Implicit Type s : st L.

Lemma fill_header_ok seq s o buf : bytes_ok buf -> bytes_ok (fill_header seq s o buf).
Proof. intros. unfold fill_header, th_set_rsvd. auto 20 with cint. Qed.

Lemma fill_header_csum seq s o buf : (o + 20 <= length buf)%nat ->
  ld8 (fill_header seq s o buf) (o + 16) = 0 /\ ld8 (fill_header seq s o buf) (o + 17) = 0.
Proof.
  intros Hl. unfold fill_header. cbv zeta. set (m := st16 _ (o + 14) _).
  assert (Hm : length m = length buf) by (unfold m, th_set_rsvd; by autorewrite with mem). clearbody m.
  split; rewrite ld8_st16_ne by lia; unfold st16; replace (o + 16 + 1)%nat with (o + 17)%nat by lia.
  - rewrite ld8_st8_ne by lia. rewrite ld8_st8_eq by lia. done.
  - rewrite (ld8_st8_eq _ (o + 17)); [done|]. autorewrite with mem. lia.
Qed.

(** A segment without options, ready for IP: nothing else of the state changes. *)
Lemma build_segment_plain b seq s :
  plain (sk_addr_family (sk s)) b -> bytes_ok (skb_buf b) -> 0 <= skb_len b < 65000 ->
  let o := tcp_hdr_for_sk (sk_addr_family (sk s)) in
  let b1 := (build_segment b seq s).1 in
  (build_segment b seq s).2 = s /\ skb_len b1 = skb_len b + 20 /\ bytes_ok (skb_buf b1) /\
  ld8 (skb_buf b1) (o + 16) = 0 /\ ld8 (skb_buf b1) (o + 17) = 0.
Proof.
  intros (Hp & Hh & Hl & Hda) Hb Hr. unfold build_segment. set (fam := sk_addr_family (sk s)) in *.
  set (o := tcp_hdr_for_sk fam) in *. set (b0 := if _ : bool then _ else b).
  assert (length (skb_buf b0) = length (skb_buf b) /\ th_get_hl o (skb_buf b0) = 5 /\ skb_len b0 = skb_len b /\
    bytes_ok (skb_buf b0)) as (D1 & H1 & P1 & A1).
  { unfold b0. destruct (Z.eqb_spec (th_get_hl o (skb_buf b)) 0) as [E|E].
    - split; [apply set_hl_data|]. split; [apply th_get_set_hl; [|done]; fold o; lia|]. split; [done|].
      simpl. unfold th_set_hl. by apply st8_ok.
    - split; [done|]. split; [lia|done]. }
  clearbody b0. rewrite H1. cbn [fst snd]. change (5 <? 5) with false. cbv match. cbn [fst snd].
  split; [done|]. split; [change (u32 (skb_len b0 + 20) = skb_len b + 20); rewrite P1; apply u32_id; red; lia|]. split; [by apply fill_header_ok|]. apply fill_header_csum. change (o + 20 <= length (skb_buf b0))%nat. lia.
Qed.

End Build.

(** ** The device *)

Lemma transmit_eth b dst et n :
  skb_data b = 14 -> (14 <= length (skb_buf b))%nat -> 0 <= skb_len b < 65536 -> length dst = 6%nat ->
  let b' := (netdev_transmit b dst et n).1.1 in
  skb_data b' = 0 /\ skb_len b' = skb_len b + 14 /\ length (skb_buf b') = length (skb_buf b) /\
  ld_bytes (skb_buf b') 0 6 = dst /\ ld16 (skb_buf b') 12 = bswap16 et.
Proof.
  intros Hd Hl Hr Hm b'. unfold b', netdev_transmit, tun_write. cbv zeta. cbn [fst snd]. simpl skb_data. simpl skb_len.
  simpl skb_buf. rewrite Hd. change (Z.to_nat (14 - ETH_HDR_LEN)) with 0%nat. change (Z.to_nat addr_len) with 6%nat.
  split; [done|]. split; [unfold ETH_HDR_LEN; apply u32_id; red; lia|]. split; [by autorewrite with mem|].
  rewrite (take_ge dst) by lia. set (hw := take 6 _). assert (Hh : (length hw <= 6)%nat) by (unfold hw; rewrite length_take; lia).
  clearbody hw. split.
  - rewrite (ld_bytes_ext _ (st_bytes (skb_buf b) 0 dst)).
    + rewrite <- Hm. apply ld_bytes_st_bytes. lia.
    + intros i Hi. rewrite ld8_st16_ne by lia. by rewrite ld8_st_bytes_ne by lia.
  - rewrite (ld16_st16_eq _ (0 + 12)) by (autorewrite with mem; lia). apply u16_id, bswap16_range.
Qed.

(** ** The segment on the wire *)

(** What a frame with an IPv4 TCP segment of [len] bytes has to be. *)
Record tcp_frame (f dmac data : list Z) (saddr daddr len : Z) : Prop := mk_tcp_frame {
  tf_len : Z.of_nat (length f) = 34 + len;
  tf_dmac : ld_bytes f 0 6 = dmac;
  tf_type : ld16 f 12 = bswap16 ETH_P_IP;
  tf_header : checksum (ld_bytes f 14 20) 0 = 0;
  tf_saddr : bswap32 (ld32 f 26) = saddr;
  tf_daddr : bswap32 (ld32 f 30) = daddr;
  tf_segment :
    checksum (ld_bytes f 26 8 ++ [0; IP_TCP; u8 (Z.shiftr len 8); u8 (Z.land len 255)] ++ ld_bytes f 34 (Z.to_nat len)) 0 = 0;
  tf_data : drop 54 f = data
}.

Lemma ld8_ld_bytes b n i : (i < n)%nat -> ld8 (ld_bytes b 0 n) i = ld8 b i.
Proof. intros Hi. unfold ld_bytes, ld8 at 1. rewrite list_lookup_fmap, lookup_seq_lt by done. done. Qed.

Lemma ld_bytes_sub b n o k : (o + k <= n)%nat -> ld_bytes (ld_bytes b 0 n) o k = ld_bytes b o k.
Proof. intros Hk. apply ld_bytes_ext. intros i Hi. apply ld8_ld_bytes. lia. Qed.

Lemma ip_packet_addrs rt i d n b :
  (34 <= length (skb_buf b))%nat -> skb_data b = 34 ->
  is_u32 d -> is_u32 (nd_addr (dev_of (rt_dev rt) n)) ->
  bswap32 (ld32 (ip_packet rt i d n b) 26) = nd_addr (dev_of (rt_dev rt) n) /\
  bswap32 (ld32 (ip_packet rt i d n b) 30) = d.
Proof.
  intros Hl Hd H1 H2. unfold ip_packet. cbv zeta. set (b1 := skb_push _ _).
  assert (D1 : skb_data b1 = 14) by (unfold b1; simpl; by rewrite Hd). change (skb_buf b) with (skb_buf b1) in *.
  set (buf := ip_fill _ _ _ _ _).
  assert (E : forall k, (26 <= k)%nat -> (k + 4 <= 34)%nat ->
    ld32 (ip_send_check (ip_transport_check b1 buf)) k = ld32 buf k).
  { intros k H3 H4. unfold ip_send_check, IPH. rewrite ld32_st16_ne by lia. unfold ld32, ld16.
    rewrite !transport_check_header by lia. done. }
  rewrite !E by lia. unfold buf, ip_fill, IPH. cbv zeta. clear E buf. split.
  - rewrite ld32_st32_ne by lia. rewrite (ld32_st32_eq _ (14 + 12)) by (autorewrite with mem; lia).
    rewrite u32_id by apply bswap32_range. by apply bswap32_invol.
  - rewrite (ld32_st32_eq _ (14 + 16)) by (autorewrite with mem; lia).
    rewrite u32_id by apply bswap32_range. by apply bswap32_invol.
Qed.

(** The payload passes through unchanged. *)
Lemma ip_packet_payload rt i d n b k :
  skb_protocol b = IP_TCP -> skb_data b = 34 -> (54 <= k)%nat -> ld8 (ip_packet rt i d n b) k = ld8 (skb_buf b) k.
Proof.
  intros Hp Hd Hk. unfold ip_packet. cbv zeta. set (b1 := skb_push _ _).
  assert (D1 : skb_data b1 = 14) by (unfold b1; simpl; by rewrite Hd).
  rewrite ip_send_check_front by lia. unfold ip_transport_check, UDPH. cbv zeta. rewrite D1.
  destruct (_ =? IP_UDP); [|destruct (_ =? IP_TCP)]; rewrite ?ld8_st16_ne by lia; by rewrite ip_fill_front by lia.
Qed.

Definition next_hop (rt : rtentry) (d : Z) : Z := if has_gateway rt then ld32 (rt_gateway rt) 0 else d.

(** The layers below once the transport checksum has been computed. *)
Definition ip_dumped (rt : rtentry) (i : nat) (d : Z) (n : net) (b : sk_buff) : net :=
  let b := skb_push IP_HDR_LEN (set_skb_rt (Some i) (set_skb_dev (rt_dev rt) b)) in
  if ip_dump_ok (ip_fill (skb_len b) (skb_protocol b) (nd_addr (dev_of (rt_dev rt) n)) d (skb_buf b)) then n
  else net_fault_add StackBounds n.

Lemma ip_dumped_tcp rt i d n b : skb_protocol b = IP_TCP -> ip_dumped rt i d n b = n.
Proof.
  intros Hp. unfold ip_dumped, ip_dump_ok. cbv zeta. set (b1 := skb_push _ _).
  pose proof (ip_fill_proto (skb_len b1) (skb_protocol b1) (nd_addr (dev_of (rt_dev rt) n)) d (skb_buf b1)) as [E|E]; rewrite E; [|done].
  change (skb_protocol b1) with (skb_protocol b). by rewrite Hp.
Qed.

(** With a route and a resolved next hop, [ip_output] is one transmission. *)
Lemma ip_output_resolved n d b i rt dmac :
  route_lookup d n = Some i -> n_routes n !! i = Some rt -> arp_get_hwaddr (next_hop rt d) n = Some dmac ->
  skb_data b = 34 -> (34 <= length (skb_buf b))%nat -> is_u32 d -> is_u32 (nd_addr (dev_of (rt_dev rt) n)) ->
  let b1 := set_skb_buf (ip_packet rt i d n b) (skb_push IP_HDR_LEN (set_skb_rt (Some i) (set_skb_dev (rt_dev rt) b))) in
  let n1 := ip_dumped rt i d n b in
  (ip_output_net n d b).1 = ((netdev_transmit b1 dmac ETH_P_IP n1).1.2, (netdev_transmit b1 dmac ETH_P_IP n1).1.1).
Proof.
  intros Hi Hr Ha Hd Hl H1 H2 b1 n1. destruct (ip_packet_addrs rt i d n b Hl Hd H1 H2) as [_ Hda].
  unfold ip_output_net. rewrite Hi, Hr. cbv zeta. unfold ip_packet in b1, Hda. cbv zeta in b1, Hda.
  fold b1. unfold dst_neigh_output. cbv zeta. change (skb_buf b1) with (ip_packet rt i d n b).
  fold n1. assert (Ha1 : arp_get_hwaddr (next_hop rt d) n1 = Some dmac) by (unfold n1, ip_dumped; by destruct (ip_dump_ok _)).
  unfold ip_packet. cbv zeta. rewrite Hda. fold (next_hop rt d). unfold ip_dumped in n1. cbv zeta in n1. fold n1. rewrite Ha1.
  by destruct (netdev_transmit b1 dmac ETH_P_IP n1) as [[b2 n2] rc].
Qed.

(** The frame that leaves: the Ethernet header, then the packet. *)
Lemma ip_frame_bytes n d b i rt dmac :
  route_lookup d n = Some i -> n_routes n !! i = Some rt -> arp_get_hwaddr (next_hop rt d) n = Some dmac ->
  length dmac = 6%nat -> is_u32 d -> is_u32 (nd_addr (dev_of (rt_dev rt) n)) -> skb_data b = 34 ->
  0 <= skb_len b < 65500 -> (34 <= length (skb_buf b))%nat ->
  exists f, n_wire (ip_output_net n d b).1.1 = n_wire n ++ [f] /\ Z.of_nat (length f) = 34 + skb_len b /\
    ld_bytes f 0 6 = dmac /\ ld16 f 12 = bswap16 ETH_P_IP /\
    forall k, (14 <= k < length f)%nat -> ld8 f k = ld8 (ip_packet rt i d n b) k.
Proof.
  intros Hi Hr Ha Hm H1 H2 Hd Hlen Hl.
  pose proof (ip_output_resolved n d b i rt dmac Hi Hr Ha Hd Hl H1 H2) as R. cbv zeta in R.
  set (b1 := set_skb_buf _ _) in R. set (n1 := ip_dumped rt i d n b) in R. pose proof (transmit_wire_eq b1 dmac ETH_P_IP n1) as W.
  assert (Wn : n_wire n1 = n_wire n) by (unfold n1, ip_dumped; by destruct (ip_dump_ok _)). rewrite Wn in W. clearbody n1.
  assert (L1 : skb_len b1 = skb_len b + 20) by (change (u32 (skb_len b + 20) = skb_len b + 20); apply u32_id; red; lia).
  assert (D1 : skb_data b1 = 14) by (change (skb_data b - 20 = 14); by rewrite Hd).
  assert (N1 : length (skb_buf b1) = length (skb_buf b)).
  { change (length (ip_packet rt i d n b) = length (skb_buf b)). unfold ip_packet. cbv zeta. by rewrite length_ip_send_check, length_transport_check, length_ip_fill. }
  destruct (transmit_eth b1 dmac ETH_P_IP n1 D1 ltac:(lia) ltac:(lia) Hm) as (E1 & E2 & E3 & E4 & E5).
  assert (F : forall k, (14 <= k)%nat -> ld8 (skb_buf (netdev_transmit b1 dmac ETH_P_IP n1).1.1) k = ld8 (ip_packet rt i d n b) k).
  { intros k Hk. rewrite netdev_transmit_front by (rewrite D1; lia). done. }
  set (b2 := (netdev_transmit b1 dmac ETH_P_IP n1).1.1) in *. set (n2 := (netdev_transmit b1 dmac ETH_P_IP n1).1.2) in *.
  rewrite R. cbn [fst]. exists (skb_bytes b2). split; [exact W|]. clear W R. clearbody b2 n2.
  unfold skb_bytes. rewrite E1, E2, L1. change (Z.to_nat 0) with 0%nat. rewrite length_ld_bytes.
  split; [lia|]. split; [rewrite ld_bytes_sub by lia; exact E4|].
  split; [unfold ld16; rewrite !ld8_ld_bytes by lia; exact E5|].
  intros k [Hk1 Hk2]. rewrite ld8_ld_bytes by lia. by apply F.
Qed.

Lemma ip_output_frame n d b i rt dmac :
  route_lookup d n = Some i -> n_routes n !! i = Some rt -> arp_get_hwaddr (next_hop rt d) n = Some dmac ->
  length dmac = 6%nat -> is_u32 d -> is_u32 (nd_addr (dev_of (rt_dev rt) n)) ->
  bytes_ok (skb_buf b) -> skb_protocol b = IP_TCP -> skb_data b = 34 ->
  20 <= skb_len b < 65500 -> (34 + Z.to_nat (skb_len b) <= length (skb_buf b))%nat ->
  ld8 (skb_buf b) 50 = 0 -> ld8 (skb_buf b) 51 = 0 -> skb_tcpcsum b = tcp_v4_tcp_partion_checksum b ->
  exists f, n_wire (ip_output_net n d b).1.1 = n_wire n ++ [f] /\
    tcp_frame f dmac (ld_bytes (skb_buf b) 54 (Z.to_nat (skb_len b) - 20)) (nd_addr (dev_of (rt_dev rt) n)) d (skb_len b).
Proof.
  intros Hi Hr Ha Hm H1 H2 Hb Hp Hd Hlen Hl Z0 Z1 Hcs.
  destruct (ip_frame_bytes n d b i rt dmac Hi Hr Ha Hm H1 H2 Hd ltac:(lia) ltac:(lia)) as (f & W & Lf & M & Ty & F).
  exists f. split; [exact W|].
  assert (S : forall o k, (14 <= o)%nat -> (o + k <= length f)%nat -> ld_bytes f o k = ld_bytes (ip_packet rt i d n b) o k).
  { intros o k Ho Hk. apply ld_bytes_ext. intros. apply F. lia. }
  assert (S32 : forall o, (14 <= o)%nat -> (o + 4 <= length f)%nat -> ld32 f o = ld32 (ip_packet rt i d n b) o).
  { intros o Ho Hk. unfold ld32, ld16. rewrite !F by lia. done. }
  destruct (ip_packet_addrs rt i d n b ltac:(lia) Hd H1 H2) as [A1 A2].
  constructor; [done|done|done| | | | |].
  - rewrite S by lia. by apply ip_packet_header; [| lia |].
  - rewrite S32 by lia. exact A1.
  - rewrite S32 by lia. exact A2.
  - rewrite !S by lia. apply ip_packet_tcp_checksum; try done; lia.
  - rewrite <- (ld_bytes_all f (length f) eq_refl), ld_bytes_drop.
    replace (length f - 54)%nat with (Z.to_nat (skb_len b) - 20)%nat by lia.
    apply ld_bytes_ext. intros. rewrite F by lia. apply ip_packet_payload; [done|done|lia].
Qed.

(** [tcp_transmit_skb] of a segment without options, over IPv4 to a resolved next hop. *)
Lemma segment_frame b seq (s : st net) i rt dmac :
  let n := e_lower (en s) in
  let d := ld32 (sk_daddr (sk s)) 0 in
  sk_addr_family (sk s) = AF_INET -> plain AF_INET b -> bytes_ok (skb_buf b) -> bytes_ok (sk_daddr (sk s)) ->
  skb_len b = skb_dlen b -> 0 <= skb_dlen b < 65000 ->
  route_lookup d n = Some i -> n_routes n !! i = Some rt -> arp_get_hwaddr (next_hop rt d) n = Some dmac ->
  length dmac = 6%nat -> is_u32 (nd_addr (dev_of (rt_dev rt) n)) ->
  exists f, n_wire (e_lower (en (tcp_transmit_skb b seq s).1.2)) = n_wire n ++ [f] /\
    tcp_frame f dmac (ld_bytes (skb_buf b) 54 (Z.to_nat (skb_dlen b))) (nd_addr (dev_of (rt_dev rt) n)) d (20 + skb_dlen b).
Proof.
  intros n d Hf Hpl Hb Hda Hln Hdl Hi Hr Ha Hm H2.
  pose proof (build_segment_data b seq s ltac:(by rewrite Hf)) as (Dd & Pd & Ad).
  pose proof (build_segment_plain b seq s ltac:(by rewrite Hf) Hb ltac:(lia)) as (Es & El & Eb & E0 & E1).
  cbv zeta in *. rewrite Hf in *. change (tcp_hdr_for_sk AF_INET) with 34%nat in *.
  destruct Hpl as (_ & _ & Hl & _). change (tcp_hdr_for_sk AF_INET) with 34%nat in Hl.
  destruct Dd as [Dl Dd]. unfold tcp_transmit_skb.
  destruct (build_segment b seq s) as [b1 s1]. cbn [fst snd] in *. subst s1. rewrite Hf.
  change (AF_INET =? AF_INET6) with false. cbv match zeta.
  set (b2 := set_skb_tcpcsum _ b1).
  destruct (ip_output_frame n d b2 i rt dmac) as (f & W & T); try done.
  - unfold d. by apply ld32_range.
  - change (20 <= skb_len b1 < 65500). lia.
  - change (34 + Z.to_nat (skb_len b1) <= length (skb_buf b1))%nat. lia.
  - exists f. change (ip_output (e_lower (en s)) (ld32 (sk_daddr (sk s)) 0) b2) with (ip_output_net n d b2).
    destruct (ip_output_net n d b2) as [[l b3] rc]. cbn [fst snd] in *. split; [exact W|].
    change (skb_len b2) with (skb_len b1) in T. change (skb_buf b2) with (skb_buf b1) in T.
    replace (20 + skb_dlen b) with (skb_len b1) by lia.
    rewrite (ld_bytes_ext (skb_buf b) (skb_buf b1)) by (intros; rewrite Dd; [done|lia]).
    replace (Z.to_nat (skb_dlen b)) with (Z.to_nat (skb_len b1) - 20)%nat by lia. exact T.
Qed.

End Frame.
