(* ===== verification/TcpFrame.v ===== *)
(** The frames [tcp_send] puts on the wire over IPv4: for every segment the whole
    frame, from the Ethernet type to the last data byte, so that a receiver can be run
    on it. *)
From S2P Require Import Prelude Utils SkBuff Timer TcpTypes TcpBase TcpOutput TcpSender TcpWire Ipv6 Net Neigh IpOut Frame.
Import Utils SkBuff Timer TcpTypes TcpBase TcpOutput TcpSender TcpWire Ipv6 Net Neigh IpOut Frame.

Module TcpFrame.

(** A frame with a data segment: no options, of the flags ACK set and SYN, FIN, RST
    clear. *)
Record data_frame (f data : list Z) (saddr daddr sport dport seq ack : Z) : Prop := {
  df_len : length f = (54 + length data)%nat;
  df_type : ld16 f 12 = bswap16 ETH_P_IP;
  df_version : ld8 f 14 = 69;
  df_total : bswap16 (ld16 f 16) = 40 + Z.of_nat (length data);
  df_ttl : ld8 f 22 = 64;
  df_proto : ld8 f 23 = IP_TCP;
  df_header : checksum (ld_bytes f 14 20) 0 = 0;
  df_saddr : bswap32 (ld32 f 26) = saddr;
  df_daddr : bswap32 (ld32 f 30) = daddr;
  df_sport : bswap16 (ld16 f 34) = sport;
  df_dport : bswap16 (ld16 f 36) = dport;
  df_seq : bswap32 (ld32 f 38) = seq;
  df_ack : bswap32 (ld32 f 42) = ack;
  df_hl : th_get_hl 34 f = 5;
  df_flags : th_flag 34 F_ACK f = true /\ th_flag 34 F_SYN f = false /\ th_flag 34 F_FIN f = false /\ th_flag 34 F_RST f = false;
  df_data : ld_bytes f 54 (length data) = data;
  df_ok : forall k, (14 <= k)%nat -> is_u8 (ld8 f k)
}.

(** What IPv4 input looks at in a frame. *)
Record ip_frame (f : list Z) (saddr daddr : Z) : Prop := {
  if_type : ld16 f 12 = bswap16 ETH_P_IP;
  if_version : ld8 f 14 = 69;
  if_total : bswap16 (ld16 f 16) = Z.of_nat (length f) - 14;
  if_ttl : ld8 f 22 = 64;
  if_proto : ld8 f 23 = IP_TCP;
  if_header : checksum (ld_bytes f 14 20) 0 = 0;
  if_saddr : bswap32 (ld32 f 26) = saddr;
  if_daddr : bswap32 (ld32 f 30) = daddr;
  if_ok : forall k, (14 <= k)%nat -> is_u8 (ld8 f k)
}.

Lemma data_ip f data saddr daddr sport dport seq ack :
  data_frame f data saddr daddr sport dport seq ack -> ip_frame f saddr daddr.
Proof. intros []. constructor; try done. rewrite df_total0. lia. Qed.

(** ** The IP packet around a TCP segment *)

Lemma ip_packet_tcp rt i d n b :
  skb_protocol b = IP_TCP -> skb_data b = 34 -> bytes_ok (skb_buf b) -> (54 <= length (skb_buf b))%nat ->
  0 <= skb_len b < 65500 ->
  let P := ip_packet rt i d n b in
  (ld8 P 14 = 69 /\ ld16 P 16 = bswap16 (skb_len b + 20) /\ ld8 P 22 = 64 /\ ld8 P 23 = IP_TCP) /\
  (forall k, (34 <= k)%nat -> k <> 50%nat -> k <> 51%nat -> ld8 P k = ld8 (skb_buf b) k) /\ bytes_ok P.
Proof.
  intros Hp Hd Hb Hl Hr. cbv zeta. unfold ip_packet. cbv zeta. set (b1 := skb_push _ _).
  change (skb_buf b) with (skb_buf b1) in *. change (skb_protocol b) with (skb_protocol b1) in Hp.
  assert (El : skb_len b1 = skb_len b + 20) by (change (u32 (skb_len b + 20) = skb_len b + 20); apply u32_id; red; lia).
  set (buf := ip_fill _ _ _ _ _). assert (Ob : bytes_ok buf) by (by apply ip_fill_ok).
  assert (Fr : forall k, (34 <= k)%nat -> ld8 buf k = ld8 (skb_buf b1) k) by (intros; by apply ip_fill_front).
  assert (V : ld8 buf 14 = 69 /\ ld16 buf 16 = bswap16 (skb_len b + 20) /\ ld8 buf 22 = 64 /\ ld8 buf (IPH + 9) = IP_TCP).
  { unfold buf, ip_fill, IPH. cbv zeta. rewrite Hp, El. split; [|split; [|split]].
    - past_stores. rewrite ld8_st8_eq by (autorewrite with mem; lia). done.
    - mem_simpl. rewrite (u16_id (skb_len b + 20)) by (red; lia). apply u16_id, bswap16_range.
    - past_stores. rewrite ld8_st8_eq by (autorewrite with mem; lia). done.
    - past_stores. rewrite ld8_st8_eq by (autorewrite with mem; lia). done. }
  destruct V as (V1 & V2 & V3 & V4). clearbody buf. unfold ip_transport_check. cbv zeta. rewrite V4.
  change (IP_TCP =? IP_UDP) with false. change (IP_TCP =? IP_TCP) with true. cbv match.
  assert (D1 : skb_data b1 = 14) by (unfold b1; simpl; by rewrite Hd). rewrite D1. change (Z.to_nat 14 + 20 + 16)%nat with 50%nat.
  unfold ip_send_check, IPH. set (hs := checksum _ 0). change (14 + 10)%nat with 24%nat.
  split; [rewrite !ld8_st16_ne, !ld16_st16_ne by lia; by rewrite V1, V2, V3|].
  split; [intros k H1 H2 H3; rewrite !ld8_st16_ne by lia; by apply Fr|]. auto with cint.
Qed.

(** ** One segment *)

(** The buffer of a data segment without options as [build_segment] leaves it. *)
Lemma build_segment_fields b seq (s : st net) :
  sk_addr_family (sk s) = AF_INET -> plain AF_INET b ->
  let m := skb_buf (build_segment b seq s).1 in
  ld16 m 34 = bswap16 (sk_sport (sk s)) /\ ld16 m 36 = bswap16 (sk_dport (sk s)) /\
  ld32 m 38 = bswap32 seq /\ ld32 m 42 = bswap32 (rcv_nxt (tb s)) /\ th_get_hl 34 m = 5 /\
  forall bit, th_flag 34 bit m = th_flag 34 bit (skb_buf b).
Proof.
  intros Hf (Hp & Hh & Hl & Hda). unfold build_segment. rewrite Hf. change (tcp_hdr_for_sk AF_INET) with 34%nat in *.
  set (b1 := if _ : bool then _ else b).
  assert (length (skb_buf b1) = length (skb_buf b) /\ th_get_hl 34 (skb_buf b1) = 5 /\ ld8 (skb_buf b1) 47 = ld8 (skb_buf b) 47) as (L1 & H1 & F1).
  { unfold b1. destruct (Z.eqb_spec (th_get_hl 34 (skb_buf b)) 0) as [E|E].
    - split; [apply set_hl_data|]. split; [apply th_get_set_hl; [|done]; change (tcp_hdr_for_sk AF_INET) with 34%nat; lia|]. unfold with_th, th_set_hl. simpl. by rewrite ld8_st8_ne by lia.
    - split; [done|]. split; [lia|done]. }
  clearbody b1. rewrite H1. change (5 <? 5) with false. cbv match. cbn [fst].
  change (skb_buf (with_th AF_INET (fill_header seq s) (skb_push (5 * 4) b1))) with (fill_header seq s 34 (skb_buf b1)).
  destruct (fill_header_fields seq s 34 (skb_buf b1) ltac:(lia) ltac:(by rewrite H1)) as (E1 & E2 & E3 & E4 & E5 & E6 & _).
  do 4 (split; [done|]). split; [congruence|]. intros bit. unfold th_flag. change (34 + 13)%nat with 47%nat in *. by rewrite E6, F1.
Qed.

(** What sending leaves of the layers below: everything IPv4 output looks at. *)
Record net_kept (n n' : net) : Prop := {
  nk_routes : n_routes n' = n_routes n;
  nk_arp : n_arp n' = n_arp n;
  nk_dev : n_dev n' = n_dev n;
  nk_loop : n_loop n' = n_loop n
}.

#[export] Instance net_kept_preorder : PreOrder net_kept.
Proof. split; [intros n; by constructor|]. intros a b c [] []. constructor; congruence. Qed.

Lemma kept_transmit b dst et n : net_kept n (netdev_transmit b dst et n).1.2.
Proof. constructor; unfold netdev_transmit, tun_write; cbv zeta; cbn [fst snd]; by destruct (in_buffer _), (skb_dev b =? 0). Qed.

(** The way to [d]: the entry of the routing table and the address of the next hop. *)
Record route_to (n : net) (d : Z) (i : nat) (rt : rtentry) (dmac : list Z) : Prop := {
  ro_lookup : route_lookup d n = Some i;
  ro_entry : n_routes n !! i = Some rt;
  ro_arp : arp_get_hwaddr (next_hop rt d) n = Some dmac;
  ro_mac : length dmac = 6%nat;
  ro_addr : is_u32 (nd_addr (dev_of (rt_dev rt) n))
}.

Lemma route_kept n n' d i rt dmac : net_kept n n' -> route_to n d i rt dmac -> route_to n' d i rt dmac.
Proof.
  intros [K1 K2 K3 K4] [R1 R2 R3 R4 R5]. unfold route_lookup, arp_get_hwaddr, dev_of in *.
  constructor; unfold route_lookup, arp_get_hwaddr, dev_of; rewrite ?K1, ?K2, ?K3, ?K4; done.
Qed.
Lemma dev_kept n n' v : net_kept n n' -> nd_addr (dev_of v n') = nd_addr (dev_of v n).
Proof. intros [_ _ K3 K4]. unfold dev_of. by rewrite K3, K4. Qed.

(** A frame [f] with packet [P]. *)
Lemma frame_of_packet f P saddr daddr n :
  Z.of_nat (length f) = 34 + n -> 20 <= n < 65500 -> ld16 f 12 = bswap16 ETH_P_IP ->
  (forall k, (14 <= k < length f)%nat -> ld8 f k = ld8 P k) -> bytes_ok P ->
  ld8 P 14 = 69 -> ld16 P 16 = bswap16 (20 + n) -> ld8 P 22 = 64 -> ld8 P 23 = IP_TCP ->
  checksum (ld_bytes P 14 20) 0 = 0 -> bswap32 (ld32 P 26) = saddr -> bswap32 (ld32 P 30) = daddr ->
  ip_frame f saddr daddr.
Proof.
  intros Lf Hn Ty F Ok V1 V2 V3 V4 Hh A1 A2.
  assert (F16 : forall o, (14 <= o)%nat -> (o + 2 <= length f)%nat -> ld16 f o = ld16 P o)
    by (intros; unfold ld16; by rewrite !F by lia).
  assert (F32 : forall o, (14 <= o)%nat -> (o + 4 <= length f)%nat -> ld32 f o = ld32 P o)
    by (intros; unfold ld32; by rewrite !F16 by lia).
  constructor.
  - done.
  - by rewrite F by lia.
  - rewrite F16 by lia. rewrite V2, bswap16_invol by (red; lia). lia.
  - by rewrite F by lia.
  - by rewrite F by lia.
  - rewrite (ld_bytes_ext f P); [done|]. intros. apply F. lia.
  - by rewrite F32 by lia.
  - by rewrite F32 by lia.
  - intros k Hk. destruct (decide (k < length f)%nat); [rewrite F by lia; by apply ld8_range|].
    unfold ld8. rewrite lookup_ge_None_2 by lia. done.
Qed.

(** The segment [m] in a frame, but for its checksum. *)
Definition segment_in (f m : list Z) : Prop :=
  forall k, (34 <= k < length f)%nat -> k <> 50%nat -> k <> 51%nat -> ld8 f k = ld8 m k.

Lemma in_ld16 f m o : segment_in f m -> (34 <= o)%nat -> (o + 2 <= 50)%nat -> (54 <= length f)%nat -> ld16 f o = ld16 m o.
Proof. intros S H1 H2 H3. unfold ld16. by rewrite !S by lia. Qed.
Lemma in_ld32 f m o : segment_in f m -> (34 <= o)%nat -> (o + 4 <= 50)%nat -> (54 <= length f)%nat -> ld32 f o = ld32 m o.
Proof. intros S H1 H2 H3. unfold ld32. by rewrite !(in_ld16 f m) by (done || lia). Qed.

(** [ip_output] of a segment to a resolved next hop. *)
Lemma segment_out n d b i rt dmac :
  route_to n d i rt dmac -> is_u32 d -> skb_protocol b = IP_TCP -> skb_data b = 34 -> bytes_ok (skb_buf b) ->
  20 <= skb_len b < 65480 -> (34 + Z.to_nat (skb_len b) <= length (skb_buf b))%nat ->
  net_kept n (ip_output_net n d b).1.1 /\
  exists f, n_wire (ip_output_net n d b).1.1 = n_wire n ++ [f] /\ Z.of_nat (length f) = 34 + skb_len b /\
    ip_frame f (nd_addr (dev_of (rt_dev rt) n)) d /\ segment_in f (skb_buf b).
Proof.
  intros [Ri Rr Ra Rm Ru] Hd Pd Ad Eb Hl Hb.
  pose proof (ip_output_resolved n d b i rt dmac Ri Rr Ra Ad ltac:(lia) Hd Ru) as R. cbv zeta in R. rewrite ip_dumped_tcp in R by done.
  destruct (ip_frame_bytes n d b i rt dmac Ri Rr Ra Rm Hd Ru Ad ltac:(lia) ltac:(lia)) as (f & W & Lf & _ & Ty & F).
  apply (f_equal fst) in R. cbn [fst] in R. rewrite R in *. split; [apply kept_transmit|]. exists f. split; [exact W|]. split; [exact Lf|].
  destruct (ip_packet_tcp rt i d n b Pd Ad Eb ltac:(lia) ltac:(lia)) as ((V1 & V2 & V3 & V4) & Fr & Ok).
  destruct (ip_packet_addrs rt i d n b ltac:(lia) Ad Hd Ru) as [A1 A2].
  pose proof (ip_packet_header rt i d n b Eb ltac:(lia) Ad) as Hh. set (P := ip_packet rt i d n b) in *. clearbody P.
  rewrite (Z.add_comm (skb_len b)) in V2. split; [apply (frame_of_packet f P _ _ (skb_len b)); done || lia|].
  intros k Hk H1 H2. rewrite F, Fr by lia. done.
Qed.

(** [tcp_transmit_skb] of a data segment: the frame, and what it leaves alone. *)
Lemma transmit_data_frame b seq (s : st net) i rt dmac :
  let n := e_lower (en s) in
  let d := ld32 (sk_daddr (sk s)) 0 in
  sk_addr_family (sk s) = AF_INET -> plain AF_INET b -> bytes_ok (skb_buf b) -> bytes_ok (sk_daddr (sk s)) ->
  skb_len b = skb_dlen b -> 0 <= skb_dlen b < 65000 -> route_to n d i rt dmac ->
  is_u16 (sk_sport (sk s)) -> is_u16 (sk_dport (sk s)) -> is_u32 seq -> is_u32 (rcv_nxt (tb s)) ->
  th_flag 34 F_ACK (skb_buf b) = true -> th_flag 34 F_SYN (skb_buf b) = false ->
  th_flag 34 F_FIN (skb_buf b) = false -> th_flag 34 F_RST (skb_buf b) = false ->
  let s' := (tcp_transmit_skb b seq s).1.2 in
  net_kept n (e_lower (en s')) /\ sk s' = sk s /\
  exists f, n_wire (e_lower (en s')) = n_wire n ++ [f] /\
    data_frame f (ld_bytes (skb_buf b) 54 (Z.to_nat (skb_dlen b))) (nd_addr (dev_of (rt_dev rt) n)) d
      (sk_sport (sk s)) (sk_dport (sk s)) seq (rcv_nxt (tb s)).
Proof.
  intros n d Hf Hpl Hb Hda Hln Hdl Rt Hsp Hdp Hsq Hak G1 G2 G3 G4.
  pose proof (build_segment_data b seq s ltac:(by rewrite Hf)) as (Dd & Pd & Ad).
  pose proof (build_segment_plain b seq s ltac:(by rewrite Hf) Hb ltac:(lia)) as (Es & El & Eb & _).
  pose proof (build_segment_fields b seq s Hf Hpl) as (B1 & B2 & B3 & B4 & B5 & B6).
  cbv zeta in *. rewrite Hf in *. change (tcp_hdr_for_sk AF_INET) with 34%nat in *.
  destruct Hpl as (_ & _ & Hl & _). change (tcp_hdr_for_sk AF_INET) with 34%nat in Hl. destruct Dd as [Dl Dd].
  unfold tcp_transmit_skb. destruct (build_segment b seq s) as [b1 s1]. cbn [fst snd] in *. subst s1. rewrite Hf.
  change (AF_INET =? AF_INET6) with false. cbv match zeta. set (b2 := set_skb_tcpcsum _ b1).
  change (skb_buf b1) with (skb_buf b2) in *. change (skb_len b1) with (skb_len b2) in *.
  change (skb_data b1) with (skb_data b2) in *. change (skb_protocol b1) with (skb_protocol b2) in *. clearbody b2. clear b1.
  change (ip_output (e_lower (en s)) (ld32 (sk_daddr (sk s)) 0) b2) with (ip_output_net n d b2).
  assert (Hd : is_u32 d) by (by apply ld32_range).
  destruct (segment_out n d b2 i rt dmac Rt Hd Pd Ad Eb ltac:(lia) ltac:(lia)) as (Kn & f & W & Lf & [] & Si).
  destruct (ip_output_net n d b2) as [[l b3] rc]. cbn [fst snd] in *.
  split; [exact Kn|]. split; [done|]. exists f. split; [exact W|]. clear W Kn.
  rewrite (ld_bytes_ext (skb_buf b) (skb_buf b2)) by (intros; rewrite Dd; [done|lia]).
  constructor; rewrite ?length_ld_bytes; try done; try lia.
  - rewrite (in_ld16 f _ _ Si), B1 by lia. by apply bswap16_invol.
  - rewrite (in_ld16 f _ _ Si), B2 by lia. by apply bswap16_invol.
  - rewrite (in_ld32 f _ _ Si), B3 by lia. by apply bswap32_invol.
  - rewrite (in_ld32 f _ _ Si), B4 by lia. by apply bswap32_invol.
  - unfold th_get_hl in *. by rewrite Si by lia.
  - rewrite <- !B6 in G1, G2, G3, G4. unfold th_flag in *. by rewrite Si by lia.
  - apply ld_bytes_ext. intros k Hk. by rewrite Si by lia.
Qed.

(** ** [tcp_send] *)

Lemma send_segment_len chunk last (s : st net) :
  Z.of_nat (length chunk) < 65000 -> skb_len (send_segment chunk last s).1 = Z.of_nat (length chunk).
Proof. intros Hc. unfold send_segment. destruct last; simpl; apply u32_id; red; lia. Qed.

Lemma data_buf_ok o last chunk : bytes_ok chunk -> bytes_ok (data_buf o last chunk).
Proof.
  intros Hc. assert (B : bytes_ok (data_base o chunk)) by (apply st_bytes_ok; [apply Forall_replicate; red; lia|done]).
  unfold data_buf, th_set_flag. destruct last; auto with cint.
Qed.

Lemma data_buf_bytes last chunk : ld_bytes (data_buf 34 last chunk) 54 (length chunk) = chunk.
Proof.
  transitivity (ld_bytes (data_base 34 chunk) 54 (length chunk)).
  - apply ld_bytes_ext. intros k Hk. apply data_buf_ld8. lia.
  - unfold data_base. apply ld_bytes_st_bytes. rewrite length_replicate. lia.
Qed.

(** What the frames of a connection have in common, with the way they go. *)
Record flow (s : st net) (saddr daddr sport dport ack : Z) (i : nat) (rt : rtentry) (dmac : list Z) : Prop := {
  fl_family : sk_addr_family (sk s) = AF_INET;
  fl_daddr : ld32 (sk_daddr (sk s)) 0 = daddr;
  fl_daddr_ok : bytes_ok (sk_daddr (sk s));
  fl_sport : sk_sport (sk s) = sport;
  fl_dport : sk_dport (sk s) = dport;
  fl_ack : rcv_nxt (tb s) = ack;
  fl_saddr : nd_addr (dev_of (rt_dev rt) (e_lower (en s))) = saddr;
  fl_route : route_to (e_lower (en s)) daddr i rt dmac;
  fl_sport_u16 : is_u16 sport;
  fl_dport_u16 : is_u16 dport;
  fl_ack_u32 : is_u32 ack
}.

(** A state in which the connection sends the same way. *)
Lemma flow_kept s s' saddr daddr sport dport ack i rt dmac :
  net_kept (e_lower (en s)) (e_lower (en s')) -> rcv_nxt (tb s') = rcv_nxt (tb s) ->
  sk_addr_family (sk s') = sk_addr_family (sk s) -> sk_daddr (sk s') = sk_daddr (sk s) ->
  sk_sport (sk s') = sk_sport (sk s) -> sk_dport (sk s') = sk_dport (sk s) ->
  flow s saddr daddr sport dport ack i rt dmac -> flow s' saddr daddr sport dport ack i rt dmac.
Proof.
  intros K E1 E2 E3 E4 E5 [F1 F2 F3 F4 F5 F6 F7 F8 F9 F10 F11]. constructor; rewrite ?E1, ?E2, ?E3, ?E4, ?E5; try done.
  - by rewrite (dev_kept _ _ _ K).
  - by eapply route_kept.
Qed.

Lemma rearm_lower (s : st net) : e_lower (en (tcp_rearm_rto_timer s)) = e_lower (en s).
Proof.
  unfold tcp_rearm_rto_timer, tcp_release_rto_timer, do_timer_release.
  set (s1 := lift_timer _ s). assert (E : e_lower (en s1) = e_lower (en s)) by (unfold s1; by destruct (timer_release _ _)).
  clearbody s1. destruct (state_is _ _); exact E.
Qed.
Lemma queued_lower b (s : st net) : e_lower (en (queued_state b s)) = e_lower (en s).
Proof. unfold queued_state. destruct (skb_queue_empty _); [|done]. by rewrite rearm_lower. Qed.

Lemma user_timeout_lower (s : st net) : e_lower (en (tcp_rearm_user_timeout s)) = e_lower (en s).
Proof.
  unfold tcp_rearm_user_timeout, do_timer_cancel. destruct (state_is _ _); [done|].
  set (s1 := lift_timer _ s). assert (E : e_lower (en s1) = e_lower (en s)) by (unfold s1; by destruct (timer_cancel _ _)).
  clearbody s1. exact E.
Qed.

(** [l] cut every [n] elements. *)
Fixpoint cut_loop (fuel n : nat) (l : list Z) : list (list Z) :=
  match fuel, l with
  | S fuel, _ :: _ => take n l :: cut_loop fuel n (drop n l)
  | _, _ => []
  end.
Definition cut (n : nat) (l : list Z) : list (list Z) := cut_loop (length l) n l.

Lemma cut_fuel n : (0 < n)%nat -> forall fuel l, (length l <= fuel)%nat -> cut_loop fuel n l = cut n l.
Proof.
  intros Hn fuel. induction fuel as [fuel IH] using lt_wf_ind. intros l Hl. unfold cut.
  destruct l as [|x l]; [by destruct fuel|]. destruct fuel as [|fuel]; [simpl in Hl; lia|]. cbn [cut_loop length]. f_equal.
  assert (D : (length (drop n (x :: l)) <= length l)%nat) by (rewrite length_drop; simpl; lia). simpl in Hl.
  rewrite (IH fuel) by lia. symmetry. destruct (decide (length l = fuel)) as [<-|]; [by rewrite (IH (length l)) by lia|].
  rewrite (IH (length l)) by lia. done.
Qed.
Lemma cut_step n l : (0 < n)%nat -> l <> [] -> cut n l = take n l :: cut n (drop n l).
Proof.
  intros Hn Hl. unfold cut at 1. destruct l as [|x l]; [done|]. cbn [cut_loop length]. f_equal.
  apply cut_fuel; [done|]. rewrite length_drop. simpl. lia.
Qed.

Lemma cut_take n : (0 < n)%nat -> forall k l, concat (take k (cut n l)) = take (k * n) l.
Proof.
  intros Hn k. induction k as [|k IH]; intros l; [done|]. destruct (decide (l = [])) as [->|Hl]; [by rewrite take_nil|].
  rewrite cut_step by done. cbn [take concat]. rewrite IH. simpl. by rewrite take_take_drop.
Qed.
Lemma cut_concat n l : (0 < n)%nat -> concat (cut n l) = l.
Proof.
  intros Hn. remember (length l) as m eqn:Em. revert l Em. induction m as [m IH] using lt_wf_ind. intros l ->.
  destruct (decide (l = [])) as [->|Hl]; [done|]. rewrite cut_step by done. cbn [concat].
  rewrite (IH (length (drop n l))); [apply take_drop| |done]. rewrite length_drop. destruct l; [done|]. simpl. lia.
Qed.
Lemma cut_nonempty n l : (0 < n)%nat -> Forall (fun c => c <> []) (cut n l).
Proof.
  intros Hn. remember (length l) as m eqn:Em. revert l Em. induction m as [m IH] using lt_wf_ind. intros l ->.
  destruct (decide (l = [])) as [->|Hl]; [constructor|]. rewrite cut_step by done. constructor.
  - destruct l, n; [done|done|lia|done].
  - apply (IH (length (drop n l))); [|done]. rewrite length_drop. destruct l; [done|]. simpl. lia.
Qed.
Lemma cut_size n l : (0 < n)%nat -> Forall (fun c => length c <= n)%nat (cut n l).
Proof.
  intros Hn. remember (length l) as m eqn:Em. revert l Em. induction m as [m IH] using lt_wf_ind. intros l ->.
  destruct (decide (l = [])) as [->|Hl]; [constructor|]. rewrite cut_step by done. constructor; [rewrite length_take; lia|].
  apply (IH (length (drop n l))); [|done]. rewrite length_drop. destruct l; [done|]. simpl. lia.
Qed.
Lemma cut_length n l : (0 < n)%nat -> (length (cut n l) <= length l)%nat.
Proof.
  intros Hn. pose proof (cut_nonempty n l Hn) as N. rewrite <- (cut_concat n l Hn) at 2. induction N as [|c cs Hc N IH]; [done|].
  cbn [concat length]. rewrite length_app. destruct c; [done|]. simpl. lia.
Qed.

Section Send.
Context (saddr daddr sport dport ack : Z) (i : nat) (rt : rtentry) (dmac : list Z).
Implicit Type s : st net.
Notation flows s := (flow s saddr daddr sport dport ack i rt dmac).
Notation carried f c seq := (data_frame f c saddr daddr sport dport seq ack).

(** One turn of the loop, the window being open. *)
Lemma send_one chunk last s :
  flows s -> bytes_ok chunk -> Z.of_nat (length chunk) < 65000 -> is_u32 (snd_nxt (tb s)) ->
  let '(b, s1) := send_segment chunk last s in
  let s' := (queue_transmit_now b s1).1 in
  flows s' /\ exists f, n_wire (e_lower (en s')) = n_wire (e_lower (en s)) ++ [f] /\ carried f chunk (snd_nxt (tb s)).
Proof.
  intros Fl Hc Hn Hs. pose proof (send_segment_frame chunk last s) as Tx.
  destruct (send_segment_spec chunk last s) as (Hp & _ & _ & _). destruct (send_segment_buf chunk last s) as (Hb & Hd & _).
  pose proof (send_segment_len chunk last s Hn) as Hl.
  assert (El : e_lower (en (send_segment chunk last s).2) = e_lower (en s)) by done.
  assert (Ek : sk (send_segment chunk last s).2 = sk s) by done.
  destruct (send_segment chunk last s) as [b s1]. cbn [fst snd] in *. rewrite (fl_family _ _ _ _ _ _ _ _ _ Fl) in *.
  change (tcp_hdr_for_sk AF_INET) with 34%nat in *.
  assert (Fl1 : flows s1).
  { eapply flow_kept, Fl; rewrite ?Ek, ?(tx_tb _ _ Tx), ?El; done. }
  rewrite queue_transmit_unfold. unfold transmit_queued. pose proof (queued_state_frame b s1) as (K1 & K2 & _).
  pose proof (queued_lower b s1) as K3. set (s2 := queued_state b s1) in *. set (b2 := queued_buf b s1).
  assert (Fl2 : flows s2) by (eapply flow_kept, Fl1; rewrite ?K1, ?K2, ?K3; done).
  assert (En : snd_nxt (tb s1) = snd_nxt (tb s)) by (by rewrite (tx_tb _ _ Tx)). rewrite En. clearbody s2.
  assert (Ed : ld_bytes (skb_buf b2) 54 (Z.to_nat (skb_dlen b2)) = chunk).
  { change (ld_bytes (skb_buf b) 54 (Z.to_nat (skb_dlen b)) = chunk). rewrite Hb, Hd, Nat2Z.id. apply data_buf_bytes. }
  destruct Fl2 as [F1 F2 F3 F4 F5 F6 F7 F8 F9 F10 F11] eqn:EF. clear EF.
  destruct (transmit_data_frame b2 (snd_nxt (tb s)) s2 i rt dmac) as (N & Ks & f & W & D); rewrite ?F2, ?F4, ?F5, ?F6; try done.
  - change (bytes_ok (skb_buf b)). rewrite Hb. by apply data_buf_ok.
  - change (skb_len b = skb_dlen b). by rewrite Hl, Hd.
  - change (0 <= skb_dlen b < 65000). lia.
  - change (skb_buf b2) with (skb_buf b). rewrite Hb, data_buf_flag by done. by destruct last.
  - change (skb_buf b2) with (skb_buf b). rewrite Hb, data_buf_flag by done. by destruct last.
  - change (skb_buf b2) with (skb_buf b). rewrite Hb, data_buf_flag by done. by destruct last.
  - change (skb_buf b2) with (skb_buf b). rewrite Hb, data_buf_flag by done. by destruct last.
  - rewrite Ed, F2, F4, F5, F6, F7 in D. pose proof (proj2 (transmit_frame b2 (snd_nxt (tb s)) s2)) as Tx2.
    destruct (tcp_transmit_skb b2 (snd_nxt (tb s)) s2) as [[b3 s3] rc]. cbn [fst snd] in *. rewrite K3, El in W. split.
    + apply (flow_kept s2 (wq_set _ b3 s3)); cbn; rewrite ?Ks, ?(tx_tb _ _ Tx2); done.
    + exists f. split; [exact W|exact D].
Qed.

(** [fs] carry the segments [cs] in order, the first byte numbered [seq]. *)
Definition frames_of (fs cs : list (list Z)) (seq : Z) : Prop :=
  length fs = length cs /\
  forall j f c, fs !! j = Some f -> cs !! j = Some c -> carried f c (seq + Z.of_nat (length (concat (take j cs)))).

Lemma frames_cons f fs c cs seq :
  carried f c seq -> frames_of fs cs (seq + Z.of_nat (length c)) -> frames_of (f :: fs) (c :: cs) seq.
Proof.
  intros Hf [Hl Hfs]. split; [simpl; lia|]. intros [|j] g x Hg Hx; simpl in Hg, Hx.
  - injection Hg as <-. injection Hx as <-. simpl. by rewrite Z.add_0_r.
  - cbn [take concat]. rewrite length_app, Nat2Z.inj_add, Z.add_assoc. by apply Hfs.
Qed.

(** The whole loop, when the windows have room for all of it. *)
Lemma send_loop_frames mss len : 0 < mss < 65000 -> forall fuel rest s,
  flows s -> snd_inv s -> bytes_ok rest -> room s (Z.of_nat (length rest)) ->
  inflight (cc s) + Z.of_nat (length rest) <= Z.min (cwnd (cc s)) (snd_wnd (tb s)) -> (length rest <= fuel)%nat ->
  exists s' fs, tcp_send_loop fuel rest mss len s = Done s' len /\
    n_wire (e_lower (en s')) = n_wire (e_lower (en s)) ++ fs /\
    frames_of fs (cut (Z.to_nat mss) rest) (snd_nxt (tb s)).
Proof.
  intros Hm. induction fuel as [|fuel IH]; intros rest s Fl I Hb Hr Hw Hf.
  { destruct rest; [|simpl in Hf; lia]. exists (tcp_rearm_user_timeout s), []. split; [done|]. rewrite app_nil_r, user_timeout_lower. by split. }
  destruct rest as [|x r] eqn:Er.
  { exists (tcp_rearm_user_timeout s), []. split; [done|]. rewrite app_nil_r, user_timeout_lower. by split. }
  rewrite <- Er in *. assert (Hne : rest <> []) by (by rewrite Er). rewrite send_loop_step by done. cbv zeta.
  destruct (chunk_size mss rest ltac:(lia) Hne) as (Hc1 & Hc2 & Hc3). rewrite cut_step by (done || lia).
  set (n := Z.to_nat (if _ : bool then _ else _)) in *.
  assert (En : take n rest = take (Z.to_nat mss) rest /\ drop n rest = drop (Z.to_nat mss) rest).
  { unfold n. destruct (Z.ltb_spec mss (Z.of_nat (length rest))); [done|]. rewrite !take_ge, !drop_ge by lia. done. }
  destruct En as [<- <-]. clearbody n. set (c := take n rest) in *. set (rest' := drop n rest) in *.
  assert (Bc : bytes_ok c /\ bytes_ok rest') by (apply Forall_app; unfold c, rest'; by rewrite take_drop).
  destruct Bc as [Bc Br]. pose proof (si_nxt _ I) as Hnx. pose proof (si_una _ I) as Hun.
  pose proof (send_one c (bool_decide (rest' = [])) s Fl Bc ltac:(lia) ltac:(red; lia)) as One.
  pose proof (send_segment_frame c (bool_decide (rest' = [])) s) as Tx.
  destruct (send_segment_spec c (bool_decide (rest' = [])) s) as (Hp & Hsb & Hfin & _).
  destruct (send_segment_buf c (bool_decide (rest' = [])) s) as (_ & Hd & _).
  destruct (send_segment c (bool_decide (rest' = [])) s) as [b s1]. cbn [fst snd] in *.
  pose proof (tx_snd_same _ _ Tx) as Sm. pose proof (snd_same_inv _ _ Sm I) as I1. destruct Sm as (E1 & E2 & E3 & _ & E5).
  assert (R1 : snd_nxt (tb s1) + skb_dlen b + 1 < 4294967296 /\ Z.of_nat (length (wq s1)) + skb_dlen b + 1 < 4294967296).
  { unfold room, wq in *. rewrite E1, E2, Hd. lia. }
  unfold tcp_queue_transmit_skb.
  rewrite (proj2 (wnd_open_spec s1 (skb_dlen b) I1 ltac:(lia) R1)) by (rewrite E2, E3, Hd; lia).
  destruct (queue_transmit_queued b s1) as [b' Q]. destruct (queue_transmit_now b s1) as [s2 rc]. cbn [fst snd] in *.
  destruct One as (Fl2 & f & W & D).
  assert (S : sent mss s1 s2 [b'] (seg_bytes b)).
  { apply queued_sent; try done; try lia.
    - left. rewrite E5. apply Fl.
    - by rewrite E5.
    - unfold fin_of in *. by rewrite E5. }
  destruct (IH rest' s2) as (s3 & fs & E & W3 & D3); try done; try lia.
  - apply S.
  - rewrite Hsb in S. unfold room in *. rewrite (st_wq _ _ _ _ _ S), (st_nxt _ _ _ _ _ S), length_app. unfold wq in *. rewrite E1, E2. simpl. lia.
  - rewrite Hsb in S. rewrite (st_inflight _ _ _ _ _ S), (st_cwnd _ _ _ _ _ S), (st_wnd _ _ _ _ _ S), E2, E3. lia.
  - exists s3, (f :: fs). split; [exact E|]. split; [rewrite W3, W, <- app_assoc; done|].
    apply frames_cons; [exact D|]. rewrite Hsb in S. by rewrite (st_nxt _ _ _ _ _ S), E2 in D3.
Qed.

End Send.

End TcpFrame.
