(* ===== verification/TcpResend.v ===== *)
(** Retransmission: a peer that does not answer gets the first unacknowledged segment
    again at each timeout ([tcp_retransmission_timeout] of [src/src/tcp_output.c]), until
    the timeout has grown past a minute and the connection is given up. *)
From S2P Require Import Prelude Utils SkBuff Timer TcpTypes TcpBase TcpOutput TcpSender TcpWire Ipv6 Net Neigh IpOut Frame TcpFrame.
Import Utils SkBuff Timer TcpTypes TcpBase TcpOutput TcpSender TcpWire Ipv6 Net Neigh IpOut Frame TcpFrame.

Module TcpResend.
Implicit Type s : st net.

(** A queued data segment as an earlier transmission left it. *)
Record resendable (b : sk_buff) : Prop := {
  rs_protocol : skb_protocol b = IP_TCP;
  rs_hl : th_get_hl 34 (skb_buf b) = 5;
  rs_dlen : 0 < skb_dlen b < 65000;
  rs_len : length (skb_buf b) = (54 + Z.to_nat (skb_dlen b))%nat;
  rs_ok : bytes_ok (skb_buf b);
  rs_flags : th_flag 34 F_ACK (skb_buf b) = true /\ th_flag 34 F_SYN (skb_buf b) = false /\
             th_flag 34 F_FIN (skb_buf b) = false /\ th_flag 34 F_RST (skb_buf b) = false
}.

Lemma reset_plain b : resendable b -> plain AF_INET (skb_reset_header b) /\ skb_len (skb_reset_header b) = skb_dlen b.
Proof.
  intros [R1 R2 R3 R4 R5 R6]. split; [|done]. split; [done|]. split; [by right|]. change (tcp_hdr_for_sk AF_INET) with 34%nat.
  split; [simpl; lia|]. simpl. unfold skb_end. lia.
Qed.

Lemma seg_bytes_54 b : resendable b -> seg_bytes b = ld_bytes (skb_buf b) 54 (Z.to_nat (skb_dlen b)).
Proof. intros R. unfold seg_bytes. rewrite (rs_len _ R). f_equal. lia. Qed.

(** The addresses of the link are bytes. *)
Definition link_ok (n : net) (rt : rtentry) (dmac : list Z) : Prop :=
  bytes_ok dmac /\ bytes_ok (nd_hwaddr (dev_of (rt_dev rt) n)).

Lemma transmit_bytes_ok b dst et n v :
  skb_dev b = v -> bytes_ok (skb_buf b) -> bytes_ok dst -> bytes_ok (nd_hwaddr (dev_of v n)) ->
  bytes_ok (skb_buf (netdev_transmit b dst et n).1.1).
Proof.
  intros <- Hb Hd Hh. assert (E : nd_hwaddr (dev_of (skb_dev b) (if skb_dev b =? 0 then net_fault_add NullDev n else n)) = nd_hwaddr (dev_of (skb_dev b) n))
    by (by destruct (skb_dev b =? 0)).
  unfold netdev_transmit, tun_write. cbv zeta. cbn [fst snd skb_buf set_skb_buf]. change (skb_dev (skb_push _ b)) with (skb_dev b).
  apply st16_ok, st_bytes_ok; [apply st_bytes_ok; [exact Hb|by apply Forall_take]|]. rewrite E. by apply Forall_take.
Qed.

(** A transmission leaves the segment fit for the next one. *)
Lemma transmit_resendable b seq s i rt dmac :
  let n := e_lower (en s) in
  let d := ld32 (sk_daddr (sk s)) 0 in
  sk_addr_family (sk s) = AF_INET -> bytes_ok (sk_daddr (sk s)) -> route_to n d i rt dmac -> link_ok n rt dmac -> resendable b ->
  resendable (tcp_transmit_skb (skb_reset_header b) seq s).1.1.
Proof.
  intros n d Hf Hda [Ri Rr Ra Rm Ru] [Lk1 Lk2] R. destruct (reset_plain b R) as [Hp Hl]. set (b0 := skb_reset_header b) in *. change (skb_dlen b) with (skb_dlen b0) in Hl.
  assert (B0 : bytes_ok (skb_buf b0)) by apply R. assert (Dl : 0 < skb_dlen b0 < 65000) by apply R.
  pose proof (proj1 (transmit_frame b0 seq s)) as M. pose proof (rs_len _ R) as Len.
  change (skb_buf b) with (skb_buf b0) in Len. change (skb_dlen b) with (skb_dlen b0) in Len.
  pose proof (build_segment_data b0 seq s ltac:(by rewrite Hf)) as (Dd & Pd & Ad).
  pose proof (build_segment_plain b0 seq s ltac:(by rewrite Hf) B0 ltac:(lia)) as (Es & El & Eb & _).
  pose proof (build_segment_fields b0 seq s Hf Hp) as (_ & _ & _ & _ & B5 & B6).
  cbv zeta in *. rewrite Hf in *. change (tcp_hdr_for_sk AF_INET) with 34%nat in *. destruct Dd as [Dl' _].
  unfold tcp_transmit_skb in *. destruct (build_segment b0 seq s) as [b1 s1]. cbn [fst snd] in *. subst s1. rewrite Hf in *.
  change (AF_INET =? AF_INET6) with false in *. cbv match zeta in *. set (b2 := set_skb_tcpcsum _ b1) in *.
  change (skb_buf b1) with (skb_buf b2) in *. change (skb_data b1) with (skb_data b2) in *. change (skb_protocol b1) with (skb_protocol b2) in *.
  change (skb_len b1) with (skb_len b2) in *. clearbody b2. change (ip_output (e_lower (en s)) (ld32 (sk_daddr (sk s)) 0) b2) with (ip_output_net n d b2) in *.
  assert (Hd : is_u32 d) by (by apply ld32_range).
  pose proof (ip_output_resolved n d b2 i rt dmac Ri Rr Ra Ad ltac:(lia) Hd Ru) as Ro. cbv zeta in Ro. rewrite ip_dumped_tcp in Ro by done. apply (f_equal snd) in Ro. cbn [snd] in Ro.
  pose proof (ip_output_packet n d b2 i rt) as Pk.
  destruct (ip_packet_tcp rt i d n b2 Pd Ad Eb ltac:(lia) ltac:(lia)) as (_ & Fr & Ok).
  destruct (ip_output_net n d b2) as [[l b3] rc]. cbn [fst snd] in *.
  assert (Sg : forall k, (34 <= k)%nat -> k <> 50%nat -> k <> 51%nat -> ld8 (skb_buf b3) k = ld8 (skb_buf b2) k)
    by (intros; rewrite Pk, Fr by (done || lia); done).
  constructor.
  - rewrite (sm_protocol _ _ M). apply R.
  - unfold th_get_hl in *. by rewrite Sg by lia.
  - by rewrite (sm_dlen _ _ M).
  - by rewrite (sm_buf _ _ M), (sm_dlen _ _ M).
  - rewrite Ro. by apply transmit_bytes_ok with (rt_dev rt).
  - unfold th_flag in *. rewrite !Sg by lia. rewrite !B6. apply R.
Qed.

(** ** The timeout *)

Section Silent.
Context (saddr daddr sport dport ack una : Z) (i : nat) (rt : rtentry) (dmac data : list Z).
Notation flows s := (flow s saddr daddr sport dport ack i rt dmac).

(** A connection that waits for the acknowledgement of [data], its oldest segment,
    which starts at the oldest unacknowledged sequence number. *)
Record silent s : Prop := {
  sl_queue : exists b q, skq (sk_write_queue (sk s)) = b :: q /\ resendable b /\ seg_bytes b = data /\ skb_seq b = una;
  sl_qok : queue_ok (sk_write_queue (sk s));
  sl_flow : flows s;
  sl_link : link_ok (e_lower (en s)) rt dmac;
  sl_una : snd_una (tb s) = una;
  sl_una_u32 : is_u32 una;
  sl_state : state s <> TCP_SYN_SENT;
  sl_so : so_state (so s) <> SS_DISCONNECTING;
  sl_unlocked : so_locked (so s) = false
}.

(** The retransmission timer is armed for [rto] from now. *)
Definition armed s : Prop :=
  exists t, t ∈ timers (e_timers (en s)) /\ retransmit (tm s) = Some (tm_id t) /\
    Timer.handler t = H_tcp_retransmission_timeout /\ arg t = Some (ArgRto (self s) (rto_epoch (tm s))) /\
    cancelled t = false /\ expires t = u32 (tick (e_timers (en s)) + rto (tm s)).

(** A connection that was given up: closing, with an error for its callers, who are woken
    and polled, without timers, and to be collected in ten seconds. *)
Record given_up s : Prop := {
  gu_state : state s = TCP_CLOSING;
  gu_err : sk_err (sk s) = - ETIMEDOUT;
  gu_poll : Z.land (sk_poll_events (sk s)) timed_out_events = timed_out_events;
  gu_timers : retransmit (tm s) = None /\ delack (tm s) = None /\ keepalive (tm s) = None /\ linger (tm s) = None;
  gu_woken : SleepWait (self s) ∈ e_wakes (en s);
  gu_so : so_state (so s) = SS_DISCONNECTING;
  gu_collect : exists t, t ∈ timers (e_timers (en s)) /\ Timer.handler t = H_socket_garbage_collect /\
    arg t = Some (ArgSock (self s)) /\ cancelled t = false /\ expires t = u32 (tick (e_timers (en s)) + 10000)
}.

(** The callback of the timer armed last. *)
Definition timeout s : st net := tcp_retransmission_timeout (rto_epoch (tm s)) s.

(** What the callback does before it looks at [rto]. *)
Definition collapse s : st net :=
  tcp_sack_clear (upd_cc (fun c => set_bytes_acked 0 (set_cwnd (smss c) (set_ssthresh (max (inflight c / 2) (u32 (2 * smss c))) c)))
    (tcp_release_rto_timer (socket_wr_acquire s))).

Lemma release_rto_lower s : e_lower (en (tcp_release_rto_timer s)) = e_lower (en s).
Proof. unfold tcp_release_rto_timer, do_timer_release. by destruct (timer_release _ _). Qed.
Lemma release_rto_fields s :
  sk (tcp_release_rto_timer s) = sk s /\ tb (tcp_release_rto_timer s) = tb s /\ so (tcp_release_rto_timer s) = so s /\
  cc (tcp_release_rto_timer s) = cc s /\
  rto (tm (tcp_release_rto_timer s)) = rto (tm s) /\ rto_epoch (tm (tcp_release_rto_timer s)) = rto_epoch (tm s).
Proof. unfold tcp_release_rto_timer, do_timer_release. by destruct (timer_release _ _). Qed.

Lemma acquire_fields s :
  so_locked (so s) = false ->
  sk (socket_wr_acquire s) = sk s /\ tb (socket_wr_acquire s) = tb s /\ tm (socket_wr_acquire s) = tm s /\ cc (socket_wr_acquire s) = cc s /\
  en (socket_wr_acquire s) = en s /\ so_locked (so (socket_wr_acquire s)) = true /\ self (socket_wr_acquire s) = self s.
Proof. unfold socket_wr_acquire. by intros ->. Qed.

Lemma collapse_fields s : silent s ->
  (exists b q, skq (sk_write_queue (sk (collapse s))) = b :: q /\ resendable b /\ seg_bytes b = data /\ skb_seq b = una) /\
  queue_ok (sk_write_queue (sk (collapse s))) /\ flows (collapse s) /\ tb (collapse s) = tb s /\
  e_lower (en (collapse s)) = e_lower (en s) /\ so_locked (so (collapse s)) = true /\ self (collapse s) = self s /\
  state (collapse s) = state s /\ rto (tm (collapse s)) = rto (tm s) /\ so_state (so (collapse s)) = so_state (so s).
Proof.
  intros [(b & q & Q1 & Q2 & Q3 & Q4) [K1 K2] Fl _ _ _ _ _ Ul]. destruct (acquire_fields s Ul) as (A1 & A2 & A3 & _ & A5 & A6 & A7).
  assert (A8 : so_state (so (socket_wr_acquire s)) = so_state (so s)) by (unfold socket_wr_acquire; by destruct (so_locked (so s))).
  destruct (release_rto_fields (socket_wr_acquire s)) as (B1 & B2 & B3 & _ & B5 & _). pose proof (release_rto_lower (socket_wr_acquire s)) as B7.
  unfold collapse. set (s2 := tcp_release_rto_timer (socket_wr_acquire s)) in *. clearbody s2. rewrite A1 in B1. rewrite A2 in B2. rewrite A3 in B5. rewrite A5 in B7.
  unfold tcp_sack_clear. set (f := fun k : sock => _).
  assert (E : sk_write_queue (f (sk s2)) = set_skq (set_skb_sacked 0 <$> (b :: q)) (sk_write_queue (sk s))) by (unfold f; simpl; by rewrite B1, Q1).
  split; [|split; [|split]].
  - exists (set_skb_sacked 0 b), (set_skb_sacked 0 <$> q). split; [change (skq (sk_write_queue (f (sk s2))) = set_skb_sacked 0 b :: (set_skb_sacked 0 <$> q)); by rewrite E|].
    split; [by destruct Q2|done].
  - change (queue_ok (sk_write_queue (f (sk s2)))). rewrite E. unfold queue_ok in *. rewrite Q1 in *. simpl in *. by rewrite length_fmap.
  - eapply flow_kept, Fl; cbn; rewrite ?B1, ?B2, ?B7; done.
  - unfold self, state in *. cbn. rewrite B1, B2, B3, B5, B7, A8. done.
Qed.

(** The queue is not empty: the callback goes on to transmit its head. *)
Lemma timeout_transmits s : silent s ->
  exists b q, skq (sk_write_queue (sk (collapse s))) = b :: q /\ resendable b /\ seg_bytes b = data /\ skb_seq b = una /\
  timeout s =
    let '(b, s, _) := tcp_transmit_skb (skb_reset_header b) una (collapse s) in
    let s := wq_set 0 b s in
    let fin := th_flag (tcp_hdr_for_sk (sk_addr_family (sk s))) F_FIN (skb_buf b) in
    if 60000 <? rto (tm s) then
      socket_release (or_poll timed_out_events (set_err (- ETIMEDOUT) (tcp_done s)))
    else
      let s := upd_tm (fun t => set_backoff (u8 (backoff t + 1)) (set_rto (u32 (rto t * 2)) t)) s in
      let s := tcp_rearm_rto_timer s in
      socket_release (if fin then tcp_handle_fin_state s else s).
Proof.
  intros Si. destruct (collapse_fields s Si) as ((b & q & Eq & Rb & Db & Sb) & Qok & _ & Etb & _). exists b, q. do 4 (split; [done|]).
  destruct Si as [(b0 & q0 & Q1 & _) K _ _ Eu _ _ _ Ul].
  destruct (acquire_fields s Ul) as (A1 & _ & A3 & _). destruct (release_rto_fields (socket_wr_acquire s)) as (B1 & _).
  unfold timeout, tcp_retransmission_timeout. rewrite A3, Z.eqb_refl. simpl negb. cbv iota zeta.
  assert (H1 : write_queue_head (tcp_release_rto_timer (socket_wr_acquire s)) = Some b0).
  { unfold write_queue_head. rewrite B1, A1, queue_ok_peek by done. by rewrite Q1. }
  rewrite H1. fold (collapse s).
  assert (H2 : write_queue_head (collapse s) = Some b) by (unfold write_queue_head; rewrite queue_ok_peek by done; by rewrite Eq).
  rewrite H2, Etb, Eu. reflexivity.
Qed.

Lemma cancel_lower t s : e_lower (en (do_timer_cancel t s)) = e_lower (en s).
Proof. unfold do_timer_cancel. by destruct (timer_cancel _ _). Qed.
Lemma upd_tm_lower f s : e_lower (en (upd_tm f s)) = e_lower (en s).
Proof. done. Qed.
Lemma upd_sk_lower f s : e_lower (en (upd_sk f s)) = e_lower (en s).
Proof. done. Qed.
Lemma clear_timers_lower s : e_lower (en (tcp_clear_timers s)) = e_lower (en s).
Proof. unfold tcp_clear_timers, tcp_stop_rto_timer, tcp_stop_delack_timer. by do 4 rewrite upd_tm_lower, cancel_lower. Qed.
Lemma free_lower s : e_lower (en (tcp_free s)) = e_lower (en s).
Proof.
  unfold tcp_free. rewrite <- (clear_timers_lower s). generalize (tcp_clear_timers s) as s1. intros s1. unfold tcp_clear_queues.
  by destruct (skb_queue_free (ofo s1)) as [q freed].
Qed.
Lemma delete_lower s : e_lower (en (socket_delete s)) = e_lower (en s).
Proof. unfold socket_delete. by destruct (so_state (so s)). Qed.
Lemma done_lower s : e_lower (en (tcp_done s)) = e_lower (en s).
Proof. unfold tcp_done. by rewrite delete_lower, free_lower. Qed.

(** Re-arming with a state other than SYN-SENT. *)
Lemma rearm_armed s : state s <> TCP_SYN_SENT -> armed (tcp_rearm_rto_timer s).
Proof.
  intros Hst. destruct (rearm_rto_frame s) as (F1 & _ & _ & _ & _ & _ & F7 & F8). unfold tcp_rearm_rto_timer in *.
  pose proof (release_rto_fields s) as (R1 & _ & R3 & _ & R5 & R6). set (s1 := tcp_release_rto_timer s) in *. clearbody s1.
  unfold state_is, state in *. cbn [sk upd_tm set_tm] in *. rewrite R1 in *. destruct (bool_decide_reflect (sk_state (sk s) = TCP_SYN_SENT)); [done|].
  unfold armed. cbn. eexists. split; [apply elem_of_app; right; by left|]. done.
Qed.
Lemma release_armed s : armed s -> armed (socket_release s).
Proof. unfold socket_release. by destruct (so_locked (so s)). Qed.

Lemma release_lower s : e_lower (en (socket_release s)) = e_lower (en s).
Proof. unfold socket_release. by destruct (so_locked (so s)). Qed.
Lemma release_sk s : sk (socket_release s) = sk s.
Proof. unfold socket_release. by destruct (so_locked (so s)). Qed.
Lemma release_tb s : tb (socket_release s) = tb s /\ tm (socket_release s) = tm s /\ (so_locked (so s) = true -> so_locked (so (socket_release s)) = false).
Proof. unfold socket_release. by destruct (so_locked (so s)). Qed.

(** What [tcp_done] does to the fields of [given_up]. *)
Lemma cancel_fields t s : sk (do_timer_cancel t s) = sk s /\ so (do_timer_cancel t s) = so s /\ tm (do_timer_cancel t s) = tm s.
Proof. unfold do_timer_cancel. by destruct (timer_cancel _ _). Qed.
Lemma clear_timers_fields s :
  let c := tcp_clear_timers s in
  sk c = sk s /\ so c = so s /\ retransmit (tm c) = None /\ delack (tm c) = None /\ keepalive (tm c) = None /\ linger (tm c) = None.
Proof.
  unfold tcp_clear_timers, tcp_stop_rto_timer, tcp_stop_delack_timer. cbv zeta.
  destruct (cancel_fields (retransmit (tm s)) s) as (A1 & A2 & _). set (s1 := do_timer_cancel (retransmit (tm s)) s) in *. clearbody s1.
  set (s2 := upd_tm _ s1). assert (B : sk s2 = sk s1 /\ so s2 = so s1 /\ retransmit (tm s2) = None) by done. clearbody s2. destruct B as (B1 & B2 & B3).
  destruct (cancel_fields (delack (tm s2)) s2) as (C1 & C2 & C3). set (s3 := do_timer_cancel (delack (tm s2)) s2) in *. clearbody s3.
  set (s4 := upd_tm _ s3). assert (D : sk s4 = sk s3 /\ so s4 = so s3 /\ retransmit (tm s4) = retransmit (tm s3) /\ delack (tm s4) = None) by done. clearbody s4.
  destruct D as (D1 & D2 & D3 & D4).
  destruct (cancel_fields (keepalive (tm s4)) s4) as (E1 & E2 & E3). set (s5 := do_timer_cancel (keepalive (tm s4)) s4) in *. clearbody s5.
  set (s6 := upd_tm _ s5). assert (F : sk s6 = sk s5 /\ so s6 = so s5 /\ retransmit (tm s6) = retransmit (tm s5) /\ delack (tm s6) = delack (tm s5) /\ keepalive (tm s6) = None) by done.
  clearbody s6. destruct F as (F1 & F2 & F3 & F4 & F5).
  destruct (cancel_fields (linger (tm s6)) s6) as (G1 & G2 & G3). set (s7 := do_timer_cancel (linger (tm s6)) s6) in *. clearbody s7.
  cbn. rewrite G3, F3, F4, E3, D3, C3. split; [congruence|]. split; [congruence|done].
Qed.
Lemma clear_queues_fields s : sk (tcp_clear_queues s) = sk s /\ so (tcp_clear_queues s) = so s /\ tm (tcp_clear_queues s) = tm s.
Proof. unfold tcp_clear_queues. by destruct (skb_queue_free (ofo s)). Qed.
Lemma delete_fields s : so_state (so s) <> SS_DISCONNECTING ->
  let d := socket_delete s in
  sk d = sk s /\ tm d = tm s /\ e_wakes (en d) = e_wakes (en s) /\ self d = self s /\ so_state (so d) = SS_DISCONNECTING /\
  exists t, t ∈ timers (e_timers (en d)) /\ Timer.handler t = H_socket_garbage_collect /\
    arg t = Some (ArgSock (self d)) /\ cancelled t = false /\ expires t = u32 (tick (e_timers (en d)) + 10000).
Proof.
  intros Hs. unfold socket_delete. destruct (so_state (so s)); try done;
    (do 5 (split; [done|]); eexists; split; [cbn; apply elem_of_app; right; by left|done]).
Qed.
Lemma done_fields s : so_state (so s) <> SS_DISCONNECTING ->
  let d := tcp_done s in
  state d = TCP_CLOSING /\ (retransmit (tm d) = None /\ delack (tm d) = None /\ keepalive (tm d) = None /\ linger (tm d) = None) /\
  SleepWait (self d) ∈ e_wakes (en d) /\ so_state (so d) = SS_DISCONNECTING /\
  exists t, t ∈ timers (e_timers (en d)) /\ Timer.handler t = H_socket_garbage_collect /\
    arg t = Some (ArgSock (self d)) /\ cancelled t = false /\ expires t = u32 (tick (e_timers (en d)) + 10000).
Proof.
  intros Hs d. unfold d, tcp_done, tcp_free. clear d. set (s0 := set_state TCP_CLOSING s).
  assert (S0 : state s0 = TCP_CLOSING /\ so_state (so s0) <> SS_DISCONNECTING) by done. clearbody s0. destruct S0 as [S0 S1].
  destruct (clear_timers_fields s0) as (C1 & C2 & C3). set (c := tcp_clear_timers s0) in *. clearbody c.
  destruct (clear_queues_fields c) as (Q1 & Q2 & Q3). set (q := tcp_clear_queues c) in *. clearbody q. rewrite C1 in Q1. rewrite C2 in Q2. rewrite <- Q3 in C3.
  set (k := wake _ q). assert (W : sk k = sk q /\ so k = so q /\ tm k = tm q /\ e_wakes (en k) = e_wakes (en q) ++ [SleepWait (self s0)]) by done.
  clearbody k. destruct W as (W1 & W2 & W3 & W4). rewrite <- W3 in C3.
  destruct (delete_fields k) as (D1 & D2 & D3 & D4 & D5); [by rewrite W2, Q2|]. set (d := socket_delete k) in *. clearbody d.
  split; [unfold state in *; by rewrite D1, W1, Q1|]. rewrite D2. split; [done|]. split; [|done].
  rewrite D3, W4, D4. apply elem_of_app. right. unfold self. rewrite W2, Q2. by left.
Qed.
Lemma Z_land_lor_absorb x y : Z.land (Z.lor x y) y = y.
Proof.
  apply Z.bits_inj'. intros j Hj. rewrite Z.land_spec, Z.lor_spec.
  destruct (Z.testbit y j); [by rewrite orb_true_r|by rewrite andb_false_r].
Qed.
Lemma done_gives_up s : so_state (so s) <> SS_DISCONNECTING -> given_up (socket_release (or_poll timed_out_events (set_err (- ETIMEDOUT) (tcp_done s)))).
Proof.
  intros Hs. destruct (done_fields s Hs) as (D1 & D2 & D3 & D4 & D5). generalize dependent (tcp_done s). intros d D1 D2 D3 D4 D5.
  set (e := or_poll _ _). assert (G : given_up e).
  { constructor; try done. apply Z_land_lor_absorb. }
  clearbody e. destruct G as [G1 G2 G3 G4 G5 G6 G7]. unfold socket_release. by destruct (so_locked (so e)).
Qed.

(** One timeout. *)
Lemma timeout_step s : silent s ->
  exists f, n_wire (e_lower (en (timeout s))) = n_wire (e_lower (en s)) ++ [f] /\ data_frame f data saddr daddr sport dport una ack /\
    if 60000 <? rto (tm s) then given_up (timeout s)
    else silent (timeout s) /\ armed (timeout s) /\ rto (tm (timeout s)) = u32 (rto (tm s) * 2).
Proof.
  intros Si. destruct (timeout_transmits s Si) as (b & q & Eq & Rb & Db & Sb & ->).
  destruct (collapse_fields s Si) as (_ & Qok & Fl & Etb & Elo & Lk & Sf & St & Rto & Eso). pose proof (sl_link _ Si) as Hlk.
  set (c := collapse s) in *. rewrite <- Elo in Hlk. destruct Fl as [F1 F2 F3 F4 F5 F6 F7 F8 F9 F10 F11] eqn:EF. clear EF.
  destruct (reset_plain b Rb) as [Pl Le]. pose proof (rs_flags _ Rb) as (G1 & G2 & G3 & G4).
  destruct (transmit_data_frame (skb_reset_header b) una c i rt dmac) as (N & Ks & f & W & D); rewrite ?F2, ?F4, ?F5, ?F6; try done.
  { apply Rb. } { split; [apply Z.lt_le_incl|]; apply (rs_dlen _ Rb). } { apply Si. }
  change (skb_buf (skb_reset_header b)) with (skb_buf b) in D. change (skb_dlen (skb_reset_header b)) with (skb_dlen b) in D.
  rewrite <- (seg_bytes_54 b Rb), Db, F2, F4, F5, F6, F7 in D. rewrite Elo in W.
  pose proof (transmit_resendable b una c i rt dmac F1 F3 ltac:(by rewrite F2) Hlk Rb) as Rb2.
  pose proof (transmit_data (skb_reset_header b) una c ltac:(by left) ltac:(by rewrite F1)) as Db2.
  destruct (transmit_frame (skb_reset_header b) una c) as [M Tx].
  destruct (tcp_transmit_skb (skb_reset_header b) una c) as [[b2 s2] rc]. cbn [fst snd] in *. exists f.
  set (s3 := wq_set 0 b2 s2). assert (K3 : e_lower (en s3) = e_lower (en s2)) by done.
  assert (Es3 : rto (tm s3) = rto (tm s)) by (change (rto (tm s2) = rto (tm s)); by rewrite (tx_tm _ _ Tx)).
  assert (Q3 : skq (sk_write_queue (sk s3)) = b2 :: q) by (unfold s3, wq_set; simpl; by rewrite Ks, Eq).
  assert (Dso : so_state (so s3) <> SS_DISCONNECTING) by (change (so_state (so s2) <> SS_DISCONNECTING); rewrite (tx_so _ _ Tx), Eso; apply Si).
  rewrite Es3. destruct (60000 <? rto (tm s)).
  { split; [|split; [exact D|]].
    - unfold or_poll, set_err. rewrite release_lower, !upd_sk_lower, done_lower, K3. exact W.
    - apply done_gives_up. exact Dso. }
  assert (Fin : th_flag (tcp_hdr_for_sk (sk_addr_family (sk s3))) F_FIN (skb_buf b2) = false).
  { change (sk_addr_family (sk s3)) with (sk_addr_family (sk s2)). rewrite Ks, F1. apply Rb2. }
  rewrite Fin. set (s4 := upd_tm _ s3). assert (St4 : state s4 <> TCP_SYN_SENT).
  { change (state s2 <> TCP_SYN_SENT). rewrite (tx_state _ _ Tx). fold c in St. rewrite St. apply Si. }
  destruct (rearm_rto_frame s4) as (R1 & R2 & _ & _ & _ & _ & R7 & R8). pose proof (rearm_lower s4) as R9. pose proof (rearm_armed s4 St4) as Ar.
  set (s5 := tcp_rearm_rto_timer s4) in *. clearbody s5. destruct (release_tb s5) as (T1 & T2 & T3).
  rewrite release_lower, R9. split; [exact W|]. split; [exact D|]. split; [|split; [by apply release_armed|]].
  - constructor; rewrite ?release_sk, ?T1.
    + exists b2, q. rewrite R1. split; [exact Q3|]. split; [exact Rb2|]. rewrite Db2. split; [exact Db|]. rewrite (sm_seq _ _ M). exact Sb.
    + rewrite R1. change (queue_ok (sk_write_queue (sk s3))). unfold queue_ok. rewrite Q3. unfold s3, wq_set. cbn. rewrite Ks.
      unfold queue_ok in Qok. by rewrite Eq in Qok.
    + apply (flow_kept c); rewrite ?release_lower, ?release_sk, ?T1, ?R9, ?R1, ?R2; cbn; rewrite ?Ks, ?(tx_tb _ _ Tx); done.
    + rewrite release_lower, R9. destruct Hlk as [L1 L2]. split; [done|]. change (bytes_ok (nd_hwaddr (dev_of (rt_dev rt) (e_lower (en s2))))).
      destruct N as [_ _ N3 N4]. unfold dev_of in *. by rewrite N3, N4.
    + rewrite R2. change (snd_una (tb s2) = una). rewrite (tx_tb _ _ Tx), Etb. apply Si.
    + apply Si.
    + unfold state. rewrite release_sk, R1. exact St4.
    + assert (Er : so_state (so (socket_release s5)) = so_state (so s5)) by (unfold socket_release; by destruct (so_locked (so s5))).
      rewrite Er, R7. exact Dso.
    + apply T3. rewrite R7. change (so_locked (so s2) = true). rewrite (tx_so _ _ Tx). exact Lk.
  - rewrite T2, R8. cbn. by rewrite (tx_tm _ _ Tx), Rto.
Qed.

(** Timeouts one after the other, while nothing arrives. *)
Lemma timeouts_resend n : forall s,
  silent s -> 0 < rto (tm s) -> (forall m, (m < n)%nat -> rto (tm s) * 2 ^ Z.of_nat m <= 60000) ->
  let s' := Nat.iter n timeout s in
  silent s' /\ rto (tm s') = rto (tm s) * 2 ^ Z.of_nat n /\ ((0 < n)%nat -> armed s') /\
  exists fs, n_wire (e_lower (en s')) = n_wire (e_lower (en s)) ++ fs /\ length fs = n /\
    Forall (fun f => data_frame f data saddr daddr sport dport una ack) fs.
Proof.
  induction n as [|n IH]; intros s Si Hp Hr; cbv zeta.
  { simpl. split; [done|]. split; [lia|]. split; [lia|]. exists []. by rewrite app_nil_r. }
  destruct (IH s Si Hp ltac:(intros; apply Hr; lia)) as (S1 & R1 & _ & fs & W & L & F). simpl Nat.iter.
  set (s1 := Nat.iter n timeout s) in *. clearbody s1. specialize (Hr n ltac:(lia)).
  destruct (timeout_step s1 S1) as (f & W1 & D & T). destruct (Z.ltb_spec 60000 (rto (tm s1))); [lia|]. destruct T as (S2 & A2 & R2).
  split; [done|]. split; [|split; [done|]].
  - rewrite R2, R1, u32_id by (red; pose proof (Z.pow_pos_nonneg 2 (Z.of_nat n)); nia). rewrite Nat2Z.inj_succ, Z.pow_succ_r by lia. lia.
  - exists (fs ++ [f]). rewrite W1, W, app_assoc, length_app, L. simpl. split; [done|]. split; [lia|].
    apply Forall_app. split; [done|]. by constructor.
Qed.

(** The last one. *)
Lemma doublings r : 0 < r -> exists n, (n <= 16)%nat /\ 60000 < r * 2 ^ Z.of_nat n /\ forall m, (m < n)%nat -> r * 2 ^ Z.of_nat m <= 60000.
Proof.
  intros Hr. assert (H : forall n, (forall m, (m < n)%nat -> r * 2 ^ Z.of_nat m <= 60000) \/
    exists k, (k < n)%nat /\ 60000 < r * 2 ^ Z.of_nat k /\ forall m, (m < k)%nat -> r * 2 ^ Z.of_nat m <= 60000).
  { induction n as [|n [A|(k & K1 & K2 & K3)]]; [left; lia| |right; exists k; split; [lia|done]].
    destruct (Z.le_gt_cases (r * 2 ^ Z.of_nat n) 60000).
    - left. intros m Hm. destruct (decide (m = n)) as [->|]; [done|]. apply A. lia.
    - right. exists n. split; [lia|]. split; [lia|done]. }
  destruct (H 17%nat) as [A|(k & K1 & K2)]; [|exists k; split; [lia|done]].
  specialize (A 16%nat ltac:(lia)). change (2 ^ Z.of_nat 16) with 65536 in A. lia.
Qed.

End Silent.

End TcpResend.
