(* ===== verification/TcpOwner.v ===== *)
(** What no TCP function changes: the socket a connection belongs to (identity,
    descriptor, process, flags, reference count and lock), its protocol and its
    address family.  Functions that take the lock themselves leave it released. *)
From S2P Require Import Prelude Utils SkBuff Timer TcpTypes TcpBase TcpOutput TcpData TcpInput TcpApi.
Import Utils SkBuff Timer TcpTypes TcpBase TcpOutput TcpData TcpInput TcpApi.

Module TcpOwner.

Section Owner.
Context {L : Type} `{IpLayerLaws L}.
Implicit Type s : st L.

Record keeps (s s' : st L) : Prop := mk_keeps {
  kp_so : so s' = set_so_state (so_state (so s')) (so s);
  kp_protocol : sk_protocol (sk s') = sk_protocol (sk s);
  kp_family : sk_addr_family (sk s') = sk_addr_family (sk s)
}.

#[export] Instance keeps_refl : Reflexive keeps.
Proof. intros s. constructor; try done. by destruct (so s). Qed.
#[export] Instance keeps_trans : Transitive keeps.
Proof.
  intros a b c [A1 A2 A3] [B1 B2 B3]. constructor; [|congruence|congruence].
  rewrite B1, A1. by destruct (so a).
Qed.

Lemma keeps_same s0 s s' :
  so s' = so s -> sk_protocol (sk s') = sk_protocol (sk s) -> sk_addr_family (sk s') = sk_addr_family (sk s) ->
  keeps s0 s -> keeps s0 s'.
Proof. intros E1 E2 E3 [K1 K2 K3]. constructor; congruence. Qed.

Lemma keeps_tx s0 s s' : tx_frame s s' -> keeps s0 s -> keeps s0 s'.
Proof. intros F. apply keeps_same; [apply (tx_so _ _ F)|by rewrite (tx_sk _ _ F)|by rewrite (tx_sk _ _ F)]. Qed.

(** Updates of any other part. *)
Lemma keeps_tb s0 f s : keeps s0 s -> keeps s0 (upd_tb f s). Proof. by apply keeps_same. Qed.
Lemma keeps_tm s0 f s : keeps s0 s -> keeps s0 (upd_tm f s). Proof. by apply keeps_same. Qed.
Lemma keeps_cc s0 f s : keeps s0 s -> keeps s0 (upd_cc f s). Proof. by apply keeps_same. Qed.
Lemma keeps_sa s0 f s : keeps s0 s -> keeps s0 (upd_sa f s). Proof. by apply keeps_same. Qed.
Lemma keeps_en s0 f s : keeps s0 s -> keeps s0 (upd_en f s). Proof. by apply keeps_same. Qed.
Lemma keeps_set_sa s0 a s : keeps s0 s -> keeps s0 (set_sa a s). Proof. by apply keeps_same. Qed.
Lemma keeps_set_ofo s0 q s : keeps s0 s -> keeps s0 (set_ofo q s). Proof. by apply keeps_same. Qed.
Lemma keeps_set_ptsk s0 q s : keeps s0 s -> keeps s0 (set_ptsk q s). Proof. by apply keeps_same. Qed.
Lemma keeps_state s0 v s : keeps s0 s -> keeps s0 (set_state v s). Proof. by apply keeps_same. Qed.
Lemma keeps_err s0 v s : keeps s0 s -> keeps s0 (set_err v s). Proof. by apply keeps_same. Qed.
Lemma keeps_poll s0 v s : keeps s0 s -> keeps s0 (or_poll v s). Proof. by apply keeps_same. Qed.
Lemma keeps_wake s0 q s : keeps s0 s -> keeps s0 (wake q s). Proof. by apply keeps_same. Qed.
Lemma keeps_fault s0 f s : keeps s0 s -> keeps s0 (add_fault f s). Proof. by apply keeps_same. Qed.
Lemma keeps_wq_set s0 i b s : keeps s0 s -> keeps s0 (wq_set i b s). Proof. by apply keeps_same. Qed.
Lemma keeps_set_wq s0 q s : keeps s0 s -> keeps s0 (set_write_queue q s). Proof. by apply keeps_same. Qed.
Lemma keeps_set_rq s0 q s : keeps s0 s -> keeps s0 (set_receive_queue q s). Proof. by apply keeps_same. Qed.
Lemma keeps_sk s0 f s :
  (forall k, sk_protocol (f k) = sk_protocol k) -> (forall k, sk_addr_family (f k) = sk_addr_family k) ->
  keeps s0 s -> keeps s0 (upd_sk f s).
Proof. intros F1 F2. apply keeps_same; [done|apply F1|apply F2]. Qed.
Lemma keeps_so_state s0 v s : keeps s0 s -> keeps s0 (upd_so (set_so_state v) s).
Proof. intros [K1 K2 K3]. constructor; [|done|done]. simpl. rewrite K1. by destruct (so s0). Qed.

Lemma keeps_free s0 b s : keeps s0 s -> keeps s0 (do_free_skb b s).
Proof. intros. unfold do_free_skb. destruct (free_skb b); [by apply keeps_en|done]. Qed.
Lemma keeps_lift s0 r s : keeps s0 s -> keeps s0 (lift_timer r s).
Proof. intros. destruct r; [by apply keeps_en|by apply keeps_fault]. Qed.
Lemma keeps_cancel s0 t s : keeps s0 s -> keeps s0 (do_timer_cancel t s). Proof. apply keeps_lift. Qed.
Lemma keeps_release_timer s0 t s : keeps s0 s -> keeps s0 (do_timer_release t s). Proof. apply keeps_lift. Qed.
Lemma keeps_timer_add s0 x h a r s : keeps s0 s -> keeps s0 (do_timer_add x h a r s).2.
Proof. by apply keeps_same. Qed.
Lemma keeps_alloc s0 n s : keeps s0 s -> keeps s0 (do_alloc_skb n s).2. Proof. by apply keeps_same. Qed.
Lemma keeps_or_flags s0 v s : keeps s0 s -> keeps s0 (or_flags v s). Proof. by apply keeps_same. Qed.
Lemma keeps_incr s0 s : keeps s0 s -> keeps s0 (incr_snd_nxt s). Proof. by apply keeps_same. Qed.
Lemma keeps_win_up s0 d s : keeps s0 s -> keeps s0 (increase_recv_win d s). Proof. by apply keeps_same. Qed.
Lemma keeps_win_down s0 d s : keeps s0 s -> keeps s0 (decrease_recv_win d s). Proof. by apply keeps_same. Qed.
Lemma keeps_notify s0 s : keeps s0 s -> keeps s0 (recv_notify s). Proof. by apply keeps_same. Qed.
Lemma keeps_iss s0 s : keeps s0 s -> keeps s0 (generate_iss s).2. Proof. by apply keeps_same. Qed.

End Owner.
Create HintDb owner.
#[export] Hint Constants Opaque : owner.
#[export] Hint Resolve keeps_tb keeps_tm keeps_cc keeps_sa keeps_en keeps_set_sa keeps_set_ofo keeps_set_ptsk keeps_state
  keeps_err keeps_poll keeps_wake keeps_fault keeps_wq_set keeps_set_wq keeps_set_rq keeps_so_state keeps_free
  keeps_cancel keeps_release_timer keeps_timer_add keeps_alloc keeps_or_flags keeps_incr keeps_win_up keeps_win_down
  keeps_notify keeps_iss keeps_lift : owner.
#[export] Hint Extern 1 (keeps _ (if ?b then _ else _)) => destruct b : owner.
#[export] Hint Extern 0 (keeps ?s ?s) => reflexivity : owner.
#[export] Hint Extern 2 (keeps _ (upd_sk _ _)) => apply keeps_sk; [done|done|] : owner.

(** Case analysis on whatever the goal branches on; a pair a function returns is
    taken apart with what is known of its state. *)
Ltac owner_branch :=
  repeat match goal with
    | |- keeps _ (snd (if ?b then _ else _)) => destruct b
    | |- keeps _ (fst (if ?b then _ else _)) => destruct b
    end; cbn [fst snd]; solve [eauto 30 with owner].
Ltac owner_pair s0 g :=
  let K := fresh "K" in
  first
    [ assert (K : keeps s0 (snd g)) by owner_branch
    | assert (K : keeps s0 (fst g)) by owner_branch
    | assert (K : keeps s0 (snd (fst g))) by owner_branch ];
  let E := fresh "E" in destruct g eqn:E; repeat match goal with x : _ * _ |- _ => destruct x end; cbn [fst snd] in K; clear E.

Ltac owner_step :=
  match goal with
  | |- keeps ?s0 (match ?g with (x, y) => _ end) => owner_pair s0 g
  | |- keeps ?s0 (fst (match ?g with (x, y) => _ end)) => owner_pair s0 g
  | |- keeps ?s0 (snd (match ?g with (x, y) => _ end)) => owner_pair s0 g
  | |- keeps _ (match ?b with _ => _ end) => destruct b
  | |- keeps _ (fst (match ?b with _ => _ end)) => destruct b
  | |- keeps _ (snd (match ?b with _ => _ end)) => destruct b
  | |- keeps _ (snd (fst (match ?b with _ => _ end))) => destruct b
  end; cbn [fst snd].
Ltac owner := cbv zeta; repeat first [solve [eauto 30 with owner] | owner_step; cbv zeta].

Section Functions.
Context {L : Type} `{IpLayerLaws L}.
Implicit Type s : st L.

Lemma keeps_transmit s0 b seq s : keeps s0 s -> keeps s0 (tcp_transmit_skb b seq s).1.2.
Proof. apply keeps_tx. apply (transmit_frame b seq s). Qed.
Lemma keeps_send_ack s0 s : keeps s0 s -> keeps s0 (tcp_send_ack s).1.
Proof. apply keeps_tx, send_ack_frame. Qed.
Hint Resolve keeps_transmit keeps_send_ack : owner.

Lemma keeps_stop_rto s0 s : keeps s0 s -> keeps s0 (tcp_stop_rto_timer s).
Proof. intros. unfold tcp_stop_rto_timer. owner. Qed.
Lemma keeps_release_rto s0 s : keeps s0 s -> keeps s0 (tcp_release_rto_timer s).
Proof. intros. unfold tcp_release_rto_timer. owner. Qed.
Lemma keeps_stop_delack s0 s : keeps s0 s -> keeps s0 (tcp_stop_delack_timer s).
Proof. intros. unfold tcp_stop_delack_timer. owner. Qed.
Lemma keeps_release_delack s0 s : keeps s0 s -> keeps s0 (tcp_release_delack_timer s).
Proof. intros. unfold tcp_release_delack_timer. owner. Qed.
Hint Resolve keeps_stop_rto keeps_release_rto keeps_stop_delack keeps_release_delack : owner.
Lemma keeps_clear_timers s0 s : keeps s0 s -> keeps s0 (tcp_clear_timers s).
Proof. intros. unfold tcp_clear_timers. owner. Qed.
Hint Resolve keeps_clear_timers : owner.
Lemma keeps_clear_queues s0 s : keeps s0 s -> keeps s0 (tcp_clear_queues s).
Proof. intros. unfold tcp_clear_queues. destruct (skb_queue_free _). owner. Qed.
Hint Resolve keeps_clear_queues : owner.
Lemma keeps_delete s0 s : keeps s0 s -> keeps s0 (socket_delete s).
Proof. intros. unfold socket_delete. owner. Qed.
Hint Resolve keeps_delete : owner.
Lemma keeps_done s0 s : keeps s0 s -> keeps s0 (tcp_done s).
Proof. intros. unfold tcp_done, tcp_free. owner. Qed.
Lemma keeps_fin_state s0 s : keeps s0 s -> keeps s0 (tcp_handle_fin_state s).
Proof. intros. unfold tcp_handle_fin_state. owner. Qed.
Lemma keeps_time_wait s0 s : keeps s0 s -> keeps s0 (tcp_enter_time_wait s).
Proof. intros. unfold tcp_enter_time_wait. owner. Qed.
Lemma keeps_user_timeout s0 s : keeps s0 s -> keeps s0 (tcp_rearm_user_timeout s).
Proof. intros. unfold tcp_rearm_user_timeout. owner. Qed.
Lemma keeps_rtt s0 s : keeps s0 s -> keeps s0 (tcp_rtt s).
Proof. intros. unfold tcp_rtt. owner. Qed.
Lemma keeps_sacks s0 a b s : keeps s0 s -> keeps s0 (tcp_calculate_sacks a b s).
Proof. by apply keeps_same. Qed.
Hint Resolve keeps_done keeps_fin_state keeps_time_wait keeps_user_timeout keeps_rtt keeps_sacks : owner.

Lemma keeps_tcp_alloc s0 f o n s : keeps s0 s -> keeps s0 (tcp_alloc_skb f o n s).2.
Proof. by apply keeps_same. Qed.
Lemma keeps_rearm s0 s : keeps s0 s -> keeps s0 (tcp_rearm_rto_timer s).
Proof. intros. unfold tcp_rearm_rto_timer. owner. Qed.
Lemma keeps_transmit_queued s0 i b q s : keeps s0 s -> keeps s0 (transmit_queued i b q s).1.
Proof. intros. unfold transmit_queued. owner. Qed.
Hint Resolve keeps_tcp_alloc keeps_rearm keeps_transmit_queued : owner.
Lemma keeps_queue_now s0 b s : keeps s0 s -> keeps s0 (queue_transmit_now b s).1.
Proof. intros. unfold queue_transmit_now. cbv zeta. apply keeps_transmit_queued. owner. Qed.
Lemma keeps_send_reset s0 s : keeps s0 s -> keeps s0 (tcp_send_reset s).1.
Proof. intros. unfold tcp_send_reset. owner. Qed.
Lemma keeps_send_segment s0 c l s : keeps s0 s -> keeps s0 (send_segment c l s).2.
Proof. by apply keeps_same. Qed.
Hint Resolve keeps_queue_now keeps_send_reset keeps_send_segment : owner.

Lemma keeps_send_next s0 a x s : keeps s0 s -> keeps s0 (tcp_send_next a x s).
Proof.
  intros K. unfold tcp_send_next. generalize (min (u32 (cwnd (cc s) + x)) (snd_wnd (tb s))) as w. intros w.
  generalize (length (skq (sk_write_queue (sk s)))), 0%nat. intros fuel. revert s K.
  induction fuel as [|fuel IH]; intros s K i; cbn [send_next_loop]; [done|].
  destruct (skq (sk_write_queue (sk s)) !! i) as [b|]; [|done]. destruct (_ <? _); [done|].
  destruct (negb _); [by apply IH|]. destruct (_ <? _); [done|].
  assert (K1 : keeps s0 (tcp_transmit_skb (skb_reset_header b) (snd_nxt (tb s)) s).1.2) by (by apply keeps_transmit).
  destruct (tcp_transmit_skb _ _ s) as [[b' s'] rc]. cbn [fst snd] in K1. cbv zeta. apply IH. owner.
Qed.
Lemma keeps_fast_retransmit s0 s : keeps s0 s -> keeps s0 (tcp_fast_retransmit s).1.
Proof. intros. unfold tcp_fast_retransmit. owner. Qed.
Lemma keeps_sack_clear s0 s : keeps s0 s -> keeps s0 (tcp_sack_clear s).
Proof. by apply keeps_same. Qed.
Lemma keeps_notify_user s0 s : keeps s0 s -> keeps s0 (tcp_notify_user s).
Proof. intros. unfold tcp_notify_user. owner. Qed.
Hint Resolve keeps_send_next keeps_fast_retransmit keeps_sack_clear keeps_notify_user : owner.

(** ** Input *)

Lemma keeps_consume s0 s : keeps s0 s -> keeps s0 (tcp_consume_ofo_queue s).
Proof.
  unfold tcp_consume_ofo_queue. generalize (length (skq (ofo s))). intros fuel. revert s.
  induction fuel as [|fuel IH]; intros s K; cbn [consume_loop]; [done|].
  destruct (skb_peek (ofo s)); [|done]. destruct (skb_dequeue (ofo s)) as [[b q]|]; [|done].
  destruct (_ =? _); [|done]. apply IH. owner.
Qed.
Hint Resolve keeps_consume : owner.
Lemma keeps_data_queue s0 b s : keeps s0 s -> keeps s0 (tcp_data_queue b s).1.2.
Proof.
  intros K. unfold tcp_data_queue. destruct (_ =? 0); [done|]. destruct (_ =? _); cbn [fst snd]; [owner|].
  destruct (tcp_data_insert_ordered (ofo s) b) as [q b1]. cbv zeta.
  match goal with |- context [tcp_send_ack ?x] => assert (K1 : keeps s0 (tcp_send_ack x).1) by owner;
    destruct (tcp_send_ack x) as [s2 rc] end. exact K1.
Qed.
Hint Resolve keeps_data_queue : owner.
Lemma keeps_parse_opts s0 th s : keeps s0 s -> keeps s0 (tcp_parse_opts th s).
Proof.
  intros. unfold tcp_parse_opts. cbv zeta. unfold tcp_sack_mark_write_queue.
  generalize (parse_loop parse_fuel (th_data th) (opt_start (u8 (tcp_hlen th - 20)) (snd_scale (sa s)))). intros p. owner.
Qed.
Lemma keeps_clean s0 una s : keeps s0 s -> keeps s0 (tcp_clean_rto_queue una s).
Proof.
  intros K. unfold tcp_clean_rto_queue.
  assert (K1 : keeps s0 (clean_loop (length (skq (write_queue s))) una s).1).
  { generalize (length (skq (write_queue s))). intros fuel. revert s K.
    induction fuel as [|fuel IH]; intros s K; cbn [clean_loop]; [done|].
    destruct (skb_peek (write_queue s)) as [b|]; [|done]. destruct (_ && _); [|done].
    destruct (skb_dequeue (write_queue s)) as [[b' q]|]; [apply IH; owner|cbn [fst]; owner]. }
  destruct (clean_loop _ una s) as [s1 e]. cbn [fst] in K1. owner.
Qed.
Hint Resolve keeps_parse_opts keeps_clean : owner.
Lemma keeps_fast_recovery s0 s : keeps s0 s -> keeps s0 (tcp_enter_fast_recovery s).
Proof. intros. unfold tcp_enter_fast_recovery. owner. Qed.
Hint Resolve keeps_fast_recovery : owner.
Lemma keeps_dupack s0 s : keeps s0 s -> keeps s0 (tcp_handle_dupack s).
Proof. intros. unfold tcp_handle_dupack. owner. Qed.
Lemma keeps_reset s0 s : keeps s0 s -> keeps s0 (tcp_reset s).
Proof. intros. unfold tcp_reset. owner. Qed.
Lemma keeps_drop s0 b s : keeps s0 s -> keeps s0 (tcp_drop b s).
Proof. apply keeps_free. Qed.
Lemma keeps_connected s0 s : keeps s0 s -> keeps s0 (sock_connected s).
Proof. intros. unfold sock_connected. owner. Qed.
Lemma keeps_to_parent s0 s : keeps s0 s -> keeps s0 (add_tsk_to_parent_establied_conn_list s).
Proof. intros. unfold add_tsk_to_parent_establied_conn_list. destruct (ptsk s); [|owner]. destruct (_ !! _); owner. Qed.
Lemma keeps_snd_win s0 w s : keeps s0 s -> keeps s0 (update_snd_win w s).
Proof. intros. unfold update_snd_win. owner. Qed.
Hint Resolve keeps_dupack keeps_reset keeps_drop keeps_connected keeps_to_parent keeps_snd_win : owner.

Definition step_keeps (s0 : st L) (r : step L) : Prop :=
  match r with Next _ s => keeps s0 s | Return s _ => keeps s0 s end.

Lemma step_keeps_bind s0 r f :
  step_keeps s0 r -> (forall b s, keeps s0 s -> step_keeps s0 (f b s)) -> step_keeps s0 (step_bind r f).
Proof. intros K F. destruct r; simpl; [by apply F|done]. Qed.

Lemma check_segment_keeps s0 th b s : keeps s0 s -> step_keeps s0 (check_segment th b s).
Proof.
  intros. unfold check_segment. destruct (negb (tcp_verify_segment _ _ _)); [simpl; owner|].
  destruct (th_rst th); [simpl; owner|]. destruct (th_syn th); [simpl; owner|]. destruct (negb _); simpl; owner.
Qed.
Lemma process_ack_keeps s0 th b s : keeps s0 s -> step_keeps s0 (process_ack th b s).
Proof.
  intros K. unfold process_ack. destruct (tcp_is_dupack th b s); [cbn [step_keeps]; owner|].
  set (s1 := if ack_advances th s then _ else s).
  assert (K1 : keeps s0 s1) by (unfold s1; owner). clearbody s1. cbv zeta.
  destruct (_ <? _); [cbn [step_keeps]; owner|]. destruct (_ <? _); cbn [step_keeps]; owner.
Qed.
Lemma ack_switch_keeps s0 th b s : keeps s0 s -> step_keeps s0 (ack_switch th b s).
Proof.
  intros K. unfold ack_switch. destruct (state s); try (by apply process_ack_keeps); try exact K.
  destruct (ack_advances th s); [apply process_ack_keeps; owner|cbn [step_keeps]; owner].
Qed.
Lemma fin_acked_keeps s0 th b s : keeps s0 s -> step_keeps s0 (fin_acked th b s).
Proof.
  intros K. unfold fin_acked. destruct (skb_queue_empty _); [|exact K].
  destruct (state s); try exact K; try (cbn [step_keeps]; owner). destruct (_ =? _); cbn [step_keeps]; owner.
Qed.
Lemma segment_text_keeps s0 th b s : keeps s0 s -> step_keeps s0 (segment_text th b s).
Proof.
  intros K. unfold segment_text. pose proof (keeps_data_queue s0 b s K) as K1.
  destruct (tcp_data_queue b s) as [[b1 s1] rc]. cbn [fst snd] in K1.
  destruct (state s); try exact K; destruct (_ || _); done.
Qed.
Lemma fin_bit_keeps s0 th e b s : keeps s0 s -> step_keeps s0 (fin_bit th e b s).
Proof.
  intros K. unfold fin_bit. destruct (_ && _); [|exact K]. cbv zeta.
  set (s1 := recv_notify _). assert (K1 : keeps s0 s1) by (unfold s1; owner). clearbody s1.
  destruct (state s); cbn [step_keeps]; try (by owner); destruct (state s1); owner.
Qed.
Lemma delay_ack_keeps s0 th b s : keeps s0 s -> keeps s0 (delay_ack th b s).
Proof. intros. unfold delay_ack. cbv zeta. owner. Qed.
Hint Resolve delay_ack_keeps : owner.
Lemma send_or_delay_keeps s0 th e b s : keeps s0 s -> step_keeps s0 (send_or_delay th e b s).
Proof.
  intros K. unfold send_or_delay. destruct (state s); try exact K; destruct e; try exact K;
    destruct (_ <? _); cbn [step_keeps]; owner.
Qed.

Lemma otherwise_keeps s0 th b s : keeps s0 s -> keeps s0 (tcp_otherwise th b s).1.
Proof.
  intros K. unfold tcp_otherwise.
  set (r := step_bind _ _). assert (R : step_keeps s0 r).
  { apply step_keeps_bind; [by apply check_segment_keeps|]. intros b1 s1 K1.
    apply step_keeps_bind; [by apply ack_switch_keeps|]. intros b2 s2 K2.
    apply step_keeps_bind; [by apply fin_acked_keeps|]. intros b3 s3 K3. cbv zeta.
    apply step_keeps_bind; [by apply segment_text_keeps|]. intros b4 s4 K4.
    apply step_keeps_bind; [by apply fin_bit_keeps|]. intros b5 s5 K5. by apply send_or_delay_keeps. }
  destruct r; cbn [fst step_keeps] in *; [owner|done].
Qed.

(** ** Calls that may sleep: they sleep with the lock released *)

(** Everything that may follow but the release of the lock. *)
Definition plain_after (k : after) : Prop := k <> AfterRelease.

Definition res_keeps (s0 : st L) (r : res L) : Prop :=
  match r with
  | Done s _ => keeps s0 s
  | Asleep s _ k => (exists s1, keeps s0 s1 /\ s = socket_release s1) /\ Forall plain_after k
  | Diverges => True
  end.

Lemma queue_transmit_keeps s0 b s : keeps s0 s -> res_keeps s0 (tcp_queue_transmit_skb b s).
Proof.
  intros K. unfold tcp_queue_transmit_skb. pose proof (keeps_queue_now s0 b s K) as K1.
  destruct (queue_transmit_now b s) as [s1 rc]. destruct (snd_wnd_open _ s); [exact K1|]. split; [by exists s|done].
Qed.

Lemma send_loop_keeps s0 mss len fuel : forall rest s,
  keeps s0 s -> res_keeps s0 (tcp_send_loop fuel rest mss len s).
Proof.
  induction fuel as [|fuel IH]; intros rest s K; destruct rest as [|x rest]; cbn [tcp_send_loop res_keeps]; try done; [owner|owner|].
  cbv zeta. match goal with |- context [send_segment ?c ?l s] => assert (K1 : keeps s0 (send_segment c l s).2) by owner;
    destruct (send_segment c l s) as [b s1] end. cbn [snd] in K1.
  pose proof (queue_transmit_keeps s0 b s1 K1) as K2. destruct (tcp_queue_transmit_skb b s1) as [s2 rc|s2 b2 k|]; [by apply IH| |done].
  destruct K2 as [K2 Hk]. split; [done|]. apply Forall_app. split; [done|]. by apply Forall_singleton.
Qed.

Lemma run_after_keeps s0 k s rc : plain_after k -> keeps s0 s -> res_keeps s0 (run_after k s rc).
Proof.
  intros Hk K. destruct k as [rest mss len|  | v | x | b |]; cbn [run_after].
  1: by apply send_loop_keeps.
  1, 2, 3, 4: cbn [res_keeps]; owner.
  done.
Qed.

Lemma and_then_keeps s0 r k : plain_after k -> res_keeps s0 r -> res_keeps s0 (and_then r k).
Proof.
  intros Hk K. destruct r; cbn [and_then]; [by apply run_after_keeps| |done]. destruct K as [K Hks]. split; [done|].
  apply Forall_app. split; [done|]. by apply Forall_singleton.
Qed.

Lemma send_synack_keeps s0 s : keeps s0 s -> res_keeps s0 (tcp_send_synack s).
Proof.
  intros K. unfold tcp_send_synack. destruct (_ || _); [|exact K].
  match goal with |- context [tcp_alloc_skb ?f ?o ?n s] => assert (K1 : keeps s0 (tcp_alloc_skb f o n s).2) by owner;
    destruct (tcp_alloc_skb f o n s) as [b s1] end. apply and_then_keeps; [done|]. by apply queue_transmit_keeps.
Qed.
Lemma send_syn_keeps s0 s : keeps s0 s -> res_keeps s0 (tcp_send_syn s).
Proof.
  intros K. unfold tcp_send_syn. destruct (_ || _); [|exact K]. destruct (tcp_syn_options s) as [opts n].
  match goal with |- context [tcp_alloc_skb ?f ?o ?n s] => assert (K1 : keeps s0 (tcp_alloc_skb f o n s).2) by owner;
    destruct (tcp_alloc_skb f o n s) as [b s1] end. cbn [snd] in K1. apply queue_transmit_keeps. owner.
Qed.
Lemma queue_fin_keeps s0 s : keeps s0 s -> res_keeps s0 (tcp_queue_fin s).
Proof.
  intros K. unfold tcp_queue_fin.
  match goal with |- context [tcp_alloc_skb ?f ?o ?n s] => assert (K1 : keeps s0 (tcp_alloc_skb f o n s).2) by owner;
    destruct (tcp_alloc_skb f o n s) as [b s1] end. by apply queue_transmit_keeps.
Qed.
Lemma connect_keeps s0 s : keeps s0 s -> res_keeps s0 (tcp_connect s).
Proof.
  intros K. unfold tcp_connect. cbv zeta.
  match goal with |- context [generate_iss ?x] => assert (K1 : keeps s0 (generate_iss x).2) by owner;
    destruct (generate_iss x) as [i s1] end. cbn [snd] in K1. apply and_then_keeps; [done|]. apply send_syn_keeps. owner.
Qed.

Lemma input_conn_keeps s0 th b s : keeps s0 s -> res_keeps s0 (tcp_input_conn th b s).
Proof.
  intros K. pose proof (otherwise_keeps s0 th b s K) as K1.
  assert (O : res_keeps s0 (let '(s, rc) := tcp_otherwise th b s in Done s rc)) by (by destruct (tcp_otherwise th b s)).
  unfold tcp_input_conn. destruct (state s); try exact O; clear O K1.
  - unfold tcp_synsent. destruct (synsent_ack_bad _ _); [cbn [res_keeps]; owner|].
    destruct (th_rst th); [cbn [res_keeps]; owner|]. destruct (negb _); [cbn [res_keeps]; owner|]. cbv zeta.
    set (s1 := if th_ack th then _ else _). assert (K1 : keeps s0 s1) by (unfold s1; owner). clearbody s1.
    destruct (_ <? _).
    + match goal with |- context [tcp_send_ack ?x] => assert (K2 : keeps s0 (tcp_send_ack x).1) by owner;
        destruct (tcp_send_ack x) as [s2 rc] end. cbn [fst res_keeps] in *. owner.
    + apply and_then_keeps; [done|]. apply send_synack_keeps. owner.
  - unfold tcp_closed. destruct (th_rst th); [cbn [res_keeps]; owner|].
    pose proof (keeps_send_reset s0 s K) as K1. destruct (tcp_send_reset s) as [s1 rc]. cbn [fst res_keeps] in *. owner.
Qed.

Lemma keeps_port s0 s : keeps s0 s -> keeps s0 (generate_port s).2.
Proof. by apply keeps_same. Qed.
Lemma v4_connect_keeps s0 addr s : keeps s0 s -> res_keeps s0 (tcp_v4_connect addr s).
Proof.
  intros K. unfold tcp_v4_connect. cbv zeta.
  match goal with |- context [generate_port ?x] => assert (K1 : keeps s0 (generate_port x).2) by (apply keeps_port; owner);
    destruct (generate_port x) as [i s1] end. cbn [snd] in K1. apply connect_keeps. owner.
Qed.
Lemma v6_connect_keeps s0 addr n s : keeps s0 s -> res_keeps s0 (tcp_v6_connect addr n s).
Proof.
  intros K. unfold tcp_v6_connect. destruct (_ || _); [exact K|]. cbv zeta.
  match goal with |- context [generate_port ?x] => assert (K1 : keeps s0 (generate_port x).2) by (apply keeps_port; owner);
    destruct (generate_port x) as [i s1] end. cbn [snd] in K1. apply connect_keeps. owner.
Qed.
Lemma write_keeps s0 buf s : keeps s0 s -> res_keeps s0 (tcp_write buf s).
Proof.
  intros K. unfold tcp_write. destruct (negb _); [exact K|]. destruct (state s); try exact K; by apply send_loop_keeps.
Qed.
Lemma close_keeps s0 s : keeps s0 s -> res_keeps s0 (tcp_close s).
Proof.
  intros K. unfold tcp_close.
  destruct (state s); try (cbn [res_keeps]; owner).
  - apply and_then_keeps; [done|]. apply queue_fin_keeps. owner.
  - apply and_then_keeps; [done|]. apply and_then_keeps; [done|]. by apply queue_fin_keeps.
Qed.
Lemma abort_keeps s0 s : keeps s0 s -> keeps s0 (tcp_abort s).
Proof. intros K. unfold tcp_abort. owner. Qed.
Lemma bind_keeps s0 addr s : keeps s0 s -> keeps s0 (tcp_v4_bind addr s).1.
Proof. by apply keeps_same. Qed.
Lemma v6_bind_keeps s0 addr n s : keeps s0 s -> keeps s0 (tcp_v6_bind addr n s).1.
Proof. intros K. unfold tcp_v6_bind. destruct (_ || _); [done|]. by eapply keeps_same, K. Qed.
Lemma listen_keeps s0 n s : keeps s0 s -> keeps s0 (tcp_v4_listen n s).1.
Proof. intros K. unfold tcp_v4_listen. destruct (state s); try exact K. by eapply keeps_same, K. Qed.

Definition recv_keeps (s0 : st L) (r : recv_res L) : Prop :=
  match r with
  | Received s _ _ => keeps s0 s
  | RecvAsleep s _ _ => exists s1, keeps s0 s1 /\ s = socket_release s1
  end.

Lemma keeps_dequeue_step s0 b r n s : keeps s0 s -> keeps s0 (dequeue_step b r n s).2.
Proof.
  intros K. unfold dequeue_step. cbv zeta. destruct (_ =? 0); [|cbn [snd]; owner].
  match goal with |- context [skb_dequeue ?q] => destruct (skb_dequeue q) as [[b' q']|] end; cbn [snd]; owner.
Qed.
Lemma keeps_data_dequeue s0 n s : keeps s0 s -> keeps s0 (tcp_data_dequeue n s).2.
Proof.
  intros K. unfold tcp_data_dequeue.
  assert (K1 : keeps s0 (dequeue_loop (length (skq (receive_queue s))) [] n s).2).
  { generalize (length (skq (receive_queue s))), (@nil Z). intros fuel. revert s K.
    induction fuel as [|fuel IH]; intros s K acc; cbn [dequeue_loop]; [done|].
    destruct (_ && _); [|done]. destruct (skb_peek _) as [b|]; [|done].
    pose proof (keeps_dequeue_step s0 b (Z.of_nat (length acc)) n s K) as K1.
    destruct (dequeue_step _ _ _ s) as [out s1]. by apply IH. }
  destruct (dequeue_loop _ _ _ s) as [out s1]. cbn [snd] in K1. destruct (_ && _); cbn [snd]; owner.
Qed.

Lemma receive_turn_keeps s0 acc n s : keeps s0 s -> recv_keeps s0 (receive_turn acc n s).
Proof.
  intros K. unfold receive_turn, receive_out. destruct (_ <? _); [|cbn [recv_keeps]; owner].
  pose proof (keeps_data_dequeue s0 (n - Z.of_nat (length acc)) s K) as K1.
  destruct (tcp_data_dequeue _ s) as [out s1]. cbn [snd] in K1. cbv zeta.
  destruct (negb _); [cbn [recv_keeps]; owner|]. destruct (_ || _); [cbn [recv_keeps]; owner|].
  destruct (negb _); [|by exists s1]. destruct (_ =? _); cbn [recv_keeps]; owner.
Qed.
Lemma read_keeps s0 n s : keeps s0 s -> recv_keeps s0 (tcp_read n s).
Proof.
  intros K. unfold tcp_read, tcp_receive.
  destruct (state s); try (by apply receive_turn_keeps); try exact K.
  destruct (negb _); [by apply receive_turn_keeps|]. destruct (negb _); [cbn [recv_keeps]; owner|by apply receive_turn_keeps].
Qed.

(** ** Functions that take the lock themselves *)

(** The same socket of the same process; [released]: and it is not locked. *)
Record owned (s s' : st L) : Prop := mk_owned {
  ow_id : so_id (so s') = so_id (so s);
  ow_fd : so_fd (so s') = so_fd (so s);
  ow_pid : so_pid (so s') = so_pid (so s);
  ow_protocol : sk_protocol (sk s') = sk_protocol (sk s);
  ow_family : sk_addr_family (sk s') = sk_addr_family (sk s)
}.
#[export] Instance owned_refl : Reflexive owned.
Proof. by intros s. Qed.
#[export] Instance owned_trans : Transitive owned.
Proof. intros a b c [] []. constructor; congruence. Qed.

Lemma keeps_owned s s' : keeps s s' -> owned s s'.
Proof. intros [K1 K2 K3]. constructor; try done; by rewrite K1. Qed.
Lemma keeps_locked s s' : keeps s s' -> so_locked (so s') = so_locked (so s).
Proof. intros [K1 _ _]. by rewrite K1. Qed.

Definition released (s s' : st L) : Prop := owned s s' /\ so_locked (so s') = false.

Lemma acquire_owned s : owned s (socket_wr_acquire s) /\ so_locked (so (socket_wr_acquire s)) = true.
Proof. unfold socket_wr_acquire. by destruct (so_locked (so s)). Qed.
Lemma release_released s : released s (socket_release s).
Proof. unfold socket_release, released. destruct (so_locked (so s)) eqn:E; split; try done; by constructor. Qed.
Lemma bracket s s1 : keeps (socket_wr_acquire s) s1 -> released s (socket_release s1).
Proof.
  intros K%keeps_owned. destruct (release_released s1) as [R ?]. split; [|done].
  etrans; [apply acquire_owned|]. by etrans.
Qed.

Lemma delack_released s : released s (tcp_send_delack s).
Proof.
  unfold tcp_send_delack. cbv zeta. set (s1 := tcp_release_delack_timer _).
  assert (K : keeps (socket_wr_acquire s) (tcp_send_ack s1).1) by (unfold s1; owner).
  destruct (tcp_send_ack s1). by apply bracket.
Qed.
Lemma linger_released s : released s (tcp_linger s).
Proof. unfold tcp_linger. cbv zeta. apply bracket. owner. Qed.
Lemma user_timeout_released s : released s (tcp_user_timeout s).
Proof. unfold tcp_user_timeout. cbv zeta. apply bracket, abort_keeps. owner. Qed.
Lemma connect_rto_released e s : released s (tcp_connect_rto e s).
Proof.
  unfold tcp_connect_rto. cbv zeta. destruct (negb _); [by apply bracket|].
  apply bracket. destruct (state_is _ _); [|owner]. destruct (_ <? _); [owner|].
  destruct (write_queue_head _) as [b|]; owner.
Qed.
Lemma rto_released e s : released s (tcp_retransmission_timeout e s).
Proof.
  unfold tcp_retransmission_timeout. cbv zeta. destruct (negb _); [by apply bracket|].
  destruct (write_queue_head _) as [b|]; [|apply bracket; owner].
  set (s1 := tcp_sack_clear _). assert (K1 : keeps (socket_wr_acquire s) s1) by (unfold s1; owner). clearbody s1.
  destruct (write_queue_head s1) as [b1|]; [|by apply bracket].
  pose proof (keeps_transmit _ (skb_reset_header b1) (snd_una (tb s1)) s1 K1) as K2.
  destruct (tcp_transmit_skb _ _ s1) as [[b2 s2] rc]. cbn [fst snd] in K2.
  destruct (_ <? _); apply bracket; owner.
Qed.
Lemma handler_owned h a s : owned s (run_handler h a s) /\ (so_locked (so s) = false -> so_locked (so (run_handler h a s)) = false).
Proof.
  assert (R : forall s', released s s' -> owned s s' /\ (so_locked (so s) = false -> so_locked (so s') = false)) by (by intros s' []).
  destruct h; try (by destruct a); cbn [run_handler].
  - destruct a; try done. apply R, connect_rto_released.
  - destruct a; try done. apply R, rto_released.
  - destruct a; apply R, delack_released.
  - destruct a; apply R, linger_released.
  - destruct a; apply R, user_timeout_released.
Qed.

(** Calls that sleep: asleep, the lock is released; done, it is as before. *)
Definition res_owned (s0 : st L) (lk : bool) (r : res L) : Prop :=
  match r with
  | Done s _ => owned s0 s /\ so_locked (so s) = lk
  | Asleep s _ k => released s0 s /\ Forall plain_after k
  | Diverges => True
  end.
Lemma res_keeps_owned s0 s1 r : owned s0 s1 -> res_keeps s1 r -> res_owned s0 (so_locked (so s1)) r.
Proof.
  intros O K. destruct r as [s rc|s b k|]; cbn [res_keeps res_owned] in *; [| |done].
  - split; [etrans; [exact O|by apply keeps_owned]|by apply keeps_locked].
  - destruct K as [(s2 & K & ->) Hk]. destruct (release_released s2) as [R ?]. split; [|done]. split; [|done].
    etrans; [exact O|]. etrans; [by apply keeps_owned|exact R].
Qed.

Definition recv_owned (s0 : st L) (lk : bool) (r : recv_res L) : Prop :=
  match r with Received s _ _ => owned s0 s /\ so_locked (so s) = lk | RecvAsleep s _ _ => released s0 s end.
Lemma recv_keeps_owned s0 s1 r : owned s0 s1 -> recv_keeps s1 r -> recv_owned s0 (so_locked (so s1)) r.
Proof.
  intros O K. destruct r as [s bs rc|s acc n]; cbn [recv_keeps recv_owned] in *.
  - split; [etrans; [exact O|by apply keeps_owned]|by apply keeps_locked].
  - destruct K as (s2 & K & ->). destruct (release_released s2) as [R ?]. split; [|done].
    etrans; [exact O|]. etrans; [by apply keeps_owned|exact R].
Qed.

(** A thread woken in [tcp_wait_snd_wnd]. *)
Lemma fold_after_keeps s0 ks : forall r, Forall plain_after ks -> res_keeps s0 r -> res_keeps s0 (foldl and_then r ks).
Proof.
  induction ks as [|k ks IH]; intros r F K; [exact K|]. inversion F; subst. cbn [foldl]. by apply IH, and_then_keeps.
Qed.
Lemma resume_owned b k s : Forall plain_after k -> res_owned s true (resume b k s).
Proof.
  intros F. destruct (acquire_owned s) as [O E]. unfold resume. rewrite <- E. apply res_keeps_owned; [done|].
  by apply fold_after_keeps, queue_transmit_keeps.
Qed.
(** The same for a segment's input, whose last act is to release the lock. *)
Definition input_owned (s0 : st L) (r : res L) : Prop :=
  match r with
  | Done s _ => released s0 s
  | Asleep s _ k => released s0 s /\ exists k0, Forall plain_after k0 /\ k = k0 ++ [AfterRelease]
  | Diverges => True
  end.
Lemma release_input s0 r : res_owned s0 true r -> input_owned s0 (and_then r AfterRelease).
Proof.
  destruct r as [s rc|s b k|]; cbn [and_then run_after res_owned input_owned]; [| |done].
  - intros [O E]. destruct (release_released s) as [R ?]. split; [by etrans|done].
  - intros [R F]. split; [done|]. by exists k.
Qed.
Lemma resume_input_owned b k s : Forall plain_after k -> input_owned s (resume b (k ++ [AfterRelease]) s).
Proof. intros F. unfold resume. rewrite foldl_app. by apply release_input, resume_owned. Qed.

(** Only the loop of [tcp_send] can fail to end. *)
Lemma synack_returns s : tcp_send_synack s <> Diverges.
Proof.
  unfold tcp_send_synack. destruct (_ || _); [|done]. destruct (tcp_alloc_skb _ _ _ s) as [b s1].
  unfold tcp_queue_transmit_skb. destruct (snd_wnd_open _ s1); [|done]. by destruct (queue_transmit_now _ s1).
Qed.
Lemma input_conn_returns th b s : tcp_input_conn th b s <> Diverges.
Proof.
  unfold tcp_input_conn. destruct (state s); try (by destruct (tcp_otherwise th b s)).
  - unfold tcp_synsent. destruct (synsent_ack_bad _ _); [done|]. destruct (th_rst th); [done|]. destruct (negb _); [done|].
    cbv zeta. destruct (_ <? _); [by destruct (tcp_send_ack _)|].
    match goal with |- and_then (tcp_send_synack ?x) _ <> _ => pose proof (synack_returns x) as Hx;
      destruct (tcp_send_synack x) end; done.
  - unfold tcp_closed. destruct (th_rst th); [done|]. by destruct (tcp_send_reset s).
Qed.

End Functions.

End TcpOwner.
