(* ===== verification/World.v ===== *)
(** All sockets together: the socket table of [src/src/socket.c], the arrival of TCP
    segments ([tcp_in], [tcp_in_v6] of [src/src/tcp.c]) and the fork of a
    connection by a listening socket ([src/src/tcp_input.c]).

    The table is the list [sockets] in order.  A [struct socket *] or [struct sock *]
    is the identity of the allocation; an entry that left the list was freed, and
    using its identity is a fault.  A thread that sleeps inside a call is an entry
    of [w_threads]: where it sleeps and what it does when it is woken.  Any sleeping
    thread may be resumed at any time ([pthread_cond_wait] may wake spuriously, and
    every sleeping loop tests its condition again). *)
From S2P Require Import Prelude Utils SkBuff Timer TcpTypes TcpBase TcpOutput TcpData TcpInput TcpApi Ipv6 Net Neigh IpOut.
Import Utils SkBuff Timer TcpTypes TcpBase TcpOutput TcpData TcpInput TcpApi Ipv6 Net Neigh IpOut.

Module World.

Definition SOCK_DGRAM : Z := 2.
Definition AF_UNSPEC : Z := 0.
Definition EISCONN : Z := 106.
Definition EALREADY : Z := 114.
Definition EINPROGRESS : Z := 115.
Definition EAFNOSUPPORT : Z := 97.
Definition EADDRNOTAVAIL : Z := 99.
Definition EADDRINUSE : Z := 98.
Definition ENOPROTOOPT : Z := 92.
Definition POLLNVAL : Z := 32.

(** The function tables a socket can point to. *)
Inductive sock_ops := inet_stream_ops | inet_dgram_ops | inet6_stream_ops | inet6_dgram_ops.
Inductive net_ops := tcp_ops | tcp6_ops | udp_ops.

Definition net_ops_of (o : sock_ops) : net_ops :=
  match o with inet_stream_ops => tcp_ops | inet6_stream_ops => tcp6_ops | _ => udp_ops end.

Record tcp_part := mk_tp {
  p_tb : tcb;
  p_tm : tcp_timing;
  p_cc : tcp_cong;
  p_sa : tcp_sackst;
  p_ofo : sk_buff_head;
  p_ptsk : option Z
}.

Definition set_p_tb (v : tcb) (r : tcp_part) : tcp_part :=
    mk_tp v (p_tm r) (p_cc r) (p_sa r) (p_ofo r) (p_ptsk r).
Definition set_p_tm (v : tcp_timing) (r : tcp_part) : tcp_part :=
    mk_tp (p_tb r) v (p_cc r) (p_sa r) (p_ofo r) (p_ptsk r).
Definition set_p_cc (v : tcp_cong) (r : tcp_part) : tcp_part :=
    mk_tp (p_tb r) (p_tm r) v (p_sa r) (p_ofo r) (p_ptsk r).
Definition set_p_sa (v : tcp_sackst) (r : tcp_part) : tcp_part :=
    mk_tp (p_tb r) (p_tm r) (p_cc r) v (p_ofo r) (p_ptsk r).
Definition set_p_ofo (v : sk_buff_head) (r : tcp_part) : tcp_part :=
    mk_tp (p_tb r) (p_tm r) (p_cc r) (p_sa r) v (p_ptsk r).
Definition set_p_ptsk (v : option Z) (r : tcp_part) : tcp_part :=
    mk_tp (p_tb r) (p_tm r) (p_cc r) (p_sa r) (p_ofo r) v.

(** A socket, its sock, and for TCP what [struct tcp_sock] adds to it. *)
Record entry := mk_entry {
  c_so : socket;
  c_sk : sock;
  c_tcp : option tcp_part;
  c_ops : sock_ops
}.

Definition set_c_so (v : socket) (r : entry) : entry :=
    mk_entry v (c_sk r) (c_tcp r) (c_ops r).
Definition set_c_sk (v : sock) (r : entry) : entry :=
    mk_entry (c_so r) v (c_tcp r) (c_ops r).
Definition set_c_tcp (v : option tcp_part) (r : entry) : entry :=
    mk_entry (c_so r) (c_sk r) v (c_ops r).
Definition set_c_ops (v : sock_ops) (r : entry) : entry :=
    mk_entry (c_so r) (c_sk r) (c_tcp r) v.

(** What is left of a call when the transport function that sleeps returns: the
    release and return of every [_call], or first the rest of
    [inet_stream_connect]; nothing for a segment being processed. *)
Inductive rest := RestReturn | RestConnect | RestInput.

(** [struct pollfd]. *)
Record pollfd := mk_pollfd {
  pf_fd : Z;
  pf_events : Z;
  pf_revents : Z
}.
Definition set_pf_revents (v : Z) (p : pollfd) : pollfd := mk_pollfd (pf_fd p) (pf_events p) v.

Inductive waiting :=
  | WaitSend (b : sk_buff) (k : list after) (r : rest)   (* tcp_wait_snd_wnd *)
  | WaitRecv (acc : list Z) (len : Z)                    (* tcp_receive *)
  | WaitConnect                                          (* inet_stream_connect *)
  | WaitAccept                                           (* get_established_conn_fd *)
  | WaitRecvfrom (len : Z)                               (* udp_receive *)
  | WaitPoll (fds : list pollfd) (timeout : Z)           (* usleep in _poll *)
  | WaitStart (h : handler) (a : option harg).           (* a timer's thread, not run yet *)

Record thread := mk_thread {
  t_id : Z;
  t_pid : Z;
  t_sock : Z;
  t_at : waiting
}.

Definition set_t_id (v : Z) (r : thread) : thread :=
    mk_thread v (t_pid r) (t_sock r) (t_at r).
Definition set_t_pid (v : Z) (r : thread) : thread :=
    mk_thread (t_id r) v (t_sock r) (t_at r).
Definition set_t_sock (v : Z) (r : thread) : thread :=
    mk_thread (t_id r) (t_pid r) v (t_at r).
Definition set_t_at (v : waiting) (r : thread) : thread :=
    mk_thread (t_id r) (t_pid r) (t_sock r) v.

Inductive addr_slot := SlotLl | SlotGlobal.

Record world := mk_world {
  w_env : env net;
  w_socks : list entry;  (** [sockets] *)
  w_amount : Z;  (** [sock_amount] *)
  w_next_id : Z;  (** next allocation of a socket *)
  w_fd : Z;  (** the static counter of [alloc_socket] *)
  w_threads : list thread;
  w_next_thread : Z;
  w_dad_target : list Z;
  w_dad_ptr : option addr_slot;  (** [dad_ctx.state_ptr], into the TAP device *)
  w_dad_done : bool;
  w_copies : list netdev  (** heap copies held by lifetime timers *)
}.

Definition set_w_env (v : env net) (r : world) : world :=
    mk_world v (w_socks r) (w_amount r) (w_next_id r) (w_fd r) (w_threads r) (w_next_thread r)
    (w_dad_target r) (w_dad_ptr r) (w_dad_done r) (w_copies r).
Definition set_w_socks (v : list entry) (r : world) : world :=
    mk_world (w_env r) v (w_amount r) (w_next_id r) (w_fd r) (w_threads r) (w_next_thread r)
    (w_dad_target r) (w_dad_ptr r) (w_dad_done r) (w_copies r).
Definition set_w_amount (v : Z) (r : world) : world :=
    mk_world (w_env r) (w_socks r) v (w_next_id r) (w_fd r) (w_threads r) (w_next_thread r)
    (w_dad_target r) (w_dad_ptr r) (w_dad_done r) (w_copies r).
Definition set_w_next_id (v : Z) (r : world) : world :=
    mk_world (w_env r) (w_socks r) (w_amount r) v (w_fd r) (w_threads r) (w_next_thread r)
    (w_dad_target r) (w_dad_ptr r) (w_dad_done r) (w_copies r).
Definition set_w_fd (v : Z) (r : world) : world :=
    mk_world (w_env r) (w_socks r) (w_amount r) (w_next_id r) v (w_threads r) (w_next_thread r)
    (w_dad_target r) (w_dad_ptr r) (w_dad_done r) (w_copies r).
Definition set_w_threads (v : list thread) (r : world) : world :=
    mk_world (w_env r) (w_socks r) (w_amount r) (w_next_id r) (w_fd r) v (w_next_thread r)
    (w_dad_target r) (w_dad_ptr r) (w_dad_done r) (w_copies r).
Definition set_w_next_thread (v : Z) (r : world) : world :=
    mk_world (w_env r) (w_socks r) (w_amount r) (w_next_id r) (w_fd r) (w_threads r) v
    (w_dad_target r) (w_dad_ptr r) (w_dad_done r) (w_copies r).
Definition set_w_dad_target (v : list Z) (r : world) : world :=
    mk_world (w_env r) (w_socks r) (w_amount r) (w_next_id r) (w_fd r) (w_threads r)
    (w_next_thread r) v (w_dad_ptr r) (w_dad_done r) (w_copies r).
Definition set_w_dad_ptr (v : option addr_slot) (r : world) : world :=
    mk_world (w_env r) (w_socks r) (w_amount r) (w_next_id r) (w_fd r) (w_threads r)
    (w_next_thread r) (w_dad_target r) v (w_dad_done r) (w_copies r).
Definition set_w_dad_done (v : bool) (r : world) : world :=
    mk_world (w_env r) (w_socks r) (w_amount r) (w_next_id r) (w_fd r) (w_threads r)
    (w_next_thread r) (w_dad_target r) (w_dad_ptr r) v (w_copies r).
Definition set_w_copies (v : list netdev) (r : world) : world :=
    mk_world (w_env r) (w_socks r) (w_amount r) (w_next_id r) (w_fd r) (w_threads r)
    (w_next_thread r) (w_dad_target r) (w_dad_ptr r) (w_dad_done r) v.

Definition upd_w_env (f : env net -> env net) (w : world) : world := set_w_env (f (w_env w)) w.
Definition w_net (w : world) : net := e_lower (w_env w).
Definition upd_w_net (f : net -> net) (w : world) : world := upd_w_env (fun e => set_e_lower (f (e_lower e)) e) w.
Definition w_fault (f : fault) (w : world) : world := upd_w_env (fun e => set_e_faults (e_faults e ++ [f]) e) w.
Definition w_wake (q : wait_queue) (w : world) : world := upd_w_env (fun e => set_e_wakes (e_wakes e ++ [q]) e) w.
Definition w_free_skb (b : sk_buff) (w : world) : world :=
  if free_skb b then upd_w_env (fun e => set_e_freed (e_freed e ++ [skb_id b]) e) w else w.
Definition w_alloc_skb (size : Z) (w : world) : sk_buff * world :=
  (alloc_skb (e_next_skb (w_env w)) size, upd_w_env (fun e => set_e_next_skb (e_next_skb e + 1) e) w).

Definition e_id (e : entry) : Z := so_id (c_so e).

(** ** An entry as the state the TCP functions work on *)

Definition focus (e : entry) (t : tcp_part) (w : world) : st net :=
  mk_st (c_sk e) (p_tb t) (p_tm t) (p_cc t) (p_sa t) (p_ofo t) (p_ptsk t) (c_so e) (w_env w).

Definition entry_of (s : st net) (ops : sock_ops) : entry :=
  mk_entry (so s) (sk s) (Some (mk_tp (tb s) (tm s) (cc s) (sa s) (ofo s) (ptsk s))) ops.

Definition find_entry (id : Z) (w : world) : option entry := find (fun e => e_id e =? id) (w_socks w).

Definition upd_entry (id : Z) (f : entry -> entry) (w : world) : world :=
  set_w_socks ((fun e => if e_id e =? id then f e else e) <$> w_socks w) w.

(** Write a TCP state back. *)
Definition put (s : st net) (w : world) : world :=
  set_w_env (en s) (upd_entry (self s) (fun e => entry_of s (c_ops e)) w).

(** Run a TCP function on a socket: [None] when it is not a TCP socket of the table. *)
Definition tcp_of (id : Z) (w : world) : option (st net) :=
  e ← find_entry id w; t ← c_tcp e; Some (focus e t w).

Definition on_tcp (id : Z) (f : st net -> st net) (w : world) : world :=
  match tcp_of id w with Some s => put (f s) w | None => w_fault (FaultFreed id) w end.

Definition on_so (id : Z) (f : socket -> socket) (w : world) : world :=
  upd_entry id (fun e => set_c_so (f (c_so e)) e) w.
Definition on_sk (id : Z) (f : sock -> sock) (w : world) : world :=
  upd_entry id (fun e => set_c_sk (f (c_sk e)) e) w.

(** The lock and reference count of a socket of the table, [socket_wr_acquire]
    ([socket_rd_acquire] takes the same lock) and [socket_release]. *)
Definition so_acquire (id : Z) (w : world) : world :=
  match find_entry id w with
  | None => w_fault (FaultFreed id) w
  | Some e =>
      let w' := on_so id (fun o => set_so_locked true (set_so_refcnt (so_refcnt o + 1) o)) w in
      if so_locked (c_so e) then w_fault FaultDeadlock w' else w'
  end.
Definition so_release (id : Z) (w : world) : world :=
  match find_entry id w with
  | None => w_fault (FaultFreed id) w
  | Some e =>
      if so_locked (c_so e) then
        on_so id (fun o =>
          let n := so_refcnt o - 1 in
          set_so_freed (so_freed o || (n =? 0)) (set_so_locked false (set_so_refcnt n o))) w
      else w_fault FaultUnlock w
  end.

(** ** Lookups *)

(** The first socket of the list for which the test holds. *)
Definition find_sock (f : sock -> bool) (w : world) : option Z := e_id <$> find (fun e => f (c_sk e)) (w_socks w).

(** [fd] is a [uint32_t] here, [sock->fd] an [int]. *)
Definition get_socket (pid fd : Z) (w : world) : option Z :=
  e_id <$> find (fun e => (so_pid (c_so e) =? pid) && (u32 (so_fd (c_so e)) =? u32 fd)) (w_socks w).

Definition socket_find (id : Z) (w : world) : option Z := e_id <$> find_entry id w.

Definition tcp_sock_match_established (k : sock) (family remotesaddr localsaddr : Z) (remote6 local6 : option (list Z))
    (remoteport localport : Z) : bool :=
  if negb (sk_protocol k =? IPPROTO_TCP) || state_is (sk_state k) TCP_LISTEN then false
  else if negb (sk_sport k =? localport) || negb (sk_dport k =? remoteport) then false
  else if family =? AF_INET6 then
    match remote6, local6 with
    | Some r, Some l => ipv6_addr_equal (sk_daddr k) r && ipv6_addr_equal (sk_saddr k) l
    | _, _ => false
    end
  else (v4_of (sk_daddr k) =? remotesaddr) && (v4_of (sk_saddr k) =? localsaddr).

Definition tcp_sock_match_listener (k : sock) (family localsaddr : Z) (local6 : option (list Z)) (localport : Z) : bool :=
  if negb (sk_protocol k =? IPPROTO_TCP) || negb (state_is (sk_state k) TCP_LISTEN) then false
  else if negb (sk_sport k =? localport) then false
  else if family =? AF_INET6 then
    match local6 with
    | None => true
    | Some l => ipv6_addr_is_unspecified l || ipv6_addr_equal (sk_saddr k) l
    end
  else v4_of (sk_saddr k) =? localsaddr.

Definition tcp_lookup_established (family remotesaddr localsaddr : Z) (remote6 local6 : option (list Z))
    (remoteport localport : Z) (w : world) : option Z :=
  find_sock (fun k => (sk_addr_family k =? family) &&
    tcp_sock_match_established k family remotesaddr localsaddr remote6 local6 remoteport localport) w.

Definition tcp_lookup_listener (family localsaddr : Z) (local6 : option (list Z)) (localport : Z) (w : world) : option Z :=
  find_sock (fun k => (sk_addr_family k =? family) && tcp_sock_match_listener k family localsaddr local6 localport) w.

Definition socket_lookup (family remotesaddr localsaddr : Z) (remote6 local6 : option (list Z))
    (remoteport localport : Z) (w : world) : option Z :=
  match tcp_lookup_established family remotesaddr localsaddr remote6 local6 remoteport localport w with
  | Some id => Some id
  | None => tcp_lookup_listener family localsaddr local6 localport w
  end.

Definition socket_lookup_udp (family localport : Z) (w : world) : option Z :=
  find_sock (fun k => (sk_addr_family k =? family) && (sk_protocol k =? IPPROTO_UDP) && (sk_sport k =? localport)) w.

Definition socker_find_protocol_port (port protocol : Z) (w : world) : option Z :=
  find_sock (fun k => (sk_protocol k =? protocol) && (sk_sport k =? port)) w.

Definition inet_lookup (saddr daddr sport dport : Z) (w : world) : option Z :=
  socket_lookup AF_INET saddr daddr None None sport dport w.
Definition inet_udp_lookup (sport dport : Z) (w : world) : option Z := socket_lookup_udp AF_INET dport w.
Definition inet6_lookup (saddr daddr : list Z) (sport dport : Z) (w : world) : option Z :=
  socket_lookup AF_INET6 0 0 (Some saddr) (Some daddr) sport dport w.

(** ** Creation and removal *)

Definition alloc_socket (pid : Z) (w : world) : socket * world :=
  (mk_socket (w_next_id w) (w_fd w) pid 1 SS_UNCONNECTED 0 O_RDWR false false,
   set_w_fd (s32 (w_fd w + 1)) (set_w_next_id (w_next_id w + 1) w)).

(** [sk->state] is an [int]: the constant of [enum tcp_states] with the value of the
    constant of [enum socket_state] that [udp.c] stores. *)
Definition udp_state (v : socket_state) : tcp_states :=
  match v with
  | SS_FREE => TCP_LISTEN | SS_UNCONNECTED => TCP_SYN_SENT | SS_CONNECTING => TCP_SYN_RECEIVED
  | SS_CONNECTED => TCP_ESTABLISHED | SS_DISCONNECTING => TCP_FIN_WAIT_1
  end.

Definition udp_alloc_sock (family : Z) : sock :=
  sock_init_data IPPROTO_UDP family (udp_state SS_UNCONNECTED).

(** [inet_create] and [inet6_create]: the first type that shares a bit with
    [sock->type].  [None]: no such type. *)
Definition inet_create (o : socket) (w : world) : option entry :=
  if negb (Z.land SOCK_STREAM (so_type o) =? 0) then
    let s := tcp_alloc_sock IPPROTO_TCP AF_INET o (w_env w) in Some (entry_of s inet_stream_ops)
  else if negb (Z.land SOCK_DGRAM (so_type o) =? 0) then
    Some (mk_entry o (udp_alloc_sock AF_INET) None inet_dgram_ops)
  else None.

Definition inet6_create (o : socket) (w : world) : option entry :=
  if negb (Z.land SOCK_STREAM (so_type o) =? 0) then
    let s := tcp_alloc_sock IPPROTO_TCP AF_INET6 o (w_env w) in Some (entry_of s inet6_stream_ops)
  else if negb (Z.land SOCK_DGRAM (so_type o) =? 0) then
    Some (mk_entry o (udp_alloc_sock AF_INET6) None inet6_dgram_ops)
  else None.

(** A socket that failed to be created is passed to [socket_free]: it is in no list
    and has no operations, but [sock_amount] is decremented. *)
Definition _socket (pid domain type : Z) (w : world) : world * Z :=
  let '(o, w) := alloc_socket pid w in
  let o := set_so_type type o in
  let w := if (0 <=? domain) && (domain <? 128) then w else w_fault FaultBounds w in
  let made :=
    if domain =? AF_INET then inet_create o w
    else if domain =? AF_INET6 then inet6_create o w
    else None in
  match made with
  | None => (w_wake (SleepWait (so_id o)) (set_w_amount (w_amount w - 1) w), -1)
  | Some e =>
      let w := set_w_amount (w_amount w + 1) (set_w_socks (w_socks w ++ [e]) w) in
      (so_release (e_id e) (so_acquire (e_id e) w), so_fd o)
  end.

(** [inet_free]: [sock_free], then [free(sk)]; the accept queue goes with it. *)
Definition inet_free (e : entry) (w : world) : world :=
  let f1 := (skb_queue_free (sk_receive_queue (c_sk e))).2 in
  let f2 := (skb_queue_free (sk_write_queue (c_sk e))).2 in
  upd_w_env (fun n => set_e_passive (delete (e_id e) (e_passive n)) (set_e_freed (e_freed n ++ f1 ++ f2) n)) w.

Definition socket_free (id : Z) (w : world) : world :=
  match find_entry id w with
  | None => w_fault (FaultFreed id) w
  | Some e =>
      let w := so_acquire id w in
      let w := set_w_amount (w_amount w - 1) (set_w_socks (filter (fun x => e_id x <> id) (w_socks w)) w) in
      w_wake (SleepWait id) (inet_free e w)
  end.

Definition socket_garbage_collect (id : Z) (w : world) : world :=
  match socket_find id w with None => w | Some id => socket_free id w end.

Definition inet_abort (e : entry) (w : world) : world :=
  match c_tcp e with Some _ => on_tcp (e_id e) tcp_abort w | None => w end.

Definition abort_sockets (w : world) : world := foldl (fun w e => inet_abort e w) w (w_socks w).

Definition socket_adjust_pmtu6 (daddr : list Z) (pmtu : Z) (w : world) : world :=
  let new_mss := u16 (pmtu - 60) in
  let adjust e :=
    if negb (sk_addr_family (c_sk e) =? AF_INET6) || negb (sk_protocol (c_sk e) =? IP_TCP) ||
       negb (ipv6_addr_equal (sk_daddr (c_sk e)) daddr) then e
    else
      match c_tcp e with
      | None => e
      | Some t =>
          if new_mss <? smss (p_cc t)
          then set_c_tcp (Some (set_p_cc (set_rmss new_mss (set_smss new_mss (p_cc t))) t)) e
          else e
      end in
  set_w_socks (adjust <$> w_socks w) w.

(** ** Threads that sleep *)

Definition park (pid id : Z) (at_ : waiting) (w : world) : world :=
  set_w_next_thread (w_next_thread w + 1)
    (set_w_threads (w_threads w ++ [mk_thread (w_next_thread w) pid id at_]) w).

(** ** Passive open *)

(** [fork_socket]: a new socket of the listener's process in SYN-RECEIVED, its
    control block from the SYN.  [saddr], [daddr] are the unions copied in. *)
Definition fork_tcb (th : tcphdr) (s : st net) : st net :=
  let s := set_state TCP_SYN_RECEIVED s in
  let s := tcp_parse_opts th s in
  let s :=
    if snd_scale (sa s) =? 0 then s
    else upd_sa (fun a => set_rcv_scale (snd_scale a) (set_wso_allowed 1 a)) s in
  let '(i, s) := generate_iss s in
  let i := u32 i in
  upd_tb (fun t =>
    set_snd_wl2 0 (set_snd_wl1 0 (set_snd_wnd (th_win th) (set_snd_nxt i (set_snd_una i (set_irs (th_seq th)
      (set_real_rcv_wnd tcp_select_initial_window (set_rcv_wnd tcp_select_initial_window
        (set_rcv_nxt (u32 (th_seq th + 1)) (set_iss i t)))))))))) s.

(** The local address is the listener's, the remote one the packet's. *)
Definition fork_addrs (family : Z) (saddr daddr : list Z) (sport : Z) (th : tcphdr) (k : sock) : sock :=
  let k :=
    if family =? AF_INET6 then set_sk_daddr (ld_bytes daddr 0 16) (set_sk_saddr (ld_bytes saddr 0 16) k)
    else set_sk_daddr (set_v4 (ld32 daddr 0) (sk_daddr k)) (set_sk_saddr (set_v4 (ld32 saddr 0) (sk_saddr k)) k) in
  set_sk_dport (th_sport th) (set_sk_sport sport k).

Definition fork_socket (pid : Z) (th : tcphdr) (family : Z) (saddr : list Z) (sport : Z) (daddr : list Z) (w : world)
    : option Z * world :=
  let '(w, fd) := _socket pid family SOCK_STREAM w in
  match get_socket pid fd w with
  | None => (None, w_fault FaultNull w)
  | Some id => (Some id, on_tcp id (fun s => upd_sk (fork_addrs family saddr daddr sport th) (fork_tcb th s)) w)
  end.

(** [tcp_listen] on listener [id]; [saddr] is the remote address.  The SYN-ACK has
    no data, so [tcp_send_synack] never waits for the window ([synack_done]). *)
Definition tcp_listen (id : Z) (th : tcphdr) (b : sk_buff) (saddr : list Z) (family : Z) (w : world) : world :=
  let w :=
    if th_syn th then
      match find_entry id w with
      | None => w_fault (FaultFreed id) w
      | Some e =>
          let '(child, w) := fork_socket (so_pid (c_so e)) th family (sk_saddr (c_sk e)) (sk_sport (c_sk e)) saddr w in
          match child with
          | None => w
          | Some c =>
              on_tcp c (fun s =>
                match tcp_send_synack (set_ptsk (Some id) s) with
                | Done s _ => incr_snd_nxt s
                | Asleep s _ _ => s
                | Diverges => s
                end) w
          end
      end
    else w in
  w_free_skb b w.

(** ** Segments arriving *)

(** [tcp_input_state] on socket [id]; the caller holds its lock. *)
Definition tcp_input_state (id : Z) (th : tcphdr) (b : sk_buff) (saddr : list Z) (w : world) : world :=
  match tcp_of id w with
  | None => w_fault (FaultFreed id) w
  | Some s =>
      match state s with
      | TCP_LISTEN => so_release id (tcp_listen id th b saddr (sk_addr_family (sk s)) w)
      | _ =>
          match tcp_input_conn th b s with
          | Done s _ => put (socket_release s) w
          | Asleep s b k => park 0 id (WaitSend b (k ++ [AfterRelease]) RestInput) (put s w)
          | Diverges => w
          end
      end
  end.

(** The IPv4 header is at [head + 14], already in host order; [th] behind its 20
    bytes. *)
Definition tcp_in (b : sk_buff) (w : world) : world :=
  let o := 34%nat in
  let ip_len := ld16 (skb_buf b) 16 - ip_ihl (skb_buf b) * 4 in
  let tcp_dlen := ip_len - th_get_hl o (skb_buf b) * 4 in
  let '(th, b) := tcp_init_segment o tcp_dlen b in
  let saddr := ld32 (skb_buf b) 26 in
  match inet_lookup saddr (ld32 (skb_buf b) 30) (th_sport th) (th_dport th) w with
  | None => w_free_skb b w
  | Some id => tcp_input_state id th b (st32 (replicate 16 0) 0 saddr) (so_acquire id w)
  end.

(** [payload] is the offset of the segment. *)
Definition tcp_in_v6 (b : sk_buff) (payload : nat) (w : world) : world :=
  let saddr := ip6_saddr 14 (skb_buf b) in
  let daddr := ip6_daddr 14 (skb_buf b) in
  let tcp_dlen := s32 (ip6_payload_len 14 (skb_buf b) - (Z.of_nat payload - 54) - th_get_hl payload (skb_buf b) * 4) in
  let '(th, b) := tcp_init_segment payload tcp_dlen b in
  match inet6_lookup saddr daddr (th_sport th) (th_dport th) w with
  | None => w_free_skb b w
  | Some id => tcp_input_state id th b saddr (so_acquire id w)
  end.

End World.
