(* ===== verification/TcpWidth.v ===== *)
(** A check of the model: its numbers stay within the C types of their fields.

    The model keeps C integers in [Z] and writes out the places where C wraps; that
    none is missing is an invariant of all operations on a connection: whatever a
    segment brings, a user asks or a timer does, the numbers of [struct tcp_sock] and
    [struct tcb], the ports and queues of [struct sock] and the numbers of the queued
    buffers are values of their types. *)
From S2P Require Import Prelude Utils SkBuff Timer TcpTypes TcpBase TcpOutput TcpData TcpInput TcpApi Ipv6 Net Neigh IpOut World.
Import Utils SkBuff Timer TcpTypes TcpBase TcpOutput TcpData TcpInput TcpApi Ipv6 Net Neigh IpOut World.

Module TcpWidth.

Definition is_u64 (x : Z) : Prop := 0 <= x < 18446744073709551616.
(** The part of [int32_t] that is not negative. *)
Definition is_n31 (x : Z) : Prop := 0 <= x < 2147483648.

Record tcb_ty (t : tcb) : Prop := {
  ty_snd_una : is_u32 (snd_una t); ty_snd_nxt : is_u32 (snd_nxt t); ty_snd_wnd : is_u32 (snd_wnd t);
  ty_snd_up : is_u32 (snd_up t); ty_snd_wl1 : is_u32 (snd_wl1 t); ty_snd_wl2 : is_u32 (snd_wl2 t);
  ty_iss : is_u32 (iss t); ty_rcv_nxt : is_u32 (rcv_nxt t); ty_rcv_wnd : is_u32 (rcv_wnd t);
  ty_real_rcv_wnd : is_u32 (real_rcv_wnd t); ty_rcv_up : is_u32 (rcv_up t); ty_irs : is_u32 (irs t)
}.
Record tm_ty (t : tcp_timing) : Prop := {
  ty_header_len : is_u16 (tcp_header_len t); ty_flags : is_u8 (tsk_flags t); ty_backoff : is_u8 (backoff t);
  ty_srtt : is_n31 (srtt t); ty_rttvar : is_n31 (rttvar t); ty_rto : is_u32 (rto t);
  ty_epoch : is_u64 (rto_epoch t); ty_delacks : is_u8 (delacks t)
}.
Record cc_ty (c : tcp_cong) : Prop := {
  ty_rmss : is_u16 (rmss c); ty_smss : is_u16 (smss c); ty_cwnd : is_u32 (cwnd c); ty_ssthresh : is_u32 (ssthresh c);
  ty_inflight : is_u32 (inflight c); ty_bytes_acked : is_u32 (bytes_acked c); ty_dupacks : is_u8 (dupacks c);
  ty_in_recovery : is_u8 (in_recovery c); ty_last_ack_win : is_u16 (last_ack_win c)
}.
Definition block_ty (p : Z * Z) : Prop := is_u32 p.1 /\ is_u32 p.2.
Record sa_ty (a : tcp_sackst) : Prop := {
  ty_sackok : is_u8 (sackok a); ty_sacks_allowed : is_u8 (sacks_allowed a); ty_sacklen : is_u8 (sacklen a);
  ty_sacks : length (sacks a) = 4%nat /\ Forall block_ty (sacks a); ty_max_right : is_u32 (sack_max_right a);
  ty_snd_scale : is_u8 (snd_scale a); ty_wso : is_u8 (wso_allowed a); ty_rcv_scale : is_u8 (rcv_scale a); ty_tsopt : is_u8 (tsopt a)
}.
Record buf_ty (b : sk_buff) : Prop := {
  ty_dlen : is_u32 (skb_dlen b); ty_seq : is_u32 (skb_seq b); ty_end_seq : is_u32 (skb_end_seq b); ty_sacked : is_u8 (skb_sacked b)
}.
Record queue_ty (q : sk_buff_head) : Prop := { ty_qlen : is_u32 (qlen q); ty_bufs : Forall buf_ty (skq q) }.
Record sk_ty (k : sock) : Prop := {
  ty_sport : is_u16 (sk_sport k); ty_dport : is_u16 (sk_dport k);
  ty_rq : queue_ty (sk_receive_queue k); ty_wq : queue_ty (sk_write_queue k)
}.
Record th_ty (th : tcphdr) : Prop := {
  ty_th_sport : is_u16 (th_sport th); ty_th_seq : is_u32 (th_seq th); ty_th_ack : is_u32 (th_ack_seq th); ty_th_win : is_u16 (th_win th); ty_th_data : bytes_ok (th_data th)
}.

Section Typed.
Context {L : Type}.
Record typed (s : st L) : Prop := {
  ty_sk : sk_ty (sk s); ty_tb : tcb_ty (tb s); ty_tm : tm_ty (tm s); ty_cc : cc_ty (cc s); ty_sa : sa_ty (sa s); ty_ofo : queue_ty (ofo s)
}.

Lemma typed_same s s' : sk s' = sk s -> tb s' = tb s -> tm s' = tm s -> cc s' = cc s -> sa s' = sa s -> ofo s' = ofo s -> typed s -> typed s'.
Proof. intros E1 E2 E3 E4 E5 E6 []. constructor; congruence. Qed.

Lemma typed_tb f s : (tcb_ty (tb s) -> tcb_ty (f (tb s))) -> typed s -> typed (upd_tb f s).
Proof. intros F []. constructor; simpl; auto. Qed.
Lemma typed_tm f s : (tm_ty (tm s) -> tm_ty (f (tm s))) -> typed s -> typed (upd_tm f s).
Proof. intros F []. constructor; simpl; auto. Qed.
Lemma typed_cc f s : (cc_ty (cc s) -> cc_ty (f (cc s))) -> typed s -> typed (upd_cc f s).
Proof. intros F []. constructor; simpl; auto. Qed.
Lemma typed_sa f s : (sa_ty (sa s) -> sa_ty (f (sa s))) -> typed s -> typed (upd_sa f s).
Proof. intros F []. constructor; simpl; auto. Qed.
Lemma typed_sk f s : (sk_ty (sk s) -> sk_ty (f (sk s))) -> typed s -> typed (upd_sk f s).
Proof. intros F []. constructor; simpl; auto. Qed.
Lemma typed_so f s : typed s -> typed (upd_so f s). Proof. by apply typed_same. Qed.
Lemma typed_en f s : typed s -> typed (upd_en f s). Proof. by apply typed_same. Qed.
Lemma typed_set_sa a s : sa_ty a -> typed s -> typed (set_sa a s).
Proof. intros A []. constructor; done. Qed.
Lemma typed_set_ofo q s : queue_ty q -> typed s -> typed (set_ofo q s).
Proof. intros A []. constructor; done. Qed.
Lemma typed_set_ptsk p s : typed s -> typed (set_ptsk p s). Proof. by apply typed_same. Qed.
End Typed.

(** A record field by field: a field that was written is a wrapped value or follows from
    the others. *)
Ltac fields := repeat match goal with H : tcb_ty _ |- _ => destruct H | H : tm_ty _ |- _ => destruct H | H : cc_ty _ |- _ => destruct H end.
Ltac width := intros; fields; constructor; cbn in *; try assumption; try (unfold is_n31, is_u64 in *; ulia).

Section Parts.
Context {L : Type} `{IpLayerLaws L}.
Implicit Type s : st L.

Lemma typed_fault f s : typed s -> typed (add_fault f s). Proof. apply typed_en. Qed.
Lemma typed_wake q s : typed s -> typed (wake q s). Proof. apply typed_en. Qed.
Lemma typed_notify s : typed s -> typed (recv_notify s). Proof. apply typed_en. Qed.
Lemma typed_free b s : typed s -> typed (do_free_skb b s).
Proof. intros. unfold do_free_skb. destruct (free_skb b); [by apply typed_en|done]. Qed.
Lemma typed_lift r s : typed s -> typed (lift_timer r s).
Proof. intros. destruct r; [by apply typed_en|by apply typed_fault]. Qed.
Lemma typed_cancel t s : typed s -> typed (do_timer_cancel t s). Proof. apply typed_lift. Qed.
Lemma typed_timer_release t s : typed s -> typed (do_timer_release t s). Proof. apply typed_lift. Qed.
Lemma typed_timer_add x h a r s : typed s -> typed (do_timer_add x h a r s).2. Proof. by apply typed_same. Qed.
Lemma typed_alloc n s : typed s -> typed (do_alloc_skb n s).2. Proof. by apply typed_same. Qed.
Lemma typed_acquire s : typed s -> typed (socket_wr_acquire s).
Proof. intros. unfold socket_wr_acquire. destruct (so_locked _); [apply typed_fault|]; by apply typed_so. Qed.
Lemma typed_release s : typed s -> typed (socket_release s).
Proof. intros. unfold socket_release. destruct (so_locked _); [by apply typed_so|by apply typed_fault]. Qed.
Lemma typed_state v s : typed s -> typed (set_state v s). Proof. apply typed_sk. intros []. by constructor. Qed.
Lemma typed_err v s : typed s -> typed (set_err v s). Proof. apply typed_sk. intros []. by constructor. Qed.
Lemma typed_poll v s : typed s -> typed (or_poll v s). Proof. apply typed_sk. intros []. by constructor. Qed.
Lemma typed_iss s : typed s -> typed (generate_iss s).2. Proof. by apply typed_same. Qed.
Lemma typed_wq q s : queue_ty q -> typed s -> typed (set_write_queue q s).
Proof. intros Q. apply typed_sk. intros []. by constructor. Qed.
Lemma typed_rq q s : queue_ty q -> typed s -> typed (set_receive_queue q s).
Proof. intros Q. apply typed_sk. intros []. by constructor. Qed.

(** Queues. *)
Lemma queue_ty_init : queue_ty skb_queue_init.
Proof. constructor; [unfold is_u32; simpl; lia|by apply Forall_nil]. Qed.
Lemma queue_ty_tail q b : queue_ty q -> buf_ty b -> queue_ty (skb_queue_tail q b).
Proof. intros [_ Q] B. constructor; [apply u32_range|]. simpl. apply Forall_app. by split; [|apply Forall_singleton]. Qed.
Lemma queue_ty_add q b i : queue_ty q -> buf_ty b -> queue_ty (skb_queue_add q b i).
Proof.
  intros [_ Q] B. constructor; [apply u32_range|]. simpl. apply Forall_app. split; [by apply Forall_take|].
  apply Forall_cons. split; [done|by apply Forall_drop].
Qed.
Lemma queue_ty_dequeue q b q' : queue_ty q -> skb_dequeue q = Some (b, q') -> buf_ty b /\ queue_ty q'.
Proof.
  intros [_ Q] E. unfold skb_dequeue in E. destruct (skq q) as [|x l]; [done|]. apply Forall_cons in Q as [B Q].
  injection E as <- <-. split; [done|]. constructor; [apply u32_range|done].
Qed.
Lemma queue_ty_peek q b : queue_ty q -> skb_peek q = Some b -> buf_ty b.
Proof.
  intros [_ Q] E. unfold skb_peek in E. destruct (skb_queue_empty q); [done|]. destruct (skq q); [done|]. injection E as <-. by apply Forall_cons in Q as [B _].
Qed.
Lemma queue_ty_free q : queue_ty q -> queue_ty (skb_queue_free q).1.
Proof.
  unfold skb_queue_free. generalize (length (skq q)). intros fuel. revert q. induction fuel as [|fuel IH]; intros q Q; cbn [skb_queue_free_loop]; [done|].
  destruct (skb_peek q); [|done]. destruct (skb_dequeue q) as [[b q']|] eqn:E; [|done]. destruct (queue_ty_dequeue _ _ _ Q E) as [_ Q'].
  specialize (IH q' Q'). by destruct (skb_queue_free_loop fuel q').
Qed.
Lemma buf_ty_meta a b : same_meta a b -> buf_ty a -> buf_ty b.
Proof. intros M []. constructor; [rewrite (sm_dlen _ _ M)|rewrite (sm_seq _ _ M)|rewrite (sm_end_seq _ _ M)|rewrite (sm_sacked _ _ M)]; done. Qed.
Lemma buf_ty_reset b : buf_ty b -> buf_ty (skb_reset_header b). Proof. intros []. by constructor. Qed.
Lemma buf_ty_hold b : buf_ty b -> buf_ty (hold b). Proof. intros []. by constructor. Qed.
Lemma buf_ty_th f g b : buf_ty b -> buf_ty (with_th f g b). Proof. intros []. by constructor. Qed.
Lemma buf_ty_alloc f o n s : is_u32 n -> buf_ty (tcp_alloc_skb f o n s).1.
Proof. intros Hn. constructor; cbn; [done| | |]; unfold is_u32, is_u8; lia. Qed.
Lemma typed_tcp_alloc f o n s : typed s -> typed (tcp_alloc_skb f o n s).2. Proof. by apply typed_same. Qed.

Lemma wq_typed s : typed s -> queue_ty (sk_write_queue (sk s)). Proof. by intros [[] _ _ _ _ _]. Qed.
Lemma rq_typed s : typed s -> queue_ty (sk_receive_queue (sk s)). Proof. by intros [[] _ _ _ _ _]. Qed.
Lemma typed_wq_set i b s : buf_ty b -> typed s -> typed (wq_set i b s).
Proof. intros B. apply typed_sk. intros [S1 S2 S3 [Q1 Q2]]. constructor; try done. constructor; [done|]. by apply Forall_insert. Qed.
End Parts.
Create HintDb width.
#[export] Hint Constants Opaque : width.
#[export] Hint Resolve typed_so typed_en typed_set_sa typed_set_ofo typed_set_ptsk typed_fault typed_wake typed_notify typed_free typed_lift typed_cancel
  typed_timer_release typed_timer_add typed_alloc typed_acquire typed_release typed_state typed_err typed_poll typed_iss typed_wq typed_rq
  queue_ty_init queue_ty_tail queue_ty_add buf_ty_reset buf_ty_hold buf_ty_th typed_tcp_alloc wq_typed rq_typed typed_wq_set ty_ofo : width.
#[export] Hint Extern 1 (typed (if ?b then _ else _)) => destruct b : width.
#[export] Hint Extern 2 (typed (upd_tb _ _)) => apply typed_tb; [solve [width]|] : width.
#[export] Hint Extern 2 (typed (upd_tm _ _)) => apply typed_tm; [solve [width]|] : width.
#[export] Hint Extern 2 (typed (upd_cc _ _)) => apply typed_cc; [solve [width]|] : width.
#[export] Hint Extern 2 (typed (upd_sk _ _)) => apply typed_sk; [solve [let K := fresh in intros K; destruct K; constructor; cbn; auto with width cint]|] : width.
#[export] Hint Extern 2 (typed (upd_sa _ _)) => apply typed_sa; [solve [let K := fresh in intros K; destruct K; constructor; cbn; auto; unfold is_u8, is_u32; lia]|] : width.

(** The state in a pair a function returns. *)
Ltac typed_pair g :=
  let K := fresh "K" in
  first
    [ assert (K : typed (snd g)) by (repeat match goal with |- typed (snd (if ?b then _ else _)) => destruct b end; cbn [fst snd]; solve [eauto 30 with width])
    | assert (K : typed (fst g)) by solve [eauto 30 with width]
    | assert (K : typed (snd (fst g))) by solve [eauto 30 with width] ];
  let E := fresh "E" in destruct g eqn:E; repeat match goal with x : _ * _ |- _ => destruct x end; cbn [fst snd] in K; clear E.
Ltac typed_step :=
  match goal with
  | |- typed (match ?g with (x, y) => _ end) => typed_pair g
  | |- typed (fst (match ?g with (x, y) => _ end)) => typed_pair g
  | |- typed (snd (match ?g with (x, y) => _ end)) => typed_pair g
  | |- typed (match ?b with _ => _ end) => destruct b
  | |- typed (fst (match ?b with _ => _ end)) => destruct b
  | |- typed (snd (match ?b with _ => _ end)) => destruct b
  end; cbn [fst snd].
Ltac typ := cbv zeta; repeat first [solve [eauto 30 with width] | typed_step; cbv zeta].

Section Base.
Context {L : Type} `{IpLayerLaws L}.
Implicit Type s : st L.

Lemma lor_u8 a b : is_u8 a -> is_u8 b -> is_u8 (Z.lor a b).
Proof.
  unfold is_u8. intros Ha Hb. assert (E : Z.lor a b = Z.lor a b mod 2 ^ 8).
  { apply Z.bits_inj'. intros n Hn. destruct (Z_lt_le_dec n 8); [by rewrite Z.mod_pow2_bits_low by lia|]. rewrite Z.mod_pow2_bits_high, Z.lor_spec by lia.
    assert (B : forall x, 0 <= x < 256 -> Z.testbit x n = false).
    { intros x Hx. rewrite <- (Z.mod_small x (2 ^ 8)) by (simpl; lia). by rewrite Z.mod_pow2_bits_high by lia. }
    by rewrite !B. }
  rewrite E. apply Z.mod_pos_bound. lia.
Qed.

Lemma typed_stop_rto s : typed s -> typed (tcp_stop_rto_timer s).
Proof. intros. unfold tcp_stop_rto_timer. typ. Qed.
Lemma typed_release_rto s : typed s -> typed (tcp_release_rto_timer s).
Proof. intros. unfold tcp_release_rto_timer. typ. Qed.
Lemma typed_stop_delack s : typed s -> typed (tcp_stop_delack_timer s).
Proof. intros. unfold tcp_stop_delack_timer. typ. Qed.
Lemma typed_release_delack s : typed s -> typed (tcp_release_delack_timer s).
Proof. intros. unfold tcp_release_delack_timer. typ. Qed.
Hint Resolve typed_stop_rto typed_release_rto typed_stop_delack typed_release_delack : width.
Lemma typed_clear_timers s : typed s -> typed (tcp_clear_timers s).
Proof. intros. unfold tcp_clear_timers. typ. Qed.
Lemma typed_clear_queues s : typed s -> typed (tcp_clear_queues s).
Proof.
  intros K. unfold tcp_clear_queues. pose proof (queue_ty_free (ofo s) (ty_ofo s K)) as Q. destruct (skb_queue_free (ofo s)). cbn [fst] in Q. typ.
Qed.
Hint Resolve typed_clear_timers typed_clear_queues : width.
Lemma typed_delete s : typed s -> typed (socket_delete s).
Proof. intros. unfold socket_delete. typ. Qed.
Hint Resolve typed_delete : width.
Lemma typed_done s : typed s -> typed (tcp_done s).
Proof. intros. unfold tcp_done, tcp_free. typ. Qed.
Lemma typed_fin_state s : typed s -> typed (tcp_handle_fin_state s).
Proof. intros. unfold tcp_handle_fin_state. typ. Qed.
Lemma typed_time_wait s : typed s -> typed (tcp_enter_time_wait s).
Proof. intros. unfold tcp_enter_time_wait. typ. Qed.
Lemma typed_user_timeout s : typed s -> typed (tcp_rearm_user_timeout s).
Proof. intros. unfold tcp_rearm_user_timeout. typ. Qed.

Lemma s32_range x : -2147483648 <= s32 x < 2147483648. Proof. ulia. Qed.
Lemma rtt_update_ty r t : is_n31 r -> tm_ty t -> tm_ty (rtt_update r t).
Proof.
  intros Hr K. unfold rtt_update. set (t1 := if srtt t =? 0 then _ else _). assert (K1 : tm_ty t1).
  { unfold t1. destruct (srtt t =? 0); width; unfold is_n31 in *;
      rewrite ?Z.quot_div_nonneg by lia; (split; [apply Z.div_pos; lia|apply Z.div_lt_upper_bound; lia]). }
  clearbody t1. cbv zeta. width.
Qed.
Lemma typed_rtt s : typed s -> typed (tcp_rtt s).
Proof.
  intros K. unfold tcp_rtt. destruct (0 <? backoff (tm s)); [done|]. destruct (retransmit (tm s)); [|done]. destruct (find_timer _ _); [|typ]. cbv zeta.
  match goal with |- context [rtt_update ?r] => destruct (Z.ltb_spec r 0); [done|] end. apply typed_tm; [|done].
  apply rtt_update_ty. pose proof (s32_range (tick (e_timers (en s)) - (expires t - rto (tm s)))). split; lia.
Qed.

Lemma set_sack_ty i l r a : is_u32 l -> is_u32 r -> sa_ty a -> sa_ty (set_sack i l r a).
Proof. intros Hl Hr []. constructor; try done. cbn. rewrite length_insert. split; [tauto|]. apply Forall_insert; [tauto|by split]. Qed.
Lemma incr_sacklen_ty a : sa_ty a -> sa_ty (incr_sacklen a).
Proof. intros []. constructor; try done. apply u8_range. Qed.
Lemma sack_left_ty i a : sa_ty a -> is_u32 (sack_left i a).
Proof.
  intros []. unfold sack_left. destruct (sacks a !! i) as [p|] eqn:E; [|unfold is_u32; simpl; lia]. destruct ty_sacks0 as [_ F].
  eapply Forall_lookup_1 in E; [|exact F]. apply E.
Qed.
Lemma sacks_loop_ty tseq tend : forall q sb a, Forall buf_ty q -> sa_ty a -> sa_ty (sacks_loop tseq tend q sb a).
Proof.
  induction q as [|n q IH]; intros sb a Q A; cbn [sacks_loop]; [done|]. apply Forall_cons in Q as [[N1 N2 N3 _] Q].
  destruct (_ && _); [by apply IH|]. destruct (_ <=? _); [done|]. destruct (_ =? 0); [by apply IH, incr_sacklen_ty, set_sack_ty|].
  destruct (_ =? _); [apply IH, set_sack_ty; try done; by apply sack_left_ty|]. cbv zeta. by apply IH, incr_sacklen_ty, set_sack_ty.
Qed.
Lemma cleared_sacks_ty a n : is_u8 n -> sa_ty a -> sa_ty (set_sacklen n (set_sacks (replicate 4 (0, 0)) a)).
Proof. intros Hn []. constructor; try done. split; [done|]. apply Forall_replicate. split; unfold is_u32; simpl; lia. Qed.
Lemma typed_sacks x y s : is_u32 x -> is_u32 y -> typed s -> typed (tcp_calculate_sacks x y s).
Proof.
  intros Hx Hy K. unfold tcp_calculate_sacks. cbv zeta. apply typed_set_sa; [|done]. apply sacks_loop_ty; [apply (ty_ofo s K)|].
  assert (A : sa_ty (set_sack 0 x y (set_sacklen 0 (set_sacks (replicate 4 (0, 0)) (sa s))))) by (apply set_sack_ty; [done..|]; apply cleared_sacks_ty; [unfold is_u8; lia|apply K]).
  destruct A. by constructor.
Qed.
End Base.
#[export] Hint Resolve typed_stop_rto typed_release_rto typed_stop_delack typed_release_delack typed_clear_timers typed_clear_queues typed_delete
  typed_done typed_fin_state typed_time_wait typed_user_timeout typed_rtt typed_sacks : width.

(** ** Output *)

Section Output.
Context {L : Type} `{IpLayerLaws L}.
Implicit Type s : st L.

Lemma write_options_ty a o buf : sa_ty a -> sa_ty (tcp_write_options a o buf).1.1.
Proof.
  intros A. unfold tcp_write_options. destruct (wso_allowed a =? 0), (has_sacks a); try exact A; apply cleared_sacks_ty; try done; unfold is_u8; lia.
Qed.
Lemma typed_build b seq s : typed s -> typed (build_segment b seq s).2.
Proof.
  intros K. unfold build_segment. cbv zeta. destruct (5 <? _); [|exact K].
  match goal with |- context [tcp_write_options ?a ?o ?m] => pose proof (write_options_ty a o m (ty_sa s K)) as A; destruct (tcp_write_options a o m) as [[a' buf] n] end.
  cbn [fst snd] in *. apply typed_set_sa; [done|]. typ.
Qed.
Lemma typed_saddr v s : typed s -> typed (upd_sk (set_sk_saddr v) s).
Proof. apply typed_sk. intros []. by constructor. Qed.
Lemma typed_transmit b seq s : typed s -> typed (tcp_transmit_skb b seq s).1.2.
Proof.
  intros K. unfold tcp_transmit_skb. pose proof (typed_build b seq s K) as K1. destruct (build_segment b seq s) as [b1 s1]. cbn [snd] in K1. cbv zeta.
  destruct (_ =? AF_INET6); cbn [fst snd]; [destruct (o6_freed _); [apply typed_free|]; apply typed_saddr; typ|].
  destruct (ip_output _ _ _) as [[l b2] rc]. cbn [fst snd]. typ.
Qed.
Lemma buf_transmit b seq s : buf_ty b -> buf_ty (tcp_transmit_skb b seq s).1.1.
Proof. apply buf_ty_meta, transmit_frame. Qed.
Hint Resolve typed_transmit : width.

Lemma typed_send_ack s : typed s -> typed (tcp_send_ack s).1.
Proof. intros. unfold tcp_send_ack. typ. Qed.
Hint Resolve typed_send_ack : width.
Lemma typed_transmit_queued i b q s : buf_ty b -> typed s -> typed (transmit_queued i b q s).1.
Proof.
  intros B K. unfold transmit_queued. pose proof (typed_transmit b q s K) as K1. pose proof (buf_transmit b q s B) as B1.
  destruct (tcp_transmit_skb b q s) as [[b1 s1] rc]. cbn [fst snd] in *. typ.
Qed.
Lemma typed_rearm s : typed s -> typed (tcp_rearm_rto_timer s).
Proof. intros. unfold tcp_rearm_rto_timer. typ. Qed.
Hint Resolve typed_transmit_queued typed_rearm : width.

Lemma numbered_ty b q e : is_u32 q -> is_u32 e -> buf_ty b -> buf_ty (set_skb_end_seq e (set_skb_seq q b)).
Proof. intros Hq He []. by constructor. Qed.
Lemma typed_queue_now b s : buf_ty b -> typed s -> typed (queue_transmit_now b s).1.
Proof.
  intros B K. unfold queue_transmit_now. cbv zeta. set (s1 := upd_tb _ s). assert (K1 : typed s1) by (unfold s1; typ).
  set (b1 := set_skb_end_seq _ _). assert (B1 : buf_ty b1) by (apply numbered_ty; [apply K|apply K1|done]). clearbody b1 s1.
  apply typed_transmit_queued; [done|]. assert (Q : queue_ty (skb_queue_tail (sk_write_queue (sk s)) b1)) by (apply queue_ty_tail; [by apply wq_typed|done]).
  clear K B. match goal with |- typed (if _ then tcp_rearm_rto_timer ?x else _) => assert (K2 : typed x) end; [|typ].
  apply typed_sk; [intros []; by constructor|]. typ.
Qed.

(** What a sleeping thread will do next is typed too. *)
Definition after_ty (k : after) : Prop := match k with AfterSend _ mss _ => is_u16 mss | _ => True end.
Definition res_ty (r : res L) : Prop :=
  match r with Done s _ => typed s | Asleep s b k => typed s /\ buf_ty b /\ Forall after_ty k | Diverges => True end.

Lemma queue_transmit_ty b s : buf_ty b -> typed s -> res_ty (tcp_queue_transmit_skb b s).
Proof.
  intros B K. unfold tcp_queue_transmit_skb. pose proof (typed_queue_now b s B K) as K1. destruct (queue_transmit_now b s) as [s1 rc].
  destruct (snd_wnd_open _ s); [done|]. split_and!; [typ|done|by apply Forall_nil].
Qed.
Lemma send_segment_ty c l s : Z.of_nat (length c) < 65536 -> typed s -> buf_ty (send_segment c l s).1 /\ typed (send_segment c l s).2.
Proof.
  intros Hc K. unfold send_segment. cbv zeta. match goal with |- context [tcp_alloc_skb ?f ?o ?n s] =>
    pose proof (buf_ty_alloc f o n s ltac:(unfold is_u32; lia)) as B; pose proof (typed_tcp_alloc f o n s K) as K1; destruct (tcp_alloc_skb f o n s) as [b s1] end.
  cbn [fst snd] in *. split; [|done]. assert (B1 : buf_ty (set_skb_buf (st_bytes (skb_buf (skb_push (Z.of_nat (length c)) b)) (Z.to_nat (skb_data (skb_push (Z.of_nat (length c)) b))) c) (skb_push (Z.of_nat (length c)) b))) by (destruct B; by constructor).
  destruct l; eauto with width.
Qed.
Lemma send_loop_ty mss len fuel : is_u16 mss -> forall rest s, typed s -> res_ty (tcp_send_loop fuel rest mss len s).
Proof.
  intros Hm. induction fuel as [|fuel IH]; intros rest s K; (destruct rest as [|x rest]; [cbn [tcp_send_loop res_ty]; eauto with width|]); [done|].
  cbn [tcp_send_loop]. cbv zeta. set (n := if mss <? _ then mss else _). assert (Hn : n < 65536) by (unfold n; unfold is_u16 in Hm; destruct (Z.ltb_spec mss (Z.of_nat (length (x :: rest)))); lia).
  clearbody n. match goal with |- context [send_segment ?c ?l s] => destruct (send_segment_ty c l s) as [B1 K1]; [rewrite length_take; lia|done|];
    destruct (send_segment c l s) as [b s1] end. cbn [fst snd] in *.
  pose proof (queue_transmit_ty b s1 B1 K1) as K2. destruct (tcp_queue_transmit_skb b s1) as [s2 rc|s2 b2 k|]; [by apply IH| |done].
  destruct K2 as (K2 & B2 & Hk). split_and!; try done. apply Forall_app. by split; [|apply Forall_singleton].
Qed.
Lemma run_after_ty k s rc : after_ty k -> typed s -> res_ty (run_after k s rc).
Proof. intros Hk K. destruct k; cbn [run_after]; [by apply send_loop_ty|..]; cbn [res_ty]; unfold incr_snd_nxt; typ. Qed.
Lemma and_then_ty r k : after_ty k -> res_ty r -> res_ty (and_then r k).
Proof.
  intros Hk K. destruct r; cbn [and_then]; [by apply run_after_ty| |done]. destruct K as (K & B & Hks). split_and!; try done. apply Forall_app.
  by split; [|apply Forall_singleton].
Qed.
Lemma resume_ty b k s : buf_ty b -> Forall after_ty k -> typed s -> res_ty (resume b k s).
Proof.
  intros B Hk K. unfold resume. assert (R : res_ty (tcp_queue_transmit_skb b (socket_wr_acquire s))) by (apply queue_transmit_ty; [done|typ]). revert R.
  generalize (tcp_queue_transmit_skb b (socket_wr_acquire s)). induction Hk as [|x k Hx Hk IH]; intros r R; cbn [foldl]; [done|]. by apply IH, and_then_ty.
Qed.

Ltac alloc_ty K := match goal with |- context [tcp_alloc_skb ?f ?o ?n ?s] =>
  let B := fresh "B" in let K1 := fresh "K" in
  pose proof (buf_ty_alloc f o n s ltac:(unfold is_u32; lia)) as B; pose proof (typed_tcp_alloc f o n s K) as K1; destruct (tcp_alloc_skb f o n s); cbn [fst snd] in B, K1 end.
Lemma send_synack_ty s : typed s -> res_ty (tcp_send_synack s).
Proof.
  intros K. unfold tcp_send_synack. destruct (_ || _); [|exact K]. alloc_ty K. apply and_then_ty; [done|]. apply queue_transmit_ty; eauto with width.
Qed.
Lemma send_syn_ty s : typed s -> res_ty (tcp_send_syn s).
Proof.
  intros K. unfold tcp_send_syn. destruct (_ || _); [|exact K]. destruct (tcp_syn_options s). alloc_ty K. apply queue_transmit_ty; eauto with width.
Qed.
Lemma queue_fin_ty s : typed s -> res_ty (tcp_queue_fin s).
Proof. intros K. unfold tcp_queue_fin. alloc_ty K. apply queue_transmit_ty; eauto with width. Qed.
Lemma connect_ty s : typed s -> res_ty (tcp_connect s).
Proof.
  intros K. unfold tcp_connect. cbv zeta. match goal with |- context [generate_iss ?x] => assert (K1 : typed (generate_iss x).2) by (apply typed_iss, typed_tm; [unfold TCP_HDR_LEN; width|done]);
    destruct (generate_iss x) as [i s1] end. cbn [snd] in K1. apply and_then_ty; [done|]. apply send_syn_ty. apply typed_tb; [|done].
  unfold tcp_select_initial_window. width.
Qed.
Lemma typed_send_reset s : typed s -> typed (tcp_send_reset s).1.
Proof. intros. unfold tcp_send_reset. typ. Qed.

Lemma typed_send_next a x s : typed s -> typed (tcp_send_next a x s).
Proof.
  unfold tcp_send_next. generalize (min (u32 (cwnd (cc s) + x)) (snd_wnd (tb s))) as w. intros w.
  generalize (length (skq (sk_write_queue (sk s)))), 0%nat. intros fuel. revert s. induction fuel as [|fuel IH]; intros s i K; cbn [send_next_loop]; [done|].
  destruct (skq (sk_write_queue (sk s)) !! i) as [b|] eqn:E; [|done]. destruct (_ <? _); [done|]. destruct (negb _); [by apply IH|]. destruct (_ <? _); [done|].
  assert (B : buf_ty b) by (eapply Forall_lookup_1 in E; [exact E|apply (ty_bufs _ (wq_typed s K))]). apply buf_ty_reset in B.
  pose proof (typed_transmit (skb_reset_header b) (snd_nxt (tb s)) s K) as K1. pose proof (buf_transmit (skb_reset_header b) (snd_nxt (tb s)) s B) as B1.
  destruct (tcp_transmit_skb _ _ s) as [[b1 s1] rc]. cbn [fst snd] in K1, B1. cbv zeta. clear K E B. set (s2 := upd_tb _ s1). assert (K2 : typed s2) by (unfold s2; typ).
  apply IH. apply typed_wq_set; [apply numbered_ty; [apply K1|apply K2|done]|]. clearbody s2. unfold incr_snd_nxt. typ.
Qed.
Lemma typed_notify_user s : typed s -> typed (tcp_notify_user s).
Proof. intros. unfold tcp_notify_user. typ. Qed.
Lemma typed_sack_clear s : typed s -> typed (tcp_sack_clear s).
Proof.
  intros K. unfold tcp_sack_clear. apply typed_sa; [intros []; constructor; try done; unfold is_u32; simpl; lia|]. apply typed_sk; [|done].
  intros [S1 S2 S3 [Q1 Q2]]. constructor; try done. constructor; [done|]. cbn. apply Forall_fmap. eapply Forall_impl; [exact Q2|].
  intros b []. constructor; try done; unfold is_u8; simpl; lia.
Qed.
Lemma candidate_ty s i b : typed s -> tcp_retransmit_candidate s = Some (i, b) -> buf_ty b.
Proof.
  intros K. unfold tcp_retransmit_candidate. assert (Hd : forall j c, (match write_queue_head s with Some b => Some (0%nat, b) | None => None end) = Some (j, c) -> buf_ty c).
  { intros j c. unfold write_queue_head. destruct (skb_peek _) eqn:E; [|done]. intros [= <- <-]. eapply queue_ty_peek, E. by apply wq_typed. }
  destruct (0 <? _); [|by apply Hd]. destruct (first_hole _ _ _) as [[j c]|] eqn:E; [|by apply Hd]. intros [= <- <-]. revert E.
  pose proof (ty_bufs _ (wq_typed s K)) as Q. generalize 0%nat. induction Q as [|x q Hx Q IH]; intros m; cbn [first_hole]; [done|].
  destruct (_ && _); [by intros [= _ <-]|by apply IH].
Qed.
Lemma typed_fast_retransmit s : typed s -> typed (tcp_fast_retransmit s).1.
Proof.
  intros K. unfold tcp_fast_retransmit. destruct (tcp_retransmit_candidate s) as [[i b]|] eqn:E; [|done]. apply typed_transmit_queued; [|done].
  apply buf_ty_reset. eapply candidate_ty, E. done.
Qed.
End Output.
#[export] Hint Resolve typed_transmit typed_send_ack typed_transmit_queued typed_rearm typed_queue_now typed_send_reset typed_send_next typed_notify_user
  typed_sack_clear typed_fast_retransmit : width.

(** ** Input *)

Section Input.
Context {L : Type} `{IpLayerLaws L}.
Implicit Type s : st L.

Lemma typed_consume s : typed s -> typed (tcp_consume_ofo_queue s).
Proof.
  unfold tcp_consume_ofo_queue. generalize (length (skq (ofo s))). intros fuel. revert s. induction fuel as [|fuel IH]; intros s K; cbn [consume_loop]; [done|].
  destruct (skb_peek (ofo s)) as [b|] eqn:E; [|done]. destruct (skb_dequeue (ofo s)) as [[b' q]|] eqn:Ed; [|done]. destruct (_ =? _); [|done].
  pose proof (queue_ty_peek _ _ (ty_ofo s K) E) as B. destruct (queue_ty_dequeue _ _ _ (ty_ofo s K) Ed) as [_ Q]. apply IH.
  set (s1 := set_ofo q _). assert (K1 : typed s1) by (unfold s1; typ). clearbody s1. unfold receive_queue. typ.
Qed.
Lemma typed_win_down d s : typed s -> typed (decrease_recv_win d s). Proof. intros. unfold decrease_recv_win. typ. Qed.
Lemma typed_win_up d s : typed s -> typed (increase_recv_win d s). Proof. intros. unfold increase_recv_win. typ. Qed.
Hint Resolve typed_consume typed_win_down typed_win_up : width.

Lemma insert_ordered_ty q b : queue_ty q -> buf_ty b -> queue_ty (tcp_data_insert_ordered q b).1 /\ buf_ty (tcp_data_insert_ordered q b).2.
Proof. intros Q B. unfold tcp_data_insert_ordered. destruct (find_place _ _ _); cbn [fst snd]; split; eauto with width. Qed.
Lemma data_queue_ty b s : buf_ty b -> typed s -> buf_ty (tcp_data_queue b s).1.1 /\ typed (tcp_data_queue b s).1.2.
Proof.
  intros B K. unfold tcp_data_queue. destruct (_ =? 0); [done|]. destruct (_ =? _); cbn [fst snd].
  { split; [eauto with width|]. apply typed_notify, typed_poll, typed_consume. set (s1 := upd_tb _ _). assert (K1 : typed s1) by (unfold s1; typ).
    clearbody s1. unfold receive_queue. typ. }
  destruct (insert_ordered_ty (ofo s) b (ty_ofo s K) B) as [Q B1]. destruct (tcp_data_insert_ordered (ofo s) b) as [q b1]. cbn [fst snd] in *. cbv zeta.
  pose proof (ty_seq _ B1). pose proof (ty_end_seq _ B1).
  match goal with |- context [tcp_send_ack ?x] => assert (K1 : typed (tcp_send_ack x).1) by typ; destruct (tcp_send_ack x) end. done.
Qed.

Lemma read_blocks_ty data : forall n ptr i bl, length bl = 4%nat /\ Forall block_ty bl ->
  length (read_blocks data ptr i n bl) = 4%nat /\ Forall block_ty (read_blocks data ptr i n bl).
Proof.
  induction n as [|n IH]; intros ptr i bl [E F]; cbn [read_blocks]; [done|]. apply IH. rewrite length_insert. split; [done|]. apply Forall_insert; [done|].
  split; apply bswap32_range.
Qed.
Definition opt_ty (p : optst) : Prop := is_u8 (po_scale p) /\ length (po_blocks p) = 4%nat /\ Forall block_ty (po_blocks p).
Lemma parse_one_ty data p : bytes_ok data -> opt_ty p -> opt_ty (parse_one data p).
Proof.
  intros Hd [P1 P2]. unfold parse_one. cbv zeta. repeat (destruct (_ =? _); [try done|]); try done.
  - unfold parse_sack. split; [done|]. cbn [po_blocks]. by apply read_blocks_ty.
  - split; [|done]. cbn [po_scale parse_wso]. pose proof (ld8_range data (po_ptr p + 2) Hd). unfold is_u8 in *. destruct (Z.leb_spec (ld8 data (po_ptr p + 2)) 14); lia.
Qed.
Lemma parse_loop_ty data : bytes_ok data -> forall fuel p, opt_ty p -> opt_ty (parse_loop fuel data p).
Proof. intros Hd. induction fuel as [|fuel IH]; intros p P; cbn [parse_loop]; [done|]. destruct (parse_more p); [|done]. by apply IH, parse_one_ty. Qed.
Lemma max_right_ty bl : Forall block_ty bl -> is_u32 (max_right bl).
Proof.
  unfold max_right. assert (G : is_u32 0) by (unfold is_u32; lia). revert G. generalize 0. intros m Hm F. revert m Hm.
  induction F as [|[x y] bl [_ Hy] F IH]; intros m Hm; cbn [foldl]; [done|]. destruct (_ <? _); by apply IH.
Qed.
Lemma mark_block_ty bl b : buf_ty b -> buf_ty (mark_block bl b).
Proof. intros B. unfold mark_block. destruct (existsb _ _); [|done]. destruct B. constructor; try done; unfold is_u8; simpl; lia. Qed.
Lemma typed_parse_opts th s : th_ty th -> typed s -> typed (tcp_parse_opts th s).
Proof.
  intros T K. unfold tcp_parse_opts. cbv zeta. assert (P : opt_ty (parse_loop parse_fuel (th_data th) (opt_start (u8 (tcp_hlen th - 20)) (snd_scale (sa s))))).
  { apply parse_loop_ty; [apply T|]. split; [apply (ty_sa s K)|]. split; [done|]. apply Forall_replicate. split; unfold is_u32; simpl; lia. }
  revert P. generalize (parse_loop parse_fuel (th_data th) (opt_start (u8 (tcp_hlen th - 20)) (snd_scale (sa s)))). intros p (P1 & P2 & P3).
  set (s1 := upd_sa _ _). assert (K1 : typed s1) by (apply typed_sa; [intros []; constructor; try done; unfold is_u8; simpl; lia|typ]). clearbody s1.
  destruct (_ && _); [|done]. unfold tcp_sack_mark_write_queue. cbv zeta. set (bl := take _ _). assert (F : Forall block_ty bl) by by apply Forall_take.
  clearbody bl. set (s2 := set_write_queue _ s1). assert (K2 : typed s2).
  { apply typed_wq; [|done]. destruct (wq_typed s1 K1) as [Q1 Q2]. constructor; [done|]. cbn. apply Forall_fmap. eapply Forall_impl; [exact Q2|]. intros b. apply mark_block_ty. }
  clearbody s2. destruct (_ <? _); [|done]. apply typed_sa; [|done]. intros []. constructor; try done. by apply max_right_ty.
Qed.
Lemma typed_snd_win w s : typed s -> typed (update_snd_win w s).
Proof. intros. unfold update_snd_win. typ. Qed.

Lemma cong_avoid_ty n c : is_u32 n -> cc_ty c -> cc_ty (tcp_cong_avoid n c).
Proof.
  intros Hn K. unfold tcp_cong_avoid. destruct (_ =? 0); [done|]. destruct (negb _); [done|]. destruct (_ <? _); [width|]. cbv zeta.
  set (c1 := set_bytes_acked _ c). assert (K1 : cc_ty c1) by (unfold c1; width). clearbody c1. destruct (Z.leb_spec (cwnd c1) (bytes_acked c1)); [|done]. width.
Qed.
Lemma ack_inflight_ty n c : 0 <= n -> cc_ty c -> cc_ty (ack_inflight n c).
Proof. intros Hn K. unfold ack_inflight. destruct (Z.leb_spec n (inflight c)); width. Qed.
Lemma typed_clean una s : typed s -> typed (tcp_clean_rto_queue una s).
Proof.
  intros K. unfold tcp_clean_rto_queue. assert (K1 : typed (clean_loop (length (skq (write_queue s))) una s).1).
  { generalize (length (skq (write_queue s))). intros fuel. revert s K. induction fuel as [|fuel IH]; intros s K; cbn [clean_loop]; [done|].
    destruct (skb_peek (write_queue s)) as [b|] eqn:E; [|done]. destruct (_ && _); [|done].
    destruct (skb_dequeue (write_queue s)) as [[b' q]|] eqn:Ed; [|cbn [fst]; typ]. pose proof (queue_ty_peek _ _ (wq_typed s K) E) as B.
    destruct (queue_ty_dequeue _ _ _ (wq_typed s K) Ed) as [_ Q]. pose proof (ty_dlen _ B) as Hd. apply IH. apply typed_cc; [|typ].
    intros C. apply cong_avoid_ty; [done|]. apply ack_inflight_ty; [apply Hd|done]. }
  destruct (clean_loop _ una s) as [s1 e]. cbn [fst] in K1. typ.
Qed.
Hint Resolve typed_parse_opts typed_snd_win typed_clean : width.

Lemma half_ty c : cc_ty c -> is_u32 (max (inflight c / 2) (u32 (2 * smss c))).
Proof. intros []. unfold max. case_match; ulia. Qed.
Lemma typed_fast_recovery s : typed s -> typed (tcp_enter_fast_recovery s).
Proof.
  intros K. unfold tcp_enter_fast_recovery. set (s1 := upd_cc _ s). assert (K1 : typed s1).
  { apply typed_cc; [|done]. intros C. pose proof (half_ty _ C). destruct C. constructor; done. }
  clearbody s1. typ.
Qed.
Lemma exit_recovery_ty c : cc_ty c -> cc_ty (tcp_exit_fast_recovery c). Proof. unfold tcp_exit_fast_recovery. width. Qed.
Hint Resolve typed_fast_recovery : width.
Lemma typed_dupack s : typed s -> typed (tcp_handle_dupack s).
Proof. intros. unfold tcp_handle_dupack. typ. Qed.
Lemma typed_reset s : typed s -> typed (tcp_reset s).
Proof. intros. unfold tcp_reset. typ. Qed.
Lemma typed_drop b s : typed s -> typed (tcp_drop b s). Proof. apply typed_free. Qed.
Lemma typed_connected s : typed s -> typed (sock_connected s).
Proof. intros. unfold sock_connected. typ. Qed.
Lemma typed_to_parent s : typed s -> typed (add_tsk_to_parent_establied_conn_list s).
Proof. intros. unfold add_tsk_to_parent_establied_conn_list. destruct (ptsk s); [|typ]. destruct (_ !! _); typ. Qed.
Lemma typed_or_flags v s : is_u8 v -> typed s -> typed (or_flags v s).
Proof. intros Hv. apply typed_tm. intros []. constructor; try done. by apply lor_u8. Qed.
End Input.
#[export] Hint Resolve typed_consume typed_win_down typed_win_up typed_parse_opts typed_snd_win typed_clean typed_fast_recovery typed_dupack typed_reset
  typed_drop typed_connected typed_to_parent : width.
#[export] Hint Extern 1 (typed (or_flags _ _)) => apply typed_or_flags; [unfold is_u8, TCP_FIN, TCP_PSH; lia|] : width.

Section Segment.
Context {L : Type} `{IpLayerLaws L}.
Implicit Type s : st L.

Definition step_ty (r : step L) : Prop := match r with Next b s => buf_ty b /\ typed s | Return s _ => typed s end.
Lemma step_ty_bind r f : step_ty r -> (forall b s, buf_ty b -> typed s -> step_ty (f b s)) -> step_ty (step_bind r f).
Proof. intros K F. destruct r; [by destruct K; apply F|done]. Qed.

Section OneSegment.
Context (th : tcphdr) (T : th_ty th).

Lemma check_segment_ty b s : buf_ty b -> typed s -> step_ty (check_segment th b s).
Proof.
  intros B K. unfold check_segment. destruct (negb (tcp_verify_segment _ _ _)); [cbn [step_ty]; typ|].
  destruct (th_rst th); [cbn [step_ty]; typ|]. destruct (th_syn th); [cbn [step_ty]; typ|]. destruct (negb _); cbn [step_ty]; [typ|done].
Qed.
Lemma last_win_ty s : typed s -> typed (upd_cc (set_last_ack_win (th_win th)) s).
Proof. apply typed_cc. intros []. constructor; try done. apply T. Qed.
Lemma una_ty s : typed s -> typed (upd_tb (set_snd_una (th_ack_seq th)) s).
Proof. apply typed_tb. intros []. constructor; try done. apply T. Qed.
Hint Resolve last_win_ty una_ty : width.
Lemma process_ack_ty b s : buf_ty b -> typed s -> step_ty (process_ack th b s).
Proof.
  intros B K. unfold process_ack. destruct (tcp_is_dupack th b s); [cbn [step_ty]; typ|]. set (s1 := if ack_advances th s then _ else s).
  assert (K1 : typed s1).
  { unfold s1. destruct (ack_advances th s); [|done]. cbv zeta. set (s2 := tcp_clean_rto_queue _ _). assert (K2 : typed s2) by (unfold s2; typ). clearbody s2.
    destruct (in_recovery (cc s2) =? 0); [exact K2|]. apply typed_cc; [apply exit_recovery_ty|exact K2]. }
  clearbody s1. cbv zeta. destruct (_ <? _); [cbn [step_ty]; typ|]. destruct (_ <? _); cbn [step_ty]; [typ|]. split; [done|typ].
Qed.
Lemma ack_switch_ty b s : buf_ty b -> typed s -> step_ty (ack_switch th b s).
Proof.
  intros B K. unfold ack_switch. destruct (state s); try (by apply process_ack_ty); try done.
  destruct (ack_advances th s); [apply process_ack_ty; [done|typ]|cbn [step_ty]; typ].
Qed.
Lemma fin_acked_ty b s : buf_ty b -> typed s -> step_ty (fin_acked th b s).
Proof.
  intros B K. unfold fin_acked. destruct (skb_queue_empty _); [|done]. destruct (state s); try done; cbn [step_ty]; try (split; [done|typ]); try typ.
  destruct (_ =? _); cbn [step_ty]; split; try done; typ.
Qed.
Lemma segment_text_ty b s : buf_ty b -> typed s -> step_ty (segment_text th b s).
Proof.
  intros B K. unfold segment_text. destruct (data_queue_ty b s B K) as [B1 K1]. destruct (tcp_data_queue b s) as [[b1 s1] rc]. cbn [fst snd] in *.
  destruct (state s); try done; destruct (_ || _); done.
Qed.
Lemma fin_bit_ty e b s : buf_ty b -> typed s -> step_ty (fin_bit th e b s).
Proof.
  intros B K. unfold fin_bit. destruct (_ && _); [|done]. cbv zeta. set (s1 := recv_notify _). assert (K1 : typed s1) by (unfold s1; typ). clearbody s1.
  destruct (state s); cbn [step_ty]; try typ; split; try done; destruct (state s1); typ.
Qed.
Lemma typed_delay_ack b s : typed s -> typed (delay_ack th b s).
Proof. intros. unfold delay_ack. cbv zeta. typ. Qed.
Hint Resolve typed_delay_ack : width.
Lemma send_or_delay_ty e b s : buf_ty b -> typed s -> step_ty (send_or_delay th e b s).
Proof.
  intros B K. unfold send_or_delay. destruct (state s); try done; destruct e; try done; destruct (_ <? _); cbn [step_ty]; split; try done; typ.
Qed.
Lemma otherwise_ty b s : buf_ty b -> typed s -> typed (tcp_otherwise th b s).1.
Proof.
  intros B K. unfold tcp_otherwise. set (r := step_bind _ _). assert (R : step_ty r).
  { apply step_ty_bind; [by apply check_segment_ty|]. intros b1 s1 B1 K1. apply step_ty_bind; [by apply ack_switch_ty|]. intros b2 s2 B2 K2.
    apply step_ty_bind; [by apply fin_acked_ty|]. intros b3 s3 B3 K3. cbv zeta. apply step_ty_bind; [by apply segment_text_ty|]. intros b4 s4 B4 K4.
    apply step_ty_bind; [by apply fin_bit_ty|]. intros b5 s5 B5 K5. by apply send_or_delay_ty. }
  destruct r; cbn [fst step_ty] in *; [destruct R; typ|done].
Qed.
Lemma synsent_ty b s : buf_ty b -> typed s -> res_ty (tcp_synsent th b s).
Proof.
  intros B K. unfold tcp_synsent. destruct (synsent_ack_bad _ _); [cbn [res_ty]; typ|]. destruct (th_rst th); [cbn [res_ty]; typ|].
  destruct (negb _); [cbn [res_ty]; typ|]. cbv zeta. set (s0 := upd_tb _ s). assert (K0 : typed s0) by (unfold s0; destruct T; typ). clearbody s0.
  set (s1 := if th_ack th then _ else _). assert (K1 : typed s1) by (unfold s1; typ). clearbody s1. destruct (_ <? _).
  - match goal with |- context [tcp_send_ack ?x] => assert (K2 : typed (tcp_send_ack x).1) end.
    { apply typed_send_ack. apply typed_tm; [width|]. apply typed_tb; [destruct T; width|]. typ. }
    match goal with |- context [tcp_send_ack ?x] => destruct (tcp_send_ack x) as [s2 rc] end. cbn [fst res_ty] in *. typ.
  - apply and_then_ty; [done|]. apply send_synack_ty. typ.
Qed.
Lemma input_conn_ty b s : buf_ty b -> typed s -> res_ty (tcp_input_conn th b s).
Proof.
  intros B K. pose proof (otherwise_ty b s B K) as K1. assert (O : res_ty (let '(s, rc) := tcp_otherwise th b s in Done s rc)) by (by destruct (tcp_otherwise th b s)).
  unfold tcp_input_conn. destruct (state s); try exact O; clear O K1; [by apply synsent_ty|].
  unfold tcp_closed. destruct (th_rst th); [cbn [res_ty]; typ|].
  pose proof (typed_send_reset s K) as K1. destruct (tcp_send_reset s) as [s1 rc]. cbn [fst res_ty] in *. typ.
Qed.
End OneSegment.

(** ** Calls *)

Lemma typed_port s : typed s -> is_u16 (generate_port s).1 /\ typed (generate_port s).2.
Proof. intros K. split; [apply u16_range|by apply typed_en]. Qed.
Lemma typed_ports p s : is_u16 p -> typed s -> typed (upd_sk (set_sk_sport p) s).
Proof. intros Hp. apply typed_sk. intros []. by constructor. Qed.
Lemma typed_dport a s : typed s -> typed (upd_sk (set_sk_dport (bswap16 a)) s).
Proof. apply typed_sk. intros []. constructor; try done. apply bswap16_range. Qed.
Lemma v4_connect_ty addr s : typed s -> res_ty (tcp_v4_connect addr s).
Proof.
  intros K. unfold tcp_v4_connect. cbv zeta. match goal with |- context [generate_port ?x] => destruct (typed_port x) as [P K1]; [by apply typed_dport|];
    destruct (generate_port x) as [i s1] end. cbn [fst snd] in *. apply connect_ty. do 2 (apply typed_sk; [intros []; by constructor|]). by apply typed_ports.
Qed.
Lemma v6_connect_ty addr n s : typed s -> res_ty (tcp_v6_connect addr n s).
Proof.
  intros K. unfold tcp_v6_connect. destruct (_ || _); [exact K|]. cbv zeta. match goal with |- context [generate_port ?x] => destruct (typed_port x) as [P K1]; [by apply typed_dport|];
    destruct (generate_port x) as [i s1] end. cbn [fst snd] in *. apply connect_ty. apply typed_cc; [width|]. apply typed_sk; [intros []; by constructor|]. by apply typed_ports.
Qed.
Lemma bind_ty addr s : typed s -> typed (tcp_v4_bind addr s).1.
Proof. apply typed_sk. intros []. constructor; try done. apply bswap16_range. Qed.
Lemma v6_bind_ty addr n s : typed s -> typed (tcp_v6_bind addr n s).1.
Proof. intros K. unfold tcp_v6_bind. destruct (_ || _); [done|]. revert K. apply typed_sk. intros []. constructor; try done. apply bswap16_range. Qed.
Lemma listen_ty n s : typed s -> typed (tcp_v4_listen n s).1.
Proof. intros K. unfold tcp_v4_listen. destruct (state s); try exact K. cbn [fst]. typ. Qed.
Lemma write_ty buf s : typed s -> res_ty (tcp_write buf s).
Proof. intros K. unfold tcp_write. destruct (negb _); [exact K|]. destruct (state s); try exact K; apply send_loop_ty; try done; apply (ty_cc s K). Qed.
Lemma close_ty s : typed s -> res_ty (tcp_close s).
Proof.
  intros K. unfold tcp_close. destruct (state s); try (cbn [res_ty]; typ).
  - apply and_then_ty; [done|]. apply queue_fin_ty. typ.
  - apply and_then_ty; [done|]. apply and_then_ty; [done|]. by apply queue_fin_ty.
Qed.
Lemma abort_ty s : typed s -> typed (tcp_abort s). Proof. intros. unfold tcp_abort. typ. Qed.

Lemma dequeue_step_ty b r u s : buf_ty b -> typed s -> typed (dequeue_step b r u s).2.
Proof.
  intros B K. unfold dequeue_step. cbv zeta. set (n := if u32 u <? _ then _ else _). clearbody n. set (s1 := increase_recv_win n _).
  assert (K1 : typed s1) by (unfold s1; typ). clearbody s1. set (b1 := set_skb_payload _ _). assert (B1 : buf_ty b1) by (destruct B; constructor; try done; apply u32_range).
  clearbody b1. set (s2 := set_receive_queue _ s1). assert (K2 : typed s2).
  { apply typed_rq; [|done]. destruct (rq_typed s1 K1) as [Q1 Q2]. constructor; [done|]. cbn. apply Forall_cons. split; [done|]. unfold receive_queue.
    destruct (skq _); [done|]. by apply Forall_cons in Q2 as [_ Q2]. }
  clearbody s2. destruct (_ =? 0); [|exact K2]. set (s3 := if th_flag _ _ _ then _ else s2). assert (K3 : typed s3).
  { unfold s3. destruct (th_flag _ _ _); [|done]. apply typed_tm; [|done]. intros []. constructor; try done. apply lor_u8; [done|]. unfold is_u8, TCP_PSH. lia. }
  clearbody s3. destruct (skb_dequeue (receive_queue s3)) as [[b2 q]|] eqn:E; cbn [snd]; [|typ]. apply typed_free, typed_rq; [|done].
  by apply (queue_ty_dequeue _ _ _ (rq_typed s3 K3) E).
Qed.
Lemma data_dequeue_ty n s : typed s -> typed (tcp_data_dequeue n s).2.
Proof.
  intros K. unfold tcp_data_dequeue. assert (K1 : typed (dequeue_loop (length (skq (receive_queue s))) [] n s).2).
  { generalize (length (skq (receive_queue s))), (@nil Z). intros fuel. revert s K. induction fuel as [|fuel IH]; intros s K acc; cbn [dequeue_loop]; [done|].
    destruct (_ && _); [|done]. destruct (skb_peek (receive_queue s)) as [b|] eqn:E; [|done]. pose proof (queue_ty_peek _ _ (rq_typed s K) E) as B.
    match goal with |- context [dequeue_step b ?r n s] => pose proof (dequeue_step_ty b r n s B K) as K1; destruct (dequeue_step b r n s) as [out s1] end. by apply IH. }
  destruct (dequeue_loop _ _ _ _) as [out s1]. cbn [snd] in K1. destruct (_ && _); cbn [snd]; [|done]. apply typed_sk; [|done]. intros []. by constructor.
Qed.
Definition recv_ty (r : recv_res L) : Prop := match r with Received s _ _ | RecvAsleep s _ _ => typed s end.
Lemma receive_turn_ty acc n s : typed s -> recv_ty (receive_turn acc n s).
Proof.
  intros K. unfold receive_turn, receive_out. destruct (_ <? _); [|cbn [recv_ty]; typ]. pose proof (data_dequeue_ty (n - Z.of_nat (length acc)) s K) as K1.
  destruct (tcp_data_dequeue _ s) as [out s1]. cbn [snd] in K1. cbv zeta. destruct (negb _); [cbn [recv_ty]; typ|]. destruct (_ || _); [cbn [recv_ty]; typ|].
  destruct (negb _); [destruct (_ =? 0); cbn [recv_ty]; typ|cbn [recv_ty]; typ].
Qed.
Lemma read_ty n s : typed s -> recv_ty (tcp_read n s).
Proof.
  intros K. unfold tcp_read, tcp_receive. destruct (state s); try exact K; try (by apply receive_turn_ty).
  destruct (negb _); [by apply receive_turn_ty|]. destruct (negb _); [cbn [recv_ty]; typ|by apply receive_turn_ty].
Qed.

(** ** Timers *)

Lemma connect_rto_ty e s : typed s -> typed (tcp_connect_rto e s).
Proof.
  intros K. unfold tcp_connect_rto. cbv zeta. assert (K0 : typed (socket_wr_acquire s)) by typ. revert K0. generalize (socket_wr_acquire s). clear s K. intros s K.
  destruct (negb _); [typ|]. assert (K1 : typed (tcp_release_rto_timer s)) by typ. revert K1. generalize (tcp_release_rto_timer s). clear s K. intros s K.
  apply typed_release. destruct (state_is _ _); [|done]. destruct (_ <? _); [typ|]. destruct (write_queue_head s) as [b|] eqn:E; [|done].
  pose proof (queue_ty_peek _ _ (wq_typed s K) E) as B. typ.
Qed.
Lemma retransmission_ty e s : typed s -> typed (tcp_retransmission_timeout e s).
Proof.
  intros K. unfold tcp_retransmission_timeout. cbv zeta. assert (K0 : typed (socket_wr_acquire s)) by typ. revert K0. generalize (socket_wr_acquire s). clear s K. intros s K.
  destruct (negb _); [typ|]. assert (K1 : typed (tcp_release_rto_timer s)) by typ. revert K1. generalize (tcp_release_rto_timer s). clear s K. intros s K.
  destruct (write_queue_head s) as [b0|]; [|typ]. set (s1 := tcp_sack_clear _). assert (K1 : typed s1).
  { apply typed_sack_clear, typed_cc; [|done]. intros C. pose proof (half_ty _ C). destruct C. constructor; try done; unfold is_u16, is_u32 in *; cbn; lia. }
  clearbody s1. destruct (write_queue_head s1) as [b|] eqn:E; [|typ]. pose proof (buf_ty_reset _ (queue_ty_peek _ _ (wq_typed s1 K1) E)) as B.
  pose proof (typed_transmit (skb_reset_header b) (snd_una (tb s1)) s1 K1) as K2. pose proof (buf_transmit (skb_reset_header b) (snd_una (tb s1)) s1 B) as B2.
  destruct (tcp_transmit_skb _ _ s1) as [[b2 s2] rc]. cbn [fst snd] in *. set (s3 := wq_set 0 b2 s2). assert (K3 : typed s3) by (unfold s3; typ). clearbody s3. typ.
Qed.
Lemma handler_ty h a s : typed s -> typed (run_handler h a s).
Proof.
  intros K. destruct h, a; cbn [run_handler]; try done; try (by apply connect_rto_ty); try (by apply retransmission_ty);
    unfold tcp_send_delack, tcp_linger, tcp_user_timeout; typ; try (apply typed_release, abort_ty; typ).
Qed.
Lemma alloc_sock_ty p f o (e : env L) : typed (tcp_alloc_sock p f o e).
Proof.
  constructor; try apply queue_ty_init.
  - constructor; try apply queue_ty_init; unfold is_u16; simpl; lia.
  - constructor; unfold is_u32; simpl; lia.
  - constructor; unfold is_u8, is_u16, is_u32, is_n31, is_u64; simpl; lia.
  - constructor; unfold is_u8, is_u16, is_u32; simpl; lia.
  - constructor; try (unfold is_u8, is_u32; simpl; lia). split; [done|]. apply Forall_replicate. split; unfold is_u32; simpl; lia.
Qed.
End Segment.

(** ** A connection and everything that happens to it *)

Section Events.
Context {L : Type} `{IpLayerLaws L}.

(** The connection and the threads that sleep in a write to it. *)
Definition conn : Type := st L * list (sk_buff * list after).

Inductive event :=
  | Arrives (o : nat) (dlen : Z) (b : sk_buff)  (** a segment whose header is at [o] *)
  | Connect4 (addr : list Z) | Connect6 (addr : list Z) (n : Z) | Bind4 (addr : list Z) | Bind6 (addr : list Z) (n : Z)
  | Listens (n : Z) | Writes (buf : list Z) | Reads (n : Z) | ReadsOn (acc : list Z) (n : Z) | Closes | Aborts
  | Wakes (i : nat)  (** the [i]th sleeping thread *)
  | Fires (h : handler) (a : harg)
  | PathMtu (n : Z).  (** of [socket_adjust_pmtu6] *)

(** [None]: the thread never returns, with the lock held. *)
Definition settle (r : res L) (p : list (sk_buff * list after)) : option conn :=
  match r with Done s _ => Some (s, p) | Asleep s b k => Some (s, p ++ [(b, k)]) | Diverges => None end.
Definition received_state (r : recv_res L) : st L := match r with Received s _ _ | RecvAsleep s _ _ => s end.

Definition happens (c : conn) (e : event) : option conn :=
  let '(s, p) := c in
  match e with
  | Arrives o dlen b =>
      let '(th, b) := tcp_init_segment o dlen b in
      match state s with TCP_LISTEN => Some (s, p) | _ => settle (tcp_input_conn th b s) p end
  | Connect4 addr => settle (tcp_v4_connect addr s) p
  | Connect6 addr n => settle (tcp_v6_connect addr n s) p
  | Bind4 addr => Some ((tcp_v4_bind addr s).1, p)
  | Bind6 addr n => Some ((tcp_v6_bind addr n s).1, p)
  | Listens n => Some ((tcp_v4_listen n s).1, p)
  | Writes buf => settle (tcp_write buf s) p
  | Reads n => Some (received_state (tcp_read n s), p)
  | ReadsOn acc n => Some (received_state (tcp_receive_resume acc n s), p)
  | Closes => settle (tcp_close s) p
  | Aborts => Some (tcp_abort s, p)
  | Wakes i => match p !! i with Some (b, k) => settle (resume b k s) (delete i p) | None => Some c end
  | Fires h a => Some (run_handler h a s, p)
  | PathMtu n => Some (upd_cc (fun x => set_rmss (u16 (n - 60)) (set_smss (u16 (n - 60)) x)) s, p)
  end.
Definition history (c : conn) (es : list event) : option conn := foldl (fun c e => c ≫= fun c => happens c e) (Some c) es.

(** What arrives is bytes. *)
Definition event_ok (e : event) : Prop := match e with Arrives _ _ b => bytes_ok (skb_buf b) /\ is_u8 (skb_sacked b) | _ => True end.
Definition conn_ty (c : conn) : Prop := typed c.1 /\ Forall (fun x => buf_ty x.1 /\ Forall after_ty x.2) c.2.

Lemma init_segment_ty o dlen b : bytes_ok (skb_buf b) -> is_u8 (skb_sacked b) -> th_ty (tcp_init_segment o dlen b).1 /\ buf_ty (tcp_init_segment o dlen b).2.
Proof.
  intros Hb Hs. unfold tcp_init_segment. cbv zeta. set (m := st16 _ (o + 18) _). assert (Hm : bytes_ok m) by (unfold m; eauto 20 with cint).
  clearbody m. cbn [fst snd]. split; constructor; cbn; eauto with cint. by apply Forall_drop.
Qed.
Lemma settle_ty r p c : res_ty r -> Forall (fun x : sk_buff * list after => buf_ty x.1 /\ Forall after_ty x.2) p -> settle r p = Some c -> conn_ty c.
Proof.
  intros R P. destruct r; cbn [settle]; [by intros [= <-]| |done]. intros [= <-]. destruct R as (R1 & R2 & R3). split; [done|]. apply Forall_app.
  by split; [|apply Forall_singleton].
Qed.
Lemma recv_state_ty r : recv_ty r -> typed (received_state r). Proof. by destruct r. Qed.
Lemma happens_ty e c c' : event_ok e -> conn_ty c -> happens c e = Some c' -> conn_ty c'.
Proof.
  destruct c as [s p]. intros Ok [K P]. cbn [fst snd] in K, P. assert (S : forall s', typed s' -> Some (s', p) = Some c' -> conn_ty c') by (by intros s' K' [= <-]).
  destruct e; cbn [happens]; try (apply settle_ty; [|exact P]); try apply S; try done.
  - destruct Ok as [O1 O2]. destruct (init_segment_ty o dlen b O1 O2) as [T B]. destruct (tcp_init_segment o dlen b) as [th b1]. cbn [fst snd] in T, B.
    destruct (state s); first [by apply S|apply settle_ty; [by apply input_conn_ty|exact P]].
  - by apply v4_connect_ty.
  - by apply v6_connect_ty.
  - by apply bind_ty.
  - by apply v6_bind_ty.
  - by apply listen_ty.
  - by apply write_ty.
  - by apply recv_state_ty, read_ty.
  - apply recv_state_ty, receive_turn_ty. typ.
  - by apply close_ty.
  - by apply abort_ty.
  - destruct (p !! i) as [[b k]|] eqn:E; [|by apply S]. destruct (Forall_lookup_1 _ _ _ _ P E) as [B A]. apply settle_ty; [by apply resume_ty|]. by apply Forall_delete.
  - by apply handler_ty.
  - apply typed_cc; [width|done].
Qed.
Lemma history_ty es : forall c c', Forall event_ok es -> conn_ty c -> history c es = Some c' -> conn_ty c'.
Proof.
  unfold history. induction es as [|e es IH]; intros c c' O K; cbn [foldl]; [by intros [= <-]|]. apply Forall_cons in O as [O1 O].
  change (Some c ≫= fun c => happens c e) with (happens c e). destruct (happens c e) as [c1|] eqn:E; [apply IH; [done|by eapply happens_ty]|].
  intros N. exfalso. clear - N. induction es as [|e es IH]; [done|by apply IH].
Qed.
End Events.
Arguments conn : clear implicits.

(** The child of a listening socket starts within its types as well. *)
Lemma fork_ty th p f o (e : env net) : th_ty th -> typed (fork_tcb th (tcp_alloc_sock p f o e)).
Proof.
  intros T. unfold fork_tcb. cbv zeta. set (s1 := tcp_parse_opts th _). assert (K1 : typed s1) by (apply typed_parse_opts; [done|]; apply typed_state, alloc_sock_ty). clearbody s1.
  set (s2 := if _ =? 0 then s1 else _). assert (K2 : typed s2).
  { unfold s2. destruct (_ =? 0); [done|]. apply typed_sa; [|done]. intros []. constructor; try done; unfold is_u8; simpl; lia. }
  clearbody s2. pose proof (typed_iss s2 K2) as K3. destruct (generate_iss s2) as [i s3]. cbn [snd] in K3. apply typed_tb; [|done].
  unfold tcp_select_initial_window. destruct T. width.
Qed.
Lemma fork_addrs_ty family saddr daddr sport th (s : st net) : is_u16 sport -> th_ty th -> typed s -> typed (upd_sk (fork_addrs family saddr daddr sport th) s).
Proof. intros Hp T. apply typed_sk. intros []. unfold fork_addrs. cbv zeta. destruct (_ =? _); constructor; try done; apply T. Qed.

(** How a connection begins: [socket], or the SYN that a listener answers. *)
Inductive born : st net -> Prop :=
  | born_socket p f o e : born (tcp_alloc_sock p f o e)
  | born_fork p f o e th family saddr daddr sport : th_ty th -> is_u16 sport ->
      born (upd_sk (fork_addrs family saddr daddr sport th) (fork_tcb th (tcp_alloc_sock p f o e))).
Lemma born_ty s : born s -> typed s.
Proof. intros [p f o e|p f o e th family saddr daddr sport T Hp]; [apply alloc_sock_ty|]. apply fork_addrs_ty; [done..|]. by apply fork_ty. Qed.
End TcpWidth.
