(* ===== verification/Udp.v ===== *)
(** UDP: [src/src/udp.c], [src/src/udp_data.c], [src/src/udp_inpute.c],
    [src/src/udp_out.c].  The checksum is [calcuate_udp_checksum] of [IpOut]. *)
From S2P Require Import Prelude Utils SkBuff Timer TcpTypes TcpApi Ipv6 Net Neigh IpOut World.
Import Utils SkBuff Timer TcpTypes TcpApi Ipv6 Net Neigh IpOut World.

Module Udp.

(** ** Arrival: the IPv4 header at [head + 14] is in host order *)

Definition udp_checksum_right (buf : list Z) (o : nat) : bool * bool :=
  let '(cs, dump_ok) := calcuate_udp_checksum (bswap32 (ld32 buf 26)) (bswap32 (ld32 buf 30)) o buf in
  (cs =? ld16 buf (o + 6), dump_ok).

Definition udp_init_head (o : nat) (b : sk_buff) : sk_buff :=
  let m := skb_buf b in
  let m := st16 m (o + 2) (bswap16 (ld16 m (o + 2))) in
  let m := st16 m o (bswap16 (ld16 m o)) in
  let m := st16 m (o + 4) (bswap16 (ld16 m (o + 4))) in
  set_skb_payload (Z.of_nat (o + 8)) (set_skb_dlen (u32 (ld16 m (o + 4) - UDP_HDR_LEN)) (set_skb_buf m b)).

Definition udp_recv_notify (id : Z) (w : world) : world := w_wake (RecvWait id) w.

Definition udp_data_queue (id : Z) (b : sk_buff) (w : world) : world :=
  let b := set_skb_refcnt (skb_refcnt b + 1) b in
  udp_recv_notify id (on_sk id (fun k =>
    set_sk_poll_events (Z.lor (sk_poll_events k) POLL_READABLE)
      (set_sk_receive_queue (skb_queue_tail (sk_receive_queue k) b) k)) w).

Definition udp_in (b : sk_buff) (w : world) : world :=
  let '(csum_ok, dump_ok) := udp_checksum_right (skb_buf b) UDPH in
  let w := if dump_ok then w else w_fault FaultBounds w in
  if negb csum_ok then w_free_skb b w
  else
    let b := udp_init_head UDPH b in
    match inet_udp_lookup (ld16 (skb_buf b) UDPH) (ld16 (skb_buf b) (UDPH + 2)) w with
    | None => w_free_skb b w
    | Some id => so_release id (udp_data_queue id b (so_acquire id w))
    end.

(** ** Reading *)

(** What one [recvfrom] gets: the bytes copied, the sender's address, and the
    return value, which is the length of the datagram. *)
Record dgram := mk_dgram { dg_bytes : list Z; dg_addr : list Z; dg_rlen : Z }.

Definition udp_data_dequeue (userlen : Z) (id : Z) (w : world) : option dgram * world :=
  match find_entry id w with
  | None => (None, w_fault (FaultFreed id) w)
  | Some e =>
      let q := sk_receive_queue (c_sk e) in
      match (if skb_queue_empty q then None else skb_dequeue q) with
      | None => (None, w)
      | Some (b, q) =>
          let addr := (build_sockaddr_from_host_order (ld16 (skb_buf b) UDPH) (ld32 (skb_buf b) 26)).1 in
          let dlen := if u32 userlen <? skb_dlen b then userlen else skb_dlen b in
          let bytes := ld_bytes (skb_buf b) (Z.to_nat (skb_payload b)) (Z.to_nat dlen) in
          let rlen := s32 (skb_dlen b) in
          let w := on_sk id (fun k =>
            let k := set_sk_receive_queue q k in
            if skb_queue_empty q then set_sk_poll_events (Z.land (sk_poll_events k) (Z.lnot POLLIN)) k else k) w in
          (Some (mk_dgram bytes addr rlen), w_free_skb (set_skb_refcnt (skb_refcnt b - 1) b) w)
      end
  end.

(** One turn of the loop of [udp_receive]: the datagram, or to sleep; a datagram
    without data is taken from the queue and the thread sleeps. *)
Definition udp_receive (userlen : Z) (id : Z) (w : world) : option dgram * world :=
  let '(d, w) := udp_data_dequeue userlen id w in
  match d with
  | Some d => if 0 <? dg_rlen d then (Some d, w) else (None, so_release id w)
  | None => (None, so_release id w)
  end.

(** ** Sending *)

Definition udp_alloc_skb (size : Z) (w : world) : sk_buff * world :=
  let reserved := ETH_HDR_LEN + IP_HDR_LEN + UDP_HDR_LEN + size in
  let '(b, w) := w_alloc_skb reserved w in
  (set_skb_seq 0 (set_skb_dlen size (set_skb_protocol IP_UDP (skb_reserve reserved b))), w).

Definition udp_transmit_skb (k : sock) (b : sk_buff) (w : world) : world * Z :=
  let b := skb_push UDP_HDR_LEN b in
  let m := skb_buf b in
  let m := st16 m UDPH (sk_sport k) in
  let m := st16 m (UDPH + 2) (sk_dport k) in
  let m := st16 m (UDPH + 4) (u16 (skb_dlen b + UDP_HDR_LEN)) in
  let m := st16 m UDPH (bswap16 (ld16 m UDPH)) in
  let m := st16 m (UDPH + 2) (bswap16 (ld16 m (UDPH + 2))) in
  let m := st16 m (UDPH + 4) (bswap16 (ld16 m (UDPH + 4))) in
  let '(n, _, rc) := ip_output_net (w_net w) (v4_of (sk_daddr k)) (set_skb_buf m b) in
  (upd_w_net (fun _ => n) w, rc).

(** The length is returned whatever the transmission returned; the buffer is not
    freed. *)
Definition udp_out_send (k : sock) (buf : list Z) (w : world) : world * Z :=
  let len := Z.of_nat (length buf) in
  let '(b, w) := udp_alloc_skb len w in
  let b := skb_push len b in
  let b := set_skb_buf (st_bytes (skb_buf b) (Z.to_nat (skb_data b)) buf) b in
  ((udp_transmit_skb k b w).1, len).

Definition udp_write (id : Z) (buf : list Z) (w : world) : world * Z :=
  match find_entry id w with
  | None => (w_fault (FaultFreed id) w, -1)
  | Some e =>
      let k := c_sk e in
      if negb (sk_err k =? 0) then (w, sk_err k)
      else if state_is (sk_state k) (udp_state SS_UNCONNECTED) || state_is (sk_state k) (udp_state SS_CONNECTED)
      then udp_out_send k buf w
      else (w, - EBADF)
  end.

Definition udp_sendto (id : Z) (buf addr : list Z) (w : world) : world * Z :=
  match find_entry id w with
  | None => (w_fault (FaultFreed id) w, -1)
  | Some e =>
      if negb (sk_err (c_sk e) =? 0) then (w, sk_err (c_sk e))
      else
        let to k := set_sk_daddr (set_v4 (bswap32 (s_addr addr)) (sk_daddr k)) (set_sk_dport (bswap16 (sin_port addr)) k) in
        udp_out_send (to (c_sk e)) buf (on_sk id to w)
  end.

Definition udp_bind (id : Z) (addr : list Z) (w : world) : world * Z :=
  let sport := bswap16 (sin_port addr) in
  match socker_find_protocol_port sport IPPROTO_UDP w with
  | Some _ => (w, - EADDRINUSE)
  | None =>
      (on_sk id (fun k => set_sk_saddr (set_v4 (bswap32 (s_addr addr)) (sk_saddr k)) (set_sk_sport sport k)) w, 0)
  end.

Definition udp_v4_connect (id : Z) (w : world) : world * Z :=
  (on_sk id (set_sk_state (udp_state SS_CONNECTED)) w, 0).
Definition udp_disconnect (id : Z) (w : world) : world * Z :=
  (on_sk id (set_sk_state (udp_state SS_UNCONNECTED)) w, 0).

Definition udp_read : Z := 0.
Definition udp_close : Z := 0.

End Udp.
