(* ===== verification/SocketApi.v ===== *)
(** The calls of a user process: [src/src/inet.c], [src/src/inet6.c] and the [_call]
    functions of [src/src/socket.c], with [tcp_v4_accept] of [src/src/tcp.c].

    A call takes the socket lock, runs the operation of the socket's table and
    releases the lock; a call that sleeps leaves its thread in [w_threads] with the
    lock released, and [resume_call] runs it on. *)
From S2P Require Import Prelude Utils SkBuff Timer TcpTypes TcpBase TcpOutput TcpData TcpInput TcpApi Ipv6 Net Neigh IpOut World Udp.
Import Utils SkBuff Timer TcpTypes TcpBase TcpOutput TcpData TcpInput TcpApi Ipv6 Net Neigh IpOut World Udp.

Module SocketApi.

(** [Returned rc out addr]: bytes and address written for the caller. *)
Inductive outcome :=
  | Returned (rc : Z) (out addr : list Z)
  | Sleeping (thread : Z)
  | Crashed   (* a [NULL] function pointer or object *)
  | Hung.     (* an endless loop with the lock held *)

(** A thread goes to sleep. *)
Definition sleep (pid id : Z) (at_ : waiting) (w : world) : world * outcome :=
  (park pid id at_ w, Sleeping (w_next_thread w)).
Definition crash (w : world) : world * outcome := (w_fault FaultNull w, Crashed).

(** The tail of most [_call]s. *)
Definition return_rc (id rc : Z) (w : world) : world * outcome := (so_release id w, Returned rc [] []).

Definition with_entry (id : Z) (f : entry -> world * outcome) (w : world) : world * outcome :=
  match find_entry id w with
  | None => (w_fault (FaultFreed id) w, Crashed)
  | Some e => f e
  end.

Definition with_tcp (id : Z) (f : st net -> world * outcome) (w : world) : world * outcome :=
  match tcp_of id w with
  | None => (w_fault (FaultFreed id) w, Crashed)
  | Some s => f s
  end.

(** The prologue of every [_call]. *)
Definition call (pid fd : Z) (f : entry -> world -> world * outcome) (w : world) : world * outcome :=
  match get_socket pid fd w with
  | None => (w, Returned (- EBADF) [] [])
  | Some id => let w := so_acquire id w in with_entry id (fun e => f e w) w
  end.

(** ** Connect *)

(** The [switch] of [_connect]: these errors also free the socket. *)
Definition connect_tail (id rc : Z) (w : world) : world * outcome :=
  let w := so_release id w in
  if (rc =? - EINVAL) || (rc =? - EAFNOSUPPORT) || (rc =? - ECONNREFUSED) || (rc =? - ETIMEDOUT)
  then (socket_free id w, Returned rc [] [])
  else (w, Returned rc [] []).

(** After the sleeping loop: the lock is taken once more. *)
Definition connect_done (id : Z) (w : world) : world * outcome :=
  let w := so_acquire id w in
  with_entry id (fun e =>
    let err := sk_err (c_sk e) in
    connect_tail id err (if err =? 0 then on_so id (set_so_state SS_CONNECTED) w else w)) w.

(** The test of the sleeping loop, the lock held. *)
Definition connect_wait (pid id : Z) (w : world) : world * outcome :=
  with_entry id (fun e =>
    if bool_decide (so_state (c_so e) = SS_CONNECTING) && (sk_err (c_sk e) =? - EINPROGRESS)
    then sleep pid id WaitConnect (so_release id w)
    else connect_done id w) w.

Definition connect_started (pid id : Z) (w : world) : world * outcome :=
  let w := on_sk id (set_sk_err (- EINPROGRESS)) (on_so id (set_so_state SS_CONNECTING) w) in
  with_entry id (fun e =>
    if negb (Z.land (so_flags (c_so e)) O_NONBLOCK =? 0) then connect_tail id (- EINPROGRESS) w
    else connect_wait pid id w) w.

(** What a transport function left to do. *)
Definition finish (pid id : Z) (r : rest) (rc : Z) (w : world) : world * outcome :=
  match r with
  | RestReturn => return_rc id rc w
  | RestConnect => connect_started pid id w
  | RestInput => (w, Returned rc [] [])
  end.

Definition after_tcp (pid id : Z) (r : rest) (x : res net) (w : world) : world * outcome :=
  match x with
  | Done s rc => finish pid id r rc (put s w)
  | Asleep s b k => sleep pid id (WaitSend b k r) (put s w)
  | Diverges => (w, Hung)
  end.

Definition connect_error (id err : Z) (w : world) : world * outcome :=
  connect_tail id err (on_sk id (set_sk_err err) w).

(** [addr_len < sizeof(...)] compares as [size_t]. *)
Definition inet_stream_connect (pid : Z) (e : entry) (addr : list Z) (addr_len : Z) (w : world) : world * outcome :=
  let id := e_id e in
  if u64 addr_len <? 2 then connect_tail id (- EINVAL) w
  else if sa_family addr =? AF_UNSPEC then
    connect_tail id (- EAFNOSUPPORT) (on_tcp id (fun s => (tcp_disconnect s).1) w)
  else
    match so_state (c_so e) with
    | SS_CONNECTED => connect_error id (- EISCONN) w
    | SS_CONNECTING => connect_error id (- EALREADY) w
    | SS_UNCONNECTED =>
        let w := on_sk id (set_sk_err (- EISCONN)) w in
        if negb (state_is (sk_state (c_sk e)) TCP_CLOSE) then connect_tail id (- EISCONN) w
        else with_tcp id (fun s =>
          after_tcp pid id RestConnect
            (match net_ops_of (c_ops e) with
             | tcp6_ops => tcp_v6_connect addr addr_len s
             | _ => tcp_v4_connect addr s
             end) w) w
    | _ => connect_error id (- EINVAL) w
    end.

Definition inet6_stream_connect (pid : Z) (e : entry) (addr : list Z) (addr_len : Z) (w : world) : world * outcome :=
  if negb (sa_family addr =? AF_INET6) && negb (sa_family addr =? AF_UNSPEC) then connect_tail (e_id e) (- EINVAL) w
  else inet_stream_connect pid e addr addr_len w.

Definition inet_dgram_connect (e : entry) (addr : list Z) (addr_len : Z) (w : world) : world * outcome :=
  let id := e_id e in
  if (u64 addr_len <? 16) || negb (sa_family addr =? AF_INET) then connect_tail id (- EINVAL) w
  else
    let w := on_sk id (fun k =>
      set_sk_dport (bswap16 (sin_port addr)) (set_sk_daddr (set_v4 (bswap32 (s_addr addr)) (sk_daddr k)) k)) w in
    connect_tail id 0 (on_so id (set_so_state SS_CONNECTED) w).

Definition _connect (pid fd : Z) (addr : list Z) (addrlen : Z) : world -> world * outcome :=
  call pid fd (fun e w =>
    match c_ops e with
    | inet_stream_ops => inet_stream_connect pid e addr addrlen w
    | inet6_stream_ops => inet6_stream_connect pid e addr addrlen w
    | inet_dgram_ops => inet_dgram_connect e addr addrlen w
    | inet6_dgram_ops => crash w
    end).

(** ** Bind, listen, accept *)

Definition inet_bind (e : entry) (addr : list Z) (addr_len : Z) (w : world) : world * Z :=
  let id := e_id e in
  if u64 addr_len <? 2 then (w, - EINVAL)
  else if sa_family addr =? AF_UNSPEC then (w, - EAFNOSUPPORT)
  else if negb (s_addr addr =? 0) && negb (bool_decide (is_Some (netdev_get (bswap32 (s_addr addr)) (w_net w))))
  then (w, - EADDRNOTAVAIL)
  else
    let w :=
      match net_ops_of (c_ops e) with
      | udp_ops => (udp_bind id addr w).1
      | _ => on_tcp id (fun s => (tcp_v4_bind addr s).1) w
      end in
    (w, sk_err (c_sk e)).

Definition inet6_bind (e : entry) (addr : list Z) (addr_len : Z) (w : world) : world * Z :=
  if addr_len <? SOCKADDR_IN6_LEN then (w, - EINVAL)
  else if negb (sa_family addr =? AF_INET6) then (w, - EAFNOSUPPORT)
  else
    match tcp_of (e_id e) w with
    | Some s => let '(s, rc) := tcp_v6_bind addr addr_len s in (put s w, rc)
    | None => (w, 0)
    end.

Definition _bind (pid fd : Z) (addr : list Z) (addrlen : Z) : world -> world * outcome :=
  call pid fd (fun e w =>
    let '(w, rc) :=
      match c_ops e with
      | inet_stream_ops | inet_dgram_ops => inet_bind e addr addrlen w
      | inet6_stream_ops | inet6_dgram_ops => inet6_bind e addr addrlen w
      end in
    return_rc (e_id e) rc w).

(** The result of [tcp_v4_listen] is dropped. *)
Definition inet_stream_listen (e : entry) (n : Z) (w : world) : world * Z :=
  if (n <? 0) || (100 <? n) then (w, - EINVAL)
  else (on_tcp (e_id e) (fun s => (tcp_v4_listen n s).1) w, sk_err (c_sk e)).

Definition _listen (pid fd n : Z) : world -> world * outcome :=
  call pid fd (fun e w =>
    match c_ops e with
    | inet_stream_ops | inet6_stream_ops => let '(w, rc) := inet_stream_listen e n w in return_rc (e_id e) rc w
    | _ => crash w
    end).

(** [get_socket] finds no socket for [-EAGAIN], nor for a connection freed since it
    was queued: its result is dereferenced all the same. *)
Definition accept_turn (pid id : Z) (w : world) : world * outcome :=
  with_tcp id (fun s =>
    match get_established_conn s with
    | AcceptAsleep s => sleep pid id WaitAccept (put s w)
    | AcceptAgain s => crash (put s w)
    | Accepted s c =>
        let w := put s w in
        match conn ← find_entry c w; get_socket (so_pid (so s)) (so_fd (c_so conn)) w ≫= fun i => find_entry i w with
        | None => crash w
        | Some conn =>
            let addr := (build_sockaddr_from_host_order (sk_dport (c_sk conn)) (v4_of (sk_daddr (c_sk conn)))).1 in
            (so_release id w, Returned (so_fd (c_so conn)) [] addr)
        end
    end) w.

Definition tcp_v4_accept (pid id : Z) (w : world) : world * outcome :=
  with_tcp id (fun s => if negb (state_is (state s) TCP_LISTEN) then return_rc id (-1) w else accept_turn pid id w) w.

Definition inet_stream_accept (pid id addr_len : Z) (w : world) : world * outcome :=
  if u32 addr_len <? 2 then return_rc id (- EINVAL) w else tcp_v4_accept pid id w.

Definition _accept (pid fd addrlen : Z) : world -> world * outcome :=
  call pid fd (fun e w =>
    match c_ops e with
    | inet_stream_ops | inet6_stream_ops => inet_stream_accept pid (e_id e) addrlen w
    | _ => crash w
    end).

(** ** Data *)

(** The functions of the socket's protocol family; each hands over to the protocol. *)
Definition inet_write (pid : Z) (e : entry) (buf : list Z) (w : world) : world * outcome :=
  match net_ops_of (c_ops e) with
  | udp_ops => let '(w, rc) := udp_write (e_id e) buf w in return_rc (e_id e) rc w
  | _ => with_tcp (e_id e) (fun s => after_tcp pid (e_id e) RestReturn (tcp_write buf s) w) w
  end.

Definition _write (pid fd : Z) (buf : list Z) : world -> world * outcome :=
  call pid fd (fun e => inet_write pid e buf).

Definition after_recv (pid id : Z) (r : recv_res net) (w : world) : world * outcome :=
  match r with
  | Received s bytes rc => (so_release id (put s w), Returned rc bytes [])
  | RecvAsleep s acc len => sleep pid id (WaitRecv acc len) (put s w)
  end.

Definition inet_read (pid : Z) (e : entry) (len : Z) (w : world) : world * outcome :=
  match net_ops_of (c_ops e) with
  | udp_ops => return_rc (e_id e) udp_read w
  | _ => with_tcp (e_id e) (fun s => after_recv pid (e_id e) (tcp_read len s) w) w
  end.

Definition _read (pid fd count : Z) : world -> world * outcome :=
  call pid fd (fun e => inet_read pid e (s32 count)).

(** Only the datagram families have [sendto] and [recvfrom], and of the protocols only UDP:
    any other socket calls a null pointer. *)
Definition inet_sendto (e : entry) (buf addr : list Z) (w : world) : world * outcome :=
  match net_ops_of (c_ops e) with
  | udp_ops => let '(w, rc) := udp_sendto (e_id e) buf addr w in return_rc (e_id e) rc w
  | _ => crash w
  end.

Definition _sendto (pid fd : Z) (buf addr : list Z) : world -> world * outcome :=
  call pid fd (fun e w =>
    match c_ops e with
    | inet_dgram_ops | inet6_dgram_ops => inet_sendto e buf addr w
    | _ => crash w
    end).

Definition udp_recvfrom (pid id len : Z) (w : world) : world * outcome :=
  let '(d, w) := udp_receive len id w in
  match d with
  | Some d => (so_release id w, Returned (dg_rlen d) (dg_bytes d) (dg_addr d))
  | None => sleep pid id (WaitRecvfrom len) w
  end.

Definition inet_recvfrom (pid : Z) (e : entry) (len : Z) (w : world) : world * outcome :=
  match net_ops_of (c_ops e) with
  | udp_ops => udp_recvfrom pid (e_id e) len w
  | _ => crash w
  end.

Definition _recvfrom (pid fd count : Z) : world -> world * outcome :=
  call pid fd (fun e w =>
    match c_ops e with
    | inet_dgram_ops | inet6_dgram_ops => inet_recvfrom pid e (s32 count) w
    | _ => crash w
    end).

Definition inet_close (pid : Z) (e : entry) (w : world) : world * outcome :=
  match net_ops_of (c_ops e) with
  | udp_ops => return_rc (e_id e) udp_close w
  | _ => with_tcp (e_id e) (fun s => after_tcp pid (e_id e) RestReturn (tcp_close s) w) w
  end.

Definition _close (pid fd : Z) : world -> world * outcome :=
  call pid fd (fun e => inet_close pid e).

(** ** Poll *)

Definition poll_revents (e : entry) (events : Z) : Z :=
  Z.land (sk_poll_events (c_sk e)) (Z.lor events (poll_or [POLLHUP; POLLERR; POLLNVAL])).

(** The [for] loop over [fds]: the array as it leaves it, and whether every
    descriptor was found. *)
Fixpoint poll_scan (pid : Z) (fds : list pollfd) (w : world) : world * list pollfd * bool :=
  match fds with
  | [] => (w, [], true)
  | p :: fds =>
      match id ← get_socket pid (pf_fd p) w; e ← find_entry id w; Some (id, e) with
      | None => (w, p :: fds, false)
      | Some (id, e) =>
          let w := so_release id (so_acquire id w) in
          let '(w, fds, ok) := poll_scan pid fds w in
          (w, set_pf_revents (poll_revents e (pf_events p)) p :: fds, ok)
      end
  end.

(** One turn of the endless loop; it ends by returning or by sleeping 10 ms. *)
Definition _poll (pid : Z) (fds : list pollfd) (timeout : Z) (w : world) : world * outcome :=
  let '(w, fds, ok) := poll_scan pid fds w in
  if negb ok then (w, Returned (- EBADF) (pf_revents <$> fds) [])
  else
    let polled := Z.of_nat (length (filter (fun p => 0 < pf_revents p) fds)) in
    if (0 <? polled) || (timeout =? 0) then (w, Returned polled (pf_revents <$> fds) [])
    else
      let timeout := if 0 <? timeout then if 10 <? timeout then timeout - 10 else 0 else timeout in
      sleep pid 0 (WaitPoll fds timeout) w.

(** ** Options and names *)

Definition F_GETFL : Z := 3.
Definition F_SETFL : Z := 4.
Definition SOL_SOCKET : Z := 1.
Definition SO_ERROR : Z := 4.

Definition _fcntl (pid fd cmd arg : Z) : world -> world * outcome :=
  call pid fd (fun e w =>
    let id := e_id e in
    if cmd =? F_GETFL then return_rc id (so_flags (c_so e)) w
    else if cmd =? F_SETFL then return_rc id 0 (on_so id (set_so_flags arg) w)
    else return_rc id (-1) w).

Definition _getsockopt (pid fd level optname : Z) : world -> world * outcome :=
  call pid fd (fun e w =>
    let id := e_id e in
    if level =? SOL_SOCKET then
      if optname =? SO_ERROR then (so_release id w, Returned 0 (st32 (replicate 4 0) 0 (sk_err (c_sk e))) [])
      else return_rc id (- ENOPROTOOPT) w
    else return_rc id (- EINVAL) w).

(** The first eight bytes of a [struct sockaddr_in]; [address] is the caller's buffer. *)
Definition put_sockaddr (port addr : Z) (address : list Z) : list Z :=
  st32 (st16 (st16 address 0 AF_INET) 2 (bswap16 port)) 4 (bswap32 addr).

Definition inet_getpeername (e : entry) (address : list Z) : list Z :=
  put_sockaddr (sk_dport (c_sk e)) (v4_of (sk_daddr (c_sk e))) address.
Definition inet_getsockname (e : entry) (address : list Z) : list Z :=
  put_sockaddr (sk_sport (c_sk e)) (v4_of (sk_saddr (c_sk e))) address.

Definition _getpeername (pid fd : Z) (address : list Z) : world -> world * outcome :=
  call pid fd (fun e w => (so_release (e_id e) w, Returned 0 [] (inet_getpeername e address))).
Definition _getsockname (pid fd : Z) (address : list Z) : world -> world * outcome :=
  call pid fd (fun e w => (so_release (e_id e) w, Returned 0 [] (inet_getsockname e address))).

(** ** A sleeping call is woken

    (A timer's thread, [WaitStart], is no call: see [Stack].) *)

Definition resume_call (t : thread) (w : world) : world * outcome :=
  let pid := t_pid t in
  let id := t_sock t in
  match t_at t with
  | WaitSend b k r => with_tcp id (fun s => after_tcp pid id r (resume b k s) w) w
  | WaitRecv acc len => with_tcp id (fun s => after_recv pid id (tcp_receive_resume acc len s) w) w
  | WaitConnect => connect_wait pid id (so_acquire id w)
  | WaitAccept => accept_turn pid id (so_acquire id w)
  | WaitRecvfrom len => udp_recvfrom pid id len (so_acquire id w)
  | WaitPoll fds timeout => _poll pid fds timeout w
  | WaitStart _ _ => (w, Returned 0 [] [])
  end.

End SocketApi.
