(* ===== verification/Addrconf.v ===== *)
(** IPv6 autoconfiguration: [src/src/ipv6_addrconf.c].

    The device is always the TAP device.  [dad_ctx.state_ptr] points to one of its
    two address states.  A lifetime timer is given a copy of the device made with
    [malloc] and [memcpy]: the copies are [w_copies], a timer's argument the
    position of its copy. *)
From S2P Require Import Prelude Utils SkBuff Timer TcpTypes Ipv6 Net Neigh IpOut World.
Import Utils SkBuff Timer TcpTypes Ipv6 Net Neigh IpOut World.

Module Addrconf.

Definition ADDR6_TENTATIVE : Z := 0.
Definition ADDR6_PREFERRED : Z := 1.
Definition ADDR6_DEPRECATED : Z := 2.
Definition ADDR6_INVALID : Z := 3.
Definition DAD_TIMEOUT_MS : Z := 1000.

Definition ipv6_generate_linklocal (hw : list Z) : list Z :=
  let iid := [Z.lxor (ld8 hw 0) 2; ld8 hw 1; ld8 hw 2; 255; 254; ld8 hw 3; ld8 hw 4; ld8 hw 5] in
  [254; 128; 0; 0; 0; 0; 0; 0] ++ iid.

Definition w_dev (w : world) : netdev := n_dev (w_net w).
Definition upd_dev (f : netdev -> netdev) (w : world) : world := upd_w_net (fun n => set_n_dev (f (n_dev n)) n) w.

Definition slot_state (s : addr_slot) (d : netdev) : Z :=
  match s with SlotLl => nd_ll_state d | SlotGlobal => nd_global_state d end.
Definition set_slot_state (s : addr_slot) (v : Z) (d : netdev) : netdev :=
  match s with SlotLl => set_nd_ll_state v d | SlotGlobal => set_nd_global_state v d end.

(** The address of the advertisement is not compared with [dad_ctx.target]. *)
Definition ipv6_addrconf_dad_failed (target : list Z) (w : world) : world :=
  if w_dad_done w then w
  else
    let w := set_w_dad_done true w in
    match w_dad_ptr w with
    | None => w_fault FaultNull w
    | Some s => if slot_state s (w_dev w) =? ADDR6_TENTATIVE then upd_dev (set_slot_state s ADDR6_INVALID) w else w
    end.

Definition dad_timeout (w : world) : world :=
  if w_dad_done w then w
  else
    let w := set_w_dad_done true w in
    match w_dad_ptr w with
    | None => w_fault FaultNull w
    | Some s => if slot_state s (w_dev w) =? ADDR6_TENTATIVE then upd_dev (set_slot_state s ADDR6_PREFERRED) w else w
    end.

Definition ipv6_dad_start (addr : list Z) (w : world) : world :=
  let w := set_w_dad_target addr (set_w_dad_done false w) in
  let w := set_w_dad_ptr (Some (if ipv6_addr_equal addr (nd_addr6_ll (w_dev w)) then SlotLl else SlotGlobal)) w in
  let '(n, ret) := ndp_send_ns addr unspecified DEV_TAP (w_net w) in
  let w := upd_w_net (fun _ => n) w in
  if negb (ret =? 0) then w
  else upd_w_env (fun e => set_e_timers (timer_oneshot DAD_TIMEOUT_MS H_dad_timeout None (e_timers e)) e) w.

(** The lifetime callbacks, on the copy they were given. *)
Definition addr6_preferred_expired (d : netdev) : netdev :=
  if nd_global_state d =? ADDR6_PREFERRED then set_nd_pref_timer None (set_nd_global_state ADDR6_DEPRECATED d) else d.
Definition addr6_valid_expired (d : netdev) : netdev :=
  set_nd_valid_timer None (set_nd_global_valid false (set_nd_global_state ADDR6_INVALID d)).

Definition on_copy (f : netdev -> netdev) (i : nat) (w : world) : world := set_w_copies (alter f i (w_copies w)) w.

(** Cancel the running timer, if any, and arm a new one with a copy of the device. *)
Definition cancel_timer (t : option Z) (w : world) : world :=
  match timer_cancel t (e_timers (w_env w)) with
  | inl ts => upd_w_env (set_e_timers ts) w
  | inr f => w_fault (FaultTimer f) w
  end.

Definition lifetime_timer (lt : Z) (h : handler) (get : netdev -> option Z) (set : option Z -> netdev -> netdev) (w : world) : world :=
  if (0 <? lt) && negb (lt =? 4294967295) then
    let w := cancel_timer (get (w_dev w)) w in
    let copy := length (w_copies w) in
    let w := set_w_copies (w_copies w ++ [w_dev w]) w in
    let '(id, ts) := timer_add_with_release (u32 (lt * 1000)) h (Some (ArgDev copy)) true (e_timers (w_env w)) in
    upd_dev (set (Some id)) (upd_w_env (set_e_timers ts) w)
  else w.

Definition ipv6_addrconf_update_lifetime (prefix : list Z) (prefix_len valid_lt preferred_lt : Z) (w : world) : world :=
  if negb (prefix_len =? 64) then w
  else
    let global := ld_bytes prefix 0 8 ++ ld_bytes (ipv6_generate_linklocal (nd_hwaddr (w_dev w))) 8 8 in
    let w := upd_dev (fun d => set_nd_global_valid true (set_nd_global_state ADDR6_TENTATIVE (set_nd_addr6_global global d))) w in
    let w := ipv6_dad_start global w in
    let w := upd_dev (fun d => set_nd_preferred_lifetime preferred_lt (set_nd_valid_lifetime valid_lt d)) w in
    let w := lifetime_timer preferred_lt H_addr6_preferred_expired nd_pref_timer set_nd_pref_timer w in
    lifetime_timer valid_lt H_addr6_valid_expired nd_valid_timer set_nd_valid_timer w.

Definition ipv6_addrconf_init (w : world) : world :=
  let w := upd_dev (fun d => set_nd_ll_state ADDR6_TENTATIVE (set_nd_addr6_ll (ipv6_generate_linklocal (nd_hwaddr d)) d)) w in
  let w := upd_w_net (route6_add (Some ([254; 128] ++ replicate 14 0)) None 10 RT_HOST 0 DEV_TAP) w in
  let w := ipv6_dad_start (nd_addr6_ll (w_dev w)) w in
  upd_w_net (fun n => (ndp_send_rs (nd_addr6_ll (n_dev n)) DEV_TAP n).1) w.

End Addrconf.
