(* ===== verification/IpIn.v ===== *)
(** Packet input: [src/src/ip_input.c], [src/src/icmpv4.c], [src/src/ipv6_input.c],
    [src/src/icmpv6.c], the message handlers of [src/src/ndp.c], and the receive path
    of [src/src/netdev.c].

    A frame lies at [head] of its buffer: the IP header at [head + 14].  Offsets
    into the packet ([payload], [icmph]) are offsets from [head]. *)
From S2P Require Import Prelude Utils SkBuff Timer TcpTypes TcpApi Ipv6 Net Neigh IpOut World Udp Addrconf.
Import Utils SkBuff Timer TcpTypes TcpApi Ipv6 Net Neigh IpOut World Udp Addrconf.

Module IpIn.

Definition ICMPV4 : Z := 1.
Definition ICMP_V4_REPLY : Z := 0.
Definition ICMP_V4_ECHO : Z := 8.
Definition ICMPV6_DST_UNREACH : Z := 1.
Definition ICMPV6_PKT_TOOBIG : Z := 2.
Definition ICMPV6_TIME_EXCEEDED : Z := 3.
Definition ICMPV6_ECHO_REQUEST : Z := 128.
Definition ICMPV6_ECHO_REPLY : Z := 129.
Definition ICMPV6_ERROR_MAX_PAYLOAD : Z := 1272.
Definition BUFLEN : Z := 1600.

(** ** IPv4 *)

Definition ip_init_pkt (b : list Z) : list Z :=
  let b := st32 b (IPH + 12) (bswap32 (ld32 b (IPH + 12))) in
  let b := st32 b (IPH + 16) (bswap32 (ld32 b (IPH + 16))) in
  let b := st16 b (IPH + 2) (bswap16 (ld16 b (IPH + 2))) in
  st16 b (IPH + 4) (bswap16 (ld16 b (IPH + 4))).

(** The buffer goes back to [ip_output] with the length of the received frame still
    in [skb->len]. *)
Definition icmpv4_reply (b : sk_buff) (w : world) : world :=
  let daddr := ld32 (skb_buf b) (IPH + 12) in
  let icmp_len := u16 (ld16 (skb_buf b) (IPH + 2) - ip_ihl (skb_buf b) * 4) in
  let b := skb_reserve (ETH_HDR_LEN + IP_HDR_LEN + icmp_len) b in
  let b := skb_push icmp_len b in
  let o := Z.to_nat (skb_data b) in
  let buf := st16 (st8 (skb_buf b) o ICMP_V4_REPLY) (o + 2) 0 in
  let buf := st16 buf (o + 2) (checksum (ld_bytes buf o (Z.to_nat icmp_len)) 0) in
  let b := set_skb_protocol ICMPV4 (set_skb_buf buf b) in
  let '(n, b, _) := ip_output_net (w_net w) daddr b in
  w_free_skb b (upd_w_net (fun _ => n) w).

Definition icmpv4_incoming (b : sk_buff) (w : world) : world :=
  if ld8 (skb_buf b) (IPH + 20) =? ICMP_V4_ECHO then icmpv4_reply b w else w_free_skb b w.

Definition ip_rcv (b : sk_buff) (w : world) : world :=
  let buf := skb_buf b in
  if negb (ip_version buf =? IPV4) then w_free_skb b w
  else if ip_ihl buf <? 5 then w_free_skb b w
  else if ld8 buf (IPH + 8) =? 0 then w_free_skb b w
  else if negb (checksum (ld_bytes buf IPH (Z.to_nat (ip_ihl buf * 4))) 0 =? 0) then w_free_skb b w
  else
    let b := set_skb_buf (ip_init_pkt buf) b in
    let proto := ld8 (skb_buf b) (IPH + 9) in
    if proto =? ICMPV4 then icmpv4_incoming b w
    else if proto =? IP_TCP then tcp_in b w
    else if proto =? IP_UDP then udp_in b w
    else w_free_skb b w.

(** ** Neighbour discovery *)

(** The option loop of [ndp_ra_process]; [opt] from [head], [optlen] what is left. *)
Fixpoint ra_options (fuel : nat) (buf : list Z) (opt : nat) (optlen : Z) (w : world) : world :=
  match fuel with
  | O => w
  | S fuel =>
      if optlen <? 8 then w
      else
        let skip := ld8 buf (opt + 1) * 8 in
        if (skip =? 0) || (optlen <? skip) then w
        else
          let w :=
            if (ld8 buf opt =? NDP_OPT_PREFIX) && (ld8 buf (opt + 1) =? 4) then
              let w := upd_dev (set_nd_prefix_len (ld8 buf (opt + 2))) w in
              ipv6_addrconf_update_lifetime (ld_bytes buf (opt + 16) 16) (ld8 buf (opt + 2))
                (bswap32 (ld32 buf (opt + 4))) (bswap32 (ld32 buf (opt + 8))) w
            else w in
          ra_options fuel buf (opt + Z.to_nat skip) (optlen - skip) w
  end.

(** Every turn consumes at least eight bytes. *)
Definition opt_fuel (optlen : Z) : nat := Z.to_nat (optlen / 8).

Definition ndp_ra_process (b : sk_buff) (ra : nat) (w : world) : world :=
  let buf := skb_buf b in
  let optlen := ip6_payload_len 14 buf - 16 in
  let w := ra_options (opt_fuel optlen) buf (ra + 16) optlen w in
  w_free_skb b (upd_w_net (route6_add_default (ip6_saddr 14 buf) RT_GATEWAY 0 DEV_TAP) w).

(** The option loop of [ndp_na_process]: the last target link-layer address. *)
Fixpoint na_tlla (fuel : nat) (buf : list Z) (opt : nat) (optlen : Z) (found : option (list Z)) : option (list Z) :=
  match fuel with
  | O => found
  | S fuel =>
      if optlen <? 8 then found
      else
        let found :=
          if (ld8 buf opt =? NDP_OPT_TLLA) && (ld8 buf (opt + 1) =? 1) then Some (ld_bytes buf (opt + 2) 6) else found in
        let skip := ld8 buf (opt + 1) * 8 in
        if skip =? 0 then found else na_tlla fuel buf (opt + Z.to_nat skip) (optlen - skip) found
  end.

Definition GET_NA_S (flags : Z) : bool := Z.testbit flags 6.
Definition GET_NA_O (flags : Z) : bool := Z.testbit flags 5.

(** What an advertisement does to an entry that is not INCOMPLETE.  The second
    comparison follows the copy: it never differs. *)
Definition na_update (flags : Z) (tlla : list Z) (now : Z) (e : ndp_entry) : ndp_entry :=
  let e := if GET_NA_O flags || negb (bool_decide (ne_hwaddr e = tlla)) then set_ne_hwaddr tlla e else e in
  let e :=
    if GET_NA_S flags then set_ne_state NDP_REACHABLE e
    else if GET_NA_O flags || negb (bool_decide (ne_hwaddr e = tlla)) then set_ne_state NDP_STALE e
    else e in
  set_ne_timestamp now e.

(** The cache part of [ndp_na_process]. *)
Definition na_entry (target tlla : list Z) (flags : Z) (n : net) : net :=
  match i ← ndp_lookup target n; e ← n_ndp n !! i; Some (i, e) with
  | None => n
  | Some (i, e) =>
      if ne_state e =? NDP_INCOMPLETE then
        let e := set_ne_solicit 0 (set_ne_timestamp (n_tick n) (set_ne_state NDP_REACHABLE (set_ne_hwaddr tlla e))) in
        ndp_flush_queue i (set_n_ndp (<[i := e]> (n_ndp n)) n)
      else set_n_ndp (<[i := na_update flags tlla (n_tick n) e]> (n_ndp n)) n
  end.

Definition ndp_na_process (b : sk_buff) (na : nat) (w : world) : world :=
  let buf := skb_buf b in
  let target := ld_bytes buf (na + 8) 16 in
  let optlen := ip6_payload_len 14 buf - 24 in
  match na_tlla (opt_fuel optlen) buf (na + 24) optlen None with
  | None => w_free_skb b w
  | Some tlla =>
      let w := upd_w_net (na_entry target tlla (ld8 buf (na + 4))) w in
      let w := if ipv6_addr_is_unspecified (ip6_saddr 14 buf) then ipv6_addrconf_dad_failed target w else w in
      w_free_skb b w
  end.

Definition all_nodes : list Z := 255 :: 2 :: replicate 13 0 ++ [1].

(** The advertisement that answers a solicitation for [target]; [smac] the source
    MAC of the frame. *)
Definition ndp_send_na (target saddr smac : list Z) (n : net) : net :=
  let pktlen := 24 + 8 in
  let total := ETH_HDR_LEN + IPV6_HDR_LEN + pktlen in
  let '(b, n) := net_alloc_skb total n in
  let b := set_skb_dev DEV_TAP (skb_reserve total b) in
  let b := skb_push pktlen b in
  let na := Z.to_nat (skb_data b) in
  let buf := st16 (st8 (st8 (skb_buf b) na ICMPV6_NEIGHBOR_ADVERT) (na + 1) 0) (na + 2) 0 in
  let buf := st8 buf (na + 4) (Z.lor (Z.lor (Z.land (ld8 buf (na + 4)) 127) 64) 32) in
  let buf := st_bytes (st_bytes buf (na + 5) [0; 0; 0]) (na + 8) target in
  let buf := st8 (st8 buf (na + 24) NDP_OPT_TLLA) (na + 25) 1 in
  let buf := st_bytes buf (na + 26) (take 6 (nd_hwaddr (n_dev n))) in
  let daddr := if ipv6_addr_is_unspecified saddr then all_nodes else saddr in
  let b := skb_push IPV6_HDR_LEN b in
  let buf := ndp_ip6_header (Z.to_nat (skb_data b)) pktlen target daddr buf in
  let buf := st16 buf (na + 2) (icmpv6_checksum target daddr (ld_bytes buf na (Z.to_nat pktlen))) in
  let dst_mac := if ipv6_addr_is_multicast daddr then ipv6_multicast_mac daddr else smac in
  let '(b, n, _) := netdev_transmit (set_skb_buf buf b) dst_mac ETH_P_IPV6 n in
  net_free_skb b n.

Definition ndp_ns_process (b : sk_buff) (ns : nat) (w : world) : world :=
  let buf := skb_buf b in
  let target := ld_bytes buf (ns + 8) 16 in
  let d := w_dev w in
  let is_ours := ipv6_addr_equal target (nd_addr6_ll d) || (nd_global_valid d && ipv6_addr_equal target (nd_addr6_global d)) in
  if negb is_ours then w_free_skb b w
  else upd_w_net (ndp_send_na target (ip6_saddr 14 buf) (ld_bytes buf 6 6)) (w_free_skb b w).

Definition ndp_incoming (b : sk_buff) (icmph : nat) (w : world) : world :=
  let type := ld8 (skb_buf b) icmph in
  if negb (ip6_hop_limit 14 (skb_buf b) =? 255) then w_free_skb b w
  else if type =? ICMPV6_ROUTER_ADVERT then ndp_ra_process b icmph w
  else if type =? ICMPV6_NEIGHBOR_SOLICIT then ndp_ns_process b icmph w
  else if type =? ICMPV6_NEIGHBOR_ADVERT then ndp_na_process b icmph w
  else w_free_skb b w.

(** ** ICMPv6 *)

(** [ipv6_output] of a buffer nobody else refers to. *)
Definition send6 (b : sk_buff) (saddr daddr : list Z) (w : world) : world :=
  let r := ipv6_output_net (w_net w) b NEXTHDR_ICMPV6 saddr daddr in
  let w := upd_w_net (fun _ => o6_lower r) w in
  if o6_freed r then w_free_skb (o6_skb r) w else w.

(** The message is copied with the length of the whole IPv6 payload. *)
Definition icmpv6_echo_reply (b : sk_buff) (icmph : nat) (w : world) : world :=
  let buf := skb_buf b in
  let icmpv6_len := ip6_payload_len 14 buf in
  let saddr := ip6_daddr 14 buf in
  let daddr := ip6_saddr 14 buf in
  let '(r, w) := w_alloc_skb (ETH_HDR_LEN + IPV6_HDR_LEN + icmpv6_len) w in
  let r := skb_reserve (ETH_HDR_LEN + IPV6_HDR_LEN) r in
  let o := Z.to_nat (skb_data r) in
  let m := st_bytes (skb_buf r) o (ld_bytes buf icmph (Z.to_nat icmpv6_len)) in
  let m := st16 (st8 m o ICMPV6_ECHO_REPLY) (o + 2) 0 in
  let m := st16 m (o + 2) (icmpv6_checksum saddr daddr (ld_bytes m o (Z.to_nat icmpv6_len))) in
  let r := set_skb_dev (skb_dev b) (set_skb_protocol ETH_P_IPV6 (set_skb_buf m (set_skb_len icmpv6_len r))) in
  send6 r saddr daddr (w_free_skb b w).

(** [skb_reserve] leaves room for the headers only, and [skb_push] moves [data] back
    from there by the length of the message.  Writing a message that would start in
    front of the buffer is a fault; what follows such a write is not defined and not
    modelled. *)
Definition icmpv6_send_error (b : sk_buff) (type code body : Z) (w : world) : world :=
  let copy_len := u32 (skb_len b - ETH_HDR_LEN) in
  let copy_len := if ICMPV6_ERROR_MAX_PAYLOAD <? copy_len then ICMPV6_ERROR_MAX_PAYLOAD else copy_len in
  let icmpv6_len := 8 + copy_len in
  let '(r, w) := w_alloc_skb (ETH_HDR_LEN + IPV6_HDR_LEN + icmpv6_len) w in
  let r := skb_push icmpv6_len (skb_reserve (ETH_HDR_LEN + IPV6_HDR_LEN) r) in
  if in_front r then w_free_skb b (w_fault FaultBounds w)
  else
    let p := Z.to_nat (skb_data r) in
    let m := st32 (st16 (st8 (st8 (skb_buf r) p type) (p + 1) code) (p + 2) 0) (p + 4) body in
    let m := st_bytes m (p + 8) (ld_bytes (skb_buf b) 14 (Z.to_nat copy_len)) in
    let saddr := ip6_daddr 14 (skb_buf b) in
    let daddr := ip6_saddr 14 (skb_buf b) in
    let m := st16 m (p + 2) (icmpv6_checksum saddr daddr (ld_bytes m p (Z.to_nat icmpv6_len))) in
    send6 (set_skb_protocol ETH_P_IPV6 (set_skb_buf m r)) saddr daddr (w_free_skb b w).

Definition icmpv6_send_dst_unreach (b : sk_buff) (code : Z) : world -> world := icmpv6_send_error b ICMPV6_DST_UNREACH code 0.
Definition icmpv6_send_pkt_toobig (b : sk_buff) (mtu : Z) : world -> world :=
  icmpv6_send_error b ICMPV6_PKT_TOOBIG 0 (bswap32 mtu).
Definition icmpv6_send_time_exceeded (b : sk_buff) : world -> world := icmpv6_send_error b ICMPV6_TIME_EXCEEDED 0 0.

Definition icmpv6_handle_error (b : sk_buff) (w : world) : world := w_free_skb b w.

Definition icmpv6_pmtu_update (b : sk_buff) (icmph : nat) (w : world) : world :=
  let buf := skb_buf b in
  let mtu := u16 (bswap32 (ld32 buf (icmph + 4))) in
  if skb_len b <? ETH_HDR_LEN + IPV6_HDR_LEN + 8 + IPV6_HDR_LEN then w_free_skb b w
  else
    let daddr := ld_bytes buf (icmph + 8 + 24) 16 in
    let w := upd_w_net (fun n => (route6_update_pmtu daddr mtu n).1) w in
    w_free_skb b (socket_adjust_pmtu6 daddr mtu w).

Definition icmpv6_incoming (b : sk_buff) (payload : nat) (w : world) : world :=
  let buf := skb_buf b in
  let icmpv6_len := u16 (ip6_payload_len 14 buf - u16 (Z.of_nat payload - 54)) in
  let csum := icmpv6_checksum (ip6_saddr 14 buf) (ip6_daddr 14 buf) (ld_bytes buf payload (Z.to_nat icmpv6_len)) in
  let type := ld8 buf payload in
  if negb (csum =? 0) then w_free_skb b w
  else if type =? ICMPV6_ECHO_REQUEST then icmpv6_echo_reply b payload w
  else if type =? ICMPV6_ECHO_REPLY then w_free_skb b w
  else if (type =? ICMPV6_DST_UNREACH) || (type =? ICMPV6_TIME_EXCEEDED) then icmpv6_handle_error b w
  else if type =? ICMPV6_PKT_TOOBIG then icmpv6_pmtu_update b payload w
  else if (ICMPV6_ROUTER_SOLICIT <=? type) && (type <=? ICMPV6_REDIRECT) then ndp_incoming b payload w
  else w_free_skb b w.

(** ** IPv6 *)

Definition ipv6_rcv (b : sk_buff) (w : world) : world :=
  let buf := skb_buf b in
  let plen := ip6_payload_len 14 buf in
  if negb (ipv6_hdr_version 14 buf =? IPV6_VERSION) then w_free_skb b w
  else if skb_len b <? plen + IPV6_HDR_LEN then w_free_skb b w
  else if ip6_hop_limit 14 buf =? 0 then icmpv6_send_time_exceeded b w
  else
    match ipv6_parse_exthdrs (ip6_nexthdr 14 buf) (drop 54 buf) plen with
    | None => w_free_skb b w
    | Some x =>
        let payload := (54 + Z.to_nat (ex_consumed x))%nat in
        if ex_has_frag x && negb (ex_frag_off x =? 0) then w_free_skb b w
        else if ex_final_nexthdr x =? NEXTHDR_ICMPV6 then icmpv6_incoming b payload w
        else if ex_final_nexthdr x =? NEXTHDR_TCP then tcp_in_v6 b payload w
        else w_free_skb b w
    end.

(** ** The device *)

Definition netdev_receive (b : sk_buff) (w : world) : world :=
  let buf := st16 (skb_buf b) 12 (bswap16 (ld16 (skb_buf b) 12)) in
  let b := set_skb_buf buf b in
  let ethertype := ld16 buf 12 in
  if ethertype =? ETH_P_ARP then upd_w_net (arp_rcv b) w
  else if ethertype =? ETH_P_IP then ip_rcv b w
  else if ethertype =? ETH_P_IPV6 then ipv6_rcv b w
  else w_free_skb b w.

(** One turn of [netdev_rx_loop] with the frame [tun_read] returned, at most
    [BUFLEN] bytes of it. *)
Definition netdev_rx_loop (frame : list Z) (w : world) : world :=
  let '(b, w) := w_alloc_skb BUFLEN w in
  let frame := take (Z.to_nat BUFLEN) frame in
  let b := set_skb_buf (st_bytes (skb_buf b) (Z.to_nat (skb_data b)) frame) b in
  netdev_receive (set_skb_len (Z.of_nat (length frame)) b) w.

End IpIn.
