(* ===== verification/Stack.v ===== *)
(** The whole stack: what the threads of [src/src/main.c] do, as steps of one state.

    The receiving thread handles a frame, the timer thread advances the clock and
    starts the threads of expired timers, user processes make calls, and threads
    that sleep are woken, in any order. *)
From S2P Require Import Prelude Utils SkBuff Timer TcpTypes TcpBase TcpOutput TcpData TcpInput TcpApi Ipv6 Net Neigh IpOut World Udp SocketApi Addrconf IpIn.
Import Utils SkBuff Timer TcpTypes TcpBase TcpOutput TcpData TcpInput TcpApi Ipv6 Net Neigh IpOut World Udp SocketApi Addrconf IpIn.

Module Stack.

(** ** Timers *)

(** A timer's callback. *)
Definition run_callback (h : handler) (a : option harg) (w : world) : world :=
  match h, a with
  | H_socket_garbage_collect, Some (ArgSock id) => socket_garbage_collect id w
  | H_dad_timeout, _ => dad_timeout w
  | H_addr6_preferred_expired, Some (ArgDev i) => on_copy addr6_preferred_expired i w
  | H_addr6_valid_expired, Some (ArgDev i) => on_copy addr6_valid_expired i w
  | _, Some (ArgSock id as x) | _, Some (ArgRto id _ as x) => on_tcp id (run_handler h x) w
  | _, _ => w_fault FaultNull w
  end.

(** The threads [timers_tick] creates, in order. *)
Definition start_thread (w : world) (ev : timer_event handler harg) : world :=
  match ev with
  | Dispatched _ h a => park 0 0 (WaitStart h a) w
  | Released _ _ => w
  end.

Definition timers_step (busy spawn_ok : Z -> bool) (w : world) : world :=
  let '(ts, evs) := timers_start_iter busy spawn_ok (e_timers (w_env w)) in
  let w := upd_w_net (set_n_tick (tick ts)) (upd_w_env (set_e_timers ts) w) in
  foldl start_thread w evs.

(** ** Calls *)

Inductive syscall :=
  | Socket (domain type : Z)
  | Connect (fd : Z) (addr : list Z) (addrlen : Z)
  | Bind (fd : Z) (addr : list Z) (addrlen : Z)
  | Listen (fd n : Z)
  | Accept (fd addrlen : Z)
  | Write (fd : Z) (buf : list Z)
  | Read (fd count : Z)
  | Sendto (fd : Z) (buf addr : list Z)
  | Recvfrom (fd count : Z)
  | Close (fd : Z)
  | Poll (fds : list pollfd) (timeout : Z)
  | Fcntl (fd cmd arg : Z)
  | Getsockopt (fd level optname : Z)
  | Getpeername (fd : Z) (address : list Z)
  | Getsockname (fd : Z) (address : list Z).

Definition run_syscall (pid : Z) (c : syscall) (w : world) : world * outcome :=
  match c with
  | Socket domain type => let '(w, rc) := _socket pid domain type w in (w, Returned rc [] [])
  | Connect fd addr addrlen => _connect pid fd addr addrlen w
  | Bind fd addr addrlen => _bind pid fd addr addrlen w
  | Listen fd n => _listen pid fd n w
  | Accept fd addrlen => _accept pid fd addrlen w
  | Write fd buf => _write pid fd buf w
  | Read fd count => _read pid fd count w
  | Sendto fd buf addr => _sendto pid fd buf addr w
  | Recvfrom fd count => _recvfrom pid fd count w
  | Close fd => _close pid fd w
  | Poll fds timeout => _poll pid fds timeout w
  | Fcntl fd cmd arg => _fcntl pid fd cmd arg w
  | Getsockopt fd level optname => _getsockopt pid fd level optname w
  | Getpeername fd address => _getpeername pid fd address w
  | Getsockname fd address => _getsockname pid fd address w
  end.

Definition run_thread (t : thread) (w : world) : world * outcome :=
  match t_at t with
  | WaitStart h a => (run_callback h a w, Returned 0 [] [])
  | _ => resume_call t w
  end.

(** ** Steps *)

Inductive wstep : world -> world -> Prop :=
  | StepFrame frame w : wstep w (netdev_rx_loop frame w)
  | StepTick busy spawn_ok w : wstep w (timers_step busy spawn_ok w)
  | StepCall pid c w : wstep w (run_syscall pid c w).1
  | StepWake l1 t l2 w : w_threads w = l1 ++ t :: l2 -> wstep w (run_thread t (set_w_threads (l1 ++ l2) w)).1.

(** [init_stack] of [main.c]; [tap] is the gateway address. *)
Definition init_stack (tap : Z) (w : world) : world :=
  ipv6_addrconf_init (upd_w_net (fun n => ndp_init (route_init tap (netdev_init n))) w).

Definition free_stack (w : world) : world := upd_w_net (fun n => free_routes (free_arp n)) (abort_sockets w).

End Stack.
