(* ===== verification/Ipc.v ===== *)
(** The server side of the calls of user processes: [src/src/ipc.c] and
    [src/include/ipc.h].

    A connection's thread reads a request into its buffer, makes the call the request
    names and sends a response.  A handler is its call and what it does with the
    result ([Call]), because the call may sleep; [run_syscall] of [Stack] makes it.
    [g] is what the memory [alloca] returns, and the arrays of variable length that
    the code does not clear, happen to contain. *)
From S2P Require Import Prelude Utils SkBuff Timer TcpTypes TcpBase TcpOutput TcpData TcpInput TcpApi Ipv6 Net Neigh IpOut World Udp SocketApi Addrconf IpIn Stack.
Import Utils SkBuff Timer TcpTypes TcpBase TcpOutput TcpData TcpInput TcpApi Ipv6 Net Neigh IpOut World Udp SocketApi Addrconf IpIn Stack.

Module Ipc.

(** ** Memory *)

(** [size_t] and [short] fields. *)
Definition ld64 (b : list Z) (o : nat) : Z := ld32 b o + 4294967296 * ld32 b (o + 4).
Definition st64 (b : list Z) (o : nat) (v : Z) : list Z := st32 (st32 b o v) (o + 4) (v / 4294967296).
Definition s16 (x : Z) : Z := (x + 32768) mod 65536 - 32768.
Definition ld_int (b : list Z) (o : nat) : Z := s32 (ld32 b o).

Definition alloca (g : list Z) (n : Z) : list Z := take (Z.to_nat n) (g ++ replicate (Z.to_nat n) 0).

(** The default stack of a thread: a larger array does not fit. *)
Definition STACK_SIZE : Z := 8388608.

(** ** Messages ([ipc.h]) *)

Definition IPC_SOCKET : Z := 1.
Definition IPC_CONNECT : Z := 2.
Definition IPC_WRITE : Z := 3.
Definition IPC_READ : Z := 4.
Definition IPC_CLOSE : Z := 5.
Definition IPC_POLL : Z := 6.
Definition IPC_FCNTL : Z := 7.
Definition IPC_GETSOCKOPT : Z := 8.
Definition IPC_GETPEERNAME : Z := 10.
Definition IPC_GETSOCKNAME : Z := 11.
Definition IPC_BIND : Z := 12.
Definition IPC_SENDTO : Z := 13.
Definition IPC_RECVFROM : Z := 14.
Definition IPC_LISTEN : Z := 15.
Definition IPC_ACCEPT : Z := 16.

Definition IPC_BUFLEN : Z := 8192.

(** The sizes of the structures. *)
Definition ipc_msg_len : Z := 6.
Definition ipc_err_len : Z := 8.
Definition ipc_socket_len : Z := 12.
Definition ipc_connect_len : Z := 36.
Definition ipc_bind_len : Z := 36.
Definition ipc_listen_len : Z := 8.
Definition ipc_accept_len : Z := 36.
Definition ipc_sendto_len : Z := 48.
Definition ipc_recvfrom_len : Z := 36.
Definition ipc_write_len : Z := 12.
Definition ipc_read_len : Z := 12.
Definition ipc_close_len : Z := 4.
Definition ipc_pollfd_len : Z := 8.
Definition ipc_poll_len : Z := 12.
Definition ipc_fcntl_len : Z := 8.
Definition ipc_sockopt_len : Z := 16.
Definition ipc_sockname_len : Z := 136.
Definition sa_data_len : Z := 28.

Definition msg_type (m : list Z) : Z := ld16 m 0.
Definition msg_pid (m : list Z) : Z := ld_int m 2.

(** [response->type], [response->pid], and [struct ipc_err]. *)
Definition put_msg (type pid : Z) (r : list Z) : list Z := st32 (st16 r 0 type) 2 pid.
Definition put_err (rc err : Z) (r : list Z) : list Z := st32 (st32 r 6 rc) 10 err.

(** The [if (rc < 0)] of the handlers. *)
Definition put_rc (rc : Z) (r : list Z) : list Z := if rc <? 0 then put_err (-1) (- rc) r else put_err rc 0 r.

(** ** Handlers *)

(** What a handler does after its call: the message buffer as it leaves it, the
    response it sends, its result. *)
Inductive ipc_result :=
  | Sent (m response : list Z) (rc : Z)
  | NoReply (m : list Z) (rc : Z)
  | IpcFault (f : fault).

Inductive ipc_action :=
  | Call (pid : Z) (c : syscall) (k : Z -> list Z -> list Z -> ipc_result)
  | Finish (r : ipc_result).

Definition ipc_write_rc (g m : list Z) (pid type rc : Z) : ipc_result :=
  let response := alloca g (ipc_msg_len + ipc_err_len) in
  Sent m (put_rc rc (put_msg type pid response)) 0.

Definition ipc_read (g m : list Z) : ipc_action :=
  let pid := msg_pid m in
  let fd := ld_int m 6 in
  let len := ld64 m 10 in
  if STACK_SIZE <=? len then Finish (IpcFault FaultBounds)
  else Call pid (Read fd len) (fun rlen out _ =>
    let rbuf := st_bytes (replicate (Z.to_nat len) 0) 0 out in
    let n := if 0 <? rlen then rlen else 0 in
    if len <? n then IpcFault FaultBounds
    else
      let r := alloca g (ipc_msg_len + ipc_err_len + ipc_read_len + n) in
      let r := put_msg IPC_READ pid r in
      let r := put_err (if rlen <? 0 then -1 else rlen) (if rlen <? 0 then - rlen else 0) r in
      let r := st64 (st32 r 14 fd) 18 rlen in
      Sent m (st_bytes r 26 (take (Z.to_nat n) rbuf)) 0).

(** [more]: what the second [read] returned, [None] for an error. *)
Definition ipc_write (g m : list Z) (more : option (list Z)) : ipc_action :=
  let pid := msg_pid m in
  let fd := ld_int m 6 in
  let len := ld64 m 10 in
  let head := IPC_BUFLEN - ipc_write_len - ipc_msg_len in
  let reply rc := ipc_write_rc g m pid IPC_WRITE rc in
  if STACK_SIZE <=? len then Finish (IpcFault FaultBounds)
  else
    let buf := replicate (Z.to_nat len) 0 in
    let buf := st_bytes buf 0 (ld_bytes m 18 (Z.to_nat (if head <? len then head else len))) in
    if head <? len then
      match more with
      | None => Finish (NoReply m (-1))
      | Some bytes =>
          let buf := st_bytes buf (Z.to_nat head) (take (Z.to_nat (len - head)) bytes) in
          Call pid (Write fd buf) (fun rc _ _ => reply rc)
      end
    else Call pid (Write fd buf) (fun rc _ _ => reply rc).

(** [temp_addr] after the copy of [sa_len] bytes at [o]; nothing limits [sa_len]. *)
Definition temp_addr (m : list Z) (o : nat) (sa_len : Z) : option (list Z) :=
  if SOCKADDR_IN6_LEN <? sa_len then None
  else Some (st_bytes (replicate (Z.to_nat SOCKADDR_IN6_LEN) 0) 0 (ld_bytes m o (Z.to_nat sa_len))).

Definition ipc_connect (g m : list Z) : ipc_action :=
  let pid := msg_pid m in
  let sa_len := ld32 m 38 in
  match temp_addr m 10 sa_len with
  | None => Finish (IpcFault FaultBounds)
  | Some addr => Call pid (Connect (ld_int m 6) addr sa_len) (fun rc _ _ => ipc_write_rc g m pid IPC_CONNECT rc)
  end.

Definition ipc_bind (g m : list Z) : ipc_action :=
  let pid := msg_pid m in
  let sa_len := ld32 m 38 in
  match temp_addr m 10 sa_len with
  | None => Finish (IpcFault FaultBounds)
  | Some addr => Call pid (Bind (ld_int m 6) addr sa_len) (fun rc _ _ => ipc_write_rc g m pid IPC_BIND rc)
  end.

Definition ipc_listen (g m : list Z) : ipc_action :=
  let pid := msg_pid m in
  Call pid (Listen (ld_int m 6) (ld_int m 10)) (fun rc _ _ => ipc_write_rc g m pid IPC_LISTEN rc).

(** The response carries [rc] in both fields. *)
Definition ipc_accept (g m : list Z) : ipc_action :=
  let pid := msg_pid m in
  let addr_len := ld32 m 38 in
  match temp_addr m 10 addr_len with
  | None => Finish (IpcFault FaultBounds)
  | Some addr =>
      Call pid (Accept (ld_int m 6) addr_len) (fun rc _ out =>
        let addr := st_bytes addr 0 out in
        let n := if addr_len <? sa_data_len then addr_len else sa_data_len in
        let r := alloca g (ipc_msg_len + ipc_err_len + ipc_accept_len) in
        let r := put_err rc rc (put_msg IPC_ACCEPT pid r) in
        let r := st_bytes (st32 r 14 rc) 18 (replicate 32 0) in
        Sent m (st32 (st_bytes r 18 (take (Z.to_nat n) addr)) 46 n) 0)
  end.

(** The data is used in place: a length beyond the buffer is a fault. *)
Definition ipc_sendto (g m : list Z) : ipc_action :=
  let pid := msg_pid m in
  let len := u32 (ld64 m 10) in
  let sa_len := ld32 m 50 in
  match temp_addr m 22 sa_len with
  | None => Finish (IpcFault FaultBounds)
  | Some addr =>
      if IPC_BUFLEN <? ipc_msg_len + ipc_sendto_len + len then Finish (IpcFault FaultBounds)
      else Call pid (Sendto (ld_int m 6) (ld_bytes m 54 (Z.to_nat len)) addr) (fun rc _ _ => ipc_write_rc g m pid IPC_SENDTO rc)
  end.

(** [udp_recvfrom] sets the address and its length together. *)
Definition ipc_recvfrom (g m : list Z) : ipc_action :=
  let pid := msg_pid m in
  let fd := ld_int m 6 in
  let len := ld64 m 10 in
  let dstlen := ld32 m 38 in
  if STACK_SIZE <=? len then Finish (IpcFault FaultBounds)
  else Call pid (Recvfrom fd len) (fun rlen out from =>
    let rbuf := st_bytes (alloca g len) 0 out in
    let addr := st_bytes (replicate 16 0) 0 from in
    let addrlen := match from with [] => dstlen | _ => 16 end in
    let n := if 0 <? rlen then rlen else 0 in
    if (len <? n) || (16 <? addrlen) then IpcFault FaultBounds
    else
      let r := alloca g (ipc_msg_len + ipc_err_len + ipc_recvfrom_len + n) in
      let r := put_msg IPC_RECVFROM pid r in
      let r := put_err (if rlen <? 0 then -1 else rlen) (if rlen <? 0 then - rlen else 0) r in
      let r := st64 (st32 r 14 fd) 18 rlen in
      let r := st_bytes r 50 (take (Z.to_nat n) rbuf) in
      Sent m (st32 (st_bytes r 30 (take (Z.to_nat addrlen) addr)) 46 addrlen) 0).

Definition ipc_socket (g m : list Z) : ipc_action :=
  let pid := msg_pid m in
  Call pid (Socket (ld_int m 6) (ld_int m 10)) (fun rc _ _ => ipc_write_rc g m pid IPC_SOCKET rc).

Definition ipc_close (g m : list Z) : ipc_action :=
  let pid := msg_pid m in
  Call pid (Close (ld_int m 6)) (fun rc _ _ => ipc_write_rc g m pid IPC_CLOSE rc).

(** The [i]-th [struct ipc_pollfd] at [o]. *)
Definition get_pollfd (m : list Z) (o i : nat) : pollfd :=
  mk_pollfd (ld_int m (o + 8 * i)) (s16 (ld16 m (o + 8 * i + 4))) (s16 (ld16 m (o + 8 * i + 6))).
Fixpoint put_pollfds (r : list Z) (o : nat) (fds : list pollfd) : list Z :=
  match fds with
  | [] => r
  | p :: fds => put_pollfds (st16 (st16 (st32 r o (pf_fd p)) (o + 4) (pf_events p)) (o + 6) (pf_revents p)) (o + 8) fds
  end.

Definition ipc_poll (g m : list Z) : ipc_action :=
  let pid := msg_pid m in
  let nfds := u64 (ld64 m 6) in
  if IPC_BUFLEN <? ipc_msg_len + ipc_poll_len + ipc_pollfd_len * nfds then Finish (IpcFault FaultBounds)
  else
    let fds := get_pollfd m 18 <$> seq 0 (Z.to_nat nfds) in
    Call pid (Poll fds (ld_int m 14)) (fun rc revents _ =>
      let r := alloca g (ipc_msg_len + ipc_err_len + ipc_pollfd_len * nfds) in
      let r := put_rc rc (put_msg IPC_POLL pid r) in
      Sent m (put_pollfds r 14 (zip_with set_pf_revents revents fds)) 0).

Definition ipc_fcntl (g m : list Z) : ipc_action :=
  let pid := msg_pid m in
  let fd := ld_int m 6 in
  let cmd := ld_int m 10 in
  let reply rc := ipc_write_rc g m pid IPC_FCNTL rc in
  if cmd =? F_GETFL then Call pid (Fcntl fd cmd 0) (fun rc _ _ => reply rc)
  else if cmd =? F_SETFL then Call pid (Fcntl fd cmd (ld_int m 14)) (fun rc _ _ => reply rc)
  else Finish (reply (- EINVAL)).

(** The option is written into the request, and copied from there. *)
Definition ipc_getsockopt (g m : list Z) : ipc_action :=
  let pid := msg_pid m in
  let fd := ld_int m 6 in
  let level := ld_int m 10 in
  let optname := ld_int m 14 in
  let optlen := u32 (ld32 m 18) in
  Call pid (Getsockopt fd level optname) (fun rc optval _ =>
    let m := st_bytes m 22 optval in
    if IPC_BUFLEN <? ipc_msg_len + ipc_sockopt_len + optlen then IpcFault FaultBounds
    else
      let r := alloca g (ipc_msg_len + ipc_err_len + ipc_sockopt_len + optlen) in
      let r := put_rc rc (put_msg IPC_GETSOCKOPT pid r) in
      let r := st32 (st32 (st32 (st32 r 14 fd) 18 level) 22 optname) 26 optlen in
      Sent m (st_bytes r 30 (ld_bytes m 22 (Z.to_nat optlen))) rc).

(** The call writes the name, and its length, into the response. *)
Definition ipc_sockname_reply (m r : list Z) (rc : Z) (name : list Z) : ipc_result :=
  let r := match name with [] => r | _ => st32 (st_bytes r 22 name) 18 16 end in
  Sent m (st32 (put_rc rc r) 14 (ld_int m 6)) rc.

Definition ipc_getpeername (g m : list Z) : ipc_action :=
  let pid := msg_pid m in
  let r := alloca g (ipc_msg_len + ipc_err_len + ipc_sockname_len) in
  let r := put_msg IPC_GETPEERNAME pid r in
  Call pid (Getpeername (ld_int m 6) (ld_bytes r 22 128)) (fun rc _ name => ipc_sockname_reply m r rc name).

Definition ipc_getsockname (g m : list Z) : ipc_action :=
  let pid := msg_pid m in
  let r := alloca g (ipc_msg_len + ipc_err_len + ipc_sockname_len) in
  let r := put_msg IPC_GETSOCKNAME pid r in
  Call pid (Getsockname (ld_int m 6) (ld_bytes r 22 128)) (fun rc _ name => ipc_sockname_reply m r rc name).

Definition demux_ipc_socket_call (g m : list Z) (more : option (list Z)) : ipc_action :=
  let type := msg_type m in
  if type =? IPC_SOCKET then ipc_socket g m
  else if type =? IPC_CONNECT then ipc_connect g m
  else if type =? IPC_WRITE then ipc_write g m more
  else if type =? IPC_READ then ipc_read g m
  else if type =? IPC_CLOSE then ipc_close g m
  else if type =? IPC_POLL then ipc_poll g m
  else if type =? IPC_FCNTL then ipc_fcntl g m
  else if type =? IPC_GETSOCKOPT then ipc_getsockopt g m
  else if type =? IPC_GETPEERNAME then ipc_getpeername g m
  else if type =? IPC_GETSOCKNAME then ipc_getsockname g m
  else if type =? IPC_BIND then ipc_bind g m
  else if type =? IPC_SENDTO then ipc_sendto g m
  else if type =? IPC_RECVFROM then ipc_recvfrom g m
  else if type =? IPC_LISTEN then ipc_listen g m
  else if type =? IPC_ACCEPT then ipc_accept g m
  else Finish (NoReply m 0).

(** ** Connections *)

(** [struct ipc_thread], an element of the list [sockets]. *)
Record ipc_thread := mk_ipc_thread { th_sock : Z; th_id : Z }.

(** A running [socket_ipc_open]: its buffer, and the call it sleeps in. *)
Record ipc_conn := mk_conn {
  ic_sock : Z;
  ic_buf : list Z;
  ic_wait : option (Z * (Z -> list Z -> list Z -> ipc_result))
}.

Record server := mk_server {
  sv_world : world;
  sv_threads : list ipc_thread;   (** [sockets] *)
  sv_count : Z;                   (** [socket_count] *)
  sv_conns : list ipc_conn;
  sv_sent : list (Z * list Z);    (** responses, each with its socket, oldest first *)
  sv_next : Z                     (** next [pthread_t] *)
}.

Definition set_sv_world (w : world) (s : server) : server :=
  mk_server w (sv_threads s) (sv_count s) (sv_conns s) (sv_sent s) (sv_next s).
Definition set_sv_conns (l : list ipc_conn) (s : server) : server :=
  mk_server (sv_world s) (sv_threads s) (sv_count s) l (sv_sent s) (sv_next s).
Definition ipc_try_send (sock : Z) (response : list Z) (s : server) : server :=
  mk_server (sv_world s) (sv_threads s) (sv_count s) (sv_conns s) (sv_sent s ++ [(sock, response)]) (sv_next s).

Definition ipc_alloc_thread (sock : Z) (s : server) : server :=
  mk_server (sv_world s) (sv_threads s ++ [mk_ipc_thread sock (sv_next s)]) (sv_count s + 1) (sv_conns s) (sv_sent s) (sv_next s + 1).

(** The loop stops at the first element with this socket. *)
Fixpoint remove_sock (sock : Z) (l : list ipc_thread) : option (list ipc_thread) :=
  match l with
  | [] => None
  | th :: l => if th_sock th =? sock then Some l else (th ::.) <$> remove_sock sock l
  end.
Definition ipc_free_thread (sock : Z) (s : server) : server :=
  match remove_sock sock (sv_threads s) with
  | Some l => mk_server (sv_world s) l (sv_count s - 1) (sv_conns s) (sv_sent s) (sv_next s)
  | None => s
  end.

(** The connections other than the one with socket [sock]. *)
Definition others (sock : Z) (s : server) : list ipc_conn := filter (fun c => ic_sock c <> sock) (sv_conns s).
Definition put_conn (c : ipc_conn) (s : server) : server := set_sv_conns (others (ic_sock c) s ++ [c]) s.
Definition drop_conn (sock : Z) (s : server) : server := set_sv_conns (others sock s) s.

(** One turn of the loop of [socket_ipc_open], from the handler's result on.  A
    result of -1 closes the socket and ends the thread, which stays in [sockets]. *)
Definition end_turn (sock : Z) (m : list Z) (rc : Z) (s : server) : server :=
  if rc =? -1 then drop_conn sock s else put_conn (mk_conn sock m None) s.
Definition finish (sock : Z) (r : ipc_result) (s : server) : server :=
  match r with
  | Sent m response rc => end_turn sock m rc (ipc_try_send sock response s)
  | NoReply m rc => end_turn sock m rc s
  | IpcFault f => drop_conn sock (set_sv_world (w_fault f (sv_world s)) s)
  end.

(** The call of the connection [c] came back, or sleeps. *)
Definition call_done (c : ipc_conn) (k : Z -> list Z -> list Z -> ipc_result) (o : world * outcome) (s : server) : server :=
  let s := set_sv_world o.1 s in
  match o.2 with
  | Returned rc out addr => finish (ic_sock c) (k rc out addr) s
  | Sleeping t => put_conn (mk_conn (ic_sock c) (ic_buf c) (Some (t, k))) s
  | Crashed | Hung => drop_conn (ic_sock c) s
  end.

(** [read] returned [bytes]: the rest of the buffer keeps what was there. *)
Definition ipc_request (c : ipc_conn) (bytes : list Z) (more : option (list Z)) (g : list Z) (s : server) : server :=
  let c := mk_conn (ic_sock c) (st_bytes (ic_buf c) 0 bytes) None in
  match demux_ipc_socket_call g (ic_buf c) more with
  | Finish r => finish (ic_sock c) r s
  | Call pid call k => call_done c k (run_syscall pid call (sv_world s)) s
  end.

(** [read] returned 0 or -1. *)
Definition ipc_hangup (c : ipc_conn) (s : server) : server := drop_conn (ic_sock c) (ipc_free_thread (ic_sock c) s).

(** A sleeping thread of the stack is woken; if it makes the call of a connection, the
    handler goes on. *)
Definition waits_for (t : Z) (c : ipc_conn) : bool := match ic_wait c with Some (t', _) => t' =? t | None => false end.
Definition ipc_wake (t : thread) (w : world) (s : server) : server :=
  let o := run_thread t w in
  match find (waits_for (t_id t)) (sv_conns s) with
  | Some c => match ic_wait c with Some (_, k) => call_done c k o s | None => set_sv_world o.1 s end
  | None => set_sv_world o.1 s
  end.

(** ** Steps

    [accept] returns a socket that is not in use.  [buf] is what the stack of the new
    thread contains. *)

Inductive ipc_step : server -> server -> Prop :=
  | IpcAccept sock buf s :
      sock ∉ (ic_sock <$> sv_conns s) -> length buf = Z.to_nat IPC_BUFLEN ->
      ipc_step s (put_conn (mk_conn sock buf None) (ipc_alloc_thread sock s))
  | IpcRequest c bytes more g s :
      c ∈ sv_conns s -> ic_wait c = None -> (0 < length bytes <= Z.to_nat IPC_BUFLEN)%nat ->
      ipc_step s (ipc_request c bytes more g s)
  | IpcHangup c s : c ∈ sv_conns s -> ic_wait c = None -> ipc_step s (ipc_hangup c s)
  | IpcFrame frame s : ipc_step s (set_sv_world (netdev_rx_loop frame (sv_world s)) s)
  | IpcTick busy spawn_ok s : ipc_step s (set_sv_world (timers_step busy spawn_ok (sv_world s)) s)
  | IpcWake l1 t l2 s :
      w_threads (sv_world s) = l1 ++ t :: l2 ->
      ipc_step s (ipc_wake t (set_w_threads (l1 ++ l2) (sv_world s)) s).

(** [start_ipc_listener] before its first [accept]. *)
Definition start_ipc_listener (w : world) : server := mk_server w [] 0 [] [] 0.

End Ipc.
