(* ===== verification/Client.v ===== *)
(** The library that user processes preload: [src/tools/liblevelip.c] and
    [src/tools/liblevelip.h].

    Each function either belongs to the C library ([Kernel]: the descriptor is not one
    of level-ip), or sends a request and works on the response ([Rpc]).  [pid] is what
    [getpid] returns, [lvlfd] a fresh connection to the server, [g] what uninitialised
    memory contains. *)
From S2P Require Import Prelude TcpTypes World SocketApi Ipc.
Import TcpTypes World SocketApi Ipc.

Module Client.

(** ** State *)

(** [struct lvlip_sock]; [lv_live] is false once the node was freed. *)
Record lvlip_sock := mk_lv { lv_lvlfd : Z; lv_fd : Z; lv_live : bool }.

Record client := mk_client {
  lvlip_socks : list lvlip_sock;
  lvlip_socks_count : Z;
  main_pid : Z;
  errno : Z
}.
Definition set_errno (v : Z) (c : client) : client := mk_client (lvlip_socks c) (lvlip_socks_count c) (main_pid c) v.
Definition set_main_pid (v : Z) (c : client) : client := mk_client (lvlip_socks c) (lvlip_socks_count c) v (errno c).
Definition add_sock (s : lvlip_sock) (c : client) : client :=
  mk_client (lvlip_socks c ++ [s]) (lvlip_socks_count c + 1) (main_pid c) (errno c).

Inductive action {A : Type} :=
  | Kernel
  | Crash                                    (* freed memory or a NULL pointer is used *)
  | Overrun (a : action)                     (* bytes behind a local variable are written; [a] is the rest of the code *)
  | Local (c : client) (r : A)
  | Rpc (lvlfd : Z) (msg : list Z) (rlen : Z) (k : option (list Z) -> client * A).
Arguments action : clear implicits.
Arguments Kernel {A}.
Arguments Crash {A}.
Arguments Overrun {A}.
Arguments Local {A}.
Arguments Rpc {A}.

(** The walk of [lvlip_get_sock]. *)
Inductive found := Found (s : lvlip_sock) | Missing | Dangling.
Fixpoint find_sock (fd : Z) (l : list lvlip_sock) : found :=
  match l with
  | [] => Missing
  | s :: l => if negb (lv_live s) then Dangling else if lv_fd s =? fd then Found s else find_sock fd l
  end.
Definition lvlip_get_sock (fd : Z) (c : client) : found := find_sock fd (lvlip_socks c).

Definition with_sock {A} (fd : Z) (c : client) (f : lvlip_sock -> action A) : action A :=
  match lvlip_get_sock fd c with
  | Found s => f s
  | Missing => Kernel
  | Dangling => Crash
  end.

Definition AF_INET6 : Z := 10.
Definition SOCK_STREAM : Z := 1.
Definition SOCK_DGRAM : Z := 2.
Definition is_socket_supported (domain type protocol : Z) : bool :=
  if negb (domain =? AF_INET) && negb (domain =? AF_INET6) then false
  else if negb (negb (Z.land type SOCK_STREAM =? 0) || negb (Z.land type SOCK_DGRAM =? 0)) then false
  else if negb (protocol =? 0) && negb (protocol =? IPPROTO_TCP) && negb (protocol =? IPPROTO_UDP) then false
  else true.

(** ** Messages *)

Definition RCBUF_LEN : Z := 512.
Definition SA_COPY_LEN (user_len : Z) : Z := if user_len <? sa_data_len then user_len else sa_data_len.

(** [read(lvlfd, rbuf, rlen)]; [None] is an error, after which the code goes on. *)
Definition read_into (rbuf : list Z) (rlen : Z) (response : option (list Z)) : list Z :=
  match response with
  | Some bytes => st_bytes rbuf 0 (take (Z.to_nat rlen) bytes)
  | None => rbuf
  end.
Definition zeroed (n : Z) : list Z := replicate (Z.to_nat n) 0.

Definition expected (type pid : Z) (response : list Z) : bool := (msg_type response =? type) && (msg_pid response =? pid).
Definition err_rc (response : list Z) : Z := ld_int response 6.
Definition err_err (response : list Z) : Z := ld_int response 10.

Definition transmit_lvlip (g : list Z) (c : client) (lvlfd : Z) (msg : list Z) : action Z :=
  Rpc lvlfd msg RCBUF_LEN (fun response =>
    let r := read_into (alloca g (8 * RCBUF_LEN)) RCBUF_LEN response in
    if negb (expected (msg_type msg) (msg_pid msg) r) then (c, -1)
    else (if err_rc r =? -1 then set_errno (err_err r) c else c, err_rc r)).

Definition new_msg (g : list Z) (len type pid : Z) : list Z := put_msg type pid (alloca g (ipc_msg_len + len)).

(** [struct ipc_sockaddr] at [o], for a structure that was cleared. *)
Definition put_ipc_sockaddr (m : list Z) (o : nat) (addr : list Z) (n sa_len : Z) : list Z :=
  st32 (st_bytes (st_bytes m o (replicate 28 0)) o (ld_bytes addr 0 (Z.to_nat n))) (o + 28) sa_len.

(** The process that accepted a connection goes on using its own pid after [fork]. *)
Definition pid_for (pid : Z) (c : client) : Z := if main_pid c =? 0 then pid else main_pid c.

(** ** Sockets *)

(** On failure the node is freed and stays in the list. *)
Definition socket (g : list Z) (pid lvlfd domain type protocol : Z) (c : client) : action Z :=
  if negb (is_socket_supported domain type protocol) then Kernel
  else
    let m := new_msg g ipc_socket_len IPC_SOCKET pid in
    let m := st32 (st32 (st32 m 6 domain) 10 type) 14 protocol in
    match transmit_lvlip g c lvlfd m with
    | Rpc lvlfd m rlen k =>
        Rpc lvlfd m rlen (fun response =>
          let '(c, sockfd) := k response in
          if sockfd =? -1 then (add_sock (mk_lv lvlfd 0 false) c, -1)
          else (add_sock (mk_lv lvlfd sockfd true) c, sockfd))
    | a => a
    end.

(** The node stays in the list; [lvlfd] is closed. *)
Definition close (g : list Z) (pid fd : Z) (c : client) : action Z :=
  with_sock fd c (fun sock =>
    transmit_lvlip g c (lv_lvlfd sock) (st32 (new_msg g ipc_close_len IPC_CLOSE (pid_for pid c)) 6 fd)).

Definition connect (g : list Z) (pid sockfd : Z) (addr : list Z) (addrlen : Z) (c : client) : action Z :=
  with_sock sockfd c (fun sock =>
    let m := st32 (new_msg g ipc_connect_len IPC_CONNECT pid) 6 sockfd in
    transmit_lvlip g c (lv_lvlfd sock) (put_ipc_sockaddr m 10 addr (SA_COPY_LEN addrlen) (SA_COPY_LEN addrlen))).

Definition bind (g : list Z) (pid sockfd : Z) (addr : list Z) (addrlen : Z) (c : client) : action Z :=
  with_sock sockfd c (fun sock =>
    let m := st32 (new_msg g ipc_bind_len IPC_BIND pid) 6 sockfd in
    transmit_lvlip g c (lv_lvlfd sock) (put_ipc_sockaddr m 10 addr (SA_COPY_LEN addrlen) (SA_COPY_LEN addrlen))).

Definition listen (g : list Z) (pid sockfd n : Z) (c : client) : action Z :=
  with_sock sockfd c (fun sock =>
    transmit_lvlip g c (lv_lvlfd sock) (st32 (st32 (new_msg g ipc_listen_len IPC_LISTEN pid) 6 sockfd) 10 n)).

(** [addr] holds what the caller's buffer holds, [addr_len] is [None] for [NULL];
    [lvlfd'] is the connection made for the new socket.  The result: the descriptor,
    and the buffer and its length as they are left. *)
Definition accept (g : list Z) (pid lvlfd' sockfd : Z) (addr : list Z) (addr_len : option Z) (c : client)
    : action (Z * list Z * Z) :=
  with_sock sockfd c (fun sock =>
    match addr_len with
    | None => Crash
    | Some n =>
        let c := set_main_pid pid c in
        let m := st32 (new_msg g ipc_accept_len IPC_ACCEPT pid) 6 sockfd in
        let m := put_ipc_sockaddr m 10 addr (SA_COPY_LEN n) (SA_COPY_LEN n) in
        let rlen := ipc_msg_len + ipc_err_len + ipc_accept_len in
        Rpc (lv_lvlfd sock) m rlen (fun response =>
          let r := read_into (zeroed rlen) rlen response in
          if negb (expected IPC_ACCEPT pid r) then (c, (-1, addr, n))
          else if err_rc r <? 0 then (set_errno (err_err r) c, (err_rc r, addr, n))
          else
            let sa_len := ld32 r 46 in
            let addr := st_bytes addr 0 (ld_bytes r 18 (Z.to_nat (SA_COPY_LEN sa_len))) in
            let fd := ld_int r 14 in
            (add_sock (mk_lv lvlfd' fd true) c, (fd, addr, sa_len)))
    end).

(** ** Data *)

(** [dest_len] is not limited like the length of the copy. *)
Definition sendto (g : list Z) (pid sockfd : Z) (buf : list Z) (flags : Z) (dest_addr : list Z) (dest_len : Z) (c : client)
    : action Z :=
  with_sock sockfd c (fun sock =>
    let len := Z.of_nat (length buf) in
    let m := new_msg g (ipc_sendto_len + len) IPC_SENDTO pid in
    let m := st32 (st64 (st32 m 6 sockfd) 10 len) 18 flags in
    let m := put_ipc_sockaddr m 22 dest_addr (SA_COPY_LEN dest_len) dest_len in
    transmit_lvlip g c (lv_lvlfd sock) (st_bytes m 54 buf)).

Definition send (g : list Z) (pid fd : Z) (buf : list Z) (flags : Z) (c : client) : action Z :=
  sendto g pid fd buf flags [] 0 c.

(** The result: the count, the caller's buffer, and the address with its length when
    it was asked for. *)
Definition recvfrom (g : list Z) (pid sockfd len flags : Z) (buf : list Z) (address : option (list Z * Z)) (c : client)
    : action (Z * list Z * option (list Z * Z)) :=
  with_sock sockfd c (fun sock =>
    let m := new_msg g ipc_recvfrom_len IPC_RECVFROM pid in
    let m := st_bytes (st32 (st64 (st32 m 6 sockfd) 10 len) 18 flags) 22 (replicate 20 0) in
    let rlen := ipc_msg_len + ipc_err_len + ipc_recvfrom_len + len in
    Rpc (lv_lvlfd sock) m rlen (fun response =>
      let r := read_into (zeroed rlen) rlen response in
      if negb (expected IPC_RECVFROM pid r) then (c, (-1, buf, address))
      else if err_rc r <? 0 then (set_errno (err_err r) c, (err_rc r, buf, address))
      else
        let dlen := ld64 r 18 in
        if len <? dlen then (c, (-1, buf, address))
        else
          let buf := st_bytes (zeroed len) 0 (ld_bytes r 50 (Z.to_nat dlen)) in
          let address :=
            match address with
            | Some (a, _) => Some (st_bytes a 0 (ld_bytes r 30 16), ld32 r 46)
            | None => None
            end in
          (c, (dlen, buf, address)))).

Definition recv (g : list Z) (pid fd len flags : Z) (buf : list Z) (c : client) :=
  recvfrom g pid fd len flags buf None c.

Definition write (g : list Z) (pid sockfd : Z) (buf : list Z) (c : client) : action Z :=
  with_sock sockfd c (fun sock =>
    let len := Z.of_nat (length buf) in
    let m := new_msg g (ipc_write_len + len) IPC_WRITE (pid_for pid c) in
    transmit_lvlip g c (lv_lvlfd sock) (st_bytes (st64 (st32 m 6 sockfd) 10 len) 18 buf)).

Definition read (g : list Z) (pid sockfd len : Z) (buf : list Z) (c : client) : action (Z * list Z) :=
  with_sock sockfd c (fun sock =>
    let pid := pid_for pid c in
    let m := st64 (st32 (new_msg g ipc_read_len IPC_READ pid) 6 sockfd) 10 len in
    let rlen := ipc_msg_len + ipc_err_len + ipc_read_len + len in
    Rpc (lv_lvlfd sock) m rlen (fun response =>
      let r := read_into (zeroed rlen) rlen response in
      if negb (expected IPC_READ pid r) then (c, (-1, buf))
      else if err_rc r <? 0 then (set_errno (err_err r) c, (err_rc r, buf))
      else
        let dlen := ld64 r 18 in
        if len <? dlen then (c, (-1, buf))
        else (c, (dlen, st_bytes (zeroed len) 0 (ld_bytes r 26 (Z.to_nat dlen)))))).

(** ** Poll *)

(** The demultiplexing loop: the positions of level-ip's descriptors and of the others
    in [fds], and the connection of the last of level-ip's. *)
Fixpoint poll_split (i : nat) (fds : list pollfd) (c : client) : option (list nat * list nat * Z) :=
  match fds with
  | [] => Some ([], [], 0)
  | p :: fds =>
      match lvlip_get_sock (pf_fd p) c, poll_split (S i) fds c with
      | Dangling, _ | _, None => None
      | Found s, Some (lvl, ker, sock) => Some (i :: lvl, ker, if (length lvl =? 0)%nat then lv_lvlfd s else sock)
      | Missing, Some (lvl, ker, sock) => Some (lvl, i :: ker, sock)
      end
  end.

(** The array given to the C library's [poll] starts at the first descriptor that is
    not level-ip's and has as many elements as there are such descriptors. *)
Definition kernel_array (fds : list pollfd) (ker : list nat) : list pollfd :=
  take (length ker) (drop (default 0%nat (head ker)) fds).

(** The time the first turn waits, and whether the loop goes on without events. *)
Definition poll_blocking (lvl ker : list nat) (timeout : Z) : Z * bool :=
  if (0 <? length ker)%nat && (0 <? length lvl)%nat && (timeout =? -1) then (100, true) else (timeout, false).

Definition pollfd_at (fds : list pollfd) (i : nat) : pollfd := default (mk_pollfd 0 0 0) (fds !! i).

(** [events] and [revents] of the [i]-th element come from the response. *)
Definition poll_answer (fds : list pollfd) (i : nat) (returned : pollfd) : list pollfd :=
  <[i := mk_pollfd (pf_fd (pollfd_at fds i)) (pf_events returned) (pf_revents returned)]> fds.
Fixpoint poll_answers (r : list Z) (j : nat) (lvl : list nat) (fds : list pollfd) : list pollfd :=
  match lvl with
  | [] => fds
  | i :: lvl => poll_answers r (S j) lvl (poll_answer fds i (get_pollfd r 14 j))
  end.

(** One turn, after the C library's [poll] returned [events] and left [fds] (0 and
    the same array if there is nothing for it).  The result is [None] when the loop goes
    round. *)
Definition poll_turn (g : list Z) (pid sock : Z) (lvl : list nat) (timeout : Z) (blocking : bool) (events : Z)
    (fds : list pollfd) (c : client) : action (option Z * list pollfd) :=
  if events =? -1 then Local (set_errno EAGAIN c) (Some (-1), fds)
  else if (length lvl <? 1)%nat then Local c (Some events, fds)
  else
    let n := Z.of_nat (length lvl) in
    let m := new_msg g (ipc_poll_len + ipc_pollfd_len * n) IPC_POLL pid in
    let m := st32 (st64 m 6 n) 14 timeout in
    let m := put_pollfds m 18 (pollfd_at fds <$> lvl) in
    let rlen := ipc_msg_len + ipc_err_len + ipc_pollfd_len * n in
    Rpc sock m rlen (fun response =>
      match response with
      | None => (set_errno EAGAIN c, (Some (-1), fds))
      | Some _ =>
          let r := read_into (zeroed rlen) rlen response in
          if negb (expected IPC_POLL pid r) then (set_errno EAGAIN c, (Some (-1), fds))
          else if err_rc r <? 0 then (set_errno (err_err r) c, (Some (err_rc r), fds))
          else
            let fds := poll_answers r 0 lvl fds in
            let result := events + err_rc r in
            (c, (if (0 <? result) || negb blocking then Some result else None, fds))
      end).

(** Up to the first turn's call of the C library. *)
Definition poll (fds : list pollfd) (timeout : Z) (c : client) : option (list nat * list nat * Z * (Z * bool)) :=
  match poll_split 0 fds c with
  | Some (lvl, ker, sock) => Some (lvl, ker, sock, poll_blocking lvl ker timeout)
  | None => None
  end.

Definition __poll_chk := poll.

Definition ppoll (c : client) : action Z := Local c (-1).

Definition select : action Z := Kernel.

(** ** Options and names *)

Definition setsockopt (fd : Z) (c : client) : action Z := with_sock fd c (fun _ => Local c 0).

(** [struct ipc_sockopt] ends with an array without elements: the copy of the option
    into the local variable [opts] goes behind it.  The option of the response lies in
    [rbuf], or, of less than four bytes, behind it.  The result: the return value, the
    option and its length. *)
Definition getsockopt (g : list Z) (pid fd level optname : Z) (optval : list Z) (optlen : Z) (c : client)
    : action (Z * list Z * Z) :=
  with_sock fd c (fun sock =>
    let m := new_msg g (ipc_sockopt_len + optlen) IPC_GETSOCKOPT pid in
    let m := st32 (st32 (st32 (st32 m 6 fd) 10 level) 14 optname) 18 optlen in
    let m := st_bytes m 22 (ld_bytes optval 0 (Z.to_nat optlen)) in
    let rlen := ipc_msg_len + ipc_err_len + ipc_sockopt_len + optlen in
    let rest := Rpc (lv_lvlfd sock) m rlen (fun response =>
      let r := read_into (zeroed rlen) rlen response in
      if negb (expected IPC_GETSOCKOPT pid r) then (c, (-1, optval, optlen))
      else if negb (err_rc r =? 0) then (set_errno (err_err r) c, (err_rc r, optval, optlen))
      else (c, (0, st32 optval 0 (s32 (ld_int (r ++ alloca g 4) 30 * -1)), ld32 r 26))) in
    if 0 <? optlen then Overrun rest else rest).

(** [getpeername] and [getsockname]: the return value, the caller's buffer and the
    length. *)
Definition name_call (g : list Z) (type pid socket : Z) (address : list Z) (address_len : Z) (c : client)
    : action (Z * list Z * Z) :=
  with_sock socket c (fun sock =>
    let m := st32 (new_msg g ipc_sockname_len type pid) 6 socket in
    let rlen := ipc_msg_len + ipc_err_len + ipc_sockname_len in
    Rpc (lv_lvlfd sock) m rlen (fun response =>
      let r := read_into (zeroed rlen) rlen response in
      if negb (expected type pid r) then (c, (-1, address, address_len))
      else if negb (err_rc r =? 0) then (set_errno (err_err r) c, (err_rc r, address, address_len))
      else
        let address_len := ld32 r 18 in
        (c, (0, st_bytes address 0 (ld_bytes r 22 (Z.to_nat address_len)), address_len)))).
Definition getpeername (g : list Z) (pid : Z) := name_call g IPC_GETPEERNAME pid.
Definition getsockname (g : list Z) (pid : Z) := name_call g IPC_GETSOCKNAME pid.

Definition flock_len : Z := 32.
Definition fcntl (g : list Z) (pid fildes cmd flags : Z) (c : client) : action Z :=
  with_sock fildes c (fun sock =>
    let m := new_msg g (ipc_fcntl_len + flock_len + 4) IPC_FCNTL pid in
    let m := st32 (st32 m 6 fildes) 10 cmd in
    if cmd =? F_GETFL then transmit_lvlip g c (lv_lvlfd sock) m
    else if cmd =? F_SETFL then transmit_lvlip g c (lv_lvlfd sock) (st32 m 14 flags)
    else Local (set_errno EINVAL c) (-1)).

(** ** The functions that take a descriptor

    With their arguments after the descriptor, and what they give back.  [send] and
    [recv] are [sendto] and [recvfrom] without an address; [poll] and [socket] take no
    descriptor. *)

Inductive fcall : Type -> Type :=
  | FConnect (addr : list Z) (addrlen : Z) : fcall Z
  | FBind (addr : list Z) (addrlen : Z) : fcall Z
  | FListen (n : Z) : fcall Z
  | FClose : fcall Z
  | FAccept (addr : list Z) (addr_len : option Z) : fcall (Z * list Z * Z)
  | FWrite (buf : list Z) : fcall Z
  | FRead (len : Z) (buf : list Z) : fcall (Z * list Z)
  | FSendto (buf : list Z) (flags : Z) (dest_addr : list Z) (dest_len : Z) : fcall Z
  | FRecvfrom (len flags : Z) (buf : list Z) (address : option (list Z * Z)) : fcall (Z * list Z * option (list Z * Z))
  | FFcntl (cmd flags : Z) : fcall Z
  | FSetsockopt : fcall Z
  | FGetsockopt (level optname : Z) (optval : list Z) (optlen : Z) : fcall (Z * list Z * Z)
  | FGetpeername (address : list Z) (address_len : Z) : fcall (Z * list Z * Z)
  | FGetsockname (address : list Z) (address_len : Z) : fcall (Z * list Z * Z).

(** [lvlfd'] is the connection [accept] makes. *)
Definition fcall_action {A} (f : fcall A) (g : list Z) (pid lvlfd' fd : Z) (c : client) : action A :=
  match f in fcall A return action A with
  | FConnect addr addrlen => connect g pid fd addr addrlen c
  | FBind addr addrlen => bind g pid fd addr addrlen c
  | FListen n => listen g pid fd n c
  | FClose => close g pid fd c
  | FAccept addr addr_len => accept g pid lvlfd' fd addr addr_len c
  | FWrite buf => write g pid fd buf c
  | FRead len buf => read g pid fd len buf c
  | FSendto buf flags dest_addr dest_len => sendto g pid fd buf flags dest_addr dest_len c
  | FRecvfrom len flags buf address => recvfrom g pid fd len flags buf address c
  | FFcntl cmd flags => fcntl g pid fd cmd flags c
  | FSetsockopt => setsockopt fd c
  | FGetsockopt level optname optval optlen => getsockopt g pid fd level optname optval optlen c
  | FGetpeername address address_len => getpeername g pid fd address address_len c
  | FGetsockname address address_len => getsockname g pid fd address address_len c
  end.

End Client.
