(* ===== verification/Preload.v ===== *)
(** The preloaded library and its process: the start of [src/tools/liblevelip.c], its
    connections to the server and its hooks into the C library.

    [Client] says what a call sends and what it makes of the response; here a call is
    followed down to the system calls of the process.  What the operating system
    answers is an argument ([os]); what is asked of it is a log. *)
From Stdlib Require Import String Ascii.
From stdpp Require Import gmap.
From S2P Require Import Prelude TcpTypes World SocketApi Ipc Client.
Import TcpTypes World SocketApi Ipc Client.

Module Preload.

Inductive sysact :=
  | SysSocket (domain type protocol : Z)
  | SysConnect (fd : Z) (sun_path : list Z)
  | SysWrite (fd : Z) (bytes : list Z)
  | SysRead (fd : Z) (len : Z)
  | SysClose (fd : Z)
  | SysDlsym (name : string)
  | SysMain                                  (* the C library's own start routine *)
  | SysForward.                              (* the C library's function of the same name *)

Record os := mk_os {
  os_socket : Z;
  os_connect : Z;
  os_close : Z;
  os_reply : option (list Z);                (* what [read] delivers *)
  os_dlsym : string -> Z;
  os_main : Z;
  os_forward : Z
}.

(** A computation with a log; [inl rc] is [exit(rc)], [None] a crash, or a write behind
    a local variable, after which nothing is said of the process. *)
Definition sys (A : Type) : Type := list sysact * option (Z + A).
Definition sret {A} (x : A) : sys A := ([], Some (inr x)).
Definition sact (a : sysact) : sys unit := ([a], Some (inr tt)).
Definition sexit {A} (rc : Z) : sys A := ([], Some (inl rc)).
Definition sbind {A B} (p : sys A) (f : A -> sys B) : sys B :=
  match p with
  | (l, Some (inr x)) => let '(l', r) := f x in (l ++ l', r)
  | (l, Some (inl rc)) => (l, Some (inl rc))
  | (l, None) => (l, None)
  end.
Declare Scope sys_scope.
Delimit Scope sys_scope with sys.
Notation "x <- p ;; q" := (sbind p (fun x => q)) (at level 100, p at next level, right associativity) : sys_scope.
Notation "p ;;; q" := (sbind p (fun _ => q)) (at level 100, right associativity) : sys_scope.
Open Scope sys_scope.

(** ** Connections *)

Definition AF_UNIX : Z := 1.
Definition sun_path_len : nat := 108.
Definition EXIT_FAILURE : Z := 1.
Definition lvlip_path : list Z := (fun c => Z.of_nat (nat_of_ascii c)) <$> list_ascii_of_string "/tmp/lvlip.socket".

(** The cleared array after [strncpy] of at most one byte less than its size. *)
Definition sun_path (sockname : list Z) : list Z :=
  resize sun_path_len 0 (take (sun_path_len - 1) sockname).

(** A process that cannot reach the server exits. *)
Definition init_socket (o : os) (sockname : list Z) : sys Z :=
  sact (SysSocket AF_UNIX SOCK_STREAM 0) ;;;
  let data_socket := os_socket o in
  if data_socket =? -1 then sexit EXIT_FAILURE
  else
    sact (SysConnect data_socket (sun_path sockname)) ;;;
    if os_connect o =? -1 then sexit EXIT_FAILURE else sret data_socket.

Definition free_socket (o : os) (lvlfd : Z) : sys Z := sact (SysClose lvlfd) ;;; sret (os_close o).

(** The result of a call is a new state of the library and a value; [Kernel] is the
    C library's function, whose result is [v] of what it returns. *)
Definition perform {A} (o : os) (c : client) (v : Z -> A) (a : action A) : sys (client * A) :=
  match a with
  | Kernel => sact SysForward ;;; sret (c, v (os_forward o))
  | Crash | Overrun _ => ([], None)
  | Local c r => sret (c, r)
  | Rpc lvlfd msg rlen k => sact (SysWrite lvlfd msg) ;;; sact (SysRead lvlfd rlen) ;;; sret (k (os_reply o))
  end.

(** ** Calls *)

Definition call_socket (o : os) (g : list Z) (pid domain type protocol : Z) (c : client) : sys (client * Z) :=
  if negb (is_socket_supported domain type protocol) then perform o c id (Kernel : action Z)
  else
    lvlfd <- init_socket o lvlip_path ;;
    perform o c id (socket g pid lvlfd domain type protocol c).

(** [close] ends the connection after the response was read; [accept] makes one for the
    new socket once the response was accepted. *)
Definition after_close {A} (o : os) (fd : Z) (c : client) (r : client * A) : sys (client * A) :=
  match lvlip_get_sock fd c with
  | Found sock => free_socket o (lv_lvlfd sock) ;;; sret r
  | _ => sret r
  end.
Definition after_accept {A} (o : os) (c : client) (r : client * A) : sys (client * A) :=
  if lvlip_socks_count (fst r) =? lvlip_socks_count c then sret r
  else init_socket o lvlip_path ;;; sret r.

(** A function on the descriptor [fd]. *)
Definition call_fd {A} (o : os) (v : Z -> A) (f : fcall A) (g : list Z) (pid fd : Z) (c : client) : sys (client * A) :=
  r <- perform o c v (fcall_action f g pid (os_socket o) fd c) ;;
  match f with
  | FClose => after_close o fd c r
  | FAccept _ _ => after_accept o c r
  | _ => sret r
  end.

(** ** Start *)

(** The functions looked up, in order. *)
Definition hooks : list string :=
  ["__libc_start_main"; "bind"; "listen"; "accept"; "sendto"; "recvfrom"; "poll"; "ppoll"; "__poll_chk"; "select";
   "fcntl"; "setsockopt"; "getsockopt"; "read"; "write"; "connect"; "socket"; "close"; "getpeername"; "getsockname"]%string.
Fixpoint resolve (o : os) (names : list string) : sys (list (string * Z)) :=
  match names with
  | [] => sret []
  | n :: names => sact (SysDlsym n) ;;; (t <- resolve o names ;; sret ((n, os_dlsym o n) :: t))
  end.
Definition list_init_socks (c : client) : client := mk_client [] (lvlip_socks_count c) (main_pid c) (errno c).
(** The table of hooks, the library's state when [main] starts, and what [main]
    returns. *)
Definition __libc_start_main (o : os) (c : client) : sys (list (string * Z) * client * Z) :=
  t <- resolve o hooks ;;
  let c := list_init_socks c in
  sact SysMain ;;; sret (t, c, os_main o).

(** ** The process *)

(** The open descriptors of the process, the level-ip descriptors it has closed, and
    the library. *)
Record process := mk_process { files : gset Z; gone : gset Z; lib : client }.

(** The sockets of the library that are in use. *)
Definition in_use (s : process) (n : lvlip_sock) : Prop :=
  n ∈ lvlip_socks (lib s) /\ lv_live n = true /\ lv_fd n ∉ gone s.

(** The connections a call makes and ends. *)
Definition makes (log : list sysact) : gset Z :=
  list_to_set (omap (fun a => match a with SysConnect fd _ => Some fd | _ => None end) log).
Definition ends (log : list sysact) : gset Z :=
  list_to_set (omap (fun a => match a with SysClose fd => Some fd | _ => None end) log).
Definition closes {A} (f : fcall A) : bool := match f with FClose => true | _ => false end.

(** The server hands out numbers that the process does not have. *)
Definition new_numbers (c c' : client) : Prop :=
  forall m x, m ∈ lvlip_socks c -> lvlip_socks c' = lvlip_socks c ++ [x] -> lv_live x = true -> lv_fd m <> lv_fd x.

(** What a process does, one call at a time: it makes a socket, calls a function of the
    library on a descriptor of level-ip, goes through a turn of [poll], opens a file or
    closes one.  The kernel hands out descriptors that are not open; the process
    closes a level-ip descriptor once and leaves the library's own descriptors alone. *)
Inductive pstep : process -> process -> Prop :=
  | P_socket o g pid domain type protocol s log c fd :
      is_socket_supported domain type protocol = true ->
      os_socket o ∉ files s -> new_numbers (lib s) c ->
      call_socket o g pid domain type protocol (lib s) = (log, Some (inr (c, fd))) ->
      pstep s (mk_process (files s ∪ makes log) (gone s) c)
  | P_call A (f : fcall A) o v g pid fd n s log c r :
      lvlip_get_sock fd (lib s) = Found n -> (closes f = true -> fd ∉ gone s) ->
      os_socket o ∉ files s -> new_numbers (lib s) c ->
      call_fd o v f g pid fd (lib s) = (log, Some (inr (c, r))) ->
      pstep s (mk_process ((files s ∪ makes log) ∖ ends log) (if closes f then {[fd]} ∪ gone s else gone s) c)
  | P_poll o v g pid sock lvl timeout blocking events fds s log c r :
      perform o (lib s) v (poll_turn g pid sock lvl timeout blocking events fds (lib s)) = (log, Some (inr (c, r))) ->
      pstep s (mk_process (files s) (gone s) c)
  | P_open d s : d ∉ files s -> pstep s (mk_process ({[d]} ∪ files s) (gone s) (lib s))
  | P_shut d s :
      (forall n, in_use s n -> lv_lvlfd n <> d) ->
      pstep s (mk_process (files s ∖ {[d]}) (gone s) (lib s)).

(** Sockets in use have connections of their own, which are open; descriptors name
    one socket. *)
Record connected (s : process) : Prop := {
  conn_open : forall n, in_use s n -> lv_lvlfd n ∈ files s;
  conn_apart : forall i j n m,
    lvlip_socks (lib s) !! i = Some n -> lvlip_socks (lib s) !! j = Some m -> i <> j ->
    in_use s n -> in_use s m -> lv_lvlfd n <> lv_lvlfd m;
  conn_fds : forall i j n m,
    lvlip_socks (lib s) !! i = Some n -> lvlip_socks (lib s) !! j = Some m -> i <> j ->
    lv_live n = true -> lv_live m = true -> lv_fd n <> lv_fd m
}.

(** *** What the calls do to the list *)

Lemma init_socket_ok o name fd log :
  init_socket o name = (log, Some (inr fd)) ->
  fd = os_socket o /\ log = [SysSocket AF_UNIX SOCK_STREAM 0; SysConnect fd (sun_path name)].
Proof.
  unfold init_socket, sbind, sact, sexit, sret. intros H. repeat (case_match; simplify_eq/=); auto.
Qed.

Lemma set_errno_socks v c : lvlip_socks (set_errno v c) = lvlip_socks c.
Proof. done. Qed.

Lemma call_socket_adds o g pid d t p c log c' fd :
  is_socket_supported d t p = true ->
  call_socket o g pid d t p c = (log, Some (inr (c', fd))) ->
  exists n, lvlip_socks c' = lvlip_socks c ++ [n] /\ lv_lvlfd n = os_socket o /\ makes log = {[os_socket o]}.
Proof.
  intros Hs. unfold call_socket. rewrite Hs. simpl negb. cbv iota.
  destruct (init_socket o lvlip_path) as [l [[rc|lv]|]] eqn:Hi; [intros H; simplify_eq/=| |intros H; simplify_eq/=].
  destruct (init_socket_ok _ _ _ _ Hi) as [-> ->].
  unfold socket. rewrite Hs. simpl negb. cbv iota. unfold transmit_lvlip, perform, sbind, sact, sret.
  intros H. repeat (case_match; simplify_eq/=); (eexists; split_and!; [reflexivity|done|]); unfold makes; cbn; set_solver.
Qed.

(** Which functions send a request, and which may get a new socket. *)
Definition speaks {A} (f : fcall A) : bool :=
  match f with
  | FSetsockopt | FAccept _ None => false
  | FFcntl cmd _ => (cmd =? F_GETFL) || (cmd =? F_SETFL)
  | FGetsockopt _ _ _ optlen => negb (0 <? optlen)
  | _ => true
  end.
Definition accepts {A} (f : fcall A) : bool := match f with FAccept _ _ => true | _ => false end.

(** What a response makes of the library's list. *)
Definition list_kept (c c' : client) : Prop := lvlip_socks c' = lvlip_socks c /\ lvlip_socks_count c' = lvlip_socks_count c.
Definition list_grown (lvlfd' : Z) (c c' : client) : Prop :=
  exists fd, lvlip_socks c' = lvlip_socks c ++ [mk_lv lvlfd' fd true] /\ lvlip_socks_count c' = lvlip_socks_count c + 1.
Definition on_connection {A} (lv lvlfd' : Z) (f : fcall A) (c : client) (a : action A) : Prop :=
  match a with
  | Rpc l _ _ k => speaks f = true /\ l = lv /\
      forall x, list_kept c (k x).1 \/ (accepts f = true /\ list_grown lvlfd' c (k x).1)
  | Local c' _ => speaks f = false /\ lvlip_socks c' = lvlip_socks c /\ closes f = false /\ accepts f = false
  | Crash | Overrun _ => speaks f = false
  | Kernel => False
  end.
Lemma fcall_on_connection {A} (f : fcall A) g pid lvlfd' fd c n :
  lvlip_get_sock fd c = Found n -> on_connection (lv_lvlfd n) lvlfd' f c (fcall_action f g pid lvlfd' fd c).
Proof.
  intros Hn. destruct f; cbn [fcall_action];
    unfold connect, bind, listen, close, accept, write, read, sendto, recvfrom, fcntl, setsockopt, getsockopt, getpeername,
      getsockname, name_call, with_sock, transmit_lvlip; rewrite Hn; cbn [on_connection speaks]; try done;
    try (split; [done|]; split; [done|]; intros x; cbv zeta; repeat case_match; by left).
  - destruct addr_len as [k|]; [|done]. cbn [on_connection]. split; [done|]. split; [done|]. intros x. cbv zeta.
    repeat case_match; try (by left). right. split; [done|]. by eexists.
  - destruct (cmd =? F_GETFL) eqn:E1; [|destruct (cmd =? F_SETFL) eqn:E2]; cbn [on_connection speaks]; rewrite ?E1, ?E2; try done;
      (split; [done|]; split; [done|]; intros x; cbv zeta; repeat case_match; by left).
  - destruct (0 <? optlen) eqn:E; cbn [on_connection speaks]; rewrite E; [done|]. split; [done|]. split; [done|]. intros x. cbv zeta. repeat case_match; by left.
Qed.

(** What a function does after its exchange of messages. *)
Definition afterwards {A} (f : fcall A) (o : os) (lv : Z) (tail : list sysact) : Prop :=
  if closes f then tail = [SysClose lv]
  else if accepts f then
    tail = [] \/ tail = [SysSocket AF_UNIX SOCK_STREAM 0] \/
    tail = [SysSocket AF_UNIX SOCK_STREAM 0; SysConnect (os_socket o) (sun_path lvlip_path)]
  else tail = [].
Lemma init_socket_log o :
  let log := (init_socket o lvlip_path).1 in
  log = [SysSocket AF_UNIX SOCK_STREAM 0] \/ log = [SysSocket AF_UNIX SOCK_STREAM 0; SysConnect (os_socket o) (sun_path lvlip_path)].
Proof. unfold init_socket, sbind, sact, sexit, sret. repeat case_match; simplify_eq/=; auto. Qed.

(** A function on a socket exchanges one request and one response on the connection of
    that socket, and on no other. *)
Lemma call_fd_log {A} (f : fcall A) o v g pid fd c n :
  lvlip_get_sock fd c = Found n ->
  let log := (call_fd o v f g pid fd c).1 in
  if speaks f then exists msg rlen tail, log = SysWrite (lv_lvlfd n) msg :: SysRead (lv_lvlfd n) rlen :: tail /\ afterwards f o (lv_lvlfd n) tail
  else log = [].
Proof.
  intros Hn. pose proof (fcall_on_connection f g pid (os_socket o) fd c n Hn) as H. unfold call_fd, after_close, after_accept.
  destruct (fcall_action f g pid (os_socket o) fd c) as [| | |c' r|l msg rlen k]; cbn [on_connection] in H; [done|by rewrite H| | |].
  - by rewrite H.
  - destruct H as (-> & _ & Hc & Ha). destruct f; done.
  - destruct H as (-> & -> & _). exists msg, rlen. cbn [perform sbind sact sret].
    destruct f; try (exists []; by split).
    + exists [SysClose (lv_lvlfd n)]. rewrite Hn. by split.
    + pose proof (init_socket_log o) as T. unfold afterwards. cbn [closes accepts]. cbn [app]. destruct (_ =? _); [exists []; split; [done|by left]|].
      destruct (init_socket o lvlip_path) as [l [[rc|x]|]]; cbn [sbind sret fst] in *; rewrite ?app_nil_r; exists l; (split; [done|]); right; exact T.
Qed.

(** The list, and the connections made and ended. *)
Lemma call_fd_list {A} (f : fcall A) o v g pid fd c n log c' r :
  lvlip_get_sock fd c = Found n -> call_fd o v f g pid fd c = (log, Some (inr (c', r))) ->
  ends log = (if closes f then {[lv_lvlfd n]} else ∅) /\
  ((lvlip_socks c' = lvlip_socks c /\ makes log = ∅) \/
   (closes f = false /\ makes log = {[os_socket o]} /\
    exists x, lvlip_socks c' = lvlip_socks c ++ [x] /\ lv_lvlfd x = os_socket o)).
Proof.
  intros Hn. pose proof (fcall_on_connection f g pid (os_socket o) fd c n Hn) as H. unfold call_fd, after_close, after_accept.
  destruct (fcall_action f g pid (os_socket o) fd c) as [| | |c1 r1|l msg rlen k]; cbn [on_connection] in H; [done|done|done| |]; cbn [perform sbind sact sret].
  - destruct H as (_ & Hl & Hc & Ha). rewrite Hc. destruct f; try done; intros E; simplify_eq/=; (split; [done|by left]).
  - destruct H as (_ & -> & Hk). specialize (Hk (os_reply o)). destruct (k (os_reply o)) as [c1 r1] eqn:Ek. cbn in Hk.
    destruct (accepts f) eqn:Ha.
    + destruct f; try done. cbn [fst app]. destruct (Z.eqb_spec (lvlip_socks_count c1) (lvlip_socks_count c)) as [Ec|Ec].
      * intros E. simplify_eq/=. split; [done|]. left. destruct Hk as [[? ?]|[_ (fd' & _ & ?)]]; [done|lia].
      * destruct Hk as [[_ ?]|[_ (fd' & Hs & _)]]; [done|].
        destruct (init_socket o lvlip_path) as [l0 [[rc|x]|]] eqn:Hi; cbn [sbind sret]; intros E; simplify_eq/=.
        destruct (init_socket_ok _ _ _ _ Hi) as [-> ->]. unfold ends, makes. cbn. split; [set_solver|].
        right. split; [done|]. split; [set_solver|]. eexists. by split.
    + destruct Hk as [[Hs _]|[? _]]; [|done].
      destruct f; try done; rewrite ?Hn; intros E; cbn in E; simplify_eq/=; unfold ends, makes; cbn; (split; [set_solver|by left]).
Qed.
Lemma poll_turn_list o v g pid sock lvl timeout blocking events fds c log c' r :
  perform o c v (poll_turn g pid sock lvl timeout blocking events fds c) = (log, Some (inr (c', r))) -> lvlip_socks c' = lvlip_socks c.
Proof.
  unfold poll_turn, perform, sbind, sact, sret. intros H. repeat (case_match; simplify_eq/=); done.
Qed.

Lemma find_sock_spec fd l n :
  find_sock fd l = Found n -> n ∈ l /\ lv_live n = true /\ lv_fd n = fd.
Proof.
  induction l as [|s l IH]; [done|]. simpl. case_match eqn:Hl; [done|]. apply negb_false_iff in Hl.
  case_match eqn:Hf; [intros [= <-]; set_solver by lia|]. intros H. destruct (IH H) as (? & ? & ?). set_solver.
Qed.

(** *** The invariant *)

(** Two positions of a list with one more element. *)
Lemma snoc_cases {A} (l : list A) x i a :
  (l ++ [x]) !! i = Some a -> (l !! i = Some a /\ i < length l)%nat \/ (i = length l /\ a = x).
Proof.
  intros H. apply lookup_app_Some in H as [H|[Hi H]]; [left; eauto using lookup_lt_Some|right].
  apply list_lookup_singleton_Some in H as [? <-]. split; [lia|done].
Qed.

Lemma connected_add s c n :
  connected s -> lvlip_socks c = lvlip_socks (lib s) ++ [n] -> lv_lvlfd n ∉ files s -> new_numbers (lib s) c ->
  connected (mk_process (files s ∪ {[lv_lvlfd n]}) (gone s) c).
Proof.
  intros [Ho Ha Hf] Hc Hn Hnew. split; unfold in_use in *; simpl; rewrite Hc.
  - intros m (Hm & Hl & Hg). apply elem_of_app in Hm as [Hm|Hm]; set_solver.
  - intros i j a b Hi Hj Hij (_ & La & Ga) (_ & Lb & Gb).
    apply snoc_cases in Hi as [[Hi Li]|[-> ->]], Hj as [[Hj Lj]|[-> ->]]; [| | |done].
    + apply list_elem_of_lookup_2 in Hi as Ea. apply list_elem_of_lookup_2 in Hj as Eb. by apply (Ha i j).
    + intros E. apply Hn. rewrite <- E. apply Ho. by apply list_elem_of_lookup_2 in Hi.
    + intros E. apply Hn. rewrite E. apply Ho. by apply list_elem_of_lookup_2 in Hj.
  - intros i j a b Hi Hj Hij La Lb.
    apply snoc_cases in Hi as [[Hi Li]|[-> ->]], Hj as [[Hj Lj]|[-> ->]]; [| | |done].
    + by apply (Hf i j).
    + apply (Hnew a n); [by apply list_elem_of_lookup_2 in Hi|done|done].
    + apply not_eq_sym, (Hnew b n); [by apply list_elem_of_lookup_2 in Hj|done|done].
Qed.

(** Fewer sockets in use and the same list: what they use must stay open. *)
Lemma connected_less s F G c :
  connected s -> lvlip_socks c = lvlip_socks (lib s) ->
  (forall n, in_use (mk_process F G c) n -> in_use s n /\ lv_lvlfd n ∈ F) ->
  connected (mk_process F G c).
Proof.
  intros [Ho Ha Hf] Hc Hin. split; simpl.
  - intros n Hn. by apply Hin.
  - rewrite Hc. intros i j a b Hi Hj Hij Ua Ub. eapply (Ha i j); eauto; by apply Hin.
  - by rewrite Hc.
Qed.

Lemma in_use_same s F c n : lvlip_socks c = lvlip_socks (lib s) -> in_use (mk_process F (gone s) c) n -> in_use s n.
Proof. unfold in_use. simpl. by intros ->. Qed.

(** The connection of the closed socket belongs to no other socket in use. *)
Lemma connected_close s c fd n :
  connected s -> lvlip_get_sock fd (lib s) = Found n -> fd ∉ gone s -> lvlip_socks c = lvlip_socks (lib s) ->
  connected (mk_process (files s ∖ {[lv_lvlfd n]}) ({[fd]} ∪ gone s) c).
Proof.
  intros Hc Hget Hg Heq. apply (connected_less s); [done..|].
  intros m (Hm & Hl & Hng). simpl in *. rewrite Heq in Hm.
  assert (in_use s m) as Hu by (split_and!; set_solver). split; [done|].
  apply elem_of_difference. split; [by apply (conn_open s)|]. intros E%elem_of_singleton.
  apply find_sock_spec in Hget as (Hn & Hnl & <-).
  apply list_elem_of_lookup in Hm as [i Hi]. apply list_elem_of_lookup in Hn as [j Hj].
  destruct (decide (i = j)) as [->|Hij]; [simplify_eq; set_solver|].
  eapply (conn_apart s Hc i j); eauto. split_and!; eauto using list_elem_of_lookup_2.
Qed.
Lemma connected_same s F c : connected s -> lvlip_socks c = lvlip_socks (lib s) -> files s ⊆ F -> connected (mk_process F (gone s) c).
Proof.
  intros Hc Heq HF. apply (connected_less s); [done..|]. intros n Hn. pose proof (in_use_same _ _ _ _ Heq Hn) as Hu.
  split; [done|]. by apply HF, (conn_open s).
Qed.

Lemma pstep_connected s s' : pstep s s' -> connected s -> connected s'.
Proof.
  intros Hs Hc. destruct Hs as [o ????? s log c fd Hsup Hfree Hnew Hcall|A f o v ?? fd n s log c r Hget Hg Hfree Hnew Hcall
                               |?????????? s ? c ? Hcall|d s Hd|d s Hd].
  - destruct (call_socket_adds _ _ _ _ _ _ _ _ _ _ Hsup Hcall) as (n & Hl & Hlv & ->).
    rewrite <- Hlv in *. by apply connected_add.
  - destruct (call_fd_list _ _ _ _ _ _ _ _ _ _ _ Hget Hcall) as [-> [[Heq ->]|(-> & -> & x & Hl & Hlv)]].
    + rewrite union_empty_r_L. destruct (closes f); [by apply connected_close; auto|]. apply connected_same; [done..|set_solver].
    + rewrite difference_empty_L, <- Hlv in *. by apply connected_add.
  - apply connected_same; [done|by eapply poll_turn_list|done].
  - apply connected_same; [done..|set_solver].
  - apply (connected_less s); [done..|]. intros n Hn. apply in_use_same in Hn; [|done].
    split; [done|]. pose proof (conn_open s Hc n Hn). pose proof (Hd n Hn). set_solver.
Qed.

(** A process whose library has just been started. *)
Definition started (s : process) : Prop := lvlip_socks (lib s) = [].
Lemma start_empty o c log t c' rc : __libc_start_main o c = (log, Some (inr (t, c', rc))) -> lvlip_socks c' = [].
Proof.
  unfold __libc_start_main. destruct (resolve o hooks) as [l [[|]|]]; cbn; intros H; by simplify_eq.
Qed.

Lemma process_connected s s' : rtc pstep s s' -> started s -> connected s'.
Proof.
  intros H Hs. assert (connected s) as Hc.
  { unfold started in Hs. split; unfold in_use; rewrite Hs; intros; set_solver by done. }
  clear Hs. induction H; eauto using pstep_connected.
Qed.

(** Found descriptors that were not closed are in use. *)
Lemma found_in_use s fd n : lvlip_get_sock fd (lib s) = Found n -> fd ∉ gone s -> in_use s n /\ lv_fd n = fd.
Proof. intros H Hg. apply find_sock_spec in H as (? & ? & <-). by split. Qed.

(** A second [close] of a descriptor writes to the descriptor number of the closed
    connection again and closes it again, whatever the process has opened under that
    number since. *)
Lemma close_twice o o' v g pid fd c n log c1 r :
  lvlip_get_sock fd c = Found n -> call_fd o v FClose g pid fd c = (log, Some (inr (c1, r))) ->
  exists m rlen, (call_fd o' v FClose g pid fd c1).1 = [SysWrite (lv_lvlfd n) m; SysRead (lv_lvlfd n) rlen; SysClose (lv_lvlfd n)].
Proof.
  intros H E. assert (lvlip_get_sock fd c1 = Found n) as H1.
  { unfold lvlip_get_sock. destruct (call_fd_list _ _ _ _ _ _ _ _ _ _ _ H E) as [_ [[-> _]|[? _]]]; [exact H|done]. }
  destruct (call_fd_log FClose o' v g pid fd c1 n H1) as (m & rlen & tail & -> & ->). by exists m, rlen.
Qed.

(** A process without a server does not survive the call. *)
Lemma no_server_exits o g pid domain type protocol c :
  is_socket_supported domain type protocol = true -> os_socket o = -1 \/ os_connect o = -1 ->
  exists log, call_socket o g pid domain type protocol c = (log, Some (inl EXIT_FAILURE)).
Proof.
  intros Hs Ho. unfold call_socket, init_socket, sbind, sact, sexit, sret. rewrite Hs. simpl negb. cbv iota.
  repeat case_match; simplify_eq/=; try (by eexists); exfalso; lia.
Qed.

End Preload.
