(* ===== verification/IpcWire.v ===== *)
(** What is written into a message is what is read from it on the other side. *)
From S2P Require Import Prelude TcpTypes TcpApi World SocketApi Stack Ipc Client.
Import TcpTypes TcpApi World SocketApi Stack Ipc.

Module IpcWire.

(** ** Loads and stores *)

Lemma length_st64 b o v : length (st64 b o v) = length b.
Proof. unfold st64. by rewrite !length_st32. Qed.
Lemma length_alloca g n : length (alloca g n) = Z.to_nat n.
Proof. unfold alloca. rewrite length_take, length_app, length_replicate. lia. Qed.
Lemma length_put_msg type pid r : length (put_msg type pid r) = length r.
Proof. unfold put_msg. by autorewrite with mem. Qed.
Lemma length_put_err rc err r : length (put_err rc err r) = length r.
Proof. unfold put_err. by autorewrite with mem. Qed.
Lemma length_put_rc rc r : length (put_rc rc r) = length r.
Proof. unfold put_rc. destruct (rc <? 0); apply length_put_err. Qed.
#[export] Hint Rewrite length_st64 length_alloca length_put_msg length_put_err length_put_rc @length_replicate : mem.

Lemma ld64_st64_eq b o v : (o + 7 < length b)%nat -> ld64 (st64 b o v) o = u64 v.
Proof.
  intros H. unfold ld64, st64. rewrite ld32_st32_ne, !ld32_st32_eq by (autorewrite with mem; lia). ulia.
Qed.
Lemma ld64_st64_ne b o o' v : (o + 8 <= o' \/ o' + 8 <= o)%nat -> ld64 (st64 b o v) o' = ld64 b o'.
Proof. intros H. unfold ld64, st64. by rewrite !ld32_st32_ne by lia. Qed.
Lemma ld64_st32_ne b o o' v : (o + 4 <= o' \/ o' + 8 <= o)%nat -> ld64 (st32 b o v) o' = ld64 b o'.
Proof. intros H. unfold ld64. by rewrite !ld32_st32_ne by lia. Qed.
Lemma ld64_st16_ne b o o' v : (o + 2 <= o' \/ o' + 8 <= o)%nat -> ld64 (st16 b o v) o' = ld64 b o'.
Proof. intros H. unfold ld64. by rewrite !ld32_st16_ne by lia. Qed.
Lemma ld32_st64_ne b o o' v : (o + 8 <= o' \/ o' + 4 <= o)%nat -> ld32 (st64 b o v) o' = ld32 b o'.
Proof. intros H. unfold st64. by rewrite !ld32_st32_ne by lia. Qed.
Lemma ld16_st64_ne b o o' v : (o + 8 <= o' \/ o' + 2 <= o)%nat -> ld16 (st64 b o v) o' = ld16 b o'.
Proof. intros H. unfold st64. by rewrite !ld16_st32_ne by lia. Qed.
Lemma ld8_st64_ne b o o' v : (o + 8 <= o' \/ o' < o)%nat -> ld8 (st64 b o v) o' = ld8 b o'.
Proof. intros H. unfold st64. by rewrite !ld8_st32_ne by lia. Qed.
Lemma ld16_st_bytes_ne b o o' bs : (o + length bs <= o' \/ o' + 2 <= o)%nat -> ld16 (st_bytes b o bs) o' = ld16 b o'.
Proof. intros H. unfold ld16. by rewrite !ld8_st_bytes_ne by lia. Qed.
Lemma ld32_st_bytes_ne b o o' bs : (o + length bs <= o' \/ o' + 4 <= o)%nat -> ld32 (st_bytes b o bs) o' = ld32 b o'.
Proof. intros H. unfold ld32. by rewrite !ld16_st_bytes_ne by lia. Qed.
Lemma ld64_st_bytes_ne b o o' bs : (o + length bs <= o' \/ o' + 8 <= o)%nat -> ld64 (st_bytes b o bs) o' = ld64 b o'.
Proof. intros H. unfold ld64. by rewrite !ld32_st_bytes_ne by lia. Qed.
Lemma ld_bytes_st16_ne b o v o' n : (o + 2 <= o' \/ o' + n <= o)%nat -> ld_bytes (st16 b o v) o' n = ld_bytes b o' n.
Proof. intros H. apply ld_bytes_ext. intros i Hi. apply ld8_st16_ne; lia. Qed.
Lemma ld_bytes_st32_ne b o v o' n : (o + 4 <= o' \/ o' + n <= o)%nat -> ld_bytes (st32 b o v) o' n = ld_bytes b o' n.
Proof. intros H. apply ld_bytes_ext. intros i Hi. apply ld8_st32_ne; lia. Qed.
Lemma ld_bytes_st64_ne b o v o' n : (o + 8 <= o' \/ o' + n <= o)%nat -> ld_bytes (st64 b o v) o' n = ld_bytes b o' n.
Proof. intros H. apply ld_bytes_ext. intros i Hi. apply ld8_st64_ne; lia. Qed.
Lemma ld_bytes_st_bytes_ne b o bs o' n :
  (o + length bs <= o' \/ o' + n <= o)%nat -> ld_bytes (st_bytes b o bs) o' n = ld_bytes b o' n.
Proof. intros H. apply ld_bytes_ext. intros i Hi. apply ld8_st_bytes_ne; lia. Qed.
Lemma ld_bytes_st_bytes_front b o bs n :
  (o + length bs <= length b)%nat -> (n <= length bs)%nat -> ld_bytes (st_bytes b o bs) o n = take n bs.
Proof. intros H Hn. rewrite <- (ld_bytes_take _ _ n (length bs)) by done. by rewrite ld_bytes_st_bytes. Qed.

Lemma st_bytes_spec b o bs : (o + length bs <= length b)%nat -> st_bytes b o bs = take o b ++ bs ++ drop (o + length bs) b.
Proof.
  intros H. unfold st_bytes. apply list_eq. intros i. destruct (decide (i < o)%nat).
  { rewrite list_lookup_inserts_lt, lookup_app_l, lookup_take_lt by (rewrite ?length_take; lia). done. }
  rewrite (lookup_app_r (take o b)), length_take_le by (rewrite ?length_take; lia).
  destruct (decide (i < o + length bs)%nat).
  - rewrite list_lookup_inserts, lookup_app_l by lia. done.
  - rewrite list_lookup_inserts_ge, lookup_app_r, lookup_drop by lia. f_equal. lia.
Qed.

(** [front n a b]: the first [n] bytes are the same. *)
Definition front (n : nat) (a b : list Z) : Prop := forall i, (i < n)%nat -> ld8 a i = ld8 b i.

Lemma front_st_bytes b bs : (length bs <= length b)%nat -> front (length bs) (st_bytes b 0 bs) bs.
Proof.
  intros H i Hi. destruct (lookup_lt_is_Some_2 bs i Hi) as [v E]. rewrite (ld8_st_bytes_eq b 0 i) by lia. done.
Qed.
Section Front.
Context {n : nat} {a b : list Z} (F : front n a b).
Lemma front_ld16 o : (o + 2 <= n)%nat -> ld16 a o = ld16 b o.
Proof. intros H. unfold ld16. by rewrite !F by lia. Qed.
Lemma front_ld32 o : (o + 4 <= n)%nat -> ld32 a o = ld32 b o.
Proof. intros H. unfold ld32. by rewrite !front_ld16 by lia. Qed.
Lemma front_ld64 o : (o + 8 <= n)%nat -> ld64 a o = ld64 b o.
Proof. intros H. unfold ld64. by rewrite !front_ld32 by lia. Qed.
Lemma front_ld_int o : (o + 4 <= n)%nat -> ld_int a o = ld_int b o.
Proof. intros H. unfold ld_int. by rewrite front_ld32 by lia. Qed.
Lemma front_ld_bytes o k : (o + k <= n)%nat -> ld_bytes a o k = ld_bytes b o k.
Proof. intros H. apply ld_bytes_ext. intros i Hi. apply F. lia. Qed.
Lemma front_type : (2 <= n)%nat -> msg_type a = msg_type b.
Proof. apply (front_ld16 0). Qed.
Lemma front_pid : (6 <= n)%nat -> msg_pid a = msg_pid b.
Proof. apply (front_ld_int 2). Qed.
End Front.

Lemma s32_u32 x : s32 (u32 x) = s32 x. Proof. ulia. Qed.

Definition is_int (x : Z) : Prop := -2147483648 <= x < 2147483648.
Lemma s32_id x : is_int x -> s32 x = x. Proof. unfold is_int. intros. ulia. Qed.
Lemma ld_int_st32 b o v : (o + 3 < length b)%nat -> is_int v -> ld_int (st32 b o v) o = v.
Proof. intros H I. unfold ld_int. rewrite ld32_st32_eq, s32_u32 by done. by apply s32_id. Qed.

Lemma ld_int_st32_ne b o o' v : (o + 4 <= o' \/ o' + 4 <= o)%nat -> ld_int (st32 b o v) o' = ld_int b o'.
Proof. intros H. unfold ld_int. by rewrite ld32_st32_ne. Qed.
Lemma ld_int_st64_ne b o o' v : (o + 8 <= o' \/ o' + 4 <= o)%nat -> ld_int (st64 b o v) o' = ld_int b o'.
Proof. intros H. unfold ld_int. by rewrite ld32_st64_ne. Qed.
Lemma ld_int_st_bytes_ne b o o' bs : (o + length bs <= o' \/ o' + 4 <= o)%nat -> ld_int (st_bytes b o bs) o' = ld_int b o'.
Proof. intros H. unfold ld_int. by rewrite ld32_st_bytes_ne. Qed.

(** [sizes] unfolds the constants, [fits] proves that a store is inside a message,
    [loads] moves a load through the stores of a message under construction. *)
Ltac sizes :=
  unfold Client.RCBUF_LEN, Client.flock_len, ipc_msg_len, ipc_err_len, ipc_socket_len, ipc_connect_len, ipc_bind_len,
    ipc_listen_len, ipc_accept_len, ipc_sendto_len, ipc_recvfrom_len, ipc_write_len, ipc_read_len, ipc_close_len,
    ipc_pollfd_len, ipc_poll_len, ipc_fcntl_len, ipc_sockopt_len, ipc_sockname_len, sa_data_len, IPC_BUFLEN,
    SOCKADDR_IN6_LEN in *.
Ltac fits := autorewrite with mem; sizes; lia.
Ltac loads :=
  repeat first
    [ rewrite ld_int_st32 by first [fits | assumption] | rewrite ld32_st32_eq by fits | rewrite ld64_st64_eq by fits
    | rewrite ld_int_st32_ne by lia | rewrite ld_int_st64_ne by lia | rewrite ld_int_st_bytes_ne by fits
    | rewrite ld32_st32_ne by lia | rewrite ld32_st64_ne by lia | rewrite ld32_st_bytes_ne by fits
    | rewrite ld64_st32_ne by lia | rewrite ld64_st64_ne by lia | rewrite ld64_st_bytes_ne by fits
    | rewrite ld_bytes_st32_ne by lia | rewrite ld_bytes_st64_ne by lia | rewrite ld_bytes_st_bytes_ne by fits ].

(** ** Headers *)

Definition headed (type pid : Z) (m : list Z) : Prop := msg_type m = type /\ msg_pid m = pid.

Lemma headed_put_msg type pid m : (6 <= length m)%nat -> is_u16 type -> is_int pid -> headed type pid (put_msg type pid m).
Proof.
  intros H Ht Hp. unfold headed, msg_type, msg_pid, put_msg. split; [|by apply ld_int_st32; [autorewrite with mem; lia|]].
  rewrite ld16_st32_ne, ld16_st16_eq by lia. by apply u16_id.
Qed.
Section Headed.
Context {type pid : Z} {m : list Z} (H : headed type pid m).
Lemma headed_ext m' : (forall i, (i < 6)%nat -> ld8 m' i = ld8 m i) -> headed type pid m'.
Proof. intros E. destruct H as [<- <-]. split; [by apply (front_type (n := 6)); [|lia]|by apply (front_pid (n := 6))]. Qed.
Lemma headed_st16 o v : (6 <= o)%nat -> headed type pid (st16 m o v).
Proof. intros Ho. apply headed_ext. intros i Hi. apply ld8_st16_ne; lia. Qed.
Lemma headed_st32 o v : (6 <= o)%nat -> headed type pid (st32 m o v).
Proof. intros Ho. apply headed_ext. intros i Hi. apply ld8_st32_ne. lia. Qed.
Lemma headed_st64 o v : (6 <= o)%nat -> headed type pid (st64 m o v).
Proof. intros Ho. apply headed_ext. intros i Hi. apply ld8_st64_ne. lia. Qed.
Lemma headed_st_bytes o bs : (6 <= o)%nat -> headed type pid (st_bytes m o bs).
Proof. intros Ho. apply headed_ext. intros i Hi. apply ld8_st_bytes_ne. lia. Qed.
End Headed.
Lemma headed_put_err type pid m rc err : headed type pid m -> headed type pid (put_err rc err m).
Proof. intros H. unfold put_err. apply headed_st32; [apply headed_st32|]; auto with lia. Qed.
Lemma headed_put_rc type pid m rc : headed type pid m -> headed type pid (put_rc rc m).
Proof. intros H. unfold put_rc. destruct (rc <? 0); by apply headed_put_err. Qed.
Lemma headed_put_pollfds type pid fds : forall m o, (6 <= o)%nat -> headed type pid m -> headed type pid (put_pollfds m o fds).
Proof.
  induction fds as [|p fds IH]; intros m o Ho H; cbn [put_pollfds]; [done|].
  apply IH; [lia|]. apply headed_st16; [apply headed_st16; [apply headed_st32|]|]; auto with lia.
Qed.
Lemma headed_new_msg g len type pid : 0 <= len -> is_u16 type -> is_int pid -> headed type pid (Client.new_msg g len type pid).
Proof. intros Hl Ht Hp. apply headed_put_msg; [fits|done|done]. Qed.
Create HintDb headed.
#[export] Hint Resolve headed_st16 headed_st32 headed_st64 headed_st_bytes headed_put_err headed_put_rc headed_put_pollfds
  headed_put_msg headed_new_msg : headed.
#[export] Hint Extern 1 (_ <= _)%nat => lia : headed.
#[export] Hint Extern 1 (_ <= _) => lia : headed.
#[export] Hint Extern 1 (is_u16 _) => (unfold is_u16; vm_compute; split; congruence) : headed.
#[export] Hint Extern 1 (_ <= length _)%nat => fits : headed.
Lemma headed_front type pid m B n : headed type pid m -> front n B m -> (6 <= n)%nat -> headed type pid B.
Proof. intros H F Hn. eapply headed_ext; [done|]. intros i Hi. apply F. lia. Qed.
Lemma headed_expected type pid m : headed type pid m -> Client.expected type pid m = true.
Proof. intros [E1 E2]. unfold Client.expected. by rewrite E1, E2, !Z.eqb_refl. Qed.

(** ** A call through the library *)

Import Client.

(** What a return value becomes: a negative one is an error number. *)
Definition errno_of (c : client) (rc : Z) : client * Z := if rc <? 0 then (set_errno (- rc) c, -1) else (c, rc).
Definition ok_rc (rc : Z) : Prop := -2147483648 < rc < 2147483648.

(** [served lvlfd a pid c ok result]: the library function [a] sends one request on the
    connection [lvlfd], which fits into the server's buffer; the server that read it,
    whatever was in its buffer before and whatever another [read] would return, decodes
    it as a call of kind [c] by process [pid]; when the call returns something [ok], the
    response is not longer than what the library reads, whose function then ends with
    [result], and the connection stays open. *)
Definition served {A} (lvlfd : Z) (a : action A) (pid : Z) (c : syscall -> Prop) (ok : Z -> list Z -> list Z -> Prop)
    (result : Z -> list Z -> list Z -> client * A) : Prop :=
  exists msg rlen k, a = Rpc lvlfd msg rlen k /\ (0 < Z.of_nat (length msg) <= IPC_BUFLEN) /\
  forall buf g more, length buf = Z.to_nat IPC_BUFLEN ->
    exists sc reply, demux_ipc_socket_call g (st_bytes buf 0 msg) more = Ipc.Call pid sc reply /\ c sc /\
      forall rc out addr, ok rc out addr ->
        exists m response r, reply rc out addr = Sent m response r /\ r <> -1 /\
          Z.of_nat (length response) <= rlen /\ k (Some response) = result rc out addr.

(** By the bytes of the server's buffer. *)
Lemma served_short {A} lvlfd msg rlen (k : option (list Z) -> client * A) pid c ok result :
  0 < Z.of_nat (length msg) <= IPC_BUFLEN ->
  (forall B g more, length B = Z.to_nat IPC_BUFLEN -> front (length msg) B msg ->
     exists sc reply, demux_ipc_socket_call g B more = Ipc.Call pid sc reply /\ c sc /\
       forall rc out addr, ok rc out addr ->
         exists m response r, reply rc out addr = Sent m response r /\ r <> -1 /\
           Z.of_nat (length response) <= rlen /\ k (Some response) = result rc out addr) ->
  served lvlfd (Rpc lvlfd msg rlen k) pid c ok result.
Proof.
  intros Hl H. exists msg, rlen, k. split; [done|]. split; [done|]. intros buf g more Hb.
  apply H; [by rewrite length_st_bytes|]. apply front_st_bytes. lia.
Qed.

(** The response of [ipc_write_rc], as [transmit_lvlip] reads it. *)
Lemma put_rc_fields rc r : (14 <= length r)%nat -> ok_rc rc ->
  err_rc (put_rc rc r) = (if rc <? 0 then -1 else rc) /\ err_err (put_rc rc r) = (if rc <? 0 then - rc else 0).
Proof.
  intros Hl Hr. unfold put_rc, put_err, err_rc, err_err. unfold ok_rc in Hr.
  destruct (Z.ltb_spec rc 0); rewrite ld_int_st32_ne, !ld_int_st32 by (autorewrite with mem; unfold is_int; lia); done.
Qed.
Lemma transmit_response g g' m c lvlfd msg type pid rc :
  headed type pid msg -> is_u16 type -> is_int pid -> ok_rc rc ->
  exists k response, transmit_lvlip g c lvlfd msg = Rpc lvlfd msg RCBUF_LEN k /\
    ipc_write_rc g' m pid type rc = Sent m response 0 /\ Z.of_nat (length response) <= RCBUF_LEN /\
    k (Some response) = errno_of c rc.
Proof.
  intros H Ht Hp Hr. unfold transmit_lvlip, ipc_write_rc. do 2 eexists. split; [done|]. split; [done|].
  set (res := put_rc _ _). assert (Hl : length res = 14%nat) by (unfold res; fits).
  split; [rewrite Hl; done|]. cbv beta zeta. unfold read_into. rewrite take_ge by (rewrite Hl; sizes; lia).
  set (r := st_bytes _ _ _). assert (F : front 14 r res) by (rewrite <- Hl; apply front_st_bytes; fits).
  assert (Hh : headed type pid r) by (eapply headed_front; [|exact F|lia]; unfold res; auto with headed).
  destruct H as [E3 E4]. rewrite E3, E4, (headed_expected _ _ _ Hh). cbn [negb].
  destruct (put_rc_fields rc (put_msg type pid (alloca g' (ipc_msg_len + ipc_err_len)))) as [E1 E2]; [fits|done|].
  assert (R1 : err_rc r = if rc <? 0 then -1 else rc) by (rewrite <- E1; apply (front_ld_int F); lia).
  assert (R2 : err_err r = if rc <? 0 then - rc else 0) by (rewrite <- E2; apply (front_ld_int F); lia).
  rewrite R1, R2. unfold errno_of. destruct (Z.ltb_spec rc 0); [done|]. destruct (Z.eqb_spec rc (-1)); [lia|done].
Qed.

Lemma served_transmit g c lvlfd msg type pid sc :
  headed type pid msg -> (6 <= length msg)%nat -> Z.of_nat (length msg) <= IPC_BUFLEN -> is_u16 type -> is_int pid ->
  (forall B g more, headed type pid B -> front (length msg) B msg ->
     demux_ipc_socket_call g B more = Ipc.Call pid sc (fun rc _ _ => ipc_write_rc g B pid type rc)) ->
  served lvlfd (transmit_lvlip g c lvlfd msg) pid (eq sc) (fun rc _ _ => ok_rc rc) (fun rc _ _ => errno_of c rc).
Proof.
  intros Hh H6 Hl Ht Hp HD. apply served_short; [lia|]. intros B g' more HB F. do 2 eexists. split.
  { apply HD; [by eapply headed_front|done]. }
  split; [done|]. intros rc _ _ Hr. destruct (transmit_response g g' B c lvlfd msg type pid rc) as (k & res & E & E1 & E2 & E3); try done.
  injection E as <-. by exists B, res, 0.
Qed.

(** The branch of [demux_ipc_socket_call] for a message with header [H]. *)
Ltac dispatch H :=
  let Ht := fresh "Ht" in let Hp := fresh "Hp" in
  destruct H as [Ht Hp]; unfold demux_ipc_socket_call; rewrite Ht;
  cbv beta iota zeta delta [Z.eqb Pos.eqb IPC_SOCKET IPC_CONNECT IPC_WRITE IPC_READ IPC_CLOSE IPC_POLL IPC_FCNTL IPC_GETSOCKOPT
    IPC_GETPEERNAME IPC_GETSOCKNAME IPC_BIND IPC_SENDTO IPC_RECVFROM IPC_LISTEN IPC_ACCEPT];
  rewrite ?Hp.

Ltac at_front F := rewrite ?(front_ld_int F), ?(front_ld32 F), ?(front_ld64 F) by fits.

(** ** Calls with a plain result *)

Section Calls.
Context (g : list Z) (pid : Z) (c : client) (fd : Z) (sock : lvlip_sock).
Context (Hpid : is_int pid) (Hfd : is_int fd) (Hsock : lvlip_get_sock fd c = Found sock).

Lemma found_sock {A} (f : lvlip_sock -> action A) : with_sock fd c f = f sock.
Proof using Hsock. unfold with_sock. by rewrite Hsock. Qed.
Lemma pid_for_int : is_int (main_pid c) -> is_int (pid_for pid c).
Proof using Hpid. unfold pid_for. by destruct (main_pid c =? 0). Qed.

Lemma served_close : is_int (main_pid c) ->
  served (lv_lvlfd sock) (close g pid fd c) (pid_for pid c) (eq (Close fd)) (fun rc _ _ => ok_rc rc) (fun rc _ _ => errno_of c rc).
Proof using Hpid Hfd Hsock.
  intros Hm. apply pid_for_int in Hm. unfold close. rewrite found_sock. unfold new_msg.
  eapply (served_transmit _ _ _ _ IPC_CLOSE); [auto with headed|fits|fits|done|done|].
  intros B g' more H F. dispatch H. unfold ipc_close. rewrite Hp. cbv zeta. at_front F. by loads.
Qed.

Lemma served_listen n : is_int n ->
  served (lv_lvlfd sock) (listen g pid fd n c) pid (eq (Listen fd n)) (fun rc _ _ => ok_rc rc) (fun rc _ _ => errno_of c rc).
Proof using Hpid Hfd Hsock.
  intros Hn. unfold listen. rewrite found_sock. unfold new_msg.
  eapply (served_transmit _ _ _ _ IPC_LISTEN); [auto with headed|fits|fits|done|done|].
  intros B g' more H F. dispatch H. unfold ipc_listen. rewrite Hp. cbv zeta. at_front F. by loads.
Qed.

(** An address of [n] bytes, padded with zeros to the size of a [struct sockaddr_in6]. *)
Definition padded (addr : list Z) (n : Z) : list Z := st_bytes (replicate 28 0) 0 (ld_bytes addr 0 (Z.to_nat n)).
Lemma SA_COPY_LEN_range n : 0 <= n -> 0 <= SA_COPY_LEN n <= 28.
Proof using. intros. unfold SA_COPY_LEN, sa_data_len. destruct (Z.ltb_spec n 28); lia. Qed.
Lemma length_put_ipc_sockaddr m o addr n len : length (put_ipc_sockaddr m o addr n len) = length m.
Proof using. unfold put_ipc_sockaddr. by autorewrite with mem. Qed.
Lemma headed_put_ipc_sockaddr type p m o addr n len :
  headed type p m -> (6 <= o)%nat -> headed type p (put_ipc_sockaddr m o addr n len).
Proof using. intros H Ho. unfold put_ipc_sockaddr. auto with headed. Qed.
Lemma temp_addr_sent B m o addr n k : 0 <= n <= 28 -> (o + 32 <= k <= length m)%nat ->
  front k B (put_ipc_sockaddr m o addr n n) -> temp_addr B o n = Some (padded addr n).
Proof using.
  intros Hn Hl F. unfold temp_addr, padded. sizes. destruct (Z.ltb_spec 28 n); [lia|]. do 2 f_equal.
  rewrite (front_ld_bytes F) by lia. unfold put_ipc_sockaddr. rewrite ld_bytes_st32_ne by lia.
  rewrite ld_bytes_st_bytes_front by fits. rewrite take_ge by fits. done.
Qed.
Lemma sa_len_sent m o addr n len : (o + 32 <= length m)%nat -> is_u32 len -> ld32 (put_ipc_sockaddr m o addr n len) (o + 28) = len.
Proof using. intros Hl Hn. unfold put_ipc_sockaddr. rewrite ld32_st32_eq by fits. by apply u32_id. Qed.

Lemma served_connect addr n : 0 <= n ->
  served (lv_lvlfd sock) (connect g pid fd addr n c) pid (eq (Connect fd (padded addr (SA_COPY_LEN n)) (SA_COPY_LEN n)))
    (fun rc _ _ => ok_rc rc) (fun rc _ _ => errno_of c rc).
Proof using Hpid Hfd Hsock.
  intros Hn%SA_COPY_LEN_range. unfold connect. rewrite found_sock. set (k := SA_COPY_LEN n) in *. unfold new_msg.
  set (m := st32 _ 6 fd). assert (Lm : length m = 42%nat) by (unfold m; fits).
  eapply (served_transmit _ _ _ _ IPC_CONNECT); rewrite ?length_put_ipc_sockaddr, ?Lm;
    [apply headed_put_ipc_sockaddr; unfold m; auto with headed|lia|done|done|done|].
  intros B g' more H F. dispatch H. unfold ipc_connect. rewrite Hp. cbv zeta.
  assert (E : ld32 B 38 = k) by (rewrite (front_ld32 F) by lia; apply (sa_len_sent m 10); [lia|ulia]).
  rewrite E, (temp_addr_sent B m 10 addr k 42) by (done || lia).
  rewrite (front_ld_int F) by lia. unfold put_ipc_sockaddr, m. by loads.
Qed.
Lemma served_bind addr n : 0 <= n ->
  served (lv_lvlfd sock) (bind g pid fd addr n c) pid (eq (Bind fd (padded addr (SA_COPY_LEN n)) (SA_COPY_LEN n)))
    (fun rc _ _ => ok_rc rc) (fun rc _ _ => errno_of c rc).
Proof using Hpid Hfd Hsock.
  intros Hn%SA_COPY_LEN_range. unfold bind. rewrite found_sock. set (k := SA_COPY_LEN n) in *. unfold new_msg.
  set (m := st32 _ 6 fd). assert (Lm : length m = 42%nat) by (unfold m; fits).
  eapply (served_transmit _ _ _ _ IPC_BIND); rewrite ?length_put_ipc_sockaddr, ?Lm;
    [apply headed_put_ipc_sockaddr; unfold m; auto with headed|lia|done|done|done|].
  intros B g' more H F. dispatch H. unfold ipc_bind. rewrite Hp. cbv zeta.
  assert (E : ld32 B 38 = k) by (rewrite (front_ld32 F) by lia; apply (sa_len_sent m 10); [lia|ulia]).
  rewrite E, (temp_addr_sent B m 10 addr k 42) by (done || lia).
  rewrite (front_ld_int F) by lia. unfold put_ipc_sockaddr, m. by loads.
Qed.

Lemma served_fcntl_get flags :
  served (lv_lvlfd sock) (fcntl g pid fd F_GETFL flags c) pid (eq (Fcntl fd F_GETFL 0)) (fun rc _ _ => ok_rc rc) (fun rc _ _ => errno_of c rc).
Proof using Hpid Hfd Hsock.
  unfold fcntl. rewrite found_sock. cbn [Z.eqb F_GETFL Pos.eqb]. unfold new_msg.
  eapply (served_transmit _ _ _ _ IPC_FCNTL); [auto with headed|fits|fits|done|done|].
  intros B g' more H F. dispatch H. unfold ipc_fcntl. rewrite Hp. cbv zeta. at_front F.
  rewrite (ld_int_st32 _ 10) by first [fits|done]. by loads.
Qed.
Lemma served_fcntl_set flags : is_int flags ->
  served (lv_lvlfd sock) (fcntl g pid fd F_SETFL flags c) pid (eq (Fcntl fd F_SETFL flags)) (fun rc _ _ => ok_rc rc) (fun rc _ _ => errno_of c rc).
Proof using Hpid Hfd Hsock.
  intros Hf. unfold fcntl. rewrite found_sock. cbn [Z.eqb F_GETFL F_SETFL Pos.eqb]. unfold new_msg.
  eapply (served_transmit _ _ _ _ IPC_FCNTL); [auto with headed|fits|fits|done|done|].
  intros B g' more H F. dispatch H. unfold ipc_fcntl. rewrite Hp. cbv zeta. at_front F.
  rewrite (ld_int_st32_ne _ 14 10), (ld_int_st32 _ 10) by first [fits|done]. by loads.
Qed.

(** The data of a [sendto] is in the server's buffer completely. *)
Lemma served_sendto buf flags dest n : 0 <= n <= 28 -> Z.of_nat (length buf) <= 8138 ->
  served (lv_lvlfd sock) (sendto g pid fd buf flags dest n c) pid (eq (Sendto fd buf (padded dest n)))
    (fun rc _ _ => ok_rc rc) (fun rc _ _ => errno_of c rc).
Proof using Hpid Hfd Hsock.
  intros Hn Hl. unfold sendto. rewrite found_sock. cbv zeta. unfold new_msg.
  replace (SA_COPY_LEN n) with n by (unfold SA_COPY_LEN; sizes; destruct (Z.ltb_spec n 28); lia).
  set (m := st32 _ 18 flags). assert (Lm : length m = (54 + length buf)%nat) by (unfold m; fits).
  eapply (served_transmit _ _ _ _ IPC_SENDTO); rewrite ?length_st_bytes, ?length_put_ipc_sockaddr, ?Lm;
    [apply headed_st_bytes; [apply headed_put_ipc_sockaddr; unfold m; auto with headed|lia]|lia|fits|done|done|].
  intros B g' more H F. dispatch H. unfold ipc_sendto. rewrite Hp. cbv zeta.
  assert (F' : front 54 B (put_ipc_sockaddr m 22 dest n n)).
  { intros i Hi. rewrite F by lia. by apply ld8_st_bytes_ne; left. }
  assert (E : ld32 B 50 = n) by (rewrite (front_ld32 F') by lia; apply (sa_len_sent m 22); [lia|ulia]).
  assert (E' : ld64 B 10 = Z.of_nat (length buf)).
  { rewrite (front_ld64 F') by lia. unfold put_ipc_sockaddr, m. loads. ulia. }
  rewrite E, E', (temp_addr_sent B m 22 dest n 54), u32_id by (done || lia || ulia). sizes. destruct (Z.ltb_spec 8192 (6 + 48 + Z.of_nat (length buf))); [lia|].
  rewrite (front_ld_int F') by lia. rewrite (front_ld_bytes F) by lia.
  rewrite Nat2Z.id, ld_bytes_st_bytes by (rewrite length_put_ipc_sockaddr; lia).
  unfold put_ipc_sockaddr, m. by loads.
Qed.

(** ** Data *)

(** What fits into the server's buffer behind the header of a [write]. *)
Definition WRITE_HEAD : Z := 8174.

(** What the server writes when its second [read] returned [got]: the buffer was
    cleared, and the result of the [read] is not looked at. *)
Definition received (buf got : list Z) : list Z := resize (length buf) 0 (take (Z.to_nat WRITE_HEAD) buf ++ got).
Lemma assembled (buf got : list Z) k : (k <= length buf)%nat ->
  st_bytes (st_bytes (replicate (length buf) 0) 0 (take k buf)) k (take (length buf - k) got) = resize (length buf) 0 (take k buf ++ got).
Proof using.
  intros Hk. assert (L : length (take k buf) = k) by (rewrite length_take; lia).
  rewrite (st_bytes_spec (replicate _ _)) by (rewrite L, length_replicate; lia). rewrite take_0, app_nil_l, L, drop_replicate, Nat.add_0_l.
  rewrite st_bytes_spec by (rewrite length_app, length_replicate, L, length_take; lia).
  rewrite take_app_length' by done. rewrite resize_spec, take_app_ge, L by lia. rewrite <- app_assoc. f_equal. f_equal.
  rewrite drop_app_ge, L by lia. rewrite drop_replicate, length_app, L, length_take. f_equal. lia.
Qed.
Lemma received_all buf : Z.of_nat (length buf) > WRITE_HEAD -> received buf (drop (Z.to_nat WRITE_HEAD) buf) = buf.
Proof using. intros H. unfold received. rewrite take_drop. by rewrite resize_all. Qed.

Lemma write_decoded B g' p buf more :
  headed IPC_WRITE p B -> ld_int B 6 = fd -> ld64 B 10 = Z.of_nat (length buf) -> Z.of_nat (length buf) < STACK_SIZE ->
  ld_bytes B 18 (Nat.min (Z.to_nat WRITE_HEAD) (length buf)) = take (Z.to_nat WRITE_HEAD) buf ->
  demux_ipc_socket_call g' B more =
    let reply rc (_ _ : list Z) := ipc_write_rc g' B p IPC_WRITE rc in
    if WRITE_HEAD <? Z.of_nat (length buf) then
      match more with None => Finish (NoReply B (-1)) | Some got => Ipc.Call p (Write fd (received buf got)) reply end
    else Ipc.Call p (Write fd buf) reply.
Proof using.
  intros HH Efd Elen Hs Edata. dispatch HH. unfold ipc_write. rewrite Hp, Efd, Elen. cbv zeta. sizes.
  destruct (Z.leb_spec STACK_SIZE (Z.of_nat (length buf))); [lia|]. change (8192 - 12 - 6) with WRITE_HEAD. unfold WRITE_HEAD in *.
  destruct (Z.ltb_spec 8174 (Z.of_nat (length buf))).
  - destruct more as [got|]; [|done]. f_equal. f_equal. rewrite Nat.min_l in Edata by lia. rewrite Edata, Nat2Z.id.
    replace (Z.to_nat (Z.of_nat (length buf) - 8174)) with (length buf - Z.to_nat 8174)%nat by lia. apply assembled. lia.
  - f_equal. f_equal. rewrite Nat.min_r in Edata by lia. rewrite Nat2Z.id, Edata, take_ge by lia.
    rewrite st_bytes_spec, drop_ge by (rewrite length_replicate; lia). by rewrite app_nil_r.
Qed.

(** The message of a [write], of which the server's first [read] returned what fits. *)
Lemma write_arrives buf : is_int (main_pid c) -> Z.of_nat (length buf) < STACK_SIZE ->
  exists msg, write g pid fd buf c = transmit_lvlip g c (lv_lvlfd sock) msg /\ headed IPC_WRITE (pid_for pid c) msg /\
    length msg = (18 + length buf)%nat /\ drop 18 msg = buf /\
    forall B0, length B0 = Z.to_nat IPC_BUFLEN ->
      let B := st_bytes B0 0 (take (Z.to_nat IPC_BUFLEN) msg) in
      headed IPC_WRITE (pid_for pid c) B /\ ld_int B 6 = fd /\ ld64 B 10 = Z.of_nat (length buf) /\
      ld_bytes B 18 (Nat.min (Z.to_nat WRITE_HEAD) (length buf)) = take (Z.to_nat WRITE_HEAD) buf.
Proof using Hpid Hfd Hsock.
  intros Hm Hs. apply pid_for_int in Hm. set (p := pid_for pid c) in *. unfold write. rewrite found_sock. fold p. cbv zeta. unfold new_msg.
  set (m := st64 _ 10 _). assert (Lm : length m = (18 + length buf)%nat) by (unfold m; fits).
  set (msg := st_bytes m 18 buf). assert (Hh : headed IPC_WRITE p msg) by (unfold msg, m; auto with headed).
  assert (L : length msg = (18 + length buf)%nat) by (unfold msg; by rewrite length_st_bytes).
  exists msg. split; [done|]. split; [done|]. split; [done|].
  assert (Hd : drop 18 msg = buf).
  { unfold msg. rewrite st_bytes_spec by lia. rewrite drop_app_ge by (rewrite length_take; lia).
    rewrite length_take, Lm, Nat.min_l, Nat.sub_diag, drop_0, drop_ge, app_nil_r by lia. done. }
  split; [done|]. intros B0 HB. set (B := st_bytes B0 0 _). assert (F : front (Nat.min (Z.to_nat 8192) (length msg)) B msg).
  { intros i Hi. assert (Ht : (i < length (take (Z.to_nat IPC_BUFLEN) msg))%nat) by (rewrite length_take; sizes; lia).
    unfold B. rewrite (front_st_bytes B0 _); [|rewrite length_take; lia|done]. unfold ld8. by rewrite lookup_take_lt by (sizes; lia). }
  split; [eapply headed_front; [exact Hh|exact F|lia]|]. split; [rewrite (front_ld_int F) by lia; unfold msg, m; by loads|].
  unfold STACK_SIZE, WRITE_HEAD in *. split; [rewrite (front_ld64 F) by lia; unfold msg, m; loads; ulia|].
  rewrite (front_ld_bytes F) by lia. unfold msg. rewrite ld_bytes_st_bytes_front by lia.
  destruct (decide (length buf <= Z.to_nat 8174)%nat); [rewrite Nat.min_r by lia; by rewrite !take_ge by lia|by rewrite Nat.min_l by lia].
Qed.

Lemma served_write buf : is_int (main_pid c) -> Z.of_nat (length buf) <= WRITE_HEAD ->
  served (lv_lvlfd sock) (write g pid fd buf c) (pid_for pid c) (eq (Write fd buf)) (fun rc _ _ => ok_rc rc) (fun rc _ _ => errno_of c rc).
Proof using Hpid Hfd Hsock.
  intros Hm Hs. unfold WRITE_HEAD in Hs. destruct (write_arrives buf Hm) as (msg & -> & Hh & L & _ & HB0); [unfold STACK_SIZE; lia|].
  apply pid_for_int in Hm. exists msg, RCBUF_LEN. eexists. split; [done|]. split; [sizes; lia|]. intros B0 g' more HB.
  destruct (HB0 B0 HB) as (HH & Efd & Elen & Edata). rewrite (take_ge msg) in * by (sizes; lia).
  do 2 eexists. split.
  { rewrite (write_decoded _ g' (pid_for pid c) buf) by (done || (unfold STACK_SIZE; lia)). cbv zeta.
    rewrite (proj2 (Z.ltb_ge _ _)) by (unfold WRITE_HEAD; lia). reflexivity. }
  split; [done|]. intros rc _ _ Hr.
  destruct (transmit_response g g' (st_bytes B0 0 msg) c (lv_lvlfd sock) msg IPC_WRITE (pid_for pid c) rc) as (k & res & E & E1 & E2 & E3); try done.
  injection E as <-. by exists (st_bytes B0 0 msg), res, 0.
Qed.

(** More than that: the server, which has read one buffer, reads once more. *)
Definition served_twice (a : action Z) (p : Z) (buf : list Z) : Prop :=
  exists msg k, a = Rpc (lv_lvlfd sock) msg RCBUF_LEN k /\
  forall B0 g', length B0 = Z.to_nat IPC_BUFLEN ->
    let B := st_bytes B0 0 (take (Z.to_nat IPC_BUFLEN) msg) in
    let rest := drop (Z.to_nat IPC_BUFLEN) msg in
    received buf rest = buf /\
    demux_ipc_socket_call g' B None = Finish (NoReply B (-1)) /\
    forall got, exists reply, demux_ipc_socket_call g' B (Some got) = Ipc.Call p (Write fd (received buf got)) reply /\
      forall rc out addr, ok_rc rc -> exists response, reply rc out addr = Sent B response 0 /\
        Z.of_nat (length response) <= RCBUF_LEN /\ k (Some response) = errno_of c rc.
Lemma served_long_write buf : is_int (main_pid c) -> WRITE_HEAD < Z.of_nat (length buf) < STACK_SIZE ->
  served_twice (write g pid fd buf c) (pid_for pid c) buf.
Proof using Hpid Hfd Hsock.
  intros Hm [Hl Hs]. destruct (write_arrives buf Hm Hs) as (msg & -> & Hh & L & Hd & HB0).
  apply pid_for_int in Hm. exists msg. eexists. split; [done|]. intros B0 g' HB B rest.
  destruct (HB0 B0 HB) as (HH & Efd & Elen & Edata). fold B in HH, Efd, Elen, Edata.
  pose proof (fun more => write_decoded B g' (pid_for pid c) buf more HH Efd Elen Hs Edata) as D. cbv zeta in D.
  rewrite (proj2 (Z.ltb_lt _ _) Hl) in D. split; [|split].
  - rewrite <- (received_all buf) at 2 by lia. f_equal. unfold rest. rewrite <- Hd, drop_drop. f_equal.
  - apply D.
  - intros got. eexists. split; [rewrite (D (Some got)); reflexivity|]. intros rc out addr Hr. cbv beta.
    destruct (transmit_response g g' B c (lv_lvlfd sock) msg IPC_WRITE (pid_for pid c) rc) as (k & res & E & E1 & E2 & E3); try done.
    injection E as <-. by exists res.
Qed.

Lemma front_read rlen response : Z.of_nat (length response) <= rlen ->
  front (length response) (read_into (zeroed rlen) rlen (Some response)) response.
Proof using.
  intros H. unfold read_into, zeroed. rewrite take_ge by lia. apply front_st_bytes. rewrite length_replicate. lia.
Qed.

Lemma take_copied (b out : list Z) k : length out = k -> (k <= length b)%nat -> take k (st_bytes b 0 out) = out.
Proof using. intros <- Hl. rewrite st_bytes_spec by done. rewrite take_0, app_nil_l. apply take_app_length. Qed.

(** What [_read] and [_recvfrom] return for a buffer of [len] bytes. *)
Definition data_rc (len rc : Z) (out : list Z) : Prop :=
  ok_rc rc /\ (0 <= rc -> rc <= len /\ Z.of_nat (length out) = rc).

Lemma put_rc_data rc r : put_rc rc r = put_err (if rc <? 0 then -1 else rc) (if rc <? 0 then - rc else 0) r.
Proof using. unfold put_rc. by destruct (rc <? 0). Qed.
(** The start of a response that carries data. *)
Lemma data_header type p g' k rc : is_u16 type -> is_int p -> 14 <= k -> ok_rc rc ->
  exists h, put_err (if rc <? 0 then -1 else rc) (if rc <? 0 then - rc else 0) (put_msg type p (alloca g' k)) = h /\
    length h = Z.to_nat k /\ headed type p h /\
    ld_int h 6 = (if rc <? 0 then -1 else rc) /\ ld_int h 10 = (if rc <? 0 then - rc else 0).
Proof using.
  intros Ht Hp Hk Hr. eexists. split; [done|]. split; [fits|]. split; [apply headed_put_err, headed_put_msg; [fits|done|done]|].
  rewrite <- (put_rc_data rc). apply put_rc_fields; [fits|done].
Qed.

Lemma answered type p rlen res : headed type p res -> Z.of_nat (length res) <= rlen -> (6 <= length res)%nat ->
  expected type p (read_into (zeroed rlen) rlen (Some res)) = true /\
  front (length res) (read_into (zeroed rlen) rlen (Some res)) res.
Proof using.
  intros H Hl H6. assert (F := front_read rlen res Hl). split; [|done]. apply headed_expected. by eapply headed_front.
Qed.

Lemma served_read len buf : is_int (main_pid c) -> 0 <= len < STACK_SIZE ->
  served (lv_lvlfd sock) (read g pid fd len buf c) (pid_for pid c) (eq (Read fd len)) (fun rc out _ => data_rc len rc out)
    (fun rc out _ => if rc <? 0 then (set_errno (- rc) c, (-1, buf)) else (c, (rc, st_bytes (zeroed len) 0 out))).
Proof using Hpid Hfd Hsock.
  intros Hm Hlen. unfold STACK_SIZE in Hlen. apply pid_for_int in Hm. set (p := pid_for pid c) in *.
  unfold read. rewrite found_sock. fold p. cbv zeta. unfold new_msg.
  set (msg := st64 _ 10 len). assert (L : length msg = 18%nat) by (unfold msg; fits).
  assert (Hh : headed IPC_READ p msg) by (unfold msg; auto with headed).
  apply served_short; [rewrite L; done|]. intros B g' more HB F. rewrite L in F.
  assert (HH : headed IPC_READ p B) by (eapply headed_front; [exact Hh|exact F|lia]).
  assert (Efd : ld_int B 6 = fd) by (rewrite (front_ld_int F) by lia; unfold msg; by loads).
  assert (Elen : ld64 B 10 = len) by (rewrite (front_ld64 F) by lia; unfold msg; loads; ulia).
  do 2 eexists. split.
  { dispatch HH. unfold ipc_read. rewrite Hp, Efd, Elen. cbv zeta. unfold STACK_SIZE.
    destruct (Z.leb_spec 8388608 len); [lia|]. reflexivity. }
  split; [done|]. intros rc out addr [Hr Hd]. cbv beta zeta. set (n := if 0 <? rc then rc else 0).
  assert (Hn : 0 <= n <= len /\ (0 <= rc -> n = rc)) by (unfold n; destruct (Z.ltb_spec 0 rc); lia).
  destruct (Z.ltb_spec len n); [lia|]. do 3 eexists. split; [done|]. split; [done|].
  destruct (data_header IPC_READ p g' (ipc_msg_len + ipc_err_len + ipc_read_len + n) rc) as (h & -> & Lh & Hhh & E1 & E2); try done.
  { sizes. lia. }
  set (res := st_bytes _ 26 _). assert (Lr : length res = (26 + Z.to_nat n)%nat) by (unfold res; fits).
  split; [rewrite Lr; sizes; lia|].
  destruct (answered IPC_READ p (ipc_msg_len + ipc_err_len + ipc_read_len + len) res) as [-> Fr].
  { unfold res. auto with headed. } { rewrite Lr. sizes. lia. } { lia. }
  set (r := read_into _ _ _) in *. rewrite Lr in Fr. cbn [negb].
  unfold err_rc, err_err. rewrite !(front_ld_int Fr), (front_ld64 Fr) by lia.
  assert (R : ld_int res 6 = ld_int h 6 /\ ld_int res 10 = ld_int h 10 /\ ld64 res 18 = u64 rc) by (unfold res; loads; done).
  destruct R as (-> & -> & ->). rewrite E1, E2. destruct (Z.ltb_spec rc 0); [done|]. destruct (Z.ltb_spec rc 0); [lia|].
  replace (u64 rc) with rc by (unfold ok_rc in Hr; ulia).
  destruct (Z.ltb_spec len rc); [lia|]. do 3 f_equal. rewrite (front_ld_bytes Fr) by lia. unfold res.
  assert (Lo : length (take (Z.to_nat n) (st_bytes (replicate (Z.to_nat len) 0) 0 out)) = Z.to_nat n) by (rewrite length_take; fits).
  rewrite ld_bytes_st_bytes_front by (rewrite ?Lo; fits).
  rewrite take_take, Nat.min_l by lia. rewrite take_copied by fits. done.
Qed.

Lemma ld8_zeros m o k i : (o <= i < o + k)%nat -> (o + k <= length m)%nat -> ld8 (st_bytes m o (replicate k 0)) i = 0.
Proof using.
  intros Hi Hl. replace i with (o + (i - o))%nat by lia. rewrite ld8_st_bytes_eq by (rewrite length_replicate; lia).
  unfold ld8. by rewrite lookup_replicate_2 by lia.
Qed.

(** What [_recvfrom] returns: with data, the sender's address. *)
Definition dgram_rc (len rc : Z) (out from : list Z) : Prop :=
  data_rc len rc out /\ (if rc <? 0 then from = [] else length from = 16%nat).

Lemma served_recvfrom len flags buf address : 0 <= len < STACK_SIZE ->
  served (lv_lvlfd sock) (recvfrom g pid fd len flags buf address c) pid (eq (Recvfrom fd len)) (dgram_rc len)
    (fun rc out from =>
       if rc <? 0 then (set_errno (- rc) c, (-1, buf, address))
       else (c, (rc, st_bytes (zeroed len) 0 out, (fun a => (st_bytes a.1 0 from, 16)) <$> address))).
Proof using Hpid Hfd Hsock.
  intros Hlen. unfold STACK_SIZE in Hlen. unfold recvfrom. rewrite found_sock. cbv zeta. unfold new_msg.
  set (m0 := st32 _ 18 flags). set (msg := st_bytes m0 22 _).
  assert (L0 : length m0 = 42%nat) by (unfold m0; fits). assert (L : length msg = 42%nat) by (unfold msg; fits).
  assert (Hh : headed IPC_RECVFROM pid msg) by (unfold msg, m0; auto 12 with headed).
  apply served_short; [rewrite L; done|]. intros B g' more HB F. rewrite L in F.
  assert (HH : headed IPC_RECVFROM pid B) by (eapply headed_front; [exact Hh|exact F|lia]).
  assert (Efd : ld_int B 6 = fd) by (rewrite (front_ld_int F) by lia; unfold msg, m0; by loads).
  assert (Elen : ld64 B 10 = len) by (rewrite (front_ld64 F) by lia; unfold msg, m0; loads; ulia).
  assert (Edst : ld32 B 38 = 0).
  { rewrite (front_ld32 F) by lia. unfold ld32, ld16, msg. by rewrite !ld8_zeros by lia. }
  do 2 eexists. split.
  { dispatch HH. unfold ipc_recvfrom. rewrite Hp, Efd, Elen, Edst. cbv zeta. unfold STACK_SIZE.
    destruct (Z.leb_spec 8388608 len); [lia|]. reflexivity. }
  split; [done|]. intros rc out from [[Hr Hd] Hf]. cbv beta zeta. set (n := if 0 <? rc then rc else 0).
  assert (Hn : 0 <= n <= len /\ (0 <= rc -> n = rc)) by (unfold n; destruct (Z.ltb_spec 0 rc); lia).
  set (al := match from with [] => 0 | _ => 16 end).
  assert (Hal : 0 <= al <= 16 /\ (0 <= rc -> al = 16 /\ length from = 16%nat)).
  { unfold al. clear al. destruct (Z.ltb_spec rc 0); [subst from; lia|destruct from; [done|split; [lia|done]]]. }
  clearbody n al. destruct (Z.ltb_spec len n); [lia|]. destruct (Z.ltb_spec 16 al); [lia|]. cbn [orb].
  do 3 eexists. split; [done|]. split; [done|].
  destruct (data_header IPC_RECVFROM pid g' (ipc_msg_len + ipc_err_len + ipc_recvfrom_len + n) rc) as (h & -> & Lh & Hhh & E1 & E2); try done.
  { sizes. lia. }
  assert (Lo : length (take (Z.to_nat n) (st_bytes (alloca g' len) 0 out)) = Z.to_nat n) by (rewrite length_take; fits).
  assert (La : length (take (Z.to_nat al) (st_bytes (replicate 16 0) 0 from)) = Z.to_nat al) by (rewrite length_take; fits).
  set (res := st32 _ 46 al). assert (Lr : length res = (50 + Z.to_nat n)%nat) by (unfold res; fits).
  split; [rewrite Lr; sizes; lia|].
  destruct (answered IPC_RECVFROM pid (ipc_msg_len + ipc_err_len + ipc_recvfrom_len + len) res) as [-> Fr].
  { unfold res. auto 12 with headed. } { rewrite Lr. sizes. lia. } { lia. }
  set (r := read_into _ _ _) in *. rewrite Lr in Fr. cbn [negb].
  unfold err_rc, err_err. rewrite !(front_ld_int Fr), (front_ld64 Fr) by lia.
  assert (R : ld_int res 6 = ld_int h 6 /\ ld_int res 10 = ld_int h 10 /\ ld64 res 18 = u64 rc).
  { unfold res. rewrite !ld_int_st32_ne, ld64_st32_ne by lia. rewrite !ld_int_st_bytes_ne, !ld64_st_bytes_ne by (rewrite ?Lo, ?La; lia). loads. done. }
  destruct R as (-> & -> & ->). rewrite E1, E2. destruct (Z.ltb_spec rc 0); [done|]. destruct (Z.ltb_spec rc 0); [lia|].
  replace (u64 rc) with rc by (unfold ok_rc in Hr; ulia). destruct (Z.ltb_spec len rc); [lia|].
  destruct Hal as [_ [-> Lf]]; [done|].
  assert (D1 : ld_bytes r 50 (Z.to_nat rc) = out).
  { rewrite (front_ld_bytes Fr) by lia. unfold res. rewrite ld_bytes_st32_ne, ld_bytes_st_bytes_ne by (rewrite ?La; lia).
    rewrite ld_bytes_st_bytes_front by (rewrite ?Lo; fits). rewrite take_take, Nat.min_l by lia. by rewrite take_copied by fits. }
  assert (D2 : ld_bytes r 30 16 = from).
  { rewrite (front_ld_bytes Fr) by lia. unfold res. rewrite ld_bytes_st32_ne by lia.
    rewrite ld_bytes_st_bytes_front by (rewrite ?La; fits). rewrite take_take, Nat.min_l by lia. by rewrite take_copied by (rewrite ?length_replicate; lia). }
  assert (D3 : ld32 r 46 = 16) by (rewrite (front_ld32 Fr) by lia; unfold res; by rewrite ld32_st32_eq by fits).
  rewrite D1, D2, D3. by destruct address as [[a k]|].
Qed.

(** A failed [accept] sets the error number to the negative return value, and returns
    that value. *)
Lemma served_accept lvlfd' addr n : 0 <= n ->
  let k := SA_COPY_LEN n in let c' := set_main_pid pid c in
  served (lv_lvlfd sock) (accept g pid lvlfd' fd addr (Some n) c) pid (eq (Accept fd k)) (fun rc _ _ => ok_rc rc)
    (fun rc _ from =>
       if rc <? 0 then (set_errno rc c', (rc, addr, n))
       else (add_sock (mk_lv lvlfd' rc true) c', (rc, st_bytes addr 0 (take (Z.to_nat k) (st_bytes (padded addr k) 0 from)), k))).
Proof using Hpid Hfd Hsock.
  intros Hn%SA_COPY_LEN_range k c'. fold k in Hn. unfold accept. rewrite found_sock. fold k c'. cbv zeta. unfold new_msg.
  set (m := st32 _ 6 fd). set (msg := put_ipc_sockaddr m 10 addr k k).
  assert (Lm : length m = 42%nat) by (unfold m; fits). assert (L : length msg = 42%nat) by (unfold msg; by rewrite length_put_ipc_sockaddr).
  assert (Hh : headed IPC_ACCEPT pid msg) by (apply headed_put_ipc_sockaddr; unfold m; auto with headed).
  apply served_short; [rewrite L; done|]. intros B g' more HB F. rewrite L in F.
  assert (HH : headed IPC_ACCEPT pid B) by (eapply headed_front; [exact Hh|exact F|lia]).
  assert (Efd : ld_int B 6 = fd) by (rewrite (front_ld_int F) by lia; unfold msg, put_ipc_sockaddr, m; by loads).
  assert (E : ld32 B 38 = k) by (rewrite (front_ld32 F) by lia; apply (sa_len_sent m 10); [lia|ulia]).
  do 2 eexists. split.
  { dispatch HH. unfold ipc_accept. rewrite Hp, E, Efd. cbv zeta. rewrite (temp_addr_sent B m 10 addr k 42) by (done || lia). reflexivity. }
  split; [done|]. intros rc out from Hr. cbv beta zeta. set (a := st_bytes (padded addr k) 0 from).
  assert (La : length a = 28%nat) by (unfold a, padded; fits). clearbody a.
  assert (Ek : (if k <? sa_data_len then k else sa_data_len) = k) by (sizes; destruct (Z.ltb_spec k 28); lia). rewrite Ek.
  do 3 eexists. split; [done|]. split; [done|]. set (h := put_err rc rc _).
  assert (Lh : length h = 50%nat) by (unfold h; fits). assert (Hhh : headed IPC_ACCEPT pid h) by (unfold h; auto with headed).
  assert (Ir : is_int rc) by (unfold is_int, ok_rc in *; lia).
  assert (E1 : ld_int h 6 = rc /\ ld_int h 10 = rc) by (unfold h, put_err; loads; done). clearbody h.
  assert (Lt : length (take (Z.to_nat k) a) = Z.to_nat k) by (rewrite length_take; lia).
  set (res := st32 _ 46 k). assert (Lr : length res = 50%nat) by (unfold res; fits).
  split; [rewrite Lr; done|].
  destruct (answered IPC_ACCEPT pid (ipc_msg_len + ipc_err_len + ipc_accept_len) res) as [-> Fr].
  { unfold res. auto 12 with headed. } { rewrite Lr. done. } { lia. }
  set (r := read_into _ _ _) in *. rewrite Lr in Fr. cbn [negb].
  unfold err_rc, err_err. rewrite !(front_ld_int Fr), (front_ld32 Fr) by lia.
  assert (R : ld_int res 6 = rc /\ ld_int res 10 = rc /\ ld_int res 14 = rc /\ ld32 res 46 = k).
  { destruct E1 as [E1 E2]. unfold res. rewrite !ld_int_st32_ne, ld32_st32_eq by fits.
    rewrite !ld_int_st_bytes_ne by (rewrite ?Lt; fits). loads. rewrite u32_id by ulia. done. }
  destruct R as (-> & -> & -> & R).
  rewrite R. replace (SA_COPY_LEN k) with k by (unfold SA_COPY_LEN; by rewrite Ek).
  destruct (rc <? 0); [done|]. do 4 f_equal. rewrite (front_ld_bytes Fr) by lia. unfold res. rewrite ld_bytes_st32_ne by lia.
  rewrite ld_bytes_st_bytes_front by (rewrite ?Lt; fits). by rewrite take_take, Nat.min_l by lia.
Qed.

(** ** Options and names *)

(** What [_getpeername] and [_getsockname] return for a buffer of 128 bytes. *)
Definition name_rc (rc : Z) (name : list Z) : Prop :=
  ok_rc rc /\ rc <= 0 /\ rc <> -1 /\ (if rc <? 0 then name = [] else length name = 128%nat).

Lemma name_reply type B rlen r0 rc name address address_len :
  is_u16 type -> rlen = 150 -> length r0 = 150%nat -> headed type pid r0 -> ld_int B 6 = fd -> name_rc rc name ->
  exists m response rc', ipc_sockname_reply B r0 rc name = Sent m response rc' /\ rc' <> -1 /\ Z.of_nat (length response) <= rlen /\
    (let r := read_into (zeroed rlen) rlen (Some response) in
     if negb (expected type pid r) then (c, (-1, address, address_len))
     else if negb (err_rc r =? 0) then (set_errno (err_err r) c, (err_rc r, address, address_len))
     else (c, (0, st_bytes address 0 (ld_bytes r 22 (Z.to_nat (ld32 r 18))), ld32 r 18)))
    = if rc <? 0 then (set_errno (- rc) c, (-1, address, address_len)) else (c, (0, st_bytes address 0 (take 16 name), 16)).
Proof using Hfd.
  intros Ht -> L0 H0 EB (Hr & Hle & Hn1 & Hname). unfold ipc_sockname_reply. rewrite EB.
  set (r1 := match name with [] => r0 | _ => _ end).
  assert (L1 : length r1 = 150%nat /\ headed type pid r1 /\
     (rc = 0 -> ld32 r1 18 = 16 /\ ld_bytes r1 22 16 = take 16 name)).
  { unfold r1. clear r1. destruct (Z.ltb_spec rc 0); [subst name; split; [done|split; [done|lia]]|].
    destruct name as [|x name']; [done|]. set (nm := x :: name') in *. split; [fits|]. split; [auto with headed|]. intros _.
    rewrite ld32_st32_eq, ld_bytes_st32_ne, ld_bytes_st_bytes_front by fits. done. }
  destruct L1 as (L1 & H1 & HD). clearbody r1. do 3 eexists. split; [done|]. split; [done|].
  set (res := st32 _ 14 fd). assert (Lr : length res = 150%nat) by (unfold res; fits).
  split; [rewrite Lr; done|].
  destruct (answered type pid 150 res) as [-> Fr]; [unfold res; auto with headed|rewrite Lr; done|lia|].
  set (r := read_into _ _ _) in *. rewrite Lr in Fr. cbn [negb]. cbv zeta.
  destruct (put_rc_fields rc r1) as [E1 E2]; [lia|done|]. unfold err_rc, err_err in *.
  rewrite !(front_ld_int Fr) by lia.
  assert (R : ld_int res 6 = ld_int (put_rc rc r1) 6 /\ ld_int res 10 = ld_int (put_rc rc r1) 10) by (unfold res; loads; done).
  destruct R as [-> ->]. rewrite E1, E2. destruct (Z.ltb_spec rc 0); [done|]. assert (rc = 0) as -> by lia. cbn [Z.eqb negb].
  destruct HD as [D1 D2]; [done|].
  assert (R1 : ld32 r 18 = 16).
  { rewrite (front_ld32 Fr) by lia. unfold res, put_rc, put_err. cbn [Z.ltb Z.compare]. loads. done. }
  rewrite R1. do 3 f_equal. f_equal. rewrite (front_ld_bytes Fr) by lia. unfold res, put_rc, put_err. cbn [Z.ltb Z.compare]. loads. done.
Qed.

(** The request's name buffer is whatever the server's stack contains. *)
Definition names_into (f : list Z -> syscall) (sc : syscall) : Prop := exists a, length a = 128%nat /\ sc = f a.
Definition named (address : list Z) (address_len rc : Z) (name : list Z) : client * (Z * list Z * Z) :=
  if rc <? 0 then (set_errno (- rc) c, (-1, address, address_len)) else (c, (0, st_bytes address 0 (take 16 name), 16)).

Lemma served_name type address address_len (f : list Z -> syscall) :
  is_u16 type ->
  (forall B g' more, headed type pid B -> ld_int B 6 = fd ->
     let r := put_msg type pid (alloca g' (ipc_msg_len + ipc_err_len + ipc_sockname_len)) in
     demux_ipc_socket_call g' B more = Ipc.Call pid (f (ld_bytes r 22 128)) (fun rc _ name => ipc_sockname_reply B r rc name)) ->
  served (lv_lvlfd sock) (name_call g type pid fd address address_len c) pid (names_into f) (fun rc _ name => name_rc rc name)
    (fun rc _ name => named address address_len rc name).
Proof using Hpid Hfd Hsock.
  intros Ht HD. unfold name_call. rewrite found_sock. cbv zeta. unfold new_msg.
  set (msg := st32 _ 6 fd). assert (L : length msg = 142%nat) by (unfold msg; fits).
  assert (Hh : headed type pid msg) by (unfold msg; auto with headed).
  apply served_short; [rewrite L; done|]. intros B g' more HB F. rewrite L in F.
  assert (HH : headed type pid B) by (eapply headed_front; [exact Hh|exact F|lia]).
  assert (Efd : ld_int B 6 = fd) by (rewrite (front_ld_int F) by lia; unfold msg; by loads).
  do 2 eexists. split; [by apply HD|]. split; [eexists; split; [|done]; fits|]. intros rc out name Hn. cbv beta.
  apply (name_reply type B 150); try done; [fits|apply headed_put_msg; [fits|done|done]].
Qed.
Lemma served_getpeername address address_len :
  served (lv_lvlfd sock) (getpeername g pid fd address address_len c) pid (names_into (Getpeername fd)) (fun rc _ name => name_rc rc name)
    (fun rc _ name => named address address_len rc name).
Proof using Hpid Hfd Hsock.
  apply served_name; [done|]. intros B g' more H E. dispatch H. unfold ipc_getpeername. by rewrite Hp, E.
Qed.
Lemma served_getsockname address address_len :
  served (lv_lvlfd sock) (getsockname g pid fd address address_len c) pid (names_into (Getsockname fd)) (fun rc _ name => name_rc rc name)
    (fun rc _ name => named address address_len rc name).
Proof using Hpid Hfd Hsock.
  apply served_name; [done|]. intros B g' more H E. dispatch H. unfold ipc_getsockname. by rewrite Hp, E.
Qed.

(** ** New sockets *)

Lemma served_map {A A'} (f : client * A -> client * A') lvlfd msg rlen k p sc ok result :
  served lvlfd (Rpc lvlfd msg rlen k) p sc ok result ->
  served lvlfd (Rpc lvlfd msg rlen (fun x => f (k x))) p sc ok (fun rc out addr => f (result rc out addr)).
Proof using.
  intros (m & n & k' & E & HL & H). injection E as -> -> ->. exists m, n. eexists. split; [done|]. split; [done|].
  intros buf g' more HB. destruct (H buf g' more HB) as (s & reply & E & Hs & HR). exists s, reply. split; [done|]. split; [done|].
  intros rc out addr Ho. destruct (HR rc out addr Ho) as (m' & res & r & E1 & E2 & E3 & E4). exists m', res, r.
  by rewrite E1, E4.
Qed.

(** A node is added in any case; after a failure it is one that was freed. *)
Lemma served_socket lvlfd domain type protocol :
  is_int domain -> is_int type -> is_int protocol -> is_socket_supported domain type protocol = true ->
  served lvlfd (socket g pid lvlfd domain type protocol c) pid (eq (Socket domain type)) (fun rc _ _ => ok_rc rc)
    (fun rc _ _ =>
       if rc <? 0 then (add_sock (mk_lv lvlfd 0 false) (set_errno (- rc) c), -1)
       else (add_sock (mk_lv lvlfd rc true) c, rc)).
Proof using Hpid.
  intros Hd Ht Hpr Hs. unfold socket. rewrite Hs. cbn [negb]. unfold new_msg.
  set (msg := st32 _ 14 protocol). assert (L : length msg = 18%nat) by (unfold msg; fits).
  assert (S : served lvlfd (transmit_lvlip g c lvlfd msg) pid (eq (Socket domain type)) (fun rc _ _ => ok_rc rc) (fun rc _ _ => errno_of c rc)).
  { eapply (served_transmit _ _ _ _ IPC_SOCKET); [unfold msg; auto with headed|lia|by rewrite L|done|done|].
    intros B g' more H F. rewrite L in F. dispatch H. unfold ipc_socket. rewrite Hp. cbv zeta. at_front F. unfold msg. by loads. }
  unfold transmit_lvlip in *. eapply (served_map (fun x => let '(c, sockfd) := x in
    if sockfd =? -1 then (add_sock (mk_lv lvlfd 0 false) c, -1) else (add_sock (mk_lv lvlfd sockfd true) c, sockfd))) in S.
  destruct S as (m & n & k & E & HL & H). exists m, n, k. split; [exact E|]. split; [exact HL|].
  intros buf g' more HB. destruct (H buf g' more HB) as (s & reply & E1 & E2 & HR). exists s, reply. split; [done|]. split; [done|].
  intros rc out addr Ho. destruct (HR rc out addr Ho) as (m' & res & r & E3 & E4 & E5 & E6). exists m', res, r.
  split; [done|]. split; [done|]. split; [done|]. rewrite E6. unfold errno_of. destruct (Z.ltb_spec rc 0); [done|].
  destruct (Z.eqb_spec rc (-1)); [lia|done].
Qed.

(** ** Poll *)

Definition is_short (x : Z) : Prop := -32768 <= x < 32768.
Definition pollfd_ok (p : pollfd) : Prop := is_int (pf_fd p) /\ is_short (pf_events p) /\ is_short (pf_revents p).

Lemma length_put_pollfds fds : forall r o, length (put_pollfds r o fds) = length r.
Proof using. induction fds as [|p fds IH]; intros r o; cbn [put_pollfds]; [done|]. rewrite IH. fits. Qed.
Lemma put_pollfds_below fds : forall r o, front o (put_pollfds r o fds) r.
Proof using.
  induction fds as [|p fds IH]; intros r o i Hi; cbn [put_pollfds]; [done|]. rewrite IH by lia.
  by rewrite !ld8_st16_ne, ld8_st32_ne by lia.
Qed.
Lemma get_pollfd_put r o p : (o + 8 <= length r)%nat -> pollfd_ok p ->
  get_pollfd (st16 (st16 (st32 r o (pf_fd p)) (o + 4) (pf_events p)) (o + 6) (pf_revents p)) o 0 = p.
Proof using.
  intros Hl (H1 & H2 & H3). unfold get_pollfd. rewrite Nat.mul_0_r, Nat.add_0_r.
  unfold ld_int. rewrite !ld32_st16_ne, ld32_st32_eq by lia. rewrite ld16_st16_eq by fits.
  rewrite (ld16_st16_ne _ (o + 6)) by lia. rewrite ld16_st16_eq by fits.
  rewrite s32_u32, s32_id by done. destruct p as [a b d]. cbn in *. unfold is_short in *. f_equal; unfold s16, u16; Z.div_mod_to_equations; lia.
Qed.
Lemma get_pollfd_front n a b o i : front n a b -> (o + 8 * i + 8 <= n)%nat -> get_pollfd a o i = get_pollfd b o i.
Proof using. intros F H. unfold get_pollfd. by rewrite (front_ld_int F), !(front_ld16 F) by lia. Qed.
Lemma get_pollfd_shift m o i : get_pollfd m o (S i) = get_pollfd m (o + 8) i.
Proof using. unfold get_pollfd. by replace (o + 8 * S i)%nat with (o + 8 + 8 * i)%nat by lia. Qed.
Lemma get_put_pollfds fds : forall r o, (o + 8 * length fds <= length r)%nat -> Forall pollfd_ok fds ->
  get_pollfd (put_pollfds r o fds) o <$> seq 0 (length fds) = fds.
Proof using.
  induction fds as [|p fds IH]; intros r o Hl Hf; [done|]. apply Forall_cons in Hf as [Hp Hf]. cbn [put_pollfds length seq fmap list_fmap] in *.
  set (r' := st16 _ _ _). assert (Lr : length r' = length r) by (unfold r'; fits). f_equal.
  - rewrite (get_pollfd_front (o + 8) _ r') by (apply put_pollfds_below || lia). apply get_pollfd_put; [lia|done].
  - etrans; [|apply (IH r' (o + 8)%nat); [rewrite Lr; lia|done]]. rewrite <- fmap_S_seq, <- list_fmap_compose.
    apply list_fmap_ext. intros j i Hj. apply get_pollfd_shift.
Qed.

(** The array with the answers put in: the library's positions, in order. *)
Fixpoint answer_all (lvl : list nat) (returned : list pollfd) (fds : list pollfd) : list pollfd :=
  match lvl, returned with
  | i :: lvl, p :: returned => answer_all lvl returned (poll_answer fds i p)
  | _, _ => fds
  end.
Lemma poll_answers_spec lvl : forall r j fds,
  poll_answers r j lvl fds = answer_all lvl (get_pollfd r 14 <$> seq j (length lvl)) fds.
Proof using. induction lvl as [|i lvl IH]; intros r j fds; [done|]. cbn. apply IH. Qed.

Lemma served_poll lvl timeout blocking events fds lvlfd :
  lvl <> [] -> Z.of_nat (length lvl) <= 1021 -> events <> -1 -> is_int timeout -> Forall pollfd_ok (pollfd_at fds <$> lvl) ->
  served lvlfd (poll_turn g pid lvlfd lvl timeout blocking events fds c) pid (eq (Poll (pollfd_at fds <$> lvl) timeout))
    (fun rc revents _ => ok_rc rc /\ length revents = length lvl /\ Forall is_short revents)
    (fun rc revents _ =>
       if rc <? 0 then (set_errno (- rc) c, (Some (-1), fds))
       else (c, (if (0 <? events + rc) || negb blocking then Some (events + rc) else None,
                 answer_all lvl (zip_with set_pf_revents revents (pollfd_at fds <$> lvl)) fds))).
Proof using Hpid.
  intros Hne Hn He Ht Hok. unfold poll_turn. destruct (Z.eqb_spec events (-1)) as [|_]; [done|].
  destruct (Nat.ltb_spec (length lvl) 1) as [Hz|_]; [destruct lvl; [done|simpl in Hz; lia]|].
  cbv zeta. unfold new_msg. set (asks := pollfd_at fds <$> lvl) in *. assert (La : length asks = length lvl) by (unfold asks; by rewrite length_fmap).
  clearbody asks. set (n := Z.of_nat (length lvl)) in *.
  set (m := st32 _ 14 timeout). assert (Lm : length m = (18 + 8 * length lvl)%nat) by (unfold m; fits).
  set (msg := put_pollfds m 18 asks). assert (L : length msg = (18 + 8 * length lvl)%nat) by (unfold msg; by rewrite length_put_pollfds).
  assert (Hh : headed IPC_POLL pid msg).
  { unfold msg, m. apply headed_put_pollfds; [lia|]. apply headed_st32; [apply headed_st64; [apply headed_put_msg; [fits|done|done]|lia]|lia]. }
  apply served_short; [rewrite L; sizes; lia|]. intros B g' more HB F. rewrite L in F.
  assert (HH : headed IPC_POLL pid B) by (eapply headed_front; [exact Hh|exact F|lia]).
  assert (F18 : front 18 B m) by (intros i Hi; rewrite F by lia; by apply put_pollfds_below).
  assert (En : u64 (ld64 B 6) = n) by (rewrite (front_ld64 F18) by lia; unfold m; loads; ulia).
  assert (Et : ld_int B 14 = timeout) by (rewrite (front_ld_int F18) by lia; unfold m; by loads).
  assert (Ef : get_pollfd B 18 <$> seq 0 (Z.to_nat n) = asks).
  { etrans; [|apply (get_put_pollfds asks m 18); [lia|done]]. unfold n. rewrite Nat2Z.id, La.
    apply list_fmap_ext. intros j i Hj. apply lookup_seq in Hj. by apply (get_pollfd_front (18 + 8 * length lvl)); [|lia]. }
  do 2 eexists. split.
  { dispatch HH. unfold ipc_poll. rewrite Hp, En, Et, Ef. cbv zeta.
    destruct (Z.ltb_spec IPC_BUFLEN (ipc_msg_len + ipc_poll_len + ipc_pollfd_len * n)); [sizes; lia|]. reflexivity. }
  split; [done|]. intros rc revs addr (Hr & Lv & Hv). cbv beta zeta. rewrite put_rc_data.
  do 3 eexists. split; [done|]. split; [done|].
  destruct (data_header IPC_POLL pid g' (ipc_msg_len + ipc_err_len + ipc_pollfd_len * n) rc) as (h & -> & Lh & Hhh & E1 & E2); try done.
  { sizes. lia. }
  set (ret := zip_with set_pf_revents revs asks).
  assert (Lret : length ret = length lvl) by (unfold ret; rewrite length_zip_with; lia).
  assert (Hret : Forall pollfd_ok ret).
  { unfold ret. clear -Hok Hv. revert revs Hv. induction Hok as [|p l (H1 & H2 & H3) _ IH]; intros [|v revs] Hv; try by constructor.
    apply Forall_cons in Hv as [? ?]. cbn. constructor; [done|by apply IH]. }
  set (res := put_pollfds h 14 ret). assert (Lr : length res = (14 + 8 * length lvl)%nat) by (unfold res; rewrite length_put_pollfds; fits).
  split; [rewrite Lr; sizes; lia|].
  destruct (answered IPC_POLL pid (ipc_msg_len + ipc_err_len + ipc_pollfd_len * n) res) as [-> Fr].
  { unfold res. auto with headed. } { rewrite Lr. sizes. lia. } { lia. }
  set (r := read_into _ _ _) in *. rewrite Lr in Fr. cbn [negb].
  assert (F14 : front 14 r h) by (intros i Hi; rewrite Fr by lia; by apply put_pollfds_below).
  unfold err_rc, err_err. rewrite !(front_ld_int F14), E1, E2 by lia. destruct (Z.ltb_spec rc 0); [done|].
  destruct (Z.ltb_spec rc 0); [lia|]. do 3 f_equal. rewrite poll_answers_spec. f_equal.
  etrans; [|apply (get_put_pollfds ret h 14); [rewrite Lh; sizes; lia|done]]. rewrite Lret.
  apply list_fmap_ext. intros j i Hj. apply lookup_seq in Hj. by apply (get_pollfd_front (14 + 8 * length lvl)); [|lia].
Qed.

End Calls.

(** ** All functions on a descriptor *)

(** The arguments with which a function sends one request that fits into the server's
    buffer, and lengths that fit on a stack.  [setsockopt] sends nothing, and
    [getsockopt] writes behind a local variable (below). *)
Definition fits_message {A} (f : fcall A) : Prop :=
  match f with
  | FConnect _ n | FBind _ n => 0 <= n
  | FListen n => is_int n
  | FAccept _ n => match n with Some n => 0 <= n | None => False end
  | FWrite buf => Z.of_nat (length buf) <= WRITE_HEAD
  | FRead len _ | FRecvfrom len _ _ _ => 0 <= len < STACK_SIZE
  | FSendto buf _ _ n => 0 <= n <= 28 /\ Z.of_nat (length buf) <= 8138
  | FFcntl cmd flags => (cmd = F_GETFL \/ cmd = F_SETFL) /\ is_int flags
  | FSetsockopt | FGetsockopt _ _ _ _ => False
  | FClose | FGetpeername _ _ | FGetsockname _ _ => True
  end.

(** For which process the call is made, and which call. *)
Definition fcall_pid {A} (f : fcall A) (pid : Z) (c : client) : Z :=
  match f with FClose | FWrite _ | FRead _ _ => pid_for pid c | _ => pid end.
Definition fcall_call {A} (f : fcall A) (fd : Z) : syscall -> Prop :=
  match f with
  | FConnect addr n => eq (Connect fd (padded addr (SA_COPY_LEN n)) (SA_COPY_LEN n))
  | FBind addr n => eq (Bind fd (padded addr (SA_COPY_LEN n)) (SA_COPY_LEN n))
  | FListen n => eq (Listen fd n)
  | FClose => eq (Close fd)
  | FAccept _ n => eq (Accept fd (SA_COPY_LEN (default 0 n)))
  | FWrite buf => eq (Write fd buf)
  | FRead len _ => eq (Read fd len)
  | FSendto buf _ dest n => eq (Sendto fd buf (padded dest n))
  | FRecvfrom len _ _ _ => eq (Recvfrom fd len)
  | FFcntl cmd flags => eq (Fcntl fd cmd (if cmd =? F_GETFL then 0 else flags))
  | FGetpeername _ _ => names_into (Getpeername fd)
  | FGetsockname _ _ => names_into (Getsockname fd)
  | FSetsockopt | FGetsockopt _ _ _ _ => fun _ => False
  end.

(** What the call may return, and what the library's function then returns. *)
Definition fcall_rc {A} (f : fcall A) (rc : Z) (out addr : list Z) : Prop :=
  match f with
  | FRead len _ => data_rc len rc out
  | FRecvfrom len _ _ _ => dgram_rc len rc out addr
  | FGetpeername _ _ | FGetsockname _ _ => name_rc rc addr
  | _ => ok_rc rc
  end.
Definition fcall_result {A} (f : fcall A) (pid lvlfd' : Z) (c : client) (rc : Z) (out addr : list Z) : client * A :=
  match f in fcall A return client * A with
  | FConnect _ _ | FBind _ _ | FListen _ | FClose | FWrite _ | FSendto _ _ _ _ | FFcntl _ _ | FSetsockopt => errno_of c rc
  | FAccept from n =>
      let c := set_main_pid pid c in
      let k := SA_COPY_LEN (default 0 n) in
      if rc <? 0 then (set_errno rc c, (rc, from, default 0 n))
      else (add_sock (mk_lv lvlfd' rc true) c, (rc, st_bytes from 0 (take (Z.to_nat k) (st_bytes (padded from k) 0 addr)), k))
  | FRead len buf => if rc <? 0 then (set_errno (- rc) c, (-1, buf)) else (c, (rc, st_bytes (zeroed len) 0 out))
  | FRecvfrom len _ buf address =>
      if rc <? 0 then (set_errno (- rc) c, (-1, buf, address))
      else (c, (rc, st_bytes (zeroed len) 0 out, (fun a => (st_bytes a.1 0 addr, 16)) <$> address))
  | FGetsockopt _ _ optval optlen => (c, (-1, optval, optlen))
  | FGetpeername address n | FGetsockname address n => named c address n rc addr
  end.

Lemma served_fcall {A} (f : fcall A) g pid lvlfd' fd c sock :
  is_int pid -> is_int (main_pid c) -> is_int fd -> lvlip_get_sock fd c = Found sock -> fits_message f ->
  served (lv_lvlfd sock) (fcall_action f g pid lvlfd' fd c) (fcall_pid f pid c) (fcall_call f fd) (fcall_rc f) (fcall_result f pid lvlfd' c).
Proof.
  intros Hp Hm Hf Hs. destruct f; cbn [fits_message fcall_action fcall_pid fcall_call]; intros H; try done.
  - by apply served_connect.
  - by apply served_bind.
  - by apply served_listen.
  - by apply served_close.
  - destruct addr_len as [n|]; [|done]. by apply served_accept.
  - by apply served_write.
  - by apply served_read.
  - destruct H. by apply served_sendto.
  - by apply served_recvfrom.
  - destruct H as [[-> | ->] Hi]; [by apply served_fcntl_get|by apply served_fcntl_set].
  - by apply served_getpeername.
  - by apply served_getsockname.
Qed.

End IpcWire.
