(* ===== verification/WorldFacts.v ===== *)
(** What the steps of the stack do to the socket table: [world_ok] holds for ever,
    a step changes the sockets it is about and no other ([evolves]), and the locks
    it takes are released ([held], [unlocked]). *)
From S2P Require Import Prelude Utils SkBuff Timer TcpTypes TcpBase TcpOutput TcpData TcpInput TcpApi TcpOwner Ipv6 Net Neigh IpOut World Udp SocketApi Addrconf IpIn Stack.
Import Utils SkBuff Timer TcpTypes TcpBase TcpOutput TcpData TcpInput TcpApi TcpOwner Ipv6 Net Neigh IpOut World Udp SocketApi Addrconf IpIn Stack.

Module WorldFacts.

(** An outcome that is not a sleep. *)
Class Awake (o : outcome) : Prop := awake : match o with Sleeping _ => False | _ => True end.
#[export] Hint Mode Awake ! : typeclass_instances.
#[export] Instance awake_returned rc out addr : Awake (Returned rc out addr). Proof. done. Qed.
#[export] Instance awake_crashed : Awake Crashed. Proof. done. Qed.
#[export] Instance awake_hung : Awake Hung. Proof. done. Qed.

(** ** The table *)

(** The operations of a socket go with its protocol, its family and its structure. *)
Definition entry_ok (e : entry) : Prop :=
  let kind (tcp : bool) family :=
    bool_decide (is_Some (c_tcp e)) = tcp /\ sk_protocol (c_sk e) = (if tcp then IPPROTO_TCP else IPPROTO_UDP) /\
    sk_addr_family (c_sk e) = family in
  match c_ops e with
  | inet_stream_ops => kind true AF_INET
  | inet6_stream_ops => kind true AF_INET6
  | inet_dgram_ops => kind false AF_INET
  | inet6_dgram_ops => kind false AF_INET6
  end.

(** What a thread asleep in [tcp_wait_snd_wnd] has left ends with the release of the
    lock when it was processing a segment, and nowhere else. *)
Definition thread_ok (t : thread) : Prop :=
  match t_at t with
  | WaitSend _ k RestInput => exists k0, Forall plain_after k0 /\ k = k0 ++ [AfterRelease]
  | WaitSend _ k _ => Forall plain_after k
  | _ => True
  end.

Record world_ok (w : world) : Prop := mk_world_ok {
  wo_ids : NoDup (e_id <$> w_socks w);
  wo_range : forall e, e ∈ w_socks w -> 1 <= e_id e < w_next_id w;
  wo_fd : forall e, e ∈ w_socks w -> so_fd (c_so e) = s32 (4096 + e_id e);
  wo_next : 1 <= w_next_id w;
  wo_next_fd : w_fd w = s32 (4096 + w_next_id w);
  wo_kind : forall e, e ∈ w_socks w -> entry_ok e;
  wo_threads : Forall thread_ok (w_threads w)
}.

Record same_owner (e e' : entry) : Prop := mk_same_owner {
  sm_id : e_id e' = e_id e;
  sm_fd : so_fd (c_so e') = so_fd (c_so e);
  sm_pid : so_pid (c_so e') = so_pid (c_so e);
  sm_ops : c_ops e' = c_ops e;
  sm_protocol : sk_protocol (c_sk e') = sk_protocol (c_sk e);
  sm_family : sk_addr_family (c_sk e') = sk_addr_family (c_sk e);
  sm_tcp : is_Some (c_tcp e') <-> is_Some (c_tcp e)
}.
#[export] Instance same_owner_refl : Reflexive same_owner.
Proof. by intros e. Qed.
#[export] Instance same_owner_trans : Transitive same_owner.
Proof. intros a b c [] []. constructor; try congruence. by etrans. Qed.

Lemma same_owner_ok e e' : same_owner e e' -> entry_ok e -> entry_ok e'.
Proof.
  intros [H1 H2 H3 H4 H5 H6 H7] E. unfold entry_ok in *. rewrite H4, H5, H6.
  by rewrite (bool_decide_ext _ _ H7).
Qed.

(** ** Threads

    [grows w w']: of the sleeping threads none went; the new ones are behind the old
    ones and have the next numbers. *)
Definition grows (w w' : world) : Prop :=
  exists l, w_threads w' = w_threads w ++ l /\ t_id <$> l = seqZ (w_next_thread w) (Z.of_nat (length l)) /\
    w_next_thread w' = w_next_thread w + Z.of_nat (length l).

Lemma grows_same w w' : w_threads w' = w_threads w -> w_next_thread w' = w_next_thread w -> grows w w'.
Proof. intros E1 E2. exists []. rewrite app_nil_r, E2. cbn. split; [done|]. split; [done|lia]. Qed.
#[export] Instance grows_trans : Transitive grows.
Proof.
  intros a b c (l & E1 & E2 & E3) (m & F1 & F2 & F3). exists (l ++ m). rewrite length_app, Nat2Z.inj_add.
  split; [by rewrite F1, E1, app_assoc|]. split; [|lia]. rewrite fmap_app, E2, F2, E3.
  rewrite seqZ_app by lia. done.
Qed.
Lemma grows_park pid id a w : grows w (park pid id a w).
Proof. by exists [mk_thread (w_next_thread w) pid id a]. Qed.

(** ** Changes

    [evolved T p w w']: of the sockets of [w], only those whose identity is in [T]
    changed or went, all keep their owner, and every new one belongs to [p]. *)
Record evolved (T : Z -> Prop) (p : Z) (w w' : world) : Prop := mk_evolved {
  ev_ok : world_ok w';
  ev_next : w_next_id w <= w_next_id w';
  ev_keep : forall e, e ∈ w_socks w -> ~ T (e_id e) -> e ∈ w_socks w';
  ev_from : forall e', e' ∈ w_socks w' -> e' ∈ w_socks w \/
    (T (e_id e') /\ ((exists e, e ∈ w_socks w /\ same_owner e e') \/ (w_next_id w <= e_id e' /\ so_pid (c_so e') = p)));
  ev_grows : grows w w'
}.

Definition evolves (T : Z -> Prop) (p : Z) (w w' : world) : Prop := world_ok w -> evolved T p w w'.

#[export] Instance evolves_refl T p : Reflexive (evolves T p).
Proof. intros w O. constructor; [done|lia|done| |by apply grows_same]. intros e' He. by left. Qed.
#[export] Instance evolves_trans T p : Transitive (evolves T p).
Proof.
  intros a b c A B O. destruct (A O) as [Ob Nb Kb Fb Gb]. destruct (B Ob) as [Oc Nc Kc Fc Gc].
  constructor; [done|lia|by auto| |by etrans]. intros e He.
  destruct (Fc e He) as [H1|(HT & [(e1 & H1 & S1)|[H1 H2]])].
  - by apply Fb.
  - right. split; [done|]. destruct (Fb e1 H1) as [H2|(_ & [(e2 & H2 & S2)|[H2 H3]])].
    + left. by exists e1.
    + left. exists e2. split; [done|by etrans].
    + right. rewrite (sm_id _ _ S1), (sm_pid _ _ S1). done.
  - right. split; [done|]. right. split; [lia|done].
Qed.

(** What is not in the table. *)
Lemma evolves_same T p w w' :
  w_socks w' = w_socks w -> w_next_id w' = w_next_id w -> w_fd w' = w_fd w -> w_threads w' = w_threads w ->
  w_next_thread w' = w_next_thread w -> evolves T p w w'.
Proof.
  intros E1 E2 E3 E4 E5 [O1 O2 O3 O7 O4 O5 O6]. constructor; [|lia|by rewrite E1|rewrite E1; by left|by apply grows_same].
  constructor; rewrite ?E1, ?E2, ?E3, ?E4; done.
Qed.

Section Evolve.
Context (T : Z -> Prop) (p : Z) (w0 : world).
Implicit Type w : world.
Notation "⊢ w" := (evolves T p w0 w) (at level 80).

Lemma ev_then w w' : evolves T p w w' -> ⊢ w -> ⊢ w'. Proof. intros A B. by etrans. Qed.
Lemma ev_env f w : ⊢ w -> ⊢ upd_w_env f w. Proof. by apply ev_then, evolves_same. Qed.
Lemma ev_set_env f w : ⊢ w -> ⊢ set_w_env f w. Proof. by apply ev_then, evolves_same. Qed.
Lemma ev_net f w : ⊢ w -> ⊢ upd_w_net f w. Proof. apply ev_env. Qed.
Lemma ev_fault f w : ⊢ w -> ⊢ w_fault f w. Proof. apply ev_env. Qed.
Lemma ev_wake q w : ⊢ w -> ⊢ w_wake q w. Proof. apply ev_env. Qed.
Lemma ev_free_skb b w : ⊢ w -> ⊢ w_free_skb b w.
Proof. unfold w_free_skb. destruct (free_skb b); [apply ev_env|done]. Qed.
Lemma ev_amount v w : ⊢ w -> ⊢ set_w_amount v w. Proof. by apply ev_then, evolves_same. Qed.
Lemma ev_dad_done v w : ⊢ w -> ⊢ set_w_dad_done v w. Proof. by apply ev_then, evolves_same. Qed.
Lemma ev_dad_target v w : ⊢ w -> ⊢ set_w_dad_target v w. Proof. by apply ev_then, evolves_same. Qed.
Lemma ev_dad_ptr v w : ⊢ w -> ⊢ set_w_dad_ptr v w. Proof. by apply ev_then, evolves_same. Qed.
Lemma ev_copies v w : ⊢ w -> ⊢ set_w_copies v w. Proof. by apply ev_then, evolves_same. Qed.

Lemma ev_park pid id a w : (thread_ok (mk_thread (w_next_thread w) pid id a)) -> ⊢ w -> ⊢ park pid id a w.
Proof.
  intros Ht. apply ev_then. intros [O1 O2 O3 O7 O4 O5 O6]. constructor; [|simpl; lia|done|by left|apply grows_park].
  constructor; try done. apply Forall_app. split; [done|]. by apply Forall_singleton.
Qed.

(** Entries are rewritten. *)
Lemma evolves_fmap g w :
  (world_ok w -> forall e, e ∈ w_socks w -> same_owner e (g e)) ->
  (forall e, e ∈ w_socks w -> g e = e \/ T (e_id e)) -> evolves T p w (set_w_socks (g <$> w_socks w) w).
Proof.
  intros G Ht O. specialize (G O). destruct O as [O1 O2 O3 O7 O4 O5 O6].
  assert (F : forall e', e' ∈ g <$> w_socks w -> exists e, e ∈ w_socks w /\ e' = g e /\ same_owner e e').
  { intros e' (e & -> & He)%list_elem_of_fmap. exists e. split; [done|]. split; [done|by apply G]. }
  constructor; [constructor| | | |by apply grows_same]; try done.
  - assert (E : e_id <$> (g <$> w_socks w) = e_id <$> w_socks w);
      [|change (NoDup (e_id <$> (g <$> w_socks w))); by rewrite E].
    rewrite <- list_fmap_compose. apply list_fmap_ext. intros i e He. apply list_elem_of_lookup_2 in He. simpl.
    apply (sm_id _ _ (G e He)).
  - intros e' (e & He & _ & S)%F. rewrite (sm_id _ _ S). by apply O2.
  - intros e' (e & He & _ & S)%F. rewrite (sm_id _ _ S), (sm_fd _ _ S). by apply O3.
  - intros e' (e & He & _ & S)%F. by eapply same_owner_ok, O5.
  - intros e He HnT. apply list_elem_of_fmap. exists e. split; [|done]. by destruct (Ht e He) as [->|].
  - intros e' (e & He & -> & S)%F. destruct (Ht e He) as [Eg|HT]; [left; by rewrite Eg|].
    right. split; [by rewrite (sm_id _ _ S)|]. left. by exists e.
Qed.

Lemma evolves_upd id f w :
  T id -> (world_ok w -> forall e, e ∈ w_socks w -> e_id e = id -> same_owner e (f e)) -> evolves T p w (upd_entry id f w).
Proof.
  intros HT Hf. apply evolves_fmap.
  - intros O e He. destruct (Z.eqb_spec (e_id e) id); [by apply Hf|done].
  - intros e He. destruct (Z.eqb_spec (e_id e) id) as [E|E]; [right; by rewrite E|by left].
Qed.

Lemma ev_on_so id f w :
  (forall o, so_id (f o) = so_id o /\ so_fd (f o) = so_fd o /\ so_pid (f o) = so_pid o) -> T id -> ⊢ w -> ⊢ on_so id f w.
Proof. intros Hf HT. apply ev_then, evolves_upd; [done|]. intros _ e _ _. constructor; try done; apply Hf. Qed.
Lemma ev_on_sk id f w :
  (forall k, sk_protocol (f k) = sk_protocol k /\ sk_addr_family (f k) = sk_addr_family k) -> T id -> ⊢ w -> ⊢ on_sk id f w.
Proof. intros Hf HT. apply ev_then, evolves_upd; [done|]. intros _ e _ _. constructor; try done; apply Hf. Qed.
Lemma ev_acquire id w : T id -> ⊢ w -> ⊢ so_acquire id w.
Proof.
  intros HT K. unfold so_acquire. destruct (find_entry id w); [|by apply ev_fault].
  destruct (so_locked _); [apply ev_fault|]; by apply ev_on_so.
Qed.
Lemma ev_release id w : T id -> ⊢ w -> ⊢ so_release id w.
Proof.
  intros HT K. unfold so_release. destruct (find_entry id w); [|by apply ev_fault].
  destruct (so_locked _); [|by apply ev_fault]. by apply ev_on_so.
Qed.

End Evolve.

Lemma find_entry_some id w e : find_entry id w = Some e -> e ∈ w_socks w /\ e_id e = id.
Proof. intros [H1 H2]%find_some. apply Z.eqb_eq in H2. split; [by apply list_elem_of_In|done]. Qed.

Lemma tcp_of_some id w s : tcp_of id w = Some s -> exists e t, e ∈ w_socks w /\ e_id e = id /\ c_tcp e = Some t /\ s = focus e t w.
Proof.
  unfold tcp_of. destruct (find_entry id w) as [e|] eqn:E; [|done]. simpl. destruct (c_tcp e) as [t|] eqn:Et; [|done].
  intros [= <-]. apply find_entry_some in E as [? ?]. by exists e, t.
Qed.

Lemma ids_unique w e e' : world_ok w -> e ∈ w_socks w -> e' ∈ w_socks w -> e_id e = e_id e' -> e = e'.
Proof.
  intros O He He' E. apply list_elem_of_lookup in He as [i Hi]. apply list_elem_of_lookup in He' as [j Hj].
  assert (i = j); [|by simplify_eq].
  eapply (NoDup_lookup _ _ _ (e_id e)); [apply (wo_ids _ O)| |]; rewrite list_lookup_fmap; [by rewrite Hi|by rewrite Hj, E].
Qed.

Lemma evolves_put T p id w s s' : T id -> tcp_of id w = Some s -> owned s s' -> evolves T p w (put s' w).
Proof.
  intros HT Hs Ho. unfold put. apply ev_set_env.
  destruct (tcp_of_some _ _ _ Hs) as (e & t & He & Hid & Ht & ->).
  assert (Es : self s' = id) by (rewrite <- Hid; apply (ow_id _ _ Ho)).
  rewrite Es. apply evolves_upd; [done|].
  intros O e' He' E'. assert (e' = e) as -> by (eapply ids_unique; [done|done|done|congruence]).
  destruct Ho as [H1 H2 H3 H4 H5]. by constructor.
Qed.

Lemma inet_create_ok o w e : inet_create o w = Some e -> c_so e = o /\ entry_ok e.
Proof. unfold inet_create. repeat destruct (negb _); intros [= <-]; done. Qed.
Lemma inet6_create_ok o w e : inet6_create o w = Some e -> c_so e = o /\ entry_ok e.
Proof. unfold inet6_create. repeat destruct (negb _); intros [= <-]; done. Qed.

(** [_socket]: the new entry is at the end of the table, or nothing is. *)
Definition new_socket (pid type : Z) (w : world) : socket :=
  mk_socket (w_next_id w) (w_fd w) pid 1 SS_UNCONNECTED type O_RDWR false false.
Definition opened (e : entry) (w : world) : world :=
  set_w_amount (w_amount w + 1) (set_w_socks (w_socks w ++ [e]) (set_w_fd (s32 (w_fd w + 1)) (set_w_next_id (w_next_id w + 1) w))).

Lemma socket_shape pid domain type w :
  (exists e, c_so e = new_socket pid type w /\ entry_ok e /\
     _socket pid domain type w = (so_release (e_id e) (so_acquire (e_id e) (opened e w)), w_fd w)) \/
  (exists w', _socket pid domain type w = (w', -1) /\ w_socks w' = w_socks w /\ w_next_id w' = w_next_id w + 1 /\
     w_fd w' = s32 (w_fd w + 1) /\ w_threads w' = w_threads w /\ w_next_thread w' = w_next_thread w).
Proof.
  unfold _socket, alloc_socket. cbv zeta. cbn beta iota. change (set_so_type type _) with (new_socket pid type w).
  set (w1 := set_w_fd _ _). set (w2 := if _ && _ then w1 else _).
  assert (E2 : w_socks w2 = w_socks w1 /\ w_next_id w2 = w_next_id w1 /\ w_fd w2 = w_fd w1 /\ w_threads w2 = w_threads w1 /\ w_next_thread w2 = w_next_thread w1)
    by (unfold w2; by destruct (_ && _)).
  set (made := if _ =? _ then _ else _).
  assert (M : forall e, made = Some e -> w2 = w1 /\ c_so e = new_socket pid type w /\ entry_ok e).
  { intros e. unfold made. destruct (Z.eqb_spec domain AF_INET) as [->|]; [intros; split; [done|by eapply inet_create_ok]|].
    destruct (Z.eqb_spec domain AF_INET6) as [->|]; [intros; split; [done|by eapply inet6_create_ok]|done]. }
  destruct made as [e|]; [left|right].
  - destruct (M e eq_refl) as (-> & Eo & Ek). by exists e.
  - eexists. split; [done|]. exact E2.
Qed.

Section Table.
Context (T : Z -> Prop) (p : Z) (w0 : world).
Implicit Type w : world.
Notation "⊢ w" := (evolves T p w0 w) (at level 80).

Lemma ev_put id w s s' : tcp_of id w = Some s -> owned s s' -> T id -> ⊢ w -> ⊢ put s' w.
Proof. intros. eapply ev_then; [by eapply evolves_put|done]. Qed.
Lemma ev_on_tcp id f w : (forall s, owned s (f s)) -> T id -> ⊢ w -> ⊢ on_tcp id f w.
Proof.
  intros Hf HT K. unfold on_tcp. destruct (tcp_of id w) as [s|] eqn:Es; [|by apply ev_fault]. by eapply ev_put.
Qed.

(** A socket is added. *)
Lemma ev_add e w :
  e_id e = w_next_id w -> so_fd (c_so e) = w_fd w -> entry_ok e -> so_pid (c_so e) = p -> T (w_next_id w) -> ⊢ w ->
  ⊢ set_w_socks (w_socks w ++ [e]) (set_w_fd (s32 (w_fd w + 1)) (set_w_next_id (w_next_id w + 1) w)).
Proof.
  intros E1 E2 E3 E4 HT. apply ev_then. intros [O1 O2 O3 O7 O4 O5 O6].
  assert (M : forall x, x ∈ w_socks w ++ [e] -> x ∈ w_socks w \/ x = e).
  { intros x [H|H]%elem_of_app; [by left|right]. by apply list_elem_of_singleton in H. }
  constructor; [constructor| | | |by apply grows_same]; simpl.
  - rewrite fmap_app. apply NoDup_app. split; [done|]. split; [|apply NoDup_singleton].
    intros x (y & -> & Hy)%list_elem_of_fmap Hx. apply list_elem_of_singleton in Hx. specialize (O2 y Hy). lia.
  - intros x [Hx| ->]%M; [specialize (O2 x Hx); lia|lia].
  - intros x [Hx| ->]%M; [by apply O3|]. rewrite E2, O4. by rewrite E1.
  - lia.
  - rewrite O4. ulia.
  - intros x [Hx| ->]%M; [by apply O5|done].
  - done.
  - lia.
  - intros x Hx _. apply elem_of_app. by left.
  - intros x [Hx| ->]%M; [by left|]. right. split; [by rewrite E1|]. right. split; [lia|done].
Qed.

(** One goes. *)
Lemma ev_remove id w : T id -> ⊢ w -> ⊢ set_w_socks (filter (fun x => e_id x <> id) (w_socks w)) w.
Proof.
  intros HT. apply ev_then. intros [O1 O2 O3 O7 O4 O5 O6].
  assert (M : forall x, x ∈ filter (fun x => e_id x <> id) (w_socks w) -> x ∈ w_socks w) by (by intros x [_ H]%list_elem_of_filter).
  constructor; [constructor| | | |by apply grows_same]; simpl; try done; try (by auto).
  - eapply sublist_NoDup; [done|]. apply fmap_sublist, sublist_filter.
  - intros e He HnT. apply list_elem_of_filter. split; [|done]. by intros <-.
Qed.

Lemma ev_skip_id w : ⊢ w -> ⊢ set_w_fd (s32 (w_fd w + 1)) (set_w_next_id (w_next_id w + 1) w).
Proof.
  apply ev_then. intros [O1 O2 O3 O7 O4 O5 O6]. constructor; [constructor| | | |by apply grows_same]; simpl; try done; try lia.
  - intros e He. specialize (O2 e He). lia.
  - rewrite O4. ulia.
  - intros e He. by left.
Qed.

Lemma ev_socket domain type w : T (w_next_id w) -> ⊢ w -> ⊢ (_socket p domain type w).1.
Proof.
  intros HT K. destruct (socket_shape p domain type w) as [(e & Eo & Ek & ->)|(w' & -> & E1 & E2 & E3 & E4 & E5)]; cbn [fst].
  - assert (HTe : T (e_id e)) by (unfold e_id; by rewrite Eo).
    apply ev_release; [done|]. apply ev_acquire; [done|]. apply ev_amount.
    refine (ev_add e w _ _ Ek _ HT K); [unfold e_id|..]; by rewrite Eo.
  - eapply ev_then, (ev_skip_id _ K). by apply evolves_same.
Qed.

Lemma ev_inet_free e w : ⊢ w -> ⊢ inet_free e w. Proof. apply ev_env. Qed.
Lemma ev_socket_free id w : T id -> ⊢ w -> ⊢ socket_free id w.
Proof.
  intros HT K. unfold socket_free. destruct (find_entry id w); [|by apply ev_fault]. cbv zeta.
  apply ev_wake, ev_inet_free, ev_amount, ev_remove; [done|]. by apply ev_acquire.
Qed.
Lemma ev_collect id w : T id -> ⊢ w -> ⊢ socket_garbage_collect id w.
Proof.
  intros HT K. unfold socket_garbage_collect, socket_find. destruct (find_entry id w) as [e|] eqn:E; [|done].
  apply find_entry_some in E as [_ E]. change (⊢ socket_free (e_id e) w). rewrite E. by apply ev_socket_free.
Qed.

(** ** Segments *)

Lemma fork_tcb_keeps th s : keeps s (fork_tcb th s).
Proof.
  unfold fork_tcb. cbv zeta. set (s1 := if _ =? _ then _ else _).
  assert (K : keeps s (generate_iss s1).2).
  { apply keeps_iss. unfold s1. pose proof (keeps_parse_opts s th (set_state TCP_SYN_RECEIVED s)) as K.
    destruct (_ =? _); [|apply keeps_sa]; apply K, keeps_state; done. }
  destruct (generate_iss s1) as [i s2]. by apply keeps_tb.
Qed.
Lemma owned_sk f (s s1 : st net) :
  (forall k, sk_protocol (f k) = sk_protocol k) -> (forall k, sk_addr_family (f k) = sk_addr_family k) ->
  owned s s1 -> owned s (upd_sk f s1).
Proof.
  intros F1 F2 [H1 H2 H3 H4 H5]. constructor; try done.
  - rewrite <- H4. apply F1.
  - rewrite <- H5. apply F2.
Qed.
Lemma so_upd_sk f (s : st net) : so (upd_sk f s) = so s.
Proof. done. Qed.
Lemma fork_owned th family saddr daddr sport s :
  owned s (upd_sk (fork_addrs family saddr daddr sport th) (fork_tcb th s)).
Proof.
  apply owned_sk; [..|apply keeps_owned, fork_tcb_keeps]; intros k; unfold fork_addrs; by destruct (_ =? _).
Qed.

(** The socket a listener finds by the descriptor of the child it just made. *)
Definition forks_into w : Prop :=
  forall family id, get_socket p (_socket p family SOCK_STREAM w).2 (_socket p family SOCK_STREAM w).1 = Some id -> T id.

Lemma synack_owned id (s : st net) s' :
  s' = match tcp_send_synack (set_ptsk (Some id) s) with
       | Done s _ => incr_snd_nxt s | Asleep s _ _ => s | Diverges => s end ->
  owned s s' /\ (so_locked (so s) = false -> so_locked (so s') = false).
Proof.
  pose proof (send_synack_keeps s (set_ptsk (Some id) s) (keeps_set_ptsk s (Some id) s (keeps_refl s))) as K.
  destruct (tcp_send_synack _) as [s1 rc|s1 b k|]; cbn [res_keeps] in K; intros ->.
  - apply (keeps_incr s) in K. split; [by apply keeps_owned|]. by rewrite (keeps_locked _ _ K).
  - destruct K as [(s2 & K & ->) _]. destruct (release_released s2) as [R ?]. split; [|done]. etrans; [by apply keeps_owned|done].
  - done.
Qed.

(** ** Locks *)

(** The locks that may be held. *)
Definition locks (lk : Z -> Prop) w : Prop :=
  forall e, e ∈ w_socks w -> so_locked (c_so e) = true -> lk (e_id e).
Definition none : Z -> Prop := fun _ => False.
Definition only (id : Z) : Z -> Prop := fun x => x = id.

(** From an unlocked [w0], [w] is reached with at most the locks [lk] held. *)
Record runs (lk : Z -> Prop) w : Prop := mk_runs {
  rn_ev : ⊢ w;
  rn_lk : world_ok w0 -> locks none w0 -> locks lk w
}.

Lemma runs_same lk w w' : w_socks w' = w_socks w -> ⊢ w' -> runs lk w -> runs lk w'.
Proof. intros E K [_ L]. constructor; [done|]. intros O U. unfold locks. rewrite E. by apply L. Qed.
Lemma runs_mono lk lk' w : (forall x, lk x -> lk' x) -> runs lk w -> runs lk' w.
Proof. intros M [K L]. constructor; [done|]. intros O U e He Hl. by apply M, L. Qed.

Lemma runs_env lk f w : runs lk w -> runs lk (upd_w_env f w).
Proof. intros R. by eapply runs_same, R; [|apply ev_env, R]. Qed.
Lemma runs_net lk f w : runs lk w -> runs lk (upd_w_net f w). Proof. apply runs_env. Qed.
Lemma runs_fault lk f w : runs lk w -> runs lk (w_fault f w). Proof. apply runs_env. Qed.
Lemma runs_wake lk q w : runs lk w -> runs lk (w_wake q w). Proof. apply runs_env. Qed.
Lemma runs_free_skb lk b w : runs lk w -> runs lk (w_free_skb b w).
Proof. unfold w_free_skb. destruct (free_skb b); [apply runs_env|done]. Qed.
Lemma runs_dad_done lk v w : runs lk w -> runs lk (set_w_dad_done v w).
Proof. intros R. by eapply runs_same, R; [|apply ev_dad_done, R]. Qed.
Lemma runs_dad_target lk v w : runs lk w -> runs lk (set_w_dad_target v w).
Proof. intros R. by eapply runs_same, R; [|apply ev_dad_target, R]. Qed.
Lemma runs_dad_ptr lk v w : runs lk w -> runs lk (set_w_dad_ptr v w).
Proof. intros R. by eapply runs_same, R; [|apply ev_dad_ptr, R]. Qed.
Lemma runs_copies lk v w : runs lk w -> runs lk (set_w_copies v w).
Proof. intros R. by eapply runs_same, R; [|apply ev_copies, R]. Qed.
Lemma runs_park lk pid id a w : thread_ok (mk_thread (w_next_thread w) pid id a) -> runs lk w -> runs lk (park pid id a w).
Proof. intros Ht R. by eapply runs_same, R; [|apply ev_park; [done|apply R]]. Qed.

(** Entries are rewritten: a lock that is held afterwards is accounted for. *)
Lemma runs_upd lk lk' id f w :
  (forall x, lk x -> x <> id -> lk' x) ->
  (world_ok w0 -> locks none w0 -> forall e, e ∈ w_socks w -> e_id e = id -> e_id (f e) = id /\ (so_locked (c_so (f e)) = true -> lk' id)) ->
  ⊢ upd_entry id f w -> runs lk w -> runs lk' (upd_entry id f w).
Proof.
  intros M Hf K [_ L]. constructor; [done|]. intros O U. specialize (L O U). intros e' He' Hl.
  apply list_elem_of_fmap in He' as (e & -> & He). destruct (Z.eqb_spec (e_id e) id) as [E|E]; [|by apply M; [apply L|]].
  destruct (Hf O U e He E) as [-> ?]. by auto.
Qed.

Lemma runs_on_so lk lk' id f w :
  (forall x, lk x -> x <> id -> lk' x) -> (forall o, so_id (f o) = so_id o /\ so_fd (f o) = so_fd o /\ so_pid (f o) = so_pid o) ->
  (forall o, (so_locked o = true -> lk id) -> so_locked (f o) = true -> lk' id) -> T id -> runs lk w -> runs lk' (on_so id f w).
Proof.
  intros M Hf Hl HT R. eapply runs_upd; [exact M| |by apply ev_on_so, R|done].
  intros O U e He E. split; [rewrite <- E; apply Hf|]. apply Hl. intros Hle. rewrite <- E. by apply (rn_lk _ _ R).
Qed.
Lemma runs_on_sk lk id f w :
  (forall k, sk_protocol (f k) = sk_protocol k /\ sk_addr_family (f k) = sk_addr_family k) -> T id ->
  runs lk w -> runs lk (on_sk id f w).
Proof.
  intros Hf HT R. eapply runs_upd, R; [done| |by apply ev_on_sk, R]. intros O U e He E. rewrite <- E. split; [done|].
  intros Hl. by apply (rn_lk _ _ R).
Qed.
Lemma runs_so_state lk id v w : T id -> runs lk w -> runs lk (on_so id (set_so_state v) w).
Proof. intros HT R. by eapply runs_on_so, R; [..|intros o Ho Hl; apply Ho|]. Qed.
Lemma runs_so_flags lk id v w : T id -> runs lk w -> runs lk (on_so id (set_so_flags v) w).
Proof. intros HT R. by eapply runs_on_so, R; [..|intros o Ho Hl; apply Ho|]. Qed.

Lemma runs_acquire lk lk' id w : (forall x, lk x -> lk' x) -> lk' id -> T id -> runs lk w -> runs lk' (so_acquire id w).
Proof.
  intros M Hn HT R. unfold so_acquire. destruct (find_entry id w) as [e|] eqn:E.
  - assert (R1 : runs lk' (on_so id (fun o => set_so_locked true (set_so_refcnt (so_refcnt o + 1) o)) w))
      by (by eapply runs_on_so, R; [intros; by apply M|..]).
    destruct (so_locked _); [by apply runs_fault|done].
  - apply runs_fault. by eapply runs_mono.
Qed.
Lemma runs_release lk lk' id w : (forall x, lk x -> x <> id -> lk' x) -> T id -> runs lk w -> runs lk' (so_release id w).
Proof.
  intros M HT R. unfold so_release. destruct (find_entry id w) as [e|] eqn:E.
  - destruct (so_locked (c_so e)) eqn:El; [by eapply runs_on_so, R|].
    apply runs_fault. constructor; [apply R|]. intros O U e' He' Hl'. destruct R as [K L].
    apply M; [by apply L|]. intros Ei. apply find_entry_some in E as [He Ee].
    assert (e' = e) as -> by (eapply ids_unique; [by apply (ev_ok _ _ _ _ (K O))|done|done|congruence]). congruence.
  - apply runs_fault. constructor; [apply R|]. intros O U e' He' Hl'. destruct R as [K L].
    apply M; [by apply L|]. intros Ei. unfold find_entry in E.
    apply list_elem_of_In in He'. pose proof (find_none _ _ E e' He') as F. simpl in F. by rewrite Ei, Z.eqb_refl in F.
Qed.
(** A call: the lock taken at its start. *)
Lemma runs_enter id w : T id -> runs none w -> runs (only id) (so_acquire id w).
Proof. intros HT R. by eapply runs_acquire, R. Qed.
Lemma runs_leave id w : T id -> runs (only id) w -> runs none (so_release id w).
Proof. intros HT R. by eapply runs_release, R; [intros x ->|]. Qed.

Lemma runs_put lk lk' id w s s' :
  (forall x, lk x -> x <> id -> lk' x) -> tcp_of id w = Some s -> owned s s' ->
  ((so_locked (so s) = true -> lk id) -> so_locked (so s') = true -> lk' id) -> T id -> runs lk w -> runs lk' (put s' w).
Proof.
  intros M Hs Ho Hl HT R. pose proof (ev_put id w s s' Hs Ho HT (rn_ev _ _ R)) as K.
  destruct (tcp_of_some _ _ _ Hs) as (x & t & Hx & Ex & Ht & Ef).
  assert (Es : self s' = id) by (rewrite <- Ex; rewrite Ef in Ho; apply (ow_id _ _ Ho)).
  set (w' := upd_entry (self s') (fun e => entry_of s' (c_ops e)) w).
  assert (K' : ⊢ w') by (eapply ev_then, K; by apply evolves_same).
  apply (runs_same lk' w'); [done|done|]. subst w'. rewrite Es in *.
  eapply runs_upd, R; [done| |done]. intros O U e He _. split; [done|]. apply Hl.
  intros Hlx. rewrite <- Ex. apply (rn_lk _ _ R O U x Hx). by rewrite Ef in Hlx.
Qed.
Lemma runs_on_tcp lk id f w :
  (forall s, owned s (f s) /\ (so_locked (so s) = false -> so_locked (so (f s)) = false)) -> T id -> runs lk w ->
  runs lk (on_tcp id f w).
Proof.
  intros Hf HT R. unfold on_tcp. destruct (tcp_of id w) as [s|] eqn:Es; [|by apply runs_fault].
  eapply runs_put, R; [done|done|apply Hf| |done]. intros Ho Hl. destruct (Hf s) as [_ Hk].
  destruct (so_locked (so s)); [by apply Ho|]. by rewrite Hk in Hl.
Qed.
Lemma keeps_plain f : (forall s, keeps s (f s)) ->
  forall s : st net, owned s (f s) /\ (so_locked (so s) = false -> so_locked (so (f s)) = false).
Proof. intros Hf s. split; [by apply keeps_owned|]. by rewrite (keeps_locked _ _ (Hf s)). Qed.

(** ** Creation, removal, segments: lock free before, lock free after *)

Lemma runs_add lk e w w' :
  w_socks w' = w_socks w ++ [e] -> so_locked (c_so e) = false -> ⊢ w' -> runs lk w -> runs lk w'.
Proof.
  intros E El K [_ L]. constructor; [done|]. intros O U x Hx Hl. rewrite E in Hx. apply elem_of_app in Hx as [Hx|Hx]; [by eapply L|].
  apply list_elem_of_singleton in Hx as ->. congruence.
Qed.

Lemma runs_socket lk domain type w : T (w_next_id w) -> runs lk w -> runs lk (_socket p domain type w).1.
Proof.
  intros HT R. pose proof (ev_socket domain type w HT (rn_ev _ _ R)) as K.
  destruct (socket_shape p domain type w) as [(e & Eo & Ek & E)|(w' & E & E1 & _)]; rewrite E in *; cbn [fst] in *.
  - assert (HTe : T (e_id e)) by (unfold e_id; by rewrite Eo).
    eapply (runs_release (fun x => lk x \/ x = e_id e)); [by intros x [?|]|done|].
    eapply (runs_acquire lk); [by left|by right|done|]. apply (runs_add lk e w); [done|by rewrite Eo| |done].
    apply ev_amount. refine (ev_add e w _ _ Ek _ HT (rn_ev _ _ R)); [unfold e_id|..]; by rewrite Eo.
  - by eapply runs_same, R.
Qed.

Lemma runs_socket_free id w : T id -> runs none w -> runs none (socket_free id w).
Proof.
  intros HT R. pose proof (ev_socket_free id w HT (rn_ev _ _ R)) as K. unfold socket_free in *.
  pose proof (runs_enter id w HT R) as [_ L].
  destruct (find_entry id w); [|by apply runs_fault]. constructor; [done|]. intros O U e' He' Hl.
  apply list_elem_of_filter in He' as [Hn He']. by specialize (L O U e' He' Hl).
Qed.
Lemma runs_collect id w : T id -> runs none w -> runs none (socket_garbage_collect id w).
Proof.
  intros HT R. unfold socket_garbage_collect, socket_find. destruct (find_entry id w) as [e|] eqn:E; [|done].
  apply find_entry_some in E as [_ E]. change (runs none (socket_free (e_id e) w)). rewrite E. by apply runs_socket_free.
Qed.

Lemma runs_fork lk th family saddr sport daddr w :
  T (w_next_id w) -> forks_into w -> runs lk w -> runs lk (fork_socket p th family saddr sport daddr w).2 /\
    (forall id, (fork_socket p th family saddr sport daddr w).1 = Some id -> T id).
Proof.
  intros HT HG R. specialize (HG family). unfold fork_socket. pose proof (runs_socket lk family SOCK_STREAM w HT R) as R1.
  destruct (_socket p family SOCK_STREAM w) as [w1 fd]. cbn [fst snd] in *.
  destruct (get_socket p fd w1) as [id|]; cbn [fst snd]; [|split; [by apply runs_fault|done]].
  split; [|by intros ? [= <-]; auto]. apply runs_on_tcp; [|by auto|done]. intros s. split; [apply fork_owned|].
  intros E. rewrite so_upd_sk, (keeps_locked _ _ (fork_tcb_keeps th s)). done.
Qed.

Definition of_process id w : Prop := forall e, e ∈ w_socks w -> e_id e = id -> so_pid (c_so e) = p.

Lemma runs_listen lk id th b saddr family w :
  of_process id w -> T (w_next_id w) -> forks_into w -> runs lk w -> runs lk (tcp_listen id th b saddr family w).
Proof.
  intros Hp HT HG K. unfold tcp_listen. cbv zeta. apply runs_free_skb. destruct (th_syn th); [|done].
  destruct (find_entry id w) as [e|] eqn:E; [|by apply runs_fault]. apply find_entry_some in E as [He Hid].
  rewrite (Hp e He Hid). destruct (runs_fork lk th family (sk_saddr (c_sk e)) (sk_sport (c_sk e)) saddr w HT HG K) as [K1 T1].
  destruct (fork_socket p th family _ _ saddr w) as [[c|] w1]; cbn [fst snd] in *; [|done].
  apply runs_on_tcp; [|by auto|done]. intros s. by eapply synack_owned.
Qed.

Lemma runs_input_state id th b saddr w :
  is_Some (tcp_of id w) -> of_process id w -> T id -> T (w_next_id w) -> forks_into w -> runs (only id) w ->
  runs none (tcp_input_state id th b saddr w).
Proof.
  intros [s Es] Hp HTi HT HG K. unfold tcp_input_state. rewrite Es.
  pose proof (res_keeps_owned s s _ (owned_refl s) (input_conn_keeps s th b s (keeps_refl s))) as R.
  assert (R' : runs none match tcp_input_conn th b s with
    | Done s _ => put (socket_release s) w
    | Asleep s b k => park 0 id (WaitSend b (k ++ [AfterRelease]) RestInput) (put s w)
    | Diverges => w end).
  { destruct (tcp_input_conn th b s) as [s1 rc|s1 b1 k|] eqn:Er; cbn [res_owned] in R.
    - destruct (release_released s1) as [O1 E1]. eapply runs_put, K; [by intros x -> |done| |by rewrite E1|done].
      etrans; [apply R|done].
    - destruct R as [[O1 E1] Hk]. apply runs_park; [by exists k|].
      eapply runs_put, K; [by intros x -> |done|done|by rewrite E1|done].
    - by destruct (input_conn_returns th b s). }
  destruct (state s); try exact R'. apply runs_leave; [done|]. by apply runs_listen.
Qed.

(** ** Calls *)

(** A call that returns or sleeps holds no lock, and the thread of one that sleeps is
    a new one. *)
Record quiet (r : world * outcome) : Prop := mk_quiet {
  qt_ev : ⊢ r.1;
  qt_lk : world_ok w0 -> locks none w0 -> match r.2 with Crashed | Hung => True | _ => locks none r.1 end;
  qt_thread : world_ok w0 ->
    match r.2 with Sleeping t => w_next_thread w0 <= t /\ t ∈ t_id <$> w_threads r.1 | _ => True end
}.

Lemma quiet_runs {w o} `{!Awake o} : runs none w -> quiet (w, o).
Proof. intros [K L]. constructor; [done| |by destruct o]. intros O U. specialize (L O U). by destruct o. Qed.
Lemma quiet_crash lk w : runs lk w -> quiet (crash w).
Proof. intros R. constructor; [apply ev_fault, R|done|done]. Qed.
Lemma quiet_sleep pid id a w : thread_ok (mk_thread (w_next_thread w) pid id a) -> runs none w -> quiet (sleep pid id a w).
Proof.
  intros Ht R. pose proof (runs_park none pid id a w Ht R) as [K L]. constructor; [done|done|]. cbn [sleep fst snd]. intros O. split.
  - destruct (ev_grows _ _ _ _ (rn_ev _ _ R O)) as (l & _ & _ & ->). lia.
  - unfold park. cbn [w_threads set_w_next_thread set_w_threads]. rewrite fmap_app. apply elem_of_app. right. by left.
Qed.
Lemma quiet_return id rc w : T id -> runs (only id) w -> quiet (return_rc id rc w).
Proof. intros HT R. apply quiet_runs. by apply runs_leave. Qed.
Lemma quiet_with_entry lk id f w : runs lk w -> (forall e, find_entry id w = Some e -> quiet (f e)) -> quiet (with_entry id f w).
Proof.
  intros R F. unfold with_entry. destruct (find_entry id w); [by apply F|]. constructor; [apply ev_fault, R|done|done].
Qed.
Lemma quiet_with_tcp lk id f w : runs lk w -> (forall s, tcp_of id w = Some s -> quiet (f s)) -> quiet (with_tcp id f w).
Proof.
  intros R F. unfold with_tcp. destruct (tcp_of id w); [by apply F|]. constructor; [apply ev_fault, R|done|done].
Qed.
Lemma quiet_call pid fd f w :
  (forall id, get_socket pid fd w = Some id -> T id) -> runs none w ->
  (forall e w', T (e_id e) -> runs (only (e_id e)) w' -> quiet (f e w')) -> quiet (call pid fd f w).
Proof.
  intros HT R F. unfold call. destruct (get_socket pid fd w) as [id|]; [|by apply quiet_runs]. cbv zeta.
  specialize (HT id eq_refl). pose proof (runs_enter id w HT R) as R1. eapply quiet_with_entry; [done|].
  intros e [He <-]%find_entry_some. by apply F.
Qed.

Lemma quiet_connect_tail id rc w : T id -> runs (only id) w -> quiet (connect_tail id rc w).
Proof.
  intros HT R. unfold connect_tail. cbv zeta. pose proof (runs_leave id w HT R) as R1.
  destruct (_ || _ || _ || _); apply quiet_runs; [by apply runs_socket_free|done].
Qed.
Lemma quiet_connect_done id w : T id -> runs (only id) w -> quiet (connect_done id w).
Proof.
  intros HT R. unfold connect_done. cbv zeta.
  assert (R1 : runs (only id) (so_acquire id w)) by (by eapply runs_acquire, R).
  eapply quiet_with_entry; [done|]. intros e He. apply quiet_connect_tail; [done|]. destruct (_ =? 0); [by apply runs_so_state|done].
Qed.
Lemma quiet_connect_wait pid id w : T id -> runs (only id) w -> quiet (connect_wait pid id w).
Proof.
  intros HT R. unfold connect_wait. eapply quiet_with_entry; [done|]. intros e He.
  destruct (_ && _); [|by apply quiet_connect_done]. apply quiet_sleep; [done|]. by apply runs_leave.
Qed.
Lemma quiet_connect_started pid id w : T id -> runs (only id) w -> quiet (connect_started pid id w).
Proof.
  intros HT R. unfold connect_started. cbv zeta.
  assert (R1 : runs (only id) (on_sk id (set_sk_err (- EINPROGRESS)) (on_so id (set_so_state SS_CONNECTING) w)))
    by (by apply runs_on_sk, runs_so_state).
  eapply quiet_with_entry; [done|]. intros e He. destruct (negb _); [by apply quiet_connect_tail|by apply quiet_connect_wait].
Qed.

(** What a TCP function that may sleep hands back. *)
Definition rest_owned (s : st net) (r : rest) (x : res net) : Prop :=
  match r with RestInput => input_owned s x | _ => exists lk, res_owned s lk x end.

Lemma quiet_after_tcp pid id r x s lk w :
  (forall y, lk y -> y = id) -> T id -> tcp_of id w = Some s -> rest_owned s r x -> runs lk w -> quiet (after_tcp pid id r x w).
Proof.
  intros M HT Hs Hx R.
  assert (P : forall s1 lk', owned s s1 -> (so_locked (so s1) = true -> lk' id) -> runs lk' (put s1 w)).
  { intros s1 lk' O1 L1. eapply runs_put, R; [|done|done|done|done]. intros y Hy Hn. by rewrite (M y Hy) in Hn. }
  destruct x as [s1 rc|s1 b k|]; cbn [after_tcp].
  - destruct r; cbn [rest_owned res_owned input_owned finish] in *.
    + destruct Hx as (l & O1 & _). apply quiet_return; [done|]. by apply P.
    + destruct Hx as (l & O1 & _). apply quiet_connect_started; [done|]. by apply P.
    + destruct Hx as [O1 E1]. apply quiet_runs, P; [done|]. by rewrite E1.
  - assert (O1 : released s s1 /\ thread_ok (mk_thread (w_next_thread (put s1 w)) pid id (WaitSend b k r)))
      by (destruct r; cbn [rest_owned res_owned input_owned] in Hx; [destruct Hx as [? Hx]..|]; done).
    destruct O1 as [[O1 E1] Ht]. apply quiet_sleep; [done|]. apply P; [done|by rewrite E1].
  - constructor; [apply R|done|done].
Qed.
Lemma quiet_tcp pid id r x s w :
  r <> RestInput -> T id -> tcp_of id w = Some s -> res_keeps s x -> runs (only id) w ->
  quiet (after_tcp pid id r x w).
Proof.
  intros Hr HT Hs Hx R. eapply quiet_after_tcp, R; [by intros y ->|done|done|].
  pose proof (res_keeps_owned s s x (owned_refl s) Hx) as O. destruct r; [by eexists|by eexists|done].
Qed.
End Table.
Arguments quiet_runs {T p w0 w o _}.
End WorldFacts.
