(* ===== verification/WorldCalls.v ===== *)
(** Every step of the stack in the terms of [WorldFacts]: calls, timer callbacks and
    arriving frames. *)
From S2P Require Import Prelude Utils SkBuff Timer TcpTypes TcpBase TcpOutput TcpData TcpInput TcpApi TcpOwner Ipv6 Net Neigh IpOut World Udp SocketApi Addrconf IpIn Stack WorldFacts.
Import Utils SkBuff Timer TcpTypes TcpBase TcpOutput TcpData TcpInput TcpApi TcpOwner Ipv6 Net Neigh IpOut World Udp SocketApi Addrconf IpIn Stack WorldFacts.

Module WorldCalls.

Section Calls.
Context (T : Z -> Prop) (p : Z) (w0 : world).
Implicit Type w : world.
Abbreviation runs := (runs T p w0).
Abbreviation quiet := (quiet T p w0).

(** ** Connect, bind, listen, accept *)

Lemma runs_set_err lk id v w : T id -> runs lk w -> runs lk (on_sk id (set_sk_err v) w).
Proof. intros. by apply runs_on_sk. Qed.

Lemma quiet_connect_error id err w : T id -> runs (only id) w -> quiet (connect_error id err w).
Proof. intros HT R. by apply quiet_connect_tail, runs_set_err. Qed.

Lemma quiet_stream_connect pid e addr n w :
  T (e_id e) -> runs (only (e_id e)) w -> quiet (inet_stream_connect pid e addr n w).
Proof.
  intros HT R. unfold inet_stream_connect. cbv zeta. destruct (_ <? _); [by apply quiet_connect_tail|].
  destruct (_ =? AF_UNSPEC).
  { apply quiet_connect_tail; [done|]. apply runs_on_tcp; [|done|done]. by apply keeps_plain. }
  destruct (so_state _); try (by apply quiet_connect_error).
  pose proof (runs_set_err _ (e_id e) (- EISCONN) w HT R) as R1. destruct (negb _); [by apply quiet_connect_tail|].
  eapply quiet_with_tcp; [done|]. intros s Hs. eapply quiet_tcp; [done|done|done| |done].
  destruct (net_ops_of (c_ops e)); [by apply v4_connect_keeps|by apply v6_connect_keeps|by apply v4_connect_keeps].
Qed.
Lemma quiet_connect pid fd addr n w :
  (forall id, get_socket pid fd w = Some id -> T id) -> runs none w -> quiet (_connect pid fd addr n w).
Proof.
  intros HT R. apply quiet_call; [done|done|]. clear w HT R. intros e w HT R. destruct (c_ops e).
  - by apply quiet_stream_connect.
  - unfold inet_dgram_connect. cbv zeta. destruct (_ || _); [by apply quiet_connect_tail|].
    by apply quiet_connect_tail, runs_so_state, runs_on_sk.
  - unfold inet6_stream_connect. destruct (_ && _); [by apply quiet_connect_tail|by apply quiet_stream_connect].
  - by eapply quiet_crash.
Qed.

Lemma quiet_bind pid fd addr n w :
  (forall id, get_socket pid fd w = Some id -> T id) -> runs none w -> quiet (_bind pid fd addr n w).
Proof.
  intros HT R. apply quiet_call; [done|done|]. clear w HT R. intros e w HT R.
  assert (B4 : runs (only (e_id e)) (inet_bind e addr n w).1).
  { unfold inet_bind. cbv zeta. destruct (_ <? _); [done|]. destruct (_ =? _); [done|]. destruct (_ && _); [done|].
    destruct (net_ops_of _); cbn [fst].
    - apply runs_on_tcp; [|done|done]. apply keeps_plain. intros s. by apply bind_keeps.
    - apply runs_on_tcp; [|done|done]. apply keeps_plain. intros s. by apply bind_keeps.
    - unfold udp_bind. destruct (socker_find_protocol_port _ _ w); [done|]. by apply runs_on_sk. }
  assert (B6 : runs (only (e_id e)) (inet6_bind e addr n w).1).
  { unfold inet6_bind. destruct (_ <? _); [done|]. destruct (negb _); [done|].
    destruct (tcp_of (e_id e) w) as [s|] eqn:Es; [|done].
    pose proof (v6_bind_keeps s addr n s (keeps_refl s)) as K. destruct (tcp_v6_bind addr n s) as [s1 rc]. cbn [fst] in *.
    eapply runs_put, R; [by intros|done|by apply keeps_owned|done|done]. }
  destruct (c_ops e).
  1, 2: destruct (inet_bind e addr n w); by apply quiet_return.
  all: destruct (inet6_bind e addr n w); by apply quiet_return.
Qed.

Lemma quiet_listen pid fd n w :
  (forall id, get_socket pid fd w = Some id -> T id) -> runs none w -> quiet (_listen pid fd n w).
Proof.
  intros HT R. apply quiet_call; [done|done|]. clear w HT R. intros e w HT R.
  assert (B : runs (only (e_id e)) (inet_stream_listen e n w).1).
  { unfold inet_stream_listen. destruct (_ || _); [done|]. apply runs_on_tcp; [|done|done].
    apply keeps_plain. intros s. by apply listen_keeps. }
  destruct (c_ops e); try (by eapply quiet_crash); destruct (inet_stream_listen e n w); by apply quiet_return.
Qed.

Lemma quiet_accept_turn pid id w : T id -> runs (only id) w -> quiet (accept_turn pid id w).
Proof.
  intros HT R. unfold accept_turn. eapply quiet_with_tcp; [done|]. intros s Hs.
  assert (P : forall s1, owned s s1 -> runs (only id) (put s1 w)).
  { intros s1 O1. eapply runs_put, R; [by intros x ->|done|done|done|done]. }
  unfold get_established_conn. destruct (_ !! _) as [c|]; [|eapply quiet_crash, P; by constructor].
  destruct (_ <? _).
  - destruct (ch_list c) as [|i r]; [eapply quiet_crash, P; by constructor|]. cbv zeta.
    match goal with |- context [put ?x w] => set (s1 := x) end. assert (R1 : runs (only id) (put s1 w)) by (apply P; by constructor).
    destruct (_ ≫= _); [|by eapply quiet_crash]. apply quiet_runs. by apply runs_leave.
  - destruct (negb _); [by eapply quiet_crash, P|]. destruct (release_released s) as [O1 E1]. apply quiet_sleep; [done|].
    eapply runs_put, R; [by intros x ->|done|done|by rewrite E1|done].
Qed.
Lemma quiet_accept pid fd n w :
  (forall id, get_socket pid fd w = Some id -> T id) -> runs none w -> quiet (_accept pid fd n w).
Proof.
  intros HT R. apply quiet_call; [done|done|]. clear w HT R. intros e w HT R.
  assert (A : quiet (inet_stream_accept pid (e_id e) n w)).
  { unfold inet_stream_accept. destruct (_ <? _); [by apply quiet_return|]. unfold tcp_v4_accept.
    eapply quiet_with_tcp; [done|]. intros s Hs. destruct (negb _); [by apply quiet_return|by apply quiet_accept_turn]. }
  destruct (c_ops e); try done; by eapply quiet_crash.
Qed.

(** ** Data *)

Lemma runs_udp_send lk k buf w : runs lk w -> runs lk (udp_out_send k buf w).1.
Proof.
  intros R. unfold udp_out_send, udp_alloc_skb, w_alloc_skb. cbv zeta. cbn beta iota. cbn [fst].
  set (w1 := upd_w_env _ w). assert (R1 : runs lk w1) by (by apply runs_env). clearbody w1.
  unfold udp_transmit_skb. cbv zeta. destruct (ip_output_net _ _ _) as [[n b] rc]. by apply runs_net.
Qed.

Lemma quiet_write pid fd buf w :
  (forall id, get_socket pid fd w = Some id -> T id) -> runs none w -> quiet (_write pid fd buf w).
Proof.
  intros HT R. apply quiet_call; [done|done|]. clear w HT R. intros e w HT R. unfold inet_write.
  assert (A : quiet (with_tcp (e_id e) (fun s => after_tcp pid (e_id e) RestReturn (tcp_write buf s) w) w)).
  { eapply quiet_with_tcp; [done|]. intros s Hs. eapply quiet_tcp; [done|done|done| |done]. by apply write_keeps. }
  assert (B : runs (only (e_id e)) (udp_write (e_id e) buf w).1).
  { unfold udp_write. destruct (find_entry _ w) as [x|]; [|by apply runs_fault]. cbv zeta. destruct (negb _); [done|].
    destruct (_ || _); [|done]. by apply runs_udp_send. }
  destruct (net_ops_of (c_ops e)); [done|done|]. destruct (udp_write _ _ w). by apply quiet_return.
Qed.
Lemma quiet_after_recv pid id r s w :
  T id -> tcp_of id w = Some s -> (exists lk, recv_owned s lk r) -> (forall lk, (forall y, lk y -> y = id) -> runs lk w -> quiet (after_recv pid id r w)).
Proof.
  intros HT Hs [l Hr] lk M R.
  assert (P : forall s1 lk', owned s s1 -> (so_locked (so s1) = true -> lk' id) -> runs lk' (put s1 w)).
  { intros s1 lk' O1 L1. eapply runs_put, R; [|done|done|done|done]. intros y Hy Hn. by rewrite (M y Hy) in Hn. }
  destruct r as [s1 bs rc|s1 acc n]; cbn [after_recv recv_owned] in *.
  - apply quiet_runs, runs_leave; [done|]. by apply P; [apply Hr|].
  - destruct Hr as [O1 E1]. apply quiet_sleep; [done|]. apply P; [done|by rewrite E1].
Qed.

Lemma quiet_read pid fd n w :
  (forall id, get_socket pid fd w = Some id -> T id) -> runs none w -> quiet (_read pid fd n w).
Proof.
  intros HT R. apply quiet_call; [done|done|]. clear w HT R. intros e w HT R. unfold inet_read.
  assert (A : quiet (with_tcp (e_id e) (fun s => after_recv pid (e_id e) (tcp_read (s32 n) s) w) w)).
  { eapply quiet_with_tcp; [done|]. intros s Hs. eapply quiet_after_recv, R; [done|done| |by intros y ->].
    eexists. by apply recv_keeps_owned, read_keeps. }
  destruct (net_ops_of (c_ops e)); [done|done|by apply quiet_return].
Qed.

Lemma quiet_sendto pid fd buf addr w :
  (forall id, get_socket pid fd w = Some id -> T id) -> runs none w -> quiet (_sendto pid fd buf addr w).
Proof.
  intros HT R. apply quiet_call; [done|done|]. clear w HT R. intros e w HT R. unfold inet_sendto.
  assert (B : runs (only (e_id e)) (udp_sendto (e_id e) buf addr w).1).
  { unfold udp_sendto. destruct (find_entry _ w) as [x|] eqn:E; [|by apply runs_fault]. destruct (negb _); [done|].
    cbv zeta. by apply runs_udp_send, runs_on_sk. }
  destruct (c_ops e); try (by eapply quiet_crash); destruct (udp_sendto _ _ _ w); by apply quiet_return.
Qed.

Lemma quiet_recvfrom_turn pid id n w : T id -> runs (only id) w -> quiet (udp_recvfrom pid id n w).
Proof.
  intros HT R. unfold udp_recvfrom, udp_receive.
  assert (B : runs (only id) (udp_data_dequeue n id w).2).
  { unfold udp_data_dequeue. destruct (find_entry id w) as [x|]; [|by apply runs_fault]. cbv zeta.
    match goal with |- context [match ?o with Some _ => _ | None => _ end] => destruct o as [[b q]|] end; [|done].
    cbn [snd]. apply runs_free_skb, runs_on_sk; [|done|done]. intros k. by destruct (skb_queue_empty q). }
  destruct (udp_data_dequeue n id w) as [[d|] w1]; cbn [snd] in B.
  - destruct (_ <? _); [apply quiet_runs; by apply runs_leave|]. apply quiet_sleep; [done|]. by apply runs_leave.
  - apply quiet_sleep; [done|]. by apply runs_leave.
Qed.
Lemma quiet_recvfrom pid fd n w :
  (forall id, get_socket pid fd w = Some id -> T id) -> runs none w -> quiet (_recvfrom pid fd n w).
Proof.
  intros HT R. apply quiet_call; [done|done|]. clear w HT R. intros e w HT R. unfold inet_recvfrom.
  destruct (c_ops e); try (by eapply quiet_crash); by apply quiet_recvfrom_turn.
Qed.

Lemma quiet_close pid fd w :
  (forall id, get_socket pid fd w = Some id -> T id) -> runs none w -> quiet (_close pid fd w).
Proof.
  intros HT R. apply quiet_call; [done|done|]. clear w HT R. intros e w HT R. unfold inet_close.
  assert (A : quiet (with_tcp (e_id e) (fun s => after_tcp pid (e_id e) RestReturn (tcp_close s) w) w)).
  { eapply quiet_with_tcp; [done|]. intros s Hs. eapply quiet_tcp; [done|done|done| |done]. by apply close_keeps. }
  destruct (net_ops_of (c_ops e)); [done|done|by apply quiet_return].
Qed.

(** ** Poll, options, names *)

Lemma runs_peek lk id w : T id -> runs lk w -> runs lk (so_release id (so_acquire id w)).
Proof.
  intros HT R. eapply (runs_release _ _ _ (fun x => lk x \/ x = id)); [by intros x [?|]|done|].
  by eapply runs_acquire, R; [left|right|].
Qed.
Lemma runs_poll_scan pid fds : forall w,
  (forall w fd id, get_socket pid fd w = Some id -> runs none w -> T id) -> runs none w -> runs none (poll_scan pid fds w).1.1.
Proof.
  induction fds as [|x fds IH]; intros w HT R; cbn [poll_scan]; [done|].
  destruct (get_socket pid (pf_fd x) w) as [id|] eqn:Eg; [|done]. cbn. destruct (find_entry id w) as [e|]; [|done]. cbn.
  assert (R1 : runs none (so_release id (so_acquire id w))) by (apply runs_peek; [by eapply HT|done]).
  specialize (IH _ HT R1). by destruct (poll_scan pid fds _) as [[w1 revs] ok].
Qed.
Lemma quiet_poll pid fds timeout w :
  (forall w fd id, get_socket pid fd w = Some id -> runs none w -> T id) -> runs none w -> quiet (_poll pid fds timeout w).
Proof.
  intros HT R. unfold _poll. pose proof (runs_poll_scan pid fds w HT R) as R1.
  destruct (poll_scan pid fds w) as [[w1 revs] ok]. cbn [fst] in R1.
  destruct (negb ok); [by apply quiet_runs|]. cbv zeta. destruct (_ || _); [by apply quiet_runs|]. by apply quiet_sleep.
Qed.

Lemma quiet_fcntl pid fd cmd arg w :
  (forall id, get_socket pid fd w = Some id -> T id) -> runs none w -> quiet (_fcntl pid fd cmd arg w).
Proof.
  intros HT R. apply quiet_call; [done|done|]. clear w HT R. intros e w HT R. cbv zeta.
  destruct (_ =? _); [by apply quiet_return|]. destruct (_ =? _); [|by apply quiet_return].
  by apply quiet_return, runs_so_flags.
Qed.
Lemma quiet_getsockopt pid fd level opt w :
  (forall id, get_socket pid fd w = Some id -> T id) -> runs none w -> quiet (_getsockopt pid fd level opt w).
Proof.
  intros HT R. apply quiet_call; [done|done|]. clear w HT R. intros e w HT R. cbv zeta.
  destruct (_ =? _); [|by apply quiet_return]. destruct (_ =? _); [|by apply quiet_return].
  apply quiet_runs. by apply runs_leave.
Qed.
Lemma quiet_name pid fd f w :
  (forall id, get_socket pid fd w = Some id -> T id) -> runs none w ->
  quiet (call pid fd (fun e w => (so_release (e_id e) w, Returned 0 [] (f e))) w).
Proof.
  intros HT R. apply quiet_call; [done|done|]. clear w HT R. intros e w HT R. apply quiet_runs. by apply runs_leave.
Qed.

Lemma quiet_syscall c w :
  T (w_next_id w) -> (forall w fd id, get_socket p fd w = Some id -> runs none w -> T id) -> runs none w -> quiet (run_syscall p c w).
Proof.
  intros Hn HT R. assert (HT' : forall fd id, get_socket p fd w = Some id -> T id) by eauto. destruct c; cbn [run_syscall].
  - pose proof (runs_socket T p w0 none domain type w Hn R) as R1. destruct (_socket p domain type w). by apply quiet_runs.
  - by apply quiet_connect; [apply HT'|].
  - by apply quiet_bind; [apply HT'|].
  - by apply quiet_listen; [apply HT'|].
  - by apply quiet_accept; [apply HT'|].
  - by apply quiet_write; [apply HT'|].
  - by apply quiet_read; [apply HT'|].
  - by apply quiet_sendto; [apply HT'|].
  - by apply quiet_recvfrom; [apply HT'|].
  - by apply quiet_close; [apply HT'|].
  - by apply quiet_poll.
  - by apply quiet_fcntl; [apply HT'|].
  - by apply quiet_getsockopt; [apply HT'|].
  - by apply quiet_name; [apply HT'|].
  - by apply quiet_name; [apply HT'|].
Qed.

(** ** Threads *)

Lemma quiet_resume t w :
  thread_ok t -> T (t_sock t) -> (forall w fd id, get_socket (t_pid t) fd w = Some id -> runs none w -> T id) -> runs none w ->
  quiet (resume_call t w).
Proof.
  intros Ht HT HP R. unfold resume_call. unfold thread_ok in Ht. cbv zeta. destruct (t_at t) as [b k r|acc n| | |n|fds n|h a].
  - eapply quiet_with_tcp; [done|]. intros s Hs. eapply quiet_after_tcp, R; [done|done|done|].
    destruct r; cbn [rest_owned]; [eexists; by apply resume_owned..|].
    destruct Ht as (k0 & F & ->). by apply resume_input_owned.
  - eapply quiet_with_tcp; [done|]. intros s Hs. eapply quiet_after_recv, R; [done|done| |done].
    destruct (acquire_owned s) as [O E]. eexists. apply recv_keeps_owned; [exact O|]. by apply receive_turn_keeps.
  - by apply quiet_connect_wait, runs_enter.
  - by apply quiet_accept_turn, runs_enter.
  - by apply quiet_recvfrom_turn, runs_enter.
  - by apply quiet_poll.
  - by apply quiet_runs.
Qed.

(** ** Callbacks and the clock *)

Lemma runs_dad lk w : runs lk w -> runs lk (dad_timeout w) /\ forall target, runs lk (ipv6_addrconf_dad_failed target w).
Proof.
  intros R. unfold dad_timeout, ipv6_addrconf_dad_failed. destruct (w_dad_done w); [done|]. cbv zeta.
  pose proof (runs_dad_done T p w0 lk true w R) as R1. destruct (w_dad_ptr _) as [a|]; [|split; intros; by apply runs_fault].
  destruct (_ =? _); [|done]. split; intros; by apply runs_net.
Qed.
Lemma runs_callback h a w : (forall x, T x) -> runs none w -> runs none (run_callback h a w).
Proof.
  intros HT R.
  assert (H : forall x id, runs none (on_tcp id (run_handler h x) w)).
  { intros x id. apply runs_on_tcp; [|done|done]. intros s. apply handler_owned. }
  assert (D : runs none (dad_timeout w)) by (by apply runs_dad).
  assert (F : runs none (w_fault FaultNull w)) by (by apply runs_fault).
  unfold run_callback. destruct h, a as [[]|]; try done; try (by apply runs_collect); by apply runs_copies.
Qed.

Lemma runs_start_threads lk evs : forall w, runs lk w -> runs lk (foldl start_thread w evs).
Proof.
  induction evs as [|ev evs IH]; intros w R; [done|]. cbn [foldl]. apply IH. destruct ev; cbn [start_thread]; [by apply runs_park|done].
Qed.
Lemma runs_timers busy ok w : runs none w -> runs none (timers_step busy ok w).
Proof.
  intros R. unfold timers_step. destruct (timers_start_iter busy ok _) as [ts evs]. cbv zeta.
  by apply runs_start_threads, runs_net, runs_env.
Qed.

(** ** Frames: everything but TCP *)

Lemma runs_dad_start lk addr w : runs lk w -> runs lk (ipv6_dad_start addr w).
Proof.
  intros R. unfold ipv6_dad_start. cbv zeta. destruct (ndp_send_ns _ _ _ _) as [n ret].
  assert (R1 : forall a, runs lk (upd_w_net (fun _ => n) (set_w_dad_ptr a (set_w_dad_target addr (set_w_dad_done false w)))))
    by (intros; by apply runs_net, runs_dad_ptr, runs_dad_target, runs_dad_done).
  destruct (negb _); [done|by apply runs_env].
Qed.
Lemma runs_lifetime_timer lk lt h get set w : runs lk w -> runs lk (lifetime_timer lt h get set w).
Proof.
  intros R. unfold lifetime_timer. destruct (_ && _); [|done]. cbv zeta.
  assert (R1 : runs lk (cancel_timer (get (w_dev w)) w))
    by (unfold cancel_timer; destruct (timer_cancel _ _); [by apply runs_env|by apply runs_fault]).
  set (w1 := cancel_timer _ w) in *. clearbody w1.
  destruct (timer_add_with_release _ _ _ _ _) as [i ts]. by apply runs_net, runs_env, runs_copies.
Qed.
Lemma runs_update_lifetime lk prefix n v f w : runs lk w -> runs lk (ipv6_addrconf_update_lifetime prefix n v f w).
Proof.
  intros R. unfold ipv6_addrconf_update_lifetime. destruct (negb _); [done|]. cbv zeta.
  by apply runs_lifetime_timer, runs_lifetime_timer, runs_net, runs_dad_start, runs_net.
Qed.
Lemma runs_ra_options lk buf fuel : forall opt n w, runs lk w -> runs lk (ra_options fuel buf opt n w).
Proof.
  induction fuel as [|fuel IH]; intros opt n w R; cbn [ra_options]; [done|]. destruct (_ <? _); [done|]. cbv zeta.
  destruct (_ || _); [done|]. apply IH. destruct (_ && _); [|done]. by apply runs_update_lifetime, runs_net.
Qed.
Lemma runs_ndp lk b o w : runs lk w -> runs lk (ndp_incoming b o w).
Proof.
  intros R. assert (F : runs lk (w_free_skb b w)) by (by apply runs_free_skb).
  unfold ndp_incoming. cbv zeta. destruct (negb _); [done|].
  destruct (_ =? _); [by apply runs_free_skb, runs_net, runs_ra_options|].
  destruct (_ =? _); [unfold ndp_ns_process; cbv zeta; destruct (negb _); [done|by apply runs_net]|].
  destruct (_ =? _); [|done]. unfold ndp_na_process. cbv zeta. destruct (na_tlla _ _ _ _ _); [|done].
  apply runs_free_skb. destruct (ipv6_addr_is_unspecified _); [apply runs_dad|]; by apply runs_net.
Qed.

Lemma runs_send6 lk b sa da w : runs lk w -> runs lk (send6 b sa da w).
Proof. intros R. unfold send6. cbv zeta. destruct (o6_freed _); [apply runs_free_skb|]; by apply runs_net. Qed.
Lemma runs_send_error lk b t c v w : runs lk w -> runs lk (icmpv6_send_error b t c v w).
Proof.
  intros R. unfold icmpv6_send_error, w_alloc_skb. cbv zeta. cbn beta iota. set (w1 := upd_w_env _ w).
  assert (R1 : runs lk w1) by (by apply runs_env). clearbody w1.
  destruct (in_front _); [by apply runs_free_skb, runs_fault|by apply runs_send6, runs_free_skb].
Qed.
Lemma runs_adjust_pmtu lk a v w : (forall x, T x) -> runs lk w -> runs lk (socket_adjust_pmtu6 a v w).
Proof.
  intros HT R. unfold socket_adjust_pmtu6. cbv zeta. set (g := fun e => if _ || _ || _ then _ else _).
  assert (G : forall e, same_owner e (g e) /\ so_locked (c_so (g e)) = so_locked (c_so e)).
  { intros e. unfold g. destruct (_ || _ || _); [done|]. destruct (c_tcp e) as [t|] eqn:Et; [|done].
    destruct (_ <? _); [|done]. split; [|done]. by constructor. }
  clearbody g. constructor.
  - eapply ev_then, R. apply evolves_fmap; [intros _ e _; apply G|by right].
  - intros O U e' (e & -> & He)%list_elem_of_fmap Hl. destruct (G e) as [S E]. rewrite E in Hl. rewrite (sm_id _ _ S).
    by apply (rn_lk _ _ _ _ _ R).
Qed.
Lemma runs_icmpv6 lk b o w : (forall x, T x) -> runs lk w -> runs lk (icmpv6_incoming b o w).
Proof.
  intros HT R. assert (F : runs lk (w_free_skb b w)) by (by apply runs_free_skb).
  unfold icmpv6_incoming. cbv zeta. destruct (negb _); [done|].
  destruct (_ =? _).
  { unfold icmpv6_echo_reply, w_alloc_skb. cbv zeta. cbn beta iota. by apply runs_send6, runs_free_skb, runs_env. }
  destruct (_ =? _); [done|]. destruct (_ || _); [done|]. destruct (_ =? _).
  { unfold icmpv6_pmtu_update. cbv zeta. destruct (_ <? _); [done|]. by apply runs_free_skb, runs_adjust_pmtu, runs_net. }
  destruct (_ && _); [by apply runs_ndp|done].
Qed.
Lemma runs_icmpv4 lk b w : runs lk w -> runs lk (icmpv4_incoming b w).
Proof.
  intros R. unfold icmpv4_incoming. destruct (_ =? _); [|by apply runs_free_skb]. unfold icmpv4_reply. cbv zeta.
  destruct (ip_output_net _ _ _) as [[n b'] rc]. by apply runs_free_skb, runs_net.
Qed.
Lemma runs_udp_in b w : (forall x, T x) -> runs none w -> runs none (udp_in b w).
Proof.
  intros HT R. unfold udp_in. destruct (udp_checksum_right _ _) as [csum_ok dump_ok]. cbv zeta.
  assert (R1 : runs none (if dump_ok then w else w_fault FaultBounds w)) by (destruct dump_ok; [done|by apply runs_fault]).
  clear R. set (w1 := if dump_ok then _ else _) in *. clearbody w1. destruct (negb _); [by apply runs_free_skb|].
  destruct (inet_udp_lookup _ _ w1) as [id|]; [|by apply runs_free_skb].
  apply runs_leave; [done|]. apply runs_wake, runs_on_sk; [done|done|]. by apply runs_enter.
Qed.

(** ** TCP segments *)

Lemma runs_intro lk w : (world_ok w0 -> runs lk w) -> runs lk w.
Proof. intros H. constructor; intros O; [by apply (rn_ev _ _ _ _ _ (H O))|by apply (rn_lk _ _ _ _ _ (H O))]. Qed.

End Calls.

Lemma find_entry_in w e : world_ok w -> e ∈ w_socks w -> find_entry (e_id e) w = Some e.
Proof.
  intros O He. destruct (find_entry (e_id e) w) as [x|] eqn:E.
  - apply find_entry_some in E as [Hx Ex]. f_equal. by eapply ids_unique.
  - apply list_elem_of_In in He. pose proof (find_none _ _ E e He) as F. simpl in F. by rewrite Z.eqb_refl in F.
Qed.

(** A socket is of the table whoever holds its lock. *)
Lemma acquire_same id w : exists f : entry -> entry,
  w_socks (so_acquire id w) = f <$> w_socks w /\
  (forall e, same_owner e (f e) /\ c_sk (f e) = c_sk e /\ c_tcp (f e) = c_tcp e /\ (e_id e <> id -> f e = e)) /\
  w_next_id (so_acquire id w) = w_next_id w /\ w_fd (so_acquire id w) = w_fd w.
Proof.
  unfold so_acquire. destruct (find_entry id w) as [x|].
  - set (g := fun e => if e_id e =? id then set_c_so (set_so_locked true (set_so_refcnt (so_refcnt (c_so e) + 1) (c_so e))) e else e).
    exists g. split; [by destruct (so_locked _)|]. split; [|by destruct (so_locked _)].
    intros e. unfold g. destruct (Z.eqb_spec (e_id e) id); [|done]. split; [by constructor|done].
  - exists (fun e => e). split; [by rewrite list_fmap_id|done].
Qed.

Lemma release_next id w : w_next_id (so_release id w) = w_next_id w.
Proof. unfold so_release. destruct (find_entry id w); [|done]. by destruct (so_locked _). Qed.

Lemma entry_ok_tcp e : entry_ok e -> sk_protocol (c_sk e) = IPPROTO_TCP -> is_Some (c_tcp e).
Proof.
  unfold entry_ok. destruct (c_ops e); intros (H1 & H2 & H3) Hp; rewrite Hp in H2; try done; by apply bool_decide_eq_true in H1.
Qed.

Lemma segment_runs (T : Z -> Prop) p w0 th b saddr w e :
  world_ok w -> e ∈ w_socks w -> sk_protocol (c_sk e) = IPPROTO_TCP -> so_pid (c_so e) = p -> T (e_id e) -> T (w_next_id w) ->
  forks_into T p (so_acquire (e_id e) w) -> runs T p w0 none w ->
  runs T p w0 none (tcp_input_state (e_id e) th b saddr (so_acquire (e_id e) w)).
Proof.
  intros O He Hp Hpid HT Hn HF R. destruct (acquire_same (e_id e) w) as (f & Ef & F & En & _).
  assert (Oa : world_ok (so_acquire (e_id e) w)) by (by apply (ev_ok _ _ _ _ (ev_acquire T p w (e_id e) w HT (evolves_refl T p w) O))).
  destruct (F e) as (S & E1 & E2 & _).
  assert (Hfe : f e ∈ w_socks (so_acquire (e_id e) w)) by (rewrite Ef; by apply list_elem_of_fmap_2).
  apply runs_input_state; [| |done|by rewrite En|done|by apply runs_enter].
  - pose proof (find_entry_in _ _ Oa Hfe) as Hf. rewrite (sm_id _ _ S) in Hf. unfold tcp_of. rewrite Hf. cbn. rewrite E2.
    destruct (entry_ok_tcp e (wo_kind _ O e He) Hp) as [t ->]. by eexists.
  - intros x Hx Ex. assert (x = f e) as -> by (eapply ids_unique; [done|done|done|by rewrite (sm_id _ _ S)]).
    by rewrite (sm_pid _ _ S).
Qed.

Lemma find_sock_some f w id : find_sock f w = Some id -> exists e, e ∈ w_socks w /\ e_id e = id /\ f (c_sk e) = true.
Proof.
  unfold find_sock. destruct (find _ _) as [e|] eqn:E; [|done]. intros [= <-]. apply find_some in E as [H1 H2].
  exists e. split; [by apply list_elem_of_In|done].
Qed.
Lemma established_protocol k f r l r6 l6 rp lp : tcp_sock_match_established k f r l r6 l6 rp lp = true -> sk_protocol k = IPPROTO_TCP.
Proof. unfold tcp_sock_match_established. destruct (Z.eqb_spec (sk_protocol k) IPPROTO_TCP); done. Qed.
Lemma listener_protocol k f l l6 lp : tcp_sock_match_listener k f l l6 lp = true -> sk_protocol k = IPPROTO_TCP.
Proof. unfold tcp_sock_match_listener. destruct (Z.eqb_spec (sk_protocol k) IPPROTO_TCP); done. Qed.
Lemma lookup_tcp f r l r6 l6 rp lp w id :
  socket_lookup f r l r6 l6 rp lp w = Some id ->
  exists e, e ∈ w_socks w /\ e_id e = id /\ sk_protocol (c_sk e) = IPPROTO_TCP.
Proof.
  unfold socket_lookup. destruct (tcp_lookup_established _ _ _ _ _ _ _ w) as [i|] eqn:E.
  - intros [= ->]. apply find_sock_some in E as (e & He & Ei & [_ M]%andb_prop). exists e. by apply established_protocol in M.
  - intros (e & He & Ei & [_ M]%andb_prop)%find_sock_some. exists e. by apply listener_protocol in M.
Qed.

(** Below 2^31 sockets a descriptor names one socket. *)
Lemma fd_inj w e e' : world_ok w -> w_next_id w <= 2147479552 -> e ∈ w_socks w -> e' ∈ w_socks w ->
  u32 (so_fd (c_so e)) = u32 (so_fd (c_so e')) -> e = e'.
Proof.
  intros O Hn He He' E. eapply ids_unique; [done|done|done|]. rewrite (wo_fd _ O e He), (wo_fd _ O e' He') in E.
  pose proof (wo_range _ O e He). pose proof (wo_range _ O e' He'). ulia.
Qed.

Lemma get_socket_in w e : world_ok w -> w_next_id w <= 2147479552 -> e ∈ w_socks w ->
  get_socket (so_pid (c_so e)) (so_fd (c_so e)) w = Some (e_id e).
Proof.
  intros O Hn He. unfold get_socket. destruct (find _ _) as [x|] eqn:E.
  - apply find_some in E as [Hx Ex]. apply list_elem_of_In in Hx. apply andb_prop in Ex as [_ Ex]. apply Z.eqb_eq in Ex.
    by rewrite (fd_inj w x e).
  - apply list_elem_of_In in He. pose proof (find_none _ _ E e He) as F. simpl in F. by rewrite !Z.eqb_refl in F.
Qed.

(** Below 2^31 sockets, the socket found by the descriptor of a new socket is it. *)
Lemma get_socket_some pid fd w id :
  get_socket pid fd w = Some id -> exists e, e ∈ w_socks w /\ e_id e = id /\ so_pid (c_so e) = pid /\ u32 (so_fd (c_so e)) = u32 fd.
Proof.
  unfold get_socket. destruct (find _ _) as [e|] eqn:E; [|done]. intros [= <-]. apply find_some in E as [He Ee].
  apply andb_prop in Ee as [E1 E2]. apply Z.eqb_eq in E1, E2. exists e. split; [by apply list_elem_of_In|done].
Qed.
Lemma socket_next pid domain type w : w_next_id (_socket pid domain type w).1 = w_next_id w + 1.
Proof.
  destruct (socket_shape pid domain type w) as [(e & _ & _ & E)|(w' & E & _ & E2 & _)]; rewrite E; cbn [fst]; [|exact E2].
  unfold so_release, so_acquire. by repeat (destruct (find_entry _ _) || destruct (so_locked _)).
Qed.
Lemma fork_fresh w pid domain type id :
  world_ok w -> w_next_id w < 2147479552 ->
  get_socket pid (_socket pid domain type w).2 (_socket pid domain type w).1 = Some id -> id = w_next_id w.
Proof.
  intros O Hn (x & Hx & <- & Hp & Hf)%get_socket_some.
  assert (O1 : world_ok (_socket pid domain type w).1)
    by apply (ev_ok _ _ _ _ (ev_socket (fun _ => True) pid w domain type w I (evolves_refl _ _ w) O)).
  pose proof (wo_range _ O1 x Hx) as R. rewrite socket_next in R. rewrite (wo_fd _ O1 x Hx) in Hf.
  pose proof (wo_next _ O).
  destruct (socket_shape pid domain type w) as [(e & _ & _ & E)|(w' & E & _)]; rewrite E in Hf; cbn [snd] in Hf.
  - rewrite (wo_next_fd _ O) in Hf. ulia.
  - ulia.
Qed.

(** The state after a step, whichever process it works for. *)
Definition anything : Z -> Prop := fun _ => True.
Definition settles w0 w : Prop := exists p, runs anything p w0 none w.

Section Frames.
Context (w0 : world) (O0 : world_ok w0).
Implicit Type w : world.
Definition ready w : Prop := forall p, runs anything p w0 none w.

Lemma ready_settles w : ready w -> settles w0 w. Proof. intros R. by exists 0. Qed.
Lemma ready_ok w : ready w -> world_ok w. Proof. intros R. apply (ev_ok _ _ _ _ (rn_ev _ _ _ _ _ (R 0) O0)). Qed.
Lemma ready_free b w : ready w -> settles w0 (w_free_skb b w).
Proof. intros R. apply ready_settles. intros p. by apply runs_free_skb. Qed.

Lemma segment_settles f r l r6 l6 rp lp th b saddr w id :
  ready w -> socket_lookup f r l r6 l6 rp lp w = Some id -> settles w0 (tcp_input_state id th b saddr (so_acquire id w)).
Proof.
  intros R (e & He & <- & Hp)%lookup_tcp. exists (so_pid (c_so e)). apply segment_runs; try done. by apply ready_ok.
Qed.
Lemma settles_tcp_in b w : ready w -> settles w0 (tcp_in b w).
Proof.
  intros R. unfold tcp_in. cbv zeta. destruct (tcp_init_segment _ _ b) as [th b'].
  destruct (inet_lookup _ _ _ _ w) as [id|] eqn:E; [|by apply ready_free]. by eapply segment_settles.
Qed.
Lemma settles_tcp_in_v6 b o w : ready w -> settles w0 (tcp_in_v6 b o w).
Proof.
  intros R. unfold tcp_in_v6. cbv zeta. destruct (tcp_init_segment _ _ b) as [th b'].
  destruct (inet6_lookup _ _ _ _ w) as [id|] eqn:E; [|by apply ready_free]. by eapply segment_settles.
Qed.
Lemma settles_ip_rcv b w : ready w -> settles w0 (ip_rcv b w).
Proof.
  intros R. unfold ip_rcv. cbv zeta. destruct (negb _); [by apply ready_free|]. destruct (_ <? _); [by apply ready_free|].
  destruct (_ =? 0); [by apply ready_free|]. destruct (negb _); [by apply ready_free|].
  destruct (_ =? ICMPV4); [apply ready_settles; intros p; by apply runs_icmpv4|].
  destruct (_ =? IP_TCP); [by apply settles_tcp_in|].
  destruct (_ =? IP_UDP); [apply ready_settles; intros p; by apply runs_udp_in|by apply ready_free].
Qed.
Lemma settles_ipv6_rcv b w : ready w -> settles w0 (ipv6_rcv b w).
Proof.
  intros R. unfold ipv6_rcv. cbv zeta. destruct (negb _); [by apply ready_free|]. destruct (_ <? _); [by apply ready_free|].
  destruct (_ =? 0); [apply ready_settles; intros p; exact (runs_send_error anything p w0 none b ICMPV6_TIME_EXCEEDED 0 0 w (R p))|].
  destruct (ipv6_parse_exthdrs _ _ _) as [x|]; [|by apply ready_free]. destruct (_ && _); [by apply ready_free|].
  destruct (_ =? _); [apply ready_settles; intros p; by apply runs_icmpv6|].
  destruct (_ =? _); [by apply settles_tcp_in_v6|by apply ready_free].
Qed.
Lemma settles_rx frame w : ready w -> settles w0 (netdev_rx_loop frame w).
Proof.
  intros R. unfold netdev_rx_loop, w_alloc_skb. cbv zeta. cbn beta iota. set (w1 := upd_w_env _ w).
  assert (R1 : ready w1) by (intros p; by apply runs_env). clearbody w1. unfold netdev_receive. cbv zeta.
  destruct (_ =? _); [apply ready_settles; intros p; by apply runs_net|]. destruct (_ =? _); [by apply settles_ip_rcv|].
  destruct (_ =? _); [by apply settles_ipv6_rcv|by apply ready_free].
Qed.
End Frames.

(** ** Steps *)

Lemma runs_here T p w : runs T p w none w.
Proof. constructor; [done|done]. Qed.

Lemma frame_ok frame w : world_ok w -> world_ok (netdev_rx_loop frame w) /\ (locks none w -> locks none (netdev_rx_loop frame w)).
Proof.
  intros O. destruct (settles_rx w O frame w) as [p R]; [intros p; apply runs_here|].
  split; [apply (ev_ok _ _ _ _ (rn_ev _ _ _ _ _ R O))|intros U; by apply (rn_lk _ _ _ _ _ R)].
Qed.

(** A thread taken from the list. *)
Lemma take_thread l1 t l2 w :
  world_ok w -> w_threads w = l1 ++ t :: l2 -> thread_ok t /\ world_ok (set_w_threads (l1 ++ l2) w).
Proof.
  intros O E. assert (F : Forall thread_ok (l1 ++ t :: l2)) by (rewrite <- E; apply (wo_threads _ O)).
  apply Forall_app in F as [F1 F2]. inversion F2; subst. split; [done|]. destruct O; constructor; try done. by apply Forall_app.
Qed.

Lemma wstep_ok w w' : wstep w w' -> world_ok w -> world_ok w'.
Proof.
  intros S O. destruct S as [frame w|busy ok w|pid c w|l1 t l2 w E].
  - by apply frame_ok.
  - apply (ev_ok _ _ _ _ (rn_ev _ _ _ _ _ (runs_timers anything 0 w busy ok w (runs_here _ _ w)) O)).
  - apply (ev_ok anything pid w). apply (quiet_syscall anything pid w c w); [done..|apply runs_here|done].
  - destruct (take_thread l1 t l2 w O E) as [Ht O1]. set (w1 := set_w_threads (l1 ++ l2) w) in *.
    clearbody w1. unfold run_thread.
    assert (R : forall h a, world_ok (run_callback h a w1)).
    { intros h a. apply (ev_ok _ _ _ _ (rn_ev _ _ _ _ _ (runs_callback anything 0 w1 h a w1 (fun _ => I) (runs_here _ _ w1)) O1)). }
    assert (Q : world_ok (resume_call t w1).1).
    { apply (ev_ok anything (t_pid t) w1). apply (quiet_resume anything (t_pid t) w1 t w1); [done..|apply runs_here|done]. }
    destruct (t_at t); try exact Q. apply R.
Qed.

(** ** Delivery *)

(** The connection a segment from [saddr]:[sport] to [daddr]:[dport] belongs to, and
    a socket that listens for it. *)
Definition connection (saddr daddr sport dport : Z) (k : sock) : Prop :=
  sk_protocol k = IPPROTO_TCP /\ sk_addr_family k = AF_INET /\ sk_state k <> TCP_LISTEN /\
  sk_sport k = dport /\ sk_dport k = sport /\ v4_of (sk_daddr k) = saddr /\ v4_of (sk_saddr k) = daddr.
Definition listener (daddr dport : Z) (k : sock) : Prop :=
  sk_protocol k = IPPROTO_TCP /\ sk_addr_family k = AF_INET /\ sk_state k = TCP_LISTEN /\
  sk_sport k = dport /\ v4_of (sk_saddr k) = daddr.

Lemma connection_match saddr daddr sport dport k :
  (sk_addr_family k =? AF_INET) && tcp_sock_match_established k AF_INET saddr daddr None None sport dport = true <->
  connection saddr daddr sport dport k.
Proof.
  unfold tcp_sock_match_established, connection, state_is. change (AF_INET =? AF_INET6) with false.
  destruct (Z.eqb_spec (sk_addr_family k) AF_INET), (Z.eqb_spec (sk_protocol k) IPPROTO_TCP),
    (bool_decide_reflect (sk_state k = TCP_LISTEN)), (Z.eqb_spec (sk_sport k) dport), (Z.eqb_spec (sk_dport k) sport);
    cbn [andb orb negb]; rewrite ?andb_true_iff, ?Z.eqb_eq; tauto || (split; [discriminate|tauto]).
Qed.
Lemma listener_match daddr dport k :
  (sk_addr_family k =? AF_INET) && tcp_sock_match_listener k AF_INET daddr None dport = true <-> listener daddr dport k.
Proof.
  unfold tcp_sock_match_listener, listener, state_is. change (AF_INET =? AF_INET6) with false.
  destruct (Z.eqb_spec (sk_addr_family k) AF_INET), (Z.eqb_spec (sk_protocol k) IPPROTO_TCP),
    (bool_decide_reflect (sk_state k = TCP_LISTEN)), (Z.eqb_spec (sk_sport k) dport);
    cbn [andb orb negb]; rewrite ?Z.eqb_eq; tauto || (split; [discriminate|tauto]).
Qed.

Lemma find_sock_none f w e : find_sock f w = None -> e ∈ w_socks w -> f (c_sk e) <> true.
Proof.
  unfold find_sock. destruct (find _ _) as [x|] eqn:E; [done|]. intros _ He%list_elem_of_In.
  pose proof (find_none _ _ E e He) as F. simpl in F. by rewrite F.
Qed.
Lemma lookup_spec saddr daddr sport dport w :
  match inet_lookup saddr daddr sport dport w with
  | Some id => exists e, e ∈ w_socks w /\ e_id e = id /\
      (connection saddr daddr sport dport (c_sk e) \/
       listener daddr dport (c_sk e) /\ forall x, x ∈ w_socks w -> ~ connection saddr daddr sport dport (c_sk x))
  | None => forall x, x ∈ w_socks w -> ~ connection saddr daddr sport dport (c_sk x) /\ ~ listener daddr dport (c_sk x)
  end.
Proof.
  unfold inet_lookup, socket_lookup. destruct (tcp_lookup_established _ _ _ _ _ _ _ w) as [id|] eqn:E1.
  - apply find_sock_some in E1 as (e & He & Ei & M%connection_match). exists e. by auto.
  - assert (N : forall x, x ∈ w_socks w -> ~ connection saddr daddr sport dport (c_sk x)).
    { intros x Hx C%connection_match. by apply (find_sock_none _ _ _ E1 Hx). }
    destruct (tcp_lookup_listener _ _ _ _ w) as [id|] eqn:E2.
    + apply find_sock_some in E2 as (e & He & Ei & M%listener_match). exists e. by auto.
    + intros x Hx. split; [by apply N|]. intros C%listener_match. by apply (find_sock_none _ _ _ E2 Hx).
Qed.

(** The segment [tcp_in] reads from a packet. *)
Definition segment (b : sk_buff) : tcphdr * sk_buff :=
  tcp_init_segment 34 (ld16 (skb_buf b) 16 - ip_ihl (skb_buf b) * 4 - th_get_hl 34 (skb_buf b) * 4) b.
Definition seg_saddr (b : sk_buff) : Z := ld32 (skb_buf (segment b).2) 26.
Definition seg_daddr (b : sk_buff) : Z := ld32 (skb_buf (segment b).2) 30.
Definition receiver (b : sk_buff) (w : world) : option Z :=
  inet_lookup (seg_saddr b) (seg_daddr b) (th_sport (segment b).1) (th_dport (segment b).1) w.

Lemma tcp_in_unfold b w :
  tcp_in b w =
  match receiver b w with
  | None => w_free_skb (segment b).2 w
  | Some id => tcp_input_state id (segment b).1 (segment b).2 (st32 (replicate 16 0) 0 (seg_saddr b)) (so_acquire id w)
  end.
Proof. unfold tcp_in, receiver, seg_saddr, seg_daddr, segment. by destruct (tcp_init_segment _ _ b). Qed.

(** ** The start *)

(** No socket, no thread, the counters at their initial values. *)
Definition booted (w : world) : Prop :=
  w_socks w = [] /\ w_next_id w = 1 /\ w_fd w = 4097 /\ w_threads w = [].

Lemma booted_ok w : booted w -> world_ok w.
Proof.
  intros (E1 & E2 & E3 & E4). constructor; rewrite ?E1, ?E2, ?E3, ?E4; try done; try (by intros e He%not_elem_of_nil).
  apply NoDup_nil_2.
Qed.

End WorldCalls.
