(* ===== verification/UdpWire.v ===== *)
(** A UDP datagram from [udp_out_send] to the frame on the wire, and from an arriving
    frame to the queue of a socket. *)
From S2P Require Import Prelude Utils SkBuff Timer TcpTypes TcpBase TcpApi Ipv6 Net Neigh IpOut Frame World Udp SocketApi Addrconf IpIn Stack WorldFacts WorldCalls.
Import Utils SkBuff Timer TcpTypes TcpBase TcpApi Ipv6 Net Neigh IpOut Frame World Udp SocketApi Addrconf IpIn Stack WorldFacts WorldCalls.

Module UdpWire.

(** ** The checksum depends on everything but itself *)

Lemma bytes_ext (a b : list Z) : length a = length b -> (forall i, (i < length a)%nat -> ld8 a i = ld8 b i) -> a = b.
Proof.
  intros Hl H. rewrite <- (ld_bytes_all a (length a) eq_refl), <- (ld_bytes_all b (length a)) by done.
  apply ld_bytes_ext. intros i Hi. apply H. lia.
Qed.

Lemma ld8_app_l a b i : (i < length a)%nat -> ld8 (a ++ b) i = ld8 a i.
Proof. intros. unfold ld8. by rewrite lookup_app_l. Qed.
Lemma ld8_app_r a b i : (length a <= i)%nat -> ld8 (a ++ b) i = ld8 b (i - length a).
Proof. intros. unfold ld8. by rewrite lookup_app_r. Qed.
Lemma ld8_ld b o n i : (i < n)%nat -> ld8 (ld_bytes b o n) i = ld8 b (o + i).
Proof. intros Hi. unfold ld_bytes, ld8 at 1. rewrite list_lookup_fmap, lookup_seq_lt by done. done. Qed.

Lemma udp_checksum_ext sa da o b o' b' :
  ld16 b' (o' + 4) = ld16 b (o + 4) ->
  (forall i, (i < Z.to_nat (bswap16 (ld16 b (o + 4))))%nat -> i <> 6%nat -> i <> 7%nat -> ld8 b' (o' + i) = ld8 b (o + i)) ->
  (calcuate_udp_checksum sa da o' b').1 = (calcuate_udp_checksum sa da o b).1.
Proof.
  intros El Hb. unfold calcuate_udp_checksum. rewrite El. cbv zeta. destruct (_ <? _); [done|]. cbn [fst].
  set (p := le32 sa ++ _). assert (Lp : length p = 12%nat) by done. clearbody p.
  set (n := Z.to_nat (bswap16 (ld16 b (o + 4)))) in *. f_equal. apply bytes_ext.
  - rewrite !length_st16, !length_app, !length_ld_bytes. done.
  - intros i Hi. rewrite length_st16, length_app, length_ld_bytes, Lp in Hi.
    destruct (decide (i = 18%nat)) as [->|N1]; [|destruct (decide (i = 19%nat)) as [->|N2]].
    + unfold st16. rewrite !(ld8_st8_ne _ 19) by lia.
      rewrite !ld8_st8_eq by (rewrite length_app, length_ld_bytes, Lp; lia). done.
    + unfold st16. change (18 + 1)%nat with 19%nat.
      rewrite !ld8_st8_eq by (rewrite length_st8, length_app, length_ld_bytes, Lp; lia). done.
    + rewrite !ld8_st16_ne by lia. destruct (decide (i < 12)%nat); [rewrite !ld8_app_l by lia; done|].
      rewrite !ld8_app_r, Lp by lia. rewrite !ld8_ld by lia. apply Hb; lia.
Qed.
Lemma udp_checksum_range sa da o b : is_u16 (calcuate_udp_checksum sa da o b).1.
Proof. unfold calcuate_udp_checksum. destruct (_ <? _); [done|apply checksum_range]. Qed.

(** The dump of the datagram fits its buffer up to 662 bytes of data. *)
Lemma udp_dump_fits sa da o b n :
  bswap16 (ld16 b (o + 4)) = 8 + n -> 0 <= n <= 1472 -> (calcuate_udp_checksum sa da o b).2 = (n <=? 662).
Proof.
  intros E Hn. unfold calcuate_udp_checksum, MAX_UDP_BUF, UDP_PSEUDO_LEN. cbv zeta. rewrite E.
  destruct (Z.ltb_spec (12 + 1500) (12 + (8 + n))); [lia|]. cbn [snd]. set (m := st16 _ 18 0).
  assert (L : Z.of_nat (length m) = 20 + n) by (unfold m; rewrite length_st16, length_app, length_ld_bytes; unfold le32; simpl length; lia).
  pose proof (hexdump_682 m) as D. clearbody m. destruct (Z.leb_spec n 662).
  - apply bool_decide_eq_true, D. lia.
  - apply bool_decide_eq_false. intros H1%D. lia.
Qed.

(** ** Sending *)

(** What a frame that carries a UDP datagram has to be. *)
Record udp_frame (f data : list Z) (saddr daddr sport dport : Z) : Prop := {
  uf_len : length f = (42 + length data)%nat;
  uf_type : ld16 f 12 = bswap16 ETH_P_IP;
  uf_version : ld8 f 14 = 69;
  uf_ttl : ld8 f 22 = 64;
  uf_proto : ld8 f 23 = IP_UDP;
  uf_header : checksum (ld_bytes f 14 20) 0 = 0;
  uf_saddr : bswap32 (ld32 f 26) = saddr;
  uf_daddr : bswap32 (ld32 f 30) = daddr;
  uf_sport : bswap16 (ld16 f 34) = sport;
  uf_dport : bswap16 (ld16 f 36) = dport;
  uf_udp_len : bswap16 (ld16 f 38) = 8 + Z.of_nat (length data);
  uf_csum : ld16 f 40 = (calcuate_udp_checksum (ld32 f 26) (ld32 f 30) 34 f).1;
  uf_data : ld_bytes f 42 (length data) = data;
  uf_ok : forall k, (14 <= k)%nat -> is_u8 (ld8 f k)
}.

(** The buffer handed to IP. *)
Definition udp_packet (k : sock) (buf : list Z) : list Z :=
  let n := Z.of_nat (length buf) in
  let m := st_bytes (replicate (42 + length buf) 0) 42 buf in
  let m := st16 m 34 (sk_sport k) in
  let m := st16 m 36 (sk_dport k) in
  let m := st16 m 38 (u16 (n + 8)) in
  let m := st16 m 34 (bswap16 (ld16 m 34)) in
  let m := st16 m 36 (bswap16 (ld16 m 36)) in
  st16 m 38 (bswap16 (ld16 m 38)).

Lemma udp_packet_fields k buf :
  bytes_ok buf -> is_u16 (sk_sport k) -> is_u16 (sk_dport k) -> Z.of_nat (length buf) < 65000 ->
  length (udp_packet k buf) = (42 + length buf)%nat /\ bytes_ok (udp_packet k buf) /\
  ld16 (udp_packet k buf) 34 = bswap16 (sk_sport k) /\ ld16 (udp_packet k buf) 36 = bswap16 (sk_dport k) /\
  ld16 (udp_packet k buf) 38 = bswap16 (Z.of_nat (length buf) + 8) /\ ld_bytes (udp_packet k buf) 42 (length buf) = buf.
Proof.
  intros Hb Hs Hd Hn. unfold udp_packet. cbv zeta. set (m0 := st_bytes _ 42 buf).
  assert (L0 : length m0 = (42 + length buf)%nat) by (unfold m0; by rewrite length_st_bytes, length_replicate).
  assert (O0 : bytes_ok m0) by (apply st_bytes_ok; [apply Forall_replicate; red; lia|done]).
  assert (D0 : ld_bytes m0 42 (length buf) = buf) by (apply ld_bytes_st_bytes; rewrite length_replicate; lia).
  clearbody m0. split; [by autorewrite with mem|]. split; [eauto 20 with cint|].
  split; [|split; [|split]].
  - mem_simpl. rewrite (u16_id (sk_sport k)) by done. apply u16_id, bswap16_range.
  - mem_simpl. rewrite (u16_id (sk_dport k)) by done. apply u16_id, bswap16_range.
  - mem_simpl. rewrite u16_idemp, (u16_id (_ + 8)) by (red; lia). apply u16_id, bswap16_range.
  - etransitivity; [|exact D0]. apply ld_bytes_ext. intros i Hi. rewrite !ld8_st16_ne by lia. done.
Qed.

Lemma ip_packet_udp rt i d n b :
  skb_protocol b = IP_UDP -> skb_data b = 34 -> bytes_ok (skb_buf b) -> (42 <= length (skb_buf b))%nat ->
  let P := ip_packet rt i d n b in
  (ld8 P 14 = 69 /\ ld8 P 22 = 64 /\ ld8 P 23 = IP_UDP) /\
  (forall k, (34 <= k)%nat -> k <> 40%nat -> k <> 41%nat -> ld8 P k = ld8 (skb_buf b) k) /\
  ld16 P 40 = (calcuate_udp_checksum (ld32 P 26) (ld32 P 30) 34 P).1 /\ bytes_ok P.
Proof.
  intros Hp Hd Hb Hl. cbv zeta. unfold ip_packet. cbv zeta. set (b1 := skb_push _ _).
  change (skb_buf b) with (skb_buf b1) in *. change (skb_protocol b) with (skb_protocol b1) in Hp.
  set (buf := ip_fill _ _ _ _ _).
  assert (L : length buf = length (skb_buf b1)) by apply length_ip_fill.
  assert (Ob : bytes_ok buf) by (by apply ip_fill_ok).
  assert (Fr : forall k, (34 <= k)%nat -> ld8 buf k = ld8 (skb_buf b1) k) by (intros; by apply ip_fill_front).
  assert (H3 : ld8 buf 14 = 69 /\ ld8 buf 22 = 64 /\ ld8 buf (IPH + 9) = IP_UDP).
  { unfold buf, ip_fill, IPH. cbv zeta. rewrite Hp. split; [|split]; past_stores; rewrite ld8_st8_eq by (autorewrite with mem; lia); done. }
  destruct H3 as (V1 & V2 & V3). clearbody buf. unfold ip_transport_check. cbv zeta. rewrite V3. change (IP_UDP =? IP_UDP) with true. cbv match.
  set (cs := (calcuate_udp_checksum _ _ UDPH buf).1). unfold ip_send_check, IPH. change (UDPH + 6)%nat with 40%nat.
  set (hs := checksum _ 0). change (14 + 10)%nat with 24%nat.
  pose proof (udp_checksum_range (ld32 buf (IPH + 12)) (ld32 buf (IPH + 16)) UDPH buf) as Rc. fold cs in Rc.
  split; [rewrite !ld8_st16_ne by lia; by rewrite V1, V2|].
  split; [intros k H1 H2 H3; rewrite !ld8_st16_ne by lia; by apply Fr|]. split; [|auto with cint].
  rewrite ld16_st16_ne, ld16_st16_eq by (autorewrite with mem; lia). rewrite !ld32_st16_ne by lia. rewrite u16_id by done.
  unfold cs. symmetry. apply udp_checksum_ext; [by rewrite !ld16_st16_ne by lia|].
  intros k _ H1 H2. unfold UDPH. by rewrite !ld8_st16_ne by lia.
Qed.

(** The buffer and what happens to it. *)
Lemma udp_send_ip k buf w :
  Z.of_nat (length buf) < 65000 ->
  exists b, skb_buf b = udp_packet k buf /\ skb_data b = 34 /\ skb_len b = 8 + Z.of_nat (length buf) /\ skb_protocol b = IP_UDP /\
    w_net (udp_out_send k buf w).1 = (ip_output_net (w_net w) (v4_of (sk_daddr k)) b).1.1 /\
    (udp_out_send k buf w).2 = Z.of_nat (length buf).
Proof.
  intros Hn. unfold udp_out_send, udp_alloc_skb, w_alloc_skb. cbv zeta. cbn beta iota. cbn [fst snd].
  set (w1 := upd_w_env _ w). assert (E1 : w_net w1 = w_net w) by done. clearbody w1.
  unfold udp_transmit_skb. cbv zeta. set (b0 := set_skb_buf (st_bytes _ _ _) _).
  set (z := Z.of_nat (length buf)) in *. change (ETH_HDR_LEN + IP_HDR_LEN + UDP_HDR_LEN + z) with (42 + z) in *.
  assert (B : skb_buf b0 = st_bytes (replicate (42 + length buf) 0) 42 buf /\ skb_data b0 = 42 /\ skb_len b0 = z /\
              skb_dlen b0 = z /\ skb_protocol b0 = IP_UDP).
  { unfold b0. simpl. unfold z. replace (Z.to_nat (42 + Z.of_nat (length buf))) with (42 + length buf)%nat by lia.
    replace (Z.to_nat (0 + (42 + Z.of_nat (length buf)) - Z.of_nat (length buf))) with 42%nat by lia.
    repeat split; try lia. apply u32_id. red. lia. }
  destruct B as (B1 & B2 & B3 & B4 & B5). clearbody b0.
  set (b2 := set_skb_buf _ (skb_push UDP_HDR_LEN b0)). exists b2.
  assert (P : skb_buf b2 = udp_packet k buf).
  { unfold b2, udp_packet. cbn [skb_buf set_skb_buf skb_push set_skb_len set_skb_data skb_dlen]. by rewrite B1, B4. }
  split; [done|]. split; [unfold b2; simpl; by rewrite B2|].
  split; [unfold b2; simpl; rewrite B3; change (u32 (z + 8) = 8 + z); rewrite u32_id by (red; lia); lia|]. split; [done|].
  rewrite E1. destruct (ip_output_net (w_net w) (v4_of (sk_daddr k)) b2) as [[n b3] rc]. done.
Qed.

(** A transmission inside its buffer and over a device. *)
Lemma transmit_in_bounds b dst et n :
  skb_dev b <> 0 -> skb_data b = 14 -> 0 <= skb_len b < 65536 -> 14 + skb_len b <= Z.of_nat (length (skb_buf b)) ->
  n_faults (netdev_transmit b dst et n).1.2 = n_faults n.
Proof.
  intros Hv Hd Hl Hb. unfold netdev_transmit, tun_write. cbv zeta. cbn [fst snd]. rewrite (proj2 (Z.eqb_neq _ _) Hv).
  assert (I : in_buffer (set_skb_buf (st16 (st_bytes (st_bytes (skb_buf (skb_push ETH_HDR_LEN b)) (Z.to_nat (skb_data (skb_push ETH_HDR_LEN b))) (take (Z.to_nat addr_len) dst))
    (Z.to_nat (skb_data (skb_push ETH_HDR_LEN b)) + 6) (take (Z.to_nat addr_len) (nd_hwaddr (dev_of (skb_dev b) n)))) (Z.to_nat (skb_data (skb_push ETH_HDR_LEN b)) + 12) (bswap16 et)) (skb_push ETH_HDR_LEN b)) = true);
    [|by rewrite I].
  unfold in_buffer, skb_end. cbn [skb_data skb_len skb_buf set_skb_buf skb_push set_skb_len set_skb_data]. autorewrite with mem.
  rewrite Hd, u32_id by (red; unfold ETH_HDR_LEN; lia). unfold ETH_HDR_LEN. apply andb_true_intro. split; apply Z.leb_le; lia.
Qed.

Lemma udp_send_faults k buf w i rt dmac :
  let n := w_net w in
  let d := v4_of (sk_daddr k) in
  bytes_ok buf -> Z.of_nat (length buf) <= 1472 -> is_u16 (sk_sport k) -> is_u16 (sk_dport k) -> is_u32 d ->
  route_lookup d n = Some i -> n_routes n !! i = Some rt -> arp_get_hwaddr (next_hop rt d) n = Some dmac ->
  is_u32 (nd_addr (dev_of (rt_dev rt) n)) -> rt_dev rt <> 0 ->
  n_faults (w_net (udp_out_send k buf w).1) = n_faults n ++ (if Z.of_nat (length buf) <=? 662 then [] else [StackBounds]).
Proof.
  intros n d Hb Hn Hs Hd Hda Hi Hr Ha H2 Hv.
  destruct (udp_send_ip k buf w ltac:(lia)) as (b & E1 & E2 & E3 & E4 & E5 & _). rewrite E5.
  destruct (udp_packet_fields k buf Hb Hs Hd ltac:(lia)) as (P1 & P2 & P3 & P4 & P5 & P6). rewrite <- E1 in *.
  pose proof (ip_output_resolved n d b i rt dmac Hi Hr Ha E2 ltac:(lia) Hda H2) as R. cbv zeta in R. apply (f_equal fst) in R. cbn [fst] in R.
  fold n d. rewrite R. rewrite transmit_in_bounds; [|done|change (skb_data b - 20 = 14); lia| |].
  - unfold ip_dumped, ip_dump_ok. cbv zeta. set (b1 := skb_push _ _). set (m := ip_fill _ _ _ _ _).
    assert (V : ld8 m (IPH + 9) = IP_UDP).
    { unfold m, ip_fill, IPH. cbv zeta. change (skb_protocol b1) with (skb_protocol b). rewrite E4. change (skb_buf b1) with (skb_buf b).
      past_stores. rewrite ld8_st8_eq by (autorewrite with mem; lia). done. }
    rewrite V. change (IP_UDP =? IP_UDP) with true. cbv iota.
    rewrite (udp_dump_fits _ _ _ m (Z.of_nat (length buf))); [| |lia].
    + destruct (_ <=? 662); [by rewrite app_nil_r|done].
    + assert (E : ld16 m 38 = ld16 (skb_buf b) 38) by (unfold ld16, m; by rewrite !ip_fill_front by lia).
      change (UDPH + 4)%nat with 38%nat. rewrite E, P5, bswap16_invol by (red; lia). lia.
  - change (0 <= u32 (skb_len b + 20) < 65536). rewrite u32_id by (red; lia). lia.
  - change (14 + u32 (skb_len b + 20) <= Z.of_nat (length (ip_packet rt i d n b))). rewrite u32_id by (red; lia).
    unfold ip_packet. cbv zeta. rewrite length_ip_send_check, length_transport_check, length_ip_fill. change (14 + (skb_len b + 20) <= Z.of_nat (length (skb_buf b))). lia.
Qed.

Lemma udp_send_frame k buf w i rt dmac :
  let n := w_net w in
  let d := v4_of (sk_daddr k) in
  bytes_ok buf -> Z.of_nat (length buf) <= 1472 -> is_u16 (sk_sport k) -> is_u16 (sk_dport k) -> is_u32 d ->
  route_lookup d n = Some i -> n_routes n !! i = Some rt -> arp_get_hwaddr (next_hop rt d) n = Some dmac ->
  length dmac = 6%nat -> is_u32 (nd_addr (dev_of (rt_dev rt) n)) ->
  (udp_out_send k buf w).2 = Z.of_nat (length buf) /\
  exists f, n_wire (w_net (udp_out_send k buf w).1) = n_wire n ++ [f] /\
    udp_frame f buf (nd_addr (dev_of (rt_dev rt) n)) d (sk_sport k) (sk_dport k).
Proof.
  intros n d Hb Hn Hs Hd Hda Hi Hr Ha Hm H2.
  destruct (udp_send_ip k buf w ltac:(lia)) as (b & E1 & E2 & E3 & E4 & E5 & E6). split; [exact E6|]. rewrite E5.
  destruct (udp_packet_fields k buf Hb Hs Hd ltac:(lia)) as (P1 & P2 & P3 & P4 & P5 & P6). rewrite <- E1 in *.
  destruct (ip_frame_bytes n d b i rt dmac Hi Hr Ha Hm Hda H2 E2 ltac:(lia) ltac:(lia)) as (f & W & Lf & M & Ty & F).
  exists f. split; [exact W|]. clear W E5 E6.
  destruct (ip_packet_udp rt i d n b E4 E2 P2 ltac:(lia)) as ((V1 & V2 & V3) & Fr & Cs & Ok).
  destruct (ip_packet_addrs rt i d n b ltac:(lia) E2 Hda H2) as [A1 A2].
  pose proof (ip_packet_header rt i d n b P2 ltac:(lia) E2) as Hh. set (P := ip_packet rt i d n b) in *. clearbody P.
  assert (F16 : forall o, (14 <= o)%nat -> (o + 2 <= length f)%nat -> ld16 f o = ld16 P o)
    by (intros; unfold ld16; by rewrite !F by lia).
  assert (F32 : forall o, (14 <= o)%nat -> (o + 4 <= length f)%nat -> ld32 f o = ld32 P o)
    by (intros; unfold ld32; by rewrite !F16 by lia).
  assert (B16 : forall o, (34 <= o)%nat -> (o + 2 <= 40)%nat -> ld16 P o = ld16 (skb_buf b) o)
    by (intros; unfold ld16; by rewrite !Fr by lia).
  constructor.
  - lia.
  - done.
  - by rewrite F by lia.
  - by rewrite F by lia.
  - by rewrite F by lia.
  - rewrite (ld_bytes_ext f P); [done|]. intros. apply F. lia.
  - by rewrite F32 by lia.
  - by rewrite F32 by lia.
  - rewrite F16, B16, P3 by lia. by apply bswap16_invol.
  - rewrite F16, B16, P4 by lia. by apply bswap16_invol.
  - rewrite F16, B16, P5 by lia. rewrite bswap16_invol by (red; lia). lia.
  - rewrite F16, !F32, Cs by lia. symmetry. apply udp_checksum_ext; [by rewrite F16 by lia|].
    intros x Hx _ _. change (34 + 4)%nat with 38%nat in Hx. rewrite B16, P5, bswap16_invol in Hx by (first [lia|red; lia]).
    apply F. lia.
  - etransitivity; [|exact P6]. apply ld_bytes_ext. intros x Hx. rewrite F by lia. apply Fr; lia.
  - intros x Hx. destruct (decide (x < length f)%nat); [rewrite F by lia; by apply ld8_range|].
    unfold ld8. rewrite lookup_ge_None_2 by lia. done.
Qed.

(** ** Receiving *)

(** [ip_init_pkt] on the received bytes. *)
Lemma init_pkt_front m k : (34 <= k)%nat -> ld8 (ip_init_pkt m) k = ld8 m k.
Proof. intros Hk. unfold ip_init_pkt, IPH. cbv zeta. by past_stores. Qed.
Lemma init_pkt_addrs m : (34 <= length m)%nat ->
  ld32 (ip_init_pkt m) 26 = bswap32 (ld32 m 26) /\ ld32 (ip_init_pkt m) 30 = bswap32 (ld32 m 30) /\ ld8 (ip_init_pkt m) 23 = ld8 m 23.
Proof.
  intros Hl. unfold ip_init_pkt, IPH. cbv zeta. split; [|split].
  - mem_simpl. apply u32_id, bswap32_range.
  - mem_simpl. apply u32_id, bswap32_range.
  - by past_stores.
Qed.

Lemma udp_init_head_fields b :
  (42 <= length (skb_buf b))%nat ->
  let b' := udp_init_head 34 b in
  ld16 (skb_buf b') 34 = bswap16 (ld16 (skb_buf b) 34) /\ ld16 (skb_buf b') 36 = bswap16 (ld16 (skb_buf b) 36) /\
  skb_dlen b' = u32 (bswap16 (ld16 (skb_buf b) 38) - 8) /\ skb_payload b' = 42 /\
  ld32 (skb_buf b') 26 = ld32 (skb_buf b) 26 /\ forall k, (42 <= k)%nat -> ld8 (skb_buf b') k = ld8 (skb_buf b) k.
Proof.
  intros Hl. unfold udp_init_head. cbv zeta.
  cbn [skb_buf set_skb_buf set_skb_payload set_skb_dlen skb_dlen skb_payload].
  change (34 + 2)%nat with 36%nat. change (34 + 4)%nat with 38%nat. change (34 + 8)%nat with 42%nat.
  split; [mem_simpl; apply u16_id, bswap16_range|]. split; [mem_simpl; apply u16_id, bswap16_range|].
  split; [mem_simpl; by rewrite (u16_id (bswap16 _)) by apply bswap16_range|]. split; [done|].
  split; [by mem_simpl|]. intros k Hk. by past_stores.
Qed.

(** A buffer [m] that starts with the frame [f]. *)
Section Received.
Context (f data m : list Z) (saddr daddr sport dport : Z).
Context (Hf : udp_frame f data saddr daddr sport dport).
Context (Hm : (42 + length data <= length m)%nat) (Hn : Z.of_nat (length data) <= 1472).
Context (F : forall k, (14 <= k < length f)%nat -> ld8 m k = ld8 f k).

Let Lf : length f = (42 + length data)%nat := uf_len _ _ _ _ _ _ Hf.

Lemma rx_ld16 o : (14 <= o)%nat -> (o + 2 <= length f)%nat -> ld16 m o = ld16 f o.
Proof. intros. unfold ld16. by rewrite !F by lia. Qed.
Lemma rx_ld32 o : (14 <= o)%nat -> (o + 4 <= length f)%nat -> ld32 m o = ld32 f o.
Proof. intros. unfold ld32. by rewrite !rx_ld16 by lia. Qed.
Lemma rx_u32 o : (14 <= o)%nat -> is_u32 (ld32 f o).
Proof.
  intros Ho. pose proof (uf_ok _ _ _ _ _ _ Hf) as Ok. unfold ld32, ld16. pose proof (Ok o Ho). pose proof (Ok (o + 1)%nat ltac:(lia)).
  pose proof (Ok (o + 2)%nat ltac:(lia)). pose proof (Ok (o + 2 + 1)%nat ltac:(lia)). unfold is_u8, is_u32 in *. lia.
Qed.
Lemma rx_pkt16 o : (34 <= o)%nat -> (o + 2 <= length f)%nat -> ld16 (ip_init_pkt m) o = ld16 f o.
Proof. intros. unfold ld16. by rewrite !init_pkt_front, !F by lia. Qed.
Lemma rx_length : length (ip_init_pkt m) = length m.
Proof. unfold ip_init_pkt. by autorewrite with mem. Qed.

Lemma rx_checksum : udp_checksum_right (ip_init_pkt m) UDPH = (true, Z.of_nat (length data) <=? 662).
Proof.
  destruct (init_pkt_addrs m ltac:(lia)) as (I1 & I2 & _). unfold udp_checksum_right.
  rewrite I1, I2, !rx_ld32, !bswap32_invol by (try lia; apply rx_u32; lia).
  pose proof (udp_dump_fits (ld32 f 26) (ld32 f 30) UDPH (ip_init_pkt m) (Z.of_nat (length data))) as D.
  change (UDPH + 4)%nat with 38%nat in D. rewrite rx_pkt16 in D by lia. specialize (D (uf_udp_len _ _ _ _ _ _ Hf) ltac:(lia)).
  rewrite (surjective_pairing (calcuate_udp_checksum _ _ _ _)), D. f_equal. apply Z.eqb_eq. change (UDPH + 6)%nat with 40%nat.
  rewrite rx_pkt16, (uf_csum _ _ _ _ _ _ Hf) by lia. apply udp_checksum_ext; [by rewrite rx_pkt16 by (unfold UDPH; lia)|].
  change (34 + 4)%nat with 38%nat. rewrite (uf_udp_len _ _ _ _ _ _ Hf). intros k Hk _ _. unfold UDPH. by rewrite init_pkt_front, F by lia.
Qed.

(** The datagram the socket gets. *)
Record arrived (b : sk_buff) : Prop := {
  ar_dlen : skb_dlen b = Z.of_nat (length data);
  ar_payload : skb_payload b = 42;
  ar_data : ld_bytes (skb_buf b) 42 (length data) = data;
  ar_sport : ld16 (skb_buf b) 34 = sport;
  ar_saddr : ld32 (skb_buf b) 26 = saddr
}.

Lemma rx_arrived b : skb_buf b = ip_init_pkt m -> arrived (udp_init_head 34 b) /\ ld16 (skb_buf (udp_init_head 34 b)) 36 = dport.
Proof.
  intros Eb. destruct (udp_init_head_fields b ltac:(rewrite Eb, rx_length; lia)) as (H1 & H2 & H3 & H4 & H5 & H6). rewrite Eb in *.
  set (b' := udp_init_head 34 b) in *. clearbody b'. rewrite rx_pkt16 in H1, H2, H3 by lia.
  destruct (init_pkt_addrs m ltac:(lia)) as (I1 & _). rewrite I1, rx_ld32 in H5 by lia.
  pose proof (uf_saddr _ _ _ _ _ _ Hf) as E1. pose proof (uf_sport _ _ _ _ _ _ Hf) as E2. pose proof (uf_dport _ _ _ _ _ _ Hf) as E3.
  pose proof (uf_udp_len _ _ _ _ _ _ Hf) as E4. split; [constructor|congruence]; [| done| |congruence|congruence].
  - rewrite H3, E4. replace (8 + _ - 8) with (Z.of_nat (length data)) by lia. apply u32_id. red. lia.
  - etransitivity; [|exact (uf_data _ _ _ _ _ _ Hf)]. apply ld_bytes_ext. intros k Hk. rewrite H6, init_pkt_front, F by lia. done.
Qed.

Lemma rx_udp_ip b0 w :
  Z.of_nat (length data) <= 662 -> skb_buf b0 = m -> exists b, arrived b /\ ip_rcv b0 w =
    match inet_udp_lookup sport dport w with
    | None => w_free_skb b w
    | Some id => so_release id (udp_data_queue id b (so_acquire id w))
    end.
Proof.
  intros H662 Hb0. assert (Hv : ld8 m 14 = 69) by (rewrite F by lia; apply Hf).
  unfold ip_rcv. cbv zeta. rewrite Hb0. unfold ip_version, ip_ihl, IPH. rewrite Hv. change (14 + 8)%nat with 22%nat.
  rewrite (F 22%nat), (uf_ttl _ _ _ _ _ _ Hf) by lia.
  change (negb (Z.shiftr 69 4 =? IPV4)) with false. change (Z.land 69 15 <? 5) with false. change (64 =? 0) with false. cbv iota.
  change (Z.to_nat (Z.land 69 15 * 4)) with 20%nat. rewrite (ld_bytes_ext m f 14 20) by (intros; apply F; lia).
  rewrite (uf_header _ _ _ _ _ _ Hf). change (negb (0 =? 0)) with false. cbv iota.
  set (b1 := set_skb_buf (ip_init_pkt m) b0). change (skb_buf b1) with (ip_init_pkt m).
  destruct (init_pkt_addrs m ltac:(lia)) as (_ & _ & I3). change (14 + 9)%nat with 23%nat.
  rewrite I3, F, (uf_proto _ _ _ _ _ _ Hf) by lia.
  change (IP_UDP =? ICMPV4) with false. change (IP_UDP =? IP_TCP) with false. change (IP_UDP =? IP_UDP) with true. cbv iota.
  unfold udp_in. change (skb_buf b1) with (ip_init_pkt m). rewrite rx_checksum, (proj2 (Z.leb_le _ _) H662). cbn [negb]. cbv iota zeta.
  destruct (rx_arrived b1 eq_refl) as [A E]. change UDPH with 34%nat. change (34 + 2)%nat with 36%nat.
  set (b := udp_init_head 34 b1) in *. clearbody b. exists b. split; [done|]. by rewrite E, (ar_sport _ A).
Qed.

End Received.

(** A frame of type IPv4 reaches [ip_rcv] in a buffer of its own. *)
Definition rx_world (w : world) : world := upd_w_env (fun e => set_e_next_skb (e_next_skb e + 1) e) w.
Lemma rx_ipv4_buffer f w :
  (34 <= length f <= 1600)%nat -> ld16 f 12 = bswap16 ETH_P_IP ->
  exists b, netdev_rx_loop f w = ip_rcv b (rx_world w) /\ length (skb_buf b) = 1600%nat /\
    (forall k, (14 <= k < length f)%nat -> ld8 (skb_buf b) k = ld8 f k).
Proof.
  intros Lf Hty. unfold netdev_rx_loop, w_alloc_skb. cbv zeta. cbn beta iota. fold (rx_world w).
  set (w1 := rx_world w). rewrite (take_ge f) by (unfold BUFLEN; lia).
  set (b0 := set_skb_len _ _). set (m := skb_buf b0).
  assert (Em : m = st_bytes (replicate 1600 0) 0 f) by done.
  assert (F : forall k, (k < length f)%nat -> ld8 m k = ld8 f k).
  { intros k Hk. rewrite Em. rewrite <- (Nat.add_0_l k) at 1. rewrite ld8_st_bytes_eq; [done|done|]. rewrite length_replicate. lia. }
  assert (Lm : length m = 1600%nat) by (rewrite Em, length_st_bytes, length_replicate; done).
  unfold netdev_receive. cbv zeta. change (skb_buf b0) with m. clearbody m.
  set (m1 := st16 m 12 _). set (b1 := set_skb_buf m1 b0). change (skb_buf b1) with m1.
  assert (Et : ld16 m1 12 = ETH_P_IP).
  { unfold m1. rewrite ld16_st16_eq by lia. rewrite u16_id by apply bswap16_range.
    assert (E : ld16 m 12 = ld16 f 12) by (unfold ld16; by rewrite !F by lia). by rewrite E, Hty. }
  rewrite Et. change (ETH_P_IP =? ETH_P_ARP) with false. change (ETH_P_IP =? ETH_P_IP) with true. cbv iota.
  exists b1. split; [done|]. split; [change (length m1 = 1600%nat); unfold m1; by rewrite length_st16|].
  intros k Hk. change (ld8 m1 k = ld8 f k). unfold m1. rewrite ld8_st16_ne by lia. apply F. lia.
Qed.
Lemma rx_ipv4 f w :
  (34 <= length f <= 1600)%nat -> ld16 f 12 = bswap16 ETH_P_IP ->
  exists b w1, netdev_rx_loop f w = ip_rcv b w1 /\ length (skb_buf b) = 1600%nat /\
    (forall k, (14 <= k < length f)%nat -> ld8 (skb_buf b) k = ld8 f k) /\
    w_socks w1 = w_socks w /\ w_next_id w1 = w_next_id w /\ (world_ok w -> world_ok w1).
Proof.
  intros Lf Hty. destruct (rx_ipv4_buffer f w Lf Hty) as (b & E & L & F). exists b, (rx_world w).
  repeat (split; [done|]). intros []. by constructor.
Qed.

Lemma udp_rx f data saddr daddr sport dport w :
  udp_frame f data saddr daddr sport dport -> Z.of_nat (length data) <= 662 ->
  exists b w1, arrived data saddr sport b /\ w_socks w1 = w_socks w /\ w_next_id w1 = w_next_id w /\ e_faults (w_env w1) = e_faults (w_env w) /\
    netdev_rx_loop f w =
    match inet_udp_lookup sport dport w1 with
    | None => w_free_skb b w1
    | Some id => so_release id (udp_data_queue id b (so_acquire id w1))
    end.
Proof.
  intros Hf Hn. pose proof (uf_len _ _ _ _ _ _ Hf) as Lf.
  destruct (rx_ipv4_buffer f w ltac:(lia) (uf_type _ _ _ _ _ _ Hf)) as (b0 & E & Lm & F). set (w1 := rx_world w) in *.
  destruct (rx_udp_ip f data (skb_buf b0) saddr daddr sport dport Hf) with (b0 := b0) (w := w1) as (b & A & Eq); [lia|lia|exact F|lia|done|].
  exists b, w1. split; [done|]. split; [done|]. split; [done|]. split; [done|]. by rewrite E.
Qed.

(** ** The socket *)

Lemma find_upd id h w e :
  (forall x, e_id x = id -> e_id (h x) = id) -> find_entry id w = Some e -> find_entry id (upd_entry id h w) = Some (h e).
Proof.
  intros Hh. unfold find_entry, upd_entry. cbn [w_socks set_w_socks]. induction (w_socks w) as [|x l IH]; [done|].
  cbn [find fmap list_fmap]. destruct (Z.eqb_spec (e_id x) id) as [E|E].
  - intros [= ->]. by rewrite (proj2 (Z.eqb_eq _ _) (Hh e E)).
  - rewrite (proj2 (Z.eqb_neq _ _) E). by apply IH.
Qed.

(** The entry under the lock, and after it. *)
Lemma find_acquire id w e :
  find_entry id w = Some e -> exists o, find_entry id (so_acquire id w) = Some (set_c_so o e) /\ so_locked o = true /\
    so_id o = so_id (c_so e) /\ so_pid o = so_pid (c_so e) /\ so_fd o = so_fd (c_so e).
Proof.
  intros H. destruct (find_entry_some _ _ _ H) as [_ Ei]. unfold so_acquire. rewrite H.
  set (g := fun o => set_so_locked true (set_so_refcnt (so_refcnt o + 1) o)). exists (g (c_so e)). split; [|done].
  assert (E : find_entry id (on_so id g w) = Some (set_c_so (g (c_so e)) e)) by (apply (find_upd id (fun e => set_c_so (g (c_so e)) e)); done).
  by destruct (so_locked (c_so e)).
Qed.
Lemma find_release id w e :
  find_entry id w = Some e -> exists o, find_entry id (so_release id w) = Some (set_c_so o e) /\
    so_id o = so_id (c_so e) /\ so_pid o = so_pid (c_so e) /\ so_fd o = so_fd (c_so e).
Proof.
  intros H. unfold so_release. rewrite H. destruct (so_locked (c_so e)).
  - eexists. split; [by apply (find_upd id (fun e => set_c_so _ e))|done].
  - exists (c_so e). split; [|done]. by destruct e.
Qed.

(** What is queued is what the next [recvfrom] returns. *)
Lemma recvfrom_queued pid id cap w e b q :
  find_entry id w = Some e -> sk_receive_queue (c_sk e) = q -> skb_queue_empty q = false -> hd_error (skq q) = Some b ->
  0 < skb_dlen b < 65536 -> 0 <= cap < 65536 ->
  (udp_recvfrom pid id cap w).2 =
  Returned (skb_dlen b) (ld_bytes (skb_buf b) (Z.to_nat (skb_payload b)) (Z.to_nat (Z.min cap (skb_dlen b))))
    (build_sockaddr_from_host_order (ld16 (skb_buf b) UDPH) (ld32 (skb_buf b) 26)).1.
Proof.
  intros He Hq Hne Hh Hd Hc. unfold udp_recvfrom, udp_receive, udp_data_dequeue. rewrite He, Hq, Hne.
  unfold skb_dequeue. destruct (skq q) as [|b' l]; [done|]. injection Hh as ->. cbv zeta. cbn [dg_rlen dg_bytes dg_addr].
  rewrite (u32_id cap) by (red; lia). assert (Es : s32 (skb_dlen b) = skb_dlen b) by ulia. rewrite Es.
  destruct (Z.ltb_spec 0 (skb_dlen b)); [|lia]. cbn [snd]. do 2 f_equal.
  destruct (Z.ltb_spec cap (skb_dlen b)); [rewrite Z.min_l by lia|rewrite Z.min_r by lia]; done.
Qed.

Lemma net_acquire id w : w_net (so_acquire id w) = w_net w.
Proof. unfold so_acquire. destruct (find_entry id w); [|done]. by destruct (so_locked _). Qed.
Lemma net_release id w : w_net (so_release id w) = w_net w.
Proof. unfold so_release. destruct (find_entry id w); [|done]. by destruct (so_locked _). Qed.

(** The destination [sendto] writes into the sock. *)
Definition addressed (addr : list Z) (k : sock) : sock :=
  set_sk_daddr (set_v4 (bswap32 (s_addr addr)) (sk_daddr k)) (set_sk_dport (bswap16 (sin_port addr)) k).

Lemma sendto_sends pid fd buf addr w id e :
  get_socket pid fd w = Some id -> find_entry id w = Some e -> c_ops e = inet_dgram_ops -> sk_err (c_sk e) = 0 ->
  exists w1, w_net w1 = w_net w /\
    w_net (run_syscall pid (Sendto fd buf addr) w).1 = w_net (udp_out_send (addressed addr (c_sk e)) buf w1).1 /\
    (run_syscall pid (Sendto fd buf addr) w).2 = Returned (udp_out_send (addressed addr (c_sk e)) buf w1).2 [] [].
Proof.
  intros Hg He Ho Herr. cbn [run_syscall]. unfold _sendto, call, inet_sendto. rewrite Hg. cbv zeta.
  destruct (find_acquire id w e He) as (o & Ha & Hl & Ei & _). unfold with_entry. rewrite Ha. cbn [c_ops set_c_so]. rewrite Ho.
  assert (Eid : e_id (set_c_so o e) = id) by (unfold e_id; cbn [c_so set_c_so]; rewrite Ei; by apply find_entry_some in He as [_ <-]).
  rewrite Eid. unfold udp_sendto. rewrite Ha. cbn [c_sk set_c_so]. rewrite Herr. change (negb (0 =? 0)) with false. cbv iota zeta.
  fold (addressed addr (c_sk e)). set (w1 := on_sk id _ _). exists w1.
  assert (E1 : w_net w1 = w_net w) by (unfold w1; exact (net_acquire id w)). split; [exact E1|]. clearbody w1.
  destruct (udp_out_send (addressed addr (c_sk e)) buf w1) as [w2 rc]. cbn [return_rc fst snd]. split; [apply net_release|done].
Qed.

(** A datagram that waits in a socket that was free: no fault. *)
Lemma queue_no_fault id b w e :
  find_entry id w = Some e -> so_locked (c_so e) = false ->
  e_faults (w_env (so_release id (udp_data_queue id b (so_acquire id w)))) = e_faults (w_env w).
Proof.
  intros He Hl. destruct (find_acquire id w e He) as (o & Ha & _ & _). unfold so_acquire in *. rewrite He, Hl in *.
  set (w1 := on_so id _ w) in *. assert (E1 : w_env w1 = w_env w) by done.
  assert (L1 : so_locked (c_so (set_c_so o e)) = true).
  { assert (X : find_entry id w1 = Some (set_c_so (set_so_locked true (set_so_refcnt (so_refcnt (c_so e) + 1) (c_so e))) e)) by (by apply (find_upd id (fun x => set_c_so _ x))).
    rewrite X in Ha. by injection Ha as <-. }
  clearbody w1. unfold so_release.
  assert (H2 : exists k, find_entry id (udp_data_queue id b w1) = Some (set_c_sk k (set_c_so o e))).
  { eexists. apply (find_upd id (fun x => set_c_sk (_ (c_sk x)) x) _ _ (fun x Hx => Hx) Ha). }
  destruct H2 as [k ->]. change (so_locked (c_so (set_c_sk k (set_c_so o e)))) with (so_locked (c_so (set_c_so o e))). rewrite L1.
  change (e_faults (w_env w1) = e_faults (w_env w)). by rewrite E1.
Qed.

(** A socket that has just got a datagram. *)
Lemma recvfrom_after_rx data saddr sport b w e cap :
  world_ok (so_release (e_id e) (udp_data_queue (e_id e) b (so_acquire (e_id e) w))) ->
  w_next_id (so_release (e_id e) (udp_data_queue (e_id e) b (so_acquire (e_id e) w))) <= 2147479552 ->
  arrived data saddr sport b -> find_entry (e_id e) w = Some e -> c_ops e = inet_dgram_ops ->
  sk_receive_queue (c_sk e) = skb_queue_init -> 0 < Z.of_nat (length data) < 65536 -> 0 <= cap < 65536 ->
  (run_syscall (so_pid (c_so e)) (Recvfrom (so_fd (c_so e)) cap)
     (so_release (e_id e) (udp_data_queue (e_id e) b (so_acquire (e_id e) w)))).2 =
  Returned (Z.of_nat (length data)) (take (Z.to_nat cap) data) (build_sockaddr_from_host_order sport saddr).1.
Proof.
  set (id := e_id e). set (w3 := so_release _ _). intros O Hn A He Ho Hq Hd Hc.
  destruct (find_acquire id w e He) as (o & Ha & _ & Oi & Op & Of).
  set (q := fun k => set_sk_poll_events (Z.lor (sk_poll_events k) POLL_READABLE)
    (set_sk_receive_queue (skb_queue_tail (sk_receive_queue k) (set_skb_refcnt (skb_refcnt b + 1) b)) k)).
  assert (H2 : find_entry id (udp_data_queue id b (so_acquire id w)) = Some (set_c_sk (q (c_sk e)) (set_c_so o e)))
    by (apply (find_upd id (fun x => set_c_sk (q (c_sk x)) x) _ _ (fun x Hx => Hx) Ha)).
  destruct (find_release id _ _ H2) as (o3 & H3 & Oi3 & Op3 & Of3). fold w3 in H3. cbn [c_so set_c_sk set_c_so] in *.
  set (e3 := set_c_so o3 _) in *. destruct (find_entry_some _ _ _ H3) as [In3 Id3].
  assert (G : get_socket (so_pid (c_so e)) (so_fd (c_so e)) w3 = Some id).
  { rewrite <- Id3, <- Op, <- Of, <- Op3, <- Of3. by apply (get_socket_in w3 e3). }
  cbn [run_syscall]. unfold _recvfrom, call, inet_recvfrom. rewrite G. cbv zeta. destruct (find_acquire id w3 e3 H3) as (o4 & H4 & _ & Oi4 & _).
  unfold with_entry. rewrite H4. change (c_ops (set_c_so o4 e3)) with (c_ops e). rewrite Ho. cbn [net_ops_of].
  assert (Eid : e_id (set_c_so o4 e3) = id) by (unfold e_id; cbn [c_so set_c_so]; rewrite Oi4; exact Id3). rewrite Eid.
  assert (Es : s32 cap = cap) by ulia. rewrite Es.
  destruct A as [A1 A2 A3 A4 A5].
  rewrite (recvfrom_queued _ id cap _ (set_c_so o4 e3) (set_skb_refcnt (skb_refcnt b + 1) b)
    (skb_queue_tail skb_queue_init (set_skb_refcnt (skb_refcnt b + 1) b)) H4); try done.
  - change (skb_dlen (set_skb_refcnt _ b)) with (skb_dlen b). change (skb_buf (set_skb_refcnt _ b)) with (skb_buf b).
    change (skb_payload (set_skb_refcnt _ b)) with (skb_payload b). change UDPH with 34%nat.
    rewrite A1, A2, A4, A5. change (Z.to_nat 42) with 42%nat. f_equal.
    transitivity (take (Z.to_nat cap) (ld_bytes (skb_buf b) 42 (length data))); [|by rewrite A3].
    destruct (Z.min_spec cap (Z.of_nat (length data))) as [[? ->]|[? ->]].
    + symmetry. apply ld_bytes_take. lia.
    + rewrite take_ge by (rewrite length_ld_bytes; lia). by rewrite Nat2Z.id.
  - change (sk_receive_queue (q (c_sk e)) = skb_queue_tail skb_queue_init (set_skb_refcnt (skb_refcnt b + 1) b)). unfold q. cbn. by rewrite Hq.
  - change (0 < skb_dlen b < 65536). lia.
Qed.
End UdpWire.
