(* ===== verification/TcpDeliver.v ===== *)
(** A data segment from an arriving frame to the receive queue of its connection, and
    from there to the process that reads: the receive path of [src/src/netdev.c],
    [ip_input.c], [tcp.c] and [socket.c] composed. *)
From S2P Require Import Prelude Utils SkBuff Timer TcpTypes TcpBase TcpOutput TcpSender TcpData TcpInput TcpAck TcpReasm TcpApi TcpWire Ipv6 Net Neigh IpOut Frame TcpFrame World Udp SocketApi Addrconf IpIn Stack WorldFacts WorldCalls UdpWire.
Import Utils SkBuff Timer TcpTypes TcpBase TcpOutput TcpSender TcpData TcpInput TcpAck TcpReasm TcpApi TcpWire Ipv6 Net Neigh IpOut Frame TcpFrame World Udp SocketApi Addrconf IpIn Stack WorldFacts WorldCalls UdpWire.

Module TcpDeliver.

(** ** The frame *)

Section Packet.
Context (f m : list Z) (saddr daddr : Z).
Context (Hip : ip_frame f saddr daddr) (Hm : length m = 1600%nat) (Hn : (54 <= length f <= 1600)%nat).
Context (F : forall k, (14 <= k < length f)%nat -> ld8 m k = ld8 f k).

Lemma rx16 o : (14 <= o)%nat -> (o + 2 <= length f)%nat -> ld16 m o = ld16 f o.
Proof. intros. unfold ld16. by rewrite !F by lia. Qed.
Lemma rx32 o : (14 <= o)%nat -> (o + 4 <= length f)%nat -> ld32 m o = ld32 f o.
Proof. intros. unfold ld32. by rewrite !rx16 by lia. Qed.
Lemma rx8_pkt o : (34 <= o < length f)%nat -> ld8 (ip_init_pkt m) o = ld8 f o.
Proof. intros. by rewrite init_pkt_front, F by lia. Qed.
Lemma rx16_pkt o : (34 <= o)%nat -> (o + 2 <= length f)%nat -> ld16 (ip_init_pkt m) o = ld16 f o.
Proof. intros. unfold ld16. by rewrite !rx8_pkt by lia. Qed.
Lemma rx32_pkt o : (34 <= o)%nat -> (o + 4 <= length f)%nat -> ld32 (ip_init_pkt m) o = ld32 f o.
Proof. intros. unfold ld32. by rewrite !rx16_pkt by lia. Qed.
Lemma length_init_pkt : length (ip_init_pkt m) = 1600%nat.
Proof. unfold ip_init_pkt. by autorewrite with mem. Qed.

Lemma pkt_head : ip_ihl (ip_init_pkt m) = 5 /\ ld16 (ip_init_pkt m) 16 = Z.of_nat (length f) - 14.
Proof.
  split.
  - unfold ip_ihl, ip_init_pkt, IPH. cbv zeta. past_stores. rewrite F by lia. by rewrite (if_version _ _ _ Hip).
  - unfold ip_init_pkt, IPH. cbv zeta. mem_simpl. rewrite rx16 by lia. change (14 + 2)%nat with 16%nat. rewrite (if_total _ _ _ Hip). apply u16_id. red. lia.
Qed.

(** The addresses of the segment, and the segment as [tcp_init_segment] reads it. *)
Lemma pkt_segment dlen b :
  skb_buf b = ip_init_pkt m -> let th := (tcp_init_segment 34 dlen b).1 in let b' := (tcp_init_segment 34 dlen b).2 in
  th_sport th = bswap16 (ld16 f 34) /\ th_dport th = bswap16 (ld16 f 36) /\
  th_seq th = bswap32 (ld32 f 38) /\ th_ack_seq th = bswap32 (ld32 f 42) /\ th_win th = bswap16 (ld16 f 48) /\
  ld32 (skb_buf b') 26 = saddr /\ ld32 (skb_buf b') 30 = daddr.
Proof.
  intros Eb. destruct (init_segment_fields 34 dlen b ltac:(rewrite Eb, length_init_pkt; lia)) as (E1 & E2 & E3 & E4 & _ & E6 & _).
  destruct (init_pkt_addrs m ltac:(lia)) as (A1 & A2 & _). destruct (init_segment_buf 34 dlen b) as (_ & _ & _ & _ & _ & B6).
  cbv zeta. set (th := (tcp_init_segment 34 _ b).1) in *. set (b' := (tcp_init_segment 34 _ b).2) in *. clearbody th b'.
  rewrite Eb in *. rewrite rx16_pkt, u16_id in E1, E2, E6 by (lia || apply bswap16_range). rewrite rx32_pkt, u32_id in E3, E4 by (lia || apply bswap32_range).
  assert (Ad : forall k, (k + 4 <= 34)%nat -> ld32 (skb_buf b') k = ld32 (ip_init_pkt m) k)
    by (intros; unfold ld32, ld16; by rewrite !B6 by lia).
  do 5 (split; [done|]). rewrite !Ad, A1, A2, !rx32 by lia. by rewrite (if_saddr _ _ _ Hip), (if_daddr _ _ _ Hip).
Qed.

(** [ip_rcv] passes the packet on. *)
Lemma rx_ip b0 w : skb_buf b0 = m -> ip_rcv b0 w = tcp_in (set_skb_buf (ip_init_pkt m) b0) w.
Proof.
  intros Hb0. assert (Hv : ld8 m 14 = 69) by (rewrite F by lia; apply Hip).
  unfold ip_rcv. cbv zeta. rewrite Hb0. unfold ip_version, ip_ihl, IPH. rewrite Hv. change (14 + 8)%nat with 22%nat.
  rewrite (F 22%nat), (if_ttl _ _ _ Hip) by lia.
  change (negb (Z.shiftr 69 4 =? IPV4)) with false. change (Z.land 69 15 <? 5) with false. change (64 =? 0) with false. cbv iota.
  change (Z.to_nat (Z.land 69 15 * 4)) with 20%nat. rewrite (ld_bytes_ext m f 14 20) by (intros; apply F; lia).
  rewrite (if_header _ _ _ Hip). change (negb (0 =? 0)) with false. cbv iota.
  set (b1 := set_skb_buf (ip_init_pkt m) b0). change (skb_buf b1) with (ip_init_pkt m).
  destruct (init_pkt_addrs m ltac:(lia)) as (_ & _ & I3). change (14 + 9)%nat with 23%nat.
  rewrite I3, F, (if_proto _ _ _ Hip) by lia.
  change (IP_TCP =? ICMPV4) with false. change (IP_TCP =? IP_TCP) with true. done.
Qed.
End Packet.

Section Received.
Context (f c m : list Z) (saddr daddr sport dport seq ack : Z).
Context (Hf : data_frame f c saddr daddr sport dport seq ack).
Context (Hm : length m = 1600%nat) (Hn : (length f <= 1600)%nat) (Hc : c <> []) (Hs : 0 <= seq).
Context (Hend : seq + Z.of_nat (length c) < 4294967296).
Context (F : forall k, (14 <= k < length f)%nat -> ld8 m k = ld8 f k).

Let Lf : length f = (54 + length c)%nat := df_len _ _ _ _ _ _ _ _ Hf.
Let Hip : ip_frame f saddr daddr := data_ip _ _ _ _ _ _ _ _ Hf.
Let Hn' : (54 <= length f <= 1600)%nat := ltac:(rewrite Lf in *; lia).

(** The segment [tcp_in] hands to the connection. *)
Record delivered (th : tcphdr) (b : sk_buff) : Prop := {
  dv_ports : th_sport th = sport /\ th_dport th = dport;
  dv_addrs : ld32 (skb_buf b) 26 = saddr /\ ld32 (skb_buf b) 30 = daddr;
  dv_data : data_segment ack th b;
  dv_seq : skb_seq b = seq;
  dv_end : skb_end_seq b = seq + Z.of_nat (length c);
  dv_dlen : skb_dlen b = Z.of_nat (length c);
  dv_payload : payload b = c;
  dv_readable : readable b
}.

Lemma rx_segment b : skb_buf b = ip_init_pkt m -> delivered (segment b).1 (segment b).2.
Proof.
  intros Eb. destruct (pkt_head f m saddr daddr Hip Hm Hn' F) as [Ih Tot]. unfold segment. rewrite Eb, Ih, Tot.
  pose proof (length_init_pkt m Hm) as Lp.
  assert (P8 : forall o, (34 <= o < length f)%nat -> ld8 (ip_init_pkt m) o = ld8 f o) by (intros; by apply rx8_pkt).
  assert (Hl : th_get_hl 34 (ip_init_pkt m) = 5) by (unfold th_get_hl; rewrite P8 by lia; apply (df_hl _ _ _ _ _ _ _ _ Hf)).
  rewrite Hl. replace (Z.of_nat (length f) - 14 - 5 * 4 - 5 * 4) with (Z.of_nat (length c)) by lia.
  destruct (init_segment_fields 34 (Z.of_nat (length c)) b ltac:(rewrite Eb, Lp; lia)) as (_ & _ & _ & _ & _ & _ & _ & G1 & G2 & G3 & G4 & _).
  destruct (pkt_segment f m saddr daddr Hip Hm Hn' F (Z.of_nat (length c)) b Eb) as (E1 & E2 & E3 & E4 & _ & A1 & A2).
  destruct (df_flags _ _ _ _ _ _ _ _ Hf) as (L1 & L2 & L3 & L4).
  destruct (init_segment_buf 34 (Z.of_nat (length c)) b) as (B1 & B2 & B3 & B4 & B5 & B6).
  set (th := (tcp_init_segment 34 _ b).1) in *. set (b' := (tcp_init_segment 34 _ b).2) in *. clearbody th b'.
  rewrite Eb in *. rewrite (df_sport _ _ _ _ _ _ _ _ Hf) in E1. rewrite (df_dport _ _ _ _ _ _ _ _ Hf) in E2.
  rewrite (df_seq _ _ _ _ _ _ _ _ Hf) in E3. rewrite (df_ack _ _ _ _ _ _ _ _ Hf) in E4.
  assert (Fg : forall bit, th_flag 34 bit (ip_init_pkt m) = th_flag 34 bit f) by (intros; unfold th_flag; by rewrite P8 by lia).
  rewrite Fg in G1, G2, G3, G4. assert (Pc : (0 < length c)%nat) by (destruct c; [done|simpl; lia]).
  rewrite E3 in *. rewrite (u32_id (Z.of_nat _)) in B2, B3 by (red; lia). rewrite u32_id in B3 by (red; lia).
  constructor; try done.
  - constructor; try congruence. rewrite B2. lia.
  - unfold payload. rewrite B2, B4. change (Z.to_nat (Z.of_nat (34 + 20))) with 54%nat. rewrite Nat2Z.id.
    rewrite <- (df_data _ _ _ _ _ _ _ _ Hf) at 2. apply ld_bytes_ext. intros k Hk. rewrite B6, P8 by lia. done.
  - unfold readable, skb_end. rewrite B2, B4, B5, Lp. lia.
Qed.

Lemma rx_data b0 w :
  skb_buf b0 = m -> exists th b, delivered th b /\ ip_rcv b0 w =
    match inet_lookup saddr daddr sport dport w with
    | None => w_free_skb b w
    | Some id => tcp_input_state id th b (st32 (replicate 16 0) 0 saddr) (so_acquire id w)
    end.
Proof.
  intros Hb0. rewrite (rx_ip f m saddr daddr Hip Hm Hn' F b0 w Hb0). set (b1 := set_skb_buf (ip_init_pkt m) b0).
  pose proof (rx_segment b1 eq_refl) as D. exists (segment b1).1, (segment b1).2. split; [exact D|].
  rewrite tcp_in_unfold. unfold receiver, seg_saddr, seg_daddr. destruct (dv_ports _ _ D) as [-> ->]. by destruct (dv_addrs _ _ D) as [-> ->].
Qed.
End Received.

(** ** The connection *)

(** The receiver's predicates see the buffers and the control block only. *)
Lemma rcv_inv_same cs s0 rq0 W got k (s s' : st net) :
  sk s' = sk s -> tb s' = tb s -> ofo s' = ofo s -> rcv_inv cs s0 rq0 W got k s -> rcv_inv cs s0 rq0 W got k s'.
Proof.
  intros E1 E2 E3 []. unfold rq, receive_queue, state in *. constructor; unfold rq, receive_queue, state; rewrite ?E1, ?E2, ?E3; done.
Qed.

Lemma find_sock_upd g id h w :
  find_sock g w = Some id -> (forall x, e_id x = id -> e_id (h x) = id) ->
  (forall x, x ∈ w_socks w -> e_id x = id -> g (c_sk x) = true -> g (c_sk (h x)) = true) -> find_sock g (upd_entry id h w) = Some id.
Proof.
  intros E Hi Hg. unfold find_sock, upd_entry in *. cbn [w_socks set_w_socks]. induction (w_socks w) as [|x l IH]; [done|].
  cbn [find fmap list_fmap] in E |- *. destruct (Z.eqb_spec (e_id x) id) as [Ei|Ei].
  - destruct (g (c_sk x)) eqn:Gx.
    + rewrite (Hg x) by (done || left). simpl. by rewrite Hi.
    + destruct (g (c_sk (h x))); [simpl; by rewrite Hi|]. apply IH; [done|]. intros y Hy. apply Hg. by right.
  - destruct (g (c_sk x)); [done|]. apply IH; [done|]. intros y Hy. apply Hg. by right.
Qed.

Lemma tcp_of_find id w e t : find_entry id w = Some e -> c_tcp e = Some t -> tcp_of id w = Some (focus e t w).
Proof. intros E1 E2. unfold tcp_of. by rewrite E1; simpl; rewrite E2. Qed.

Lemma find_sock_acquire g id w : find_sock g w = Some id -> find_sock g (so_acquire id w) = Some id.
Proof.
  intros E. unfold so_acquire. destruct (find_entry id w) as [e|]; [|done].
  assert (F : find_sock g (on_so id (fun o => set_so_locked true (set_so_refcnt (so_refcnt o + 1) o)) w) = Some id) by (by apply find_sock_upd).
  by destruct (so_locked (c_so e)).
Qed.

Lemma release_fields (s : st net) :
  sk (socket_release s) = sk s /\ tb (socket_release s) = tb s /\ cc (socket_release s) = cc s /\ ofo (socket_release s) = ofo s /\
  so_id (so (socket_release s)) = so_id (so s) /\ so_pid (so (socket_release s)) = so_pid (so s) /\ so_fd (so (socket_release s)) = so_fd (so s).
Proof. unfold socket_release. by destruct (so_locked (so s)). Qed.

(** What a lookup of the connection tests. *)
Lemma match_key k k' saddr daddr sport dport :
  conn_key k' = conn_key k -> sk_state k' = sk_state k ->
  ((sk_addr_family k' =? AF_INET) && tcp_sock_match_established k' AF_INET saddr daddr None None sport dport) =
  ((sk_addr_family k =? AF_INET) && tcp_sock_match_established k AF_INET saddr daddr None None sport dport).
Proof. unfold conn_key, tcp_sock_match_established. intros [= E1 E2 E3 E4 E5 E6] E7. by rewrite E1, E2, E3, E4, E5, E6, E7. Qed.

Section Connection.
(** A stream [cs], numbered from [s0], towards connection [id] of process [pid], which
    has sent nothing that [una] does not acknowledge. *)
Context (cs : list (list Z)) (s0 W una : Z) (id pid fd saddr daddr sport dport : Z).

Record can_receive (got : gset nat) (k : nat) (s : st net) : Prop := {
  cr_family : sk_addr_family (sk s) = AF_INET;
  cr_inv : rcv_inv cs s0 [] W got k s;
  cr_snd : snd_inv s;
  cr_una : snd_una (tb s) = una;
  cr_real : is_u32 (real_rcv_wnd (tb s));
  cr_bufs : bufs_ok s
}.

Lemma can_receive_same got k s s' :
  sk s' = sk s -> tb s' = tb s -> cc s' = cc s -> ofo s' = ofo s -> can_receive got k s -> can_receive got k s'.
Proof.
  intros E1 E2 E3 E4 [C1 C2 C3 C4 C5 C6]. constructor; rewrite ?E1, ?E2; try done.
  - by apply (rcv_inv_same _ _ _ _ _ _ s).
  - apply (snd_same_inv s); [|done]. unfold snd_same, state. by rewrite E1, E2, E3.
  - unfold bufs_ok, rq, receive_queue in *. by rewrite E1, E4.
Qed.

Record receiving (w : world) (got : gset nat) (k : nat) : Prop := {
  rv_ok : world_ok w;
  rv_next : w_next_id w <= 2147479552;
  rv_lookup : tcp_lookup_established AF_INET saddr daddr None None sport dport w = Some id;
  rv_conn : exists e t, find_entry id w = Some e /\ c_tcp e = Some t /\ c_ops e = inet_stream_ops /\
    so_pid (c_so e) = pid /\ so_fd (c_so e) = fd /\ can_receive got k (focus e t w)
}.

Context (Hs : stream_ok cs s0) (HW1 : start cs s0 (length cs) <= s0 + W) (HW2 : start cs s0 (length cs) + W < 4294967296).
Context (Hl : 2 * Z.of_nat (length cs) + 1 < 4294967296).

Lemma delivered_carries i c th b :
  cs !! i = Some c -> delivered c saddr daddr sport dport (start cs s0 i) una th b -> carries cs s0 i b.
Proof. intros Hi []. exists c. rewrite dv_end0, dv_dlen0. done. Qed.

(** The connection takes a segment. *)
Lemma receive_step got k i c th b s :
  can_receive got k s -> cs !! i = Some c -> delivered c saddr daddr sport dport (start cs s0 i) una th b ->
  exists k', can_receive ({[i]} ∪ got) k' (tcp_otherwise th b s).1 /\ conn_kept s (tcp_otherwise th b s).1.
Proof.
  intros [C1 C2 C3 C4 C5 C6] Hi D. pose proof (delivered_carries i c th b Hi D) as Cb. pose proof (dv_data _ _ _ _ _ _ _ _ _ D) as Dg.
  rewrite <- C4 in Dg.
  destruct (arrive_step cs s0 [] W got k i th b s Hs C2 C3 Cb Dg HW1 HW2 ltac:(simpl; lia)) as ([k' J] & S' & U').
  destruct (arrive_kept th b s C3 (ri_state _ _ _ _ _ _ _ C2) Dg) as [K B]. exists k'. split; [|exact K].
  change (arrive s (th, b)) with (tcp_otherwise th b s).1 in *. constructor; try done.
  - rewrite (ck_family _ _ K). exact C1.
  - congruence.
  - apply K, C5.
  - apply B; [apply D|exact C6].
Qed.

(** ... and the stack that holds it. *)
Lemma input_step got k i c th b x w :
  receiving w got k -> cs !! i = Some c -> delivered c saddr daddr sport dport (start cs s0 i) una th b ->
  world_ok (tcp_input_state id th b x (so_acquire id w)) ->
  exists k', receiving (tcp_input_state id th b x (so_acquire id w)) ({[i]} ∪ got) k'.
Proof.
  intros [R1 R2 R3 (e & t & He & Ht & Ho & Hp & Hfd & Cr)] Hi D Ok.
  destruct (find_acquire id w e He) as (o & Ha & _ & Oi & Op & Of). set (w1 := so_acquire id w) in *.
  assert (Lk : tcp_lookup_established AF_INET saddr daddr None None sport dport w1 = Some id) by (by apply find_sock_acquire).
  apply find_sock_some in R3 as (y & Hy & Ey & Gy). destruct (find_entry_some _ _ _ He) as [Hin Hid].
  assert (y = e) as -> by (apply (ids_unique w); [done|done|done|congruence]).
  assert (Nx : w_next_id w1 = w_next_id w) by (destruct (acquire_same id w) as (_ & _ & _ & N & _); exact N).
  clearbody w1. pose proof (tcp_of_find id w1 (set_c_so o e) t Ha Ht) as Hof. set (s1 := focus (set_c_so o e) t w1) in *.
  assert (Cr1 : can_receive got k s1) by (by apply (can_receive_same _ _ (focus e t w))).
  destruct (receive_step got k i c th b s1 Cr1 Hi D) as (k' & Cr2 & K).
  unfold tcp_input_state in *. rewrite Hof in *. pose proof (ri_state _ _ _ _ _ _ _ (cr_inv _ _ _ Cr1)) as St.
  unfold tcp_input_conn in *. rewrite St in *. destruct (tcp_otherwise th b s1) as [s2 rc]. cbn [fst] in *.
  exists k'. destruct (release_fields s2) as (F1 & F2 & F3 & F4 & F5 & F6 & F7). set (s3 := socket_release s2) in *. clearbody s3.
  rewrite (ck_so _ _ K) in F5, F6, F7. cbn [so s1 focus c_so set_c_so] in F5, F6, F7.
  assert (Si : self s3 = id) by (unfold self; rewrite F5, Oi; exact Hid).
  assert (Cr3 : can_receive ({[i]} ∪ got) k' s3) by (by apply (can_receive_same _ _ s2)).
  assert (G : (sk_addr_family (sk s3) =? AF_INET) && tcp_sock_match_established (sk s3) AF_INET saddr daddr None None sport dport = true).
  { rewrite F1, <- Gy. apply match_key.
    - apply (ck_key _ _ K). by rewrite (cr_family _ _ _ Cr1).
    - transitivity TCP_ESTABLISHED; [exact (ri_state _ _ _ _ _ _ _ (cr_inv _ _ _ Cr2))|]. symmetry. exact St. }
  assert (Hput : find_entry id (put s3 w1) = Some (entry_of s3 (c_ops e))).
  { unfold put. rewrite Si. apply (find_upd id (fun x => entry_of s3 (c_ops x)) w1 (set_c_so o e)); [|exact Ha]. intros z _. exact Si. }
  constructor.
  - exact Ok.
  - change (w_next_id w1 <= 2147479552). lia.
  - unfold tcp_lookup_established, put. rewrite Si. apply (find_sock_upd _ id (fun x => entry_of s3 (c_ops x)) w1 Lk); intros; [exact Si|exact G].
  - exists (entry_of s3 (c_ops e)), (mk_tp (tb s3) (tm s3) (cc s3) (sa s3) (ofo s3) (ptsk s3)). split; [exact Hput|].
    split; [done|]. split; [done|]. split; [cbn; congruence|]. split; [cbn; congruence|]. by apply (can_receive_same _ _ s3).
Qed.

(** A frame with segment [i] of the stream. *)
Lemma rx_step f c got k i w :
  receiving w got k -> cs !! i = Some c -> (length f <= 1600)%nat -> data_frame f c saddr daddr sport dport (start cs s0 i) una ->
  exists k', receiving (netdev_rx_loop f w) ({[i]} ∪ got) k'.
Proof.
  intros R Hi Lf Hf. pose proof (df_len _ _ _ _ _ _ _ _ Hf) as Le.
  destruct (rx_ipv4 f w ltac:(lia) (df_type _ _ _ _ _ _ _ _ Hf)) as (b0 & w1 & E & Lm & F & S1 & S2 & O1).
  assert (Pos : c <> [] /\ 0 <= start cs s0 i /\ start cs s0 i + Z.of_nat (length c) < 4294967296).
  { pose proof (start_S cs s0 i c Hi). pose proof (lookup_lt_Some _ _ _ Hi). pose proof (start_le cs s0 (S i) (length cs) ltac:(lia)).
    destruct Hs as [N1 N2 N3]. rewrite Forall_lookup in N1. split; [by apply (N1 i)|]. unfold start in *. lia. }
  destruct Pos as (P1 & P2 & P3).
  destruct (rx_data f c (skb_buf b0) saddr daddr sport dport (start cs s0 i) una Hf Lm ltac:(lia) P1 P2 P3 F b0 w1 eq_refl) as (th & b & D & Eip).
  assert (R1 : receiving w1 got k).
  { destruct R as [R1 R2 R3 (e & t & He & R5)]. constructor.
    - by apply O1.
    - lia.
    - unfold tcp_lookup_established, find_sock in *. by rewrite S1.
    - exists e, t. unfold find_entry in *. rewrite S1. split; [exact He|]. destruct R5 as (?&?&?&?&C).
      repeat (split; [done|]). by apply (can_receive_same _ _ (focus e t w)). }
  assert (Lk : inet_lookup saddr daddr sport dport w1 = Some id) by (unfold inet_lookup, socket_lookup; by rewrite (rv_lookup _ _ _ R1)).
  rewrite Lk in Eip. destruct (frame_ok f w (rv_ok _ _ _ R)) as [O3 _]. rewrite E, Eip in *. by apply (input_step got k i c).
Qed.


(** Frames in any order, any of them any number of times. *)
Lemma rx_all fs : Forall2 (fun f c => length f <= 1600)%nat fs cs ->
  (forall i f c, fs !! i = Some f -> cs !! i = Some c -> data_frame f c saddr daddr sport dport (start cs s0 i) una) ->
  forall arr got k w, Forall (fun i => (i < length fs)%nat) arr -> receiving w got k ->
  exists k', receiving (foldl (fun w i => netdev_rx_loop (fs !!! i) w) w arr) (list_to_set arr ∪ got) k'.
Proof.
  intros Hfs Hd arr. induction arr as [|i arr IH]; intros got k w Ha R.
  { exists k. simpl. by replace (∅ ∪ got) with got by set_solver. }
  apply Forall_cons in Ha as [Hi Ha]. destruct (lookup_lt_is_Some_2 fs i Hi) as [f Ef].
  destruct (Forall2_lookup_l _ _ _ _ _ Hfs Ef) as (c & Ec & Lf). simpl.
  rewrite (list_lookup_total_correct _ _ _ Ef). destruct (rx_step f c got k i w R Ec Lf (Hd i f c Ef Ec)) as [k1 R1].
  destruct (IH ({[i]} ∪ got) k1 _ Ha R1) as [k2 R2]. exists k2.
  replace ({[i]} ∪ list_to_set arr ∪ got) with (list_to_set arr ∪ ({[i]} ∪ got) : gset nat) by set_solver. done.
Qed.

(** ** Reading *)

(** [tcp_receive] for no more than what is waiting. *)
Lemma receive_waiting n (s : st net) :
  0 < n < 2147483648 -> queue_ok (receive_queue s) -> bufs_ok s -> is_u32 (real_rcv_wnd (tb s)) -> n <= Z.of_nat (length (TcpReasm.waiting s)) ->
  exists s', tcp_receive n s = Received s' (take (Z.to_nat n) (TcpReasm.waiting s)) n.
Proof.
  intros Hn Hq [Hb _] Hr Hw. unfold tcp_receive, receive_turn. simpl length. destruct (Z.ltb_spec (Z.of_nat 0) n); [|lia].
  rewrite Z.sub_0_r. unfold tcp_data_dequeue.
  destruct (dequeue_loop_spec n ltac:(lia) (length (rq s)) [] s ltac:(by split) ltac:(done) ltac:(simpl; lia) Hr) as [E _].
  change (skq (receive_queue s)) with (rq s). destruct (dequeue_loop (length (rq s)) [] n s) as [out s']. cbn [fst] in E. rewrite Nat.sub_0_r, Nat.min_l in E by lia.
  simpl in E. subst out. set (out := take (Z.to_nat n) (TcpReasm.waiting s)).
  assert (L : Z.of_nat (length out) = n) by (unfold out; rewrite length_take; lia). clearbody out.
  destruct (_ && _); cbn [app]; rewrite L, Z.eqb_refl, orb_true_r; unfold receive_out; rewrite L; destruct (negb _); by eexists.
Qed.

Lemma read_received got k w n :
  receiving w got k -> 0 < n < 2147483648 -> n <= Z.of_nat (length (concat (take k cs))) ->
  (run_syscall pid (Read fd n) w).2 = Returned n (take (Z.to_nat n) (concat (take k cs))) [].
Proof.
  intros [R1 R2 R3 (e & t & He & Ht & Ho & Hp & Hfd & Cr)] Hn Hk. destruct (find_entry_some _ _ _ He) as [Hin Hid].
  cbn [run_syscall]. unfold _read, call, inet_read.
  assert (G : get_socket pid fd w = Some id) by (rewrite <- Hid, <- Hp, <- Hfd; by apply get_socket_in).
  rewrite G. cbv zeta. destruct (find_acquire id w e He) as (o & Ha & _ & Oi & _). set (w1 := so_acquire id w) in *. clearbody w1.
  unfold with_entry. rewrite Ha. cbn [c_ops set_c_so]. rewrite Ho. cbn [net_ops_of].
  assert (Eid : e_id (set_c_so o e) = id) by (unfold e_id; cbn [c_so set_c_so]; rewrite Oi; exact Hid). rewrite Eid.
  unfold with_tcp. rewrite (tcp_of_find id w1 (set_c_so o e) t Ha Ht). set (s1 := focus (set_c_so o e) t w1).
  assert (Cr1 : can_receive got k s1) by (by apply (can_receive_same _ _ (focus e t w))). clearbody s1. destruct Cr1 as [_ C2 _ _ C5 C6].
  destruct (ri_rq _ _ _ _ _ _ _ C2) as (ds & Er & Fd). simpl in Er.
  assert (Ew : TcpReasm.waiting s1 = concat (take k cs)).
  { unfold TcpReasm.waiting. rewrite Er. apply (carries_payloads cs s0); [exact Fd|]. by apply (inv_k _ _ _ _ _ _ _ C2). }
  unfold tcp_read. rewrite (ri_state _ _ _ _ _ _ _ C2). assert (Es : s32 n = n) by ulia. rewrite Es.
  destruct (receive_waiting n s1 Hn (ri_rq_ok _ _ _ _ _ _ _ C2) C6 C5 ltac:(by rewrite Ew)) as [s2 ->]. by rewrite Ew.
Qed.

End Connection.

(** ** Sending *)

(** [write] when the window has room for all of it. *)
Lemma write_frames pid fd buf w id e t saddr daddr sport dport ack i rt dmac :
  get_socket pid fd w = Some id -> find_entry id w = Some e -> c_tcp e = Some t -> c_ops e = inet_stream_ops ->
  let s := focus e t w in
  state s = TCP_ESTABLISHED -> sk_err (sk s) = 0 -> flow s saddr daddr sport dport ack i rt dmac -> snd_inv s -> bytes_ok buf ->
  room s (Z.of_nat (length buf)) -> inflight (cc s) + Z.of_nat (length buf) <= Z.min (cwnd (cc s)) (snd_wnd (tb s)) ->
  0 < smss (cc s) < 65000 ->
  exists fs, n_wire (w_net (run_syscall pid (Write fd buf) w).1) = n_wire (w_net w) ++ fs /\
    (run_syscall pid (Write fd buf) w).2 = Returned (Z.of_nat (length buf)) [] [] /\
    frames_of saddr daddr sport dport ack fs (cut (Z.to_nat (smss (cc s))) buf) (snd_nxt (tb s)).
Proof.
  intros Hg He Ht Ho s St Er Fl I Hb Hr Hw Hm. cbn [run_syscall]. unfold _write, call, inet_write. rewrite Hg. cbv zeta.
  destruct (find_acquire id w e He) as (o & Ha & _ & Oi & _). pose proof (net_acquire id w) as Hnet.
  set (w1 := so_acquire id w) in *. clearbody w1. unfold with_entry. rewrite Ha. cbn [c_ops set_c_so]. rewrite Ho. cbn [net_ops_of].
  assert (Eid : e_id (set_c_so o e) = id) by (unfold e_id; cbn [c_so set_c_so]; rewrite Oi; by apply find_entry_some in He as [_ <-]).
  rewrite Eid. unfold with_tcp. rewrite (tcp_of_find id w1 (set_c_so o e) t Ha Ht). set (s1 := focus (set_c_so o e) t w1).
  assert (El : e_lower (en s1) = e_lower (en s)) by exact Hnet.
  assert (Same : sk s1 = sk s /\ tb s1 = tb s /\ cc s1 = cc s) by done. destruct Same as (E1 & E2 & E3). clearbody s1.
  assert (Fl1 : flow s1 saddr daddr sport dport ack i rt dmac) by (apply (flow_kept s); rewrite ?E1, ?E2, ?El; done).
  assert (I1 : snd_inv s1) by (apply (snd_same_inv s); [unfold snd_same, state; by rewrite E1, E2, E3|done]).
  unfold tcp_write, state in *. rewrite E1, Er, St. change (negb (0 =? 0)) with false. cbv iota. unfold tcp_send.
  destruct (send_loop_frames saddr daddr sport dport ack i rt dmac (smss (cc s1)) (Z.of_nat (length buf)) ltac:(by rewrite E3)
    (length buf) buf s1 Fl1 I1 Hb) as (s' & fs & -> & W & D).
  - unfold room, wq in *. by rewrite E1, E2.
  - by rewrite E2, E3.
  - done.
  - exists fs. rewrite E2, E3 in D. rewrite El in W. split; [|split; [done|exact D]].
    cbn [after_tcp finish]. unfold return_rc. cbn [fst]. rewrite net_release. exact W.
Qed.

End TcpDeliver.
