(* ===== verification/Passive.v ===== *)
(** The passive open in detail: what [tcp_listen] of [src/src/tcp_input.c] leaves in
    the table when a SYN arrives for a listening IPv4 socket. *)
From S2P Require Import Prelude Utils SkBuff Timer TcpTypes TcpBase TcpOutput TcpSender TcpData TcpInput TcpApi TcpOwner Ipv6 Net Neigh IpOut World Udp SocketApi Addrconf IpIn Stack WorldFacts WorldCalls.
Import Utils SkBuff Timer TcpTypes TcpBase TcpOutput TcpSender TcpData TcpInput TcpApi TcpOwner Ipv6 Net Neigh IpOut World Udp SocketApi Addrconf IpIn Stack WorldFacts WorldCalls.

Module Passive.

(** ** The connection block *)

Implicit Type s : st net.

Lemma parse_opts_frame th s :
  wq s = [] ->
  (exists q, sk (tcp_parse_opts th s) = set_sk_write_queue q (sk s) /\ skq q = []) /\
  tb (tcp_parse_opts th s) = tb s /\ cc (tcp_parse_opts th s) = cc s /\ so (tcp_parse_opts th s) = so s.
Proof.
  intros Hq. unfold tcp_parse_opts. generalize (parse_loop parse_fuel (th_data th) (opt_start (u8 (tcp_hlen th - 20)) (snd_scale (sa s)))).
  intros p. cbv zeta. set (s1 := if (_ <? _)%nat then _ else s).
  assert (E : sk s1 = sk s /\ tb s1 = tb s /\ cc s1 = cc s /\ so s1 = so s) by (unfold s1; by destruct (_ <? _)%nat).
  clearbody s1. destruct E as (E1 & E2 & E3 & E4).
  assert (Same : exists q, sk s = set_sk_write_queue q (sk s) /\ skq q = []).
  { exists (sk_write_queue (sk s)). split; [by destruct (sk s)|done]. }
  destruct (_ && _); [|simpl; by rewrite E1].
  unfold tcp_sack_mark_write_queue. cbv zeta.
  assert (Q : exists q, sk (set_write_queue (set_skq (mark_block (take (Z.to_nat (po_nblocks p)) (po_blocks p)) <$> skq (write_queue s1)) (write_queue s1)) s1) = set_sk_write_queue q (sk s) /\ skq q = []).
  { simpl. rewrite E1. eexists. split; [done|]. simpl. unfold write_queue. rewrite E1. unfold wq in Hq. by rewrite Hq. }
  destruct (_ <? _); exact (conj Q (conj E2 (conj E3 E4))).
Qed.

Record child_tcb (th : tcphdr) (t : tcb) : Prop := {
  ct_irs : irs t = th_seq th;
  ct_rcv_nxt : rcv_nxt t = u32 (th_seq th + 1);
  ct_una : snd_una t = iss t;
  ct_wnd : snd_wnd t = th_win th
}.

Lemma fork_tcb_spec th s :
  wq s = [] ->
  (exists q, sk (fork_tcb th s) = set_sk_write_queue q (set_sk_state TCP_SYN_RECEIVED (sk s)) /\ skq q = []) /\
  child_tcb th (tb (fork_tcb th s)) /\ snd_nxt (tb (fork_tcb th s)) = iss (tb (fork_tcb th s)) /\
  cc (fork_tcb th s) = cc s /\ so (fork_tcb th s) = so s.
Proof.
  intros Hq. unfold fork_tcb. cbv zeta.
  destruct (parse_opts_frame th (set_state TCP_SYN_RECEIVED s) Hq) as ((q & E1 & Eq) & E2 & E3 & E4).
  set (s1 := tcp_parse_opts th _) in *. clearbody s1.
  set (s2 := if _ =? 0 then s1 else _).
  assert (E : sk s2 = sk s1 /\ cc s2 = cc s1 /\ so s2 = so s1) by (unfold s2; by destruct (_ =? 0)).
  clearbody s2. destruct E as (F1 & F2 & F3). unfold generate_iss. cbn beta iota zeta.
  split; [exists q; split; [|done]; simpl; by rewrite F1, E1|]. split; [by constructor|]. split; [done|].
  simpl. by rewrite F2, E3, F3, E4.
Qed.

(** An IPv4 transmission does not touch the sock. *)
Lemma build_segment_sk b seq s : sk (build_segment b seq s).2 = sk s.
Proof.
  unfold build_segment. cbv zeta. destruct (5 <? _); [|done]. destruct (tcp_write_options _ _ _) as [[a buf] n].
  by destruct (_ <? _)%nat.
Qed.
Lemma transmit_sk b seq s : sk_addr_family (sk s) = AF_INET -> sk (tcp_transmit_skb b seq s).1.2 = sk s.
Proof.
  intros Hf. unfold tcp_transmit_skb. pose proof (build_segment_sk b seq s) as E. destruct (build_segment b seq s) as [b1 s1].
  cbn [snd] in E. rewrite E, Hf. change (AF_INET =? AF_INET6) with false. cbv iota zeta.
  destruct (ip_output _ _ _) as [[l b2] rc]. exact E.
Qed.

Lemma queue_now_spec b s :
  sk_addr_family (sk s) = AF_INET -> wq s = [] ->
  exists b' q, sk (queue_transmit_now b s).1 = set_sk_write_queue q (sk s) /\ skq q = [b'] /\ skb_seq b' = snd_nxt (tb s) /\
    tb (queue_transmit_now b s).1 = set_snd_nxt (u32 (u32 (snd_nxt (tb s) + skb_dlen b) + b2z (fin_of s b))) (tb s) /\
    ptsk (queue_transmit_now b s).1 = ptsk s /\ so (queue_transmit_now b s).1 = so s.
Proof.
  intros Hf Hq. rewrite queue_transmit_unfold, Hq. unfold transmit_queued. cbn [length].
  destruct (queued_state_frame b s) as (F1 & F2 & _ & _ & _ & F6 & F7). set (s1 := queued_state b s) in *. clearbody s1.
  pose proof (transmit_frame (queued_buf b s) (snd_nxt (tb s)) s1) as [M F].
  assert (Hf1 : sk_addr_family (sk s1) = AF_INET) by (by rewrite F1).
  pose proof (transmit_sk (queued_buf b s) (snd_nxt (tb s)) s1 Hf1) as K.
  destruct (tcp_transmit_skb _ _ s1) as [[b2 s2] rc]. cbn [fst snd] in *.
  exists b2, (set_skq [b2] (skb_queue_tail (sk_write_queue (sk s)) (queued_buf b s))).
  unfold wq in Hq. split; [|split; [done|split; [by rewrite (TcpTypes.sm_seq _ _ M)|]]].
  - simpl. rewrite K, F1. simpl. by rewrite Hq.
  - simpl. rewrite (tx_tb _ _ F), (tx_ptsk _ _ F), (tx_so _ _ F). by rewrite F2, F6, F7.
Qed.

(** The SYN-ACK goes out at once: it has no data and nothing is in flight. *)
Lemma synack_done s :
  state s = TCP_SYN_RECEIVED -> sk_addr_family (sk s) = AF_INET -> wq s = [] -> inflight (cc s) = 0 ->
  0 <= cwnd (cc s) -> 0 <= snd_wnd (tb s) ->
  exists s1 rc b q, tcp_send_synack s = Done s1 rc /\ sk s1 = set_sk_write_queue q (sk s) /\ skq q = [b] /\
    skb_seq b = snd_nxt (tb s) /\ tb s1 = set_snd_nxt (u32 (snd_nxt (tb s) + 1)) (tb s) /\
    ptsk s1 = ptsk s /\ so s1 = so s.
Proof.
  intros Hst Hf Hq Hi Hc Hw. unfold tcp_send_synack. rewrite Hst, Hf.
  change (state_is TCP_SYN_RECEIVED TCP_SYN_SENT || state_is TCP_SYN_RECEIVED TCP_SYN_RECEIVED) with true. cbv iota.
  set (a := tcp_alloc_skb AF_INET 4 0 s). destruct a as [b s1] eqn:Ea. unfold a in Ea. clear a.
  assert (A : sk s1 = sk s /\ tb s1 = tb s /\ cc s1 = cc s /\ ptsk s1 = ptsk s /\ so s1 = so s /\ skb_dlen b = 0 /\ skb_buf b = replicate 58 0)
    by (by injection Ea as <- <-).
  destruct A as (A1 & A2 & A3 & A4 & A5 & A6 & A7). clear Ea.
  set (b1 := with_th _ _ b). assert (D : skb_dlen b1 = 0) by done.
  assert (Fin : fin_of s1 b1 = false) by (unfold fin_of; rewrite A1, Hf; unfold b1, with_th; cbn [skb_buf set_skb_buf]; by rewrite A7).
  clearbody b1. unfold tcp_queue_transmit_skb.
  assert (W : snd_wnd_open (skb_dlen b1) s1 = true).
  { unfold snd_wnd_open. rewrite D, A2, A3, Hi. change (u32 (0 + 0)) with 0. destruct (Z.ltb_spec (min (cwnd (cc s)) (snd_wnd (tb s))) 0) as [E|]; [|done]. unfold min in E. destruct (cwnd (cc s) >? snd_wnd (tb s)); lia. }
  rewrite W. assert (Hq1 : wq s1 = []) by (unfold wq; by rewrite A1). assert (Hf1 : sk_addr_family (sk s1) = AF_INET) by (by rewrite A1).
  destruct (queue_now_spec b1 s1 Hf1 Hq1) as (b' & q & Q1 & Q2 & Q3 & Q4 & Q5 & Q6).
  destruct (queue_transmit_now b1 s1) as [s2 rc]. cbn [fst] in *. exists (incr_snd_nxt s2), rc, b', q.
  split; [done|]. split; [by rewrite <- A1|]. split; [done|]. split; [by rewrite Q3, A2|].
  split; [|split; [by rewrite <- A4|by rewrite <- A5]].
  change (tb (incr_snd_nxt s2)) with (set_snd_nxt (u32 (snd_nxt (tb s2) + 1)) (tb s2)). rewrite Q4, D, Fin, A2.
  change (set_snd_nxt (u32 (u32 (u32 (snd_nxt (tb s) + 0) + 0) + 1)) (tb s) = set_snd_nxt (u32 (snd_nxt (tb s) + 1)) (tb s)).
  by rewrite !Z.add_0_r, u32_idemp, u32_add_l.
Qed.

(** ** The table *)

Implicit Type w : world.

Lemma fmap_fix {A} (f : A -> A) (l : list A) : (forall x, x ∈ l -> f x = x) -> f <$> l = l.
Proof.
  intros H. induction l as [|x l IH]; [done|]. rewrite fmap_cons, H by left. f_equal. apply IH. intros y Hy. apply H. by right.
Qed.

Lemma find_last (l : list entry) e id :
  (forall x, x ∈ l -> e_id x <> id) -> e_id e = id -> find (fun x => e_id x =? id) (l ++ [e]) = Some e.
Proof.
  intros Hl He. induction l as [|x l IH]; simpl; [by rewrite He, Z.eqb_refl|].
  destruct (Z.eqb_spec (e_id x) id) as [E|]; [by destruct (Hl x); [left|]|]. apply IH. intros y Hy. apply Hl. by right.
Qed.

Lemma on_tcp_last g w l e t :
  w_socks w = l ++ [e] -> (forall x, x ∈ l -> e_id x <> e_id e) -> c_tcp e = Some t -> so_id (so (g (focus e t w))) = e_id e ->
  w_socks (on_tcp (e_id e) g w) = l ++ [entry_of (g (focus e t w)) (c_ops e)].
Proof.
  intros Ew Hl Ht Hg. unfold on_tcp, tcp_of, find_entry. rewrite Ew, (find_last l e (e_id e) Hl eq_refl). cbn [mbind option_bind].
  rewrite Ht. cbn [mbind option_bind]. set (s := g (focus e t w)) in *. clearbody s.
  change (((fun x => if e_id x =? self s then entry_of s (c_ops x) else x) <$> w_socks w) = l ++ [entry_of s (c_ops e)]).
  unfold self. rewrite Hg, Ew, fmap_app. cbn [fmap list_fmap]. rewrite Z.eqb_refl. f_equal.
  apply fmap_fix. intros x Hx. by destruct (Z.eqb_spec (e_id x) (e_id e)) as [E|]; [destruct (Hl x Hx)|].
Qed.

Lemma on_tcp_env g w e t :
  find_entry (e_id e) w = Some e -> c_tcp e = Some t -> w_env (on_tcp (e_id e) g w) = en (g (focus e t w)).
Proof. intros He Ht. unfold on_tcp, tcp_of. rewrite He. cbn [mbind option_bind]. by rewrite Ht. Qed.

Lemma on_tcp_next id g w : w_next_id (on_tcp id g w) = w_next_id w.
Proof. unfold on_tcp. by destruct (tcp_of id w). Qed.

(** Taking a free lock and releasing it, with sockets added in between. *)
Lemma release_after id w w2 l r :
  world_ok w -> find_entry id w = Some r -> so_locked (c_so r) = false -> 0 < so_refcnt (c_so r) ->
  w_socks w2 = w_socks (so_acquire id w) ++ l -> (forall x, x ∈ l -> e_id x <> id) ->
  w_socks (so_release id w2) = w_socks w ++ l /\ w_env (so_release id w2) = w_env w2.
Proof.
  intros O Hr Hl Hc Ew Hid. destruct (find_entry_some _ _ _ Hr) as [Hin Er].
  set (g := fun o => set_so_locked true (set_so_refcnt (so_refcnt o + 1) o)).
  set (h := fun o => set_so_freed (so_freed o || (so_refcnt o - 1 =? 0)) (set_so_locked false (set_so_refcnt (so_refcnt o - 1) o))).
  assert (Ea : w_socks (so_acquire id w) = (fun e => if e_id e =? id then set_c_so (g (c_so e)) e else e) <$> w_socks w)
    by (unfold so_acquire; by rewrite Hr, Hl).
  assert (Fr : find_entry id w2 = Some (set_c_so (g (c_so r)) r)).
  { unfold find_entry in *. rewrite Ew, Ea. clear -Hr. induction (w_socks w) as [|x xs IH]; [done|]. simpl in *.
    destruct (Z.eqb_spec (e_id x) id) as [E|E].
    - injection Hr as ->. by rewrite (proj2 (Z.eqb_eq (e_id (set_c_so (g (c_so r)) r)) id) E).
    - rewrite (proj2 (Z.eqb_neq (e_id x) id) E). by apply IH. }
  unfold so_release. rewrite Fr. cbn [c_so set_c_so so_locked]. change (so_locked (g (c_so r))) with true. cbv iota.
  split; [|done]. change (w_socks (on_so id _ w2)) with ((fun e => if e_id e =? id then set_c_so (h (c_so e)) e else e) <$> w_socks w2).
  rewrite Ew, Ea, fmap_app. f_equal.
  - rewrite <- list_fmap_compose. apply fmap_fix. intros x Hx. unfold compose.
    destruct (Z.eqb_spec (e_id x) id) as [E|E]; [|by rewrite (proj2 (Z.eqb_neq (e_id x) id) E)].
    assert (x = r) as -> by (eapply (ids_unique w); [done|done|done|by rewrite E, Er]).
    rewrite (proj2 (Z.eqb_eq (e_id (set_c_so (g (c_so r)) r)) id) E).
    destruct r as [[i f p n st ty fl lk fr] k t o]. cbn in *. subst lk. unfold h, g. cbn. rewrite Z.add_simpl_r.
    destruct (Z.eqb_spec n 0); [lia|]. by rewrite orb_false_r.
  - apply fmap_fix. intros x Hx. by destruct (Z.eqb_spec (e_id x) id) as [E|]; [destruct (Hid x Hx)|].
Qed.

(** [_socket] for a TCP socket over IPv4. *)
Definition fresh (p : Z) w : entry :=
  entry_of (tcp_alloc_sock IPPROTO_TCP AF_INET (new_socket p SOCK_STREAM w) (w_env w)) inet_stream_ops.

Lemma socket4 p w :
  world_ok w ->
  (_socket p AF_INET SOCK_STREAM w).2 = w_fd w /\ w_socks (_socket p AF_INET SOCK_STREAM w).1 = w_socks w ++ [fresh p w] /\
  w_env (_socket p AF_INET SOCK_STREAM w).1 = w_env w.
Proof.
  intros O. set (e := fresh p w). change (_socket p AF_INET SOCK_STREAM w) with (so_release (e_id e) (so_acquire (e_id e) (opened e w)), w_fd w).
  split; [done|]. cbn [fst].
  assert (Oo : world_ok (opened e w)).
  { apply (ev_ok (fun _ => True) p w). apply (ev_amount _ _ w (w_amount w + 1)).
    - by refine (ev_add (fun _ => True) p w e w _ _ _ _ I (evolves_refl _ _ w)).
    - done. }
  assert (He : e ∈ w_socks (opened e w)) by (apply elem_of_app; right; by apply list_elem_of_singleton).
  pose proof (find_entry_in _ _ Oo He) as Fe.
  destruct (release_after (e_id e) (opened e w) (so_acquire (e_id e) (opened e w)) [] e Oo Fe) as [E1 E2]; [done|done|by rewrite app_nil_r| |].
  { by intros x Hx%not_elem_of_nil. }
  rewrite E1, E2. split; [apply app_nil_r|]. unfold so_acquire. by rewrite Fe.
Qed.

Lemma old_ids w : world_ok w -> forall x, x ∈ w_socks w -> e_id x <> w_next_id w.
Proof. intros O x Hx. pose proof (wo_range _ O x Hx). lia. Qed.

(** The child as [fork_socket] leaves it. *)
Record forked (p : Z) (th : tcphdr) (local saddr : list Z) (sport : Z) w (s : st net) : Prop := {
  fk_sk : exists q, skq q = [] /\ sk s = fork_addrs AF_INET local saddr sport th
    (set_sk_write_queue q (set_sk_state TCP_SYN_RECEIVED (sock_init_data IPPROTO_TCP AF_INET TCP_CLOSE)));
  fk_tcb : child_tcb th (tb s);
  fk_nxt : snd_nxt (tb s) = iss (tb s);
  fk_cc : cc s = tcp_alloc_cong;
  fk_so : so s = new_socket p SOCK_STREAM w
}.

Lemma forked_addrs p th local saddr sport w (x : st net) q :
  sk x = set_sk_write_queue q (set_sk_state TCP_SYN_RECEIVED (sock_init_data IPPROTO_TCP AF_INET TCP_CLOSE)) -> skq q = [] ->
  child_tcb th (tb x) -> snd_nxt (tb x) = iss (tb x) -> cc x = tcp_alloc_cong -> so x = new_socket p SOCK_STREAM w ->
  forked p th local saddr sport w (upd_sk (fork_addrs AF_INET local saddr sport th) x).
Proof. intros E Hq ? ? ? ?. constructor; try done. exists q. split; [done|]. by rewrite <- E. Qed.

Lemma fork_state p th local saddr sport w s :
  sk s = sock_init_data IPPROTO_TCP AF_INET TCP_CLOSE -> cc s = tcp_alloc_cong -> so s = new_socket p SOCK_STREAM w ->
  forked p th local saddr sport w (upd_sk (fork_addrs AF_INET local saddr sport th) (fork_tcb th s)).
Proof.
  intros S1 S2 S3. destruct (fork_tcb_spec th s) as ((q & K1 & Kq) & K2 & K3 & K4 & K5); [unfold wq; by rewrite S1|].
  rewrite S1 in K1. rewrite S2 in K4. rewrite S3 in K5. exact (forked_addrs p th local saddr sport w _ q K1 Kq K2 K3 K4 K5).
Qed.

Definition forked_state (p : Z) (th : tcphdr) (local saddr : list Z) (sport : Z) w : st net :=
  upd_sk (fork_addrs AF_INET local saddr sport th)
    (fork_tcb th (tcp_alloc_sock IPPROTO_TCP AF_INET (new_socket p SOCK_STREAM w) (w_env w))).
Lemma forked_state_ok p th local saddr sport w : forked p th local saddr sport w (forked_state p th local saddr sport w).
Proof. by apply fork_state. Qed.

Lemma fork_child p th local saddr sport w :
  world_ok w -> w_next_id w < 2147479552 ->
  let s := forked_state p th local saddr sport w in
  exists w2, fork_socket p th AF_INET local sport saddr w = (Some (w_next_id w), w2) /\
    w_socks w2 = w_socks w ++ [entry_of s inet_stream_ops] /\ w_env w2 = en s /\ w_next_id w2 = w_next_id w + 1.
Proof.
  intros O Hn s. unfold fork_socket. destruct (socket4 p w O) as (E2 & E1 & E0).
  assert (O1 : world_ok (_socket p AF_INET SOCK_STREAM w).1)
    by apply (ev_ok _ _ _ _ (ev_socket (fun _ => True) p w AF_INET SOCK_STREAM w I (evolves_refl _ _ w) O)).
  pose proof (socket_next p AF_INET SOCK_STREAM w) as N1.
  destruct (_socket p AF_INET SOCK_STREAM w) as [w1 fd]. cbn [fst snd] in *. subst fd. set (e := fresh p w) in *.
  assert (He : e ∈ w_socks w1) by (rewrite E1; apply elem_of_app; right; by apply list_elem_of_singleton).
  assert (G : get_socket p (w_fd w) w1 = Some (e_id e)) by (apply (get_socket_in w1 e O1); [lia|done]).
  rewrite G. clear G. change (w_next_id w) with (e_id e).
  set (s0 := tcp_alloc_sock IPPROTO_TCP AF_INET (new_socket p SOCK_STREAM w) (w_env w)).
  set (t := mk_tp (tb s0) (tm s0) (cc s0) (sa s0) (ofo s0) (ptsk s0)). assert (Et : c_tcp e = Some t) by done.
  assert (Ef : focus e t w1 = s0) by (unfold focus; by rewrite E0).
  eexists. split; [done|]. rewrite (on_tcp_env _ w1 e t (find_entry_in _ _ O1 He) Et), Ef, on_tcp_next. split; [|by split].
  rewrite (on_tcp_last _ w1 (w_socks w) e t E1 (old_ids w O) Et); rewrite Ef; [done|].
  exact (f_equal so_id (fk_so _ _ _ _ _ _ _ (forked_state_ok p th local saddr sport w))).
Qed.

(** What a SYN makes of a listener. *)
Record child (id : Z) (r : entry) (th : tcphdr) (saddr : list Z) w (c : entry) : Prop := {
  ch_id : e_id c = w_next_id w;
  ch_fd : so_fd (c_so c) = w_fd w;
  ch_pid : so_pid (c_so c) = so_pid (c_so r);
  ch_state : sk_state (c_sk c) = TCP_SYN_RECEIVED;
  ch_protocol : sk_protocol (c_sk c) = IPPROTO_TCP;
  ch_family : sk_addr_family (c_sk c) = AF_INET;
  ch_sport : sk_sport (c_sk c) = sk_sport (c_sk r);
  ch_dport : sk_dport (c_sk c) = th_sport th;
  ch_saddr : v4_of (sk_saddr (c_sk c)) = u32 (v4_of (sk_saddr (c_sk r)));
  ch_daddr : v4_of (sk_daddr (c_sk c)) = u32 (ld32 saddr 0);
  ch_tcp : exists t b, c_tcp c = Some t /\ p_ptsk t = Some id /\ child_tcb th (p_tb t) /\
    snd_nxt (p_tb t) = u32 (iss (p_tb t) + 2) /\ skq (sk_write_queue (c_sk c)) = [b] /\ skb_seq b = iss (p_tb t)
}.

Lemma v4_set v a : length a = 16%nat -> v4_of (set_v4 v a) = u32 v.
Proof. intros E. unfold v4_of, set_v4. apply ld32_st32_eq. lia. Qed.

Definition synack (id : Z) s : st net :=
  match tcp_send_synack (set_ptsk (Some id) s) with Done s _ => incr_snd_nxt s | Asleep s _ _ => s | Diverges => s end.

Lemma synack_child id r th saddr w s :
  0 <= th_win th -> forked (so_pid (c_so r)) th (sk_saddr (c_sk r)) saddr (sk_sport (c_sk r)) w s ->
  child id r th saddr w (entry_of (synack id s) inet_stream_ops).
Proof.
  intros Hw [(q & Hq & K) [C1 C2 C3 C4] N Hc Ho]. set (s1 := set_ptsk (Some id) s).
  assert (D : exists s2 rc b q, tcp_send_synack s1 = Done s2 rc /\ sk s2 = set_sk_write_queue q (sk s) /\ skq q = [b] /\
    skb_seq b = snd_nxt (tb s) /\ tb s2 = set_snd_nxt (u32 (snd_nxt (tb s) + 1)) (tb s) /\ ptsk s2 = Some id /\ so s2 = so s).
  { apply (synack_done s1); unfold s1, state, wq; cbn [sk cc tb set_ptsk]; rewrite ?K, ?Hc, ?C4; done. }
  unfold synack. fold s1. destruct D as (s2 & rc & b & q2 & -> & D1 & D2 & D3 & D4 & D5 & D6).
  rewrite K in D1. rewrite Ho in D6. rewrite N in D3, D4.
  assert (I : sk (incr_snd_nxt s2) = sk s2 /\ so (incr_snd_nxt s2) = so s2 /\ ptsk (incr_snd_nxt s2) = ptsk s2 /\
    tb (incr_snd_nxt s2) = set_snd_nxt (u32 (snd_nxt (tb s2) + 1)) (tb s2)) by done.
  set (s3 := incr_snd_nxt s2) in *. clearbody s3. destruct I as (I1 & I2 & I3 & I4). rewrite D1 in I1. rewrite D6 in I2.
  rewrite D4 in I4. rewrite D5 in I3.
  constructor; unfold entry_of, e_id; cbn [c_so c_sk c_tcp]; rewrite ?I1, ?I2; try done; [by apply v4_set|by apply v4_set|].
  do 2 eexists. split; [done|]. cbn [p_ptsk p_tb]. split; [done|].
  split; [constructor; rewrite I4; done|]. split; [|split; [exact D2|by rewrite D3, I4]].
  rewrite I4. change (u32 (u32 (iss (tb s) + 1) + 1) = u32 (iss (tb s) + 2)). rewrite u32_add_l. f_equal. lia.
Qed.

Lemma id_entry_of s ops : e_id (entry_of s ops) = so_id (so s).
Proof. done. Qed.

Lemma listen_unfold id th b saddr w r :
  th_syn th = true -> find_entry id w = Some r ->
  tcp_listen id th b saddr AF_INET w =
  w_free_skb b (let '(c, w2) := fork_socket (so_pid (c_so r)) th AF_INET (sk_saddr (c_sk r)) (sk_sport (c_sk r)) saddr w in
    match c with None => w2 | Some c => on_tcp c (synack id) w2 end).
Proof. intros Hs Hr. unfold tcp_listen. rewrite Hs, Hr. by destruct (fork_socket _ _ _ _ _ _ _) as [[c|] w2]. Qed.

(** What [tcp_listen] adds to the table, and what it does to everything else. *)
Lemma listen_child id th b saddr w r :
  world_ok w -> w_next_id w < 2147479552 -> find_entry id w = Some r -> th_syn th = true -> 0 <= th_win th ->
  let s := forked_state (so_pid (c_so r)) th (sk_saddr (c_sk r)) saddr (sk_sport (c_sk r)) w in
  w_socks (tcp_listen id th b saddr AF_INET w) = w_socks w ++ [entry_of (synack id s) inet_stream_ops] /\
  w_env (tcp_listen id th b saddr AF_INET w) = en (do_free_skb b (synack id s)) /\
  w_next_id (tcp_listen id th b saddr AF_INET w) = w_next_id w + 1.
Proof.
  intros O Hn Hr Hsyn Hwin s. rewrite (listen_unfold id th b saddr w r Hsyn Hr).
  destruct (fork_child (so_pid (c_so r)) th (sk_saddr (c_sk r)) saddr (sk_sport (c_sk r)) w O Hn) as (w2 & -> & E & Ee & En).
  pose proof (forked_state_ok (so_pid (c_so r)) th (sk_saddr (c_sk r)) saddr (sk_sport (c_sk r)) w) as F. fold s in E, Ee, F.
  clearbody s. set (e := entry_of s inet_stream_ops) in *. assert (Ei : e_id e = w_next_id w) by (unfold e_id; simpl; by rewrite (fk_so _ _ _ _ _ _ _ F)).
  set (t := mk_tp (tb s) (tm s) (cc s) (sa s) (ofo s) (ptsk s)).
  assert (Ef : focus e t w2 = s) by (unfold focus; rewrite Ee; by destruct s).
  assert (Fe : find_entry (e_id e) w2 = Some e) by (unfold find_entry; rewrite E; apply find_last; [rewrite Ei; by apply old_ids|done]).
  pose proof (ch_id _ _ _ _ _ _ (synack_child id r th saddr w s Hwin F)) as Ci. rewrite id_entry_of in Ci.
  cbv iota. rewrite <- Ei.
  assert (E4 : w_socks (on_tcp (e_id e) (synack id) w2) = w_socks w ++ [entry_of (synack id s) inet_stream_ops]).
  { rewrite (on_tcp_last (synack id) w2 (w_socks w) e t E); rewrite ?Ef; [done|rewrite Ei; by apply old_ids|done|]. rewrite Ei. exact Ci. }
  pose proof (on_tcp_env (synack id) w2 e t Fe eq_refl) as E5. rewrite Ef in E5.
  pose proof (on_tcp_next (e_id e) (synack id) w2) as E6. rewrite En, <- Ei in E6.
  generalize dependent (on_tcp (e_id e) (synack id) w2). clear. generalize (synack id s). intros s1 w1 E4 E5 E6.
  unfold w_free_skb, do_free_skb. destruct (free_skb b); [|done]. split; [done|]. split; [|done]. cbn [upd_w_env w_env set_w_env en upd_en]. by rewrite E5.
Qed.

(** The listener's lock is held meanwhile. *)
Lemma listen_input id th b saddr w r :
  world_ok w -> w_next_id w < 2147479552 -> find_entry id w = Some r -> listener (v4_of (sk_saddr (c_sk r))) (sk_sport (c_sk r)) (c_sk r) ->
  so_locked (c_so r) = false -> 0 < so_refcnt (c_so r) -> th_syn th = true -> 0 <= th_win th ->
  let s := forked_state (so_pid (c_so r)) th (sk_saddr (c_sk r)) saddr (sk_sport (c_sk r)) w in
  let w' := tcp_input_state id th b saddr (so_acquire id w) in
  w_socks w' = w_socks w ++ [entry_of (synack id s) inet_stream_ops] /\ w_env w' = en (do_free_skb b (synack id s)) /\
  w_next_id w' = w_next_id w + 1.
Proof.
  intros O Hn Hr (Hp & Hf & Hst & _) Hl Hc Hsyn Hwin s w'. destruct (find_entry_some _ _ _ Hr) as [Hin Eid].
  destruct (acquire_same id w) as (f & Ef & F & En & Efd). destruct (F r) as (S & E1 & E2 & _).
  assert (Oa : world_ok (so_acquire id w))
    by apply (ev_ok _ _ _ _ (ev_acquire (fun _ => True) 0 w id w I (evolves_refl _ _ w) O)).
  assert (Hfr : f r ∈ w_socks (so_acquire id w)) by (rewrite Ef; by apply list_elem_of_fmap_2).
  pose proof (find_entry_in _ _ Oa Hfr) as Hr'. rewrite (WorldFacts.sm_id _ _ S), Eid in Hr'.
  destruct (entry_ok_tcp r (wo_kind _ O r Hin) Hp) as [t Et].
  assert (Ew : w_env (so_acquire id w) = w_env w) by (unfold so_acquire; by rewrite Hr, Hl).
  destruct (listen_child id th b saddr (so_acquire id w) (f r) Oa ltac:(lia) Hr' Hsyn Hwin) as (Ec & Ee & Ex).
  assert (Es : forked_state (so_pid (c_so (f r))) th (sk_saddr (c_sk (f r))) saddr (sk_sport (c_sk (f r))) (so_acquire id w) = s).
  { unfold s, forked_state, new_socket. by rewrite E1, (WorldFacts.sm_pid _ _ S), En, Efd, Ew. }
  rewrite Es in Ec, Ee. clearbody s. unfold w', tcp_input_state, tcp_of. rewrite Hr'. cbn [mbind option_bind]. rewrite E2, Et. cbn [mbind option_bind].
  change (state (focus (f r) t (so_acquire id w))) with (sk_state (c_sk (f r))).
  change (sk_addr_family (sk (focus (f r) t (so_acquire id w)))) with (sk_addr_family (c_sk (f r))).
  rewrite E1, Hst, Hf. destruct (release_after id w _ [entry_of (synack id s) inet_stream_ops] r O Hr Hl Hc Ec) as [R1 R2].
  { assert (Hc2 : e_id (entry_of (synack id s) inet_stream_ops) = w_next_id w).
    { rewrite <- Es, <- En. eapply ch_id, (synack_child id (f r)); [done|apply forked_state_ok]. }
    intros x Hx%list_elem_of_singleton. subst x. rewrite Hc2. intros E. apply (old_ids w O r Hin). congruence. }
  split; [exact R1|]. split; [by rewrite R2|]. by rewrite release_next, Ex, En.
Qed.

(** The child a SYN makes. *)
Lemma listened_child id th b saddr w r :
  world_ok w -> w_next_id w < 2147479552 -> find_entry id w = Some r -> listener (v4_of (sk_saddr (c_sk r))) (sk_sport (c_sk r)) (c_sk r) ->
  so_locked (c_so r) = false -> 0 < so_refcnt (c_so r) -> th_syn th = true -> 0 <= th_win th ->
  exists c, w_socks (tcp_input_state id th b saddr (so_acquire id w)) = w_socks w ++ [c] /\ child id r th saddr w c.
Proof.
  intros O Hn Hr Hl Hk Hc Hsyn Hwin. eexists. split; [by apply (listen_input id th b saddr w r)|].
  apply synack_child; [done|apply forked_state_ok].
Qed.
End Passive.
