(* ===== verification/TcpControl.v ===== *)
(** Segments without data, SYN, SYN-ACK and ACK, from the function that sends them to
    the frame on the wire, and from an arriving frame to the header and buffer
    [tcp_input_state] gets. *)
From S2P Require Import Prelude Utils SkBuff Timer TcpTypes TcpBase TcpOutput TcpSender TcpData TcpInput TcpAck TcpReasm TcpApi TcpWire Ipv6 Net Neigh IpOut Frame TcpFrame World Udp SocketApi Addrconf IpIn Stack WorldFacts WorldCalls UdpWire TcpDeliver.
Import Utils SkBuff Timer TcpTypes TcpBase TcpOutput TcpSender TcpData TcpInput TcpAck TcpReasm TcpApi TcpWire Ipv6 Net Neigh IpOut Frame TcpFrame World Udp SocketApi Addrconf IpIn Stack WorldFacts WorldCalls UdpWire TcpDeliver.

Module TcpControl.

Implicit Type s : st net.

(** ** Sending *)

(** A buffer with nothing but a header and the options [opts]. *)
Record ctl_buf (b : sk_buff) (syn ackf : bool) (opts : list Z) : Prop := {
  cb_proto : skb_protocol b = IP_TCP;
  cb_dlen : skb_dlen b = 0;
  cb_len : skb_len b = 0;
  cb_short : (length opts <= 40)%nat;
  cb_hl : th_get_hl 34 (skb_buf b) * 4 = 20 + Z.of_nat (length opts);
  cb_data : skb_data b = 54 + Z.of_nat (length opts);
  cb_size : length (skb_buf b) = (54 + length opts)%nat;
  cb_bytes : bytes_ok (skb_buf b);
  cb_syn : th_flag 34 F_SYN (skb_buf b) = syn;
  cb_ack : th_flag 34 F_ACK (skb_buf b) = ackf;
  cb_rest : th_flag 34 F_FIN (skb_buf b) = false /\ th_flag 34 F_RST (skb_buf b) = false /\ th_flag 34 F_PSH (skb_buf b) = false;
  cb_opts : ld_bytes (skb_buf b) 54 (length opts) = opts
}.

(** The frame of such a segment. *)
Record ctl_frame (f : list Z) (saddr daddr sport dport seq ack win : Z) (syn ackf : bool) (opts : list Z) : Prop := {
  cf_ip : ip_frame f saddr daddr;
  cf_short : (length opts <= 40)%nat;
  cf_len : length f = (54 + length opts)%nat;
  cf_sport : bswap16 (ld16 f 34) = sport;
  cf_dport : bswap16 (ld16 f 36) = dport;
  cf_seq : bswap32 (ld32 f 38) = seq;
  cf_ack_seq : bswap32 (ld32 f 42) = ack;
  cf_hl : th_get_hl 34 f * 4 = 20 + Z.of_nat (length opts);
  cf_win : bswap16 (ld16 f 48) = win;
  cf_syn : th_flag 34 F_SYN f = syn;
  cf_ack : th_flag 34 F_ACK f = ackf;
  cf_rest : th_flag 34 F_FIN f = false /\ th_flag 34 F_RST f = false /\ th_flag 34 F_PSH f = false;
  cf_opts : ld_bytes f 54 (length opts) = opts
}.

(** A connection with no option to add to a segment. *)
Definition no_options s : Prop := wso_allowed (sa s) = 0 /\ has_sacks (sa s) = false.

Lemma set_sa_same s : set_sa (sa s) s = s.
Proof. by destruct s. Qed.

Lemma build_control b seq s syn ackf opts :
  sk_addr_family (sk s) = AF_INET -> ctl_buf b syn ackf opts -> no_options s ->
  build_segment b seq s = (set_skb_buf (fill_header seq s 34 (skb_buf b)) (skb_push (20 + Z.of_nat (length opts)) b), s).
Proof.
  intros Hf C [O1 O2]. pose proof (cb_hl _ _ _ _ C) as Hh. pose proof (cb_size _ _ _ _ C) as Hz. unfold build_segment. rewrite Hf.
  change (tcp_hdr_for_sk AF_INET) with 34%nat. destruct (Z.eqb_spec (th_get_hl 34 (skb_buf b)) 0); [lia|]. cbv zeta. rewrite Hh.
  destruct (5 <? _); [|done]. unfold tcp_write_options. rewrite O1, O2. cbn [Z.eqb].
  set (b1 := with_th AF_INET _ _). assert (L1 : length (skb_buf b1) = (54 + length opts)%nat).
  { change (length (fill_header seq s 34 (skb_buf b)) = (54 + length opts)%nat). unfold fill_header, th_set_rsvd. by autorewrite with mem. }
  rewrite Nat.sub_diag, L1. destruct (Nat.ltb_spec (54 + length opts) (34 + 20 + 0)); [lia|]. by rewrite set_sa_same.
Qed.

(** [tcp_transmit_skb] changes the layers below and nothing else. *)
Lemma transmit_control b seq s i rt dmac syn ackf opts :
  let n := e_lower (en s) in
  let d := ld32 (sk_daddr (sk s)) 0 in
  sk_addr_family (sk s) = AF_INET -> ctl_buf b syn ackf opts -> no_options s -> bytes_ok (sk_daddr (sk s)) ->
  route_to n d i rt dmac -> is_u16 (sk_sport (sk s)) -> is_u16 (sk_dport (sk s)) -> is_u32 seq -> is_u32 (rcv_nxt (tb s)) ->
  0 <= rcv_scale (sa s) ->
  exists b' l rc f, tcp_transmit_skb b seq s = (b', upd_en (set_e_lower l) s, rc) /\ net_kept n l /\
    n_wire l = n_wire n ++ [f] /\
    ctl_frame f (nd_addr (dev_of (rt_dev rt) n)) d (sk_sport (sk s)) (sk_dport (sk s)) seq (rcv_nxt (tb s))
      (adv_window s syn) syn ackf opts.
Proof.
  intros n d Hf C O Hda Rt Hsp Hdp Hsq Hak Hsc. unfold tcp_transmit_skb. rewrite (build_control b seq s syn ackf opts Hf C O).
  destruct C as [C1 C2 C3 C4 C5 C6 C7 C8 C9 C10 C11 C12].
  destruct (fill_header_fields seq s 34 (skb_buf b) ltac:(lia) ltac:(lia)) as (E1 & E2 & E3 & E4 & E5 & E6 & E7 & _).
  pose proof (fill_header_ok seq s 34 (skb_buf b) C8) as Fo.
  assert (Fl : length (fill_header seq s 34 (skb_buf b)) = length (skb_buf b)) by (unfold fill_header, th_set_rsvd; by autorewrite with mem).
  assert (Ft : forall k, (54 <= k)%nat -> ld8 (fill_header seq s 34 (skb_buf b)) k = ld8 (skb_buf b) k).
  { intros k Hk. unfold fill_header, th_set_rsvd. cbv zeta. by past_stores. }
  set (m := fill_header seq s 34 (skb_buf b)) in *. clearbody m. rewrite Hf. change (AF_INET =? AF_INET6) with false. cbv match zeta.
  set (b1 := set_skb_buf m _). set (b2 := set_skb_tcpcsum _ b1).
  assert (P2 : skb_protocol b2 = IP_TCP) by exact C1.
  assert (D2 : skb_data b2 = 34) by (change (skb_data b - (20 + Z.of_nat (length opts)) = 34); lia).
  assert (L2 : skb_len b2 = 20 + Z.of_nat (length opts)) by (change (u32 (skb_len b + (20 + Z.of_nat (length opts))) = 20 + Z.of_nat (length opts)); rewrite C3; apply u32_id; red; lia).
  assert (M2 : skb_buf b2 = m) by done. clearbody b2. clear b1.
  change (ip_output (e_lower (en s)) (ld32 (sk_daddr (sk s)) 0) b2) with (ip_output_net n d b2).
  destruct (segment_out n d b2 i rt dmac Rt ltac:(by apply ld32_range) P2 D2 ltac:(by rewrite M2) ltac:(lia) ltac:(rewrite M2, L2; lia))
    as (Kn & f & W & Lf & If & Si). rewrite M2 in Si. rewrite L2 in Lf.
  destruct (ip_output_net n d b2) as [[l b3] rc]. cbn [fst snd] in *. exists b3, l, rc, f.
  split; [done|]. split; [exact Kn|]. split; [exact W|].
  assert (F13 : forall bit, th_flag 34 bit f = th_flag 34 bit (skb_buf b)) by (intros; unfold th_flag; rewrite Si, E6 by lia; done).
  constructor; try done; try lia.
  - rewrite (in_ld16 f _ _ Si), E1 by lia. by apply bswap16_invol.
  - rewrite (in_ld16 f _ _ Si) by lia. change 36%nat with (34 + 2)%nat. rewrite E2. by apply bswap16_invol.
  - rewrite (in_ld32 f _ _ Si) by lia. change 38%nat with (34 + 4)%nat. rewrite E3. by apply bswap32_invol.
  - rewrite (in_ld32 f _ _ Si) by lia. change 42%nat with (34 + 8)%nat. rewrite E4. by apply bswap32_invol.
  - unfold th_get_hl in *. rewrite Si by lia. by rewrite E5.
  - rewrite (in_ld16 f _ _ Si) by lia. change 48%nat with (34 + 14)%nat. rewrite E7, C9. apply bswap16_invol. by apply adv_window_range.
  - by rewrite F13.
  - by rewrite F13.
  - by rewrite !F13.
  - rewrite (ld_bytes_ext f (skb_buf b)); [done|]. intros k Hk. rewrite Si, Ft by lia. done.
Qed.

(** ** Arriving *)

(** Header and buffer of a segment without data. *)
Record heard (th : tcphdr) (b : sk_buff) (sport dport seq ack win : Z) (syn ackf : bool) (opts : list Z) : Prop := {
  hd_sport : th_sport th = sport;
  hd_dport : th_dport th = dport;
  hd_seq : th_seq th = seq;
  hd_ack_seq : th_ack_seq th = ack;
  hd_win : th_win th = win;
  hd_syn : th_syn th = syn;
  hd_ack : th_ack th = ackf;
  hd_rest : th_fin th = false /\ th_rst th = false /\ th_psh th = false;
  hd_dlen : skb_dlen b = 0;
  hd_bseq : skb_seq b = seq;
  hd_hlen : tcp_hlen th - 20 = Z.of_nat (length opts);
  hd_opts : ld_bytes (th_data th) 0 (length opts) = opts;
  hd_room : (length opts + 33 <= length (th_data th))%nat
}.

Lemma ld_bytes_shift a b o n : (forall i, (i < n)%nat -> ld8 a i = ld8 b (o + i)) -> ld_bytes a 0 n = ld_bytes b o n.
Proof.
  intros H. unfold ld_bytes. apply list_eq. intros i. rewrite !list_lookup_fmap. destruct (decide (i < n)%nat) as [Hi|Hi].
  - rewrite !lookup_seq_lt by done. simpl. by rewrite H.
  - by rewrite !lookup_seq_ge by lia.
Qed.

Lemma init_segment_data o dlen b :
  th_data (tcp_init_segment o dlen b).1 = drop (o + 20) (skb_buf (tcp_init_segment o dlen b).2).
Proof. unfold tcp_init_segment. by cbv zeta. Qed.

Lemma rx_control f saddr daddr sport dport seq ack win syn ackf opts w :
  ctl_frame f saddr daddr sport dport seq ack win syn ackf opts ->
  exists th b, heard th b sport dport seq ack win syn ackf opts /\
    netdev_rx_loop f w =
    match inet_lookup saddr daddr sport dport (rx_world w) with
    | None => w_free_skb b (rx_world w)
    | Some id => tcp_input_state id th b (st32 (replicate 16 0) 0 saddr) (so_acquire id (rx_world w))
    end.
Proof.
  intros [If Cs Cl C1 C2 C3 C4 C5 C6 C7 C8 C9 C10].
  destruct (rx_ipv4_buffer f w ltac:(lia) (if_type _ _ _ If)) as (b0 & -> & Lm & F).
  set (m := skb_buf b0) in *. assert (Hn : (54 <= length f <= 1600)%nat) by lia.
  rewrite (rx_ip f m saddr daddr If Lm Hn F b0 _ eq_refl). set (b1 := set_skb_buf (ip_init_pkt m) b0).
  assert (Eb : skb_buf b1 = ip_init_pkt m) by done. clearbody b1. rewrite tcp_in_unfold. unfold receiver, seg_saddr, seg_daddr, segment.
  destruct (pkt_head f m saddr daddr If Lm Hn F) as [Ih Tot]. rewrite Eb, Ih, Tot. pose proof (length_init_pkt m Lm) as Lp.
  assert (P8 : forall o, (34 <= o < length f)%nat -> ld8 (ip_init_pkt m) o = ld8 f o) by (intros; by apply (rx8_pkt f)).
  assert (Hl : th_get_hl 34 (ip_init_pkt m) = th_get_hl 34 f) by (unfold th_get_hl; by rewrite P8 by lia).
  rewrite Hl, C5, Cl. replace (Z.of_nat (54 + length opts) - 14 - 5 * 4 - (20 + Z.of_nat (length opts))) with 0 by lia.
  destruct (init_segment_fields 34 0 b1 ltac:(rewrite Eb, Lp; lia)) as (_ & _ & _ & _ & E5 & _ & _ & G1 & G2 & G3 & G4 & G5).
  destruct (pkt_segment f m saddr daddr If Lm Hn F 0 b1 Eb) as (E1 & E2 & E3 & E4 & E6 & A1 & A2).
  destruct (init_segment_buf 34 0 b1) as (B1 & B2 & _ & _ & B5 & B6).
  pose proof (init_segment_data 34 0 b1) as Td.
  set (th := (tcp_init_segment 34 _ b1).1) in *. set (b' := (tcp_init_segment 34 _ b1).2) in *. clearbody th b'.
  assert (Fg : forall bit, th_flag 34 bit (skb_buf b1) = th_flag 34 bit f) by (intros; unfold th_flag; by rewrite Eb, P8 by lia).
  rewrite Fg in G1, G2, G3, G4, G5. destruct C9 as (C91 & C92 & C93).
  exists th, b'. rewrite A1, A2, E1, E2, C1, C2. split; [|done]. constructor; try congruence; try done.
  - rewrite G3, G4, G5. done.
  - unfold tcp_hlen. rewrite E5, Eb, Hl, Z.shiftl_mul_pow2 by lia. lia.
  - rewrite <- C10 at 2. apply ld_bytes_shift. intros i Hi. rewrite Td, ld8_drop, B6, Eb, P8 by lia. done.
  - rewrite Td, length_drop, B5, Eb, Lp. lia.
Qed.

(** ** What stays *)

(** Timers, wake-ups and the bookkeeping of buffers aside, nothing changed. *)
Record calm (s s' : st net) : Prop := {
  cm_sk : sk s' = sk s;
  cm_tb : tb s' = tb s;
  cm_cc : cc s' = cc s;
  cm_sa : sa s' = sa s;
  cm_ofo : ofo s' = ofo s;
  cm_ptsk : ptsk s' = ptsk s;
  cm_so : so s' = so s;
  cm_lower : e_lower (en s') = e_lower (en s);
  cm_passive : e_passive (en s') = e_passive (en s)
}.
#[export] Instance calm_preorder : PreOrder calm.
Proof. split; [intros s; by constructor|]. intros a b c [] []. constructor; congruence. Qed.

Create HintDb calm.
Lemma calm_lift r s : calm s (lift_timer r s).
Proof. by destruct r. Qed.
Lemma calm_free b s : calm s (do_free_skb b s).
Proof. unfold do_free_skb. by destruct (free_skb b). Qed.
Lemma calm_wake q s : calm s (wake q s).
Proof. done. Qed.
Lemma calm_tm f s : calm s (upd_tm f s).
Proof. done. Qed.
Lemma calm_add e h a r s : calm s (do_timer_add e h a r s).2.
Proof. unfold do_timer_add. by destruct (timer_add_with_release _ _ _ _ _). Qed.
#[export] Hint Resolve calm_lift calm_free calm_wake calm_tm calm_add : calm.

Lemma calm_cancel t s : calm s (do_timer_cancel t s).
Proof. apply calm_lift. Qed.
Lemma calm_release t s : calm s (do_timer_release t s).
Proof. apply calm_lift. Qed.
#[export] Hint Resolve calm_cancel calm_release : calm.

Lemma calm_stop_rto s : calm s (tcp_stop_rto_timer s).
Proof. unfold tcp_stop_rto_timer. etrans; [apply (calm_cancel (retransmit (tm s)))|apply calm_tm]. Qed.
Lemma calm_stop_delack s : calm s (tcp_stop_delack_timer s).
Proof. unfold tcp_stop_delack_timer. etrans; [apply (calm_cancel (delack (tm s)))|apply calm_tm]. Qed.
Lemma calm_rearm_rto s : calm s (tcp_rearm_rto_timer s).
Proof.
  unfold tcp_rearm_rto_timer, tcp_release_rto_timer.
  etrans; [apply (calm_release (retransmit (tm s)))|]. set (s1 := do_timer_release _ s).
  etrans; [apply (calm_tm (set_retransmit None))|]. set (s2 := upd_tm (set_retransmit None) s1).
  etrans; [apply (calm_tm (fun t => set_rto_epoch (u64 (rto_epoch t + 1)) t))|]. set (s3 := upd_tm _ s2). clearbody s3.
  set (r := if _ : bool then _ else _). assert (C : calm s3 r.2) by (unfold r; destruct (state_is _ _); apply calm_add).
  destruct r as [id s4]. etrans; [exact C|apply calm_tm].
Qed.
Lemma calm_user_timeout s : calm s (tcp_rearm_user_timeout s).
Proof.
  unfold tcp_rearm_user_timeout. destruct (state_is _ _); [done|]. etrans; [apply (calm_cancel (linger (tm s)))|].
  set (s1 := do_timer_cancel _ s). pose proof (calm_add TCP_USER_TIMEOUT H_tcp_user_timeout (ArgSock (self s1)) false s1) as C.
  destruct (do_timer_add _ _ _ _ s1) as [id s2]. etrans; [exact C|apply calm_tm].
Qed.
Lemma calm_rtt s : calm s (tcp_rtt s).
Proof.
  unfold tcp_rtt. destruct (0 <? _); [done|]. destruct (retransmit (tm s)) as [i|]; [|done].
  destruct (find_timer i (e_timers (en s))); [|done]. cbv zeta. destruct (_ <? 0); [done|apply calm_tm].
Qed.
#[export] Hint Resolve calm_stop_rto calm_stop_delack calm_rearm_rto calm_user_timeout calm_rtt : calm.

(** ** Queueing *)

(** A write queue that holds one segment without data, numbered [seq]. *)
Definition holds_control (q : sk_buff_head) (seq : Z) : Prop :=
  exists b, skq q = [b] /\ queue_ok q /\ skb_seq b = seq /\ skb_end_seq b = seq /\ skb_dlen b = 0.

(** A segment without data was queued and sent in frame [f]. *)
Record control_sent (s s' : st net) (f : list Z) : Prop := {
  cs_sk : exists q, sk s' = set_sk_write_queue q (sk s) /\ holds_control q (snd_nxt (tb s));
  cs_tb : tb s' = tb s;
  cs_cc : cc s' = cc s;
  cs_sa : sa s' = sa s;
  cs_ofo : ofo s' = ofo s;
  cs_ptsk : ptsk s' = ptsk s;
  cs_so : so s' = so s;
  cs_passive : e_passive (en s') = e_passive (en s);
  cs_kept : net_kept (e_lower (en s)) (e_lower (en s'));
  cs_wire : n_wire (e_lower (en s')) = n_wire (e_lower (en s)) ++ [f]
}.

(** Where a connection sends. *)
Record way (s : st net) (saddr daddr : Z) (i : nat) (rt : rtentry) (dmac : list Z) : Prop := {
  wy_family : sk_addr_family (sk s) = AF_INET;
  wy_daddr : ld32 (sk_daddr (sk s)) 0 = daddr;
  wy_daddr_ok : bytes_ok (sk_daddr (sk s));
  wy_sport : is_u16 (sk_sport (sk s));
  wy_dport : is_u16 (sk_dport (sk s));
  wy_saddr : nd_addr (dev_of (rt_dev rt) (e_lower (en s))) = saddr;
  wy_route : route_to (e_lower (en s)) daddr i rt dmac
}.

Lemma way_kept s s' saddr daddr i rt dmac :
  net_kept (e_lower (en s)) (e_lower (en s')) -> sk_addr_family (sk s') = sk_addr_family (sk s) ->
  sk_daddr (sk s') = sk_daddr (sk s) -> sk_sport (sk s') = sk_sport (sk s) -> sk_dport (sk s') = sk_dport (sk s) ->
  way s saddr daddr i rt dmac -> way s' saddr daddr i rt dmac.
Proof.
  intros K E1 E2 E3 E4 [W1 W2 W3 W4 W5 W6 W7]. constructor; rewrite ?E1, ?E2, ?E3, ?E4; try done.
  - by rewrite (dev_kept _ _ _ K).
  - by eapply route_kept.
Qed.

Lemma queued_passive b s : e_passive (en (queued_state b s)) = e_passive (en s).
Proof. unfold queued_state. destruct (skb_queue_empty _); [|done]. by rewrite (cm_passive _ _ (calm_rearm_rto _)). Qed.

Lemma set_snd_nxt_same t : set_snd_nxt (snd_nxt t) t = t.
Proof. by destruct t. Qed.
Lemma set_inflight_same c : set_inflight (inflight c) c = c.
Proof. by destruct c. Qed.

Lemma queue_control b s saddr daddr i rt dmac syn ackf opts :
  way s saddr daddr i rt dmac -> ctl_buf b syn ackf opts -> no_options s -> 0 <= rcv_scale (sa s) ->
  is_u32 (snd_nxt (tb s)) -> is_u32 (rcv_nxt (tb s)) ->
  wq s = [] -> queue_ok (sk_write_queue (sk s)) -> inflight (cc s) = 0 -> 0 <= cwnd (cc s) -> 0 <= snd_wnd (tb s) ->
  exists s' rc f, tcp_queue_transmit_skb b s = Done s' rc /\ control_sent s s' f /\
    ctl_frame f saddr daddr (sk_sport (sk s)) (sk_dport (sk s)) (snd_nxt (tb s)) (rcv_nxt (tb s)) (adv_window s syn) syn ackf opts.
Proof.
  intros [W1 W2 W3 W4 W5 W6 W7] C Op Sc U1 U2 Hq Ho Hi Hc Hw. pose proof (cb_dlen _ _ _ _ C) as D. unfold tcp_queue_transmit_skb.
  assert (Op' : snd_wnd_open (skb_dlen b) s = true).
  { unfold snd_wnd_open. rewrite D, Hi. change (u32 (0 + 0)) with 0.
    destruct (Z.ltb_spec (min (cwnd (cc s)) (snd_wnd (tb s))) 0) as [E|]; [|done]. unfold min in E. destruct (cwnd (cc s) >? snd_wnd (tb s)); lia. }
  rewrite Op', queue_transmit_unfold, Hq. unfold transmit_queued. cbn [length].
  destruct (queued_state_frame b s) as (F1 & F2 & F3 & F4 & F5 & F6 & F7).
  pose proof (queued_lower b s) as F8. pose proof (queued_passive b s) as F9.
  assert (Fin : fin_of s b = false) by (unfold fin_of; rewrite W1; apply C).
  rewrite D, Fin, !Z.add_0_r, u32_idemp, (u32_id _ U1), set_snd_nxt_same in F2.
  rewrite D, Hi in F3. change (u32 (0 + 0)) with 0 in F3. rewrite <- Hi, set_inflight_same in F3.
  set (s1 := queued_state b s) in *. clearbody s1.
  assert (Cq : ctl_buf (queued_buf b s) syn ackf opts) by (destruct C; by constructor).
  assert (N1 : e_lower (en s1) = e_lower (en s)) by exact F8.
  assert (Rs : route_to (e_lower (en s1)) (ld32 (sk_daddr (sk s1)) 0) i rt dmac) by (rewrite N1, F1; cbn; by rewrite W2).
  destruct (transmit_control (queued_buf b s) (snd_nxt (tb s)) s1 i rt dmac syn ackf opts) as (b2 & l & rc & f & E & K & Wi & Fr);
    rewrite ?F1, ?F2, ?F4; try done.
  { unfold no_options in *. by rewrite F4. }
  { by rewrite F1 in Rs. }
  pose proof (transmit_frame (queued_buf b s) (snd_nxt (tb s)) s1) as [M _]. rewrite E in M. cbn [fst snd] in M.
  rewrite E. do 3 eexists. split; [done|].
  rewrite F1, F2, N1 in Fr. cbn [sk_daddr sk_sport sk_dport set_sk_write_queue] in Fr. rewrite W2, W6 in Fr.
  assert (Aw : adv_window s1 syn = adv_window s syn) by (unfold adv_window; by rewrite F2, F4). rewrite Aw in Fr. split; [|exact Fr].
  set (s3 := wq_set 0 b2 (upd_en (set_e_lower l) s1)).
  assert (X : tb s3 = tb s1 /\ cc s3 = cc s1 /\ sa s3 = sa s1 /\ ofo s3 = ofo s1 /\ ptsk s3 = ptsk s1 /\ so s3 = so s1 /\
    e_passive (en s3) = e_passive (en s1) /\ e_lower (en s3) = l) by done. destruct X as (X1 & X2 & X3 & X4 & X5 & X6 & X7 & X8).
  assert (Xk : sk s3 = set_sk_write_queue (set_skq (<[0%nat := b2]> (skq (sk_write_queue (sk s1)))) (sk_write_queue (sk s1))) (sk s1)) by done.
  clearbody s3. rewrite F1 in Xk. rewrite N1 in K, Wi. constructor; rewrite ?X8; try congruence; try done. rewrite Xk.
  exists (set_skq [b2] (skb_queue_tail (sk_write_queue (sk s)) (queued_buf b s))).
  unfold wq in Hq. cbn. rewrite Hq. split; [done|]. exists b2. destruct Ho as [Ho _]. rewrite Hq in Ho. cbn in Ho.
  split; [done|]. split; [split; [cbn; rewrite Ho; done|cbn; lia]|].
  rewrite (TcpTypes.sm_seq _ _ M), (TcpTypes.sm_end_seq _ _ M), (TcpTypes.sm_dlen _ _ M). cbn. rewrite D, Z.add_0_r, (u32_id _ U1). done.
Qed.

(** ** The options of the handshake *)

(** What [tcp_send_syn] writes for a socket as it is created, and the four bytes
    [tcp_send_synack] leaves clear. *)
Definition syn_opts : list Z := [2; 4; 5; 180; 1; 1; 4; 2].
Definition synack_opts : list Z := [0; 0; 0; 0].
Definition handshake_opts (opts : list Z) : Prop := opts = syn_opts \/ opts = synack_opts.

Lemma data_split (data opts : list Z) :
  ld_bytes data 0 (length opts) = opts -> (length opts <= length data)%nat -> exists rest, data = opts ++ rest.
Proof.
  intros H Hl. exists (ld_bytes data (0 + length opts) (length data - length opts)). rewrite <- H at 1. rewrite <- ld_bytes_app.
  replace (length opts + (length data - length opts))%nat with (length data) by lia. symmetry. by apply ld_bytes_all.
Qed.

(** Neither scales the window nor reports blocks. *)
Lemma parse_handshake th s b sport dport seq ack win syn ackf opts :
  heard th b sport dport seq ack win syn ackf opts -> handshake_opts opts ->
  tcp_parse_opts th s = upd_sa (fun a => set_tsopt 0 (set_snd_scale (snd_scale (sa s)) a)) s.
Proof.
  intros [_ _ _ _ _ _ _ _ _ _ Hh Ho Hr] Op. unfold tcp_parse_opts. rewrite Hh. generalize (snd_scale (sa s)) as sc. intros sc.
  destruct (data_split (th_data th) opts Ho ltac:(lia)) as [rest E]. rewrite E in Hr |- *.
  assert (P : exists p, parse_loop parse_fuel (opts ++ rest) (opt_start (u8 (Z.of_nat (length opts))) sc) = p /\
    po_scale p = sc /\ po_sack_seen p = false /\ (po_read p <= 8)%nat).
  { destruct Op as [-> | ->]; eexists; (split; [vm_compute; reflexivity|]); cbn; split_and!; done || lia. }
  destruct P as (p & -> & P1 & P2 & P3). cbv zeta. destruct (Nat.ltb_spec (length (opts ++ rest)) (po_read p)); [lia|]. by rewrite P1, P2.
Qed.

(** ** The segments themselves *)

Ltac solve_bytes := vm_compute; repeat (constructor; [split; [discriminate|reflexivity]|]); constructor.

Lemma syn_buffer id : ctl_buf
  (with_th AF_INET (fun o => th_set_flag o F_SYN)
    (with_th AF_INET (tcp_write_syn_options (mk_opts 1460 true) 8)
      (set_skb_seq 0 (set_skb_dlen 0 (set_skb_protocol IP_TCP (skb_reserve 62 (alloc_skb id 62))))))) true false syn_opts.
Proof. constructor; try (vm_compute; reflexivity); [vm_compute; lia|solve_bytes|by vm_compute]. Qed.
Lemma synack_buffer id : ctl_buf
  (with_th AF_INET (fun o buf => th_set_hl o 6 (th_set_flag o F_ACK (th_set_flag o F_SYN buf)))
    (set_skb_seq 0 (set_skb_dlen 0 (set_skb_protocol IP_TCP (skb_reserve 58 (alloc_skb id 58)))))) true true synack_opts.
Proof. constructor; try (vm_compute; reflexivity); [vm_compute; lia|solve_bytes|by vm_compute]. Qed.
Lemma ack_buffer id : ctl_buf
  (with_th AF_INET (fun o buf => th_set_hl o 5 (th_set_flag o F_ACK buf))
    (set_skb_seq 0 (set_skb_dlen 0 (set_skb_protocol IP_TCP (skb_reserve 54 (alloc_skb id 54)))))) false true [].
Proof. constructor; try (vm_compute; reflexivity); [vm_compute; lia|solve_bytes|by vm_compute]. Qed.

End TcpControl.
