(* ===== verification/Handshake.v ===== *)
(** The three-way handshake: what [tcp_connect] sends, what a listener answers, how
    SYN-SENT and SYN-RECEIVED end, over the two stacks of a client and a server. *)
From S2P Require Import Prelude Utils SkBuff Timer TcpTypes TcpBase TcpOutput TcpSender TcpData TcpInput TcpAck TcpReasm TcpApi TcpWire Ipv6 Net Neigh IpOut Frame TcpFrame World Udp SocketApi Addrconf IpIn Stack WorldFacts WorldCalls UdpWire TcpDeliver Passive TcpControl.
Import Utils SkBuff Timer TcpTypes TcpBase TcpOutput TcpSender TcpData TcpInput TcpAck TcpReasm TcpApi TcpWire Ipv6 Net Neigh IpOut Frame TcpFrame World Udp SocketApi Addrconf IpIn Stack WorldFacts WorldCalls UdpWire TcpDeliver Passive TcpControl.

Module Handshake.

Implicit Type s : st net.

(** ** SYN *)

Definition iss_of s : Z := u32 (generate_iss s).1.

Definition dial_tcb (x : Z) (t : tcb) : tcb :=
  set_real_rcv_wnd tcp_select_initial_window (set_rcv_wnd tcp_select_initial_window
    (set_rcv_nxt 0 (set_snd_nxt x (set_snd_up x (set_snd_una x (set_snd_wl1 0 (set_snd_wnd 0 (set_iss x t)))))))).

(** A connection that sent a SYN numbered [x] in frame [f]. *)
Record dialled s s' (x : Z) (f : list Z) : Prop := {
  di_sk : exists q, sk s' = set_sk_write_queue q (set_sk_state TCP_SYN_SENT (sk s)) /\ holds_control q x;
  di_tb : tb s' = set_snd_nxt (u32 (x + 1)) (dial_tcb x (tb s));
  di_cc : cc s' = cc s;
  di_sa : sa s' = sa s;
  di_ofo : ofo s' = ofo s;
  di_ptsk : ptsk s' = ptsk s;
  di_so : so s' = so s;
  di_passive : e_passive (en s') = e_passive (en s);
  di_kept : net_kept (e_lower (en s)) (e_lower (en s'));
  di_wire : n_wire (e_lower (en s')) = n_wire (e_lower (en s)) ++ [f]
}.

Lemma connect_syn s saddr daddr i rt dmac :
  way s saddr daddr i rt dmac -> state s = TCP_CLOSE -> sa s = tcp_alloc_sack -> cc s = tcp_alloc_cong ->
  wq s = [] -> queue_ok (sk_write_queue (sk s)) ->
  exists s' rc f, tcp_connect s = Done s' rc /\ dialled s s' (iss_of s) f /\
    ctl_frame f saddr daddr (sk_sport (sk s)) (sk_dport (sk s)) (iss_of s) 0 44477 true false syn_opts.
Proof.
  intros W St Ha Hc Hq Ho. unfold tcp_connect, iss_of. pose proof (u32_range (generate_iss s).1) as Ux.
  unfold generate_iss in *. cbn [fst] in *. set (x := u32 _) in *. set (s1 := upd_tb _ _).
  assert (E : sk s1 = sk s /\ tb s1 = dial_tcb x (tb s) /\ cc s1 = cc s /\ sa s1 = sa s /\ ofo s1 = ofo s /\ ptsk s1 = ptsk s /\
    so s1 = so s /\ e_passive (en s1) = e_passive (en s) /\ e_lower (en s1) = e_lower (en s)) by done.
  clearbody s1. destruct E as (E1 & E2 & E3 & E4 & E5 & E6 & E7 & E8 & E9).
  unfold tcp_send_syn. change (state s1) with (sk_state (sk s1)). rewrite E1. change (sk_state (sk s)) with (state s). rewrite St, (wy_family _ _ _ _ _ _ W).
  change (_ || _) with true. cbv iota. unfold tcp_syn_options. rewrite E3, E4, Ha, Hc.
  change (mk_opts (rmss tcp_alloc_cong) true) with (mk_opts 1460 true). change (TCP_OPTLEN_MSS + TCP_OPT_NOOP * 2 + TCP_OPTLEN_SACK) with 8.
  change (sackok tcp_alloc_sack =? 0) with false. cbv iota. unfold tcp_alloc_skb, do_alloc_skb. cbv zeta.
  change (ETH_HDR_LEN + ip_hlen AF_INET + TCP_HDR_LEN + 8 + 0) with 62. pose proof (syn_buffer (e_next_skb (en s1))) as B.
  set (b := with_th AF_INET _ _) in *. clearbody b. set (s2 := set_state TCP_SYN_SENT _).
  assert (F : sk s2 = set_sk_state TCP_SYN_SENT (sk s1) /\ tb s2 = tb s1 /\ cc s2 = cc s1 /\ sa s2 = sa s1 /\ ofo s2 = ofo s1 /\ ptsk s2 = ptsk s1 /\
    so s2 = so s1 /\ e_passive (en s2) = e_passive (en s1) /\ e_lower (en s2) = e_lower (en s1)) by done.
  clearbody s2. destruct F as (F1 & F2 & F3 & F4 & F5 & F6 & F7 & F8 & F9). rewrite E1 in F1.
  destruct (queue_control b s2 saddr daddr i rt dmac true false syn_opts) as (s3 & rc & f & -> & C & Fr);
    rewrite ?F2, ?F3, ?F4, ?E2, ?E3, ?E4, ?Ha, ?Hc; try done.
  { eapply way_kept, W; rewrite ?F1, ?F9, ?E9; done. }
  { unfold no_options. by rewrite F4, E4, Ha. }
  { unfold wq in *. by rewrite F1. }
  { by rewrite F1. }
  assert (Aw : adv_window s2 true = 44477) by (unfold adv_window; by rewrite F2, E2).
  rewrite F1, F2, E2, Aw in Fr. exists (incr_snd_nxt s3), rc, f. split; [done|]. split; [|exact Fr]. destruct C as [C1 C2 C3 C4 C5 C6 C7 C8 C9 C10].
  assert (I : tb (incr_snd_nxt s3) = set_snd_nxt (u32 (snd_nxt (tb s3) + 1)) (tb s3)) by done.
  rewrite C2, F2, E2 in I.
  constructor; [| |change (cc s3 = cc s)|change (sa s3 = sa s)|change (ofo s3 = ofo s)|change (ptsk s3 = ptsk s)|change (so s3 = so s)
    |change (e_passive (en s3) = e_passive (en s))| |]; try congruence.
  - destruct C1 as (q & C1 & Q). rewrite F1 in C1. rewrite F2, E2 in Q. by exists q.
  - exact I.
  - change (net_kept (e_lower (en s)) (e_lower (en s3))). by rewrite <- E9, <- F9.
  - change (n_wire (e_lower (en s3)) = n_wire (e_lower (en s)) ++ [f]). by rewrite C10, F9, E9.
Qed.

(** ** SYN-ACK *)

(** The random number behind the next initial sequence number. *)
Definition next_iss (e : env net) : Z :=
  u32 (s32 (s32 (e_clock e) * match e_rand e with r :: _ => r | [] => 0 end)).
Lemma iss_next s : iss_of s = next_iss (en s).
Proof. done. Qed.

Definition child_block (y win seq : Z) : tcb :=
  set_snd_wl2 0 (set_snd_wl1 0 (set_snd_wnd win (set_snd_nxt y (set_snd_una y (set_irs seq
    (set_real_rcv_wnd tcp_select_initial_window (set_rcv_wnd tcp_select_initial_window
      (set_rcv_nxt (u32 (seq + 1)) (set_iss y tcp_alloc_tcb))))))))).

(** The child a SYN of the handshake makes, before the answer. *)
Record newborn (p : Z) (th : tcphdr) (local saddr : list Z) (sport : Z) (w : world) s : Prop := {
  nb_sk : sk s = fork_addrs AF_INET local saddr sport th (set_sk_state TCP_SYN_RECEIVED (sock_init_data IPPROTO_TCP AF_INET TCP_CLOSE));
  nb_tb : tb s = child_block (next_iss (w_env w)) (th_win th) (th_seq th);
  nb_cc : cc s = tcp_alloc_cong;
  nb_sa : sa s = tcp_alloc_sack;
  nb_ofo : ofo s = skb_queue_init;
  nb_so : so s = new_socket p SOCK_STREAM w;
  nb_passive : e_passive (en s) = e_passive (w_env w);
  nb_lower : e_lower (en s) = w_net w
}.

Lemma forked_newborn p th b local saddr sport w sp dp seq ack win syn ackf opts :
  heard th b sp dp seq ack win syn ackf opts -> handshake_opts opts ->
  newborn p th local saddr sport w (forked_state p th local saddr sport w).
Proof.
  intros H O. unfold forked_state, fork_tcb. cbv zeta. rewrite (parse_handshake th _ b sp dp seq ack win syn ackf opts H O).
  set (s0 := tcp_alloc_sock _ _ _ _). set (s1 := upd_sa _ _).
  assert (E : sk s1 = set_sk_state TCP_SYN_RECEIVED (sock_init_data IPPROTO_TCP AF_INET TCP_CLOSE) /\ tb s1 = tcp_alloc_tcb /\ cc s1 = tcp_alloc_cong /\
    sa s1 = tcp_alloc_sack /\ ofo s1 = skb_queue_init /\ so s1 = new_socket p SOCK_STREAM w /\ en s1 = w_env w) by done.
  clearbody s1. clear s0. destruct E as (E1 & E2 & E3 & E4 & E5 & E6 & E7). rewrite E4. change (snd_scale tcp_alloc_sack =? 0) with true. cbv iota.
  unfold generate_iss. cbv iota. constructor; cbn; by rewrite ?E1, ?E2, ?E3, ?E4, ?E5, ?E6, ?E7.
Qed.

(** A connection that answered. *)
Record answered (id : Z) s s' (f : list Z) : Prop := {
  an_sk : exists q, sk s' = set_sk_write_queue q (sk s) /\ holds_control q (snd_nxt (tb s));
  an_tb : tb s' = set_snd_nxt (u32 (snd_nxt (tb s) + 2)) (tb s);
  an_cc : cc s' = cc s;
  an_sa : sa s' = sa s;
  an_ofo : ofo s' = ofo s;
  an_ptsk : ptsk s' = Some id;
  an_so : so s' = so s;
  an_passive : e_passive (en s') = e_passive (en s);
  an_kept : net_kept (e_lower (en s)) (e_lower (en s'));
  an_wire : n_wire (e_lower (en s')) = n_wire (e_lower (en s)) ++ [f]
}.

Lemma synack_sent id s saddr daddr i rt dmac :
  way s saddr daddr i rt dmac -> state s = TCP_SYN_RECEIVED -> sa s = tcp_alloc_sack -> cc s = tcp_alloc_cong ->
  wq s = [] -> queue_ok (sk_write_queue (sk s)) -> 0 <= snd_wnd (tb s) -> is_u32 (snd_nxt (tb s)) -> is_u32 (rcv_nxt (tb s)) ->
  exists f, answered id s (synack id s) f /\
    ctl_frame f saddr daddr (sk_sport (sk s)) (sk_dport (sk s)) (snd_nxt (tb s)) (rcv_nxt (tb s)) (u16 (real_rcv_wnd (tb s))) true true synack_opts.
Proof.
  intros W St Ha Hc Hq Ho Hw U1 U2. unfold synack. set (s0 := set_ptsk (Some id) s).
  assert (E : sk s0 = sk s /\ tb s0 = tb s /\ cc s0 = cc s /\ sa s0 = sa s /\ ofo s0 = ofo s /\ ptsk s0 = Some id /\ so s0 = so s /\ en s0 = en s) by done.
  clearbody s0. destruct E as (E1 & E2 & E3 & E4 & E5 & E6 & E7 & E8).
  unfold tcp_send_synack. change (state s0) with (sk_state (sk s0)). rewrite E1. change (sk_state (sk s)) with (state s).
  rewrite St, (wy_family _ _ _ _ _ _ W). change (_ || _) with true. cbv iota. unfold tcp_alloc_skb, do_alloc_skb. cbv zeta.
  change (ETH_HDR_LEN + ip_hlen AF_INET + TCP_HDR_LEN + 4 + 0) with 58. pose proof (synack_buffer (e_next_skb (en s0))) as B.
  set (b := with_th AF_INET _ _) in *. clearbody b. set (s2 := upd_en _ s0).
  assert (F : sk s2 = sk s0 /\ tb s2 = tb s0 /\ cc s2 = cc s0 /\ sa s2 = sa s0 /\ ofo s2 = ofo s0 /\ ptsk s2 = ptsk s0 /\
    so s2 = so s0 /\ e_passive (en s2) = e_passive (en s0) /\ e_lower (en s2) = e_lower (en s0)) by done.
  clearbody s2. destruct F as (F1 & F2 & F3 & F4 & F5 & F6 & F7 & F8 & F9). rewrite E8 in F8, F9.
  destruct (queue_control b s2 saddr daddr i rt dmac true true synack_opts) as (s3 & rc & f & -> & C & Fr);
    rewrite ?F2, ?F3, ?F4, ?E2, ?E3, ?E4, ?Ha, ?Hc; try done.
  { eapply way_kept, W; rewrite ?F1, ?F9, ?E1; done. }
  { unfold no_options. by rewrite F4, E4, Ha. }
  { unfold wq in *. by rewrite F1, E1. }
  { by rewrite F1, E1. }
  exists f. assert (Aw : adv_window s2 true = u16 (real_rcv_wnd (tb s))) by (unfold adv_window; by rewrite F2, E2).
  rewrite F1, F2, E1, E2, Aw in Fr. split; [|exact Fr]. destruct C as [C1 C2 C3 C4 C5 C6 C7 C8 C9 C10]. cbn [and_then run_after].
  set (s5 := incr_snd_nxt (incr_snd_nxt s3)).
  assert (I : sk s5 = sk s3 /\ tb s5 = set_snd_nxt (u32 (u32 (snd_nxt (tb s3) + 1) + 1)) (tb s3) /\ cc s5 = cc s3 /\ sa s5 = sa s3 /\ ofo s5 = ofo s3 /\
    ptsk s5 = ptsk s3 /\ so s5 = so s3 /\ en s5 = en s3).
  { by split_and!. }
  clearbody s5. destruct I as (I1 & I2 & I3 & I4 & I5 & I6 & I7 & I8).
  constructor; rewrite ?I8, ?C8, ?F8; try congruence.
  - destruct C1 as (q & C1 & Q). rewrite F1, E1 in C1. rewrite F2, E2 in Q. exists q. by rewrite I1.
  - rewrite I2, C2, F2, E2, u32_add_l. by replace (snd_nxt (tb s) + 1 + 1) with (snd_nxt (tb s) + 2) by lia.
Qed.

(** ** ACK *)

(** A frame went out and nothing else happened to the connection. *)
Record emitted s s' (f : list Z) : Prop := {
  em_sk : sk s' = sk s;
  em_tb : tb s' = tb s;
  em_cc : cc s' = cc s;
  em_sa : sa s' = sa s;
  em_ofo : ofo s' = ofo s;
  em_ptsk : ptsk s' = ptsk s;
  em_so : so s' = so s;
  em_passive : e_passive (en s') = e_passive (en s);
  em_kept : net_kept (e_lower (en s)) (e_lower (en s'));
  em_wire : n_wire (e_lower (en s')) = n_wire (e_lower (en s)) ++ [f]
}.

Lemma emitted_calm s s1 s2 s' f : calm s s1 -> emitted s1 s2 f -> calm s2 s' -> emitted s s' f.
Proof.
  intros [A1 A2 A3 A4 A5 A6 A7 A8 A9] [] [B1 B2 B3 B4 B5 B6 B7 B8 B9]. rewrite A8 in *.
  constructor; rewrite ?B8; try congruence.
Qed.

Lemma ack_sent s saddr daddr i rt dmac :
  way s saddr daddr i rt dmac -> state s <> TCP_CLOSE -> no_options s -> 0 <= rcv_scale (sa s) ->
  is_u32 (snd_nxt (tb s)) -> is_u32 (rcv_nxt (tb s)) ->
  exists f, emitted s (tcp_send_ack s).1 f /\
    ctl_frame f saddr daddr (sk_sport (sk s)) (sk_dport (sk s)) (snd_nxt (tb s)) (rcv_nxt (tb s)) (adv_window s false) false true [].
Proof.
  intros W St Op Sc U1 U2. unfold tcp_send_ack.
  assert (Ol : tcp_options_len s = 0) by (unfold tcp_options_len; destruct Op as [-> ->]; done).
  assert (Sf : state_is (state s) TCP_CLOSE = false) by (by destruct (state s)).
  rewrite Sf, Ol, (wy_family _ _ _ _ _ _ W). unfold tcp_alloc_skb, do_alloc_skb. cbv zeta.
  change (ETH_HDR_LEN + ip_hlen AF_INET + TCP_HDR_LEN + 0 + 0) with 54. change (TCP_DOFFSET + 0 / 4) with 5.
  pose proof (ack_buffer (e_next_skb (en s))) as B. set (b := with_th AF_INET _ _) in *. clearbody b. set (s1 := upd_en _ s).
  assert (Ca : calm s s1) by done. clearbody s1. destruct Ca as [A1 A2 A3 A4 A5 A6 A7 A8 A9] eqn:Ec. pose proof Ca as Ca'. clear Ec.
  destruct W as [W1 W2 W3 W4 W5 W6 W7].
  destruct (transmit_control b (snd_nxt (tb s1)) s1 i rt dmac false true []) as (b' & l & rc & f & -> & K & Wi & Fr);
    unfold no_options in *; rewrite ?A1, ?A2, ?A4, ?A8, ?W2; try done.
  exists f. cbn [fst].
  assert (Aw : adv_window s1 false = adv_window s false) by (unfold adv_window; by rewrite A2, A4).
  rewrite A1, A2, A8, Aw, W2, W6 in Fr. split; [|exact Fr].
  apply (emitted_calm s s1 (upd_en (set_e_lower l) s1)); [exact Ca'| |apply calm_free]. by constructor.
Qed.

(** ** The segment the other end acknowledged leaves the queue *)

Lemma clean_control una x s :
  holds_control (sk_write_queue (sk s)) x -> 0 < x <= una -> inflight (cc s) = 0 ->
  exists q, skq q = [] /\ queue_ok q /\ calm (set_write_queue q s) (tcp_clean_rto_queue una s).
Proof.
  intros (b & Hb & [Hq _] & B1 & B2 & B3) Hx Hi. rewrite Hb in Hq. change (Z.of_nat (length [b])) with 1 in Hq.
  exists (set_qlen (u32 (qlen (sk_write_queue (sk s)) - 1)) (set_skq [] (sk_write_queue (sk s)))). rewrite Hq. set (q := set_qlen _ _).
  split; [done|]. split; [done|]. unfold tcp_clean_rto_queue, write_queue. rewrite Hb. cbn [length clean_loop].
  unfold write_queue, skb_peek, skb_queue_empty, skb_queue_len, skb_dequeue. rewrite Hq, Hb. cbn [hd_error]. change (1 <? 1) with false. cbv iota.
  rewrite B1, B2, B3. destruct (Z.ltb_spec 0 x); [|lia]. destruct (Z.leb_spec x una); [|lia]. cbv iota. cbn [andb].
  set (s1 := upd_cc _ _). assert (C : calm (set_write_queue q s) s1).
  { unfold s1. set (s0 := do_free_skb _ _).
    assert (C0 : calm (set_write_queue q s) s0) by (etrans; [apply (calm_wake (WriteWait (self s)))|apply calm_free]).
    etrans; [exact C0|]. assert (Ci : cc s0 = cc s) by exact (cm_cc _ _ C0). clearbody s0.
    assert (Ec : cc (upd_cc (fun c => tcp_cong_avoid 0 (ack_inflight 0 c)) s0) = cc s0).
    { cbn. unfold tcp_cong_avoid, ack_inflight. change (0 =? 0) with true. cbv iota. rewrite Ci, Hi. change (0 <=? 0) with true. cbv iota.
      change (0 - 0) with 0. rewrite <- Hi. apply set_inflight_same. }
    by constructor. }
  clearbody s1. assert (Ez : skb_queue_empty (write_queue s1) = true) by (unfold write_queue; by rewrite (cm_sk _ _ C)).
  unfold skb_queue_empty, skb_queue_len, write_queue in Ez. rewrite Ez. cbn [orb]. etrans; [exact C|apply calm_stop_rto].
Qed.

(** ** SYN-SENT *)

(** A client that heard the SYN-ACK numbered [y] with window [win] to its SYN
    numbered [x], and sent frame [f]. *)
Record connected s s' (x y win : Z) (f : list Z) : Prop := {
  co_state : state s' = TCP_ESTABLISHED;
  co_err : sk_err (sk s') = 0;
  co_key : conn_key (sk s') = conn_key (sk s);
  co_rq : sk_receive_queue (sk s') = sk_receive_queue (sk s);
  co_wq : wq s' = [] /\ queue_ok (sk_write_queue (sk s'));
  co_una : snd_una (tb s') = x + 1;
  co_nxt : snd_nxt (tb s') = x + 1;
  co_wnd : snd_wnd (tb s') = win;
  co_rcv_nxt : rcv_nxt (tb s') = u32 (y + 1);
  co_rcv_wnd : rcv_wnd (tb s') = rcv_wnd (tb s) /\ real_rcv_wnd (tb s') = real_rcv_wnd (tb s);
  co_cc : cc s' = cc s;
  co_sa : sa s' = set_tsopt 0 (set_snd_scale (snd_scale (sa s)) (sa s));
  co_ofo : ofo s' = ofo s;
  co_so : so s' = set_so_state SS_CONNECTED (so s);
  co_passive : e_passive (en s') = e_passive (en s);
  co_kept : net_kept (e_lower (en s)) (e_lower (en s'));
  co_wire : n_wire (e_lower (en s')) = n_wire (e_lower (en s)) ++ [f]
}.

Definition connect_tcb (th : tcphdr) (t : tcb) : tcb :=
  let t := set_snd_una (th_ack_seq th) (set_irs (th_seq th) (set_rcv_nxt (u32 (th_seq th + 1)) t)) in
  set_snd_wl2 (th_ack_seq th) (set_snd_wl1 (th_seq th) (set_snd_wnd (th_win th) (set_snd_una (snd_nxt t) t))).

(** The segment is accepted: the state before the acknowledgement is sent. *)
Lemma synsent_accepts th b s sport dport x y win :
  heard th b sport dport y (x + 1) win true true synack_opts ->
  holds_control (sk_write_queue (sk s)) x -> iss (tb s) = x -> snd_una (tb s) = x -> snd_nxt (tb s) = x + 1 ->
  0 < x -> inflight (cc s) = 0 ->
  exists s1 q, skq q = [] /\ queue_ok q /\
    tcp_synsent th b s =
      Done (tcp_drop b (sock_connected (update_snd_win (th_win th) (tcp_parse_opts th (tcp_rearm_user_timeout (tcp_send_ack s1).1))))) 0 /\
    sk s1 = set_sk_state TCP_ESTABLISHED (set_sk_write_queue q (sk s)) /\ tb s1 = connect_tcb th (tb s) /\ cc s1 = cc s /\ sa s1 = sa s /\
    ofo s1 = ofo s /\ so s1 = so s /\ e_lower (en s1) = e_lower (en s) /\ e_passive (en s1) = e_passive (en s).
Proof.
  intros [_ _ T1 T2 T3 T4 T5 (T6 & T7 & T8) _ _ _ _ _] Hq Hi Hu Hn Hx Hf.
  unfold tcp_synsent, synsent_ack_bad, connect_tcb. rewrite T2, T4, T5, T7, Hi, Hu, Hn.
  destruct (Z.leb_spec (x + 1) x); [lia|]. destruct (Z.ltb_spec (x + 1) (x + 1)); [lia|]. destruct (Z.ltb_spec (x + 1) x); [lia|].
  cbn [andb orb negb]. set (s1 := upd_tb (set_snd_una (x + 1)) _).
  assert (E : sk s1 = sk s /\ tb s1 = set_snd_una (x + 1) (set_irs (th_seq th) (set_rcv_nxt (u32 (th_seq th + 1)) (tb s))) /\ cc s1 = cc s /\ sa s1 = sa s /\
    ofo s1 = ofo s /\ so s1 = so s /\ en s1 = en s) by done. clearbody s1. destruct E as (E1 & E2 & E3 & E4 & E5 & E7 & E8).
  destruct (clean_control (x + 1) x s1) as (q & Q1 & Q2 & [C1 C2 C3 C4 C5 C6 C7 C8 C9]); [by rewrite E1|lia|by rewrite E3|].
  set (s2 := tcp_clean_rto_queue (x + 1) s1) in *. clearbody s2.
  change (sk (set_write_queue q s1)) with (set_sk_write_queue q (sk s1)) in C1. change (tb (set_write_queue q s1)) with (tb s1) in C2.
  change (cc (set_write_queue q s1)) with (cc s1) in C3. change (sa (set_write_queue q s1)) with (sa s1) in C4.
  change (ofo (set_write_queue q s1)) with (ofo s1) in C5. change (so (set_write_queue q s1)) with (so s1) in C7.
  change (en (set_write_queue q s1)) with (en s1) in C8, C9. rewrite E2 in C2. rewrite E1 in C1. rewrite E8 in C8, C9.
  assert (Ei : iss (tb s2) <? snd_una (tb s2) = true) by (rewrite C2; cbn; rewrite Hi; lia).
  rewrite Ei. cbv zeta. set (s4 := upd_tm _ _).
  assert (F : sk s4 = set_sk_state TCP_ESTABLISHED (sk s2) /\ tb s4 = set_snd_wl2 (x + 1) (set_snd_wl1 (th_seq th) (set_snd_wnd (th_win th) (set_snd_una (snd_nxt (tb s2)) (tb s2)))) /\
    cc s4 = cc s2 /\ sa s4 = sa s2 /\ ofo s4 = ofo s2 /\ so s4 = so s2 /\ en s4 = en s2) by done.
  clearbody s4. destruct F as (F1 & F2 & F3 & F4 & F5 & F7 & F8). rewrite C1 in F1. rewrite C2 in F2.
  exists s4, q. split; [done|]. split; [done|]. split; [by destruct (tcp_send_ack s4)|]. rewrite F8.
  split; [done|]. split; [exact F2|]. split_and!; congruence.
Qed.

Lemma synsent_connected th b s saddr daddr i rt dmac sport dport x y win :
  way s saddr daddr i rt dmac -> heard th b sport dport y (x + 1) win true true synack_opts ->
  holds_control (sk_write_queue (sk s)) x -> iss (tb s) = x -> snd_una (tb s) = x -> snd_nxt (tb s) = x + 1 ->
  0 < x -> x + 1 < 4294967296 -> is_u16 win -> inflight (cc s) = 0 -> no_options s -> rcv_scale (sa s) = 0 -> snd_scale (sa s) = 0 ->
  exists s' f, tcp_synsent th b s = Done s' 0 /\ connected s s' x y win f /\
    ctl_frame f saddr daddr (sk_sport (sk s)) (sk_dport (sk s)) (x + 1) (u32 (y + 1)) (u16 (real_rcv_wnd (tb s))) false true [].
Proof.
  intros W H Hq Hi Hu Hn Hx1 Hx2 Hw Hf Op Rs Ss.
  destruct (synsent_accepts th b s sport dport x y win H Hq Hi Hu Hn Hx1 Hf) as (s1 & q & Q1 & Q2 & -> & A1 & A2 & A3 & A4 & A5 & A6 & A7 & A8).
  assert (A2' : snd_una (connect_tcb th (tb s)) = snd_nxt (tb s) /\ snd_nxt (connect_tcb th (tb s)) = snd_nxt (tb s) /\
    rcv_nxt (connect_tcb th (tb s)) = u32 (th_seq th + 1) /\ rcv_wnd (connect_tcb th (tb s)) = rcv_wnd (tb s) /\
    real_rcv_wnd (connect_tcb th (tb s)) = real_rcv_wnd (tb s)) by done.
  rewrite <- A2, Hn, (hd_seq _ _ _ _ _ _ _ _ _ _ H) in A2'. destruct A2' as (B1 & B2 & B3 & B4 & B5). clear A2.
  destruct (ack_sent s1 saddr daddr i rt dmac) as (f & Em & Fr).
  { eapply way_kept, W; rewrite ?A1, ?A7; done. }
  { unfold state. by rewrite A1. }
  { unfold no_options in *. by rewrite A4. }
  { rewrite A4. lia. }
  { rewrite B2. red. lia. }
  { rewrite B3. apply u32_range. }
  assert (Aw : adv_window s1 false = u16 (real_rcv_wnd (tb s))) by (unfold adv_window; by rewrite B5, A4, Rs, Z.shiftr_0_r).
  rewrite B2, B3, Aw, A1 in Fr. do 2 eexists. split; [done|]. split; [|exact Fr]. clear Fr Aw.
  pose proof (calm_user_timeout (tcp_send_ack s1).1) as Ct. pose proof (emitted_calm s1 s1 _ _ f (reflexivity s1) Em Ct) as [G1 G2 G3 G4 G5 G6 G7 G8 G9 G10].
  set (s2 := tcp_rearm_user_timeout (tcp_send_ack s1).1) in *. clearbody s2. clear Em Ct.
  rewrite (parse_handshake th s2 b sport dport y (x + 1) win true true synack_opts H ltac:(by right)).
  set (s3 := upd_sa _ s2). set (s4 := sock_connected (update_snd_win (th_win th) s3)).
  assert (J : sk s4 = set_sk_poll_events connected_events (set_sk_err 0 (sk s2)) /\
    tb s4 = set_snd_wnd (u32 (Z.shiftl (th_win th) (snd_scale (sa s2)))) (tb s2) /\ cc s4 = cc s2 /\
    sa s4 = set_tsopt 0 (set_snd_scale (snd_scale (sa s2)) (sa s2)) /\ ofo s4 = ofo s2 /\ so s4 = set_so_state SS_CONNECTED (so s2) /\
    e_lower (en s4) = e_lower (en s2) /\ e_passive (en s4) = e_passive (en s2)) by done.
  clearbody s4. destruct J as (J1 & J2 & J3 & J4 & J5 & J6 & J7 & J8). unfold tcp_drop. destruct (calm_free b s4) as [D1 D2 D3 D4 D5 D6 D7 D8 D9].
  set (s5 := do_free_skb b s4) in *. clearbody s5. rewrite G1, A1 in J1.
  rewrite G4, A4, Ss, (hd_win _ _ _ _ _ _ _ _ _ _ H), Z.shiftl_0_r, u32_id in J2 by (red in Hw |- *; lia). rewrite A7 in G9, G10.
  constructor; unfold state, wq; rewrite ?D1, ?D2, ?D8, ?J1, ?J2, ?J7, ?G2; try done; try congruence.
Qed.

(** ** SYN-RECEIVED *)

(** A child whose SYN-ACK numbered [y] was acknowledged joins the queue [ch] of its
    listener [p]. *)
Record joined s s' (p : Z) (ch : conn_head) (y win : Z) : Prop := {
  jo_state : state s' = TCP_ESTABLISHED;
  jo_key : conn_key (sk s') = conn_key (sk s);
  jo_rq : sk_receive_queue (sk s') = sk_receive_queue (sk s);
  jo_wq : wq s' = [] /\ queue_ok (sk_write_queue (sk s'));
  jo_tb : tb s' = set_snd_una (y + 1) (tb s);
  jo_cc : cc s' = set_last_ack_win win (cc s);
  jo_ofo : ofo s' = ofo s;
  jo_so : so s' = so s;
  jo_lower : e_lower (en s') = e_lower (en s);
  jo_passive : e_passive (en s') = <[p := conn_queue_tail ch (self s)]> (e_passive (en s))
}.

(** The ACK switch. *)
Lemma received_ack th b s p ch sport dport y win :
  heard th b sport dport (rcv_nxt (tb s)) (y + 1) win false true [] ->
  state s = TCP_SYN_RECEIVED -> snd_una (tb s) = y -> snd_nxt (tb s) = y + 2 -> 0 < y ->
  holds_control (sk_write_queue (sk s)) y -> inflight (cc s) = 0 -> in_recovery (cc s) = 0 ->
  ptsk s = Some p -> e_passive (en s) !! p = Some ch ->
  exists s', ack_switch th b s = Next b s' /\ joined s s' p ch y win.
Proof.
  intros [_ _ T1 T2 T3 T4 T5 (T6 & T7 & T8) _ _ _ _ _] St Hu Hn Hy Hq Hi Hr Hp Hc.
  unfold ack_switch, ack_advances. rewrite St, T2, Hu, Hn. destruct (Z.ltb_spec y (y + 1)); [|lia]. destruct (Z.leb_spec (y + 1) (y + 2)); [|lia]. cbn [andb].
  unfold add_tsk_to_parent_establied_conn_list. change (ptsk (set_state TCP_ESTABLISHED s)) with (ptsk s). change (en (set_state TCP_ESTABLISHED s)) with (en s).
  rewrite Hp, Hc. set (s1 := wake _ _).
  assert (E : sk s1 = set_sk_state TCP_ESTABLISHED (sk s) /\ tb s1 = tb s /\ cc s1 = cc s /\ ofo s1 = ofo s /\ so s1 = so s /\
    e_lower (en s1) = e_lower (en s) /\ e_passive (en s1) = <[p := conn_queue_tail ch (self s)]> (e_passive (en s))) by done.
  clearbody s1. destruct E as (E1 & E2 & E3 & E5 & E6 & E7 & E8).
  unfold process_ack, tcp_is_dupack, ack_advances. rewrite E2, T2, Hu, Hn, Z.eqb_sym. destruct (Z.eqb_spec y (y + 1)); [lia|]. cbn [andb].
  destruct (Z.ltb_spec y (y + 1)); [|lia]. destruct (Z.leb_spec (y + 1) (y + 2)); [|lia]. cbn [andb]. set (s2 := upd_tb (set_snd_una (y + 1)) s1).
  assert (F : sk s2 = sk s1 /\ tb s2 = set_snd_una (y + 1) (tb s1) /\ cc s2 = cc s1 /\ ofo s2 = ofo s1 /\ so s2 = so s1 /\ en s2 = en s1) by done.
  clearbody s2. destruct F as (F1 & F2 & F3 & F5 & F6 & F7). rewrite E2 in F2.
  pose proof (calm_rtt s2) as R. set (s3 := tcp_rtt s2) in *. clearbody s3.
  destruct (clean_control (y + 1) y s3) as (q & Q1 & Q2 & C); [rewrite (cm_sk _ _ R), F1, E1; exact Hq|lia|by rewrite (cm_cc _ _ R), F3, E3|].
  assert (Eu : snd_una (tb s2) = y + 1) by (by rewrite F2). rewrite Eu.
  set (s4 := tcp_clean_rto_queue (y + 1) s3) in *. clearbody s4.
  destruct R as [R1 R2 R3 R4 R5 R6 R7 R8 R9]. destruct C as [C1 C2 C3 C4 C5 C6 C7 C8 C9].
  change (sk (set_write_queue q s3)) with (set_sk_write_queue q (sk s3)) in C1. change (tb (set_write_queue q s3)) with (tb s3) in C2.
  change (cc (set_write_queue q s3)) with (cc s3) in C3. change (ofo (set_write_queue q s3)) with (ofo s3) in C5.
  change (so (set_write_queue q s3)) with (so s3) in C7. change (en (set_write_queue q s3)) with (en s3) in C8, C9.
  rewrite R1, F1, E1 in C1. rewrite R2, F2 in C2. rewrite R3, F3, E3 in C3.
  rewrite C3, Hr. change (0 =? 0) with true. cbv iota. rewrite C2. cbn [snd_una snd_nxt set_snd_una]. rewrite Hn.
  destruct (Z.ltb_spec (y + 1) (y + 1)); [lia|]. destruct (Z.ltb_spec (y + 2) (y + 1)); [lia|]. cbn [andb].
  eexists. split; [done|]. set (s5 := upd_cc (set_last_ack_win (th_win th)) s4).
  assert (K : sk s5 = sk s4 /\ tb s5 = tb s4 /\ cc s5 = set_last_ack_win (th_win th) (cc s4) /\ ofo s5 = ofo s4 /\ so s5 = so s4 /\ en s5 = en s4) by done.
  clearbody s5. destruct K as (K1 & K2 & K3 & K4 & K5 & K6).
  constructor; unfold state, wq; rewrite ?K1, ?C1, ?K6; try done; try congruence.
Qed.

Lemma received_established th b s p ch sport dport y win :
  heard th b sport dport (rcv_nxt (tb s)) (y + 1) win false true [] ->
  state s = TCP_SYN_RECEIVED -> snd_una (tb s) = y -> snd_nxt (tb s) = y + 2 -> 0 < y ->
  holds_control (sk_write_queue (sk s)) y -> inflight (cc s) = 0 -> in_recovery (cc s) = 0 ->
  ptsk s = Some p -> e_passive (en s) !! p = Some ch ->
  0 <= rcv_nxt (tb s) -> 0 <= rcv_wnd (tb s) -> rcv_nxt (tb s) + rcv_wnd (tb s) < 4294967296 ->
  joined s (tcp_otherwise th b s).1 p ch y win.
Proof.
  intros H St Hu Hn Hy Hq Hi Hr Hp Hc U1 U2 U3. pose proof H as H'. destruct H' as [_ _ T1 _ _ T4 T5 (T6 & T7 & T8) T9 T10 _ _ _].
  unfold tcp_otherwise, check_segment, tcp_verify_segment. rewrite T1, T4, T5, T7, T9.
  destruct (Z.ltb_spec (rcv_nxt (tb s)) (rcv_nxt (tb s))); [lia|]. rewrite (u32_id (_ + _)) by (red; lia).
  destruct (Z.ltb_spec (rcv_nxt (tb s) + rcv_wnd (tb s)) (rcv_nxt (tb s))); [lia|]. change (0 <? 0) with false. cbn [andb orb negb step_bind].
  destruct (received_ack th b s p ch sport dport y win H St Hu Hn Hy Hq Hi Hr Hp Hc) as (s1 & -> & J). cbn [step_bind].
  pose proof (jo_state _ _ _ _ _ _ J) as S1. destruct (jo_wq _ _ _ _ _ _ J) as [Q1 [Q2 _]]. unfold wq in Q1. rewrite Q1 in Q2. cbn in Q2.
  assert (Qe : skb_queue_empty (write_queue s1) = true) by (unfold skb_queue_empty, skb_queue_len, write_queue; by rewrite Q2).
  unfold fin_acked. rewrite Qe, S1. cbn [step_bind]. unfold segment_text. rewrite S1, T8, T9. change (0 <? 0) with false. cbn [orb step_bind].
  unfold fin_bit. rewrite T6. cbn [andb step_bind]. unfold send_or_delay. rewrite S1.
  assert (Er : rcv_nxt (tb s1) = rcv_nxt (tb s)) by (by rewrite (jo_tb _ _ _ _ _ _ J)). rewrite T10, Er, Z.eqb_refl.
  pose proof (calm_stop_delack s1) as C. set (s2 := tcp_stop_delack_timer s1) in *. clearbody s2.
  assert (Ql : s32 (skb_queue_len (write_queue s2)) = 0) by (unfold skb_queue_len, write_queue; rewrite (cm_sk _ _ C), Q2; done).
  rewrite Ql. change (0 <? 0) with false. cbv iota zeta. unfold delay_ack. rewrite T8, T9. change (1000 <? 0) with false. change (0 <? 0) with false. cbv iota.
  cbn [fst]. pose proof (transitivity C (calm_free b s2)) as D. set (s3 := do_free_skb b s2) in *. clearbody s3. clear C Ql Qe.
  destruct D as [D1 D2 D3 D4 D5 D6 D7 D8 D9]. destruct J as [J1 J2 J3 J4 J5 J6 J7 J8 J9 J10].
  constructor; unfold state, wq in *; rewrite ?D1, ?D2, ?D3, ?D5, ?D7, ?D8, ?D9; done.
Qed.

End Handshake.
