(* ===== verification/TcpOpen.v ===== *)
(** Opening a connection between two stacks: [connect] on one, a listener on the
    other, and the frames between them.

    The sockets involved are the newest of their tables; a world is written
    [with_last l e w] when [e] is its newest socket and [l] are the others. *)
From S2P Require Import Prelude Utils SkBuff Timer TcpTypes TcpBase TcpOutput TcpSender TcpData TcpInput TcpAck TcpReasm TcpApi TcpWire Ipv6 Net Neigh IpOut Frame TcpFrame World Udp SocketApi Addrconf IpIn Stack WorldFacts WorldCalls UdpWire TcpDeliver Passive TcpControl Handshake.
Import Utils SkBuff Timer TcpTypes TcpBase TcpOutput TcpSender TcpData TcpInput TcpAck TcpReasm TcpApi TcpWire Ipv6 Net Neigh IpOut Frame TcpFrame World Udp SocketApi Addrconf IpIn Stack WorldFacts WorldCalls UdpWire TcpDeliver Passive TcpControl Handshake.

Module TcpOpen.

Implicit Type s : st net.
Implicit Type w : world.

(** ** The newest socket *)

Definition with_last (l : list entry) (e : entry) w : world := set_w_socks (l ++ [e]) w.

Lemma with_last_eq l e w : w_socks w = l ++ [e] -> w = with_last l e w.
Proof. intros E. unfold with_last. rewrite <- E. by destruct w. Qed.

Definition lock (o : socket) : socket := set_so_locked true (set_so_refcnt (so_refcnt o + 1) o).
Definition unlock (o : socket) : socket :=
  let n := so_refcnt o - 1 in set_so_freed (so_freed o || (n =? 0)) (set_so_locked false (set_so_refcnt n o)).

Lemma find_snoc {A} (f : A -> bool) k e : find f k = None -> f e = true -> find f (k ++ [e]) = Some e.
Proof. intros H He. induction k as [|x k IH]; simpl in *; [by rewrite He|]. destruct (f x); [done|]. by apply IH. Qed.

Section Last.
Context (l : list entry) (id : Z) (N : forall x, x ∈ l -> e_id x <> id).

Lemma wl_find e w : e_id e = id -> find_entry id (with_last l e w) = Some e.
Proof. intros E. unfold find_entry, with_last. cbn [w_socks set_w_socks]. by apply find_last. Qed.

Lemma wl_upd f e w : e_id e = id -> upd_entry id f (with_last l e w) = with_last l (f e) w.
Proof.
  intros E. unfold upd_entry, with_last. cbn [w_socks set_w_socks]. rewrite fmap_app. cbn [fmap list_fmap]. rewrite E, Z.eqb_refl.
  rewrite fmap_fix; [done|]. intros x Hx. destruct (Z.eqb_spec (e_id x) id) as [Ei|]; [by destruct (N x Hx)|done].
Qed.

Lemma wl_acquire e w :
  e_id e = id -> so_locked (c_so e) = false -> so_acquire id (with_last l e w) = with_last l (set_c_so (lock (c_so e)) e) w.
Proof.
  intros E Hl. unfold so_acquire. rewrite (wl_find e w E), Hl. unfold on_so. by rewrite wl_upd.
Qed.

Lemma wl_release e w :
  e_id e = id -> so_locked (c_so e) = true -> so_release id (with_last l e w) = with_last l (set_c_so (unlock (c_so e)) e) w.
Proof.
  intros E Hl. unfold so_release. rewrite (wl_find e w E), Hl. unfold on_so. by rewrite wl_upd.
Qed.

Lemma wl_put s e w : e_id e = id -> self s = id -> put s (with_last l e w) = with_last l (entry_of s (c_ops e)) (set_w_env (en s) w).
Proof. intros E Hs. unfold put. rewrite Hs, (wl_upd _ e w E). done. Qed.

Lemma wl_tcp e t w : e_id e = id -> c_tcp e = Some t -> tcp_of id (with_last l e w) = Some (focus e t w).
Proof. intros E Ht. unfold tcp_of. rewrite (wl_find e w E). cbn [mbind option_bind]. by rewrite Ht. Qed.

Lemma wl_st s w : so_id (so s) = id -> tcp_of id (with_last l (entry_of s inet_stream_ops) (set_w_env (en s) w)) = Some s.
Proof. intros E. rewrite (wl_tcp (entry_of s inet_stream_ops) (mk_tp (tb s) (tm s) (cc s) (sa s) (ofo s) (ptsk s))); [by destruct s|by rewrite id_entry_of|done]. Qed.

(** The newest socket is found when no other one matches. *)
Lemma wl_lookup saddr daddr sport dport e w :
  e_id e = id -> find (fun x => (sk_addr_family (c_sk x) =? AF_INET) && tcp_sock_match_established (c_sk x) AF_INET saddr daddr None None sport dport) l = None ->
  connection saddr daddr sport dport (c_sk e) -> inet_lookup saddr daddr sport dport (with_last l e w) = Some id.
Proof.
  intros E Hl Hc. apply connection_match in Hc. unfold inet_lookup, socket_lookup, tcp_lookup_established, find_sock, with_last.
  cbn [w_socks set_w_socks].
  rewrite (find_snoc _ l e); [simpl; by rewrite E|exact Hl|exact Hc].
Qed.
End Last.

(** ** [connect] *)

(** The port [generate_port] hands out. *)
Definition client_port (e : env net) : Z := u16 (s32 (e_port e + 1) + tick (e_timers e) mod 10000).
Definition peer_addr (addr : list Z) : Z := bswap32 (s_addr addr).
Definition peer_port (addr : list Z) : Z := bswap16 (sin_port addr).

(** The socket with its addresses, before [tcp_connect]. *)
Definition dial_sock (addr : list Z) (port : Z) (k : sock) : sock :=
  let k := set_sk_sport port (set_sk_dport (peer_port addr) k) in
  let k := set_sk_daddr (set_v4 (peer_addr addr) (sk_daddr k)) k in
  set_sk_saddr (set_v4 lvl_ip_addr (sk_saddr k)) k.
Definition dial_state (addr : list Z) s : st net :=
  upd_en (set_e_port (s32 (e_port (en s) + 1))) (upd_sk (dial_sock addr (client_port (en s))) s).

Lemma v4_connect_unfold addr s : tcp_v4_connect addr s = tcp_connect (dial_state addr s).
Proof. done. Qed.

Definition new_sock : sock := sock_init_data IPPROTO_TCP AF_INET TCP_CLOSE.

Lemma dial_addrs addr port k :
  sk_saddr k = replicate 16 0 -> sk_daddr k = replicate 16 0 ->
  ld32 (sk_daddr (dial_sock addr port k)) 0 = peer_addr addr /\ ld32 (sk_saddr (dial_sock addr port k)) 0 = lvl_ip_addr /\
  bytes_ok (sk_daddr (dial_sock addr port k)).
Proof.
  intros E1 E2. unfold dial_sock, set_v4. cbv zeta. cbn [sk_daddr sk_saddr set_sk_sport set_sk_dport set_sk_daddr set_sk_saddr]. rewrite E1, E2. rewrite !ld32_st32_eq by (rewrite length_replicate; lia).
  split; [apply u32_id, bswap32_range|]. split; [done|]. apply st32_ok. apply Forall_replicate. red. lia.
Qed.

Lemma connect_sends addr s i rt dmac :
  sk s = set_sk_err (- EISCONN) new_sock -> sa s = tcp_alloc_sack -> cc s = tcp_alloc_cong ->
  route_to (e_lower (en s)) (peer_addr addr) i rt dmac ->
  exists s' rc f, tcp_v4_connect addr s = Done s' rc /\ dialled (dial_state addr s) s' (next_iss (en s)) f /\
    ctl_frame f (nd_addr (dev_of (rt_dev rt) (e_lower (en s)))) (peer_addr addr) (client_port (en s)) (peer_port addr)
      (next_iss (en s)) 0 44477 true false syn_opts.
Proof.
  intros Hk Ha Hc Rt. rewrite v4_connect_unfold.
  assert (E : sk (dial_state addr s) = dial_sock addr (client_port (en s)) (sk s) /\ sa (dial_state addr s) = sa s /\ cc (dial_state addr s) = cc s /\
    e_lower (en (dial_state addr s)) = e_lower (en s) /\ iss_of (dial_state addr s) = next_iss (en s)) by done.
  set (s0 := dial_state addr s) in *. clearbody s0. destruct E as (E1 & E2 & E3 & E4 & E5).
  destruct (dial_addrs addr (client_port (en s)) (sk s)) as (D1 & D2 & D3); [by rewrite Hk..|]. rewrite <- E1 in D1, D2, D3.
  assert (K : sk_addr_family (sk s0) = AF_INET /\ sk_state (sk s0) = TCP_CLOSE /\ sk_sport (sk s0) = client_port (en s) /\
    sk_dport (sk s0) = peer_port addr /\ sk_write_queue (sk s0) = skb_queue_init) by (by rewrite E1, Hk). destruct K as (K1 & K2 & K3 & K4 & K5).
  destruct (connect_syn s0 (nd_addr (dev_of (rt_dev rt) (e_lower (en s)))) (peer_addr addr) i rt dmac) as (s' & rc & f & C & Di & Fr);
    rewrite ?E2, ?E3; try done.
  - constructor; rewrite ?K3, ?K4, ?E4; try done; [apply u16_range|apply bswap16_range].
  - unfold wq. by rewrite K5.
  - by rewrite K5.
  - rewrite E5, K3, K4 in Fr. rewrite E5 in Di. by exists s', rc, f.
Qed.

(** The socket of a thread that sleeps in [connect]. *)
Definition dialling_entry s (o : socket) : entry :=
  mk_entry (unlock (set_so_state SS_CONNECTING (lock o))) (set_sk_err (- EINPROGRESS) (sk s))
    (Some (mk_tp (tb s) (tm s) (cc s) (sa s) (ofo s) (ptsk s))) inet_stream_ops.

(** The state [connect] works on. *)
Definition connecting pc w0 w : st net :=
  mk_st (set_sk_err (- EISCONN) new_sock) tcp_alloc_tcb tcp_alloc_timing tcp_alloc_cong tcp_alloc_sack skb_queue_init None
    (lock (new_socket pc SOCK_STREAM w0)) (w_env w).

Lemma connect_call pc fd addr n l w0 w i rt dmac :
  let id := w_next_id w0 in
  let o := new_socket pc SOCK_STREAM w0 in
  (forall x, x ∈ l -> e_id x <> id) -> get_socket pc fd (with_last l (fresh pc w0) w) = Some id ->
  2 <= n < 2147483648 -> sa_family addr = AF_INET -> route_to (w_net w) (peer_addr addr) i rt dmac ->
  exists s f, _connect pc fd addr n (with_last l (fresh pc w0) w) =
      (with_last l (dialling_entry s o) (park pc id WaitConnect (set_w_env (en s) w)), Sleeping (w_next_thread w)) /\
    dialled (dial_state addr (connecting pc w0 w)) s (next_iss (w_env w)) f /\
    ctl_frame f (nd_addr (dev_of (rt_dev rt) (w_net w))) (peer_addr addr) (client_port (w_env w)) (peer_port addr)
      (next_iss (w_env w)) 0 44477 true false syn_opts.
Proof.
  intros id o N Hg Hn Hf Rt. unfold _connect, call. rewrite Hg. cbv zeta.
  rewrite (wl_acquire l id N) by done. set (e1 := set_c_so (lock (c_so (fresh pc w0))) (fresh pc w0)).
  unfold with_entry at 1. rewrite (wl_find l id N e1 w) by done. change (c_ops e1) with inet_stream_ops. cbv iota.
  unfold inet_stream_connect. change (e_id e1) with id. cbv zeta. rewrite Hf. change (AF_INET =? AF_UNSPEC) with false.
  assert (U : u64 n <? 2 = false) by (unfold u64; rewrite Z.mod_small by lia; lia). rewrite U.
  change (so_state (c_so e1)) with SS_UNCONNECTED. change (sk_state (c_sk e1)) with TCP_CLOSE. change (negb (state_is TCP_CLOSE TCP_CLOSE)) with false. cbv iota.
  unfold on_sk at 1 2. rewrite (wl_upd l id N) by done. set (e2 := set_c_sk (set_sk_err (- EISCONN) (c_sk e1)) e1).
  unfold with_tcp. rewrite (wl_tcp l id N e2 (mk_tp tcp_alloc_tcb tcp_alloc_timing tcp_alloc_cong tcp_alloc_sack skb_queue_init None)) by done.
  change (net_ops_of (c_ops e1)) with tcp_ops. cbv iota. change (focus e2 _ w) with (connecting pc w0 w).
  destruct (connect_sends addr (connecting pc w0 w) i rt dmac) as (s & rc & f & -> & Di & Fr); [done..|]. exists s, f. split; [|by split].
  assert (So : so s = lock o) by (rewrite (di_so _ _ _ _ Di); done). cbn [after_tcp finish]. clear Di Fr.
  unfold connect_started. rewrite (wl_put l id N s e2) by (done || unfold self; rewrite So; done). change (c_ops e2) with inet_stream_ops.
  set (e3 := entry_of s inet_stream_ops). assert (I3 : e_id e3 = id) by (unfold e3; rewrite id_entry_of, So; done).
  unfold on_so, on_sk. rewrite (wl_upd l id N) by done. rewrite (wl_upd l id N) by done. set (e4 := set_c_sk _ _).
  assert (E4 : e4 = mk_entry (set_so_state SS_CONNECTING (lock o)) (set_sk_err (- EINPROGRESS) (sk s)) (Some (mk_tp (tb s) (tm s) (cc s) (sa s) (ofo s) (ptsk s))) inet_stream_ops)
    by (unfold e4, e3, set_c_sk, set_c_so, entry_of; cbn [c_so c_sk c_tcp c_ops]; by rewrite So).
  clearbody e4. subst e4. set (e4 := mk_entry _ _ _ _). cbv zeta. unfold with_entry at 1. rewrite (wl_find l id N e4) by done.
  change (negb (Z.land (so_flags (c_so e4)) O_NONBLOCK =? 0)) with false. cbv iota.
  unfold connect_wait, with_entry. rewrite (wl_find l id N e4) by done. change (bool_decide _ && _) with true. cbv iota.
  unfold sleep. rewrite (wl_release l id N e4) by done. done.
Qed.

(** ** A segment for the newest socket *)

Lemma input_last l id (N : forall x, x ∈ l -> e_id x <> id) e t th b x w s rc :
  e_id e = id -> c_tcp e = Some t -> so_locked (c_so e) = false -> sk_state (c_sk e) <> TCP_LISTEN ->
  tcp_input_conn th b (focus (set_c_so (lock (c_so e)) e) t w) = Done s rc -> so_id (so s) = id ->
  tcp_input_state id th b x (so_acquire id (with_last l e w)) =
    with_last l (entry_of (socket_release s) (c_ops e)) (set_w_env (en (socket_release s)) w).
Proof.
  intros Ei Ht Hl Hs Hc Hi. rewrite (wl_acquire l id N e w Ei Hl). set (e1 := set_c_so (lock (c_so e)) e) in *.
  unfold tcp_input_state. rewrite (wl_tcp l id N e1 t w) by done. change (state (focus e1 t w)) with (sk_state (c_sk e)).
  assert (Si : self (socket_release s) = id) by (unfold self; destruct (release_fields s) as (_ & _ & _ & _ & -> & _); exact Hi).
  destruct (sk_state (c_sk e)); try done; rewrite Hc; by rewrite (wl_put l id N _ e1 w).
Qed.

(** What a connection keeps when its socket is released. *)
Lemma release_same s : sa (socket_release s) = sa s /\ ptsk (socket_release s) = ptsk s /\ e_lower (en (socket_release s)) = e_lower (en s) /\
  e_passive (en (socket_release s)) = e_passive (en s) /\ (so_locked (so s) = true -> so (socket_release s) = unlock (so s)).
Proof. unfold socket_release. by destruct (so_locked (so s)). Qed.

(** ** The client *)

(** The client's end of an open connection, from its SYN numbered [x] and the answer
    numbered [y] that advertised [win]. *)
Record client_end (addr : list Z) (port x y win : Z) (o : socket) s : Prop := {
  ce_state : state s = TCP_ESTABLISHED;
  ce_err : sk_err (sk s) = 0;
  ce_key : conn_key (sk s) = conn_key (dial_sock addr port new_sock);
  ce_rq : receive_queue s = skb_queue_init;
  ce_wq : wq s = [] /\ queue_ok (sk_write_queue (sk s));
  ce_una : snd_una (tb s) = x + 1;
  ce_nxt : snd_nxt (tb s) = x + 1;
  ce_wnd : snd_wnd (tb s) = win;
  ce_rcv_nxt : rcv_nxt (tb s) = u32 (y + 1);
  ce_rcv_wnd : rcv_wnd (tb s) = 44477 /\ real_rcv_wnd (tb s) = 44477;
  ce_cc : cc s = tcp_alloc_cong;
  ce_ofo : ofo s = skb_queue_init;
  ce_so : so s = set_so_state SS_CONNECTED o
}.

Lemma client_hears pc addr l w0 w1 w s f1 f i rt dmac y win x from :
  let o := new_socket pc SOCK_STREAM w0 in
  let id := w_next_id w0 in
  let port := client_port (w_env w1) in
  (forall e, e ∈ l -> e_id e <> id) ->
  find (fun x => (sk_addr_family (c_sk x) =? AF_INET) &&
    tcp_sock_match_established (c_sk x) AF_INET (peer_addr addr) lvl_ip_addr None None (peer_port addr) port) l = None ->
  dialled (dial_state addr (connecting pc w0 w1)) s x f1 -> w_env w = en s ->
  route_to (w_net w1) (peer_addr addr) i rt dmac -> nd_addr (dev_of (rt_dev rt) (w_net w1)) = from ->
  0 < x -> x + 1 < 4294967296 -> is_u16 win ->
  ctl_frame f (peer_addr addr) lvl_ip_addr (peer_port addr) port y (x + 1) win true true synack_opts ->
  exists sc f3, netdev_rx_loop f (with_last l (dialling_entry s o) w) = with_last l (entry_of sc inet_stream_ops) (set_w_env (en sc) (rx_world w)) /\
    client_end addr port x y win o sc /\ e_passive (en sc) = e_passive (w_env w) /\
    net_kept (w_net w) (e_lower (en sc)) /\ n_wire (e_lower (en sc)) = n_wire (w_net w) ++ [f3] /\
    ctl_frame f3 from (peer_addr addr) port (peer_port addr) (x + 1) (u32 (y + 1)) 44477 false true [].
Proof.
  intros o id port N Hl Di Hw Rt Hfrom Hx1 Hx2 Hwin Cf.
  destruct (rx_control f _ _ _ _ _ _ _ _ _ _ (with_last l (dialling_entry s o) w) Cf) as (th & b & H & ->).
  change (rx_world (with_last l (dialling_entry s o) w)) with (with_last l (dialling_entry s o) (rx_world w)).
  destruct (di_sk _ _ _ _ Di) as (q & Ks & Q). set (k0 := dial_sock addr port (set_sk_err (- EISCONN) new_sock)) in *.
  change (sk (dial_state addr (connecting pc w0 w1))) with k0 in Ks.
  destruct (dial_addrs addr port (set_sk_err (- EISCONN) new_sock)) as (D1 & D2 & D3); [done..|]. fold k0 in D1, D2, D3.
  assert (Hc : connection (peer_addr addr) lvl_ip_addr (peer_port addr) port (c_sk (dialling_entry s o))).
  { unfold connection, dialling_entry. cbn [c_sk]. rewrite Ks. unfold v4_of.
    cbn [sk_protocol sk_addr_family sk_state sk_sport sk_dport sk_daddr sk_saddr set_sk_err set_sk_write_queue set_sk_state]. rewrite D1, D2. by split_and!. }
  rewrite (wl_lookup l id _ _ _ _ (dialling_entry s o) (rx_world w) eq_refl Hl Hc).
  set (t := mk_tp (tb s) (tm s) (cc s) (sa s) (ofo s) (ptsk s)). set (s2 := focus (set_c_so (lock (c_so (dialling_entry s o))) (dialling_entry s o)) t (rx_world w)).
  assert (F : sk s2 = set_sk_err (- EINPROGRESS) (sk s) /\ tb s2 = tb s /\ cc s2 = cc s /\ sa s2 = sa s /\ ofo s2 = ofo s /\
    so s2 = lock (set_so_state SS_CONNECTING o) /\ e_lower (en s2) = w_net w /\ e_passive (en s2) = e_passive (w_env w)) by done.
  assert (Inp : tcp_input_conn th b s2 = tcp_synsent th b s2) by (unfold tcp_input_conn, state; change (sk s2) with (set_sk_err (- EINPROGRESS) (sk s)); by rewrite Ks).
  assert (Il : forall s' rc, tcp_input_conn th b s2 = Done s' rc -> so_id (so s') = id ->
    tcp_input_state id th b (st32 (replicate 16 0) 0 (peer_addr addr)) (so_acquire id (with_last l (dialling_entry s o) (rx_world w))) =
    with_last l (entry_of (socket_release s') inet_stream_ops) (set_w_env (en (socket_release s')) (rx_world w))).
  { intros s' rc E1 E2. eapply (input_last l id N (dialling_entry s o) t); try done. cbn [c_sk dialling_entry]. by rewrite Ks. }
  clearbody s2. destruct F as (F1 & F2 & F3 & F4 & F5 & F6 & F7 & F8). rewrite Ks in F1. rewrite (di_tb _ _ _ _ Di) in F2.
  rewrite (di_cc _ _ _ _ Di) in F3. rewrite (di_sa _ _ _ _ Di) in F4. rewrite (di_ofo _ _ _ _ Di) in F5.
  assert (Kw : net_kept (w_net w1) (w_net w)) by (unfold w_net at 2; rewrite Hw; exact (di_kept _ _ _ _ Di)). rewrite u32_id in F2 by (red; lia).
  destruct (synsent_connected th b s2 from (peer_addr addr) i rt dmac (peer_port addr) port x y win) as (s' & f3 & E & Co & Fr); try done.
  - constructor; rewrite ?F1, ?F7; try done; [apply u16_range|apply bswap16_range|by rewrite (dev_kept _ _ _ Kw)|by apply (route_kept (w_net w1))].
  - by rewrite F1.
  - by rewrite F2.
  - by rewrite F2.
  - by rewrite F2.
  - by rewrite F3.
  - unfold no_options. by rewrite F4.
  - by rewrite F4.
  - by rewrite F4.
  - rewrite F1, F2 in Fr. destruct Co as [C1 C2 C3 C4 C5 C6 C7 C8 C9 C10 C11 C12 C13 C14 C15 C16 C17].
    rewrite <- Inp in E. rewrite F6 in C14. specialize (Il s' 0 E). rewrite Il by (by rewrite C14).
    destruct (release_fields s') as (R1 & R2 & R3 & R4 & _). destruct (release_same s') as (_ & _ & R5 & R6 & R7).
    rewrite C14 in R7. specialize (R7 eq_refl). set (sc := socket_release s') in *. clearbody sc.
    exists sc, f3. split; [done|]. rewrite F7 in C16, C17. rewrite F8 in C15. split; [|split_and!; try congruence; exact Fr].
    unfold state, wq, receive_queue in *. constructor; unfold state, wq, receive_queue; rewrite ?R1, ?R2, ?R7; try done; try congruence.
    + rewrite C3, F1. done.
    + rewrite C4, F1. done.
    + rewrite F2 in C10. done.
    + rewrite R3, C11, F3. done.
    + rewrite R4, C13, F5. done.
Qed.

(** ** The server *)

(** A child of listener [idl] that answered a SYN numbered [x], which advertised [win],
    from [from]:[port] to [d]:[dport] with a SYN-ACK numbered [y]. *)
Record child_wait (idl from d port dport x y win : Z) (o : socket) s : Prop := {
  cw_state : state s = TCP_SYN_RECEIVED;
  cw_conn : connection from d port dport (sk s);
  cw_rq : receive_queue s = skb_queue_init;
  cw_wq : holds_control (sk_write_queue (sk s)) y;
  cw_tb : tb s = set_snd_nxt (u32 (y + 2)) (child_block y win x);
  cw_cc : cc s = tcp_alloc_cong;
  cw_ofo : ofo s = skb_queue_init;
  cw_ptsk : ptsk s = Some idl;
  cw_so : so s = o
}.

Lemma fork_conn local saddr th from d port dport q :
  v4_of local = d -> ld32 saddr 0 = from -> is_u32 d -> is_u32 from -> th_sport th = port ->
  let k := set_sk_write_queue q (fork_addrs AF_INET local saddr dport th (set_sk_state TCP_SYN_RECEIVED new_sock)) in
  connection from d port dport k /\ ld32 (sk_daddr k) 0 = from /\ bytes_ok (sk_daddr k) /\ sk_receive_queue k = skb_queue_init.
Proof.
  intros Hl Hs U1 U2 Hp k. assert (K : sk_daddr k = set_v4 from (replicate 16 0) /\ sk_saddr k = set_v4 d (replicate 16 0) /\ sk_dport k = port).
  { rewrite <- Hl, <- Hs, <- Hp. done. }
  destruct K as (K1 & K2 & K3). unfold connection. rewrite K1, K2, K3, !v4_set by done. rewrite !u32_id by done.
  split; [done|]. unfold set_v4. rewrite ld32_st32_eq by (rewrite length_replicate; lia). rewrite u32_id by done.
  split; [done|]. split; [|done]. apply st32_ok, Forall_replicate. red. lia.
Qed.

Lemma server_answers ws r from d port dport x win f i rt dmac :
  world_ok ws -> w_next_id ws < 2147479552 -> r ∈ w_socks ws -> listener d dport (c_sk r) -> so_locked (c_so r) = false -> 0 < so_refcnt (c_so r) ->
  inet_lookup from d port dport ws = Some (e_id r) -> is_u32 d -> is_u32 from -> is_u16 port -> is_u16 dport -> is_u16 win ->
  ctl_frame f from d port dport x 0 win true false syn_opts -> route_to (w_net ws) from i rt dmac -> nd_addr (dev_of (rt_dev rt) (w_net ws)) = d ->
  let y := next_iss (w_env ws) in
  let w1 := netdev_rx_loop f ws in
  exists s b f2, w_socks w1 = w_socks ws ++ [entry_of s inet_stream_ops] /\ w_env w1 = en (do_free_skb b s) /\ w_next_id w1 = w_next_id ws + 1 /\
    child_wait (e_id r) from d port dport x y win (new_socket (so_pid (c_so r)) SOCK_STREAM ws) s /\ e_passive (en s) = e_passive (w_env ws) /\
    n_wire (e_lower (en s)) = n_wire (w_net ws) ++ [f2] /\
    ctl_frame f2 d from dport port y (u32 (x + 1)) 44477 true true synack_opts.
Proof.
  intros O Hn Hr Li Hk Hc Lk U1 U2 U3 U4 U5 Cf Rt Hd y w1.
  destruct (rx_control f _ _ _ _ _ _ _ _ _ _ ws Cf) as (th & b & H & E). unfold w1. rewrite E. clear E w1.
  change (inet_lookup from d port dport (rx_world ws)) with (inet_lookup from d port dport ws). rewrite Lk. set (wr := rx_world ws).
  assert (Or : world_ok wr) by (destruct O; by constructor).
  pose proof (find_entry_in _ _ Or (Hr : r ∈ w_socks wr)) as Fr. pose proof Li as (L1 & L2 & L3 & L4 & L5).
  set (sa0 := st32 (replicate 16 0) 0 from). assert (Es : ld32 sa0 0 = from).
  { unfold sa0. rewrite ld32_st32_eq by (rewrite length_replicate; lia). by apply u32_id. }
  destruct (listen_input (e_id r) th b sa0 wr r Or Hn Fr ltac:(by rewrite L4, L5) Hk Hc (hd_syn _ _ _ _ _ _ _ _ _ _ H)
    ltac:(rewrite (hd_win _ _ _ _ _ _ _ _ _ _ H); red in U5; lia)) as (I1 & I2 & I3).
  pose proof (forked_newborn (so_pid (c_so r)) th b (sk_saddr (c_sk r)) sa0 (sk_sport (c_sk r)) wr _ _ _ _ _ _ _ _ H ltac:(by left)) as [B1 B2 B3 B4 B5 B6 B7 B8].
  set (s := forked_state _ _ _ _ _ wr) in *. clearbody s. rewrite L4 in B1. change (next_iss (w_env wr)) with y in B2.
  change (new_socket (so_pid (c_so r)) SOCK_STREAM wr) with (new_socket (so_pid (c_so r)) SOCK_STREAM ws) in B6.
  change (w_net wr) with (w_net ws) in B8. change (e_passive (w_env wr)) with (e_passive (w_env ws)) in B7.
  rewrite (hd_seq _ _ _ _ _ _ _ _ _ _ H), (hd_win _ _ _ _ _ _ _ _ _ _ H) in B2. fold new_sock in B1.
  destruct (fork_conn (sk_saddr (c_sk r)) sa0 th from d port dport skb_queue_init L5 Es U1 U2 (hd_sport _ _ _ _ _ _ _ _ _ _ H)) as ((M1 & M2 & M3 & M4 & M5 & M6 & M7) & Cd & Co & _).
  assert (Eq : set_sk_write_queue skb_queue_init (sk s) = sk s) by (by rewrite B1). rewrite <- B1, Eq in *.
  assert (Uy : is_u32 y) by apply u32_range.
  destruct (synack_sent (e_id r) s d from i rt dmac) as (f2 & An & Ff); rewrite ?B2; try done.
  - constructor; rewrite ?B8, ?M4, ?M5; try done; by rewrite Hd.
  - unfold state. by rewrite B1.
  - unfold wq. by rewrite B1.
  - by rewrite B1.
  - red in U5. change (0 <= win). lia.
  - apply u32_range.
  - rewrite B2, M4, M5 in Ff. set (s' := synack (e_id r) s) in *. clearbody s'. destruct An as [(q & A1 & Q) A2 A3 A4 A5 A6 A7 A8 A9 A10].
    rewrite B2 in A2, Q. rewrite B8 in A10.
    destruct (fork_conn (sk_saddr (c_sk r)) sa0 th from d port dport q L5 Es U1 U2 (hd_sport _ _ _ _ _ _ _ _ _ _ H)) as (Cn & _ & _ & Rq).
    rewrite <- B1, <- A1 in Cn, Rq. exists s', b, f2. split; [exact I1|]. split; [exact I2|]. split; [exact I3|].
    split; [|split; [by rewrite A8|]; split; [exact A10|exact Ff]].
    constructor; try done; try congruence.
    + unfold state. rewrite A1, B1. done.
    + by rewrite A1.
Qed.

Lemma free_env b s w : w_env w = en (do_free_skb b s) -> e_passive (w_env w) = e_passive (en s) /\ w_net w = e_lower (en s).
Proof. unfold w_net. intros ->. unfold do_free_skb. by destruct (free_skb b). Qed.

(** The server's end of an open connection. *)
Record server_end (from d port dport x y win : Z) (o : socket) s : Prop := {
  se_state : state s = TCP_ESTABLISHED;
  se_conn : connection from d port dport (sk s);
  se_rq : receive_queue s = skb_queue_init;
  se_wq : wq s = [] /\ queue_ok (sk_write_queue (sk s));
  se_una : snd_una (tb s) = y + 1;
  se_nxt : snd_nxt (tb s) = y + 2;
  se_wnd : snd_wnd (tb s) = win;
  se_rcv_nxt : rcv_nxt (tb s) = x + 1;
  se_rcv_wnd : rcv_wnd (tb s) = 44477 /\ real_rcv_wnd (tb s) = 44477;
  se_cc : exists v, cc s = set_last_ack_win v tcp_alloc_cong;
  se_ofo : ofo s = skb_queue_init;
  se_so : so s = o
}.

Lemma connection_key saddr daddr sport dport k k' :
  conn_key k' = conn_key k -> sk_state k' <> TCP_LISTEN -> connection saddr daddr sport dport k -> connection saddr daddr sport dport k'.
Proof. unfold conn_key, connection. intros [= E1 E2 E3 E4 E5 E6] Hs (?&?&_&?&?&?&?). rewrite E1, E2, E3, E4, E5, E6. done. Qed.

Lemma child_hears l s w idl from d port dport x y win win' pid ws ch f :
  let o := new_socket pid SOCK_STREAM ws in
  let id := w_next_id ws in
  (forall e, e ∈ l -> e_id e <> id) ->
  find (fun x => (sk_addr_family (c_sk x) =? AF_INET) && tcp_sock_match_established (c_sk x) AF_INET from d None None port dport) l = None ->
  child_wait idl from d port dport x y win o s -> e_passive (w_env w) !! idl = Some ch ->
  0 <= x -> x + 1 + 44477 < 4294967296 -> 0 < y -> y + 2 < 4294967296 ->
  ctl_frame f from d port dport (x + 1) (y + 1) win' false true [] ->
  exists sr, netdev_rx_loop f (with_last l (entry_of s inet_stream_ops) w) = with_last l (entry_of sr inet_stream_ops) (set_w_env (en sr) (rx_world w)) /\
    server_end from d port dport x y win o sr /\ e_lower (en sr) = w_net w /\
    e_passive (en sr) = <[idl := conn_queue_tail ch id]> (e_passive (w_env w)).
Proof.
  intros o id N Hl [C1 C2 C3 C4 C5 C6 C7 C8 C9] Hp X1 X2 Y1 Y2 Cf.
  destruct (rx_control f _ _ _ _ _ _ _ _ _ _ (with_last l (entry_of s inet_stream_ops) w) Cf) as (th & b & H & ->).
  change (rx_world (with_last l (entry_of s inet_stream_ops) w)) with (with_last l (entry_of s inet_stream_ops) (rx_world w)).
  assert (Ei : e_id (entry_of s inet_stream_ops) = id) by (rewrite id_entry_of, C9; done).
  rewrite (wl_lookup l id _ _ _ _ _ (rx_world w) Ei Hl C2). set (e := entry_of s inet_stream_ops) in *.
  set (t := mk_tp (tb s) (tm s) (cc s) (sa s) (ofo s) (ptsk s)). set (s2 := focus (set_c_so (lock (c_so e)) e) t (rx_world w)).
  assert (F : sk s2 = sk s /\ tb s2 = tb s /\ cc s2 = cc s /\ ofo s2 = ofo s /\ ptsk s2 = ptsk s /\
    so s2 = lock (so s) /\ e_lower (en s2) = w_net w /\ e_passive (en s2) = e_passive (w_env w)) by done.
  assert (Il : forall s' rc, tcp_input_conn th b s2 = Done s' rc -> so_id (so s') = id ->
    tcp_input_state id th b (st32 (replicate 16 0) 0 from) (so_acquire id (with_last l e (rx_world w))) =
    with_last l (entry_of (socket_release s') inet_stream_ops) (set_w_env (en (socket_release s')) (rx_world w))).
  { intros s' rc E1 E2. eapply (input_last l id N e t); try done; [change (so_locked (so s) = false); by rewrite C9|].
    change (sk_state (c_sk e)) with (state s). by rewrite C1. }
  clearbody s2. destruct F as (F1 & F2 & F3 & F5 & F6 & F7 & F8 & F9). rewrite C5 in F2. rewrite C6 in F3. rewrite C7 in F5. rewrite C8 in F6. rewrite C9 in F7.
  assert (T : snd_una (tb s2) = y /\ snd_nxt (tb s2) = y + 2 /\ rcv_nxt (tb s2) = x + 1 /\ snd_wnd (tb s2) = win /\ rcv_wnd (tb s2) = 44477 /\ real_rcv_wnd (tb s2) = 44477).
  { rewrite F2. unfold child_block. cbn [snd_una snd_nxt rcv_nxt snd_wnd rcv_wnd real_rcv_wnd set_snd_nxt set_snd_wl2 set_snd_wl1 set_snd_wnd set_snd_una set_irs set_real_rcv_wnd set_rcv_wnd set_rcv_nxt].
    rewrite !u32_id by (red; lia). done. }
  clear F2 C5. destruct T as (T1 & T2 & T3 & T4 & T5 & T6).
  assert (S2 : state s2 = TCP_SYN_RECEIVED) by (unfold state; rewrite F1; exact C1).
  assert (J : joined s2 (tcp_otherwise th b s2).1 idl ch y win').
  { apply (received_established th b s2 idl ch port dport y win'); rewrite ?T3, ?T5, ?F3; try done; try lia; [by rewrite F1|by rewrite F9]. }
  assert (Ein : exists rc, tcp_input_conn th b s2 = Done (tcp_otherwise th b s2).1 rc) by (unfold tcp_input_conn; rewrite S2; destruct (tcp_otherwise th b s2); by eexists).
  destruct Ein as [rc Ein]. set (s' := (tcp_otherwise th b s2).1) in *. clearbody s'. destruct J as [J1 J2 J3 J4 J5 J6 J7 J8 J9 J10].
  rewrite F7 in J8. rewrite (Il s' rc Ein) by (by rewrite J8).
  destruct (release_fields s') as (R1 & R2 & R3 & R4 & _). destruct (release_same s') as (_ & _ & R5 & R6 & R7).
  rewrite J8 in R7. specialize (R7 eq_refl). set (sr := socket_release s') in *. clearbody sr.
  assert (Sf : self s2 = id) by (unfold self; by rewrite F7). rewrite Sf, F9 in J10. rewrite F1 in J2, J3.
  exists sr. split; [done|]. split; [|split; congruence].
  unfold state, wq, receive_queue in *. constructor; unfold state, wq, receive_queue; rewrite ?R1, ?R2, ?J5; try done; try congruence.
  - eapply connection_key, C2; [exact J2|by rewrite J1].
  - exists win'. by rewrite R3, J6, F3.
Qed.

(** ** The calls return *)

Lemma find_upd_ne id id' f w :
  id <> id' -> (forall x, e_id x = id' -> e_id (f x) = id') -> find_entry id (upd_entry id' f w) = find_entry id w.
Proof.
  intros Hne Hf. unfold find_entry, upd_entry. cbn [w_socks set_w_socks]. induction (w_socks w) as [|x k IH]; [done|].
  cbn [find fmap list_fmap]. destruct (Z.eqb_spec (e_id x) id') as [E|E].
  - rewrite (proj2 (Z.eqb_neq (e_id x) id)) by congruence. rewrite (proj2 (Z.eqb_neq (e_id (f x)) id)) by (rewrite (Hf x E); congruence). exact IH.
  - destruct (e_id x =? id); [done|exact IH].
Qed.

Lemma get_socket_upd p fd id f w :
  (forall x, x ∈ w_socks w -> e_id x = id -> so_id (c_so (f x)) = so_id (c_so x) /\ so_pid (c_so (f x)) = so_pid (c_so x) /\ so_fd (c_so (f x)) = so_fd (c_so x)) ->
  get_socket p fd (upd_entry id f w) = get_socket p fd w.
Proof.
  unfold get_socket, upd_entry. cbn [w_socks set_w_socks]. induction (w_socks w) as [|x k IH]; intros Hf; [done|].
  cbn [find fmap list_fmap]. specialize (IH (fun y Hy => Hf y (list_elem_of_further y x k Hy))).
  destruct (Z.eqb_spec (e_id x) id) as [E|E].
  - destruct (Hf x (list_elem_of_here x k) E) as (E1 & E2 & E3). rewrite E2, E3. destruct (_ && _); [simpl; unfold e_id; by rewrite E1|exact IH].
  - destruct (_ && _); [done|exact IH].
Qed.

Lemma find_id w e : world_ok w -> e ∈ w_socks w -> forall x, x ∈ w_socks w -> e_id x = e_id e -> x = e.
Proof. intros O He x Hx E. by apply (ids_unique w). Qed.

(** [accept] hands out the connection at the head of the queue. *)
Lemma accept_returns m w r t ec ch rest :
  world_ok w -> w_next_id w <= 2147479552 -> r ∈ w_socks w -> c_tcp r = Some t -> sk_state (c_sk r) = TCP_LISTEN -> c_ops r = inet_stream_ops ->
  so_locked (c_so r) = false -> 2 <= m < 4294967296 -> e_passive (w_env w) !! e_id r = Some ch -> 0 < ch_qlen ch -> ch_list ch = e_id ec :: rest ->
  ec ∈ w_socks w -> so_pid (c_so ec) = so_pid (c_so r) -> e_id ec <> e_id r ->
  (run_syscall (so_pid (c_so r)) (Accept (so_fd (c_so r)) m) w).2 =
    Returned (so_fd (c_so ec)) [] (build_sockaddr_from_host_order (sk_dport (c_sk ec)) (v4_of (sk_daddr (c_sk ec)))).1.
Proof.
  intros O Hn Hr Ht St Ho Hl Hm Hp Hq Hc He Hpid Hne. pose proof (find_entry_in _ _ O Hr) as Fr. pose proof (find_entry_in _ _ O He) as Fe.
  set (id := e_id r) in *. cbn [run_syscall]. unfold _accept, call. rewrite (get_socket_in w r O Hn Hr). fold id. cbv zeta.
  unfold so_acquire. rewrite Fr, Hl. unfold on_so. fold lock. set (w1 := upd_entry id _ w). set (r1 := set_c_so (lock (c_so r)) r).
  assert (Fr1 : find_entry id w1 = Some r1) by (apply (find_upd id (fun e => set_c_so (lock (c_so e)) e)); done).
  assert (Fe1 : find_entry (e_id ec) w1 = Some ec) by (unfold w1; rewrite find_upd_ne; done).
  assert (Gs1 : get_socket (so_pid (c_so r)) (so_fd (c_so ec)) w1 = Some (e_id ec)).
  { unfold w1. rewrite get_socket_upd by done. rewrite <- Hpid. by apply get_socket_in. }
  assert (Uq : forall x, x ∈ w_socks w1 -> e_id x = id -> c_so x = lock (c_so r)).
  { intros x Hx Ex. unfold w1, upd_entry in Hx. cbn [w_socks set_w_socks] in Hx. apply list_elem_of_fmap in Hx as (z & -> & Hz).
    destruct (Z.eqb_spec (e_id z) id) as [Ez|Ez]; [by rewrite (find_id w r O Hr z Hz Ez)|done]. }
  assert (Ev : w_env w1 = w_env w) by done. clearbody w1.
  unfold with_entry. rewrite Fr1. change (c_ops r1) with (c_ops r). rewrite Ho. change (e_id r1) with id. unfold inet_stream_accept.
  rewrite u32_id by (red; lia). destruct (Z.ltb_spec m 2); [lia|]. unfold tcp_v4_accept, with_tcp, accept_turn.
  assert (Tc : tcp_of id w1 = Some (focus r1 t w1)) by (by apply tcp_of_find). rewrite Tc.
  change (state (focus r1 t w1)) with (sk_state (c_sk r)). rewrite St. change (negb (state_is TCP_LISTEN TCP_LISTEN)) with false. cbv iota.
  unfold with_tcp. rewrite Tc. set (s := focus r1 t w1). unfold get_established_conn. change (self s) with id.
  change (e_passive (en s)) with (e_passive (w_env w1)). rewrite Ev, Hp. destruct (Z.ltb_spec 0 (ch_qlen ch)); [|lia]. rewrite Hc. cbv zeta iota.
  set (s1 := upd_en _ s). assert (S1 : self s1 = id /\ so s1 = lock (c_so r)) by done. clearbody s1. destruct S1 as [S1 S2].
  assert (Fe2 : find_entry (e_id ec) (put s1 w1) = Some ec).
  { unfold put. rewrite S1. change (find_entry (e_id ec) (upd_entry id (fun e => entry_of s1 (c_ops e)) w1) = Some ec).
    rewrite find_upd_ne; [done|done|]. intros x _. by rewrite id_entry_of, S2. }
  assert (Gs2 : get_socket (so_pid (so s1)) (so_fd (c_so ec)) (put s1 w1) = Some (e_id ec)).
  { rewrite S2. change (so_pid (lock (c_so r))) with (so_pid (c_so r)). rewrite <- Gs1. unfold put. rewrite S1.
    change (get_socket (so_pid (c_so r)) (so_fd (c_so ec)) (upd_entry id (fun e => entry_of s1 (c_ops e)) w1) = get_socket (so_pid (c_so r)) (so_fd (c_so ec)) w1).
    apply get_socket_upd. intros x Hx Ex. cbn [c_so entry_of]. by rewrite S2, (Uq x Hx Ex). }
  rewrite Fe2. cbn [mbind option_bind]. rewrite Gs2. cbn [mbind option_bind]. by rewrite Fe2.
Qed.

(** The thread that slept in [connect] returns 0 once the connection is open. *)
Lemma connect_returns tid pc id l s w :
  (forall x, x ∈ l -> e_id x <> id) -> so_id (so s) = id -> so_locked (so s) = false -> so_state (so s) = SS_CONNECTED -> sk_err (sk s) = 0 ->
  (run_thread (mk_thread tid pc id WaitConnect) (with_last l (entry_of s inet_stream_ops) w)).2 = Returned 0 [] [].
Proof.
  intros N Hi Hl Hc He. unfold run_thread, resume_call. cbn [t_at t_pid t_sock]. set (e := entry_of s inet_stream_ops).
  assert (Ei : e_id e = id) by (unfold e; by rewrite id_entry_of). rewrite (wl_acquire l id N e w Ei Hl). set (e1 := set_c_so (lock (c_so e)) e).
  unfold connect_wait, with_entry. rewrite (wl_find l id N e1 w Ei). change (so_state (c_so e1)) with (so_state (so s)). rewrite Hc.
  change (bool_decide (SS_CONNECTED = SS_CONNECTING)) with false. cbn [andb]. unfold connect_done, so_acquire. rewrite (wl_find l id N e1 w Ei).
  change (so_locked (c_so e1)) with true. cbv iota zeta. unfold on_so. rewrite !(wl_upd l id N _ e1 w Ei). set (e2 := set_c_so _ e1).
  unfold with_entry. change (find_entry id (w_fault FaultDeadlock (with_last l e2 w))) with (find_entry id (with_last l e2 w)).
  rewrite (wl_find l id N e2 w) by done. change (sk_err (c_sk e2)) with (sk_err (sk s)). rewrite He. change (0 =? 0) with true. cbv iota zeta.
  unfold connect_tail. cbv zeta. change (_ || _) with false. done.
Qed.

(** ** Both stacks *)

Lemma lookup_none saddr daddr sport dport w :
  tcp_lookup_established AF_INET saddr daddr None None sport dport w = None ->
  find (fun x => (sk_addr_family (c_sk x) =? AF_INET) && tcp_sock_match_established (c_sk x) AF_INET saddr daddr None None sport dport) (w_socks w) = None.
Proof. unfold tcp_lookup_established, find_sock. by destruct (find _ _). Qed.

(** [socket] and [connect] on the client's stack, up to the SYN. *)
Lemma client_dials pc addr n w0 i rt dmac :
  let w1 := (run_syscall pc (Socket AF_INET SOCK_STREAM) w0).1 in
  world_ok w0 -> w_next_id w0 < 2147479552 -> 2 <= n < 2147483648 -> sa_family addr = AF_INET -> route_to (w_net w0) (peer_addr addr) i rt dmac ->
  (run_syscall pc (Socket AF_INET SOCK_STREAM) w0).2 = Returned (w_fd w0) [] [] /\
  exists s f tid w, run_syscall pc (Connect (w_fd w0) addr n) w1 = (with_last (w_socks w0) (dialling_entry s (new_socket pc SOCK_STREAM w0)) w, Sleeping tid) /\
    w_env w = en s /\ w_env w1 = w_env w0 /\ w_next_id w = w_next_id w0 + 1 /\ dialled (dial_state addr (connecting pc w0 w1)) s (next_iss (w_env w0)) f /\
    ctl_frame f (nd_addr (dev_of (rt_dev rt) (w_net w0))) (peer_addr addr) (client_port (w_env w0)) (peer_port addr) (next_iss (w_env w0)) 0 44477 true false syn_opts.
Proof.
  intros w1 O Hn Hl Hf Rt. destruct (socket4 pc w0 O) as (E2 & E1 & E0). pose proof (socket_next pc AF_INET SOCK_STREAM w0) as N1.
  assert (Ew : run_syscall pc (Socket AF_INET SOCK_STREAM) w0 = ((_socket pc AF_INET SOCK_STREAM w0).1, Returned (_socket pc AF_INET SOCK_STREAM w0).2 [] []))
    by (cbn [run_syscall]; by destruct (_socket pc AF_INET SOCK_STREAM w0)).
  assert (O1 : world_ok (_socket pc AF_INET SOCK_STREAM w0).1)
    by apply (ev_ok _ _ _ _ (ev_socket (fun _ => True) pc w0 AF_INET SOCK_STREAM w0 I (evolves_refl _ _ w0) O)).
  unfold w1. rewrite Ew. cbn [fst snd]. rewrite E2. split; [done|]. clear Ew w1. set (w1 := (_socket pc AF_INET SOCK_STREAM w0).1) in *. clearbody w1.
  pose proof (with_last_eq (w_socks w0) (fresh pc w0) w1 E1) as Ew. cbn [run_syscall].
  assert (Hg : get_socket pc (w_fd w0) w1 = Some (w_next_id w0)).
  { apply (get_socket_in w1 (fresh pc w0) O1); [lia|]. rewrite E1. apply elem_of_app. right. by apply list_elem_of_singleton. }
  rewrite Ew in Hg. assert (Rt1 : route_to (w_net w1) (peer_addr addr) i rt dmac) by (unfold w_net; by rewrite E0).
  destruct (connect_call pc (w_fd w0) addr n (w_socks w0) w0 w1 i rt dmac (old_ids w0 O) Hg Hl Hf Rt1) as (s & f & C & Di & Fr).
  rewrite <- Ew in C. unfold w_net in Fr. rewrite E0 in Di, Fr.
  exists s, f, (w_next_thread w1), (park pc (w_next_id w0) WaitConnect (set_w_env (en s) w1)). rewrite C. by split_and!.
Qed.

(** [accept] after the last frame of the opening. *)
Lemma accept_opened m ws w r from d port dport x y win sr mx :
  let w2 := with_last (w_socks ws) (entry_of sr inet_stream_ops) (set_w_env (en sr) w) in
  world_ok ws -> world_ok w2 -> w_next_id w <= 2147479552 -> r ∈ w_socks ws -> listener d dport (c_sk r) -> c_ops r = inet_stream_ops ->
  so_locked (c_so r) = false -> 2 <= m < 4294967296 ->
  server_end from d port dport x y win (new_socket (so_pid (c_so r)) SOCK_STREAM ws) sr ->
  e_passive (en sr) !! e_id r = Some (conn_queue_tail (mk_ch [] 0 mx) (w_next_id ws)) ->
  (run_syscall (so_pid (c_so r)) (Accept (so_fd (c_so r)) m) w2).2 = Returned (w_fd ws) [] (build_sockaddr_from_host_order port from).1.
Proof.
  intros w2 O O2 Hn Hr Li Ho Hl Hm Se Hp. destruct (entry_ok_tcp r (wo_kind _ O r Hr)) as [t Ht]; [apply Li|].
  pose proof (se_so _ _ _ _ _ _ _ _ _ Se) as So. destruct (se_conn _ _ _ _ _ _ _ _ _ Se) as (_ & _ & _ & _ & C1 & C2 & _).
  set (ec := entry_of sr inet_stream_ops) in *. assert (K : c_so ec = so sr /\ c_sk ec = sk sr) by done. destruct K as [K1 K2].
  assert (Ei : e_id ec = w_next_id ws) by (unfold ec; by rewrite id_entry_of, So).
  assert (Hin : w_socks w2 = w_socks ws ++ [ec] /\ w_env w2 = en sr /\ w_next_id w2 = w_next_id w) by done. clearbody ec w2. destruct Hin as (I1 & I2 & I3).
  rewrite (accept_returns m w2 r t ec (conn_queue_tail (mk_ch [] 0 mx) (w_next_id ws)) []); rewrite ?K1, ?K2, ?So, ?C1, ?C2, ?I1, ?I2, ?I3, ?Ei; try done.
  - apply elem_of_app. by left.
  - apply Li.
  - apply elem_of_app. right. by apply list_elem_of_singleton.
  - intros E. by apply (old_ids ws O r Hr).
Qed.

(** The client sends to its peer. *)
Lemma opened_flow addr port x y win o s i rt dmac :
  client_end addr port x y win o s -> is_u16 port -> route_to (e_lower (en s)) (peer_addr addr) i rt dmac ->
  flow s (nd_addr (dev_of (rt_dev rt) (e_lower (en s)))) (peer_addr addr) port (peer_port addr) (rcv_nxt (tb s)) i rt dmac.
Proof.
  intros C Hp Rt. pose proof (ce_key _ _ _ _ _ _ _ C) as K. destruct (dial_addrs addr port new_sock eq_refl eq_refl) as (D1 & _ & D3).
  unfold conn_key in K. injection K as K1 K2 K3 K4 K5 K6.
  constructor; rewrite ?K1, ?K2, ?K3, ?K4, ?K5, ?K6; try done; [apply bswap16_range|]. rewrite (ce_rcv_nxt _ _ _ _ _ _ _ C). apply u32_range.
Qed.

(** Each end satisfies the sender's invariant. *)
Lemma client_inv addr port x y win o s :
  client_end addr port x y win o s -> 0 < x -> x + 1 < 4294967296 -> is_u16 win -> snd_inv s.
Proof.
  intros C Hx1 Hx2 Hw. destruct (ce_wq _ _ _ _ _ _ _ C) as [Q1 Q2]. red in Hw.
  constructor; rewrite ?Q1, ?(ce_una _ _ _ _ _ _ _ C), ?(ce_nxt _ _ _ _ _ _ _ C), ?(ce_wnd _ _ _ _ _ _ _ C), ?(ce_cc _ _ _ _ _ _ _ C);
    try done; try lia. simpl. lia.
Qed.

Lemma server_inv from d port dport x y win o s :
  server_end from d port dport x y win o s -> 0 < y -> y + 2 < 4294967296 -> is_u16 win -> snd_inv s.
Proof.
  intros C Hy1 Hy2 Hw. destruct (se_wq _ _ _ _ _ _ _ _ _ C) as [Q1 Q2]. destruct (se_cc _ _ _ _ _ _ _ _ _ C) as [v Ec]. red in Hw.
  constructor; rewrite ?Q1, ?(se_una _ _ _ _ _ _ _ _ _ C), ?(se_nxt _ _ _ _ _ _ _ _ _ C), ?(se_wnd _ _ _ _ _ _ _ _ _ C), ?Ec;
    try done; try lia. simpl. lia.
Qed.

End TcpOpen.
