(* ===== verification/IpcFacts.v ===== *)
(** The server as it runs: every response belongs to the request it answers, and the
    connections, the threads they sleep in and the table of sockets stay in step. *)
From S2P Require Import Prelude TcpTypes TcpApi World SocketApi IpIn Stack WorldFacts WorldCalls Ipc IpcWire.
Import TcpTypes TcpApi World SocketApi IpIn Stack WorldFacts WorldCalls Ipc IpcWire.

Module IpcFacts.

(** ** Responses *)

(** What a handler may end with, for the request [m]. *)
Definition result_ok (m : list Z) (r : ipc_result) : Prop :=
  match r with
  | Sent m' response _ => length m' = length m /\ headed (msg_type m) (msg_pid m) response /\ (14 <= length response)%nat
  | NoReply m' _ => length m' = length m
  | IpcFault _ => True
  end.
Definition action_ok (m : list Z) (a : ipc_action) : Prop :=
  match a with
  | Call pid _ k => pid = msg_pid m /\ forall rc out addr, result_ok m (k rc out addr)
  | Finish r => result_ok m r
  end.

Lemma ld_int_int b o : is_int (ld_int b o).
Proof. unfold is_int, ld_int. ulia. Qed.

Section Handlers.
Context (g m : list Z) (type : Z) (Htype : msg_type m = type) (Hu : is_u16 type).

Lemma pid_int : is_int (msg_pid m).
Proof using. apply ld_int_int. Qed.
Lemma head_ok k : (6 <= Z.to_nat k)%nat -> headed (msg_type m) (msg_pid m) (put_msg type (msg_pid m) (alloca g k)).
Proof using Htype Hu. intros H. rewrite Htype. apply headed_put_msg; [fits|done|apply pid_int]. Qed.
Lemma write_rc_ok rc : result_ok m (ipc_write_rc g m (msg_pid m) type rc).
Proof using Htype Hu.
  unfold ipc_write_rc. cbn [result_ok]. split; [done|]. split; [|fits]. apply headed_put_rc, head_ok. sizes. lia.
Qed.
End Handlers.

(** Resolve the headers of responses by the stores that leave them alone. *)
Ltac head := repeat first [apply headed_st_bytes; [|lia] | apply headed_st32; [|lia] | apply headed_st64; [|lia]
  | apply headed_put_rc | apply headed_put_err | apply headed_put_pollfds; [lia|]]; apply head_ok; [done|done|sizes; try lia].

Lemma demux_ok g m more : action_ok m (demux_ipc_socket_call g m more).
Proof.
  unfold demux_ipc_socket_call.
  destruct (Z.eqb_spec (msg_type m) IPC_SOCKET) as [E|_].
  { split; [done|]. intros rc out addr. by apply write_rc_ok. }
  destruct (Z.eqb_spec (msg_type m) IPC_CONNECT) as [E|_].
  { unfold ipc_connect. cbv zeta. destruct (temp_addr _ _ _); [|done]. split; [done|]. intros. by apply write_rc_ok. }
  destruct (Z.eqb_spec (msg_type m) IPC_WRITE) as [E|_].
  { unfold ipc_write. cbv zeta. destruct (_ <=? _); [done|]. destruct (_ <? _); [destruct more; [|done]|];
      (split; [done|]; intros; by apply write_rc_ok). }
  destruct (Z.eqb_spec (msg_type m) IPC_READ) as [E|_].
  { unfold ipc_read. cbv zeta. destruct (_ <=? _); [done|]. split; [done|]. intros rlen out addr. cbv zeta.
    set (n := if 0 <? rlen then rlen else 0). assert (0 <= n) by (unfold n; destruct (Z.ltb_spec 0 rlen); lia). clearbody n.
    destruct (_ <? n); [done|]. split; [done|]. split; [by head|fits]. }
  destruct (Z.eqb_spec (msg_type m) IPC_CLOSE) as [E|_].
  { split; [done|]. intros. by apply write_rc_ok. }
  destruct (Z.eqb_spec (msg_type m) IPC_POLL) as [E|_].
  { unfold ipc_poll. cbv zeta. destruct (_ <? _); [done|]. split; [done|]. intros rc revents addr. split; [done|].
    assert (0 <= u64 (ld64 m 6)) by ulia. split; [head|rewrite length_put_pollfds; fits]. }
  destruct (Z.eqb_spec (msg_type m) IPC_FCNTL) as [E|_].
  { unfold ipc_fcntl. cbv zeta. destruct (_ =? F_GETFL); [split; [done|]; intros; by apply write_rc_ok|].
    destruct (_ =? F_SETFL); [split; [done|]; intros; by apply write_rc_ok|]. by apply write_rc_ok. }

  destruct (Z.eqb_spec (msg_type m) IPC_GETSOCKOPT) as [E|_].
  { unfold ipc_getsockopt. cbv zeta. split; [done|]. intros rc optval addr. cbv zeta. destruct (_ <? _); [done|].
    assert (0 <= u32 (ld32 m 18)) by ulia. split; [by rewrite length_st_bytes|]. split; [head|fits]. }
  destruct (Z.eqb_spec (msg_type m) IPC_GETPEERNAME) as [E|_].
  { split; [done|]. intros rc out name. unfold ipc_sockname_reply. split; [done|]. split; [|destruct name; fits]. destruct name; by head. }
  destruct (Z.eqb_spec (msg_type m) IPC_GETSOCKNAME) as [E|_].
  { split; [done|]. intros rc out name. unfold ipc_sockname_reply. split; [done|]. split; [|destruct name; fits]. destruct name; by head. }
  destruct (Z.eqb_spec (msg_type m) IPC_BIND) as [E|_].
  { unfold ipc_bind. cbv zeta. destruct (temp_addr _ _ _); [|done]. split; [done|]. intros. by apply write_rc_ok. }
  destruct (Z.eqb_spec (msg_type m) IPC_SENDTO) as [E|_].
  { unfold ipc_sendto. cbv zeta. destruct (temp_addr _ _ _); [|done]. destruct (_ <? _); [done|].
    split; [done|]. intros. by apply write_rc_ok. }
  destruct (Z.eqb_spec (msg_type m) IPC_RECVFROM) as [E|_].
  { unfold ipc_recvfrom. cbv zeta. destruct (_ <=? _); [done|]. split; [done|]. intros rlen out from. cbv zeta.
    set (n := if 0 <? rlen then rlen else 0). assert (0 <= n) by (unfold n; destruct (Z.ltb_spec 0 rlen); lia). clearbody n.
    destruct (_ || _); [done|]. split; [done|]. split; [by head|fits]. }
  destruct (Z.eqb_spec (msg_type m) IPC_LISTEN) as [E|_].
  { split; [done|]. intros. by apply write_rc_ok. }
  destruct (Z.eqb_spec (msg_type m) IPC_ACCEPT) as [E|_]; [|done].
  unfold ipc_accept. cbv zeta. destruct (temp_addr _ _ _); [|done]. split; [done|]. intros rc out from. split; [done|].
  split; [by head|fits].
Qed.

(** ** Threads of the stack *)

Definition ids (w : world) : list Z := t_id <$> w_threads w.
Record numbered (w : world) : Prop := mk_numbered {
  nb_nodup : NoDup (ids w);
  nb_next : forall t, t ∈ ids w -> t < w_next_thread w
}.

Lemma grows_ids w w' : grows w w' ->
  exists l, ids w' = ids w ++ l /\ NoDup l /\ (forall t, t ∈ l -> w_next_thread w <= t < w_next_thread w') /\ w_next_thread w <= w_next_thread w'.
Proof.
  intros (l & E1 & E2 & E3). exists (t_id <$> l). unfold ids. rewrite E1, fmap_app, E2. split; [done|].
  split; [apply NoDup_seqZ|]. split; [|lia]. intros t Ht. apply elem_of_seqZ in Ht. lia.
Qed.
Lemma grows_numbered w w' : grows w w' -> numbered w -> numbered w'.
Proof.
  intros (l & E & Nl & Hl & Hn)%grows_ids [N H]. constructor; rewrite E.
  - apply NoDup_app. split; [done|]. split; [|done]. intros t Ht1 Ht2. specialize (H t Ht1). specialize (Hl t Ht2). lia.
  - intros t [Ht|Ht]%elem_of_app; [specialize (H t Ht); lia|by apply Hl].
Qed.
Lemma grows_in w w' t : grows w w' -> t ∈ ids w -> t ∈ ids w'.
Proof. intros (l & E & _)%grows_ids Ht. rewrite E. apply elem_of_app. by left. Qed.

(** What a step of the stack does for its caller. *)
Definition progress (w : world) (o : world * outcome) : Prop :=
  world_ok o.1 /\ grows w o.1 /\ match o.2 with Sleeping t => w_next_thread w <= t /\ t ∈ ids o.1 | _ => True end.

Lemma quiet_progress T p w o : world_ok w -> quiet T p w o -> progress w o.
Proof. intros O [E _ Q]. split; [apply (ev_ok _ _ _ _ (E O))|]. split; [apply (ev_grows _ _ _ _ (E O))|by apply Q]. Qed.
Lemma syscall_progress pid c w : world_ok w -> progress w (run_syscall pid c w).
Proof. intros O. eapply quiet_progress; [done|]. apply (quiet_syscall anything pid w c w); [done..|apply runs_here]. Qed.
Lemma thread_progress t w : thread_ok t -> world_ok w -> progress w (run_thread t w).
Proof.
  intros Ht O. unfold run_thread.
  assert (Q : progress w (resume_call t w)).
  { eapply quiet_progress; [done|]. apply (quiet_resume anything (t_pid t) w t w); [done..|apply runs_here]. }
  destruct (t_at t) as [| | | | | |h a]; try exact Q.
  pose proof (rn_ev _ _ _ _ _ (runs_callback anything 0 w h a w (fun _ => I) (runs_here _ _ w)) O) as E.
  split; [apply (ev_ok _ _ _ _ E)|]. split; [apply (ev_grows _ _ _ _ E)|done].
Qed.
Lemma frame_grows frame w : world_ok w -> grows w (netdev_rx_loop frame w).
Proof.
  intros O. destruct (settles_rx w O frame w) as [p R]; [intros p; apply runs_here|]. apply (ev_grows _ _ _ _ (rn_ev _ _ _ _ _ R O)).
Qed.
Lemma tick_progress busy ok w : world_ok w -> world_ok (timers_step busy ok w) /\ grows w (timers_step busy ok w).
Proof.
  intros O. pose proof (rn_ev _ _ _ _ _ (runs_timers anything 0 w busy ok w (runs_here _ _ w)) O) as E.
  split; [apply (ev_ok _ _ _ _ E)|apply (ev_grows _ _ _ _ E)].
Qed.

(** ** Connections *)

(** A connection of a server whose world is [w]: its buffer, and the thread it sleeps
    in, whose result it will answer. *)
Definition conn_ok (w : world) (c : ipc_conn) : Prop :=
  length (ic_buf c) = Z.to_nat IPC_BUFLEN /\
  match ic_wait c with
  | Some (t, k) => t ∈ ids w /\ forall rc out addr, result_ok (ic_buf c) (k rc out addr)
  | None => True
  end.
Definition waits (c : ipc_conn) : option Z := fst <$> ic_wait c.

Record server_ok (s : server) : Prop := mk_server_ok {
  sk_world : world_ok (sv_world s);
  sk_numbered : numbered (sv_world s);
  sk_count : sv_count s = Z.of_nat (length (sv_threads s));
  sk_socks : NoDup (ic_sock <$> sv_conns s);
  sk_conns : forall c, c ∈ sv_conns s -> conn_ok (sv_world s) c;
  sk_listed : forall c, c ∈ sv_conns s -> ic_sock c ∈ th_sock <$> sv_threads s;
  sk_waits : forall c c' t, c ∈ sv_conns s -> c' ∈ sv_conns s -> waits c = Some t -> waits c' = Some t -> c = c'
}.

Lemma conn_ok_world w w' c : (forall t, t ∈ ids w -> t ∈ ids w') -> conn_ok w c -> conn_ok w' c.
Proof. intros H [L C]. split; [done|]. destruct (ic_wait c) as [[t k]|]; [|done]. destruct C. auto. Qed.

Lemma set_world_ok w' s :
  server_ok s -> world_ok w' -> grows (sv_world s) w' -> server_ok (set_sv_world w' s).
Proof.
  intros [H1 H2 H3 H4 H5 H6 H7] O G. constructor; try done; cbn [sv_world set_sv_world sv_conns].
  - by eapply grows_numbered.
  - intros c Hc. eapply conn_ok_world; [|by apply H5]. intros t. by apply grows_in.
Qed.

Lemma in_others c sock s : c ∈ others sock s <-> ic_sock c <> sock /\ c ∈ sv_conns s.
Proof. unfold others. by rewrite list_elem_of_filter. Qed.
Lemma drop_ok sock s : server_ok s -> server_ok (drop_conn sock s).
Proof.
  intros [H1 H2 H3 H4 H5 H6 H7]. constructor; try done; cbn [sv_world set_sv_conns drop_conn sv_conns sv_threads].
  - eapply sublist_NoDup; [exact H4|]. apply fmap_sublist, sublist_filter.
  - intros c [_ Hc]%in_others. by apply H5.
  - intros c [_ Hc]%in_others. by apply H6.
  - intros c c' t [_ Hc]%in_others [_ Hc']%in_others. by apply H7.
Qed.
Lemma put_ok c s :
  server_ok (drop_conn (ic_sock c) s) -> conn_ok (sv_world s) c -> ic_sock c ∈ th_sock <$> sv_threads s ->
  (forall c' t, c' ∈ others (ic_sock c) s -> waits c = Some t -> waits c' <> Some t) -> server_ok (put_conn c s).
Proof.
  intros [H1 H2 H3 H4 H5 H6 H7] C L W.
  assert (M : forall x, x ∈ others (ic_sock c) s ++ [c] -> x ∈ others (ic_sock c) s \/ x = c).
  { intros x [H|H]%elem_of_app; [by left|right]. by apply list_elem_of_singleton in H. }
  constructor; try done; cbn [sv_world set_sv_conns put_conn sv_conns sv_threads] in *.
  - rewrite fmap_app. apply NoDup_app. split; [done|]. split; [|apply NoDup_singleton].
    intros x (y & -> & [Hy _]%in_others)%list_elem_of_fmap Hx. by apply list_elem_of_singleton in Hx.
  - intros x [Hx| ->]%M; [by apply H5|done].
  - intros x [Hx| ->]%M; [by apply H6|done].
  - intros x y t [Hx| ->]%M [Hy| ->]%M Ex Ey; [by eapply H7|exfalso; by eapply W|exfalso; by eapply W|done].
Qed.

(** ** Turns *)

Lemma fault_ok f s : server_ok s -> server_ok (set_sv_world (w_fault f (sv_world s)) s).
Proof.
  intros K. apply set_world_ok; [done| |by apply grows_same].
  apply (ev_ok anything 0 (sv_world s)). apply (ev_fault anything 0 (sv_world s) f (sv_world s)); [reflexivity|apply (sk_world _ K)].
Qed.
Lemma end_turn_ok sock m rc s :
  server_ok (drop_conn sock s) -> length m = Z.to_nat IPC_BUFLEN -> sock ∈ th_sock <$> sv_threads s -> server_ok (end_turn sock m rc s).
Proof. intros K Hm Hs. unfold end_turn. destruct (rc =? -1); [done|]. by apply put_ok. Qed.
Lemma finish_ok sock m r s :
  server_ok (drop_conn sock s) -> result_ok m r -> length m = Z.to_nat IPC_BUFLEN -> sock ∈ th_sock <$> sv_threads s ->
  server_ok (finish sock r s).
Proof.
  intros K R Hm Hs. destruct r as [m' response rc|m' rc|f]; cbn [finish result_ok] in *.
  - destruct R as (L & _). apply end_turn_ok; [|congruence|done]. by destruct K.
  - apply end_turn_ok; [done|congruence|done].
  - exact (fault_ok f _ K).
Qed.
Lemma call_done_ok c k w o s :
  server_ok (drop_conn (ic_sock c) (set_sv_world o.1 s)) -> progress w o ->
  (forall c' t, c' ∈ others (ic_sock c) s -> waits c' = Some t -> t < w_next_thread w) ->
  length (ic_buf c) = Z.to_nat IPC_BUFLEN -> (forall rc out addr, result_ok (ic_buf c) (k rc out addr)) ->
  ic_sock c ∈ th_sock <$> sv_threads s -> server_ok (call_done c k o s).
Proof.
  intros K (_ & _ & P) W L R Hs. unfold call_done. destruct o as [w' r]. cbn [fst snd] in *. destruct r as [rc out addr|t| |]; [| |done|done].
  - by apply (finish_ok _ (ic_buf c)).
  - destruct P as [Hn Ht]. apply put_ok; [done|split; [done|split; [done|exact R]]|done|].
    intros c' t' Hc [= <-] E. specialize (W c' t Hc E). lia.
Qed.

Lemma waits_below c t s : server_ok s -> c ∈ sv_conns s -> waits c = Some t -> t < w_next_thread (sv_world s).
Proof.
  intros K Hc E. destruct (sk_conns _ K c Hc) as [_ C]. unfold waits in E. destruct (ic_wait c) as [[t' k]|]; [|done]. injection E as ->.
  apply (nb_next _ (sk_numbered _ K)), C.
Qed.

Lemma request_ok c bytes more g s :
  server_ok s -> c ∈ sv_conns s -> server_ok (ipc_request c bytes more g s).
Proof.
  intros K Hc. unfold ipc_request. cbn [ic_buf ic_sock].
  destruct (sk_conns _ K c Hc) as [L _]. set (m := st_bytes _ _ _). assert (Lm : length m = Z.to_nat IPC_BUFLEN) by (unfold m; by rewrite length_st_bytes).
  pose proof (demux_ok g m more) as A. destruct (demux_ipc_socket_call g m more) as [pid call k|r]; cbn [action_ok] in A.
  - destruct A as [-> A]. pose proof (syscall_progress (msg_pid m) call (sv_world s) (sk_world _ K)) as P.
    apply (call_done_ok (mk_conn (ic_sock c) m None) k (sv_world s)); cbn [ic_sock ic_buf]; [|exact P| |done|done|by apply (sk_listed _ K)].
    + apply drop_ok, set_world_ok; [done|apply P|apply P].
    + intros c' t [_ Hc']%in_others E. by eapply waits_below.
  - eapply finish_ok; [by apply drop_ok|exact A|done|by apply (sk_listed _ K)].
Qed.

Lemma remove_sock_spec sock l :
  match remove_sock sock l with
  | Some l' => length l = S (length l') /\ forall x, x <> sock -> x ∈ th_sock <$> l -> x ∈ th_sock <$> l'
  | None => sock ∉ th_sock <$> l
  end.
Proof.
  induction l as [|th l IH]; cbn [remove_sock]; [apply not_elem_of_nil|]. destruct (Z.eqb_spec (th_sock th) sock) as [E|E].
  - split; [done|]. intros x Hx Hin. cbn in Hin. apply elem_of_cons in Hin as [->|?]; done.
  - destruct (remove_sock sock l) as [l'|]; cbn.
    + destruct IH as [IH1 IH2]. split; [by rewrite IH1|]. intros x Hx Hin. apply elem_of_cons in Hin as [->|Hin]; [by left|].
      right. by apply IH2.
    + intros [?|?]%elem_of_cons; [by destruct E|done].
Qed.
Lemma hangup_ok c s : server_ok s -> c ∈ sv_conns s -> server_ok (ipc_hangup c s).
Proof.
  intros K Hc. unfold ipc_hangup, ipc_free_thread. pose proof (remove_sock_spec (ic_sock c) (sv_threads s)) as R.
  destruct (remove_sock _ _) as [l|]; [|by apply drop_ok]. destruct R as [R1 R2].
  destruct (drop_ok (ic_sock c) s K) as [H1 H2 H3 H4 H5 H6 H7]. constructor; try done; cbn [sv_count sv_threads drop_conn set_sv_conns sv_conns] in *.
  - rewrite H3, R1. lia.
  - intros x Hx. apply R2; [|by apply H6]. by apply in_others in Hx as [? _].
Qed.
Lemma accept_ok sock buf s :
  server_ok s -> sock ∉ ic_sock <$> sv_conns s -> length buf = Z.to_nat IPC_BUFLEN ->
  server_ok (put_conn (mk_conn sock buf None) (ipc_alloc_thread sock s)).
Proof.
  intros K Hs Hb. apply put_ok; [|done| |done].
  - destruct (drop_ok sock s K) as [H1 H2 H3 H4 H5 H6 H7]. constructor; try done; cbn [sv_count sv_threads drop_conn set_sv_conns sv_conns ipc_alloc_thread] in *.
    + rewrite H3, length_app. cbn. lia.
    + intros c Hc. rewrite fmap_app. apply elem_of_app. left. by apply H6.
  - cbn. rewrite fmap_app. apply elem_of_app. right. by left.
Qed.

(** A thread that no connection waits for is taken from the list. *)
Lemma take_ok l1 t l2 s :
  server_ok s -> w_threads (sv_world s) = l1 ++ t :: l2 -> (forall c, c ∈ sv_conns s -> waits c <> Some (t_id t)) ->
  server_ok (set_sv_world (set_w_threads (l1 ++ l2) (sv_world s)) s).
Proof.
  intros [H1 H2 H3 H4 H5 H6 H7] E W.
  assert (I : ids (sv_world s) = (t_id <$> l1) ++ t_id t :: (t_id <$> l2)) by (unfold ids; by rewrite E, fmap_app).
  assert (I' : ids (set_w_threads (l1 ++ l2) (sv_world s)) = (t_id <$> l1) ++ (t_id <$> l2)) by (unfold ids; cbn; by rewrite fmap_app).
  constructor; try done; cbn [sv_world set_sv_world sv_conns].
  - by apply (take_thread l1 t l2).
  - destruct H2 as [N B]. constructor.
    + rewrite I'. eapply sublist_NoDup; [exact N|]. rewrite I. apply sublist_app; [done|]. by constructor.
    + intros x Hx. apply B. rewrite I. rewrite I' in Hx. set_solver.
  - intros c Hc. destruct (H5 c Hc) as [L C]. split; [done|]. specialize (W c Hc). unfold waits in W.
    destruct (ic_wait c) as [[t' k]|]; [|done]. destruct C as [C1 C2]. split; [|done]. rewrite I in C1. rewrite I'.
    cbn in W. assert (t' <> t_id t) by congruence. set_solver.
Qed.
Lemma wake_ok l1 t l2 s :
  server_ok s -> w_threads (sv_world s) = l1 ++ t :: l2 -> server_ok (ipc_wake t (set_w_threads (l1 ++ l2) (sv_world s)) s).
Proof.
  intros K E. unfold ipc_wake. cbv zeta. set (w1 := set_w_threads (l1 ++ l2) (sv_world s)).
  destruct (take_thread l1 t l2 _ (sk_world _ K) E) as [Ht O1]. pose proof (thread_progress t w1 Ht O1) as P.
  assert (F : forall c, waits_for (t_id t) c = true <-> waits c = Some (t_id t)).
  { intros c. unfold waits_for, waits. destruct (ic_wait c) as [[t' k]|]; [|done]. cbn. rewrite Z.eqb_eq. split; congruence. }
  destruct (find _ _) as [c|] eqn:Ef.
  - apply find_some in Ef as [Hc Hw]. apply list_elem_of_In in Hc. apply F in Hw.
    destruct (ic_wait c) as [[t' k]|] eqn:Ew; [|by unfold waits in Hw; rewrite Ew in Hw].
    destruct (sk_conns _ K c Hc) as [L C]. rewrite Ew in C. destruct C as [_ R].
    eapply (call_done_ok c k w1); [|exact P| |done|done|by apply (sk_listed _ K)].
    + apply (set_world_ok _ (set_sv_world w1 (drop_conn (ic_sock c) s))); [|apply P|apply P].
      apply (take_ok l1 t l2 (drop_conn (ic_sock c) s)); [by apply drop_ok|done|].
      intros c' [Hn Hc']%in_others E'. apply Hn. by rewrite (sk_waits _ K c' c (t_id t)).
    + intros c' t2 [_ Hc']%in_others E'. by eapply (waits_below c' t2 s).
  - apply (set_world_ok _ (set_sv_world w1 s)); [|apply P|apply P]. apply (take_ok l1 t l2 s); [done|done|].
    intros c Hc E'. apply F in E'. apply list_elem_of_In in Hc. by rewrite (find_none _ _ Ef c Hc) in E'.
Qed.

Lemma ipc_step_ok s s' : ipc_step s s' -> server_ok s -> server_ok s'.
Proof.
  intros S K. destruct S as [sock buf s Hs Hb|c bytes more g s Hc _ _|c s Hc _|frame s|busy ok s|l1 t l2 s E].
  - by apply accept_ok.
  - by apply request_ok.
  - by apply hangup_ok.
  - apply set_world_ok; [done|apply frame_ok, (sk_world _ K)|apply frame_grows, (sk_world _ K)].
  - apply set_world_ok; [done|apply tick_progress, (sk_world _ K)|apply tick_progress, (sk_world _ K)].
  - by apply wake_ok.
Qed.

End IpcFacts.
