(* ===== verification/Sha256.v ===== *)
(** SHA-256 as the verifying client uses it: [src/apps/curl-verify/sha256.c], with the
    definition of FIPS 180-4 as the reference it is compared with. *)
From S2P Require Import Prelude.

Module Sha256.

(** ** The code *)

(** A word from its halves. *)
Definition w32 (hi lo : Z) : Z := hi * 65536 + lo.
Definition k : list Z := Eval cbv in [
  w32 0x428a 0x2f98; w32 0x7137 0x4491; w32 0xb5c0 0xfbcf; w32 0xe9b5 0xdba5; w32 0x3956 0xc25b; w32 0x59f1 0x11f1;
  w32 0x923f 0x82a4; w32 0xab1c 0x5ed5; w32 0xd807 0xaa98; w32 0x1283 0x5b01; w32 0x2431 0x85be; w32 0x550c 0x7dc3;
  w32 0x72be 0x5d74; w32 0x80de 0xb1fe; w32 0x9bdc 0x06a7; w32 0xc19b 0xf174; w32 0xe49b 0x69c1; w32 0xefbe 0x4786;
  w32 0x0fc1 0x9dc6; w32 0x240c 0xa1cc; w32 0x2de9 0x2c6f; w32 0x4a74 0x84aa; w32 0x5cb0 0xa9dc; w32 0x76f9 0x88da;
  w32 0x983e 0x5152; w32 0xa831 0xc66d; w32 0xb003 0x27c8; w32 0xbf59 0x7fc7; w32 0xc6e0 0x0bf3; w32 0xd5a7 0x9147;
  w32 0x06ca 0x6351; w32 0x1429 0x2967; w32 0x27b7 0x0a85; w32 0x2e1b 0x2138; w32 0x4d2c 0x6dfc; w32 0x5338 0x0d13;
  w32 0x650a 0x7354; w32 0x766a 0x0abb; w32 0x81c2 0xc92e; w32 0x9272 0x2c85; w32 0xa2bf 0xe8a1; w32 0xa81a 0x664b;
  w32 0xc24b 0x8b70; w32 0xc76c 0x51a3; w32 0xd192 0xe819; w32 0xd699 0x0624; w32 0xf40e 0x3585; w32 0x106a 0xa070;
  w32 0x19a4 0xc116; w32 0x1e37 0x6c08; w32 0x2748 0x774c; w32 0x34b0 0xbcb5; w32 0x391c 0x0cb3; w32 0x4ed8 0xaa4a;
  w32 0x5b9c 0xca4f; w32 0x682e 0x6ff3; w32 0x748f 0x82ee; w32 0x78a5 0x636f; w32 0x84c8 0x7814; w32 0x8cc7 0x0208;
  w32 0x90be 0xfffa; w32 0xa450 0x6ceb; w32 0xbef9 0xa3f7; w32 0xc671 0x78f2].

Definition ROTR (x n : Z) : Z := Z.lor (Z.shiftr x n) (u32 (Z.shiftl x (32 - n))).

(** [sha256_ctx]: [state] has eight words, [block] 64 bytes. *)
Record sha256_ctx := mk_ctx {
  state : list Z;
  bitlen : Z;  (** [uint64_t] *)
  block : list Z;
  blocklen : Z
}.

(** An element of an array of words. *)
Definition word (l : list Z) (i : nat) : Z := default 0 (l !! i).

(** [w[i]] from four bytes of the block. *)
Definition load_step (blk w : list Z) (i : nat) : list Z :=
  <[i := Z.lor (Z.lor (Z.lor (Z.shiftl (ld8 blk (i * 4)) 24) (Z.shiftl (ld8 blk (i * 4 + 1)) 16)) (Z.shiftl (ld8 blk (i * 4 + 2)) 8)) (ld8 blk (i * 4 + 3))]> w.

Definition extend_step (w : list Z) (i : nat) : list Z :=
  let t1 := Z.lxor (Z.lxor (ROTR (word w (i - 15)) 7) (ROTR (word w (i - 15)) 18)) (Z.shiftr (word w (i - 15)) 3) in
  let t2 := Z.lxor (Z.lxor (ROTR (word w (i - 2)) 17) (ROTR (word w (i - 2)) 19)) (Z.shiftr (word w (i - 2)) 10) in
  <[i := u32 (word w (i - 16) + t1 + word w (i - 7) + t2)]> w.

(** The locals [a] to [h]. *)
Record vars := mk_vars { va : Z; vb : Z; vc : Z; vd : Z; ve : Z; vf : Z; vg : Z; vh : Z }.

Definition round_step (w : list Z) (v : vars) (i : nat) : vars :=
  let '(mk_vars a b c d e f g h) := v in
  let t1 := u32 (h + Z.lxor (Z.lxor (ROTR e 6) (ROTR e 11)) (ROTR e 25) + Z.lxor (Z.land e f) (Z.land (u32 (Z.lnot e)) g) + word k i + word w i) in
  let t2 := u32 (Z.lxor (Z.lxor (ROTR a 2) (ROTR a 13)) (ROTR a 22) + Z.lxor (Z.lxor (Z.land a b) (Z.land a c)) (Z.land b c)) in
  mk_vars (u32 (t1 + t2)) a b c (u32 (d + t1)) e f g.

Definition sha256_transform (blk : list Z) (ctx : sha256_ctx) : sha256_ctx :=
  let w := replicate 64 0 in
  let w := foldl (load_step blk) w (seq 0 16) in
  let w := foldl extend_step w (seq 16 48) in
  let s := state ctx in
  let v := mk_vars (word s 0) (word s 1) (word s 2) (word s 3) (word s 4) (word s 5) (word s 6) (word s 7) in
  let v := foldl (round_step w) v (seq 0 64) in
  mk_ctx [u32 (word s 0 + va v); u32 (word s 1 + vb v); u32 (word s 2 + vc v); u32 (word s 3 + vd v);
          u32 (word s 4 + ve v); u32 (word s 5 + vf v); u32 (word s 6 + vg v); u32 (word s 7 + vh v)]
    (bitlen ctx) (block ctx) (blocklen ctx).

Definition H0 : list Z := Eval cbv in
  [w32 0x6a09 0xe667; w32 0xbb67 0xae85; w32 0x3c6e 0xf372; w32 0xa54f 0xf53a;
   w32 0x510e 0x527f; w32 0x9b05 0x688c; w32 0x1f83 0xd9ab; w32 0x5be0 0xcd19].

(** [block] is left as it is. *)
Definition sha256_init (ctx : sha256_ctx) : sha256_ctx := mk_ctx H0 0 (block ctx) 0.

(** The loop of [sha256_update]: every turn takes at least one byte while
    [blocklen < 64], so the length of the data is enough fuel. *)
Fixpoint update_loop (fuel : nat) (data : list Z) (ctx : sha256_ctx) : sha256_ctx :=
  match fuel, data with
  | S fuel, _ :: _ =>
      let len := Z.of_nat (length data) in
      let fill := 64 - blocklen ctx in
      let fill := if len <? fill then len else fill in
      let n := Z.to_nat fill in
      let ctx := mk_ctx (state ctx) (bitlen ctx) (st_bytes (block ctx) (Z.to_nat (blocklen ctx)) (take n data)) (blocklen ctx + fill) in
      let ctx :=
        if blocklen ctx =? 64 then
          let ctx := sha256_transform (block ctx) ctx in mk_ctx (state ctx) (bitlen ctx) (block ctx) 0
        else ctx in
      update_loop fuel (drop n data) ctx
  | _, _ => ctx
  end.

Definition sha256_update (data : list Z) (ctx : sha256_ctx) : sha256_ctx :=
  update_loop (length data) data
    (mk_ctx (state ctx) (u64 (bitlen ctx + Z.of_nat (length data) * 8)) (block ctx) (blocklen ctx)).

Definition sha256_final (ctx : sha256_ctx) : list Z :=
  let bits := bitlen ctx in
  let ctx := sha256_update [128] ctx in
  let padlen := if 56 <? blocklen ctx then 120 - blocklen ctx else 56 - blocklen ctx in
  let ctx := if 0 <? padlen then sha256_update (replicate (Z.to_nat padlen) 0) ctx else ctx in
  let lenbuf := (fun i => u8 (Z.shiftr bits (56 - Z.of_nat i * 8))) <$> seq 0 8 in
  let ctx := sha256_update lenbuf ctx in
  concat ((fun s => [u8 (Z.shiftr s 24); u8 (Z.shiftr s 16); u8 (Z.shiftr s 8); u8 s]) <$> state ctx).

(** ASCII codes. *)
Definition hexchars : list Z := [48; 49; 50; 51; 52; 53; 54; 55; 56; 57; 97; 98; 99; 100; 101; 102].
Definition sha256_hex (hash : list Z) : list Z :=
  concat ((fun x => [word hexchars (Z.to_nat (Z.shiftr x 4)); word hexchars (Z.to_nat (Z.land x 15))]) <$> hash) ++ [0].

(** ** The reference *)

(** Rotation to the right, bit by bit. *)
Definition rotr (n x : Z) : Z :=
  foldr (fun i acc => Z.lor acc (Z.shiftl (b2z (Z.testbit x ((Z.of_nat i + n) mod 32))) (Z.of_nat i))) 0 (seq 0 32).

Definition Ch (x y z : Z) : Z := Z.lxor (Z.land x y) (Z.land (Z.lnot x) z).
Definition Maj (x y z : Z) : Z := Z.lxor (Z.lxor (Z.land x y) (Z.land x z)) (Z.land y z).
Definition Sigma0 (x : Z) : Z := Z.lxor (Z.lxor (rotr 2 x) (rotr 13 x)) (rotr 22 x).
Definition Sigma1 (x : Z) : Z := Z.lxor (Z.lxor (rotr 6 x) (rotr 11 x)) (rotr 25 x).
Definition sigma0 (x : Z) : Z := Z.lxor (Z.lxor (rotr 7 x) (rotr 18 x)) (Z.shiftr x 3).
Definition sigma1 (x : Z) : Z := Z.lxor (Z.lxor (rotr 17 x) (rotr 19 x)) (Z.shiftr x 10).

(** The words of a block, most significant byte first. *)
Definition be_word (b : list Z) (i : nat) : Z :=
  16777216 * ld8 b (4 * i) + 65536 * ld8 b (4 * i + 1) + 256 * ld8 b (4 * i + 2) + ld8 b (4 * i + 3).

(** The message schedule [W_0 .. W_63], most recent word first. *)
Fixpoint schedule (n : nat) (ws : list Z) : list Z :=
  match n with
  | O => ws
  | S n => schedule n (u32 (sigma1 (word ws 1) + word ws 6 + sigma0 (word ws 14) + word ws 15) :: ws)
  end.
Definition W (b : list Z) : list Z := reverse (schedule 48 (reverse (be_word b <$> seq 0 16))).

Definition round (v : vars) (kw : Z * Z) : vars :=
  let '(mk_vars a b c d e f g h) := v in
  let T1 := h + Sigma1 e + Ch e f g + kw.1 + kw.2 in
  let T2 := Sigma0 a + Maj a b c in
  mk_vars (u32 (T1 + T2)) a b c (u32 (d + T1)) e f g.

Definition vars_list (v : vars) : list Z := [va v; vb v; vc v; vd v; ve v; vf v; vg v; vh v].
Definition compress (h b : list Z) : list Z :=
  let v := foldl round (mk_vars (word h 0) (word h 1) (word h 2) (word h 3) (word h 4) (word h 5) (word h 6) (word h 7)) (zip k (W b)) in
  zip_with (fun x y => u32 (x + y)) h (vars_list v).

(** A one bit, zeros, and the length in bits in 64 bits, to a multiple of 64 bytes. *)
Definition be64 (n : Z) : list Z := (fun i => u8 (Z.shiftr n (8 * (7 - Z.of_nat i)))) <$> seq 0 8.
Definition pad (m : list Z) : list Z :=
  let n := Z.of_nat (length m) in
  m ++ [128] ++ replicate (Z.to_nat ((55 - n) mod 64)) 0 ++ be64 (8 * n).

(** Whole blocks of 64 bytes. *)
Fixpoint blocks (n : nat) (m : list Z) : list (list Z) :=
  match n with O => [] | S n => take 64 m :: blocks n (drop 64 m) end.
Definition full_blocks (m : list Z) : list (list Z) := blocks (length m / 64) m.

Definition be32 (x : Z) : list Z := [u8 (x / 16777216); u8 (x / 65536); u8 (x / 256); u8 x].
Definition SHA256 (m : list Z) : list Z := concat (be32 <$> foldl compress H0 (full_blocks (pad m))).

(** "abc" *)
Example abc : sha256_hex (sha256_final (sha256_update [97; 98; 99] (sha256_init (mk_ctx [] 0 (replicate 64 0) 0)))) =
  sha256_hex (SHA256 [97; 98; 99]) /\
  take 8 (sha256_hex (SHA256 [97; 98; 99])) = [98; 97; 55; 56; 49; 54; 98; 102].
Proof. vm_compute. split; reflexivity. Qed.

(** ** Words *)

Lemma testbit_rot_fold (f : nat -> bool) l j :
  Z.testbit (foldr (fun i acc => Z.lor acc (Z.shiftl (b2z (f i)) (Z.of_nat i))) 0 l) (Z.of_nat j) = existsb (fun i => (i =? j)%nat && f i) l.
Proof.
  induction l as [|x l IH]; simpl; [apply Z.bits_0|]. rewrite Z.lor_spec, IH, orb_comm. f_equal. rewrite Z.shiftl_spec by lia.
  destruct (Nat.eqb_spec x j) as [->|N]; simpl.
  - rewrite Z.sub_diag. by destruct (f j).
  - destruct (Z.lt_ge_cases (Z.of_nat j - Z.of_nat x) 0); [by rewrite Z.testbit_neg_r|].
    destruct (f x); [|apply Z.bits_0]. apply (Z.bits_above_log2 1); simpl; lia.
Qed.
Lemma existsb_seq (f : nat -> bool) n j : existsb (fun i => (i =? j)%nat && f i) (seq 0 n) = (j <? n)%nat && f j.
Proof.
  apply eq_true_iff_eq. rewrite existsb_exists, andb_true_iff, Nat.ltb_lt. split.
  - intros (x & Hx & [E Hf]%andb_true_iff). apply Nat.eqb_eq in E as ->. apply in_seq in Hx. split; [lia|done].
  - intros [Hj Hf]. exists j. rewrite in_seq, Nat.eqb_refl. split; [lia|done].
Qed.
Lemma testbit_rotr n x j : Z.testbit (rotr n x) (Z.of_nat j) = (j <? 32)%nat && Z.testbit x ((Z.of_nat j + n) mod 32).
Proof. unfold rotr. rewrite (testbit_rot_fold (fun i => Z.testbit x ((Z.of_nat i + n) mod 32))). apply (existsb_seq (fun i => Z.testbit x ((Z.of_nat i + n) mod 32))). Qed.

Lemma testbit_u32 x j : 0 <= j -> Z.testbit (u32 x) j = (j <? 32) && Z.testbit x j.
Proof.
  intros Hj. unfold u32. change 4294967296 with (2 ^ 32). destruct (Z.ltb_spec j 32).
  - by rewrite Z.mod_pow2_bits_low.
  - by rewrite Z.mod_pow2_bits_high by lia.
Qed.
Lemma testbit_high x j : is_u32 x -> 32 <= j -> Z.testbit x j = false.
Proof. intros Hx Hj. rewrite <- (u32_id x Hx), testbit_u32 by lia. by rewrite (proj2 (Z.ltb_ge j 32)) by lia. Qed.

(** The rotation by shifts is the rotation of the bits. *)
Lemma ROTR_rotr x n : is_u32 x -> 0 < n < 32 -> ROTR x n = rotr n x.
Proof.
  intros Hx Hn. apply Z.bits_inj'. intros i Hi. rewrite <- (Z2Nat.id i Hi). set (j := Z.to_nat i). clearbody j. clear i Hi.
  rewrite testbit_rotr. unfold ROTR. rewrite Z.lor_spec, Z.shiftr_spec, testbit_u32, Z.shiftl_spec by lia.
  destruct (Nat.ltb_spec j 32); destruct (Z.ltb_spec (Z.of_nat j) 32); try lia; simpl.
  - destruct (Z.lt_ge_cases (Z.of_nat j + n) 32).
    + rewrite (Z.testbit_neg_r x (Z.of_nat j - (32 - n))) by lia. rewrite orb_false_r, Z.mod_small by lia. done.
    + rewrite (testbit_high x) by (done || lia). simpl. f_equal.
      rewrite <- (Z.mod_small (Z.of_nat j - (32 - n)) 32) by lia. replace (Z.of_nat j + n) with (Z.of_nat j - (32 - n) + 1 * 32) by lia.
      by rewrite Z.mod_add by lia.
  - rewrite orb_false_r. by apply testbit_high; [|lia].
Qed.


Lemma land_lnot x y : is_u32 y -> Z.land (u32 (Z.lnot x)) y = Z.land (Z.lnot x) y.
Proof.
  intros Hy. apply Z.bits_inj'. intros j Hj. rewrite !Z.land_spec, testbit_u32 by done. destruct (Z.ltb_spec j 32); [done|].
  by rewrite (testbit_high y), !andb_false_r.
Qed.

(** ** One block *)

Lemma load_word b i : bytes_ok b ->
  Z.lor (Z.lor (Z.lor (Z.shiftl (ld8 b (i * 4)) 24) (Z.shiftl (ld8 b (i * 4 + 1)) 16)) (Z.shiftl (ld8 b (i * 4 + 2)) 8)) (ld8 b (i * 4 + 3)) = be_word b i.
Proof.
  intros Hb. unfold be_word. rewrite (Nat.mul_comm 4 i).
  pose proof (ld8_range b (i * 4) Hb) as H1. pose proof (ld8_range b (i * 4 + 1) Hb) as H2.
  pose proof (ld8_range b (i * 4 + 2) Hb) as H3. pose proof (ld8_range b (i * 4 + 3) Hb) as H4. unfold is_u8 in *.
  set (x := ld8 b (i * 4)) in *. set (y := ld8 b (i * 4 + 1)) in *. set (z := ld8 b (i * 4 + 2)) in *. set (t := ld8 b (i * 4 + 3)) in *. clearbody x y z t.
  rewrite (lor_shift x 24) by (rewrite ?Z.shiftl_mul_pow2 by lia; lia). rewrite (Z.shiftl_mul_pow2 y) by lia.
  replace (x * 2 ^ 24 + y * 2 ^ 16) with (Z.shiftl (x * 256 + y) 16) by (rewrite Z.shiftl_mul_pow2 by lia; lia).
  rewrite lor_shift by (rewrite ?Z.shiftl_mul_pow2 by lia; lia). rewrite (Z.shiftl_mul_pow2 z) by lia.
  replace ((x * 256 + y) * 2 ^ 16 + z * 2 ^ 8) with (Z.shiftl (x * 65536 + y * 256 + z) 8) by (rewrite Z.shiftl_mul_pow2 by lia; lia).
  rewrite lor_shift by lia. lia.
Qed.
Lemma be_word_u32 b i : bytes_ok b -> is_u32 (be_word b i).
Proof.
  intros Hb. unfold be_word. pose proof (ld8_range b (4 * i) Hb). pose proof (ld8_range b (4 * i + 1) Hb).
  pose proof (ld8_range b (4 * i + 2) Hb). pose proof (ld8_range b (4 * i + 3) Hb). unfold is_u8, is_u32 in *. lia.
Qed.

(** A loop that fills an array from the front. *)
Lemma fill_loop (f : nat -> Z) (step : list Z -> nat -> list Z) n : (forall w i, step w i = <[i := f i]> w) ->
  forall o l r, length l = o -> (n <= length r)%nat ->
  foldl step (l ++ r) (seq o n) = l ++ (f <$> seq o n) ++ drop n r.
Proof.
  intros Hs. induction n as [|n IH]; intros o l r Hl Hr; [by rewrite drop_0|]. destruct r as [|y r]; [simpl in Hr; lia|].
  cbn [seq foldl fmap list_fmap drop]. rewrite Hs, insert_app_r_alt, Hl, Nat.sub_diag by lia. cbn [insert list_insert].
  change (f o :: r) with ([f o] ++ r). rewrite app_assoc, IH; [by rewrite <- app_assoc|rewrite length_app; simpl; lia|simpl in Hr; lia].
Qed.

Lemma load_loop b : bytes_ok b -> foldl (load_step b) (replicate 64 0) (seq 0 16) = (be_word b <$> seq 0 16) ++ replicate 48 0.
Proof.
  intros Hb. change (replicate 64 0) with ([] ++ replicate 64 0).
  rewrite (fill_loop (be_word b)); [reflexivity| |reflexivity|rewrite length_replicate; lia]. intros w i. unfold load_step. by rewrite load_word.
Qed.

Lemma word_app_l l r i : (i < length l)%nat -> word (l ++ r) i = word l i.
Proof. intros. unfold word. by rewrite lookup_app_l. Qed.
Lemma word_reverse l i : (i < length l)%nat -> word l i = word (reverse l) (length l - S i).
Proof. intros Hi. unfold word. rewrite reverse_lookup by lia. do 2 f_equal. lia. Qed.
Lemma word_u32 l i : Forall is_u32 l -> is_u32 (word l i).
Proof.
  intros Hl. unfold word. destruct (l !! i) as [x|] eqn:E; [exact (Forall_lookup_1 _ _ _ _ Hl E)|]. red. simpl. lia.
Qed.

(** One more word of the schedule. *)
Lemma extend_one ws r : (16 <= length ws)%nat -> Forall is_u32 ws ->
  extend_step (ws ++ 0 :: r) (length ws) =
  (ws ++ [u32 (sigma1 (word (reverse ws) 1) + word (reverse ws) 6 + sigma0 (word (reverse ws) 14) + word (reverse ws) 15)]) ++ r.
Proof.
  intros Hl Hu. unfold extend_step. cbv zeta.
  assert (E : forall j, (0 < j <= 16)%nat -> word (ws ++ 0 :: r) (length ws - j) = word (reverse ws) (j - 1)).
  { intros j Hj. rewrite word_app_l by lia. rewrite word_reverse by lia. f_equal. lia. }
  rewrite !E by lia. simpl Nat.sub.
  assert (Hr : Forall is_u32 (reverse ws)) by (by apply Forall_reverse).
  rewrite !ROTR_rotr by (first [apply word_u32; done|lia]). rewrite insert_app_r_alt, Nat.sub_diag by lia. rewrite <- app_assoc. cbn [insert list_insert app].
  do 3 f_equal. unfold sigma0, sigma1. lia.
Qed.

Lemma extend_loop n : forall ws, (16 <= length ws)%nat -> Forall is_u32 ws ->
  foldl extend_step (ws ++ replicate n 0) (seq (length ws) n) = reverse (schedule n (reverse ws)).
Proof.
  induction n as [|n IH]; intros ws Hl Hu; cbn [replicate seq foldl schedule]; [by rewrite app_nil_r, reverse_involutive|].
  rewrite extend_one by done. set (x := u32 _). assert (E : length (ws ++ [x]) = S (length ws)) by (rewrite length_app; simpl; lia).
  rewrite <- E, IH.
  - by rewrite reverse_app.
  - lia.
  - apply Forall_app. split; [done|]. constructor; [apply u32_range|done].
Qed.

Lemma schedule_u32 n : forall ws, Forall is_u32 ws -> Forall is_u32 (schedule n ws) /\ length (schedule n ws) = (n + length ws)%nat.
Proof.
  induction n as [|n IH]; intros ws Hu; cbn [schedule]; [done|].
  destruct (IH (u32 (sigma1 (word ws 1) + word ws 6 + sigma0 (word ws 14) + word ws 15) :: ws)) as [I1 I2].
  - constructor; [apply u32_range|done].
  - split; [done|]. rewrite I2. simpl. lia.
Qed.

Lemma transform_words b : bytes_ok b ->
  foldl extend_step (foldl (load_step b) (replicate 64 0) (seq 0 16)) (seq 16 48) = W b /\ length (W b) = 64%nat /\ Forall is_u32 (W b).
Proof.
  intros Hb. rewrite load_loop by done. set (ws := be_word b <$> seq 0 16).
  assert (L : length ws = 16%nat) by (unfold ws; by rewrite length_fmap, length_seq).
  assert (U : Forall is_u32 ws) by (apply Forall_fmap, Forall_forall; intros i _; by apply be_word_u32).
  destruct (schedule_u32 48 (reverse ws) ltac:(by apply Forall_reverse)) as [S1 S2]. rewrite length_reverse, L in S2.
  unfold W. fold ws. rewrite <- L, extend_loop by (done || lia). split; [done|]. rewrite length_reverse. split; [done|by apply Forall_reverse].
Qed.

(** The rounds. *)
Record vars_ok (v : vars) : Prop := {
  vo_a : is_u32 (va v); vo_b : is_u32 (vb v); vo_c : is_u32 (vc v); vo_d : is_u32 (vd v);
  vo_e : is_u32 (ve v); vo_f : is_u32 (vf v); vo_g : is_u32 (vg v); vo_h : is_u32 (vh v)
}.

Lemma round_step_round w v i kw : vars_ok v -> word k i = kw.1 -> word w i = kw.2 -> round_step w v i = round v kw /\ vars_ok (round v kw).
Proof.
  destruct v as [a b c d e f g h]. intros [Ua Ub Uc Ud Ue Uf Ug Uh]. cbn [va vb vc vd ve vf vg vh] in *. intros E1 E2.
  unfold round_step, round. cbv beta iota zeta. rewrite E1, E2.
  rewrite !ROTR_rotr by (done || lia). rewrite land_lnot by done.
  unfold Ch, Sigma1, Sigma0, Maj. generalize (rotr 6 e) (rotr 11 e) (rotr 25 e) (rotr 2 a) (rotr 13 a) (rotr 22 a). intros r1 r2 r3 r4 r5 r6. split.
  - f_equal; rewrite ?u32_add_l, ?u32_add_r; done.
  - constructor; cbn [va vb vc vd ve vf vg vh]; try done; apply u32_range.
Qed.

Lemma rounds_loop w : length w = 64%nat -> forall n o v, (o + n = 64)%nat -> vars_ok v ->
  foldl (round_step w) v (seq o n) = foldl round v (drop o (zip k w)) /\ vars_ok (foldl round v (drop o (zip k w))).
Proof.
  intros Hw. assert (Lk : length (zip k w) = 64%nat) by (by rewrite length_zip, Hw).
  induction n as [|n IH]; intros o v Ho Hv; [rewrite drop_ge by lia; done|].
  destruct (lookup_lt_is_Some_2 (zip k w) o ltac:(lia)) as [kw E]. rewrite (drop_S _ _ _ E). cbn [seq foldl].
  apply lookup_zip_with_Some in E as (x & y & -> & E1 & E2).
  destruct (round_step_round w v o (x, y) Hv) as [-> Hv']; [unfold word; by rewrite E1|unfold word; by rewrite E2|].
  apply IH; [lia|done].
Qed.

Lemma transform_compress b ctx : bytes_ok b -> length (state ctx) = 8%nat -> Forall is_u32 (state ctx) ->
  state (sha256_transform b ctx) = compress (state ctx) b /\ length (compress (state ctx) b) = 8%nat /\ Forall is_u32 (compress (state ctx) b).
Proof.
  intros Hb Hl Hu. destruct (transform_words b Hb) as (Ew & Lw & _). unfold sha256_transform. cbv zeta. rewrite Ew.
  set (s := state ctx) in *. set (v0 := mk_vars _ _ _ _ _ _ _ _).
  assert (V0 : vars_ok v0) by (constructor; cbn; by apply word_u32).
  destruct (rounds_loop (W b) Lw 64 0 v0 ltac:(lia) V0) as [-> V1]. rewrite drop_0 in *. unfold compress. fold v0.
  set (v := foldl round v0 (zip k (W b))) in *. clearbody v v0. cbn [state].
  destruct s as [|x0 [|x1 [|x2 [|x3 [|x4 [|x5 [|x6 [|x7 [|]]]]]]]]]; try discriminate Hl. cbn [word lookup list_lookup vars_list zip_with default].
  split; [done|]. split; [done|]. repeat constructor; apply u32_range.
Qed.

(** ** Any message in any pieces *)

(** [ctx] has taken in the message [m]. *)
Record absorbed (m : list Z) (ctx : sha256_ctx) : Prop := {
  ab_split : exists bs t, m = concat bs ++ t /\ Forall (fun b => length b = 64%nat /\ bytes_ok b) bs /\ (length t < 64)%nat /\
    state ctx = foldl compress H0 bs /\ blocklen ctx = Z.of_nat (length t) /\ take (length t) (block ctx) = t;
  ab_block : length (block ctx) = 64%nat;
  ab_bytes : bytes_ok (block ctx);
  ab_state : length (state ctx) = 8%nat /\ Forall is_u32 (state ctx);
  ab_bits : bitlen ctx = u64 (8 * Z.of_nat (length m))
}.

Lemma init_absorbed ctx : length (block ctx) = 64%nat -> bytes_ok (block ctx) -> absorbed [] (sha256_init ctx).
Proof.
  intros Hl Hb. constructor; try done.
  - exists [], []. simpl. repeat split; try done; lia.
  - split; [done|]. unfold H0. repeat constructor; unfold is_u32; lia.
Qed.

(** [bs] and [t] are the whole blocks and the rest. *)
Lemma blocks_concat bs t : Forall (fun b => length b = 64%nat /\ bytes_ok b) bs -> (length t < 64)%nat -> full_blocks (concat bs ++ t) = bs.
Proof.
  intros Hb Ht. assert (L : length (concat bs ++ t) = (length bs * 64 + length t)%nat).
  { rewrite length_app. f_equal. induction Hb as [|b bs [Lb _] Hb IH]; [done|]. cbn [concat length]. rewrite length_app, IH, Lb. lia. }
  unfold full_blocks. rewrite L, Nat.div_add_l, Nat.div_small, Nat.add_0_r by lia. clear L.
  induction Hb as [|b bs [Lb _] Hb IH]; [done|]. cbn [length blocks concat]. rewrite <- app_assoc.
  rewrite take_app_length' by done. rewrite drop_app_length' by done. by rewrite IH.
Qed.

Lemma take_st_bytes b a p : (a + length p <= length b)%nat -> take (a + length p) (st_bytes b a p) = take a b ++ p.
Proof.
  intros Hl. apply list_eq. intros i. unfold st_bytes. destruct (Nat.lt_ge_cases i a); [|destruct (Nat.lt_ge_cases i (a + length p))].
  - rewrite lookup_take_lt, lookup_app_l, lookup_take_lt by (rewrite ?length_take; lia). by rewrite list_lookup_inserts_lt by lia.
  - rewrite lookup_take_lt by lia. rewrite lookup_app_r by (rewrite length_take; lia). rewrite length_take, Nat.min_l by lia.
    by rewrite list_lookup_inserts by lia.
  - rewrite lookup_take_ge by lia. by rewrite lookup_ge_None_2 by (rewrite length_app, length_take; lia).
Qed.

(** One turn of the loop: [p] goes behind what waits in the block, which is
    transformed when it is full. *)
Definition put_bytes (p : list Z) (ctx : sha256_ctx) : sha256_ctx :=
  let ctx := mk_ctx (state ctx) (bitlen ctx) (st_bytes (block ctx) (Z.to_nat (blocklen ctx)) p) (blocklen ctx + Z.of_nat (length p)) in
  if blocklen ctx =? 64 then
    let ctx := sha256_transform (block ctx) ctx in mk_ctx (state ctx) (bitlen ctx) (block ctx) 0
  else ctx.

Definition with_bits (n : nat) (ctx : sha256_ctx) : sha256_ctx :=
  mk_ctx (state ctx) (u64 (8 * Z.of_nat n)) (block ctx) (blocklen ctx).

Lemma put_absorbs m p ctx : bytes_ok p -> blocklen ctx + Z.of_nat (length p) <= 64 ->
  absorbed m (with_bits (length m) ctx) -> absorbed (m ++ p) (with_bits (length (m ++ p)) (put_bytes p ctx)).
Proof.
  intros Hp Hl [(bs & t & -> & Hbs & Ht & Es & El & Et) Lb Bb [Ls Us] _]. cbn [with_bits state block blocklen] in *.
  unfold put_bytes. cbv zeta. cbn [blocklen block state bitlen]. rewrite El, Nat2Z.id in *.
  assert (Eb : take (length t + length p) (st_bytes (block ctx) (length t) p) = t ++ p) by (rewrite take_st_bytes, Et by lia; done).
  assert (Bs : bytes_ok (st_bytes (block ctx) (length t) p)) by (by apply st_bytes_ok).
  destruct (Z.eqb_spec (Z.of_nat (length t) + Z.of_nat (length p)) 64) as [E|E].
  - rewrite take_ge in Eb by (rewrite length_st_bytes; lia). rewrite Eb in *.
    set (c1 := mk_ctx _ _ (t ++ p) _). destruct (transform_compress (t ++ p) c1 Bs Ls Us) as (E1 & E2 & E3).
    constructor; unfold with_bits; cbn [state block blocklen bitlen c1]; rewrite ?E1; try done.
    + exists (bs ++ [t ++ p]), []. rewrite concat_app, !app_nil_r. cbn [concat]. rewrite app_nil_r, <- app_assoc. split; [done|].
      split; [apply Forall_app; split; [done|]; constructor; [|done]; rewrite length_app; split; [lia|done]|]. split; [simpl; lia|].
      split; [|done]. cbn [state c1]. rewrite Es, foldl_app. done.
    + change (length (t ++ p) = 64%nat). rewrite length_app. lia.
  - constructor; unfold with_bits; cbn [state block blocklen bitlen]; try done; [|by rewrite length_st_bytes].
    exists bs, (t ++ p). rewrite app_assoc, length_app. split; [done|]. split; [done|]. split; [lia|]. split; [done|]. split; [lia|exact Eb].
Qed.

Lemma update_turn fuel data ctx : data <> [] -> 0 <= blocklen ctx ->
  let n := Nat.min (length data) (Z.to_nat (64 - blocklen ctx)) in
  blocklen ctx <= 64 -> update_loop (S fuel) data ctx = update_loop fuel (drop n data) (put_bytes (take n data) ctx).
Proof.
  intros Hd P0 n P1. transitivity (update_loop fuel (drop n data) (put_bytes (take n data) ctx)); [|done].
  destruct data as [|x l]; [done|]. set (data := x :: l) in *. cbn [update_loop]. fold data. unfold put_bytes. cbv zeta.
  assert (En : (if Z.of_nat (length data) <? 64 - blocklen ctx then Z.of_nat (length data) else 64 - blocklen ctx) = Z.of_nat n).
  { unfold n. destruct (Z.ltb_spec (Z.of_nat (length data)) (64 - blocklen ctx)); lia. }
  assert (Lt : length (take n data) = n) by (rewrite length_take; lia). rewrite En, Nat2Z.id, Lt. done.
Qed.

Lemma update_loop_absorbs fuel : forall data m ctx, bytes_ok data -> (length data <= fuel)%nat ->
  absorbed m (with_bits (length m) ctx) ->
  absorbed (m ++ data) (with_bits (length (m ++ data)) (update_loop fuel data ctx)) /\ bitlen (update_loop fuel data ctx) = bitlen ctx.
Proof.
  induction fuel as [|fuel IH]; intros data m ctx Hd Hf A.
  { destruct data; [|simpl in Hf; lia]. rewrite app_nil_r. by split. }
  destruct (decide (data = [])) as [->|Hne]; [rewrite app_nil_r; by split|].
  assert (Bl : 0 <= blocklen ctx < 64) by (destruct A as [(bs & t & _ & _ & Ht & _ & E & _)]; cbn in E; lia).
  rewrite update_turn by (done || lia). set (n := Nat.min _ _). assert (Hn : (0 < n <= length data)%nat) by (unfold n; destruct data; [done|]; cbn [length]; lia).
  assert (Bd : bytes_ok (take n data) /\ bytes_ok (drop n data)) by (apply Forall_app; by rewrite take_drop). destruct Bd as [B1 B2].
  pose proof (put_absorbs m (take n data) ctx B1 ltac:(rewrite length_take; lia) A) as A1.
  assert (Eb : bitlen (put_bytes (take n data) ctx) = bitlen ctx) by (unfold put_bytes; cbv zeta; by destruct (_ =? 64)).
  destruct (IH (drop n data) (m ++ take n data) (put_bytes (take n data) ctx) B2 ltac:(rewrite length_drop; lia) A1) as [I1 I2].
  rewrite <- app_assoc, take_drop in I1. split; [exact I1|congruence].
Qed.

(** [sha256_update] appends to the message. *)
Lemma update_absorbs m data ctx : bytes_ok data -> absorbed m ctx -> absorbed (m ++ data) (sha256_update data ctx).
Proof.
  intros Hd A. unfold sha256_update. set (c0 := mk_ctx (state ctx) _ (block ctx) (blocklen ctx)).
  assert (A0 : absorbed m (with_bits (length m) c0)) by (destruct A; by constructor).
  destruct (update_loop_absorbs (length data) data m c0 Hd ltac:(done) A0) as [A1 B1].
  assert (E : bitlen (update_loop (length data) data c0) = u64 (8 * Z.of_nat (length (m ++ data)))).
  { rewrite B1. cbn [bitlen c0]. rewrite (ab_bits _ _ A), length_app. unfold u64. rewrite Zplus_mod_idemp_l. f_equal. lia. }
  destruct (update_loop (length data) data c0) as [a b c d]. cbn [bitlen] in E. subst b. exact A1.
Qed.

Lemma updates_absorb pieces : forall m ctx, Forall bytes_ok pieces -> absorbed m ctx ->
  absorbed (m ++ concat pieces) (foldl (fun c p => sha256_update p c) ctx pieces).
Proof.
  induction pieces as [|p l IH]; intros m ctx Hp A; [by rewrite app_nil_r|]. apply Forall_cons in Hp as [H1 H2].
  cbn [concat foldl]. rewrite app_assoc. apply IH; [done|]. by apply update_absorbs.
Qed.

(** What is left in the block after a message, and how much padding follows. *)
Lemma absorbed_len m ctx : absorbed m ctx -> blocklen ctx = Z.of_nat (length m) mod 64.
Proof.
  intros [(bs & t & -> & Hb & Ht & _ & -> & _) _ _ _ _]. rewrite length_app.
  assert (L : length (concat bs) = (64 * length bs)%nat).
  { induction Hb as [|b l [Lb _] Hb IH]; [done|]. cbn [concat length]. rewrite length_app, IH, Lb. lia. }
  rewrite L. replace (Z.of_nat (64 * length bs + length t)) with (Z.of_nat (length t) + Z.of_nat (length bs) * 64) by lia.
  rewrite Z.mod_add by lia. symmetry. apply Z.mod_small. lia.
Qed.

Lemma be32_shifts x : [u8 (Z.shiftr x 24); u8 (Z.shiftr x 16); u8 (Z.shiftr x 8); u8 x] = be32 x.
Proof. unfold be32. by rewrite !Z.shiftr_div_pow2 by lia. Qed.

Lemma final_SHA256 m ctx : absorbed m ctx -> Z.of_nat (length m) < 2 ^ 61 -> sha256_final ctx = SHA256 m.
Proof.
  intros A Hm. unfold sha256_final. cbv zeta.
  assert (A1 : absorbed (m ++ [128]) (sha256_update [128] ctx)) by (apply update_absorbs; [constructor; [red; lia|constructor]|done]).
  pose proof (absorbed_len _ _ A1) as B1. rewrite length_app in B1. cbn [length] in B1.
  set (c1 := sha256_update [128] ctx) in *. clearbody c1. set (n := Z.of_nat (length m)) in *.
  replace (Z.of_nat (length m + 1)) with (n + 1) in B1 by lia.
  assert (Ep : (if 56 <? blocklen c1 then 120 - blocklen c1 else 56 - blocklen c1) = (55 - n) mod 64).
  { rewrite B1. assert (0 <= n) by lia. destruct (Z.ltb_spec 56 ((n + 1) mod 64)); Z.div_mod_to_equations; lia. }
  rewrite Ep. set (z := (55 - n) mod 64). assert (Hz : 0 <= z < 64) by (apply Z.mod_pos_bound; lia).
  set (c2 := if 0 <? z then _ else c1).
  assert (A2 : absorbed (m ++ [128] ++ replicate (Z.to_nat z) 0) c2).
  { rewrite app_assoc. unfold c2. destruct (Z.ltb_spec 0 z).
    - apply update_absorbs; [apply Forall_replicate; red; lia|done].
    - replace (Z.to_nat z) with 0%nat by lia. by rewrite app_nil_r. }
  clearbody c2. set (lb := (fun i => _) <$> seq 0 8).
  assert (El : lb = be64 (8 * n)).
  { unfold lb, be64. rewrite (ab_bits _ _ A). fold n. unfold u64. rewrite (Z.mod_small (8 * n)) by lia. apply list_fmap_ext.
    intros j x Hx. do 2 f_equal. lia. }
  assert (A3 : absorbed (pad m) (sha256_update lb c2)).
  { unfold pad. cbv zeta. fold n z. rewrite <- El, !app_assoc. apply update_absorbs; [|by rewrite <- app_assoc].
    rewrite El. apply Forall_fmap, Forall_forall. intros j _. apply u8_range. }
  pose proof (absorbed_len _ _ A3) as B3. destruct A3 as [(bs & t & E & Hb & Ht & Es & Ebl & _) _ _ _ _].
  assert (Lp : Z.of_nat (length (pad m)) mod 64 = 0).
  { unfold pad. cbv zeta. fold n z. rewrite !length_app, length_replicate. cbn [length]. unfold be64. rewrite length_fmap, length_seq.
    replace (Z.of_nat (length m + (1 + (Z.to_nat z + 8)))) with (n + 9 + z) by lia. unfold z. Z.div_mod_to_equations. lia. }
  assert (t = []) as -> by (apply nil_length_inv; lia).
  unfold SHA256. rewrite E, blocks_concat, Es by (done || simpl; lia). f_equal. apply list_fmap_ext. intros j x _. apply be32_shifts.
Qed.

End Sha256.
