(* ===== verification/CurlVerify.v ===== *)
(** The client that verifies transfers: [src/apps/curl-verify/curl-verify.c].

    What the system calls return is an argument ([calls]): the result of each [write],
    the data of each [read] that returned any, and the value of the [read] that ended the
    loop.  C strings are the bytes before their NUL.  The messages it prints are left
    out. *)
From S2P Require Import Prelude Sha256.
Import Sha256.

Module CurlVerify.

Definition MAX_HOSTNAME : Z := 50.
Definition RLEN : Z := 4096.
Definition HDRBUF_SIZE : Z := 5120.
Definition REPLY_SIZE : Z := 128.
Definition LONG_MAX : Z := 9223372036854775807.

(** ** Strings *)

Fixpoint cstr (b : list Z) : list Z := match b with [] => [] | c :: b => if c =? 0 then [] else c :: cstr b end.

Fixpoint prefix_of (p l : list Z) : bool :=
  match p, l with [], _ => true | _, [] => false | x :: p, y :: l => (x =? y) && prefix_of p l end.
Fixpoint strstr (l needle : list Z) : option nat :=
  if prefix_of needle l then Some 0%nat else match l with [] => None | _ :: l => S <$> strstr l needle end.

Definition tolower (c : Z) : Z := if (65 <=? c) && (c <=? 90) then c + 32 else c.
Definition strncasecmp (a b : list Z) (n : nat) : bool := bool_decide (tolower <$> take n a = tolower <$> take n b).
Definition strcasecmp (a b : list Z) : bool := bool_decide (tolower <$> a = tolower <$> b).

Definition isspace (c : Z) : bool := (c =? 32) || ((9 <=? c) && (c <=? 13)).
Definition isdigit (c : Z) : bool := (48 <=? c) && (c <=? 57).
Fixpoint skip_space (l : list Z) : list Z := match l with [] => [] | c :: r => if isspace c then skip_space r else l end.
Fixpoint digits (acc : Z) (l : list Z) : Z :=
  match l with [] => acc | c :: l => if isdigit c then digits (10 * acc + (c - 48)) l else acc end.
(** Base 10; out of range it is the nearest [long]. *)
Definition strtol (l : list Z) : Z :=
  let l := skip_space l in
  let v := match l with
           | 45 :: r => - digits 0 r
           | 43 :: r => digits 0 r
           | _ => digits 0 l
           end in
  Z.max (- LONG_MAX - 1) (Z.min LONG_MAX v).

(** [%ld] of a number that is not negative. *)
Fixpoint decimal (fuel : nat) (n : Z) (acc : list Z) : list Z :=
  match fuel with
  | O => acc
  | S fuel => let acc := (48 + n mod 10) :: acc in if n <? 10 then acc else decimal fuel (n / 10) acc
  end.
Definition print_ld (n : Z) : list Z := decimal 20 n [].

Definition CRLF : list Z := [13; 10].
Definition CRLF2 : list Z := [13; 10; 13; 10].
(** "Content-Length:" *)
Definition CONTENT_LENGTH : list Z := [67; 111; 110; 116; 101; 110; 116; 45; 76; 101; 110; 103; 116; 104; 58].

(** ** The system *)

Inductive lookup_result := Found | NoAddress | LookupFailed.
Record calls := mk_calls {
  lookup_rc : lookup_result;  (** [getaddrinfo] *)
  connect_rc : Z;
  write_rc : nat -> Z -> Z;  (** the [i]th [write], asked for so many bytes *)
  fopen_ok : bool;
  disk_room : Z;  (** bytes [fwrite] can still store *)
  reads : list (list Z);
  read_end : Z
}.

Record file := mk_file { f_data : list Z; f_room : Z }.
Definition fwrite (data : list Z) (f : file) : Z * file :=
  let n := Z.max 0 (Z.min (Z.of_nat (length data)) (f_room f)) in
  (n, mk_file (f_data f ++ take (Z.to_nat n) data) (f_room f - n)).

(** [exit(EXIT_FAILURE)] ends the process with the status of a failed [get_address]. *)
Definition get_address (r : lookup_result) : Z := match r with Found => 0 | NoAddress | LookupFailed => 1 end.

(** [i] counts the calls; every turn writes at least one byte, so the length is enough
    fuel. *)
Fixpoint write_loop (fuel : nat) (wr : nat -> Z -> Z) (i : nat) (data : list Z) : nat * Z :=
  match fuel, data with
  | S fuel, _ :: _ =>
      let n := wr i (Z.of_nat (length data)) in
      if n <=? 0 then (S i, -1) else write_loop fuel wr (S i) (drop (Z.to_nat n) data)
  | _, _ => (i, 0)
  end.
Definition write_all (wr : nat -> Z -> Z) (i : nat) (data : list Z) : nat * Z := write_loop (length data) wr i data.

(** ** The header *)

(** The loop over the lines: [s] is the string from [p] on.  Every turn moves [p] past a
    line end. *)
Fixpoint header_lines (fuel : nat) (s : list Z) (p split : nat) (content_length : Z) : Z :=
  match fuel with
  | O => content_length
  | S fuel =>
      if (p <? split)%nat then
        let content_length := if strncasecmp s CONTENT_LENGTH 15 then strtol (drop 15 s) else content_length in
        match strstr s CRLF with
        | None => content_length
        | Some n => header_lines fuel (drop (n + 2) s) (p + n + 2) split content_length
        end
      else content_length
  end.

(** The length of the header and its Content-Length. *)
Definition http_parse_header (hdrbuf : list Z) : option (Z * Z) :=
  let s := cstr hdrbuf in
  match strstr s CRLF2 with
  | None => None
  | Some split => Some (Z.of_nat split + 4, header_lines (S (length s)) s 0 split (-1))
  end.

(** ** Download *)

Definition write_body (f : file) (ctx : sha256_ctx) (data : list Z) (total : Z) : option (file * sha256_ctx * Z) :=
  let len := Z.of_nat (length data) in
  if len <=? 0 then Some (f, ctx, total)
  else
    let '(n, f) := fwrite data f in
    if negb (n =? len) then None else Some (f, sha256_update data ctx, total + len).

Definition verify_result (total content_length : Z) (hex expected : list Z) : Z :=
  if (0 <=? content_length) && negb (total =? content_length) then 1
  else if negb (bool_decide (expected = [])) && negb (strcasecmp hex expected) then 1
  else 0.

(** The locals of [run_download]. *)
Record download := mk_download {
  hdrbuf : list Z;
  hlen : Z;
  header_done : bool;
  dctx : sha256_ctx;
  total : Z;
  content_length : Z;
  fp : file
}.

(** The body of the loop for the [rlen] bytes [buf]; [None]: the program returns 1. *)
Definition download_turn (buf : list Z) (d : download) : option download :=
  let rlen := Z.of_nat (length buf) in
  if negb (header_done d) then
    if HDRBUF_SIZE <=? hlen d + rlen then None
    else
      let h := hlen d + rlen in
      let b := st8 (st_bytes (hdrbuf d) (Z.to_nat (hlen d)) buf) (Z.to_nat h) 0 in
      match http_parse_header b with
      | None => Some (mk_download b h false (dctx d) (total d) (content_length d) (fp d))
      | Some (off, cl) =>
          match write_body (fp d) (dctx d) (ld_bytes b (Z.to_nat off) (Z.to_nat (h - off))) (total d) with
          | None => None
          | Some (f, c, t) => Some (mk_download b h true c t cl f)
          end
      end
  else
    match write_body (fp d) (dctx d) buf (total d) with
    | None => None
    | Some (f, c, t) => Some (mk_download (hdrbuf d) (hlen d) true c t (content_length d) f)
    end.

Fixpoint download_loop (l : list (list Z)) (d : download) : option download :=
  match l with
  | [] => Some d
  | buf :: l => match download_turn buf d with None => None | Some d => download_loop l d end
  end.

Definition zero_ctx : sha256_ctx := mk_ctx (replicate 8 0) 0 (replicate 64 0) 0.

(** "GET / HTTP/1.1\r\nHost: %s:%s\r\nConnection: close\r\n\r\n" *)
Definition get_request (host port : list Z) : list Z :=
  [71; 69; 84; 32; 47; 32; 72; 84; 84; 80; 47; 49; 46; 49] ++ CRLF ++ [72; 111; 115; 116; 58; 32] ++ host ++ [58] ++ port ++ CRLF ++
  [67; 111; 110; 110; 101; 99; 116; 105; 111; 110; 58; 32; 99; 108; 111; 115; 101] ++ CRLF2.

Definition too_long (host port : list Z) : bool := (MAX_HOSTNAME <=? Z.of_nat (length host)) || (6 <=? Z.of_nat (length port)).

(** The status, and the file once everything was read and stored. *)
Definition run_download (c : calls) (host port : list Z) (expected : option (list Z)) : Z * option (list Z) :=
  if too_long host port then (1, None)
  else if negb (get_address (lookup_rc c) =? 0) then (1, None)
  else if connect_rc c =? -1 then (1, None)
  else
    let '(_, rc) := write_all (write_rc c) 0 (get_request host port) in
    if negb (rc =? 0) then (1, None)
    else if negb (fopen_ok c) then (1, None)
    else
      match download_loop (reads c) (mk_download (replicate (Z.to_nat HDRBUF_SIZE) 0) 0 false (sha256_init zero_ctx) 0 (-1) (mk_file [] (disk_room c))) with
      | None => (1, None)
      | Some d =>
          if read_end c =? -1 then (1, None)
          else
            let hex := sha256_hex (sha256_final (dctx d)) in
            let exp := match expected with Some e => take 64 e | None => [] end in
            (verify_result (total d) (content_length d) (cstr hex) exp, Some (f_data (fp d)))
      end.

(** ** Upload *)

(** The loop over the file in pieces of [RLEN]: the calls made, the bytes counted and
    hashed. *)
Fixpoint upload_loop (fuel : nat) (wr : nat -> Z -> Z) (i : nat) (data : list Z) (ctx : sha256_ctx) (total : Z) : option (sha256_ctx * Z) :=
  match fuel, data with
  | S fuel, _ :: _ =>
      let buf := take (Z.to_nat RLEN) data in
      let '(i, rc) := write_all wr i buf in
      if negb (rc =? 0) then None
      else upload_loop fuel wr i (drop (Z.to_nat RLEN) data) (sha256_update buf ctx) (total + Z.of_nat (length buf))
  | _, _ => Some (ctx, total)
  end.

(** "PUT %ld\n" *)
Definition put_request (size : Z) : list Z := [80; 85; 84; 32] ++ print_ld size ++ [10].
(** "OK " *)
Definition OK_ : list Z := [79; 75; 32].

(** [data] is the file; [None]: it cannot be opened. *)
Definition run_upload (c : calls) (host port : list Z) (data : option (list Z)) : Z :=
  if too_long host port then 1
  else
    match data with
    | None => 1
    | Some data =>
        let size := Z.of_nat (length data) in
        if negb (get_address (lookup_rc c) =? 0) then 1
        else if connect_rc c =? -1 then 1
        else
          let '(i, rc) := write_all (write_rc c) 0 (put_request size) in
          if negb (rc =? 0) then 1
          else
            match upload_loop (length data) (write_rc c) i data (sha256_init zero_ctx) 0 with
            | None => 1
            | Some (ctx, total) =>
                if negb (total =? size) then 1
                else
                  let hex := cstr (sha256_hex (sha256_final ctx)) in
                  match reads c with
                  | [] => 1
                  | reply :: _ =>
                      let reply := cstr (take (Z.to_nat (REPLY_SIZE - 1)) reply) in
                      if negb (prefix_of OK_ reply) || negb (strncasecmp (drop 3 reply) hex 64) then 1 else 0
                  end
            end
    end.

(** [argv] without the program's name; [open] is the file system. *)
Definition main (c : calls) (open : list Z -> option (list Z)) (argv : list (list Z)) : Z :=
  match argv with
  | [u; host; port; name] => if bool_decide (u = [45; 117]) then run_upload c host port (open name) else 1
  | [host; port] => (run_download c host port None).1
  | [host; port; expected] => (run_download c host port (Some expected)).1
  | _ => 1
  end.

(** ** Searching *)

Lemma prefix_of_app p l r : prefix_of p l = true -> prefix_of p (l ++ r) = true.
Proof.
  revert l. induction p as [|x p IH]; intros l; [done|]. destruct l as [|y l]; [done|]. simpl. rewrite !andb_true_iff. intros [-> H]. split; [done|by apply IH].
Qed.
Lemma prefix_of_short p l r : prefix_of p (l ++ r) = true -> (length p <= length l)%nat -> prefix_of p l = true.
Proof.
  revert l. induction p as [|x p IH]; intros l H Hl; [done|]. destruct l as [|y l]; [simpl in Hl; lia|]. simpl in *.
  apply andb_true_iff in H as [-> H]. simpl. apply IH; [done|lia].
Qed.
Lemma prefix_of_len p l : prefix_of p l = true -> (length p <= length l)%nat.
Proof.
  revert l. induction p as [|x p IH]; intros l; simpl; [lia|]. destruct l as [|y l]; [done|]. rewrite andb_true_iff. intros [_ H]. simpl.
  apply IH in H. lia.
Qed.

Lemma strstr_cons x l n : strstr (x :: l) n = if prefix_of n (x :: l) then Some 0%nat else S <$> strstr l n.
Proof. done. Qed.
Lemma strstr_len l n j : strstr l n = Some j -> (j + length n <= length l)%nat.
Proof.
  revert j. induction l as [|x l IH]; intros j; cbn [strstr].
  - destruct (prefix_of n []) eqn:E; [|done]. intros [= <-]. apply prefix_of_len in E. simpl in *. lia.
  - destruct (prefix_of n (x :: l)) eqn:E; [intros [= <-]; apply prefix_of_len in E; simpl in *; lia|].
    destruct (strstr l n) as [k|]; [|done]. intros [= <-]. specialize (IH k eq_refl). simpl. lia.
Qed.
Lemma strstr_app l r n j : strstr l n = Some j -> strstr (l ++ r) n = Some j.
Proof.
  revert j. induction l as [|x l IH]; intros j; cbn [strstr].
  - destruct (prefix_of n []) eqn:E; [|done]. intros [= <-]. destruct n; [|done]. by destruct r.
  - destruct (prefix_of n (x :: l)) eqn:E.
    + intros [= <-]. change ((x :: l) ++ r) with (x :: l ++ r). cbn [strstr]. change (x :: l ++ r) with ((x :: l) ++ r).
      by rewrite (prefix_of_app _ _ r E).
    + destruct (strstr l n) as [k|] eqn:Es; [|done]. intros [= <-]. pose proof (strstr_len _ _ _ Es) as Hk. rewrite <- app_comm_cons. cbn [strstr].
      destruct (prefix_of n (x :: l ++ r)) eqn:E2; [|by rewrite (IH k)].
      change (x :: l ++ r) with ((x :: l) ++ r) in E2. apply prefix_of_short in E2; [by rewrite E2 in E|simpl; lia].
Qed.
(** Nothing is found in what ends before the first occurrence does. *)
Lemma strstr_before l r n j : strstr (l ++ r) n = Some j -> (length l < j + length n)%nat -> strstr l n = None.
Proof.
  intros E Hl. destruct (strstr l n) as [k|] eqn:Ek; [|done]. pose proof (strstr_len _ _ _ Ek).
  apply (strstr_app _ r) in Ek. rewrite E in Ek. injection Ek as ->. lia.
Qed.

Lemma strstr_skip (n r : list Z) x0 n' : n = x0 :: n' -> forall l, Forall (fun c => c <> x0) l ->
  strstr (l ++ r) n = (fun k => (length l + k)%nat) <$> strstr r n.
Proof.
  intros ->. induction l as [|c l IH]; intros H; [simpl; by destruct (strstr r _)|]. apply Forall_cons in H as [Hc H].
  rewrite <- app_comm_cons. cbn [strstr prefix_of]. rewrite (proj2 (Z.eqb_neq x0 c)) by congruence. simpl. rewrite IH by done.
  by destruct (strstr r _).
Qed.

(** ** Headers *)

Definition starts_cl (l : list Z) : bool := strncasecmp l CONTENT_LENGTH 15.

(** A line of a header: not empty, no control characters of its own, and a value behind
    "Content-Length:". *)
Record line_ok (l : list Z) : Prop := {
  lo_nonempty : l <> [];
  lo_chars : Forall (fun c => c <> 0 /\ c <> 13 /\ c <> 10) l;
  lo_value : starts_cl l = true -> exists c, c ∈ drop 15 l /\ isspace c = false
}.

Definition header (lines : list (list Z)) : list Z := concat ((fun l => l ++ CRLF) <$> lines) ++ CRLF.
Definition content_length_of (lines : list (list Z)) : Z :=
  foldl (fun acc l => if starts_cl l then strtol (drop 15 l) else acc) (-1) lines.

Lemma length_header l lines : length (header (l :: lines)) = (length l + 2 + length (header lines))%nat.
Proof. unfold header. cbn [fmap list_fmap concat]. rewrite !length_app. simpl. lia. Qed.
Lemma header_cons l lines : header (l :: lines) = l ++ CRLF ++ header lines.
Proof. unfold header. cbn [fmap list_fmap concat]. by rewrite <- !app_assoc. Qed.

Lemma strstr_header lines rest : lines <> [] -> Forall line_ok lines ->
  strstr (header lines ++ rest) CRLF2 = Some (length (header lines) - 4)%nat.
Proof.
  intros Hne H. induction H as [|l lines Hl H IH]; [done|]. rewrite header_cons, <- !app_assoc.
  rewrite (strstr_skip CRLF2 _ 13 [10; 13; 10] eq_refl) by (eapply Forall_impl; [apply Hl|]; simpl; tauto).
  destruct lines as [|l' lines].
  - simpl. f_equal. rewrite length_app. simpl. lia.
  - specialize (IH ltac:(done)). set (r := header (l' :: lines)) in *. assert (N : exists c r', r = c :: r' /\ c <> 13).
    { unfold r. rewrite header_cons. apply Forall_cons in H as [[N1 N2 _] _]. destruct l' as [|c l']; [done|].
      apply Forall_cons in N2 as [N2 _]. exists c, (l' ++ CRLF ++ header lines). split; [done|tauto]. }
    destruct N as (c & r' & Er & Hc).
    assert (L4 : (4 <= length r)%nat).
    { unfold r. rewrite length_header. apply Forall_cons in H as [[N1 _ _] _]. destruct l'; [done|]. unfold header. rewrite length_app. simpl. lia. }
    assert (E : strstr (CRLF ++ r ++ rest) CRLF2 = Some (2 + (length r - 4))%nat).
    { change (CRLF ++ r ++ rest) with (13 :: 10 :: r ++ rest). rewrite !strstr_cons, IH, Er.
      change (prefix_of CRLF2 (13 :: 10 :: (c :: r') ++ rest)) with ((13 =? c) && prefix_of [10] (r' ++ rest)).
      rewrite (proj2 (Z.eqb_neq 13 c)) by congruence. done. }
    rewrite E, !length_app. cbn [fmap option_fmap option_map CRLF length]. f_equal. lia.
Qed.

(** A line is tested as if it ended with the string. *)
Lemma cl_line l r : Forall (fun c => c <> 0 /\ c <> 13 /\ c <> 10) l -> strncasecmp (l ++ CRLF ++ r) CONTENT_LENGTH 15 = starts_cl l.
Proof.
  intros Hl. unfold starts_cl, strncasecmp. destruct (Nat.le_gt_cases 15 (length l)) as [H|H]; [by rewrite take_app_le|].
  rewrite !bool_decide_eq_false_2; [done| |].
  - intros E. apply (f_equal length) in E. rewrite !length_fmap, length_take in E. change (length (take 15 CONTENT_LENGTH)) with 15%nat in E. lia.
  - intros E. apply (f_equal (fun x => x !! length l)) in E. rewrite !list_lookup_fmap, !lookup_take_lt in E by lia.
    rewrite lookup_app_r, Nat.sub_diag in E by lia. simpl in E.
    assert (A : forall j, (j < 15)%nat -> Some 13 <> tolower <$> CONTENT_LENGTH !! j).
    { intros j Hj. do 15 (destruct j as [|j]; [vm_compute; discriminate|]). lia. }
    by apply (A (length l)).
Qed.

Lemma skip_space_app l r : (exists c, c ∈ l /\ isspace c = false) -> skip_space (l ++ r) = skip_space l ++ r /\ skip_space l <> [] /\ skip_space l ⊆ l.
Proof.
  induction l as [|x l IH]; intros (c & Hc & Hs); [by apply not_elem_of_nil in Hc|]. cbn [skip_space app]. destruct (isspace x) eqn:E.
  - apply elem_of_cons in Hc as [->|Hc]; [congruence|]. destruct IH as (I1 & I2 & I3); [by exists c|]. split; [done|]. split; [done|set_solver].
  - done.
Qed.
Lemma digits_stop r : forall l acc, digits acc (l ++ 13 :: r) = digits acc l.
Proof. induction l as [|x l IH]; intros acc; [done|]. cbn [digits app]. destruct (isdigit x); [apply IH|done]. Qed.
Lemma strtol_stop l r : (exists c, c ∈ l /\ isspace c = false) -> strtol (l ++ CRLF ++ r) = strtol l.
Proof.
  intros H. destruct (skip_space_app l (CRLF ++ r) H) as (E & N & _). unfold strtol. rewrite E. destruct (skip_space l) as [|x y]; [done|].
  cbn [app]. change (x :: y ++ CRLF ++ r) with ((x :: y) ++ 13 :: 10 :: r). rewrite digits_stop. change (y ++ CRLF ++ r) with (y ++ 13 :: 10 :: r).
  rewrite digits_stop. done.
Qed.

Lemma header_lines_ok lines : Forall line_ok lines -> forall fuel p split cl rest,
  (split + 4 = p + length (header lines))%nat -> (length lines < fuel)%nat ->
  header_lines fuel (header lines ++ rest) p split cl = foldl (fun acc l => if starts_cl l then strtol (drop 15 l) else acc) cl lines.
Proof.
  induction 1 as [|l lines Hl H IH]; intros fuel p split cl rest Hp Hf; (destruct fuel as [|fuel]; [simpl in Hf; lia|]); cbn [header_lines].
  { cbn in Hp. destruct (Nat.ltb_spec p split); [lia|done]. }
  rewrite length_header in Hp. assert (L2 : (2 <= length (header lines))%nat) by (unfold header; rewrite length_app; simpl; lia).
  destruct Hl as [N1 N2 N3]. assert (0 < length l)%nat by (destruct l; [done|simpl; lia]). destruct (Nat.ltb_spec p split); [|lia].
  rewrite header_cons, <- !app_assoc, cl_line by done.
  rewrite (strstr_skip CRLF _ 13 [10] eq_refl) by (eapply Forall_impl; [exact N2|]; simpl; tauto).
  change (strstr (CRLF ++ header lines ++ rest) CRLF) with (Some 0%nat). cbn [fmap option_fmap option_map]. rewrite Nat.add_0_r.
  assert (Ed : drop (length l + 2) (l ++ CRLF ++ header lines ++ rest) = header lines ++ rest).
  { rewrite app_assoc. apply drop_app_length'. rewrite length_app. done. }
  rewrite Ed, IH by (simpl in Hf; lia). cbn [foldl]. f_equal. destruct (starts_cl l) eqn:Es; [|done].
  assert (L15 : (15 <= length l)%nat).
  { unfold starts_cl, strncasecmp in Es. apply bool_decide_eq_true in Es. apply (f_equal length) in Es. rewrite !length_fmap, length_take in Es.
    change (length (take 15 CONTENT_LENGTH)) with 15%nat in Es. lia. }
  rewrite drop_app_le by done. apply strtol_stop. by apply N3.
Qed.

Lemma cstr_app l r : Forall (fun c => c <> 0) l -> cstr (l ++ r) = l ++ cstr r.
Proof. induction 1 as [|c l Hc H IH]; [done|]. cbn [cstr app]. rewrite (proj2 (Z.eqb_neq c 0)), IH by done. done. Qed.
Lemma header_nonzero lines : Forall line_ok lines -> Forall (fun c => c <> 0) (header lines).
Proof.
  intros H. unfold header. apply Forall_app. split; [|repeat constructor; lia]. apply Forall_concat, Forall_fmap. eapply Forall_impl; [exact H|].
  intros l [_ Hl _]. apply Forall_app. split; [|repeat constructor; lia]. eapply Forall_impl; [exact Hl|]. simpl. tauto.
Qed.

(** What [http_parse_header] makes of a header, whatever follows it. *)
Lemma parse_complete lines rest : lines <> [] -> Forall line_ok lines ->
  http_parse_header (header lines ++ rest) = Some (Z.of_nat (length (header lines)), content_length_of lines).
Proof.
  intros Hne H. assert (Hc : cstr (header lines ++ rest) = header lines ++ cstr rest).
  { by apply cstr_app, header_nonzero. }
  unfold http_parse_header. rewrite Hc, strstr_header by done.
  assert (L4 : (4 <= length (header lines))%nat).
  { destruct lines as [|l lines]; [done|]. rewrite length_header. unfold header. rewrite length_app. apply Forall_cons in H as [[N _ _] _]. destruct l; [done|]. simpl. lia. }
  f_equal. f_equal; [lia|]. apply header_lines_ok; [done|lia|].
  assert (Ln : (length lines <= length (header lines))%nat) by (clear; induction lines as [|l lines IH]; [simpl; lia|rewrite length_header; simpl; lia]).
  rewrite length_app. lia.
Qed.

(** Nothing is parsed before the header is complete. *)
Lemma parse_partial lines p q rest : lines <> [] -> Forall line_ok lines -> header lines = p ++ q -> q <> [] -> cstr rest = [] ->
  http_parse_header (p ++ rest) = None.
Proof.
  intros Hne H E Hq Hr. unfold http_parse_header.
  assert (Hc : cstr (p ++ rest) = p ++ cstr rest).
  { apply cstr_app. pose proof (header_nonzero lines H) as N. rewrite E in N. by apply Forall_app in N as [N _]. }
  rewrite Hc, Hr, app_nil_r. pose proof (strstr_header lines [] Hne H) as S. rewrite app_nil_r, E in S.
  rewrite (strstr_before p q CRLF2 _ S); [done|]. rewrite length_app. destruct q; [done|]. simpl. lia.
Qed.

(** ** Receiving *)

Section Stream.
Context (lines : list (list Z)) (body : list Z) (room : Z).
Context (Hne : lines <> []) (Hlines : Forall line_ok lines) (Hhdr : (length (header lines) <= 1024)%nat).
Context (Hbody : bytes_ok body) (Hroom : Z.of_nat (length body) <= room).

(** The bytes [R] were received: part of the header, or all of it and [b]. *)
Record in_header (R : list Z) (d : download) : Prop := {
  ih_done : header_done d = false;
  ih_len : hlen d = Z.of_nat (length R);
  ih_short : (length R < length (header lines))%nat;
  ih_buf : length (hdrbuf d) = Z.to_nat HDRBUF_SIZE;
  ih_bytes : take (length R) (hdrbuf d) = R;
  ih_ctx : absorbed [] (dctx d);
  ih_total : total d = 0;
  ih_file : fp d = mk_file [] room
}.
Record in_body (b : list Z) (d : download) : Prop := {
  ib_done : header_done d = true;
  ib_ctx : absorbed b (dctx d);
  ib_total : total d = Z.of_nat (length b);
  ib_length : content_length d = content_length_of lines;
  ib_file : fp d = mk_file b (room - Z.of_nat (length b))
}.

Lemma write_body_stores data b ctx f :
  bytes_ok data -> absorbed b ctx -> f = mk_file b (room - Z.of_nat (length b)) -> Z.of_nat (length (b ++ data)) <= room ->
  exists ctx', write_body f ctx data (Z.of_nat (length b)) = Some (mk_file (b ++ data) (room - Z.of_nat (length (b ++ data))), ctx', Z.of_nat (length (b ++ data))) /\
    absorbed (b ++ data) ctx'.
Proof.
  intros Hd A -> Hr. rewrite length_app in *. unfold write_body. cbv zeta. destruct (Z.leb_spec (Z.of_nat (length data)) 0).
  { exists ctx. destruct data; [|simpl in *; lia]. rewrite !app_nil_r, Nat.add_0_r. by split. }
  unfold fwrite. cbn [f_room f_data]. rewrite Z.min_l, Z.max_r by lia. rewrite Z.eqb_refl. cbn [negb].
  exists (sha256_update data ctx). split; [|by apply update_absorbs]. rewrite Nat2Z.id, firstn_all. do 2 f_equal; [f_equal|]; [f_equal; lia|lia].
Qed.

Lemma app_eq_prefix (a b c e : list Z) : a ++ b = c ++ e -> (length a <= length c)%nat -> exists r, c = a ++ r /\ b = r ++ e.
Proof.
  intros E Hl. exists (drop (length a) c). assert (Ea : take (length a) c = a).
  { apply (f_equal (take (length a))) in E. rewrite take_app_length, take_app_le in E by done. done. }
  split; [rewrite <- Ea at 1; by rewrite take_drop|]. apply (f_equal (drop (length a))) in E. by rewrite drop_app_length, drop_app_le in E.
Qed.
Lemma ld_bytes_mid (a b c : list Z) : ld_bytes (a ++ b ++ c) (length a) (length b) = b.
Proof.
  rewrite <- (ld_bytes_all b (length b) eq_refl) at 3. unfold ld_bytes. apply list_fmap_ext. intros j x Hx. apply lookup_seq in Hx as [-> Hj].
  unfold ld8. rewrite lookup_app_r by lia. rewrite lookup_app_l by lia. do 2 f_equal. lia.
Qed.

(** The header buffer after a read. *)
Lemma buffer_filled R d buf : in_header R d -> Z.of_nat (length buf) <= RLEN ->
  exists tl, st8 (st_bytes (hdrbuf d) (length R) buf) (length R + length buf) 0 = R ++ buf ++ 0 :: tl.
Proof.
  intros I Hb. destruct I as [_ _ I3 I4 I5 _ _ _]. unfold RLEN in Hb. assert (L : (length R + length buf < length (hdrbuf d))%nat) by (rewrite I4; unfold HDRBUF_SIZE; lia).
  set (m := st_bytes (hdrbuf d) (length R) buf). assert (Em : take (length R + length buf) m = R ++ buf) by (unfold m; by rewrite take_st_bytes, I5 by lia).
  assert (Lm : length m = length (hdrbuf d)) by apply length_st_bytes.
  destruct (lookup_lt_is_Some_2 m (length R + length buf) ltac:(lia)) as [x Ex].
  exists (drop (S (length R + length buf)) m). unfold st8. rewrite insert_take_drop by lia. rewrite Em, <- app_assoc. done.
Qed.

Lemma turn_in_header R d buf :
  in_header R d -> 0 < Z.of_nat (length buf) <= RLEN -> R ++ buf `prefix_of` header lines ++ body -> exists d', download_turn buf d = Some d' /\
  (in_header (R ++ buf) d' \/ exists b, R ++ buf = header lines ++ b /\ in_body b d').
Proof.
  intros I Hb [q Eq]. destruct (buffer_filled R d buf I ltac:(lia)) as [tl Etl].
  destruct I as [I1 I2 I3 I4 I5 I6 I7 I8]. unfold download_turn. rewrite I1, I2. cbn [negb]. cbv zeta.
  unfold HDRBUF_SIZE, RLEN in *. destruct (Z.leb_spec 5120 (Z.of_nat (length R) + Z.of_nat (length buf))); [lia|].
  replace (Z.to_nat (Z.of_nat (length R) + Z.of_nat (length buf))) with (length R + length buf)%nat by lia. rewrite Nat2Z.id, Etl.
  destruct (Nat.lt_ge_cases (length (R ++ buf)) (length (header lines))) as [Hlt|Hge].
  - destruct (app_eq_prefix (R ++ buf) q (header lines) body (eq_sym Eq) ltac:(lia)) as (q' & Eh & Hq).
    rewrite app_assoc, (parse_partial lines (R ++ buf) q' (0 :: tl) Hne Hlines Eh); [|by intros ->; rewrite app_nil_r in Eh; rewrite Eh in Hlt; lia|done].
    eexists. split; [done|]. left. constructor; cbn [header_done hlen hdrbuf dctx total fp]; try done.
    + rewrite length_app. lia.
    + rewrite <- app_assoc, <- Etl. by rewrite length_st8, length_st_bytes.
    + by rewrite take_app_length.
  - destruct (app_eq_prefix (header lines) body (R ++ buf) q Eq ltac:(lia)) as (b & Eh & Eb).
    rewrite app_assoc, Eh, <- app_assoc, (parse_complete lines (b ++ 0 :: tl) Hne Hlines).
    assert (Lr : Z.of_nat (length R) + Z.of_nat (length buf) - Z.of_nat (length (header lines)) = Z.of_nat (length b))
      by (apply (f_equal length) in Eh; rewrite !length_app in Eh; lia).
    rewrite Lr, !Nat2Z.id, ld_bytes_mid, I7, I8.
    destruct (write_body_stores b [] (dctx d) (mk_file [] room)) as (ctx' & Ew & A).
    + rewrite Eb in Hbody. by apply Forall_app in Hbody as [Hx _].
    + done.
    + f_equal. simpl. lia.
    + rewrite Eb in Hroom. rewrite length_app in Hroom. simpl. lia.
    + cbn [app length] in Ew, A. change (Z.of_nat 0) with 0 in Ew. rewrite Ew. eexists. split; [done|]. right. exists b. split; [done|]. by constructor.
Qed.

Lemma turn_in_body b d buf :
  in_body b d -> (exists q, body = b ++ buf ++ q) -> exists d', download_turn buf d = Some d' /\ in_body (b ++ buf) d'.
Proof.
  intros [B1 B2 B3 B4 B5] [q Eq]. unfold download_turn. rewrite B1, B3. cbn [negb]. cbv zeta.
  assert (Hb : bytes_ok buf) by (rewrite Eq in Hbody; apply Forall_app in Hbody as [_ Hx]; by apply Forall_app in Hx as [Hx _]).
  destruct (write_body_stores buf b (dctx d) (fp d) Hb B2 B5) as (ctx' & Ew & A).
  { rewrite Eq in Hroom. rewrite !length_app in *. lia. }
  rewrite Ew. eexists. split; [done|]. by constructor.
Qed.

Lemma loop_in_body l : forall b d, in_body b d -> body = b ++ concat l -> exists d', download_loop l d = Some d' /\ in_body body d'.
Proof.
  induction l as [|buf l IH]; intros b d I E; cbn [download_loop]; cbn [concat] in E.
  - rewrite app_nil_r in E. subst b. by exists d.
  - destruct (turn_in_body b d buf I) as (d1 & -> & I1); [by exists (concat l)|]. apply (IH _ _ I1). by rewrite <- app_assoc.
Qed.

(** However the response is cut into reads. *)
Lemma loop_in_header l : Forall (fun buf => 0 < Z.of_nat (length buf) <= RLEN) l -> forall R d,
  in_header R d -> R ++ concat l = header lines ++ body -> exists d', download_loop l d = Some d' /\ in_body body d'.
Proof.
  induction 1 as [|buf l Hb Hl IH]; intros R d I E; cbn [download_loop]; cbn [concat] in E.
  - pose proof (ih_short _ _ I) as Hs. apply (f_equal length) in E. rewrite !length_app in E. simpl in E. lia.
  - rewrite app_assoc in E. destruct (turn_in_header R d buf I Hb) as (d1 & -> & [I1|(b & Eb & I1)]); [by exists (concat l)|by apply (IH _ _ I1)|].
    apply (loop_in_body l b d1 I1). rewrite Eb, <- app_assoc in E. by apply app_inv_head in E.
Qed.

Lemma stream_start : in_header [] (mk_download (replicate (Z.to_nat HDRBUF_SIZE) 0) 0 false (sha256_init zero_ctx) 0 (-1) (mk_file [] room)).
Proof.
  constructor; cbn [header_done hlen hdrbuf dctx total fp]; try done.
  - unfold header. rewrite length_app. simpl. lia.
  - apply init_absorbed; [done|]. apply Forall_replicate. unfold is_u8. lia.
Qed.
End Stream.

(** ** Sending *)

(** Every [write] takes at least one byte and no more than it was given. *)
Definition writes_ok (wr : nat -> Z -> Z) : Prop := forall i n, 0 < n -> 0 < wr i n <= n.

Lemma write_loop_ok wr : writes_ok wr -> forall fuel i data, (length data <= fuel)%nat -> (write_loop fuel wr i data).2 = 0.
Proof.
  intros Hw. induction fuel as [|fuel IH]; intros i data Hf; (destruct data as [|x data]; [done|]); [simpl in Hf; lia|]. cbn [write_loop]. cbv zeta.
  specialize (Hw i (Z.of_nat (length (x :: data))) ltac:(simpl; lia)). destruct (Z.leb_spec (wr i (Z.of_nat (length (x :: data)))) 0); [lia|].
  apply IH. rewrite length_drop. lia.
Qed.
Lemma write_all_ok wr i data : writes_ok wr -> exists j, write_all wr i data = (j, 0).
Proof.
  intros Hw. pose proof (write_loop_ok wr Hw (length data) i data ltac:(lia)) as E. unfold write_all. destruct (write_loop _ _ _ _) as [j rc].
  simpl in E. subst rc. by exists j.
Qed.

Lemma upload_absorbs wr : writes_ok wr -> forall fuel i data m ctx, (length data <= fuel)%nat -> bytes_ok data -> absorbed m ctx ->
  exists ctx', upload_loop fuel wr i data ctx (Z.of_nat (length m)) = Some (ctx', Z.of_nat (length (m ++ data))) /\ absorbed (m ++ data) ctx'.
Proof.
  intros Hw. induction fuel as [|fuel IH]; intros i data m ctx Hf Hd A; (destruct data as [|x data]; [exists ctx; by rewrite app_nil_r|]); [simpl in Hf; lia|].
  cbn [upload_loop]. cbv zeta. remember (x :: data) as dt eqn:Edt. assert (0 < length dt)%nat by (subst; simpl; lia). clear Edt.
  destruct (write_all_ok wr i (take (Z.to_nat RLEN) dt) Hw) as [j ->]. cbn [negb Z.eqb].
  unfold RLEN. set (k := Z.to_nat 4096). assert (0 < k)%nat by (subst k; lia). clearbody k.
  destruct (IH j (drop k dt) (m ++ take k dt) (sha256_update (take k dt) ctx)) as (ctx' & E & A').
  - rewrite length_drop. lia.
  - by apply Forall_drop.
  - apply update_absorbs; [by apply Forall_take|done].
  - exists ctx'. rewrite length_app, Nat2Z.inj_add in E. rewrite <- app_assoc, take_drop in E, A'. done.
Qed.

(** ** The digest in hexadecimal *)

Definition hex_digit (n : Z) : Z := if n <? 10 then 48 + n else 87 + n.
Definition hex_digest (m : list Z) : list Z := concat ((fun b => [hex_digit (b / 16); hex_digit (b mod 16)]) <$> SHA256 m).

Lemma hexchars_digit n : 0 <= n < 16 -> word hexchars (Z.to_nat n) = hex_digit n.
Proof.
  intros H. rewrite <- (Z2Nat.id n) at 2 by lia. assert (L : (Z.to_nat n < 16)%nat) by lia. revert L. generalize (Z.to_nat n). clear n H. intros n L.
  do 16 (destruct n as [|n]; [reflexivity|]). lia.
Qed.
Lemma hex_digit_char n : 0 <= n < 16 -> hex_digit n <> 0 /\ tolower (hex_digit n) = hex_digit n.
Proof.
  intros H. unfold hex_digit, tolower. destruct (Z.ltb_spec n 10); split; try lia.
  - destruct (Z.leb_spec 65 (48 + n)); [lia|done].
  - destruct (Z.leb_spec (87 + n) 90); [lia|]. by rewrite andb_false_r.
Qed.
Lemma SHA256_bytes m : bytes_ok (SHA256 m).
Proof. unfold SHA256. apply Forall_concat, Forall_fmap, Forall_true. intros x. repeat constructor; apply u8_range. Qed.
Lemma length_SHA256 m : length (SHA256 m) = 32%nat.
Proof.
  unfold SHA256. generalize (full_blocks (pad m)). intros bs. assert (L : length (foldl compress H0 bs) = 8%nat).
  { assert (H : length H0 = 8%nat) by done. revert H. generalize H0. induction bs as [|b bs IH]; intros h Hh; [done|]. apply IH. unfold compress.
    rewrite length_zip_with, Hh. done. }
  revert L. generalize (foldl compress H0 bs). intros l L. rewrite length_concat.
  destruct l as [|x0 [|x1 [|x2 [|x3 [|x4 [|x5 [|x6 [|x7 [|]]]]]]]]]; done.
Qed.

Lemma digest_chars m : Forall (fun c => c <> 0 /\ tolower c = c) (hex_digest m).
Proof.
  unfold hex_digest. apply Forall_concat, Forall_fmap. eapply Forall_impl; [apply SHA256_bytes|]. intros b Hb. unfold is_u8 in Hb. simpl.
  apply Forall_cons. split; [|apply Forall_singleton]; apply hex_digit_char; [|apply Z.mod_pos_bound; lia].
  split; [apply Z.div_pos; lia|apply Z.div_lt_upper_bound; lia].
Qed.
Lemma digest_lower m : tolower <$> hex_digest m = hex_digest m.
Proof. pose proof (digest_chars m) as H. induction H as [|c l [_ Hc] H IH]; [done|]. rewrite fmap_cons, IH, Hc. done. Qed.
Lemma length_digest m : length (hex_digest m) = 64%nat.
Proof.
  unfold hex_digest. pose proof (length_SHA256 m) as L. change 64%nat with (2 * 32)%nat. rewrite <- L. clear L.
  induction (SHA256 m) as [|x l IH]; [done|]. rewrite fmap_cons. cbn [concat]. rewrite length_app, IH. simpl. lia.
Qed.
(** What [sha256_hex] prints. *)
Lemma printed_digest m : cstr (sha256_hex (SHA256 m)) = hex_digest m.
Proof.
  assert (E : sha256_hex (SHA256 m) = hex_digest m ++ [0]).
  { unfold sha256_hex, hex_digest. f_equal. f_equal. pose proof (SHA256_bytes m) as H. induction H as [|b l Hb H IH]; [done|].
    rewrite !fmap_cons, IH. f_equal. unfold is_u8 in Hb. change 15 with (Z.ones 4). rewrite Z.land_ones, Z.shiftr_div_pow2 by lia. change (2 ^ 4) with 16.
    rewrite !hexchars_digit; [done|apply Z.mod_pos_bound; lia|]. split; [apply Z.div_pos; lia|apply Z.div_lt_upper_bound; lia]. }
  rewrite E, cstr_app; [by rewrite app_nil_r|]. eapply Forall_impl; [apply digest_chars|]. simpl. tauto.
Qed.

(** ** The two programs *)

(** The connection is made and what is written arrives. *)
Record reachable (c : calls) (host port : list Z) : Prop := {
  rb_names : too_long host port = false;
  rb_lookup : lookup_rc c = Found;
  rb_connect : connect_rc c <> -1;
  rb_writes : writes_ok (write_rc c)
}.

Definition accepted (lines : list (list Z)) (body : list Z) (expected : option (list Z)) : bool :=
  ((content_length_of lines <? 0) || (Z.of_nat (length body) =? content_length_of lines)) &&
  match expected with
  | None => true
  | Some e => bool_decide (e = []) || bool_decide (tolower <$> take 64 e = hex_digest body)
  end.

Lemma verify_accepted lines body expected :
  verify_result (Z.of_nat (length body)) (content_length_of lines) (hex_digest body) (match expected with Some e => take 64 e | None => [] end) =
  if accepted lines body expected then 0 else 1.
Proof.
  unfold verify_result, accepted. generalize (content_length_of lines), (Z.of_nat (length body)). intros cl n. unfold strcasecmp. rewrite digest_lower.
  rewrite (Z.ltb_antisym 0 cl). destruct (0 <=? cl), (n =? cl); cbn [negb andb orb]; try done;
    (destruct expected as [e|]; [|done]); (destruct e as [|x e]; [done|]); cbn [take];
    rewrite (bool_decide_ext (hex_digest body = _) _ (conj (@eq_sym _ _ _) (@eq_sym _ _ _)));
    by destruct (bool_decide (tolower <$> x :: take 63 e = hex_digest body)).
Qed.

Lemma download_result c host port expected lines body :
  reachable c host port -> fopen_ok c = true -> lines <> [] -> Forall line_ok lines -> (length (header lines) <= 1024)%nat ->
  bytes_ok body -> Z.of_nat (length body) <= disk_room c -> Z.of_nat (length body) < 2 ^ 61 ->
  Forall (fun buf => 0 < Z.of_nat (length buf) <= RLEN) (reads c) -> concat (reads c) = header lines ++ body -> read_end c <> -1 ->
  run_download c host port expected = (if accepted lines body expected then 0 else 1, Some body).
Proof.
  intros [R1 R2 R3 R4] Hf Hne Hl Hh Hb Hr Hlen Hrd Ec He. unfold run_download. rewrite R1, R2. cbn [get_address Z.eqb negb].
  rewrite (proj2 (Z.eqb_neq _ _) R3). destruct (write_all_ok (write_rc c) 0 (get_request host port) R4) as [j ->]. cbn [Z.eqb negb]. rewrite Hf. cbn [negb].
  destruct (loop_in_header lines body (disk_room c) Hne Hl Hh Hb Hr (reads c) Hrd [] _ (stream_start lines body (disk_room c) Hh) Ec) as (d & -> & [B1 B2 B3 B4 B5]).
  rewrite (proj2 (Z.eqb_neq _ _) He). cbv zeta. rewrite (final_SHA256 body _ B2 Hlen), printed_digest, B3, B4, B5, verify_accepted. done.
Qed.

(** The reply that confirms an upload. *)
Definition confirms (body reply : list Z) : bool :=
  let s := cstr (take 127 reply) in bool_decide (take 3 s = OK_) && bool_decide (tolower <$> take 64 (drop 3 s) = hex_digest body).

Lemma prefix_of_take p : forall l, prefix_of p l = bool_decide (take (length p) l = p).
Proof.
  induction p as [|x p IH]; intros l; [by destruct l|]. destruct l as [|y l]; [done|]. cbn [prefix_of length take]. rewrite IH.
  destruct (Z.eqb_spec x y) as [->|N]; cbn [andb].
  - apply bool_decide_ext. split; [by intros ->|by intros [= ->]].
  - symmetry. apply bool_decide_eq_false_2. congruence.
Qed.

Lemma upload_result c host port body :
  reachable c host port -> bytes_ok body -> Z.of_nat (length body) < 2 ^ 61 ->
  run_upload c host port (Some body) = match reads c with [] => 1 | reply :: _ => if confirms body reply then 0 else 1 end.
Proof.
  intros [R1 R2 R3 R4] Hb Hlen. unfold run_upload. rewrite R1, R2. cbv zeta. cbn [get_address Z.eqb negb]. rewrite (proj2 (Z.eqb_neq _ _) R3).
  destruct (write_all_ok (write_rc c) 0 (put_request (Z.of_nat (length body))) R4) as [j ->]. cbn [Z.eqb negb].
  destruct (upload_absorbs _ R4 (length body) j body [] (sha256_init zero_ctx) ltac:(lia) Hb) as (ctx & E & A).
  { apply init_absorbed; [done|]. apply Forall_replicate. unfold is_u8. lia. }
  cbn [app length] in E, A. change (Z.of_nat 0) with 0 in E. rewrite E, Z.eqb_refl. cbn [negb]. rewrite (final_SHA256 body _ A Hlen), printed_digest.
  destruct (reads c) as [|reply l]; [done|]. unfold confirms. cbv zeta. change (Z.to_nat (REPLY_SIZE - 1)) with 127%nat.
  rewrite prefix_of_take. unfold strncasecmp. rewrite (take_ge (hex_digest body)), digest_lower by (rewrite length_digest; lia).
  change (length OK_) with 3%nat. by destruct (bool_decide _), (bool_decide _).
Qed.

End CurlVerify.
