(* ===== verification/Host.v ===== *)
(** The process around the stack: [src/src/main.c], [src/src/cli.c],
    [src/src/tuntap_if.c] and what [src/src/utils.c] has besides the checksum.

    What the operating system answers is an argument ([os]); what the process asks of
    it is a log of actions.  [exit] ends the log. *)
From Stdlib Require Import String Ascii.
From S2P Require Import Prelude Utils TcpApi.
Import Utils TcpApi.

Module Host.

(** The bytes of a string. *)
Definition asc (s : string) : list Z := (fun c => Z.of_nat (nat_of_ascii c)) <$> list_ascii_of_string s.

(** ** Actions *)

Inductive capability := CAP_NET_ADMIN | CAP_SETPCAP.
Inductive thread_name := THREAD_CORE | THREAD_TIMERS | THREAD_IPC | THREAD_SIGNAL.

Inductive action :=
  | BlockSignals
  | OpenTap | SetIff (name : list Z) | CloseFd (fd : Z)
  | Exec (cmd : list Z)
  | StackUp  (** the initialisation functions after [tun_init] *)
  | DropCap (c : capability)
  | CreateThread (t : thread_name)
  | JoinThread (t : thread_name)
  | FreeStack.

Record os := mk_os {
  os_sigmask : Z;
  os_open : Z;
  os_ioctl : Z * list Z;  (** the result of TUNSETIFF and the name the kernel chose *)
  os_system : list Z -> Z;
  os_prctl : capability -> Z;
  os_create : thread_name -> Z;
  os_join : thread_name -> Z
}.

(** A computation with a log, which [exit] may end. *)
Definition proc (A : Type) : Type := list action * (Z + A).
Definition ret {A} (x : A) : proc A := ([], inr x).
Definition act (a : action) : proc unit := ([a], inr tt).
Definition exit {A} (rc : Z) : proc A := ([], inl rc).
Definition bindp {A B} (p : proc A) (f : A -> proc B) : proc B :=
  match p with
  | (l, inl rc) => (l, inl rc)
  | (l, inr x) => let '(l', r) := f x in (l ++ l', r)
  end.
Declare Scope proc_scope.
Delimit Scope proc_scope with proc.
Notation "x <- p ;; q" := (bindp p (fun x => q)) (at level 100, p at next level, right associativity) : proc_scope.
Notation "p ;;; q" := (bindp p (fun _ => q)) (at level 100, right associativity) : proc_scope.
Open Scope proc_scope.

(** ** Command line *)

(** The letters of one argument; [None]: one that is not [d]. *)
Fixpoint opt_letters (l : list Z) (debug : bool) : option bool :=
  match l with
  | [] => Some debug
  | c :: l => if c =? 100 then opt_letters l true else None
  end.
(** [getopt] with "hd": operands are passed over, two dashes end the options.
    The value of [debug]; [usage] exits. *)
Fixpoint parse_opts (argv : list (list Z)) (debug : bool) : proc bool :=
  match argv with
  | [] => ret debug
  | a :: argv =>
      match a with
      | [45; 45] => ret debug
      | 45 :: (_ :: _) as letters =>
          match opt_letters (tail letters) debug with
          | Some debug => parse_opts argv debug
          | None => exit 1
          end
      | _ => parse_opts argv debug
      end
  end.
Definition parse_cli (argv : list (list Z)) : proc bool := parse_opts argv false.

(** ** The TAP device *)

Definition CMDBUFLEN : Z := 100.
(** The formatted command, cut to the buffer. *)
Definition run_cmd (o : os) (cmd : list Z) : proc Z :=
  let buf := take (Z.to_nat (CMDBUFLEN - 1)) cmd in
  act (Exec buf) ;;; ret (os_system o buf).

Definition tapaddr : list Z := asc "10.0.0.5".
Definition taproute : list Z := asc "10.0.0.0/24".
Definition set_if_route (o : os) (dev cidr : list Z) : proc Z := run_cmd o (asc "ip route add dev " ++ dev ++ asc " " ++ cidr).
Definition set_if_address (o : os) (dev cidr : list Z) : proc Z := run_cmd o (asc "ip address add dev " ++ dev ++ asc " local " ++ cidr).
Definition set_if_up (o : os) (dev : list Z) : proc Z := run_cmd o (asc "ip link set dev " ++ dev ++ asc " up").

(** [dev] is a string; the descriptor or the error, and the name. *)
Definition tun_alloc (o : os) (dev : list Z) : proc (Z * list Z) :=
  act OpenTap ;;;
  if os_open o <? 0 then exit 1
  else
    act (SetIff (take 16 dev)) ;;;
    let '(err, name) := os_ioctl o in
    if err <? 0 then act (CloseFd (os_open o)) ;;; ret (err, dev) else ret (os_open o, name).

(** [dev] starts as ten zero bytes; failed commands are reported and passed over. *)
Definition tun_init (o : os) : proc Z :=
  r <- tun_alloc o [] ;;
  let '(fd, dev) := (r : Z * list Z) in
  set_if_up o dev ;;; set_if_route o dev taproute ;;; set_if_address o dev tapaddr ;;; ret fd.

(** ** Start and end *)

Definition init_signals (o : os) : proc unit :=
  act BlockSignals ;;; if negb (os_sigmask o =? 0) then exit 1 else ret tt.
Definition init_security (o : os) : proc unit :=
  act (DropCap CAP_NET_ADMIN) ;;;
  if os_prctl o CAP_NET_ADMIN =? -1 then exit 1
  else act (DropCap CAP_SETPCAP) ;;; if os_prctl o CAP_SETPCAP =? -1 then exit 1 else ret tt.
(** A thread that cannot be created is reported and passed over. *)
Definition create_thread (t : thread_name) : proc unit := act (CreateThread t).
Definition run_threads : proc unit :=
  create_thread THREAD_CORE ;;; create_thread THREAD_TIMERS ;;; create_thread THREAD_IPC ;;; create_thread THREAD_SIGNAL.
Fixpoint join_loop (o : os) (l : list thread_name) : proc unit :=
  match l with
  | [] => ret tt
  | t :: l => act (JoinThread t) ;;; if negb (os_join o t =? 0) then exit 1 else join_loop o l
  end.
Definition wait_for_threads (o : os) : proc unit := join_loop o [THREAD_CORE; THREAD_TIMERS; THREAD_IPC].

Definition init_stack (o : os) : proc unit := tun_init o ;;; act StackUp.
(** [argv] without the program's name. *)
Definition main (o : os) (argv : list (list Z)) : proc Z :=
  parse_cli argv ;;; init_signals o ;;; init_stack o ;;; init_security o ;;; run_threads ;;; wait_for_threads o ;;; act FreeStack ;;; ret 0.

(** The thread that waits for signals: the results of [sigwait] and the signals; a
    failed wait leaves the number as it was.  The threads it cancels, in order; [None]:
    it still waits. *)
Definition SIGINT : Z := 2.
Definition SIGQUIT : Z := 3.
Fixpoint stop_stack_handler (waits : list (Z * Z)) (signo : Z) : option (list thread_name) :=
  match waits with
  | [] => None
  | (err, n) :: waits =>
      let signo := if err =? 0 then n else signo in
      if (signo =? SIGINT) || (signo =? SIGQUIT) then Some [THREAD_IPC; THREAD_CORE; THREAD_TIMERS]
      else stop_stack_handler waits signo
  end.

(** ** Helpers *)

Fixpoint skip_blank (l : list Z) : list Z :=
  match l with [] => [] | c :: r => if (c =? 32) || ((9 <=? c) && (c <=? 13)) then skip_blank r else l end.
Fixpoint scan_digits (acc : option Z) (l : list Z) : option (Z * list Z) :=
  match l with
  | c :: r => if (48 <=? c) && (c <=? 57) then scan_digits (Some (10 * default 0 acc + (c - 48))) r else (fun v => (v, l)) <$> acc
  | [] => (fun v => (v, l)) <$> acc
  end.
(** One [%hhu]: blanks, a sign, digits; the value is cut to a byte. *)
Definition scan_hhu (l : list Z) : option (Z * list Z) :=
  match skip_blank l with
  | 45 :: l => (fun p => (u8 (- p.1), p.2)) <$> scan_digits None l
  | 43 :: l => (fun p => (u8 p.1, p.2)) <$> scan_digits None l
  | l => (fun p => (u8 p.1, p.2)) <$> scan_digits None l
  end.
(** [sscanf] with "%hhu.%hhu.%hhu.%hhu": the fields read before it stopped. *)
Fixpoint scan_quad (n : nat) (l : list Z) : list Z :=
  match n with
  | O => []
  | S n =>
      match scan_hhu l with
      | None => []
      | Some (v, l) => v :: match l with 46 :: l => scan_quad n l | _ => [] end
      end
  end.
(** [junk] is what the bytes hold that are not read. *)
Definition parse_ipv4_string (addr : list Z) (junk : list Z) : Z :=
  let q := scan_quad 4 addr in
  let byte (i : nat) := default (u8 (ld8 junk i)) (q !! i) in
  Z.lor (Z.lor (Z.lor (byte 3%nat) (Z.shiftl (byte 2%nat) 8)) (Z.shiftl (byte 1%nat) 16)) (Z.shiftl (byte 0%nat) 24).

(** ** The order of things *)

Definition tap_script (o : os) : list action :=
  let failed := (os_ioctl o).1 <? 0 in
  let dev := if failed then [] else (os_ioctl o).2 in
  let cmd c := Exec (take (Z.to_nat (CMDBUFLEN - 1)) c) in
  [OpenTap; SetIff []] ++ (if failed then [CloseFd (os_open o)] else []) ++
  [cmd (asc "ip link set dev " ++ dev ++ asc " up"); cmd (asc "ip route add dev " ++ dev ++ asc " " ++ taproute);
   cmd (asc "ip address add dev " ++ dev ++ asc " local " ++ tapaddr)].
Definition drops : list action := [DropCap CAP_NET_ADMIN; DropCap CAP_SETPCAP].
Definition creates : list action := CreateThread <$> [THREAD_CORE; THREAD_TIMERS; THREAD_IPC; THREAD_SIGNAL].
Definition joins : list action := JoinThread <$> [THREAD_CORE; THREAD_TIMERS; THREAD_IPC].
(** Everything [main] does when nothing stops it. *)
Definition script (o : os) : list action := [BlockSignals] ++ (tap_script o ++ [StackUp]) ++ drops ++ creates ++ joins ++ [FreeStack].

(** [p] does what [l] lists, or the beginning of it and exits. *)
Definition does {A} (p : proc A) (l : list action) : Prop :=
  match p with (k, inr _) => k = l | (k, inl rc) => rc <> 0 /\ k `prefix_of` l end.

Lemma does_bind {A B} (p : proc A) (f : A -> proc B) l l' : does p l -> (forall x, does (f x) l') -> does (bindp p f) (l ++ l').
Proof.
  intros P F. destruct p as [k [rc|x]]; cbn [does bindp] in *; [destruct P; split; [done|by apply prefix_app_r]|]. subst k. specialize (F x).
  destruct (f x) as [k' [rc|y]]; cbn [does] in *; [destruct F; split; [done|by apply prefix_app]|by subst].
Qed.
Lemma does_ret {A} (x : A) : does (ret x) []. Proof. done. Qed.
Lemma does_act a : does (act a) [a]. Proof. done. Qed.
Lemma does_exit {A} rc l : rc <> 0 -> does (exit rc : proc A) l. Proof. split; [done|apply prefix_nil]. Qed.

Lemma parse_opts_does argv : forall d, does (parse_opts argv d) [].
Proof. induction argv as [|a argv IH]; intros d; cbn [parse_opts]; [done|]. repeat (case_match; try apply IH); first [apply does_ret|by apply does_exit]. Qed.
Lemma run_cmd_does o c : does (run_cmd o c) [Exec (take (Z.to_nat (CMDBUFLEN - 1)) c)]. Proof. done. Qed.
Lemma tun_init_does o : does (tun_init o) (tap_script o).
Proof.
  unfold tun_init, tun_alloc. destruct (os_open o <? 0); [by split; [|exists (tail (tap_script o))]|]. unfold tap_script.
  destruct (os_ioctl o) as [err name]. cbn [fst snd]. by destruct (err <? 0).
Qed.
Lemma init_security_does o : does (init_security o) drops.
Proof.
  unfold init_security. destruct (_ =? -1); [by split; [|exists [DropCap CAP_SETPCAP]]|]. destruct (_ =? -1); [|done]. by split.
Qed.
Lemma join_loop_does o l : does (join_loop o l) (JoinThread <$> l).
Proof.
  induction l as [|t l IH]; cbn [join_loop]; [done|]. apply (does_bind _ _ [JoinThread t]); [done|]. intros _.
  destruct (negb _); [by apply does_exit|done].
Qed.
Lemma main_does o argv : does (main o argv) (script o).
Proof.
  unfold main. apply (does_bind _ _ []); [apply parse_opts_does|]. intros d. apply (does_bind _ _ [BlockSignals]).
  { unfold init_signals. apply (does_bind _ _ [BlockSignals] []); [done|]. intros _. destruct (negb _); [by apply does_exit|done]. }
  intros _. apply does_bind; [unfold init_stack; apply does_bind; [apply tun_init_does|done]|]. intros _. apply does_bind; [apply init_security_does|]. intros _.
  apply does_bind; [done|]. intros _. apply does_bind; [apply join_loop_does|]. intros _. done.
Qed.

(** What comes before an action of the second part contains the first part, and what
    comes before an action of the first part contains nothing of the second. *)
Lemma before_second {A} (l1 l2 a b : list A) x : l1 ++ x :: l2 `prefix_of` a ++ b -> x ∉ a -> a `prefix_of` l1.
Proof.
  intros [r E] N. rewrite <- app_assoc in E. apply app_eq_inv in E as [(k & E1 & E2)|(k & E1 & E2)]; [|by exists k].
  destruct k as [|y k]; [exists []; by rewrite app_nil_r in *|]. cbn [app] in E2. injection E2 as <- _. subst a. set_solver.
Qed.
Lemma before_first {A} (l1 l2 a b : list A) x : l1 ++ x :: l2 `prefix_of` a ++ b -> x ∉ b -> l1 `prefix_of` a.
Proof.
  intros [r E] N. rewrite <- app_assoc in E. apply app_eq_inv in E as [(k & E1 & E2)|(k & E1 & E2)]; [by exists k|].
  exfalso. apply N. rewrite E2. set_solver.
Qed.

Lemma tap_script_ok o a : a ∈ tap_script o -> (forall t, a <> CreateThread t) /\ (forall p, a <> DropCap p).
Proof. unfold tap_script. cbv zeta. destruct (_ <? 0); rewrite !elem_of_app, !elem_of_cons, !elem_of_nil; intros; destruct_or?; subst; done. Qed.

Lemma main_in_order o argv :
  (main o argv).1 `prefix_of` script o /\ ((main o argv).2 = inr 0 -> (main o argv).1 = script o) /\ (forall rc, (main o argv).2 = inl rc -> rc <> 0) /\
  (forall l1 t l2, (main o argv).1 = l1 ++ CreateThread t :: l2 -> DropCap CAP_NET_ADMIN ∈ l1 /\ DropCap CAP_SETPCAP ∈ l1) /\
  (forall l1 c l2, (main o argv).1 = l1 ++ Exec c :: l2 -> BlockSignals ∈ l1 /\ forall p, DropCap p ∉ l1).
Proof.
  pose proof (main_does o argv) as D. destruct (main o argv) as [k q]. cbn [fst snd]. assert (P : k `prefix_of` script o) by (destruct q; cbn [does] in D; [apply D|by subst]).
  split_and!; [done|by destruct q; cbn [does] in D|intros rc ->; apply D| |]; clear D.
  - intros l1 t l2 ->. unfold script in P. rewrite !app_assoc, <- (app_assoc _ creates), <- (app_assoc _ (creates ++ _)) in P. apply before_second in P.
    + destruct P as [r ->]. unfold drops. set_solver.
    + unfold drops. rewrite !elem_of_app, !elem_of_cons, !elem_of_nil. intros H. destruct_or?; try done. apply tap_script_ok in H as [H _]. by apply (H t).
  - intros l1 c l2 ->. unfold script in P. split.
    + apply before_second in P; [destruct P as [r ->]; set_solver|set_solver].
    + rewrite app_assoc in P. apply before_first in P; [|unfold drops, creates, joins; cbn [fmap list_fmap]; set_solver]. destruct P as [r E]. intros p Hp.
      assert (H : DropCap p ∈ [BlockSignals] ++ tap_script o ++ [StackUp]) by (rewrite E; set_solver).
      rewrite !elem_of_app, !elem_of_cons, !elem_of_nil in H. destruct_or?; try done. apply tap_script_ok in H as [_ H]. by apply (H p).
Qed.

(** ** Addresses *)

Definition dec3 (n : Z) : list Z :=
  if n <? 10 then [48 + n] else if n <? 100 then [48 + n / 10; 48 + n mod 10] else [48 + n / 100; 48 + n / 10 mod 10; 48 + n mod 10].
Definition quad (a b c d : Z) : list Z := dec3 a ++ [46] ++ dec3 b ++ [46] ++ dec3 c ++ [46] ++ dec3 d.

Lemma scan_digits_one acc d l : 0 <= d < 10 -> scan_digits acc (48 + d :: l) = scan_digits (Some (10 * default 0 acc + d)) l.
Proof.
  intros Hd. cbn [scan_digits]. destruct (Z.leb_spec 48 (48 + d)); [|lia]. destruct (Z.leb_spec (48 + d) 57); [|lia]. cbn [andb]. do 2 f_equal. lia.
Qed.
Lemma scan_dec3 n l : is_u8 n -> (forall c r, l = c :: r -> c < 48) -> scan_hhu (dec3 n ++ l) = Some (n, l).
Proof.
  unfold is_u8. intros Hn Hl. assert (S : forall v, scan_digits (Some v) l = Some (v, l)).
  { intros v. destruct l as [|c r]; [done|]. cbn [scan_digits]. specialize (Hl c r eq_refl). destruct (Z.leb_spec 48 c); [lia|done]. }
  assert (F : forall d r, 0 <= d < 10 -> scan_hhu (48 + d :: r) = (fun p => (u8 p.1, p.2)) <$> scan_digits None (48 + d :: r)).
  { intros d r Hd. assert (E : (0 <= d < 10)%Z) by done. unfold scan_hhu. assert (K : skip_blank (48 + d :: r) = 48 + d :: r).
    { cbn [skip_blank]. destruct (Z.eqb_spec (48 + d) 32); [lia|]. destruct (Z.leb_spec (48 + d) 13); [lia|]. by rewrite andb_false_r. }
    rewrite K. assert (D : d = 0 \/ d = 1 \/ d = 2 \/ d = 3 \/ d = 4 \/ d = 5 \/ d = 6 \/ d = 7 \/ d = 8 \/ d = 9) by lia.
    by destruct D as [->|[->|[->|[->|[->|[->|[->|[->|[->| ->]]]]]]]]]. }
  unfold dec3. destruct (Z.ltb_spec n 10); [|destruct (Z.ltb_spec n 100)]; cbn [app]; rewrite F by (Z.div_mod_to_equations; lia);
    repeat (rewrite scan_digits_one by (Z.div_mod_to_equations; lia)); rewrite S; cbn [fmap option_fmap option_map default fst snd]; unfold id;
    do 2 f_equal; unfold u8; Z.div_mod_to_equations; lia.
Qed.

(** A dotted quad is read as the address in host order. *)
Lemma parse_quad a b c d junk : is_u8 a -> is_u8 b -> is_u8 c -> is_u8 d ->
  parse_ipv4_string (quad a b c d) junk = 16777216 * a + 65536 * b + 256 * c + d.
Proof.
  intros Ha Hb Hc Hd. unfold parse_ipv4_string, quad. cbn [scan_quad].
  rewrite scan_dec3 by (done || (intros ? ? [= <- _]; lia)). cbn [app]. rewrite scan_dec3 by (done || (intros ? ? [= <- _]; lia)). cbn [app].
  rewrite scan_dec3 by (done || (intros ? ? [= <- _]; lia)). cbn [app]. rewrite <- (app_nil_r (dec3 d)), scan_dec3 by done. cbn [app lookup list_lookup default].
  unfold is_u8 in *. rewrite (Z.lor_comm d), (lor_shift c 8) by (vm_compute (2 ^ 8); lia). vm_compute (2 ^ 8).
  rewrite (Z.lor_comm _ (Z.shiftl b 16)), (lor_shift b 16) by (vm_compute (2 ^ 16); lia). vm_compute (2 ^ 16).
  rewrite (Z.lor_comm _ (Z.shiftl a 24)), (lor_shift a 24) by (vm_compute (2 ^ 24); lia). vm_compute (2 ^ 24). lia.
Qed.
(** The constants of the model are the addresses of the source. *)
Lemma lvl_ip_addr_parsed junk : lvl_ip_addr = parse_ipv4_string (asc "10.0.0.4") junk.
Proof. symmetry. change (asc "10.0.0.4") with (quad 10 0 0 4). rewrite parse_quad by (unfold is_u8; lia). done. Qed.

End Host.
