(* ===== verification/Apps.v ===== *)
(** The example programs under [src/apps] (besides [curl-verify]): three echo servers
    over TCP, one over UDP, and three HTTP clients.

    As for [CurlVerify], what the system calls return is an argument, and the texts a
    program prints about itself are left out.  What a program does to its descriptors
    and what it prints of the data is a log. *)
From S2P Require Import Prelude Utils CurlVerify.
Import Utils CurlVerify.

Module Apps.

Inductive io :=
  | Sent (fd : Z) (data : list Z)  (** what a [write] or [sendto] took *)
  | SentTo (data addr : list Z)
  | Printed (data : list Z)
  | Overread  (** [printf] of a buffer without a NUL *)
  | Closed (fd : Z).

(** How a program ends: its status, none given by a [return] without a value, a failed
    assertion; or it goes on for ever or is not done with the results it was given. *)
Inductive ending := Exits (rc : Z) | ExitsUnspecified | Aborts | Runs.

(** ** Echo servers *)

Inductive sent := AllSent (i : nat) | WriteError | NotYet.

(** The inner loop: only a negative result is an error, so that a [write] that takes
    nothing is tried again. [i] counts the calls. *)
Fixpoint write_rest (fuel : nat) (wr : nat -> Z -> Z) (fd : Z) (i : nat) (data : list Z) : list io * sent :=
  match data with
  | [] => ([], AllSent i)
  | _ =>
      match fuel with
      | O => ([], NotYet)
      | S fuel =>
          let w := wr i (Z.of_nat (length data)) in
          if w <? 0 then ([], WriteError)
          else
            let '(l, r) := write_rest fuel wr fd (S i) (drop (Z.to_nat w) data) in
            (Sent fd (take (Z.to_nat w) data) :: l, r)
      end
  end.

(** The echo loop over the reads that returned data. *)
Fixpoint echo_loop (fuel : nat) (wr : nat -> Z -> Z) (fd : Z) (i : nat) (reads : list (list Z)) : list io * sent :=
  match reads with
  | [] => ([], AllSent i)
  | buf :: reads =>
      match write_rest fuel wr fd i buf with
      | (l, AllSent i) => let '(l', r) := echo_loop fuel wr fd i reads in (l ++ l', r)
      | (l, r) => (l, r)
      end
  end.

Record tcp_env := mk_tcp_env {
  t_lookup : lookup_result;
  t_socket : Z;
  t_bind : Z;
  t_listen : Z;
  t_accept : Z;
  t_reads : list (list Z);
  t_write : nat -> Z -> Z;
  t_fuel : nat  (** how long a [write] that takes nothing is tried *)
}.

(** What both servers do from [accept] on. *)
Definition serve_one (e : tcp_env) : list io * ending :=
  if t_accept e <? 0 then ([Closed (t_socket e)], Exits 1)
  else
    let '(l, r) := echo_loop (t_fuel e) (t_write e) (t_accept e) 0 (t_reads e) in
    let closes := [Closed (t_accept e); Closed (t_socket e)] in
    match r with
    | AllSent _ => (l ++ closes, Exits 0)
    | WriteError => (l ++ closes, Exits 1)
    | NotYet => (l, Runs)
    end.
Definition bind_and_serve (e : tcp_env) : list io * ending :=
  if t_socket e <? 0 then ([], Exits 1)
  else if t_bind e <? 0 then ([Closed (t_socket e)], Exits 1)
  else if t_listen e <? 0 then ([Closed (t_socket e)], Exits 1)
  else serve_one e.

(** [src/apps/tcp-server/server.c]; [argv] without the program's name.  [resolve_address]
    fails, and does not exit, when [getaddrinfo] fails. *)
Definition resolve_address (r : lookup_result) : Z := match r with LookupFailed => -1 | _ => 0 end.
Definition tcp_server_main (e : tcp_env) (argv : list (list Z)) : list io * ending :=
  match argv with
  | [_; _] => if negb (resolve_address (t_lookup e) =? 0) then ([], Exits 1) else bind_and_serve e
  | _ => ([], Exits 1)
  end.

(** [src/apps/tcp-v6-server/server.c]: [atoi] is [strtol] cut to an [int]. *)
Definition atoi (s : list Z) : Z := s32 (strtol s).
Definition tcp_v6_server_main (e : tcp_env) (argv : list (list Z)) : list io * ending :=
  match argv with
  | [port] => if (atoi port <=? 0) || (65535 <? atoi port) then ([], Exits 1) else bind_and_serve e
  | _ => ([], Exits 1)
  end.

(** [src/apps/tcp/tcp_server.c].  [dump_recv_data] writes to a file: [d] answers as the
    file does.  Its result is not looked at; [None]: it does not return. *)
Fixpoint dump_recv_data (fuel : nat) (d : nat -> Z -> Z) (dump_fd : Z) (i : nat) (data : list Z) : list io * option nat :=
  if dump_fd <? 0 then ([], Some i)
  else
    match data with
    | [] => ([], Some i)
    | _ =>
        match fuel with
        | O => ([], None)
        | S fuel =>
            let n := d i (Z.of_nat (length data)) in
            if n <? 0 then ([], Some (S i))
            else
              let '(l, r) := dump_recv_data fuel d dump_fd (S i) (drop (Z.to_nat n) data) in
              (Sent dump_fd (take (Z.to_nat n) data) :: l, r)
        end
    end.

Inductive task := TaskExit | TaskReturns | TaskRuns.
Definition close_dump (dump_fd : Z) : list io := if 0 <=? dump_fd then [Closed dump_fd] else [].
Fixpoint echo_reads (fuel : nat) (wr d : nat -> Z -> Z) (fd dump_fd : Z) (i j : nat) (reads : list (list Z)) : list io * task :=
  match reads with
  | [] => (close_dump dump_fd ++ [Closed fd], TaskExit)
  | buf :: reads =>
      match dump_recv_data fuel d dump_fd j buf with
      | (dl, None) => (dl, TaskRuns)
      | (dl, Some j) =>
          match write_rest fuel wr fd i buf with
          | (l, AllSent i) => let '(l', r) := echo_reads fuel wr d fd dump_fd i j reads in (dl ++ l ++ l', r)
          | (l, WriteError) => (dl ++ l ++ close_dump dump_fd ++ [Closed fd], TaskReturns)
          | (l, NotYet) => (dl ++ l, TaskRuns)
          end
      end
  end.
Definition echo_task (fuel : nat) (wr d : nat -> Z -> Z) (fd dump_fd : Z) (reads : list (list Z)) : list io * task :=
  echo_reads fuel wr d fd dump_fd 0 0 reads.

(** One turn of the server's loop in the parent ([fork] returned a positive value or
    failed) and in the child. *)
Inductive fork_result := Parent | Child | ForkFailed.
Record turn := mk_turn { u_accept : Z; u_fork : fork_result; u_dump : Z; u_reads : list (list Z) }.
Fixpoint server_loop (fuel : nat) (wr d : nat -> Z -> Z) (sock : Z) (turns : list turn) : list io * ending :=
  match turns with
  | [] => ([], Runs)
  | t :: turns =>
      if u_accept t <? 0 then ([Closed sock], Exits 0)
      else
        match u_fork t with
        | Child =>
            match echo_task fuel wr d (u_accept t) (u_dump t) (u_reads t) with
            | (l, TaskExit) => (l, Exits 0)
            | (l, TaskReturns) => let '(l', r) := server_loop fuel wr d sock turns in (l ++ l', r)
            | (l, TaskRuns) => (l, Runs)
            end
        | _ => server_loop fuel wr d sock turns
        end
  end.
Definition tcp_server_fork_main (e : tcp_env) (d : nat -> Z -> Z) (turns : list turn) (argv : list (list Z)) : list io * ending :=
  match argv with
  | [host; port] =>
      if too_long host port then ([], Exits 1)
      else if negb (get_address (t_lookup e) =? 0) then ([], Exits 1)
      else if t_bind e <? 0 then ([Closed (t_socket e)], Exits 1)
      else if t_listen e <? 0 then ([Closed (t_socket e)], Exits 1)
      else server_loop (t_fuel e) (t_write e) d (t_socket e) turns
  | _ => ([], Exits 1)
  end.

(** ** The UDP server *)

(** [printf] of a buffer as a string. *)
Definition print_buf (buf : list Z) : io := if existsb (fun c => c =? 0) buf then Printed (cstr buf) else Overread.
(** What a read leaves in a buffer. *)
Definition read_into (data buf : list Z) : list Z := data ++ drop (length data) buf.
Definition zero_buf : list Z := replicate (Z.to_nat RLEN) 0.

(** [src/apps/udp/udp_server.c]: the datagrams with their senders' addresses; [st] is
    what each [sendto] returns. *)
Fixpoint udp_loop (st : nat -> Z -> Z) (sock : Z) (i : nat) (buf : list Z) (dgrams : list (list Z * list Z)) : list io * ending :=
  match dgrams with
  | [] => ([Closed sock], Exits 0)
  | (data, addr) :: dgrams =>
      let buf := read_into data buf in
      let rlen := Z.of_nat (length data) in
      if negb (st i rlen =? rlen) then ([print_buf buf], Exits 1)
      else let '(l, r) := udp_loop st sock (S i) buf dgrams in (print_buf buf :: SentTo data addr :: l, r)
  end.
Definition udp_server_main (lookup : lookup_result) (sock bind_rc : Z) (st : nat -> Z -> Z) (dgrams : list (list Z * list Z)) (argv : list (list Z)) : list io * ending :=
  match argv with
  | [host; port] =>
      if too_long host port then ([], Exits 1)
      else if negb (get_address lookup =? 0) then ([], Exits 1)
      else if bind_rc <? 0 then ([], ExitsUnspecified)
      else udp_loop st sock 0 zero_buf dgrams
  | _ => ([], Exits 1)
  end.

(** ** HTTP clients *)

(** What a single [write] took of [str]. *)
Definition sent_part (sock w : Z) (str : list Z) : list io := if 0 <? w then [Sent sock (take (Z.to_nat w) str)] else [].

Record http_env := mk_http_env {
  h_lookup : lookup_result;
  h_sock : Z;
  h_connect : Z;
  h_write : Z -> Z;  (** what the one [write] takes *)
  h_reads : list (list Z);
  h_read_end : Z
}.

(** [src/apps/curl/curl.c]: one buffer for all reads. *)
Fixpoint curl_loop (buf : list Z) (reads : list (list Z)) : list io :=
  match reads with
  | [] => []
  | data :: reads => let buf := read_into data buf in print_buf buf :: curl_loop buf reads
  end.
Definition curl_main (e : http_env) (argv : list (list Z)) : list io * ending :=
  match argv with
  | [host; port] =>
      if too_long host port then ([], Exits 1)
      else if negb (get_address (h_lookup e) =? 0) then ([], Exits 1)
      else if h_connect e =? -1 then ([], Exits 1)
      else
        let str := get_request host port in
        let len := Z.of_nat (length str) in
        if negb (h_write e len =? len) then (sent_part (h_sock e) (h_write e len) str, Exits 1)
        else
          let l := Sent (h_sock e) str :: curl_loop zero_buf (h_reads e) in
          if h_read_end e =? -1 then (l, Exits 1) else (l ++ [Closed (h_sock e)], Exits 0)
  | _ => ([], Exits 1)
  end.

(** [src/apps/curl-v6/curl-v6.c]: the candidates' [socket] and [connect]; the buffer is
    cleared after every read. *)
Fixpoint v6_connect (l : list (Z * Z)) : list io * Z :=
  match l with
  | [] => ([], -1)
  | (sock, rc) :: l =>
      if sock =? -1 then v6_connect l
      else if rc =? 0 then ([], sock)
      else let '(ls, r) := v6_connect l in (Closed sock :: ls, r)
  end.
(** "[%s]:%s" *)
Definition get_request6 (host port : list Z) : list Z :=
  [71; 69; 84; 32; 47; 32; 72; 84; 84; 80; 47; 49; 46; 49] ++ CRLF ++ [72; 111; 115; 116; 58; 32; 91] ++ host ++ [93; 58] ++ port ++ CRLF ++
  [67; 111; 110; 110; 101; 99; 116; 105; 111; 110; 58; 32; 99; 108; 111; 115; 101] ++ CRLF2.
Definition curl_v6_main (lookup : Z) (cands : list (Z * Z)) (wr : Z -> Z) (reads : list (list Z)) (argv : list (list Z)) : list io * ending :=
  match argv with
  | [host; port] =>
      if too_long host port then ([], Exits 1)
      else if negb (lookup =? 0) then ([], Exits 1)
      else
        let '(l, sock) := v6_connect cands in
        if sock <? 0 then (l, Exits 1)
        else
          let str := get_request6 host port in
          let len := Z.of_nat (length str) in
          if negb (wr len =? len) then (l ++ sent_part sock (wr len) str ++ [Closed sock], Exits 1)
          else (l ++ [Sent sock str] ++ ((fun data => print_buf (read_into data zero_buf)) <$> reads) ++ [Closed sock], Exits 0)
  | _ => ([], Exits 1)
  end.

(** [src/apps/curl-poll/curl-poll.c]: what each [poll] returns, its events, and what the
    [read] it may lead to returns ([None]: an error). *)
Definition POLLIN : Z := 1.
Definition POLLOUT : Z := 4.
Definition POLLERR : Z := 8.
Definition POLLHUP : Z := 16.
Definition EINPROGRESS : Z := 115.
Record poll_turn := mk_poll { pl_rc : Z; pl_revents : Z; pl_read : option (list Z) }.
Fixpoint poll_loop (sock : Z) (turns : list poll_turn) : list io * ending :=
  match turns with
  | [] => ([], Runs)
  | t :: turns =>
      let next (l : list io) :=
        if negb (Z.land (pl_revents t) (Z.lor POLLHUP POLLERR) =? 0) then (l ++ [Closed sock], Exits 0)
        else let '(l', r) := poll_loop sock turns in (l ++ l', r) in
      if pl_rc t <? 0 then ([], Exits 1)
      else if negb (Z.land (pl_revents t) POLLIN =? 0) then
        match pl_read t with
        | None => ([], Exits 1)
        | Some [] => ([Closed sock], Exits 0)
        | Some data => next [print_buf (read_into data zero_buf)]
        end
      else next []
  end.
Record poll_env := mk_poll_env { q_fcntl : Z; q_errno : Z; q_rc : Z; q_revents : Z; q_turns : list poll_turn }.
Definition curl_poll_main (e : http_env) (q : poll_env) (argv : list (list Z)) : list io * ending :=
  match argv with
  | [host; port] =>
      if too_long host port then ([], Exits 1)
      else if negb (get_address (h_lookup e) =? 0) then ([], Exits 1)
      else if q_fcntl q =? -1 then ([], Exits 1)
      else if (h_connect e =? -1) && negb (q_errno q =? EINPROGRESS) then ([], Exits 1)
      else if q_rc q <? 1 then ([], Exits 1)
      else if Z.land (q_revents q) POLLOUT =? 0 then ([], Aborts)
      else
        let str := get_request host port in
        let len := Z.of_nat (length str) in
        if negb (h_write e len =? len) then (sent_part (h_sock e) (h_write e len) str, Exits 1)
        else let '(l, r) := poll_loop (h_sock e) (q_turns q) in (Sent (h_sock e) str :: l, r)
  | _ => ([], Exits 1)
  end.

(** ** What the servers send back *)

Definition sent_on (fd : Z) (l : list io) : list Z := concat ((fun a => match a with Sent f d => if f =? fd then d else [] | _ => [] end) <$> l).
Lemma sent_on_app fd a b : sent_on fd (a ++ b) = sent_on fd a ++ sent_on fd b.
Proof. unfold sent_on. by rewrite fmap_app, concat_app. Qed.
Lemma sent_on_cons fd d l : sent_on fd (Sent fd d :: l) = d ++ sent_on fd l.
Proof. unfold sent_on. rewrite fmap_cons. cbn [concat]. by rewrite Z.eqb_refl. Qed.

(** No [write] takes more than it is given. *)
Definition writes_sane (wr : nat -> Z -> Z) : Prop := forall i n, 0 <= n -> wr i n <= n.

Lemma write_rest_sends wr fd : writes_sane wr -> forall fuel i data l r, write_rest fuel wr fd i data = (l, r) ->
  exists rest, data = sent_on fd l ++ rest /\ (forall j, r = AllSent j -> rest = []) /\ (forall a, a ∈ l -> exists d, a = Sent fd d).
Proof.
  intros Hw. induction fuel as [|fuel IH]; intros i data l r; (destruct data as [|x data]; cbn [write_rest]; [intros [= <- <-]; exists []; split_and!; [done|done|set_solver]|]).
  { intros [= <- <-]. exists (x :: data). split_and!; [done|done|set_solver]. }
  cbv zeta. remember (x :: data) as dt eqn:Edt. clear Edt. specialize (Hw i (Z.of_nat (length dt)) ltac:(lia)). set (w := wr i _) in *. clearbody w. destruct (w <? 0).
  { intros [= <- <-]. exists dt. split_and!; [done|done|set_solver]. }
  destruct (write_rest fuel wr fd (S i) (drop (Z.to_nat w) dt)) as [l1 r1] eqn:E. intros [= <- <-]. destruct (IH _ _ _ _ E) as (rest & E1 & E2 & E3).
  exists rest. split_and!; [|done|].
  - rewrite sent_on_cons, <- app_assoc, <- E1. by rewrite take_drop.
  - intros a [->|Ha]%elem_of_cons; [by eexists|by apply E3].
Qed.
Lemma write_rest_ends wr fd : writes_ok wr -> forall fuel i data, (length data <= fuel)%nat -> exists l j, write_rest fuel wr fd i data = (l, AllSent j).
Proof.
  intros Hw. induction fuel as [|fuel IH]; intros i data Hf; (destruct data as [|x data]; cbn [write_rest]; [by eexists _, _|]); [simpl in Hf; lia|].
  cbv zeta. specialize (Hw i (Z.of_nat (length (x :: data))) ltac:(simpl; lia)). set (w := wr i _) in *. clearbody w. destruct (Z.ltb_spec w 0); [lia|].
  destruct (IH (S i) (drop (Z.to_nat w) (x :: data))) as (l & j & ->); [rewrite length_drop; lia|]. by eexists _, _.
Qed.

Lemma echo_loop_sends fuel wr fd : writes_sane wr -> forall rs i l r, echo_loop fuel wr fd i rs = (l, r) ->
  exists rest, concat rs = sent_on fd l ++ rest /\ (forall j, r = AllSent j -> rest = []) /\ (forall a, a ∈ l -> exists d, a = Sent fd d).
Proof.
  intros Hw. induction rs as [|buf rs IH]; intros i l r; cbn [echo_loop concat]; [intros [= <- <-]; exists []; split_and!; [done|done|set_solver]|].
  destruct (write_rest fuel wr fd i buf) as [l1 r1] eqn:E. destruct (write_rest_sends wr fd Hw _ _ _ _ _ E) as (rest & E1 & E2 & E3).
  assert (B : forall q, r1 = q -> (forall j, q <> AllSent j) -> exists rest0, buf ++ concat rs = sent_on fd l1 ++ rest0 /\ (forall j, q = AllSent j -> rest0 = []) /\ (forall a, a ∈ l1 -> exists d, a = Sent fd d)).
  { intros q _ Hq. exists (rest ++ concat rs). rewrite E1 at 1. rewrite <- app_assoc. split_and!; [done|intros j Hj; by apply Hq in Hj|done]. }
  destruct r1 as [j| |]; [|intros [= <- <-]; by apply B|intros [= <- <-]; by apply B]. clear B.
  destruct (echo_loop fuel wr fd j rs) as [l2 r2] eqn:Er. intros [= <- <-]. destruct (IH _ _ _ Er) as (rest2 & F1 & F2 & F3). specialize (E2 j eq_refl). subst rest.
  exists rest2. split_and!; [|done|intros a [Ha|Ha]%elem_of_app; [by apply E3|by apply F3]]. rewrite sent_on_app, <- app_assoc, <- F1. by rewrite E1, app_nil_r at 1.
Qed.
Lemma echo_loop_ends fuel wr fd : writes_ok wr -> forall rs i, Forall (fun b => (length b <= fuel)%nat) rs -> exists l j, echo_loop fuel wr fd i rs = (l, AllSent j).
Proof.
  intros Hw rs i H. revert i. induction H as [|buf rs Hb H IH]; intros i; cbn [echo_loop]; [by eexists _, _|].
  destruct (write_rest_ends wr fd Hw fuel i buf Hb) as (l & j & ->). destruct (IH j) as (l' & j' & ->). by eexists _, _.
Qed.

(** Both servers once their socket is set up. *)
Definition ready (e : tcp_env) : Prop := 0 <= t_socket e /\ 0 <= t_bind e /\ 0 <= t_listen e /\ 0 <= t_accept e.

Lemma sent_on_closes fd a b : sent_on fd [Closed a; Closed b] = []. Proof. done. Qed.
Lemma serve_one_echoes e l r : writes_sane (t_write e) -> 0 <= t_accept e -> serve_one e = (l, r) ->
  sent_on (t_accept e) l `prefix_of` concat (t_reads e) /\ (r = Exits 0 -> sent_on (t_accept e) l = concat (t_reads e)) /\
  (forall rc, r = Exits rc -> exists k, l = k ++ [Closed (t_accept e); Closed (t_socket e)] /\ forall a, a ∈ k -> exists d, a = Sent (t_accept e) d).
Proof.
  intros Hw Ha. unfold serve_one. destruct (Z.ltb_spec (t_accept e) 0); [lia|]. destruct (echo_loop _ _ _ _ _) as [k q] eqn:E.
  destruct (echo_loop_sends _ _ _ Hw _ _ _ _ E) as (rest & E1 & E2 & E3). rewrite E1. destruct q as [j| |]; intros [= <- <-]; rewrite ?sent_on_app, ?sent_on_closes, ?app_nil_r.
  - rewrite (E2 j eq_refl), app_nil_r. split_and!; [done|done|]. intros rc _. by exists k.
  - split_and!; [by exists rest|done|]. intros rc _. by exists k.
  - split_and!; [by exists rest|done|done].
Qed.

Lemma bind_and_serve_ready e : ready e -> bind_and_serve e = serve_one e.
Proof.
  intros (R1 & R2 & R3 & _). unfold bind_and_serve. destruct (Z.ltb_spec (t_socket e) 0); [lia|]. destruct (Z.ltb_spec (t_bind e) 0); [lia|].
  destruct (Z.ltb_spec (t_listen e) 0); [lia|done].
Qed.
(** Either server refuses its arguments or serves. *)
Lemma server_mains e argv l r : ready e -> tcp_server_main e argv = (l, r) \/ tcp_v6_server_main e argv = (l, r) ->
  (l, r) = ([], Exits 1) \/ serve_one e = (l, r).
Proof.
  intros R. unfold tcp_server_main, tcp_v6_server_main. rewrite bind_and_serve_ready by done.
  intros [E|E]; repeat (case_match; try (left; congruence)); by right.
Qed.
Lemma serve_one_ends e : writes_ok (t_write e) -> 0 <= t_accept e -> Forall (fun b => (length b <= t_fuel e)%nat) (t_reads e) -> exists l, serve_one e = (l, Exits 0).
Proof.
  intros Hw Ha Hf. unfold serve_one. destruct (Z.ltb_spec (t_accept e) 0); [lia|]. destruct (echo_loop_ends (t_fuel e) (t_write e) (t_accept e) Hw (t_reads e) 0 Hf) as (l & j & ->).
  by eexists.
Qed.

(** ** What the clients print *)

Lemma length_zero_buf : length zero_buf = Z.to_nat RLEN. Proof. apply length_replicate. Qed.
(** A read into a cleared buffer that does not fill it is printed as it is, up to a NUL. *)
Lemma print_fresh data : Forall (fun c => c <> 0) data -> Z.of_nat (length data) < RLEN -> print_buf (read_into data zero_buf) = Printed data.
Proof.
  intros Hd Hl. unfold print_buf, read_into. assert (E : drop (length data) zero_buf = 0 :: drop (S (length data)) zero_buf).
  { unfold zero_buf, RLEN in *. rewrite !drop_replicate. replace (Z.to_nat 4096 - length data)%nat with (S (Z.to_nat 4096 - S (length data))) by lia. done. }
  rewrite E. rewrite existsb_app. cbn [existsb Z.eqb]. rewrite orb_true_r, cstr_app by done. cbn [cstr Z.eqb]. by rewrite app_nil_r.
Qed.
(** [curl] prints what an earlier, longer read left in its buffer. *)
Example curl_prints_again : curl_loop zero_buf [[97; 98; 99]; [100]] = [Printed [97; 98; 99]; Printed [100; 98; 99]].
Proof. vm_compute. reflexivity. Qed.
(** A read that fills the buffer is printed past its end, also by the clients that clear it. *)
Example full_read_overruns : print_buf (read_into (replicate (Z.to_nat RLEN) 97) zero_buf) = Overread.
Proof. vm_compute. reflexivity. Qed.
(** A child of the forking server whose [write] fails goes back to [accept] instead of
    ending. *)
Example child_accepts_again :
  server_loop 10 (fun i n => if (i =? 0)%nat then -1 else n) (fun _ n => n) 3 [mk_turn 4 Child (-1) [[97]]; mk_turn (-1) Parent (-1) []] = ([Closed 4; Closed 3], Exits 0).
Proof. vm_compute. reflexivity. Qed.

End Apps.
