(* ===== verification/Fixture.v ===== *)
(** A concrete configuration, used to show that the hypotheses of the theorems are
    met by states the program reaches: the stack of [main.c] with one resolved
    neighbour, a connection opened by [tcp_v4_connect] and completed by a SYN-ACK. *)
From S2P Require Import Prelude Utils SkBuff Timer TcpTypes TcpBase TcpOutput TcpSender TcpData TcpInput TcpApi Ipv6 Net Neigh IpOut.
Import Utils SkBuff Timer TcpTypes TcpBase TcpOutput TcpSender TcpData TcpInput TcpApi Ipv6 Net Neigh IpOut.

Module Fixture.

(** A byte list, checked by evaluation. *)
Definition bytes_okb (l : list Z) : bool := forallb (fun x => (0 <=? x) && (x <? 256)) l.
Lemma bytes_okb_ok l : bytes_okb l = true -> bytes_ok l.
Proof.
  intros H. apply Forall_forall. intros x Hx. apply list_elem_of_In in Hx. unfold bytes_okb in H.
  rewrite forallb_forall in H. specialize (H x Hx). unfold is_u8. lia.
Qed.

Definition dev0 : netdev := netdev_alloc 0 [] 0.
(** 10.0.0.5, the gateway, is resolved. *)
Definition net0 : net :=
  route_init 167772165
    (netdev_init (mk_net dev0 dev0 [] [mk_arp 1 167772165 [2; 0; 0; 0; 0; 5] ARP_RESOLVED] [] 0 0 (-1) [] [] [] [])).

Definition env0 : env net := mk_env timer_init net0 ∅ [] [] 0 [] 1 [1000] 40000.

Definition sock0 : st net := tcp_alloc_sock IPPROTO_TCP AF_INET (mk_socket 7 4097 1 2 SS_UNCONNECTED SOCK_STREAM O_RDWR true false) env0.

(** 10.0.0.5:80 *)
Definition peer : list Z := [2; 0; 0; 80; 10; 0; 0; 5; 0; 0; 0; 0; 0; 0; 0; 0].

Definition done_state (r : res net) (d : st net) : st net := match r with Done s _ => s | _ => d end.

Definition dialled : st net := done_state (tcp_v4_connect peer sock0) sock0.

(** A header with the given flags, sequence numbers and window. *)
Definition header (seq ack_seq win : Z) (fin syn rst psh ack : bool) : tcphdr :=
  mk_th 80 (sk_sport (sk dialled)) seq ack_seq 0 5 fin syn rst psh ack false false false win 0 0 [].

Definition empty_skb : sk_buff := alloc_skb 900 54.

Definition established : st net :=
  done_state (tcp_input_conn (header 5000 1001 40000 false true false false true) empty_skb dialled) dialled.

(** A write of three windows' worth: it sleeps with its fifth segment. *)
Definition big_message : list Z := replicate 6000 7.
Definition sleeper : st net * sk_buff * list Z :=
  match tcp_send big_message established with
  | Asleep s b [AfterSend rest _ _] => (s, b, rest)
  | _ => (established, empty_skb, [])
  end.

(** Four segments in flight, and the peer's acknowledgements of them. *)
Definition in_flight : st net := sleeper.1.1.
Definition ack (n : Z) : tcphdr := header 5001 (1001 + n) 40000 false false false false true.

(** A data segment as [tcp_init_segment] leaves it. *)
Definition received (id seq : Z) (data : list Z) : tcphdr * sk_buff :=
  let n := Z.of_nat (length data) in
  (header seq 1001 40000 false false false false true,
   mk_skb id 0 IP_TCP n n seq (seq + n) 0 0 (replicate 54 0 ++ data) 0 54 0 None).

Definition chunks : list (list Z) := [[1; 2; 3]; [4; 5]; [6]].
(** Last segment first, the middle one twice. *)
Definition arrivals : list nat := [2; 1; 1; 0]%nat.
Definition shuffled : list (tcphdr * sk_buff) :=
  [received 31 5006 [6]; received 32 5004 [4; 5]; received 33 5004 [4; 5]; received 34 5001 [1; 2; 3]].
Definition reassembled : st net := foldl (fun s x => (tcp_otherwise x.1 x.2 s).1) established shuffled.

(** A three-byte segment of [established], as [tcp_send] builds it. *)
Definition data_skb : sk_buff := (send_segment [1; 2; 3] true established).1.

(** 2001:db8::/32 on the link, a more specific /48 behind a gateway, a default route. *)
Definition prefix32 : list Z := [32; 1; 13; 184] ++ replicate 12 0.
Definition prefix48 : list Z := [32; 1; 13; 184; 0; 5] ++ replicate 10 0.
Definition host6 : list Z := [32; 1; 13; 184; 0; 5; 0; 0; 0; 0; 0; 0; 0; 0; 0; 9].
Definition gateway6 : list Z := [254; 128] ++ replicate 13 0 ++ [1].
Definition net6 : net :=
  route6_add (Some prefix48) (Some gateway6) 48 RT_GATEWAY 0 DEV_TAP
    (route6_add (Some prefix32) None 32 RT_HOST 0 DEV_TAP (route6_add_default gateway6 RT_GATEWAY 0 DEV_TAP net0)).

(** Two packets sent to an unresolved neighbour: both wait in its queue. *)
Definition packet6 (x : Z) : sk_buff :=
  set_skb_dev DEV_TAP (mk_skb (-50 - x) 0 0 40 0 0 0 0 0 (replicate 14 0 ++ replicate 40 x) 0 14 0 None).
Definition on_link : rtentry := route6_alloc (Some prefix32) None 32 RT_HOST 0 DEV_TAP.
Definition waiting6 : net :=
  let n := (dst6_neigh_output (packet6 3) on_link net6).1.2 in (dst6_neigh_output (packet6 3) on_link n).1.2.

(** A gratuitous request from 10.0.0.9 for our address. *)
Definition arp_packet : sk_buff :=
  mk_skb 77 0 0 28 0 0 0 0 0
    (replicate 12 0 ++ [8; 6] ++ [0; 1; 8; 0; 6; 4; 0; 1] ++ [2; 0; 0; 0; 0; 9] ++ [10; 0; 0; 9] ++ replicate 6 0 ++ [10; 0; 0; 4])
    0 14 0 None.

End Fixture.
