(* ===== verification/Scenario.v ===== *)
(** Concrete runs of the whole stack: a server at 10.0.0.4:80 and frames of a client
    at 10.0.0.5. *)
From S2P Require Import Prelude Utils SkBuff Timer TcpTypes TcpBase TcpOutput TcpApi Ipv6 Net Neigh IpOut World Udp SocketApi Addrconf IpIn Stack WorldFacts WorldCalls Fixture.
Import Utils SkBuff Timer TcpTypes TcpBase TcpOutput TcpApi Ipv6 Net Neigh IpOut World Udp SocketApi Addrconf IpIn Stack WorldFacts WorldCalls Fixture.

Module Scenario.

Definition be16 (v : Z) : list Z := [v / 256; v mod 256].
Definition be32 (v : Z) : list Z := be16 (v / 65536) ++ be16 (v mod 65536).

Definition ip_header (proto len saddr daddr : Z) : list Z :=
  let h := [69; 0] ++ be16 len ++ [0; 1; 64; 0; 64; proto; 0; 0] ++ be32 saddr ++ be32 daddr in
  st16 h 10 (checksum h 0).
Definition tcp_header (sport dport seq ack flags win : Z) : list Z :=
  be16 sport ++ be16 dport ++ be32 seq ++ be32 ack ++ [80; flags] ++ be16 win ++ [0; 0; 0; 0].
Definition tcp_frame (saddr daddr : Z) (segment : list Z) : list Z :=
  replicate 12 0 ++ [8; 0] ++ ip_header IP_TCP (20 + Z.of_nat (length segment)) saddr daddr ++ segment.

Definition me : Z := 167772164.
Definition her : Z := 167772165.

(** The state of the process before [init_stack]. *)
Definition boot : world := mk_world env0 [] 0 1 4097 [] 1 [] None false [].

Definition calls (pid : Z) (cs : list syscall) (w : world) : world := foldl (fun w c => (run_syscall pid c w).1) w cs.

(** 10.0.0.4:80 *)
Definition listen_addr : list Z := [2; 0; 0; 80; 10; 0; 0; 4] ++ replicate 8 0.
Definition listening : world := calls 7 [Socket 2 1; Bind 4097 listen_addr 16; Listen 4097 5] boot.

Definition syn : list Z := tcp_frame her me (tcp_header 5555 80 700 0 2 40000).
Definition syn_received : world := netdev_rx_loop syn listening.

(** The packet as [tcp_in] gets it, and the socket it is for. *)
Definition packet_of (frame : list Z) : sk_buff :=
  let b := alloc_skb 60 BUFLEN in
  let buf := st_bytes (skb_buf b) 0 frame in
  set_skb_len (Z.of_nat (length frame)) (set_skb_buf (ip_init_pkt (st16 buf 12 (bswap16 (ld16 buf 12)))) b).
Definition server : entry :=
  default (mk_entry (so sock0) (sk sock0) None inet_stream_ops) (find_entry 1 listening).

(** A second process with a socket of its own. *)
Definition shared : world := calls 8 [Socket 2 2] listening.

(** UDP: a client of port 6000 and a server of port 5353 on 10.0.0.5. *)
Definition udp_client_addr : list Z := [2; 0; 23; 112; 10; 0; 0; 4] ++ replicate 8 0.
Definition udp_server_addr : list Z := [2; 0; 20; 233; 10; 0; 0; 5] ++ replicate 8 0.
Definition any_5353 : list Z := [2; 0; 20; 233; 0; 0; 0; 0] ++ replicate 8 0.
Definition udp_client : world := calls 7 [Socket 2 2; Bind 4097 udp_client_addr 16] boot.
Definition udp_server : world := calls 9 [Socket 2 2; Bind 4097 any_5353 16] boot.
Definition udp_route : rtentry := default on_link (n_routes (w_net udp_client) !! 1%nat).
Definition udp_entry (w : world) : entry := default server (find_entry 1 w).

(** TCP between two stacks: a client at 10.0.0.4 and a server at 10.0.0.5:80, the frames
    of each handed to the other until the connection is open. *)
Definition at_five (n : net) : net :=
  set_n_arp [mk_arp 1 me [2; 0; 0; 0; 0; 4] ARP_RESOLVED] (set_n_dev (netdev_alloc her [2; 0; 0; 0; 0; 5] 1500) n).
Definition listening5 : world := calls 9 [Socket 2 1; Bind 4097 peer 16; Listen 4097 5] (upd_w_net at_five boot).
Definition last_frame (w : world) : list Z := default [] (last (n_wire (w_net w))).
Definition dialling : world := calls 7 [Socket 2 1; Connect 4097 peer 16] boot.
Definition answered : world := netdev_rx_loop (last_frame dialling) listening5.
Definition tcp_client : world := netdev_rx_loop (last_frame answered) dialling.
Definition tcp_server : world := netdev_rx_loop (last_frame tcp_client) answered.
Definition tcp_entry (id : Z) (w : world) : entry := default server (find_entry id w).
Definition tcp_part_of (e : entry) : tcp_part :=
  default (mk_tp tcp_alloc_tcb tcp_alloc_timing tcp_alloc_cong tcp_alloc_sack skb_queue_init None) (c_tcp e).

(** The link-local address under test. *)
Definition tentative : world := ipv6_dad_start (nd_addr6_ll (w_dev boot)) boot.

(** Every state the calls reach is well-formed. *)
Lemma boot_ok : world_ok boot.
Proof. apply booted_ok. vm_compute; repeat split. Defined.
Lemma calls_ok pid cs w : world_ok w -> world_ok (calls pid cs w).
Proof.
  unfold calls. revert w. induction cs as [|c cs IH]; intros w O; [done|]. cbn [foldl]. apply IH. eapply wstep_ok, O. apply StepCall.
Qed.

End Scenario.
