(* ===== verification/TcpProps.v ===== *)
(** The properties of TCP, stated for the stack as it is linked: [net] below,
    with a witness for each on states the program reaches. *)
From S2P Require Import Prelude Utils SkBuff Timer TcpTypes TcpBase TcpOutput TcpSender TcpData TcpInput TcpAck TcpReasm TcpApi TcpWire TcpState Ipv6 Net Neigh IpOut World TcpWidth Fixture.
Import Utils SkBuff Timer TcpTypes TcpBase TcpOutput TcpSender TcpData TcpInput TcpAck TcpReasm
  TcpApi TcpWire TcpState Ipv6 Net Neigh IpOut TcpWidth Fixture.

Module TcpProps.
Implicit Type s : st net.

(** ** The sending side *)

(** C3: [tcp_send] cuts the user's bytes into segments of at most the MSS whose
    concatenation is exactly those bytes, queues them in order behind what was
    queued, never exceeds the smaller of the congestion and the peer's window,
    keeps the sender invariant, and returns the length, or goes to sleep with a
    segment that does not fit the window. *)
Theorem send_stream buf s :
  snd_inv s -> family_ok s -> 0 < smss (cc s) -> room s (Z.of_nat (length buf)) ->
  send_post (smss (cc s)) (Z.of_nat (length buf)) s buf (tcp_send buf s).
Proof. apply tcp_send_correct. Qed.

Lemma established_snd_inv : snd_inv established.
Proof. constructor; vm_compute; repeat split; congruence. Qed.

Lemma in_flight_snd_inv : snd_inv in_flight.
Proof. constructor; vm_compute; repeat split; congruence. Qed.

Definition message : list Z := replicate 1000 7.

Lemma send_stream_witness :
  smss (cc established) = 536 /\
  send_post (smss (cc established)) (Z.of_nat (length message)) established message (tcp_send message established).
Proof.
  split; [reflexivity|]. apply (send_stream message established).
  - apply established_snd_inv.
  - left. reflexivity.
  - reflexivity.
  - split; reflexivity.
Defined.

(** C9: a [tcp_send] that slept for the window, when it resumes, sends the
    segment it waited with and then the rest of the user's bytes, with the same
    guarantees. *)
Theorem resumed_send b rest mss len s :
  snd_inv s -> family_ok s -> 0 < mss -> data_seg mss s b ->
  room s (skb_dlen b + Z.of_nat (length rest)) ->
  send_post mss len s (seg_bytes b ++ rest) (resume b [AfterSend rest mss len] s).
Proof. apply resume_send_correct. Qed.

Lemma resumed_send_witness :
  length (wq in_flight) = 4%nat /\
  send_post 536 6000 in_flight (seg_bytes sleeper.1.2 ++ sleeper.2) (resume sleeper.1.2 [AfterSend sleeper.2 536 6000] in_flight).
Proof.
  split; [vm_compute; reflexivity|]. apply (resumed_send sleeper.1.2 sleeper.2 536 6000 in_flight).
  - apply in_flight_snd_inv.
  - left. vm_compute. reflexivity.
  - reflexivity.
  - vm_compute. repeat split; first [left; reflexivity|congruence|lia].
  - vm_compute. split; reflexivity.
Defined.

(** with a maximum segment size of zero [tcp_send] never returns. *)
Lemma send_zero_mss_diverges fuel rest len s :
  rest <> [] -> snd_wnd_open 0 s = true -> tcp_send_loop fuel rest 0 len s = Diverges.
Proof. apply tcp_send_zero_mss. Qed.

Lemma send_zero_mss_witness : tcp_send_loop 50 message 0 1000 established = Diverges.
Proof. apply (send_zero_mss_diverges 50 message 1000 established); [discriminate|reflexivity]. Defined.

(** ** Acknowledgements *)

(** C6: whatever segment arrives in a synchronised state, the sender invariant
    survives (the queue is ordered, [inflight] is what it holds, all of it below
    [snd_nxt]), [snd_una] never moves back and [snd_nxt] does not move. *)
Theorem input_keeps_sender th b s :
  snd_inv s ->
  let s' := (tcp_otherwise th b s).1 in
  snd_inv s' /\ snd_una (tb s) <= snd_una (tb s') /\ snd_nxt (tb s') = snd_nxt (tb s).
Proof. intros I. exact (otherwise_advances th b s I). Qed.

Lemma input_keeps_sender_witness :
  let s' := (tcp_otherwise (ack 1072) empty_skb in_flight).1 in
  snd_inv s' /\ snd_una (tb in_flight) <= snd_una (tb s') /\ snd_nxt (tb s') = snd_nxt (tb in_flight).
Proof. exact (input_keeps_sender (ack 1072) empty_skb in_flight in_flight_snd_inv). Defined.

(** C5: an acknowledgement up to [una] removes from the write queue exactly the
    segments that end at or before it, in order: each is freed once, each wakes
    the writers once, each feeds congestion control; what is left in flight is what
    is left in the queue, and when that is nothing the retransmission timer stops. *)
Theorem ack_cleans_queue una s :
  snd_inv s ->
  let s' := tcp_clean_rto_queue una s in
  let gone := filter (fun b => skb_end_seq b <= una) (wq s) in
  wq s' = filter (fun b => una < skb_end_seq b) (wq s) /\
  cc s' = ack_all gone (cc s) /\ inflight (cc s') = sum_dlen (wq s') /\ tb s' = tb s /\ snd_inv s' /\
  e_freed (en s') = e_freed (en s) ++ (skb_id <$> filter (fun b => skb_refcnt b - 1 < 1) gone) /\
  e_wakes (en s') = e_wakes (en s) ++ replicate (length gone) (WriteWait (self s)) /\
  (inflight (cc s') = 0 -> retransmit (tm s') = None /\ backoff (tm s') = 0).
Proof. apply clean_rto_queue_correct. Qed.

Lemma ack_cleans_queue_witness :
  length (wq (tcp_clean_rto_queue 2073 in_flight)) = 2%nat /\
  inflight (cc (tcp_clean_rto_queue 2073 in_flight)) = sum_dlen (wq (tcp_clean_rto_queue 2073 in_flight)).
Proof.
  split; [vm_compute; reflexivity|].
  destruct (ack_cleans_queue 2073 in_flight in_flight_snd_inv) as (_ & _ & E & _). exact E.
Defined.

(** ** Reassembly and reading *)

(** C4: however the segments of a stream are permuted, repeated or lost on the
    way, the receive queue grows by exactly the stream up to the first segment
    missing, and [rcv_nxt] is the number of its first byte; when all arrived that
    is the whole stream. *)
Theorem reassembly cs (s0 : Z) arr segs s :
  stream_ok cs s0 -> start cs s0 (length cs) <= s0 + rcv_wnd (tb s) ->
  start cs s0 (length cs) + rcv_wnd (tb s) < 4294967296 ->
  Z.of_nat (length (rq s)) + 2 * Z.of_nat (length cs) + 1 < 4294967296 ->
  state s = TCP_ESTABLISHED -> snd_inv s -> rcv_nxt (tb s) = s0 ->
  queue_ok (receive_queue s) -> queue_ok (ofo s) -> skq (ofo s) = [] ->
  Forall2 (fun i x => carries cs s0 i x.2 /\ data_segment (snd_una (tb s)) x.1 x.2) arr segs ->
  let s' := foldl arrive s segs in
  exists k new,
    (forall j, (j < k)%nat -> j ∈ arr) /\ (k ∉ arr) /\ (k <= length cs)%nat /\
    rq s' = rq s ++ new /\ concat (payload <$> new) = concat (take k cs) /\
    rcv_nxt (tb s') = s0 + Z.of_nat (length (concat (take k cs))).
Proof.
  intros Hs H1 H2 H3 H4 H5 H6 H7 H8 H9 F. cbv zeta.
  assert (I : rcv_inv cs s0 (rq s) (rcv_wnd (tb s)) ∅ 0 s).
  { constructor; try done; try (intros; set_solver); try (intros; lia).
    - rewrite H6. unfold start. simpl. lia.
    - exists []. rewrite app_nil_r. by split.
    - exists []. split; [|set_solver]. split; [done|]. rewrite H9. split; constructor. }
  destruct (arrive_all cs s0 (rq s) (rcv_wnd (tb s)) _ Hs H1 H2 H3 arr segs ∅ 0 s F I H5 eq_refl) as [k J].
  rewrite union_empty_r_L in J. destruct (ri_rq _ _ _ _ _ _ _ J) as (ds & E & C).
  pose proof (inv_k _ _ _ _ _ _ _ J) as Hk. exists k, ds. split; [|split; [|split; [done|split; [done|split]]]].
  - intros j Hj. pose proof (ri_below _ _ _ _ _ _ _ J j Hj). set_solver.
  - pose proof (ri_first _ _ _ _ _ _ _ J). set_solver.
  - by apply (carries_payloads cs s0).
  - apply J.
Qed.

Lemma reassembly_witness :
  exists k new,
    (forall j, (j < k)%nat -> j ∈ arrivals) /\ (k ∉ arrivals) /\ (k <= length chunks)%nat /\
    rq (foldl arrive established shuffled) = rq established ++ new /\
    concat (payload <$> new) = concat (take k chunks) /\
    rcv_nxt (tb (foldl arrive established shuffled)) = 5001 + Z.of_nat (length (concat (take k chunks))).
Proof.
  refine (reassembly chunks 5001 arrivals shuffled established _ _ _ _ _ established_snd_inv _ _ _ _ _).
  all: try (vm_compute; repeat split; congruence).
  - split; [repeat constructor; discriminate|reflexivity|reflexivity].
  - repeat constructor; try (vm_compute; congruence).
    all: eexists; repeat split; vm_compute; congruence.
Defined.

(** C22: a read returns the oldest bytes waiting, at most as many as asked for and
    as many as there are, leaves the rest in order, and opens the window by as
    much. *)
Theorem read_stream userlen s :
  0 <= userlen < 2147483648 -> rq_ok s -> is_u32 (real_rcv_wnd (tb s)) ->
  let n := Nat.min (Z.to_nat userlen) (length (waiting s)) in
  let '(out, s') := tcp_data_dequeue userlen s in
  out = take n (waiting s) /\ reads n s s'.
Proof.
  intros Hu Hq Hw. cbv zeta. unfold tcp_data_dequeue.
  destruct (dequeue_loop_spec userlen Hu (length (rq s)) [] s Hq ltac:(done) ltac:(simpl; lia) Hw) as [E R].
  fold (rq s). destruct (dequeue_loop (length (rq s)) [] userlen s) as [out s']. cbn [fst snd] in E, R.
  rewrite Nat.sub_0_r in E, R. destruct (_ && _); (split; [exact E|]); [|exact R].
  by destruct R.
Qed.

Lemma read_stream_witness :
  let '(out, s') := tcp_data_dequeue 4 reassembled in
  out = take 4 (waiting reassembled) /\ reads 4 reassembled s'.
Proof.
  refine (read_stream 4 reassembled _ _ _).
  - lia.
  - split; [vm_compute; split; congruence|]. vm_compute rq. repeat (constructor; [vm_compute; repeat split; congruence|]). constructor.
  - vm_compute. split; congruence.
Defined.

(** ** The state machine *)

(** C20: the state after a segment that arrives in a synchronised state is given by a
    table ([next_state]): a segment outside of the window, with a SYN, without an ACK, or
    whose acknowledgement is a duplicate, old or for data not yet sent leaves the state
    as it is; a reset leads to TIME-WAIT; an acknowledgement establishes a connection in
    SYN-RECEIVED; once no segment of the write queue ends behind the acknowledgement,
    FIN-WAIT-1 becomes FIN-WAIT-2, CLOSING becomes TIME-WAIT and LAST-ACK ends; and a FIN that arrives in order leads to
    CLOSE-WAIT, CLOSING or TIME-WAIT.  These are the edges of RFC 793 but for two: a
    reset leads to TIME-WAIT, and the acknowledged LAST-ACK, of which the comment says
    that it enters the CLOSED state, is left in TCP_CLOSING by [tcp_done]. *)
Theorem next_state_correct th b s : snd_inv s -> state (tcp_otherwise th b s).1 = next_state th b s.
Proof. apply otherwise_next. Qed.

(** The peer's FIN, in order, arrives at the connection with data in flight. *)
Definition fin_of (s : st net) : tcphdr :=
  mk_th 80 40001 (rcv_nxt (tb s)) (snd_una (tb s)) 0 5 true false false false true false false false 1000 0 0 [].
Lemma next_state_witness :
  state in_flight = TCP_ESTABLISHED /\ exists b, state (tcp_otherwise (fin_of in_flight) b in_flight).1 = TCP_CLOSE_WAIT.
Proof.
  split; [vm_compute; reflexivity|]. exists (set_skb_seq (rcv_nxt (tb in_flight)) empty_skb).
  rewrite next_state_correct; [vm_compute; reflexivity|]. apply in_flight_snd_inv.
Defined.

(** C23: stopping or re-arming the retransmission timer makes every callback that
    was armed before, and waits for the lock, do nothing at all: not a field of
    the connection, a queue or the environment changes. *)
Theorem stale_timeout_is_noop os s :
  is_u64 (rto_epoch (tm s)) -> (0 < length os)%nat -> Z.of_nat (length os) < 18446744073709551616 ->
  let s' := foldl run_rto_op s os in
  so_locked (so s') = false -> 0 < so_refcnt (so s') ->
  tcp_retransmission_timeout (rto_epoch (tm s)) s' = s' /\ tcp_connect_rto (rto_epoch (tm s)) s' = s'.
Proof. intros I P B s' U R. apply stale_noop; [done|done|]. by apply stale_after. Qed.

(** The lock is free between calls. *)
Definition idle : st net := socket_release established.

Lemma stale_timeout_witness :
  let s' := foldl run_rto_op idle [RtoRearm; RtoStop; RtoRearm] in
  tcp_retransmission_timeout (rto_epoch (tm idle)) s' = s' /\ tcp_connect_rto (rto_epoch (tm idle)) s' = s'.
Proof.
  refine (stale_timeout_is_noop [RtoRearm; RtoStop; RtoRearm] idle _ _ _ _ _).
  - vm_compute. split; congruence.
  - simpl. lia.
  - reflexivity.
  - vm_compute. reflexivity.
  - vm_compute. reflexivity.
Defined.

(** C32: the round-trip estimator computes RFC 6298: the first measurement sets
    the smoothed time and half of it as the variance, later ones move them by an
    eighth and a quarter, so the smoothed time stays between the old one and the
    measurement; the timeout is the smoothed time plus at least 200 ms and never
    overflows. *)
Theorem rtt_estimator r t :
  rtt_range t -> 0 <= r <= 2 ^ 28 ->
  let t' := rtt_update r t in
  rtt_range t' /\
  (srtt t = 0 -> srtt t' = r /\ rttvar t' = r / 2) /\
  (srtt t <> 0 -> srtt t' = (7 * srtt t + r) / 8 /\ rttvar t' = (3 * rttvar t + Z.abs (srtt t - r)) / 4 /\
                  Z.min (srtt t) r <= srtt t' <= Z.max (srtt t) r) /\
  rto t' = srtt t' + Z.max 200 (4 * rttvar t').
Proof. apply rtt_update_spec. Qed.

Lemma rtt_estimator_witness : rto (rtt_update 80 (rtt_update 100 (tm established))) = 97 + 200.
Proof.
  destruct (rtt_estimator 80 (rtt_update 100 (tm established))) as (_ & _ & _ & ->).
  - vm_compute. repeat split; congruence.
  - lia.
  - vm_compute. reflexivity.
Defined.

(** ** Congestion control *)

(** C11: outside recovery the congestion window follows its two laws: below the
    threshold it grows by exactly the bytes acknowledged, and above it acknowledging one
    window's worth of bytes, in however many acknowledgements, opens it by one segment
    and starts the count again. *)
Theorem congestion_window acks c :
  in_recovery c = 0 -> 0 < cwnd c -> 0 <= smss c -> 0 <= bytes_acked c -> Forall (fun a => 0 < a <= smss c) acks ->
  (cwnd c + foldr Z.add 0 acks <= ssthresh c -> ssthresh c < 4294967296 ->
   cwnd (cong_acks acks c) = cwnd c + foldr Z.add 0 acks /\ bytes_acked (cong_acks acks c) = bytes_acked c) /\
  (ssthresh c <= cwnd c -> cwnd c + smss c < 4294967296 -> bytes_acked c + foldr Z.add 0 acks = cwnd c -> acks <> [] ->
   cwnd (cong_acks acks c) = cwnd c + smss c /\ bytes_acked (cong_acks acks c) = 0).
Proof.
  intros Hr Hc Hs Hb Ha. split; intros; [apply slow_start_growth; try done; lia|].
  apply congestion_avoidance_growth; try done. eapply Forall_impl; [exact Ha|]. simpl. lia.
Qed.

Definition avoiding : tcp_cong := set_ssthresh 1072 (cc established).
Lemma congestion_window_witness :
  cwnd (cong_acks [536; 536; 100] (cc established)) = 2144 + 1172 /\
  cwnd (cong_acks [536; 536; 536; 536] avoiding) = 2144 + 536.
Proof.
  split; [refine (proj1 (proj1 (congestion_window [536; 536; 100] (cc established) _ _ _ _ _) _ _))|
          refine (proj1 (proj2 (congestion_window [536; 536; 536; 536] avoiding _ _ _ _ _) _ _ _ _))].
  all: try (vm_compute; congruence).
  all: repeat constructor; vm_compute; congruence.
Defined.

(** C29: [k] duplicate acknowledgements in a row, [k] at least three: the
    threshold is half the flight (two segments at least), the window is the
    threshold plus [k] segments, recovery is entered, and the acknowledgement that
    ends it deflates the window to the threshold. *)
Theorem fast_recovery s k :
  snd_inv s -> dupacks (cc s) = 0 -> 0 <= smss (cc s) < 65536 -> (3 <= k <= 255)%nat ->
  let T := loss_thresh (cc s) in
  T + 255 * smss (cc s) < 4294967296 ->
  let s' := Nat.iter k tcp_handle_dupack s in
  snd_inv s' /\ tb s' = tb s /\ cwnd (cc s') = T + Z.of_nat k * smss (cc s) /\
  ssthresh (cc s') = T /\ in_recovery (cc s') = 1 /\
  cwnd (tcp_exit_fast_recovery (cc s')) = T /\ dupacks (tcp_exit_fast_recovery (cc s')) = 0.
Proof. apply fast_recovery_window. Qed.

Lemma fast_recovery_witness : cwnd (cc (Nat.iter 4 tcp_handle_dupack in_flight)) = 1072 + 4 * 536.
Proof.
  destruct (fast_recovery in_flight 4 in_flight_snd_inv) as (_ & _ & E & _).
  1, 2, 4: vm_compute; repeat split; congruence.
  - lia.
  - rewrite E. vm_compute. reflexivity.
Defined.

(** ** The wire format *)

(** the header of a segment as the receiver parses it out of the buffer the
    sender passed through the IP layer is the header the sender meant: ports,
    sequence and acknowledgement numbers, advertised window and every flag. *)
Lemma header_roundtrip b seq dlen s :
  family_ok s -> plain (sk_addr_family (sk s)) b ->
  is_u16 (sk_sport (sk s)) -> is_u16 (sk_dport (sk s)) -> is_u32 seq -> is_u32 (rcv_nxt (tb s)) ->
  0 <= rcv_scale (sa s) ->
  let o := tcp_hdr_for_sk (sk_addr_family (sk s)) in
  let th := (tcp_init_segment o dlen (tcp_transmit_skb b seq s).1.1).1 in
  th_sport th = sk_sport (sk s) /\ th_dport th = sk_dport (sk s) /\ th_seq th = seq /\
  th_ack_seq th = rcv_nxt (tb s) /\ th_hl th = 5 /\
  th_win th = adv_window s (th_flag o F_SYN (skb_buf b)) /\
  th_syn th = th_flag o F_SYN (skb_buf b) /\ th_ack th = th_flag o F_ACK (skb_buf b) /\
  th_fin th = th_flag o F_FIN (skb_buf b) /\ th_rst th = th_flag o F_RST (skb_buf b) /\
  th_psh th = th_flag o F_PSH (skb_buf b).
Proof. apply wire_roundtrip. Qed.

Lemma header_roundtrip_witness :
  let th := (tcp_init_segment 34 3 (tcp_transmit_skb data_skb 1001 established).1.1).1 in
  th_seq th = 1001 /\ th_ack_seq th = 5001 /\ th_psh th = true.
Proof.
  destruct (header_roundtrip data_skb 1001 3 established) as (_ & _ & E1 & E2 & _ & _ & _ & _ & _ & _ & E3).
  1: left; vm_compute; reflexivity.
  1: vm_compute; repeat split; first [left; reflexivity|congruence].
  1, 2, 3, 4, 5: vm_compute; repeat split; congruence.
  split; [exact E1|]. split; [exact E2|]. etransitivity; [exact E3|]. vm_compute. reflexivity.
Defined.

(** C35: window scale and SACK blocks written by [tcp_write_options] are what
    [tcp_parse_opts] reads, for options of fewer than 40 bytes. *)
Theorem tcp_options_roundtrip a o b sc :
  opt_state_ok a -> let '(a', b', n) := tcp_write_options a o b in
  (o + n <= length b)%nat -> (0 < n < 40)%nat ->
  let p := parse_loop parse_fuel (drop o b') (opt_start (Z.of_nat n) sc) in
  po_scale p = (if wso_allowed a =? 0 then sc else rcv_scale a) /\ po_sack_seen p = has_sacks a /\
  (has_sacks a = true -> take (Z.to_nat (po_nblocks p)) (po_blocks p) = take (Z.to_nat (sacklen a)) (sacks a)).
Proof. apply options_roundtrip. Qed.

Definition sack_state : tcp_sackst := mk_sa 1 0 2 [(5010, 5020); (5040, 5045); (0, 0); (0, 0)] 0 0 0 0 0.
Lemma sack_state_ok : opt_state_ok sack_state.
Proof. split; [simpl; lia|]. split; [done|]. split; [|simpl; lia]. repeat (constructor; [unfold is_u32; lia|]). constructor. Qed.

Lemma tcp_options_roundtrip_witness :
  let '(a', b', n) := tcp_write_options sack_state 54 (replicate 80 0) in
  n = 20%nat /\ po_sack_seen (parse_loop parse_fuel (drop 54 b') (opt_start 20 0)) = true.
Proof.
  pose proof (tcp_options_roundtrip sack_state 54 (replicate 80 0) 0 sack_state_ok) as R.
  destruct (tcp_write_options sack_state 54 (replicate 80 0)) as [[a' b'] n] eqn:E.
  assert (n = 20%nat) as -> by (vm_compute in E; congruence).
  split; [reflexivity|]. destruct R as (_ & R & _); [|lia|].
  - vm_compute. repeat constructor.
  - exact R.
Defined.

(** C36: on any option bytes whatever the option parser ends, reads at most 33
    bytes past the options, and leaves a window scale of at most 14. *)
Theorem option_parser_total data optlen sc :
  bytes_ok data -> 0 <= optlen <= 40 -> 0 <= sc <= 14 ->
  let p := parse_loop parse_fuel data (opt_start optlen sc) in
  parse_more p = false /\ Z.of_nat (po_read p) <= optlen + 33 /\ 0 <= po_scale p <= 14.
Proof.
  intros Hd Ho Hs. cbv zeta. split; [|apply (parse_loop_reach data optlen Hd); simpl; lia].
  apply parse_loop_ends; [done|simpl; lia|]. left. change (optlen <= 40). lia.
Qed.

Lemma option_parser_total_witness :
  let p := parse_loop parse_fuel [5; 255; 3; 200; 0; 9] (opt_start 6 7) in
  parse_more p = false /\ Z.of_nat (po_read p) <= 6 + 33 /\ 0 <= po_scale p <= 14.
Proof.
  refine (option_parser_total [5; 255; 3; 200; 0; 9] 6 7 _ _ _); [|lia|lia].
  repeat constructor; discriminate.
Defined.

(** an acknowledgement with up to four SACK blocks never writes options past
    the buffer allocated for it. *)
Lemma ack_options_fit s :
  0 <= sacklen (sa s) <= 4 -> e_faults (en (tcp_send_ack s).1) = e_faults (en s).
Proof. apply send_ack_in_bounds. Qed.

Lemma ack_options_fit_witness :
  sacklen (sa (set_sa sack_state established)) = 2 /\
  e_faults (en (tcp_send_ack (set_sa sack_state established)).1) = e_faults (en (set_sa sack_state established)).
Proof. split; [reflexivity|]. apply (ack_options_fit (set_sa sack_state established)). vm_compute. split; congruence. Defined.

(** ** Types *)

(** The model's arithmetic keeps each field within its C type: whatever happens to a connection from its
    creation on, by [socket] or by a listener's fork, in whatever order (arriving
    segments of any bytes, calls, woken writers, timers, path-MTU changes), the numbers
    of [struct tcp_sock] and [struct tcb], the ports and queue lengths of [struct sock]
    and the numbers of each queued segment are values of their types, and so are the
    segments the sleeping writers hold: no store of the model is missing the wrap-around
    C gives it. *)
Lemma field_widths s0 es s p :
  born s0 -> Forall event_ok es -> history (s0, []) es = Some (s, p) ->
  sk_ty (sk s) /\ tcb_ty (tb s) /\ tm_ty (tm s) /\ cc_ty (cc s) /\ sa_ty (sa s) /\ queue_ty (ofo s) /\ Forall (fun x => buf_ty x.1) p.
Proof.
  intros B O E. destruct (history_ty es (s0, []) (s, p) O) as [[] P]; [split; [by apply born_ty|by apply Forall_nil]|done|].
  split_and!; try done. eapply Forall_impl; [exact P|]. simpl. tauto.
Qed.

(** The SYN-ACK to a connection, then a segment that leaves a gap. *)
Definition raw_segment (seq ack_seq flags : Z) (data : list Z) : sk_buff :=
  mk_skb 901 1 IP_TCP 0 0 0 0 0 0
    (replicate 34 0 ++ [0; 80; 0; 0] ++ rev (ld_bytes (st32 [0; 0; 0; 0] 0 seq) 0 4) ++ rev (ld_bytes (st32 [0; 0; 0; 0] 0 ack_seq) 0 4) ++
     [80; flags; 156; 64; 0; 0; 0; 0] ++ data) 34 0 1 None.
Definition life : list event :=
  [Connect4 peer; Arrives 34 0 (raw_segment 5000 1001 18 []); Writes big_message; Arrives 34 3 (raw_segment 5004 1537 24 [4; 5; 6]);
   Wakes 0; Fires H_tcp_retransmission_timeout (ArgRto 7 1); PathMtu 1280; Closes].
Definition summary (c : option (conn net)) : option (tcp_states * nat * nat) :=
  match c with Some (s, p) => Some (state s, length (skq (ofo s)), length p) | None => None end.
Lemma field_widths_witness :
  exists s p, history (sock0, []) life = Some (s, p) /\ (state s, length (skq (ofo s)), length p) = (TCP_FIN_WAIT_1, 1%nat, 1%nat) /\ is_u32 (snd_nxt (tb s)).
Proof.
  assert (G : summary (history (sock0, []) life) = Some (TCP_FIN_WAIT_1, 1%nat, 1%nat)) by (vm_compute; reflexivity).
  destruct (history (sock0, []) life) as [[s p]|] eqn:E; [|discriminate G]. exists s, p. split; [reflexivity|].
  split; [by injection G as -> -> ->|]. destruct (field_widths sock0 life s p) as (_ & T & _).
  - constructor.
  - repeat (apply Forall_cons; split); try exact I; try (split; [by apply bytes_okb_ok|split; vm_compute; congruence]). by apply Forall_nil.
  - exact E.
  - apply T.
Defined.

End TcpProps.
