(* ===== verification/NetProps.v ===== *)
(** The properties of the network layer: routing, addresses, neighbour caches, and
    the frames that leave. *)
From S2P Require Import Prelude Utils SkBuff Timer TcpTypes TcpBase TcpOutput TcpSender Ipv6 Net Neigh IpOut Frame Fixture.
Import Utils SkBuff Timer TcpTypes TcpBase TcpOutput TcpSender Ipv6 Net Neigh IpOut Frame Fixture.

Module NetProps.

(** C21: a segment without options that [tcp_transmit_skb] sends over IPv4 to a
    resolved next hop leaves as exactly one frame: addressed to the next hop's
    MAC, with the source and destination of the route, an IP header whose
    checksum verifies, a TCP checksum that verifies over pseudo-header and
    segment although three functions compute it in parts, and the payload
    unchanged. *)
Theorem segment_on_wire b seq (s : st net) i rt dmac :
  let n := e_lower (en s) in
  let d := ld32 (sk_daddr (sk s)) 0 in
  sk_addr_family (sk s) = AF_INET -> plain AF_INET b -> bytes_ok (skb_buf b) -> bytes_ok (sk_daddr (sk s)) ->
  skb_len b = skb_dlen b -> 0 <= skb_dlen b < 65000 ->
  route_lookup d n = Some i -> n_routes n !! i = Some rt -> arp_get_hwaddr (next_hop rt d) n = Some dmac ->
  length dmac = 6%nat -> is_u32 (nd_addr (dev_of (rt_dev rt) n)) ->
  exists f, n_wire (e_lower (en (tcp_transmit_skb b seq s).1.2)) = n_wire n ++ [f] /\
    tcp_frame f dmac (ld_bytes (skb_buf b) 54 (Z.to_nat (skb_dlen b))) (nd_addr (dev_of (rt_dev rt) n)) d (20 + skb_dlen b).
Proof. apply segment_frame. Qed.

(** The route to 10.0.0.0/24. *)
Definition local_route : rtentry := route_alloc 167772164 0 4294967040 RT_HOST 0 DEV_TAP.

Lemma segment_on_wire_witness :
  exists f, n_wire (e_lower (en (tcp_transmit_skb data_skb 1001 established).1.2)) = n_wire (e_lower (en established)) ++ [f] /\
    tcp_frame f [2; 0; 0; 0; 0; 5] [1; 2; 3] 167772164 167772165 23.
Proof.
  replace [1; 2; 3] with (ld_bytes (skb_buf data_skb) 54 (Z.to_nat (skb_dlen data_skb))) by (vm_compute; reflexivity).
  replace 167772164 with (nd_addr (dev_of (rt_dev local_route) (e_lower (en established)))) by (vm_compute; reflexivity).
  replace 167772165 with (ld32 (sk_daddr (sk established)) 0) by (vm_compute; reflexivity).
  replace 23 with (20 + skb_dlen data_skb) by (vm_compute; reflexivity).
  apply (segment_on_wire data_skb 1001 established 1 local_route [2; 0; 0; 0; 0; 5]).
  1, 5, 7, 8, 9, 10: vm_compute; reflexivity.
  1: vm_compute; repeat split; first [left; reflexivity|congruence].
  1, 2: apply bytes_okb_ok; vm_compute; reflexivity.
  1, 2: vm_compute; split; congruence.
Defined.

(** ** Routing *)

(** C28: [route6_lookup] is longest-prefix match: it returns an IPv6 entry whose
    prefix bits are those of the destination, no other matching entry has a longer
    prefix, among equals the first one wins, and it fails only when nothing
    matches. *)
Theorem longest_prefix_match d n :
  bytes_ok d -> Forall (fun rt => bytes_ok (rt_dst rt) /\ 0 <= rt_prefix_len rt <= 128) (n_routes n) ->
  let covers rt := rt_family rt = AF_INET6 /\
    forall k, (k < Z.to_nat (rt_prefix_len rt))%nat -> addr_bit d k = addr_bit (rt_dst rt) k in
  match route6_lookup d n with
  | None => forall j rt, n_routes n !! j = Some rt -> ~ covers rt
  | Some i => exists rt, n_routes n !! i = Some rt /\ covers rt /\
      forall j x, n_routes n !! j = Some x -> covers x ->
        rt_prefix_len x < rt_prefix_len rt \/ rt_prefix_len x = rt_prefix_len rt /\ (i <= j)%nat
  end.
Proof.
  intros Hd Hr covers.
  assert (M : forall j rt, n_routes n !! j = Some rt -> match6 d rt = true <-> covers rt).
  { intros j rt Hj. destruct (Forall_lookup_1 _ _ _ _ Hr Hj) as [H1 H2]. unfold match6, covers.
    rewrite andb_true_iff, Z.eqb_eq, route6_match_bits by done. done. }
  pose proof (route6_best d n) as B. unfold route6_lookup. unfold best_of in B.
  destruct (route6_walk d (n_routes n) 0 None) as [[i len]|]; simpl.
  - destruct B as (rt & Hi & Hm & -> & Hb). exists rt. split; [done|]. split; [by apply (M i rt)|].
    intros j x Hj Hc. apply (Hb j x Hj). by apply (M j x).
  - intros j rt Hj Hc. apply (M j rt Hj) in Hc. rewrite (B j rt Hj) in Hc. done.
Qed.

Lemma longest_prefix_match_witness :
  route6_lookup host6 net6 = Some 5%nat /\
  exists rt, n_routes net6 !! 5%nat = Some rt /\ rt_prefix_len rt = 48 /\ rt_family rt = AF_INET6.
Proof.
  pose proof (longest_prefix_match host6 net6) as H. cbv zeta in H.
  replace (route6_lookup host6 net6) with (Some 5%nat) in * by (vm_compute; reflexivity).
  split; [reflexivity|]. destruct H as (rt & H1 & [H2 _] & _).
  - apply bytes_okb_ok. reflexivity.
  - repeat (apply Forall_cons; split; [split; [apply bytes_okb_ok; vm_compute; reflexivity|vm_compute; split; congruence]|]).
    apply Forall_nil. exact I.
  - exists rt. split; [exact H1|]. split; [|exact H2]. vm_compute in H1. injection H1 as <-. reflexivity.
Defined.

(** The IPv4 [route_lookup] returns the first IPv4 entry whose masked
    network is that of the destination; when there is none it returns the last
    entry of the table, of whatever family, and it returns nothing only when the
    table is empty. *)
Lemma route_lookup_first_match d n :
  match route_lookup d n with
  | None => n_routes n = []
  | Some i => exists rt, n_routes n !! i = Some rt /\
      (match4 d rt = true /\ (forall j x, n_routes n !! j = Some x -> (j < i)%nat -> match4 d x = false) \/
       i = (length (n_routes n) - 1)%nat /\ forall j x, n_routes n !! j = Some x -> match4 d x = false)
  end.
Proof. apply route_lookup_spec. Qed.

(** A path MTU learned for a destination is stored on the route a later
    lookup of that destination returns, never below 1280 octets, and no lookup
    changes. *)
Lemma pmtu_update d e mtu n :
  let n' := (route6_update_pmtu d mtu n).1 in
  route6_lookup e n' = route6_lookup e n /\
  match route6_lookup d n with
  | None => n' = n
  | Some i => rt_pmtu <$> n_routes n' !! i = Some (Z.max 1280 mtu)
  end.
Proof. apply pmtu_spec. Qed.

(** ** IPv6 addresses and extension headers *)

(** the extension-header walk reads no byte at or beyond the payload length,
    consumes a multiple of eight bytes that stays within it, and ends at an
    upper-layer protocol. *)
Lemma exthdr_walk_in_bounds start plen nexthdr :
  bytes_ok start -> 0 <= plen < 65536 ->
  ipv6_parse_exthdrs nexthdr (take (Z.to_nat plen) start) plen = ipv6_parse_exthdrs nexthdr start plen /\
  forall r, ipv6_parse_exthdrs nexthdr start plen = Some r ->
    0 <= ex_consumed r <= plen /\ ex_consumed r mod 8 = 0 /\ upper_layer (ex_final_nexthdr r).
Proof.
  intros Hs Hp. destruct (exthdr_loop_spec start plen Hs Hp 8 nexthdr 0%nat (mk_ext 0 false 0 0 0) ltac:(lia)) as [H1 H2].
  split; [exact H1|]. intros r Hr. destruct (H2 r Hr) as (B & U & M). rewrite Z.sub_0_r in M. done.
Qed.

(** A hop-by-hop header, a fragment header, then TCP. *)
Definition chain6 : list Z := [44; 0; 1; 4; 0; 0; 0; 0] ++ [6; 0; 0; 9; 0; 0; 1; 2] ++ replicate 20 0.

Lemma exthdr_walk_witness :
  ipv6_parse_exthdrs NEXTHDR_HOP chain6 36 = Some (mk_ext NEXTHDR_TCP true 1 258 16) /\ 16 mod 8 = 0.
Proof.
  destruct (exthdr_walk_in_bounds chain6 36 NEXTHDR_HOP) as [_ H].
  - apply bytes_okb_ok. reflexivity.
  - split; [discriminate|reflexivity].
  - assert (E : ipv6_parse_exthdrs NEXTHDR_HOP chain6 36 = Some (mk_ext NEXTHDR_TCP true 1 258 16)) by (vm_compute; reflexivity).
    split; [exact E|]. exact (proj1 (proj2 (H _ E))).
Defined.

(** C38: an address printed by [ipv6_addr_to_str] is read back unchanged by
    [ipv6_parse_addr], whenever the buffer is large enough for it to be printed. *)
Theorem addr_print_parse a buflen t :
  bytes_ok a -> length a = 16%nat -> ipv6_addr_to_str a buflen = Some t -> ipv6_parse_addr t = ParseOk a.
Proof.
  intros Hb Hl. unfold ipv6_addr_to_str. rewrite (ld_bytes_all a 16) by done. pose proof (addr_text_parses a Hb Hl) as P.
  destruct (_ <? _); [done|]. destruct (_ <=? _); [done|]. intros E. assert (t = addr_text a) as -> by congruence. exact P.
Qed.

Lemma addr_print_parse_witness :
  exists t, ipv6_addr_to_str host6 40 = Some t /\ ipv6_parse_addr t = ParseOk host6.
Proof.
  eexists. split; [vm_compute; reflexivity|]. apply (addr_print_parse host6 40).
  - apply bytes_okb_ok. reflexivity.
  - reflexivity.
  - vm_compute. reflexivity.
Defined.

(** [fe80::1] parses as [::1]: the group directly before the double colon is lost. *)
Lemma parse_drops_group_before_dcolon :
  ipv6_parse_addr [102; 101; 56; 48; 58; 58; 49] = ParseOk (replicate 15 0 ++ [1]).
Proof. vm_compute. reflexivity. Qed.

(** ** Neighbour caches *)

(** C37: the ARP cache is a map: receiving a packet binds exactly the sender's
    address to the sender's MAC, when the packet is Ethernet/IPv4 and its sender is
    known or its target is our address, and leaves every other binding, and the
    well-formedness of the cache, as they were. *)
Theorem arp_learning b n :
  (42 <= length (skb_buf b))%nat -> arp_ok n ->
  arp_ok (arp_rcv b n) /\
  forall a, arp_get_hwaddr a (arp_rcv b n) =
    if (a =? arp_sip (skb_buf b)) && arp_accepts (skb_buf b) n then Some (arp_smac (skb_buf b)) else arp_get_hwaddr a n.
Proof. apply arp_rcv_learns. Qed.

Lemma arp_learning_witness :
  arp_get_hwaddr 167772169 net0 = None /\ arp_get_hwaddr 167772169 (arp_rcv arp_packet net0) = Some [2; 0; 0; 0; 0; 9].
Proof.
  split; [reflexivity|]. destruct (arp_learning arp_packet net0) as [_ H].
  - vm_compute. repeat constructor.
  - repeat constructor.
  - rewrite H. vm_compute. reflexivity.
Defined.

(** When a neighbour is resolved, [ndp_flush_queue] transmits every packet
    that waited for it, in the order they were queued, to the resolved MAC, and
    leaves the queue empty. *)
Lemma flush_sends_in_order i n e :
  n_ndp n !! i = Some e -> queue_ok (ne_queue e) ->
  let n' := ndp_flush_queue i n in
  n_wire n' = n_wire n ++ (ndp_frame (ne_hwaddr e) n <$> skq (ne_queue e)) /\
  exists q, n_ndp n' = <[i := set_ne_queue q e]> (n_ndp n) /\ skq q = [] /\ queue_ok q /\ max_q q = max_q (ne_queue e).
Proof. apply ndp_flush_spec. Qed.

Lemma flush_sends_witness :
  exists e, n_ndp waiting6 !! 0%nat = Some e /\ length (skq (ne_queue e)) = 2%nat /\
    length (n_wire (ndp_flush_queue 0 waiting6)) = (length (n_wire waiting6) + 2)%nat.
Proof.
  destruct (n_ndp waiting6 !! 0%nat) as [e|] eqn:E; [|vm_compute in E; congruence].
  exists e. split; [reflexivity|].
  assert (H : length (skq (ne_queue e)) = 2%nat) by (vm_compute in E; injection E as <-; reflexivity).
  split; [exact H|]. destruct (flush_sends_in_order 0 waiting6 e E) as [W _].
  - vm_compute in E. injection E as <-. vm_compute. repeat split; congruence.
  - rewrite W, length_app, length_fmap, H. reflexivity.
Defined.

End NetProps.
