(* ===== verification/WorldProps.v ===== *)
(** Theorems about the stack as a whole. *)
From S2P Require Import Prelude Utils SkBuff Timer TcpTypes TcpBase TcpOutput TcpData TcpInput TcpApi TcpOwner Ipv6 Net Neigh IpOut Frame World Udp SocketApi Addrconf IpIn Stack WorldFacts WorldCalls UdpWire Passive Fixture Scenario.
Import Utils SkBuff Timer TcpTypes TcpBase TcpOutput TcpData TcpInput TcpApi TcpOwner Ipv6 Net Neigh IpOut Frame World Udp SocketApi Addrconf IpIn Stack WorldFacts WorldCalls UdpWire Passive Fixture Scenario.

Module WorldProps.

(** ** The socket table *)

Lemma steps_ok w w' : rtc wstep w w' -> world_ok w -> world_ok w'.
Proof. induction 1 as [|w1 w2 w3 S _ IH]; intros O; [done|]. by eapply IH, wstep_ok. Qed.

(** C8: from a booted stack, after any frames, timer ticks, calls and wake-ups in any
    order, the socket table is consistent: identities and descriptors are in step, the
    operations of a socket fit its protocol and family, a thread asleep in the send
    path still owes the release of the lock exactly when it was processing a segment;
    and while fewer than 2^31 sockets were ever made, a process finds each of its
    sockets by its descriptor. *)
Theorem table_invariant w0 w :
  booted w0 -> rtc wstep w0 w ->
  world_ok w /\
  (w_next_id w <= 2147479552 -> forall e, e ∈ w_socks w -> get_socket (so_pid (c_so e)) (so_fd (c_so e)) w = Some (e_id e)).
Proof.
  intros B S. assert (O : world_ok w) by (by eapply steps_ok, booted_ok). split; [done|]. intros Hn e He. by apply get_socket_in.
Qed.

Lemma table_invariant_witness :
  booted boot /\ rtc wstep boot syn_received /\ length (w_socks syn_received) = 2%nat /\ world_ok syn_received.
Proof.
  assert (S : rtc wstep boot syn_received).
  { unfold syn_received, listening. cbn [calls foldl]. eapply rtc_l; [apply StepCall|]. eapply rtc_l; [apply StepCall|].
    eapply rtc_l; [apply StepCall|]. eapply rtc_l; [apply StepFrame|]. reflexivity. }
  assert (B : booted boot) by (vm_compute; repeat split).
  split; [exact B|]. split; [exact S|]. split; [by vm_compute|]. exact (proj1 (table_invariant boot syn_received B S)).
Defined.

(** ** Isolation *)

(** C17: a call of one process leaves every socket of every other process as it was
    and makes sockets for the calling process only: afterwards the sockets of other
    processes are those from before, unchanged, whatever the call was. *)
Theorem process_isolation pid c w :
  world_ok w -> forall e, so_pid (c_so e) <> pid -> e ∈ w_socks w <-> e ∈ w_socks (run_syscall pid c w).1.
Proof.
  intros O. set (T := fun x => w_next_id w <= x \/ exists e, e ∈ w_socks w /\ e_id e = x /\ so_pid (c_so e) = pid).
  assert (Q : quiet T pid w (run_syscall pid c w)).
  { apply quiet_syscall; [by left| |apply runs_here]. intros w1 fd id Hg R. unfold get_socket in Hg.
    destruct (find _ _) as [x|] eqn:E; [|done]. injection Hg as <-. apply find_some in E as [Hx Ex].
    apply list_elem_of_In in Hx. apply andb_prop in Ex as [Ex _]. apply Z.eqb_eq in Ex.
    destruct (ev_from _ _ _ _ (rn_ev _ _ _ _ _ R O) x Hx) as [Hw|[HT _]]; [|done]. right. by exists x. }
  destruct Q as [Q _]. destruct (Q O) as [O' N K F]. intros e He. split; intros Hin.
  - apply K; [done|]. intros [Hn|(x & Hx & Ex & Px)].
    + pose proof (wo_range _ O e Hin). lia.
    + by rewrite <- (ids_unique w x e O Hx Hin Ex) in He.
  - destruct (F e Hin) as [?|(_ & [(x & Hx & S)|[Hn Hp]])]; [done| |done].
    destruct (F e Hin) as [?|(HT & _)]; [done|]. exfalso. destruct HT as [Hn|(y & Hy & Ey & Py)].
    + pose proof (wo_range _ O x Hx). rewrite (sm_id _ _ S) in Hn. lia.
    + assert (E : e_id x = e_id y) by (by rewrite Ey, (sm_id _ _ S)).
      rewrite (ids_unique w x y O Hx Hy E) in S. by rewrite (sm_pid _ _ S) in He.
Qed.

Lemma shared_ok : world_ok shared.
Proof. apply calls_ok, calls_ok, boot_ok. Qed.

Lemma process_isolation_witness :
  world_ok shared /\ exists e, so_pid (c_so e) = 7 /\ e ∈ w_socks (run_syscall 8 (Close 4098) shared).1.
Proof.
  split; [exact shared_ok|].
  assert (N : exists e, find_entry 1 shared = Some e /\ so_pid (c_so e) = 7) by (eexists; split; vm_compute; reflexivity).
  destruct N as (e & [He _]%find_entry_some & Hp). exists e. split; [exact Hp|].
  apply (process_isolation 8 (Close 4098) shared shared_ok e); [rewrite Hp; discriminate|exact He].
Defined.

(** ** Locks *)

Definition unlocked (w : world) : Prop := forall e, e ∈ w_socks w -> so_locked (c_so e) = false.

Lemma unlocked_none w : unlocked w <-> locks none w.
Proof.
  split; intros U e He; [intros Hl; by rewrite (U e He) in Hl|]. destruct (so_locked (c_so e)) eqn:E; [|done]. by destruct (U e He E).
Qed.

(** A call or a thread that comes to an end or goes to sleep holds no lock. *)
Definition no_lock_after (r : world * outcome) : Prop :=
  match r.2 with Crashed | Hung => True | _ => unlocked r.1 end.

Lemma quiet_no_lock T p w r : world_ok w -> unlocked w -> quiet T p w r -> no_lock_after r.
Proof.
  intros O U [_ Q]. apply unlocked_none in U. specialize (Q O U). unfold no_lock_after. destruct r.2; try done; by apply unlocked_none.
Qed.

Lemma thread_quiet l1 t l2 w :
  world_ok w -> unlocked w -> w_threads w = l1 ++ t :: l2 -> no_lock_after (run_thread t (set_w_threads (l1 ++ l2) w)).
Proof.
  intros O U E. destruct (take_thread l1 t l2 w O E) as [Ht O1]. set (w1 := set_w_threads (l1 ++ l2) w) in *.
  assert (U1 : unlocked w1) by exact U. clearbody w1. unfold run_thread.
  assert (Q : no_lock_after (resume_call t w1)).
  { eapply quiet_no_lock; [exact O1|exact U1|]. apply (quiet_resume anything (t_pid t) w1 t w1); [done..|apply runs_here]. }
  destruct (t_at t) as [| | | | | |h a]; try exact Q. apply unlocked_none.
  apply (runs_callback anything 0 w1 h a w1 (fun _ => I) (runs_here _ _ w1)); [done|by apply unlocked_none].
Qed.

(** C16: no step leaves a socket locked: after a frame, after a timer tick, after a
    call that returned or put its thread to sleep, and after a woken thread or a
    timer's callback came to an end or slept again, every socket lock is free, if it
    was before. *)
Theorem locks_are_released w :
  world_ok w -> unlocked w ->
  (forall frame, unlocked (netdev_rx_loop frame w)) /\ (forall busy ok, unlocked (timers_step busy ok w)) /\
  (forall pid c, no_lock_after (run_syscall pid c w)) /\
  (forall l1 t l2, w_threads w = l1 ++ t :: l2 -> no_lock_after (run_thread t (set_w_threads (l1 ++ l2) w))).
Proof.
  intros O U. assert (L : locks none w) by (by apply unlocked_none). split; [|split; [|split]].
  - intros frame. apply unlocked_none. by apply frame_ok.
  - intros busy ok. apply unlocked_none. by apply (runs_timers anything 0 w busy ok w (runs_here _ _ w)).
  - intros pid c. eapply quiet_no_lock; [exact O|exact U|]. apply (quiet_syscall anything pid w c w); [done..|apply runs_here].
  - intros l1 t l2 E. by apply thread_quiet.
Qed.

Lemma shared_unlocked : unlocked shared.
Proof.
  assert (B : forallb (fun e => negb (so_locked (c_so e))) (w_socks shared) = true) by (vm_compute; reflexivity).
  intros e He%list_elem_of_In. rewrite forallb_forall in B. apply B in He. by destruct (so_locked (c_so e)).
Defined.
Lemma locks_are_released_witness : unlocked shared /\ no_lock_after (run_syscall 7 (Accept 4097 16) shared).
Proof.
  split; [exact shared_unlocked|].
  exact (proj1 (proj2 (proj2 (locks_are_released shared shared_ok shared_unlocked))) 7 (Accept 4097 16)).
Defined.

(** ** Unknown descriptors *)

Definition fd_of (c : syscall) : option Z :=
  match c with
  | Socket _ _ | Poll _ _ => None
  | Connect fd _ _ | Bind fd _ _ | Listen fd _ | Accept fd _ | Write fd _ | Read fd _ | Sendto fd _ _ | Recvfrom fd _
  | Close fd | Fcntl fd _ _ | Getsockopt fd _ _ | Getpeername fd _ | Getsockname fd _ => Some fd
  end.

Lemma get_socket_none pid fd w :
  (forall e, e ∈ w_socks w -> so_pid (c_so e) = pid -> u32 (so_fd (c_so e)) <> u32 fd) -> get_socket pid fd w = None.
Proof.
  intros H. unfold get_socket. destruct (find _ _) as [e|] eqn:E; [|done]. apply find_some in E as [He Ee].
  apply list_elem_of_In in He. apply andb_prop in Ee as [E1 E2]. apply Z.eqb_eq in E1, E2. by destruct (H e He E1).
Qed.

(** a call on a descriptor that is none of the calling process's sockets, even
    when it is one of another process, returns [-EBADF] and changes nothing; so does
    a poll in which such a descriptor comes first, whose array stays as it was. *)
Lemma unknown_descriptor pid c fd fds w :
  (forall e, e ∈ w_socks w -> so_pid (c_so e) = pid -> u32 (so_fd (c_so e)) <> u32 fd) ->
  fd_of c = Some fd \/ (exists p timeout, pf_fd p = fd /\ c = Poll (p :: fds) timeout) ->
  run_syscall pid c w = (w, Returned (- EBADF) (match c with Poll fds _ => pf_revents <$> fds | _ => [] end) []).
Proof.
  intros H Hc. apply get_socket_none in H.
  assert (C : forall f, call pid fd f w = (w, Returned (- EBADF) [] [])) by (intros f; unfold call; by rewrite H).
  destruct Hc as [Hc|(p & t & <- & ->)]; [|cbn [run_syscall]; unfold _poll; cbn [poll_scan]; by rewrite H].
  destruct c; try done; injection Hc as ->; apply C.
Qed.
Lemma unknown_descriptor_witness :
  get_socket 7 4097 shared = Some 1 /\ run_syscall 8 (Read 4097 10) shared = (shared, Returned (- EBADF) [] []).
Proof.
  split; [vm_compute; reflexivity|]. apply (unknown_descriptor 8 (Read 4097 10) 4097 []); [|by left].
  assert (B : forallb (fun e => negb (so_pid (c_so e) =? 8) || negb (u32 (so_fd (c_so e)) =? u32 4097)) (w_socks shared) = true)
    by (vm_compute; reflexivity).
  intros e He%list_elem_of_In Hp. rewrite forallb_forall in B. apply B in He. rewrite Hp, Z.eqb_refl in He. simpl in He.
  by destruct (Z.eqb_spec (u32 (so_fd (c_so e))) (u32 4097)).
Defined.

(** ** Poll *)

(** The turns of one [_poll], the [k]-th in the [k]-th of the states [ws], whatever
    happened in between; [None] while it still sleeps. *)
Fixpoint poll_turns (pid : Z) (fds : list pollfd) (timeout : Z) (ws : list world) : option outcome :=
  match ws with
  | [] => None
  | w :: ws =>
      match _poll pid fds timeout w with
      | (w', Sleeping _) =>
          match last (w_threads w') with
          | Some t => match t_at t with WaitPoll fds' timeout' => poll_turns (t_pid t) fds' timeout' ws | _ => None end
          | None => None
          end
      | (_, r) => Some r
      end
  end.

(** The result of a turn: [-EBADF], or the number of descriptors with events and the
    events of each, both read in the state [w]. *)
Definition poll_result (pid : Z) (fds : list pollfd) (w : world) (r : outcome) : Prop :=
  let '(_, seen, ok) := poll_scan pid fds w in
  if ok then r = Returned (Z.of_nat (length (filter (fun p => 0 < pf_revents p) seen))) (pf_revents <$> seen) []
  else exists revs, r = Returned (- EBADF) revs [].

(** What a turn reads of the array. *)
Definition asked (fds : list pollfd) : list (Z * Z) := (fun p => (pf_fd p, pf_events p)) <$> fds.

Lemma poll_scan_asked pid : forall fds fds' w, asked fds' = asked fds ->
  (poll_scan pid fds' w).2 = (poll_scan pid fds w).2 /\ (poll_scan pid fds' w).1.1 = (poll_scan pid fds w).1.1 /\
  asked (poll_scan pid fds w).1.2 = asked fds /\
  ((poll_scan pid fds w).2 = true -> (poll_scan pid fds' w).1.2 = (poll_scan pid fds w).1.2).
Proof.
  induction fds as [|p fds IH]; intros [|p' fds'] w E; try done. unfold asked in E. cbn [fmap list_fmap] in E.
  injection E as E1 E2 E3. cbn [poll_scan]. rewrite E1, E2.
  destruct (id ← get_socket pid (pf_fd p) w; e ← find_entry id w; Some (id, e)) as [[id e]|]; [|by repeat split].
  specialize (IH fds' (so_release id (so_acquire id w)) E3) as (I1 & I2 & I3 & I4).
  destruct (poll_scan pid fds' _) as [[w' l'] ok'], (poll_scan pid fds _) as [[w1 l] ok]. cbn [fst snd] in *.
  repeat split; [done|done| |].
  - unfold asked in *. cbn [fmap list_fmap]. by rewrite I3.
  - intros H. rewrite (I4 H). unfold set_pf_revents. by rewrite E1, E2.
Qed.
Lemma poll_result_asked pid fds fds' w r : asked fds' = asked fds -> poll_result pid fds' w r -> poll_result pid fds w r.
Proof.
  intros E. unfold poll_result. destruct (poll_scan_asked pid fds fds' w E) as (E1 & _ & _ & E4).
  destruct (poll_scan pid fds' w) as [[w' l'] ok'], (poll_scan pid fds w) as [[w1 l] ok]. cbn [fst snd] in *. subst.
  destruct ok; [by rewrite (E4 eq_refl)|done].
Qed.

Lemma poll_turn pid fds timeout w :
  (exists w' r, _poll pid fds timeout w = (w', r) /\ poll_result pid fds w r) \/
  (timeout <> 0 /\ exists w' i j fds', asked fds' = asked fds /\ _poll pid fds timeout w = (w', Sleeping i) /\
    last (w_threads w') = Some (mk_thread j pid 0 (WaitPoll fds' (if 0 <? timeout then if 10 <? timeout then timeout - 10 else 0 else timeout)))).
Proof.
  unfold _poll, poll_result. destruct (poll_scan_asked pid fds fds w eq_refl) as (_ & _ & A & _).
  destruct (poll_scan pid fds w) as [[w1 seen] ok]. cbn [fst snd] in *.
  destruct ok; cbn [negb]; [|left; do 2 eexists; split; [done|by eexists]]. cbv zeta.
  destruct (Z.ltb_spec 0 (Z.of_nat (length (filter (fun p => 0 < pf_revents p) seen)))); cbn [orb];
    [left; by do 2 eexists|].
  destruct (Z.eqb_spec timeout 0) as [->|]; [left; by do 2 eexists|].
  right. split; [done|]. do 4 eexists. split; [exact A|]. split; [done|]. cbn [park w_threads set_w_next_thread set_w_threads]. by rewrite last_snoc.
Qed.

(** C26: a poll with a timeout of [t] milliseconds returns after at most
    [ceil(t / 10) + 1] turns, whatever other threads do between them, with [-EBADF] or
    with the number of descriptors that have events in one of the states it saw. *)
Theorem poll_returns pid fds timeout ws :
  0 <= timeout -> (Z.to_nat ((timeout + 9) / 10) < length ws)%nat ->
  exists w r, w ∈ ws /\ poll_turns pid fds timeout ws = Some r /\ poll_result pid fds w r.
Proof.
  remember (Z.to_nat ((timeout + 9) / 10)) as n eqn:En. revert fds timeout ws En.
  induction n as [n IH] using lt_wf_ind. intros fds timeout ws En Ht Hl. destruct ws as [|w ws]; [simpl in Hl; lia|]. cbn [poll_turns].
  destruct (poll_turn pid fds timeout w) as [(w' & r & -> & R)|(Hn & w' & i & j & fds' & A & -> & ->)].
  - exists w, r. split; [left|]. split; [|done]. unfold poll_result in R. destruct (poll_scan _ _ _) as [[? ?] []]; [by subst|by destruct R as [? ->]].
  - cbn [t_at t_pid]. set (t' := if 0 <? timeout then _ else _).
    assert (Ht' : 0 <= t' /\ (Z.to_nat ((t' + 9) / 10) < n)%nat /\ (timeout + 9) / 10 - 1 = (t' + 9) / 10).
    { unfold t'. destruct (Z.ltb_spec 0 timeout); [|lia]. destruct (Z.ltb_spec 10 timeout); Z.div_mod_to_equations; lia. }
    destruct Ht' as (H0 & H1 & H2). destruct (IH _ H1 fds' t' ws eq_refl H0) as (w2 & r & Hw & E & R).
    { simpl in Hl. lia. }
    exists w2, r. split; [by right|]. split; [done|by apply (poll_result_asked _ _ fds')].
Qed.
Lemma poll_returns_witness :
  exists w r, w ∈ [listening; listening; listening] /\
    poll_turns 7 [mk_pollfd 4097 1 0] 15 [listening; listening; listening] = Some r /\ poll_result 7 [mk_pollfd 4097 1 0] w r.
Proof. apply poll_returns; [lia|vm_compute; lia]. Defined.

(** ** Delivery *)

(** C19: an arriving TCP segment goes to the connection with its four-tuple, and only
    if there is none to a socket listening on exactly its address and port; every other
    socket is left as it was, and a socket that appears belongs to the receiver's
    process.  A listener bound to the unspecified address never gets a segment for
    another address, which is dropped unless some other socket matches it: the comments
    of [tcp_sock_match_listener] and [tcp_lookup_listener] say that such a listener
    accepts any destination, the code compares the addresses. *)
Theorem segment_delivery b w :
  world_ok w -> w_next_id w < 2147479552 ->
  let conn e := connection (seg_saddr b) (seg_daddr b) (th_sport (segment b).1) (th_dport (segment b).1) (c_sk e) in
  let lstn e := listener (seg_daddr b) (th_dport (segment b).1) (c_sk e) in
  (forall e, e ∈ w_socks w -> sk_state (c_sk e) = TCP_LISTEN -> v4_of (sk_saddr (c_sk e)) = 0 -> seg_daddr b <> 0 -> receiver b w <> Some (e_id e)) /\
  match receiver b w with
  | None => w_socks (tcp_in b w) = w_socks w /\ forall e, e ∈ w_socks w -> ~ conn e /\ ~ lstn e
  | Some id => exists r, r ∈ w_socks w /\ e_id r = id /\ (conn r \/ lstn r /\ forall e, e ∈ w_socks w -> ~ conn e) /\
      (forall e, e ∈ w_socks w -> e <> r -> e ∈ w_socks (tcp_in b w)) /\
      (forall e', e' ∈ w_socks (tcp_in b w) ->
         e' ∈ w_socks w \/ same_owner r e' \/ w_next_id w <= e_id e' /\ so_pid (c_so e') = so_pid (c_so r))
  end.
Proof.
  intros O Hn conn lstn. rewrite tcp_in_unfold.
  pose proof (lookup_spec (seg_saddr b) (seg_daddr b) (th_sport (segment b).1) (th_dport (segment b).1) w) as S.
  change (inet_lookup _ _ _ _ w) with (receiver b w) in S. split.
  { intros e He Hl Hz Hd Er. rewrite Er in S. destruct S as (r & Hr & Ei & Hc). rewrite (ids_unique w r e O Hr He Ei) in Hc.
    destruct Hc as [(_ & _ & C & _)|[(_ & _ & _ & _ & C) _]]; [done|congruence]. }
  destruct (receiver b w) as [id|] eqn:E.
  2: { split; [unfold w_free_skb; by destruct (free_skb _)|exact S]. }
  destruct S as (r & Hr & <- & Hc). exists r. do 3 (split; [done|]).
  set (T := fun x => x = e_id r \/ w_next_id w <= x).
  assert (Hp : sk_protocol (c_sk r) = IPPROTO_TCP) by (destruct Hc as [C|[C _]]; apply C).
  assert (F : forks_into T (so_pid (c_so r)) (so_acquire (e_id r) w)).
  { intros fam i Hi. right. destruct (acquire_same (e_id r) w) as (f & _ & _ & En & _).
    apply fork_fresh in Hi; [lia| |lia].
    apply (ev_ok _ _ _ _ (ev_acquire (fun _ => True) 0 w (e_id r) w I (evolves_refl _ _ w) O)). }
  assert (Tr : T (e_id r)) by (by left). assert (Tn : T (w_next_id w)) by (right; lia).
  pose proof (segment_runs T (so_pid (c_so r)) w (segment b).1 (segment b).2 (st32 (replicate 16 0) 0 (seg_saddr b)) w r
    O Hr Hp eq_refl Tr Tn F (runs_here _ _ w)) as [R _].
  destruct (R O) as [_ _ K Fr]. split.
  - intros e He Hne. apply K; [done|]. intros [Ei|Hi]; [by apply Hne, (ids_unique w)|]. pose proof (wo_range _ O e He). lia.
  - intros e' He'. destruct (Fr e' He') as [?|(HT & [(e & He & S)|?])]; [by left| |by auto]. right. left.
    destruct HT as [Ei|Hi].
    + assert (Eid : e_id e = e_id r) by (by rewrite <- Ei, (sm_id _ _ S)). by rewrite (ids_unique w e r O He Hr Eid) in S.
    + pose proof (wo_range _ O e He). rewrite (sm_id _ _ S) in Hi. lia.
Qed.

(** ** Passive open *)

Lemma segment_ok b : bytes_ok (skb_buf b) -> bytes_ok (skb_buf (segment b).2).
Proof.
  intros H. change (skb_buf (segment b).2) with (let m := skb_buf b in
    let m := st16 m 34 (bswap16 (ld16 m 34)) in let m := st16 m 36 (bswap16 (ld16 m 36)) in
    let m := st32 m 38 (bswap32 (ld32 m 38)) in let m := st32 m 42 (bswap32 (ld32 m 42)) in
    let m := st16 m 48 (bswap16 (ld16 m 48)) in let m := st16 m 50 (bswap16 (ld16 m 50)) in
    st16 m 52 (bswap16 (ld16 m 52))). cbv zeta. eauto 20 with cint.
Qed.

(** C14: a SYN for a listening socket adds exactly one socket to the table, of the
    listener's process, in SYN-RECEIVED, with the listener's address and port on one
    side and the sender's on the other, [rcv_nxt] behind the SYN, the SYN-ACK queued
    with sequence number [iss], the listener as its parent; [snd_nxt] is [iss + 2]
    because it is incremented twice.  Every other socket, the listener included, is as
    before, and from now on segments with this four-tuple go to the child. *)
Theorem passive_open b w r :
  world_ok w -> w_next_id w < 2147479552 -> bytes_ok (skb_buf b) -> receiver b w = Some (e_id r) -> r ∈ w_socks w ->
  sk_state (c_sk r) = TCP_LISTEN -> so_locked (c_so r) = false -> 0 < so_refcnt (c_so r) -> th_syn (segment b).1 = true ->
  exists c, w_socks (tcp_in b w) = w_socks w ++ [c] /\
    child (e_id r) r (segment b).1 (st32 (replicate 16 0) 0 (seg_saddr b)) w c /\
    forall b', seg_saddr b' = seg_saddr b -> seg_daddr b' = seg_daddr b ->
      th_sport (segment b').1 = th_sport (segment b).1 -> th_dport (segment b').1 = th_dport (segment b).1 ->
      receiver b' (tcp_in b w) = Some (e_id c).
Proof.
  intros O Hn Hb Hrcv Hin Hst Hl Hc Hsyn. pose proof (segment_ok b Hb) as Hs.
  pose proof (lookup_spec (seg_saddr b) (seg_daddr b) (th_sport (segment b).1) (th_dport (segment b).1) w) as L.
  change (inet_lookup _ _ _ _ w) with (receiver b w) in L. rewrite Hrcv in L. destruct L as (x & Hx & Ex & L).
  rewrite (ids_unique w x r O Hx Hin Ex) in L. destruct L as [C|[(P1 & P2 & _ & P4 & P5) No]]; [by destruct C as (_ & _ & ? & _)|].
  pose proof (ld16_range _ (34 + 14) Hs) as Hw.
  destruct (listened_child (e_id r) (segment b).1 (segment b).2 (st32 (replicate 16 0) 0 (seg_saddr b)) w r O Hn
    (find_entry_in w r O Hin)) as (c & Ec & C); [by split|done|done|done|apply Hw|].
  assert (E : w_socks (tcp_in b w) = w_socks w ++ [c]) by (rewrite tcp_in_unfold, Hrcv; exact Ec).
  exists c. split; [exact E|]. split; [exact C|]. intros b' B1 B2 B3 B4. unfold receiver. rewrite B1, B2, B3, B4.
  pose proof (lookup_spec (seg_saddr b) (seg_daddr b) (th_sport (segment b).1) (th_dport (segment b).1) (tcp_in b w)) as L.
  assert (Hcn : connection (seg_saddr b) (seg_daddr b) (th_sport (segment b).1) (th_dport (segment b).1) (c_sk c)).
  { destruct C as [_ _ _ C4 C5 C6 C7 C8 C9 C10 _]. split; [done|]. split; [done|]. split; [by rewrite C4|]. split; [by rewrite C7|].
    split; [done|]. rewrite C9, C10, P5. split; [|apply u32_id, (ld32_range _ 30 Hs)].
    rewrite ld32_st32_eq by (simpl; lia). rewrite u32_idemp. apply u32_id, (ld32_range _ 26 Hs). }
  assert (Hcin : c ∈ w_socks (tcp_in b w)) by (rewrite E; apply elem_of_app; right; by apply list_elem_of_singleton).
  destruct (inet_lookup _ _ _ _ (tcp_in b w)) as [i|]; [|by destruct (L c Hcin)].
  destruct L as (y & Hy & <- & [Cy|[_ Ny]]); [|by destruct (Ny c Hcin)].
  rewrite E in Hy. apply elem_of_app in Hy as [Hy|Hy]; [by destruct (No y Hy)|]. by apply list_elem_of_singleton in Hy as ->.
Qed.

Lemma listening_ok : world_ok listening.
Proof. apply calls_ok, boot_ok. Qed.
Lemma server_found : find_entry 1 listening = Some server.
Proof. vm_compute. reflexivity. Defined.

Lemma segment_delivery_witness :
  receiver (packet_of syn) listening = Some 1 /\ exists r, r ∈ w_socks listening /\ e_id r = 1.
Proof.
  assert (R : receiver (packet_of syn) listening = Some 1) by (vm_compute; reflexivity). split; [exact R|].
  assert (N : w_next_id listening < 2147479552) by (vm_compute; reflexivity).
  pose proof (segment_delivery (packet_of syn) listening listening_ok N) as D. cbv zeta in D. apply proj2 in D. rewrite R in D.
  destruct D as (r & Hr & Er & _). exists r. split; [exact Hr|exact Er].
Defined.

Lemma passive_open_witness :
  exists c, e_id c = 2 /\ w_socks (tcp_in (packet_of syn) listening) = w_socks listening ++ [c] /\ sk_dport (c_sk c) = 5555.
Proof.
  assert (B : forallb (fun x => (0 <=? x) && (x <? 256)) (skb_buf (packet_of syn)) = true) by (vm_compute; reflexivity).
  destruct (find_entry_some _ _ _ server_found) as [Hin Hid].
  destruct (passive_open (packet_of syn) listening server listening_ok) as (c & E & C & _).
  - vm_compute. reflexivity.
  - apply Forall_forall. intros x Hx. rewrite forallb_forall in B. apply list_elem_of_In in Hx. apply B in Hx.
    unfold is_u8. lia.
  - rewrite Hid. vm_compute. reflexivity.
  - exact Hin.
  - vm_compute. reflexivity.
  - vm_compute. reflexivity.
  - vm_compute. reflexivity.
  - vm_compute. reflexivity.
  - exists c. split; [rewrite (ch_id _ _ _ _ _ _ C); vm_compute; reflexivity|]. split; [exact E|].
    rewrite (ch_dport _ _ _ _ _ _ C). vm_compute. reflexivity.
Defined.

(** ** UDP from end to end *)

Lemma udp_lookup_same sport dport w w' : w_socks w' = w_socks w -> inet_udp_lookup sport dport w' = inet_udp_lookup sport dport w.
Proof. intros E. unfold inet_udp_lookup, socket_lookup_udp, find_sock. by rewrite E. Qed.

(** C12: what one process sends with [sendto] another stack's process gets from
    [recvfrom], for datagrams of at most 662 bytes: with a route to the destination and
    its next hop resolved, [sendto] returns the length and puts one frame on the wire;
    when that frame arrives at a stack whose first socket for the destination port is
    not locked and has an empty queue, [recvfrom] on it returns the length of the
    datagram, its bytes (as many as the buffer holds) and the address and port of the
    sender; neither stack leaves the bounds of a buffer.  A longer datagram, up to 1472
    bytes, makes [sendto] overrun the buffer of [print_buffer_hexdump] on the stack. *)
Theorem udp_end_to_end ps fds buf addr ws ids es wr er cap i rt dmac :
  let d := bswap32 (s_addr addr) in
  let n := w_net ws in
  let from := nd_addr (dev_of (rt_dev rt) n) in
  get_socket ps fds ws = Some ids -> find_entry ids ws = Some es -> c_ops es = inet_dgram_ops -> sk_err (c_sk es) = 0 ->
  length (sk_daddr (c_sk es)) = 16%nat -> is_u16 (sk_sport (c_sk es)) ->
  bytes_ok buf -> 0 < Z.of_nat (length buf) <= 1472 -> rt_dev rt <> 0 ->
  route_lookup d n = Some i -> n_routes n !! i = Some rt -> arp_get_hwaddr (next_hop rt d) n = Some dmac ->
  length dmac = 6%nat -> is_u32 from ->
  world_ok wr -> w_next_id wr <= 2147479552 -> er ∈ w_socks wr ->
  inet_udp_lookup (sk_sport (c_sk es)) (bswap16 (sin_port addr)) wr = Some (e_id er) ->
  c_ops er = inet_dgram_ops -> so_locked (c_so er) = false -> sk_receive_queue (c_sk er) = skb_queue_init -> 0 <= cap < 65536 ->
  n_faults (w_net (run_syscall ps (Sendto fds buf addr) ws).1) = n_faults n ++ (if Z.of_nat (length buf) <=? 662 then [] else [StackBounds]) /\
  (Z.of_nat (length buf) <= 662 -> exists f,
    n_wire (w_net (run_syscall ps (Sendto fds buf addr) ws).1) = n_wire n ++ [f] /\
    (run_syscall ps (Sendto fds buf addr) ws).2 = Returned (Z.of_nat (length buf)) [] [] /\
    e_faults (w_env (netdev_rx_loop f wr)) = e_faults (w_env wr) /\
    (run_syscall (so_pid (c_so er)) (Recvfrom (so_fd (c_so er)) cap) (netdev_rx_loop f wr)).2 =
      Returned (Z.of_nat (length buf)) (take (Z.to_nat cap) buf) (build_sockaddr_from_host_order (sk_sport (c_sk es)) from).1).
Proof.
  intros d n from Hg He Ho Herr Hda Hsp Hb Hlen Hv Hi Hr Ha Hm Hfrom O Hn Hin Hlk Hor Hul Hq Hc.
  destruct (sendto_sends ps fds buf addr ws ids es Hg He Ho Herr) as (w1 & En & E1 & E2).
  set (k := addressed addr (c_sk es)) in *. assert (Ed : v4_of (sk_daddr k) = d).
  { change (v4_of (set_v4 d (sk_daddr (c_sk es))) = d). rewrite v4_set by done. apply u32_id, bswap32_range. }
  split.
  { rewrite E1. rewrite (udp_send_faults k buf w1 i rt dmac); rewrite ?Ed, ?En; try done; try lia; try apply bswap16_range; apply bswap32_range. }
  intros H662. destruct (udp_send_frame k buf w1 i rt dmac) as (Er & f & W & Fr); rewrite ?Ed, ?En; try done; try lia; try apply bswap16_range; try apply bswap32_range.
  rewrite Ed, En in *. exists f. split; [by rewrite E1|]. split; [by rewrite E2, Er|]. clear E1 E2 Er W.
  destruct (udp_rx f buf from d (sk_sport k) (sk_dport k) wr Fr ltac:(lia)) as (b & w2 & A & S1 & S2 & S3 & Erx).
  rewrite (udp_lookup_same _ _ wr w2 S1) in Erx. change (inet_udp_lookup (sk_sport k) (sk_dport k) wr) with
    (inet_udp_lookup (sk_sport (c_sk es)) (bswap16 (sin_port addr)) wr) in Erx. rewrite Hlk in Erx.
  destruct (frame_ok f wr O) as [O3 _]. rewrite Erx in *.
  assert (Hf : find_entry (e_id er) w2 = Some er) by (unfold find_entry; rewrite S1; by apply (find_entry_in wr er O)).
  split; [rewrite <- S3; by apply (queue_no_fault (e_id er) b w2 er)|].
  apply (recvfrom_after_rx buf from (sk_sport k) b w2 er cap O3); try done; [|lia].
  rewrite release_next. change (w_next_id (udp_data_queue _ b ?x)) with (w_next_id x).
  destruct (acquire_same (e_id er) w2) as (_ & _ & _ & N & _). change (w_next_id (so_acquire (e_id er) w2) <= 2147479552). lia.
Qed.

Lemma udp_end_to_end_witness :
  exists f, n_wire (w_net (run_syscall 7 (Sendto 4097 [1; 2; 3] udp_server_addr) udp_client).1) = [f] /\
    (run_syscall 9 (Recvfrom 4097 10) (netdev_rx_loop f udp_server)).2 =
      Returned 3 [1; 2; 3] (build_sockaddr_from_host_order 6000 me).1.
Proof.
  assert (Hs : find_entry 1 udp_server = Some (udp_entry udp_server)) by (vm_compute; reflexivity).
  destruct (find_entry_some _ _ _ Hs) as [Hin Hid].
  assert (B : bytes_ok [1; 2; 3]) by (repeat apply Forall_cons_2; try apply Forall_nil_2; red; lia).
  destruct (udp_end_to_end 7 4097 [1; 2; 3] udp_server_addr udp_client 1 (udp_entry udp_client) udp_server (udp_entry udp_server) 10
    1%nat udp_route [2; 0; 0; 0; 0; 5]) as (_ & X).
  - vm_compute; reflexivity.
  - vm_compute; reflexivity.
  - vm_compute; reflexivity.
  - vm_compute; reflexivity.
  - vm_compute; reflexivity.
  - vm_compute; split; [discriminate|reflexivity].
  - exact B.
  - vm_compute; split; [reflexivity|discriminate].
  - vm_compute; discriminate.
  - vm_compute; reflexivity.
  - vm_compute; reflexivity.
  - vm_compute; reflexivity.
  - vm_compute; reflexivity.
  - vm_compute; split; [discriminate|reflexivity].
  - apply calls_ok, boot_ok.
  - vm_compute; discriminate.
  - exact Hin.
  - rewrite Hid; vm_compute; reflexivity.
  - vm_compute; reflexivity.
  - vm_compute; reflexivity.
  - vm_compute; reflexivity.
  - split; [discriminate|reflexivity].
  - destruct X as (f & W & _ & _ & R); [vm_compute; discriminate|]. exists f. split; [exact W|exact R].
Defined.

(** ** Autoconfiguration *)

(** What can decide a duplicate address detection: its timeout, and the neighbour
    advertisements that arrive (of which [na] is the offset). *)
Inductive dad_event := DadTimeout | DadAdvert (b : sk_buff) (na : nat).
Definition dad_run (w : world) (e : dad_event) : world :=
  match e with
  | DadTimeout => run_callback H_dad_timeout None w
  | DadAdvert b na => ndp_na_process b na w
  end.





(** The link-local address of a booted stack passes when nobody answers. *)
Example dad_passes :
  slot_state SlotLl (w_dev tentative) = ADDR6_TENTATIVE /\
  slot_state SlotLl (w_dev (foldl dad_run tentative [DadTimeout; DadTimeout])) = ADDR6_PREFERRED.
Proof. vm_compute. split; reflexivity. Qed.

(** ** Neighbour discovery options *)

Lemma ra_options_more buf fuel : bytes_ok buf ->
  forall opt n w, (opt_fuel n <= fuel)%nat -> ra_options fuel buf opt n w = ra_options (opt_fuel n) buf opt n w.
Proof.
  intros Hb. induction fuel as [fuel IH] using lt_wf_ind. intros opt n w Hf.
  destruct (Z.ltb_spec n 8) as [Hn|Hn].
  { destruct fuel, (opt_fuel n); cbn [ra_options]; try done; by rewrite (proj2 (Z.ltb_lt n 8) Hn). }
  assert (Hp : (1 <= opt_fuel n)%nat) by (unfold opt_fuel; Z.div_mod_to_equations; lia).
  destruct fuel as [|fuel]; [lia|]. destruct (opt_fuel n) as [|m] eqn:Em; [lia|]. cbn [ra_options].
  destruct (_ <? 8); [done|]. cbv zeta. set (skip := ld8 buf (opt + 1) * 8).
  destruct (Z.eqb_spec skip 0) as [|Hs]; cbn [orb]; [done|]. destruct (Z.ltb_spec n skip); [done|].
  pose proof (ld8_range buf (opt + 1) Hb) as R. assert (8 <= skip) by (unfold skip, is_u8 in *; lia).
  assert (L : (opt_fuel (n - skip) <= m)%nat) by (unfold opt_fuel in *; Z.div_mod_to_equations; lia).
  rewrite (IH fuel) by lia. symmetry. apply IH; lia.
Qed.
Lemma na_tlla_more buf fuel : bytes_ok buf ->
  forall opt n r, (opt_fuel n <= fuel)%nat -> na_tlla fuel buf opt n r = na_tlla (opt_fuel n) buf opt n r.
Proof.
  intros Hb. induction fuel as [fuel IH] using lt_wf_ind. intros opt n r Hf.
  destruct (Z.ltb_spec n 8) as [Hn|Hn].
  { destruct fuel, (opt_fuel n); cbn [na_tlla]; try done; by rewrite (proj2 (Z.ltb_lt n 8) Hn). }
  assert (Hp : (1 <= opt_fuel n)%nat) by (unfold opt_fuel; Z.div_mod_to_equations; lia).
  destruct fuel as [|fuel]; [lia|]. destruct (opt_fuel n) as [|m] eqn:Em; [lia|]. cbn [na_tlla].
  destruct (_ <? 8); [done|]. cbv zeta. set (skip := ld8 buf (opt + 1) * 8).
  destruct (Z.eqb_spec skip 0) as [|Hs]; [done|].
  pose proof (ld8_range buf (opt + 1) Hb) as R. assert (8 <= skip) by (unfold skip, is_u8 in *; lia).
  assert (L : (opt_fuel (n - skip) <= m)%nat) by (unfold opt_fuel in *; Z.div_mod_to_equations; lia).
  rewrite (IH fuel) by lia. symmetry. apply IH; lia.
Qed.

(** The option loops of router and neighbour advertisements end: every turn
    uses up at least eight bytes, whatever the packet holds, so one turn for every
    eight bytes of options is enough and further turns would change nothing. *)
Lemma ndp_option_loops_end buf opt n fuel :
  bytes_ok buf -> (Z.to_nat (n / 8) <= fuel)%nat ->
  (forall w, ra_options fuel buf opt n w = ra_options (opt_fuel n) buf opt n w) /\
  (forall r, na_tlla fuel buf opt n r = na_tlla (opt_fuel n) buf opt n r).
Proof. intros Hb Hf. split; intros; [by apply ra_options_more|by apply na_tlla_more]. Qed.
Lemma ndp_option_loops_end_witness :
  na_tlla 9 [2; 1; 2; 0; 0; 0; 0; 9] 0 8 None = Some [2; 0; 0; 0; 0; 9].
Proof.
  assert (B : bytes_ok [2; 1; 2; 0; 0; 0; 0; 9]) by (repeat apply Forall_cons_2; try apply Forall_nil_2; red; lia).
  rewrite (proj2 (ndp_option_loops_end [2; 1; 2; 0; 0; 0; 0; 9] 0 8 9 B ltac:(vm_compute; lia)) None). vm_compute. reflexivity.
Defined.

(** ** ICMPv6 errors *)

(** Faults are only added. *)
Definition faults_grow (n n' : net) : Prop := n_faults n `prefix_of` n_faults n'.
Lemma grow_transmit b dst et n : faults_grow n (netdev_transmit b dst et n).1.2.
Proof.
  unfold faults_grow, netdev_transmit, tun_write. cbv zeta. cbn [fst snd].
  destruct (skb_dev b =? 0), (in_buffer _); cbn; rewrite <- ?app_assoc; (reflexivity || by eexists).
Qed.
Lemma grow_send_ns target src dev n : faults_grow n (ndp_send_ns target src dev n).1.
Proof.
  unfold ndp_send_ns, net_alloc_skb. cbv zeta. cbn beta iota. set (b := set_skb_buf _ _). set (n1 := set_n_next_skb _ n). set (mac := ipv6_multicast_mac _).
  pose proof (grow_transmit b mac ETH_P_IPV6 n1) as G. assert (E : n_faults n1 = n_faults n) by done. clearbody b n1 mac.
  destruct (netdev_transmit b mac ETH_P_IPV6 n1) as [[b2 n2] rc]. cbn [fst snd] in *. unfold faults_grow in *. rewrite <- E.
  unfold net_free_skb. by destruct (free_skb b2).
Qed.
Lemma grow_dst6 b rt n : faults_grow n (dst6_neigh_output b rt n).1.2.
Proof.
  unfold dst6_neigh_output. cbv zeta. set (hop := if has_gateway rt then _ else _). destruct (ndp_get_hwaddr hop n) as [mac|]; [apply grow_transmit|].
  pose proof (grow_send_ns hop (ip6_saddr (Z.to_nat (skb_data b)) (skb_buf b)) (skb_dev b) n) as G.
  destruct (ndp_send_ns _ _ _ n) as [n1 rc]. cbn [fst snd] in G.
  assert (Q : forall m, n_faults m = n_faults n1 -> faults_grow n (ndp_queue_skb hop b m).1).
  { intros m Em. unfold faults_grow, ndp_queue_skb. destruct (_ ≫= _) as [[i e]|]; [destruct (_ <=? _)|]; cbn; by rewrite Em. }
  destruct (ndp_lookup hop n1); cbn [fst snd]; [by apply Q|]. unfold ndp_entry_alloc. destruct (_ <=? _); cbn [fst snd]; [exact G|by apply Q].
Qed.

(** What [icmpv6_send_error] copies of the offending packet. *)
Definition quoted (b : sk_buff) : Z := Z.min (u32 (skb_len b - ETH_HDR_LEN)) ICMPV6_ERROR_MAX_PAYLOAD.

(** A packet of the right version and length without hops left is answered. *)
Lemma no_hops_left b w :
  ipv6_hdr_version 14 (skb_buf b) = IPV6_VERSION -> 0 <= ip6_payload_len 14 (skb_buf b) ->
  ip6_payload_len 14 (skb_buf b) + IPV6_HDR_LEN <= skb_len b < 4294967296 -> ip6_hop_limit 14 (skb_buf b) = 0 ->
  ipv6_rcv b w = icmpv6_send_error b ICMPV6_TIME_EXCEEDED 0 0 w /\ 26 <= quoted b.
Proof.
  intros H1 H0 H2 H3. split.
  - unfold ipv6_rcv. cbv zeta. rewrite H1, H3. change (negb (IPV6_VERSION =? IPV6_VERSION)) with false. cbv iota.
    rewrite (proj2 (Z.ltb_ge _ _)) by lia. reflexivity.
  - unfold quoted, ICMPV6_ERROR_MAX_PAYLOAD, ETH_HDR_LEN, IPV6_HDR_LEN in *. rewrite u32_id by (red; lia). lia.
Qed.

(** C40: an ICMPv6 error is built outside of the buffer allocated for it.  With more
    than 46 bytes of the offending packet in it, the message itself starts in front of
    the buffer; with 7 to 46 bytes the IPv6 header does, once there is a route back to
    the sender.  Every IPv6 packet of the right version and length with hop limit 0 is
    answered by such a message of at least 26 bytes. *)
Theorem icmpv6_error_underflows b type code body w :
  let w' := icmpv6_send_error b type code body w in
  (46 < quoted b -> e_faults (w_env w') = e_faults (w_env w) ++ [FaultBounds]) /\
  (6 < quoted b <= 46 -> forall i rt, route6_lookup (ip6_saddr 14 (skb_buf b)) (w_net w) = Some i -> n_routes (w_net w) !! i = Some rt ->
   n_faults (w_net w) ++ [BufBounds] `prefix_of` n_faults (w_net w')) /\
  (ipv6_hdr_version 14 (skb_buf b) = IPV6_VERSION -> 0 <= ip6_payload_len 14 (skb_buf b) ->
   ip6_payload_len 14 (skb_buf b) + IPV6_HDR_LEN <= skb_len b < 4294967296 -> ip6_hop_limit 14 (skb_buf b) = 0 ->
   ipv6_rcv b w = icmpv6_send_error b ICMPV6_TIME_EXCEEDED 0 0 w /\ 26 <= quoted b).
Proof.
  intros w'. assert (Eq : (if ICMPV6_ERROR_MAX_PAYLOAD <? u32 (skb_len b - ETH_HDR_LEN) then ICMPV6_ERROR_MAX_PAYLOAD else u32 (skb_len b - ETH_HDR_LEN)) = quoted b)
    by (unfold quoted; destruct (Z.ltb_spec ICMPV6_ERROR_MAX_PAYLOAD (u32 (skb_len b - ETH_HDR_LEN))); lia).
  apply Logic.and_assoc. split; [unfold w', icmpv6_send_error, w_alloc_skb; cbv zeta|apply no_hops_left]. rewrite Eq. cbn beta iota. set (w1 := upd_w_env _ w). set (r := skb_push _ _).
  assert (D : skb_data r = 46 - quoted b) by (unfold r; simpl; unfold ETH_HDR_LEN, IPV6_HDR_LEN; lia). clearbody r.
  assert (E1 : e_faults (w_env w1) = e_faults (w_env w) /\ w_net w1 = w_net w) by done. destruct E1 as [E1 E2]. clearbody w1. split.
  - intros Hq. unfold in_front. rewrite D, (proj2 (Z.ltb_lt _ _)) by lia. unfold w_free_skb. rewrite <- E1. by destruct (free_skb b).
  - intros Hq i rt Hi Hr. unfold in_front. rewrite D, (proj2 (Z.ltb_ge _ _)) by lia. set (m := st16 _ _ (icmpv6_checksum _ _ _)). clearbody m.
    assert (E3 : w_net (w_free_skb b w1) = w_net w) by (rewrite <- E2; unfold w_free_skb; by destruct (free_skb b)). set (w2 := w_free_skb b w1) in *. clearbody w2.
    unfold send6. cbv zeta. rewrite E3. set (r1 := set_skb_protocol _ _). assert (D1 : skb_data r1 = 46 - quoted b) by done. clearbody r1.
    assert (G : n_faults (w_net w) ++ [BufBounds] `prefix_of` n_faults (o6_lower (ipv6_output_net (w_net w) r1 NEXTHDR_ICMPV6 (ip6_daddr 14 (skb_buf b)) (ip6_saddr 14 (skb_buf b))))).
    { unfold ipv6_output_net. rewrite Hi. cbn [mbind option_bind]. rewrite Hr. cbn [mbind option_bind]. cbv zeta. set (r2 := skb_push IPV6_HDR_LEN _).
      assert (F : in_front r2 = true) by (apply Z.ltb_lt; change (skb_data r1 - 40 < 0); lia). rewrite F. set (r3 := set_skb_buf _ r2). clearbody r3.
      pose proof (grow_dst6 r3 rt (net_fault_add BufBounds (w_net w))) as G. destruct (dst6_neigh_output r3 rt _) as [[b3 n3] rc]. exact G. }
    destruct (o6_freed _); [|exact G]. unfold w_free_skb. by destruct (free_skb _).
Qed.
(** A packet of 60 bytes without hops left and one of 1000. *)
Definition no_hops (len : Z) : sk_buff :=
  mk_skb 5 0 0 len 0 0 0 0 0 (replicate 14 0 ++ [96; 0; 0; 0; 0; 0; 6; 0] ++ replicate 40 0) 0 0 0 None.
Lemma icmpv6_error_witness :
  ipv6_rcv (no_hops 60) boot = icmpv6_send_error (no_hops 60) ICMPV6_TIME_EXCEEDED 0 0 boot /\
  e_faults (w_env (icmpv6_send_error (no_hops 1000) ICMPV6_TIME_EXCEEDED 0 0 boot)) = [FaultBounds].
Proof.
  split.
  - apply (icmpv6_error_underflows (no_hops 60) 0 0 0 boot); vm_compute; try (split; [discriminate|]); reflexivity || discriminate.
  - apply (icmpv6_error_underflows (no_hops 1000) ICMPV6_TIME_EXCEEDED 0 0 boot). vm_compute. reflexivity.
Defined.
End WorldProps.
