(* ===== verification/EndProps.v ===== *)
(** TCP from end to end: the composition of the sending stack, a network that loses,
    repeats and reorders frames, and the receiving stack. *)
From S2P Require Import Prelude Utils SkBuff Timer TcpTypes TcpBase TcpOutput TcpSender TcpData TcpInput TcpAck TcpReasm TcpApi TcpWire Ipv6 Net Neigh IpOut Frame TcpFrame TcpResend World Udp SocketApi Addrconf IpIn Stack WorldFacts WorldCalls UdpWire TcpDeliver Passive TcpControl Handshake TcpOpen Fixture Scenario.
Import Utils SkBuff Timer TcpTypes TcpBase TcpOutput TcpSender TcpData TcpInput TcpAck TcpReasm TcpApi TcpWire Ipv6 Net Neigh IpOut Frame TcpFrame TcpResend World Udp SocketApi Addrconf IpIn Stack WorldFacts WorldCalls UdpWire TcpDeliver Passive TcpControl Handshake TcpOpen Fixture Scenario.

Module EndProps.

(** The two ends of an open connection: what [r] expects next is what [s] sends next,
    nothing is waiting at [r], and its window has room for [n] bytes. *)
Record in_step (s r : st net) (n : Z) : Prop := {
  is_state : state r = TCP_ESTABLISHED;
  is_family : sk_addr_family (sk r) = AF_INET;
  is_snd : snd_inv r;
  is_seq : rcv_nxt (tb r) = snd_nxt (tb s);
  is_ack : snd_una (tb r) = rcv_nxt (tb s);
  is_queue : receive_queue r = skb_queue_init;
  is_ofo : ofo r = skb_queue_init;
  is_real : is_u32 (real_rcv_wnd (tb r));
  is_window : n <= rcv_wnd (tb r);
  is_wrap : snd_nxt (tb s) + n + rcv_wnd (tb r) < 4294967296
}.

Lemma established_lookup saddr daddr sport dport w e :
  world_ok w -> e ∈ w_socks w -> sk_state (c_sk e) <> TCP_LISTEN -> inet_lookup saddr daddr sport dport w = Some (e_id e) ->
  tcp_lookup_established AF_INET saddr daddr None None sport dport w = Some (e_id e).
Proof.
  intros O He Hst. unfold inet_lookup, socket_lookup. destruct (tcp_lookup_established _ _ _ _ _ _ _ w); [done|].
  intros E. apply find_sock_some in E as (x & Hx & Ex & M%listener_match). assert (x = e) as -> by (by apply (ids_unique w)).
  by destruct M as (_ & _ & ? & _).
Qed.

(** The receiving end before anything arrived. *)
Lemma receiving_start cs s r wr er tr saddr daddr sport dport n :
  r = focus er tr wr -> world_ok wr -> w_next_id wr <= 2147479552 -> er ∈ w_socks wr -> c_tcp er = Some tr ->
  c_ops er = inet_stream_ops -> inet_lookup saddr daddr sport dport wr = Some (e_id er) -> in_step s r n ->
  receiving cs (snd_nxt (tb s)) (rcv_wnd (tb r)) (rcv_nxt (tb s)) (e_id er) (so_pid (c_so er)) (so_fd (c_so er))
    saddr daddr sport dport wr ∅ 0.
Proof.
  intros Er O Hn He Ht Ho Lk [S1 S2 S3 S4 S5 S6 S7 S8 S9 S10]. constructor; try done.
  - apply established_lookup; try done. subst r. unfold state in S1. cbn [sk focus] in S1. by rewrite S1.
  - exists er, tr. split; [by apply find_entry_in|]. split; [done|]. split; [done|]. split; [done|]. split; [done|]. rewrite <- Er.
    assert (Qi : queue_ok skb_queue_init) by done.
    constructor; try done; [|split; [unfold rq; by rewrite S6; constructor|by rewrite S7; constructor]].
    constructor; try done; try (intros; set_solver); try (intros; lia).
    + rewrite S4. unfold start. simpl. lia.
    + exists []. unfold rq. rewrite S6. by split.
    + by rewrite S6.
    + exists []. split; [|set_solver]. split; [by rewrite S7|]. rewrite S7. split; constructor.
Qed.

(** The end of an open connection that writes: descriptor [fd] of process [p], whose
    packets leave through a resolved route. *)
Record writer (p fd from d sport dport : Z) (i : nat) (rt : rtentry) (dmac : list Z) (s : st net) (w : world) : Prop := {
  wr_fd : get_socket p fd w = Some (self s);
  wr_entry : find_entry (self s) w = Some (entry_of s inet_stream_ops);
  wr_env : en s = w_env w;
  wr_state : state s = TCP_ESTABLISHED;
  wr_err : sk_err (sk s) = 0;
  wr_inv : snd_inv s;
  wr_flow : flow s from d sport dport (rcv_nxt (tb s)) i rt dmac
}.

(** The end that reads: descriptor [fd] of process [p], which segments from
    [from]:[sport] to [d]:[dport] reach. *)
Record reader (p fd from d sport dport : Z) (r : st net) (w : world) : Prop := {
  rd_ok : world_ok w;
  rd_ids : w_next_id w <= 2147479552;
  rd_entry : entry_of r inet_stream_ops ∈ w_socks w;
  rd_env : en r = w_env w;
  rd_owner : so_pid (so r) = p /\ so_fd (so r) = fd;
  rd_lookup : inet_lookup from d sport dport w = Some (self r)
}.

Definition part_of (s : st net) : tcp_part := mk_tp (tb s) (tm s) (cc s) (sa s) (ofo s) (ptsk s).
Lemma focus_entry ops s w : en s = w_env w -> focus (entry_of s ops) (part_of s) w = s.
Proof. intros E. unfold focus, entry_of, part_of. cbn. rewrite <- E. by destruct s. Qed.

(** C1: what one process writes to a TCP connection another stack's process reads, over a
    network that may lose, repeat and reorder, for data that the congestion and the send
    window admit at once and sequence numbers that do not wrap.  [write] returns the length and puts the
    bytes on the wire as frames of one segment size each; whatever sequence of those
    frames arrives, the reader gets exactly the written bytes up to the first frame that
    is missing, in order, for every length it asks for, and all of them when every
    frame arrived at least once. *)
Theorem tcp_end_to_end ps fds pr fdr from d sport dport i rt dmac s r ws wr buf :
  let len := Z.of_nat (length buf) in
  let mss := smss (cc s) in
  writer ps fds from d sport dport i rt dmac s ws -> reader pr fdr from d sport dport r wr -> in_step s r len ->
  bytes_ok buf -> room s len -> inflight (cc s) + len <= Z.min (cwnd (cc s)) (snd_wnd (tb s)) -> 0 < mss <= 1460 ->
  exists fs,
    n_wire (w_net (run_syscall ps (Write fds buf) ws).1) = n_wire (w_net ws) ++ fs /\
    (run_syscall ps (Write fds buf) ws).2 = Returned len [] [] /\
    len <= Z.of_nat (length fs) * mss /\
    forall arr, Forall (fun i => (i < length fs)%nat) arr ->
    exists k, (forall j, (j < k)%nat -> j ∈ arr) /\ (k ∉ arr) /\ (k <= length fs)%nat /\
      forall n, 0 < n -> n <= Z.min len (Z.of_nat k * mss) ->
      (run_syscall pr (Read fdr n) (foldl (fun w i => netdev_rx_loop (fs !!! i) w) wr arr)).2 = Returned n (take (Z.to_nat n) buf) [].
Proof.
  intros len mss [Hg He En St Er I Fl] [O Hn Hin Enr [<- <-] Lk] Is Hb Hr Hw Hm.
  pose proof (focus_entry inet_stream_ops s ws En) as Fs. pose proof (focus_entry inet_stream_ops r wr Enr) as Fr.
  destruct (write_frames ps fds buf ws (self s) (entry_of s inet_stream_ops) (part_of s) from d sport dport (rcv_nxt (tb s)) i rt dmac Hg He eq_refl eq_refl)
    as (fs & W & Rc & [Lfs Dfs]); rewrite ?Fs; try done; [fold mss; lia|]. rewrite Fs in Lfs, Dfs. fold mss in Lfs, Dfs.
  set (cs := cut (Z.to_nat mss) buf) in *. set (s0 := snd_nxt (tb s)) in *. assert (Nn : (0 < Z.to_nat mss)%nat) by lia.
  assert (Len : start cs s0 (length cs) = s0 + len) by (unfold start; rewrite firstn_all; unfold cs; by rewrite cut_concat).
  assert (Lt : forall k, concat (take k cs) = take (k * Z.to_nat mss) buf) by (intros; by apply cut_take).
  assert (Lc : (length cs <= length buf)%nat) by (by apply cut_length).
  pose proof (is_wrap _ _ _ Is) as Wr. fold s0 in Wr. pose proof (si_una _ I) as Un. pose proof (si_nxt _ I) as Nx. fold s0 in Un, Nx.
  pose proof (is_window _ _ _ Is) as Wd.
  assert (So : stream_ok cs s0) by (constructor; [by apply cut_nonempty|lia|rewrite Len; destruct Hr as [Hr1 _]; fold s0 in Hr1; lia]).
  pose proof (receiving_start cs s r wr (entry_of r inet_stream_ops) (part_of r) from d sport dport len (eq_sym Fr) O Hn Hin eq_refl eq_refl
    ltac:(rewrite id_entry_of; exact Lk) Is) as R0. fold s0 in R0. rewrite id_entry_of in R0. change (c_so (entry_of r inet_stream_ops)) with (so r) in R0.
  exists fs. split; [exact W|]. split; [exact Rc|]. split.
  { assert (E : length buf = length (take (length cs * Z.to_nat mss) buf)) by (rewrite <- Lt, firstn_all; unfold cs; by rewrite cut_concat).
    rewrite length_take in E. rewrite Lfs. unfold len. nia. }
  intros arr Ha.
  destruct (rx_all cs s0 (rcv_wnd (tb r)) (rcv_nxt (tb s)) (self r) (so_pid (so r)) (so_fd (so r)) from d sport dport
    So ltac:(lia) ltac:(lia) ltac:(unfold len in *; lia) fs) with (arr := arr) (got := (∅ : gset nat)) (k := 0%nat) (w := wr) as [k R]; [| |done|done|].
  - apply Forall2_same_length_lookup_2; [done|]. intros j f c Hf Hc. rewrite (df_len _ _ _ _ _ _ _ _ (Dfs j f c Hf Hc)).
    pose proof (Forall_lookup_1 _ _ _ _ (cut_size (Z.to_nat mss) buf Nn) Hc) as Sz. simpl in Sz. lia.
  - intros j f c Hf Hc. apply (Dfs j f c Hf Hc).
  - rewrite union_empty_r_L in R. destruct R as [R1 R2 R3 (e & t & R4 & R5 & R6 & R7 & R8 & Cr)] eqn:ER. clear ER.
    pose proof (cr_inv _ _ _ _ _ _ _ Cr) as J. pose proof (inv_k _ _ _ _ _ _ _ J) as Hk. exists k. split; [|split; [|split; [lia|]]].
    + intros j Hj. pose proof (ri_below _ _ _ _ _ _ _ J j Hj). set_solver.
    + pose proof (ri_first _ _ _ _ _ _ _ J). set_solver.
    + intros n Hn1 Hn2. assert (Lk2 : n <= Z.of_nat (length (concat (take k cs)))) by (rewrite Lt, length_take; unfold len in *; nia).
      rewrite (read_received _ _ _ _ _ _ _ _ _ _ _ _ _ _ n R) by lia. rewrite Lt, take_take. do 3 f_equal. nia.
Qed.

(** Two segments' worth. *)
Definition letter : list Z := (fun i => Z.of_nat (i mod 256)) <$> seq 0 600.
Definition client_entry : entry := tcp_entry 1 tcp_client.
Definition server_entry : entry := tcp_entry 2 tcp_server.
Definition client_st : st net := focus client_entry (tcp_part_of client_entry) tcp_client.
Definition server_st : st net := focus server_entry (tcp_part_of server_entry) tcp_server.
Definition client_route : rtentry := default on_link (n_routes (w_net tcp_client) !! 1%nat).

Lemma tcp_server_ok : world_ok tcp_server.
Proof.
  assert (O : world_ok (upd_w_net at_five boot)) by (destruct boot_ok; by constructor).
  by apply frame_ok, frame_ok, calls_ok.
Qed.

Lemma client_flow : flow client_st me her (sk_sport (sk client_st)) 80 1001 1 client_route [2; 0; 0; 0; 0; 5].
Proof.
  constructor; try (vm_compute; reflexivity); try (vm_compute; split; [discriminate|reflexivity]).
  - apply bytes_okb_ok. vm_compute. reflexivity.
  - constructor; try (vm_compute; reflexivity). vm_compute. split; [discriminate|reflexivity].
Qed.

Lemma client_in_step : in_step client_st server_st 600.
Proof. constructor; try (vm_compute; reflexivity); try (vm_compute; repeat split; congruence). constructor; vm_compute; repeat split; congruence. Qed.

Lemma client_writes : writer 7 4097 me her (sk_sport (sk client_st)) 80 1 client_route [2; 0; 0; 0; 0; 5] client_st tcp_client.
Proof. constructor; try (vm_compute; reflexivity); [constructor; vm_compute; repeat split; congruence|apply client_flow]. Qed.

Lemma server_reads : reader 9 4098 me her (sk_sport (sk client_st)) 80 server_st tcp_server.
Proof.
  constructor; try (vm_compute; reflexivity); try (vm_compute; discriminate); [apply tcp_server_ok| |vm_compute; by split].
  apply (find_entry_some 2). vm_compute. reflexivity.
Qed.

Lemma tcp_end_to_end_witness :
  exists fs, (run_syscall 7 (Write 4097 letter) tcp_client).2 = Returned 600 [] [] /\ (2 <= length fs)%nat /\
    (run_syscall 9 (Read 4098 600) (foldl (fun w i => netdev_rx_loop (fs !!! i) w) tcp_server [1; 0; 1]%nat)).2 = Returned 600 letter [].
Proof.
  destruct (tcp_end_to_end 7 4097 9 4098 me her (sk_sport (sk client_st)) 80 1 client_route [2; 0; 0; 0; 0; 5] client_st server_st
    tcp_client tcp_server letter) as (fs & _ & Rc & Lf & Rd).
  - apply client_writes.
  - apply server_reads.
  - apply client_in_step.
  - apply bytes_okb_ok. vm_compute. reflexivity.
  - vm_compute. split; reflexivity.
  - vm_compute. discriminate.
  - vm_compute. split; [reflexivity|discriminate].
  - change (Z.of_nat (length letter)) with 600 in *. change (smss _) with 536 in Lf, Rd. exists fs. split; [exact Rc|].
    assert (L2 : (2 <= length fs)%nat) by lia. split; [exact L2|].
    destruct (Rd [1; 0; 1]%nat) as (k & _ & Hk & _ & R); [repeat (apply Forall_cons; split; [lia|]); apply Forall_nil; exact I|].
    assert (K2 : (2 <= k)%nat) by (destruct k as [|[|k]]; [exfalso; apply Hk; right; left|exfalso; apply Hk; left|lia]).
    exact (R 600 ltac:(lia) ltac:(lia)).
Defined.

(** ** Opening a connection *)

(** A stack on which a process can open a connection to [addr]: the packets for it are
    routed through a device with the stack's address, and no socket has the connection yet. *)
Record can_dial (addr : list Z) (i : nat) (rt : rtentry) (dmac : list Z) (w : world) : Prop := {
  cd_ok : world_ok w;
  cd_ids : w_next_id w < 2147479552;
  cd_family : sa_family addr = AF_INET;
  cd_new : tcp_lookup_established AF_INET (peer_addr addr) lvl_ip_addr None None (peer_port addr) (client_port (w_env w)) w = None;
  cd_route : route_to (w_net w) (peer_addr addr) i rt dmac;
  cd_dev : nd_addr (dev_of (rt_dev rt) (w_net w)) = lvl_ip_addr;
  cd_seq : 0 < next_iss (w_env w) /\ next_iss (w_env w) + 44478 < 4294967296
}.

(** A stack on which socket [r] listens at [addr], with nothing to accept, and no socket
    has the connection with [port] of the other stack yet. *)
Record can_accept (addr : list Z) (port : Z) (i : nat) (rt : rtentry) (dmac : list Z) (r : entry) (w : world) : Prop := {
  ca_ok : world_ok w;
  ca_ids : w_next_id w < 2147479551;
  ca_in : r ∈ w_socks w;
  ca_listen : listener (peer_addr addr) (peer_port addr) (c_sk r);
  ca_ops : c_ops r = inet_stream_ops;
  ca_unlocked : so_locked (c_so r) = false /\ 0 < so_refcnt (c_so r);
  ca_new : tcp_lookup_established AF_INET lvl_ip_addr (peer_addr addr) None None port (peer_port addr) w = None;
  ca_lookup : inet_lookup lvl_ip_addr (peer_addr addr) port (peer_port addr) w = Some (e_id r);
  ca_queue : exists max, e_passive (w_env w) !! e_id r = Some (mk_ch [] 0 max);
  ca_route : route_to (w_net w) lvl_ip_addr i rt dmac;
  ca_dev : nd_addr (dev_of (rt_dev rt) (w_net w)) = peer_addr addr;
  ca_seq : 0 < next_iss (w_env w) /\ next_iss (w_env w) + 2 < 4294967296
}.

(** What the two ends agree on. *)
Lemma ends_in_step addr port x y win win' from d dport oc os sc sr k :
  client_end addr port x y win oc sc -> server_end from d port dport x y win' os sr -> 0 < y -> y + 2 < 4294967296 -> is_u16 win' ->
  k <= 44477 -> x + 1 + k + 44477 < 4294967296 -> in_step sc sr k.
Proof.
  intros C S Hy1 Hy2 Hw Hk Hx. destruct (se_conn _ _ _ _ _ _ _ _ _ S) as (_ & Fa & _). destruct (se_rcv_wnd _ _ _ _ _ _ _ _ _ S) as [W1 W2].
  constructor; rewrite ?(se_una _ _ _ _ _ _ _ _ _ S), ?(se_rcv_nxt _ _ _ _ _ _ _ _ _ S), ?W1, ?W2, ?(ce_nxt _ _ _ _ _ _ _ C), ?(ce_rcv_nxt _ _ _ _ _ _ _ C);
    try done; try lia.
  - apply (se_state _ _ _ _ _ _ _ _ _ S).
  - by apply (server_inv _ _ _ _ _ _ _ _ _ S).
  - symmetry. apply u32_id. red. lia.
  - apply (se_rq _ _ _ _ _ _ _ _ _ S).
  - apply (se_ofo _ _ _ _ _ _ _ _ _ S).
Qed.

(** The client's end can write, the server's can read. *)
Lemma opened_writer pc addr w0 w x y win i rt dmac sc :
  let port := client_port (w_env w0) in
  let w2 := with_last (w_socks w0) (entry_of sc inet_stream_ops) (set_w_env (en sc) w) in
  world_ok w0 -> world_ok w2 -> w_next_id w <= 2147479552 -> client_end addr port x y win (new_socket pc SOCK_STREAM w0) sc ->
  0 < x -> x + 1 < 4294967296 -> is_u16 win -> route_to (e_lower (en sc)) (peer_addr addr) i rt dmac ->
  writer pc (w_fd w0) (nd_addr (dev_of (rt_dev rt) (e_lower (en sc)))) (peer_addr addr) port (peer_port addr) i rt dmac sc w2.
Proof.
  intros port w2 O O2 Hn Ce X1 X2 Uw Rt. pose proof (ce_so _ _ _ _ _ _ _ Ce) as So.
  assert (Id : so_id (so sc) = w_next_id w0 /\ so_pid (so sc) = pc /\ so_fd (so sc) = w_fd w0) by (by rewrite So). destruct Id as (I1 & I2 & I3).
  constructor; try done.
  - pose proof (get_socket_in w2 (entry_of sc inet_stream_ops) O2 Hn) as G. rewrite id_entry_of in G.
    change (c_so (entry_of sc inet_stream_ops)) with (so sc) in G. rewrite I2, I3 in G. apply G.
    apply elem_of_app. right. by apply list_elem_of_singleton.
  - unfold self. rewrite I1. apply (wl_find _ _ (old_ids w0 O)). by rewrite id_entry_of.
  - apply (ce_state _ _ _ _ _ _ _ Ce).
  - apply (ce_err _ _ _ _ _ _ _ Ce).
  - by apply (client_inv _ _ _ _ _ _ _ Ce).
  - apply (opened_flow _ _ _ _ _ _ _ _ _ _ Ce); [apply u16_range|done].
Qed.

Lemma opened_reader p from d port dport ws w x y win sr :
  let w2 := with_last (w_socks ws) (entry_of sr inet_stream_ops) (set_w_env (en sr) w) in
  world_ok ws -> world_ok w2 -> w_next_id w <= 2147479552 -> server_end from d port dport x y win (new_socket p SOCK_STREAM ws) sr ->
  tcp_lookup_established AF_INET from d None None port dport ws = None ->
  reader p (w_fd ws) from d port dport sr w2.
Proof.
  intros w2 O O2 Hn Se Hnew. pose proof (se_so _ _ _ _ _ _ _ _ _ Se) as So.
  assert (Id : so_id (so sr) = w_next_id ws /\ so_pid (so sr) = p /\ so_fd (so sr) = w_fd ws) by (by rewrite So). destruct Id as (I1 & I2 & I3).
  constructor; try done.
  - apply elem_of_app. right. by apply list_elem_of_singleton.
  - unfold self. rewrite I1. apply (wl_lookup _ (w_next_id ws)); [by rewrite id_entry_of|by apply lookup_none|apply (se_conn _ _ _ _ _ _ _ _ _ Se)].
Qed.

(** C2: a process connects to a process that listens on another stack.  [socket] and
    [connect] put one frame on the client's wire; that frame makes the server's stack
    answer with one frame, that answer makes the client's stack acknowledge with one
    frame, and the acknowledgement opens the server's end.  Then the client's descriptor
    is the [writer] and the server's the [reader] of a connection whose ends are in step
    with an empty write queue and full windows, the sleeping [connect] returns 0, and
    [accept] returns the reader's descriptor and the client's address.  The server's own
    numbering is one ahead of what the client expects. *)
Theorem three_way_handshake pc addr n m i rt dmac i' rt' dmac' r w0 ws :
  let port := client_port (w_env w0) in
  let sys p c w := (run_syscall p c w).2 in
  can_dial addr i rt dmac w0 -> can_accept addr port i' rt' dmac' r ws -> 2 <= n < 2147483648 -> 2 <= m < 4294967296 ->
  let w1 := (run_syscall pc (Socket AF_INET SOCK_STREAM) w0).1 in
  let c1 := (run_syscall pc (Connect (w_fd w0) addr n) w1).1 in
  exists f1 f2 f3 tid sc sr,
    let s1 := netdev_rx_loop f1 ws in
    let c2 := netdev_rx_loop f2 c1 in
    let s2 := netdev_rx_loop f3 s1 in
    sys pc (Socket AF_INET SOCK_STREAM) w0 = Returned (w_fd w0) [] [] /\ sys pc (Connect (w_fd w0) addr n) w1 = Sleeping tid /\
    n_wire (w_net c1) = n_wire (w_net w0) ++ [f1] /\ n_wire (w_net s1) = n_wire (w_net ws) ++ [f2] /\
    n_wire (w_net c2) = n_wire (w_net c1) ++ [f3] /\ n_wire (w_net s2) = n_wire (w_net s1) /\
    writer pc (w_fd w0) lvl_ip_addr (peer_addr addr) port (peer_port addr) i rt dmac sc c2 /\
    reader (so_pid (c_so r)) (w_fd ws) lvl_ip_addr (peer_addr addr) port (peer_port addr) sr s2 /\
    (cc sc = tcp_alloc_cong /\ snd_wnd (tb sc) = 44477 /\ wq sc = []) /\
    (forall k, k <= 44477 -> snd_nxt (tb sc) + k + 44477 < 4294967296 -> in_step sc sr k) /\
    snd_nxt (tb sr) = rcv_nxt (tb sc) + 1 /\
    (run_thread (mk_thread tid pc (w_next_id w0) WaitConnect) c2).2 = Returned 0 [] [] /\
    sys (so_pid (c_so r)) (Accept (so_fd (c_so r)) m) s2 = Returned (w_fd ws) [] (build_sockaddr_from_host_order port lvl_ip_addr).1.
Proof.
  intros port sys [O Hn Hf Hnew Rt Hd [X1 X2]] [O' Hn' Hr Li Ho [Hl Hc] Hnew' Lk [mx Hq] Rt' Hd' [Y1 Y2]] Ln Lm w1 c1. unfold sys. clear sys.
  pose proof (bswap32_range (s_addr addr) : is_u32 (peer_addr addr)) as Ud. pose proof (bswap16_range (sin_port addr) : is_u16 (peer_port addr)) as Up.
  assert (Uw : is_u16 44477) by (red; lia). assert (Ul : is_u32 lvl_ip_addr) by (by vm_compute). set (x := next_iss (w_env w0)) in *. set (y := next_iss (w_env ws)) in *.
  destruct (client_dials pc addr n w0 i rt dmac O Hn Ln Hf Rt) as (E0 & s & f1 & tid & w & Ec & Ew & Ew1 & Nw & Di & F1). fold w1 in Ec, Ew1, Di. fold x in Di, F1.
  rewrite Hd in F1. fold port in F1.
  destruct (server_answers ws r lvl_ip_addr (peer_addr addr) port (peer_port addr) x 44477 f1 i' rt' dmac' O' ltac:(lia) Hr Li Hl Hc Lk Ud
    Ul (u16_range _) Up Uw F1 Rt' Hd') as (ss & b & f2 & S1 & S2 & S3 & Cw & S4 & S5 & F2). fold y in Cw, F2.
  rewrite u32_id in F2 by (red; lia). rewrite <- Ew1 in Hnew. assert (En : w_net w1 = w_net w0) by (unfold w_net; by rewrite Ew1). rewrite <- En in Rt, Hd.
  destruct (client_hears pc addr (w_socks w0) w0 w1 w s f1 f2 i rt dmac y 44477 x lvl_ip_addr (old_ids w0 O) (lookup_none _ _ _ _ _ Hnew)
    Di Ew Rt Hd X1 ltac:(lia) Uw ltac:(rewrite Ew1; exact F2)) as (sc & f3 & E2 & Ce & P2 & K2 & W2 & F3).
  rewrite Ew1 in Ce, F3. fold port in Ce, F3. rewrite u32_id in F3 by (red; lia).
  apply free_env in S2 as [Sp Sn]. rewrite <- Sp in S4. rewrite <- Sn in S5.
  pose proof (proj1 (frame_ok f3 _ (proj1 (frame_ok f1 ws O')))) as O2.
  assert (Es : netdev_rx_loop f1 ws = with_last (w_socks ws) (entry_of ss inet_stream_ops) (netdev_rx_loop f1 ws)) by (by apply with_last_eq).
  destruct (child_hears (w_socks ws) ss (netdev_rx_loop f1 ws) (e_id r) lvl_ip_addr (peer_addr addr) port (peer_port addr) x y 44477 44477
    (so_pid (c_so r)) ws (mk_ch [] 0 mx) f3 (old_ids ws O') (lookup_none _ _ _ _ _ Hnew') Cw ltac:(by rewrite S4) ltac:(lia) ltac:(lia) Y1 Y2 F3)
    as (sr & E3 & Se & L3 & P3). rewrite <- Es in E3.
  assert (Ec1 : c1 = with_last (w_socks w0) (dialling_entry s (new_socket pc SOCK_STREAM w0)) w) by (unfold c1; by rewrite Ec).
  assert (Wc : n_wire (w_net c1) = n_wire (w_net w0) ++ [f1] /\ w_net c1 = w_net w).
  { rewrite Ec1, <- En. split; [|done]. change (n_wire (e_lower (w_env w)) = n_wire (w_net w1) ++ [f1]). rewrite Ew. exact (di_wire _ _ _ _ Di). }
  destruct Wc as [Wc Wn]. rewrite Ec. rewrite <- Ec1 in E2.
  assert (O1 : world_ok (netdev_rx_loop f2 c1)) by (apply frame_ok; eapply wstep_ok; [apply StepCall|]; eapply wstep_ok, O; apply StepCall). clearbody c1.
  exists f1, f2, f3, tid, sc, sr. cbv zeta. split; [exact E0|]. split; [done|]. split; [exact Wc|]. split; [exact S5|].
  split; [rewrite E2; by rewrite Wn|]. split; [rewrite E3; change (n_wire (e_lower (en sr)) = n_wire (w_net (netdev_rx_loop f1 ws))); by rewrite L3|].
  rewrite E2, E3. rewrite E2 in O1. rewrite E3 in O2. assert (Kw : net_kept (w_net w1) (e_lower (en sc))) by (transitivity (w_net w); [unfold w_net at 2; rewrite Ew; exact (di_kept _ _ _ _ Di)|exact K2]).
  split; [rewrite <- Hd, <- (dev_kept _ _ _ Kw); apply (opened_writer pc addr w0 _ x y 44477); try done; [change (w_next_id w <= 2147479552); lia|lia|by apply (route_kept (w_net w1))]|].
  split; [apply (opened_reader _ _ _ _ _ _ _ x y 44477); try done; change (w_next_id (netdev_rx_loop f1 ws) <= 2147479552); lia|].
  split; [split; [apply (ce_cc _ _ _ _ _ _ _ Ce)|]; split; [apply (ce_wnd _ _ _ _ _ _ _ Ce)|apply (ce_wq _ _ _ _ _ _ _ Ce)]|].
  split; [intros k K1 K3; rewrite (ce_nxt _ _ _ _ _ _ _ Ce) in K3; by apply (ends_in_step _ _ _ _ _ _ _ _ _ _ _ _ _ k Ce Se)|].
  split; [rewrite (se_nxt _ _ _ _ _ _ _ _ _ Se), (ce_rcv_nxt _ _ _ _ _ _ _ Ce), u32_id by (red; lia); lia|].
  split; [apply connect_returns; [exact (old_ids w0 O)|..]; rewrite ?(ce_so _ _ _ _ _ _ _ Ce); try done; apply (ce_err _ _ _ _ _ _ _ Ce)|].
  apply (accept_opened m ws _ r lvl_ip_addr (peer_addr addr) port (peer_port addr) x y 44477 sr mx); try done.
  - change (w_next_id (netdev_rx_loop f1 ws) <= 2147479552). lia.
  - rewrite P3. apply lookup_insert_eq.
Qed.

Definition dial_route : rtentry := default on_link (n_routes (w_net boot) !! 1%nat).
Definition answer_route : rtentry := default on_link (n_routes (w_net listening5) !! 1%nat).
Definition listening_entry : entry := tcp_entry 1 listening5.

Lemma boot_dials : can_dial peer 1 dial_route [2; 0; 0; 0; 0; 5] boot.
Proof.
  constructor; try (vm_compute; reflexivity); [apply boot_ok| |vm_compute; by split].
  constructor; try (vm_compute; reflexivity). vm_compute. split; [discriminate|reflexivity].
Qed.

Lemma listening_accepts : can_accept peer (client_port (w_env boot)) 1 answer_route [2; 0; 0; 0; 0; 4] listening_entry listening5.
Proof.
  constructor; try (vm_compute; reflexivity); try (vm_compute; by split_and!).
  - apply calls_ok. destruct boot_ok. by constructor.
  - apply (find_entry_some 1). vm_compute. reflexivity.
  - exists 5. vm_compute. reflexivity.
  - constructor; try (vm_compute; reflexivity). vm_compute. split; [discriminate|reflexivity].
Qed.

Lemma three_way_handshake_witness :
  exists f1 f2 tid, (run_thread (mk_thread tid 7 1 WaitConnect) (netdev_rx_loop f2 dialling)).2 = Returned 0 [] [] /\
    n_wire (w_net (netdev_rx_loop f1 listening5)) = n_wire (w_net listening5) ++ [f2].
Proof.
  destruct (three_way_handshake 7 peer 16 16 1 dial_route [2; 0; 0; 0; 0; 5] 1 answer_route [2; 0; 0; 0; 0; 4] listening_entry boot listening5)
    as (f1 & f2 & f3 & tid & sc & sr & _ & _ & _ & W & _ & _ & _ & _ & _ & _ & _ & C & _).
  - apply boot_dials.
  - apply listening_accepts.
  - lia.
  - lia.
  - exists f1, f2, tid. split; [exact C|exact W].
Defined.

(** What the numbering of a passive open leads to: the server's process writes two bytes,
    the call succeeds, and the client's [read] sleeps on although their frame arrived. *)
Example reply_not_read :
  let '(w, rc) := run_syscall 9 (Write 4098 [104; 105]) tcp_server in
  rc = Returned 2 [] [] /\ (run_syscall 7 (Read 4097 2) (netdev_rx_loop (last_frame w) tcp_client)).2 = Sleeping 2.
Proof. vm_compute. split; reflexivity. Qed.

(** ** A peer that does not answer *)





End EndProps.
