(* ===== verification/IpcProps.v ===== *)
(** Theorems about the calls of user processes: from the library, through the server,
    to the stack and back. *)
From stdpp Require Import gmap.
From S2P Require Import Prelude Utils SkBuff Udp TcpTypes TcpApi World SocketApi IpIn Stack WorldFacts WorldCalls Ipc Client Preload IpcWire IpcFacts Fixture Scenario WorldProps.
Import Utils SkBuff Udp TcpTypes TcpApi World SocketApi IpIn Stack WorldFacts WorldCalls Ipc IpcWire IpcFacts Fixture Scenario WorldProps.

Module IpcProps.

(** ** The library and the server agree *)



(** A process with one socket. *)
Definition one_sock : Client.client := Client.mk_client [Client.mk_lv 9 4097 true] 1 0 0.


(** ** Through the library *)




Definition idle : ipc_conn := mk_conn 3 (replicate (Z.to_nat 8192) 0) None.
Definition msg_of {A} (a : Client.action A) : list Z := match a with Client.Rpc _ m _ _ => m | _ => [] end.


(** ** Any request *)

(** C33: whatever bytes a process sends as a request, the call is made for the process
    the request names, and a response, if there is one, carries the type and the process
    of the request and at least the two words of a return value; the message buffer
    keeps its size. *)
Theorem responses_match_requests g m more :
  match demux_ipc_socket_call g m more with
  | Ipc.Call pid _ k => pid = msg_pid m /\ forall rc out addr, result_ok m (k rc out addr)
  | Finish r => result_ok m r
  end.
Proof. exact (demux_ok g m more). Qed.

(** ** The server *)

(** C10: from the start of the server on a booted stack, after any connections, requests,
    frames, ticks and wake-ups, the table of sockets is consistent, the count of
    connections is the length of their list, no two connections share a socket, each that
    waits for a call waits for a thread of its own that is still to be woken; and when
    that thread's call returns, its response goes to that connection, once, with the type
    and the process of the request. *)
Theorem server_invariant w s :
  booted w -> rtc ipc_step (start_ipc_listener w) s ->
  server_ok s /\
  forall c t k l1 l2 rc out addr m response r,
    c ∈ sv_conns s -> ic_wait c = Some (t_id t, k) -> w_threads (sv_world s) = l1 ++ t :: l2 ->
    (run_thread t (set_w_threads (l1 ++ l2) (sv_world s))).2 = Returned rc out addr -> k rc out addr = Sent m response r ->
    sv_sent (ipc_wake t (set_w_threads (l1 ++ l2) (sv_world s)) s) = sv_sent s ++ [(ic_sock c, response)] /\
    headed (msg_type (ic_buf c)) (msg_pid (ic_buf c)) response.
Proof.
  intros B S. assert (K : server_ok s).
  { assert (K0 : server_ok (start_ipc_listener w)).
    { pose proof B as (_ & _ & _ & E4). constructor; cbn;
        [by apply booted_ok| |done|apply NoDup_nil_2|by intros c Hc%not_elem_of_nil|by intros c Hc%not_elem_of_nil|by intros c c' t Hc%not_elem_of_nil].
      constructor; unfold ids; rewrite E4; [apply NoDup_nil_2|by intros t Ht%not_elem_of_nil]. }
    clear B. revert K0. induction S as [|s1 s2 s3 S1 _ IH]; intros K; [done|]. by eapply IH, ipc_step_ok. }
  split; [done|]. intros c t k l1 l2 rc out addr m response r Hc Ew Et Hr Hk.
  destruct (sk_conns _ K c Hc) as [_ C]. rewrite Ew in C. destruct C as [_ R]. specialize (R rc out addr). rewrite Hk in R.
  split; [|apply R]. unfold ipc_wake. cbv zeta.
  assert (F : find (waits_for (t_id t)) (sv_conns s) = Some c).
  { assert (Wc : waits_for (t_id t) c = true) by (unfold waits_for; rewrite Ew; apply Z.eqb_refl).
    destruct (find _ _) as [c'|] eqn:E.
    - apply find_some in E as [Hc' Hw]. apply list_elem_of_In in Hc'. f_equal. apply (sk_waits _ K c' c (t_id t)); [done|done| |].
      + unfold waits_for in Hw. unfold waits. destruct (ic_wait c') as [[t' k']|]; [|done]. apply Z.eqb_eq in Hw as ->. done.
      + unfold waits. by rewrite Ew.
    - apply list_elem_of_In in Hc. by rewrite (find_none _ _ E c Hc) in Wc. }
  rewrite F, Ew. unfold call_done. destruct (run_thread t _) as [w' o]. cbn [fst snd] in *. subst o. rewrite Hk. cbn [finish].
  unfold end_turn. by destruct (r =? -1).
Qed.

(** A process that connects, makes a socket and polls it for 5 ms. *)
Definition no_sock : Client.client := Client.mk_client [] 0 0 0.
Definition connected_to : Ipc.server :=
  put_conn (mk_conn 3 (replicate (Z.to_nat 8192) 0) None) (ipc_alloc_thread 3 (start_ipc_listener boot)).
Definition conn_of (s : Ipc.server) : ipc_conn := default idle (head (sv_conns s)).
Definition asks (msg : list Z) (s : Ipc.server) : Ipc.server := ipc_request (conn_of s) msg (Some []) [] s.
Definition with_socket : Ipc.server := asks (msg_of (Client.socket [] 7 9 2 1 0 no_sock)) connected_to.
Definition poll_msg : list Z := msg_of (Client.poll_turn [] 7 9 [0%nat] 5 false 0 [mk_pollfd 4097 1 0] one_sock).
Definition polling : Ipc.server := asks poll_msg with_socket.
Definition poller : thread := default (mk_thread 0 0 0 WaitConnect) (head (w_threads (sv_world polling))).
Definition reply_of (c : ipc_conn) (rc : Z) (out addr : list Z) : option ipc_result :=
  match ic_wait c with Some (_, k) => Some (k rc out addr) | None => None end.

Lemma conn_of_in s : (0 <? length (sv_conns s))%nat = true -> conn_of s ∈ sv_conns s.
Proof. unfold conn_of. destruct (sv_conns s); [done|]. intros _. by left. Defined.
Lemma asks_step msg s :
  (0 <? length (sv_conns s))%nat = true -> waits (conn_of s) = None -> (0 <? length msg)%nat && (Z.of_nat (length msg) <=? 8192) = true ->
  ipc_step s (asks msg s).
Proof.
  intros H1 H2 H3. apply IpcRequest; [by apply conn_of_in| |].
  - unfold waits in H2. by destruct (ic_wait (conn_of s)).
  - apply andb_prop in H3 as [H3 H4]. apply Nat.ltb_lt in H3. apply Z.leb_le in H4. unfold IPC_BUFLEN. lia.
Defined.

Lemma reply_known c t rc out addr x :
  waits c = Some t -> reply_of c rc out addr = Some x -> exists k, ic_wait c = Some (t, k) /\ k rc out addr = x.
Proof. unfold waits, reply_of. destruct (ic_wait c) as [[t' k]|]; [|done]. intros [= ->] [= <-]. by exists k. Defined.

Lemma server_invariant_witness :
  booted boot /\ server_ok polling /\
  exists response, sv_sent (ipc_wake poller (set_w_threads [] (sv_world polling)) polling) = sv_sent polling ++ [(3, response)].
Proof.
  assert (B : booted boot) by (vm_compute; repeat split).
  assert (S : rtc ipc_step (start_ipc_listener boot) polling).
  { apply (rtc_l _ _ connected_to).
    { apply (IpcAccept 3 (replicate (Z.to_nat 8192) 0)); [apply not_elem_of_nil|apply length_replicate]. }
    apply (rtc_l _ _ with_socket); [unfold with_socket; apply asks_step; vm_compute; reflexivity|].
    apply rtc_once. unfold polling. apply asks_step; vm_compute; reflexivity. }
  destruct (server_invariant boot polling B S) as [K W]. split; [exact B|]. split; [exact K|].
  assert (Ht : w_threads (sv_world polling) = [] ++ [poller]) by (vm_compute; reflexivity).
  assert (Hw : waits (conn_of polling) = Some (t_id poller)) by (vm_compute; reflexivity).
  assert (Hr : (run_thread poller (set_w_threads [] (sv_world polling))).2 = Returned 0 [0] []) by (vm_compute; reflexivity).
  assert (Hk : exists m response r, reply_of (conn_of polling) 0 [0] [] = Some (Sent m response r)) by (vm_compute; do 3 eexists; reflexivity).
  assert (Hs : ic_sock (conn_of polling) = 3) by (vm_compute; reflexivity).
  destruct Hk as (m & response & r & Hk). destruct (reply_known _ _ _ _ _ _ Hw Hk) as (k & E & Ek). exists response. rewrite <- Hs.
  exact (proj1 (W (conn_of polling) poller k [] [] 0 [0] [] m response r (conn_of_in polling ltac:(vm_compute; reflexivity)) E Ht Hr Ek)).
Defined.

(** ** The library and its process *)

(** C31: in every process that closes each of its level-ip descriptors at most once and
    leaves the library's own descriptors alone, whatever functions of the library it
    calls and whatever else it opens and closes, two sockets in use have two connections
    to the server: both are open files of the process and they differ.  Each function
    called on one socket that sends anything writes one request to the connection of
    that socket and reads one response from it, and uses no other connection: [close]
    then closes it, [accept] may then make a new one. *)
Theorem private_connections s0 s a b n m :
  Preload.started s0 -> rtc Preload.pstep s0 s -> a <> b ->
  a ∉ Preload.gone s -> b ∉ Preload.gone s ->
  Client.lvlip_get_sock a (Preload.lib s) = Client.Found n ->
  Client.lvlip_get_sock b (Preload.lib s) = Client.Found m ->
  Client.lv_lvlfd n ∈ Preload.files s /\ Client.lv_lvlfd m ∈ Preload.files s /\
  Client.lv_lvlfd n <> Client.lv_lvlfd m /\
  forall A (f : Client.fcall A) o v g pid,
    let log := (Preload.call_fd o v f g pid a (Preload.lib s)).1 in
    if Preload.speaks f then
      exists msg rlen tail,
        log = Preload.SysWrite (Client.lv_lvlfd n) msg :: Preload.SysRead (Client.lv_lvlfd n) rlen :: tail /\
        Preload.afterwards f o (Client.lv_lvlfd n) tail
    else log = [].
Proof.
  intros H0 Hr Hab Ha Hb Hn Hm. pose proof (Preload.process_connected _ _ Hr H0) as Hc.
  destruct (Preload.found_in_use _ _ _ Hn Ha) as [Un <-]. destruct (Preload.found_in_use _ _ _ Hm Hb) as [Um <-].
  split_and!; [by apply (Preload.conn_open s)..| |].
  - destruct (proj1 (list_elem_of_lookup _ _) (proj1 Un)) as [i Hi].
    destruct (proj1 (list_elem_of_lookup _ _) (proj1 Um)) as [j Hj].
    apply (Preload.conn_apart s Hc i j n m); [done..| |done|done]. intros ->. by simplify_eq.
  - intros A f o v g pid. by apply Preload.call_fd_log.
Qed.

(** Two sockets and a third one that was closed, whose connection's number now
    belongs to a file of the application. *)
Definition answer_rc (type pid rc : Z) : list Z := st32 (put_msg type pid (replicate 14 0)) 6 rc.
Definition sys_of (fd rc : Z) : Preload.os := Preload.mk_os fd 0 0 (Some (answer_rc IPC_SOCKET 77 rc)) (fun _ => 1) 0 0.
Definition dials (s : Preload.process) (fd rc : Z) : Preload.process :=
  match Preload.call_socket (sys_of fd rc) [] 77 2 1 0 (Preload.lib s) with
  | (log, Some (inr (c, _))) => Preload.mk_process (Preload.files s ∪ Preload.makes log) (Preload.gone s) c
  | _ => s
  end.
Definition fresh_process : Preload.process := Preload.mk_process {[0; 1; 2]} ∅ (Client.mk_client [] 0 0 0).
Definition three : Preload.process := dials (dials (dials fresh_process 3 4097) 4 4098) 5 4099.
Definition closes (s : Preload.process) (fd : Z) : Preload.process :=
  match Preload.call_fd (sys_of 9 0) id Client.FClose [] 77 fd (Preload.lib s) with
  | (log, Some (inr (c, _))) =>
      Preload.mk_process ((Preload.files s ∪ Preload.makes log) ∖ Preload.ends log) ({[fd]} ∪ Preload.gone s) c
  | _ => s
  end.
Definition reused : Preload.process :=
  let s := closes three 4097 in Preload.mk_process ({[3]} ∪ Preload.files s) (Preload.gone s) (Preload.lib s).

Lemma dials_step s fd rc c log :
  bool_decide (fd ∉ Preload.files s) && bool_decide (Forall (fun n => Client.lv_fd n <> rc) (Client.lvlip_socks (Preload.lib s))) = true ->
  Preload.call_socket (sys_of fd rc) [] 77 2 1 0 (Preload.lib s) = (log, Some (inr (c, rc))) ->
  Client.lvlip_socks c = Client.lvlip_socks (Preload.lib s) ++ [Client.mk_lv fd rc true] ->
  Preload.pstep s (dials s fd rc).
Proof.
  intros H E El. apply andb_prop in H as [Hf%bool_decide_eq_true Hn%bool_decide_eq_true].
  unfold dials. rewrite E. apply (Preload.P_socket (sys_of fd rc) [] 77 2 1 0 s log c rc); [reflexivity|exact Hf| |exact E].
  intros n x Hi Ex _. rewrite El in Ex. apply app_inj_tail in Ex as [_ <-]. rewrite Forall_forall in Hn. by apply Hn.
Defined.

Lemma private_connections_witness : exists n m,
  Client.lvlip_get_sock 4098 (Preload.lib reused) = Client.Found n /\
  Client.lvlip_get_sock 4099 (Preload.lib reused) = Client.Found m /\
  Client.lv_lvlfd n <> Client.lv_lvlfd m.
Proof.
  assert (R : rtc Preload.pstep fresh_process reused).
  { apply (rtc_l _ _ (dials fresh_process 3 4097)). { eapply dials_step; vm_compute; reflexivity. }
    apply (rtc_l _ _ (dials (dials fresh_process 3 4097) 4 4098)). { eapply dials_step; vm_compute; reflexivity. }
    apply (rtc_l _ _ three). { eapply dials_step; vm_compute; reflexivity. }
    apply (rtc_l _ _ (closes three 4097)).
    { eapply (Preload.P_call Z Client.FClose (sys_of 9 0) id [] 77 4097 (Client.mk_lv 3 4097 true) three).
      - vm_compute. reflexivity.
      - intros _. apply (bool_decide_eq_true_1 _). vm_compute. reflexivity.
      - apply (bool_decide_eq_true_1 _). vm_compute. reflexivity.
      - intros x y _ Ey. vm_compute in Ey. discriminate Ey.
      - vm_compute. reflexivity. }
    apply rtc_once. apply (Preload.P_open 3). apply (bool_decide_eq_true_1 _). vm_compute. reflexivity. }
  exists (Client.mk_lv 4 4098 true), (Client.mk_lv 5 4099 true).
  assert (F1 : Client.lvlip_get_sock 4098 (Preload.lib reused) = Client.Found (Client.mk_lv 4 4098 true)) by (vm_compute; reflexivity).
  assert (F2 : Client.lvlip_get_sock 4099 (Preload.lib reused) = Client.Found (Client.mk_lv 5 4099 true)) by (vm_compute; reflexivity).
  split; [exact F1|]. split; [exact F2|].
  apply (private_connections fresh_process reused 4098 4099); [reflexivity|exact R|lia| | |exact F1|exact F2];
    apply (bool_decide_eq_true_1 _); vm_compute; reflexivity.
Defined.

End IpcProps.
