(* ===== verification/AppProps.v ===== *)
(** The processes around the stack: the program that verifies transfers (its digest is
    SHA-256, and what it accepts), the echo servers, and the start of the stack itself. *)
From S2P Require Import Prelude Utils TcpApi Fixture Sha256 CurlVerify Host Apps.
Import Fixture Sha256 CurlVerify.

Module AppProps.

(** C15: the digest of a message fed to [sha256_update] in pieces of any sizes, the
    pieces' boundaries wherever they fall, is the SHA-256 of the message: the code with
    its partial block, its counters and its padding computes the function the standard
    defines on the whole message. *)
Theorem sha256_streaming pieces ctx :
  length (block ctx) = 64%nat -> bytes_ok (block ctx) -> Forall bytes_ok pieces -> Z.of_nat (length (concat pieces)) < 2 ^ 61 ->
  sha256_final (foldl (fun c p => sha256_update p c) (sha256_init ctx) pieces) = SHA256 (concat pieces).
Proof.
  intros Hl Hb Hp Hn. apply final_SHA256; [|done]. apply (updates_absorb pieces []); [done|by apply init_absorbed].
Qed.

Definition pieces3 : list (list Z) := [replicate 60 97; []; replicate 70 98; [99]].
Lemma sha256_streaming_witness :
  sha256_final (foldl (fun c p => sha256_update p c) (sha256_init zero_ctx) pieces3) = SHA256 (concat pieces3).
Proof.
  apply (sha256_streaming pieces3 zero_ctx); [reflexivity| | |reflexivity].
  - by apply bytes_okb_ok.
  - unfold pieces3. repeat (apply Forall_cons; split; [by apply bytes_okb_ok|]); by apply Forall_nil.
Defined.

(** C25: a download stores exactly the body of the response and reports success exactly
    when the response has no length or the right one and the digest is the expected one,
    if any is expected; however the response is cut into reads: in the middle of a line,
    of the end of the header, or with the first bytes of the body in the same read.  The
    header has at most 1024 bytes and the disk room for the body. *)
Theorem download_verifies c host port expected lines body :
  reachable c host port -> fopen_ok c = true -> lines <> [] -> Forall line_ok lines -> (length (header lines) <= 1024)%nat ->
  bytes_ok body -> Z.of_nat (length body) <= disk_room c -> Z.of_nat (length body) < 2 ^ 61 ->
  Forall (fun buf => 0 < Z.of_nat (length buf) <= RLEN) (reads c) -> concat (reads c) = header lines ++ body -> read_end c <> -1 ->
  run_download c host port expected = (if accepted lines body expected then 0 else 1, Some body).
Proof. apply download_result. Qed.

(** "HTTP/1.1 200 OK" and "content-length: 5". *)
Definition reply_lines : list (list Z) :=
  [[72; 84; 84; 80; 47; 49; 46; 49; 32; 50; 48; 48; 32; 79; 75];
   [99; 111; 110; 116; 101; 110; 116; 45; 108; 101; 110; 103; 116; 104; 58; 32; 53]].
Definition cut_reads (n : nat) (l : list Z) : list (list Z) := [take n l; drop n l].
Definition web (rd : list (list Z)) : calls := mk_calls Found 0 (fun _ n => Z.min n 7) true 1000 rd 0.
Definition web_host : list Z := [49; 46; 49].
Definition web_port : list Z := [56; 48].

Lemma web_reachable rd : reachable (web rd) web_host web_port.
Proof. constructor; try reflexivity; [discriminate|]. intros i n Hn. cbn [write_rc web]. lia. Qed.
Lemma reply_lines_ok : Forall line_ok reply_lines.
Proof.
  repeat (apply Forall_cons; split); [| |by apply Forall_nil].
  all: constructor; [discriminate|repeat (apply Forall_cons; split); [lia..|by apply Forall_nil]|].
  - vm_compute. discriminate.
  - intros _. exists 53. split; [apply list_elem_of_In; vm_compute; auto|reflexivity].
Qed.

(** The first read ends inside the end of the header. *)
Lemma download_verifies_witness :
  run_download (web (cut_reads 35 (header reply_lines ++ [104; 101; 108; 108; 111]))) web_host web_port (Some (hex_digest [104; 101; 108; 108; 111]))
  = (0, Some [104; 101; 108; 108; 111]).
Proof.
  transitivity (if accepted reply_lines [104; 101; 108; 108; 111] (Some (hex_digest [104; 101; 108; 108; 111])) then 0 else 1, Some [104; 101; 108; 108; 111]).
  2: { vm_compute. reflexivity. }
  apply (download_verifies (web (cut_reads 35 (header reply_lines ++ [104; 101; 108; 108; 111]))) web_host web_port _ reply_lines [104; 101; 108; 108; 111]).
  - apply web_reachable.
  - reflexivity.
  - discriminate.
  - apply reply_lines_ok.
  - vm_compute. lia.
  - by apply bytes_okb_ok.
  - vm_compute. discriminate.
  - reflexivity.
  - repeat (apply Forall_cons; split); [vm_compute; split; congruence..|by apply Forall_nil].
  - vm_compute. reflexivity.
  - vm_compute. discriminate.
Defined.

(** an upload reports success exactly when the server's reply confirms the digest
    of the whole file, of which every byte was sent; with no reply it fails. *)
Lemma upload_confirmed c host port body :
  reachable c host port -> bytes_ok body -> Z.of_nat (length body) < 2 ^ 61 ->
  run_upload c host port (Some body) = match reads c with [] => 1 | reply :: _ => if confirms body reply then 0 else 1 end.
Proof. apply upload_result. Qed.

Lemma upload_confirmed_witness :
  run_upload (web [OK_ ++ hex_digest [1; 2; 3] ++ [10]]) web_host web_port (Some [1; 2; 3]) = 0.
Proof.
  rewrite (upload_confirmed (web [OK_ ++ hex_digest [1; 2; 3] ++ [10]]) web_host web_port [1; 2; 3]).
  - vm_compute. reflexivity.
  - apply web_reachable.
  - by apply bytes_okb_ok.
  - reflexivity.
Defined.

(** C34: the echo servers send back what they receive: whatever part of the data each
    [write] takes, what a server has sent is a prefix of what it has received; when it ends
    with success it is all of it; whenever it ends it has closed both its descriptors; and
    while every [write] takes something it does end with success. *)
Theorem echo_servers e argv l r :
  Apps.ready e -> Apps.writes_sane (Apps.t_write e) -> Apps.tcp_server_main e argv = (l, r) \/ Apps.tcp_v6_server_main e argv = (l, r) ->
  (l, r) <> ([], Apps.Exits 1) ->
  Apps.sent_on (Apps.t_accept e) l `prefix_of` concat (Apps.t_reads e) /\
  (r = Apps.Exits 0 -> Apps.sent_on (Apps.t_accept e) l = concat (Apps.t_reads e)) /\
  (forall rc, r = Apps.Exits rc -> exists k, l = k ++ [Apps.Closed (Apps.t_accept e); Apps.Closed (Apps.t_socket e)] /\ forall a, a ∈ k -> exists d, a = Apps.Sent (Apps.t_accept e) d) /\
  (writes_ok (Apps.t_write e) -> Forall (fun b => (length b <= Apps.t_fuel e)%nat) (Apps.t_reads e) -> r = Apps.Exits 0).
Proof.
  intros R Hw M N. destruct (Apps.server_mains e argv l r R M) as [E|E]; [done|]. destruct (Apps.serve_one_echoes e l r Hw) as (E1 & E2 & E3); [apply R|done|].
  split_and!; try done. intros Ho Hf. destruct (Apps.serve_one_ends e Ho) as [l' E']; [apply R|done|]. congruence.
Qed.

Definition echo_env : Apps.tcp_env := Apps.mk_tcp_env Found 3 0 0 4 [[104; 101]; [108; 108; 111]] (fun _ n => Z.min n 2) 10.
Lemma echo_servers_witness :
  (Apps.tcp_server_main echo_env [web_host; web_port]).2 = Apps.Exits 0 /\
  Apps.sent_on 4 (Apps.tcp_server_main echo_env [web_host; web_port]).1 = [104; 101; 108; 108; 111].
Proof.
  assert (E : (Apps.tcp_server_main echo_env [web_host; web_port]).2 = Apps.Exits 0) by (vm_compute; reflexivity).
  split; [exact E|]. destruct (Apps.tcp_server_main echo_env [web_host; web_port]) as [l r] eqn:M. cbn [fst snd] in *.
  destruct (echo_servers echo_env [web_host; web_port] l r) as (_ & H & _).
  - repeat split; vm_compute; congruence.
  - intros i n Hn. cbn [Apps.t_write echo_env]. lia.
  - left. exact M.
  - subst r. intros [=].
  - transitivity (concat (Apps.t_reads echo_env)); [exact (H E)|vm_compute; reflexivity].
Defined.

(** C30: the stack starts in one order: whatever the command line and the answers of the
    operating system, what [main] does is a beginning of one script, in which signals are
    blocked first, the device is configured before the capabilities are dropped, both
    capabilities are dropped before any thread is created, and the stack is freed only
    after the three threads were joined; it ends with status 0 only at the end of that
    script, and every earlier end has a status other than 0. *)
Theorem startup_order o argv :
  (Host.main o argv).1 `prefix_of` Host.script o /\
  ((Host.main o argv).2 = inr 0 -> (Host.main o argv).1 = Host.script o) /\
  (forall rc, (Host.main o argv).2 = inl rc -> rc <> 0) /\
  (forall l1 t l2, (Host.main o argv).1 = l1 ++ Host.CreateThread t :: l2 -> Host.DropCap Host.CAP_NET_ADMIN ∈ l1 /\ Host.DropCap Host.CAP_SETPCAP ∈ l1) /\
  (forall l1 c l2, (Host.main o argv).1 = l1 ++ Host.Exec c :: l2 -> Host.BlockSignals ∈ l1 /\ forall p, Host.DropCap p ∉ l1).
Proof. apply Host.main_in_order. Qed.

(** A response cut off inside its header is accepted when no digest is expected. *)
Example cut_header_accepted : run_download (web [take 20 (header reply_lines)]) web_host web_port None = (0, Some []).
Proof. vm_compute. reflexivity. Qed.

(** "Content-Length:" with no value: the number is the first line of the body. *)
Example length_from_the_body :
  http_parse_header (header [take 15 (reply_lines !!! 1%nat)] ++ [55; 55; 10]) = Some (19, 77).
Proof. vm_compute. reflexivity. Qed.

End AppProps.
